(* ===== verification/_CoqProject ===== *)
-Q . S2P
Prelude.v
Wait.v
Tasklet.v
Cmgroup.v
Sched.v
CmWake.v
CmInv.v
CmTask.v
CmOps.v
CmSys.v
CmLife.v
CmAttach.v
CmTop.v
CmProps.v
CmRace.v
EpTree.v
EpState.v
EpNest.v
EpReady.v
EpCtl.v
EpPoll.v
AioRing.v
AioCtx.v
AioQueue.v
AioFifo.v
EpWake.v
EpLoop.v
EpPath.v
EpLevel.v
EpScan.v
EpSend.v
EpProps.v
EpExact.v
EpWait.v
EpHook.v
EpInsert.v
AioInv.v
AioOps.v
AioLife.v
AioSetup.v
AioSubmit.v
AioSys.v
AioProps.v
RtRq.v
RtPush.v
RtInv.v
RtQueue.v
RtExec.v
RtOps.v
RtBalance.v
RtStep.v
RtParam.v
RtTime.v
RtBand.v
RtHotplug.v
RtLimits.v
RtSys.v
RtBoot.v
RtProps.v
DlRq.v
DlPush.v
DlCbs.v
DlInv.v
DlOps.v
DlStep.v
DlMove.v
DlEvent.v
DlSwitch.v
DlSched.v
DlSys.v
DlBoot.v
DlProps.v
FairRq.v
FairMath.v
FairInv.v
FairStep.v
FairSys.v
FairOrder.v
FairSel.v
FairProps.v
