(* ===== verification/Prelude.v ===== *)
(** * Concurrency management groups: a verification library

    The repository adds concurrency management groups to Linux 3.14.3.  A
    group (struct cmgroup, fs/cmgroup.c) has a concurrency value: the number
    of its tasks that should be runnable at a time.  The scheduler tells the
    group when one of its tasks enters or leaves a run queue; the group keeps
    the number of openings in [available] and, when an opening appears, a
    tasklet wakes one of the group's tasks that sleeps for events.  A group is
    attached to one event source, an eventpoll (fs/eventpoll.c) or an AIO
    context (fs/aio.c), and shares its wait queue and lock with an eventpoll.
    All paths below are relative to src/src/linux-3.14.3-iocp/.

    ** Parts and files

    - Prelude.v: error numbers, 32-bit arithmetic, the state and error monad
      [M] (a computation returns, blocks for ever in some state, or oopses),
      counting in finite maps, tactics ([mrun] runs one step, [zbool] turns
      boolean comparisons into inequalities) and the hint database [kernel].
    - Wait.v (include/linux/wait.h): wait queues.  The wake-up core itself,
      kernel/sched/wait.c, is not in the tree: it is the class [WaitLib],
      with the documented contract, and an executable instance [wait_lib].
    - Tasklet.v (kernel/softirq.c, include/linux/interrupt.h): tasklets, their
      per-CPU queues and the dispatch of softirqs.
    - Cmgroup.v (fs/cmgroup.c, include/linux/cmgroup.h): the kernel state (the
      record [kernel]: groups, tasks, files, descriptors, attachments, queues,
      tasklets) and one definition per function of the group, the attachment
      calls of epoll and AIO included.
    - Sched.v (kernel/sched/core.c, fair.c, kernel/fork.c, exit.c): the paths
      on which a task enters or leaves a run queue, is created or exits.
    - CmWake.v, CmInv.v, CmTask.v, CmOps.v, CmSys.v, CmLife.v, CmAttach.v,
      CmTop.v: the invariant of the group (CmInv.v: reference counts and
      accounting; CmTop.v: the operations [cm_op], their preconditions
      [valid] and the states [reachable] by them) and that every operation
      keeps it.  CmProps.v: the theorems.
    - CmRace.v: the tasklet (cmgroup_tasklet), its firing (fire_tasklet) and
      the lock-out (cmgroup_lockout_tasklet), interleaved one shared access at
      a time, as the step relations [tstep], [fstep], [estep].
    - EpTree.v, EpState.v, EpNest.v, EpReady.v, EpCtl.v, EpPoll.v
      (fs/eventpoll.c): the tree of items (lib/rbtree.c is the class [RbLib]);
      the world of eventpolls (record [world]: eventpolls, items, hooks, wait
      queue heads, devices, and the kernel of Cmgroup.v); bounded nesting and
      the loop and path checks; callbacks, scans and delivery; control,
      creation and release; epoll_wait.  Power management's wakeup sources are
      the class [PmLib]; nothing depends on what they do.
    - EpWake.v, EpLevel.v, EpScan.v, EpSend.v, EpHook.v, EpExact.v, EpLoop.v,
      EpPath.v: proofs about them.  EpProps.v, EpExact.v, EpInsert.v, EpWait.v,
      EpLoop.v, EpPath.v, EpTree.v hold the theorems.
    - AioRing.v, AioCtx.v (fs/aio.c): the completion ring with its counters of
      free slots; contexts, requests and the system calls.  AioQueue.v and
      AioFifo.v: the ring as a bounded queue, and the theorems.  AioInv.v,
      AioOps.v, AioLife.v, AioSetup.v, AioSubmit.v, AioSys.v: the invariant of
      contexts and requests and that every call keeps it; AioProps.v: the
      theorems.
    - RtRq.v, RtPush.v (kernel/sched/rt.c, sched.h, core.c): the real-time
      class.  The world (record [rtw]) has the run queues, the class's fields
      of the tasks, the root domain, the bandwidth and the kernel of Cmgroup.v,
      on which the hooks of the group run.  RtRq.v has the operations of one
      run queue and the bandwidth, RtPush.v those that move tasks between CPUs
      and the steps of core.c around the class.  lib/plist.c and
      kernel/sched/cpupri.c are the class [RtLib] with the laws [RtLaws].
    - RtInv.v: the invariant (exact queues, bitmaps, counters, cached
      priorities), stated against an abstract view of the queues; RtQueue.v,
      RtExec.v, RtOps.v, RtBalance.v, RtStep.v, RtParam.v: that the operations
      keep it.  RtTime.v, RtBand.v, RtHotplug.v, RtLimits.v: the
      bandwidth, its conservation, hotplug and the limits.  RtSys.v: the events
      [rt_op] and their sequences [steps]; RtBoot.v: a booted machine;
      RtProps.v: the theorems.
    - DlRq.v, DlPush.v (kernel/sched/deadline.c, sched.h, core.c): the deadline
      class.  The world (record [dlw]) is that of the real-time class with the
      trees, the entities and the part of the root domain of this class.
      DlRq.v has the budgets, the trees and the timers of one CPU, DlPush.v
      what moves tasks between CPUs, the expiry of a timer, the steps of core.c
      around the class, admission and changes of policy.  The balancing of the
      trees is [RbLib], kernel/sched/cpudeadline.c the class [DlLib].
    - DlCbs.v (budgets), DlInv.v (the invariant: the trees hold exactly the
      runnable tasks that are not throttled), DlOps.v, DlStep.v, DlMove.v,
      DlEvent.v, DlSwitch.v, DlSched.v: that the operations keep it, DlSched.v
      with admission; DlSys.v: the events [dl_op] and their sequences
      [dl_steps]; DlBoot.v: tasks that yield, and a booted machine; DlProps.v:
      the order of the trees and the theorems.
    - FairRq.v (kernel/sched/fair.c, sched.h, core.c): the fair class, without
      groups, bandwidth and NUMA balancing.  The world (record [fw]) is that of
      the real-time class with the run queues, the entities and the tunables of
      this class: weights, virtual time, slices, load averages, the tree with
      its buddies, the methods of the class and the steps of core.c around
      them.  The tree is [RbLib]; math64.h, log2.h and features.h are the class
      [FairLib] with the laws [FairLaws].
    - FairMath.v: the division by multiplication and the averages; FairInv.v:
      the view of a world that keeps what decides whether the queues are intact,
      and a calculus for code that runs on it; FairStep.v, FairSys.v: the
      invariant, that the operations keep it, the events [fair_op] and their
      sequences [fair_steps]; FairOrder.v: the order of virtual times;
      FairSel.v: select_task_rq_fair() and select_task_rq(), on a record of the
      domains of each CPU; FairProps.v: a machine and the theorems.

    ** What the theorems show

    - Groups (CmProps.v): in every reachable state every operation whose
      precondition holds returns without touching freed memory; reference
      counts are exact and an unreferenced group is queued once for the worker
      that frees it; [available] is exactly the value minus the runnable
      tasks; attachments are exclusive and symmetric; the system calls and the
      scheduler's hooks do what they should on all branches.
    - Races (CmRace.v): no wake-up is lost, the flag [tasklet_active] has one
      owner, the tasklet releases the lock it took.
    - Event delivery (EpProps.v, EpExact.v): delivery of events loses no
      level-triggered item whatever the devices do whenever interrupts are on,
      a wake-up reaches every subscribed item through nested eventpolls, and
      without arrivals delivery is a function of the ready list.
    - Waiting (EpWait.v): when epoll_wait sleeps and when it does not, with
      respect to events and to the group's limit.
    - Limits of nesting (EpLoop.v, EpPath.v): the loop check keeps eventpolls
      acyclic and leaves no trace, the path check stays within its array.
    - Rings (AioFifo.v): the ring refines a FIFO queue; its set-up gives
      enough slots; and it trusts an index that user space can write.
    - Control operations (EpInsert.v): adding, changing and removing an item,
      with every failure, keeps the promise of delivery and leaves nothing
      behind.
    - AIO contexts (AioProps.v): in any interleaving of system calls, drivers,
      worker and user space no freed object is touched, reference counts are
      exact, a refused request gives everything back, a destroyed context is as
      if it had never been set up; and two flaws of io_setup and io_getevents.
    - Real-time tasks (RtProps.v): no event after boot reaches a BUG_ON() or an
      invalid pointer, the most urgent task is picked, pushed and pulled,
      runtime is conserved between CPUs, hotplug restores everything, and a
      refused write of the limits breaks that.
    - Deadline tasks (DlProps.v): no event after boot reaches a BUG_ON() or an
      invalid pointer, the task with the earliest deadline is picked, used-up
      budgets are replenished and kept or renewed at a wake-up by the rule of
      the constant bandwidth server up to its rounding, bandwidth is booked
      exactly; a task that yields is lost, and a task that comes back is not
      booked.
    - Fair tasks (FairProps.v): every event after boot returns and touches no
      invalid pointer, the queues, counters and weights are exact, the tree is
      in the order of the virtual times, the task that is picked is at most a
      wake-up granularity late, slices fill the period, virtual time is charged
      in proportion to the weight, the clock of a queue follows its slowest
      task, averages stay in their bounds, and a task is given a CPU it may use;
      the load of nice -20 overflows, and
      that of a task that sleeps for a moment is taken off twice.
    - Libraries: wake-up order (Wait.v), tasklets and softirqs (Tasklet.v), the
      tree of items (EpTree.v).

    ** Modelling choices, fuel and bounds

    - Integers are [Z] with the wrap-around of the C type written out ([s32],
      [u32]) wherever the code computes with them; addresses are [nat].
    - [Blocked] is a wait that nothing in the call itself ends; a theorem that
      an operation returns excludes it.  What other CPUs do while a caller
      sleeps is a parameter ([msleep], [sleep]).
    - What happens in devices is a script of arrivals, one list per moment at
      which interrupts are on; theorems quantify over it.
    - Fuel: the softirq dispatch gets 33 units for 32 bits of a mask; nested
      calls get [nest_fuel] = 6, EP_MAX_NESTS + 2, because ep_call_nested()
      refuses the sixth level; reading the ring gets one more unit than it has
      events; the lock-out and waiting loops get fuel from the caller, and the
      theorems say how much is enough; the loop that pushes real-time tasks
      needs more than there are tasks, because every turn moves one to a CPU
      where it is more urgent or retries with another task; the loop that
      pushes deadline tasks likewise.  The loop that replenishes a budget gets
      [replenish_fuel], one more than the number of instances in debt.  The
      loops of __calc_delta() get 64 units, one per bit, and that of
      __compute_runnable_contrib() 10, because 345 periods are 11 times 32; the
      descent through the domains needs one turn for each CPU and level, because
      every turn goes to a child or to a smaller domain.
    - When a CPU gives up its run queue's lock to take a second one, what
      others do meanwhile is the parameter [contend]; theorems hold for every
      one that keeps the invariants and the classes of the tasks.
    - Memory is sequentially consistent; a spinlock section is one step of the
      sequential models, and CmRace.v splits those that matter.

    ** What is not modelled, and the plan

    Not modelled: the load balancer of the fair class and the code that builds
    the domains; groups of tasks in the real-time and fair classes with their
    bandwidth control; tasks that inherit a deadline; the checks that precede a
    change of policy and the rest of the scheduler's system calls; timers,
    epoll_pwait, the migration of ring pages and the ring's pseudo file system,
    system call tables, and the test programs.  What could come next: the load
    balancer, the checks of __sched_setscheduler(), and process creation and
    exit. *)

From stdpp Require Export base tactics option list numbers gmap sets sorting.
From Stdlib Require Export ZArith Lia.

#[export] Set Default Goal Selector "!".

(** ** Scopes and hint databases of the development *)

Declare Scope kernel_scope.
Delimit Scope kernel_scope with K.

Create HintDb kernel.

(** ** Error numbers (the constants the sources return, negated) *)

Module Errno.
Definition EPERM : Z := 1.
Definition ENOENT : Z := 2.
Definition EINTR : Z := 4.
Definition EBADF : Z := 9.
Definition EAGAIN : Z := 11.
Definition ENOMEM : Z := 12.
Definition EFAULT : Z := 14.
Definition EBUSY : Z := 16.
Definition EEXIST : Z := 17.
Definition EXDEV : Z := 18.
Definition EINVAL : Z := 22.
Definition ENOSPC : Z := 28.
Definition ELOOP : Z := 40.
Definition ETIME : Z := 62.
Definition EALREADY : Z := 114.
Definition EINPROGRESS : Z := 115.
Definition ERESTARTSYS : Z := 512.
Definition ERESTARTNOINTR : Z := 513.
Definition ERESTARTNOHAND : Z := 514.
Definition ERESTART_RESTARTBLOCK : Z := 516.
Definition EIOCBQUEUED : Z := 529.
End Errno.
Export Errno.

(** ** Machine integers

    An [int] (and the counter of an [atomic_t]) is a [Z] in
    [-2^31, 2^31); an [unsigned] is a [Z] in [0, 2^32).  The kernel is
    compiled with wrapping signed arithmetic, so every arithmetic
    operation on them is followed by the wrap below. *)

Section Machine.
Local Open Scope Z_scope.

Definition s32 (z : Z) : Z := (z + 2 ^ 31) mod 2 ^ 32 - 2 ^ 31.
Definition u32 (z : Z) : Z := z mod 2 ^ 32.
Definition u64 (z : Z) : Z := z mod 2 ^ 64.
Definition s64 (z : Z) : Z := (z + 2 ^ 63) mod 2 ^ 64 - 2 ^ 63.
Definition INT_MAX : Z := 2 ^ 31 - 1.
Definition LONG_MAX : Z := 2 ^ 63 - 1.

Lemma s32_id z : - 2 ^ 31 <= z < 2 ^ 31 -> s32 z = z.
Proof. intros H. unfold s32. rewrite Z.mod_small by lia. lia. Qed.

Lemma s32_range z : - 2 ^ 31 <= s32 z < 2 ^ 31.
Proof.
  unfold s32. pose proof (Z.mod_pos_bound (z + 2 ^ 31) (2 ^ 32) ltac:(lia)). lia.
Qed.

Lemma u32_id z : 0 <= z < 2 ^ 32 -> u32 z = z.
Proof. intros H. unfold u32. by apply Z.mod_small. Qed.

Lemma u32_range z : 0 <= u32 z < 2 ^ 32.
Proof. unfold u32. apply Z.mod_pos_bound. lia. Qed.

Lemma s64_id z : - 2 ^ 63 <= z < 2 ^ 63 -> s64 z = z.
Proof. intros H. unfold s64. rewrite Z.mod_small by lia. lia. Qed.
Lemma s64_range z : - 2 ^ 63 <= s64 z < 2 ^ 63.
Proof. unfold s64. pose proof (Z.mod_pos_bound (z + 2 ^ 63) (2 ^ 64) ltac:(lia)). lia. Qed.
Lemma u64_id z : 0 <= z < 2 ^ 64 -> u64 z = z.
Proof. intros H. unfold u64. by apply Z.mod_small. Qed.
Lemma u64_range z : 0 <= u64 z < 2 ^ 64.
Proof. unfold u64. apply Z.mod_pos_bound. lia. Qed.

Lemma u64_add_l a b : u64 (u64 a + b) = u64 (a + b).
Proof. unfold u64. by rewrite Zplus_mod_idemp_l. Qed.

Lemma s32_add_sub a b : s32 (s32 (a + b) - b) = s32 a.
Proof.
  unfold s32.
  replace ((a + b + 2 ^ 31) mod 2 ^ 32 - 2 ^ 31 - b + 2 ^ 31)
    with ((a + b + 2 ^ 31) mod 2 ^ 32 - b) by lia.
  rewrite Zminus_mod_idemp_l. do 2 f_equal. lia.
Qed.
End Machine.

#[export] Hint Resolve s32_range u32_range : kernel.

(** ** The effect of kernel code

    A piece of kernel code on a state [S] returns a value and a new state,
    or goes to sleep for ever ([Blocked]: a mutex that its own path holds, a
    polling loop that exhausts its fuel), or accesses memory it must not
    access ([Oops]: a freed object or a NULL pointer). *)

Inductive outcome (S A : Type) : Type :=
  | Ret (a : A) (s : S)
  | Blocked (s : S)
  | Oops.
Arguments Ret {S A} a s.
Arguments Blocked {S A} s.
Arguments Oops {S A}.

Definition M (S A : Type) : Type := S -> outcome S A.

#[export] Instance M_ret S : MRet (M S) := fun A a s => Ret a s.
#[export] Instance M_bind S : MBind (M S) := fun A B f m s =>
  match m s with
  | Ret a s' => f a s'
  | Blocked s' => Blocked s'
  | Oops => Oops
  end.

Section Monad.
Context {S : Type}.

Definition get : M S S := fun s => Ret s s.
Definition put (s : S) : M S unit := fun _ => Ret tt s.
Definition modify (f : S -> S) : M S unit := fun s => Ret tt (f s).
Definition oops {A} : M S A := fun _ => Oops.
Definition block {A} : M S A := fun s => Blocked s.
Definition when (b : bool) (m : M S unit) : M S unit := if b then m else mret tt.
(** dereference: the value of an option read off the state *)
Definition deref {A} (f : S -> option A) : M S A :=
  fun s => match f s with Some a => Ret a s | None => Oops end.
End Monad.

Lemma bind_ret_l {S A B} (a : A) (f : A -> M S B) s : (mbind f (mret a)) s = f a s.
Proof. reflexivity. Qed.

Lemma Ret_inj {S A} (a b : A) (s t : S) : Ret a s = Ret b t -> a = b /\ s = t.
Proof. by intros [= -> ->]. Qed.

(** Inversion of a sequence that returned: the intermediate state. *)
Lemma bind_Ret {S A B} (m : M S A) (f : A -> M S B) s b s' :
  (mbind f m) s = Ret b s' <-> exists a s1, m s = Ret a s1 /\ f a s1 = Ret b s'.
Proof.
  unfold mbind, M_bind. split.
  - destruct (m s) as [a s1|s1|] eqn:E; intros H; try done. eauto.
  - intros (a & s1 & -> & H). done.
Qed.

(** The first two statements of a sequence, run together. *)
Lemma bind_seq {S A B C} (m1 : M S A) (m2 : A -> M S B) (r : B -> M S C) s b s' :
  (mbind m2 m1) s = Ret b s' -> (mbind (fun a => mbind r (m2 a)) m1) s = r b s'.
Proof.
  intros (a & s1 & E1 & E2)%bind_Ret. unfold mbind, M_bind in *. by rewrite E1, E2.
Qed.

(** ** Hoare triples: total correctness (no oops, no eternal sleep) *)

Definition triple {S A} (P : S -> Prop) (m : M S A) (Q : A -> S -> Prop) : Prop :=
  forall s, P s -> exists a s', m s = Ret a s' /\ Q a s'.

Notation "{{ P } } m {{ Q } }" := (triple P m Q)
  (at level 0, P at level 200, m at level 200, Q at level 200,
   format "{{  P  } }  m  {{  Q  } }") : kernel_scope.

Section Triples.
Context {S : Type}.
Implicit Types P : S -> Prop.

Lemma triple_ret {A} P (a : A) Q : (forall s, P s -> Q a s) -> triple P (mret a) Q.
Proof. intros H s HP. exists a, s. split; [done|auto]. Qed.

Lemma triple_bind {A B} P (m : M S A) (f : A -> M S B) R Q :
  triple P m R -> (forall a, triple (R a) (f a) Q) -> triple P (mbind f m) Q.
Proof.
  intros Hm Hf s HP. destruct (Hm s HP) as (a & s1 & E1 & HR).
  destruct (Hf a s1 HR) as (b & s2 & E2 & HQ).
  exists b, s2. split; [|done]. apply bind_Ret. eauto.
Qed.

Lemma triple_conseq {A} P P' (m : M S A) Q Q' :
  triple P' m Q' -> (forall s, P s -> P' s) -> (forall a s, Q' a s -> Q a s) ->
  triple P m Q.
Proof. intros H HP HQ s Hs. destruct (H s (HP s Hs)) as (a & s' & E & Hq). eauto. Qed.

Lemma triple_when P b (m : M S unit) (Q : unit -> S -> Prop) :
  (b = true -> triple P m Q) -> (b = false -> forall s, P s -> Q tt s) ->
  triple P (when b m) Q.
Proof. destruct b; intros H1 H2; [by apply H1|]. apply triple_ret. by apply H2. Qed.

Lemma triple_modify P (f : S -> S) (Q : unit -> S -> Prop) :
  (forall s, P s -> Q tt (f s)) -> triple P (modify f) Q.
Proof. intros H s Hs. exists tt, (f s). auto. Qed.

Lemma triple_deref {A} P (f : S -> option A) Q :
  (forall s, P s -> exists a, f s = Some a /\ Q a s) -> triple P (deref f) Q.
Proof.
  intros H s Hs. destruct (H s Hs) as (a & E & HQ). exists a, s.
  split; [|done]. unfold deref. by rewrite E.
Qed.

Lemma triple_get P (Q : S -> S -> Prop) :
  (forall s, P s -> Q s s) -> triple P get Q.
Proof. intros H s Hs. exists s, s. auto. Qed.
End Triples.

(** ** Running code that may be starved

    [m] runs from [w] into no oops; it returns with [Q], unless [E]. *)

Definition swp {S A} (E : Prop) (m : M S A) (w : S) (Q : A -> S -> Prop) : Prop :=
  match m w with Ret a w' => Q a w' | Blocked _ => E | Oops => False end.

Section Safe.
Context {S : Type}.
Implicit Types (w : S).

Lemma swp_ret {A} E (a : A) w (Q : A -> S -> Prop) : Q a w -> swp E (mret a) w Q.
Proof. done. Qed.
Lemma swp_bind {A B} E (m : M S A) (k : A -> M S B) w Q :
  swp E m w (fun a w' => swp E (k a) w' Q) -> swp E (mbind k m) w Q.
Proof. unfold swp, mbind, M_bind. by destruct (m w). Qed.
Lemma swp_mono {A} (E E' : Prop) (m : M S A) w (P Q : A -> S -> Prop) :
  swp E m w P -> (E -> E') -> (forall a w', P a w' -> Q a w') -> swp E' m w Q.
Proof. unfold swp. destruct (m w); auto. Qed.
Lemma swp_cons {A} E (m : M S A) w (P Q : A -> S -> Prop) :
  swp E m w P -> (forall a w', P a w' -> Q a w') -> swp E m w Q.
Proof. intros H. by apply (swp_mono E E). Qed.
Lemma swp_returns {A} E (m : M S A) w (Q : A -> S -> Prop) : swp False m w Q -> swp E m w Q.
Proof. intros H. by apply (swp_mono False E _ _ Q). Qed.
Lemma swp_seq {A B} E (m : M S A) (k : A -> M S B) w P Q :
  swp E m w P -> (forall a w', P a w' -> swp E (k a) w' Q) -> swp E (mbind k m) w Q.
Proof. intros H Hk. apply swp_bind. by eapply swp_cons. Qed.

(** the first two statements together *)
Lemma swp_seq2 {A B C} E (m1 : M S A) (m2 : A -> M S B) (k : B -> M S C) w P Q :
  swp E (mbind m2 m1) w P -> (forall a w', P a w' -> swp E (k a) w' Q) -> swp E (mbind (fun a => mbind k (m2 a)) m1) w Q.
Proof.
  intros H Hk. assert (H' : swp E (mbind k (mbind m2 m1)) w Q) by by eapply swp_seq.
  unfold swp, mbind, M_bind in *. by destruct (m1 w).
Qed.

Lemma swp_when E (b : bool) (m : M S unit) w (Q : unit -> S -> Prop) :
  (b = true -> swp E m w Q) -> (b = false -> Q tt w) -> swp E (when b m) w Q.
Proof. destruct b; cbn; auto. Qed.
Lemma swp_get E w (Q : S -> S -> Prop) : Q w w -> swp E get w Q.
Proof. done. Qed.
Lemma swp_modify E f w (Q : unit -> S -> Prop) : Q tt (f w) -> swp E (modify f) w Q.
Proof. done. Qed.
Lemma swp_deref {A} E (f : S -> option A) w a (Q : A -> S -> Prop) :
  f w = Some a -> Q a w -> swp E (deref f) w Q.
Proof. unfold swp, deref. by intros ->. Qed.
Lemma swp_ends {A} (m : M S A) w Q : swp False m w Q -> exists a w', m w = Ret a w' /\ Q a w'.
Proof. unfold swp. destruct (m w) as [a w'| |]; [|done|done]. by exists a, w'. Qed.
End Safe.

(** ** Lists *)

Lemma remove_absent (l : list nat) t : t ∉ l -> filter (fun u => u <> t) l = l.
Proof.
  induction l as [|u l IH]; [done|]. intros [Hu Hl]%not_elem_of_cons. rewrite filter_cons.
  rewrite decide_True by done. by rewrite IH.
Qed.

(** ** Counting in finite maps *)

Section Count.
Context `{Countable K} {V : Type}.
Local Open Scope Z_scope.
Implicit Types m : gmap K V.

(** how many entries of [m] satisfy the boolean test [p] *)
Definition count (p : V -> bool) (m : gmap K V) : Z :=
  map_fold (fun _ v acc => (if p v then 1 else 0) + acc) 0 m.

Lemma count_empty p : count p ∅ = 0.
Proof. apply map_fold_empty. Qed.

Lemma count_insert_new p m k v :
  m !! k = None -> count p (<[k:=v]> m) = (if p v then 1 else 0) + count p m.
Proof.
  intros Hk. unfold count. rewrite map_fold_insert_L; [done| |done].
  intros. lia.
Qed.

Lemma count_lookup p m k v :
  m !! k = Some v -> count p m = (if p v then 1 else 0) + count p (delete k m).
Proof.
  intros Hk. rewrite <- (insert_delete_id m k v Hk) at 1.
  apply count_insert_new. apply lookup_delete_eq.
Qed.

Lemma count_insert p m k v v0 :
  m !! k = Some v0 ->
  count p (<[k:=v]> m) =
    count p m - (if p v0 then 1 else 0) + (if p v then 1 else 0).
Proof.
  intros Hk. rewrite (count_lookup p m k v0 Hk).
  rewrite (count_lookup p (<[k:=v]> m) k v) by apply lookup_insert_eq.
  rewrite delete_insert_eq. lia.
Qed.

Lemma count_delete p m k v0 :
  m !! k = Some v0 -> count p (delete k m) = count p m - (if p v0 then 1 else 0).
Proof. intros Hk. rewrite (count_lookup p m k v0 Hk). lia. Qed.

Lemma count_bounds p m : 0 <= count p m <= Z.of_nat (size m).
Proof.
  induction m as [|k v m Hk Hfst IH] using map_first_key_ind.
  - rewrite count_empty, map_size_empty. lia.
  - rewrite count_insert_new, map_size_insert_None by done. destruct (p v); lia.
Qed.

Lemma count_pos p m k v : m !! k = Some v -> p v = true -> 0 < count p m.
Proof.
  intros Hk Hp. rewrite (count_lookup p m k v Hk), Hp.
  pose proof (count_bounds p (delete k m)). lia.
Qed.

Lemma count_zero p m : count p m = 0 -> forall k v, m !! k = Some v -> p v = false.
Proof.
  intros H0 k v Hk. destruct (p v) eqn:E; [|done].
  pose proof (count_pos p m k v Hk E). lia.
Qed.

Lemma count_false p m : (forall k v, m !! k = Some v -> p v = false) -> count p m = 0.
Proof.
  induction m as [|k v m Hk Hfst IH] using map_first_key_ind; intros Hf.
  - apply count_empty.
  - rewrite count_insert_new by done. rewrite (Hf k v) by apply lookup_insert_eq.
    rewrite IH; [lia|]. intros k' v' Hk'. apply (Hf k' v').
    rewrite lookup_insert_ne; [done|]. intros ->. congruence.
Qed.

Lemma count_ext p q m :
  (forall k v, m !! k = Some v -> p v = q v) -> count p m = count q m.
Proof.
  induction m as [|k v m Hk Hfst IH] using map_first_key_ind; intros Hf.
  - by rewrite !count_empty.
  - rewrite !count_insert_new by done.
    rewrite (Hf k v) by apply lookup_insert_eq. f_equal. apply IH.
    intros k' v' Hk'. apply (Hf k' v').
    rewrite lookup_insert_ne; [done|]. intros ->. congruence.
Qed.

Lemma count_le p q m :
  (forall v, p v = true -> q v = true) -> count p m <= count q m.
Proof.
  intros Hpq. induction m as [|k v m Hk Hfst IH] using map_first_key_ind.
  - by rewrite !count_empty.
  - rewrite !count_insert_new by done. specialize (Hpq v).
    destruct (p v), (q v); lia.
Qed.
End Count.

(** The indicator of a boolean, as a summand of a reference count. *)
Definition b2z (b : bool) : Z := if b then 1%Z else 0%Z.

Lemma b2z_bounds b : (0 <= b2z b <= 1)%Z.
Proof. destruct b; simpl; lia. Qed.

(** ** Tactics *)

(** unfold monadic binds step by step in the goal *)
Ltac mstep := unfold mbind, M_bind, mret, M_ret, get, put, modify, deref, when, oops, block in *;
  cbn beta iota in *.

(** run the first statement of a sequence, whose outcome is the equation [E] *)
Ltac mrun E := unfold mbind at 1, M_bind at 1; rewrite E.

(** split every boolean test of the goal *)
Ltac bcases :=
  repeat match goal with
  | |- context [if ?b then _ else _] => destruct b eqn:?
  end.

(** turn boolean comparisons in hypotheses into propositions *)
Ltac zbool :=
  repeat match goal with
  | H : (_ <? _)%Z = true |- _ => apply Z.ltb_lt in H
  | H : (_ <? _)%Z = false |- _ => apply Z.ltb_ge in H
  | H : (_ <=? _)%Z = true |- _ => apply Z.leb_le in H
  | H : (_ <=? _)%Z = false |- _ => apply Z.leb_gt in H
  | H : (_ =? _)%Z = true |- _ => apply Z.eqb_eq in H
  | H : (_ =? _)%Z = false |- _ => apply Z.eqb_neq in H
  | H : (_ || _) = true |- _ => apply orb_true_iff in H
  | H : (_ || _) = false |- _ => apply orb_false_iff in H; destruct H
  | H : (_ && _) = true |- _ => apply andb_true_iff in H; destruct H
  | H : (_ && _) = false |- _ => apply andb_false_iff in H
  | H : negb _ = true |- _ => apply negb_true_iff in H
  | H : negb _ = false |- _ => apply negb_false_iff in H
  end.

(** ** Filters of lists *)

Lemma list_filter_ext_in {A} (P Q : A -> Prop) `{forall x, Decision (P x)} `{forall x, Decision (Q x)} (l : list A) :
  (forall x, x ∈ l -> P x <-> Q x) -> filter P l = filter Q l.
Proof.
  induction l as [|a l IH]; intros Hpq; [done|]. rewrite !filter_cons.
  pose proof (Hpq a ltac:(set_solver)) as Ha. rewrite IH by set_solver. by repeat case_decide; try tauto.
Qed.

Lemma list_filter_all {A} (P : A -> Prop) `{forall x, Decision (P x)} (l : list A) :
  (forall x, x ∈ l -> P x) -> filter P l = l.
Proof.
  induction l as [|a l IH]; intros HP; [done|].
  rewrite filter_cons_True by (apply HP; set_solver). rewrite IH; set_solver.
Qed.

Lemma list_filter_none {A} (P : A -> Prop) `{forall x, Decision (P x)} (l : list A) :
  (forall x, x ∈ l -> ~ P x) -> filter P l = [].
Proof.
  induction l as [|a l IH]; intros HP; [done|].
  rewrite filter_cons_False by (apply HP; set_solver). apply IH. set_solver.
Qed.
