(* ===== verification/Wait.v ===== *)
(** * Wait queues (include/linux/wait.h)

    The entries of a wait queue, the operations that link and unlink them,
    and the interface of the wake-up core ([__wake_up_common] of
    kernel/sched/wait.c, which is not part of this tree): the class
    [WakeCore] states the documented scan, and the results below are proved
    against it. *)

From S2P Require Import Prelude.
Local Open Scope Z_scope.

Module Wait.

(** ** Task states (include/linux/sched.h) *)

Definition TASK_RUNNING : Z := 0.
Definition TASK_INTERRUPTIBLE : Z := 1.
Definition TASK_UNINTERRUPTIBLE : Z := 2.
Definition TASK_NORMAL : Z := Z.lor TASK_INTERRUPTIBLE TASK_UNINTERRUPTIBLE.
Definition TASK_DEAD : Z := 64.

(** ** Entries *)

Definition WQ_FLAG_EXCLUSIVE : Z := 1.

(** The wake-up functions the sources install in an entry. *)
Inductive wait_queue_func_t :=
  | default_wake_function
  | autoremove_wake_function
  | cmgroup_wake_function
  | ep_poll_callback.

#[export] Instance wait_queue_func_t_eq_dec : EqDecision wait_queue_func_t.
Proof. solve_decision. Defined.

(** [wq_id] is the address of the entry, [wq_private] the task it names
    ([None] for the NULL of a callback entry). *)
Record wait_queue_t := WaitQueue {
  wq_id : nat;
  wq_flags : Z;
  wq_private : option nat;
  wq_func : wait_queue_func_t
}.

#[export] Instance wait_queue_t_eq_dec : EqDecision wait_queue_t.
Proof. solve_decision. Defined.

(** The [task_list] of a [wait_queue_head_t], first entry first. *)
Abbreviation wait_queue_head_t := (list wait_queue_t).

Definition init_waitqueue_entry (id : nat) (p : nat) : wait_queue_t :=
  WaitQueue id 0 (Some p) default_wake_function.

Definition init_waitqueue_func_entry (id : nat) (func : wait_queue_func_t) : wait_queue_t :=
  WaitQueue id 0 None func.

Definition init_wait (id : nat) (current : nat) : wait_queue_t :=
  WaitQueue id 0 (Some current) autoremove_wake_function.

Definition set_func (f : wait_queue_func_t) (w : wait_queue_t) : wait_queue_t :=
  WaitQueue (wq_id w) (wq_flags w) (wq_private w) f.

Definition set_exclusive (w : wait_queue_t) : wait_queue_t :=
  WaitQueue (wq_id w) (Z.lor (wq_flags w) WQ_FLAG_EXCLUSIVE) (wq_private w) (wq_func w).

Definition is_exclusive (w : wait_queue_t) : bool :=
  negb (Z.land (wq_flags w) WQ_FLAG_EXCLUSIVE =? 0).

(** ** Queue operations *)

Definition waitqueue_active (q : wait_queue_head_t) : bool :=
  match q with [] => false | _ => true end.

Definition __add_wait_queue (q : wait_queue_head_t) (w : wait_queue_t) : wait_queue_head_t :=
  w :: q.

Definition __add_wait_queue_exclusive (q : wait_queue_head_t) (w : wait_queue_t) : wait_queue_head_t :=
  __add_wait_queue q (set_exclusive w).

Definition __add_wait_queue_tail (q : wait_queue_head_t) (w : wait_queue_t) : wait_queue_head_t :=
  q ++ [w].

Definition __add_wait_queue_tail_exclusive (q : wait_queue_head_t) (w : wait_queue_t)
  : wait_queue_head_t :=
  __add_wait_queue_tail q (set_exclusive w).

(** [list_del] of the entry at address [id] *)
Definition __remove_wait_queue (q : wait_queue_head_t) (id : nat) : wait_queue_head_t :=
  filter (fun w => wq_id w <> id) q.

Lemma set_exclusive_is w : is_exclusive (set_exclusive w) = true.
Proof.
  unfold is_exclusive, set_exclusive, WQ_FLAG_EXCLUSIVE; simpl.
  apply negb_true_iff, Z.eqb_neq. intros H.
  assert (Hb : Z.testbit (Z.land (Z.lor (wq_flags w) 1) 1) 0 = false) by (rewrite H; apply Z.bits_0).
  rewrite Z.land_spec, Z.lor_spec in Hb. change (Z.testbit 1 0) with true in Hb.
  by rewrite orb_true_r in Hb.
Qed.

Lemma __remove_wait_queue_notin q id : id ∉ wq_id <$> __remove_wait_queue q id.
Proof.
  intros (w & -> & Hw)%list_elem_of_fmap. unfold __remove_wait_queue in Hw.
  apply list_elem_of_filter in Hw as [Hne _]. done.
Qed.

(** ** The wake-up core

    [wake_up_common f q nr s] scans the entries of [q] in order and calls
    [f] on each, threading the state [s]; an entry whose function returns
    true and which is exclusive consumes one unit of [nr], and the scan
    stops when [nr] reaches 0 ([nr] = 0 at the start means: wake all). *)
Class WakeCore := {
  wake_up_common : forall {S : Type},
    (wait_queue_t -> S -> bool * S) -> wait_queue_head_t -> Z -> S -> S;
  wake_up_common_nil : forall (S : Type) (f : wait_queue_t -> S -> bool * S) nr s,
    wake_up_common f [] nr s = s;
  wake_up_common_cons : forall (S : Type) (f : wait_queue_t -> S -> bool * S) w q nr s,
    wake_up_common f (w :: q) nr s =
      let '(ok, s') := f w s in
      if ok && is_exclusive w
      then (if nr - 1 =? 0 then s' else wake_up_common f q (nr - 1) s')
      else wake_up_common f q nr s'
}.

(** The scan written out, an instance of the interface. *)
Fixpoint scan {S : Type} (f : wait_queue_t -> S -> bool * S) (q : wait_queue_head_t)
    (nr : Z) (s : S) : S :=
  match q with
  | [] => s
  | w :: q' =>
      let '(ok, s') := f w s in
      if ok && is_exclusive w
      then (if nr - 1 =? 0 then s' else scan f q' (nr - 1) s')
      else scan f q' nr s'
  end.

Definition scan_core : WakeCore :=
  {| wake_up_common := @scan;
     wake_up_common_nil := fun S f nr s => eq_refl;
     wake_up_common_cons := fun S f w q nr s => eq_refl |}.

Section Core.
Context `{WakeCore}.
Context {S : Type} (f : wait_queue_t -> S -> bool * S).

Definition wake_up_locked (q : wait_queue_head_t) (s : S) : S := wake_up_common f q 1 s.
Definition wake_up_all_locked (q : wait_queue_head_t) (s : S) : S := wake_up_common f q 0 s.

(** The reference meaning of a wake-one on a queue of exclusive waiters:
    the first entry whose function reports success is the last one called. *)
Fixpoint first_success (q : wait_queue_head_t) (s : S) : option nat * S :=
  match q with
  | [] => (None, s)
  | w :: q' =>
      let '(ok, s') := f w s in
      if ok then (Some (wq_id w), s') else first_success q' s'
  end.

Lemma wake_up_locked_first q s :
  Forall (fun w => is_exclusive w = true) q ->
  wake_up_locked q s = snd (first_success q s).
Proof.
  unfold wake_up_locked. revert s.
  induction q as [|w q IH]; intros s Hex.
  - by rewrite wake_up_common_nil.
  - apply Forall_cons in Hex as [Hw Hq]. rewrite wake_up_common_cons. simpl.
    destruct (f w s) as [ok s'] eqn:E. rewrite Hw, andb_true_r.
    destruct ok; [done|]. by apply IH.
Qed.

(** A wake-all calls every entry's function, in order. *)
Lemma wake_up_all_locked_all q s nr :
  nr <= 0 -> wake_up_common f q nr s = foldl (fun s w => snd (f w s)) s q.
Proof.
  revert s nr. induction q as [|w q IH]; intros s nr Hnr.
  - by rewrite wake_up_common_nil.
  - rewrite wake_up_common_cons. simpl. destruct (f w s) as [ok s'] eqn:E; simpl.
    destruct (ok && is_exclusive w); [|by apply IH].
    destruct (nr - 1 =? 0) eqn:E0; [zbool; lia|]. apply IH. lia.
Qed.
End Core.

(** ** Which waiter a wake-one releases

    The state of the scan is the set of tasks that are asleep; the function
    of an entry succeeds when its task is asleep and wakes it
    ([try_to_wake_up] with [TASK_NORMAL]). *)
Definition wake_sleeper (w : wait_queue_t) (s : gset nat) : bool * gset nat :=
  match wq_private w with
  | Some p => if decide (p ∈ s) then (true, s ∖ {[p]}) else (false, s)
  | None => (false, s)
  end.

(** the waiters queue up one after the other, each at the head *)
Definition enqueue_all_head (l : list nat) : wait_queue_head_t :=
  foldl (fun q p => __add_wait_queue_exclusive q (init_waitqueue_entry p p)) [] l.

(** the waiters queue up one after the other, each at the tail *)
Definition enqueue_all_tail (l : list nat) : wait_queue_head_t :=
  foldl (fun q p => __add_wait_queue_tail_exclusive q (init_wait p p)) [] l.

Lemma enqueue_all_head_snoc l p :
  enqueue_all_head (l ++ [p]) =
    set_exclusive (init_waitqueue_entry p p) :: enqueue_all_head l.
Proof. unfold enqueue_all_head. by rewrite foldl_app. Qed.

Lemma enqueue_all_tail_map l q :
  foldl (fun q p => __add_wait_queue_tail_exclusive q (init_wait p p)) q l =
    q ++ ((fun p => set_exclusive (init_wait p p)) <$> l).
Proof.
  revert q. induction l as [|p l IH]; intros q; simpl; [by rewrite app_nil_r|].
  rewrite IH. unfold __add_wait_queue_tail_exclusive, __add_wait_queue_tail.
  by rewrite <- app_assoc.
Qed.

Lemma enqueue_all_head_excl l :
  Forall (fun w => is_exclusive w = true) (enqueue_all_head l).
Proof.
  induction l as [|p l IH] using rev_ind; [constructor|].
  rewrite enqueue_all_head_snoc. constructor; [apply set_exclusive_is|done].
Qed.

Lemma enqueue_all_tail_excl l :
  Forall (fun w => is_exclusive w = true) (enqueue_all_tail l).
Proof.
  unfold enqueue_all_tail. rewrite enqueue_all_tail_map. simpl.
  apply Forall_fmap, Forall_true. intros p. apply set_exclusive_is.
Qed.

Lemma first_success_skip q s q' :
  (forall w p, w ∈ q -> wq_private w = Some p -> p ∉ s) ->
  first_success wake_sleeper (q ++ q') s = first_success wake_sleeper q' s.
Proof.
  induction q as [|w q IH]; intros Hq; [done|]. simpl.
  replace (wake_sleeper w s) with (false, s).
  - apply IH. intros w' p' Hw'. apply Hq. by right.
  - unfold wake_sleeper. destruct (wq_private w) as [p|] eqn:E; [|done].
    rewrite decide_False; [done|]. apply (Hq w); [by left|done].
Qed.

Lemma first_success_head s w q p :
  wq_private w = Some p -> p ∈ s ->
  first_success wake_sleeper (w :: q) s = (Some (wq_id w), s ∖ {[p]}).
Proof. intros Hp Hs. simpl. unfold wake_sleeper. by rewrite Hp, decide_True. Qed.

Lemma enqueue_all_head_app l1 l2 :
  enqueue_all_head (l1 ++ l2) = enqueue_all_head l2 ++ enqueue_all_head l1.
Proof.
  induction l2 as [|p l2 IH] using rev_ind; [by rewrite app_nil_r|].
  by rewrite app_assoc, !enqueue_all_head_snoc, IH.
Qed.

Lemma enqueue_all_head_private l w p :
  w ∈ enqueue_all_head l -> wq_private w = Some p -> p ∈ l.
Proof.
  induction l as [|x l IH] using rev_ind; [by intros ?%not_elem_of_nil|].
  rewrite enqueue_all_head_snoc. intros [->|Hw]%elem_of_cons Hp.
  - simpl in Hp. simplify_eq. set_solver.
  - set_solver.
Qed.

(** Queueing at the head makes a wake-one LIFO: of the waiters that are
    still asleep it releases the one that queued last, and no other. *)
Lemma wake_one_lifo `{WakeCore} (l1 l2 : list nat) (p : nat) (s : gset nat) :
  p ∈ s -> (forall x, x ∈ l2 -> x ∉ s) ->
  wake_up_locked wake_sleeper (enqueue_all_head (l1 ++ p :: l2)) s = s ∖ {[p]}.
Proof.
  intros Hp Hl2. rewrite wake_up_locked_first by apply enqueue_all_head_excl.
  replace (l1 ++ p :: l2) with ((l1 ++ [p]) ++ l2) by (by rewrite <- app_assoc).
  rewrite enqueue_all_head_app, enqueue_all_head_snoc, first_success_skip.
  - by rewrite (first_success_head s _ _ p).
  - intros w x Hw Hx. apply Hl2. by eapply enqueue_all_head_private.
Qed.

(** Queueing at the tail makes a wake-one FIFO. *)
Lemma wake_one_fifo `{WakeCore} (l1 l2 : list nat) (p : nat) (s : gset nat) :
  p ∈ s -> (forall x, x ∈ l1 -> x ∉ s) ->
  wake_up_locked wake_sleeper (enqueue_all_tail (l1 ++ p :: l2)) s = s ∖ {[p]}.
Proof.
  intros Hp Hl1. rewrite wake_up_locked_first by apply enqueue_all_tail_excl.
  unfold enqueue_all_tail. rewrite enqueue_all_tail_map, fmap_app, fmap_cons. simpl.
  rewrite first_success_skip.
  - by rewrite (first_success_head s _ _ p).
  - intros w x (y & -> & Hy)%list_elem_of_fmap Hx. simpl in Hx. simplify_eq. by apply Hl1.
Qed.

(** the waiting discipline of the two users of the wake-up core.
    epoll_wait queues at the head, so the task released is the one that came
    last; cmgroup_wait queues at the tail, so it is the one that came first.
    In both cases exactly one task is released. *)
Theorem wake_one_discipline (WC : WakeCore) (l1 l2 : list nat) (p : nat) (s : gset nat) :
  p ∈ s ->
  ((forall x, x ∈ l2 -> x ∉ s) ->
     wake_up_locked wake_sleeper (enqueue_all_head (l1 ++ p :: l2)) s = s ∖ {[p]}) /\
  ((forall x, x ∈ l1 -> x ∉ s) ->
     wake_up_locked wake_sleeper (enqueue_all_tail (l1 ++ p :: l2)) s = s ∖ {[p]}).
Proof. intros Hp. split; intros Hl; [by apply wake_one_lifo|by apply wake_one_fifo]. Qed.

Lemma wake_one_discipline_witness :
  wake_up_locked (H := scan_core) wake_sleeper (enqueue_all_head [1%nat; 2%nat; 3%nat]) {[1%nat; 2%nat]}
    = {[1%nat; 2%nat]} ∖ {[2%nat]} /\
  wake_up_locked (H := scan_core) wake_sleeper (enqueue_all_tail [4%nat; 2%nat; 1%nat]) {[1%nat; 2%nat]}
    = {[1%nat; 2%nat]} ∖ {[2%nat]}.
Proof.
  split.
  - apply (wake_one_discipline scan_core [1%nat] [3%nat] 2%nat); set_solver.
  - apply (wake_one_discipline scan_core [4%nat] [1%nat] 2%nat); set_solver.
Defined.

End Wait.
Export Wait.
