(* ===== verification/Tasklet.v ===== *)
(** * Softirqs and tasklets (kernel/softirq.c, include/linux/interrupt.h)

    The per-CPU tasklet lists, the scheduling entry points (the one cmgroup
    adds included, which does not wake ksoftirqd), the handler that runs the
    lists, and the softirq dispatch loop.  A tasklet list, in the sources a
    head pointer and a tail pointer-to-pointer, is the list of the addresses
    of its tasklets. *)

From stdpp Require Import functions.
From S2P Require Import Prelude.
Local Open Scope Z_scope.

Module Tasklet.

(** ** Data *)

Definition HI_SOFTIRQ : Z := 0.
Definition TASKLET_SOFTIRQ : Z := 6.
Definition NR_SOFTIRQS : Z := 10.

Definition TASKLET_STATE_SCHED : Z := 0.
Definition TASKLET_STATE_RUN : Z := 1.

Definition MAX_SOFTIRQ_RESTART : nat := 10.

(** [next], [func] and [data] are the position in a list and the identity of
    the tasklet; [state] and [count] are kept as the sources keep them. *)
Record tasklet_struct := TaskletStruct { state : Z; tcount : Z }.

Record percpu := PerCpu {
  softirq_pending : Z;
  tasklet_vec : list nat;
  tasklet_hi_vec : list nat;
  ksoftirqd_running : bool;
  in_interrupt : bool
}.

Record softirq := Softirq {
  cpus : nat -> percpu;
  tasklets : gmap nat tasklet_struct
}.

Definition set_pending (p : Z) (c : percpu) : percpu :=
  PerCpu p (tasklet_vec c) (tasklet_hi_vec c) (ksoftirqd_running c) (in_interrupt c).
Definition set_vec (l : list nat) (c : percpu) : percpu :=
  PerCpu (softirq_pending c) l (tasklet_hi_vec c) (ksoftirqd_running c) (in_interrupt c).
Definition set_hi_vec (l : list nat) (c : percpu) : percpu :=
  PerCpu (softirq_pending c) (tasklet_vec c) l (ksoftirqd_running c) (in_interrupt c).
Definition set_ksoftirqd (b : bool) (c : percpu) : percpu :=
  PerCpu (softirq_pending c) (tasklet_vec c) (tasklet_hi_vec c) b (in_interrupt c).

Definition on_cpu (cpu : nat) (f : percpu -> percpu) (s : softirq) : softirq :=
  Softirq (<[cpu := f (cpus s cpu)]> (cpus s)) (tasklets s).

Definition set_tasklet (t : nat) (x : tasklet_struct) (s : softirq) : softirq :=
  Softirq (cpus s) (<[t := x]> (tasklets s)).

Definition test_bit (nr : Z) (x : tasklet_struct) : bool := Z.testbit (state x) nr.
Definition set_bit (nr : Z) (x : tasklet_struct) : tasklet_struct :=
  TaskletStruct (Z.setbit (state x) nr) (tcount x).
Definition clear_bit (nr : Z) (x : tasklet_struct) : tasklet_struct :=
  TaskletStruct (Z.clearbit (state x) nr) (tcount x).

Definition is_sched (x : tasklet_struct) : bool := test_bit TASKLET_STATE_SCHED x.
Definition is_run (x : tasklet_struct) : bool := test_bit TASKLET_STATE_RUN x.

(** ** Raising softirqs *)

Definition __raise_softirq_irqoff (cpu : nat) (nr : Z) (s : softirq) : softirq :=
  on_cpu cpu (fun c => set_pending (Z.lor (softirq_pending c) (Z.shiftl 1 nr)) c) s.

Definition wakeup_softirqd (cpu : nat) (s : softirq) : softirq :=
  on_cpu cpu (fun c => if ksoftirqd_running c then c else set_ksoftirqd true c) s.

Definition raise_softirq_irqoff (cpu : nat) (nr : Z) (s : softirq) : softirq :=
  let s := __raise_softirq_irqoff cpu nr s in
  if in_interrupt (cpus s cpu) then s else wakeup_softirqd cpu s.

Definition raise_softirq_irqoff_nosoftirqd_wake (cpu : nat) (nr : Z) (s : softirq) : softirq :=
  __raise_softirq_irqoff cpu nr s.

(** ** Scheduling a tasklet

    The test-and-set of the SCHED bit, then the append to this CPU's list
    and the raised softirq.  Touching a tasklet that is not allocated is an
    oops. *)

Definition append_vec (cpu t : nat) (s : softirq) : softirq :=
  on_cpu cpu (fun c => set_vec (tasklet_vec c ++ [t]) c) s.
Definition append_hi_vec (cpu t : nat) (s : softirq) : softirq :=
  on_cpu cpu (fun c => set_hi_vec (tasklet_hi_vec c ++ [t]) c) s.

Definition __tasklet_schedule (cpu t : nat) (s : softirq) : softirq :=
  raise_softirq_irqoff cpu TASKLET_SOFTIRQ (append_vec cpu t s).
Definition __tasklet_schedule_nosoftirqd_wake (cpu t : nat) (s : softirq) : softirq :=
  raise_softirq_irqoff_nosoftirqd_wake cpu TASKLET_SOFTIRQ (append_vec cpu t s).
Definition __tasklet_hi_schedule (cpu t : nat) (s : softirq) : softirq :=
  raise_softirq_irqoff cpu HI_SOFTIRQ (append_hi_vec cpu t s).
Definition __tasklet_hi_schedule_first (cpu t : nat) (s : softirq) : softirq :=
  __raise_softirq_irqoff cpu HI_SOFTIRQ
    (on_cpu cpu (fun c => set_hi_vec (t :: tasklet_hi_vec c) c) s).

(** [if (!test_and_set_bit(TASKLET_STATE_SCHED, &t->state)) enqueue(t);] *)
Definition schedule_with (enqueue : softirq -> softirq) (t : nat) (s : softirq) : option softirq :=
  x ← tasklets s !! t;
  Some (if is_sched x then s
        else enqueue (set_tasklet t (set_bit TASKLET_STATE_SCHED x) s)).

Definition tasklet_schedule (cpu t : nat) : softirq -> option softirq :=
  schedule_with (__tasklet_schedule cpu t) t.
Definition tasklet_schedule_nosoftirqd_wake (cpu t : nat) : softirq -> option softirq :=
  schedule_with (__tasklet_schedule_nosoftirqd_wake cpu t) t.
Definition tasklet_hi_schedule (cpu t : nat) : softirq -> option softirq :=
  schedule_with (__tasklet_hi_schedule cpu t) t.
Definition tasklet_hi_schedule_first (cpu t : nat) : softirq -> option softirq :=
  schedule_with (__tasklet_hi_schedule_first cpu t) t.

Definition tasklet_init (t : nat) (s : softirq) : softirq :=
  set_tasklet t (TaskletStruct 0 0) s.

Definition tasklet_disable_nosync (t : nat) (s : softirq) : option softirq :=
  x ← tasklets s !! t; Some (set_tasklet t (TaskletStruct (state x) (s32 (tcount x + 1))) s).
Definition tasklet_enable (t : nat) (s : softirq) : option softirq :=
  x ← tasklets s !! t; Some (set_tasklet t (TaskletStruct (state x) (s32 (tcount x - 1))) s).

(** A CPU went down: its lists are appended to this CPU's lists. *)
Definition takeover_tasklets (this cpu : nat) (s : softirq) : softirq :=
  let s :=
    match tasklet_vec (cpus s cpu) with
    | [] => s
    | l => on_cpu cpu (set_vec []) (on_cpu this (fun c => set_vec (tasklet_vec c ++ l) c) s)
    end in
  let s := raise_softirq_irqoff this TASKLET_SOFTIRQ s in
  let s :=
    match tasklet_hi_vec (cpus s cpu) with
    | [] => s
    | l => on_cpu cpu (set_hi_vec []) (on_cpu this (fun c => set_hi_vec (tasklet_hi_vec c ++ l) c) s)
    end in
  raise_softirq_irqoff this HI_SOFTIRQ s.

(** ** Running the lists

    The client of the tasklet component is a kernel state [S] that contains
    the softirq state: the interface below is what the handler needs of it. *)
Class HasSoftirq (S : Type) := {
  get_softirq : S -> softirq;
  set_softirq : softirq -> S -> S;
  get_set_softirq : forall x s, get_softirq (set_softirq x s) = x;
  set_set_softirq : forall x y s, set_softirq x (set_softirq y s) = set_softirq x s;
  set_get_softirq : forall s, set_softirq (get_softirq s) s = s
}.

#[export] Instance softirq_self : HasSoftirq softirq.
Proof. refine {| get_softirq := id; set_softirq := fun x _ => x |}; done. Defined.

(** a state with a component added beside the softirq state, as the clients' *)
#[export] Instance softirq_pair (A : Type) : HasSoftirq (softirq * A).
Proof.
  refine {| get_softirq := fst; set_softirq := fun x s => (x, snd s) |}; try done.
  by intros [].
Defined.

Section Action.
Context {S : Type} `{HasSoftirq S}.
(** [t->func(t->data)] of the tasklet at an address *)
Variable func : nat -> M S unit.

Definition sirq (f : softirq -> softirq) : M S unit :=
  modify (fun s => set_softirq (f (get_softirq s)) s).

Definition tasklet_of (t : nat) : M S tasklet_struct :=
  deref (fun s => tasklets (get_softirq s) !! t).

(** the body of the [while (list)] loop, [requeue] being the append to the
    list the tasklet came from followed by [__raise_softirq_irqoff] *)
Definition run_tasklet (requeue : nat -> softirq -> softirq) (t : nat) : M S unit :=
  x ← tasklet_of t;
  if is_run x then sirq (requeue t)
  else
    sirq (set_tasklet t (set_bit TASKLET_STATE_RUN x)) ;;
    if tcount x =? 0 then
      if is_sched x then
        sirq (set_tasklet t (clear_bit TASKLET_STATE_SCHED (set_bit TASKLET_STATE_RUN x))) ;;
        func t ;;
        x' ← tasklet_of t;
        sirq (set_tasklet t (clear_bit TASKLET_STATE_RUN x'))
      else oops
    else
      sirq (set_tasklet t (clear_bit TASKLET_STATE_RUN (set_bit TASKLET_STATE_RUN x))) ;;
      sirq (requeue t).

Fixpoint run_list (requeue : nat -> softirq -> softirq) (l : list nat) : M S unit :=
  match l with
  | [] => mret tt
  | t :: l' => run_tasklet requeue t ;; run_list requeue l'
  end.

Definition requeue_vec (cpu t : nat) (s : softirq) : softirq :=
  __raise_softirq_irqoff cpu TASKLET_SOFTIRQ (append_vec cpu t s).
Definition requeue_hi_vec (cpu t : nat) (s : softirq) : softirq :=
  __raise_softirq_irqoff cpu HI_SOFTIRQ (append_hi_vec cpu t s).

Definition tasklet_action (cpu : nat) : M S unit :=
  s ← get;
  let l := tasklet_vec (cpus (get_softirq s) cpu) in
  sirq (on_cpu cpu (set_vec [])) ;; run_list (requeue_vec cpu) l.

Definition tasklet_hi_action (cpu : nat) : M S unit :=
  s ← get;
  let l := tasklet_hi_vec (cpus (get_softirq s) cpu) in
  sirq (on_cpu cpu (set_hi_vec [])) ;; run_list (requeue_hi_vec cpu) l.
End Action.


(** ** The softirq dispatch loop *)

(** position of the least significant set bit, counted from 1; 0 for 0 *)
Fixpoint ffs_from (n : nat) (i : Z) (p : Z) : Z :=
  match n with
  | O => 0
  | S n' => if Z.testbit p i then i + 1 else ffs_from n' (i + 1) p
  end.
Definition ffs (p : Z) : Z := ffs_from 32 0 p.

Section Dispatch.
Context {S : Type} `{HasSoftirq S}.
(** [softirq_vec[nr].action] *)
Variable action : Z -> M S unit.
(** [time_before(jiffies, end) && !need_resched()], read after a round *)
Variable may_restart : S -> bool.

(** [while ((softirq_bit = ffs(pending)))]: [h] is the vector index *)
Fixpoint softirq_loop (fuel : nat) (h pending : Z) : M S unit :=
  match fuel with
  | O => block
  | Datatypes.S fuel' =>
      let softirq_bit := ffs pending in
      if softirq_bit =? 0 then mret tt
      else
        let h := h + (softirq_bit - 1) in
        action h ;;
        softirq_loop fuel' (h + 1) (Z.shiftr pending softirq_bit)
  end.

Definition set_in_interrupt (cpu : nat) (b : bool) : M S unit :=
  sirq (on_cpu cpu (fun c => PerCpu (softirq_pending c) (tasklet_vec c) (tasklet_hi_vec c)
                               (ksoftirqd_running c) b)).

(** the [restart:] loop; [max_restart] counts this round and
    those that may follow *)
Fixpoint softirq_rounds (cpu : nat) (max_restart : nat) (pending : Z) : M S unit :=
  sirq (on_cpu cpu (set_pending 0)) ;;
  softirq_loop 33 0 pending ;;
  s ← get;
  let pending := softirq_pending (cpus (get_softirq s) cpu) in
  if pending =? 0 then mret tt
  else
    match max_restart with
    | O => sirq (wakeup_softirqd cpu)
    | Datatypes.S m =>
        if may_restart s && negb (m =? 0)%nat then softirq_rounds cpu m pending
        else sirq (wakeup_softirqd cpu)
    end.

Definition __do_softirq (cpu : nat) : M S unit :=
  s ← get;
  let pending := softirq_pending (cpus (get_softirq s) cpu) in
  set_in_interrupt cpu true ;;
  softirq_rounds cpu MAX_SOFTIRQ_RESTART pending ;;
  set_in_interrupt cpu false.

Definition do_softirq (cpu : nat) : M S unit :=
  s ← get;
  let c := cpus (get_softirq s) cpu in
  if in_interrupt c then mret tt
  else if softirq_pending c =? 0 then mret tt
  else __do_softirq cpu.
End Dispatch.

(** ** Bits of the tasklet state *)

Lemma test_set_bit nr x : 0 <= nr -> test_bit nr (set_bit nr x) = true.
Proof. intros. unfold test_bit, set_bit; simpl. by rewrite Z.setbit_eq. Qed.

Lemma test_clear_bit nr x : test_bit nr (clear_bit nr x) = false.
Proof. unfold test_bit, clear_bit; simpl. by rewrite Z.clearbit_eq. Qed.

Lemma clear_set_bit nr x :
  0 <= nr -> test_bit nr x = false -> clear_bit nr (set_bit nr x) = x.
Proof.
  intros Hnr Hb. destruct x as [st c]. unfold clear_bit, set_bit, test_bit in *; simpl in *.
  f_equal. apply Z.bits_inj'. intros n Hn. rewrite Z.clearbit_eqb, Z.setbit_eqb by lia.
  destruct (Z.eqb_spec nr n) as [->|]; simpl; [by rewrite Hb|].
  by rewrite andb_true_r.
Qed.

Lemma clear_bit_comm n m x : clear_bit n (clear_bit m x) = clear_bit m (clear_bit n x).
Proof.
  destruct x as [st c]. unfold clear_bit; simpl. f_equal. apply Z.bits_inj'. intros k Hk.
  rewrite !Z.clearbit_eqb by lia. by rewrite <- !andb_assoc, (andb_comm (negb (m =? k))).
Qed.

(** ** Every scheduled tasklet is queued exactly once *)

Definition queued (s : softirq) (cpu : nat) : list nat :=
  tasklet_vec (cpus s cpu) ++ tasklet_hi_vec (cpus s cpu).

Record queue_inv (s : softirq) : Prop := QueueInv {
  qi_nodup : forall c, NoDup (queued s c);
  qi_one_cpu : forall t c1 c2, t ∈ queued s c1 -> t ∈ queued s c2 -> c1 = c2;
  qi_sched : forall t, (exists c, t ∈ queued s c) <->
                       (exists x, tasklets s !! t = Some x /\ is_sched x = true)
}.

Lemma on_cpu_eq cpu f s : cpus (on_cpu cpu f s) cpu = f (cpus s cpu).
Proof. unfold on_cpu; simpl. by rewrite fn_lookup_insert. Qed.

Lemma on_cpu_ne cpu c f s : cpu <> c -> cpus (on_cpu cpu f s) c = cpus s c.
Proof. intros. unfold on_cpu; simpl. by rewrite fn_lookup_insert_ne. Qed.

(** enqueueing on [cpu] changes the queues as an insertion of [t], in front or
    at the back, and nothing else of the queues *)
Definition enqueues (t cpu : nat) (enqueue : softirq -> softirq) : Prop :=
  forall s, tasklets (enqueue s) = tasklets s /\
    queued (enqueue s) cpu ≡ₚ t :: queued s cpu /\
    forall c, c <> cpu -> queued (enqueue s) c = queued s c.

Lemma queued_pending cpu c nr s : queued (__raise_softirq_irqoff cpu nr s) c = queued s c.
Proof.
  unfold queued, __raise_softirq_irqoff. destruct (decide (cpu = c)) as [->|].
  - by rewrite on_cpu_eq.
  - by rewrite on_cpu_ne.
Qed.

Lemma queued_raise cpu c nr s : queued (raise_softirq_irqoff cpu nr s) c = queued s c.
Proof.
  unfold raise_softirq_irqoff. rewrite <- (queued_pending cpu c nr s).
  destruct (in_interrupt _); [done|]. unfold wakeup_softirqd, queued.
  destruct (decide (cpu = c)) as [->|].
  - rewrite on_cpu_eq. by destruct (ksoftirqd_running _).
  - by rewrite on_cpu_ne.
Qed.

Lemma tasklets_raise cpu nr s : tasklets (raise_softirq_irqoff cpu nr s) = tasklets s.
Proof. unfold raise_softirq_irqoff. by destruct (in_interrupt _). Qed.

Lemma queued_append cpu t s :
  (queued (append_vec cpu t s) cpu ≡ₚ t :: queued s cpu /\
   forall c, c <> cpu -> queued (append_vec cpu t s) c = queued s c) /\
  (queued (append_hi_vec cpu t s) cpu ≡ₚ t :: queued s cpu /\
   forall c, c <> cpu -> queued (append_hi_vec cpu t s) c = queued s c).
Proof.
  unfold queued, append_vec, append_hi_vec. rewrite !on_cpu_eq.
  repeat split; try (intros c Hc; by rewrite on_cpu_ne); simpl.
  - rewrite <- app_assoc. symmetry. apply Permutation_middle.
  - rewrite app_assoc. symmetry. apply Permutation_cons_append.
Qed.

Lemma schedule_enqueues cpu t :
  enqueues t cpu (__tasklet_schedule cpu t) /\
  enqueues t cpu (__tasklet_schedule_nosoftirqd_wake cpu t) /\
  enqueues t cpu (__tasklet_hi_schedule cpu t) /\
  enqueues t cpu (__tasklet_hi_schedule_first cpu t).
Proof.
  repeat split; intros; unfold __tasklet_schedule, __tasklet_schedule_nosoftirqd_wake,
    __tasklet_hi_schedule, __tasklet_hi_schedule_first, raise_softirq_irqoff_nosoftirqd_wake;
    rewrite ?tasklets_raise, ?queued_raise, ?queued_pending; try done;
    try apply queued_append; try done.
  - unfold queued. rewrite on_cpu_eq; simpl. by rewrite Permutation_middle.
  - unfold queued. by rewrite on_cpu_ne.
Qed.

Lemma schedule_with_inv enqueue t cpu s s' :
  enqueues t cpu enqueue -> queue_inv s -> schedule_with enqueue t s = Some s' ->
  queue_inv s' /\ exists c, t ∈ queued s' c.
Proof.
  intros Henq Hinv. unfold schedule_with.
  destruct (tasklets s !! t) as [x|] eqn:Ht; simpl; [|done].
  destruct (is_sched x) eqn:Hs; intros [= <-].
  { split; [done|]. apply (qi_sched _ Hinv). eauto. }
  destruct (Henq (set_tasklet t (set_bit TASKLET_STATE_SCHED x) s)) as (Etl & Eq & Ene).
  assert (Hnot : forall c, t ∉ queued s c).
  { intros c Hc. destruct (proj1 (qi_sched _ Hinv t)) as (y & Hy & Hys); [eauto|]. congruence. }
  set (s1 := set_tasklet t _ s) in *.
  assert (Hq : forall c, queued s1 c = queued s c) by done.
  assert (Hmem : forall u c, u ∈ queued (enqueue s1) c <->
                   (u = t /\ c = cpu) \/ u ∈ queued s c).
  { intros u c. destruct (decide (c = cpu)) as [->|Hc].
    - rewrite Eq, Hq. set_solver.
    - rewrite (Ene c Hc), Hq. set_solver. }
  split; [|exists cpu; apply Hmem; by left]. split.
  - intros c. destruct (decide (c = cpu)) as [->|Hc].
    + rewrite Eq, Hq. constructor; [done|]. apply (qi_nodup _ Hinv).
    + rewrite (Ene c Hc), Hq. apply (qi_nodup _ Hinv).
  - intros u c1 c2 [[-> ->]|H1]%Hmem [[E2 ->]|H2]%Hmem; try done.
    + by destruct (Hnot c2).
    + subst. by destruct (Hnot c1).
    + by eapply (qi_one_cpu _ Hinv).
  - intros u. rewrite Etl. unfold s1; simpl. split.
    + intros (c & [[-> ->]|Hc]%Hmem).
      * exists (set_bit TASKLET_STATE_SCHED x). rewrite lookup_insert_eq. split; [done|].
        by apply test_set_bit.
      * destruct (proj1 (qi_sched _ Hinv u)) as (y & Hy & Hys); [eauto|].
        exists y. rewrite lookup_insert_ne; [done|]. intros ->. by destruct (Hnot c).
    + intros (y & Hy & Hys). destruct (decide (t = u)) as [->|Hne].
      * exists cpu. apply Hmem. by left.
      * rewrite lookup_insert_ne in Hy by done.
        destruct (proj2 (qi_sched _ Hinv u)) as [c Hc]; [eauto|].
        exists c. apply Hmem. by right.
Qed.

(** Scheduling a tasklet, by any of the four entry points (the one that does
    not wake ksoftirqd included), keeps every scheduled tasklet in exactly one
    list of exactly one CPU, and leaves the tasklet scheduled. *)
Theorem tasklet_schedule_once (cpu t : nat) (s s' : softirq) :
  queue_inv s ->
  tasklet_schedule cpu t s = Some s' \/ tasklet_schedule_nosoftirqd_wake cpu t s = Some s' \/
  tasklet_hi_schedule cpu t s = Some s' \/ tasklet_hi_schedule_first cpu t s = Some s' ->
  queue_inv s' /\ exists c, t ∈ queued s' c.
Proof.
  destruct (schedule_enqueues cpu t) as (H1 & H2 & H3 & H4).
  intros Hinv [E|[E|[E|E]]].
  - exact (schedule_with_inv _ t cpu s s' H1 Hinv E).
  - exact (schedule_with_inv _ t cpu s s' H2 Hinv E).
  - exact (schedule_with_inv _ t cpu s s' H3 Hinv E).
  - exact (schedule_with_inv _ t cpu s s' H4 Hinv E).
Qed.

Definition idle_cpu : percpu := PerCpu 0 [] [] false false.
Definition one_tasklet : softirq :=
  Softirq (fun _ => idle_cpu) {[ 7%nat := TaskletStruct 0 0 ]}.

Lemma one_tasklet_inv : queue_inv one_tasklet.
Proof.
  split.
  - intros c. constructor.
  - intros t c1 c2 Hc. by apply not_elem_of_nil in Hc.
  - intros t. split; [by intros (c & Hc%not_elem_of_nil)|].
    intros (x & Hx & Hs). unfold one_tasklet in Hx; simpl in Hx.
    apply lookup_singleton_Some in Hx as [_ <-]. done.
Qed.

Lemma tasklet_schedule_once_witness :
  exists s', tasklet_schedule_nosoftirqd_wake 0 7 one_tasklet = Some s' /\
    queue_inv s' /\ exists c, 7%nat ∈ queued s' c.
Proof.
  eexists. split; [reflexivity|].
  eapply (tasklet_schedule_once 0 7); [apply one_tasklet_inv|].
  right; left. reflexivity.
Defined.

(** ** What a pass over the list runs *)

Definition runnable (s : softirq) (t : nat) : bool :=
  match tasklets s !! t with
  | Some x => negb (is_run x) && (tcount x =? 0)
  | None => false
  end.

(** a tasklet function that records its call *)
Definition log_call (t : nat) : M (softirq * list nat) unit :=
  modify (fun s => (fst s, snd s ++ [t])).

Lemma run_tasklet_log requeue t s log x :
  tasklets s !! t = Some x -> is_sched x = true ->
  run_tasklet log_call requeue t (s, log) =
    if runnable s t
    then Ret tt (set_tasklet t (clear_bit TASKLET_STATE_SCHED x) s, log ++ [t])
    else Ret tt (requeue t s, log).
Proof.
  intros Hx Hs. unfold runnable. rewrite Hx.
  unfold run_tasklet, tasklet_of, sirq, log_call. mstep; simpl. rewrite Hx; simpl.
  destruct (is_run x) eqn:Hr; simpl; [done|].
  destruct (tcount x =? 0) eqn:Hc; simpl.
  - rewrite Hs; simpl. rewrite !lookup_insert_eq; simpl.
    do 2 f_equal. unfold set_tasklet; simpl. rewrite !insert_insert_eq, clear_bit_comm.
    by rewrite clear_set_bit.
  - do 2 f_equal. unfold set_tasklet; simpl. rewrite !insert_insert_eq, clear_set_bit by done.
    rewrite insert_id by done. by destruct s.
Qed.

(** the state a pass leaves: the tasklets that ran lost their SCHED bit *)
Definition ran (s : softirq) (l : list nat) : gmap nat tasklet_struct :=
  foldl (fun m t => alter (clear_bit TASKLET_STATE_SCHED) t m) (tasklets s)
    (filter (fun t => runnable s t = true) l).

Lemma runnable_ext s s' t : tasklets s !! t = tasklets s' !! t -> runnable s t = runnable s' t.
Proof. unfold runnable. by intros ->. Qed.

Lemma filter_ext_in (f g : nat -> bool) (l : list nat) :
  (forall t, t ∈ l -> f t = g t) ->
  filter (fun t => f t = true) l = filter (fun t => g t = true) l /\
  filter (fun t => f t = false) l = filter (fun t => g t = false) l.
Proof.
  induction l as [|a l IH]; intros Hfg; [done|].
  destruct IH as [IH1 IH2]; [intros; apply Hfg; by right|].
  rewrite !filter_cons, (Hfg a) by (by left). rewrite IH1, IH2. done.
Qed.

Lemma run_list_log cpu l s log :
  NoDup l ->
  (forall t, t ∈ l -> exists x, tasklets s !! t = Some x /\ is_sched x = true) ->
  exists s', run_list log_call (requeue_vec cpu) l (s, log) =
      Ret tt (s', log ++ filter (fun t => runnable s t = true) l) /\
    tasklet_vec (cpus s' cpu) =
      tasklet_vec (cpus s cpu) ++ filter (fun t => runnable s t = false) l /\
    tasklet_hi_vec (cpus s' cpu) = tasklet_hi_vec (cpus s cpu) /\
    (forall c, c <> cpu -> cpus s' c = cpus s c) /\
    tasklets s' = ran s l.
Proof.
  revert s log. induction l as [|t l IH]; intros s log Hnd Hl.
  { exists s. simpl. rewrite !app_nil_r. done. }
  apply NoDup_cons in Hnd as [Hnin Hnd].
  destruct (Hl t) as (x & Hx & Hs); [by left|].
  simpl. unfold mbind, M_bind. rewrite (run_tasklet_log _ _ _ _ x) by done.
  rewrite !filter_cons. unfold ran. rewrite filter_cons.
  destruct (runnable s t) eqn:Hr; simpl.
  - set (s1 := set_tasklet t _ s).
    assert (Hs1 : forall u, u ∈ l -> tasklets s1 !! u = tasklets s !! u).
    { intros u Hu. unfold s1; simpl. apply lookup_insert_ne. intros ->. done. }
    destruct (filter_ext_in (runnable s1) (runnable s) l) as [E1 E2].
    { intros u Hu. apply runnable_ext. by apply Hs1. }
    destruct (IH s1 (log ++ [t])) as (s' & Er & Ev & Eh & Ec & Et); [done| |].
    { intros u Hu. rewrite Hs1 by done. apply Hl. by right. }
    exists s'. rewrite Er, Ev, Eh, E1, E2, <- app_assoc. repeat split; try done.
    rewrite Et. unfold ran. rewrite E1. f_equal. unfold s1; simpl.
    apply map_eq. intros i. rewrite lookup_alter. case_decide; subst.
    + by rewrite lookup_insert_eq, Hx.
    + by rewrite lookup_insert_ne.
  - destruct (IH (requeue_vec cpu t s) log) as (s' & Er & Ev & Eh & Ec & Et); [done| |].
    { intros u Hu. apply Hl. by right. }
    exists s'. rewrite Er, Ev, Eh. unfold requeue_vec, __raise_softirq_irqoff, append_vec.
    rewrite !on_cpu_eq; simpl. rewrite <- app_assoc. repeat split; try done.
    + intros c Hc. rewrite Ec by done. unfold requeue_vec, __raise_softirq_irqoff, append_vec.
      by rewrite !on_cpu_ne.
Qed.

(** one pass of tasklet_action calls the function of exactly the queued
    tasklets that are neither disabled nor running elsewhere, once each and in
    queue order; the others stay queued, in order and still scheduled; the
    functions that ran may be scheduled again (their SCHED bit is clear). *)
Theorem tasklet_action_runs_queued (cpu : nat) (s : softirq) :
  queue_inv s ->
  exists s', tasklet_action log_call cpu (s, []) =
      Ret tt (s', filter (fun t => runnable s t = true) (tasklet_vec (cpus s cpu))) /\
    tasklet_vec (cpus s' cpu) = filter (fun t => runnable s t = false) (tasklet_vec (cpus s cpu)) /\
    tasklet_hi_vec (cpus s' cpu) = tasklet_hi_vec (cpus s cpu) /\
    (forall c, c <> cpu -> cpus s' c = cpus s c) /\
    tasklets s' = ran s (tasklet_vec (cpus s cpu)).
Proof.
  intros Hinv. set (l := tasklet_vec (cpus s cpu)).
  destruct (run_list_log cpu l (on_cpu cpu (set_vec []) s) []) as (s' & Er & Ev & Eh & Ec & Et).
  - pose proof (qi_nodup _ Hinv cpu) as Hnd. by apply NoDup_app in Hnd as [Hnd _].
  - intros t Ht. apply (qi_sched _ Hinv). exists cpu. unfold queued. set_solver.
  - exists s'. split; [exact Er|]. rewrite Ev, Eh, !on_cpu_eq; simpl. repeat split; try done.
    intros c Hc. rewrite Ec by done. by apply on_cpu_ne.
Qed.

Definition two_tasklets : softirq :=
  Softirq (fun c => if (c =? 0)%nat then PerCpu 64 [7%nat; 8%nat] [] false false else idle_cpu)
          {[ 7%nat := TaskletStruct 1 1; 8%nat := TaskletStruct 1 0 ]}.

Lemma two_tasklets_queued t c : t ∈ queued two_tasklets c -> c = 0%nat /\ (t = 7%nat \/ t = 8%nat).
Proof. unfold queued, two_tasklets; simpl. destruct (c =? 0)%nat eqn:E; set_unfold; [|done]. apply Nat.eqb_eq in E. tauto. Qed.

Lemma two_tasklets_inv : queue_inv two_tasklets.
Proof.
  split.
  - intros c. unfold queued, two_tasklets; simpl. destruct (c =? 0)%nat; simpl; [|constructor].
    by apply (bool_decide_unpack (NoDup [7%nat; 8%nat])).
  - intros t c1 c2 [-> _]%two_tasklets_queued [-> _]%two_tasklets_queued. done.
  - intros t. split.
    + intros (c & [-> Ht]%two_tasklets_queued).
      destruct Ht as [->| ->]; eexists; (split; [reflexivity|reflexivity]).
    + intros (x & Hx & _). exists 0%nat. unfold two_tasklets in Hx; simpl in Hx.
      unfold queued; simpl. destruct (decide (t = 7%nat)) as [->|]; [set_solver|].
      destruct (decide (t = 8%nat)) as [->|]; [set_solver|].
      by rewrite lookup_insert_ne, lookup_singleton_ne in Hx by done.
Qed.

Lemma tasklet_action_runs_queued_witness :
  exists s', tasklet_action log_call 0 (two_tasklets, []) = Ret tt (s', [8%nat]) /\
    tasklet_vec (cpus s' 0) = [7%nat].
Proof.
  destruct (tasklet_action_runs_queued 0 two_tasklets two_tasklets_inv) as (s' & E & Ev & _).
  exists s'. split; [exact E|exact Ev].
Defined.

(** ** The dispatch loop calls the handlers of exactly the raised softirqs *)

(** the set bits of [p] below [n], in increasing order *)
Definition bits (n : nat) (p : Z) : list Z :=
  filter (fun i => Z.testbit p i = true) (seqZ 0 (Z.of_nat n)).

Definition run_all {S} (action : Z -> M S unit) (l : list Z) : M S unit :=
  foldr (fun nr k => action nr ;; k) (mret tt) l.

Lemma ffs_from_spec n i p :
  0 <= i ->
  (ffs_from n i p = 0 /\ forall j, i <= j < i + Z.of_nat n -> Z.testbit p j = false) \/
  (exists b, ffs_from n i p = b + 1 /\ i <= b < i + Z.of_nat n /\ Z.testbit p b = true /\
     forall j, i <= j < b -> Z.testbit p j = false).
Proof.
  revert i. induction n as [|n IH]; intros i Hi; simpl.
  { left. split; [done|]. lia. }
  destruct (Z.testbit p i) eqn:E.
  { right. exists i. repeat split; try done; lia. }
  destruct (IH (i + 1)) as [[E0 Hz]|(b & E0 & Hb & Ht & Hz)]; [lia| |].
  - left. split; [done|]. intros j Hj. destruct (decide (j = i)) as [->|]; [done|]. apply Hz. lia.
  - right. exists b. repeat split; try done; try lia.
    intros j Hj. destruct (decide (j = i)) as [->|]; [done|]. apply Hz. lia.
Qed.

Lemma testbit_high p n i : 0 <= p < 2 ^ n -> n <= i -> Z.testbit p i = false.
Proof.
  intros Hp Hi. destruct (decide (p = 0)) as [->|]; [apply Z.bits_0|].
  apply Z.bits_above_log2; [lia|]. apply Z.log2_lt_pow2; [lia|].
  assert (2 ^ n <= 2 ^ i) by (apply Z.pow_le_mono_r; lia). lia.
Qed.

Lemma bits_none_seq p b :
  (forall j, 0 <= j < b -> Z.testbit p j = false) ->
  filter (fun i => Z.testbit p i = true) (seqZ 0 b) = [].
Proof.
  intros Hz. assert (Hall : Forall (fun i => Z.testbit p i = false) (seqZ 0 b)).
  { apply Forall_forall. intros i Hi%elem_of_seqZ. apply Hz. lia. }
  induction Hall as [|i l Hi Hl IH]; [done|]. by rewrite filter_cons, Hi.
Qed.

Lemma bits_none n p : (forall j, 0 <= j < Z.of_nat n -> Z.testbit p j = false) -> bits n p = [].
Proof.
  intros Hz. by apply bits_none_seq.
Qed.

Lemma filter_seqZ_shift p b k n :
  0 <= b -> 0 <= k ->
  filter (fun i => Z.testbit p i = true) (seqZ (b + k) n) =
    Z.add b <$> filter (fun i => Z.testbit (Z.shiftr p b) i = true) (seqZ k n).
Proof.
  intros Hb Hk. rewrite <- fmap_add_seqZ.
  assert (Hpos : Forall (fun i => 0 <= i) (seqZ k n)).
  { apply Forall_forall. intros i Hi%elem_of_seqZ. lia. }
  induction Hpos as [|i l Hi Hl IH]; [done|]. rewrite fmap_cons, !filter_cons.
  rewrite Z.shiftr_spec by lia. rewrite (Z.add_comm i b).
  destruct (Z.testbit p (b + i)); simpl; rewrite IH; done.
Qed.


Lemma bits_first n p b :
  0 <= p -> 0 <= b < Z.of_nat n -> Z.testbit p b = true ->
  (forall j, 0 <= j < b -> Z.testbit p j = false) ->
  bits n p = b :: (Z.add (b + 1) <$> bits (n - Z.to_nat (b + 1)) (Z.shiftr p (b + 1))).
Proof.
  intros Hp Hb Ht Hz. unfold bits.
  replace (Z.of_nat n) with (b + (1 + Z.of_nat (n - Z.to_nat (b + 1)))) at 1 by lia.
  rewrite !seqZ_app by lia. rewrite !filter_app. simpl.
  rewrite (bits_none_seq p b) by done.
  rewrite (seqZ_cons (0 + b) 1), (seqZ_nil (Z.succ (0 + b))) by lia.
  replace (0 + b) with b by lia. rewrite filter_cons, Ht. simpl. f_equal.
  rewrite <- filter_seqZ_shift by lia. do 2 f_equal; lia.
Qed.

Lemma softirq_loop_bits {S} (action : Z -> M S unit) fuel n h p s :
  (n < fuel)%nat -> (n <= 32)%nat -> 0 <= p < 2 ^ Z.of_nat n ->
  softirq_loop action fuel h p s = run_all action (Z.add h <$> bits n p) s.
Proof.
  revert n h p s. induction fuel as [|fuel IH]; intros n h p s Hn H32 Hp; [lia|].
  simpl. unfold ffs. destruct (ffs_from_spec 32 0 p) as [[E Hz]|(b & E & Hb & Ht & Hz)]; [lia| |].
  - rewrite E. simpl. rewrite bits_none; [done|]. intros j Hj. apply Hz. lia.
  - assert (Hbn : b < Z.of_nat n).
    { destruct (decide (b < Z.of_nat n)); [done|].
      rewrite (testbit_high p (Z.of_nat n)) in Ht by lia. done. }
    rewrite E. replace (b + 1 =? 0) with false by (symmetry; apply Z.eqb_neq; lia).
    rewrite (bits_first n p b) by (done || lia). simpl. unfold mbind, M_bind.
    replace (h + (b + 1 - 1)) with (h + b) by lia.
    destruct (action (h + b) s) as [a s1|s1|]; try done.
    rewrite (IH (n - Z.to_nat (b + 1))%nat); try lia.
    + f_equal. rewrite <- list_fmap_compose. apply list_fmap_ext. intros i x _. simpl. lia.
    + rewrite Z.shiftr_div_pow2 by lia. split; [apply Z.div_pos; lia|].
      apply Z.div_lt_upper_bound; [lia|]. rewrite <- Z.pow_add_r by lia.
      replace (b + 1 + Z.of_nat (n - Z.to_nat (b + 1))) with (Z.of_nat n) by lia. lia.
Qed.

(** for every pending mask of 32 bits the dispatch loop terminates within its
    bound and calls the handlers of exactly the raised softirqs, once each, in
    increasing order of their number. *)
Theorem softirq_dispatch {S} (action : Z -> M S unit) (pending : Z) (s : S) :
  0 <= pending < 2 ^ 32 ->
  softirq_loop action 33 0 pending s = run_all action (bits 32 pending) s.
Proof.
  intros Hp. rewrite (softirq_loop_bits action 33 32) by (done || lia).
  f_equal. rewrite <- (list_fmap_id (bits 32 pending)) at 2.
  apply list_fmap_ext. intros i x _. done.
Qed.

Lemma softirq_dispatch_witness :
  softirq_loop (fun nr => modify (fun l => l ++ [nr])) 33 0 (2 ^ 6 + 2 ^ 0 + 2 ^ 9) [] =
    Ret tt [0; 6; 9].
Proof. rewrite softirq_dispatch by lia. vm_compute. reflexivity. Defined.

End Tasklet.
