(* ===== verification/Cmgroup.v ===== *)
(** * Concurrency management groups (fs/cmgroup.c, include/linux/cmgroup.h)

    The cmgroup object, its life cycle, the association of tasks and the
    accounting of runnable tasks, the attachment protocol of the event
    sources and the system calls on a group's descriptor.  What needs the
    wake-up path (the tasklet's body, cmgroup_wait, cmgroup_detach) is in
    CmWake.v, on top of the scheduler's part in Sched.v. *)

From S2P Require Import Prelude Wait Tasklet.
Local Open Scope Z_scope.

(** ** Data *)

Inductive cmgroup_action :=
  | CMGROUP_ACTION_NEUTRAL
  | CMGROUP_ACTION_WAKEALL
  | CMGROUP_ACTION_RESET_WAKEONE.

#[export] Instance cmgroup_action_eq_dec : EqDecision cmgroup_action.
Proof. solve_decision. Defined.

(** Where the [wq] and [lock] pointers of a group point: to the group's own
    queue [__wq] (and its lock), or to the queue (and lock) of an eventpoll. *)
Inductive wq_ref :=
  | Local_wq
  | Epoll_wq (ep : nat).

#[export] Instance wq_ref_eq_dec : EqDecision wq_ref.
Proof. solve_decision. Defined.

(** struct cmgroup; the embedded [tasklet] is the entry of the same address
    in the softirq component's table, and [free_work] is the membership of
    the kernel's list of scheduled works. *)
Record cmgroup := Cmgroup {
  kref : Z;
  action : cmgroup_action;
  attached_mtx : bool;
  lock : wq_ref;
  wq : wq_ref;
  concurrency_value : Z;
  attached_epoll : option nat;
  attached_aio : option nat;
  __wq : wait_queue_head_t;
  available : Z;
  tasklet_active : bool;
  n_waked : Z
}.

Definition set_kref (x : Z) (r : cmgroup) : cmgroup :=
  Cmgroup x (action r) (attached_mtx r) (lock r) (wq r) (concurrency_value r)
    (attached_epoll r) (attached_aio r) (__wq r) (available r) (tasklet_active r) (n_waked
    r).
Definition set_action (x : cmgroup_action) (r : cmgroup) : cmgroup :=
  Cmgroup (kref r) x (attached_mtx r) (lock r) (wq r) (concurrency_value r) (attached_epoll
    r) (attached_aio r) (__wq r) (available r) (tasklet_active r) (n_waked r).
Definition set_attached_mtx (x : bool) (r : cmgroup) : cmgroup :=
  Cmgroup (kref r) (action r) x (lock r) (wq r) (concurrency_value r) (attached_epoll r)
    (attached_aio r) (__wq r) (available r) (tasklet_active r) (n_waked r).
Definition set_lock (x : wq_ref) (r : cmgroup) : cmgroup :=
  Cmgroup (kref r) (action r) (attached_mtx r) x (wq r) (concurrency_value r)
    (attached_epoll r) (attached_aio r) (__wq r) (available r) (tasklet_active r) (n_waked
    r).
Definition set_wq (x : wq_ref) (r : cmgroup) : cmgroup :=
  Cmgroup (kref r) (action r) (attached_mtx r) (lock r) x (concurrency_value r)
    (attached_epoll r) (attached_aio r) (__wq r) (available r) (tasklet_active r) (n_waked
    r).
Definition set_concurrency_value (x : Z) (r : cmgroup) : cmgroup :=
  Cmgroup (kref r) (action r) (attached_mtx r) (lock r) (wq r) x (attached_epoll r)
    (attached_aio r) (__wq r) (available r) (tasklet_active r) (n_waked r).
Definition set_attached_epoll (x : option nat) (r : cmgroup) : cmgroup :=
  Cmgroup (kref r) (action r) (attached_mtx r) (lock r) (wq r) (concurrency_value r) x
    (attached_aio r) (__wq r) (available r) (tasklet_active r) (n_waked r).
Definition set_attached_aio (x : option nat) (r : cmgroup) : cmgroup :=
  Cmgroup (kref r) (action r) (attached_mtx r) (lock r) (wq r) (concurrency_value r)
    (attached_epoll r) x (__wq r) (available r) (tasklet_active r) (n_waked r).
Definition set___wq (x : wait_queue_head_t) (r : cmgroup) : cmgroup :=
  Cmgroup (kref r) (action r) (attached_mtx r) (lock r) (wq r) (concurrency_value r)
    (attached_epoll r) (attached_aio r) x (available r) (tasklet_active r) (n_waked r).
Definition set_available (x : Z) (r : cmgroup) : cmgroup :=
  Cmgroup (kref r) (action r) (attached_mtx r) (lock r) (wq r) (concurrency_value r)
    (attached_epoll r) (attached_aio r) (__wq r) x (tasklet_active r) (n_waked r).
Definition set_tasklet_active (x : bool) (r : cmgroup) : cmgroup :=
  Cmgroup (kref r) (action r) (attached_mtx r) (lock r) (wq r) (concurrency_value r)
    (attached_epoll r) (attached_aio r) (__wq r) (available r) x (n_waked r).
Definition set_n_waked (x : Z) (r : cmgroup) : cmgroup :=
  Cmgroup (kref r) (action r) (attached_mtx r) (lock r) (wq r) (concurrency_value r)
    (attached_epoll r) (attached_aio r) (__wq r) (available r) (tasklet_active r) x.

(** The fields of struct task_struct that the modelled code reads and writes:
    [tstate] is [state]; [se_queued] says that the scheduling class has the
    task on its queue; [sigpending] is signal_pending(). *)
Record task_struct := TaskStruct {
  tstate : Z;
  on_rq : bool;
  se_queued : bool;
  tcpu : nat;
  task_cmgroup : option nat;
  cmgroup_charged : bool;
  sigpending : bool
}.

Definition set_tstate (x : Z) (r : task_struct) : task_struct :=
  TaskStruct x (on_rq r) (se_queued r) (tcpu r) (task_cmgroup r) (cmgroup_charged r)
    (sigpending r).
Definition set_on_rq (x : bool) (r : task_struct) : task_struct :=
  TaskStruct (tstate r) x (se_queued r) (tcpu r) (task_cmgroup r) (cmgroup_charged r)
    (sigpending r).
Definition set_se_queued (x : bool) (r : task_struct) : task_struct :=
  TaskStruct (tstate r) (on_rq r) x (tcpu r) (task_cmgroup r) (cmgroup_charged r)
    (sigpending r).
Definition set_tcpu (x : nat) (r : task_struct) : task_struct :=
  TaskStruct (tstate r) (on_rq r) (se_queued r) x (task_cmgroup r) (cmgroup_charged r)
    (sigpending r).
Definition set_task_cmgroup (x : option nat) (r : task_struct) : task_struct :=
  TaskStruct (tstate r) (on_rq r) (se_queued r) (tcpu r) x (cmgroup_charged r)
    (sigpending r).
Definition set_cmgroup_charged (x : bool) (r : task_struct) : task_struct :=
  TaskStruct (tstate r) (on_rq r) (se_queued r) (tcpu r) (task_cmgroup r) x (sigpending
    r).
Definition set_sigpending (x : bool) (r : task_struct) : task_struct :=
  TaskStruct (tstate r) (on_rq r) (se_queued r) (tcpu r) (task_cmgroup r)
    (cmgroup_charged r) x.

Inductive file_operations := cmgroup_fops | eventpoll_fops | other_fops.

#[export] Instance file_operations_eq_dec : EqDecision file_operations.
Proof. solve_decision. Defined.

Record file := File { f_op : file_operations; private_data : option nat }.

(** The kernel state the component works on: the heap of groups, the tasks,
    the open files and the descriptor table of the caller, the [cmgroup]
    pointers of the eventpolls and of the AIO contexts ([ep_cmgroup],
    [aio_cmgroup]: no entry for NULL), the wait queues [wq] of the
    eventpolls, the works scheduled
    to free a group, whether the code runs in interrupt context or with
    interrupts disabled, and the softirq state. *)
Record kernel := Kernel {
  cmgroups : gmap nat cmgroup;
  tasks : gmap nat task_struct;
  files : gmap nat file;
  fdt : gmap Z nat;
  ep_cmgroup : gmap nat nat;
  ep_wq : gmap nat wait_queue_head_t;
  aio_cmgroup : gmap nat nat;
  free_works : list nat;
  atomic_ctx : bool;
  sirqs : Tasklet.softirq;
  this_cpu : nat
}.

Definition set_cmgroups (x : gmap nat cmgroup) (r : kernel) : kernel :=
  Kernel x (tasks r) (files r) (fdt r) (ep_cmgroup r) (ep_wq r) (aio_cmgroup r) (free_works
    r) (atomic_ctx r) (sirqs r) (this_cpu r).
Definition set_tasks (x : gmap nat task_struct) (r : kernel) : kernel :=
  Kernel (cmgroups r) x (files r) (fdt r) (ep_cmgroup r) (ep_wq r) (aio_cmgroup r)
    (free_works r) (atomic_ctx r) (sirqs r) (this_cpu r).
Definition set_files (x : gmap nat file) (r : kernel) : kernel :=
  Kernel (cmgroups r) (tasks r) x (fdt r) (ep_cmgroup r) (ep_wq r) (aio_cmgroup r)
    (free_works r) (atomic_ctx r) (sirqs r) (this_cpu r).
Definition set_fdt (x : gmap Z nat) (r : kernel) : kernel :=
  Kernel (cmgroups r) (tasks r) (files r) x (ep_cmgroup r) (ep_wq r) (aio_cmgroup r)
    (free_works r) (atomic_ctx r) (sirqs r) (this_cpu r).
Definition set_ep_cmgroup (x : gmap nat nat) (r : kernel) : kernel :=
  Kernel (cmgroups r) (tasks r) (files r) (fdt r) x (ep_wq r) (aio_cmgroup r) (free_works r)
    (atomic_ctx r) (sirqs r) (this_cpu r).
Definition set_ep_wq (x : gmap nat wait_queue_head_t) (r : kernel) : kernel :=
  Kernel (cmgroups r) (tasks r) (files r) (fdt r) (ep_cmgroup r) x (aio_cmgroup r)
    (free_works r) (atomic_ctx r) (sirqs r) (this_cpu r).
Definition set_aio_cmgroup (x : gmap nat nat) (r : kernel) : kernel :=
  Kernel (cmgroups r) (tasks r) (files r) (fdt r) (ep_cmgroup r) (ep_wq r) x (free_works r)
    (atomic_ctx r) (sirqs r) (this_cpu r).
Definition set_free_works (x : list nat) (r : kernel) : kernel :=
  Kernel (cmgroups r) (tasks r) (files r) (fdt r) (ep_cmgroup r) (ep_wq r) (aio_cmgroup r) x
    (atomic_ctx r) (sirqs r) (this_cpu r).
Definition set_atomic_ctx (x : bool) (r : kernel) : kernel :=
  Kernel (cmgroups r) (tasks r) (files r) (fdt r) (ep_cmgroup r) (ep_wq r) (aio_cmgroup r)
    (free_works r) x (sirqs r) (this_cpu r).
Definition set_sirqs (x : Tasklet.softirq) (r : kernel) : kernel :=
  Kernel (cmgroups r) (tasks r) (files r) (fdt r) (ep_cmgroup r) (ep_wq r) (aio_cmgroup r)
    (free_works r) (atomic_ctx r) x (this_cpu r).
Definition set_this_cpu (x : nat) (r : kernel) : kernel :=
  Kernel (cmgroups r) (tasks r) (files r) (fdt r) (ep_cmgroup r) (ep_wq r) (aio_cmgroup r)
    (free_works r) (atomic_ctx r) (sirqs r) x.

#[export] Instance kernel_softirq : Tasklet.HasSoftirq kernel.
Proof. refine {| Tasklet.get_softirq := sirqs; Tasklet.set_softirq := set_sirqs |}; try done. by intros []. Defined.

Abbreviation K := (M kernel).

(** Access to a group through a pointer: an oops when the object was freed,
    or when its last reference is gone and it waits to be freed. *)
Definition get_cm (g : nat) : K cmgroup :=
  deref (fun k => c ← cmgroups k !! g; if 0 <? kref c then Some c else None).

Definition put_cm (g : nat) (c : cmgroup) : K unit :=
  modify (fun k => set_cmgroups (<[g := c]> (cmgroups k)) k).

Definition upd_cm (g : nat) (f : cmgroup -> cmgroup) : K unit :=
  c ← get_cm g; put_cm g (f c).

Definition get_task (t : nat) : K task_struct := deref (fun k => tasks k !! t).

Definition put_task (t : nat) (x : task_struct) : K unit :=
  modify (fun k => set_tasks (<[t := x]> (tasks k)) k).

(** a softirq operation that touches an unallocated tasklet is an oops *)
Definition softirq_op (f : Tasklet.softirq -> option Tasklet.softirq) : K unit :=
  fun k => match f (sirqs k) with Some s => Ret tt (set_sirqs s k) | None => Oops end.

(** ** include/linux/cmgroup.h *)

Definition __cmgroup_free (g : nat) : K unit :=
  modify (fun k =>
    set_sirqs (Tasklet.Softirq (Tasklet.cpus (sirqs k)) (delete g (Tasklet.tasklets (sirqs k))))
      (set_cmgroups (delete g (cmgroups k)) k)).

Definition cmgroup_free (g : nat) : K unit :=
  k ← get;
  if atomic_ctx k then modify (fun k => set_free_works (free_works k ++ [g]) k)
  else __cmgroup_free g.

(** the work function, run when the worker reaches the scheduled work *)
Definition __cmgroup_free_work : K unit :=
  k ← get;
  match free_works k with
  | [] => mret tt
  | g :: l => modify (set_free_works l) ;; __cmgroup_free g
  end.

Definition cmgroup_kref_release (g : nat) : K unit := cmgroup_free g.

Definition cmgroup_ref (g : nat) : K unit := upd_cm g (fun c => set_kref (kref c + 1) c).

Definition cmgroup_unref (g : nat) : K unit :=
  c ← get_cm g;
  put_cm g (set_kref (kref c - 1) c) ;;
  if kref c - 1 =? 0 then cmgroup_kref_release g else mret tt.

(** [atomic_read] followed by a [cmpxchg] of the value with itself *)
Definition cmgroup_available (g : nat) : K Z := c ← get_cm g; mret (available c).

Definition cmgroup_request_action (g : nat) (a : cmgroup_action) : K unit :=
  upd_cm g (set_action a).

Definition mutex_lock (g : nat) : K unit :=
  c ← get_cm g; if attached_mtx c then block else put_cm g (set_attached_mtx true c).
Definition mutex_unlock (g : nat) : K unit := upd_cm g (set_attached_mtx false).

(** ** fs/cmgroup.c: allocation and descriptors *)

Definition CMGROUP_MAX_CONCURRENCY_VALUE : Z := 1024 * 1024.
Definition CMGROUP_CLOEXEC : Z := Z.shiftl 1 0.
Definition O_RDWR : Z := 2.
Definition O_CLOEXEC : Z := 524288.

Definition file_cmgroup (f : file) : option nat := private_data f.

Definition is_file_cmgroup (f : file) : bool := bool_decide (f_op f = cmgroup_fops).

(** [addr] is what kmalloc returned, [None] for NULL *)
Definition cmgroup_alloc (addr : option nat) (nthreads : Z) : K (Z + nat) :=
  match addr with
  | None => mret (inl (- ENOMEM))
  | Some g =>
      modify (fun k =>
        set_sirqs (Tasklet.tasklet_init g (sirqs k))
          (set_cmgroups (<[g := Cmgroup 1 CMGROUP_ACTION_WAKEALL false Local_wq Local_wq nthreads
                                  None None [] nthreads false 0]> (cmgroups k)) k)) ;;
      mret (inr g)
  end.

(** the VFS calls it when the last reference of the file is gone *)
Definition cmgroup_fop_release (f : nat) : K Z :=
  x ← deref (fun k => files k !! f);
  match file_cmgroup x with
  | Some g => cmgroup_unref g ;; mret 0
  | None => mret 0
  end.

Definition fdget (k : kernel) (fd : Z) : option file := f ← fdt k !! fd; files k !! f.

Definition cmgroup_from_fd (fd : Z) : K (Z + nat) :=
  k ← get;
  match fdget k fd with
  | None => mret (inl (- EBADF))
  | Some f =>
      if negb (is_file_cmgroup f) then mret (inl (- EINVAL))
      else match file_cmgroup f with
           | None => mret (inl (- EINVAL))
           | Some g => cmgroup_ref g ;; mret (inr g)
           end
  end.

(** what /proc/<pid>/fdinfo prints for a group *)
Inductive attached_str := attached_to_epoll | attached_to_aio | unattached.

Definition cmgroup_show_fdinfo (g : nat) : K (Z * Z * attached_str) :=
  mutex_lock g ;;
  c ← get_cm g;
  let attached :=
    match attached_epoll c, attached_aio c with
    | Some _, _ => attached_to_epoll
    | None, Some _ => attached_to_aio
    | None, None => unattached
    end in
  av ← cmgroup_available g;
  mutex_unlock g ;;
  mret (concurrency_value c, av, attached).

(** ** fs/cmgroup.c: accounting of runnable tasks *)

Definition fire_tasklet (g : nat) (in_sched : bool) : K unit :=
  c ← get_cm g;
  if tasklet_active c then mret tt
  else
    put_cm g (set_tasklet_active true c) ;;
    cmgroup_ref g ;;
    k ← get;
    if in_sched then softirq_op (Tasklet.tasklet_schedule_nosoftirqd_wake (this_cpu k) g)
    else softirq_op (Tasklet.tasklet_schedule (this_cpu k) g).

Definition cmgroup_one_more_runnable (t : nat) : K unit :=
  x ← get_task t;
  match task_cmgroup x with
  | None => oops
  | Some g =>
      put_task t (set_cmgroup_charged true x) ;;
      upd_cm g (fun c => set_available (s32 (available c - 1)) c)
  end.

Definition cmgroup_one_less_runnable (t : nat) (in_sched : bool) : K unit :=
  x ← get_task t;
  match task_cmgroup x with
  | None => oops
  | Some g =>
      put_task t (set_cmgroup_charged false x) ;;
      c ← get_cm g;
      put_cm g (set_available (s32 (available c + 1)) c) ;;
      if s32 (available c + 1) =? 1 then fire_tasklet g in_sched else mret tt
  end.

Definition __cmgroup_task_enqueued (t : nat) : K unit := cmgroup_one_more_runnable t.
Definition __cmgroup_task_dequeued (t : nat) : K unit := cmgroup_one_less_runnable t true.

Definition ENQUEUE_NOCMGROUP : Z := 16.
Definition DEQUEUE_NOCMGROUP : Z := 2.

Definition cmgroup_task_enqueued (t : nat) (flags : Z) : K unit :=
  x ← get_task t;
  if bool_decide (task_cmgroup x <> None) && (Z.land flags ENQUEUE_NOCMGROUP =? 0)
       && negb (cmgroup_charged x)
  then __cmgroup_task_enqueued t else mret tt.

Definition cmgroup_task_dequeued (t : nat) (flags : Z) : K unit :=
  x ← get_task t;
  if bool_decide (task_cmgroup x <> None) && (Z.land flags DEQUEUE_NOCMGROUP =? 0)
       && cmgroup_charged x
  then __cmgroup_task_dequeued t else mret tt.

(** ** fs/cmgroup.c: association of tasks *)

Definition cmgroup_dissociate (t : nat) : K unit :=
  x ← get_task t;
  match task_cmgroup x with
  | None => mret tt
  | Some g =>
      (if cmgroup_charged x then cmgroup_one_less_runnable t false else mret tt) ;;
      x ← get_task t;
      put_task t (set_task_cmgroup None x) ;;
      cmgroup_unref g
  end.

Definition cmgroup_associate (t g : nat) (addref : bool) : K unit :=
  x ← get_task t;
  if bool_decide (task_cmgroup x = Some g) then
    if addref then mret tt else cmgroup_unref g
  else
    (if addref then cmgroup_ref g else mret tt) ;;
    (if bool_decide (task_cmgroup x <> None) then cmgroup_dissociate t else mret tt) ;;
    x ← get_task t;
    put_task t (set_cmgroup_charged false (set_task_cmgroup (Some g) x)) ;;
    cmgroup_one_more_runnable t.

(** ** Locking out the tasklet, and the attachment protocol *)

Section Sleeping.
(** what the rest of the system does while the caller sleeps in msleep(1) *)
Variable msleep : K unit.

Fixpoint cmgroup_lockout_tasklet (fuel : nat) (g : nat) : K unit :=
  match fuel with
  | O => block
  | S fuel' =>
      c ← get_cm g;
      if tasklet_active c then msleep ;; cmgroup_lockout_tasklet fuel' g
      else put_cm g (set_tasklet_active true c)
  end.

Definition cmgroup_unlockout_tasklet (g : nat) : K unit :=
  upd_cm g (set_tasklet_active false) ;; fire_tasklet g false.

Definition cmgroup_begin_attach_aio (fuel : nat) (g ioctx : nat) : K Z :=
  mutex_lock g ;;
  c ← get_cm g;
  if bool_decide (attached_aio c = Some ioctx) then mutex_unlock g ;; mret (- EALREADY)
  else if bool_decide (attached_aio c <> None) || bool_decide (attached_epoll c <> None)
  then mutex_unlock g ;; mret (- EBUSY)
  else cmgroup_lockout_tasklet fuel g ;; mret 0.

Definition cmgroup_begin_attach_epoll (fuel : nat) (g ep : nat) : K Z :=
  mutex_lock g ;;
  c ← get_cm g;
  if bool_decide (attached_epoll c = Some ep) then mutex_unlock g ;; mret (- EALREADY)
  else if bool_decide (attached_aio c <> None) || bool_decide (attached_epoll c <> None)
  then mutex_unlock g ;; mret (- EBUSY)
  else cmgroup_lockout_tasklet fuel g ;; mret 0.

Definition cmgroup_do_attach_aio (g ioctx : nat) : K unit :=
  upd_cm g (set_attached_aio (Some ioctx)).

(** [lock] and [wq] are the lock and the queue of the eventpoll *)
Definition cmgroup_do_attach_epoll (g ep : nat) : K unit :=
  upd_cm g (fun c => set_wq (Epoll_wq ep) (set_lock (Epoll_wq ep) (set_attached_epoll (Some ep) c))).

Definition cmgroup_end_attach (g : nat) : K unit :=
  cmgroup_unlockout_tasklet g ;; mutex_unlock g.
End Sleeping.

(** ** System calls on a group *)

(** [ncpus] is num_active_cpus(), [addr] the result of kmalloc;
    get_unused_fd_flags and anon_inode_getfile (an error or the address of
    the file) depend on the flags they are given *)
Definition sys_cmgroup_newgroup (ncpus : Z) (addr : option nat)
    (get_unused_fd_flags : Z -> Z) (anon_inode_getfile : Z -> Z + nat)
    (nthreads flags : Z) : K Z :=
  if negb (Z.land flags (Z.lnot CMGROUP_CLOEXEC) =? 0) then mret (- EINVAL)
  else
    let nthreads := if nthreads =? 0 then ncpus else nthreads in
    if (nthreads <=? 0) || (CMGROUP_MAX_CONCURRENCY_VALUE <? nthreads) then mret (- EINVAL)
    else
      let file_flags :=
        if negb (Z.land flags CMGROUP_CLOEXEC =? 0) then Z.lor O_RDWR O_CLOEXEC else O_RDWR in
      r ← cmgroup_alloc addr nthreads;
      match r with
      | inl error => mret error
      | inr g =>
          let fd := get_unused_fd_flags file_flags in
          if fd <? 0 then cmgroup_free g ;; mret fd
          else
            match anon_inode_getfile file_flags with
            | inl error => cmgroup_free g ;; mret error
            | inr f =>
                modify (fun k => set_fdt (<[fd := f]> (fdt k))
                                   (set_files (<[f := File cmgroup_fops (Some g)]> (files k)) k)) ;;
                mret fd
            end
      end.

(** [current] is the calling task *)
Definition sys_cmgroup_associate (current : nat) (fd : Z) : K Z :=
  r ← cmgroup_from_fd fd;
  match r with
  | inl error => mret error
  | inr g => cmgroup_associate current g false ;; mret 0
  end.

Definition sys_cmgroup_dissociate (current : nat) : K Z :=
  cmgroup_dissociate current ;; mret 0.

Definition sys_cmgroup_get_concurrency_value (fd : Z) : K Z :=
  r ← cmgroup_from_fd fd;
  match r with
  | inl error => mret error
  | inr g =>
      c ← get_cm g;
      cmgroup_unref g ;;
      mret (concurrency_value c)
  end.

Definition sys_cmgroup_set_concurrency_value (ncpus : Z) (fd nthreads : Z) : K Z :=
  let nthreads := if nthreads =? 0 then ncpus else nthreads in
  if (nthreads <=? 0) || (CMGROUP_MAX_CONCURRENCY_VALUE <? nthreads) then mret (- EINVAL)
  else
    r ← cmgroup_from_fd fd;
    match r with
    | inl error => mret error
    | inr g =>
        mutex_lock g ;;
        c ← get_cm g;
        let change := s32 (nthreads - concurrency_value c) in
        let new := s32 (available c + change) in
        let old := s32 (new - change) in
        put_cm g (set_available new (set_concurrency_value nthreads c)) ;;
        (if (old <? 1) && (1 <=? new) then fire_tasklet g false else mret tt) ;;
        mutex_unlock g ;;
        cmgroup_unref g ;;
        mret 0
    end.
