(* ===== verification/Sched.v ===== *)
(** * The scheduler's side of cmgroup (kernel/sched/core.c, fair.c, rt.c,
    deadline.c, kernel/fork.c, kernel/exit.c)

    Where a task enters and leaves the run queue, and what cmgroup is told
    about it: the wake-up path, the sleep path, the moves between run queues
    (which must not be seen by the accounting), fork and exit.  The queue of
    the scheduling class is the flag [se_queued]; priorities, load and
    statistics are not modelled. *)

From S2P Require Import Prelude Wait Tasklet Cmgroup.
Local Open Scope Z_scope.

Definition ENQUEUE_WAKEUP : Z := 1.
Definition ENQUEUE_HEAD : Z := 2.
Definition ENQUEUE_WAKING : Z := 4.
Definition ENQUEUE_REPLENISH : Z := 8.
Definition DEQUEUE_SLEEP : Z := 1.
Definition TASK_WAKEKILL : Z := 128.

(** ** Entering and leaving the run queue *)

Definition enqueue_task (t : nat) (flags : Z) : K unit :=
  x ← get_task t;
  put_task t (set_se_queued true x) ;;
  cmgroup_task_enqueued t flags.

Definition dequeue_task (t : nat) (flags : Z) : K unit :=
  x ← get_task t;
  put_task t (set_se_queued false x) ;;
  cmgroup_task_dequeued t flags.

Definition activate_task (t : nat) (flags : Z) : K unit := enqueue_task t flags.
Definition deactivate_task (t : nat) (flags : Z) : K unit := dequeue_task t flags.

(** ** Waking up *)

Definition ttwu_activate (t : nat) (en_flags : Z) : K unit :=
  activate_task t en_flags ;;
  x ← get_task t;
  put_task t (set_on_rq true x).

Definition ttwu_do_wakeup (t : nat) : K unit :=
  x ← get_task t; put_task t (set_tstate TASK_RUNNING x).

Definition ttwu_do_activate (t : nat) : K unit :=
  ttwu_activate t (Z.lor ENQUEUE_WAKEUP ENQUEUE_WAKING) ;; ttwu_do_wakeup t.

(** returns whether the task was woken *)
Definition try_to_wake_up (t : nat) (state : Z) : K bool :=
  x ← get_task t;
  if Z.land (tstate x) state =? 0 then mret false
  else if on_rq x then ttwu_do_wakeup t ;; mret true
  else ttwu_do_activate t ;; mret true.

Definition wake_up_process (t : nat) : K bool := try_to_wake_up t TASK_NORMAL.

(** ** Going to sleep *)

(** [fatal] is __fatal_signal_pending() *)
Definition signal_pending_state (fatal : bool) (state : Z) (x : task_struct) : bool :=
  if Z.land state (Z.lor TASK_INTERRUPTIBLE TASK_WAKEKILL) =? 0 then false
  else if negb (sigpending x) then false
  else negb (Z.land state TASK_INTERRUPTIBLE =? 0) || fatal.

(** the part of __schedule() before the switch, for [prev] (not a preemption) *)
Definition schedule_out (fatal : bool) (prev : nat) : K unit :=
  x ← get_task prev;
  if tstate x =? 0 then mret tt
  else if signal_pending_state fatal (tstate x) x then put_task prev (set_tstate TASK_RUNNING x)
  else
    deactivate_task prev DEQUEUE_SLEEP ;;
    x ← get_task prev;
    put_task prev (set_on_rq false x).

(** ** Moves between run queues *)

Definition set_task_cpu (t cpu : nat) : K unit :=
  x ← get_task t; put_task t (set_tcpu cpu x).

Definition __migrate_swap_task (t cpu : nat) : K unit :=
  x ← get_task t;
  if on_rq x then
    deactivate_task t DEQUEUE_NOCMGROUP ;;
    set_task_cpu t cpu ;;
    activate_task t ENQUEUE_NOCMGROUP
  else mret tt.

Definition move_task (t dst_cpu : nat) : K unit :=
  deactivate_task t DEQUEUE_NOCMGROUP ;;
  set_task_cpu t dst_cpu ;;
  activate_task t ENQUEUE_NOCMGROUP.

(** [active] is cpu_active(dest_cpu), [allowed] the affinity test *)
Definition __migrate_task (active allowed : bool) (t src_cpu dest_cpu : nat) : K Z :=
  if negb active then mret 0
  else
    x ← get_task t;
    if bool_decide (tcpu x <> src_cpu) then mret 1
    else if negb allowed then mret 0
    else
      (if on_rq x then
         dequeue_task t DEQUEUE_NOCMGROUP ;;
         set_task_cpu t dest_cpu ;;
         enqueue_task t ENQUEUE_NOCMGROUP
       else mret tt) ;;
      mret 1.

(** a change of scheduling parameters: the shape shared by set_user_nice,
    rt_mutex_setprio, sched_setnuma, normalize_task and sched_move_task *)
Definition requeue_task (t : nat) (enqueue_flag : Z) : K unit :=
  x ← get_task t;
  if on_rq x then
    dequeue_task t DEQUEUE_NOCMGROUP ;;
    enqueue_task t (Z.lor enqueue_flag ENQUEUE_NOCMGROUP)
  else mret tt.

(** ** Fork and exit *)

(** the child [tsk] starts as a copy of [orig], outside of any group and, by
    __sched_fork(), off the run queue *)
Definition dup_task_struct (orig tsk : nat) : K unit :=
  x ← get_task orig;
  put_task tsk (set_se_queued false (set_on_rq false (set_task_cmgroup None x))).

Definition do_exit_cmgroup (tsk : nat) : K unit :=
  cmgroup_dissociate tsk ;;
  x ← get_task tsk;
  put_task tsk (set_tstate TASK_DEAD x) ;;
  schedule_out false tsk.
