(* ===== verification/CmWake.v ===== *)
(** * Waking and waiting in a group (fs/cmgroup.c)

    The tasklet that releases waiting tasks, the wait at the end of
    io_getevents, the wake-up function of its queue entries and the
    detachment of a group from its event source.  Each function is the whole
    handler, run without interference; the interleavings of the tasklet with
    the scheduler, with waiters and with attachments are in CmRace.v. *)

From S2P Require Import Prelude Wait Tasklet Cmgroup Sched.
Local Open Scope Z_scope.

(** ** The queue a group's [wq] points to *)

Definition get_queue (r : wq_ref) (g : nat) : K wait_queue_head_t :=
  match r with
  | Local_wq => c ← get_cm g; mret (__wq c)
  | Epoll_wq ep => deref (fun k => ep_wq k !! ep)
  end.

Definition put_queue (r : wq_ref) (g : nat) (q : wait_queue_head_t) : K unit :=
  match r with
  | Local_wq => upd_cm g (set___wq q)
  | Epoll_wq ep => modify (fun k => set_ep_wq (<[ep := q]> (ep_wq k)) k)
  end.

(** [list_del_init] of entry [id] from the queue *)
Definition unlink (r : wq_ref) (g id : nat) : K unit :=
  q ← get_queue r g; put_queue r g (__remove_wait_queue q id).

Definition default_wake (w : wait_queue_t) : K bool :=
  match wq_private w with
  | Some t => try_to_wake_up t TASK_NORMAL
  | None => oops
  end.

(** ** kernel/sched/wait.c, as the callers see it

    That file is not part of the tree.  [autoremove] is
    autoremove_wake_function ("waitqueues which are removed from the
    waitqueue_head at wakeup time", wait.h) and [finish_wait] ends a wait:
    the task is running again and its entry is off the queue. *)
Class WaitLib := {
  wait_core :: WakeCore;
  autoremove : wq_ref -> nat -> wait_queue_t -> K bool;
  autoremove_eq : forall r g w, autoremove r g w =
    (ret ← default_wake w;
     if (ret : bool) then unlink r g (wq_id w) ;; mret true else mret false);
  finish_wait : wq_ref -> nat -> nat -> nat -> K unit;
  finish_wait_eq : forall r g t id, finish_wait r g t id =
    (x ← get_task t; put_task t (set_tstate TASK_RUNNING x) ;; unlink r g id)
}.

Definition wait_lib : WaitLib :=
  {| wait_core := scan_core;
     autoremove := fun r g w =>
       ret ← default_wake w;
       if (ret : bool) then unlink r g (wq_id w) ;; mret true else mret false;
     autoremove_eq := fun r g w => eq_refl;
     finish_wait := fun r g t id =>
       x ← get_task t; put_task t (set_tstate TASK_RUNNING x) ;; unlink r g id;
     finish_wait_eq := fun r g t id => eq_refl |}.

Section CmWake.
Context `{WaitLib}.

Definition cmgroup_wake (r : wq_ref) (g : nat) (w : wait_queue_t) : K bool :=
  ret ← autoremove r g w;
  (if (ret : bool) then upd_cm g (fun c => set_n_waked (s32 (n_waked c + 1)) c) else mret tt) ;;
  mret ret.

(** [w->func(w, mode, ...)] *)
Definition call_func (r : wq_ref) (g : nat) (w : wait_queue_t) : K bool :=
  match wq_func w with
  | default_wake_function => default_wake w
  | autoremove_wake_function => autoremove r g w
  | cmgroup_wake_function => cmgroup_wake r g w
  | ep_poll_callback => oops
  end.

(** a call threaded through the scan, which an oops ends *)
Definition call_scan (r : wq_ref) (g : nat) (w : wait_queue_t) (o : outcome kernel unit)
  : bool * outcome kernel unit :=
  match o with
  | Ret _ k => match call_func r g w k with
               | Ret b k' => (b, Ret tt k')
               | Blocked k' => (false, Blocked k')
               | Oops => (false, Oops)
               end
  | o => (false, o)
  end.

Definition scan_queue (nr : Z) (r : wq_ref) (g : nat) (q : wait_queue_head_t) : K unit :=
  fun k => wake_up_common (call_scan r g) q nr (Ret tt k).

Definition wake_up_wq (nr : Z) (r : wq_ref) (g : nat) : K unit :=
  q ← get_queue r g; scan_queue nr r g q.

(** ** The tasklet *)

Definition max_passes : nat := 5.

Definition clear_active (g : nat) : K unit := upd_cm g (set_tasklet_active false).

(** where a run of the loop goes: [out_tasklet], [out_unlock] with the
    reference passed on, or [out_recheck] (with the passes that are left) *)
Inductive tasklet_exit := out_tasklet | out_unlock_resched | out_recheck (left : nat).

(** from label [again_wakeall]; [left] passes are left *)
Fixpoint again_wakeall (left : nat) (g : nat) : K tasklet_exit :=
  c ← get_cm g;
  q ← get_queue (wq c) g;
  if negb (waitqueue_active q) then mret out_tasklet
  else
    match left with
    | O =>
        k ← get;
        softirq_op (Tasklet.tasklet_schedule (this_cpu k) g) ;;
        mret out_unlock_resched
    | S left' =>
        if 0 <? available c then
          wake_up_wq 1 (wq c) g ;;
          c' ← get_cm g;
          if n_waked c =? n_waked c' then mret out_tasklet
          else again_wakeall left' g
        else mret (out_recheck left')
    end.

Definition tasklet_locked (left : nat) (g : nat) : K tasklet_exit :=
  c ← get_cm g;
  match action c with
  | CMGROUP_ACTION_NEUTRAL => mret out_tasklet
  | CMGROUP_ACTION_RESET_WAKEONE =>
      if 0 <? available c then
        put_cm g (set_action CMGROUP_ACTION_NEUTRAL c) ;;
        q ← get_queue (wq c) g;
        (if waitqueue_active q then wake_up_wq 1 (wq c) g else mret tt) ;;
        mret out_tasklet
      else mret (out_recheck left)
  | CMGROUP_ACTION_WAKEALL => again_wakeall left g
  end.

(** from label [again]; returns whether to drop the reference.  The number
    of returns to [again] is bounded by [fuel]; a return needs an opening
    that appears between the check and the re-check, so without
    interference one round is enough. *)
Fixpoint tasklet_again (fuel left : nat) (g : nat) : K bool :=
  match fuel with
  | O => block
  | S fuel' =>
      e ← tasklet_locked left g;
      match e with
      | out_tasklet => clear_active g ;; mret true
      | out_unlock_resched => mret false
      | out_recheck left' =>
          clear_active g ;;
          av ← cmgroup_available g;
          if av <=? 0 then mret true
          else
            c ← get_cm g;
            if tasklet_active c then mret true
            else put_cm g (set_tasklet_active true c) ;; tasklet_again fuel' left' g
      end
  end.

Definition cmgroup_tasklet (g : nat) : K unit :=
  unref ← tasklet_again 1 max_passes g;
  if (unref : bool) then cmgroup_unref g else mret tt.

(** ** Waiting for an opening *)

(** [sleep t remaining] is schedule() of task [t], with a timer of
    [remaining] nanoseconds armed when there is a finite timeout; it
    returns what is left of the timer *)
Variable sleep : nat -> option Z -> K (option Z).

(** returns whether to continue the wait loop, and the remaining time;
    [id] is the address of the entry on the stack of task [t] *)
Definition __cmgroup_wait (g t id : nat) (remaining : option Z) (slack_ns : Z)
  : K (bool * option Z) :=
  if match remaining with Some r => r <=? slack_ns | None => false end
  then mret (false, remaining)
  else
    let w := set_func cmgroup_wake_function (init_wait id t) in
    c ← get_cm g;
    if 0 <=? available c then mret (false, remaining)
    else
      q ← get_queue (wq c) g;
      put_queue (wq c) g (__add_wait_queue_tail_exclusive q w) ;;
      x ← get_task t;
      put_task t (set_tstate TASK_INTERRUPTIBLE x) ;;
      if sigpending x then
        finish_wait (wq c) g t id ;; mret (false, remaining)
      else
        remaining' ← sleep t remaining;
        finish_wait (wq c) g t id ;;
        match remaining with
        | Some _ =>
            mret (match remaining' with Some r => slack_ns <? r | None => false end, remaining')
        | None => mret (true, None)
        end.

Definition KTIME_MAX : Z := 2 ^ 63 - 1.

(** the [for (;;)] loop *)
Fixpoint cmgroup_wait_loop (fuel : nat) (g t id : nat) (remaining : option Z) (slack_ns : Z)
  : K unit :=
  match fuel with
  | O => block
  | S fuel' =>
      x ← get_task t;
      if sigpending x then mret tt
      else
        av ← cmgroup_available g;
        if 0 <=? av then mret tt
        else
          r ← __cmgroup_wait g t id remaining slack_ns;
          if (fst r : bool) then cmgroup_wait_loop fuel' g t id (snd r) slack_ns
          else mret tt
  end.

Definition cmgroup_wait (fuel : nat) (g t id : nat) (ret : Z) (timeout remaining : option Z)
    (slack_ns : Z) : K Z :=
  c ← get_cm g;
  if bool_decide (wq c <> Local_wq) || bool_decide (lock c <> Local_wq) then mret ret
  else if (ret =? 0) || (ret =? - EINTR) || (ret =? - ERESTARTSYS) then mret ret
  else if bool_decide (timeout = Some 0) then mret ret
  else
    let remaining := if bool_decide (timeout = Some KTIME_MAX) then None else remaining in
    cmgroup_wait_loop fuel g t id remaining slack_ns ;;
    mret ret.

(** ** Detaching *)

Variable msleep : K unit.

(** wake the waiters of the local queue until it is empty *)
Fixpoint drain_local (fuel : nat) (g : nat) : K unit :=
  match fuel with
  | O => block
  | S fuel' =>
      c ← get_cm g;
      if waitqueue_active (__wq c) then
        wake_up_wq 0 Local_wq g ;; msleep ;; drain_local fuel' g
      else mret tt
  end.

Definition cmgroup_detach (fuel : nat) (g : nat) : K unit :=
  mutex_lock g ;;
  c ← get_cm g;
  (if bool_decide (wq c = Local_wq) then drain_local fuel g else mret tt) ;;
  cmgroup_lockout_tasklet msleep fuel g ;;
  upd_cm g (fun c =>
    set_action CMGROUP_ACTION_WAKEALL
      (set_lock Local_wq (set_wq Local_wq (set_attached_aio None (set_attached_epoll None c))))) ;;
  cmgroup_unlockout_tasklet g ;;
  mutex_unlock g ;;
  cmgroup_unref g.

(** ** Attaching to an event source (fs/eventpoll.c, fs/aio.c) *)

(** under [ep->lock]: make [g] the group of [ep], unless it has one *)
Definition ep_attach_locked (ep g : nat) : K Z :=
  k ← get;
  match ep_cmgroup k !! ep with
  | Some _ => mret (- EBUSY)
  | None =>
      modify (fun k => set_ep_cmgroup (<[ep := g]> (ep_cmgroup k)) k) ;;
      cmgroup_do_attach_epoll g ep ;;
      q ← get_queue (Epoll_wq ep) g;
      (if waitqueue_active q then wake_up_wq 0 (Epoll_wq ep) g else mret tt) ;;
      mret 0
  end.

Definition ep_attach_cmgroup (fuel : nat) (ep : nat) (fd : Z) : K Z :=
  r ← cmgroup_from_fd fd;
  match r with
  | inl error => mret error
  | inr g =>
      error ← cmgroup_begin_attach_epoll msleep fuel g ep;
      if negb (error =? 0) then
        cmgroup_unref g ;; mret (if error =? - EALREADY then 0 else error)
      else
        error ← ep_attach_locked ep g;
        cmgroup_end_attach g ;;
        (if negb (error =? 0) then cmgroup_unref g else mret tt) ;;
        mret error
  end.

(** under [ioctx->ctx_lock] *)
Definition aio_attach_locked (ioctx g : nat) : K Z :=
  k ← get;
  match aio_cmgroup k !! ioctx with
  | Some _ => mret (- EBUSY)
  | None =>
      modify (fun k => set_aio_cmgroup (<[ioctx := g]> (aio_cmgroup k)) k) ;;
      cmgroup_do_attach_aio g ioctx ;;
      mret 0
  end.

(** [lookup] is the result of lookup_ioctx(ctx_id) *)
Definition io_set_cmgroup (fuel : nat) (lookup : option nat) (fd : Z) : K Z :=
  r ← cmgroup_from_fd fd;
  match r with
  | inl error => mret error
  | inr g =>
      match lookup with
      | None => cmgroup_unref g ;; mret (- EINVAL)
      | Some ioctx =>
          error ← cmgroup_begin_attach_aio msleep fuel g ioctx;
          if negb (error =? 0) then
            cmgroup_unref g ;; mret (if error =? - EALREADY then 0 else error)
          else
            error ← aio_attach_locked ioctx g;
            cmgroup_end_attach g ;;
            (if negb (error =? 0) then cmgroup_unref g else mret tt) ;;
            mret error
      end
  end.

(** the end of ep_free(): the pointer is passed on to cmgroup_detach and the
    eventpoll, to which nobody else has a reference any more, is freed *)
Definition ep_free_cmgroup (fuel : nat) (ep : nat) : K unit :=
  k ← get;
  modify (fun k => set_ep_cmgroup (delete ep (ep_cmgroup k)) k) ;;
  match ep_cmgroup k !! ep with
  | Some g => cmgroup_detach fuel g
  | None => mret tt
  end ;;
  modify (fun k => set_ep_wq (delete ep (ep_wq k)) k).

(** the same of free_ioctx() *)
Definition free_ioctx_cmgroup (fuel : nat) (ioctx : nat) : K unit :=
  k ← get;
  modify (fun k => set_aio_cmgroup (delete ioctx (aio_cmgroup k)) k) ;;
  match aio_cmgroup k !! ioctx with
  | Some g => cmgroup_detach fuel g
  | None => mret tt
  end.
End CmWake.
