(* ===== verification/CmInv.v ===== *)
(** * References and accounting of a group

    The invariant of the cmgroup component: the reference count of a group is
    the number of places that hold a reference, a group is freed exactly when
    the last one goes, and [available] is the concurrency value minus the
    number of charged tasks.  Every operation of Cmgroup.v is proved against
    it: it does not oops, it does not sleep for ever, and it re-establishes
    the invariant. *)

From S2P Require Import Prelude Wait Tasklet Cmgroup.
Local Open Scope Z_scope.

(** ** Who refers to a group *)

Definition file_to (g : nat) (f : file) : bool :=
  bool_decide (f_op f = cmgroup_fops) && bool_decide (private_data f = Some g).
Definition in_group (g : nat) (x : task_struct) : bool := bool_decide (task_cmgroup x = Some g).
Definition charged_to (g : nat) (x : task_struct) : bool := in_group g x && cmgroup_charged x.

Definition tasklet_pending (k : kernel) (g : nat) : bool :=
  match Tasklet.tasklets (sirqs k) !! g with
  | Some x => Tasklet.is_sched x
  | None => false
  end.

(** open files, associated tasks, attached event sources, pending tasklet *)
Definition refs (k : kernel) (g : nat) : Z :=
  count (file_to g) (files k) + count (in_group g) (tasks k) +
  count (Nat.eqb g) (ep_cmgroup k) + count (Nat.eqb g) (aio_cmgroup k) +
  b2z (tasklet_pending k g).

Definition charged (k : kernel) (g : nat) : Z := count (charged_to g) (tasks k).

(** PID_MAX_LIMIT bounds the number of tasks *)
Definition PID_MAX_LIMIT : Z := 4 * 1024 * 1024.

(** [held g] counts the references the running code holds in local variables *)
Record inv (held : nat -> Z) (k : kernel) : Prop := Inv {
  inv_held : forall g, 0 <= held g;
  inv_live : forall g c, cmgroups k !! g = Some c -> kref c = refs k g + held g;
  inv_dead : forall g, cmgroups k !! g = None -> refs k g + held g = 0;
  inv_free : forall g, g ∈ free_works k <-> exists c, cmgroups k !! g = Some c /\ kref c = 0;
  inv_nodup : NoDup (free_works k);
  inv_tasklet : forall g, is_Some (cmgroups k !! g) -> is_Some (Tasklet.tasklets (sirqs k) !! g);
  inv_sched : forall g c, cmgroups k !! g = Some c -> tasklet_pending k g = true ->
                tasklet_active c = true;
  inv_avail : forall g c, cmgroups k !! g = Some c ->
                available c = concurrency_value c - charged k g;
  inv_value : forall g c, cmgroups k !! g = Some c ->
                1 <= concurrency_value c <= CMGROUP_MAX_CONCURRENCY_VALUE;
  inv_tasks : Z.of_nat (size (tasks k)) <= PID_MAX_LIMIT
}.

Definition no_refs : nat -> Z := fun _ => 0.
Definition hold (g : nat) (held : nat -> Z) : nat -> Z :=
  fun g' => held g' + (if (g =? g')%nat then 1 else 0).
Definition drop (g : nat) (held : nat -> Z) : nat -> Z :=
  fun g' => held g' - (if (g =? g')%nat then 1 else 0).

(** what the accounting operations leave alone in a group *)
Record same_config (c c' : cmgroup) : Prop := SameConfig {
  sc_action : action c' = action c;
  sc_mtx : attached_mtx c' = attached_mtx c;
  sc_lock : lock c' = lock c;
  sc_wq : wq c' = wq c;
  sc_value : concurrency_value c' = concurrency_value c;
  sc_epoll : attached_epoll c' = attached_epoll c;
  sc_aio : attached_aio c' = attached_aio c;
  sc_queue : __wq c' = __wq c
}.

(** while its tasklet is active, a group's tasklet is neither scheduled again
    nor made inactive by an accounting operation *)
Definition same_active (k k' : kernel) (g : nat) (c c' : cmgroup) : Prop :=
  tasklet_active c = true ->
  tasklet_active c' = true /\ tasklet_pending k' g = tasklet_pending k g.

(** the parts of the state an accounting operation leaves alone; a group it
    leaves behind is one of before with the same configuration *)
Record same_rest (k k' : kernel) : Prop := SameRest {
  sr_tasks : tasks k' = tasks k;
  sr_files : files k' = files k;
  sr_fdt : fdt k' = fdt k;
  sr_ep : ep_cmgroup k' = ep_cmgroup k;
  sr_epwq : ep_wq k' = ep_wq k;
  sr_aio : aio_cmgroup k' = aio_cmgroup k;
  sr_ctx : atomic_ctx k' = atomic_ctx k;
  sr_cpu : this_cpu k' = this_cpu k;
  sr_cm : forall g c', cmgroups k' !! g = Some c' ->
            exists c, cmgroups k !! g = Some c /\ same_config c c' /\ same_active k k' g c c'
}.

Lemma same_config_refl c : same_config c c.
Proof. by split. Qed.
#[export] Hint Resolve same_config_refl : kernel.

Lemma same_config_trans c1 c2 c3 : same_config c1 c2 -> same_config c2 c3 -> same_config c1 c3.
Proof. intros [] []. split; congruence. Qed.

Lemma same_active_tasks k k' g c : sirqs k' = sirqs k -> same_active k k' g c c.
Proof. intros H Ha. unfold tasklet_pending. by rewrite H. Qed.
#[export] Hint Resolve same_active_tasks : kernel.

Lemma same_rest_refl k : same_rest k k.
Proof. split; eauto 6 with kernel. Qed.

Lemma same_rest_trans k1 k2 k3 : same_rest k1 k2 -> same_rest k2 k3 -> same_rest k1 k3.
Proof.
  intros [] [? ? ? ? ? ? ? ? H2]. split; try congruence.
  intros g c3 Hc3. destruct (H2 g c3 Hc3) as (c2 & Hc2 & E2 & A2).
  destruct (sr_cm0 g c2 Hc2) as (c1 & Hc1 & E1 & A1). exists c1.
  split_and!; [done|by eapply same_config_trans|].
  intros Ha. destruct (A1 Ha) as [Ha1 P1], (A2 Ha1) as [Ha2 P2]. by rewrite P2.
Qed.

#[export] Hint Resolve same_rest_refl same_rest_trans : kernel.

(** ** Basic facts *)

Lemma refs_nonneg k g : 0 <= refs k g.
Proof.
  unfold refs. pose proof (count_bounds (file_to g) (files k)).
  pose proof (count_bounds (in_group g) (tasks k)).
  pose proof (count_bounds (Nat.eqb g) (ep_cmgroup k)).
  pose proof (count_bounds (Nat.eqb g) (aio_cmgroup k)).
  pose proof (b2z_bounds (tasklet_pending k g)). lia.
Qed.

Lemma refs_task k g t x : tasks k !! t = Some x -> task_cmgroup x = Some g -> 0 < refs k g.
Proof.
  intros Ht Hg. unfold refs.
  assert (Hin : in_group g x = true) by (unfold in_group; by apply bool_decide_eq_true).
  pose proof (count_pos (in_group g) (tasks k) t x Ht Hin).
  pose proof (count_bounds (file_to g) (files k)).
  pose proof (count_bounds (Nat.eqb g) (ep_cmgroup k)).
  pose proof (count_bounds (Nat.eqb g) (aio_cmgroup k)).
  pose proof (b2z_bounds (tasklet_pending k g)). lia.
Qed.

Lemma refs_file k g f x : files k !! f = Some x -> file_to g x = true -> 0 < refs k g.
Proof.
  intros Hf Hg. unfold refs.
  pose proof (count_pos (file_to g) (files k) f x Hf Hg).
  pose proof (count_bounds (in_group g) (tasks k)).
  pose proof (count_bounds (Nat.eqb g) (ep_cmgroup k)).
  pose proof (count_bounds (Nat.eqb g) (aio_cmgroup k)).
  pose proof (b2z_bounds (tasklet_pending k g)). lia.
Qed.

Lemma charged_bounds held k g : inv held k -> 0 <= charged k g <= PID_MAX_LIMIT.
Proof.
  intros Hi. unfold charged. pose proof (count_bounds (charged_to g) (tasks k)).
  pose proof (inv_tasks _ _ Hi). lia.
Qed.

(** A referenced group is there, and may be accessed. *)
Lemma inv_get held k g :
  inv held k -> 0 < refs k g + held g ->
  exists c, cmgroups k !! g = Some c /\ kref c = refs k g + held g /\ get_cm g k = Ret c k.
Proof.
  intros Hi Hg. destruct (cmgroups k !! g) as [c|] eqn:E.
  - exists c. pose proof (inv_live _ _ Hi g c E) as Hk. split_and!; [done|done|].
    unfold get_cm, deref. rewrite E; simpl.
    replace (0 <? kref c) with true by (symmetry; apply Z.ltb_lt; lia). done.
  - pose proof (inv_dead _ _ Hi g E). lia.
Qed.

Lemma get_cm_get g k c : get_cm g k = Ret c k -> cmgroups k !! g = Some c /\ 0 < kref c.
Proof.
  unfold get_cm, deref. destruct (cmgroups k !! g) as [c'|]; simpl; [|done].
  destruct (0 <? kref c') eqn:E; [|done]. intros [= ->]. zbool. done.
Qed.

(** [available] does not overflow an [int]. *)
Lemma available_range held k g c :
  inv held k -> cmgroups k !! g = Some c ->
  1 - PID_MAX_LIMIT <= available c <= CMGROUP_MAX_CONCURRENCY_VALUE.
Proof.
  intros Hi Hc. rewrite (inv_avail _ _ Hi g c Hc).
  pose proof (inv_value _ _ Hi g c Hc). pose proof (charged_bounds held k g Hi). lia.
Qed.

(** ** Updates of one group that keep what the invariant speaks of *)

Lemma inv_put_gen held k g c c' :
  inv held k -> cmgroups k !! g = Some c ->
  kref c' = kref c -> available c' - concurrency_value c' = available c - concurrency_value c ->
  1 <= concurrency_value c' <= CMGROUP_MAX_CONCURRENCY_VALUE ->
  (tasklet_pending k g = true -> tasklet_active c' = true) ->
  inv held (set_cmgroups (<[g := c']> (cmgroups k)) k).
Proof.
  intros Hi Hc Hkr Hav Hcv Hact. destruct Hi. split; simpl; try done.
  - intros g' d. rewrite lookup_insert. case_decide; subst; [intros [= <-]|by apply inv_live0].
    rewrite Hkr. by apply inv_live0.
  - intros g'. rewrite lookup_insert. case_decide; [done|]. by apply inv_dead0.
  - intros g'. rewrite inv_free0, lookup_insert. case_decide; subst; [|done].
    split; [intros (d & Hd & H0)|intros (d & [= <-] & H0)].
    + exists c'. split; [done|]. congruence.
    + exists c. split; [done|]. congruence.
  - intros g' [d Hd]. apply inv_tasklet0. rewrite lookup_insert in Hd.
    case_decide; subst; eauto.
  - intros g' d. rewrite lookup_insert. case_decide; subst; [intros [= <-]|by apply inv_sched0].
    exact Hact.
  - intros g' d. rewrite lookup_insert. case_decide; subst; [intros [= <-]|by apply inv_avail0].
    pose proof (inv_avail0 g' c Hc) as Hd. change (charged _ g') with (charged k g'). lia.
  - intros g' d. rewrite lookup_insert. case_decide; subst; [by intros [= <-]|by apply inv_value0].
Qed.

Lemma inv_put held k g c c' :
  inv held k -> cmgroups k !! g = Some c ->
  kref c' = kref c -> available c' = available c ->
  concurrency_value c' = concurrency_value c ->
  (tasklet_pending k g = true -> tasklet_active c' = true) ->
  inv held (set_cmgroups (<[g := c']> (cmgroups k)) k).
Proof.
  intros Hi Hc Hkr Hav Hcv Hact. apply (inv_put_gen held k g c); try done; [lia|].
  rewrite Hcv. by apply (inv_value _ _ Hi g).
Qed.

Lemma same_rest_put k g c c' :
  cmgroups k !! g = Some c -> same_config c c' -> tasklet_active c' = tasklet_active c ->
  same_rest k (set_cmgroups (<[g := c']> (cmgroups k)) k).
Proof.
  intros Hc Hcc Ha. split; try done. simpl. intros g' d. rewrite lookup_insert.
  case_decide; subst; [intros [= <-]|intros Hd; eauto 7 with kernel].
  exists c. split_and!; try done. intros H. split; [by rewrite Ha|done].
Qed.
Lemma same_rest_fired k g c c1 x s' :
  cmgroups k !! g = Some c -> tasklet_active c = false -> same_config c c1 ->
  Tasklet.tasklets s' = <[g := x]> (Tasklet.tasklets (sirqs k)) ->
  same_rest k (set_sirqs s' (set_cmgroups (<[g := c1]> (cmgroups k)) k)).
Proof.
  intros Hc Ha Hcc Hs. split; try done. simpl. intros g' d. rewrite lookup_insert.
  case_decide; subst; [intros [= <-]|intros Hd].
  - exists c. split_and!; try done. intros H. congruence.
  - exists d. split_and!; auto with kernel. intros Hact. split; [done|].
    unfold tasklet_pending; simpl. by rewrite Hs, lookup_insert_ne.
Qed.
Lemma same_rest_delete g l k :
  same_rest k (set_sirqs (Tasklet.Softirq l (delete g (Tasklet.tasklets (sirqs k))))
                 (set_cmgroups (delete g (cmgroups k)) k)).
Proof.
  split; try done. simpl. intros g' d [Hne Hd]%lookup_delete_Some.
  exists d. split_and!; auto with kernel. intros Hact. split; [done|].
  unfold tasklet_pending; simpl. by rewrite lookup_delete_ne.
Qed.
Lemma same_rest_works l k : same_rest k (set_free_works l k).
Proof. split; eauto 6 with kernel. Qed.
#[export] Hint Resolve same_rest_works : kernel.

Lemma upd_cm_eq g f k c : get_cm g k = Ret c k ->
  upd_cm g f k = Ret tt (set_cmgroups (<[g := f c]> (cmgroups k)) k).
Proof. intros Hg. unfold upd_cm. unfold mbind, M_bind. by rewrite Hg. Qed.

(** ** Taking and dropping references *)

Lemma hold_nonneg g held : (forall g', 0 <= held g') -> forall g', 0 <= hold g held g'.
Proof. intros H g'. unfold hold. specialize (H g'). destruct (g =? g')%nat; lia. Qed.

Lemma hold_eq g held : hold g held g = held g + 1.
Proof. unfold hold. by rewrite Nat.eqb_refl. Qed.
Lemma hold_ne g g' held : g <> g' -> hold g held g' = held g'.
Proof. intros H. unfold hold. rewrite (proj2 (Nat.eqb_neq g g') H). lia. Qed.
Lemma drop_eq g held : drop g held g = held g - 1.
Proof. unfold drop. by rewrite Nat.eqb_refl. Qed.
Lemma drop_ne g g' held : g <> g' -> drop g held g' = held g'.
Proof. intros H. unfold drop. rewrite (proj2 (Nat.eqb_neq g g') H). lia. Qed.

Lemma inv_ext held held' k : (forall g, held g = held' g) -> inv held k -> inv held' k.
Proof.
  intros E []. split; try done; intros; rewrite <- ?E; auto.
Qed.

Lemma drop_hold g held g' : drop g (hold g held) g' = held g'.
Proof. unfold drop, hold. destruct (g =? g')%nat; lia. Qed.

(** a change of the reference count of [g] together with the held references *)
Lemma inv_kref held held' k g c :
  inv held k -> cmgroups k !! g = Some c -> 0 < kref c ->
  (forall g', 0 <= held' g') -> (forall g', g <> g' -> held' g' = held g') ->
  0 < refs k g + held' g ->
  inv held' (set_cmgroups (<[g := set_kref (refs k g + held' g) c]> (cmgroups k)) k).
Proof.
  intros Hi Hc Hpos Hnn Hne Hnew. destruct Hi. split; simpl; try done.
  - intros g' d. rewrite lookup_insert. case_decide; subst; [intros [= <-]; done|].
    rewrite (Hne g') by done. apply inv_live0.
  - intros g'. rewrite lookup_insert. case_decide; [done|]. rewrite (Hne g') by done. apply inv_dead0.
  - intros g'. rewrite inv_free0, lookup_insert. case_decide; subst; [|done].
    split; intros (d & Hd & H0); simplify_eq/=; lia.
  - intros g' [d Hd]. apply inv_tasklet0. rewrite lookup_insert in Hd.
    case_decide; subst; eauto.
  - intros g' d. rewrite lookup_insert. case_decide; subst; [intros [= <-]|apply inv_sched0].
    simpl. by apply inv_sched0.
  - intros g' d. rewrite lookup_insert. case_decide; subst; [intros [= <-]|apply inv_avail0].
    simpl. by apply inv_avail0.
  - intros g' d. rewrite lookup_insert. case_decide; subst; [intros [= <-]|apply inv_value0].
    simpl. by apply (inv_value0 g' c).
Qed.

Lemma cmgroup_ref_ok held k g :
  inv held k -> 0 < refs k g + held g ->
  exists k', cmgroup_ref g k = Ret tt k' /\ inv (hold g held) k' /\ same_rest k k' /\
    sirqs k' = sirqs k.
Proof.
  intros Hi Hg. destruct (inv_get held k g Hi Hg) as (c & Hc & Hkr & Eg).
  unfold cmgroup_ref. rewrite (upd_cm_eq _ _ _ _ Eg). eexists. split; [done|].
  split; [|split; [by eapply same_rest_put|done]].
  replace (kref c + 1) with (refs k g + hold g held g) by (rewrite hold_eq; lia).
  apply (inv_kref held); try done; try lia.
  - apply hold_nonneg, Hi.
  - intros. by apply hold_ne.
  - rewrite hold_eq. lia.
Qed.

Lemma charged_zero k g : count (in_group g) (tasks k) = 0 -> charged k g = 0.
Proof.
  intros H0. apply count_false. intros t x Hx. unfold charged_to.
  by rewrite (count_zero _ _ H0 t x Hx).
Qed.

(** dropping the last reference frees the group, at once or by a work *)
Lemma inv_last held k g c :
  inv held k -> cmgroups k !! g = Some c -> refs k g + held g = 1 -> 0 < held g ->
  inv (drop g held)
    (if atomic_ctx k
     then set_free_works (free_works k ++ [g])
            (set_cmgroups (<[g := set_kref 0 c]> (cmgroups k)) k)
     else set_sirqs (Tasklet.Softirq (Tasklet.cpus (sirqs k)) (delete g (Tasklet.tasklets (sirqs k))))
            (set_cmgroups (delete g (cmgroups k)) k)).
Proof.
  intros Hi Hc H1 Hh. pose proof (refs_nonneg k g) as Hr.
  assert (Hr0 : refs k g = 0) by lia.
  assert (Hp : tasklet_pending k g = false).
  { unfold refs in Hr0. pose proof (count_bounds (file_to g) (files k)).
    pose proof (count_bounds (in_group g) (tasks k)).
    pose proof (count_bounds (Nat.eqb g) (ep_cmgroup k)).
    pose proof (count_bounds (Nat.eqb g) (aio_cmgroup k)).
    destruct (tasklet_pending k g); simpl in Hr0; [lia|done]. }
  assert (Hdrop : forall g', 0 <= drop g held g').
  { intros g'. destruct (decide (g = g')) as [<-|]; [rewrite drop_eq; lia|].
    rewrite drop_ne by done. apply Hi. }
  pose proof (inv_live _ _ Hi g c Hc) as Hkr. destruct Hi.
  destruct (atomic_ctx k).
  - split; simpl; try done.
    + intros g' d. rewrite lookup_insert. case_decide; subst; [intros [= <-]; simpl|].
      * rewrite drop_eq. unfold refs in *; simpl. unfold tasklet_pending in *; simpl. lia.
      * rewrite drop_ne by done. apply inv_live0.
    + intros g'. rewrite lookup_insert. case_decide; [done|]. rewrite drop_ne by done.
      apply inv_dead0.
    + intros g'. rewrite elem_of_app, list_elem_of_singleton, inv_free0, lookup_insert.
      case_decide; subst; [|naive_solver]. split; [|naive_solver].
      intros _. eexists. by split.
    + apply NoDup_app. split_and!; [done| |apply NoDup_singleton].
      intros g' Hg' ->%list_elem_of_singleton. apply inv_free0 in Hg' as (d & Hd & H0).
      simplify_eq. lia.
    + intros g' [d Hd]. apply inv_tasklet0. rewrite lookup_insert in Hd. case_decide; subst; eauto.
    + intros g' d. rewrite lookup_insert. case_decide; subst; [intros [= <-]|apply inv_sched0].
      simpl. by apply inv_sched0.
    + intros g' d. rewrite lookup_insert. case_decide; subst; [intros [= <-]|apply inv_avail0].
      simpl. by apply inv_avail0.
    + intros g' d. rewrite lookup_insert. case_decide; subst; [intros [= <-]|apply inv_value0].
      simpl. by apply (inv_value0 g' c).
  - set (k' := set_sirqs _ _).
    assert (Hrefs : forall g', refs k' g' = refs k g').
    { intros g'. unfold refs; simpl. f_equal. unfold tasklet_pending; simpl.
      rewrite lookup_delete. case_decide; subst; [|done].
      unfold tasklet_pending in Hp. by rewrite Hp. }
    split; simpl; try done.
    + intros g' d. rewrite lookup_delete. case_decide; [done|]. intros Hd.
      rewrite Hrefs, drop_ne by done. by apply inv_live0.
    + intros g'. rewrite lookup_delete, Hrefs. case_decide; subst; intros Hd.
      * rewrite drop_eq. lia.
      * rewrite drop_ne by done. by apply inv_dead0.
    + intros g'. rewrite inv_free0, lookup_delete. case_decide; subst; [|done].
      split; intros (d & Hd & H0); simplify_eq. lia.
    + intros g' [d Hd]. rewrite lookup_delete in Hd. case_decide; [done|].
      rewrite lookup_delete_ne by done. apply inv_tasklet0. eauto.
    + intros g' d. rewrite lookup_delete. case_decide; [done|]. intros Hd.
      unfold tasklet_pending; simpl. rewrite lookup_delete_ne by done. by apply inv_sched0.
    + intros g' d. rewrite lookup_delete. case_decide; [done|]. apply inv_avail0.
    + intros g' d. rewrite lookup_delete. case_decide; [done|]. apply inv_value0.
Qed.

Lemma cmgroup_unref_ok held k g :
  inv held k -> 0 < held g ->
  exists k', cmgroup_unref g k = Ret tt k' /\ inv (drop g held) k' /\ same_rest k k'.
Proof.
  intros Hi Hg. pose proof (refs_nonneg k g) as Hr.
  destruct (inv_get held k g Hi) as (c & Hc & Hkr & Eg); [lia|].
  unfold cmgroup_unref, mbind, M_bind. rewrite Eg. unfold put_cm, modify.
  destruct (kref c - 1 =? 0) eqn:E; zbool.
  - pose proof (inv_last held k g c Hi Hc ltac:(lia) Hg) as Hl.
    unfold cmgroup_kref_release, cmgroup_free, mbind, M_bind, get; simpl.
    destruct (atomic_ctx k) eqn:Ea; eexists; (split; [reflexivity|]); split.
    + simpl. replace (kref c - 1) with 0 by lia. exact Hl.
    + apply (same_rest_trans _ (set_cmgroups (<[g := set_kref (kref c - 1) c]> (cmgroups k)) k)).
      * by eapply same_rest_put.
      * apply same_rest_works.
    + simpl. unfold set_cmgroups at 1; simpl. rewrite delete_insert_eq. exact Hl.
    + simpl. unfold set_cmgroups at 1; simpl. rewrite delete_insert_eq.
      apply same_rest_delete.
  - eexists. split; [reflexivity|]. split; [|by eapply same_rest_put].
    replace (kref c - 1) with (refs k g + drop g held g) by (rewrite drop_eq; lia).
    apply (inv_kref held); try done; try lia.
    + intros g'. destruct (decide (g = g')) as [<-|]; [rewrite drop_eq; lia|].
      rewrite drop_ne by done. apply Hi.
    + intros. by apply drop_ne.
    + rewrite drop_eq. lia.
Qed.

(** ** Firing the tasklet *)

Lemma schedule_some (b : bool) cpu g s x :
  Tasklet.tasklets s !! g = Some x -> Tasklet.is_sched x = false ->
  exists s', (if b then Tasklet.tasklet_schedule_nosoftirqd_wake cpu g s
              else Tasklet.tasklet_schedule cpu g s) = Some s' /\
    Tasklet.tasklets s' = <[g := Tasklet.set_bit Tasklet.TASKLET_STATE_SCHED x]> (Tasklet.tasklets s).
Proof.
  intros Hx Hs.
  destruct b; unfold Tasklet.tasklet_schedule, Tasklet.tasklet_schedule_nosoftirqd_wake,
    Tasklet.schedule_with; rewrite Hx; simpl; rewrite Hs; eexists; (split; [reflexivity|]).
  - done.
  - unfold Tasklet.__tasklet_schedule. by rewrite Tasklet.tasklets_raise.
Qed.

(** the held reference becomes the reference of the pending tasklet *)
Lemma inv_pend held k g c x s' :
  inv (hold g held) k -> (forall g', 0 <= held g') ->
  cmgroups k !! g = Some c -> tasklet_active c = true ->
  Tasklet.tasklets (sirqs k) !! g = Some x -> Tasklet.is_sched x = false ->
  Tasklet.tasklets s' = <[g := Tasklet.set_bit Tasklet.TASKLET_STATE_SCHED x]>
                          (Tasklet.tasklets (sirqs k)) ->
  inv held (set_sirqs s' k).
Proof.
  intros Hi Hnn Hc Hact Hx Hs Hs'. destruct Hi.
  assert (Hpend : forall g', tasklet_pending (set_sirqs s' k) g' =
                    if (g =? g')%nat then true else tasklet_pending k g').
  { intros g'. unfold tasklet_pending; simpl. rewrite Hs', lookup_insert.
    destruct (Nat.eqb_spec g g') as [->|]; [rewrite decide_True by done|by rewrite decide_False].
    by apply Tasklet.test_set_bit. }
  assert (Hrefs : forall g', refs (set_sirqs s' k) g' + held g' = refs k g' + hold g held g').
  { intros g'. unfold refs; simpl. rewrite Hpend. unfold hold.
    destruct (Nat.eqb_spec g g') as [->|]; [|lia].
    replace (tasklet_pending k g') with false; [simpl; lia|].
    unfold tasklet_pending. by rewrite Hx. }
  split; simpl; try done.
  - intros g' d Hd. rewrite Hrefs. by apply inv_live0.
  - intros g' Hd. rewrite Hrefs. by apply inv_dead0.
  - intros g' Hg'. rewrite Hs', lookup_insert. case_decide; [done|]. by apply inv_tasklet0.
  - intros g' d Hd. rewrite Hpend. destruct (Nat.eqb_spec g g') as [->|]; [|by apply inv_sched0].
    by simplify_eq.
Qed.

Lemma fire_tasklet_ok held k g b :
  inv held k -> 0 < refs k g + held g ->
  exists k', fire_tasklet g b k = Ret tt k' /\ inv held k' /\ same_rest k k' /\
    exists c c', cmgroups k !! g = Some c /\ cmgroups k' !! g = Some c' /\
      tasklet_active c' = true /\ attached_mtx c' = attached_mtx c /\
      concurrency_value c' = concurrency_value c /\ available c' = available c.
Proof.
  intros Hi Hg. destruct (inv_get held k g Hi Hg) as (c & Hc & Hkr & Eg).
  unfold fire_tasklet. mrun Eg.
  destruct (tasklet_active c) eqn:Ha.
  { exists k. split; [done|]. split; [done|]. split; [auto with kernel|].
    exists c, c. repeat split; done. }
  assert (Hp : tasklet_pending k g = false).
  { destruct (tasklet_pending k g) eqn:E; [|done].
    by rewrite (inv_sched _ _ Hi g c Hc E) in Ha. }
  set (c1 := set_tasklet_active true c).
  set (k1 := set_cmgroups (<[g := c1]> (cmgroups k)) k).
  assert (Hi1 : inv held k1) by (apply (inv_put held k g c); done).
  unfold mbind at 1, M_bind at 1. unfold put_cm at 1, modify at 1. fold k1.
  destruct (inv_get held k1 g Hi1 Hg) as (d & Hd & Hkd & Egd).
  assert (d = c1) as -> by (unfold k1 in Hd; simpl in Hd; rewrite lookup_insert_eq in Hd; congruence).
  destruct (cmgroup_ref_ok held k1 g Hi1 Hg) as (k2 & E2 & Hi2 & Hs2 & Hq2).
  mrun E2.
  assert (Ek2 : k2 = set_cmgroups (<[g := set_kref (kref c1 + 1) c1]> (cmgroups k1)) k1).
  { unfold cmgroup_ref in E2. rewrite (upd_cm_eq _ _ _ _ Egd) in E2. by injection E2. }
  assert (Hk2 : cmgroups k2 !! g = Some (set_kref (kref c1 + 1) c1)).
  { rewrite Ek2. simpl. apply lookup_insert_eq. }
  destruct (inv_tasklet _ _ Hi2 g) as [x Hx]; [by rewrite Hk2|].
  assert (Hxs : Tasklet.is_sched x = false).
  { rewrite Hq2 in Hx. unfold tasklet_pending in Hp. unfold k1 in Hx; simpl in Hx. by rewrite Hx in Hp. }
  destruct (schedule_some b (this_cpu k2) g (sirqs k2) x Hx Hxs) as (s' & Es & Ts).
  exists (set_sirqs s' k2). split.
  { unfold mbind, M_bind, get, softirq_op. destruct b; by rewrite Es. }
  split; [|split].
  - eapply (inv_pend held k2 g); eauto. apply Hi.
  - rewrite Ek2 in Hx, Ts |- *. unfold k1, set_cmgroups; simpl. rewrite insert_insert_eq.
    by eapply (same_rest_fired k g c).
  - exists c, (set_kref (kref c1 + 1) c1). repeat split; done.
Qed.

(** ** Charging a task *)

Lemma refs_put_task k g t x x' :
  tasks k !! t = Some x ->
  refs (set_tasks (<[t := x']> (tasks k)) k) g =
    refs k g - b2z (in_group g x) + b2z (in_group g x').
Proof. intros Ht. unfold refs; simpl. rewrite (count_insert _ _ t x' x Ht). unfold b2z, tasklet_pending; simpl. lia. Qed.

Lemma charged_put_task k g t x x' :
  tasks k !! t = Some x ->
  charged (set_tasks (<[t := x']> (tasks k)) k) g =
    charged k g - b2z (charged_to g x) + b2z (charged_to g x').
Proof. intros Ht. unfold charged; simpl. rewrite (count_insert _ _ t x' x Ht). unfold b2z. lia. Qed.

Lemma size_put_task k t x x' :
  tasks k !! t = Some x -> size (<[t := x']> (tasks k)) = size (tasks k).
Proof. intros Ht. apply map_size_insert_Some. by rewrite Ht. Qed.

Lemma in_group_eq g x : task_cmgroup x = Some g -> in_group g x = true.
Proof. intros H. by apply bool_decide_eq_true. Qed.
Lemma in_group_ne g g' x : task_cmgroup x = Some g -> g <> g' -> in_group g' x = false.
Proof. intros H Hne. apply bool_decide_eq_false. congruence. Qed.
Lemma in_group_none g x : task_cmgroup x = None -> in_group g x = false.
Proof. intros H. apply bool_decide_eq_false. congruence. Qed.

(** the charge of a task of [g] changes together with [available] *)
Lemma inv_charge held k t x x' g c c' :
  inv held k -> tasks k !! t = Some x -> task_cmgroup x = Some g -> task_cmgroup x' = Some g ->
  cmgroups k !! g = Some c ->
  kref c' = kref c -> concurrency_value c' = concurrency_value c ->
  tasklet_active c' = tasklet_active c ->
  available c' = available c + b2z (cmgroup_charged x) - b2z (cmgroup_charged x') ->
  inv held (set_cmgroups (<[g := c']> (cmgroups k)) (set_tasks (<[t := x']> (tasks k)) k)).
Proof.
  intros Hi Ht Hg Hg' Hc Hkr Hcv Hact Hav.
  assert (Hrefs : forall h, refs (set_tasks (<[t := x']> (tasks k)) k) h = refs k h).
  { intros h. rewrite (refs_put_task k h t x x' Ht). unfold in_group. rewrite Hg, Hg'. lia. }
  assert (Hch : forall h, charged (set_tasks (<[t := x']> (tasks k)) k) h =
                  charged k h + (if (g =? h)%nat then b2z (cmgroup_charged x') - b2z (cmgroup_charged x) else 0)).
  { intros h. rewrite (charged_put_task k h t x x' Ht). unfold charged_to.
    destruct (Nat.eqb_spec g h) as [<-|Hne].
    - rewrite !(in_group_eq g) by done. simpl. lia.
    - rewrite !(in_group_ne g h) by done. simpl. lia. }
  set (k1 := set_tasks _ k) in *.
  destruct Hi. split; simpl; try done.
  - intros g' d. rewrite lookup_insert. case_decide; subst; [intros [= <-]|].
    + change (kref c' = refs k1 g' + held g'). rewrite Hkr, Hrefs. by apply inv_live0.
    + intros Hd. change (kref d = refs k1 g' + held g'). rewrite Hrefs. by apply inv_live0.
  - intros g'. rewrite lookup_insert. case_decide; [done|]. intros Hd.
    change (refs k1 g' + held g' = 0). rewrite Hrefs. by apply inv_dead0.
  - intros g'. rewrite inv_free0, lookup_insert. case_decide; subst; [|done].
    split; intros (d & Hd & H0); simplify_eq; eexists; (split; [done|congruence]).
  - intros g' [d Hd]. apply inv_tasklet0. rewrite lookup_insert in Hd. case_decide; subst; eauto.
  - intros g' d. rewrite lookup_insert. case_decide; subst; [intros [= <-]|by apply inv_sched0].
    rewrite Hact. by apply inv_sched0.
  - intros g' d. rewrite lookup_insert.
    change (charged _ g') with (charged k1 g'). rewrite Hch.
    case_decide as Hgg; subst; [intros [= <-]|].
    + rewrite Nat.eqb_refl, Hav, Hcv, (inv_avail0 g' c Hc). lia.
    + rewrite (proj2 (Nat.eqb_neq g g') Hgg). intros Hd. rewrite (inv_avail0 g' d Hd). lia.
  - intros g' d. rewrite lookup_insert. case_decide; subst; [intros [= <-]|by apply inv_value0].
    rewrite Hcv. by apply (inv_value0 g' c).
  - rewrite (size_put_task k t x x' Ht). done.
Qed.

(** a task changes group while it is charged to none *)
Lemma inv_task_move held held' k t x x' :
  inv held k -> tasks k !! t = Some x ->
  (forall g, charged_to g x = charged_to g x') ->
  (forall g, held' g = held g + b2z (in_group g x) - b2z (in_group g x')) ->
  (forall g, 0 <= held' g) ->
  inv held' (set_tasks (<[t := x']> (tasks k)) k).
Proof.
  intros Hi Ht Hch Hh Hnn.
  assert (Hrefs : forall g, refs (set_tasks (<[t := x']> (tasks k)) k) g + held' g = refs k g + held g).
  { intros g. rewrite (refs_put_task k g t x x' Ht), Hh. lia. }
  assert (Hc : forall g, charged (set_tasks (<[t := x']> (tasks k)) k) g = charged k g).
  { intros g. rewrite (charged_put_task k g t x x' Ht), Hch. lia. }
  destruct Hi. split; try done.
  - intros g c Hg. rewrite Hrefs. by apply inv_live0.
  - intros g Hg. rewrite Hrefs. by apply inv_dead0.
  - intros g c Hg. rewrite Hc. by apply inv_avail0.
  - simpl. rewrite (size_put_task k t x x' Ht). done.
Qed.

(** ** The operations of Cmgroup.v *)

Lemma get_task_eq t k x : tasks k !! t = Some x -> get_task t k = Ret x k.
Proof. intros H. unfold get_task, deref. by rewrite H. Qed.

Lemma inv_get_task held k g t x :
  inv held k -> tasks k !! t = Some x -> task_cmgroup x = Some g ->
  exists c, cmgroups k !! g = Some c /\ get_cm g k = Ret c k /\ 0 < refs k g + held g.
Proof.
  intros Hi Ht Hg. pose proof (refs_task k g t x Ht Hg). pose proof (inv_held _ _ Hi g).
  destruct (inv_get held k g Hi) as (c & Hc & _ & Eg); [lia|]. exists c. split_and!; [done|done|lia].
Qed.

Lemma get_cm_set_tasks g m k c : get_cm g k = Ret c k -> get_cm g (set_tasks m k) = Ret c (set_tasks m k).
Proof.
  unfold get_cm, deref; simpl. destruct (cmgroups k !! g) as [d|]; simpl; [|done].
  destruct (0 <? kref d); [|done]. by intros [= ->].
Qed.

Lemma one_more_ok held k t x g :
  inv held k -> tasks k !! t = Some x -> task_cmgroup x = Some g -> cmgroup_charged x = false ->
  exists k', cmgroup_one_more_runnable t k = Ret tt k' /\ inv held k' /\
    same_rest (set_tasks (<[t := set_cmgroup_charged true x]> (tasks k)) k) k'.
Proof.
  intros Hi Ht Hg Hch. destruct (inv_get_task held k g t x Hi Ht Hg) as (c & Hc & Eg & Hpos).
  pose proof (available_range held k g c Hi Hc) as Hav. unfold PID_MAX_LIMIT, CMGROUP_MAX_CONCURRENCY_VALUE in Hav.
  unfold cmgroup_one_more_runnable. mrun (get_task_eq t k x Ht). rewrite Hg. unfold put_task, modify, mbind, M_bind.
  rewrite (upd_cm_eq _ _ _ c) by (by apply get_cm_set_tasks).
  eexists. split; [reflexivity|]. split; [|by eapply same_rest_put].
  apply (inv_charge held k t x _ g c); try done.
  simpl. rewrite Hch, s32_id by lia. simpl. lia.
Qed.

Lemma one_less_fires held k t x g b c :
  inv held k -> tasks k !! t = Some x -> task_cmgroup x = Some g -> cmgroup_charged x = true ->
  cmgroups k !! g = Some c ->
  exists k', cmgroup_one_less_runnable t b k = Ret tt k' /\ inv held k' /\
    same_rest (set_tasks (<[t := set_cmgroup_charged false x]> (tasks k)) k) k' /\
    exists c', cmgroups k' !! g = Some c' /\ available c' = available c + 1 /\
      (available c' = 1 -> tasklet_active c' = true).
Proof.
  intros Hi Ht Hg Hch Hc. destruct (inv_get_task held k g t x Hi Ht Hg) as (c0 & Hc0 & Eg & Hpos). simplify_eq.
  pose proof (available_range held k g c Hi Hc) as Hav. unfold PID_MAX_LIMIT, CMGROUP_MAX_CONCURRENCY_VALUE in Hav.
  unfold cmgroup_one_less_runnable. mrun (get_task_eq t k x Ht). rewrite Hg. unfold put_task, modify. unfold mbind at 1, M_bind at 1.
  unfold mbind at 1, M_bind at 1. rewrite (get_cm_set_tasks g _ k c Eg).
  unfold put_cm, modify. unfold mbind at 1, M_bind at 1.
  set (k2 := set_cmgroups _ _).
  assert (Hi2 : inv held k2).
  { apply (inv_charge held k t x _ g c); try done. simpl. rewrite Hch, s32_id by lia. simpl. lia. }
  assert (Hs2 : same_rest (set_tasks (<[t := set_cmgroup_charged false x]> (tasks k)) k) k2) by (by eapply same_rest_put).
  assert (Hc2 : cmgroups k2 !! g = Some (set_available (s32 (available c + 1)) c)) by apply lookup_insert_eq.
  rewrite s32_id in Hc2 by lia.
  destruct (s32 (available c + 1) =? 1) eqn:E1.
  2: { exists k2. split_and!; try done. eexists. split_and!; [done|done|]. zbool.
       rewrite s32_id in E1 by lia. done. }
  destruct (fire_tasklet_ok held k2 g b Hi2) as (k3 & E3 & Hi3 & Hs3 & d & c' & Hd & Hc' & Ha & _ & _ & Hav').
  { pose proof (inv_held _ _ Hi2 g).
    pose proof (refs_task k2 g t (set_cmgroup_charged false x)) as Hr. simpl in Hr.
    rewrite lookup_insert_eq in Hr. specialize (Hr eq_refl Hg). lia. }
  exists k3. split_and!; [done|done|by eapply same_rest_trans|]. exists c'. split_and!; try done.
  rewrite Hav'. by simplify_eq.
Qed.

Lemma one_less_ok held k t x g b :
  inv held k -> tasks k !! t = Some x -> task_cmgroup x = Some g -> cmgroup_charged x = true ->
  exists k', cmgroup_one_less_runnable t b k = Ret tt k' /\ inv held k' /\
    same_rest (set_tasks (<[t := set_cmgroup_charged false x]> (tasks k)) k) k'.
Proof.
  intros Hi Ht Hg Hch. destruct (inv_get_task held k g t x Hi Ht Hg) as (c & Hc & _).
  destruct (one_less_fires held k t x g b c Hi Ht Hg Hch Hc) as (k' & E & Hi' & Hs & _). eauto.
Qed.

Lemma same_rest_id k t x :
  tasks k !! t = Some x -> same_rest (set_tasks (<[t := x]> (tasks k)) k) k.
Proof. intros Ht. split; simpl; eauto 7 with kernel. by rewrite insert_id. Qed.

Lemma same_rest_lookup k k' t x m :
  same_rest (set_tasks (<[t := x]> m) k) k' -> tasks k' !! t = Some x.
Proof. intros [-> _ _ _ _ _ _ _]. simpl. apply lookup_insert_eq. Qed.

(** [dissociate]d from its group, the task keeps the rest of its fields *)
Definition dissociated (x : task_struct) : task_struct :=
  set_task_cmgroup None (set_cmgroup_charged false x).

Lemma set_charged_same x : cmgroup_charged x = false -> set_cmgroup_charged false x = x.
Proof. destruct x; simpl. by intros ->. Qed.

Lemma charged_to_none x g : task_cmgroup x = None -> charged_to g x = false.
Proof. intros H. unfold charged_to. by rewrite in_group_none. Qed.
Lemma charged_to_uncharged x g : cmgroup_charged x = false -> charged_to g x = false.
Proof. intros H. unfold charged_to. rewrite H. apply andb_false_r. Qed.

Lemma dissociate_ok held k t x :
  inv held k -> tasks k !! t = Some x ->
  exists k' y, cmgroup_dissociate t k = Ret tt k' /\ inv held k' /\
    same_rest (set_tasks (<[t := y]> (tasks k)) k) k' /\ task_cmgroup y = None /\
    y = (if bool_decide (task_cmgroup x = None) then x else dissociated x).
Proof.
  intros Hi Ht. unfold cmgroup_dissociate. mrun (get_task_eq t k x Ht). destruct (task_cmgroup x) as [g|] eqn:Hg.
  2: { exists k, x. split; [done|]. split; [done|]. split; [|done].
       by apply same_rest_id. }
  (* the charge goes first *)
  assert (Hstep : exists k1 x1, (if cmgroup_charged x then cmgroup_one_less_runnable t false else mret tt) k
                             = Ret tt k1 /\ inv held k1 /\ x1 = set_cmgroup_charged false x /\
                  same_rest (set_tasks (<[t := x1]> (tasks k)) k) k1).
  { destruct (cmgroup_charged x) eqn:Hch.
    - destruct (one_less_ok held k t x g false Hi Ht Hg Hch) as (k1 & E1 & Hi1 & Hs1). eauto 10.
    - exists k, x. rewrite (set_charged_same x Hch). split_and!; try done.
      by apply same_rest_id. }
  destruct Hstep as (k1 & x1 & E1 & Hi1 & Ex1 & Hs1).
  mrun E1.
  pose proof (same_rest_lookup k k1 t x1 (tasks k) Hs1) as Ht1.
  mrun (get_task_eq t k1 x1 Ht1).
  unfold put_task, modify. unfold mbind at 1, M_bind at 1.
  set (x2 := set_task_cmgroup None x1). set (k2 := set_tasks _ k1).
  assert (Hg1 : task_cmgroup x1 = Some g) by (by subst x1).
  assert (Hi2 : inv (hold g held) k2).
  { apply (inv_task_move held (hold g held) k1 t x1 x2 Hi1 Ht1).
    - intros h. rewrite charged_to_uncharged by (by subst x1). by rewrite charged_to_none.
    - intros h. rewrite (in_group_none h x2) by done. unfold hold.
      destruct (Nat.eqb_spec g h) as [<-|Hne].
      + rewrite (in_group_eq g x1 Hg1). simpl. lia.
      + rewrite (in_group_ne g h x1 Hg1 Hne). simpl. lia.
    - apply hold_nonneg, Hi. }
  destruct (cmgroup_unref_ok (hold g held) k2 g Hi2) as (k3 & E3 & Hi3 & Hs3).
  { rewrite hold_eq. pose proof (inv_held _ _ Hi g). lia. }
  exists k3, x2. split; [done|]. split; [|split; [|split]].
  - eapply inv_ext; [|done]. intros h. by rewrite drop_hold.
  - eapply same_rest_trans; [|exact Hs3]. destruct Hs1 as [S1 S2 S3 S4 S5 S6 S7 S8].
    split; simpl in *; try done. rewrite S1. by rewrite insert_insert_eq.
  - done.
  - unfold x2, dissociated. by rewrite Ex1.
Qed.

Lemma associate_ok held k t x g (addref : bool) :
  inv held k -> tasks k !! t = Some x ->
  (if addref then 0 < refs k g + held g else 0 < held g) ->
  exists k' y, cmgroup_associate t g addref k = Ret tt k' /\
    inv (if addref then held else drop g held) k' /\
    same_rest (set_tasks (<[t := y]> (tasks k)) k) k' /\ task_cmgroup y = Some g /\
    y = (if bool_decide (task_cmgroup x = Some g) then x
         else set_cmgroup_charged true (set_task_cmgroup (Some g) x)).
Proof.
  intros Hi Ht Href. unfold cmgroup_associate. mrun (get_task_eq t k x Ht). destruct (bool_decide (task_cmgroup x = Some g)) eqn:Hsame.
  { apply bool_decide_eq_true in Hsame.
    assert (Hid : same_rest (set_tasks (<[t := x]> (tasks k)) k) k)
      by (by apply same_rest_id).
    destruct addref; [by exists k, x|].
    destruct (cmgroup_unref_ok held k g Hi Href) as (k' & E & Hi' & Hs').
    exists k', x. split_and!; try done. by eapply same_rest_trans. }
  apply bool_decide_eq_false in Hsame.
  (* the reference is held from here on *)
  set (held1 := if addref then hold g held else held).
  assert (H1 : exists k1, (if addref then cmgroup_ref g else mret tt) k = Ret tt k1 /\
                 inv held1 k1 /\ same_rest k k1 /\ 0 < held1 g).
  { unfold held1. destruct addref.
    - destruct (cmgroup_ref_ok held k g Hi Href) as (k1 & E1 & Hi1 & Hs1 & _).
      exists k1. split_and!; try done. rewrite hold_eq. pose proof (inv_held _ _ Hi g). lia.
    - exists k. split_and!; auto with kernel. }
  destruct H1 as (k1 & E1 & Hi1 & Hs1 & Hpos). mrun E1.
  assert (Ht1 : tasks k1 !! t = Some x) by (by rewrite (sr_tasks _ _ Hs1)).
  destruct (dissociate_ok held1 k1 t x Hi1 Ht1) as (k2 & x2 & E2 & Hi2 & Hs2 & Hx2 & Ex2).
  assert (E2' : (if bool_decide (task_cmgroup x <> None) then cmgroup_dissociate t else mret tt) k1
                = Ret tt k2).
  { destruct (bool_decide (task_cmgroup x <> None)) eqn:Hn; [exact E2|].
    apply bool_decide_eq_false in Hn.
    unfold cmgroup_dissociate, mbind, M_bind in E2. rewrite (get_task_eq t k1 x Ht1) in E2.
    destruct (task_cmgroup x) as [g'|]; [|by simplify_eq].
    exfalso. by apply Hn. }
  unfold mbind at 1, M_bind at 1. rewrite E2'.
  pose proof (same_rest_lookup k1 k2 t x2 (tasks k1) Hs2) as Ht2.
  mrun (get_task_eq t k2 x2 Ht2).
  unfold put_task, modify. unfold mbind at 1, M_bind at 1.
  set (x3 := set_cmgroup_charged false (set_task_cmgroup (Some g) x2)). set (k3 := set_tasks _ k2).
  assert (Hi3 : inv (drop g held1) k3).
  { apply (inv_task_move held1 (drop g held1) k2 t x2 x3 Hi2 Ht2).
    - intros h. rewrite charged_to_none by done. by rewrite charged_to_uncharged.
    - intros h. rewrite (in_group_none h x2) by done. unfold drop.
      destruct (Nat.eqb_spec g h) as [<-|Hne].
      + rewrite (in_group_eq g x3) by done. simpl. lia.
      + rewrite (in_group_ne g h x3) by done. simpl. lia.
    - intros h. destruct (decide (g = h)) as [<-|]; [rewrite drop_eq; lia|].
      rewrite drop_ne by done. apply Hi1. }
  assert (Ht3 : tasks k3 !! t = Some x3) by apply lookup_insert_eq.
  destruct (one_more_ok (drop g held1) k3 t x3 g Hi3 Ht3) as (k4 & E4 & Hi4 & Hs4); [done|done|].
  exists k4, (set_cmgroup_charged true x3). split; [done|]. split; [|split; [|split]].
  - unfold held1 in Hi4. destruct addref; [|done]. eapply inv_ext; [|done].
    intros h. by rewrite drop_hold.
  - eapply same_rest_trans; [|exact Hs4].
    assert (Hs12 : same_rest (set_tasks (<[t := x2]> (tasks k)) k) k2).
    { eapply same_rest_trans; [|exact Hs2]. destruct Hs1. split; simpl in *; try done. congruence. }
    destruct Hs12 as [A1 A2 A3 A4 A5 A6 A7 A8].
    split; simpl in *; try done. rewrite A1. by rewrite !insert_insert_eq.
  - done.
  - unfold x3. subst x2. destruct x as [a b c d e f h]; simpl in *.
    case_bool_decide; simpl; done.
Qed.
