(* ===== verification/CmTask.v ===== *)
(** * Tasks in a group: the scheduler's paths

    Every path of Sched.v that touches the accounting is shown to be a
    transition of one task (a pure function on [task_struct]) that keeps the
    references and the accounting of all groups: no path oopses, and what the
    group sees is decided by the flags of the path alone. *)

From S2P Require Import Prelude Wait Tasklet Cmgroup Sched CmInv.
Local Open Scope Z_scope.

(** ** Operations that change one task *)

Definition upd_task (t : nat) (x : task_struct) (k : kernel) : kernel :=
  set_tasks (<[t := x]> (tasks k)) k.

(** [m] takes task [t] from [x] to [y], returns [r], and keeps the invariant
    and everything but the task, the counters of groups and the tasklets *)
Definition task_op {A} (held : nat -> Z) (t : nat) (m : K A) (x : task_struct) (r : A)
    (y : task_struct) : Prop :=
  forall k, inv held k -> tasks k !! t = Some x ->
    exists k', m k = Ret r k' /\ inv held k' /\ same_rest (upd_task t y k) k'.

Lemma same_rest_upd k k1 k2 t x1 x2 :
  same_rest (upd_task t x1 k) k1 -> same_rest (upd_task t x2 k1) k2 ->
  same_rest (upd_task t x2 k) k2.
Proof.
  intros H1 H2. eapply same_rest_trans; [|exact H2]. destruct H1 as [S1 S2 S3 S4 S5 S6 S7 S8].
  split; simpl in *; try done. by rewrite S1, insert_insert_eq.
Qed.

Lemma task_op_ret {A} held t x (r : A) : task_op held t (mret r) x r x.
Proof. intros k Hi Ht. exists k. split_and!; [done|done|by apply same_rest_id]. Qed.

Lemma task_op_bind {A B} held t (m : K A) (f : A -> K B) x r y s z :
  task_op held t m x r y -> task_op held t (f r) y s z -> task_op held t (mbind f m) x s z.
Proof.
  intros Hm Hf k Hi Ht. destruct (Hm k Hi Ht) as (k1 & E1 & Hi1 & Hs1).
  destruct (Hf k1 Hi1) as (k2 & E2 & Hi2 & Hs2); [by eapply same_rest_lookup|].
  exists k2. split_and!; [|done|by eapply same_rest_upd].
  apply bind_Ret. eauto.
Qed.

Lemma task_op_get {A} held t (f : task_struct -> K A) x r y :
  task_op held t (f x) x r y -> task_op held t (mbind f (get_task t)) x r y.
Proof.
  intros H k Hi Ht. destruct (H k Hi Ht) as (k' & E & ?). exists k'. split; [|done].
  unfold mbind, M_bind. by rewrite (get_task_eq t k x Ht).
Qed.

(** a change that neither moves the task to another group nor charges it *)
Lemma task_op_put held t x y :
  task_cmgroup y = task_cmgroup x -> cmgroup_charged y = cmgroup_charged x ->
  task_op held t (put_task t y) x tt y.
Proof.
  intros Hg Hc k Hi Ht. exists (upd_task t y k). split_and!; [done| |auto with kernel].
  apply (inv_task_move held held k t x y Hi Ht); unfold charged_to, in_group.
  - intros g. by rewrite Hg, Hc.
  - intros g. rewrite Hg. lia.
  - apply Hi.
Qed.

(** ** The pure transitions *)

Definition counted (x : task_struct) : bool := bool_decide (task_cmgroup x <> None).

Definition enqueued (flags : Z) (x : task_struct) : task_struct :=
  let x := set_se_queued true x in
  if counted x && (Z.land flags ENQUEUE_NOCMGROUP =? 0) && negb (cmgroup_charged x)
  then set_cmgroup_charged true x else x.

Definition dequeued (flags : Z) (x : task_struct) : task_struct :=
  let x := set_se_queued false x in
  if counted x && (Z.land flags DEQUEUE_NOCMGROUP =? 0) && cmgroup_charged x
  then set_cmgroup_charged false x else x.

Definition woken (x : task_struct) : task_struct :=
  set_tstate TASK_RUNNING
    (if on_rq x then x
     else set_on_rq true (enqueued (Z.lor ENQUEUE_WAKEUP ENQUEUE_WAKING) x)).

Definition slept (fatal : bool) (x : task_struct) : task_struct :=
  if tstate x =? 0 then x
  else if signal_pending_state fatal (tstate x) x then set_tstate TASK_RUNNING x
  else set_on_rq false (dequeued DEQUEUE_SLEEP x).

(** ** The paths are these transitions *)

Lemma charged_on held t x g :
  task_cmgroup x = Some g -> cmgroup_charged x = false ->
  task_op held t (cmgroup_one_more_runnable t) x tt (set_cmgroup_charged true x).
Proof. intros Hg Hc k Hi Ht. by apply (one_more_ok held k t x g). Qed.

Lemma charged_off held t x g b :
  task_cmgroup x = Some g -> cmgroup_charged x = true ->
  task_op held t (cmgroup_one_less_runnable t b) x tt (set_cmgroup_charged false x).
Proof. intros Hg Hc k Hi Ht. by apply (one_less_ok held k t x g b). Qed.

Lemma enqueue_task_op held t flags x :
  task_op held t (enqueue_task t flags) x tt (enqueued flags x).
Proof.
  unfold enqueue_task. apply task_op_get.
  apply (task_op_bind _ _ _ _ _ tt (set_se_queued true x)); [by apply task_op_put|].
  unfold cmgroup_task_enqueued. apply task_op_get. unfold enqueued, counted.
  destruct (bool_decide _ && _ && _) eqn:E; [|apply task_op_ret]. zbool.
  apply bool_decide_eq_true in H. destruct (task_cmgroup (set_se_queued true x)) as [g|] eqn:Hg; [|done].
  by eapply charged_on.
Qed.

Lemma dequeue_task_op held t flags x :
  task_op held t (dequeue_task t flags) x tt (dequeued flags x).
Proof.
  unfold dequeue_task. apply task_op_get.
  apply (task_op_bind _ _ _ _ _ tt (set_se_queued false x)); [by apply task_op_put|].
  unfold cmgroup_task_dequeued. apply task_op_get. unfold dequeued, counted.
  destruct (bool_decide _ && _ && _) eqn:E; [|apply task_op_ret]. zbool.
  apply bool_decide_eq_true in H. destruct (task_cmgroup (set_se_queued false x)) as [g|] eqn:Hg; [|done].
  by eapply charged_off.
Qed.

(** chaining of task operations: read, write, enqueue, dequeue *)
Ltac task_ops :=
  repeat first
    [ simple apply enqueue_task_op
    | simple apply dequeue_task_op
    | apply task_op_get
    | apply task_op_ret
    | apply task_op_put; done
    | eapply task_op_bind ].

Lemma wake_up_op held t state x :
  task_op held t (try_to_wake_up t state) x
    (negb (Z.land (tstate x) state =? 0))
    (if Z.land (tstate x) state =? 0 then x else woken x).
Proof.
  unfold try_to_wake_up, woken. apply task_op_get.
  destruct (Z.land (tstate x) state =? 0); [apply task_op_ret|].
  destruct (on_rq x).
  - unfold ttwu_do_wakeup. task_ops.
  - unfold ttwu_do_activate, ttwu_activate, ttwu_do_wakeup, activate_task. task_ops.
Qed.

Lemma schedule_out_op held t fatal x :
  task_op held t (schedule_out fatal t) x tt (slept fatal x).
Proof.
  unfold schedule_out, slept. apply task_op_get.
  destruct (tstate x =? 0); [apply task_op_ret|].
  destruct (signal_pending_state fatal (tstate x) x); [by apply task_op_put|].
  unfold deactivate_task. task_ops.
Qed.

(** a dequeue and an enqueue that cmgroup must not see *)
Definition requeued (x : task_struct) : task_struct := set_se_queued true x.

Lemma enqueued_hidden flag x :
  enqueued (Z.lor flag ENQUEUE_NOCMGROUP) x = set_se_queued true x.
Proof.
  unfold enqueued. replace (Z.land (Z.lor flag ENQUEUE_NOCMGROUP) ENQUEUE_NOCMGROUP) with 16.
  - by rewrite andb_false_r.
  - rewrite Z.land_lor_distr_l, Z.land_diag. symmetry.
    apply Z.bits_inj'. intros n _. rewrite Z.lor_spec, Z.land_spec.
    change 16 with ENQUEUE_NOCMGROUP. by destruct (Z.testbit flag n), (Z.testbit ENQUEUE_NOCMGROUP n).
Qed.

Lemma dequeued_hidden x : dequeued DEQUEUE_NOCMGROUP x = set_se_queued false x.
Proof. unfold dequeued. by rewrite andb_false_r. Qed.

Lemma requeue_task_op held t flag x :
  task_op held t (requeue_task t flag) x tt (if on_rq x then requeued x else x).
Proof.
  unfold requeue_task. apply task_op_get. destruct (on_rq x); [|apply task_op_ret].
  eapply task_op_bind; [apply dequeue_task_op|].
  replace (requeued x) with
    (enqueued (Z.lor flag ENQUEUE_NOCMGROUP) (dequeued DEQUEUE_NOCMGROUP x));
    [apply enqueue_task_op|].
  by rewrite dequeued_hidden, enqueued_hidden.
Qed.

Lemma move_task_op held t cpu x :
  task_op held t (move_task t cpu) x tt (set_tcpu cpu (requeued x)).
Proof.
  unfold move_task, deactivate_task, activate_task, set_task_cpu.
  eapply task_op_bind; [apply dequeue_task_op|]. rewrite dequeued_hidden.
  eapply task_op_bind; [task_ops|].
  replace (set_tcpu cpu (requeued x)) with
    (enqueued (Z.lor 0 ENQUEUE_NOCMGROUP) (set_tcpu cpu (set_se_queued false x)));
    [apply enqueue_task_op|].
  by rewrite enqueued_hidden.
Qed.

Lemma dissociate_op held t x :
  task_op held t (cmgroup_dissociate t) x tt
    (if bool_decide (task_cmgroup x = None) then x else dissociated x).
Proof.
  intros k Hi Ht. destruct (dissociate_ok held k t x Hi Ht) as (k' & y & E & Hi' & Hs & _ & ->).
  eauto.
Qed.

Definition exited (x : task_struct) : task_struct :=
  slept false (set_tstate TASK_DEAD (if bool_decide (task_cmgroup x = None) then x else dissociated x)).

Lemma exit_op held t x : task_op held t (do_exit_cmgroup t) x tt (exited x).
Proof.
  unfold do_exit_cmgroup, exited. eapply task_op_bind; [apply dissociate_op|].
  apply task_op_get. eapply task_op_bind; [by apply task_op_put|]. apply schedule_out_op.
Qed.

(** ** Fork: a new task, outside of any group *)

Lemma inv_new_task held k t y :
  inv held k -> tasks k !! t = None -> task_cmgroup y = None ->
  Z.of_nat (size (tasks k)) < PID_MAX_LIMIT -> inv held (upd_task t y k).
Proof.
  intros Hi Ht Hy Hsz.
  assert (Hrefs : forall g, refs (upd_task t y k) g = refs k g).
  { intros g. unfold refs; simpl. rewrite count_insert_new, in_group_none by done.
    unfold tasklet_pending; simpl. lia. }
  assert (Hc : forall g, charged (upd_task t y k) g = charged k g).
  { intros g. unfold charged; simpl. by rewrite count_insert_new, charged_to_none by done. }
  split; try apply Hi.
  - intros g c Hg. rewrite Hrefs. by apply Hi.
  - intros g Hg. rewrite Hrefs. by apply Hi.
  - intros g c Hg. rewrite Hc. by apply Hi.
  - simpl. rewrite map_size_insert_None by done. lia.
Qed.

(** ** A group's count is the number of its runnable tasks

    A task of a group is charged exactly while it is on the run queue. *)

Definition task_ok (x : task_struct) : Prop :=
  se_queued x = on_rq x /\ (task_cmgroup x <> None -> cmgroup_charged x = on_rq x).

Definition tasks_ok (k : kernel) : Prop := forall t x, tasks k !! t = Some x -> task_ok x.

Definition runnable_in (g : nat) (x : task_struct) : bool := in_group g x && on_rq x.

Lemma charged_runnable k g : tasks_ok k -> charged k g = count (runnable_in g) (tasks k).
Proof.
  intros Hok. apply count_ext. intros t x Hx. destruct (Hok t x Hx) as [_ Hc].
  unfold charged_to, runnable_in, in_group. case_bool_decide as Hg; simpl; [|done].
  apply Hc. by rewrite Hg.
Qed.

Lemma tasks_ok_upd k k' t y :
  tasks_ok k -> task_ok y -> same_rest (upd_task t y k) k' -> tasks_ok k'.
Proof.
  intros Hok Hy Hs t' x. rewrite (sr_tasks _ _ Hs); simpl. rewrite lookup_insert.
  case_decide; [by intros [= <-]|apply Hok].
Qed.

Lemma woken_ok x : task_ok x -> task_ok (woken x).
Proof.
  intros [H1 H2]. unfold woken, enqueued, counted, task_ok. destruct (on_rq x) eqn:E; simpl; [by rewrite E|].
  rewrite andb_true_r. case_bool_decide as Hg; simpl; [|by split].
  rewrite (H2 Hg). by split.
Qed.

Lemma slept_ok f x : task_ok x -> on_rq x = true -> task_ok (slept f x).
Proof.
  intros [H1 H2] Hrq. unfold slept, dequeued, counted, task_ok.
  destruct (tstate x =? 0); [done|]. destruct (signal_pending_state f (tstate x) x); [done|].
  simpl. rewrite andb_true_r. case_bool_decide as Hg; simpl; [|by split].
  rewrite (H2 Hg), Hrq. by split.
Qed.

Lemma exited_ok x : task_ok x -> on_rq x = true -> task_ok (exited x).
Proof.
  intros [H1 H2] Hrq. unfold exited. apply slept_ok; [|by case_bool_decide].
  case_bool_decide; split; simpl; try done.
Qed.

Lemma requeued_ok x : task_ok x -> on_rq x = true -> task_ok (requeued x).
Proof. intros [H1 H2] Hrq. split; simpl; [congruence|done]. Qed.

(** ** Requeueing that the group must not see, as equations *)

Lemma hidden_enqueue t flag k x :
  tasks k !! t = Some x ->
  enqueue_task t (Z.lor flag ENQUEUE_NOCMGROUP) k = Ret tt (upd_task t (set_se_queued true x) k).
Proof.
  intros Ht. unfold enqueue_task. mrun (get_task_eq t k x Ht). unfold put_task, modify, mbind at 1, M_bind at 1.
  unfold cmgroup_task_enqueued. unfold mbind at 1, M_bind at 1, get_task, deref. simpl. rewrite lookup_insert_eq.
  pose proof (enqueued_hidden flag (set_cmgroup_charged false (set_task_cmgroup (Some 0%nat) x))) as Hh.
  unfold enqueued, counted in Hh; simpl in Hh.
  destruct (Z.land (Z.lor flag ENQUEUE_NOCMGROUP) ENQUEUE_NOCMGROUP =? 0); [done|].
  by rewrite andb_false_r.
Qed.

Lemma hidden_dequeue t k x :
  tasks k !! t = Some x ->
  dequeue_task t DEQUEUE_NOCMGROUP k = Ret tt (upd_task t (set_se_queued false x) k).
Proof.
  intros Ht. unfold dequeue_task. mrun (get_task_eq t k x Ht). unfold put_task, modify, mbind at 1, M_bind at 1.
  unfold cmgroup_task_dequeued. unfold mbind at 1, M_bind at 1, get_task, deref. simpl. rewrite lookup_insert_eq.
  by rewrite andb_false_r.
Qed.
