(* ===== verification/CmOps.v ===== *)
(** * The tasklet and the operations of a group, whole

    The well-formedness of wait queues, the body of the tasklet (it
    terminates, keeps the invariant and gives its reference back or passes it
    on), and the operations of the component as one type [cm_op], with the
    theorem that no sequence of them oopses or loses a reference. *)

From S2P Require Import Prelude Wait Tasklet Cmgroup Sched CmWake CmInv CmTask.
Local Open Scope Z_scope.

(** ** Wait queues *)

Definition entry_ok (k : kernel) (w : wait_queue_t) : Prop :=
  wq_func w <> ep_poll_callback /\ exists t, wq_private w = Some t /\ is_Some (tasks k !! t).

Record queues_ok (k : kernel) : Prop := QueuesOk {
  q_local : forall g c, cmgroups k !! g = Some c -> Forall (entry_ok k) (__wq c);
  q_epoll : forall ep q, ep_wq k !! ep = Some q -> Forall (entry_ok k) q;
  q_wq : forall g c ep, cmgroups k !! g = Some c -> wq c = Epoll_wq ep -> is_Some (ep_wq k !! ep)
}.

Definition ok (held : nat -> Z) (k : kernel) : Prop :=
  inv held k /\ tasks_ok k /\ queues_ok k.

(** the attachment of a group: what only the attachment protocol changes *)
Record same_setup (c c' : cmgroup) : Prop := SameSetup {
  ss_mtx : attached_mtx c' = attached_mtx c;
  ss_lock : lock c' = lock c;
  ss_wq : wq c' = wq c;
  ss_epoll : attached_epoll c' = attached_epoll c;
  ss_aio : attached_aio c' = attached_aio c
}.

Lemma same_setup_trans c1 c2 c3 : same_setup c1 c2 -> same_setup c2 c3 -> same_setup c1 c3.
Proof. intros [] []. split; congruence. Qed.
Lemma same_setup_config c c' : same_config c c' -> same_setup c c'.
Proof. by intros []. Qed.

(** what waking tasks leaves alone *)
Record evolves (k k' : kernel) : Prop := Evolves {
  ev_files : files k' = files k;
  ev_fdt : fdt k' = fdt k;
  ev_ep : ep_cmgroup k' = ep_cmgroup k;
  ev_aio : aio_cmgroup k' = aio_cmgroup k;
  ev_ctx : atomic_ctx k' = atomic_ctx k;
  ev_cpu : this_cpu k' = this_cpu k;
  ev_tasks : forall t, is_Some (tasks k !! t) -> is_Some (tasks k' !! t);
  ev_epwq : forall ep, is_Some (ep_wq k !! ep) -> is_Some (ep_wq k' !! ep);
  ev_cm : forall g c', cmgroups k' !! g = Some c' -> exists c, cmgroups k !! g = Some c /\
            same_setup c c' /\ same_active k k' g c c'
}.

Lemma evolves_refl k : evolves k k.
Proof. split; try done. intros g c Hc. exists c. split_and!; auto with kernel. by split. Qed.

Lemma evolves_trans k1 k2 k3 : evolves k1 k2 -> evolves k2 k3 -> evolves k1 k3.
Proof.
  intros [? ? ? ? ? ? T1 E1 C1] [? ? ? ? ? ? T2 E2 C2]. split; try congruence; auto.
  intros g c3 Hc3. destruct (C2 g c3 Hc3) as (c2 & Hc2 & S2 & A2).
  destruct (C1 g c2 Hc2) as (c1 & Hc1 & S1 & A1). exists c1.
  split_and!; [done|by eapply same_setup_trans|].
  intros Ha. destruct (A1 Ha) as [Ha1 P1], (A2 Ha1) as [Ha2 P2]. by rewrite P2.
Qed.

#[export] Hint Resolve evolves_refl : kernel.

(** the attachments are those of before *)
Definition setup_le (k k' : kernel) : Prop :=
  ep_cmgroup k' = ep_cmgroup k /\ aio_cmgroup k' = aio_cmgroup k /\
  forall g c', cmgroups k' !! g = Some c' -> exists c, cmgroups k !! g = Some c /\ same_setup c c'.

Lemma setup_le_refl k : setup_le k k.
Proof. split_and!; try done. intros g c Hc. exists c. split; [done|by split]. Qed.
Lemma setup_le_trans k1 k2 k3 : setup_le k1 k2 -> setup_le k2 k3 -> setup_le k1 k3.
Proof.
  intros (E1 & A1 & C1) (E2 & A2 & C2). split_and!; try congruence.
  intros g c3 Hc3. destruct (C2 g c3 Hc3) as (c2 & Hc2 & S2).
  destruct (C1 g c2 Hc2) as (c1 & Hc1 & S1). eauto using same_setup_trans.
Qed.
Lemma setup_le_evolves k k' : evolves k k' -> setup_le k k'.
Proof.
  intros []. split_and!; try done. intros g c' Hc'.
  destruct (ev_cm0 g c' Hc') as (c & Hc & Hs & _). eauto.
Qed.
Lemma setup_le_rest k k' : same_rest k k' -> setup_le k k'.
Proof.
  intros Hs. split_and!; [apply Hs|apply Hs|]. intros g c' Hc'.
  destruct (sr_cm _ _ Hs g c' Hc') as (c & Hc & Hcc & _). eauto using same_setup_config.
Qed.
Lemma setup_le_sirqs k s : setup_le k (set_sirqs s k).
Proof. split_and!; try done. intros g c Hc. exists c. split; [done|by split]. Qed.
#[export] Hint Resolve setup_le_refl setup_le_evolves setup_le_rest setup_le_sirqs : kernel.

Lemma entry_ok_evolves k k' w : evolves k k' -> entry_ok k w -> entry_ok k' w.
Proof. intros Hev (Hf & t & Ht & Hs). split; [done|]. exists t. split; [done|]. by apply Hev. Qed.

(** a task of [k] changed, and the rest as in [same_rest] *)
Lemma upd_evolves k k' t y : is_Some (tasks k !! t) -> same_rest (upd_task t y k) k' -> evolves k k'.
Proof.
  intros [x Ht] [S1 S2 S3 S4 S5 S6 S7 S7' S8]. simpl in *. split; try done.
  - intros t' Ht'. rewrite S1, lookup_insert. by case_decide.
  - intros ep. by rewrite S5.
  - intros g c' Hc'. destruct (S8 g c' Hc') as (c & Hc & Hcc & Ha). exists c.
    split_and!; [done|by apply same_setup_config|done].
Qed.

Lemma queues_rest k k' :
  queues_ok k -> (forall t, is_Some (tasks k !! t) -> is_Some (tasks k' !! t)) ->
  ep_wq k' = ep_wq k ->
  (forall g c', cmgroups k' !! g = Some c' -> exists c, cmgroups k !! g = Some c /\
     __wq c' = __wq c /\ wq c' = wq c) ->
  queues_ok k'.
Proof.
  intros [Q1 Q2 Q3] Ht He Hc.
  assert (Hw : forall w, entry_ok k w -> entry_ok k' w).
  { intros w (Hf & t & Hp & Hs). split; [done|]. exists t. auto. }
  split.
  - intros g c' Hc'. destruct (Hc g c' Hc') as (c & Hg & E & _).
    rewrite E. eapply Forall_impl; [by eapply Q1|done].
  - intros ep q. rewrite He. intros Hq. eapply Forall_impl; [by eapply Q2|done].
  - intros g c' ep Hc'. destruct (Hc g c' Hc') as (c & Hg & _ & E). rewrite E, He. by eapply Q3.
Qed.

Lemma same_config_queue k k' :
  same_rest k k' -> forall g c', cmgroups k' !! g = Some c' -> exists c, cmgroups k !! g = Some c /\
     __wq c' = __wq c /\ wq c' = wq c.
Proof. intros Hs g c' Hc'. destruct (sr_cm _ _ Hs g c' Hc') as (c & Hc & [] & _). eauto. Qed.

Lemma ok_same held held' k k' : ok held k -> inv held' k' -> same_rest k k' -> ok held' k'.
Proof.
  intros (Hi & Ht & Hq) Hi' Hs. split_and!; [done| |].
  - intros t x. rewrite (sr_tasks _ _ Hs). apply Ht.
  - apply (queues_rest k k'); [done| |apply Hs|by apply same_config_queue].
    intros t. by rewrite (sr_tasks _ _ Hs).
Qed.

Lemma upd_queues k k' t y :
  queues_ok k -> same_rest (upd_task t y k) k' -> queues_ok k'.
Proof.
  intros Hq Hs. apply (queues_rest k k'); [done| |apply Hs|].
  - intros t' Ht'. rewrite (sr_tasks _ _ Hs); simpl. rewrite lookup_insert. by case_decide.
  - apply (same_config_queue _ _ Hs).
Qed.

Lemma ok_upd held k k' t x y :
  ok held k -> tasks k !! t = Some x -> inv held k' -> same_rest (upd_task t y k) k' ->
  (task_ok x -> task_ok y) -> ok held k' /\ evolves k k'.
Proof.
  intros (Hi & Ht & Hq) Hx Hi' Hs Hxy. split; [|by eapply upd_evolves].
  split_and!; [done| |by eapply upd_queues].
  eapply tasks_ok_upd; [done| |done]. apply Hxy. by eapply Ht.
Qed.

(** ** Changes of one live group *)

Lemma ok_put_gen held k g c c' :
  ok held k -> cmgroups k !! g = Some c ->
  inv held (set_cmgroups (<[g := c']> (cmgroups k)) k) ->
  Forall (entry_ok k) (__wq c') ->
  (forall ep, wq c' = Epoll_wq ep -> is_Some (ep_wq k !! ep)) ->
  ok held (set_cmgroups (<[g := c']> (cmgroups k)) k).
Proof.
  intros (Hi & Ht & [Q1 Q2 Q3]) Hc Hi' Hw He. split_and!; [done|done|]. split; simpl; try done.
  - intros g' d. rewrite lookup_insert. case_decide; [by intros [= <-]|apply Q1].
  - intros g' d ep. rewrite lookup_insert. case_decide; [intros [= <-]; apply He|apply Q3].
Qed.

Lemma ok_put held k g c c' :
  ok held k -> cmgroups k !! g = Some c ->
  kref c' = kref c -> available c' = available c ->
  concurrency_value c' = concurrency_value c ->
  (tasklet_pending k g = true -> tasklet_active c' = true) ->
  Forall (entry_ok k) (__wq c') ->
  (forall ep, wq c' = Epoll_wq ep -> is_Some (ep_wq k !! ep)) ->
  ok held (set_cmgroups (<[g := c']> (cmgroups k)) k).
Proof. intros Ho ? ? ? ? ? Hw He. eapply ok_put_gen; eauto. eapply inv_put; eauto. apply Ho. Qed.

Lemma evolves_put k g c c' :
  cmgroups k !! g = Some c -> same_setup c c' ->
  (tasklet_active c = true -> tasklet_active c' = true) ->
  evolves k (set_cmgroups (<[g := c']> (cmgroups k)) k).
Proof.
  intros Hc Hcc Ha. split; simpl; try done. intros g' d. rewrite lookup_insert.
  case_decide; subst; [intros [= <-]|intros Hd].
  - exists c. split_and!; try done. intros H. split; [by apply Ha|done].
  - exists d. split_and!; auto with kernel. by split.
Qed.

(** the running code holds a reference, or works for an event source that does *)
Definition pinned (held : nat -> Z) (k : kernel) (g : nat) : Prop :=
  0 < held g \/ (exists ep, ep_cmgroup k !! ep = Some g) \/ (exists a, aio_cmgroup k !! a = Some g).

Lemma pin_held held k g : 0 < held g -> pinned held k g.
Proof. by left. Qed.

Lemma pinned_same held k k' g :
  ep_cmgroup k' = ep_cmgroup k -> aio_cmgroup k' = aio_cmgroup k -> pinned held k g -> pinned held k' g.
Proof. unfold pinned. by intros -> ->. Qed.

Lemma pinned_evolves held k k' g : evolves k k' -> pinned held k g -> pinned held k' g.
Proof. intros []. by apply pinned_same. Qed.

Lemma pinned_refs held k g : inv held k -> pinned held k g -> 0 < refs k g + held g.
Proof.
  intros Hi H. pose proof (refs_nonneg k g). pose proof (inv_held _ _ Hi g).
  destruct H as [?|[[i Hx]|[i Hx]]]; [lia| |]; unfold refs;
    pose proof (count_bounds (file_to g) (files k)); pose proof (count_bounds (in_group g) (tasks k));
    pose proof (count_bounds (Nat.eqb g) (ep_cmgroup k)); pose proof (count_bounds (Nat.eqb g) (aio_cmgroup k));
    pose proof (b2z_bounds (tasklet_pending k g));
    pose proof (count_pos (Nat.eqb g) _ i g Hx (Nat.eqb_refl g)); lia.
Qed.

(** a pinned group is there *)
Lemma held_get held k g :
  ok held k -> pinned held k g ->
  exists c, cmgroups k !! g = Some c /\ get_cm g k = Ret c k.
Proof.
  intros (Hi & _) Hg.
  destruct (inv_get held k g Hi) as (c & Hc & _ & Eg); [by apply pinned_refs|]. eauto.
Qed.

(** ** Waking *)

(** [m], from [k], returns, keeps [ok] and changes nothing but what waking changes *)
Definition keeps {A} (held : nat -> Z) (k : kernel) (m : K A) : Prop :=
  exists a k', m k = Ret a k' /\ ok held k' /\ evolves k k'.

Lemma keeps_bind {A B} held k (m : K A) (f : A -> K B) :
  keeps held k m ->
  (forall a k', m k = Ret a k' -> ok held k' -> evolves k k' -> keeps held k' (f a)) ->
  keeps held k (mbind f m).
Proof.
  intros (a & k1 & E1 & Ho1 & Ev1) Hf.
  destruct (Hf a k1 E1 Ho1 Ev1) as (b & k2 & E2 & Ho2 & Ev2).
  exists b, k2. split_and!; [|done|by eapply evolves_trans]. apply bind_Ret. eauto.
Qed.

Lemma keeps_ret {A} held k (a : A) : ok held k -> keeps held k (mret a).
Proof. intros Ho. exists a, k. split_and!; auto with kernel. Qed.

Definition ref_ok (k : kernel) (r : wq_ref) : Prop :=
  match r with Local_wq => True | Epoll_wq ep => is_Some (ep_wq k !! ep) end.

Lemma ref_ok_evolves k k' r : evolves k k' -> ref_ok k r -> ref_ok k' r.
Proof. intros Hev. destruct r; [done|]. apply Hev. Qed.

Lemma get_queue_ok held k r g :
  ok held k -> pinned held k g -> ref_ok k r ->
  exists q, get_queue r g k = Ret q k /\ Forall (entry_ok k) q.
Proof.
  intros Ho Hg Hr. destruct Ho as (Hi & Ht & [Q1 Q2 Q3]) eqn:Eo. destruct r as [|ep]; simpl in *.
  - destruct (held_get held k g Ho Hg) as (c & Hc & Eg). exists (__wq c).
    unfold mbind, M_bind. rewrite Eg. split; [done|]. by eapply Q1.
  - destruct Hr as [q Hq]. exists q. unfold deref. rewrite Hq. split; [done|]. by eapply Q2.
Qed.

Lemma put_queue_ok held k r g q :
  ok held k -> pinned held k g -> ref_ok k r -> Forall (entry_ok k) q -> keeps held k (put_queue r g q).
Proof.
  intros Ho Hg Hr Hq. destruct r as [|ep]; simpl.
  - destruct (held_get held k g Ho Hg) as (c & Hc & Eg). destruct Ho as (Hi & Ht & Hqs) eqn:Eo.
    eexists tt, _. rewrite (upd_cm_eq _ _ _ _ Eg). split; [done|]. split.
    + eapply ok_put; eauto; simpl.
      * intros Hp. by eapply (inv_sched _ _ Hi).
      * intros ep. by eapply (q_wq _ Hqs).
    + by eapply evolves_put.
  - destruct Ho as (Hi & Ht & [Q1 Q2 Q3]). eexists tt, _. split; [done|]. split.
    + split_and!; [by destruct Hi|done|]. split; try done; simpl.
      * intros ep' q'. rewrite lookup_insert. case_decide; [by intros [= <-]|apply Q2].
      * intros g' c ep' Hc He. rewrite lookup_insert. case_decide; [done|]. by eapply Q3.
    + split; try done; simpl.
      * intros ep' Hep. rewrite lookup_insert. by case_decide.
      * intros g' c Hc. exists c. split_and!; auto with kernel. by split.
Qed.

Lemma unlink_ok held k r g id :
  ok held k -> pinned held k g -> ref_ok k r -> keeps held k (unlink r g id).
Proof.
  intros Ho Hg Hr. destruct (get_queue_ok held k r g Ho Hg Hr) as (q & Eq & Hq).
  destruct (put_queue_ok held k r g (__remove_wait_queue q id) Ho Hg Hr) as (a & k' & E & ?).
  - rewrite Forall_forall in Hq |- *. intros w [_ Hw]%list_elem_of_filter. by apply Hq.
  - exists a, k'. split; [|done]. unfold unlink, mbind, M_bind. by rewrite Eq.
Qed.

Lemma default_wake_ok held k w : ok held k -> entry_ok k w -> keeps held k (default_wake w).
Proof.
  intros Ho (_ & t & Hw & [x Ht]). unfold default_wake. rewrite Hw.
  destruct (wake_up_op held t TASK_NORMAL x k (proj1 Ho) Ht) as (k' & E & Hi' & Hs').
  eexists _, k'. split; [exact E|]. apply (ok_upd held k k' t x _ Ho Ht Hi' Hs').
  destruct (Z.land (tstate x) TASK_NORMAL =? 0); [done|]. apply woken_ok.
Qed.

Section Tasklet.
Context `{WL : WaitLib}.

Lemma autoremove_ok held k r g w :
  ok held k -> pinned held k g -> ref_ok k r -> entry_ok k w -> keeps held k (autoremove r g w).
Proof.
  intros Ho Hg Hr Hw. rewrite autoremove_eq. apply keeps_bind; [by apply default_wake_ok|].
  intros [] k' _ Ho' Hev; [|by apply keeps_ret].
  apply keeps_bind; [apply unlink_ok; eauto using ref_ok_evolves, pinned_evolves|].
  intros _ k2 _ Ho2 _. by apply keeps_ret.
Qed.

(** a change of the counters of a group the invariant does not speak of *)
Lemma upd_keeps held k g (f : cmgroup -> cmgroup) :
  ok held k -> pinned held k g ->
  (forall c, kref (f c) = kref c /\ available (f c) = available c /\
     concurrency_value (f c) = concurrency_value c /\ tasklet_active (f c) = tasklet_active c /\
     __wq (f c) = __wq c /\ same_setup c (f c)) ->
  keeps held k (upd_cm g f).
Proof.
  intros Ho Hg Hf. destruct (held_get held k g Ho Hg) as (c & Hc & Eg).
  destruct (Hf c) as (F1 & F2 & F3 & F4 & F5 & F6). destruct Ho as (Hi & Ht & Hq) eqn:Eo.
  eexists tt, _. rewrite (upd_cm_eq _ _ _ _ Eg). split; [done|]. split.
  - eapply ok_put; eauto.
    + intros Hp. rewrite F4. by eapply (inv_sched _ _ Hi).
    + rewrite F5. by eapply (q_local _ Hq).
    + intros ep. rewrite (ss_wq _ _ F6). by eapply (q_wq _ Hq).
  - eapply evolves_put; eauto.
Qed.

Lemma cmgroup_wake_ok held k r g w :
  ok held k -> pinned held k g -> ref_ok k r -> entry_ok k w -> keeps held k (cmgroup_wake r g w).
Proof.
  intros Ho Hg Hr Hw. unfold cmgroup_wake. apply keeps_bind; [by apply autoremove_ok|].
  intros b k' _ Ho' Hev. apply keeps_bind.
  - destruct b; [|by apply keeps_ret]. apply upd_keeps; [done|by eapply pinned_evolves|]. intros []. by split_and!.
  - intros _ k2 _ Ho2 _. by apply keeps_ret.
Qed.

Lemma call_func_ok held k r g w :
  ok held k -> pinned held k g -> ref_ok k r -> entry_ok k w -> keeps held k (call_func r g w).
Proof.
  intros Ho Hg Hr Hw. unfold call_func. pose proof (proj1 Hw) as Hne.
  destruct (wq_func w); [by apply default_wake_ok|by apply autoremove_ok|by apply cmgroup_wake_ok|done].
Qed.

Lemma scan_queue_ok held k nr r g q :
  ok held k -> pinned held k g -> ref_ok k r -> Forall (entry_ok k) q -> keeps held k (scan_queue nr r g q).
Proof.
  unfold scan_queue. revert k nr. induction q as [|w q IH]; intros k nr Ho Hg Hr Hq.
  - exists tt, k. rewrite wake_up_common_nil. split_and!; auto with kernel.
  - apply Forall_cons in Hq as [Hw Hq].
    destruct (call_func_ok held k r g w Ho Hg Hr Hw) as (b & k1 & E1 & Ho1 & Ev1).
    assert (Hq1 : Forall (entry_ok k1) q).
    { eapply Forall_impl; [done|]. intros w'. by apply entry_ok_evolves. }
    assert (Hrec : forall nr', keeps held k (fun _ => wake_up_common (call_scan r g) q nr' (Ret tt k1))).
    { intros nr'. destruct (IH k1 nr' Ho1 (pinned_evolves _ _ _ _ Ev1 Hg) (ref_ok_evolves _ _ _ Ev1 Hr) Hq1) as (a & k2 & E2 & Ho2 & Ev2).
      exists a, k2. split_and!; [done|done|by eapply evolves_trans]. }
    unfold keeps. rewrite wake_up_common_cons. unfold call_scan at 1 3. rewrite E1.
    destruct (b && is_exclusive w); [|apply Hrec]. destruct (nr - 1 =? 0); [|apply Hrec].
    by exists tt, k1.
Qed.

Lemma wake_up_wq_ok held k nr r g :
  ok held k -> pinned held k g -> ref_ok k r -> keeps held k (wake_up_wq nr r g).
Proof.
  intros Ho Hg Hr. destruct (get_queue_ok held k r g Ho Hg Hr) as (q & Eq & Hq).
  destruct (scan_queue_ok held k nr r g q Ho Hg Hr Hq) as (a & k' & E & ?).
  exists a, k'. split; [|done]. unfold wake_up_wq, mbind, M_bind. by rewrite Eq.
Qed.

(** ** The body of the tasklet *)

(** the tasklet of [g] runs: active, and not scheduled *)
Definition running (k : kernel) (g : nat) : Prop :=
  exists c, cmgroups k !! g = Some c /\ tasklet_active c = true /\ tasklet_pending k g = false.

Lemma running_evolves held k k' g :
  ok held k' -> pinned held k' g -> evolves k k' -> running k g -> running k' g.
Proof.
  intros Ho Hg Hev (c & Hc & Ha & Hp). destruct (held_get held k' g Ho Hg) as (c' & Hc' & _).
  destruct (ev_cm _ _ Hev g c' Hc') as (d & Hd & _ & Hact). simplify_eq.
  destruct (Hact Ha) as [Ha' Hp']. exists c'. by rewrite Hp'.
Qed.

Lemma wq_ref_ok held k g c : ok held k -> cmgroups k !! g = Some c -> ref_ok k (wq c).
Proof.
  intros (_ & _ & Hq) Hc. unfold ref_ok. destruct (wq c) eqn:E; [done|]. by eapply (q_wq _ Hq).
Qed.

(** the reference of the running tasklet is passed to the one scheduled *)
Lemma reschedule_ok held k g cpu :
  ok held k -> running k g -> 0 < held g ->
  exists s', softirq_op (Tasklet.tasklet_schedule cpu g) k = Ret tt (set_sirqs s' k) /\
    ok (drop g held) (set_sirqs s' k).
Proof.
  intros (Hi & Ht & Hq) (c & Hc & Ha & Hp) Hg.
  destruct (inv_tasklet _ _ Hi g) as [x Hx]; [by rewrite Hc|].
  assert (Hxs : Tasklet.is_sched x = false) by (unfold tasklet_pending in Hp; by rewrite Hx in Hp).
  destruct (schedule_some false cpu g (sirqs k) x Hx Hxs) as (s' & Es & Ts).
  exists s'. split; [unfold softirq_op; by rewrite Es|].
  split_and!; [|done|].
  - apply (inv_pend (drop g held) k g c x s'); try done.
    + eapply inv_ext; [|done]. intros h. unfold hold, drop. lia.
    + intros h. destruct (decide (g = h)) as [<-|]; [rewrite drop_eq; lia|].
      rewrite drop_ne by done. apply Hi.
  - by apply (queues_rest k); eauto.
Qed.

(** what a pass of the loop leaves, by the label it goes to *)
Definition exit_ok (held : nat -> Z) (k : kernel) (g : nat) (e : tasklet_exit) (k' : kernel) : Prop :=
  match e with
  | out_tasklet => ok held k' /\ evolves k k'
  | out_unlock_resched => ok (drop g held) k' /\ exists k1 s, ok held k1 /\ evolves k k1 /\ k' = set_sirqs s k1
  | out_recheck _ => ok held k' /\ evolves k k' /\
      exists c', cmgroups k' !! g = Some c' /\ available c' <= 0
  end.

Lemma exit_ok_trans held k k1 g e k' :
  evolves k k1 -> exit_ok held k1 g e k' -> exit_ok held k g e k'.
Proof.
  intros H. destruct e; simpl; [| |]; intros; destruct_and?;
    split_and?; eauto using evolves_trans.
  destruct H2 as (k2 & s & ? & ? & ->). exists k2, s. eauto using evolves_trans.
Qed.

Lemma again_wakeall_ok held k left g :
  ok held k -> running k g -> 0 < held g ->
  exists e k', again_wakeall left g k = Ret e k' /\ exit_ok held k g e k'.
Proof.
  revert k. induction left as [|left IH]; intros k Ho Hrun Hg;
    destruct (held_get held k g Ho (pin_held _ _ _ Hg)) as (c & Hc & Eg);
    pose proof (wq_ref_ok held k g c Ho Hc) as Hr;
    destruct (get_queue_ok held k (wq c) g Ho (pin_held _ _ _ Hg) Hr) as (q & Eq & Hq);
    simpl; mrun Eg;
    mrun Eq;
    (destruct (waitqueue_active q); simpl;
      [|exists out_tasklet, k; split; [done|]; split; auto with kernel]).
  - destruct (reschedule_ok held k g (this_cpu k) Ho Hrun Hg) as (s' & E & Ho').
    exists out_unlock_resched, (set_sirqs s' k). split; [|split; [done|by exists k, s'; auto with kernel]].
    unfold mbind, M_bind, get. by rewrite E.
  - destruct (0 <? available c) eqn:Hav; zbool.
    2: { eexists (out_recheck left), k. split; [done|]. simpl. split_and!; eauto with kernel. }
    destruct (wake_up_wq_ok held k 1 (wq c) g Ho (pin_held _ _ _ Hg) Hr) as ([] & k1 & E1 & Ho1 & Ev1).
    mrun E1.
    destruct (held_get held k1 g Ho1 (pin_held _ _ _ Hg)) as (c1 & Hc1 & Eg1).
    mrun Eg1.
    destruct (n_waked c =? n_waked c1); [by exists out_tasklet, k1|].
    destruct (IH k1 Ho1) as (e & k' & E & He); [eauto using running_evolves, pin_held|done|].
    exists e, k'. split; [exact E|by eapply exit_ok_trans].
Qed.

Lemma tasklet_locked_ok held k left g :
  ok held k -> running k g -> 0 < held g ->
  exists e k', tasklet_locked left g k = Ret e k' /\ exit_ok held k g e k'.
Proof.
  intros Ho Hrun Hg. destruct (held_get held k g Ho (pin_held _ _ _ Hg)) as (c & Hc & Eg).
  unfold tasklet_locked. mrun Eg.
  destruct (action c); [|by apply again_wakeall_ok|].
  { exists out_tasklet, k. split; [done|]. split; auto with kernel. }
  destruct (0 <? available c) eqn:Hav; zbool.
  2: { eexists (out_recheck left), k. split; [done|]. simpl. split_and!; eauto with kernel. }
  assert (Hk : keeps held k (put_cm g (set_action CMGROUP_ACTION_NEUTRAL c) ;;
     q ← get_queue (wq c) g;
     (if waitqueue_active q then wake_up_wq 1 (wq c) g else mret tt) ;; mret out_tasklet)).
  { apply keeps_bind.
    - destruct (upd_keeps held k g (set_action CMGROUP_ACTION_NEUTRAL) Ho (pin_held _ _ _ Hg)) as (a & k' & E & ?); [intros []; by split_and!|].
      exists a, k'. split; [|done]. rewrite (upd_cm_eq _ _ _ _ Eg) in E. exact E.
    - intros _ k1 _ Ho1 Ev1. pose proof (wq_ref_ok held k g c Ho Hc) as Hr.
      apply (ref_ok_evolves _ _ _ Ev1) in Hr.
      apply keeps_bind; [|intros q k2 _ Ho2 Ev2; apply keeps_bind].
      + destruct (get_queue_ok held k1 (wq c) g Ho1 (pin_held _ _ _ Hg) Hr) as (q & Eq & _).
        exists q, k1. split_and!; auto with kernel.
      + destruct (waitqueue_active q); [|by apply keeps_ret].
        apply wake_up_wq_ok; eauto using ref_ok_evolves, pin_held.
      + intros _ k3 _ Ho3 _. by apply keeps_ret. }
  destruct Hk as (e & k' & E & Ho' & Ev'). exists e, k'. split; [exact E|].
  apply bind_Ret in E as (a1 & k1 & _ & E). apply bind_Ret in E as (a2 & k2 & _ & E).
  apply bind_Ret in E as (a3 & k3 & _ & E). by injection E as <- <-.
Qed.

Lemma clear_active_ok held k g :
  ok held k -> pinned held k g -> tasklet_pending k g = false ->
  exists c, cmgroups k !! g = Some c /\
    clear_active g k = Ret tt (set_cmgroups (<[g := set_tasklet_active false c]> (cmgroups k)) k) /\
    ok held (set_cmgroups (<[g := set_tasklet_active false c]> (cmgroups k)) k).
Proof.
  intros Ho Hg Hp. destruct (held_get held k g Ho Hg) as (c & Hc & Eg). exists c.
  split; [done|]. unfold clear_active. rewrite (upd_cm_eq _ _ _ _ Eg). split; [done|].
  destruct Ho as (Hi & Ht & Hq) eqn:Eo. eapply (ok_put held k g c); try done; simpl.
  - by rewrite Hp.
  - by eapply (q_local _ Hq).
  - intros ep. by eapply (q_wq _ Hq).
Qed.

(** what the body of the tasklet leaves: the attachments as they were, and the
    group still allocated *)
Definition ran_ok (k : kernel) (g : nat) (k' : kernel) : Prop :=
  setup_le k k' /\ atomic_ctx k' = atomic_ctx k /\ is_Some (cmgroups k' !! g).

Lemma cleared_ran held k k1 g c :
  ok held k1 -> evolves k k1 -> cmgroups k1 !! g = Some c ->
  ran_ok k g (set_cmgroups (<[g := set_tasklet_active false c]> (cmgroups k1)) k1).
Proof.
  intros Ho Ev Hc. split_and!; [|apply Ev|simpl; by rewrite lookup_insert_eq].
  apply (setup_le_trans _ k1); [auto with kernel|]. split_and!; try done. simpl.
  intros g' d. rewrite lookup_insert. case_decide; subst; [intros [= <-]|]; eauto.
  - exists c. split; [done|by split].
  - intros Hd. exists d. split; [done|by split].
Qed.

(** one round of the loop is enough: the re-check of [available] fails when
    nothing happened since the check *)
Lemma tasklet_again_ok held k g :
  ok held k -> running k g -> 0 < held g ->
  exists b k', tasklet_again 1 max_passes g k = Ret b k' /\
    ok (if (b : bool) then held else drop g held) k' /\ ran_ok k g k'.
Proof.
  intros Ho Hrun Hg.
  destruct (tasklet_locked_ok held k max_passes g Ho Hrun Hg) as (e & k1 & E1 & He).
  cbn [tasklet_again]. mrun E1.
  destruct e as [| |left]; simpl in He.
  - destruct He as [Ho1 Ev1].
    destruct (running_evolves held k k1 g Ho1 (pin_held _ _ _ Hg) Ev1 Hrun) as (c & _ & _ & Hp).
    destruct (clear_active_ok held k1 g Ho1 (pin_held _ _ _ Hg) Hp) as (c' & Hc' & E2 & Ho2).
    eexists true, _. split; [|split; [exact Ho2|by eapply cleared_ran]].
    unfold mbind, M_bind. by rewrite E2.
  - destruct He as (Ho1 & k2 & s & Ho2 & Ev2 & ->). exists false, (set_sirqs s k2).
    split_and!; [done|done|]. split_and!; [|apply Ev2|].
    + apply (setup_le_trans _ k2); auto with kernel.
    + destruct (held_get held k2 g Ho2 (pin_held _ _ _ Hg)) as (c & Hc & _). eauto.
  - destruct He as (Ho1 & Ev1 & d & Hd & Hav).
    destruct (running_evolves held k k1 g Ho1 (pin_held _ _ _ Hg) Ev1 Hrun) as (c & _ & _ & Hp).
    destruct (clear_active_ok held k1 g Ho1 (pin_held _ _ _ Hg) Hp) as (c' & Hc' & E2 & Ho2). simplify_eq.
    eexists true, _. split; [|split; [exact Ho2|by eapply cleared_ran]].
    mrun E2.
    destruct (held_get held _ g Ho2 (pin_held _ _ _ Hg)) as (e & He & Eg). simpl in He.
    rewrite lookup_insert_eq in He. simplify_eq.
    unfold cmgroup_available, mbind, M_bind. rewrite Eg. simpl.
    by rewrite (proj2 (Z.leb_le _ _) Hav).
Qed.

(** in atomic context a last reference leaves the group to the worker *)
Lemma unref_atomic g k k' :
  atomic_ctx k = true -> cmgroup_unref g k = Ret tt k' -> is_Some (cmgroups k' !! g).
Proof.
  intros Ha. unfold cmgroup_unref, mbind, M_bind. destruct (get_cm g k) as [c k0| |] eqn:Eg; try done.
  assert (k0 = k) as ->.
  { unfold get_cm, deref in Eg. by destruct (c0 ← cmgroups k !! g; _); simplify_eq. }
  unfold put_cm, modify, cmgroup_kref_release, cmgroup_free, mbind, M_bind, get.
  destruct (kref c - 1 =? 0); simpl; rewrite ?Ha; intros [= <-]; simpl; by rewrite lookup_insert_eq.
Qed.

Lemma cmgroup_tasklet_ok held k g :
  ok held k -> running k g -> 0 < held g -> atomic_ctx k = true ->
  exists k', cmgroup_tasklet g k = Ret tt k' /\ ok (drop g held) k' /\ ran_ok k g k'.
Proof.
  intros Ho Hrun Hg Hat. destruct (tasklet_again_ok held k g Ho Hrun Hg) as (b & k1 & E1 & Ho1 & Hran).
  unfold cmgroup_tasklet, mbind, M_bind. rewrite E1. destruct b; [|by exists k1].
  destruct (cmgroup_unref_ok held k1 g (proj1 Ho1) Hg) as (k2 & E2 & Hi2 & Hs2).
  destruct Hran as (Hle & Hctx & _).
  exists k2. split_and!; [done|by eapply ok_same|]. split_and!.
  - eapply setup_le_trans; eauto with kernel.
  - rewrite (sr_ctx _ _ Hs2). done.
  - eapply unref_atomic; [|done]. congruence.
Qed.
End Tasklet.
