(* ===== verification/CmSys.v ===== *)
(** * The cmgroup component as a whole

    The operations of the component as one type [cm_op] and the invariant
    [sys_ok] of the states between them: reference counts, accounting,
    attachments.  No sequence of operations oopses or sleeps for ever, and
    every state it reaches satisfies the invariant. *)

From S2P Require Import Prelude Wait Tasklet Cmgroup Sched CmWake CmInv CmTask CmOps.
Local Open Scope Z_scope.

(** ** Attachments *)

(** A group has at most one event source, which points back to it, and its
    [wq] and [lock] are the eventpoll's exactly while it has an eventpoll. *)
Record group_setup (k : kernel) (g : nat) (c : cmgroup) : Prop := GroupSetup {
  gs_lock : lock c = wq c;
  gs_wq : wq c = match attached_epoll c with Some ep => Epoll_wq ep | None => Local_wq end;
  gs_one : attached_epoll c = None \/ attached_aio c = None;
  gs_epoll : forall ep, attached_epoll c = Some ep <-> ep_cmgroup k !! ep = Some g;
  gs_aio : forall a, attached_aio c = Some a <-> aio_cmgroup k !! a = Some g
}.

Definition setup_ok (k : kernel) : Prop :=
  forall g c, cmgroups k !! g = Some c -> group_setup k g c.

(** the attachments are those of before, whatever the mutexes *)
Definition attach_le (k k' : kernel) : Prop :=
  ep_cmgroup k' = ep_cmgroup k /\ aio_cmgroup k' = aio_cmgroup k /\
  forall g c', cmgroups k' !! g = Some c' -> exists c, cmgroups k !! g = Some c /\
    lock c' = lock c /\ wq c' = wq c /\ attached_epoll c' = attached_epoll c /\
    attached_aio c' = attached_aio c.

Lemma attach_le_trans k1 k2 k3 : attach_le k1 k2 -> attach_le k2 k3 -> attach_le k1 k3.
Proof.
  intros (E1 & A1 & C1) (E2 & A2 & C2). split_and!; try congruence.
  intros g c3 Hc3. destruct (C2 g c3 Hc3) as (c2 & Hc2 & ?).
  destruct (C1 g c2 Hc2) as (c1 & Hc1 & ?). exists c1. destruct_and!. split_and!; congruence.
Qed.

Lemma setup_attach_le k k' : setup_le k k' -> attach_le k k'.
Proof.
  intros (He & Ha & Hc). split_and!; try done. intros g c' Hc'.
  destruct (Hc g c' Hc') as (c & Hg & []). exists c. by split_and!.
Qed.
#[local] Hint Resolve setup_attach_le : kernel.

Lemma attach_le_put k g c c' :
  cmgroups k !! g = Some c -> lock c' = lock c -> wq c' = wq c ->
  attached_epoll c' = attached_epoll c -> attached_aio c' = attached_aio c ->
  attach_le k (set_cmgroups (<[g := c']> (cmgroups k)) k).
Proof.
  intros Hc H1 H2 H3 H4. split_and!; try done. simpl. intros g' d. rewrite lookup_insert.
  case_decide; subst; [intros [= <-]|intros Hd]; eexists; split_and!; done.
Qed.

Lemma attach_le_setup k k' : attach_le k k' -> setup_ok k -> setup_ok k'.
Proof.
  intros (He & Ha & Hc) Hs g c' Hc'. destruct (Hc g c' Hc') as (c & Hg & E1 & E2 & E3 & E4).
  destruct (Hs g c Hg). split; [congruence|by rewrite E2, E3|by rewrite E3, E4| |].
  - intros ep. by rewrite E3, He.
  - intros a. by rewrite E4, Ha.
Qed.

(** who holds the mutexes: nobody, or the running code holds that of [o] *)
Definition mtx_held (o : option nat) (k : kernel) : Prop :=
  forall g c, cmgroups k !! g = Some c -> attached_mtx c = bool_decide (o = Some g).

Definition sys_ok (k : kernel) : Prop := ok no_refs k /\ setup_ok k /\ mtx_held None k.

Lemma setup_le_mtx o k k' : setup_le k k' -> mtx_held o k -> mtx_held o k'.
Proof.
  intros (_ & _ & Hc) Hs g c' Hc'. destruct (Hc g c' Hc') as (c & Hg & []).
  rewrite ss_mtx. by apply Hs.
Qed.

Lemma mtx_put o o' k g c c' :
  mtx_held o k -> cmgroups k !! g = Some c -> attached_mtx c' = bool_decide (o' = Some g) ->
  (forall g', g' <> g -> bool_decide (o' = Some g') = bool_decide (o = Some g')) ->
  mtx_held o' (set_cmgroups (<[g := c']> (cmgroups k)) k).
Proof.
  intros Hm Hc Hc' Ho g' d; simpl. rewrite lookup_insert.
  destruct (decide (g = g')) as [<-|]; [by intros [= <-]|].
  intros Hd. rewrite Ho by done. by apply Hm.
Qed.

Lemma sys_le k k' : sys_ok k -> ok no_refs k' -> setup_le k k' -> sys_ok k'.
Proof.
  intros (_ & Hs & Hm) Ho Hle. split_and!; [done| |].
  - apply (attach_le_setup k k'); auto with kernel.
  - by eapply setup_le_mtx.
Qed.

Lemma sys_same k k' : sys_ok k -> inv no_refs k' -> same_rest k k' -> sys_ok k'.
Proof. intros Hk Hi Hs. eapply sys_le; eauto with kernel. eapply ok_same; eauto. apply Hk. Qed.

Lemma sys_upd k k' t x y :
  sys_ok k -> tasks k !! t = Some x -> inv no_refs k' -> same_rest (upd_task t y k) k' ->
  (task_ok x -> task_ok y) -> sys_ok k'.
Proof.
  intros Hk Ht Hi Hs Hxy. destruct (ok_upd no_refs k k' t x y (proj1 Hk) Ht Hi Hs Hxy) as [Ho Hev].
  eapply sys_le; eauto with kernel.
Qed.

(** an operation on one task keeps the system *)
Lemma sys_task_op {A} k t (m : K A) x r y :
  sys_ok k -> tasks k !! t = Some x -> task_op no_refs t m x r y -> (task_ok x -> task_ok y) ->
  exists k', m k = Ret r k' /\ sys_ok k'.
Proof.
  intros Hk Ht Hm Hxy. destruct (Hm k (proj1 (proj1 Hk)) Ht) as (k' & E & Hi & Hs).
  exists k'. split; [done|]. by eapply sys_upd.
Qed.

(** ** Descriptors *)

Definition fd_group (k : kernel) (fd : Z) (g : nat) : Prop :=
  exists f x, fdt k !! fd = Some f /\ files k !! f = Some x /\ file_to g x = true.

Lemma file_to_data g x : file_to g x = true -> f_op x = cmgroup_fops /\ private_data x = Some g.
Proof. unfold file_to. intros [H1 H2]%andb_true_iff. by apply bool_decide_eq_true in H1, H2. Qed.

Lemma fd_group_fun k fd g h : fd_group k fd g -> fd_group k fd h -> g = h.
Proof.
  intros (f & x & Hf & Hx & [_ Hg]%file_to_data) (f' & x' & Hf' & Hx' & [_ Hh]%file_to_data).
  congruence.
Qed.

Lemma from_fd_ok k fd :
  inv no_refs k ->
  exists r k', cmgroup_from_fd fd k = Ret r k' /\
    match r with
    | inl e => k' = k /\ (e = - EBADF \/ e = - EINVAL) /\ forall g, ~ fd_group k fd g
    | inr g => fd_group k fd g /\ inv (hold g no_refs) k' /\ same_rest k k'
    end.
Proof.
  intros Hi. unfold cmgroup_from_fd, fdget, is_file_cmgroup, file_cmgroup.
  unfold mbind at 1, M_bind at 1, get.
  destruct (fdt k !! fd) as [f|] eqn:Ef; simpl.
  2: { eexists _, k. split; [done|]. split_and!; auto. intros g (? & ? & ? & _). congruence. }
  destruct (files k !! f) as [x|] eqn:Ex.
  2: { eexists _, k. split; [done|]. split_and!; auto. intros g (? & ? & ? & ? & _). congruence. }
  assert (Hno : forall h, file_to h x = false -> forall g, g = h -> ~ fd_group k fd g).
  { intros h Hh g -> (f' & x' & Hf' & Hx' & Ht). simplify_eq. congruence. }
  case_bool_decide as Hop; simpl.
  2: { eexists _, k. split; [done|]. split_and!; auto. intros g. eapply (Hno g); [|done].
       unfold file_to. by rewrite bool_decide_eq_false_2. }
  destruct (private_data x) as [g|] eqn:Hp.
  2: { eexists _, k. split; [done|]. split_and!; auto. intros g. eapply (Hno g); [|done].
       unfold file_to. rewrite Hp. by rewrite andb_false_r. }
  assert (Hto : file_to g x = true).
  { unfold file_to. by rewrite !bool_decide_eq_true_2. }
  destruct (cmgroup_ref_ok no_refs k g Hi) as (k' & E & Hi' & Hs & _).
  { pose proof (refs_file k g f x Ex Hto). unfold no_refs. lia. }
  exists (inr g), k'. unfold mbind, M_bind. rewrite E. split_and!; try done. by exists f, x.
Qed.

Lemma inv_unhold g k : inv (drop g (hold g no_refs)) k -> inv no_refs k.
Proof. apply inv_ext. intros h. by rewrite drop_hold. Qed.

Lemma hold_pos g : 0 < hold g no_refs g.
Proof. rewrite hold_eq. unfold no_refs. lia. Qed.

Lemma hold_pin g k : pinned (hold g no_refs) k g.
Proof. apply pin_held, hold_pos. Qed.

(** the reference taken by [cmgroup_from_fd] is given back *)
Lemma unref_held k g :
  inv (hold g no_refs) k -> exists k', cmgroup_unref g k = Ret tt k' /\ inv no_refs k' /\ same_rest k k'.
Proof.
  intros Hi. destruct (cmgroup_unref_ok _ k g Hi (hold_pos g)) as (k' & E & Hi' & Hs).
  exists k'. split_and!; [done|by eapply inv_unhold|done].
Qed.

Lemma sys_associate k t x fd :
  sys_ok k -> tasks k !! t = Some x -> on_rq x = true ->
  exists r k', sys_cmgroup_associate t fd k = Ret r k' /\ sys_ok k'.
Proof.
  intros Hk Ht Hrq. destruct (from_fd_ok k fd (proj1 (proj1 Hk))) as (r & k1 & E1 & H1).
  unfold sys_cmgroup_associate, mbind at 1, M_bind at 1. rewrite E1.
  destruct r as [e|g].
  { destruct H1 as (-> & _). by exists e, k. }
  destruct H1 as (_ & Hi1 & Hs1).
  assert (Ht1 : tasks k1 !! t = Some x) by (by rewrite (sr_tasks _ _ Hs1)).
  destruct (associate_ok _ k1 t x g false Hi1 Ht1 (hold_pos g)) as (k2 & y & E2 & Hi2 & Hs2 & _ & Ey).
  exists 0, k2. split; [unfold mbind, M_bind; by rewrite E2|].
  apply inv_unhold in Hi2.
  assert (Hs12 : same_rest (upd_task t y k) k2).
  { apply (same_rest_upd k k1 k2 t x y); [|done]. eapply same_rest_trans; [|exact Hs1]. by apply same_rest_id. }
  eapply (sys_upd k k2 t x y); try done. intros [Q1 Q2]. subst y. case_bool_decide; [done|].
  by split; [|intros _; symmetry].
Qed.

Lemma sys_dissociate k t x :
  sys_ok k -> tasks k !! t = Some x ->
  exists k', sys_cmgroup_dissociate t k = Ret 0 k' /\ sys_ok k'.
Proof.
  intros Hk Ht.
  destruct (sys_task_op k t _ x tt _ Hk Ht (dissociate_op no_refs t x)) as (k' & E & Hk').
  { intros [Q1 Q2]. case_bool_decide; [done|]. by split. }
  exists k'. split; [|done]. unfold sys_cmgroup_dissociate, mbind, M_bind. by rewrite E.
Qed.

(** ** The mutex of a group *)

(** a change of the group that keeps its accounting, queue and attachment *)
Lemma put_ok held k g c c' :
  ok held k -> cmgroups k !! g = Some c ->
  kref c' = kref c -> available c' - concurrency_value c' = available c - concurrency_value c ->
  1 <= concurrency_value c' <= CMGROUP_MAX_CONCURRENCY_VALUE ->
  tasklet_active c' = tasklet_active c -> __wq c' = __wq c ->
  lock c' = lock c -> wq c' = wq c ->
  attached_epoll c' = attached_epoll c -> attached_aio c' = attached_aio c ->
  let k' := set_cmgroups (<[g := c']> (cmgroups k)) k in
  ok held k' /\ attach_le k k'.
Proof.
  intros Ho Hc Hkr Hav Hv Ha Hq H1 H2 H3 H4. split; [|by eapply attach_le_put].
  destruct Ho as (Hi & Ht & Hqs) eqn:Eo. eapply ok_put_gen; eauto.
  - eapply inv_put_gen; eauto. rewrite Ha. intros Hp. by eapply (inv_sched _ _ Hi).
  - rewrite Hq. by eapply (q_local _ Hqs).
  - intros ep. rewrite H2. by eapply (q_wq _ Hqs).
Qed.

(** [m] in possession of [held] references, from the mutexes [o] to [o'] *)
Definition step_ok {A} (held : nat -> Z) (o o' : option nat) (k : kernel) (m : K A) (r : A)
    (k' : kernel) : Prop :=
  m k = Ret r k' /\ ok held k' /\ attach_le k k' /\ mtx_held o' k'.

Lemma mutex_lock_ok held k g c :
  ok held k -> pinned held k g -> mtx_held None k -> cmgroups k !! g = Some c ->
  step_ok held None (Some g) k (mutex_lock g) tt
    (set_cmgroups (<[g := set_attached_mtx true c]> (cmgroups k)) k).
Proof.
  intros Ho Hg Hm Hc. destruct (held_get held k g Ho Hg) as (d & Hd & Eg). simplify_eq.
  pose proof (inv_value _ _ (proj1 Ho) g c Hc).
  split; [|destruct (put_ok held k g c (set_attached_mtx true c)) as [? ?]; try done; split_and!; try done].
  - unfold mutex_lock. mrun Eg. by rewrite (Hm g c Hc).
  - eapply mtx_put; eauto; [by rewrite bool_decide_eq_true_2|].
    intros g' Hne. rewrite !bool_decide_eq_false_2; congruence.
Qed.

Lemma mutex_unlock_ok held k g c :
  ok held k -> pinned held k g -> mtx_held (Some g) k -> cmgroups k !! g = Some c ->
  step_ok held (Some g) None k (mutex_unlock g) tt
    (set_cmgroups (<[g := set_attached_mtx false c]> (cmgroups k)) k).
Proof.
  intros Ho Hg Hm Hc. destruct (held_get held k g Ho Hg) as (d & Hd & Eg). simplify_eq.
  pose proof (inv_value _ _ (proj1 Ho) g c Hc).
  split; [|destruct (put_ok held k g c (set_attached_mtx false c)) as [? ?]; try done; split_and!; try done].
  - unfold mutex_unlock. by rewrite (upd_cm_eq _ _ _ _ Eg).
  - eapply mtx_put; eauto.
    intros g' Hne. rewrite !bool_decide_eq_false_2; congruence.
Qed.

Lemma ok_from_fd k k' g :
  sys_ok k -> inv (hold g no_refs) k' -> same_rest k k' ->
  ok (hold g no_refs) k' /\ setup_ok k' /\ mtx_held None k'.
Proof.
  intros (Ho & Hs & Hm) Hi Hr. split_and!.
  - by eapply ok_same.
  - apply (attach_le_setup k k'); auto with kernel.
  - apply (setup_le_mtx _ k k'); auto with kernel.
Qed.

Lemma sys_unref k g :
  ok (hold g no_refs) k -> setup_ok k -> mtx_held None k ->
  exists k', cmgroup_unref g k = Ret tt k' /\ sys_ok k' /\ same_rest k k'.
Proof.
  intros Ho Hs Hm. destruct (unref_held k g (proj1 Ho)) as (k' & E & Hi & Hr).
  exists k'. split_and!; [done| |done]. split_and!.
  - by eapply ok_same.
  - apply (attach_le_setup k k'); auto with kernel.
  - apply (setup_le_mtx _ k k'); auto with kernel.
Qed.

Lemma sys_get_value k fd :
  sys_ok k -> exists r k', sys_cmgroup_get_concurrency_value fd k = Ret r k' /\ sys_ok k' /\
    forall g c, fd_group k fd g -> cmgroups k !! g = Some c -> r = concurrency_value c.
Proof.
  intros Hk. destruct (from_fd_ok k fd (proj1 (proj1 Hk))) as (r & k1 & E1 & H1).
  unfold sys_cmgroup_get_concurrency_value. mrun E1. destruct r as [e|g].
  { destruct H1 as (-> & _ & Hno). exists e, k. split_and!; try done. intros g c Hg. by apply Hno in Hg. }
  destruct H1 as (Hfd & Hi1 & Hs1). destruct (ok_from_fd k k1 g Hk Hi1 Hs1) as (Ho1 & Hs & Hm).
  destruct (held_get _ k1 g Ho1 (hold_pin g k1)) as (c1 & Hc1 & Eg1).
  destruct (sys_unref k1 g Ho1 Hs Hm) as (k2 & E2 & Hk2 & _).
  exists (concurrency_value c1), k2. split_and!; [mrun Eg1; by mrun E2|done|].
  intros h c Hh Hc. rewrite (fd_group_fun k fd h g Hh Hfd) in Hc.
  destruct (sr_cm _ _ Hs1 g c1 Hc1) as (c' & Hc' & [] & _). congruence.
Qed.

(** ** Changing the concurrency value *)

Lemma charged_same k k' g : tasks k' = tasks k -> charged k' g = charged k g.
Proof. intros H. unfold charged. by rewrite H. Qed.

(** a wake-up that is due was fired: [fire_tasklet] leaves the tasklet active *)
Lemma fire_step held o k g b :
  ok held k -> pinned held k g -> mtx_held o k ->
  exists k', step_ok held o o k (fire_tasklet g b) tt k' /\ same_rest k k' /\
    exists c', cmgroups k' !! g = Some c' /\ tasklet_active c' = true.
Proof.
  intros Ho Hg Hm.
  destruct (fire_tasklet_ok held k g b (proj1 Ho)) as (k' & E & Hi & Hs & c & c' & _ & Hc' & Ha & _);
    [apply pinned_refs; [apply Ho|done]|].
  exists k'. split_and!; [|done|by exists c']. split_and!; [done|by eapply ok_same|auto with kernel|].
  apply (setup_le_mtx _ k k'); auto with kernel.
Qed.

Definition change_value (n : Z) (c : cmgroup) : cmgroup :=
  set_available (available c + (n - concurrency_value c)) (set_concurrency_value n c).

(** the body under the mutex *)
Lemma set_value_locked k g c n :
  ok (hold g no_refs) k -> mtx_held (Some g) k -> cmgroups k !! g = Some c ->
  1 <= n <= CMGROUP_MAX_CONCURRENCY_VALUE ->
  let fires := (available c <? 1) && (1 <=? available c + (n - concurrency_value c)) in
  exists k', (put_cm g (change_value n c) ;;
              (if fires then fire_tasklet g false else mret tt)) k = Ret tt k' /\
    ok (hold g no_refs) k' /\ attach_le k k' /\ mtx_held (Some g) k' /\ tasks k' = tasks k /\
    files k' = files k /\
    exists c', cmgroups k' !! g = Some c' /\ concurrency_value c' = n /\
      (if fires then tasklet_active c' = true else True).
Proof.
  intros Ho Hm Hc Hn fires.
  destruct (put_ok (hold g no_refs) k g c (change_value n c)) as [Ho1 Hl1]; try done; [simpl; lia|].
  set (k1 := set_cmgroups _ k) in *.
  assert (Hm1 : mtx_held (Some g) k1) by (eapply mtx_put; try done; simpl; by apply Hm).
  unfold put_cm, modify. unfold mbind at 1, M_bind at 1. fold k1.
  destruct fires.
  - destruct (fire_step _ _ k1 g false Ho1 (hold_pin g k1) Hm1) as (k2 & (E2 & Ho2 & Hl2 & Hm2) & Hs2 & c2 & Hc2 & Ha2).
    exists k2. split_and!; try done; [by eapply attach_le_trans|apply Hs2|apply Hs2|].
    exists c2. split_and!; try done.
    destruct (sr_cm _ _ Hs2 g c2 Hc2) as (d & Hd & [] & _).
    unfold k1 in Hd; simpl in Hd. rewrite lookup_insert_eq in Hd. by simplify_eq.
  - exists k1. split_and!; try done. exists (change_value n c). split_and!; try done.
    apply lookup_insert_eq.
Qed.

(** a descriptor's group, referenced and locked *)
Lemma fd_lock_ok k fd g c :
  sys_ok k -> fd_group k fd g -> cmgroups k !! g = Some c ->
  exists k1 k2 c2, cmgroup_from_fd fd k = Ret (inr g) k1 /\ mutex_lock g k1 = Ret tt k2 /\
    ok (hold g no_refs) k2 /\ attach_le k k2 /\ mtx_held (Some g) k2 /\
    tasks k2 = tasks k /\ files k2 = files k /\ get_cm g k2 = Ret c2 k2 /\
    cmgroups k2 !! g = Some c2 /\
    concurrency_value c2 = concurrency_value c /\ available c2 = available c /\ same_config c (set_attached_mtx (attached_mtx c) c2).
Proof.
  intros Hk Hfd Hc.
  destruct (from_fd_ok k fd (proj1 (proj1 Hk))) as (r & k1 & E1 & H1).
  destruct r as [e|g']; [by destruct H1 as (_ & _ & Hno); destruct (Hno g)|].
  destruct H1 as (Hfd' & Hi1 & Hs1). rewrite (fd_group_fun k fd g' g Hfd' Hfd) in *.
  destruct (ok_from_fd k k1 g Hk Hi1 Hs1) as (Ho1 & Hu1 & Hm1).
  destruct (held_get _ k1 g Ho1 (hold_pin g k1)) as (c1 & Hc1 & _).
  destruct (sr_cm _ _ Hs1 g c1 Hc1) as (c0 & Hc0 & [] & _). simplify_eq.
  assert (Hav : available c1 = available c).
  { rewrite (inv_avail _ _ (proj1 Ho1) g c1 Hc1), (inv_avail _ _ (proj1 (proj1 Hk)) g c Hc).
    rewrite sc_value. f_equal. apply charged_same, Hs1. }
  destruct (mutex_lock_ok _ k1 g c1 Ho1 (hold_pin g k1) Hm1 Hc1) as (E2 & Ho2 & Hl2 & Hm2).
  set (k2 := set_cmgroups _ k1) in *. set (c2 := set_attached_mtx true c1) in *.
  assert (Hc2 : cmgroups k2 !! g = Some c2) by apply lookup_insert_eq.
  destruct (held_get _ k2 g Ho2 (hold_pin g k2)) as (d & Hd & Eg2). assert (d = c2) as -> by congruence.
  exists k1, k2, c2. split_and!; try done.
  - apply (attach_le_trans _ k1); auto with kernel.
  - apply Hs1.
  - apply Hs1.
Qed.

(** the mutex and the reference are given back; the descriptor keeps the group *)
Lemma unlock_unref_ok k g c f x :
  ok (hold g no_refs) k -> setup_ok k -> mtx_held (Some g) k -> cmgroups k !! g = Some c ->
  files k !! f = Some x -> file_to g x = true ->
  exists k' c', (mutex_unlock g ;; cmgroup_unref g) k = Ret tt k' /\ sys_ok k' /\
    tasks k' = tasks k /\ cmgroups k' !! g = Some c' /\
    concurrency_value c' = concurrency_value c /\
    (tasklet_active c = true -> tasklet_active c' = true).
Proof.
  intros Ho Hu Hm Hc Hf Hto.
  destruct (mutex_unlock_ok _ k g c Ho (hold_pin g k) Hm Hc) as (E4 & Ho4 & Hl4 & Hm4).
  set (k4 := set_cmgroups _ k) in *.
  destruct (sys_unref k4 g Ho4) as (k5 & E5 & Hk5 & Hs5); [by eapply attach_le_setup|done|].
  destruct (inv_get no_refs k5 g (proj1 (proj1 Hk5))) as (c5 & Hc5 & _).
  { pose proof (refs_file k5 g f x) as Hp. rewrite (sr_files _ _ Hs5) in Hp.
    unfold no_refs. specialize (Hp Hf Hto). lia. }
  destruct (sr_cm _ _ Hs5 g c5 Hc5) as (c4 & Hc4 & [] & Hact).
  unfold k4 in Hc4; simpl in Hc4. rewrite lookup_insert_eq in Hc4. injection Hc4 as <-.
  exists k5, c5. split_and!; try done; [by mrun E4|apply Hs5|by apply Hact].
Qed.

Lemma sys_set_value k ncpus fd n g c :
  sys_ok k -> fd_group k fd g -> cmgroups k !! g = Some c ->
  let n' := if n =? 0 then ncpus else n in
  1 <= n' <= CMGROUP_MAX_CONCURRENCY_VALUE ->
  exists k' c', sys_cmgroup_set_concurrency_value ncpus fd n k = Ret 0 k' /\ sys_ok k' /\
    tasks k' = tasks k /\ cmgroups k' !! g = Some c' /\ concurrency_value c' = n' /\
    available c' = available c + (n' - concurrency_value c) /\
    (available c < 1 <= available c' -> tasklet_active c' = true).
Proof.
  intros Hk Hfd Hc n' Hn.
  unfold sys_cmgroup_set_concurrency_value. fold n'.
  replace ((n' <=? 0) || (CMGROUP_MAX_CONCURRENCY_VALUE <? n')) with false
    by (symmetry; apply orb_false_iff; split; [apply Z.leb_gt|apply Z.ltb_ge]; lia).
  destruct (fd_lock_ok k fd g c Hk Hfd Hc) as
    (k1 & k2 & c2 & E1 & E2 & Ho2 & Hl2 & Hm2 & Ht2 & Hf2 & Eg2 & Hc2 & Hv2 & Hav2 & _).
  mrun E1. mrun E2. mrun Eg2.
  pose proof (available_range _ k2 g c2 (proj1 Ho2) Hc2) as Hr.
  pose proof (inv_value _ _ (proj1 Ho2) g c2 Hc2) as Hv.
  unfold PID_MAX_LIMIT, CMGROUP_MAX_CONCURRENCY_VALUE in *.
  rewrite (s32_id (n' - concurrency_value c2)) by lia.
  rewrite (s32_id (available c2 + (n' - concurrency_value c2))) by lia.
  replace (s32 (available c2 + (n' - concurrency_value c2) - (n' - concurrency_value c2)))
    with (available c2) by (rewrite s32_id; lia).
  destruct (set_value_locked k2 g c2 n' Ho2 Hm2 Hc2 Hn) as
    (k3 & E3 & Ho3 & Hl3 & Hm3 & Ht3 & Hf3 & c3 & Hc3 & Hv3 & Ha3).
  rewrite (bind_seq _ _ _ _ _ _ E3).
  pose proof Hfd as (f & x & _ & Hx & Hto).
  destruct (unlock_unref_ok k3 g c3 f x Ho3) as (k5 & c5 & E5 & Hk5 & Ht5 & Hc5 & Hv5 & Ha5); try done.
  { apply (attach_le_setup k); [by eapply attach_le_trans|apply Hk]. }
  { by rewrite Hf3, Hf2. }
  assert (Htk : tasks k5 = tasks k) by congruence.
  assert (Hav5 : available c5 = available c + (n' - concurrency_value c)).
  { rewrite (inv_avail _ _ (proj1 (proj1 Hk5)) g c5 Hc5), (charged_same k k5 g Htk).
    pose proof (inv_avail _ _ (proj1 (proj1 Hk)) g c Hc). lia. }
  exists k5, c5. split_and!; try done; [by rewrite (bind_seq _ _ _ _ _ _ E5)|congruence|].
  intros Hcross. apply Ha5. replace (_ && _) with true in Ha3; [done|]. symmetry.
  apply andb_true_iff. rewrite Z.ltb_lt, Z.leb_le. lia.
Qed.
