(* ===== verification/CmLife.v ===== *)
(** * Birth and death of a group

    Creation by cmgroup_newgroup (with its error exits), the close of the
    last descriptor, the worker that frees groups, and the run of the tasklet
    by the softirq. *)

From S2P Require Import Prelude Wait Tasklet Cmgroup Sched CmWake CmInv CmTask CmOps CmSys.
Local Open Scope Z_scope.

(** ** Creation *)

Definition new_group (n : Z) : cmgroup :=
  Cmgroup 1 CMGROUP_ACTION_WAKEALL false Local_wq Local_wq n None None [] n false 0.

(** the state after a successful creation of group [g], open as file [f], descriptor [fd] *)
Definition created (g f : nat) (fd n : Z) (k : kernel) : kernel :=
  set_fdt (<[fd := f]> (fdt k))
    (set_files (<[f := File cmgroup_fops (Some g)]> (files k))
      (set_sirqs (Tasklet.tasklet_init g (sirqs k))
        (set_cmgroups (<[g := new_group n]> (cmgroups k)) k))).

Lemma no_refs_parts k g :
  refs k g = 0 ->
  count (file_to g) (files k) = 0 /\ count (in_group g) (tasks k) = 0 /\
  count (Nat.eqb g) (ep_cmgroup k) = 0 /\ count (Nat.eqb g) (aio_cmgroup k) = 0 /\
  tasklet_pending k g = false.
Proof.
  unfold refs. pose proof (count_bounds (file_to g) (files k)).
  pose proof (count_bounds (in_group g) (tasks k)).
  pose proof (count_bounds (Nat.eqb g) (ep_cmgroup k)).
  pose proof (count_bounds (Nat.eqb g) (aio_cmgroup k)).
  destruct (tasklet_pending k g); simpl; intros; split_and!; (lia || done).
Qed.

Lemma unallocated k g : inv no_refs k -> cmgroups k !! g = None -> refs k g = 0.
Proof. intros Hi Hg. pose proof (inv_dead _ _ Hi g Hg). unfold no_refs in *. lia. Qed.

Lemma file_to_new g h : file_to h (File cmgroup_fops (Some g)) = bool_decide (g = h).
Proof.
  unfold file_to; simpl.
  apply bool_decide_ext. split; congruence.
Qed.

Lemma pending_init k g h m fs fd :
  refs k g = 0 ->
  tasklet_pending (set_fdt fd (set_files fs (set_sirqs (Tasklet.tasklet_init g (sirqs k)) (set_cmgroups m k)))) h
  = tasklet_pending k h.
Proof.
  intros (_ & _ & _ & _ & Hp)%no_refs_parts. unfold tasklet_pending in *; simpl.
  rewrite lookup_insert. case_decide; subst; [|done]. rewrite Hp. done.
Qed.

Lemma refs_created g f fd n k h :
  inv no_refs k -> cmgroups k !! g = None -> files k !! f = None ->
  refs (created g f fd n k) h = refs k h + b2z (bool_decide (g = h)).
Proof.
  intros Hi Hg Hf. unfold refs; simpl. rewrite count_insert_new, file_to_new by done.
  unfold created. rewrite pending_init by (by apply unallocated). unfold b2z. lia.
Qed.

Lemma inv_created g f fd n k :
  inv no_refs k -> cmgroups k !! g = None -> files k !! f = None ->
  1 <= n <= CMGROUP_MAX_CONCURRENCY_VALUE -> inv no_refs (created g f fd n k).
Proof.
  intros Hi Hg Hf Hn. pose proof (unallocated k g Hi Hg) as H0.
  pose proof (no_refs_parts k g H0) as (_ & Ht & _ & _ & Hp).
  pose proof (refs_created g f fd n k) as Hr.
  split; try apply Hi.
  - intros h c. unfold created; simpl. rewrite lookup_insert. intros Hc. rewrite Hr by done.
    case_decide as Hgh; subst.
    + injection Hc as <-. rewrite bool_decide_eq_true_2, H0 by done. done.
    + rewrite bool_decide_eq_false_2 by done. simpl. rewrite (inv_live _ _ Hi h c Hc). lia.
  - intros h. unfold created; simpl. rewrite lookup_insert. intros Hc. rewrite Hr by done.
    case_decide as Hgh; [done|]. rewrite bool_decide_eq_false_2 by done. simpl.
    pose proof (inv_dead _ _ Hi h Hc). lia.
  - intros h. unfold created; simpl. rewrite (inv_free _ _ Hi), lookup_insert.
    case_decide; subst; [|done]. split; intros (c & Hc & Hk); simplify_eq.
  - intros h [c Hc]. unfold created in Hc |- *; simpl in Hc |- *. rewrite lookup_insert in Hc. rewrite lookup_insert.
    case_decide; [done|]. apply (inv_tasklet _ _ Hi). eauto.
  - intros h c. unfold created. rewrite pending_init by done. simpl. rewrite lookup_insert.
    case_decide; subst; [by rewrite Hp|]. apply (inv_sched _ _ Hi).
  - intros h c. unfold created; simpl. rewrite lookup_insert.
    change (charged _ h) with (charged k h). case_decide; subst; [|apply (inv_avail _ _ Hi)].
    intros [= <-]. rewrite (charged_zero k h Ht). simpl. lia.
  - intros h c. unfold created; simpl. rewrite lookup_insert. case_decide; [by intros [= <-]|].
    apply (inv_value _ _ Hi).
Qed.

Lemma count_eqb_none (m : gmap nat nat) g : count (Nat.eqb g) m = 0 -> forall i, m !! i <> Some g.
Proof.
  intros H0 i Hi. pose proof (count_zero _ _ H0 i g Hi) as H. by rewrite Nat.eqb_refl in H.
Qed.

Lemma sys_created g f fd n k :
  sys_ok k -> cmgroups k !! g = None -> files k !! f = None ->
  1 <= n <= CMGROUP_MAX_CONCURRENCY_VALUE -> sys_ok (created g f fd n k).
Proof.
  intros ((Hi & Ht & [Q1 Q2 Q3]) & Hs & Hm) Hg Hf Hn.
  pose proof (no_refs_parts k g (unallocated k g Hi Hg)) as (_ & _ & He & Ha & _).
  split_and!; [split_and!; [by apply inv_created|done|]| |].
  - split; try done; intros h c; simpl; rewrite lookup_insert;
      (destruct (decide (g = h)); [|try apply Q1; try apply Q3]).
    + by intros [= <-].
    + by intros ep [= <-].
  - intros h c; simpl. rewrite lookup_insert. case_decide; subst; [intros [= <-]|].
    + split; simpl; try done; [by left| |].
      * intros ep. split; [done|]. by intros ?%(count_eqb_none _ _ He).
      * intros a. split; [done|]. by intros ?%(count_eqb_none _ _ Ha).
    + intros Hc. by destruct (Hs h c Hc).
  - intros h c; simpl. rewrite lookup_insert. destruct (decide (g = h)) as [<-|].
    + by intros [= <-].
    + apply Hm.
Qed.

(** an error exit leaves nothing behind *)
Lemma sys_forget g k :
  sys_ok k -> cmgroups k !! g = None ->
  sys_ok (set_sirqs (Tasklet.Softirq (Tasklet.cpus (sirqs k)) (delete g (Tasklet.tasklets (sirqs k)))) k).
Proof.
  intros Hk Hg. pose proof (proj1 (proj1 Hk)) as Hi.
  pose proof (no_refs_parts k g (unallocated k g Hi Hg)) as (_ & _ & _ & _ & Hp).
  set (k' := set_sirqs _ k).
  assert (Hpend : forall h, tasklet_pending k' h = tasklet_pending k h).
  { intros h. unfold tasklet_pending, k' in *; simpl. rewrite lookup_delete. case_decide; subst; [|done].
    by rewrite Hp. }
  assert (Hrefs : forall h, refs k' h = refs k h) by (intros h; unfold refs; by rewrite Hpend).
  assert (Hi' : inv no_refs k').
  { split; try apply Hi.
    - intros h c Hc. rewrite Hrefs. by apply Hi.
    - intros h Hc. rewrite Hrefs. by apply Hi.
    - intros h [c Hc]. simpl in *. rewrite lookup_delete_ne by congruence. apply (inv_tasklet _ _ Hi). eauto.
    - intros h c Hc. rewrite Hpend. by apply Hi. }
  eapply sys_same; [exact Hk|done|]. split; try done. intros h c Hc.
  exists c. split_and!; [done|auto with kernel|]. intros Hact. split; [done|apply Hpend].
Qed.

Lemma forget_eq k g c :
  cmgroups k !! g = None ->
  set_sirqs (Tasklet.Softirq (Tasklet.cpus (Tasklet.tasklet_init g (sirqs k)))
               (delete g (Tasklet.tasklets (Tasklet.tasklet_init g (sirqs k)))))
    (set_cmgroups (delete g (<[g := c]> (cmgroups k)))
       (set_sirqs (Tasklet.tasklet_init g (sirqs k)) (set_cmgroups (<[g := c]> (cmgroups k)) k)))
  = set_sirqs (Tasklet.Softirq (Tasklet.cpus (sirqs k)) (delete g (Tasklet.tasklets (sirqs k)))) k.
Proof.
  intros Hg. destruct k as [cm ? ? ? ? ? ? ? ? [cpus tl] ?]; simpl in *. unfold set_sirqs, set_cmgroups; simpl.
  rewrite delete_insert_id by done. by rewrite delete_insert_eq.
Qed.

(** what newgroup returns, and what it leaves *)
Lemma sys_newgroup k ncpus addr getfd getfile nthreads flags :
  sys_ok k -> atomic_ctx k = false ->
  (forall g, addr = Some g -> cmgroups k !! g = None) ->
  (forall fl f, getfile fl = inr f -> files k !! f = None) ->
  exists r k', sys_cmgroup_newgroup ncpus addr getfd getfile nthreads flags k = Ret r k' /\ sys_ok k'.
Proof.
  intros Hk Hctx Hg Hf. unfold sys_cmgroup_newgroup.
  destruct (negb (Z.land flags (Z.lnot CMGROUP_CLOEXEC) =? 0)); [by eexists _, k|].
  set (n := if nthreads =? 0 then ncpus else nthreads).
  destruct ((n <=? 0) || (CMGROUP_MAX_CONCURRENCY_VALUE <? n)) eqn:Hn; [by eexists _, k|]. zbool.
  set (fl := if negb _ then _ else _).
  destruct addr as [g|]; simpl; [|by eexists _, k].
  specialize (Hg g eq_refl). unfold mbind at 1, M_bind at 1, mbind at 1, M_bind at 1, modify at 1, mret at 1, M_ret at 1.
  assert (Hfree : forall r : Z, exists r' k', (cmgroup_free g ;; mret r)
     (set_sirqs (Tasklet.tasklet_init g (sirqs k)) (set_cmgroups (<[g := new_group n]> (cmgroups k)) k))
     = Ret r' k' /\ sys_ok k').
  { intros r. exists r. eexists. split; [|apply (sys_forget g k Hk Hg)].
    rewrite <- (forget_eq k g (new_group n) Hg).
    unfold cmgroup_free, mbind, M_bind, get. simpl. by rewrite Hctx. }
  destruct (getfd fl <? 0); [apply Hfree|].
  destruct (getfile fl) as [e|f] eqn:Efl; [apply Hfree|].
  eexists _, (created g f (getfd fl) n k). split; [done|].
  apply sys_created; try done; [by eapply Hf|lia].
Qed.

(** ** The worker *)

Lemma sys_free_work k :
  sys_ok k -> exists k', __cmgroup_free_work k = Ret tt k' /\ sys_ok k' /\
    (forall g l, free_works k = g :: l -> free_works k' = l /\ cmgroups k' !! g = None).
Proof.
  intros Hk. unfold __cmgroup_free_work. unfold mbind at 1, M_bind at 1, get.
  destruct (free_works k) as [|g l] eqn:Efw; [by exists k|].
  set (k' := set_sirqs (Tasklet.Softirq (Tasklet.cpus (sirqs k)) (delete g (Tasklet.tasklets (sirqs k))))
               (set_cmgroups (delete g (cmgroups k)) (set_free_works l k))).
  exists k'. split; [done|]. pose proof (proj1 (proj1 Hk)) as Hi.
  assert (Hg : exists c, cmgroups k !! g = Some c /\ kref c = 0).
  { apply (inv_free _ _ Hi). rewrite Efw. by left. }
  destruct Hg as (c & Hc & Hk0). pose proof (inv_live _ _ Hi g c Hc) as Hr. unfold no_refs in Hr.
  assert (Hr0 : refs k g = 0) by lia. pose proof (no_refs_parts k g Hr0) as (_ & _ & _ & _ & Hp).
  assert (Hpend : forall h, tasklet_pending k' h = tasklet_pending k h).
  { intros h. unfold tasklet_pending, k' in *; simpl. rewrite lookup_delete. case_decide; subst; [|done].
    by rewrite Hp. }
  assert (Hrefs : forall h, refs k' h = refs k h) by (intros h; unfold refs; by rewrite Hpend).
  pose proof (inv_nodup _ _ Hi) as Hnd. rewrite Efw in Hnd. apply NoDup_cons in Hnd as [Hnin Hnd].
  assert (Hi' : inv no_refs k').
  { split; simpl; try apply Hi; try done.
    - intros h d [Hne Hd]%lookup_delete_Some. rewrite Hrefs. by apply Hi.
    - intros h. rewrite lookup_delete, Hrefs. unfold no_refs. case_decide; subst; [lia|].
      intros Hd. by apply (inv_dead _ _ Hi h).
    - intros h. pose proof (inv_free _ _ Hi h) as Hfw. rewrite Efw, elem_of_cons in Hfw.
      rewrite lookup_delete. case_decide; subst; [naive_solver|]. rewrite <- Hfw. naive_solver.
    - intros h [d [Hne Hd]%lookup_delete_Some]. rewrite lookup_delete_ne by done.
      apply (inv_tasklet _ _ Hi). eauto.
    - intros h d [Hne Hd]%lookup_delete_Some. rewrite Hpend. by apply Hi.
    - intros h d [Hne Hd]%lookup_delete_Some. by apply (inv_avail _ _ Hi h d).
    - intros h d [Hne Hd]%lookup_delete_Some. by apply (inv_value _ _ Hi h d). }
  split.
  - eapply sys_same; [exact Hk|done|]. apply (same_rest_trans _ (set_free_works l k)); [auto with kernel|].
    exact (same_rest_delete g (Tasklet.cpus (sirqs k)) (set_free_works l k)).
  - intros g' l' [= <- <-]. split; [done|]. simpl. apply lookup_delete_eq.
Qed.

(** ** The last close of a descriptor *)

(** fput() of the last reference: the release function, then the file is freed *)
Definition close_file (f : nat) : K Z :=
  x ← deref (fun k => files k !! f);
  r ← (if bool_decide (f_op x = cmgroup_fops) then cmgroup_fop_release f else mret 0);
  modify (fun k => set_files (delete f (files k)) k) ;;
  mret r.

Lemma fop_release_eq k f x :
  files k !! f = Some x ->
  cmgroup_fop_release f k =
    match private_data x with Some g => (cmgroup_unref g ;; mret 0) k | None => Ret 0 k end.
Proof.
  intros Hf. unfold cmgroup_fop_release, deref, file_cmgroup, mbind at 1, M_bind at 1.
  rewrite Hf. by destruct (private_data x).
Qed.

Lemma unref_files g m k k' :
  cmgroup_unref g k = Ret tt k' -> cmgroup_unref g (set_files m k) = Ret tt (set_files m k').
Proof.
  unfold cmgroup_unref, get_cm, deref, mbind, M_bind; simpl.
  destruct (cmgroups k !! g) as [c|]; simpl; [|done].
  destruct (0 <? kref c); [|done].
  unfold put_cm, modify, cmgroup_kref_release, cmgroup_free, mbind, M_bind, get; simpl.
  destruct (kref c - 1 =? 0); [|by intros [= <-]]; simpl.
  destruct (atomic_ctx k); by intros [= <-].
Qed.

Lemma inv_close k f x :
  inv no_refs k -> files k !! f = Some x ->
  inv (if bool_decide (f_op x = cmgroup_fops) then
         match private_data x with Some g => hold g no_refs | None => no_refs end
       else no_refs) (set_files (delete f (files k)) k).
Proof.
  intros Hi Hf. match goal with |- inv ?h _ => set (held := h) end.
  assert (Hh : forall g, held g = b2z (file_to g x)).
  { intros g. unfold held, file_to, hold, no_refs. case_bool_decide; simpl; [|done].
    destruct (private_data x) as [h|]; simpl; [|done]. case_bool_decide; simplify_eq.
    - by rewrite Nat.eqb_refl.
    - rewrite (proj2 (Nat.eqb_neq h g)); [done|congruence]. }
  assert (Hr : forall g, refs (set_files (delete f (files k)) k) g + held g = refs k g).
  { intros g. unfold refs; simpl. rewrite (count_delete _ _ f x Hf), Hh. unfold tasklet_pending, b2z; simpl. lia. }
  split; try apply Hi.
  - intros g. rewrite Hh. apply b2z_bounds.
  - intros g c Hc. rewrite Hr. pose proof (inv_live _ _ Hi g c Hc). unfold no_refs in *. lia.
  - intros g Hc. rewrite Hr. pose proof (inv_dead _ _ Hi g Hc). unfold no_refs in *. lia.
Qed.

Lemma sys_close k f x :
  sys_ok k -> files k !! f = Some x -> exists k', close_file f k = Ret 0 k' /\ sys_ok k'.
Proof.
  intros (Ho & Hs & Hm) Hf. destruct Ho as (Hi & Ht & Hq).
  pose proof (inv_close k f x Hi Hf) as Hc. unfold close_file, deref.
  unfold mbind at 1, M_bind at 1. rewrite Hf.
  set (m := delete f (files k)) in *.
  assert (Hok : forall held, inv held (set_files m k) ->
                  ok held (set_files m k) /\ setup_ok (set_files m k) /\ mtx_held None (set_files m k)).
  { intros held Hh. split_and!; try done.
    - split_and!; [done|done|]. by destruct Hq.
    - intros g c Hg. by destruct (Hs g c Hg). }
  assert (Hsys : forall r : Z, inv no_refs (set_files m k) ->
    exists k', (modify (fun k => set_files (delete f (files k)) k) ;; mret r) k = Ret r k' /\ sys_ok k').
  { intros r Hh. exists (set_files m k). split; [done|]. by apply Hok. }
  case_bool_decide; [|by apply Hsys]. unfold mbind at 1, M_bind at 1. rewrite (fop_release_eq k f x Hf).
  destruct (private_data x) as [g|]; [|by apply Hsys].
  destruct (Hok _ Hc) as (Ho1 & Hs1 & Hm1).
  destruct (sys_unref _ g Ho1 Hs1 Hm1) as (k' & E & Hk' & Hsr).
  apply (unref_files g (files k)) in E.
  replace (set_files (files k) (set_files m k)) with k in E by (by destruct k).
  exists k'. split; [|done]. mrun E. unfold mret, M_ret, mbind, M_bind, modify; simpl.
  f_equal. fold m. pose proof (sr_files _ _ Hsr) as Hfl. simpl in Hfl.
  destruct k'; simpl in *. unfold set_files; simpl. by subst.
Qed.

(** ** The softirq runs the tasklet *)

Section Run.
Context `{WL : WaitLib}.

Lemma ok_bits held k g x x' :
  ok held k -> Tasklet.tasklets (sirqs k) !! g = Some x -> Tasklet.is_sched x' = Tasklet.is_sched x ->
  let k' := set_sirqs (Tasklet.set_tasklet g x' (sirqs k)) k in ok held k' /\ setup_le k k'.
Proof.
  intros (Hi & Ht & Hq) Hx Hs k'. split; [|apply setup_le_sirqs].
  assert (Hpend : forall h, tasklet_pending k' h = tasklet_pending k h).
  { intros h. unfold tasklet_pending; simpl. rewrite lookup_insert. case_decide; subst; [|done].
    by rewrite Hx. }
  assert (Hrefs : forall h, refs k' h = refs k h) by (intros h; unfold refs; by rewrite Hpend).
  split_and!; [|done|by apply (queues_rest k); eauto]. split; try apply Hi.
  - intros h c Hc. rewrite Hrefs. by apply Hi.
  - intros h Hc. rewrite Hrefs. by apply Hi.
  - intros h Hc. simpl. rewrite lookup_insert. case_decide; [done|]. by apply (inv_tasklet _ _ Hi).
  - intros h c Hc. rewrite Hpend. by apply Hi.
Qed.

(** the reference of the pending tasklet becomes the runner's *)
Lemma ok_unsched k g x x' :
  sys_ok k -> Tasklet.tasklets (sirqs k) !! g = Some x ->
  Tasklet.is_sched x = true -> Tasklet.is_sched x' = false ->
  let k' := set_sirqs (Tasklet.set_tasklet g x' (sirqs k)) k in
  ok (hold g no_refs) k' /\ setup_le k k' /\ running k' g.
Proof.
  intros ((Hi & Ht & Hq) & _ & _) Hx Hs Hs' k'.
  assert (Hpend : forall h, tasklet_pending k' h = if (g =? h)%nat then false else tasklet_pending k h).
  { intros h. unfold tasklet_pending; simpl. rewrite lookup_insert.
    destruct (Nat.eqb_spec g h); subst; [rewrite decide_True by done|rewrite decide_False by done]; done. }
  assert (Hp : tasklet_pending k g = true) by (unfold tasklet_pending; by rewrite Hx).
  assert (Hrefs : forall h, refs k' h + hold g no_refs h = refs k h).
  { intros h. unfold refs, hold, no_refs; simpl. rewrite Hpend.
    destruct (Nat.eqb_spec g h); subst; [rewrite Hp; simpl; lia|lia]. }
  assert (Hlive : exists c, cmgroups k !! g = Some c).
  { destruct (cmgroups k !! g) as [c|] eqn:E; [eauto|]. pose proof (inv_dead _ _ Hi g E) as H0.
    unfold no_refs in H0. rewrite Z.add_0_r in H0.
    pose proof (no_refs_parts k g H0) as (_ & _ & _ & _ & ?). congruence. }
  destruct Hlive as [c Hc].
  split_and!; [split_and!; [|done|by apply (queues_rest k); eauto]|apply setup_le_sirqs|].
  - split; try apply Hi.
    + apply hold_nonneg. done.
    + intros h d Hd. rewrite Hrefs, (inv_live _ _ Hi h d Hd). unfold no_refs. lia.
    + intros h Hd. rewrite Hrefs. pose proof (inv_dead _ _ Hi h Hd). unfold no_refs in *. lia.
    + intros h Hd. simpl. rewrite lookup_insert. case_decide; [done|]. by apply (inv_tasklet _ _ Hi).
    + intros h d Hd. rewrite Hpend. destruct (g =? h)%nat; [done|]. by apply Hi.
  - exists c. split_and!; [done|by apply (inv_sched _ _ Hi g)|]. rewrite Hpend. by rewrite Nat.eqb_refl.
Qed.

Lemma sys_cpus k s' :
  sys_ok k -> Tasklet.tasklets s' = Tasklet.tasklets (sirqs k) -> sys_ok (set_sirqs s' k).
Proof.
  intros Hk Hs. pose proof (proj1 (proj1 Hk)) as Hi.
  assert (Hpend : forall h, tasklet_pending (set_sirqs s' k) h = tasklet_pending k h).
  { intros h. unfold tasklet_pending; simpl. by rewrite Hs. }
  assert (Hrefs : forall h, refs (set_sirqs s' k) h = refs k h) by (intros h; unfold refs; by rewrite Hpend).
  eapply sys_same; [exact Hk| |].
  - split; try apply Hi.
    + intros h c Hc. rewrite Hrefs. by apply Hi.
    + intros h Hc. rewrite Hrefs. by apply Hi.
    + intros h Hc. simpl. rewrite Hs. by apply (inv_tasklet _ _ Hi).
    + intros h c Hc. rewrite Hpend. by apply Hi.
  - split; try done. intros h c Hc. exists c. split_and!; [done|auto with kernel|].
    intros Hact. split; [done|apply Hpend].
Qed.

Lemma run_func_ok k g x :
  sys_ok k -> atomic_ctx k = true -> Tasklet.tasklets (sirqs k) !! g = Some x ->
  Tasklet.is_sched x = true ->
  exists k1 x' k', (Tasklet.sirq (Tasklet.set_tasklet g (Tasklet.clear_bit Tasklet.TASKLET_STATE_SCHED
                                    (Tasklet.set_bit Tasklet.TASKLET_STATE_RUN x))) ;;
                    cmgroup_tasklet g) k = Ret tt k1 /\
    Tasklet.tasklets (sirqs k1) !! g = Some x' /\
    k' = set_sirqs (Tasklet.set_tasklet g (Tasklet.clear_bit Tasklet.TASKLET_STATE_RUN x') (sirqs k1)) k1 /\
    sys_ok k'.
Proof.
  intros Hk Hctx Hx Hs. set (y := Tasklet.clear_bit _ _).
  destruct (ok_unsched k g x y Hk Hx Hs) as (Ho1 & Hle1 & Hrun); [by apply Tasklet.test_clear_bit|].
  set (k0 := set_sirqs _ k) in *.
  destruct (cmgroup_tasklet_ok _ k0 g Ho1 Hrun (hold_pos g) Hctx) as (k1 & E1 & Ho2 & Hle2 & _ & Hlive).
  destruct (inv_tasklet _ _ (proj1 Ho2) g Hlive) as [x' Hx'].
  destruct (ok_bits _ k1 g x' (Tasklet.clear_bit Tasklet.TASKLET_STATE_RUN x') Ho2 Hx') as [Ho3 Hle3].
  { change (Z.testbit (Z.clearbit (Tasklet.state x') 1) 0 = Z.testbit (Tasklet.state x') 0).
    by apply Z.clearbit_neq. }
  eexists k1, x', _. split_and!; [|done|done|].
  - unfold mbind, M_bind, Tasklet.sirq, modify. exact E1.
  - eapply sys_le; [exact Hk| |].
    + destruct Ho3 as (Hi3 & ?). split; [by eapply inv_unhold|done].
    + eauto using setup_le_trans.
Qed.

(** one tasklet of the list: it runs, or stays queued when it is disabled or
    runs elsewhere; the group is not freed under the softirq's feet *)
Lemma sys_run_tasklet k cpu g x :
  sys_ok k -> atomic_ctx k = true -> Tasklet.tasklets (sirqs k) !! g = Some x ->
  Tasklet.is_sched x = true ->
  exists k', Tasklet.run_tasklet cmgroup_tasklet (Tasklet.requeue_vec cpu) g k = Ret tt k' /\ sys_ok k'.
Proof.
  intros Hk Hctx Hx Hs.
  unfold Tasklet.run_tasklet, Tasklet.tasklet_of, deref, Tasklet.sirq. simpl.
  unfold mbind at 1, M_bind at 1. rewrite Hx. destruct (Tasklet.is_run x) eqn:Hr.
  { eexists. split; [reflexivity|]. by apply sys_cpus. }
  unfold mbind at 1, M_bind at 1, modify at 1. destruct (Tasklet.tcount x =? 0).
  - rewrite Hs. destruct (run_func_ok k g x Hk Hctx Hx Hs) as (k1 & x' & k' & E & Hx' & -> & Hk').
    eexists. split; [|exact Hk'].
    unfold mbind at 1, M_bind at 1, Tasklet.sirq, modify at 1 in E. simpl in E.
    unfold mbind at 1, M_bind at 1, modify at 1. simpl.
    unfold Tasklet.set_tasklet in *; simpl in *. rewrite insert_insert_eq.
    unfold mbind at 1, M_bind at 1.
    match type of E with _ _ ?s0 = _ =>
      match goal with |- context [cmgroup_tasklet g ?s] => change s with s0 end end.
    rewrite E. unfold mbind, M_bind. by rewrite Hx'.
  - eexists. split; [reflexivity|]. unfold modify; simpl. eapply (sys_cpus k); [done|].
    unfold Tasklet.requeue_vec, Tasklet.set_tasklet; simpl.
    rewrite insert_insert_eq, Tasklet.clear_set_bit by done. by rewrite insert_id.
Qed.
End Run.
