(* ===== verification/CmAttach.v ===== *)
(** * Attaching and detaching event sources

    The attachment protocol (lock the mutex, lock out the tasklet, switch the
    queue, unlock) used by eventpolls and AIO contexts, and the detachment
    when the source dies. *)

From S2P Require Import Prelude Wait Tasklet Cmgroup Sched CmWake CmInv CmTask CmOps CmSys CmLife.
Local Open Scope Z_scope.

Section Attach.
Context `{WL : WaitLib}.
Variable msleep : K unit.

(** ** Locking out the tasklet *)

Lemma lockout_ok held o k g c n :
  ok held k -> pinned held k g -> mtx_held o k -> cmgroups k !! g = Some c -> tasklet_active c = false ->
  exists k', step_ok held o o k (cmgroup_lockout_tasklet msleep (S n) g) tt k' /\ running k' g /\
    k' = set_cmgroups (<[g := set_tasklet_active true c]> (cmgroups k)) k.
Proof.
  intros Ho Hg Hm Hc Ha. destruct (held_get held k g Ho Hg) as (d & Hd & Eg). simplify_eq.
  eexists. split_and!; [|..|done].
  - split_and!; [simpl; mrun Eg; by rewrite Ha|..].
    + destruct Ho as (Hi & Ht & Hq) eqn:Eo. eapply ok_put; eauto; simpl.
      * by eapply (q_local _ Hq).
      * intros ep. by eapply (q_wq _ Hq).
    + by eapply attach_le_put.
    + eapply mtx_put; eauto; simpl; by apply Hm.
  - exists (set_tasklet_active true c). split_and!; [apply lookup_insert_eq|done|].
    change (tasklet_pending k g = false). destruct (tasklet_pending k g) eqn:Hp; [|done].
    rewrite (inv_sched _ _ (proj1 Ho) g c Hc Hp) in Ha. done.
Qed.

Lemma unlockout_ok held o k g :
  ok held k -> pinned held k g -> mtx_held o k -> running k g ->
  exists k', step_ok held o o k (cmgroup_unlockout_tasklet g) tt k' /\ tasks k' = tasks k /\ this_cpu k' = this_cpu k.
Proof.
  intros Ho Hg Hm (c & Hc & Ha & Hp).
  destruct (clear_active_ok held k g Ho Hg Hp) as (d & Hd & E & Ho1). simplify_eq.
  set (k1 := set_cmgroups _ k) in *.
  assert (Hm1 : mtx_held o k1) by (eapply mtx_put; eauto; simpl; by apply Hm).
  assert (Hg1 : pinned held k1 g) by (by eapply pinned_same; [..|exact Hg]).
  destruct (fire_step held o k1 g false Ho1 Hg1 Hm1) as (k2 & (E2 & Ho2 & Hl2 & Hm2) & Hs2 & _).
  exists k2. split_and!; try done; [..|apply Hs2|apply Hs2]; split_and!; try done.
  - unfold cmgroup_unlockout_tasklet. unfold clear_active in E. by mrun E.
  - eapply attach_le_trans; [|exact Hl2]. by eapply attach_le_put.
Qed.

Lemma end_attach_ok held k g :
  ok held k -> pinned held k g -> mtx_held (Some g) k -> running k g ->
  exists k', cmgroup_end_attach g k = Ret tt k' /\ ok held k' /\ attach_le k k' /\ mtx_held None k'.
Proof.
  intros Ho Hg Hm Hr. destruct (unlockout_ok held (Some g) k g Ho Hg Hm Hr) as (k1 & (E1 & Ho1 & Hl1 & Hm1) & _).
  assert (Hg1 : pinned held k1 g) by (destruct Hl1 as (? & ? & _); by eapply pinned_same; [..|exact Hg]).
  destruct (held_get held k1 g Ho1 Hg1) as (c1 & Hc1 & _).
  destruct (mutex_unlock_ok held k1 g c1 Ho1 Hg1 Hm1 Hc1) as (E2 & Ho2 & Hl2 & Hm2).
  eexists. split_and!; [|exact Ho2|by eapply attach_le_trans|exact Hm2].
  unfold cmgroup_end_attach. mrun E1. exact E2.
Qed.

(** ** The reference of an event source *)

Lemma count_put_new (m : gmap nat nat) i g h :
  m !! i = None -> count (Nat.eqb h) (<[i := g]> m) = count (Nat.eqb h) m + (if (g =? h)%nat then 1 else 0).
Proof. intros Hi. rewrite count_insert_new by done. rewrite Nat.eqb_sym. destruct (g =? h)%nat; lia. Qed.

Lemma count_put_del (m : gmap nat nat) i g h :
  m !! i = Some g -> count (Nat.eqb h) (delete i m) = count (Nat.eqb h) m - (if (g =? h)%nat then 1 else 0).
Proof. intros Hi. rewrite (count_delete _ _ i g) by done. rewrite Nat.eqb_sym. destruct (g =? h)%nat; lia. Qed.

(** references move between the running code and the event sources *)
Lemma ok_move held held' k k' :
  ok held k -> (forall g, 0 <= held' g) -> (forall g, refs k' g + held' g = refs k g + held g) ->
  cmgroups k' = cmgroups k -> tasks k' = tasks k -> sirqs k' = sirqs k -> ep_wq k' = ep_wq k ->
  free_works k' = free_works k -> ok held' k'.
Proof.
  intros (Hi & Ht & Hq) Hnn Hr Hc Htk Hs He Hf. split_and!.
  - split; rewrite ?Hc, ?Htk, ?Hs, ?Hf; try apply Hi; try done.
    + intros g c Hg. rewrite Hr. by apply Hi.
    + intros g Hg. rewrite Hr. by apply Hi.
    + intros g c Hg. unfold tasklet_pending. rewrite Hs. by apply Hi.
    + intros g c Hg. rewrite (charged_same k k' g Htk). by apply Hi.
  - unfold tasks_ok. by rewrite Htk.
  - apply (queues_rest k k'); try done; rewrite ?Htk, ?Hc; eauto.
Qed.

Lemma refs_ep k m g : refs (set_ep_cmgroup m k) g = refs k g - count (Nat.eqb g) (ep_cmgroup k) + count (Nat.eqb g) m.
Proof. unfold refs, tasklet_pending; simpl. lia. Qed.
Lemma refs_aio k m g : refs (set_aio_cmgroup m k) g = refs k g - count (Nat.eqb g) (aio_cmgroup k) + count (Nat.eqb g) m.
Proof. unfold refs, tasklet_pending; simpl. lia. Qed.

Lemma ok_give_ep k g ep :
  ok (hold g no_refs) k -> ep_cmgroup k !! ep = None ->
  ok no_refs (set_ep_cmgroup (<[ep := g]> (ep_cmgroup k)) k).
Proof.
  intros Ho He. apply (ok_move _ _ k _ Ho); try done. intros h. rewrite refs_ep, count_put_new by done.
  unfold hold, no_refs. destruct (g =? h)%nat; lia.
Qed.
Lemma ok_give_aio k g a :
  ok (hold g no_refs) k -> aio_cmgroup k !! a = None ->
  ok no_refs (set_aio_cmgroup (<[a := g]> (aio_cmgroup k)) k).
Proof.
  intros Ho He. apply (ok_move _ _ k _ Ho); try done. intros h. rewrite refs_aio, count_put_new by done.
  unfold hold, no_refs. destruct (g =? h)%nat; lia.
Qed.
Lemma ok_take_ep k g ep :
  ok no_refs k -> ep_cmgroup k !! ep = Some g ->
  ok (hold g no_refs) (set_ep_cmgroup (delete ep (ep_cmgroup k)) k).
Proof.
  intros Ho He. apply (ok_move _ _ k _ Ho); try done; [by apply hold_nonneg|].
  intros h. rewrite refs_ep, (count_put_del _ _ g) by done. unfold hold, no_refs. destruct (g =? h)%nat; lia.
Qed.
Lemma ok_take_aio k g a :
  ok no_refs k -> aio_cmgroup k !! a = Some g ->
  ok (hold g no_refs) (set_aio_cmgroup (delete a (aio_cmgroup k)) k).
Proof.
  intros Ho He. apply (ok_move _ _ k _ Ho); try done; [by apply hold_nonneg|].
  intros h. rewrite refs_aio, (count_put_del _ _ g) by done. unfold hold, no_refs. destruct (g =? h)%nat; lia.
Qed.

(** ** begin_attach *)

(** what the caller of cmgroup_begin_attach_* sees *)
Definition begin_ok (k : kernel) (g : nat) (m : K Z) (here : bool) (c : cmgroup) : Prop :=
  exists k', let busy := bool_decide (attached_aio c <> None) || bool_decide (attached_epoll c <> None) in
    m k = Ret (if here then - EALREADY else if busy then - EBUSY else 0) k' /\
    ok (hold g no_refs) k' /\ attach_le k k' /\ files k' = files k /\
    (forall ep, is_Some (ep_wq k !! ep) -> is_Some (ep_wq k' !! ep)) /\
    (if here || busy then mtx_held None k' else mtx_held (Some g) k' /\ running k' g).

Lemma begin_lock k g c :
  ok (hold g no_refs) k -> mtx_held None k -> cmgroups k !! g = Some c ->
  let k1 := set_cmgroups (<[g := set_attached_mtx true c]> (cmgroups k)) k in
  mutex_lock g k = Ret tt k1 /\ get_cm g k1 = Ret (set_attached_mtx true c) k1 /\
  ok (hold g no_refs) k1 /\ attach_le k k1 /\ mtx_held (Some g) k1 /\
  (exists k2, mutex_unlock g k1 = Ret tt k2 /\ ok (hold g no_refs) k2 /\ attach_le k k2 /\
     mtx_held None k2 /\ files k2 = files k /\ ep_wq k2 = ep_wq k).
Proof.
  intros Ho Hm Hc k1.
  destruct (mutex_lock_ok _ k g c Ho (hold_pin g k) Hm Hc) as (E1 & Ho1 & Hl1 & Hm1). fold k1 in E1, Ho1, Hl1, Hm1.
  assert (Hc1 : cmgroups k1 !! g = Some (set_attached_mtx true c)) by apply lookup_insert_eq.
  destruct (held_get _ k1 g Ho1 (hold_pin g k1)) as (d & Hd & Eg).
  assert (d = set_attached_mtx true c) as -> by congruence.
  destruct (mutex_unlock_ok _ k1 g _ Ho1 (hold_pin g k1) Hm1 Hc1) as (E2 & Ho2 & Hl2 & Hm2).
  split_and!; try done. eexists. split_and!; [exact E2|exact Ho2|by eapply attach_le_trans|exact Hm2|done|done].
Qed.

(** both begin_attach functions: [here] is the test for this very source *)
Lemma begin_attach_ok k g c n (here : cmgroup -> bool) :
  ok (hold g no_refs) k -> mtx_held None k -> cmgroups k !! g = Some c -> tasklet_active c = false ->
  (forall b d, here (set_attached_mtx b d) = here d) ->
  begin_ok k g
    (mutex_lock g ;;
     d ← get_cm g;
     if here d then mutex_unlock g ;; mret (- EALREADY)
     else if bool_decide (attached_aio d <> None) || bool_decide (attached_epoll d <> None)
     then mutex_unlock g ;; mret (- EBUSY)
     else cmgroup_lockout_tasklet msleep (S n) g ;; mret 0) (here c) c.
Proof.
  intros Ho Hm Hc Ha Hh.
  destruct (begin_lock k g c Ho Hm Hc) as (E1 & Eg & Ho1 & Hl1 & Hm1 & k2 & E2 & Ho2 & Hl2 & Hm2 & Hf2 & He2).
  unfold begin_ok. mrun E1. mrun Eg. rewrite Hh. cbn [attached_aio attached_epoll set_attached_mtx].
  assert (Hun : forall r : Z, (mutex_unlock g ;; mret r) _ = Ret r k2) by (intros r; by mrun E2).
  destruct (here c); cbn [orb]; [exists k2; rewrite Hun, He2; by split_and!|].
  destruct (bool_decide (attached_aio c <> None) || bool_decide (attached_epoll c <> None));
    [exists k2; rewrite Hun, He2; by split_and!|].
  set (k1 := set_cmgroups _ k) in *.
  destruct (lockout_ok _ (Some g) k1 g (set_attached_mtx true c) n Ho1 (hold_pin g k1) Hm1) as (k3 & (E3 & Ho3 & Hl3 & Hm3) & Hr & Ek3);
    [apply lookup_insert_eq|done|].
  exists k3. split_and!; [by mrun E3|done|exact (attach_le_trans _ _ _ Hl1 Hl3)|by subst k3|by subst k3|done|done].
Qed.

(** ** Attaching an eventpoll *)

(** the attached state is consistent: [ep] points to [g] and [g] to [ep] *)
Lemma setup_attached k g c c' ep :
  setup_ok k -> cmgroups k !! g = Some c -> attached_epoll c = None -> attached_aio c = None ->
  ep_cmgroup k !! ep = None ->
  wq c' = Epoll_wq ep -> lock c' = Epoll_wq ep -> attached_epoll c' = Some ep -> attached_aio c' = None ->
  setup_ok (set_cmgroups (<[g := c']> (cmgroups k)) (set_ep_cmgroup (<[ep := g]> (ep_cmgroup k)) k)).
Proof.
  intros Hs Hc He Ha Hep W L E A h d; simpl. rewrite lookup_insert.
  destruct (decide (g = h)) as [<-|Hne]; [intros [= <-]|intros Hd].
  - destruct (Hs g c Hc) as [_ _ _ G1 G2]. split; simpl; [congruence|by rewrite E|by right| |].
    + intros ep'. rewrite E, lookup_insert. case_decide; [subst; naive_solver|].
      rewrite <- G1, He. naive_solver.
    + intros a. rewrite A, <- G2, Ha. done.
  - destruct (Hs h d Hd) as [S1 S2 S3 G1 G2]. split; simpl; try done.
    intros ep'. rewrite G1, lookup_insert. case_decide; [subst; rewrite Hep; naive_solver|done].
Qed.

Lemma ep_attach_locked_ok k g c ep :
  ok (hold g no_refs) k -> setup_ok k -> mtx_held (Some g) k -> running k g ->
  cmgroups k !! g = Some c -> attached_epoll c = None -> attached_aio c = None ->
  is_Some (ep_wq k !! ep) ->
  exists r k', ep_attach_locked ep g k = Ret r k' /\ setup_ok k' /\ mtx_held (Some g) k' /\ running k' g /\
    match ep_cmgroup k !! ep with
    | Some _ => r = - EBUSY /\ k' = k
    | None => r = 0 /\ ok no_refs k' /\ ep_cmgroup k' !! ep = Some g
    end.
Proof.
  intros Ho Hs Hm Hrun Hc He Ha Hq. unfold ep_attach_locked. unfold mbind at 1, M_bind at 1, get.
  destruct (ep_cmgroup k !! ep) as [h|] eqn:Eep; [by eexists _, k|].
  set (k1 := set_ep_cmgroup (<[ep := g]> (ep_cmgroup k)) k).
  pose proof (ok_give_ep k g ep Ho Eep) as Ho1. fold k1 in Ho1.
  assert (Hpin : ep_cmgroup k1 !! ep = Some g) by apply lookup_insert_eq.
  assert (Hg1 : pinned no_refs k1 g) by (right; left; eauto).
  destruct (held_get _ k1 g Ho1 Hg1) as (d & Hd & Eg1). assert (d = c) as -> by (simpl in Hd; congruence).
  set (c2 := set_wq (Epoll_wq ep) (set_lock (Epoll_wq ep) (set_attached_epoll (Some ep) c))).
  set (k2 := set_cmgroups (<[g := c2]> (cmgroups k1)) k1).
  assert (Ho2 : ok no_refs k2).
  { destruct Ho1 as (Hi1 & Ht1 & Hq1) eqn:Eo. eapply ok_put; eauto; simpl.
    - intros Hp. by eapply (inv_sched _ _ Hi1).
    - by eapply (q_local _ Hq1).
    - by intros ? [= <-]. }
  assert (Hs2 : setup_ok k2)
    by exact (setup_attached k g c c2 ep Hs Hc He Ha Eep eq_refl eq_refl eq_refl Ha).
  assert (Hm2 : mtx_held (Some g) k2) by (eapply (mtx_put (Some g) (Some g) k1); eauto; simpl; by apply Hm).
  assert (Hr2 : running k2 g).
  { destruct Hrun as (d & Hd' & Hact & Hp). simplify_eq. exists c2. split_and!; [apply lookup_insert_eq|done|done]. }
  assert (Hg2 : pinned no_refs k2 g) by (right; left; by exists ep).
  destruct (get_queue_ok _ k2 (Epoll_wq ep) g Ho2 Hg2 Hq) as (q & Eq & _).
  assert (Hk : keeps no_refs k2 (if waitqueue_active q then wake_up_wq 0 (Epoll_wq ep) g else mret tt)).
  { destruct (waitqueue_active q); [|by apply keeps_ret]. by apply wake_up_wq_ok. }
  destruct Hk as ([] & k3 & E3 & Ho3 & Ev3).
  exists 0, k3. split_and!; try done.
  - unfold mbind at 1, M_bind at 1, modify. fold k1. unfold cmgroup_do_attach_epoll.
    unfold mbind at 1, M_bind at 1. rewrite (upd_cm_eq _ _ _ _ Eg1). fold c2 k2. mrun Eq. by mrun E3.
  - apply (attach_le_setup k2); auto using setup_attach_le, setup_le_evolves.
  - apply (setup_le_mtx _ k2); auto using setup_le_evolves.
  - eapply running_evolves; eauto. by eapply pinned_evolves.
  - by rewrite (ev_ep _ _ Ev3).
Qed.

(** the group behind a descriptor, referenced by [cmgroup_from_fd] *)
Lemma from_fd_group k fd g c :
  sys_ok k -> fd_group k fd g -> cmgroups k !! g = Some c ->
  exists k1 c1, cmgroup_from_fd fd k = Ret (inr g) k1 /\ ok (hold g no_refs) k1 /\ setup_ok k1 /\
    mtx_held None k1 /\ same_rest k k1 /\ cmgroups k1 !! g = Some c1 /\ same_config c c1 /\
    tasklet_active c1 = tasklet_active c.
Proof.
  intros Hk Hfd Hc. destruct (from_fd_ok k fd (proj1 (proj1 Hk))) as (r & k1 & E1 & H1).
  destruct r as [e|g']; [by destruct H1 as (_ & _ & Hno); destruct (Hno g)|].
  destruct H1 as (Hfd' & Hi1 & Hs1). rewrite (fd_group_fun k fd g' g Hfd' Hfd) in *.
  destruct (ok_from_fd k k1 g Hk Hi1 Hs1) as (Ho1 & Hu1 & Hm1).
  destruct (held_get _ k1 g Ho1 (hold_pin g k1)) as (c1 & Hc1 & _).
  destruct (sr_cm _ _ Hs1 g c1 Hc1) as (c0 & Hc0 & Hcc & _). simplify_eq.
  exists k1, c1. split_and!; try done.
  destruct (inv_get no_refs k g (proj1 (proj1 Hk))) as (d & Hd & _ & Eg).
  { destruct Hfd as (f & x & _ & Hx & Hto). pose proof (refs_file k g f x Hx Hto). unfold no_refs. lia. }
  simplify_eq. unfold cmgroup_from_fd, fdget, mbind at 1, M_bind at 1, get in E1.
  destruct Hfd as (f & x & Hf & Hx & [Hop Hp]%file_to_data). rewrite Hf in E1; simpl in E1.
  rewrite Hx in E1. unfold is_file_cmgroup, file_cmgroup in E1. rewrite Hop, Hp in E1.
  rewrite bool_decide_eq_true_2 in E1 by done. simpl in E1.
  apply bind_Ret in E1 as (a & k2 & E2 & E1). injection E1 as <-.
  unfold cmgroup_ref in E2. rewrite (upd_cm_eq _ _ _ _ Eg) in E2. injection E2 as _ <-.
  simpl in Hc1. rewrite lookup_insert_eq in Hc1. by simplify_eq.
Qed.

Lemma from_fd_error k fd :
  sys_ok k -> (forall g, ~ fd_group k fd g) ->
  exists e, cmgroup_from_fd fd k = Ret (inl e) k /\ (e = - EBADF \/ e = - EINVAL).
Proof.
  intros Hk Hno. destruct (from_fd_ok k fd (proj1 (proj1 Hk))) as ([e|g] & k1 & E1 & H1).
  - destruct H1 as (-> & He & _). eauto.
  - destruct H1 as (Hfd & _). by destruct (Hno g).
Qed.

(** what an attachment returns: 0 for a group attached to the source already
    or from now on, EBUSY when either side has another partner *)
Definition attach_result (mine : bool) (c : cmgroup) (source : option nat) : Z :=
  if mine then 0
  else if bool_decide (attached_aio c <> None) || bool_decide (attached_epoll c <> None) then - EBUSY
  else if source then - EBUSY else 0.

(** after the attempt under the source's lock: the group is unlocked, and the
    reference is given back unless the source has it now *)
Lemma attach_tail k g r :
  (if r =? 0 then ok no_refs k /\ pinned no_refs k g else ok (hold g no_refs) k) ->
  setup_ok k -> mtx_held (Some g) k -> running k g ->
  exists k', (cmgroup_end_attach g ;; (if negb (r =? 0) then cmgroup_unref g else mret tt) ;; mret r) k
             = Ret r k' /\ sys_ok k' /\
    ep_cmgroup k' = ep_cmgroup k /\ aio_cmgroup k' = aio_cmgroup k.
Proof.
  intros Ho Hs Hm Hrun. destruct (r =? 0); simpl.
  - destruct Ho as [Ho Hp].
    destruct (end_attach_ok _ k g Ho Hp Hm Hrun) as (k4 & E4 & Ho4 & Hl4 & Hm4). mrun E4.
    exists k4. split_and!; [done|split_and!; [done|by eapply attach_le_setup|done]|apply Hl4|apply Hl4].
  - destruct (end_attach_ok _ k g Ho (hold_pin g k) Hm Hrun) as (k4 & E4 & Ho4 & Hl4 & Hm4). mrun E4.
    destruct (sys_unref k4 g Ho4) as (k5 & E5 & Hk5 & Hs5); [by eapply attach_le_setup|done|].
    exists k5. split_and!; [by mrun E5|done| |].
    + rewrite (sr_ep _ _ Hs5). apply Hl4.
    + rewrite (sr_aio _ _ Hs5). apply Hl4.
Qed.

Lemma sys_ep_attach k ep fd n g c :
  sys_ok k -> is_Some (ep_wq k !! ep) -> fd_group k fd g -> cmgroups k !! g = Some c ->
  tasklet_active c = false ->
  let r := attach_result (bool_decide (attached_epoll c = Some ep)) c (ep_cmgroup k !! ep) in
  exists k', ep_attach_cmgroup msleep (S n) ep fd k = Ret r k' /\ sys_ok k' /\
    (r = 0 -> ep_cmgroup k' !! ep = Some g).
Proof.
  intros Hk Hq Hfd Hc Hact r.
  destruct (from_fd_group k fd g c Hk Hfd Hc) as (k1 & c1 & E1 & Ho1 & Hs1 & Hm1 & Hr1 & Hc1 & [] & Ha1).
  unfold ep_attach_cmgroup. mrun E1.
  destruct (begin_attach_ok k1 g c1 n (fun d => bool_decide (attached_epoll d = Some ep)) Ho1 Hm1 Hc1)
    as (k2 & E2 & Ho2 & Hl2 & _ & Hw2 & H2); [congruence|done|].
  change (mutex_lock g ;; _) with (cmgroup_begin_attach_epoll msleep (S n) g ep) in E2.
  mrun E2. clear E2. unfold attach_result in r. rewrite sc_epoll, sc_aio in H2 |- *.
  assert (Hs2 : setup_ok k2) by (by eapply attach_le_setup).
  assert (He2 : ep_cmgroup k2 = ep_cmgroup k) by (destruct Hl2 as (-> & _); apply Hr1).
  assert (Hback : mtx_held None k2 -> forall r' : Z, exists k', (cmgroup_unref g ;; mret r') k2 = Ret r' k' /\
            sys_ok k' /\ ep_cmgroup k' = ep_cmgroup k).
  { intros Hm r'. destruct (sys_unref k2 g Ho2 Hs2 Hm) as (k' & E & Hk' & Hs'). exists k'.
    split_and!; [by mrun E|done|]. by rewrite (sr_ep _ _ Hs'). }
  destruct (bool_decide (attached_epoll c = Some ep)) eqn:Emine; simpl.
  { destruct (Hback H2 0) as (k' & E & Hk' & He'). exists k'. split_and!; try done. intros _. rewrite He'.
    apply bool_decide_eq_true in Emine. by apply (gs_epoll _ _ _ (proj1 (proj2 Hk) g c Hc)). }
  destruct (bool_decide (attached_aio c <> None) || bool_decide (attached_epoll c <> None)) eqn:Ebusy; simpl.
  { destruct (Hback H2 (- EBUSY)) as (k' & E & Hk' & He'). by exists k'. }
  apply orb_false_iff in Ebusy as [Ea Ee]. apply bool_decide_eq_false, dec_stable in Ea, Ee.
  destruct H2 as [Hm2 Hrun2]. destruct (held_get _ k2 g Ho2 (hold_pin g k2)) as (c2 & Hc2 & _).
  destruct Hl2 as (_ & _ & Hl2). destruct (Hl2 g c2 Hc2) as (c1' & Hc1' & _ & _ & Hep2 & Haio2). simplify_eq.
  destruct (ep_attach_locked_ok k2 g c2 ep Ho2 Hs2 Hm2 Hrun2 Hc2) as (r' & k3 & E3 & Hs3 & Hm3 & Hrun3 & H3);
    [congruence|congruence|apply Hw2; by rewrite (sr_epwq _ _ Hr1)|].
  mrun E3. rewrite He2 in H3. subst r. destruct (attach_tail k3 g r') as (k4 & E4 & Hk4 & He4 & _); try done.
  - destruct (ep_cmgroup k !! ep); destruct_and!; subst; simpl; [done|]. split; [done|]. right; left; eauto.
  - exists k4. destruct (ep_cmgroup k !! ep) as [h|]; simpl; destruct_and!; subst; try done.
    split_and!; try done. intros _. by rewrite He4.
Qed.

Lemma setup_attached_aio k g c c' a :
  setup_ok k -> cmgroups k !! g = Some c -> attached_epoll c = None -> attached_aio c = None ->
  aio_cmgroup k !! a = None ->
  wq c' = wq c -> lock c' = lock c -> attached_epoll c' = None -> attached_aio c' = Some a ->
  setup_ok (set_cmgroups (<[g := c']> (cmgroups k)) (set_aio_cmgroup (<[a := g]> (aio_cmgroup k)) k)).
Proof.
  intros Hs Hc He Ha Hep W L E A h d; simpl. rewrite lookup_insert.
  destruct (decide (g = h)) as [<-|Hne]; [intros [= <-]|intros Hd].
  - destruct (Hs g c Hc) as [S1 S2 _ G1 G2]. split; simpl; [congruence|by rewrite W, S2, He, E|by left| |].
    + intros ep'. by rewrite E, <- He.
    + intros a'. rewrite A, lookup_insert. case_decide; [subst; naive_solver|].
      rewrite <- G2, Ha. naive_solver.
  - destruct (Hs h d Hd) as [S1 S2 S3 G1 G2]. split; simpl; try done.
    intros a'. rewrite G2, lookup_insert. case_decide; [subst; rewrite Hep; naive_solver|done].
Qed.

Lemma aio_attach_locked_ok k g c a :
  ok (hold g no_refs) k -> setup_ok k -> mtx_held (Some g) k -> running k g ->
  cmgroups k !! g = Some c -> attached_epoll c = None -> attached_aio c = None ->
  exists r k', aio_attach_locked a g k = Ret r k' /\ setup_ok k' /\ mtx_held (Some g) k' /\ running k' g /\
    match aio_cmgroup k !! a with
    | Some _ => r = - EBUSY /\ k' = k
    | None => r = 0 /\ ok no_refs k' /\ aio_cmgroup k' !! a = Some g
    end.
Proof.
  intros Ho Hs Hm Hrun Hc He Ha. unfold aio_attach_locked. unfold mbind at 1, M_bind at 1, get.
  destruct (aio_cmgroup k !! a) as [h|] eqn:Eep; [by eexists _, k|].
  set (k1 := set_aio_cmgroup (<[a := g]> (aio_cmgroup k)) k).
  pose proof (ok_give_aio k g a Ho Eep) as Ho1. fold k1 in Ho1.
  assert (Hpin : aio_cmgroup k1 !! a = Some g) by apply lookup_insert_eq.
  assert (Hg1 : pinned no_refs k1 g) by (right; right; eauto).
  destruct (held_get _ k1 g Ho1 Hg1) as (d & Hd & Eg1). assert (d = c) as -> by (simpl in Hd; congruence).
  set (c2 := set_attached_aio (Some a) c).
  eexists 0, (set_cmgroups (<[g := c2]> (cmgroups k1)) k1). split_and!; try done.
  - unfold mbind at 1, M_bind at 1, modify. fold k1. unfold cmgroup_do_attach_aio.
    unfold mbind at 1, M_bind at 1. by rewrite (upd_cm_eq _ _ _ _ Eg1).
  - exact (setup_attached_aio k g c c2 a Hs Hc He Ha Eep eq_refl eq_refl He eq_refl).
  - eapply (mtx_put (Some g) (Some g) k1); eauto; simpl; by apply Hm.
  - destruct Hrun as (d & Hd' & Hact & Hp). simplify_eq. exists c2. split_and!; [apply lookup_insert_eq|done|done].
  - destruct Ho1 as (Hi1 & Ht1 & Hq1) eqn:Eo. eapply ok_put; eauto; simpl.
    + intros Hp. by eapply (inv_sched _ _ Hi1).
    + by eapply (q_local _ Hq1).
    + intros ep. by eapply (q_wq _ Hq1).
Qed.

Lemma sys_io_attach k a fd n g c :
  sys_ok k -> fd_group k fd g -> cmgroups k !! g = Some c -> tasklet_active c = false ->
  let r := attach_result (bool_decide (attached_aio c = Some a)) c (aio_cmgroup k !! a) in
  exists k', io_set_cmgroup msleep (S n) (Some a) fd k = Ret r k' /\ sys_ok k' /\
    (r = 0 -> aio_cmgroup k' !! a = Some g).
Proof.
  intros Hk Hfd Hc Hact r.
  destruct (from_fd_group k fd g c Hk Hfd Hc) as (k1 & c1 & E1 & Ho1 & Hs1 & Hm1 & Hr1 & Hc1 & [] & Ha1).
  unfold io_set_cmgroup. mrun E1.
  destruct (begin_attach_ok k1 g c1 n (fun d => bool_decide (attached_aio d = Some a)) Ho1 Hm1 Hc1)
    as (k2 & E2 & Ho2 & Hl2 & _ & _ & H2); [congruence|done|].
  change (mutex_lock g ;; _) with (cmgroup_begin_attach_aio msleep (S n) g a) in E2.
  mrun E2. clear E2. unfold attach_result in r. rewrite sc_epoll, sc_aio in H2 |- *.
  assert (Hs2 : setup_ok k2) by (by eapply attach_le_setup).
  assert (He2 : aio_cmgroup k2 = aio_cmgroup k) by (destruct Hl2 as (_ & -> & _); apply Hr1).
  assert (Hback : mtx_held None k2 -> forall r' : Z, exists k', (cmgroup_unref g ;; mret r') k2 = Ret r' k' /\
            sys_ok k' /\ aio_cmgroup k' = aio_cmgroup k).
  { intros Hm r'. destruct (sys_unref k2 g Ho2 Hs2 Hm) as (k' & E & Hk' & Hs'). exists k'.
    split_and!; [by mrun E|done|]. by rewrite (sr_aio _ _ Hs'). }
  destruct (bool_decide (attached_aio c = Some a)) eqn:Emine; simpl.
  { destruct (Hback H2 0) as (k' & E & Hk' & He'). exists k'. split_and!; try done. intros _. rewrite He'.
    apply bool_decide_eq_true in Emine. by apply (gs_aio _ _ _ (proj1 (proj2 Hk) g c Hc)). }
  destruct (bool_decide (attached_aio c <> None) || bool_decide (attached_epoll c <> None)) eqn:Ebusy; simpl.
  { destruct (Hback H2 (- EBUSY)) as (k' & E & Hk' & He'). by exists k'. }
  apply orb_false_iff in Ebusy as [Ea Ee]. apply bool_decide_eq_false, dec_stable in Ea, Ee.
  destruct H2 as [Hm2 Hrun2]. destruct (held_get _ k2 g Ho2 (hold_pin g k2)) as (c2 & Hc2 & _).
  destruct Hl2 as (_ & _ & Hl2). destruct (Hl2 g c2 Hc2) as (c1' & Hc1' & _ & _ & Hep2 & Haio2). simplify_eq.
  destruct (aio_attach_locked_ok k2 g c2 a Ho2 Hs2 Hm2 Hrun2 Hc2) as (r' & k3 & E3 & Hs3 & Hm3 & Hrun3 & H3);
    [congruence|congruence|].
  mrun E3. rewrite He2 in H3. subst r. destruct (attach_tail k3 g r') as (k4 & E4 & Hk4 & _ & He4); try done.
  - destruct (aio_cmgroup k !! a); destruct_and!; subst; simpl; [done|]. split; [done|]. right; right; eauto.
  - exists k4. destruct (aio_cmgroup k !! a) as [h|]; simpl; destruct_and!; subst; try done.
    split_and!; try done. intros _. by rewrite He4.
Qed.

(** an unknown context: nothing is attached *)
Lemma sys_io_attach_none k fd n g c :
  sys_ok k -> fd_group k fd g -> cmgroups k !! g = Some c ->
  exists k', io_set_cmgroup msleep n None fd k = Ret (- EINVAL) k' /\ sys_ok k' /\
    aio_cmgroup k' = aio_cmgroup k.
Proof.
  intros Hk Hfd Hc.
  destruct (from_fd_group k fd g c Hk Hfd Hc) as (k1 & c1 & E1 & Ho1 & Hs1 & Hm1 & Hr1 & _).
  unfold io_set_cmgroup. mrun E1. destruct (sys_unref k1 g Ho1 Hs1 Hm1) as (k2 & E2 & Hk2 & Hs2).
  exists k2. split_and!; [by mrun E2|done|]. rewrite (sr_aio _ _ Hs2). apply Hr1.
Qed.

(** ** Detaching *)

(** no event source points to [g], whatever [g] says *)
Definition setup_upto (g : nat) (k : kernel) : Prop :=
  (forall h c, h <> g -> cmgroups k !! h = Some c -> group_setup k h c) /\
  (forall ep, ep_cmgroup k !! ep <> Some g) /\ (forall a, aio_cmgroup k !! a <> Some g).

Lemma setup_upto_le g k k' : attach_le k k' -> setup_upto g k -> setup_upto g k'.
Proof.
  intros (He & Ha & Hc) (Hs & Hep & Haio). split_and!; [|by rewrite He|by rewrite Ha].
  intros h c' Hne Hc'. destruct (Hc h c' Hc') as (c & Hg & E1 & E2 & E3 & E4).
  destruct (Hs h c Hne Hg). split; [congruence|by rewrite E2, E3|by rewrite E3, E4| |].
  - intros ep. by rewrite E3, He.
  - intros a. by rewrite E4, Ha.
Qed.

Definition detached (c : cmgroup) : cmgroup :=
  set_action CMGROUP_ACTION_WAKEALL
    (set_lock Local_wq (set_wq Local_wq (set_attached_aio None (set_attached_epoll None c)))).

Lemma setup_detached g k c :
  setup_upto g k -> setup_ok (set_cmgroups (<[g := detached c]> (cmgroups k)) k).
Proof.
  intros (Hs & Hep & Haio) h d; simpl. rewrite lookup_insert.
  destruct (decide (g = h)) as [<-|Hne]; [intros [= <-]|intros Hd].
  - split; simpl; try done; [by left| |]; naive_solver.
  - by destruct (Hs h d (not_eq_sym Hne) Hd).
Qed.

Lemma detach_ok k g c n :
  ok (hold g no_refs) k -> setup_upto g k -> mtx_held None k -> cmgroups k !! g = Some c ->
  tasklet_active c = false -> __wq c = [] ->
  exists k', cmgroup_detach msleep (S n) g k = Ret tt k' /\ sys_ok k' /\
    ep_cmgroup k' = ep_cmgroup k /\ aio_cmgroup k' = aio_cmgroup k /\ tasks k' = tasks k /\ this_cpu k' = this_cpu k.
Proof.
  intros Ho Hu Hm Hc Hact Hempty.
  destruct (begin_lock k g c Ho Hm Hc) as (E1 & Eg & Ho1 & Hl1 & Hm1 & _).
  unfold cmgroup_detach. mrun E1. mrun Eg. set (k1 := set_cmgroups _ k) in *.
  assert (Edrain : (if bool_decide (wq (set_attached_mtx true c) = Local_wq)
                    then drain_local msleep (S n) g else mret tt) k1 = Ret tt k1).
  { case_bool_decide; [|done]. simpl. mrun Eg. simpl. by rewrite Hempty. }
  mrun Edrain.
  destruct (lockout_ok _ (Some g) k1 g (set_attached_mtx true c) n Ho1 (hold_pin g k1) Hm1)
    as (k2 & (E2 & Ho2 & Hl2 & Hm2) & Hrun2 & Ek2); [apply lookup_insert_eq|done|].
  mrun E2. destruct Hrun2 as (c2 & Hc2 & Ha2 & Hp2).
  destruct (held_get _ k2 g Ho2 (hold_pin g k2)) as (d & Hd & Eg2). assert (d = c2) as -> by congruence.
  unfold mbind at 1, M_bind at 1. rewrite (upd_cm_eq _ _ _ _ Eg2). fold (detached c2).
  set (k3 := set_cmgroups _ k2).
  assert (Ho3 : ok (hold g no_refs) k3).
  { destruct Ho2 as (Hi2 & Ht2 & Hq2) eqn:Eo. eapply ok_put; eauto; simpl; [|done].
    by eapply (q_local _ Hq2). }
  assert (Hs3 : setup_ok k3).
  { apply setup_detached. eapply setup_upto_le; [exact Hl2|]. by eapply setup_upto_le. }
  assert (Hm3 : mtx_held (Some g) k3) by (eapply (mtx_put (Some g) (Some g) k2); eauto; simpl; by apply Hm2).
  destruct (unlockout_ok _ (Some g) k3 g Ho3 (hold_pin g k3) Hm3) as (k4 & (E4 & Ho4 & Hl4 & Hm4) & Ht4 & Hcpu4).
  { exists (detached c2). split_and!; [apply lookup_insert_eq|done|done]. }
  mrun E4. destruct (held_get _ k4 g Ho4 (hold_pin g k4)) as (c4 & Hc4 & _).
  destruct (mutex_unlock_ok _ k4 g c4 Ho4 (hold_pin g k4) Hm4 Hc4) as (E5 & Ho5 & Hl5 & Hm5).
  mrun E5. destruct (sys_unref _ g Ho5) as (k6 & E6 & Hk6 & Hs6); [|done|].
  { eapply attach_le_setup; [exact Hl5|]. by eapply attach_le_setup. }
  exists k6. split_and!; [done|done|..].
  - rewrite (sr_ep _ _ Hs6). simpl. rewrite (proj1 Hl4). by subst k2.
  - rewrite (sr_aio _ _ Hs6). simpl. rewrite (proj1 (proj2 Hl4)). by subst k2.
  - rewrite (sr_tasks _ _ Hs6). simpl. rewrite Ht4. by subst k2.
  - rewrite (sr_cpu _ _ Hs6). simpl. rewrite Hcpu4. by subst k2.
Qed.
End Attach.
