(* ===== verification/CmTop.v ===== *)
(** * No sequence of operations breaks a group

    The operations of the component, as the type [cm_op], with their
    preconditions (those the callers guarantee), and the theorems about every
    state they reach. *)

From S2P Require Import Prelude Wait Tasklet Cmgroup Sched CmWake CmInv CmTask CmOps CmSys CmLife CmAttach.
Local Open Scope Z_scope.

Section Sources.
Context `{WL : WaitLib}.
Variable msleep : K unit.

Lemma take_ep_setup k g ep c :
  setup_ok k -> ep_cmgroup k !! ep = Some g -> cmgroups k !! g = Some c ->
  setup_upto g (set_ep_cmgroup (delete ep (ep_cmgroup k)) k).
Proof.
  intros Hs He Hc. destruct (Hs g c Hc) as [_ _ H1 G1 G2].
  pose proof (proj2 (G1 ep) He) as Hatt. split_and!; simpl.
  - intros h d Hne Hd. destruct (Hs h d Hd) as [S1 S2 S3 D1 D2]. split; simpl; try done.
    intros ep'. rewrite D1, lookup_delete. case_decide; [subst; naive_solver|done].
  - intros ep'. rewrite lookup_delete. case_decide; [done|]. rewrite <- G1. congruence.
  - intros a Ha%G2. destruct H1; congruence.
Qed.

Lemma take_aio_setup k g a c :
  setup_ok k -> aio_cmgroup k !! a = Some g -> cmgroups k !! g = Some c ->
  setup_upto g (set_aio_cmgroup (delete a (aio_cmgroup k)) k).
Proof.
  intros Hs He Hc. destruct (Hs g c Hc) as [_ _ H1 G1 G2].
  pose proof (proj2 (G2 a) He) as Hatt. split_and!; simpl.
  - intros h d Hne Hd. destruct (Hs h d Hd) as [S1 S2 S3 D1 D2]. split; simpl; try done.
    intros a'. rewrite D2, lookup_delete. case_decide; [subst; naive_solver|done].
  - intros ep He'%G1. destruct H1; congruence.
  - intros a'. rewrite lookup_delete. case_decide; [done|]. rewrite <- G2. congruence.
Qed.

(** a group that can be detached at once: its tasklet is idle and the local
    queue empty (otherwise cmgroup_detach waits for that) *)
Definition quiet (k : kernel) (g : nat) : Prop :=
  forall c, cmgroups k !! g = Some c -> tasklet_active c = false /\ __wq c = [].

Lemma source_live k g :
  sys_ok k -> (exists ep, ep_cmgroup k !! ep = Some g) \/ (exists a, aio_cmgroup k !! a = Some g) ->
  exists c, cmgroups k !! g = Some c.
Proof.
  intros Hk H. destruct (held_get no_refs k g (proj1 Hk)) as (c & Hc & _); [by right|eauto].
Qed.

Lemma drop_ep_wq k ep :
  sys_ok k -> ep_cmgroup k !! ep = None -> sys_ok (set_ep_wq (delete ep (ep_wq k)) k).
Proof.
  intros ((Hi & Ht & [Q1 Q2 Q3]) & Hs & Hm) He. split_and!; [split_and!; [by destruct Hi|done|]|..].
  - split; simpl; try done.
    + intros ep' q [_ Hq]%lookup_delete_Some. by eapply Q2.
    + intros g c ep' Hc Hw. rewrite lookup_delete. case_decide; [|by eapply Q3]. subst ep'.
      destruct (Hs g c Hc) as [_ S2 _ G1 _]. rewrite Hw in S2.
      destruct (attached_epoll c) as [e|] eqn:Ea; [|done]. injection S2 as <-.
      pose proof (proj1 (G1 ep) eq_refl). congruence.
  - intros g c Hc. by destruct (Hs g c Hc).
  - done.
Qed.

Lemma sys_ep_free k ep n :
  sys_ok k -> (forall g, ep_cmgroup k !! ep = Some g -> quiet k g) ->
  exists k', ep_free_cmgroup msleep (S n) ep k = Ret tt k' /\ sys_ok k' /\ ep_cmgroup k' !! ep = None.
Proof.
  intros Hk Hquiet. unfold ep_free_cmgroup. unfold mbind at 1, M_bind at 1, get.
  unfold mbind at 1, M_bind at 1, modify at 1.
  destruct (ep_cmgroup k !! ep) as [g|] eqn:He.
  - destruct (source_live k g Hk) as [c Hc]; [eauto|]. destruct (Hquiet g eq_refl c Hc) as [Ha Hw].
    destruct (detach_ok msleep _ g c n (ok_take_ep k g ep (proj1 Hk) He)
                (take_ep_setup k g ep c (proj1 (proj2 Hk)) He Hc) (proj2 (proj2 Hk)) Hc Ha Hw)
      as (k' & E & Hk' & He' & _ & _).
    mrun E. eexists. split; [reflexivity|].
    assert (Hn : ep_cmgroup k' !! ep = None) by (rewrite He'; apply lookup_delete_eq).
    split; [by apply drop_ep_wq|done].
  - rewrite delete_id by done. eexists. split; [reflexivity|].
    split; [|done]. destruct k. by apply drop_ep_wq.
Qed.

Lemma sys_free_ioctx k a n :
  sys_ok k -> (forall g, aio_cmgroup k !! a = Some g -> quiet k g) ->
  exists k', free_ioctx_cmgroup msleep (S n) a k = Ret tt k' /\ sys_ok k' /\ aio_cmgroup k' = delete a (aio_cmgroup k) /\
    tasks k' = tasks k /\ this_cpu k' = this_cpu k.
Proof.
  intros Hk Hquiet. unfold free_ioctx_cmgroup. unfold mbind at 1, M_bind at 1, get.
  unfold mbind at 1, M_bind at 1, modify at 1.
  destruct (aio_cmgroup k !! a) as [g|] eqn:He.
  - destruct (source_live k g Hk) as [c Hc]; [eauto|]. destruct (Hquiet g eq_refl c Hc) as [Ha Hw].
    destruct (detach_ok msleep _ g c n (ok_take_aio k g a (proj1 Hk) He)
                (take_aio_setup k g a c (proj1 (proj2 Hk)) He Hc) (proj2 (proj2 Hk)) Hc Ha Hw)
      as (k' & E & Hk' & _ & He' & Ht' & Hcpu').
    exists k'. by split_and!.
  - rewrite delete_id by done. eexists. split; [reflexivity|]. destruct k. by split_and!.
Qed.
End Sources.

(** ** The operations *)

Inductive cm_op :=
  | Newgroup (ncpus : Z) (addr : option nat) (getfd : Z -> Z) (getfile : Z -> Z + nat) (nthreads flags : Z)
  | Associate (t : nat) (fd : Z)
  | Dissociate (t : nat)
  | GetValue (fd : Z)
  | SetValue (ncpus fd nthreads : Z)
  | Close (f : nat)
  | Worker
  | Softirq (cpu g : nat)
  | Set_state (t : nat) (state : Z)
  | Wake (t : nat) (state : Z)
  | Sleep (t : nat) (fatal : bool)
  | Requeue (t : nat) (flag : Z)
  | Move (t cpu : nat)
  | Fork (t child : nat)
  | Exit (t : nat)
  | Attach_epoll (ep : nat) (fd : Z)
  | Attach_aio (ioctx : option nat) (fd : Z)
  | Free_epoll (ep : nat)
  | Free_aio (ioctx : nat)
  | New_epoll (ep : nat)
  | Irq (b : bool).

Section Runs.
Context `{WL : WaitLib}.
(** what happens while a caller sleeps; no operation that meets its
    precondition does *)
Variable msleep : K unit.

Definition ignore {A} (m : K A) : K unit := m ;; mret tt.

Definition run_op (o : cm_op) : K unit :=
  match o with
  | Newgroup ncpus addr getfd getfile n fl => ignore (sys_cmgroup_newgroup ncpus addr getfd getfile n fl)
  | Associate t fd => ignore (sys_cmgroup_associate t fd)
  | Dissociate t => ignore (sys_cmgroup_dissociate t)
  | GetValue fd => ignore (sys_cmgroup_get_concurrency_value fd)
  | SetValue ncpus fd n => ignore (sys_cmgroup_set_concurrency_value ncpus fd n)
  | Close f => ignore (close_file f)
  | Worker => __cmgroup_free_work
  | Softirq cpu g => Tasklet.run_tasklet cmgroup_tasklet (Tasklet.requeue_vec cpu) g
  | Set_state t st => x ← get_task t; put_task t (set_tstate st x)
  | Wake t st => ignore (try_to_wake_up t st)
  | Sleep t fatal => schedule_out fatal t
  | Requeue t fl => requeue_task t fl
  | Move t cpu => move_task t cpu
  | Fork t child => dup_task_struct t child
  | Exit t => do_exit_cmgroup t
  | Attach_epoll ep fd => ignore (ep_attach_cmgroup msleep 1 ep fd)
  | Attach_aio a fd => ignore (io_set_cmgroup msleep 1 a fd)
  | Free_epoll ep => ep_free_cmgroup msleep 1 ep
  | Free_aio a => free_ioctx_cmgroup msleep 1 a
  | New_epoll ep => modify (fun k => set_ep_wq (<[ep := []]> (ep_wq k)) k)
  | Irq b => modify (set_atomic_ctx b)
  end.

(** a task that exists, and one that is running (it is on its run queue) *)
Definition exists_task (k : kernel) (t : nat) : Prop := is_Some (tasks k !! t).
Definition running_task (k : kernel) (t : nat) : Prop :=
  exists x, tasks k !! t = Some x /\ on_rq x = true.

Definition idle_fd (k : kernel) (fd : Z) : Prop :=
  forall g c, fd_group k fd g -> cmgroups k !! g = Some c -> tasklet_active c = false.

Definition valid (k : kernel) (o : cm_op) : Prop :=
  match o with
  | Newgroup _ addr _ getfile _ _ =>
      atomic_ctx k = false /\ (forall g, addr = Some g -> cmgroups k !! g = None) /\
      (forall fl f, getfile fl = inr f -> files k !! f = None)
  | Associate t _ | Sleep t _ | Move t _ | Exit t => running_task k t
  | Dissociate t | Set_state t _ | Wake t _ | Requeue t _ => exists_task k t
  | GetValue _ | SetValue _ _ _ | Worker | Irq _ => True
  | Close f => is_Some (files k !! f)
  | Softirq _ g => atomic_ctx k = true /\ tasklet_pending k g = true
  | Fork t child => exists_task k t /\ tasks k !! child = None /\
      Z.of_nat (size (tasks k)) < PID_MAX_LIMIT
  | Attach_epoll ep fd => is_Some (ep_wq k !! ep) /\ idle_fd k fd
  | Attach_aio _ fd => idle_fd k fd
  | Free_epoll ep => forall g, ep_cmgroup k !! ep = Some g -> quiet k g
  | Free_aio a => forall g, aio_cmgroup k !! a = Some g -> quiet k g
  | New_epoll ep => ep_wq k !! ep = None
  end.

(** ** Every operation keeps the system *)

Lemma ignore_ok {A} (m : K A) k :
  (exists r k', m k = Ret r k' /\ sys_ok k') -> exists k', ignore m k = Ret tt k' /\ sys_ok k'.
Proof. intros (r & k' & E & Hk'). exists k'. split; [|done]. unfold ignore. by mrun E. Qed.

Lemma fd_group_dec k fd : sys_ok k -> (exists g c, fd_group k fd g /\ cmgroups k !! g = Some c) \/
  forall g, ~ fd_group k fd g.
Proof.
  intros Hk. destruct (from_fd_ok k fd (proj1 (proj1 Hk))) as ([e|g] & k1 & _ & H1); [right; by apply H1|].
  left. destruct H1 as (Hfd & _). exists g.
  destruct (inv_get no_refs k g (proj1 (proj1 Hk))) as (c & Hc & _); [|eauto].
  destruct Hfd as (f & x & _ & Hx & Hto). pose proof (refs_file k g f x Hx Hto). unfold no_refs. lia.
Qed.

Lemma attach_epoll_ok k ep fd :
  sys_ok k -> is_Some (ep_wq k !! ep) -> idle_fd k fd ->
  exists r k', ep_attach_cmgroup msleep 1 ep fd k = Ret r k' /\ sys_ok k'.
Proof.
  intros Hk Hq Hidle. destruct (fd_group_dec k fd Hk) as [(g & c & Hfd & Hc)|Hno].
  - destruct (sys_ep_attach msleep k ep fd 0 g c Hk Hq Hfd Hc (Hidle g c Hfd Hc)) as (k' & E & Hk' & _). eauto.
  - destruct (from_fd_error k fd Hk Hno) as (e & E & _). exists e, k. split; [|done].
    unfold ep_attach_cmgroup. by mrun E.
Qed.

Lemma attach_aio_ok k a fd :
  sys_ok k -> idle_fd k fd -> exists r k', io_set_cmgroup msleep 1 a fd k = Ret r k' /\ sys_ok k'.
Proof.
  intros Hk Hidle. destruct (fd_group_dec k fd Hk) as [(g & c & Hfd & Hc)|Hno].
  - destruct a as [a|].
    + destruct (sys_io_attach msleep k a fd 0 g c Hk Hfd Hc (Hidle g c Hfd Hc)) as (k' & E & Hk' & _). eauto.
    + destruct (sys_io_attach_none msleep k fd 1 g c Hk Hfd Hc) as (k' & E & Hk' & _). eauto.
  - destruct (from_fd_error k fd Hk Hno) as (e & E & _). exists e, k. split; [|done].
    unfold io_set_cmgroup. by mrun E.
Qed.

Lemma set_value_ok k ncpus fd n :
  sys_ok k -> exists r k', sys_cmgroup_set_concurrency_value ncpus fd n k = Ret r k' /\ sys_ok k'.
Proof.
  intros Hk. destruct (((if n =? 0 then ncpus else n) <=? 0) ||
    (CMGROUP_MAX_CONCURRENCY_VALUE <? (if n =? 0 then ncpus else n))) eqn:Hn.
  { exists (- EINVAL), k. split; [|done]. unfold sys_cmgroup_set_concurrency_value. by rewrite Hn. }
  destruct (fd_group_dec k fd Hk) as [(g & c & Hfd & Hc)|Hno].
  - zbool. destruct (sys_set_value k ncpus fd n g c Hk Hfd Hc) as (k' & c' & E & Hk' & _); [lia|eauto].
  - destruct (from_fd_error k fd Hk Hno) as (e & E & _). exists e, k. split; [|done].
    unfold sys_cmgroup_set_concurrency_value. rewrite Hn. by mrun E.
Qed.

Lemma fork_ok k t x child :
  sys_ok k -> tasks k !! t = Some x -> tasks k !! child = None ->
  Z.of_nat (size (tasks k)) < PID_MAX_LIMIT ->
  exists k', dup_task_struct t child k = Ret tt k' /\ sys_ok k'.
Proof.
  intros ((Hi & Ht & Hq) & Hs & Hm) Hx Hch Hsz. unfold dup_task_struct. mrun (get_task_eq t k x Hx).
  set (y := set_se_queued _ _). exists (upd_task child y k). split; [done|].
  assert (Hs' : same_rest (upd_task child y k) (upd_task child y k)) by apply same_rest_refl.
  split_and!; [split_and!|..].
  - by apply inv_new_task.
  - by apply (tasks_ok_upd k _ child y).
  - by apply (upd_queues k _ child y).
  - intros g c Hc. by destruct (Hs g c Hc).
  - done.
Qed.

Lemma softirq_ok k cpu g :
  sys_ok k -> atomic_ctx k = true -> tasklet_pending k g = true ->
  exists k', Tasklet.run_tasklet cmgroup_tasklet (Tasklet.requeue_vec cpu) g k = Ret tt k' /\ sys_ok k'.
Proof.
  intros Hk Ha Hp. unfold tasklet_pending in Hp.
  destruct (Tasklet.tasklets (sirqs k) !! g) as [x|] eqn:Hx; [|done].
  by apply (sys_run_tasklet k cpu g x).
Qed.

Lemma new_epoll_ok k ep : sys_ok k -> ep_wq k !! ep = None -> sys_ok (set_ep_wq (<[ep := []]> (ep_wq k)) k).
Proof.
  intros ((Hi & Ht & [Q1 Q2 Q3]) & Hs & Hm) He. split_and!; [split_and!; [by destruct Hi|done|]|..].
  - split; simpl; try done.
    + intros ep' q. rewrite lookup_insert. case_decide; [by intros [= <-]|apply Q2].
    + intros g c ep' Hc Hw. rewrite lookup_insert. case_decide; [done|by eapply Q3].
  - intros g c Hc. by destruct (Hs g c Hc).
  - done.
Qed.

Lemma irq_ok k b : sys_ok k -> sys_ok (set_atomic_ctx b k).
Proof.
  intros ((Hi & Ht & Hq) & Hs & Hm). split_and!; [split_and!; [by destruct Hi|done|by destruct Hq]|..].
  - intros g c Hc. by destruct (Hs g c Hc).
  - done.
Qed.

Lemma run_op_ok k o : sys_ok k -> valid k o -> exists k', run_op o k = Ret tt k' /\ sys_ok k'.
Proof.
  intros Hk Hv. destruct o; simpl in *; try apply ignore_ok;
    lazymatch type of Hv with
    | running_task _ _ => destruct Hv as (x & Hx & Hrq)
    | exists_task _ _ => destruct Hv as [x Hx]
    | is_Some _ => destruct Hv as [x Hx]
    | _ /\ _ => destruct Hv as [Hv1 Hv2]
    | _ => idtac
    end.
  - destruct Hv2. by apply sys_newgroup.
  - by apply (sys_associate k t x).
  - destruct (sys_dissociate k t x Hk Hx) as (k' & E & ?). eauto.
  - destruct (sys_get_value k fd Hk) as (r & k' & E & ? & _). eauto.
  - by apply set_value_ok.
  - destruct (sys_close k f x Hk Hx) as (k' & E & ?). eauto.
  - destruct (sys_free_work k Hk) as (k' & E & ? & _). eauto.
  - by apply softirq_ok.
  - eapply (sys_task_op k t _ x); [done|done|task_ops|]. by intros [].
  - destruct (sys_task_op k t _ x _ _ Hk Hx (wake_up_op no_refs t state x)) as (k' & E & ?); [|eauto].
    destruct (Z.land (tstate x) state =? 0); [done|]. apply woken_ok.
  - eapply (sys_task_op k t _ x); [done|done|apply schedule_out_op|]. intros; by apply slept_ok.
  - eapply (sys_task_op k t _ x); [done|done|apply requeue_task_op|].
    destruct (on_rq x) eqn:Er; [|done]. intros. by apply requeued_ok.
  - eapply (sys_task_op k t _ x); [done|done|apply move_task_op|].
    intros Hok. by destruct (requeued_ok x Hok Hrq).
  - destruct Hv1 as [x Hx], Hv2. by apply (fork_ok k t x).
  - eapply (sys_task_op k t _ x); [done|done|apply exit_op|]. intros; by apply exited_ok.
  - by apply attach_epoll_ok.
  - by apply attach_aio_ok.
  - destruct (sys_ep_free msleep k ep 0 Hk Hv) as (k' & E & ? & _). eauto.
  - destruct (sys_free_ioctx msleep k ioctx 0 Hk Hv) as (k' & E & ? & _). eauto.
  - eexists. split; [reflexivity|]. by apply new_epoll_ok.
  - eexists. split; [reflexivity|]. by apply irq_ok.
Qed.

(** ** Sequences of operations *)

(** the system at boot: no groups, no files, no event sources, one task *)
Definition boot_task : task_struct := TaskStruct TASK_RUNNING true true 0 None false false.
Definition boot : kernel :=
  Kernel ∅ {[ 1%nat := boot_task ]} ∅ ∅ ∅ ∅ ∅ [] false
    (Tasklet.Softirq (fun _ => Tasklet.PerCpu 0 [] [] false false) ∅) 0.

Inductive reachable : kernel -> Prop :=
  | reach_boot : reachable boot
  | reach_step k o k' : reachable k -> valid k o -> run_op o k = Ret tt k' -> reachable k'.

(** a kernel without groups, whatever its tasks *)
Definition kernel_with (ts : gmap nat task_struct) : kernel :=
  Kernel ∅ ts ∅ ∅ ∅ ∅ ∅ [] false (Tasklet.Softirq (fun _ => Tasklet.PerCpu 0 [] [] false false) ∅) 0.

Lemma kernel_with_ok ts :
  map_Forall (fun _ x => task_ok x /\ task_cmgroup x = None) ts -> Z.of_nat (size ts) <= PID_MAX_LIMIT ->
  sys_ok (kernel_with ts).
Proof.
  intros Hts Hsz. assert (Hg : forall g c, cmgroups (kernel_with ts) !! g = Some c -> False).
  { intros g c. unfold kernel_with; simpl. by rewrite lookup_empty. }
  split_and!; [split_and!|by intros g c ?%Hg|by intros g c ?%Hg].
  - split; try by (intros g c ?%Hg).
    + done.
    + intros g _. unfold refs, kernel_with, tasklet_pending; simpl.
      rewrite !count_empty, !lookup_empty.
      rewrite (count_false (in_group g)); [done|].
      intros t x Hx. unfold in_group. destruct (Hts t x Hx) as [_ ->]. done.
    + intros g. split; [by intros ?%not_elem_of_nil|]. by intros (c & ?%Hg & _).
    + constructor.
    + by intros g [c ?%Hg].
    + exact Hsz.
  - intros t x Hx. by apply (Hts t x).
  - split; [by intros g c ?%Hg| |by intros g c ep ?%Hg].
    intros ep q. unfold kernel_with; simpl. by rewrite lookup_empty.
Qed.

Lemma boot_ok : sys_ok boot.
Proof. apply kernel_with_ok; [by apply map_Forall_singleton|]. by rewrite map_size_singleton. Qed.

Lemma reachable_ok k : reachable k -> sys_ok k.
Proof.
  induction 1 as [|k o k' Hr IH Hv E]; [apply boot_ok|].
  destruct (run_op_ok k o IH Hv) as (k2 & E2 & Hk2). congruence.
Qed.
End Runs.
