(* ===== verification/CmProps.v ===== *)
(** * The properties of the cmgroup component

    The theorems about groups in every reachable state, and the behaviour of
    the system calls on all their branches. *)

From S2P Require Import Prelude Wait Tasklet Cmgroup Sched CmWake CmInv CmTask CmOps CmSys CmLife CmAttach CmTop.
Local Open Scope Z_scope.

(** ** A small history: two groups' worth of operations from boot *)

Definition demo_new : cm_op := Newgroup 4 (Some 100%nat) (fun _ => 3) (fun _ => inr 50%nat) 2 0.

Definition run_ops (l : list cm_op) (k : kernel) : outcome kernel unit :=
  foldl (fun o op => match o with Ret _ k => run_op (WL := wait_lib) (mret tt) op k | o => o end) (Ret tt k) l.

Definition out_state (o : outcome kernel unit) : kernel :=
  match o with Ret _ k => k | _ => boot end.

(** after the creation of group 100 *)
Definition demo1 : kernel := out_state (run_ops [demo_new] boot).
(** task 1 joins the group *)
Definition demo2 : kernel := out_state (run_ops [Associate 1 3] demo1).

Lemma demo1_reachable : reachable (WL := wait_lib) (mret tt) demo1.
Proof.
  eapply (reach_step _ boot demo_new); [constructor| |reflexivity].
  split_and!; [done|..]; intros; apply lookup_empty.
Defined.

Lemma demo2_reachable : reachable (WL := wait_lib) (mret tt) demo2.
Proof.
  eapply (reach_step _ demo1 (Associate 1 3)); [apply demo1_reachable| |reflexivity].
  exists boot_task. split; reflexivity.
Defined.

Section Properties.
Context `{WL : WaitLib}.
Variable msleep : K unit.


(** C3: in every reachable state the reference count of an allocated group is
    the number of open files, associated tasks, attached eventpolls and AIO
    contexts that point to it, plus one for a pending tasklet; whoever points
    to a group points to an allocated one; and an allocated group without
    references is queued, once, for the worker that frees it. *)
Theorem cm_refcount_exact (k : kernel) (g : nat) :
  reachable msleep k ->
  (0 < refs k g -> is_Some (cmgroups k !! g)) /\
  (forall c, cmgroups k !! g = Some c -> kref c = refs k g) /\
  (g ∈ free_works k <-> is_Some (cmgroups k !! g) /\ refs k g = 0) /\ NoDup (free_works k).
Proof.
  intros Hr. pose proof (proj1 (proj1 (reachable_ok msleep k Hr))) as Hi.
  assert (Hk : forall c, cmgroups k !! g = Some c -> kref c = refs k g).
  { intros c Hc. rewrite (inv_live _ _ Hi g c Hc). unfold no_refs. lia. }
  split_and!; [|done| |apply Hi].
  - intros Hg. destruct (cmgroups k !! g) eqn:E; [done|]. pose proof (unallocated k g Hi E). lia.
  - rewrite (inv_free _ _ Hi). split.
    + intros (c & Hc & H0). split; [eauto|]. by rewrite <- (Hk c Hc).
    + intros [[c Hc] H0]. exists c. split; [done|]. by rewrite (Hk c Hc).
Qed.

(** C4: in every reachable state [available] is the concurrency value minus
    the number of the group's tasks that are on a run queue, and it stays far
    from overflowing an int. *)
Theorem cm_accounting_exact (k : kernel) (g : nat) (c : cmgroup) :
  reachable msleep k -> cmgroups k !! g = Some c ->
  available c = concurrency_value c - count (runnable_in g) (tasks k) /\
  1 <= concurrency_value c <= CMGROUP_MAX_CONCURRENCY_VALUE /\
  1 - PID_MAX_LIMIT <= available c <= CMGROUP_MAX_CONCURRENCY_VALUE.
Proof.
  intros Hr Hc. destruct (reachable_ok msleep k Hr) as ((Hi & Ht & _) & _).
  rewrite <- (charged_runnable k g Ht). split_and!.
  - by apply Hi.
  - by apply (inv_value _ _ Hi g).
  - by apply (inv_value _ _ Hi g).
  - by apply (available_range no_refs k g).
  - by apply (available_range no_refs k g).
Qed.


(** cmgroup_set_concurrency_value on a group's descriptor, in every
    reachable state: 0 stands for the number of CPUs, the group takes the new
    value, [available] moves by the difference, no task is touched, and when an
    opening appears (from none to at least one) the tasklet is made active. *)
Theorem set_concurrency_value_spec (k : kernel) (ncpus fd n : Z) (g : nat) (c : cmgroup) :
  reachable msleep k -> fd_group k fd g -> cmgroups k !! g = Some c ->
  let n' := if n =? 0 then ncpus else n in
  1 <= n' <= CMGROUP_MAX_CONCURRENCY_VALUE ->
  exists k' c', sys_cmgroup_set_concurrency_value ncpus fd n k = Ret 0 k' /\
    tasks k' = tasks k /\ cmgroups k' !! g = Some c' /\ concurrency_value c' = n' /\
    available c' = available c + (n' - concurrency_value c) /\
    (available c < 1 <= available c' -> tasklet_active c' = true).
Proof.
  intros Hr Hfd Hc n' Hn.
  destruct (sys_set_value k ncpus fd n g c (reachable_ok msleep k Hr) Hfd Hc Hn) as (k' & c' & E & _ & H).
  eauto.
Qed.

(** attaching an eventpoll to the group of a descriptor whose tasklet is
    idle: 0 and the eventpoll has the group when they are already attached to
    each other or both are free; EBUSY, and nothing changes hands, otherwise. *)
Theorem ep_attach_spec (k : kernel) (ep : nat) (fd : Z) (g : nat) (c : cmgroup) :
  reachable msleep k -> is_Some (ep_wq k !! ep) -> fd_group k fd g -> cmgroups k !! g = Some c ->
  tasklet_active c = false ->
  exists r k', ep_attach_cmgroup msleep 1 ep fd k = Ret r k' /\
    (r = 0 /\ ep_cmgroup k' !! ep = Some g \/ r = - EBUSY) /\
    (r = 0 <-> attached_epoll c = Some ep \/
               attached_epoll c = None /\ attached_aio c = None /\ ep_cmgroup k !! ep = None).
Proof.
  intros Hr Hq Hfd Hc Ha. pose proof (reachable_ok msleep k Hr) as Hk.
  destruct (sys_ep_attach msleep k ep fd 0 g c Hk Hq Hfd Hc Ha) as (k' & E & _ & H0).
  eexists _, k'. split; [exact E|]. revert H0. unfold attach_result.
  destruct (proj1 (proj2 Hk) g c Hc) as [_ _ _ G1 _].
  destruct (decide (attached_epoll c = Some ep)) as [He|He].
  { rewrite bool_decide_eq_true_2 by done. intros H0. split; [left; auto|]. split; [by left|done]. }
  rewrite bool_decide_eq_false_2 by done.
  destruct (attached_aio c), (attached_epoll c), (ep_cmgroup k !! ep); simpl; intros H0;
    (split; [by right|split; [done|naive_solver]]) || (split; [left; auto|split; [auto|done]]).
Qed.

(** Attaching an AIO context to the group of a descriptor whose tasklet is
    idle: the same contract as for an eventpoll. *)
Theorem io_set_cmgroup_spec (k : kernel) (a : nat) (fd : Z) (g : nat) (c : cmgroup) :
  reachable msleep k -> fd_group k fd g -> cmgroups k !! g = Some c -> tasklet_active c = false ->
  exists r k', io_set_cmgroup msleep 1 (Some a) fd k = Ret r k' /\
    (r = 0 /\ aio_cmgroup k' !! a = Some g \/ r = - EBUSY) /\
    (r = 0 <-> attached_aio c = Some a \/
               attached_epoll c = None /\ attached_aio c = None /\ aio_cmgroup k !! a = None).
Proof.
  intros Hr Hfd Hc Ha. pose proof (reachable_ok msleep k Hr) as Hk.
  destruct (sys_io_attach msleep k a fd 0 g c Hk Hfd Hc Ha) as (k' & E & _ & H0).
  eexists _, k'. split; [exact E|]. revert H0. unfold attach_result.
  destruct (decide (attached_aio c = Some a)) as [He|He].
  { rewrite bool_decide_eq_true_2 by done. intros H0. split; [left; auto|]. split; [by left|done]. }
  rewrite bool_decide_eq_false_2 by done.
  destruct (attached_aio c), (attached_epoll c), (aio_cmgroup k !! a); simpl; intros H0;
    (split; [by right|split; [done|naive_solver]]) || (split; [left; auto|split; [auto|done]]).
Qed.
End Properties.

(** ** Witnesses *)

Lemma demo1_fd : fd_group demo1 3 100.
Proof. exists 50%nat, (File cmgroup_fops (Some 100%nat)). split_and!; reflexivity. Qed.


(** the group of the example: referenced by its file and by task 1 *)
Lemma cm_refcount_exact_witness :
  is_Some (cmgroups demo2 !! 100%nat) /\ refs demo2 100 = 2.
Proof.
  split; [|vm_compute; reflexivity].
  destruct (cm_refcount_exact (WL := wait_lib) (mret tt) demo2 100 demo2_reachable) as (H & _).
  apply H. vm_compute. reflexivity.
Defined.

Lemma cm_accounting_exact_witness :
  exists c, cmgroups demo2 !! 100%nat = Some c /\ available c = 1 /\
    available c = concurrency_value c - count (runnable_in 100) (tasks demo2).
Proof.
  eexists. split; [vm_compute; reflexivity|]. split; [reflexivity|].
  apply (cm_accounting_exact (WL := wait_lib) (mret tt) demo2 100 _ demo2_reachable).
  vm_compute. reflexivity.
Defined.


Lemma set_concurrency_value_spec_witness :
  exists k' c', sys_cmgroup_set_concurrency_value 4 3 5 demo1 = Ret 0 k' /\
    cmgroups k' !! 100%nat = Some c' /\ concurrency_value c' = 5.
Proof.
  destruct (set_concurrency_value_spec (WL := wait_lib) (mret tt) demo1 4 3 5 100 (new_group 2)
              demo1_reachable demo1_fd) as (k' & c' & E & _ & Hc & Hv & _).
  - vm_compute. reflexivity.
  - vm_compute. split; discriminate.
  - exists k', c'. split_and!; [exact E|exact Hc|exact Hv].
Defined.

(** an eventpoll, number 7, comes to life and is attached to the group *)
Definition demo_ep : kernel := out_state (run_ops [New_epoll 7] demo1).

Lemma demo_ep_reachable : reachable (WL := wait_lib) (mret tt) demo_ep.
Proof.
  eapply (reach_step _ demo1 (New_epoll 7)); [apply demo1_reachable| |reflexivity].
  reflexivity.
Defined.

Lemma demo_ep_fd : fd_group demo_ep 3 100.
Proof. exists 50%nat, (File cmgroup_fops (Some 100%nat)). split_and!; reflexivity. Qed.

Lemma ep_attach_spec_witness :
  exists r k', ep_attach_cmgroup (H := wait_lib) (mret tt) 1 7 3 demo_ep = Ret r k' /\ r = 0.
Proof.
  destruct (ep_attach_spec (WL := wait_lib) (mret tt) demo_ep 7 3 100 (new_group 2)
              demo_ep_reachable) as (r & k' & E & _ & Hr).
  - by exists [].
  - apply demo_ep_fd.
  - vm_compute. reflexivity.
  - reflexivity.
  - exists r, k'. split; [exact E|]. apply Hr. right. split_and!; reflexivity.
Defined.

Lemma io_set_cmgroup_spec_witness :
  exists r k', io_set_cmgroup (mret tt) 1 (Some 9%nat) 3 demo1 = Ret r k' /\ r = 0.
Proof.
  destruct (io_set_cmgroup_spec (WL := wait_lib) (mret tt) demo1 9 3 100 (new_group 2)
              demo1_reachable demo1_fd) as (r & k' & E & _ & Hr).
  - vm_compute. reflexivity.
  - reflexivity.
  - exists r, k'. split; [exact E|]. apply Hr. right. split_and!; reflexivity.
Defined.

(** ** Creation, on every branch *)

(** cmgroup_newgroup returns EINVAL for unknown flags and for a
    concurrency value outside 1..2^20 (0 stands for the number of CPUs),
    ENOMEM when memory is out, the error of the descriptor or of the file when
    one of them fails, and leaves no group behind in these cases; otherwise it
    returns a descriptor of a new, unattached group with one reference, that
    value and as many openings. *)
Theorem newgroup_spec (k : kernel) (ncpus : Z) (addr : option nat) (getfd : Z -> Z)
    (getfile : Z -> Z + nat) (nthreads flags : Z) :
  atomic_ctx k = false -> (forall g, addr = Some g -> cmgroups k !! g = None) ->
  let n := if nthreads =? 0 then ncpus else nthreads in
  let fl := if Z.testbit flags 0 then Z.lor O_RDWR O_CLOEXEC else O_RDWR in
  exists r k', sys_cmgroup_newgroup ncpus addr getfd getfile nthreads flags k = Ret r k' /\
    if negb (Z.land flags (Z.lnot 1) =? 0) || (n <=? 0) || (2 ^ 20 <? n) then r = - EINVAL /\ k' = k
    else match addr with
    | None => r = - ENOMEM /\ k' = k
    | Some g =>
        match (if getfd fl <? 0 then inl (getfd fl) else getfile fl) with
        | inl e => r = e /\ cmgroups k' = cmgroups k /\ files k' = files k /\ fdt k' = fdt k
        | inr f => r = getfd fl /\ fd_group k' r g /\ cmgroups k' !! g = Some (new_group n)
        end
    end.
Proof.
  intros Hctx Hg n fl. unfold sys_cmgroup_newgroup.
  change (Z.lnot CMGROUP_CLOEXEC) with (Z.lnot 1).
  destruct (negb (Z.land flags (Z.lnot 1) =? 0)); simpl; [by eexists _, k|]. fold n.
  change CMGROUP_MAX_CONCURRENCY_VALUE with (2 ^ 20).
  destruct ((n <=? 0) || (2 ^ 20 <? n)) eqn:En; [by eexists _, k|].
  replace (if negb (Z.land flags CMGROUP_CLOEXEC =? 0) then _ else _) with fl.
  2: { unfold fl. change CMGROUP_CLOEXEC with (Z.ones 1). rewrite Z.land_ones by done.
       rewrite Z.bit0_odd. change (2 ^ 1) with 2. rewrite Zmod_odd. by destruct (Z.odd flags). }
  destruct addr as [g|]; simpl; [|by eexists _, k]. specialize (Hg g eq_refl).
  unfold mbind at 1, M_bind at 1, mbind at 1, M_bind at 1, modify at 1, mret at 1, M_ret at 1.
  assert (Hfree : forall e : Z, exists r k', (cmgroup_free g ;; mret e)
     (set_sirqs (Tasklet.tasklet_init g (sirqs k)) (set_cmgroups (<[g := new_group n]> (cmgroups k)) k))
     = Ret r k' /\ r = e /\ cmgroups k' = cmgroups k /\ files k' = files k /\ fdt k' = fdt k).
  { intros e. eexists e, _. split; [|split; [done|]].
    - unfold cmgroup_free, mbind, M_bind, get. simpl. rewrite Hctx. reflexivity.
    - simpl. by rewrite delete_insert_id. }
  destruct (getfd fl <? 0); [apply Hfree|]. destruct (getfile fl) as [e|f]; [apply Hfree|].
  eexists _, _. split; [reflexivity|]. split_and!; [done|..].
  - exists f, (File cmgroup_fops (Some g)). split_and!; simpl; [apply lookup_insert_eq..|].
    rewrite file_to_new. by apply bool_decide_eq_true.
  - simpl. apply lookup_insert_eq.
Qed.

Lemma newgroup_spec_witness :
  exists r k', sys_cmgroup_newgroup 4 (Some 100%nat) (fun _ => 3) (fun _ => inr 50%nat) 0 1 boot = Ret r k' /\
    r = 3 /\ cmgroups k' !! 100%nat = Some (new_group 4).
Proof.
  destruct (newgroup_spec boot 4 (Some 100%nat) (fun _ => 3) (fun _ => inr 50%nat) 0 1) as (r & k' & E & H).
  - reflexivity.
  - intros g _. apply lookup_empty.
  - simpl in H. destruct H as (Hr & _ & Hc). exists r, k'. split_and!; [exact E|exact Hr|exact Hc].
Defined.

(** ** The scheduler's paths *)

(** moving a runnable task to another run queue (move_task, the shape of
    all migrations) or changing its scheduling parameters (set_user_nice,
    rt_mutex_setprio and the like) is invisible to its group: the state changes
    in the task's CPU only, no counter moves and no tasklet is fired, although
    the task leaves and enters a run queue on the way. *)
Theorem requeue_invisible (k : kernel) (t cpu : nat) (flag : Z) (x : task_struct) :
  tasks k !! t = Some x -> on_rq x = true -> task_ok x ->
  requeue_task t flag k = Ret tt k /\
  move_task t cpu k = Ret tt (upd_task t (set_tcpu cpu x) k) /\
  __migrate_swap_task t cpu k = Ret tt (upd_task t (set_tcpu cpu x) k).
Proof.
  intros Ht Hrq [Hse _].
  assert (Hx : forall c, set_se_queued true (set_tcpu c (set_se_queued false x)) = set_tcpu c x).
  { intros c. destruct x; simpl in *. unfold set_tcpu, set_se_queued; simpl. congruence. }
  assert (Hmove : move_task t cpu k = Ret tt (upd_task t (set_tcpu cpu x) k)).
  { unfold move_task, deactivate_task, activate_task, set_task_cpu.
    mrun (hidden_dequeue t k x Ht). set (k1 := upd_task t _ k).
    assert (H1 : tasks k1 !! t = Some (set_se_queued false x)) by apply lookup_insert_eq.
    unfold mbind at 1, M_bind at 1. mrun (get_task_eq t k1 _ H1). unfold put_task, modify.
    rewrite (hidden_enqueue t 0 _ (set_tcpu cpu (set_se_queued false x))) by apply lookup_insert_eq.
    unfold upd_task, k1, set_tasks; simpl. by rewrite !insert_insert_eq, Hx. }
  split_and!; [|done|].
  - unfold requeue_task. mrun (get_task_eq t k x Ht). rewrite Hrq. mrun (hidden_dequeue t k x Ht).
    rewrite (hidden_enqueue t flag _ (set_se_queued false x)) by apply lookup_insert_eq.
    unfold upd_task, set_tasks; simpl. rewrite insert_insert_eq.
    replace (set_se_queued true (set_se_queued false x)) with x
      by (destruct x; simpl in *; unfold set_se_queued; simpl; congruence).
    rewrite insert_id by done. by destruct k.
  - unfold __migrate_swap_task. mrun (get_task_eq t k x Ht). rewrite Hrq. exact Hmove.
Qed.

Lemma requeue_invisible_witness :
  requeue_task 1 ENQUEUE_HEAD demo2 = Ret tt demo2.
Proof.
  apply (requeue_invisible demo2 1 0 ENQUEUE_HEAD
           (TaskStruct TASK_RUNNING true true 0 (Some 100%nat) true false)).
  - vm_compute. reflexivity.
  - reflexivity.
  - split; reflexivity.
Defined.

Section Sleeping.
Context `{WL : WaitLib}.
Variable msleep : K unit.

(** When a running task of a group goes to sleep (it is neither runnable
    again nor held back by a signal), in every reachable state, the group gains
    exactly one opening, and if that is the first one the tasklet that releases
    waiting tasks is active afterwards. *)
Theorem sleep_opens (k : kernel) (t g : nat) (fatal : bool) (x : task_struct) (c : cmgroup) :
  reachable msleep k -> tasks k !! t = Some x -> on_rq x = true -> task_cmgroup x = Some g ->
  tstate x <> 0 -> signal_pending_state fatal (tstate x) x = false -> cmgroups k !! g = Some c ->
  exists k' c', schedule_out fatal t k = Ret tt k' /\ cmgroups k' !! g = Some c' /\
    available c' = available c + 1 /\ (available c' = 1 -> tasklet_active c' = true) /\
    exists y, tasks k' !! t = Some y /\ on_rq y = false /\ cmgroup_charged y = false.
Proof.
  intros Hr Ht Hrq Hg Hst Hsig Hc. destruct (reachable_ok msleep k Hr) as ((Hi & Htk & _) & _).
  destruct (Htk t x Ht) as [_ Hch]. specialize (Hch ltac:(by rewrite Hg)). rewrite Hrq in Hch.
  unfold schedule_out. mrun (get_task_eq t k x Ht). rewrite (proj2 (Z.eqb_neq _ _) Hst), Hsig.
  unfold deactivate_task, dequeue_task.
  set (x1 := set_se_queued false x). set (k1 := upd_task t x1 k).
  assert (H1 : tasks k1 !! t = Some x1) by apply lookup_insert_eq.
  assert (Hi1 : inv no_refs k1).
  { destruct (task_op_put no_refs t x x1 eq_refl eq_refl k Hi Ht) as (k' & [= <-] & Hi1 & _). exact Hi1. }
  destruct (one_less_fires no_refs k1 t x1 g true c Hi1 H1 Hg Hch Hc) as (k2 & E2 & Hi2 & Hs2 & c2 & Hc2 & Hav & Ha).
  assert (H2 : tasks k2 !! t = Some (set_cmgroup_charged false x1)) by (by eapply same_rest_lookup).
  exists (upd_task t (set_on_rq false (set_cmgroup_charged false x1)) k2), c2. split_and!; try done.
  - unfold mbind at 1, M_bind at 1. mrun (get_task_eq t k x Ht). unfold put_task at 1, modify at 1.
    unfold mbind at 1, M_bind at 1. fold x1. fold (upd_task t x1 k) k1. unfold cmgroup_task_dequeued.
    mrun (get_task_eq t k1 x1 H1). rewrite bool_decide_eq_true_2 by (simpl; by rewrite Hg). simpl. rewrite Hch.
    unfold __cmgroup_task_dequeued. rewrite E2. by mrun (get_task_eq t k2 _ H2).
  - eexists. split; [apply lookup_insert_eq|done].
Qed.
End Sleeping.

(** task 1 of the example announces that it will sleep *)
Definition demo_sleep : kernel := out_state (run_ops [Set_state 1 TASK_INTERRUPTIBLE] demo2).

Lemma demo_sleep_reachable : reachable (WL := wait_lib) (mret tt) demo_sleep.
Proof.
  eapply (reach_step _ demo2 (Set_state 1 TASK_INTERRUPTIBLE)); [apply demo2_reachable| |reflexivity].
  eexists. vm_compute. reflexivity.
Defined.

Lemma sleep_opens_witness :
  exists k' c', schedule_out false 1 demo_sleep = Ret tt k' /\ cmgroups k' !! 100%nat = Some c' /\
    available c' = 2.
Proof.
  destruct (sleep_opens (WL := wait_lib) (mret tt) demo_sleep 1 100 false
              (TaskStruct TASK_INTERRUPTIBLE true true 0 (Some 100%nat) true false)
              (set_available 1 (set_kref 2 (new_group 2))) demo_sleep_reachable)
    as (k' & c' & E & Hc & Hav & _).
  - vm_compute. reflexivity.
  - reflexivity.
  - reflexivity.
  - discriminate.
  - reflexivity.
  - vm_compute. reflexivity.
  - exists k', c'. split_and!; [exact E|exact Hc|exact Hav].
Defined.

(** ** Waiting at the end of io_getevents *)

Section Waiting.
Context `{WL : WaitLib}.
Variable sleep : nat -> option Z -> K (option Z).

(** when cmgroup_wait does not wait *)
Definition unconstrained (c : cmgroup) (x : task_struct) (ret : Z) (timeout : option Z) : bool :=
  bool_decide (wq c <> Local_wq) || bool_decide (lock c <> Local_wq) ||
  (ret =? 0) || (ret =? - EINTR) || (ret =? - ERESTARTSYS) || bool_decide (timeout = Some 0) ||
  sigpending x || (0 <=? available c).

Lemma wait_loop_unconstrained fuel g t id remaining slack k c x :
  get_cm g k = Ret c k -> tasks k !! t = Some x -> sigpending x = true \/ 0 <= available c ->
  cmgroup_wait_loop sleep (S fuel) g t id remaining slack k = Ret tt k.
Proof.
  intros Eg Ht H. simpl. mrun (get_task_eq t k x Ht). destruct (sigpending x); [done|].
  unfold cmgroup_available. unfold mbind at 1, M_bind at 1. mrun Eg.
  destruct H as [?|H]; [done|]. unfold mret, M_ret. by rewrite (proj2 (Z.leb_le _ _) H).
Qed.

(** cmgroup_wait never changes the result of the system call it ends,
    whatever happens while it waits; and it does not wait at all (the state is
    untouched) for a call that fetched nothing, was interrupted or does not
    block, when a signal is pending, and when the group has room. *)
Theorem cmgroup_wait_keeps_result (fuel g t id : nat) (ret : Z) (timeout remaining : option Z)
    (slack : Z) (k : kernel) :
  (forall r k', cmgroup_wait sleep fuel g t id ret timeout remaining slack k = Ret r k' -> r = ret) /\
  (forall c x, get_cm g k = Ret c k -> tasks k !! t = Some x -> unconstrained c x ret timeout = true ->
     (0 < fuel)%nat -> cmgroup_wait sleep fuel g t id ret timeout remaining slack k = Ret ret k).
Proof.
  unfold cmgroup_wait. split.
  - intros r k'. intros (c & k1 & _ & H)%bind_Ret.
    destruct (bool_decide (wq c <> Local_wq) || bool_decide (lock c <> Local_wq)); [by injection H|].
    destruct ((ret =? 0) || (ret =? - EINTR) || (ret =? - ERESTARTSYS)); [by injection H|].
    destruct (bool_decide (timeout = Some 0)); [by injection H|].
    apply bind_Ret in H as (u & k2 & _ & H). by injection H.
  - intros c x Eg Ht Hu Hf. mrun Eg. unfold unconstrained in Hu.
    destruct (bool_decide (wq c <> Local_wq) || bool_decide (lock c <> Local_wq)); [done|].
    destruct (ret =? 0); [done|]. destruct (ret =? - EINTR); [done|]. destruct (ret =? - ERESTARTSYS); [done|].
    destruct (bool_decide (timeout = Some 0)); [done|]. simpl in *.
    destruct fuel as [|fuel]; [lia|].
    assert (E : forall rem, cmgroup_wait_loop sleep (S fuel) g t id rem slack k = Ret tt k).
    { intros rem. eapply wait_loop_unconstrained; [done|done|]. apply orb_true_iff in Hu as [?|?]; zbool; auto. }
    by mrun (E (if bool_decide (timeout = Some KTIME_MAX) then None else remaining)).
Qed.
End Waiting.

Lemma cmgroup_wait_keeps_result_witness :
  cmgroup_wait (H := wait_lib) (fun _ r => mret r) 1 100 1 8 (-9) None None 50 demo2 = Ret (-9) demo2.
Proof.
  destruct (cmgroup_wait_keeps_result (WL := wait_lib) (fun _ r => mret r) 1 100 1 8 (-9) None None 50 demo2)
    as [_ H].
  apply (H (set_available 1 (set_kref 2 (new_group 2)))
           (TaskStruct TASK_RUNNING true true 0 (Some 100%nat) true false)); vm_compute; reflexivity.
Defined.
