(* ===== verification/CmRace.v ===== *)
(** * The races of a group (fs/cmgroup.c)

    The accounting, the tasklet, the waiters and the attachment protocol run
    on different CPUs with no common lock: [available] and [tasklet_active]
    are changed by interlocked instructions, the wait queue and the requested
    action under the group's lock, and the lock pointer itself by the
    attachment code while it keeps the tasklet out.  Here each of them is a
    process of a step relation whose atomic steps are the interlocked
    instructions and the accesses made under the lock, and the invariants hold
    for every interleaving: no wake-up is lost, the tasklet releases the lock
    it took, and [tasklet_active] has at most one owner. *)

From S2P Require Import Prelude Cmgroup CmWake.
Local Open Scope Z_scope.

Module Race.

(** ** The state *)

(** where the tasklet is; the number is that of the passes left *)
Inductive tasklet_pc :=
  | TIdle                       (* not running *)
  | TLock (left : nat)          (* label again *)
  | TAction (left : nat)        (* lock taken, about to look at action *)
  | TAvailOne (left : nat)      (* RESET_WAKEONE: about to read available *)
  | TWakeOne                    (* it was positive: reset the action, wake one *)
  | TQueue (left : nat)         (* label again_wakeall: about to look at the queue *)
  | TAvailAll (left : nat)      (* it was not empty: about to read available *)
  | TWakeAll (left : nat)       (* it was positive: about to wake one *)
  | TClearExit                  (* label out_tasklet *)
  | TClearRecheck (left : nat)  (* label out_recheck *)
  | TUnlockExit                 (* label out_unlock *)
  | TUnlockRecheck (left : nat)
  | TReread (left : nat)        (* about to re-read available *)
  | TRetake (left : nat).       (* it was positive: about to re-assert tasklet_active *)

(** who holds the group's lock: the tasklet, or a task (an entrant of
    __cmgroup_wait or of ep_wake_wq / ep_cmgroup_wait_available) before or
    after it found no opening *)
Inductive holder := HTasklet | HEntered (t : nat) | HCommitted (t : nat).

(** where the attachment code is *)
Inductive mutator_pc :=
  | MIdle      (* nobody attaches or detaches *)
  | MSpin      (* cmgroup_lockout_tasklet: trying to take tasklet_active *)
  | MBarrier   (* took it; about to pass through the lock *)
  | MSwitch    (* the tasklet is out: wq, lock and action may change *)
  | MFire.     (* cmgroup_unlockout_tasklet cleared tasklet_active: about to fire *)
(** [lockp] is the lock pointer and [taken] the lock the tasklet took;
    [firers] counts the CPUs that saw an opening appear and are about to try
    to set [active], [launching] and [pending] the tasklet about to be and
    being scheduled; an entry of [queue] says whether its task waits for an
    opening (a cmgroup_wake_function entry) or for events, and [asleep] holds
    the tasks in an interruptible state. *)
Record race := RaceState {
  avail : Z;
  active : bool;
  action : cmgroup_action;
  lockp : nat;
  taken : nat;
  lk : option holder;
  firers : nat;
  launching : bool;
  pending : bool;
  tpc : tasklet_pc;
  mpc : mutator_pc;
  queue : list (nat * bool);
  asleep : gset nat
}.

Definition set_avail (x : Z) (r : race) : race :=
  RaceState x (active r) (action r) (lockp r) (taken r) (lk r) (firers r) (launching r) (pending r) (tpc r) (mpc r) (queue r) (asleep r).
Definition set_active (x : bool) (r : race) : race :=
  RaceState (avail r) x (action r) (lockp r) (taken r) (lk r) (firers r) (launching r) (pending r) (tpc r) (mpc r) (queue r) (asleep r).
Definition set_action (x : cmgroup_action) (r : race) : race :=
  RaceState (avail r) (active r) x (lockp r) (taken r) (lk r) (firers r) (launching r) (pending r) (tpc r) (mpc r) (queue r) (asleep r).
Definition set_lockp (x : nat) (r : race) : race :=
  RaceState (avail r) (active r) (action r) x (taken r) (lk r) (firers r) (launching r) (pending r) (tpc r) (mpc r) (queue r) (asleep r).
Definition set_taken (x : nat) (r : race) : race :=
  RaceState (avail r) (active r) (action r) (lockp r) x (lk r) (firers r) (launching r) (pending r) (tpc r) (mpc r) (queue r) (asleep r).
Definition set_lk (x : option holder) (r : race) : race :=
  RaceState (avail r) (active r) (action r) (lockp r) (taken r) x (firers r) (launching r) (pending r) (tpc r) (mpc r) (queue r) (asleep r).
Definition set_firers (x : nat) (r : race) : race :=
  RaceState (avail r) (active r) (action r) (lockp r) (taken r) (lk r) x (launching r) (pending r) (tpc r) (mpc r) (queue r) (asleep r).
Definition set_launching (x : bool) (r : race) : race :=
  RaceState (avail r) (active r) (action r) (lockp r) (taken r) (lk r) (firers r) x (pending r) (tpc r) (mpc r) (queue r) (asleep r).
Definition set_pending (x : bool) (r : race) : race :=
  RaceState (avail r) (active r) (action r) (lockp r) (taken r) (lk r) (firers r) (launching r) x (tpc r) (mpc r) (queue r) (asleep r).
Definition set_tpc (x : tasklet_pc) (r : race) : race :=
  RaceState (avail r) (active r) (action r) (lockp r) (taken r) (lk r) (firers r) (launching r) (pending r) x (mpc r) (queue r) (asleep r).
Definition set_mpc (x : mutator_pc) (r : race) : race :=
  RaceState (avail r) (active r) (action r) (lockp r) (taken r) (lk r) (firers r) (launching r) (pending r) (tpc r) x (queue r) (asleep r).
Definition set_queue (x : list (nat * bool)) (r : race) : race :=
  RaceState (avail r) (active r) (action r) (lockp r) (taken r) (lk r) (firers r) (launching r) (pending r) (tpc r) (mpc r) x (asleep r).
Definition set_asleep (x : gset nat) (r : race) : race :=
  RaceState (avail r) (active r) (action r) (lockp r) (taken r) (lk r) (firers r) (launching r) (pending r) (tpc r) (mpc r) (queue r) x.

(** ** wake_up_locked on the queue *)

(** the first entry whose task can be woken *)
Definition first_asleep (q : list (nat * bool)) (a : gset nat) : option (nat * bool) :=
  snd <$> list_find (fun e => fst e ∈ a) q.

Definition remove_entry (t : nat) (q : list (nat * bool)) : list (nat * bool) :=
  filter (fun e => fst e <> t) q.

(** cmgroup_wake_function takes its entry off the queue; default_wake_function leaves it *)
Definition wake_first (s : race) : race :=
  match first_asleep (queue s) (asleep s) with
  | Some (t, true) => set_asleep (asleep s ∖ {[t]}) (set_queue (remove_entry t (queue s)) s)
  | Some (t, false) => set_asleep (asleep s ∖ {[t]}) s
  | None => s
  end.

(** whether [n_waked] changed *)
Definition counted (s : race) : bool :=
  match first_asleep (queue s) (asleep s) with Some (_, true) => true | _ => false end.

(** ** Steps *)

Definition local : nat := 0.

(** the body of the tasklet, one interlocked or locked access at a time *)
Inductive tstep (s : race) : race -> Prop :=
  | T_lock n : tpc s = TLock n -> lk s = None ->
      tstep s (set_tpc (TAction n) (set_taken (lockp s) (set_lk (Some HTasklet) s)))
  | T_neutral n : tpc s = TAction n -> action s = CMGROUP_ACTION_NEUTRAL -> tstep s (set_tpc TClearExit s)
  | T_reset n : tpc s = TAction n -> action s = CMGROUP_ACTION_RESET_WAKEONE ->
      tstep s (set_tpc (TAvailOne n) s)
  | T_wakeall n : tpc s = TAction n -> action s = CMGROUP_ACTION_WAKEALL -> tstep s (set_tpc (TQueue n) s)
  | T_one_yes n : tpc s = TAvailOne n -> 0 < avail s -> tstep s (set_tpc TWakeOne s)
  | T_one_no n : tpc s = TAvailOne n -> avail s <= 0 -> tstep s (set_tpc (TClearRecheck n) s)
  | T_wakeone : tpc s = TWakeOne ->
      tstep s (set_tpc TClearExit (wake_first (set_action CMGROUP_ACTION_NEUTRAL s)))
  | T_empty n : tpc s = TQueue n -> queue s = [] -> tstep s (set_tpc TClearExit s)
  | T_resched : tpc s = TQueue 0 -> queue s <> [] -> tstep s (set_tpc TUnlockExit (set_pending true s))
  | T_pass n : tpc s = TQueue (S n) -> queue s <> [] -> tstep s (set_tpc (TAvailAll n) s)
  | T_all_yes n : tpc s = TAvailAll n -> 0 < avail s -> tstep s (set_tpc (TWakeAll n) s)
  | T_all_no n : tpc s = TAvailAll n -> avail s <= 0 -> tstep s (set_tpc (TClearRecheck n) s)
  | T_wake n : tpc s = TWakeAll n ->
      tstep s (set_tpc (if counted s then TQueue n else TClearExit) (wake_first s))
  | T_clear : tpc s = TClearExit -> tstep s (set_tpc TUnlockExit (set_active false s))
  | T_unlock : tpc s = TUnlockExit -> tstep s (set_tpc TIdle (set_lk None s))
  | T_clear_re n : tpc s = TClearRecheck n -> tstep s (set_tpc (TUnlockRecheck n) (set_active false s))
  | T_unlock_re n : tpc s = TUnlockRecheck n -> tstep s (set_tpc (TReread n) (set_lk None s))
  | T_reread_no n : tpc s = TReread n -> avail s <= 0 -> tstep s (set_tpc TIdle s)
  | T_reread_yes n : tpc s = TReread n -> 0 < avail s -> tstep s (set_tpc (TRetake n) s)
  | T_retake_no n : tpc s = TRetake n -> active s = true -> tstep s (set_tpc TIdle s)
  | T_retake_yes n : tpc s = TRetake n -> active s = false ->
      tstep s (set_tpc (TLock n) (set_active true s)).

(** fire_tasklet and the softirq *)
Inductive fstep (s : race) : race -> Prop :=
  | F_lose n : firers s = S n -> active s = true -> fstep s (set_firers n s)
  | F_win n : firers s = S n -> active s = false ->
      fstep s (set_launching true (set_active true (set_firers n s)))
  | F_launch : launching s = true -> fstep s (set_pending true (set_launching false s))
  | F_run : pending s = true -> tpc s = TIdle -> fstep s (set_tpc (TLock max_passes) (set_pending false s)).

(** the scheduler, the waiters, the event sources and the attachment code *)
Inductive estep (s : race) : race -> Prop :=
  | E_lower d : 0 <= d -> estep s (set_avail (avail s - d) s)
  | E_raise d : 0 < d ->
      estep s (set_firers (if (avail s <? 1) && (1 <=? avail s + d) then S (firers s) else firers s)
                 (set_avail (avail s + d) s))
  | E_enter t : lk s = None -> estep s (set_lk (Some (HEntered t)) s)
  | E_turnback t : lk s = Some (HEntered t) -> estep s (set_lk None s)
  | E_commit t : lk s = Some (HEntered t) -> avail s <= 0 -> estep s (set_lk (Some (HCommitted t)) s)
  | E_wait t : lk s = Some (HCommitted t) -> lockp s = local ->
      estep s (set_lk None (set_asleep (asleep s ∪ {[t]}) (set_queue (queue s ++ [(t, true)]) s)))
  | E_request t : lk s = Some (HCommitted t) -> lockp s <> local ->
      estep s (set_lk (Some (HEntered t)) (set_action CMGROUP_ACTION_RESET_WAKEONE s))
  | E_neutral t : lk s = Some (HEntered t) -> lockp s <> local ->
      estep s (set_action CMGROUP_ACTION_NEUTRAL s)
  | E_sleep t : lk s = Some (HEntered t) -> lockp s <> local ->
      estep s (set_asleep (asleep s ∪ {[t]}) (set_queue ((t, false) :: queue s) s))
  | E_wake t : lk s = Some (HEntered t) -> lockp s <> local -> estep s (wake_first s)
  | E_leave t : lk s = None -> t ∉ asleep s -> estep s (set_queue (remove_entry t (queue s)) s)
  | E_rouse t : estep s (set_asleep (asleep s ∖ {[t]}) s)
  | E_attach : mpc s = MIdle -> estep s (set_mpc MSpin s)
  | E_lockout : mpc s = MSpin -> active s = false -> estep s (set_mpc MBarrier (set_active true s))
  | E_barrier : mpc s = MBarrier -> lk s = None -> estep s (set_mpc MSwitch s)
  | E_switch p q : mpc s = MSwitch -> (lk s = None \/ lk s = Some HTasklet) ->
      (lockp s = local -> queue s = []) ->
      (if (p =? local)%nat then q = [] else Forall (fun e => snd e = false) q) ->
      estep s (set_action (if (p =? local)%nat then CMGROUP_ACTION_WAKEALL else action s)
                 (set_queue q (set_lockp p s)))
  | E_unlockout : mpc s = MSwitch -> estep s (set_mpc MFire (set_active false s))
  | E_refire : mpc s = MFire -> estep s (set_mpc MIdle (set_firers (S (firers s)) s)).

Inductive step (s s' : race) : Prop :=
  | step_tasklet : tstep s s' -> step s s'
  | step_fire : fstep s s' -> step s s'
  | step_env : estep s s' -> step s s'.

(** a new group *)
Definition init (n : Z) : race :=
  RaceState n false CMGROUP_ACTION_WAKEALL local local None 0 false false TIdle MIdle [] ∅.

Inductive reach (n : Z) : race -> Prop :=
  | reach_init : reach n (init n)
  | reach_next s s' : reach n s -> step s s' -> reach n s'.

(** ** Invariants *)

Definition in_lock (p : tasklet_pc) : bool :=
  match p with
  | TIdle | TLock _ | TReread _ | TRetake _ => false
  | _ => true
  end.

(** the tasklet owns [tasklet_active] *)
Definition t_owns (p : tasklet_pc) : bool :=
  match p with
  | TIdle | TUnlockExit | TUnlockRecheck _ | TReread _ | TRetake _ => false
  | _ => true
  end.

Definition m_owns (p : mutator_pc) : bool :=
  match p with MBarrier | MSwitch => true | _ => false end.

(** somebody will look at the group again before coming to rest *)
Definition t_armed (p : tasklet_pc) : bool :=
  match p with TIdle | TClearExit | TUnlockExit => false | _ => true end.

Definition armed (s : race) : Prop :=
  (0 < firers s)%nat \/ launching s = true \/ pending s = true \/
  t_armed (tpc s) = true \/ m_owns (mpc s) = true \/ mpc s = MFire.

(** a task asleep until an opening appears, a wake-up requested for the next
    opening, or a task that found no opening and is about to do either *)
Definition wanted (s : race) : Prop :=
  (exists t, (t, true) ∈ queue s /\ t ∈ asleep s) \/
  action s = CMGROUP_ACTION_RESET_WAKEONE \/
  (exists t, lk s = Some (HCommitted t)).

Definition in_wakeall (p : tasklet_pc) : bool :=
  match p with TQueue _ | TAvailAll _ | TWakeAll _ => true | _ => false end.

Definition in_wakeone (p : tasklet_pc) : bool :=
  match p with TAvailOne _ | TWakeOne => true | _ => false end.

Record rinv (s : race) : Prop := RInv {
  ri_owner : (b2z (launching s) + b2z (pending s) + b2z (t_owns (tpc s)) + b2z (m_owns (mpc s)))
             = b2z (active s);
  ri_lock : lk s = Some HTasklet <-> in_lock (tpc s) = true;
  ri_taken : in_lock (tpc s) = true -> taken s = lockp s;
  ri_out : mpc s = MSwitch -> in_lock (tpc s) = false;
  ri_kind : Forall (fun e => snd e = (lockp s =? local)%nat) (queue s);
  ri_local : lockp s = local -> action s = CMGROUP_ACTION_WAKEALL;
  ri_wakeall : in_wakeall (tpc s) = true -> action s = CMGROUP_ACTION_WAKEALL;
  ri_wakeone : in_wakeone (tpc s) = true -> action s = CMGROUP_ACTION_RESET_WAKEONE;
  ri_rest : tpc s = TClearExit -> ~ wanted s;
  ri_armed : wanted s -> 1 <= avail s -> armed s
}.

(** ** The queue *)

Lemma first_asleep_some q a t b :
  first_asleep q a = Some (t, b) -> (t, b) ∈ q /\ t ∈ a.
Proof.
  unfold first_asleep. destruct (list_find _ q) as [[i e]|] eqn:E; simpl; [|done].
  intros [= ->]. apply list_find_Some in E as (Hi & Ha & _). split; [by eapply list_elem_of_lookup_2|done].
Qed.

Lemma first_asleep_none q a t b : first_asleep q a = None -> (t, b) ∈ q -> t ∉ a.
Proof.
  unfold first_asleep. destruct (list_find _ q) as [[i e]|] eqn:E; simpl; [done|].
  intros _ Hin Ht. apply list_find_None in E. rewrite Forall_forall in E. by apply (E _ Hin).
Qed.

(** a wake-up adds neither entries nor sleepers, and touches nothing else *)
Lemma wake_first_frame s : exists q a, wake_first s = set_asleep a (set_queue q s) /\
  (forall e, e ∈ q -> e ∈ queue s) /\ a ⊆ asleep s.
Proof.
  unfold wake_first. destruct (first_asleep _ _) as [[t []]|].
  - eexists _, _. split; [done|]. split; [|set_solver].
    intros e. unfold remove_entry. by intros [_ He]%list_elem_of_filter.
  - exists (queue s), (asleep s ∖ {[t]}). split; [by destruct s|]. set_solver.
  - exists (queue s), (asleep s). split; [by destruct s|done].
Qed.

(** entries that wait for an opening are on the local queue only *)
Lemma no_cm_entries s t : rinv s -> lockp s <> local -> (t, true) ∉ queue s.
Proof.
  intros Hi Hl Hin. pose proof (ri_kind _ Hi) as Hk. rewrite Forall_forall in Hk.
  specialize (Hk _ Hin). simpl in Hk. symmetry in Hk. by apply Nat.eqb_eq in Hk.
Qed.

(** with the lock in the tasklet's hands and no request, nobody wants a wake-up
    unless a task sleeps on the local queue *)
Lemma locked_wanted s :
  rinv s -> lk s = Some HTasklet -> action s <> CMGROUP_ACTION_RESET_WAKEONE -> wanted s ->
  exists t, (t, true) ∈ queue s /\ t ∈ asleep s.
Proof. intros Hi Hl Ha [H|[H|[t H]]]; [done|done|congruence]. Qed.

(** ** Preservation *)

(** the goals that follow from the invariant before the step *)
Ltac rsolve :=
  simpl; try assumption; try (intros; discriminate); try (intros; congruence).

(** equations between indicators *)
Ltac owners :=
  repeat match goal with
  | |- context [b2z ?b] => is_var b; destruct b
  | H : context [b2z ?b] |- _ => is_var b; destruct b
  | |- context [b2z (?f ?x)] => destruct (f x)
  | H : context [b2z (?f ?x)] |- _ => destruct (f x)
  end; simpl in *; lia.

Lemma owner_active s : rinv s -> active s = true ->
  launching s = true \/ pending s = true \/ t_owns (tpc s) = true \/ m_owns (mpc s) = true.
Proof.
  intros Hi Ha. pose proof (ri_owner _ Hi) as Ho. rewrite Ha in Ho.
  destruct (launching s), (pending s), (t_owns (tpc s)), (m_owns (mpc s)); simpl in Ho; auto; lia.
Qed.

Lemma fstep_inv s s' : rinv s -> fstep s s' -> rinv s'.
Proof.
  intros Hi Hst. pose proof Hi as []. destruct Hst as [n Hf Ha|n Hf Ha|Hl|Hp Ht].
  - split; rsolve. intros Hw Hav. unfold armed; simpl.
    destruct (owner_active s Hi Ha) as [?|[?|[Ho|?]]]; auto 7.
    destruct (t_armed (tpc s)) eqn:Et; [auto 7|]. destruct (tpc s) eqn:Ep; try done.
    by destruct (ri_rest0 eq_refl).
  - split; rsolve; [|intros _ _; unfold armed; simpl; auto].
    rewrite Ha in ri_owner0. owners.
  - split; rsolve; [|intros _ _; unfold armed; simpl; auto].
    rewrite Hl in ri_owner0. owners.
  - rewrite Ht in *. split; rsolve; [|intros _ _; unfold armed; simpl; auto 7].
    rewrite Hp in ri_owner0. simpl in *. owners.
Qed.

(** a step of the tasklet that keeps the lock, the queue and the request *)
Lemma tstep_keep s p :
  rinv s -> in_lock p = in_lock (tpc s) -> t_owns p = t_owns (tpc s) ->
  (in_wakeall p = true -> action s = CMGROUP_ACTION_WAKEALL) ->
  (in_wakeone p = true -> action s = CMGROUP_ACTION_RESET_WAKEONE) ->
  (p = TClearExit -> ~ wanted s) ->
  (t_armed p = true \/ ~ wanted s \/ avail s <= 0 \/ (active s = true /\ t_owns p = false)) ->
  rinv (set_tpc p s).
Proof.
  intros Hi Hl Ho H1 H2 H3 H4. pose proof Hi as []. split; rsolve; try (rewrite ?Hl, ?Ho; assumption).
  intros Hw Hav. change (wanted s) in Hw. destruct H4 as [?|[?|[?|[Ha Hno]]]]; [|done|lia|].
  - unfold armed; simpl. auto 7.
  - unfold armed; simpl. destruct (owner_active s Hi Ha) as [?|[?|[?|?]]]; auto 7. congruence.
Qed.

Lemma wanted_none s :
  lk s = Some HTasklet -> action s <> CMGROUP_ACTION_RESET_WAKEONE ->
  (forall t, (t, true) ∈ queue s -> t ∉ asleep s) -> ~ wanted s.
Proof. intros Hl Ha Hq [(t & Hin & Ht)|[H|[t H]]]; [by eapply Hq|done|congruence]. Qed.

(** what a wake-up leaves to do *)
Lemma wake_first_wanted s : wanted (wake_first s) -> wanted s.
Proof.
  destruct (wake_first_frame s) as (q & a & -> & Hq & Ha). intros [(t & Hin & Ht)|[H|[t H]]]; simpl in *.
  - left. exists t. split; [by apply Hq|set_solver].
  - by right; left.
  - right; right. by exists t.
Qed.

Lemma wake_first_inv s : rinv s -> rinv (wake_first s).
Proof.
  intros Hi. pose proof (wake_first_wanted s) as Hw. revert Hw.
  destruct (wake_first_frame s) as (q & a & -> & Hq & Ha). intros Hw. pose proof Hi as []. split; rsolve.
  - rewrite Forall_forall in *. intros e He. apply ri_kind0, Hq, He.
  - intros Hc Hwt. by apply ri_rest0, Hw.
  - intros Hwt Hav. apply (ri_armed0 (Hw Hwt) Hav).
Qed.

Lemma wake_first_same s :
  tpc (wake_first s) = tpc s /\ lk (wake_first s) = lk s /\ action (wake_first s) = action s /\
  avail (wake_first s) = avail s /\ lockp (wake_first s) = lockp s.
Proof. by destruct (wake_first_frame s) as (q & a & -> & _). Qed.

(** nobody sleeps on the queue after a wake-up that found nobody to count *)
Lemma uncounted_rest s t : rinv s -> counted s = false -> (t, true) ∈ queue (wake_first s) -> t ∉ asleep (wake_first s).
Proof.
  intros Hi. unfold counted, wake_first. destruct (first_asleep _ _) as [[u []]|] eqn:E; [done|..]; simpl; intros _ Hin.
  - apply first_asleep_some in E as [Hu _]. pose proof (ri_kind _ Hi) as Hk. rewrite Forall_forall in Hk.
    pose proof (Hk _ Hin). pose proof (Hk _ Hu). simpl in *. congruence.
  - by eapply first_asleep_none.
Qed.

Lemma tstep_inv s s' : rinv s -> tstep s s' -> rinv s'.
Proof.
  intros Hi Hst. pose proof Hi as [Ho Hlk Htk Hout Hk Hloc Hall Hone Hrest Harm].
  assert (Hheld : in_lock (tpc s) = true -> lk s = Some HTasklet) by apply Hlk.
  destruct Hst as [n Ht Hl|n Ht Ha|n Ht Ha|n Ht Ha|n Ht Ha|n Ht Ha|Ht|n Ht Hq|Ht Hq|n Ht Hq|n Ht Ha|n Ht Ha
                  |n Ht|Ht|Ht|n Ht|n Ht|n Ht Ha|n Ht Ha|n Ht Ha|n Ht Ha]; rewrite Ht in *; simpl in *.
  - (* lock *) split; rsolve; try done; [|intros Hw Hav; unfold armed; simpl; auto 7].
    intros Hm. specialize (Hout Hm). rewrite Hm in Ho. simpl in Ho. owners.
  - (* neutral *)
    assert (Hn : ~ wanted s).
    { apply wanted_none; [by apply Hheld|congruence|]. intros t Hin _.
      apply (no_cm_entries s t Hi); [|done]. intros El. apply Hloc in El. congruence. }
    apply (tstep_keep s); rewrite ?Ht; try done. by right; left.
  - apply (tstep_keep s); rewrite ?Ht; try done. by left.
  - apply (tstep_keep s); rewrite ?Ht; try done. by left.
  - apply (tstep_keep s); rewrite ?Ht; try done. by left.
  - apply (tstep_keep s); rewrite ?Ht; try done. by left.
  - (* wake one *)
    set (s1 := set_action CMGROUP_ACTION_NEUTRAL s).
    assert (Hne : lockp s <> local) by (intros El; apply Hloc in El; rewrite (Hone eq_refl) in El; done).
    assert (Hn : ~ wanted (wake_first s1)).
    { destruct (wake_first_same s1) as (E1 & E2 & E3 & E4 & E5).
      destruct (wake_first_frame s1) as (q & a & E & Hq & _).
      apply wanted_none; [rewrite E2; by apply Hheld|by rewrite E3|].
      intros t Hin _. rewrite E in Hin. by apply (no_cm_entries s t Hi Hne), Hq. }
    destruct (wake_first_frame s1) as (q & a & E & Hq & _). rewrite E in Hn |- *.
    split; rsolve; try done.
    rewrite Forall_forall in *. intros e He. by apply Hk, Hq.
  - (* empty *)
    assert (Hn : ~ wanted s).
    { apply wanted_none; [by apply Hheld|by rewrite (Hall eq_refl)|].
      rewrite Hq. intros t Hin. by apply not_elem_of_nil in Hin. }
    apply (tstep_keep s); rewrite ?Ht; try done. by right; left.
  - (* resched *) split; rsolve; try (by rewrite ?Ht); [owners|intros _ _; unfold armed; simpl; auto].
  - apply (tstep_keep s); rewrite ?Ht; try done. by left.
  - apply (tstep_keep s); rewrite ?Ht; try done. by left.
  - apply (tstep_keep s); rewrite ?Ht; try done. by left.
  - (* wake all *)
    pose proof (wake_first_inv s Hi) as Hi1. destruct (wake_first_same s) as (E1 & E2 & E3 & E4 & E5).
    apply (tstep_keep (wake_first s)); rewrite ?E1, ?Ht, ?E3; try (by destruct (counted s)).
    + intros Hp. destruct (counted s) eqn:Ec; [done|].
      apply wanted_none; [rewrite E2; by apply Hheld|rewrite E3, (Hall eq_refl); done|].
      intros t. by apply uncounted_rest.
    + destruct (counted s) eqn:Ec; [by left|right; left].
      apply wanted_none; [rewrite E2; by apply Hheld|rewrite E3, (Hall eq_refl); done|].
      intros t. by apply uncounted_rest.
  - (* clear *) split; rsolve; try (by rewrite ?Ht); [owners|].
    intros Hw. by destruct (Hrest eq_refl).
  - (* unlock *) split; rsolve; try done. intros Hw Hav.
    assert (Hws : wanted s) by (destruct Hw as [H|[H|[t H]]]; [by left|by right; left|done]).
    destruct (Harm Hws Hav) as [?|[?|[?|[H|?]]]]; unfold armed; simpl; auto 7. by rewrite Ht in H.
  - (* clear, recheck *) split; rsolve; try (by rewrite ?Ht); [owners|intros _ _; unfold armed; simpl; auto 7].
  - (* unlock, recheck *) split; rsolve; try done. intros _ _. unfold armed; simpl. auto 7.
  - (* reread no *) apply (tstep_keep s); rewrite ?Ht; try done. by right; right; left.
  - apply (tstep_keep s); rewrite ?Ht; try done. by left.
  - apply (tstep_keep s); rewrite ?Ht; try done. by right; right; right.
  - (* retake *) split; rsolve; try done; [|intros _ _; unfold armed; simpl; auto 7].
    rewrite Ha in Ho. owners.
Qed.

(** a change of the lock's holder among the tasks, or of what a task asks for *)
Lemma task_step s s' :
  rinv s -> avail s' = avail s -> active s' = active s -> lockp s' = lockp s -> taken s' = taken s ->
  firers s' = firers s -> launching s' = launching s -> pending s' = pending s -> tpc s' = tpc s ->
  mpc s' = mpc s -> lk s <> Some HTasklet -> lk s' <> Some HTasklet ->
  (lockp s = local -> action s' = action s) ->
  Forall (fun e => snd e = (lockp s =? local)%nat) (queue s') ->
  (wanted s' -> wanted s \/ avail s <= 0) -> rinv s'.
Proof.
  intros Hi Ea Eac Elp Etk Ef El Ep Et Em Hl Hl' Hact Hk' Hw. pose proof Hi as [].
  assert (Hno : in_lock (tpc s) = false).
  { destruct (in_lock (tpc s)) eqn:E; [|done]. exfalso. by apply Hl, ri_lock0. }
  split; rewrite ?Eac, ?Elp, ?Etk, ?El, ?Ep, ?Et, ?Em; try assumption.
  - split; [done|congruence].
  - intros Hloc. rewrite (Hact Hloc). by apply ri_local0.
  - destruct (tpc s); done.
  - destruct (tpc s); done.
  - intros H. rewrite H in Hno. done.
  - rewrite Ea. intros Hw' Hav. unfold armed. rewrite Ef, El, Ep, Et, Em.
    destruct (Hw Hw') as [Hws|]; [|lia]. by apply ri_armed0.
Qed.

Lemma wanted_lk s h : (forall t, h <> Some (HCommitted t)) -> wanted (set_lk h s) -> wanted s.
Proof. intros Hh [H|[H|[t H]]]; [by left|by right; left|]. by apply Hh in H. Qed.

Lemma estep_inv s s' : rinv s -> estep s s' -> rinv s'.
Proof.
  intros Hi Hst. pose proof Hi as [Ho Hlk Htk Hout Hk Hloc Hall Hone Hrest Harm].
  destruct Hst as [d Hd|d Hd|t Hl|t Hl|t Hl Ha|t Hl Hp|t Hl Hp|t Hl Hp|t Hl Hp|t Hl Hp|t Hl Hns|t|Hm|Hm Ha|Hm Hl
                  |p q Hm Hl Hold Hnew|Hm|Hm].
  - (* lower *) split; rsolve. intros Hw Hav. apply (Harm Hw). lia.
  - (* raise *) split; rsolve. intros Hw Hav. change (wanted s) in Hw. unfold armed; simpl.
    destruct (avail s <? 1) eqn:E1; zbool.
    + replace (1 <=? avail s + d) with true by (symmetry; apply Z.leb_le; lia). simpl. left; lia.
    + destruct (Harm Hw E1) as [?|H]; simpl; [left; lia|right; exact H].
  - (* enter *) apply (task_step s); try done; [by rewrite Hl|]. intros Hw. left. by apply (wanted_lk s (Some (HEntered t))).
  - (* turn back *) apply (task_step s); try done; [by rewrite Hl|]. intros Hw. left. by apply (wanted_lk s None).
  - (* commit *) apply (task_step s); try done; [by rewrite Hl|]. by right.
  - (* wait *) apply (task_step s); try done; [by rewrite Hl| |].
    + simpl. apply Forall_app_2; [done|]. apply Forall_singleton. by rewrite Hp.
    + intros _. left. right; right. by exists t.
  - (* request *) apply (task_step s); try done; [by rewrite Hl|].
    intros _. left. right; right. by exists t.
  - (* neutral *) apply (task_step s); try done; [simpl; by rewrite Hl..|].
    intros [H|[H|H]]; [left; by left|done|left; by right; right].
  - (* sleep *) apply (task_step s); try done; [simpl; by rewrite Hl..| |].
    + simpl. apply Forall_cons. split; [|done]. symmetry. by apply Nat.eqb_neq.
    + intros [(u & Hin & _)|[H|H]]; [|left; by right; left|left; by right; right].
      simpl in Hin. apply elem_of_cons in Hin as [[= ]|Hin]. by destruct (no_cm_entries s u Hi Hp).
  - (* wake *) by apply wake_first_inv.
  - (* leave *) apply (task_step s); try done; [simpl; by rewrite Hl..| |].
    + simpl. rewrite Forall_forall in *. intros e [_ He]%list_elem_of_filter. by apply Hk.
    + intros [(u & Hin & Hu)|[H|H]]; left; [left|by right; left|by right; right].
      simpl in Hin. apply list_elem_of_filter in Hin as [_ Hin]. by exists u.
  - (* rouse *)
    assert (Hw : wanted (set_asleep (asleep s ∖ {[t]}) s) -> wanted s).
    { intros [(u & Hin & Hu)|[H|H]]; [left|by right; left|by right; right].
      exists u. simpl in *. split; [done|set_solver]. }
    split; rsolve; [intros H Hwt; by apply (Hrest H), Hw|].
    intros Hwt Hav. apply (Harm (Hw Hwt) Hav).
  - (* attach *) rewrite Hm in *. split; rsolve. intros Hw Hav.
    destruct (Harm Hw Hav) as [?|[?|[?|[?|[H|H]]]]]; unfold armed; simpl; auto 7; by rewrite Hm in H.
  - (* lock out *) rewrite Hm in *. split; rsolve; [rewrite Ha in Ho; simpl in *; owners|].
    intros _ _. unfold armed; simpl. auto 7.
  - (* barrier *) rewrite Hm in *. split; rsolve.
    + intros _. destruct (in_lock (tpc s)) eqn:E; [|done]. rewrite (proj2 Hlk eq_refl) in Hl. done.
    + intros _ _. unfold armed; simpl. auto 7.
  - (* switch *) specialize (Hout Hm). split; rsolve.
    + destruct (p =? local)%nat; [by subst|done].
    + intros ->. done.
    + destruct (tpc s); done.
    + destruct (tpc s); done.
    + intros H. rewrite H in Hout. done.
    + intros _ _. unfold armed; simpl. rewrite Hm. auto 7.
  - (* unlock out *) rewrite Hm in *. split; rsolve; [simpl in *; owners|].
    intros _ _. unfold armed; simpl. auto 7.
  - (* fire *) rewrite Hm in *. split; rsolve. intros _ _. unfold armed; simpl. left; lia.
Qed.

Lemma reach_inv n s : reach n s -> rinv s.
Proof.
  induction 1 as [|s s' _ IH [Hs|Hs|Hs]].
  - split; simpl; try done.
    intros [(t & Hin & _)|[H|[t H]]]; try done. by apply not_elem_of_nil in Hin.
  - by eapply tstep_inv.
  - by eapply fstep_inv.
  - by eapply estep_inv.
Qed.

(** ** The properties *)

(** C2: no wake-up is lost, in any interleaving of the accounting, the firing
    of the tasklet, the tasklet itself, the waiters, the event sources and the
    attachment code: whenever a task sleeps until an opening appears, or a
    wake-up is requested for the next opening, or a task has found no opening
    under the lock and is about to do either, and there is an opening, then the
    tasklet is scheduled, about to be, or running with another look at the
    group still before it; so once all of them have come to rest, nobody waits
    while there is an opening. *)
Theorem no_lost_wakeup (n : Z) (s : race) :
  reach n s ->
  (wanted s -> 1 <= avail s -> armed s) /\
  (firers s = 0%nat -> launching s = false -> pending s = false -> tpc s = TIdle -> mpc s = MIdle ->
   1 <= avail s -> ~ wanted s).
Proof.
  intros Hr. pose proof (reach_inv n s Hr) as Hi. split; [apply Hi|].
  intros Hf Hl Hp Ht Hm Hav Hw. destruct (ri_armed _ Hi Hw Hav) as [?|[?|[?|[H|[H|H]]]]];
    rewrite ?Ht, ?Hm in *; (lia || congruence || done).
Qed.

(** [tasklet_active] has exactly one owner while it is set and none while
    it is clear: the CPU that fires the tasklet, the scheduled tasklet, the
    running tasklet or the attachment code; so a tasklet is never scheduled
    twice and never runs its body while the attachment code holds it off. *)
Theorem active_one_owner (n : Z) (s : race) :
  reach n s ->
  b2z (launching s) + b2z (pending s) + b2z (t_owns (tpc s)) + b2z (m_owns (mpc s)) = b2z (active s).
Proof. intros Hr. apply (ri_owner _ (reach_inv n s Hr)). Qed.

(** the lock the tasklet releases is the lock it took: while the tasklet is
    inside its critical section the lock pointer does not change, even though
    the tasklet clears [tasklet_active] before it unlocks; the attachment code
    that changes the pointer has waited for the unlock. *)
Theorem lock_pointer_stable (n : Z) (s s' : race) :
  reach n s -> step s s' -> in_lock (tpc s) = true ->
  taken s = lockp s /\ lockp s' = lockp s /\ lk s = Some HTasklet.
Proof.
  intros Hr Hst Hl. pose proof (reach_inv n s Hr) as [Ho Hlk Htk Hout _ _ _ _ _ _].
  split_and!; [by apply Htk| |by apply Hlk].
  destruct Hst as [Hs|Hs|Hs]; destruct Hs; try done.
  - by destruct (wake_first_same (set_action CMGROUP_ACTION_NEUTRAL s)) as (_ & _ & _ & _ & E).
  - by destruct (wake_first_same s) as (_ & _ & _ & _ & E).
  - by destruct (wake_first_same s) as (_ & _ & _ & _ & E).
  - rewrite (Hout H) in Hl. done.
Qed.

(** a run: a waiter goes to sleep in a full group, then an opening appears *)
Definition went_to_sleep : race :=
  RaceState 0 false CMGROUP_ACTION_WAKEALL local local None 0 false false TIdle MIdle [(5%nat, true)]
    (∅ ∪ {[ 5%nat ]}).
Definition one_sleeper : race := set_firers 1 (set_avail 1 went_to_sleep).

Lemma one_sleeper_reach : reach 0 one_sleeper.
Proof.
  apply (reach_next 0 went_to_sleep).
  - eapply reach_next; [eapply reach_next; [eapply reach_next; [apply reach_init|]|]|].
    + apply step_env, (E_enter _ 5%nat). reflexivity.
    + apply step_env, (E_commit _ 5%nat); done.
    + exact (step_env _ _ (E_wait (set_lk (Some (HCommitted 5)) (set_lk (Some (HEntered 5)) (init 0)))
               5%nat eq_refl eq_refl)).
  - exact (step_env _ _ (E_raise went_to_sleep 1 eq_refl)).
Defined.

Lemma no_lost_wakeup_witness : wanted one_sleeper /\ 1 <= avail one_sleeper /\ armed one_sleeper.
Proof.
  assert (Hw : wanted one_sleeper) by (left; exists 5%nat; simpl; split; set_solver).
  split_and!; [exact Hw|done|]. apply (no_lost_wakeup 0 one_sleeper one_sleeper_reach); [exact Hw|done].
Defined.

Lemma active_one_owner_witness :
  b2z (launching one_sleeper) + b2z (pending one_sleeper) + b2z (t_owns (tpc one_sleeper))
    + b2z (m_owns (mpc one_sleeper)) = b2z (active one_sleeper).
Proof. apply (active_one_owner 0 one_sleeper one_sleeper_reach). Defined.

(** the tasklet of that run, inside its critical section *)
Definition started : race :=
  set_tpc (TLock max_passes) (set_pending false
    (set_pending true (set_launching false (set_launching true (set_active true (set_firers 0 one_sleeper)))))).
Definition in_section : race :=
  set_tpc (TAction max_passes) (set_taken local (set_lk (Some HTasklet) started)).

Lemma in_section_reach : reach 0 in_section.
Proof.
  apply (reach_next 0 started).
  - eapply reach_next; [eapply reach_next; [eapply reach_next; [apply one_sleeper_reach|]|]|].
    + apply step_fire, (F_win _ 0); done.
    + apply step_fire, F_launch. done.
    + apply step_fire, F_run; done.
  - exact (step_tasklet _ _ (T_lock started max_passes eq_refl eq_refl)).
Defined.

Lemma lock_pointer_stable_witness :
  exists s', step in_section s' /\ taken in_section = lockp in_section /\ lockp s' = lockp in_section.
Proof.
  eexists. assert (Hs : step in_section (set_tpc (TQueue max_passes) in_section))
    by (apply step_tasklet, (T_wakeall _ max_passes); done).
  split; [exact Hs|].
  destruct (lock_pointer_stable 0 in_section _ in_section_reach Hs) as (H1 & H2 & _); [done|]. by split.
Defined.
End Race.
