(* ===== verification/EpTree.v ===== *)
(** * The tree of watched descriptors (fs/eventpoll.c)

    An eventpoll keeps its items in a red-black tree ordered by file address
    and descriptor.  The comparison, the search and the insertion walk are
    eventpoll.c's; the rebalancing (lib/rbtree.c, not part of this tree) is
    the interface [RbLib], of which only the in-order traversal matters. *)

From S2P Require Import Prelude.
Local Open Scope Z_scope.

(** ** Keys *)

(** struct epoll_filefd; [ffd_file] is the address of the struct file *)
Record epoll_filefd := Filefd { ffd_file : nat; ffd_fd : Z }.

#[export] Instance epoll_filefd_eq_dec : EqDecision epoll_filefd.
Proof. solve_decision. Defined.

Definition ep_cmp_ffd (p1 p2 : epoll_filefd) : Z :=
  if decide (ffd_file p2 < ffd_file p1)%nat then 1
  else if decide (ffd_file p1 < ffd_file p2)%nat then -1
  else s32 (ffd_fd p1 - ffd_fd p2).

(** what fdget() accepts *)
Definition ffd_ok (p : epoll_filefd) : Prop := 0 <= ffd_fd p < 2 ^ 31.

Definition ffd_lt (p1 p2 : epoll_filefd) : Prop :=
  (ffd_file p1 < ffd_file p2)%nat \/ (ffd_file p1 = ffd_file p2 /\ ffd_fd p1 < ffd_fd p2).

Lemma ep_cmp_lt p1 p2 : ffd_ok p1 -> ffd_ok p2 -> ep_cmp_ffd p1 p2 < 0 <-> ffd_lt p1 p2.
Proof.
  unfold ffd_ok, ep_cmp_ffd, ffd_lt. intros H1 H2. rewrite s32_id by lia.
  repeat case_decide; lia.
Qed.

Lemma ep_cmp_gt p1 p2 : ffd_ok p1 -> ffd_ok p2 -> 0 < ep_cmp_ffd p1 p2 <-> ffd_lt p2 p1.
Proof.
  unfold ffd_ok, ep_cmp_ffd, ffd_lt. intros H1 H2. rewrite s32_id by lia.
  repeat case_decide; lia.
Qed.

#[export] Instance ffd_lt_trans : Transitive ffd_lt.
Proof. unfold ffd_lt. intros [? ?] [? ?] [? ?]; simpl; lia. Qed.

Lemma ffd_lt_irrefl p : ~ ffd_lt p p.
Proof. unfold ffd_lt. lia. Qed.

Lemma ffd_eq_or_lt p1 p2 : p1 = p2 \/ ffd_lt p1 p2 \/ ffd_lt p2 p1.
Proof.
  destruct p1 as [f1 d1], p2 as [f2 d2]. unfold ffd_lt; simpl.
  destruct (decide (f1 = f2 /\ d1 = d2)) as [[-> ->]|]; [by left|right; lia].
Qed.

Lemma ep_cmp_eq p1 p2 : ffd_ok p1 -> ffd_ok p2 ->
  (0 <? ep_cmp_ffd p1 p2) = false -> (ep_cmp_ffd p1 p2 <? 0) = false -> p1 = p2.
Proof.
  intros H1 H2 G L. zbool. destruct (ffd_eq_or_lt p1 p2) as [?|[H|H]]; [done| |].
  - apply ep_cmp_lt in H; [lia|done..].
  - apply ep_cmp_gt in H; [lia|done..].
Qed.

(** ** Trees *)

Inductive rbtree (A : Type) :=
  | rb_null
  | rb_node (rb_left : rbtree A) (x : A) (rb_right : rbtree A).
Arguments rb_null {A}.
Arguments rb_node {A} rb_left x rb_right.

(** the sequence rb_first(), rb_next(), ... *)
Fixpoint inorder {A} (t : rbtree A) : list A :=
  match t with
  | rb_null => []
  | rb_node l x r => inorder l ++ x :: inorder r
  end.

(** lib/rbtree.c: rebalancing after a node was linked, and erasure; neither
    changes the order of the remaining nodes *)
Class RbLib := {
  rb_insert_color : forall {A : Type}, rbtree A -> rbtree A;
  rb_insert_color_inorder : forall (A : Type) (t : rbtree A),
    inorder (rb_insert_color t) = inorder t;
  rb_erase : forall {A : Type} `{EqDecision A}, A -> rbtree A -> rbtree A;
  rb_erase_inorder : forall (A : Type) `{EqDecision A} (x : A) (t : rbtree A),
    NoDup (inorder t) -> inorder (rb_erase x t) = filter (fun y => y <> x) (inorder t)
}.

(** the walk down a tree of tasks to the place of a new one, [t]; [before u]
    tells whether it belongs before [u], and the flag that the walk only went left *)
Fixpoint rb_walk (before : nat -> option bool) (t : nat) (p : rbtree nat) : option (rbtree nat * bool) :=
  match p with
  | rb_null => Some (rb_node rb_null t rb_null, true)
  | rb_node l u r =>
      b ← before u;
      if (b : bool) then '(l', leftmost) ← rb_walk before t l; Some (rb_node l' u r, leftmost)
      else '(r', _) ← rb_walk before t r; Some (rb_node l u r', false)
  end.

(** the sequence that rb_next() gives from [t] on *)
Fixpoint rb_after (t : nat) (l : list nat) : list nat :=
  match l with [] => [] | u :: l => if decide (u = t) then l else rb_after t l end.
Definition rb_next (t : nat) (p : rbtree nat) : option nat := head (rb_after t (inorder p)).

(** a tree whose only path goes right, to build an instance *)
Fixpoint rb_vine {A} (l : list A) : rbtree A :=
  match l with [] => rb_null | x :: l' => rb_node rb_null x (rb_vine l') end.

Lemma rb_vine_inorder {A} (l : list A) : inorder (rb_vine l) = l.
Proof. induction l as [|x l IH]; simpl; [done|by rewrite IH]. Qed.

Definition rb_plain : RbLib :=
  {| rb_insert_color := fun A t => t;
     rb_insert_color_inorder := fun A t => eq_refl;
     rb_erase := fun A _ x t => rb_vine (filter (fun y => y <> x) (inorder t));
     rb_erase_inorder := fun A _ x t _ => rb_vine_inorder _ |}.

(** ** Trees of tasks with a cached leftmost node *)

Section Walk.
Implicit Types (before : nat -> option bool) (t u : nat) (p : rbtree nat) (l : list nat).

Lemma rb_walk_inorder before t p p' (b : bool) :
  rb_walk before t p = Some (p', b) ->
  exists l1 l2, inorder p = l1 ++ l2 /\ inorder p' = l1 ++ t :: l2 /\ b = bool_decide (l1 = []).
Proof.
  revert p' b. induction p as [|l IHl u r IHr]; intros p' b; cbn [rb_walk].
  { intros [= <- <-]. by exists [], []. }
  destruct (before u) as [[]|]; cbn; [| |done].
  - destruct (rb_walk before t l) as [[l' b']|]; cbn; [|done]. intros [= <- <-].
    destruct (IHl l' b' eq_refl) as (l1 & l2 & E1 & E2 & E3). exists l1, (l2 ++ u :: inorder r).
    cbn. rewrite E1, E2, <- !app_assoc. done.
  - destruct (rb_walk before t r) as [[r' b']|]; cbn; [|done]. intros [= <- <-].
    destruct (IHr r' b' eq_refl) as (l1 & l2 & E1 & E2 & E3). exists (inorder l ++ u :: l1), l2.
    cbn. rewrite E1, E2, <- !app_assoc. split_and!; [done|done|]. symmetry. apply bool_decide_eq_false.
    by destruct (inorder l).
Qed.

Lemma rb_walk_total before t p :
  (forall u, u ∈ inorder p -> is_Some (before u)) -> is_Some (rb_walk before t p).
Proof.
  induction p as [|l IHl u r IHr]; intros H; cbn [rb_walk]; [by eexists|].
  cbn in H. destruct (H u) as [[] ->]; [set_solver| |]; cbn.
  - destruct IHl as [[l' b] ->]; [set_solver|]. by eexists.
  - destruct IHr as [[r' b] ->]; [set_solver|]. by eexists.
Qed.

(** a tree without repetition and its leftmost task *)
Definition tree_ok p (o : option nat) : Prop := NoDup (inorder p) /\ o = head (inorder p).

Context {RB : RbLib}.

Lemma tree_insert before t p p' (b : bool) o :
  tree_ok p o -> t ∉ inorder p -> rb_walk before t p = Some (p', b) ->
  tree_ok (rb_insert_color p') (if b then Some t else o) /\ inorder (rb_insert_color p') ≡ₚ t :: inorder p.
Proof.
  intros [Hn ->] Ht (l1 & l2 & E1 & E2 & ->)%rb_walk_inorder. unfold tree_ok.
  rewrite rb_insert_color_inorder, E2, E1 in *. split; [split|].
  - rewrite <- Permutation_middle. by constructor.
  - by destruct l1.
  - by rewrite <- Permutation_middle.
Qed.

Lemma rb_after_cons t l : rb_after t (t :: l) = l.
Proof. cbn. by rewrite decide_True. Qed.

Lemma rb_after_suffix t l : rb_after t l `suffix_of` l.
Proof.
  induction l as [|u l IH]; cbn; [done|]. case_decide; [by apply suffix_cons_r|by apply suffix_cons_r].
Qed.

Lemma tree_erase t p o :
  tree_ok p o ->
  tree_ok (rb_erase t p) (if bool_decide (o = Some t) then rb_next t p else o) /\
  inorder (rb_erase t p) = filter (fun u => u <> t) (inorder p).
Proof.
  intros [Hn ->]. unfold tree_ok. rewrite rb_erase_inorder by done. split; [|done].
  split; [by apply NoDup_filter|]. unfold rb_next. destruct (inorder p) as [|u l]; cbn; [done|].
  apply NoDup_cons in Hn as [Hu Hn].
  case_bool_decide as E.
  - injection E as ->. rewrite decide_True, decide_False by (done || by intros H; destruct H).
    by rewrite remove_absent.
  - by rewrite decide_True by congruence.
Qed.
End Walk.

(** ** Trees in the order of a key

    The walk compares keys as numbers as long as [before] does. *)

Section Keys.
Variable key : nat -> Z.
Local Open Scope Z_scope.
Implicit Types (l : list nat) (t u : nat).

Definition by_key l : Prop := StronglySorted (fun t u => key t <= key u) l.

(** the reference: [t] goes behind those whose key is not greater than [d] *)
Definition key_insert (t : nat) (d : Z) l : list nat :=
  filter (fun u => key u <= d) l ++ t :: filter (fun u => d < key u) l.

Lemma by_key_app l1 l2 :
  by_key (l1 ++ l2) <-> by_key l1 /\ by_key l2 /\ forall t u, t ∈ l1 -> u ∈ l2 -> key t <= key u.
Proof.
  unfold by_key. induction l1 as [|v l1 IH]; cbn.
  - split; [intros H; split; [constructor|split; [done|by intros t u Ht%elem_of_nil]]|tauto].
  - split.
    + intros [H1 H2]%StronglySorted_inv. apply IH in H1 as (S1 & S2 & H12). rewrite Forall_app, !Forall_forall in H2. destruct H2 as [F1 F2].
      split; [constructor; [done|by apply Forall_forall]|]. split; [done|]. intros t u [->|Ht]%elem_of_cons Hu; auto.
    + intros (S1 & S2 & H12). apply StronglySorted_inv in S1 as [S1 F1]. constructor.
      * apply IH. split_and!; try done. intros t u Ht. apply H12. by right.
      * rewrite Forall_app. split; [done|]. apply Forall_forall. intros u Hu. apply H12; [by left|done].
Qed.

Lemma by_key_cons t l : by_key (t :: l) <-> by_key l /\ forall u, u ∈ l -> key t <= key u.
Proof.
  unfold by_key. split; [intros [H1 H2]%StronglySorted_inv|intros [H1 H2]; constructor; [done|by apply Forall_forall]].
  split; [done|]. by rewrite Forall_forall in H2.
Qed.

Lemma filter_all (P : nat -> Prop) `{forall u, Decision (P u)} l : (forall u, u ∈ l -> P u) -> filter P l = l.
Proof. intros HP. apply list_filter_all. done. Qed.
Lemma filter_none (P : nat -> Prop) `{forall u, Decision (P u)} l : (forall u, u ∈ l -> ~ P u) -> filter P l = [].
Proof.
  induction l as [|u l IH]; [done|]. intros HP. rewrite filter_cons_False by (apply HP; by left). apply IH. intros v Hv. apply HP. by right.
Qed.

Lemma rb_walk_by_key before t d p p' (left : bool) :
  rb_walk before t p = Some (p', left) -> by_key (inorder p) ->
  (forall u b, u ∈ inorder p -> before u = Some b -> b = (d <? key u)) -> inorder p' = key_insert t d (inorder p).
Proof.
  revert p' left. unfold key_insert. induction p as [|l IHl u r IHr]; intros p' left; cbn [rb_walk]; [by intros [= <- <-]|].
  destruct (before u) as [b|] eqn:Eu; [|done]. cbn. intros Hl Hs Hb. apply by_key_app in Hs as (Sl & Sr & Hlr). apply by_key_cons in Sr as [Sr Hur].
  assert (b = (d <? key u)) as -> by (apply Hb; [rewrite elem_of_app; right; by left|done]).
  assert (Bl : forall v b, v ∈ inorder l -> before v = Some b -> b = (d <? key v)) by (intros v b Hv; apply Hb; rewrite elem_of_app; by left).
  assert (Br : forall v b, v ∈ inorder r -> before v = Some b -> b = (d <? key v)) by (intros v b Hv; apply Hb; rewrite elem_of_app; right; by right).
  destruct (Z.ltb_spec d (key u)) as [Hlt|Hge].
  - destruct (rb_walk before t l) as [[l' b]|] eqn:El; [|done]. injection Hl as <- <-. cbn. rewrite (IHl l' b eq_refl Sl Bl).
    rewrite !filter_app, (filter_none (fun v => key v <= d) (u :: inorder r)), (filter_all (fun v => d < key v) (u :: inorder r)).
    + by rewrite app_nil_r, <- app_assoc.
    + intros v [->|Hv]%elem_of_cons; [lia|]. specialize (Hur v Hv). lia.
    + intros v [->|Hv]%elem_of_cons; [lia|]. specialize (Hur v Hv). lia.
  - destruct (rb_walk before t r) as [[r' b]|] eqn:Er; [|done]. injection Hl as <- <-. cbn. rewrite (IHr r' b eq_refl Sr Br).
    rewrite !filter_app, !filter_cons. rewrite (decide_True (P := key u <= d)) by lia. rewrite (decide_False (P := d < key u)) by lia.
    rewrite (filter_all (fun v => key v <= d) (inorder l)), (filter_none (fun v => d < key v) (inorder l)); [by rewrite <- app_assoc| |].
    + intros v Hv. specialize (Hlr v u Hv ltac:(by left)). lia.
    + intros v Hv. specialize (Hlr v u Hv ltac:(by left)). lia.
Qed.

Lemma by_key_filter (P : nat -> Prop) `{forall u, Decision (P u)} l : by_key l -> by_key (filter P l).
Proof.
  induction l as [|u l IH]; [done|]. intros [Hs Hu]%by_key_cons. rewrite filter_cons. case_decide; [|by apply IH].
  apply by_key_cons. split; [by apply IH|]. intros v [_ Hv]%list_elem_of_filter. by apply Hu.
Qed.

Lemma key_insert_sorted t d l : key t = d -> by_key l -> by_key (key_insert t d l).
Proof.
  intros Ht Hs. unfold key_insert. apply by_key_app. split; [by apply by_key_filter|]. split.
  - apply by_key_cons. split; [by apply by_key_filter|]. intros u [Hu _]%list_elem_of_filter. lia.
  - intros v u [Hv _]%list_elem_of_filter [->|Hu]%elem_of_cons; [lia|]. apply list_elem_of_filter in Hu as [Hu _]. lia.
Qed.
End Keys.

Lemma by_key_ext (key key' : nat -> Z) l : (forall u, u ∈ l -> key' u = key u) -> by_key key l -> by_key key' l.
Proof.
  intros He. induction l as [|u l IH]; [intros _; constructor|]. intros [Hs Hu]%by_key_cons. apply by_key_cons. split.
  - apply IH; [|done]. intros v Hv. apply He. by right.
  - intros v Hv. rewrite !He; [by apply Hu|by right|by left].
Qed.

Section Tree.
Context {A : Type} (ffd : A -> epoll_filefd).

(** ep_find(), from the root of the tree *)
Fixpoint ep_find_from (k : epoll_filefd) (rbp : rbtree A) : option A :=
  match rbp with
  | rb_null => None
  | rb_node l epi r =>
      let kcmp := ep_cmp_ffd k (ffd epi) in
      if 0 <? kcmp then ep_find_from k r
      else if kcmp <? 0 then ep_find_from k l
      else Some epi
  end.

(** the walk of ep_rbtree_insert() and rb_link_node() *)
Fixpoint rb_link (epi : A) (p : rbtree A) : rbtree A :=
  match p with
  | rb_null => rb_node rb_null epi rb_null
  | rb_node l epic r =>
      let kcmp := ep_cmp_ffd (ffd epi) (ffd epic) in
      if 0 <? kcmp then rb_node l epic (rb_link epi r)
      else rb_node (rb_link epi l) epic r
  end.

Definition ep_rbtree_insert `{RbLib} (epi : A) (t : rbtree A) : rbtree A :=
  rb_insert_color (rb_link epi t).

(** ** The order of the tree *)

Definition keys_ok (t : rbtree A) : Prop := Forall (fun x => ffd_ok (ffd x)) (inorder t).

Definition bst (t : rbtree A) : Prop :=
  keys_ok t /\ StronglySorted (fun x y => ffd_lt (ffd x) (ffd y)) (inorder t).

Lemma sorted_app l1 (x : A) l2 :
  StronglySorted (fun x y => ffd_lt (ffd x) (ffd y)) (l1 ++ x :: l2) <->
  StronglySorted (fun x y => ffd_lt (ffd x) (ffd y)) l1 /\
  StronglySorted (fun x y => ffd_lt (ffd x) (ffd y)) l2 /\
  Forall (fun y => ffd_lt (ffd y) (ffd x)) l1 /\ Forall (fun y => ffd_lt (ffd x) (ffd y)) l2.
Proof.
  induction l1 as [|a l1 IH]; simpl; split.
  - intros [? ?]%StronglySorted_cons. split_and!; try done; constructor.
  - intros (_ & ? & _ & ?). by constructor.
  - intros [H1 H2]%StronglySorted_cons. apply IH in H2 as (? & ? & ? & ?).
    apply Forall_app in H1 as [? [? ?]%Forall_cons]. split_and!; try done; by constructor.
  - intros ([Ha1 ?]%StronglySorted_cons & ? & [Hax ?]%Forall_cons & Hx). apply StronglySorted_cons.
    split; [|by apply IH]. apply Forall_app. split; [done|]. constructor; [done|].
    eapply Forall_impl; [exact Hx|]. intros y Hy; simpl in *. by transitivity (ffd x).
Qed.

Lemma bst_node l x r :
  bst (rb_node l x r) <->
  bst l /\ bst r /\ ffd_ok (ffd x) /\ Forall (fun y => ffd_lt (ffd y) (ffd x)) (inorder l) /\
  Forall (fun y => ffd_lt (ffd x) (ffd y)) (inorder r).
Proof.
  unfold bst, keys_ok; simpl. rewrite Forall_app, Forall_cons, sorted_app. tauto.
Qed.

Lemma ep_find_from_spec k t :
  bst t -> ffd_ok k -> forall x, ep_find_from k t = Some x <-> x ∈ inorder t /\ ffd x = k.
Proof.
  intros Hb Hk. induction t as [|l IHl y r IHr]; intros x; simpl.
  { split; [done|]. intros [H _]. by apply elem_of_nil in H. }
  apply bst_node in Hb as (Hl & Hr & Hy & Ll & Lr). rewrite Forall_forall in Ll, Lr.
  rewrite elem_of_app, elem_of_cons.
  destruct (0 <? ep_cmp_ffd k (ffd y)) eqn:G; [|destruct (ep_cmp_ffd k (ffd y) <? 0) eqn:L].
  - rewrite (IHr Hr). zbool. apply ep_cmp_gt in G; [|done..]. split; [tauto|].
    intros [[Hx|[->|Hx]] <-]; [|by destruct (ffd_lt_irrefl (ffd y))|done].
    destruct (ffd_lt_irrefl (ffd y)). transitivity (ffd x); auto.
  - rewrite (IHl Hl). zbool. apply ep_cmp_lt in L; [|done..]. split; [tauto|].
    intros [[Hx|[->|Hx]] <-]; [done|by destruct (ffd_lt_irrefl (ffd y))|].
    destruct (ffd_lt_irrefl (ffd y)). transitivity (ffd x); auto.
  - pose proof (ep_cmp_eq k (ffd y) Hk Hy G L) as ->. split; [intros [= ->]; tauto|].
    intros [[Hx|[->|Hx]] E]; [|done|].
    + apply Ll in Hx. rewrite E in Hx. by destruct (ffd_lt_irrefl (ffd y)).
    + apply Lr in Hx. rewrite E in Hx. by destruct (ffd_lt_irrefl (ffd y)).
Qed.

Lemma rb_link_elem epi t x : x ∈ inorder (rb_link epi t) <-> x = epi \/ x ∈ inorder t.
Proof.
  induction t as [|l IHl y r IHr]; simpl; [by rewrite list_elem_of_singleton, elem_of_nil; tauto|].
  destruct (0 <? _); simpl; rewrite !elem_of_app, !elem_of_cons, ?IHl, ?IHr; tauto.
Qed.

Lemma rb_link_bst epi t :
  bst t -> ffd_ok (ffd epi) -> (forall x, x ∈ inorder t -> ffd x <> ffd epi) ->
  bst (rb_link epi t).
Proof.
  intros Hb Hk Hn. induction t as [|l IHl y r IHr]; simpl.
  { apply bst_node. split_and!; simpl; try done; split; constructor. }
  apply bst_node in Hb as (Hl & Hr & Hy & Ll & Lr).
  assert (ffd y <> ffd epi) as Hne by (apply Hn; simpl; rewrite elem_of_app, elem_of_cons; tauto).
  rewrite Forall_forall in Ll, Lr.
  destruct (0 <? _) eqn:G; apply bst_node; split_and!; try done; rewrite ?Forall_forall; try done.
  - apply IHr; [done|]. intros x Hx. apply Hn; simpl. rewrite elem_of_app, elem_of_cons. tauto.
  - zbool. apply ep_cmp_gt in G; [|done..]. intros x [->|Hx]%rb_link_elem; auto.
  - apply IHl; [done|]. intros x Hx. apply Hn; simpl. rewrite elem_of_app, elem_of_cons. tauto.
  - zbool. intros x [->|Hx]%rb_link_elem; [|by auto].
    destruct (ffd_eq_or_lt (ffd epi) (ffd y)) as [?|[?|G']]; [congruence|done|].
    apply ep_cmp_gt in G'; [lia|done..].
Qed.

Lemma bst_inorder t t' : inorder t' = inorder t -> bst t -> bst t'.
Proof. unfold bst, keys_ok. by intros ->. Qed.

Context `{RbLib}.

Lemma ep_rbtree_insert_elem epi t x :
  x ∈ inorder (ep_rbtree_insert epi t) <-> x = epi \/ x ∈ inorder t.
Proof. unfold ep_rbtree_insert. by rewrite rb_insert_color_inorder, rb_link_elem. Qed.

Lemma ep_rbtree_insert_bst epi t :
  bst t -> ffd_ok (ffd epi) -> (forall x, x ∈ inorder t -> ffd x <> ffd epi) ->
  bst (ep_rbtree_insert epi t).
Proof.
  intros. eapply bst_inorder; [apply rb_insert_color_inorder|by apply rb_link_bst].
Qed.

Lemma bst_nodup t : bst t -> NoDup (inorder t).
Proof.
  intros [_ Hs]. induction Hs as [|x l Hs IH Hx]; [constructor|].
  apply NoDup_cons. split; [|done]. intros Hin. rewrite Forall_forall in Hx.
  by destruct (ffd_lt_irrefl (ffd x) (Hx x Hin)).
Qed.

Context `{EqDecision A}.

Lemma rb_erase_elem x t y : bst t -> y ∈ inorder (rb_erase x t) <-> y <> x /\ y ∈ inorder t.
Proof. intros Hb. rewrite rb_erase_inorder by by apply bst_nodup. by rewrite list_elem_of_filter. Qed.

Lemma sorted_filter (P : A -> Prop) `{forall x, Decision (P x)} l :
  StronglySorted (fun x y => ffd_lt (ffd x) (ffd y)) l ->
  StronglySorted (fun x y => ffd_lt (ffd x) (ffd y)) (filter P l).
Proof.
  induction 1 as [|x l Hs IH Hx]; [constructor|]. rewrite filter_cons. case_decide; [|done].
  constructor; [done|]. apply Forall_forall. intros y [_ Hy]%list_elem_of_filter.
  rewrite Forall_forall in Hx. auto.
Qed.

Lemma rb_erase_bst x t : bst t -> bst (rb_erase x t).
Proof.
  intros Hb. pose proof (rb_erase_inorder _ x t (bst_nodup t Hb)) as E.
  destruct Hb as [Hk Hs]. unfold bst, keys_ok. rewrite E. split; [|by apply sorted_filter].
  unfold keys_ok in Hk. rewrite Forall_forall in Hk |- *.
  intros y [_ Hy]%list_elem_of_filter. auto.
Qed.

(** ep_find() after an insertion finds the new item under its key and
    everything else as before. *)
Lemma ep_find_insert epi t k :
  bst t -> ffd_ok (ffd epi) -> ffd_ok k -> ep_find_from (ffd epi) t = None ->
  ep_find_from k (ep_rbtree_insert epi t) =
    if decide (k = ffd epi) then Some epi else ep_find_from k t.
Proof.
  intros Hb He Hk Hn.
  assert (forall x, x ∈ inorder t -> ffd x <> ffd epi) as Hf.
  { intros x Hx E. assert (ep_find_from (ffd epi) t = Some x) by by apply ep_find_from_spec. congruence. }
  pose proof (ep_rbtree_insert_bst epi t Hb He Hf) as Hb'.
  apply option_eq. intros x. rewrite ep_find_from_spec, ep_rbtree_insert_elem by done.
  case_decide as D; [subst k|rewrite ep_find_from_spec by done].
  - split; [|intros [= <-]; tauto]. intros [[->|Hx] E]; [done|]. by destruct (Hf x Hx).
  - split; [|tauto]. intros [[->|Hx] E]; [congruence|done].
Qed.

(** and after an erasure, everything but the item. *)
Lemma ep_find_erase epi t k :
  bst t -> ffd_ok k -> epi ∈ inorder t ->
  ep_find_from k (rb_erase epi t) = if decide (k = ffd epi) then None else ep_find_from k t.
Proof.
  intros Hb Hk Hin. pose proof (rb_erase_bst epi t Hb) as Hb'.
  apply option_eq. intros x. rewrite ep_find_from_spec, rb_erase_elem by done.
  case_decide as D; [subst k|rewrite ep_find_from_spec by done].
  - split; [|done]. intros [[Hne Hx] E]. destruct Hne.
    pose proof (proj2 (ep_find_from_spec _ t Hb Hk x) (conj Hx E)).
    pose proof (proj2 (ep_find_from_spec _ t Hb Hk epi) (conj Hin eq_refl)). congruence.
  - split; [tauto|]. intros [Hx E]. split_and!; [|done|done]. intros ->. congruence.
Qed.
End Tree.

(** the tree of items is a map from (file, descriptor): an item that was
    inserted under a free key is found under this key, all others are found as
    before, and erasing it restores every lookup; the tree stays ordered. *)
Theorem ep_tree_roundtrip {A : Type} `{EqDecision A} `{RbLib} (ffd : A -> epoll_filefd)
    (epi : A) (t : rbtree A) (k : epoll_filefd) :
  bst ffd t -> ffd_ok (ffd epi) -> ffd_ok k -> ep_find_from ffd (ffd epi) t = None ->
  let t' := ep_rbtree_insert ffd epi t in
  bst ffd t' /\ bst ffd (rb_erase epi t') /\
  ep_find_from ffd k t' = (if decide (k = ffd epi) then Some epi else ep_find_from ffd k t) /\
  ep_find_from ffd k (rb_erase epi t') = ep_find_from ffd k t.
Proof.
  intros Hb He Hk Hn t'.
  assert (forall x, x ∈ inorder t -> ffd x <> ffd epi) as Hf.
  { intros x Hx E. assert (ep_find_from ffd (ffd epi) t = Some x) by by apply ep_find_from_spec. congruence. }
  assert (bst ffd t') as Hb' by by apply ep_rbtree_insert_bst.
  split_and!; [done|by apply rb_erase_bst|by apply ep_find_insert|].
  rewrite (ep_find_erase ffd epi t' k Hb' Hk) by (apply ep_rbtree_insert_elem; by left).
  unfold t'. rewrite (ep_find_insert ffd epi t k) by done. case_decide; [by subst|done].
Qed.

Lemma ep_tree_roundtrip_witness :
  ep_find_from id (Filefd 1 2) (ep_rbtree_insert (H := rb_plain) id (Filefd 1 2) (rb_vine [Filefd 1 3])) =
    Some (Filefd 1 2).
Proof.
  destruct (ep_tree_roundtrip (H := rb_plain) id (Filefd 1 2) (rb_vine [Filefd 1 3]) (Filefd 1 2)) as (_ & _ & H & _).
  - split; [|repeat constructor]. repeat constructor; simpl; lia.
  - repeat constructor; simpl; lia.
  - repeat constructor; simpl; lia.
  - reflexivity.
  - exact H.
Defined.
