(* ===== verification/EpState.v ===== *)
(** * The state of epoll (fs/eventpoll.c)

    The structures of eventpoll.c and the primitive operations on them: the
    eventpolls, their items, the wait-queue hooks that items install on the
    files they watch, and the world around them (devices that become ready,
    memory that runs out).  The kernel state of Cmgroup.v is a part of this
    world: it holds the tasks, the files, the wait queues [ep->wq] and the
    groups the eventpolls belong to. *)

From S2P Require Import Prelude Wait Tasklet Cmgroup Sched CmWake EpTree.
Local Open Scope Z_scope.

(** ** Constants *)

Definition POLLIN : Z := 1.
Definition POLLERR : Z := 8.
Definition POLLHUP : Z := 16.
Definition POLLRDNORM : Z := 64.
Definition POLLFREE : Z := 16384.
Definition EPOLLWAKEUP : Z := Z.shiftl 1 29.
Definition EPOLLONESHOT : Z := Z.shiftl 1 30.
Definition EPOLLET : Z := Z.shiftl 1 31.
Definition EP_PRIVATE_BITS : Z := Z.lor EPOLLWAKEUP (Z.lor EPOLLONESHOT EPOLLET).
Definition EP_MAX_NESTS : Z := 4.
Definition EPOLL_CTL_ADD : Z := 1.
Definition EPOLL_CTL_DEL : Z := 2.
Definition EPOLL_CTL_MOD : Z := 3.
Definition EPOLL_CTL_SET_CMGROUP : Z := 4.

(** a mask has a bit in common with another one *)
Definition meets (a b : Z) : bool := negb (Z.land a b =? 0).

(** ** The wakeup sources of the power management core

    drivers/base/power/wakeup.c is not part of the tree; its state and its
    operations (on a pointer that may be NULL) are parameters.  Nothing
    below depends on what they do. *)
Class PmLib := {
  pm_state : Type;
  pm_stay_awake : option nat -> pm_state -> pm_state;
  pm_relax : option nat -> pm_state -> pm_state;
  pm_active : nat -> pm_state -> bool;
  ws_register : pm_state -> option nat * pm_state;
  ws_unregister : option nat -> pm_state -> pm_state
}.

(** the power management of a kernel that never registers a source *)
Definition pm_none : PmLib :=
  {| pm_state := unit;
     pm_stay_awake := fun _ s => s;
     pm_relax := fun _ s => s;
     pm_active := fun _ _ => false;
     ws_register := fun s => (None, s);
     ws_unregister := fun _ s => s |}.

(** ** Structures *)

(** struct eventpoll.  [poll_wait] is the address of the wait queue head,
    [rdllist] the ready list (item addresses), [rbr] the tree of items.
    [ovflist] is [None] for EP_UNACTIVE_PTR and otherwise the chain of items
    linked through [next]; an item's [next] is EP_UNACTIVE_PTR exactly when
    the item is not on the chain.  [txlist] is the list on the stack of the
    scan that holds [mtx]: an item's [rdllink] is on one of the two lists.
    The wait queue [wq] and the [cmgroup] pointer are in the kernel state. *)
Record eventpoll := Eventpoll {
  mtx : bool;
  poll_wait : nat;
  rdllist : list nat;
  txlist : list nat;
  rbr : rbtree nat;
  ovflist : option (list nat);
  ep_ws : option nat;
  ep_user : nat;
  ep_file : option nat;
  visited : bool
}.

Definition set_mtx (x : bool) (r : eventpoll) : eventpoll :=
  Eventpoll x (poll_wait r) (rdllist r) (txlist r) (rbr r) (ovflist r) (ep_ws r) (ep_user r) (ep_file r) (visited r).
Definition set_poll_wait (x : nat) (r : eventpoll) : eventpoll :=
  Eventpoll (mtx r) x (rdllist r) (txlist r) (rbr r) (ovflist r) (ep_ws r) (ep_user r) (ep_file r) (visited r).
Definition set_rdllist (x : list nat) (r : eventpoll) : eventpoll :=
  Eventpoll (mtx r) (poll_wait r) x (txlist r) (rbr r) (ovflist r) (ep_ws r) (ep_user r) (ep_file r) (visited r).
Definition set_txlist (x : list nat) (r : eventpoll) : eventpoll :=
  Eventpoll (mtx r) (poll_wait r) (rdllist r) x (rbr r) (ovflist r) (ep_ws r) (ep_user r) (ep_file r) (visited r).
Definition set_rbr (x : rbtree nat) (r : eventpoll) : eventpoll :=
  Eventpoll (mtx r) (poll_wait r) (rdllist r) (txlist r) x (ovflist r) (ep_ws r) (ep_user r) (ep_file r) (visited r).
Definition set_ovflist (x : option (list nat)) (r : eventpoll) : eventpoll :=
  Eventpoll (mtx r) (poll_wait r) (rdllist r) (txlist r) (rbr r) x (ep_ws r) (ep_user r) (ep_file r) (visited r).
Definition set_ep_ws (x : option nat) (r : eventpoll) : eventpoll :=
  Eventpoll (mtx r) (poll_wait r) (rdllist r) (txlist r) (rbr r) (ovflist r) x (ep_user r) (ep_file r) (visited r).
Definition set_ep_user (x : nat) (r : eventpoll) : eventpoll :=
  Eventpoll (mtx r) (poll_wait r) (rdllist r) (txlist r) (rbr r) (ovflist r) (ep_ws r) x (ep_file r) (visited r).
Definition set_ep_file (x : option nat) (r : eventpoll) : eventpoll :=
  Eventpoll (mtx r) (poll_wait r) (rdllist r) (txlist r) (rbr r) (ovflist r) (ep_ws r) (ep_user r) x (visited r).
Definition set_visited (x : bool) (r : eventpoll) : eventpoll :=
  Eventpoll (mtx r) (poll_wait r) (rdllist r) (txlist r) (rbr r) (ovflist r) (ep_ws r) (ep_user r) (ep_file r) x.

(** struct epitem; [events] and [data] are the struct epoll_event *)
Record epitem := Epitem {
  ffd : epoll_filefd;
  nwait : Z;
  pwqlist : list nat;
  epi_ep : nat;
  epi_ws : option nat;
  events : Z;
  data : Z
}.

Definition set_ffd (x : epoll_filefd) (r : epitem) : epitem :=
  Epitem x (nwait r) (pwqlist r) (epi_ep r) (epi_ws r) (events r) (data r).
Definition set_nwait (x : Z) (r : epitem) : epitem :=
  Epitem (ffd r) x (pwqlist r) (epi_ep r) (epi_ws r) (events r) (data r).
Definition set_pwqlist (x : list nat) (r : epitem) : epitem :=
  Epitem (ffd r) (nwait r) x (epi_ep r) (epi_ws r) (events r) (data r).
Definition set_epi_ep (x : nat) (r : epitem) : epitem :=
  Epitem (ffd r) (nwait r) (pwqlist r) x (epi_ws r) (events r) (data r).
Definition set_epi_ws (x : option nat) (r : epitem) : epitem :=
  Epitem (ffd r) (nwait r) (pwqlist r) (epi_ep r) x (events r) (data r).
Definition set_events (x : Z) (r : epitem) : epitem :=
  Epitem (ffd r) (nwait r) (pwqlist r) (epi_ep r) (epi_ws r) x (data r).
Definition set_data (x : Z) (r : epitem) : epitem :=
  Epitem (ffd r) (nwait r) (pwqlist r) (epi_ep r) (epi_ws r) (events r) x.

(** struct eppoll_entry: a hook of item [base] on the queue head [whead] *)
Record eppoll_entry := EppollEntry { base : nat; whead : option nat }.

(** A watched file that is not an eventpoll: the driver's poll method
    registers its caller on the wait queues [d_wheads] and reports [d_mask]. *)
Record device := Device { d_mask : Z; d_wheads : list nat }.

(** Something happens in a device: its mask changes and it wakes a queue. *)
Record arrival := Arrival { a_file : nat; a_mask : Z; a_whead : nat; a_key : Z }.

(** [struct nested_call_node]: a cookie and a context *)
Abbreviation nested_call_node := (nat * nat)%type.

Section World.
Context `{PmLib}.

(** The world.  [wheads] holds the hooks on each wait queue head, first hook
    first; [f_ep_links] the items that watch a file; [path_count] and the
    lists are the static variables of eventpoll.c; [watches] the
    [epoll_watches] of each user.  [allocs] says which of the coming memory
    allocations succeed (all, when the list ends), [script] what happens in
    the devices at each of the coming moments at which interrupts are on,
    [addr] the next address the allocator returns, and [ubuf] is the user's
    event buffer. *)
Record world := World {
  kern : kernel;
  eps : gmap nat eventpoll;
  epis : gmap nat epitem;
  pwqs : gmap nat eppoll_entry;
  wheads : gmap nat (list nat);
  devs : gmap nat device;
  f_ep_links : gmap nat (list nat);
  tfile_check_list : list nat;
  visited_list : list nat;
  path_count : list Z;
  poll_loop_ncalls : list nested_call_node;
  poll_safewake_ncalls : list nested_call_node;
  poll_readywalk_ncalls : list nested_call_node;
  epmutex : bool;
  watches : gmap nat Z;
  pm : pm_state;
  allocs : list bool;
  script : list (list arrival);
  addr : nat;
  ubuf : list (Z * Z);
  current : nat
}.

Definition set_kern (x : kernel) (r : world) : world :=
  World x (eps r) (epis r) (pwqs r) (wheads r) (devs r) (f_ep_links r) (tfile_check_list r) (visited_list r) (path_count r) (poll_loop_ncalls r) (poll_safewake_ncalls r) (poll_readywalk_ncalls r) (epmutex r) (watches r) (pm r) (allocs r) (script r) (addr r) (ubuf r) (current r).
Definition set_eps (x : gmap nat eventpoll) (r : world) : world :=
  World (kern r) x (epis r) (pwqs r) (wheads r) (devs r) (f_ep_links r) (tfile_check_list r) (visited_list r) (path_count r) (poll_loop_ncalls r) (poll_safewake_ncalls r) (poll_readywalk_ncalls r) (epmutex r) (watches r) (pm r) (allocs r) (script r) (addr r) (ubuf r) (current r).
Definition set_epis (x : gmap nat epitem) (r : world) : world :=
  World (kern r) (eps r) x (pwqs r) (wheads r) (devs r) (f_ep_links r) (tfile_check_list r) (visited_list r) (path_count r) (poll_loop_ncalls r) (poll_safewake_ncalls r) (poll_readywalk_ncalls r) (epmutex r) (watches r) (pm r) (allocs r) (script r) (addr r) (ubuf r) (current r).
Definition set_pwqs (x : gmap nat eppoll_entry) (r : world) : world :=
  World (kern r) (eps r) (epis r) x (wheads r) (devs r) (f_ep_links r) (tfile_check_list r) (visited_list r) (path_count r) (poll_loop_ncalls r) (poll_safewake_ncalls r) (poll_readywalk_ncalls r) (epmutex r) (watches r) (pm r) (allocs r) (script r) (addr r) (ubuf r) (current r).
Definition set_wheads (x : gmap nat (list nat)) (r : world) : world :=
  World (kern r) (eps r) (epis r) (pwqs r) x (devs r) (f_ep_links r) (tfile_check_list r) (visited_list r) (path_count r) (poll_loop_ncalls r) (poll_safewake_ncalls r) (poll_readywalk_ncalls r) (epmutex r) (watches r) (pm r) (allocs r) (script r) (addr r) (ubuf r) (current r).
Definition set_devs (x : gmap nat device) (r : world) : world :=
  World (kern r) (eps r) (epis r) (pwqs r) (wheads r) x (f_ep_links r) (tfile_check_list r) (visited_list r) (path_count r) (poll_loop_ncalls r) (poll_safewake_ncalls r) (poll_readywalk_ncalls r) (epmutex r) (watches r) (pm r) (allocs r) (script r) (addr r) (ubuf r) (current r).
Definition set_f_ep_links (x : gmap nat (list nat)) (r : world) : world :=
  World (kern r) (eps r) (epis r) (pwqs r) (wheads r) (devs r) x (tfile_check_list r) (visited_list r) (path_count r) (poll_loop_ncalls r) (poll_safewake_ncalls r) (poll_readywalk_ncalls r) (epmutex r) (watches r) (pm r) (allocs r) (script r) (addr r) (ubuf r) (current r).
Definition set_tfile_check_list (x : list nat) (r : world) : world :=
  World (kern r) (eps r) (epis r) (pwqs r) (wheads r) (devs r) (f_ep_links r) x (visited_list r) (path_count r) (poll_loop_ncalls r) (poll_safewake_ncalls r) (poll_readywalk_ncalls r) (epmutex r) (watches r) (pm r) (allocs r) (script r) (addr r) (ubuf r) (current r).
Definition set_visited_list (x : list nat) (r : world) : world :=
  World (kern r) (eps r) (epis r) (pwqs r) (wheads r) (devs r) (f_ep_links r) (tfile_check_list r) x (path_count r) (poll_loop_ncalls r) (poll_safewake_ncalls r) (poll_readywalk_ncalls r) (epmutex r) (watches r) (pm r) (allocs r) (script r) (addr r) (ubuf r) (current r).
Definition set_path_count (x : list Z) (r : world) : world :=
  World (kern r) (eps r) (epis r) (pwqs r) (wheads r) (devs r) (f_ep_links r) (tfile_check_list r) (visited_list r) x (poll_loop_ncalls r) (poll_safewake_ncalls r) (poll_readywalk_ncalls r) (epmutex r) (watches r) (pm r) (allocs r) (script r) (addr r) (ubuf r) (current r).
Definition set_poll_loop_ncalls (x : list nested_call_node) (r : world) : world :=
  World (kern r) (eps r) (epis r) (pwqs r) (wheads r) (devs r) (f_ep_links r) (tfile_check_list r) (visited_list r) (path_count r) x (poll_safewake_ncalls r) (poll_readywalk_ncalls r) (epmutex r) (watches r) (pm r) (allocs r) (script r) (addr r) (ubuf r) (current r).
Definition set_poll_safewake_ncalls (x : list nested_call_node) (r : world) : world :=
  World (kern r) (eps r) (epis r) (pwqs r) (wheads r) (devs r) (f_ep_links r) (tfile_check_list r) (visited_list r) (path_count r) (poll_loop_ncalls r) x (poll_readywalk_ncalls r) (epmutex r) (watches r) (pm r) (allocs r) (script r) (addr r) (ubuf r) (current r).
Definition set_poll_readywalk_ncalls (x : list nested_call_node) (r : world) : world :=
  World (kern r) (eps r) (epis r) (pwqs r) (wheads r) (devs r) (f_ep_links r) (tfile_check_list r) (visited_list r) (path_count r) (poll_loop_ncalls r) (poll_safewake_ncalls r) x (epmutex r) (watches r) (pm r) (allocs r) (script r) (addr r) (ubuf r) (current r).
Definition set_epmutex (x : bool) (r : world) : world :=
  World (kern r) (eps r) (epis r) (pwqs r) (wheads r) (devs r) (f_ep_links r) (tfile_check_list r) (visited_list r) (path_count r) (poll_loop_ncalls r) (poll_safewake_ncalls r) (poll_readywalk_ncalls r) x (watches r) (pm r) (allocs r) (script r) (addr r) (ubuf r) (current r).
Definition set_watches (x : gmap nat Z) (r : world) : world :=
  World (kern r) (eps r) (epis r) (pwqs r) (wheads r) (devs r) (f_ep_links r) (tfile_check_list r) (visited_list r) (path_count r) (poll_loop_ncalls r) (poll_safewake_ncalls r) (poll_readywalk_ncalls r) (epmutex r) x (pm r) (allocs r) (script r) (addr r) (ubuf r) (current r).
Definition set_pm (x : pm_state) (r : world) : world :=
  World (kern r) (eps r) (epis r) (pwqs r) (wheads r) (devs r) (f_ep_links r) (tfile_check_list r) (visited_list r) (path_count r) (poll_loop_ncalls r) (poll_safewake_ncalls r) (poll_readywalk_ncalls r) (epmutex r) (watches r) x (allocs r) (script r) (addr r) (ubuf r) (current r).
Definition set_allocs (x : list bool) (r : world) : world :=
  World (kern r) (eps r) (epis r) (pwqs r) (wheads r) (devs r) (f_ep_links r) (tfile_check_list r) (visited_list r) (path_count r) (poll_loop_ncalls r) (poll_safewake_ncalls r) (poll_readywalk_ncalls r) (epmutex r) (watches r) (pm r) x (script r) (addr r) (ubuf r) (current r).
Definition set_script (x : list (list arrival)) (r : world) : world :=
  World (kern r) (eps r) (epis r) (pwqs r) (wheads r) (devs r) (f_ep_links r) (tfile_check_list r) (visited_list r) (path_count r) (poll_loop_ncalls r) (poll_safewake_ncalls r) (poll_readywalk_ncalls r) (epmutex r) (watches r) (pm r) (allocs r) x (addr r) (ubuf r) (current r).
Definition set_addr (x : nat) (r : world) : world :=
  World (kern r) (eps r) (epis r) (pwqs r) (wheads r) (devs r) (f_ep_links r) (tfile_check_list r) (visited_list r) (path_count r) (poll_loop_ncalls r) (poll_safewake_ncalls r) (poll_readywalk_ncalls r) (epmutex r) (watches r) (pm r) (allocs r) (script r) x (ubuf r) (current r).
Definition set_ubuf (x : list (Z * Z)) (r : world) : world :=
  World (kern r) (eps r) (epis r) (pwqs r) (wheads r) (devs r) (f_ep_links r) (tfile_check_list r) (visited_list r) (path_count r) (poll_loop_ncalls r) (poll_safewake_ncalls r) (poll_readywalk_ncalls r) (epmutex r) (watches r) (pm r) (allocs r) (script r) (addr r) x (current r).
Definition set_current (x : nat) (r : world) : world :=
  World (kern r) (eps r) (epis r) (pwqs r) (wheads r) (devs r) (f_ep_links r) (tfile_check_list r) (visited_list r) (path_count r) (poll_loop_ncalls r) (poll_safewake_ncalls r) (poll_readywalk_ncalls r) (epmutex r) (watches r) (pm r) (allocs r) (script r) (addr r) (ubuf r) x.

Abbreviation W := (M world).

(** ** Access *)

Definition liftK {A} (m : K A) : W A := fun w =>
  match m (kern w) with
  | Ret a k => Ret a (set_kern k w)
  | Blocked k => Blocked (set_kern k w)
  | Oops => Oops
  end.

Definition get_ep (ep : nat) : W eventpoll := deref (fun w => eps w !! ep).
Definition upd_ep (ep : nat) (f : eventpoll -> eventpoll) : W unit :=
  e ← get_ep ep; modify (fun w => set_eps (<[ep := f e]> (eps w)) w).

Definition get_epi (i : nat) : W epitem := deref (fun w => epis w !! i).
Definition upd_epi (i : nat) (f : epitem -> epitem) : W unit :=
  x ← get_epi i; modify (fun w => set_epis (<[i := f x]> (epis w)) w).

Definition get_file (f : nat) : W file := deref (fun w => files (kern w) !! f).

Definition is_file_epoll (f : file) : bool := bool_decide (f_op f = eventpoll_fops).

(** the eventpoll of an eventpoll file, [f->private_data] *)
Definition file_ep (f : file) : W nat :=
  match private_data f with Some ep => mret ep | None => oops end.

Definition ep_links (f : nat) (w : world) : list nat := default [] (f_ep_links w !! f).

Definition ep_mutex_lock (ep : nat) : W unit :=
  e ← get_ep ep; if mtx e then block else upd_ep ep (set_mtx true).
Definition ep_mutex_unlock (ep : nat) : W unit := upd_ep ep (set_mtx false).

Definition epmutex_lock : W unit :=
  w ← get; if epmutex w then block else modify (set_epmutex true).
Definition epmutex_unlock : W unit := modify (set_epmutex false).

Definition on_pm (f : pm_state -> pm_state) : W unit := modify (fun w => set_pm (f (pm w)) w).

(** kmem_cache_alloc(), kzalloc() *)
Definition kmem_alloc : W (option nat) :=
  w ← get;
  let ok := match allocs w with [] => true | b :: _ => b end in
  modify (set_allocs (tail (allocs w))) ;;
  if ok then modify (set_addr (S (addr w))) ;; mret (Some (addr w)) else mret None.

Fixpoint mfor {A} (f : A -> W unit) (l : list A) : W unit :=
  match l with [] => mret tt | x :: l' => f x ;; mfor f l' end.

(** ** Links of an item *)

(** ep_is_linked(&epi->rdllink) *)
Definition ep_is_linked (i : nat) (e : eventpoll) : bool :=
  bool_decide (i ∈ rdllist e) || bool_decide (i ∈ txlist e).

Definition without (i : nat) (l : list nat) : list nat := filter (fun j => j <> i) l.

(** list_del_init(&epi->rdllink) *)
Definition rdl_del (i : nat) (e : eventpoll) : eventpoll :=
  set_rdllist (without i (rdllist e)) (set_txlist (without i (txlist e)) e).

(** list_add_tail(&epi->rdllink, &ep->rdllist) *)
Definition rdl_add (i : nat) (e : eventpoll) : eventpoll := set_rdllist (rdllist e ++ [i]) e.

Definition ep_events_available (e : eventpoll) : bool :=
  negb (bool_decide (rdllist e = [])) || bool_decide (ovflist e <> None).

(** ** Wakeup sources *)

(** ep_pm_stay_awake(), also ep_pm_stay_awake_rcu() *)
Definition ep_pm_stay_awake (i : nat) : W unit :=
  x ← get_epi i; on_pm (pm_stay_awake (epi_ws x)).

Definition wakeup_source_register : W (option nat) :=
  w ← get;
  let '(r, s) := ws_register (pm w) in
  modify (set_pm s) ;; mret r.

Definition ep_create_wakeup_source (i : nat) : W Z :=
  x ← get_epi i;
  e ← get_ep (epi_ep x);
  ready ← match ep_ws e with
          | Some _ => mret true
          | None =>
              ws ← wakeup_source_register;
              upd_ep (epi_ep x) (set_ep_ws ws) ;;
              mret (bool_decide (ws <> None))
          end;
  if negb ready then mret (- ENOMEM)
  else
    ws ← wakeup_source_register;
    match ws with
    | None => mret (- ENOMEM)
    | Some _ => upd_epi i (set_epi_ws ws) ;; mret 0
    end.

Definition ep_destroy_wakeup_source (i : nat) : W unit :=
  x ← get_epi i;
  upd_epi i (set_epi_ws None) ;;
  on_pm (ws_unregister (epi_ws x)).

(** ** Waking the tasks in epoll_wait *)

Definition ep_wake_wq `{WaitLib} (ep : nat) : K unit :=
  q ← deref (fun k => ep_wq k !! ep);
  if waitqueue_active q then
    k ← get;
    match ep_cmgroup k !! ep with
    | Some g =>
        av ← cmgroup_available g;
        if av <=? 0 then cmgroup_request_action g CMGROUP_ACTION_RESET_WAKEONE
        else wake_up_wq 1 (Epoll_wq ep) g
    | None => wake_up_wq 1 (Epoll_wq ep) 0
    end
  else mret tt.
End World.

(** the monad, for the sections of other files *)
Abbreviation W := (M world).
