(* ===== verification/EpNest.v ===== *)
(** * Nested eventpolls (fs/eventpoll.c)

    An eventpoll can watch another one.  ep_call_nested() bounds the calls
    that follow such links; ep_loop_check() rejects a link that would close
    a loop or a chain that is too deep, and reverse_path_check() one that
    would let a single event wake too many eventpolls. *)

From S2P Require Import Prelude Wait Tasklet Cmgroup Sched CmWake EpTree EpState.
Local Open Scope Z_scope.

Section EpNest.
Context `{PmLib}.

(** ** Bounded calls *)

Inductive nested_calls := poll_loop | poll_safewake | poll_readywalk.

Definition tasks_call_list (nc : nested_calls) (w : world) : list nested_call_node :=
  match nc with
  | poll_loop => poll_loop_ncalls w
  | poll_safewake => poll_safewake_ncalls w
  | poll_readywalk => poll_readywalk_ncalls w
  end.

Definition set_tasks_call_list (nc : nested_calls) (l : list nested_call_node) : world -> world :=
  match nc with
  | poll_loop => set_poll_loop_ncalls l
  | poll_safewake => set_poll_safewake_ncalls l
  | poll_readywalk => set_poll_readywalk_ncalls l
  end.

(** the loop over the list: [None] when the call is refused, otherwise
    [call_nests], the number of calls this context is already in *)
Fixpoint nest_check (max_nests : Z) (cookie ctx : nat) (l : list nested_call_node)
    (call_nests : Z) : option Z :=
  match l with
  | [] => Some call_nests
  | (c, x) :: l' =>
      if decide (x = ctx) then
        if decide (c = cookie) then None
        else if max_nests <? call_nests + 1 then None
        else nest_check max_nests cookie ctx l' (call_nests + 1)
      else nest_check max_nests cookie ctx l' call_nests
  end.

Definition ep_call_nested (nc : nested_calls) (max_nests : Z) (nproc : Z -> W Z)
    (cookie ctx : nat) : W Z :=
  w ← get;
  match nest_check max_nests cookie ctx (tasks_call_list nc w) 0 with
  | None => mret (-1)
  | Some call_nests =>
      modify (set_tasks_call_list nc ((cookie, ctx) :: tasks_call_list nc w)) ;;
      error ← nproc call_nests;
      modify (fun w => set_tasks_call_list nc
        (filter (fun n => n <> (cookie, ctx)) (tasks_call_list nc w)) w) ;;
      mret error
  end.

(** ** Loops *)

(** the walk of ep_loop_check_proc() over the items of an eventpoll; [rec]
    is the nested call on a file *)
Fixpoint loop_walk (rec : nat -> Z -> W Z) (l : list nat) : W Z :=
  match l with
  | [] => mret 0
  | i :: l' =>
      x ← get_epi i;
      let file := ffd_file (ffd x) in
      f ← get_file file;
      if is_file_epoll f then
        ep_tovisit ← file_ep f;
        e ← get_ep ep_tovisit;
        if visited e then loop_walk rec l'
        else
          w ← get;
          error ← ep_call_nested poll_loop EP_MAX_NESTS (rec file) ep_tovisit (current w);
          if negb (error =? 0) then mret error else loop_walk rec l'
      else
        w ← get;
        (if bool_decide (file ∈ tfile_check_list w) then mret tt
         else modify (fun w => set_tfile_check_list (file :: tfile_check_list w) w)) ;;
        loop_walk rec l'
  end.

(** The depth of the recursion is bounded by ep_call_nested(), hence [fuel]. *)
Fixpoint ep_loop_check_proc (fuel : nat) (file : nat) (call_nests : Z) : W Z :=
  match fuel with
  | O => block
  | S fuel' =>
      f ← get_file file;
      ep ← file_ep f;
      ep_mutex_lock ep ;;
      upd_ep ep (set_visited true) ;;
      modify (fun w => set_visited_list (ep :: visited_list w) w) ;;
      e ← get_ep ep;
      error ← loop_walk (ep_loop_check_proc fuel') (inorder (rbr e));
      ep_mutex_unlock ep ;;
      mret error
  end.

(** a chain of nested calls has at most EP_MAX_NESTS + 1 links *)
Definition nest_fuel : nat := 6.

Fixpoint clear_visited (l : list nat) : W unit :=
  match l with
  | [] => mret tt
  | ep :: l' => upd_ep ep (set_visited false) ;; clear_visited l'
  end.

Definition ep_loop_check (ep file : nat) : W Z :=
  w ← get;
  ret ← ep_call_nested poll_loop EP_MAX_NESTS (ep_loop_check_proc nest_fuel file) ep (current w);
  w ← get;
  clear_visited (visited_list w) ;;
  modify (set_visited_list []) ;;
  mret ret.

Definition clear_tfile_check_list : W unit := modify (set_tfile_check_list []).

(** ** Wakeup paths *)

Definition path_limits : list Z := [1000; 500; 100; 50; 10].

(** an index beyond the arrays is an oops *)
Definition path_count_inc (nests : Z) : W Z :=
  if nests =? 0 then mret 0
  else
    w ← get;
    match path_count w !! Z.to_nat nests, path_limits !! Z.to_nat nests with
    | Some n, Some limit =>
        modify (set_path_count (<[Z.to_nat nests := s32 (n + 1)]> (path_count w))) ;;
        mret (if limit <? s32 (n + 1) then -1 else 0)
    | _, _ => oops
    end.

Definition path_count_init : W unit := modify (set_path_count (replicate 5 0)).

(** the walk of reverse_path_check_proc() over the items that watch a file *)
Fixpoint reverse_walk (rec : nat -> Z -> W Z) (call_nests : Z) (l : list nat) : W Z :=
  match l with
  | [] => mret 0
  | i :: l' =>
      x ← get_epi i;
      e ← get_ep (epi_ep x);
      child_file ← match ep_file e with Some f => mret f | None => oops end;
      f ← get_file child_file;
      if is_file_epoll f then
        w ← get;
        error ← (if bool_decide (ep_links child_file w = []) then
                   r ← path_count_inc call_nests;
                   mret (if negb (r =? 0) then -1 else 0)
                 else
                   ep_call_nested poll_loop EP_MAX_NESTS (rec child_file) child_file (current w));
        if negb (error =? 0) then mret error else reverse_walk rec call_nests l'
      else reverse_walk rec call_nests l'
  end.

Fixpoint reverse_path_check_proc (fuel : nat) (file : nat) (call_nests : Z) : W Z :=
  match fuel with
  | O => block
  | S fuel' =>
      w ← get;
      reverse_walk (reverse_path_check_proc fuel') call_nests (ep_links file w)
  end.

Fixpoint reverse_files (l : list nat) : W Z :=
  match l with
  | [] => mret 0
  | current_file :: l' =>
      path_count_init ;;
      w ← get;
      error ← ep_call_nested poll_loop EP_MAX_NESTS
                (reverse_path_check_proc nest_fuel current_file) current_file (current w);
      if negb (error =? 0) then mret error else reverse_files l'
  end.

Definition reverse_path_check : W Z := w ← get; reverse_files (tfile_check_list w).
End EpNest.
