(* ===== verification/EpReady.v ===== *)
(** * Readiness (fs/eventpoll.c)

    The callback a device runs when it becomes ready, the scan that hands
    the ready items to user space while callbacks keep arriving, and the
    poll method of an eventpoll. *)

From S2P Require Import Prelude Wait Tasklet Cmgroup Sched CmWake EpTree EpState EpNest.
Local Open Scope Z_scope.

Section EpReady.
Context `{WaitLib} `{PmLib}.

(** ** Waking the eventpolls that watch an eventpoll *)

Section Callback.
(** wake_up_poll() on a queue head, with a key *)
Variable wake : nat -> Z -> W unit.

Definition ep_poll_wakeup_proc (wq : nat) (call_nests : Z) : W Z := wake wq POLLIN ;; mret 0.

Definition ep_poll_safewake (wq : nat) : W unit :=
  w ← get;
  ep_call_nested poll_safewake EP_MAX_NESTS (ep_poll_wakeup_proc wq) wq (this_cpu (kern w)) ;;
  mret tt.

(** waitqueue_active(&ep->poll_wait) *)
Definition poll_wait_active (ep : nat) : W bool :=
  e ← get_ep ep;
  l ← deref (fun w => wheads w !! poll_wait e);
  mret (negb (bool_decide (l = []))).

(** the two wake-ups that follow the queueing of a ready item; the second is
    done after the lock is released: the result says whether it is due *)
Definition wake_both (ep : nat) : W bool := liftK (ep_wake_wq ep) ;; poll_wait_active ep.

Definition poll_wake (ep : nat) (pwake : bool) : W unit :=
  if pwake then e ← get_ep ep; ep_poll_safewake (poll_wait e) else mret tt.

(** the part of ep_poll_callback() under [ep->lock]; the result is [pwake] *)
Definition callback_locked (i : nat) (key : Z) : W bool :=
  x ← get_epi i;
  let ep := epi_ep x in
  e ← get_ep ep;
  if Z.land (events x) (Z.lnot EP_PRIVATE_BITS) =? 0 then mret false
  else if negb (key =? 0) && negb (meets key (events x)) then mret false
  else
    match ovflist e with
    | Some chain =>
        (if bool_decide (i ∈ chain) then mret tt
         else
           upd_ep ep (set_ovflist (Some (i :: chain))) ;;
           match epi_ws x with
           | Some _ => on_pm (pm_stay_awake (ep_ws e))
           | None => mret tt
           end) ;;
        mret false
    | None =>
        (if ep_is_linked i e then mret tt
         else upd_ep ep (rdl_add i) ;; ep_pm_stay_awake i) ;;
        wake_both ep
    end.

(** the hook at address [wait] is called with [key] *)
Definition ep_poll_callback (wait : nat) (key : Z) : W unit :=
  pwq ← deref (fun w => pwqs w !! wait);
  x ← get_epi (base pwq);
  (if meets key POLLFREE then
     modify (fun w => set_pwqs (<[wait := EppollEntry (base pwq) None]> (pwqs w)) w) ;;
     match whead pwq with
     | Some wh => modify (fun w => set_wheads (alter (without wait) wh (wheads w)) w)
     | None => mret tt
     end
   else mret tt) ;;
  pwake ← callback_locked (base pwq) key;
  poll_wake (epi_ep x) pwake.
End Callback.

(** wake_up_poll(): the hooks are not exclusive, all of them are called *)
Fixpoint wake_up_poll (fuel : nat) (wh : nat) (key : Z) : W unit :=
  match fuel with
  | O => block
  | S fuel' =>
      l ← deref (fun w => wheads w !! wh);
      mfor (fun pwq => ep_poll_callback (wake_up_poll fuel') pwq key) l
  end.

Definition safewake (ep : nat) (pwake : bool) : W unit := poll_wake (wake_up_poll nest_fuel) ep pwake.

(** ** Devices *)

Definition arrive (a : arrival) : W unit :=
  w ← get;
  match devs w !! a_file a with
  | Some d =>
      modify (fun w => set_devs (<[a_file a := Device (a_mask a) (d_wheads d)]> (devs w)) w) ;;
      if bool_decide (a_whead a ∈ d_wheads d) then wake_up_poll nest_fuel (a_whead a) (a_key a)
      else mret tt
  | None => mret tt
  end.

(** a moment at which interrupts are on *)
Definition interrupts : W unit :=
  w ← get;
  modify (set_script (tail (script w))) ;;
  mfor arrive (default [] (head (script w))).

(** ** Polling a file *)

(** the queueing callback of a poll table that belongs to item [i] *)
Definition ep_ptable_queue_proc (i wh : nat) : W unit :=
  x ← get_epi i;
  pwq ← (if 0 <=? nwait x then kmem_alloc else mret None);
  match pwq with
  | Some p =>
      modify (fun w => set_pwqs (<[p := EppollEntry i (Some wh)]> (pwqs w)) w) ;;
      l ← deref (fun w => wheads w !! wh);
      modify (fun w => set_wheads (<[wh := p :: l]> (wheads w)) w) ;;
      upd_epi i (fun x => set_nwait (s32 (nwait x + 1)) (set_pwqlist (pwqlist x ++ [p]) x))
  | None => upd_epi i (set_nwait (-1))
  end.

(** poll_wait(); [pt] is the item of the table, [None] when the table has no
    queueing callback *)
Definition poll_wait_on (wh : nat) (pt : option nat) : W unit :=
  match pt with Some i => ep_ptable_queue_proc i wh | None => mret tt end.

Section Poll.
(** f_op->poll() of the watched files *)
Variable poll : nat -> option nat -> W Z.

Definition ep_item_poll (i : nat) (pt : option nat) : W Z :=
  x ← get_epi i;
  m ← poll (ffd_file (ffd x)) pt;
  x ← get_epi i;
  mret (Z.land m (events x)).

(** an item of the overflow chain goes to the ready list, unless it is on
    one of the two lists *)
Definition requeue_item (ep i : nat) : W unit :=
  e ← get_ep ep;
  if ep_is_linked i e then mret tt
  else upd_ep ep (rdl_add i) ;; ep_pm_stay_awake i.

(** [sproc] works on the items of [txlist] *)
Definition ep_scan_ready_list (sproc : list nat -> W Z) (ep : nat) (ep_locked : bool) : W Z :=
  (if ep_locked then mret tt else ep_mutex_lock ep) ;;
  e ← get_ep ep;
  upd_ep ep (fun e => set_txlist (rdllist e) (set_rdllist [] (set_ovflist (Some []) e))) ;;
  interrupts ;;
  error ← sproc (rdllist e);
  interrupts ;;
  e ← get_ep ep;
  mfor (requeue_item ep) (default [] (ovflist e)) ;;
  upd_ep ep (fun e => set_rdllist (txlist e ++ rdllist e) (set_txlist [] (set_ovflist None e))) ;;
  e ← get_ep ep;
  on_pm (pm_relax (ep_ws e)) ;;
  pwake ← (if bool_decide (rdllist e = []) then mret false else wake_both ep);
  (if ep_locked then mret tt else ep_mutex_unlock ep) ;;
  safewake ep pwake ;;
  mret error.

Fixpoint ep_read_events_proc (ep : nat) (head : list nat) : W Z :=
  match head with
  | [] => mret 0
  | i :: head' =>
      revents ← ep_item_poll i None;
      if negb (revents =? 0) then mret (Z.lor POLLIN POLLRDNORM)
      else
        x ← get_epi i;
        on_pm (pm_relax (epi_ws x)) ;;
        upd_ep ep (rdl_del i) ;;
        ep_read_events_proc ep head'
  end.

Definition ep_poll_readyevents_proc (ep : nat) (locked : bool) (call_nests : Z) : W Z :=
  ep_scan_ready_list (ep_read_events_proc ep) ep locked.

Definition ep_eventpoll_poll (ep : nat) (wait : option nat) : W Z :=
  let locked := bool_decide (wait <> None) in
  e ← get_ep ep;
  poll_wait_on (poll_wait e) wait ;;
  w ← get;
  pollflags ← ep_call_nested poll_readywalk EP_MAX_NESTS
                (ep_poll_readyevents_proc ep locked) ep (current w);
  mret (if pollflags =? -1 then 0 else pollflags).

(** ** Delivering events *)

(** whether the [n]-th slot of the user's buffer can be written *)
Variable put_user_ok : nat -> bool.

Fixpoint ep_send_events_proc (ep : nat) (maxevents : Z) (head : list nat) (eventcnt : Z) : W Z :=
  match head with
  | [] => mret eventcnt
  | i :: head' =>
      if eventcnt <? maxevents then
        x ← get_epi i;
        e ← get_ep ep;
        w ← get;
        match epi_ws x with
        | Some ws =>
            (if pm_active ws (pm w) then on_pm (pm_stay_awake (ep_ws e)) else mret tt) ;;
            on_pm (pm_relax (Some ws))
        | None => mret tt
        end ;;
        upd_ep ep (rdl_del i) ;;
        revents ← ep_item_poll i None;
        if revents =? 0 then ep_send_events_proc ep maxevents head' eventcnt
        else if negb (put_user_ok (Z.to_nat eventcnt)) then
          upd_ep ep (fun e => set_txlist (i :: txlist e) e) ;;
          ep_pm_stay_awake i ;;
          mret (if eventcnt =? 0 then - EFAULT else eventcnt)
        else
          x ← get_epi i;
          modify (fun w => set_ubuf (take (Z.to_nat eventcnt) (ubuf w) ++ [(revents, data x)]) w) ;;
          (if meets (events x) EPOLLONESHOT then
             upd_epi i (set_events (Z.land (events x) EP_PRIVATE_BITS))
           else if meets (events x) EPOLLET then mret tt
           else upd_ep ep (rdl_add i) ;; ep_pm_stay_awake i) ;;
          ep_send_events_proc ep maxevents head' (eventcnt + 1)
      else mret eventcnt
  end.

Definition ep_send_events (ep : nat) (maxevents : Z) : W Z :=
  ep_scan_ready_list (fun head => ep_send_events_proc ep maxevents head 0) ep false.
End Poll.

(** f_op->poll() of any file; the recursion through nested eventpolls is
    bounded by ep_call_nested(), hence [fuel].  A device may change before
    and after its mask is read. *)
Fixpoint f_op_poll (fuel : nat) (file : nat) (pt : option nat) : W Z :=
  match fuel with
  | O => block
  | S fuel' =>
      f ← get_file file;
      if is_file_epoll f then ep ← file_ep f; ep_eventpoll_poll (f_op_poll fuel') ep pt
      else
        d ← deref (fun w => devs w !! file);
        mfor (fun wh => poll_wait_on wh pt) (d_wheads d) ;;
        interrupts ;;
        d ← deref (fun w => devs w !! file);
        interrupts ;;
        mret (d_mask d)
  end.

Definition vfs_poll : nat -> option nat -> W Z := f_op_poll nest_fuel.
End EpReady.
