(* ===== verification/EpCtl.v ===== *)
(** * Adding, changing and removing watches (fs/eventpoll.c)

    The operations behind epoll_ctl(), the creation of an eventpoll, its
    release and the release of a file that is being watched. *)

From S2P Require Import Prelude Wait Tasklet Cmgroup Sched CmWake EpTree EpState EpNest EpReady.
Local Open Scope Z_scope.

Section EpCtl.
Context `{WaitLib} `{PmLib} `{RbLib}.

(** ** Removing an item *)

Definition ep_remove_wait_queue (p : nat) : W unit :=
  pwq ← deref (fun w => pwqs w !! p);
  match whead pwq with
  | Some wh => modify (fun w => set_wheads (alter (without p) wh (wheads w)) w)
  | None => mret tt
  end.

(** the loop of ep_unregister_pollwait() over the hooks of item [i] *)
Fixpoint unregister_hooks (i : nat) (l : list nat) : W unit :=
  match l with
  | [] => mret tt
  | p :: l' =>
      upd_epi i (fun x => set_pwqlist (without p (pwqlist x)) x) ;;
      ep_remove_wait_queue p ;;
      modify (fun w => set_pwqs (delete p (pwqs w)) w) ;;
      unregister_hooks i l'
  end.

Definition ep_unregister_pollwait (i : nat) : W unit :=
  x ← get_epi i; unregister_hooks i (pwqlist x).

Definition del_ep_link (f i : nat) : W unit :=
  modify (fun w => set_f_ep_links (<[f := without i (ep_links f w)]> (f_ep_links w)) w).
Definition add_ep_link (f i : nat) : W unit :=
  modify (fun w => set_f_ep_links (<[f := ep_links f w ++ [i]]> (f_ep_links w)) w).

Definition add_watches (u : nat) (n : Z) : W unit :=
  modify (fun w => set_watches (<[u := default 0 (watches w !! u) + n]> (watches w)) w).

Definition ep_remove (ep i : nat) : W Z :=
  x ← get_epi i;
  ep_unregister_pollwait i ;;
  del_ep_link (ffd_file (ffd x)) i ;;
  upd_ep ep (fun e => set_rbr (rb_erase i (rbr e)) e) ;;
  e ← get_ep ep;
  (if ep_is_linked i e then upd_ep ep (rdl_del i) else mret tt) ;;
  on_pm (ws_unregister (epi_ws x)) ;;
  modify (fun w => set_epis (delete i (epis w)) w) ;;
  add_watches (ep_user e) (-1) ;;
  mret 0.

(** ** Adding an item *)

(** from label [error_unregister] *)
Definition error_unregister (ep i : nat) (error : Z) : W Z :=
  ep_unregister_pollwait i ;;
  e ← get_ep ep;
  (if ep_is_linked i e then upd_ep ep (rdl_del i) else mret tt) ;;
  x ← get_epi i;
  on_pm (ws_unregister (epi_ws x)) ;;
  modify (fun w => set_epis (delete i (epis w)) w) ;;
  mret error.

Variable max_user_watches : Z.

(** the key of the item at an address *)
Definition ffd_of (w : world) (i : nat) : epoll_filefd :=
  match epis w !! i with Some x => ffd x | None => Filefd 0 0 end.

Definition ep_rbtree_insert_in (ep i : nat) : W unit :=
  w ← get;
  upd_ep ep (fun e => set_rbr (ep_rbtree_insert (ffd_of w) i (rbr e)) e).

Definition ep_find (ep file : nat) (fd : Z) : W (option nat) :=
  w ← get;
  e ← get_ep ep;
  mret (ep_find_from (ffd_of w) (Filefd file fd) (rbr e)).

(** an item found ready is queued, and the waiters are notified *)
Definition queue_ready (ep i : nat) : W bool :=
  e ← get_ep ep;
  if ep_is_linked i e then mret false
  else
    upd_ep ep (rdl_add i) ;;
    ep_pm_stay_awake i ;;
    wake_both ep.

(** the item is initialised and has its wakeup source: hook it up *)
Definition insert_hooked (ep i : nat) (ev : Z) (tfile : nat) (full_check : bool) : W Z :=
  revents ← ep_item_poll vfs_poll i (Some i);
  x ← get_epi i;
  if nwait x <? 0 then error_unregister ep i (- ENOMEM)
  else
    add_ep_link tfile i ;;
    ep_rbtree_insert_in ep i ;;
    bad ← (if full_check then r ← reverse_path_check; mret (negb (r =? 0)) else mret false);
    if (bad : bool) then
      del_ep_link tfile i ;;
      upd_ep ep (fun e => set_rbr (rb_erase i (rbr e)) e) ;;
      error_unregister ep i (- EINVAL)
    else
      pwake ← (if meets revents ev then queue_ready ep i else mret false);
      e ← get_ep ep;
      add_watches (ep_user e) 1 ;;
      safewake ep pwake ;;
      mret 0.

Definition ep_insert (ep : nat) (ev dat : Z) (tfile : nat) (fd : Z) (full_check : bool) : W Z :=
  e ← get_ep ep;
  w ← get;
  if max_user_watches <=? default 0 (watches w !! ep_user e) then mret (- ENOSPC)
  else
    epi ← kmem_alloc;
    match epi with
    | None => mret (- ENOMEM)
    | Some i =>
        modify (fun w =>
          set_epis (<[i := Epitem (Filefd tfile fd) 0 [] ep None ev dat]> (epis w)) w) ;;
        error ← (if meets ev EPOLLWAKEUP then ep_create_wakeup_source i else mret 0);
        if negb (error =? 0) then
          modify (fun w => set_epis (delete i (epis w)) w) ;; mret error
        else insert_hooked ep i ev tfile full_check
    end.

(** ** Changing an item *)

Definition ep_modify (ep i : nat) (ev dat : Z) : W Z :=
  upd_epi i (fun x => set_data dat (set_events ev x)) ;;
  x ← get_epi i;
  (if meets ev EPOLLWAKEUP then
     if bool_decide (epi_ws x = None) then ep_create_wakeup_source i ;; mret tt else mret tt
   else if bool_decide (epi_ws x <> None) then ep_destroy_wakeup_source i
   else mret tt) ;;
  revents ← ep_item_poll vfs_poll i None;
  pwake ← (if meets revents ev then queue_ready ep i else mret false);
  safewake ep pwake ;;
  mret 0.

(** ** Creating and releasing an eventpoll *)

Definition ep_alloc (user : nat) : W (Z + nat) :=
  a ← kmem_alloc;
  match a with
  | None => mret (inl (- ENOMEM))
  | Some ep =>
      (* [poll_wait] is embedded: its address is the next one *)
      modify (set_addr (S (S ep))) ;;
      modify (fun w => set_wheads (<[S ep := []]> (wheads w)) w) ;;
      modify (fun w =>
        set_eps (<[ep := Eventpoll false (S ep) [] [] rb_null None None user None false]> (eps w)) w) ;;
      liftK (modify (fun k => set_ep_wq (<[ep := []]> (ep_wq k)) k)) ;;
      mret (inr ep)
  end.

(** while ((rbp = rb_first(&ep->rbr)) != NULL) *)
Fixpoint remove_all (fuel : nat) (ep : nat) : W unit :=
  match fuel with
  | O => block
  | S fuel' =>
      e ← get_ep ep;
      match head (inorder (rbr e)) with
      | None => mret tt
      | Some i => ep_remove ep i ;; remove_all fuel' ep
      end
  end.

Variables (msleep : K unit) (lockout : nat).

Definition ep_free (ep : nat) : W unit :=
  active ← poll_wait_active ep;
  safewake ep active ;;
  epmutex_lock ;;
  e ← get_ep ep;
  mfor ep_unregister_pollwait (inorder (rbr e)) ;;
  ep_mutex_lock ep ;;
  remove_all (S (length (inorder (rbr e)))) ep ;;
  ep_mutex_unlock ep ;;
  epmutex_unlock ;;
  e ← get_ep ep;
  on_pm (ws_unregister (ep_ws e)) ;;
  liftK (ep_free_cmgroup msleep lockout ep) ;;
  modify (fun w => set_wheads (delete (poll_wait e) (wheads w)) w) ;;
  modify (fun w => set_eps (delete ep (eps w)) w).

Definition ep_eventpoll_release (file : nat) : W Z :=
  f ← get_file file;
  match private_data f with
  | Some ep => ep_free ep ;; mret 0
  | None => mret 0
  end.

Fixpoint release_items (l : list nat) : W unit :=
  match l with
  | [] => mret tt
  | i :: l' =>
      x ← get_epi i;
      ep_mutex_lock (epi_ep x) ;;
      ep_remove (epi_ep x) i ;;
      ep_mutex_unlock (epi_ep x) ;;
      release_items l'
  end.

Definition eventpoll_release_file (file : nat) : W unit :=
  epmutex_lock ;;
  w ← get;
  release_items (ep_links file w) ;;
  epmutex_unlock.

(** the lines /proc/<pid>/fdinfo shows: descriptor, events and data of each
    item; [room n] says whether the [n]-th line still fits the buffer *)
Fixpoint show_items (room : nat -> bool) (n : nat) (l : list nat) : W (list (Z * Z * Z) * Z) :=
  match l with
  | [] => mret ([], 0)
  | i :: l' =>
      x ← get_epi i;
      if room n then
        r ← show_items room (S n) l';
        mret ((ffd_fd (ffd x), events x, data x) :: fst r, snd r)
      else mret ([], -1)
  end.

Definition ep_show_fdinfo (room : nat -> bool) (ep : nat) : W (list (Z * Z * Z) * Z) :=
  ep_mutex_lock ep ;;
  e ← get_ep ep;
  r ← show_items room 0 (inorder (rbr e));
  ep_mutex_unlock ep ;;
  mret r.

(** ** System calls *)

Definition EPOLL_CLOEXEC : Z := O_CLOEXEC.

(** get_unused_fd_flags() and anon_inode_getfile() (an error or the address
    of the new file) depend on the flags they are given *)
Definition sys_epoll_create1 (user : nat) (get_unused_fd_flags : Z -> Z)
    (anon_inode_getfile : Z -> Z + nat) (flags : Z) : W Z :=
  if negb (Z.land flags (Z.lnot EPOLL_CLOEXEC) =? 0) then mret (- EINVAL)
  else
    r ← ep_alloc user;
    match r with
    | inl error => mret error
    | inr ep =>
        let file_flags := Z.lor O_RDWR (Z.land flags O_CLOEXEC) in
        let fd := get_unused_fd_flags file_flags in
        if fd <? 0 then ep_free ep ;; mret fd
        else
          match anon_inode_getfile file_flags with
          | inl error => ep_free ep ;; mret error
          | inr f =>
              liftK (modify (fun k => set_files (<[f := File eventpoll_fops (Some ep)]> (files k)) k)) ;;
              upd_ep ep (set_ep_file (Some f)) ;;
              liftK (modify (fun k => set_fdt (<[fd := f]> (fdt k)) k)) ;;
              mret fd
          end
    end.

Definition sys_epoll_create (user : nat) (get_unused_fd_flags : Z -> Z)
    (anon_inode_getfile : Z -> Z + nat) (size : Z) : W Z :=
  if size <=? 0 then mret (- EINVAL)
  else sys_epoll_create1 user get_unused_fd_flags anon_inode_getfile 0.

Definition ep_op_has_event (op : Z) : bool :=
  negb (op =? EPOLL_CTL_DEL) && negb (op =? EPOLL_CTL_SET_CMGROUP).

(** [capable] is capable(CAP_BLOCK_SUSPEND) *)
Definition ep_take_care_of_epollwakeup (capable : bool) (ev : Z) : Z :=
  if meets ev EPOLLWAKEUP && negb capable then Z.land ev (Z.lnot EPOLLWAKEUP) else ev.

(** f_op->poll != NULL *)
Definition has_poll (w : world) (addr : nat) (f : file) : bool :=
  match f_op f with
  | eventpoll_fops => true
  | cmgroup_fops => false
  | other_fops => bool_decide (is_Some (devs w !! addr))
  end.

(** the check of a new link, with [ep->mtx] held on entry; [inr tep] when
    the link may be added: both mutexes (and epmutex, when [full_check]) are
    held *)
Definition check_new_link (ep f_file t_file : nat) (tf : file) : W (Z + (bool * option nat)) :=
  w ← get;
  if negb (bool_decide (ep_links f_file w = [])) || is_file_epoll tf then
    ep_mutex_unlock ep ;;
    epmutex_lock ;;
    error ← (if is_file_epoll tf then ep_loop_check ep t_file
             else modify (fun w => set_tfile_check_list (t_file :: tfile_check_list w) w) ;; mret 0);
    if negb (error =? 0) then
      clear_tfile_check_list ;; epmutex_unlock ;; mret (inl (- ELOOP))
    else
      ep_mutex_lock ep ;;
      if is_file_epoll tf then
        tep ← file_ep tf; ep_mutex_lock tep ;; mret (inr (true, Some tep))
      else mret (inr (true, None))
  else mret (inr (false, None)).

(** the switch on [op], with the mutexes held *)
Definition ctl_op (ep : nat) (op fd : Z) (t_file : nat) (full_check : bool) (ev dat : Z) : W Z :=
  epi ← ep_find ep t_file fd;
  if op =? EPOLL_CTL_ADD then
    error ← match epi with
            | None => ep_insert ep (Z.lor ev (Z.lor POLLERR POLLHUP)) dat t_file fd full_check
            | Some _ => mret (- EEXIST)
            end;
    (if full_check then clear_tfile_check_list else mret tt) ;;
    mret error
  else if op =? EPOLL_CTL_DEL then
    match epi with Some i => ep_remove ep i | None => mret (- ENOENT) end
  else if op =? EPOLL_CTL_MOD then
    match epi with
    | Some i => ep_modify ep i (Z.lor ev (Z.lor POLLERR POLLHUP)) dat
    | None => mret (- ENOENT)
    end
  else if op =? EPOLL_CTL_SET_CMGROUP then liftK (ep_attach_cmgroup msleep lockout ep fd)
  else mret (- EINVAL).

(** [event] is what copy_from_user() reads, [None] when it faults *)
Definition sys_epoll_ctl (capable : bool) (epfd op fd : Z) (event : option (Z * Z)) : W Z :=
  if ep_op_has_event op && bool_decide (event = None) then mret (- EFAULT)
  else
    w ← get;
    match fdt (kern w) !! epfd, fdt (kern w) !! fd with
    | None, _ | _, None => mret (- EBADF)
    | Some f_file, Some t_file =>
        f ← get_file f_file;
        tf ← get_file t_file;
        if negb (has_poll w t_file tf) && negb (op =? EPOLL_CTL_SET_CMGROUP) then mret (- EPERM)
        else
          let '(ev, dat) := default (0, 0) event in
          let ev := ep_take_care_of_epollwakeup capable ev in
          if bool_decide (f_file = t_file) || negb (is_file_epoll f) then mret (- EINVAL)
          else
            ep ← file_ep f;
            ep_mutex_lock ep ;;
            r ← (if op =? EPOLL_CTL_ADD then check_new_link ep f_file t_file tf
                 else mret (inr (false, None)));
            match r with
            | inl error => mret error
            | inr (full_check, tep) =>
                error ← ctl_op ep op fd t_file full_check ev dat;
                match tep with Some t => ep_mutex_unlock t | None => mret tt end ;;
                ep_mutex_unlock ep ;;
                (if (full_check : bool) then epmutex_unlock else mret tt) ;;
                mret error
            end
    end.
End EpCtl.
