(* ===== verification/EpPoll.v ===== *)
(** * Waiting for events (fs/eventpoll.c)

    ep_poll(), the wait for an opening in the group of the eventpoll, and
    the system calls epoll_wait() and epoll_pwait(). *)

From S2P Require Import Prelude Wait Tasklet Cmgroup Sched CmWake EpTree EpState EpNest EpReady EpCtl.
Local Open Scope Z_scope.

Section EpPoll.
Context `{WaitLib} `{PmLib} `{RbLib}.

(** [sleep] is schedule_hrtimeout_range(): the world moves on until the task
    is woken or the timer expires; it tells whether it expired.  [id] is the
    address of the queue entry on the stack of the calling task. *)
Variables (sleep : W bool) (id : nat).

Definition set_current_state (s : Z) : W unit :=
  w ← get;
  liftK (x ← get_task (current w); put_task (current w) (set_tstate s x)).

Definition signal_pending : W bool :=
  w ← get; x ← liftK (get_task (current w)); mret (sigpending x).

(** __add_wait_queue_exclusive(&ep->wq, &wait) of an entry for the caller *)
Definition enqueue_wait (ep : nat) : W unit :=
  w ← get;
  q ← liftK (deref (fun k => ep_wq k !! ep));
  liftK (modify (fun k => set_ep_wq
    (<[ep := __add_wait_queue_exclusive q (init_waitqueue_entry id (current w))]> (ep_wq k)) k)).

Definition dequeue_wait (ep : nat) : W unit :=
  q ← liftK (deref (fun k => ep_wq k !! ep));
  liftK (modify (fun k => set_ep_wq (<[ep := __remove_wait_queue q id]> (ep_wq k)) k)).

(** ** Waiting for an opening *)

Definition ep_group (ep : nat) : W (option nat) := w ← get; mret (ep_cmgroup (kern w) !! ep).

(** the loop, and what follows it; [fuel] bounds the number of sleeps *)
Fixpoint wait_available_loop (fuel : nat) (ep : nat) : W bool :=
  match fuel with
  | O => block
  | S fuel' =>
      cm ← ep_group ep;
      match cm with
      | None => oops
      | Some g =>
          av ← liftK (cmgroup_available g);
          if 0 <=? av then mret false
          else
            set_current_state TASK_INTERRUPTIBLE ;;
            sig ← signal_pending;
            if (sig : bool) then mret false
            else
              liftK (cmgroup_request_action g CMGROUP_ACTION_RESET_WAKEONE) ;;
              timed_out ← sleep;
              cm ← ep_group ep;
              match cm with
              | None => oops
              | Some g => liftK (cmgroup_request_action g CMGROUP_ACTION_NEUTRAL)
              end ;;
              if (timed_out : bool) then mret true else wait_available_loop fuel' ep
      end
  end.

Definition ep_cmgroup_wait_available (fuel : nat) (ep : nat) : W bool :=
  enqueue_wait ep ;;
  timed_out ← wait_available_loop fuel ep;
  set_current_state TASK_RUNNING ;;
  dequeue_wait ep ;;
  mret timed_out.

(** ** ep_poll *)

(** [if (current->cmgroup != cmgroup) cmgroup_associate(current, cmgroup, true)] *)
Definition join (cm : option nat) : W unit :=
  w ← get;
  x ← liftK (get_task (current w));
  if bool_decide (task_cmgroup x = cm) then mret tt
  else match cm with
       | Some g => liftK (cmgroup_associate (current w) g true)
       | None => oops
       end.

(** the test of the concurrency limit, [cmgroup_available(cmgroup) < 0] *)
Definition over_limit (cm : option nat) : W bool :=
  match cm with
  | Some g => av ← liftK (cmgroup_available g); mret (av <? 0)
  | None => mret false
  end.

(** how the [for (;;)] loop ends: at [fetch_events_locked_cmcheck] with the
    group noted, or by a break with [res], [timed_out], [slept] and the group *)
Inductive sleep_end :=
  | to_cmcheck (cm : option nat)
  | broke (res : Z) (timed_out slept : bool) (cm : option nat).

Fixpoint sleep_loop (fuel : nat) (ep : nat) (res : Z) (cm : option nat) (timed_out slept : bool)
  : W sleep_end :=
  match fuel with
  | O => block
  | S fuel' =>
      set_current_state TASK_INTERRUPTIBLE ;;
      e ← get_ep ep;
      if ep_events_available e || timed_out then mret (broke res timed_out slept cm)
      else
        sig ← signal_pending;
        if (sig : bool) then mret (broke (- EINTR) timed_out slept cm)
        else
          expired ← sleep;
          let timed_out := timed_out || expired in
          cm' ← ep_group ep;
          if bool_decide (cm = cm') then sleep_loop fuel' ep res cm timed_out true
          else
            join cm' ;;
            if timed_out then sleep_loop fuel' ep res cm' timed_out true
            else
              dequeue_wait ep ;;
              set_current_state TASK_RUNNING ;;
              mret (to_cmcheck cm')
  end.

Inductive poll_label :=
  | fetch_events
  | fetch_events_locked_cmcheck
  | fetch_events_locked
  | check_events.

Variable put_user_ok : nat -> bool.

(** from a label of ep_poll(), with the local variables [res], [cmgroup] and
    [timed_out]; [fuel] bounds the number of jumps and of sleeps *)
Fixpoint ep_poll_from (fuel : nat) (ep : nat) (maxevents : Z) (l : poll_label)
    (res : Z) (cm : option nat) (timed_out : bool) : W Z :=
  match fuel with
  | O => block
  | S fuel' =>
      match l with
      | fetch_events =>
          cm' ← ep_group ep;
          (if bool_decide (cm = cm') then mret tt else join cm') ;;
          ep_poll_from fuel' ep maxevents fetch_events_locked_cmcheck res cm' timed_out
      | fetch_events_locked_cmcheck =>
          over ← over_limit cm;
          if (over : bool) then
            timed_out ← ep_cmgroup_wait_available fuel ep;
            ep_poll_from fuel' ep maxevents
              (if (timed_out : bool) then check_events else fetch_events_locked) res cm timed_out
          else ep_poll_from fuel' ep maxevents fetch_events_locked res cm timed_out
      | fetch_events_locked =>
          e ← get_ep ep;
          if ep_events_available e then ep_poll_from fuel' ep maxevents check_events res cm timed_out
          else
            enqueue_wait ep ;;
            r ← sleep_loop fuel ep res cm timed_out false;
            match r with
            | to_cmcheck cm =>
                ep_poll_from fuel' ep maxevents fetch_events_locked_cmcheck res cm timed_out
            | broke res timed_out slept cm =>
                dequeue_wait ep ;;
                set_current_state TASK_RUNNING ;;
                over ← (if negb timed_out && slept then over_limit cm else mret false);
                if (over : bool) then
                  timed_out ← ep_cmgroup_wait_available fuel ep;
                  ep_poll_from fuel' ep maxevents
                    (if (timed_out : bool) then check_events else fetch_events_locked) res cm timed_out
                else ep_poll_from fuel' ep maxevents check_events res cm timed_out
            end
      | check_events =>
          e ← get_ep ep;
          if (res =? 0) && ep_events_available e then
            res ← ep_send_events vfs_poll put_user_ok ep maxevents;
            if (res =? 0) && negb timed_out
            then ep_poll_from fuel' ep maxevents fetch_events res cm timed_out
            else mret res
          else mret res
      end
  end.

Definition ep_poll (fuel : nat) (ep : nat) (maxevents timeout : Z) : W Z :=
  if timeout =? 0 then
    cm ← ep_group ep;
    match cm with Some _ => join cm | None => mret tt end ;;
    ep_poll_from fuel ep maxevents check_events 0 cm true
  else ep_poll_from fuel ep maxevents fetch_events 0 None false.

(** ** System calls *)

(** INT_MAX / sizeof(struct epoll_event), 12 bytes on x86-64 *)
Definition EP_MAX_EVENTS : Z := INT_MAX / 12.

Definition sys_epoll_wait (fuel : nat) (access_ok : bool) (epfd maxevents timeout : Z) : W Z :=
  if (maxevents <=? 0) || (EP_MAX_EVENTS <? maxevents) then mret (- EINVAL)
  else if negb access_ok then mret (- EFAULT)
  else
    w ← get;
    match fdt (kern w) !! epfd with
    | None => mret (- EBADF)
    | Some file =>
        f ← get_file file;
        if negb (is_file_epoll f) then mret (- EINVAL)
        else ep ← file_ep f; ep_poll fuel ep maxevents timeout
    end.
End EpPoll.
