(* ===== verification/AioRing.v ===== *)
(** * The completion ring of an AIO context (fs/aio.c)

    struct kioctx, the ring buffer it shares with user space, and the
    counters of free ring slots.  The operations here touch one context;
    AioCtx.v composes them with the rest of the kernel.  Reading beyond the
    pages of the ring is an oops. *)

From S2P Require Import Prelude.
Local Open Scope Z_scope.

(** ** Geometry *)

Definition PAGE_SIZE : Z := 4096.
Definition sizeof_io_event : Z := 32.
Definition sizeof_aio_ring : Z := 32.
Definition AIO_RING_PAGES : Z := 8.
Definition AIO_EVENTS_PER_PAGE : Z := PAGE_SIZE / sizeof_io_event.
Definition AIO_EVENTS_FIRST_PAGE : Z := (PAGE_SIZE - sizeof_aio_ring) / sizeof_io_event.
Definition AIO_EVENTS_OFFSET : Z := AIO_EVENTS_PER_PAGE - AIO_EVENTS_FIRST_PAGE.

(** ** Data *)

(** struct io_event *)
Record io_event := IoEvent { obj : Z; ev_data : Z; ev_res : Z; ev_res2 : Z }.

#[export] Instance io_event_eq_dec : EqDecision io_event.
Proof. solve_decision. Defined.

(** struct kioctx.  [ring_pages] are the event slots of each page (the first
    slot of page 0 is under the header), [r_id], [r_nr], [r_head] and
    [r_tail] the fields of the header (struct aio_ring) in page 0, which user
    space can write; [pcpu] is [cpu->reqs_available] of each CPU; [ring_file]
    says whether the context has its file; [users] and [reqs] are the
    counts of the two percpu_refs; [waiters] the tasks on [wait]. *)
Record kioctx := Kioctx {
  users : Z;
  dead : bool;
  reqs : Z;
  user_id : Z;
  pcpu : list Z;
  req_batch : Z;
  max_reqs : Z;
  nr_events : Z;
  mmap_size : Z;
  ring_pages : list (list io_event);
  ring_file : bool;
  reqs_available : Z;
  active_reqs : list nat;
  ring_lock : bool;
  waiters : list nat;
  tail_idx : Z;
  ctx_id : Z;
  r_id : Z;
  r_nr : Z;
  r_head : Z;
  r_tail : Z
}.

Definition set_users (x : Z) (r : kioctx) : kioctx :=
  Kioctx x (dead r) (reqs r) (user_id r) (pcpu r) (req_batch r) (max_reqs r) (nr_events r) (mmap_size r) (ring_pages r) (ring_file r) (reqs_available r) (active_reqs r) (ring_lock r) (waiters r) (tail_idx r) (ctx_id r) (r_id r) (r_nr r) (r_head r) (r_tail r).
Definition set_dead (x : bool) (r : kioctx) : kioctx :=
  Kioctx (users r) x (reqs r) (user_id r) (pcpu r) (req_batch r) (max_reqs r) (nr_events r) (mmap_size r) (ring_pages r) (ring_file r) (reqs_available r) (active_reqs r) (ring_lock r) (waiters r) (tail_idx r) (ctx_id r) (r_id r) (r_nr r) (r_head r) (r_tail r).
Definition set_reqs (x : Z) (r : kioctx) : kioctx :=
  Kioctx (users r) (dead r) x (user_id r) (pcpu r) (req_batch r) (max_reqs r) (nr_events r) (mmap_size r) (ring_pages r) (ring_file r) (reqs_available r) (active_reqs r) (ring_lock r) (waiters r) (tail_idx r) (ctx_id r) (r_id r) (r_nr r) (r_head r) (r_tail r).
Definition set_user_id (x : Z) (r : kioctx) : kioctx :=
  Kioctx (users r) (dead r) (reqs r) x (pcpu r) (req_batch r) (max_reqs r) (nr_events r) (mmap_size r) (ring_pages r) (ring_file r) (reqs_available r) (active_reqs r) (ring_lock r) (waiters r) (tail_idx r) (ctx_id r) (r_id r) (r_nr r) (r_head r) (r_tail r).
Definition set_pcpu (x : list Z) (r : kioctx) : kioctx :=
  Kioctx (users r) (dead r) (reqs r) (user_id r) x (req_batch r) (max_reqs r) (nr_events r) (mmap_size r) (ring_pages r) (ring_file r) (reqs_available r) (active_reqs r) (ring_lock r) (waiters r) (tail_idx r) (ctx_id r) (r_id r) (r_nr r) (r_head r) (r_tail r).
Definition set_req_batch (x : Z) (r : kioctx) : kioctx :=
  Kioctx (users r) (dead r) (reqs r) (user_id r) (pcpu r) x (max_reqs r) (nr_events r) (mmap_size r) (ring_pages r) (ring_file r) (reqs_available r) (active_reqs r) (ring_lock r) (waiters r) (tail_idx r) (ctx_id r) (r_id r) (r_nr r) (r_head r) (r_tail r).
Definition set_max_reqs (x : Z) (r : kioctx) : kioctx :=
  Kioctx (users r) (dead r) (reqs r) (user_id r) (pcpu r) (req_batch r) x (nr_events r) (mmap_size r) (ring_pages r) (ring_file r) (reqs_available r) (active_reqs r) (ring_lock r) (waiters r) (tail_idx r) (ctx_id r) (r_id r) (r_nr r) (r_head r) (r_tail r).
Definition set_nr_events (x : Z) (r : kioctx) : kioctx :=
  Kioctx (users r) (dead r) (reqs r) (user_id r) (pcpu r) (req_batch r) (max_reqs r) x (mmap_size r) (ring_pages r) (ring_file r) (reqs_available r) (active_reqs r) (ring_lock r) (waiters r) (tail_idx r) (ctx_id r) (r_id r) (r_nr r) (r_head r) (r_tail r).
Definition set_mmap_size (x : Z) (r : kioctx) : kioctx :=
  Kioctx (users r) (dead r) (reqs r) (user_id r) (pcpu r) (req_batch r) (max_reqs r) (nr_events r) x (ring_pages r) (ring_file r) (reqs_available r) (active_reqs r) (ring_lock r) (waiters r) (tail_idx r) (ctx_id r) (r_id r) (r_nr r) (r_head r) (r_tail r).
Definition set_ring_pages (x : list (list io_event)) (r : kioctx) : kioctx :=
  Kioctx (users r) (dead r) (reqs r) (user_id r) (pcpu r) (req_batch r) (max_reqs r) (nr_events r) (mmap_size r) x (ring_file r) (reqs_available r) (active_reqs r) (ring_lock r) (waiters r) (tail_idx r) (ctx_id r) (r_id r) (r_nr r) (r_head r) (r_tail r).
Definition set_ring_file (x : bool) (r : kioctx) : kioctx :=
  Kioctx (users r) (dead r) (reqs r) (user_id r) (pcpu r) (req_batch r) (max_reqs r) (nr_events r) (mmap_size r) (ring_pages r) x (reqs_available r) (active_reqs r) (ring_lock r) (waiters r) (tail_idx r) (ctx_id r) (r_id r) (r_nr r) (r_head r) (r_tail r).
Definition set_reqs_available (x : Z) (r : kioctx) : kioctx :=
  Kioctx (users r) (dead r) (reqs r) (user_id r) (pcpu r) (req_batch r) (max_reqs r) (nr_events r) (mmap_size r) (ring_pages r) (ring_file r) x (active_reqs r) (ring_lock r) (waiters r) (tail_idx r) (ctx_id r) (r_id r) (r_nr r) (r_head r) (r_tail r).
Definition set_active_reqs (x : list nat) (r : kioctx) : kioctx :=
  Kioctx (users r) (dead r) (reqs r) (user_id r) (pcpu r) (req_batch r) (max_reqs r) (nr_events r) (mmap_size r) (ring_pages r) (ring_file r) (reqs_available r) x (ring_lock r) (waiters r) (tail_idx r) (ctx_id r) (r_id r) (r_nr r) (r_head r) (r_tail r).
Definition set_ring_lock (x : bool) (r : kioctx) : kioctx :=
  Kioctx (users r) (dead r) (reqs r) (user_id r) (pcpu r) (req_batch r) (max_reqs r) (nr_events r) (mmap_size r) (ring_pages r) (ring_file r) (reqs_available r) (active_reqs r) x (waiters r) (tail_idx r) (ctx_id r) (r_id r) (r_nr r) (r_head r) (r_tail r).
Definition set_waiters (x : list nat) (r : kioctx) : kioctx :=
  Kioctx (users r) (dead r) (reqs r) (user_id r) (pcpu r) (req_batch r) (max_reqs r) (nr_events r) (mmap_size r) (ring_pages r) (ring_file r) (reqs_available r) (active_reqs r) (ring_lock r) x (tail_idx r) (ctx_id r) (r_id r) (r_nr r) (r_head r) (r_tail r).
Definition set_tail_idx (x : Z) (r : kioctx) : kioctx :=
  Kioctx (users r) (dead r) (reqs r) (user_id r) (pcpu r) (req_batch r) (max_reqs r) (nr_events r) (mmap_size r) (ring_pages r) (ring_file r) (reqs_available r) (active_reqs r) (ring_lock r) (waiters r) x (ctx_id r) (r_id r) (r_nr r) (r_head r) (r_tail r).
Definition set_ctx_id (x : Z) (r : kioctx) : kioctx :=
  Kioctx (users r) (dead r) (reqs r) (user_id r) (pcpu r) (req_batch r) (max_reqs r) (nr_events r) (mmap_size r) (ring_pages r) (ring_file r) (reqs_available r) (active_reqs r) (ring_lock r) (waiters r) (tail_idx r) x (r_id r) (r_nr r) (r_head r) (r_tail r).
Definition set_r_id (x : Z) (r : kioctx) : kioctx :=
  Kioctx (users r) (dead r) (reqs r) (user_id r) (pcpu r) (req_batch r) (max_reqs r) (nr_events r) (mmap_size r) (ring_pages r) (ring_file r) (reqs_available r) (active_reqs r) (ring_lock r) (waiters r) (tail_idx r) (ctx_id r) x (r_nr r) (r_head r) (r_tail r).
Definition set_r_nr (x : Z) (r : kioctx) : kioctx :=
  Kioctx (users r) (dead r) (reqs r) (user_id r) (pcpu r) (req_batch r) (max_reqs r) (nr_events r) (mmap_size r) (ring_pages r) (ring_file r) (reqs_available r) (active_reqs r) (ring_lock r) (waiters r) (tail_idx r) (ctx_id r) (r_id r) x (r_head r) (r_tail r).
Definition set_r_head (x : Z) (r : kioctx) : kioctx :=
  Kioctx (users r) (dead r) (reqs r) (user_id r) (pcpu r) (req_batch r) (max_reqs r) (nr_events r) (mmap_size r) (ring_pages r) (ring_file r) (reqs_available r) (active_reqs r) (ring_lock r) (waiters r) (tail_idx r) (ctx_id r) (r_id r) (r_nr r) x (r_tail r).
Definition set_r_tail (x : Z) (r : kioctx) : kioctx :=
  Kioctx (users r) (dead r) (reqs r) (user_id r) (pcpu r) (req_batch r) (max_reqs r) (nr_events r) (mmap_size r) (ring_pages r) (ring_file r) (reqs_available r) (active_reqs r) (ring_lock r) (waiters r) (tail_idx r) (ctx_id r) (r_id r) (r_nr r) (r_head r) x.

(** a context is the state of the operations below *)
Abbreviation C := (M kioctx).

(** ** Counting free slots *)

Definition get_kcpu (cpu : nat) : C Z := deref (fun c => pcpu c !! cpu).
Definition put_kcpu (cpu : nat) (n : Z) : C unit :=
  modify (fun c => set_pcpu (<[cpu := n]> (pcpu c)) c).

(** the loop that moves batches to the global counter; each round takes
    [req_batch] (at least 1) from [kcpu], which bounds the rounds *)
Fixpoint return_batches (fuel : nat) (cpu : nat) : C unit :=
  match fuel with
  | O => block
  | S fuel' =>
      c ← get;
      n ← get_kcpu cpu;
      if u32 (req_batch c * 2) <=? n then
        put_kcpu cpu (u32 (n - req_batch c)) ;;
        modify (fun c => set_reqs_available (s32 (reqs_available c + req_batch c)) c) ;;
        return_batches fuel' cpu
      else mret tt
  end.

Definition put_reqs_available (cpu : nat) (nr : Z) : C unit :=
  n ← get_kcpu cpu;
  put_kcpu cpu (u32 (n + nr)) ;;
  return_batches (S (Z.to_nat (u32 (n + nr)))) cpu.

(** the cmpxchg loop succeeds at its first round when nobody interferes *)
Definition get_reqs_available (cpu : nat) : C bool :=
  n ← get_kcpu cpu;
  c ← get;
  if n =? 0 then
    if u32 (reqs_available c) <? req_batch c then mret false
    else
      modify (fun c => set_reqs_available (s32 (reqs_available c - req_batch c)) c) ;;
      put_kcpu cpu (u32 (u32 (n + req_batch c) - 1)) ;;
      mret true
  else put_kcpu cpu (u32 (n - 1)) ;; mret true.

(** ** Writing a completion: the part of aio_complete() under
    completion_lock *)

Definition page_at (pos : Z) : C (list io_event) :=
  deref (fun c => ring_pages c !! Z.to_nat (pos / AIO_EVENTS_PER_PAGE)).

Definition ring_push (ev : io_event) : C unit :=
  c ← get;
  let tail := tail_idx c in
  let pos := u32 (tail + AIO_EVENTS_OFFSET) in
  let tail := if nr_events c <=? u32 (tail + 1) then 0 else u32 (tail + 1) in
  page ← page_at pos;
  modify (fun c => set_ring_pages
    (<[Z.to_nat (pos / AIO_EVENTS_PER_PAGE) :=
        <[Z.to_nat (pos mod AIO_EVENTS_PER_PAGE) := ev]> page]> (ring_pages c)) c) ;;
  modify (set_tail_idx tail) ;;
  modify (set_r_tail tail).

(** ** Reading completions *)

(** [copy_ok n] says whether the [n]-th slot of the user's buffer, and all
    before it, can be written *)
Section Read.
Variable copy_ok : Z -> bool.

(** the loop of aio_read_events_ring(): [inl] with the events read and the
    new head, or [inr] after a fault *)
Fixpoint ring_read (fuel : nat) (head tail ret nr : Z) (out : list io_event)
  : C ((Z * Z * list io_event) + unit) :=
  match fuel with
  | O => block
  | S fuel' =>
      if negb (ret <? nr) then mret (inl (ret, head, out))
      else
        c ← get;
        let avail := u32 ((if head <=? tail then tail else nr_events c) - head) in
        if head =? tail then mret (inl (ret, head, out))
        else
          let avail := Z.min avail (nr - ret) in
          let avail := Z.min avail
            (AIO_EVENTS_PER_PAGE - u32 (head + AIO_EVENTS_OFFSET) mod AIO_EVENTS_PER_PAGE) in
          let pos := u32 (head + AIO_EVENTS_OFFSET) in
          page ← page_at pos;
          let ev := take (Z.to_nat avail) (drop (Z.to_nat (pos mod AIO_EVENTS_PER_PAGE)) page) in
          if negb (copy_ok (ret + avail)) then mret (inr tt)
          else
            ring_read fuel' (u32 (head + avail) mod nr_events c) tail (ret + avail) nr (out ++ ev)
  end.

(** returns the result and the events that were copied to the user *)
Definition aio_read_events_ring (cpu : nat) (nr : Z) : C (Z * list io_event) :=
  c ← get;
  if ring_lock c then block
  else
    modify (set_ring_lock true) ;;
    r ← (if r_head c =? r_tail c then mret (0, [])
         else
           r ← ring_read (S (Z.to_nat (nr_events c))) (r_head c) (r_tail c) 0 nr [];
           match r with
           | inr _ => mret (- EFAULT, [])
           | inl (ret, head, out) =>
               modify (set_r_head head) ;;
               put_reqs_available cpu (u32 ret) ;;
               mret (ret, out)
           end);
    modify (set_ring_lock false) ;;
    mret r.
End Read.

(** ** Setting up the ring *)

Section Setup.
(** what the mm provides: the private file, the array of page pointers when
    it is needed, the pages, and the address of the mapping (negative when it
    fails) *)
Variables (file_ok array_ok : bool) (page_ok : nat -> bool) (mmap_addr : Z).

(** size_t arithmetic, and the conversion of PFN_UP(size) to int *)
Definition ring_nr_pages (max_reqs : Z) : Z :=
  let nr_events := u32 (max_reqs + 2) in
  let size := u64 (sizeof_aio_ring + sizeof_io_event * nr_events) in
  s32 (u64 (size + PAGE_SIZE - 1) / PAGE_SIZE).

Definition ring_nr_events (nr_pages : Z) : Z :=
  u32 ((PAGE_SIZE * nr_pages - sizeof_aio_ring) / sizeof_io_event).

Definition put_aio_ring_file : C unit :=
  modify (set_ring_file false).

Definition aio_free_ring : C unit :=
  modify (set_ring_pages []) ;; put_aio_ring_file.

(** the pages that could be allocated before the first failure *)
Fixpoint alloc_pages (n : nat) (i : nat) : list (list io_event) :=
  match n with
  | O => []
  | S n' =>
      if page_ok i
      then replicate (Z.to_nat AIO_EVENTS_PER_PAGE) (IoEvent 0 0 0 0) :: alloc_pages n' (S i)
      else []
  end.

Definition aio_setup_ring : C Z :=
  c ← get;
  let nr_pages := ring_nr_pages (max_reqs c) in
  if nr_pages <? 0 then mret (- EINVAL)
  else if negb file_ok then modify (set_ring_file false) ;; mret (- EAGAIN)
  else
    modify (set_ring_file true) ;;
    let nr_events := ring_nr_events nr_pages in
    if (AIO_RING_PAGES <? nr_pages) && negb array_ok then
      put_aio_ring_file ;; mret (- ENOMEM)
    else
      let pages := alloc_pages (Z.to_nat nr_pages) 0 in
      modify (set_ring_pages pages) ;;
      if negb (Z.of_nat (length pages) =? nr_pages) then aio_free_ring ;; mret (- EAGAIN)
      else if mmap_addr <? 0 then
        modify (set_mmap_size 0) ;; aio_free_ring ;; mret (- EAGAIN)
      else
        modify (fun c =>
          set_mmap_size (nr_pages * PAGE_SIZE)
            (set_user_id mmap_addr (set_nr_events nr_events
              (set_r_nr nr_events (set_r_id (2 ^ 32 - 1) (set_r_head 0 (set_r_tail 0 c))))))) ;;
        mret 0.
End Setup.

(** the counters of free slots, as ioctx_alloc() initialises them *)
Definition init_counters (num_possible_cpus : Z) (c : kioctx) : kioctx :=
  let batch := u32 (nr_events c - 1) / u32 (num_possible_cpus * 4) in
  set_reqs_available (s32 (nr_events c - 1))
    (set_req_batch (if batch <? 1 then 1 else batch) c).
