(* ===== verification/AioCtx.v ===== *)
(** * Asynchronous I/O contexts and requests (fs/aio.c)

    The table of contexts of a process, the life of a context and of its
    requests, and the system calls that submit, cancel and collect them.
    The ring of a context is in AioRing.v; the group a context is attached
    to is in the kernel state of Cmgroup.v.  The file systems and drivers
    that execute a request are parameters. *)

From S2P Require Import Prelude Wait Tasklet Cmgroup Sched CmWake AioRing.
Local Open Scope Z_scope.

(** ** Data *)

(** [ki_ctx]: NULL marks a synchronous request, ERR_PTR(-EXDEV) one of them
    that is complete *)
Inductive ki_ctx_t := Ctx (ctx : nat) | Sync | SyncDone.

(** [ki_cancel] *)
Inductive ki_cancel_t := no_cancel | can_cancel | KIOCB_CANCELLED.

(** struct kiocb; [ki_linked] says that [ki_list.next] is not NULL *)
Record kiocb := Kiocb {
  ki_ctx : ki_ctx_t;
  ki_cancel : ki_cancel_t;
  ki_linked : bool;
  ki_filp : option nat;
  ki_eventfd : option nat;
  ki_user : Z;
  ki_tsk : nat;
  ki_user_data : Z;
  ki_pos : Z;
  ki_nbytes : Z
}.

Definition set_ki_ctx (x : ki_ctx_t) (r : kiocb) : kiocb :=
  Kiocb x (ki_cancel r) (ki_linked r) (ki_filp r) (ki_eventfd r) (ki_user r) (ki_tsk r) (ki_user_data r) (ki_pos r) (ki_nbytes r).
Definition set_ki_cancel (x : ki_cancel_t) (r : kiocb) : kiocb :=
  Kiocb (ki_ctx r) x (ki_linked r) (ki_filp r) (ki_eventfd r) (ki_user r) (ki_tsk r) (ki_user_data r) (ki_pos r) (ki_nbytes r).
Definition set_ki_linked (x : bool) (r : kiocb) : kiocb :=
  Kiocb (ki_ctx r) (ki_cancel r) x (ki_filp r) (ki_eventfd r) (ki_user r) (ki_tsk r) (ki_user_data r) (ki_pos r) (ki_nbytes r).
Definition set_ki_filp (x : option nat) (r : kiocb) : kiocb :=
  Kiocb (ki_ctx r) (ki_cancel r) (ki_linked r) x (ki_eventfd r) (ki_user r) (ki_tsk r) (ki_user_data r) (ki_pos r) (ki_nbytes r).
Definition set_ki_eventfd (x : option nat) (r : kiocb) : kiocb :=
  Kiocb (ki_ctx r) (ki_cancel r) (ki_linked r) (ki_filp r) x (ki_user r) (ki_tsk r) (ki_user_data r) (ki_pos r) (ki_nbytes r).
Definition set_ki_user (x : Z) (r : kiocb) : kiocb :=
  Kiocb (ki_ctx r) (ki_cancel r) (ki_linked r) (ki_filp r) (ki_eventfd r) x (ki_tsk r) (ki_user_data r) (ki_pos r) (ki_nbytes r).
Definition set_ki_tsk (x : nat) (r : kiocb) : kiocb :=
  Kiocb (ki_ctx r) (ki_cancel r) (ki_linked r) (ki_filp r) (ki_eventfd r) (ki_user r) x (ki_user_data r) (ki_pos r) (ki_nbytes r).
Definition set_ki_user_data (x : Z) (r : kiocb) : kiocb :=
  Kiocb (ki_ctx r) (ki_cancel r) (ki_linked r) (ki_filp r) (ki_eventfd r) (ki_user r) (ki_tsk r) x (ki_pos r) (ki_nbytes r).
Definition set_ki_pos (x : Z) (r : kiocb) : kiocb :=
  Kiocb (ki_ctx r) (ki_cancel r) (ki_linked r) (ki_filp r) (ki_eventfd r) (ki_user r) (ki_tsk r) (ki_user_data r) x (ki_nbytes r).
Definition set_ki_nbytes (x : Z) (r : kiocb) : kiocb :=
  Kiocb (ki_ctx r) (ki_cancel r) (ki_linked r) (ki_filp r) (ki_eventfd r) (ki_user r) (ki_tsk r) (ki_user_data r) (ki_pos r) x.

(** The side of an open file that AIO uses: its reference count, its mode,
    and which of the methods aio_read, aio_write and aio_fsync it has. *)
Record iofile := Iofile {
  f_count : Z;
  fmode_read : bool;
  fmode_write : bool;
  aio_read : bool;
  aio_write : bool;
  aio_fsync : bool
}.

Definition set_f_count (x : Z) (r : iofile) : iofile :=
  Iofile x (fmode_read r) (fmode_write r) (aio_read r) (aio_write r) (aio_fsync r).

(** struct iocb, as user space fills it *)
Record iocb := Iocb {
  aio_data : Z;
  aio_reserved1 : Z;
  aio_reserved2 : Z;
  aio_lio_opcode : Z;
  aio_fildes : Z;
  aio_buf : Z;
  aio_nbytes : Z;
  aio_offset : Z;
  aio_flags : Z;
  aio_resfd : Z
}.

(** The world of AIO: the kernel, the contexts and requests that are
    allocated, the files, the counters and reference counts of the eventfds,
    the table of the process (struct kioctx_table: [None] when there is
    none), the contexts whose work free_ioctx is scheduled, the mappings of
    the rings, and what the allocator will do. *)
Record aio := Aio {
  akern : kernel;
  ctxs : gmap nat kioctx;
  kiocbs : gmap nat kiocb;
  iofiles : gmap nat iofile;
  eventfds : gmap nat (Z * Z);
  ioctx_table : option (list (option nat));
  aio_nr : Z;
  aio_works : list nat;
  mmaps : gset Z;
  aallocs : list bool;
  aaddr : nat;
  acurrent : nat
}.

Definition set_akern (x : kernel) (r : aio) : aio :=
  Aio x (ctxs r) (kiocbs r) (iofiles r) (eventfds r) (ioctx_table r) (aio_nr r) (aio_works r) (mmaps r) (aallocs r) (aaddr r) (acurrent r).
Definition set_ctxs (x : gmap nat kioctx) (r : aio) : aio :=
  Aio (akern r) x (kiocbs r) (iofiles r) (eventfds r) (ioctx_table r) (aio_nr r) (aio_works r) (mmaps r) (aallocs r) (aaddr r) (acurrent r).
Definition set_kiocbs (x : gmap nat kiocb) (r : aio) : aio :=
  Aio (akern r) (ctxs r) x (iofiles r) (eventfds r) (ioctx_table r) (aio_nr r) (aio_works r) (mmaps r) (aallocs r) (aaddr r) (acurrent r).
Definition set_iofiles (x : gmap nat iofile) (r : aio) : aio :=
  Aio (akern r) (ctxs r) (kiocbs r) x (eventfds r) (ioctx_table r) (aio_nr r) (aio_works r) (mmaps r) (aallocs r) (aaddr r) (acurrent r).
Definition set_eventfds (x : gmap nat (Z * Z)) (r : aio) : aio :=
  Aio (akern r) (ctxs r) (kiocbs r) (iofiles r) x (ioctx_table r) (aio_nr r) (aio_works r) (mmaps r) (aallocs r) (aaddr r) (acurrent r).
Definition set_ioctx_table (x : option (list (option nat))) (r : aio) : aio :=
  Aio (akern r) (ctxs r) (kiocbs r) (iofiles r) (eventfds r) x (aio_nr r) (aio_works r) (mmaps r) (aallocs r) (aaddr r) (acurrent r).
Definition set_aio_nr (x : Z) (r : aio) : aio :=
  Aio (akern r) (ctxs r) (kiocbs r) (iofiles r) (eventfds r) (ioctx_table r) x (aio_works r) (mmaps r) (aallocs r) (aaddr r) (acurrent r).
Definition set_aio_works (x : list nat) (r : aio) : aio :=
  Aio (akern r) (ctxs r) (kiocbs r) (iofiles r) (eventfds r) (ioctx_table r) (aio_nr r) x (mmaps r) (aallocs r) (aaddr r) (acurrent r).
Definition set_mmaps (x : gset Z) (r : aio) : aio :=
  Aio (akern r) (ctxs r) (kiocbs r) (iofiles r) (eventfds r) (ioctx_table r) (aio_nr r) (aio_works r) x (aallocs r) (aaddr r) (acurrent r).
Definition set_aallocs (x : list bool) (r : aio) : aio :=
  Aio (akern r) (ctxs r) (kiocbs r) (iofiles r) (eventfds r) (ioctx_table r) (aio_nr r) (aio_works r) (mmaps r) x (aaddr r) (acurrent r).
Definition set_aaddr (x : nat) (r : aio) : aio :=
  Aio (akern r) (ctxs r) (kiocbs r) (iofiles r) (eventfds r) (ioctx_table r) (aio_nr r) (aio_works r) (mmaps r) (aallocs r) x (acurrent r).
Definition set_acurrent (x : nat) (r : aio) : aio :=
  Aio (akern r) (ctxs r) (kiocbs r) (iofiles r) (eventfds r) (ioctx_table r) (aio_nr r) (aio_works r) (mmaps r) (aallocs r) (aaddr r) x.

Abbreviation A := (M aio).

(** ** Access *)

Definition lift_kern {B} (m : K B) : A B := fun s =>
  match m (akern s) with
  | Ret a k => Ret a (set_akern k s)
  | Blocked k => Blocked (set_akern k s)
  | Oops => Oops
  end.

(** run an operation on a context *)
Definition on_ctx {B} (ctx : nat) (m : C B) : A B := fun s =>
  match ctxs s !! ctx with
  | None => Oops
  | Some c =>
      match m c with
      | Ret a c' => Ret a (set_ctxs (<[ctx := c']> (ctxs s)) s)
      | Blocked c' => Blocked (set_ctxs (<[ctx := c']> (ctxs s)) s)
      | Oops => Oops
      end
  end.

Definition get_ctx (ctx : nat) : A kioctx := deref (fun s => ctxs s !! ctx).
Definition upd_ctx (ctx : nat) (f : kioctx -> kioctx) : A unit := on_ctx ctx (modify f).

Definition get_req (r : nat) : A kiocb := deref (fun s => kiocbs s !! r).
Definition upd_req (r : nat) (f : kiocb -> kiocb) : A unit :=
  x ← get_req r; modify (fun s => set_kiocbs (<[r := f x]> (kiocbs s)) s).

Definition kmem_zalloc : A (option nat) :=
  s ← get;
  let ok := match aallocs s with [] => true | b :: _ => b end in
  modify (set_aallocs (tail (aallocs s))) ;;
  if ok then modify (set_aaddr (S (aaddr s))) ;; mret (Some (aaddr s)) else mret None.

Definition smp_processor_id : A nat := s ← get; mret (this_cpu (akern s)).

(** fput() and eventfd_ctx_put(): one reference less *)
Definition fput (f : nat) : A unit :=
  x ← deref (fun s => iofiles s !! f);
  modify (fun s => set_iofiles (<[f := set_f_count (f_count x - 1) x]> (iofiles s)) s).

Definition eventfd_ctx_put (e : nat) : A unit :=
  x ← deref (fun s => eventfds s !! e);
  modify (fun s => set_eventfds (<[e := (fst x, snd x - 1)]> (eventfds s)) s).

Definition eventfd_signal (e : nat) (n : Z) : A unit :=
  x ← deref (fun s => eventfds s !! e);
  modify (fun s => set_eventfds (<[e := (fst x + n, snd x)]> (eventfds s)) s).

(** ** Requests *)

Definition put_slots (ctx : nat) (nr : Z) : A unit :=
  cpu ← smp_processor_id; on_ctx ctx (put_reqs_available cpu nr).

Definition aio_get_req (ctx : nat) : A (option nat) :=
  cpu ← smp_processor_id;
  got ← on_ctx ctx (get_reqs_available cpu);
  if negb got then mret None
  else
    r ← kmem_zalloc;
    match r with
    | None => put_slots ctx 1 ;; mret None
    | Some r =>
        upd_ctx ctx (fun c => set_reqs (reqs c + 1) c) ;;
        modify (fun s => set_kiocbs
          (<[r := Kiocb (Ctx ctx) no_cancel false None None 0 0 0 0 0]> (kiocbs s)) s) ;;
        mret (Some r)
    end.

Definition kiocb_free (r : nat) : A unit :=
  x ← get_req r;
  match ki_filp x with Some f => fput f | None => mret tt end ;;
  match ki_eventfd x with Some e => eventfd_ctx_put e | None => mret tt end ;;
  modify (fun s => set_kiocbs (delete r (kiocbs s)) s).

Definition kiocb_set_cancel_fn (r : nat) : A unit :=
  x ← get_req r;
  match ki_ctx x with
  | Ctx ctx =>
      (if ki_linked x then mret tt
       else upd_ctx ctx (fun c => set_active_reqs (r :: active_reqs c) c)) ;;
      upd_req r (fun x => set_ki_linked true (set_ki_cancel can_cancel x))
  | _ => oops
  end.

(** percpu_ref_put(&ctx->reqs): the last reference schedules free_ioctx() *)
Definition free_ioctx_reqs (ctx : nat) : A unit :=
  modify (fun s => set_aio_works (aio_works s ++ [ctx]) s).

Definition reqs_put (ctx : nat) : A unit :=
  c ← get_ctx ctx;
  upd_ctx ctx (set_reqs (reqs c - 1)) ;;
  if reqs c - 1 =? 0 then free_ioctx_reqs ctx else mret tt.

(** wake_up() and wake_up_all() on [ctx->wait], whose entries are not
    exclusive and leave the queue when their task is woken *)
Fixpoint wake_waiters (ctx : nat) (l : list nat) : A unit :=
  match l with
  | [] => mret tt
  | t :: l' =>
      b ← lift_kern (try_to_wake_up t TASK_NORMAL);
      (if (b : bool)
       then upd_ctx ctx (fun c => set_waiters (filter (fun u => u <> t) (waiters c)) c)
       else mret tt) ;;
      wake_waiters ctx l'
  end.

Definition wake_ctx (ctx : nat) : A unit := c ← get_ctx ctx; wake_waiters ctx (waiters c).

Definition aio_complete (r : nat) (res res2 : Z) : A unit :=
  x ← get_req r;
  match ki_ctx x with
  | Sync =>
      upd_req r (fun x => set_ki_ctx SyncDone (set_ki_user_data res x)) ;;
      lift_kern (wake_up_process (ki_tsk x)) ;; mret tt
  | SyncDone => oops
  | Ctx ctx =>
      (if ki_linked x
       then upd_ctx ctx (fun c => set_active_reqs (filter (fun q => q <> r) (active_reqs c)) c)
       else mret tt) ;;
      on_ctx ctx (ring_push (IoEvent (ki_user x) (ki_user_data x) res res2)) ;;
      match ki_eventfd x with Some e => eventfd_signal e 1 | None => mret tt end ;;
      kiocb_free r ;;
      c ← get_ctx ctx;
      (if bool_decide (waiters c = []) then mret tt else wake_ctx ctx) ;;
      reqs_put ctx
  end.

(** the sleep of wait_on_sync_kiocb() *)
Fixpoint wait_on_sync_kiocb (io_schedule : A unit) (fuel : nat) (r : nat) : A Z :=
  match fuel with
  | O => block
  | S fuel' =>
      x ← get_req r;
      s ← get;
      match ki_ctx x with
      | Sync =>
          lift_kern (t ← get_task (acurrent s);
                     put_task (acurrent s) (set_tstate TASK_UNINTERRUPTIBLE t)) ;;
          io_schedule ;;
          wait_on_sync_kiocb io_schedule fuel' r
      | _ =>
          lift_kern (t ← get_task (acurrent s);
                     put_task (acurrent s) (set_tstate TASK_RUNNING t)) ;;
          mret (ki_user_data x)
      end
  end.

Section AioCtx.
Context `{WaitLib}.

(** the driver's cancel method *)
Variable cancel : nat -> A Z.

Definition kiocb_cancel (r : nat) : A Z :=
  x ← get_req r;
  match ki_cancel x with
  | can_cancel => upd_req r (set_ki_cancel KIOCB_CANCELLED) ;; cancel r
  | _ => mret (- EINVAL)
  end.

(** ** The end of a context *)

Variables (msleep : K unit) (lockout : nat).

(** the work function *)
Definition free_ioctx (ctx : nat) : A unit :=
  on_ctx ctx aio_free_ring ;;
  lift_kern (free_ioctx_cmgroup msleep lockout ctx) ;;
  modify (fun s => set_ctxs (delete ctx (ctxs s)) s).

(** the worker thread reaches the first scheduled work *)
Definition run_free_ioctx : A unit :=
  s ← get;
  match aio_works s with
  | [] => mret tt
  | ctx :: l => modify (set_aio_works l) ;; free_ioctx ctx
  end.

(** while (!list_empty(&ctx->active_reqs)) *)
Fixpoint cancel_all (fuel : nat) (ctx : nat) : A unit :=
  match fuel with
  | O => block
  | S fuel' =>
      c ← get_ctx ctx;
      match active_reqs c with
      | [] => mret tt
      | r :: l =>
          upd_ctx ctx (set_active_reqs l) ;;
          kiocb_cancel r ;;
          cancel_all fuel' ctx
      end
  end.

Definition free_ioctx_users (ctx : nat) : A unit :=
  c ← get_ctx ctx;
  cancel_all (S (length (active_reqs c))) ctx ;;
  reqs_put ctx ;;
  reqs_put ctx.

(** percpu_ref_put(&ctx->users), and percpu_ref_kill(), which drops the
    initial reference *)
Definition users_put (ctx : nat) : A unit :=
  c ← get_ctx ctx;
  upd_ctx ctx (set_users (users c - 1)) ;;
  if users c - 1 =? 0 then free_ioctx_users ctx else mret tt.

(** ** The table of contexts *)

Fixpoint first_free (l : list (option nat)) : option nat :=
  match l with
  | [] => None
  | None :: _ => Some O
  | Some _ :: l' => option_map S (first_free l')
  end.

(** a round of the loop is repeated after the table has grown *)
Fixpoint ioctx_add_table (fuel : nat) (ctx : nat) : A Z :=
  match fuel with
  | O => block
  | S fuel' =>
      s ← get;
      let table := ioctx_table s in
      match table ≫= first_free with
      | Some i =>
          upd_ctx ctx (set_ctx_id (Z.of_nat i)) ;;
          modify (set_ioctx_table (Some (<[i := Some ctx]> (default [] table)))) ;;
          upd_ctx ctx (set_r_id (Z.of_nat i)) ;;
          mret 0
      | None =>
          let new_nr := ((match table with Some t => length t | None => 1 end) * 4)%nat in
          a ← kmem_zalloc;
          match a with
          | None => mret (- ENOMEM)
          | Some _ =>
              s ← get;
              match ioctx_table s with
              | None => modify (set_ioctx_table (Some (replicate new_nr None)))
              | Some old =>
                  if decide (length old < new_nr)%nat
                  then modify (set_ioctx_table (Some (old ++ replicate (new_nr - length old) None)))
                  else mret tt
              end ;;
              ioctx_add_table fuel' ctx
          end
      end
  end.

Definition aio_nr_sub (nr : Z) : A unit :=
  s ← get;
  modify (set_aio_nr (if aio_nr s <? u64 (aio_nr s - nr) then 0 else u64 (aio_nr s - nr))).

(** what the address [ctx_id] holds in user space: [uid] is the result of
    get_user(id, &ring->id), [None] when it faults *)
Definition lookup_ioctx (uid : option Z) (addr : Z) : A (option nat) :=
  s ← get;
  match uid, ioctx_table s with
  | Some id, Some table =>
      if Z.of_nat (length table) <=? id then mret None
      else
        match table !! Z.to_nat id with
        | Some (Some ctx) =>
            c ← get_ctx ctx;
            if user_id c =? addr then
              upd_ctx ctx (set_users (users c + 1)) ;; mret (Some ctx)
            else mret None
        | _ => mret None
        end
  | _, _ => mret None
  end.

Definition kill_ioctx (ctx : nat) : A unit :=
  c ← get_ctx ctx;
  if dead c then mret tt
  else
    upd_ctx ctx (set_dead true) ;;
    s ← get;
    match ioctx_table s with
    | None => oops
    | Some table =>
        if Z.of_nat (length table) <=? ctx_id c then oops
        else modify (set_ioctx_table (Some (<[Z.to_nat (ctx_id c) := None]> table)))
    end ;;
    wake_ctx ctx ;;
    aio_nr_sub (max_reqs c) ;;
    (if mmap_size c =? 0 then mret tt
     else modify (fun s => set_mmaps (mmaps s ∖ {[user_id c]}) s)) ;;
    users_put ctx.

(** the loop of exit_aio(), from index [i] *)
Fixpoint exit_from (fuel : nat) (i : nat) : A unit :=
  match fuel with
  | O => block
  | S fuel' =>
      s ← get;
      match ioctx_table s ≫= (fun t => t !! i) with
      | None => modify (set_ioctx_table None)
      | Some None => exit_from fuel' (S i)
      | Some (Some ctx) =>
          upd_ctx ctx (set_mmap_size 0) ;;
          kill_ioctx ctx ;;
          exit_from fuel' (S i)
      end
  end.

Definition exit_aio : A unit :=
  s ← get; exit_from (S (length (default [] (ioctx_table s)))) 0.

(** ** Creating a context *)

(** [sizeof_kiocb] (include/linux/aio.h is not part of the tree), the number
    of possible CPUs, the sysctl aio_max_nr *)
Variables (sizeof_kiocb num_possible_cpus aio_max_nr : Z).

(** from label [err], and from [err_ctx] *)
Definition ioctx_err (ctx : nat) (error : Z) : A (Z + nat) :=
  modify (fun s => set_ctxs (delete ctx (ctxs s)) s) ;; mret (inl error).
Definition ioctx_err_ctx (ctx : nat) (error : Z) : A (Z + nat) :=
  on_ctx ctx aio_free_ring ;; ioctx_err ctx error.

(** from the system-wide limit on: the context becomes known *)
Definition ioctx_publish (ctx : nat) (nr : Z) : A (Z + nat) :=
  s ← get;
  if (u64 (aio_max_nr * 2) <? u64 (aio_nr s + nr)) || (u64 (aio_nr s + nr) <? aio_nr s)
  then ioctx_err_ctx ctx (- EAGAIN)
  else
    modify (set_aio_nr (u64 (aio_nr s + nr))) ;;
    upd_ctx ctx (fun c => set_users (users c + 1) (set_reqs (reqs c + 1) c)) ;;
    err ← ioctx_add_table 2 ctx;
    if negb (err =? 0) then aio_nr_sub nr ;; ioctx_err_ctx ctx err
    else
      lift_kern (modify (fun k => set_aio_cmgroup (delete ctx (aio_cmgroup k)) k)) ;;
      mret (inr ctx).

(** [setup] is aio_setup_ring() *)
Definition ioctx_alloc (setup : C Z) (nr : Z) : A (Z + nat) :=
  let nr := u32 (Z.max nr (u32 (num_possible_cpus * 4)) * 2) in
  if (268435456 / sizeof_io_event <? nr) || (268435456 / sizeof_kiocb <? nr)
  then mret (inl (- EINVAL))
  else if (nr =? 0) || (u64 (aio_max_nr * 2) <? nr) then mret (inl (- EAGAIN))
  else
    a ← kmem_zalloc;
    match a with
    | None => mret (inl (- ENOMEM))
    | Some ctx =>
        modify (fun s => set_ctxs (<[ctx :=
          Kioctx 1 false 1 0 [] 0 nr 0 0 [] false 0 [] false [] 0 0 0 0 0 0]> (ctxs s)) s) ;;
        a1 ← kmem_zalloc;   (* percpu_ref_init(&ctx->users) *)
        if bool_decide (a1 = None) then ioctx_err ctx (- ENOMEM) else
        a2 ← kmem_zalloc;   (* percpu_ref_init(&ctx->reqs) *)
        if bool_decide (a2 = None) then ioctx_err ctx (- ENOMEM) else
        a3 ← kmem_zalloc;   (* alloc_percpu(struct kioctx_cpu) *)
        if bool_decide (a3 = None) then ioctx_err ctx (- ENOMEM) else
        upd_ctx ctx (set_pcpu (replicate (Z.to_nat num_possible_cpus) 0)) ;;
        e ← on_ctx ctx setup;
        if e <? 0 then ioctx_err ctx (- ENOMEM) else
        c ← get_ctx ctx;
        modify (fun s => set_mmaps ({[user_id c]} ∪ mmaps s) s) ;;
        upd_ctx ctx (init_counters num_possible_cpus) ;;
        ioctx_publish ctx nr
    end.

(** [ctxp] is the value at the user's pointer ([None]: it faults) and
    [put_ok] whether it can be written *)
Definition sys_io_setup (setup : C Z) (nr : Z) (ctxp : option Z) (put_ok : bool) : A Z :=
  match ctxp with
  | None => mret (- EFAULT)
  | Some ctx =>
      if negb (ctx =? 0) || (nr =? 0) then mret (- EINVAL)
      else
        r ← ioctx_alloc setup nr;
        match r with
        | inl error => mret error
        | inr ioctx =>
            (if put_ok then mret tt else kill_ioctx ioctx) ;;
            users_put ioctx ;;
            mret (if put_ok then 0 else - EFAULT)
        end
  end.

Definition sys_io_destroy (uid : option Z) (addr : Z) : A Z :=
  r ← lookup_ioctx uid addr;
  match r with
  | Some ioctx => kill_ioctx ioctx ;; users_put ioctx ;; mret 0
  | None => mret (- EINVAL)
  end.

(** ** Submitting requests *)

Definition IOCB_CMD_PREAD : Z := 0.
Definition IOCB_CMD_PWRITE : Z := 1.
Definition IOCB_CMD_FSYNC : Z := 2.
Definition IOCB_CMD_FDSYNC : Z := 3.
Definition IOCB_CMD_PREADV : Z := 7.
Definition IOCB_CMD_PWRITEV : Z := 8.
Definition IOCB_FLAG_RESFD : Z := 1.
Definition KIOCB_KEY : Z := 0.

(** The rest of the kernel, as a submission sees it: access_ok(),
    rw_copy_check_uvector() (and its compat version), rw_verify_area(), and
    the methods of the file, which complete the request or return
    -EIOCBQUEUED and complete it later; [write] tells the direction and
    [datasync] the kind of fsync. *)
Variables
  (access_ok : bool -> Z -> Z -> bool)
  (copy_check_uvector : bool -> bool -> Z -> Z -> Z)
  (rw_verify_area : bool -> nat -> Z -> Z -> Z)
  (rw_op : bool -> nat -> A Z)
  (fsync_op : bool -> nat -> A Z).

(** [inl] an error, [inr] the number of bytes *)
Definition aio_setup_vectored_rw (write : bool) (buf nbytes : Z) (compat : bool) : Z + Z :=
  let ret := copy_check_uvector compat write buf nbytes in
  if ret <? 0 then inl ret else inr ret.

Definition aio_setup_single_vector (write : bool) (buf nbytes : Z) : Z + Z :=
  if access_ok (negb write) buf nbytes then inr nbytes else inl (- EFAULT).

(** after the switch *)
Definition run_done (r : nat) (ret : Z) : A Z :=
  if ret =? - EIOCBQUEUED then mret 0
  else
    let ret := if (ret =? - ERESTARTSYS) || (ret =? - ERESTARTNOINTR) ||
                  (ret =? - ERESTARTNOHAND) || (ret =? - ERESTART_RESTARTBLOCK)
               then - EINTR else ret in
    aio_complete r ret 0 ;; mret 0.

(** label [rw_common] *)
Definition run_rw (r : nat) (write vectored : bool) (buf : Z) (compat : bool) : A Z :=
  x ← get_req r;
  file ← match ki_filp x with Some f => mret f | None => oops end;
  f ← deref (fun s => iofiles s !! file);
  if negb (if write then fmode_write f else fmode_read f) then mret (- EBADF)
  else if negb (if write then aio_write f else aio_read f) then mret (- EINVAL)
  else
    match (if vectored then aio_setup_vectored_rw write buf (ki_nbytes x) compat
           else aio_setup_single_vector write buf (ki_nbytes x)) with
    | inl error => mret error
    | inr n =>
        upd_req r (set_ki_nbytes n) ;;
        let ret := rw_verify_area write file (ki_pos x) n in
        if ret <? 0 then mret ret
        else
          upd_req r (set_ki_nbytes ret) ;;
          ret ← (if ki_pos x <? 0 then mret (- EINVAL) else rw_op write r);
          run_done r ret
    end.

Definition run_fsync (r : nat) (datasync : bool) : A Z :=
  x ← get_req r;
  file ← match ki_filp x with Some f => mret f | None => oops end;
  f ← deref (fun s => iofiles s !! file);
  if negb (aio_fsync f) then mret (- EINVAL)
  else ret ← fsync_op datasync r; run_done r ret.

Definition aio_run_iocb (r : nat) (opcode buf : Z) (compat : bool) : A Z :=
  if (opcode =? IOCB_CMD_PREAD) || (opcode =? IOCB_CMD_PREADV)
  then run_rw r false (opcode =? IOCB_CMD_PREADV) buf compat
  else if (opcode =? IOCB_CMD_PWRITE) || (opcode =? IOCB_CMD_PWRITEV)
  then run_rw r true (opcode =? IOCB_CMD_PWRITEV) buf compat
  else if opcode =? IOCB_CMD_FDSYNC then run_fsync r true
  else if opcode =? IOCB_CMD_FSYNC then run_fsync r false
  else mret (- EINVAL).

Definition fget (fd : Z) : A (option nat) :=
  s ← get;
  match fdt (akern s) !! fd with
  | None => mret None
  | Some f =>
      x ← deref (fun s => iofiles s !! f);
      modify (fun s => set_iofiles (<[f := set_f_count (f_count x + 1) x]> (iofiles s)) s) ;;
      mret (Some f)
  end.

(** eventfd_ctx_fdget(): [eventfd_of] gives the eventfd of a descriptor, or
    the error *)
Variable eventfd_of : Z -> Z + nat.

Definition eventfd_ctx_fdget (fd : Z) : A (Z + nat) :=
  match eventfd_of fd with
  | inl error => mret (inl error)
  | inr e =>
      x ← deref (fun s => eventfds s !! e);
      modify (fun s => set_eventfds (<[e := (fst x, snd x + 1)]> (eventfds s)) s) ;;
      mret (inr e)
  end.

Definition out_put_req (ctx r : nat) (ret : Z) : A Z :=
  put_slots ctx 1 ;; reqs_put ctx ;; kiocb_free r ;; mret ret.

(** [user_iocb] is the user's pointer, [key_ok] whether aio_key can be
    written there *)
Definition io_submit_one (ctx : nat) (user_iocb : Z) (key_ok : bool) (io : iocb) (compat : bool)
  : A Z :=
  if negb (aio_reserved1 io =? 0) || negb (aio_reserved2 io =? 0) then mret (- EINVAL)
  else if 2 ^ 63 <=? aio_nbytes io then mret (- EINVAL)
  else
    req ← aio_get_req ctx;
    match req with
    | None => mret (- EAGAIN)
    | Some r =>
        f ← fget (aio_fildes io);
        match f with
        | None => out_put_req ctx r (- EBADF)
        | Some f =>
            upd_req r (set_ki_filp (Some f)) ;;
            e ← (if negb (Z.land (aio_flags io) IOCB_FLAG_RESFD =? 0) then
                   e ← eventfd_ctx_fdget (s32 (aio_resfd io));
                   match e with
                   | inl error => mret error
                   | inr e => upd_req r (set_ki_eventfd (Some e)) ;; mret 0
                   end
                 else mret 0);
            if negb (e =? 0) then out_put_req ctx r e
            else if negb key_ok then out_put_req ctx r (- EFAULT)
            else
              upd_req r (fun x => set_ki_user user_iocb (set_ki_user_data (aio_data io)
                (set_ki_pos (aio_offset io) (set_ki_nbytes (aio_nbytes io) x)))) ;;
              ret ← aio_run_iocb r (aio_lio_opcode io) (aio_buf io) compat;
              if negb (ret =? 0) then out_put_req ctx r ret else mret 0
        end
    end.

(** the loop; [l] is what the array of pointers holds: a pointer, whether
    its aio_key can be written, and the iocb ([None]: a read faults, as it
    does beyond the end) *)
Fixpoint submit_loop (ctx : nat) (l : list (option (Z * bool * iocb))) (i nr : Z) (compat : bool)
  : A (Z * Z) :=
  if negb (i <? nr) then mret (i, 0)
  else
    match l with
    | Some (user_iocb, key_ok, io) :: l' =>
        ret ← io_submit_one ctx user_iocb key_ok io compat;
        if negb (ret =? 0) then mret (i, ret) else submit_loop ctx l' (i + 1) nr compat
    | _ => mret (i, - EFAULT)
    end.

Definition do_io_submit (uid : option Z) (addr nr : Z) (array_ok : bool)
    (l : list (option (Z * bool * iocb))) (compat : bool) : A Z :=
  if nr <? 0 then mret (- EINVAL)
  else
    let nr := Z.min nr (LONG_MAX / 8) in
    if negb array_ok then mret (- EFAULT)
    else
      ctx ← lookup_ioctx uid addr;
      match ctx with
      | None => mret (- EINVAL)
      | Some ctx =>
          r ← submit_loop ctx l 0 nr compat;
          users_put ctx ;;
          mret (if fst r =? 0 then snd r else fst r)
      end.

(** ** Cancelling *)

Fixpoint find_req (l : list nat) (user_iocb : Z) : A (option nat) :=
  match l with
  | [] => mret None
  | r :: l' =>
      x ← get_req r;
      if ki_user x =? user_iocb then mret (Some r) else find_req l' user_iocb
  end.

Definition lookup_kiocb (ctx : nat) (user_iocb key : Z) : A (option nat) :=
  if negb (key =? KIOCB_KEY) then mret None
  else c ← get_ctx ctx; find_req (active_reqs c) user_iocb.

(** [key] is what get_user() reads at [&iocb->aio_key] *)
Definition sys_io_cancel (uid : option Z) (addr user_iocb : Z) (key : option Z) : A Z :=
  match key with
  | None => mret (- EFAULT)
  | Some key =>
      ctx ← lookup_ioctx uid addr;
      match ctx with
      | None => mret (- EINVAL)
      | Some ctx =>
          r ← lookup_kiocb ctx user_iocb key;
          ret ← match r with Some r => kiocb_cancel r | None => mret (- EINVAL) end;
          users_put ctx ;;
          mret (if ret =? 0 then - EINPROGRESS else ret)
      end
  end.

(** ** Collecting events *)

Variable copy_ok : Z -> bool.

(** [i] is the count so far, [out] the events in the user's buffer; returns
    whether the condition holds *)
Definition aio_read_events (ctx : nat) (min_nr nr i : Z) (out : list io_event)
  : A (bool * Z * list io_event) :=
  cpu ← smp_processor_id;
  r ← on_ctx ctx (aio_read_events_ring (fun n => copy_ok (i + n)) cpu (nr - i));
  let ret := fst r in
  let i' := if 0 <? ret then i + ret else i in
  c ← get_ctx ctx;
  let ret := if dead c then - EINVAL else ret in
  let i' := if i' =? 0 then ret else i' in
  mret ((ret <? 0) || (min_nr <=? i'), i', out ++ snd r).

(** schedule() inside a wait, with a timer when [until] is not KTIME_MAX:
    what is left of the timer ([None] when it has expired) *)
Variable aio_sleep : Z -> A (option Z).

Definition add_waiter (ctx t : nat) : A unit :=
  upd_ctx ctx (fun c => set_waiters
    (if bool_decide (t ∈ waiters c) then waiters c else waiters c ++ [t]) c).
Definition del_waiter (ctx t : nat) : A unit :=
  upd_ctx ctx (fun c => set_waiters (filter (fun u => u <> t) (waiters c)) c).

(** the loop of ___wait_event(), with prepare_to_wait_event() (which does
    not queue a task that has a signal); [rest] is what is left of the timer *)
Fixpoint wait_events (fuel : nat) (ctx : nat) (min_nr nr i : Z) (out : list io_event)
    (rest : option Z) : A (Z * list io_event * option Z) :=
  match fuel with
  | O => block
  | S fuel' =>
      s ← get;
      t ← lift_kern (get_task (acurrent s));
      (if sigpending t then mret tt
       else
         add_waiter ctx (acurrent s) ;;
         lift_kern (put_task (acurrent s) (set_tstate TASK_INTERRUPTIBLE t))) ;;
      r ← aio_read_events ctx min_nr nr i out;
      let '(done, i, out) := r in
      if done || sigpending t then mret (i, out, rest)
      else
        match rest with
        | None => mret (i, out, rest)
        | Some n => rest ← aio_sleep n; wait_events fuel' ctx min_nr nr i out rest
        end
  end.

Definition finish_wait_ctx (ctx : nat) : A unit :=
  s ← get;
  lift_kern (t ← get_task (acurrent s); put_task (acurrent s) (set_tstate TASK_RUNNING t)) ;;
  del_waiter ctx (acurrent s).

(** wait_event_interruptible_hrtimeout_remaining(): the result, the events
    and the remaining time *)
Definition read_until (fuel : nat) (ctx : nat) (min_nr nr until : Z)
  : A (Z * list io_event * Z) :=
  r ← aio_read_events ctx min_nr nr 0 [];
  let '(done, i, out) := r in
  if (done : bool) then mret (i, out, until)
  else
    w ← wait_events fuel ctx min_nr nr i out (Some until);
    finish_wait_ctx ctx ;;
    let '(i, out, rest) := w in
    mret (i, out, if negb (until =? KTIME_MAX) && negb (until =? 0) then default 0 rest else until).

Definition no_event_signal (i : Z) : A Z :=
  s ← get;
  t ← lift_kern (get_task (acurrent s));
  mret (if (i =? 0) && sigpending t then - EINTR else i).

(** [timeout]: [None] for NULL, [Some None] when it cannot be read *)
Definition read_events (fuel : nat) (ctx : nat) (min_nr nr : Z) (timeout : option (option Z))
  : A (Z * list io_event) :=
  match timeout with
  | Some None => mret (- EFAULT, [])
  | _ =>
      let until := default KTIME_MAX (mjoin timeout) in
      r ← read_until fuel ctx min_nr nr until;
      ret ← no_event_signal (fst (fst r));
      mret (ret, snd (fst r))
  end.

(** the two last results are *pwtimeout and *pwremaining, when written *)
Definition read_events_cm (fuel : nat) (ctx : nat) (min_nr nr : Z) (timeout : option (option Z))
  : A (Z * list io_event * option Z * option Z) :=
  match timeout with
  | Some None => mret (- EFAULT, [], None, None)
  | _ =>
      let until := default KTIME_MAX (mjoin timeout) in
      r ← read_until fuel ctx min_nr nr until;
      ret ← no_event_signal (fst (fst r));
      mret (ret, snd (fst r), mjoin timeout, Some (snd r))
  end.

(** [garbage] is what the stack holds where wtimeout and wremaining are
    declared; [id] and [cm_sleep] are as in cmgroup_wait() *)
Variables (garbage : Z) (id : nat) (slack_ns : Z) (cm_sleep : nat -> option Z -> K (option Z)).

Definition sys_io_getevents (fuel : nat) (uid : option Z) (addr min_nr nr : Z)
    (timeout : option (option Z)) : A (Z * list io_event) :=
  ctx ← lookup_ioctx uid addr;
  match ctx with
  | None => mret (- EINVAL, [])
  | Some ioctx =>
      r ← (if (min_nr <=? nr) && (0 <=? min_nr) then
             match timeout with
             | None => r ← read_events fuel ioctx min_nr nr None; mret (r, None, None)
             | Some _ => read_events_cm fuel ioctx min_nr nr timeout
             end
           else mret (- EINVAL, [], None, None));
      let '(ret, out, wtimeout, wremaining) := r in
      (* the pointers are set whenever the caller passed a timeout *)
      let pw (x : option Z) := match timeout with None => None | Some _ => Some (default garbage x) end in
      s ← get;
      let cm := aio_cmgroup (akern s) !! ioctx in
      t ← lift_kern (get_task (acurrent s));
      match cm with
      | Some g =>
          if bool_decide (task_cmgroup t = Some g) then mret tt
          else lift_kern (cmgroup_associate (acurrent s) g true)
      | None => mret tt
      end ;;
      ret ← match cm with
            | Some g =>
                if ret =? 0 then mret ret
                else lift_kern (cmgroup_wait cm_sleep fuel g (acurrent s) id ret
                                  (pw wtimeout) (pw wremaining) slack_ns)
            | None => mret ret
            end;
      users_put ioctx ;;
      mret (ret, out)
  end.
End AioCtx.
