(* ===== verification/AioQueue.v ===== *)
(** * The completion ring is a bounded FIFO queue (fs/aio.c)

    The abstract view of the ring of AioRing.v: the queue of completions
    that have not been read.  The slots are accounted so that a completion
    always finds room: every slot is free (in the global or in a per-CPU
    counter), taken by a request in flight, or occupied by an event. *)

From S2P Require Import Prelude AioRing.
Local Open Scope Z_scope.

(** ** Sums *)

Definition zsum (l : list Z) : Z := foldr Z.add 0 l.

Lemma zsum_insert l i n m : l !! i = Some n -> zsum (<[i := m]> l) = zsum l - n + m.
Proof.
  revert i. induction l as [|x l IH]; intros [|i]; simpl; try done.
  - intros [= ->]. lia.
  - intros E. rewrite (IH i E). lia.
Qed.

Lemma zsum_nonneg l : Forall (fun n => 0 <= n) l -> 0 <= zsum l.
Proof. induction 1; simpl; lia. Qed.

Lemma zsum_lookup l i n : Forall (fun n => 0 <= n) l -> l !! i = Some n -> 0 <= n <= zsum l.
Proof.
  intros H. revert i. induction H as [|x l Hx Hl IH]; intros [|i]; simpl; try done.
  - intros [= ->]. pose proof (zsum_nonneg l Hl). lia.
  - intros E. specialize (IH i E). lia.
Qed.

Lemma zsum_replicate n : zsum (replicate n 0) = 0.
Proof. induction n; simpl; lia. Qed.

(** ** Free slots *)

Definition free_slots (c : kioctx) : Z := reqs_available c + zsum (pcpu c).

Record slots_ok (c : kioctx) : Prop := SlotsOk {
  so_nr : nr_events c < 2 ^ 30;
  so_batch : 1 <= req_batch c <= nr_events c;
  so_avail : 0 <= reqs_available c;
  so_pcpu : Forall (fun n => 0 <= n) (pcpu c);
  so_free : free_slots c < nr_events c
}.

(** the counters of a context, changed *)
Definition recount (a : Z) (p : list Z) (c : kioctx) : kioctx :=
  set_pcpu p (set_reqs_available a c).

Lemma get_kcpu_eq cpu n c : pcpu c !! cpu = Some n -> get_kcpu cpu c = Ret n c.
Proof. intros E. unfold get_kcpu, deref. by rewrite E. Qed.

Lemma recount_idem c : recount (reqs_available c) (pcpu c) c = c.
Proof. by destruct c. Qed.

(** moving [d] slots between a per-CPU counter and the global one *)
Lemma slots_move c cpu n a m :
  slots_ok c -> pcpu c !! cpu = Some n -> 0 <= a -> 0 <= m ->
  a + m = reqs_available c + n ->
  slots_ok (recount a (<[cpu := m]> (pcpu c)) c) /\
  free_slots (recount a (<[cpu := m]> (pcpu c)) c) = free_slots c.
Proof.
  intros [Hn Hb Ha Hp Hf] Hc Ha' Hm Hsum.
  assert (free_slots (recount a (<[cpu := m]> (pcpu c)) c) = free_slots c) as E.
  { unfold free_slots in *; simpl. rewrite (zsum_insert _ _ n) by done. lia. }
  split; [|done]. split; simpl; try done.
  - by apply Forall_insert.
  - by rewrite E.
Qed.

Lemma return_batches_ok fuel cpu n c :
  slots_ok c -> pcpu c !! cpu = Some n -> n < Z.of_nat fuel ->
  exists a m, return_batches fuel cpu c = Ret tt (recount a (<[cpu := m]> (pcpu c)) c) /\
    slots_ok (recount a (<[cpu := m]> (pcpu c)) c) /\
    free_slots (recount a (<[cpu := m]> (pcpu c)) c) = free_slots c /\ 0 <= m < req_batch c * 2.
Proof.
  revert n c. induction fuel as [|fuel IH]; intros n c Hc Hn Hf.
  { pose proof (proj1 (Forall_lookup _ _) (so_pcpu _ Hc) _ _ Hn). simpl in *. lia. }
  pose proof (proj1 (Forall_lookup _ _) (so_pcpu _ Hc) _ _ Hn) as H0. simpl in H0.
  pose proof (so_batch _ Hc) as Hb. pose proof (so_nr _ Hc) as Hnr.
  pose proof (so_avail _ Hc) as Ha. pose proof (so_free _ Hc) as Hfr. unfold free_slots in Hfr.
  pose proof (zsum_lookup _ _ _ (so_pcpu _ Hc) Hn) as Hle.
  simpl. unfold mbind, M_bind, get. rewrite (get_kcpu_eq _ n) by done.
  rewrite u32_id by lia.
  destruct (req_batch c * 2 <=? n) eqn:G; zbool.
  - unfold put_kcpu, modify; simpl. rewrite u32_id, s32_id by lia.
    destruct (slots_move c cpu n (reqs_available c + req_batch c) (n - req_batch c))
      as [Hc' Hf']; try done; try lia.
    edestruct (IH (n - req_batch c)) as (a & m & E & Hok & Hs & Hm); [exact Hc'| |lia|].
    { simpl. apply list_lookup_insert_eq. by eapply lookup_lt_Some. }
    simpl in *. rewrite list_insert_insert_eq in *.
    exists a, m. split_and!; [exact E|exact Hok|etrans; [exact Hs|exact Hf']|lia..].
  - exists (reqs_available c), n. rewrite list_insert_id by done. rewrite recount_idem. done.
Qed.

Lemma put_reqs_available_ok cpu c nr :
  slots_ok c -> (cpu < length (pcpu c))%nat -> 0 <= nr -> free_slots c + nr < nr_events c ->
  exists a m, put_reqs_available cpu nr c = Ret tt (recount a (<[cpu := m]> (pcpu c)) c) /\
    slots_ok (recount a (<[cpu := m]> (pcpu c)) c) /\
    free_slots (recount a (<[cpu := m]> (pcpu c)) c) = free_slots c + nr /\
    0 <= m < req_batch c * 2.
Proof.
  intros Hc Hcpu Hnr Hroom. destruct (lookup_lt_is_Some_2 _ _ Hcpu) as [n Hn].
  pose proof (zsum_lookup _ _ _ (so_pcpu _ Hc) Hn) as Hle. pose proof (so_avail _ Hc).
  pose proof (so_nr _ Hc). unfold free_slots in Hroom.
  unfold put_reqs_available, mbind, M_bind. rewrite (get_kcpu_eq _ n) by done.
  unfold put_kcpu, modify. rewrite u32_id by lia.
  set (c1 := set_pcpu (<[cpu := n + nr]> (pcpu c)) c).
  assert (slots_ok c1 /\ free_slots c1 = free_slots c + nr) as [H1 F1].
  { unfold c1, free_slots. destruct Hc as [? ? ? Hp ?]. split; [split|]; simpl; try done.
    - by apply Forall_insert; [|lia].
    - unfold free_slots; simpl. rewrite (zsum_insert _ _ n) by done. lia.
    - rewrite (zsum_insert _ _ n) by done. lia. }
  destruct (return_batches_ok (S (Z.to_nat (n + nr))) cpu (n + nr) c1) as (a & m & E & Hok & Hf & Hm);
    [done|unfold c1; simpl; by apply list_lookup_insert_eq|lia|].
  unfold c1 in *; simpl in *. rewrite list_insert_insert_eq in *.
  exists a, m. split_and!; [exact E|exact Hok|etrans; [exact Hf|exact F1]|lia..].
Qed.

(** taking a slot; when it fails, this CPU has none and the global counter
    has less than a batch *)
Lemma get_reqs_available_ok cpu c :
  slots_ok c -> (cpu < length (pcpu c))%nat ->
  exists b a m, get_reqs_available cpu c = Ret b (recount a (<[cpu := m]> (pcpu c)) c) /\
    slots_ok (recount a (<[cpu := m]> (pcpu c)) c) /\
    free_slots (recount a (<[cpu := m]> (pcpu c)) c) = free_slots c - (if (b : bool) then 1 else 0) /\
    (Forall (fun n => n < req_batch c * 2) (pcpu c) -> 0 <= m < req_batch c * 2) /\
    (b = false -> pcpu c !! cpu = Some 0 /\ reqs_available c < req_batch c).
Proof.
  intros Hc Hcpu. destruct (lookup_lt_is_Some_2 _ _ Hcpu) as [n Hn].
  pose proof (zsum_lookup _ _ _ (so_pcpu _ Hc) Hn) as Hle. pose proof (so_avail _ Hc).
  pose proof (so_nr _ Hc). pose proof (so_free _ Hc) as Hf. unfold free_slots in Hf.
  pose proof (so_batch _ Hc).
  unfold get_reqs_available, mbind, M_bind. rewrite (get_kcpu_eq _ n) by done. unfold get.
  assert (forall a m, 0 <= a -> 0 <= m -> a + m = reqs_available c + n - 1 ->
    slots_ok (recount a (<[cpu := m]> (pcpu c)) c) /\
    free_slots (recount a (<[cpu := m]> (pcpu c)) c) = free_slots c - 1) as Hmove.
  { intros a m Ha Hm Hsum. assert (free_slots (recount a (<[cpu := m]> (pcpu c)) c) = free_slots c - 1) as E.
    { unfold free_slots; simpl. rewrite (zsum_insert _ _ n) by done. lia. }
    split; [|done]. destruct Hc as [? ? ? Hp ?].
    split; simpl; try done; [by apply Forall_insert|]. rewrite E. unfold free_slots. lia. }
  destruct (n =? 0) eqn:En; zbool.
  - rewrite u32_id by lia. destruct (reqs_available c <? req_batch c) eqn:G; zbool.
    + exists false, (reqs_available c), n. rewrite list_insert_id, recount_idem by done.
      subst n. split_and!; try done; lia.
    + unfold modify, put_kcpu; simpl. rewrite s32_id, (u32_id (n + _)), u32_id by lia.
      exists true, (reqs_available c - req_batch c), (n + req_batch c - 1).
      split; [done|]. destruct (Hmove (reqs_available c - req_batch c) (n + req_batch c - 1)); try lia.
      split_and!; try done; lia.
  - unfold put_kcpu, modify; simpl. rewrite u32_id by lia.
    exists true, (reqs_available c), (n - 1). split; [by destruct c|].
    destruct (Hmove (reqs_available c) (n - 1)); try lia. split_and!; try done.
    intros Hs. pose proof (proj1 (Forall_lookup _ _) Hs _ _ Hn). simpl in *. lia.
Qed.

(** ** The events in the ring *)

Lemma add_mod_cases n h k :
  0 <= h < n -> 0 <= k <= n -> (h + k) mod n = if h + k <? n then h + k else h + k - n.
Proof.
  intros. destruct (h + k <? n) eqn:E; zbool; [by apply Z.mod_small; lia|].
  rewrite <- (Z.mod_small (h + k - n) n) by lia.
  replace (h + k) with (h + k - n + 1 * n) at 1 by lia. by rewrite Z_mod_plus_full.
Qed.

Lemma sub_mod_cases n h t :
  0 <= h < n -> 0 <= t < n -> (t - h) mod n = if h <=? t then t - h else t - h + n.
Proof.
  intros. destruct (h <=? t) eqn:E; zbool; [by apply Z.mod_small; lia|].
  rewrite <- (Z.mod_small (t - h + n) n) by lia.
  replace (t - h + n) with (t - h + 1 * n) by lia. by rewrite Z_mod_plus_full.
Qed.

(** the event slot with index [i]: slot 0 is the second of page 0, after the
    header *)
Definition slot (c : kioctx) (i : Z) : option io_event :=
  page ← ring_pages c !! Z.to_nat ((i + 1) / 128); page !! Z.to_nat ((i + 1) mod 128).

(** the pages are large enough for [nr_events] slots *)
Record geometry_ok (c : kioctx) : Prop := GeometryOk {
  go_nr : 1 < nr_events c < 2 ^ 30;
  go_room : nr_events c + 1 <= 128 * Z.of_nat (length (ring_pages c));
  go_pages : Forall (fun p => length p = 128%nat) (ring_pages c)
}.

Lemma page_ok c pos :
  geometry_ok c -> 0 <= pos <= nr_events c ->
  exists page, ring_pages c !! Z.to_nat (pos / 128) = Some page /\ length page = 128%nat.
Proof.
  intros [Hn Hr Hp] Hpos.
  assert (pos / 128 < Z.of_nat (length (ring_pages c))) by (apply Z.div_lt_upper_bound; lia).
  assert (0 <= pos / 128) by (apply Z.div_pos; lia).
  destruct (lookup_lt_is_Some_2 (ring_pages c) (Z.to_nat (pos / 128))) as [page E]; [lia|].
  exists page. split; [done|]. by apply (proj1 (Forall_lookup _ _) Hp _ _ E).
Qed.

(** [q] are the events from [head] to [tail] *)
Definition holds_at (c : kioctx) (head tail : Z) (q : list io_event) : Prop :=
  Z.of_nat (length q) = (tail - head) mod nr_events c /\
  forall k ev, q !! k = Some ev -> slot c ((head + Z.of_nat k) mod nr_events c) = Some ev.

(** the header is what the kernel wrote there *)
Record indices_ok (c : kioctx) : Prop := IndicesOk {
  io_head : 0 <= r_head c < nr_events c;
  io_tail : 0 <= tail_idx c < nr_events c;
  io_shared : r_tail c = tail_idx c
}.

Definition holds (c : kioctx) (q : list io_event) : Prop := holds_at c (r_head c) (r_tail c) q.

(** ** Writing *)

(** the context after an event was written at slot [tail_idx] *)
Definition pushed (ev : io_event) (page : list io_event) (c : kioctx) : kioctx :=
  let pos := tail_idx c + 1 in
  let tail := if nr_events c <=? tail_idx c + 1 then 0 else tail_idx c + 1 in
  set_r_tail tail (set_tail_idx tail (set_ring_pages
    (<[Z.to_nat (pos / 128) := <[Z.to_nat (pos mod 128) := ev]> page]> (ring_pages c)) c)).

Lemma ring_push_eq ev c :
  geometry_ok c -> 0 <= tail_idx c < nr_events c -> exists page,
    ring_pages c !! Z.to_nat ((tail_idx c + 1) / 128) = Some page /\ length page = 128%nat /\
    ring_push ev c = Ret tt (pushed ev page c).
Proof.
  intros Hg Ht. destruct (page_ok c (tail_idx c + 1) Hg) as (page & E & L); [lia|].
  exists page. split_and!; try done. pose proof (go_nr _ Hg).
  unfold ring_push, mbind, M_bind, get, page_at, deref, modify.
  change AIO_EVENTS_OFFSET with 1. change AIO_EVENTS_PER_PAGE with 128.
  rewrite (u32_id (tail_idx c + 1)) by lia. rewrite E. done.
Qed.

Lemma pushed_slot ev page c i :
  ring_pages c !! Z.to_nat ((tail_idx c + 1) / 128) = Some page -> length page = 128%nat ->
  0 <= tail_idx c -> 0 <= i ->
  slot (pushed ev page c) i = if decide (i = tail_idx c) then Some ev else slot c i.
Proof.
  intros E L Ht Hi. unfold slot, pushed; simpl.
  pose proof (Z.mod_pos_bound (i + 1) 128 ltac:(lia)). pose proof (Z.mod_pos_bound (tail_idx c + 1) 128 ltac:(lia)).
  pose proof (Z.div_pos (i + 1) 128 ltac:(lia) ltac:(lia)).
  pose proof (Z.div_pos (tail_idx c + 1) 128 ltac:(lia) ltac:(lia)).
  pose proof (Z.div_mod (i + 1) 128 ltac:(lia)). pose proof (Z.div_mod (tail_idx c + 1) 128 ltac:(lia)).
  destruct (decide (Z.to_nat ((tail_idx c + 1) / 128) = Z.to_nat ((i + 1) / 128))) as [D|D].
  - rewrite <- D, list_lookup_insert_eq by (by eapply lookup_lt_Some). rewrite E; simpl.
    case_decide.
    + subst i. apply list_lookup_insert_eq. lia.
    + apply list_lookup_insert_ne. lia.
  - rewrite list_lookup_insert_ne by done. rewrite decide_False; [done|]. intros ->. done.
Qed.

Lemma ring_push_holds ev c q :
  geometry_ok c -> indices_ok c -> holds c q -> Z.of_nat (length q) + 1 < nr_events c ->
  exists page, ring_push ev c = Ret tt (pushed ev page c) /\
    geometry_ok (pushed ev page c) /\ indices_ok (pushed ev page c) /\
    holds (pushed ev page c) (q ++ [ev]).
Proof.
  intros Hg Hi [Hl Hq] Hroom. destruct (ring_push_eq ev c Hg (io_tail _ Hi)) as (page & Ep & Lp & E).
  exists page. split; [done|]. destruct Hi as [Hh Ht Hs].
  rewrite Hs, sub_mod_cases in Hl by lia. split_and!.
  - destruct Hg as [? ? Hp]. split; simpl; try done; [by rewrite length_insert|].
    apply Forall_insert; [done|by rewrite length_insert].
  - split; simpl; try done. destruct (nr_events c <=? tail_idx c + 1) eqn:G; zbool; lia.
  - unfold holds, holds_at; simpl. rewrite length_app; simpl. split.
    + rewrite sub_mod_cases by (try destruct (nr_events c <=? tail_idx c + 1) eqn:G; zbool; lia).
      destruct (nr_events c <=? tail_idx c + 1) eqn:G; zbool;
        destruct (r_head c <=? tail_idx c) eqn:G2; bcases; zbool; lia.
    + intros k e He. rewrite pushed_slot; try done; try lia; [|apply Z.mod_pos_bound; lia].
      apply lookup_snoc_Some in He as [[Hk He]|[-> ->]].
      * rewrite decide_False; [by apply Hq|].
        rewrite add_mod_cases by (destruct (r_head c <=? tail_idx c); lia).
        destruct (r_head c <=? tail_idx c) eqn:G2; bcases; zbool; lia.
      * rewrite decide_True; [done|].
        rewrite add_mod_cases by (destruct (r_head c <=? tail_idx c) eqn:G2; zbool; lia).
        destruct (r_head c <=? tail_idx c) eqn:G2; bcases; zbool; lia.
Qed.

(** ** Reading *)

(** a run of slots inside a page is a run of the page *)
Lemma page_run c head tail q page n :
  geometry_ok c -> 0 <= head < nr_events c -> holds_at c head tail q ->
  ring_pages c !! Z.to_nat ((head + 1) / 128) = Some page -> length page = 128%nat ->
  Z.of_nat n <= Z.of_nat (length q) -> head + Z.of_nat n <= nr_events c ->
  Z.of_nat n <= 128 - (head + 1) mod 128 ->
  take n (drop (Z.to_nat ((head + 1) mod 128)) page) = take n q.
Proof.
  intros Hg Hh [_ Hq] Ep Lp Hn Hw Hpg.
  pose proof (Z.mod_pos_bound (head + 1) 128 ltac:(lia)).
  pose proof (Z.div_pos (head + 1) 128 ltac:(lia) ltac:(lia)).
  pose proof (Z.div_mod (head + 1) 128 ltac:(lia)).
  apply list_eq. intros j. destruct (decide (j < n)%nat) as [Hj|Hj].
  - rewrite !lookup_take_lt by done. rewrite lookup_drop.
    destruct (lookup_lt_is_Some_2 q j) as [ev Ev]; [lia|]. rewrite Ev.
    specialize (Hq j ev Ev). rewrite Z.mod_small in Hq by lia. unfold slot in Hq.
    replace (head + Z.of_nat j + 1) with (((head + 1) mod 128 + Z.of_nat j) + (head + 1) / 128 * 128) in Hq by lia.
    rewrite Z.div_add, Z.mod_add, Z.div_small, Z.mod_small, Z.add_0_l, Ep in Hq by lia. simpl in Hq.
    rewrite <- Hq. f_equal. lia.
  - rewrite !lookup_take_ge by lia. done.
Qed.

Lemma holds_at_drop c head tail q n :
  0 <= head < nr_events c -> 0 <= tail < nr_events c -> holds_at c head tail q ->
  Z.of_nat n <= Z.of_nat (length q) ->
  holds_at c ((head + Z.of_nat n) mod nr_events c) tail (drop n q).
Proof.
  intros Hh Ht [Hl Hq] Hn. rewrite sub_mod_cases in Hl by lia.
  pose proof (Z.mod_pos_bound (head + Z.of_nat n) (nr_events c) ltac:(lia)).
  assert (Z.of_nat (length (drop n q)) = (tail - (head + Z.of_nat n) mod nr_events c) mod nr_events c) as El.
  { rewrite length_drop, sub_mod_cases by lia.
    rewrite add_mod_cases by (destruct (head <=? tail) eqn:G; zbool; lia).
    destruct (head <=? tail) eqn:G; bcases; zbool; lia. }
  split; [done|]. intros k ev He. rewrite lookup_drop in He. specialize (Hq _ _ He).
  rewrite Zplus_mod_idemp_l. rewrite <- Hq. do 2 f_equal. lia.
Qed.

Section Reading.
Variable copy_ok : Z -> bool.

(** the number of events a read of at most [nr] returns *)
Definition taken (q : list io_event) (nr : Z) : Z := Z.max 0 (Z.min (Z.of_nat (length q)) nr).

(** what the loop returns, from [head] with [ret] events read before *)
Definition read_post (c : kioctx) (q : list io_event) (head ret nr : Z) (out : list io_event)
    (r : (Z * Z * list io_event) + unit) : Prop :=
  match r with
  | inl (ret', head', out') =>
      ret' = ret + taken q (nr - ret) /\
      head' = (head + taken q (nr - ret)) mod nr_events c /\
      out' = out ++ take (Z.to_nat (taken q (nr - ret))) q /\
      (0 < taken q (nr - ret) -> copy_ok (ret + taken q (nr - ret)) = true)
  | inr _ => exists n, ret < n <= ret + taken q (nr - ret) /\ copy_ok n = false
  end.

Lemma read_stop c q head ret nr out :
  0 <= head < nr_events c -> taken q (nr - ret) = 0 ->
  read_post c q head ret nr out (inl (ret, head, out)).
Proof.
  intros Hh Hm. unfold read_post. rewrite Hm, take_0, app_nil_r, !Z.add_0_r, Z.mod_small by lia.
  split_and!; done || lia.
Qed.

(** a round that copies [n] events, and the rest of the loop *)
Lemma read_round c q head ret nr out n r :
  1 <= n <= nr - ret -> n <= Z.of_nat (length q) -> copy_ok (ret + n) = true ->
  read_post c (drop (Z.to_nat n) q) ((head + n) mod nr_events c) (ret + n) nr
    (out ++ take (Z.to_nat n) q) r ->
  read_post c q head ret nr out r.
Proof.
  intros Hn Hq Hcp. unfold read_post.
  assert (taken q (nr - ret) = n + taken (drop (Z.to_nat n) q) (nr - (ret + n))) as ->.
  { unfold taken. rewrite length_drop. lia. }
  set (m := taken _ _). assert (0 <= m) by (unfold m, taken; lia). clearbody m.
  destruct r as [[[ret' head'] out']|].
  - intros (-> & -> & -> & Hl). split_and!; [lia| | |].
    + rewrite Zplus_mod_idemp_l. f_equal. lia.
    + rewrite <- app_assoc. f_equal. rewrite Z2Nat.inj_add by lia. by rewrite take_take_drop.
    + intros _. rewrite Z.add_assoc. destruct (decide (m = 0)) as [->|]; [by rewrite Z.add_0_r|].
      apply Hl. lia.
  - intros (k & Hk & Hc). exists k. split; [lia|done].
Qed.

Lemma ring_read_ok c tail :
  geometry_ok c -> 0 <= tail < nr_events c ->
  forall fuel head ret nr out q,
  0 <= head < nr_events c -> 0 <= ret -> holds_at c head tail q -> (length q < fuel)%nat ->
  exists r, ring_read copy_ok fuel head tail ret nr out c = Ret r c /\
    read_post c q head ret nr out r.
Proof.
  intros Hg Ht. induction fuel as [|fuel IH]; intros head ret nr out q Hh Hr Hq Hf; [lia|].
  pose proof (go_nr _ Hg) as Hnr. pose proof (proj1 Hq) as Hl. pose proof Hl as Hl'.
  rewrite sub_mod_cases in Hl' by lia.
  assert (taken q (nr - ret) = 0 -> exists r, Ret (inl (ret, head, out)) c = Ret r c /\
    read_post c q head ret nr out r) as Hstop by (intros Hm; eexists; split; [done|by apply read_stop]).
  simpl. destruct (ret <? nr) eqn:G1; zbool; simpl; [|apply Hstop; unfold taken; lia].
  unfold mbind at 1, M_bind at 1, get.
  destruct (head =? tail) eqn:G2; zbool.
  { subst. apply Hstop. unfold taken. rewrite Hl, Z.sub_diag, Zmod_0_l. lia. }
  change AIO_EVENTS_OFFSET with 1. change AIO_EVENTS_PER_PAGE with 128.
  rewrite (u32_id (head + 1)), (u32_id (_ - head)) by (destruct (head <=? tail) eqn:G; zbool; lia).
  set (n := Z.min _ (128 - (head + 1) mod 128)).
  pose proof (Z.mod_pos_bound (head + 1) 128 ltac:(lia)).
  assert (1 <= n <= nr - ret /\ n <= 128 - (head + 1) mod 128 /\ n <= Z.of_nat (length q) /\
          head + n <= nr_events c) as (Hn1 & Hn2 & Hn3 & Hn4).
  { unfold n. destruct (head <=? tail) eqn:G; zbool; lia. }
  clearbody n.
  destruct (page_ok c (head + 1) Hg) as (page & Ep & Lp); [lia|].
  unfold mbind, M_bind, page_at, deref. change AIO_EVENTS_PER_PAGE with 128. rewrite Ep.
  destruct (copy_ok (ret + n)) eqn:G3; simpl.
  - rewrite (u32_id (head + n)) by lia.
    rewrite (page_run c head tail q page (Z.to_nat n)) by (done || lia).
    pose proof (holds_at_drop c head tail q (Z.to_nat n) Hh Ht Hq ltac:(lia)) as Hd.
    rewrite Z2Nat.id in Hd by lia.
    destruct (IH ((head + n) mod nr_events c) (ret + n) nr (out ++ take (Z.to_nat n) q)
      (drop (Z.to_nat n) q)) as (r & Er & Hres); try done.
    { apply Z.mod_pos_bound. lia. } { lia. } { rewrite length_drop. lia. }
    exists r. split; [exact Er|]. by apply (read_round _ _ _ _ _ _ n).
  - eexists. split; [done|]. simpl. exists (ret + n). split; [unfold taken; lia|done].
Qed.
End Reading.
