(* ===== verification/AioFifo.v ===== *)
(** * AIO contexts keep their promises (fs/aio.c)

    The refinement of a bounded FIFO queue by the ring and its counters, the
    geometry aio_setup_ring() establishes, and the number of requests that
    can be in flight. *)

From S2P Require Import Prelude AioRing AioQueue.
Local Open Scope Z_scope.

(** ** The abstract queue *)

(** [inflight] requests were submitted and have not completed; [queue] are
    the completions that have not been read *)
Record fifo := Fifo { inflight : Z; queue : list io_event }.

(** the slots in use *)
Definition used (f : fifo) : Z := inflight f + Z.of_nat (length (queue f)).

Inductive ring_op :=
  | Submit (cpu : nat)
  | Abandon (cpu : nat)
  | Complete (ev : io_event)
  | Reap (cpu : nat) (nr room : Z).

Inductive ring_res :=
  | Granted (b : bool)
  | Done
  | Reaped (ret : Z) (events : list io_event).

(** The specification, for a capacity [cap]: a request is granted while there
    is room and refused only when more than half of the slots are in use; a
    completion is queued at the end; a reader gets the oldest events, as many
    as there are or as it asks for, or a fault when its buffer (of [room]
    slots) cannot take them, and then nothing is consumed. *)
Inductive fifo_step (cap : Z) : fifo -> ring_op -> ring_res -> fifo -> Prop :=
  | step_grant n q cpu :
      used (Fifo n q) < cap ->
      fifo_step cap (Fifo n q) (Submit cpu) (Granted true) (Fifo (n + 1) q)
  | step_refuse n q cpu :
      cap < 2 * used (Fifo n q) ->
      fifo_step cap (Fifo n q) (Submit cpu) (Granted false) (Fifo n q)
  | step_abandon n q cpu :
      0 < n -> fifo_step cap (Fifo n q) (Abandon cpu) Done (Fifo (n - 1) q)
  | step_complete n q ev :
      0 < n -> fifo_step cap (Fifo n q) (Complete ev) Done (Fifo (n - 1) (q ++ [ev]))
  | step_reap n q cpu nr room k :
      k = taken q nr -> k <= Z.max 0 room ->
      fifo_step cap (Fifo n q) (Reap cpu nr room) (Reaped k (take (Z.to_nat k) q))
        (Fifo n (drop (Z.to_nat k) q))
  | step_fault n q cpu nr room :
      room < taken q nr ->
      fifo_step cap (Fifo n q) (Reap cpu nr room) (Reaped (- EFAULT) []) (Fifo n q).

(** ** The implementation *)

Definition run_ring (o : ring_op) : C ring_res :=
  match o with
  | Submit cpu => b ← get_reqs_available cpu; mret (Granted b)
  | Abandon cpu => put_reqs_available cpu 1 ;; mret Done
  | Complete ev => ring_push ev ;; mret Done
  | Reap cpu nr room =>
      r ← aio_read_events_ring (fun n => n <=? room) cpu nr; mret (Reaped (fst r) (snd r))
  end.

(** what the callers guarantee: requests complete or are abandoned once, and
    the CPU exists *)
Definition enabled (c : kioctx) (f : fifo) (o : ring_op) : Prop :=
  match o with
  | Submit cpu | Reap cpu _ _ => (cpu < length (pcpu c))%nat
  | Abandon cpu => (cpu < length (pcpu c))%nat /\ 0 < inflight f
  | Complete _ => 0 < inflight f
  end.

(** the slots a CPU can park are at most two batches *)
Definition parked_ok (c : kioctx) : Prop :=
  Forall (fun n => n < req_batch c * 2) (pcpu c) /\
  4 * Z.of_nat (length (pcpu c)) * req_batch c <= nr_events c - 1.

Record ctx_ok (c : kioctx) (f : fifo) : Prop := CtxOk {
  co_geometry : geometry_ok c;
  co_indices : indices_ok c;
  co_slots : slots_ok c;
  co_parked : parked_ok c;
  co_holds : holds c (queue f);
  co_unlocked : ring_lock c = false;
  co_inflight : 0 <= inflight f;
  co_account : free_slots c + used f = nr_events c - 1
}.

(** ** Simulation *)

(** an operation on the counters leaves the ring alone *)
Lemma recounted c a m cpu f f' :
  ctx_ok c f -> slots_ok (recount a (<[cpu := m]> (pcpu c)) c) -> 0 <= m < req_batch c * 2 ->
  free_slots (recount a (<[cpu := m]> (pcpu c)) c) + used f' = nr_events c - 1 ->
  queue f' = queue f -> 0 <= inflight f' ->
  ctx_ok (recount a (<[cpu := m]> (pcpu c)) c) f'.
Proof.
  intros [[] [] Hs [Hp Hb] Hh Hl Hn Ha] Hs' Hm Hf Hq Hn'. split; try done.
  - split; simpl; [|by rewrite length_insert]. apply Forall_insert; [done|lia].
  - rewrite Hq. exact Hh.
Qed.

Lemma zsum_le b l : 0 <= b -> Forall (fun n => n < b) l -> zsum l <= Z.of_nat (length l) * (b - 1).
Proof. intros Hb. induction 1; simpl; lia. Qed.

Lemma refused_used c f cpu :
  ctx_ok c f -> pcpu c !! cpu = Some 0 -> reqs_available c < req_batch c ->
  nr_events c - 1 < 2 * used f.
Proof.
  intros [Hg _ Hs [Hp Hb] _ _ _ Ha] Hc Hr. pose proof (so_batch _ Hs).
  pose proof (zsum_le (req_batch c * 2) (<[cpu := req_batch c * 2 - 1]> (pcpu c)) ltac:(lia)) as Hz.
  rewrite (zsum_insert _ _ 0), length_insert in Hz by done.
  unfold free_slots in Ha. specialize (Hz ltac:(apply Forall_insert; [done|lia])).
  pose proof (lookup_lt_Some _ _ _ Hc). nia.
Qed.

Lemma submit_refines c f cpu :
  ctx_ok c f -> (cpu < length (pcpu c))%nat ->
  exists b f' c', get_reqs_available cpu c = Ret b c' /\
    fifo_step (nr_events c - 1) f (Submit cpu) (Granted b) f' /\ ctx_ok c' f' /\
    nr_events c' = nr_events c.
Proof.
  intros Hc Hcpu. destruct f as [n q].
  destruct (get_reqs_available_ok cpu c (co_slots _ _ Hc) Hcpu) as (b & a & m & E & Hs & Hf & Hm & Hb).
  pose proof (co_account _ _ Hc) as Ha. specialize (Hm (proj1 (co_parked _ _ Hc))).
  pose proof (co_inflight _ _ Hc) as Hn. simpl in Hn.
  assert (0 <= free_slots (recount a (<[cpu := m]> (pcpu c)) c)) as H0.
  { unfold free_slots. pose proof (so_avail _ Hs). pose proof (zsum_nonneg _ (so_pcpu _ Hs)). lia. }
  exists b, (if b then Fifo (n + 1) q else Fifo n q), (recount a (<[cpu := m]> (pcpu c)) c).
  split; [done|]. destruct b; (split; [|split; [|done]]).
  - apply step_grant. unfold used in *; simpl in *. lia.
  - apply (recounted c a m cpu (Fifo n q)); try done; unfold used in *; simpl in *; lia.
  - destruct (Hb eq_refl) as [Hz Hr]. apply step_refuse. by apply (refused_used c _ cpu).
  - apply (recounted c a m cpu (Fifo n q)); try done; unfold used in *; simpl in *; lia.
Qed.

Lemma abandon_refines c n q cpu :
  ctx_ok c (Fifo n q) -> (cpu < length (pcpu c))%nat -> 0 < n ->
  exists c', put_reqs_available cpu 1 c = Ret tt c' /\ ctx_ok c' (Fifo (n - 1) q) /\
    nr_events c' = nr_events c.
Proof.
  intros Hc Hcpu Hn. pose proof (co_account _ _ Hc) as Ha. unfold used in Ha; simpl in Ha.
  destruct (put_reqs_available_ok cpu c 1 (co_slots _ _ Hc) Hcpu) as (a & m & E & Hs & Hf & Hm); [lia..|].
  eexists. split; [exact E|]. split; [|done].
  apply (recounted c a m cpu (Fifo n q)); try done; unfold used; simpl; lia.
Qed.

Lemma complete_refines c n q ev :
  ctx_ok c (Fifo n q) -> 0 < n ->
  exists c', ring_push ev c = Ret tt c' /\ ctx_ok c' (Fifo (n - 1) (q ++ [ev])) /\
    nr_events c' = nr_events c.
Proof.
  intros [Hg Hi Hs Hp Hh Hl Hn Ha] Hn'. unfold used in Ha; simpl in *.
  assert (0 <= free_slots c) as H0.
  { unfold free_slots. pose proof (so_avail _ Hs). pose proof (zsum_nonneg _ (so_pcpu _ Hs)). lia. }
  destruct (ring_push_holds ev c q Hg Hi Hh) as (page & E & Hg' & Hi' & Hh'); [lia|].
  eexists. split; [exact E|]. split; [|done]. destruct Hs. split; try done; simpl; [lia|].
  unfold used, free_slots in *; simpl in *. rewrite length_app; simpl. lia.
Qed.

(** the reader's part under [ring_lock], from a ring that is not empty *)
Lemma taken_bounds q nr : 0 <= taken q nr <= Z.of_nat (length q).
Proof. unfold taken. lia. Qed.

(** the head moves past the events read, and their slots are free again *)
Lemma reaped_ok c n q cpu k :
  ctx_ok c (Fifo n q) -> (cpu < length (pcpu c))%nat -> 0 <= k <= Z.of_nat (length q) ->
  exists a m,
    put_reqs_available cpu (u32 k)
      (set_r_head ((r_head c + k) mod nr_events c) (set_ring_lock true c)) =
      Ret tt (recount a (<[cpu := m]> (pcpu c))
        (set_r_head ((r_head c + k) mod nr_events c) (set_ring_lock true c))) /\
    ctx_ok (set_ring_lock false (recount a (<[cpu := m]> (pcpu c))
        (set_r_head ((r_head c + k) mod nr_events c) (set_ring_lock true c))))
      (Fifo n (drop (Z.to_nat k) q)).
Proof.
  intros [Hg Hi Hs [Hp Hb] Hh Hl Hn Ha] Hcpu Hk. unfold used in Ha; simpl in *.
  set (c1 := set_r_head _ _). pose proof (go_nr _ Hg). destruct Hi as [Hhd Htl Hsh].
  assert (slots_ok c1) as Hs1 by (destruct Hs; by split).
  assert (0 <= free_slots c) as H0.
  { unfold free_slots. pose proof (so_avail _ Hs). pose proof (zsum_nonneg _ (so_pcpu _ Hs)). lia. }
  rewrite u32_id by lia.
  destruct (put_reqs_available_ok cpu c1 k Hs1) as (a & m & E & Hs' & Hf & Hm);
    [done|lia|unfold free_slots in *; simpl; lia|].
  exists a, m. split; [exact E|]. split; simpl; try done.
  - by destruct Hg.
  - split; simpl; try done. apply Z.mod_pos_bound. lia.
  - by destruct Hs'.
  - split; simpl; [|by rewrite length_insert]. apply Forall_insert; [done|]. unfold c1 in Hm; simpl in Hm. lia.
  - unfold holds in *; simpl. rewrite <- (Z2Nat.id k) at 1 by lia.
    apply (holds_at_drop c); [done|lia|done|lia].
  - unfold free_slots, used in *; simpl in *. rewrite length_drop. unfold c1 in Hf; simpl in Hf. lia.
Qed.

Lemma reap_refines c n q cpu nr room :
  ctx_ok c (Fifo n q) -> (cpu < length (pcpu c))%nat ->
  exists r f' c', aio_read_events_ring (fun k => k <=? room) cpu nr c = Ret r c' /\
    fifo_step (nr_events c - 1) (Fifo n q) (Reap cpu nr room) (Reaped (fst r) (snd r)) f' /\
    ctx_ok c' f' /\ nr_events c' = nr_events c.
Proof.
  intros Hc Hcpu. pose proof Hc as [Hg Hi Hs Hp Hh Hl Hn Ha]. simpl in *.
  pose proof (taken_bounds q nr) as Hb. destruct Hi as [Hhd Htl Hsh].
  unfold aio_read_events_ring. unfold mbind at 1, M_bind at 1, get. rewrite Hl.
  unfold mbind at 1, M_bind at 1, modify at 1.
  assert (forall r : Z, ctx_ok (set_ring_lock false (set_ring_lock true c)) (Fifo n q)) as Hback.
  { intros _. destruct c; simpl in *. by rewrite <- Hl. }
  destruct (r_head c =? r_tail c) eqn:G; zbool.
  - exists (0, []), (Fifo n q). eexists. split; [done|]. split; [|split; [by apply (Hback 0)|done]].
    assert (q = []) as ->.
    { apply length_zero_iff_nil. destruct Hh as [Hlen _]. rewrite G, Z.sub_diag, Zmod_0_l in Hlen. lia. }
    apply (step_reap _ n [] cpu nr room 0); [unfold taken; simpl; lia|lia].
  - destruct (ring_read_ok (fun k => k <=? room) (set_ring_lock true c) (r_tail c))
      with (fuel := S (Z.to_nat (nr_events c))) (head := r_head c) (ret := 0) (nr := nr)
           (out := @nil io_event) (q := q) as (r & Er & Hr); try done.
    { by destruct Hg. } { simpl. by rewrite Hsh. }
    { destruct Hh as [Hlen _]. pose proof (Z.mod_pos_bound (r_tail c - r_head c) (nr_events c)).
      pose proof (go_nr _ Hg). lia. }
    unfold mbind, M_bind. rewrite Er. unfold read_post in Hr. rewrite Z.sub_0_r in Hr. simpl in Hr.
    destruct r as [[[ret head] out]|].
    + destruct Hr as (-> & -> & -> & Hcp). rewrite Z.add_0_l in *. unfold modify.
      destruct (reaped_ok c n q cpu (taken q nr) Hc Hcpu Hb) as (a & m & E & Hok). rewrite E.
      eexists _, _, _. split; [done|]. split; [|split; [exact Hok|done]]. simpl.
      apply step_reap; [done|]. destruct (decide (taken q nr = 0)); [lia|].
      specialize (Hcp ltac:(lia)). zbool. lia.
    + destruct Hr as (k & Hk & Hf). zbool. eexists _, (Fifo n q), _. split; [done|].
      split; [|split; [by apply (Hback 0)|done]]. apply step_fault. lia.
Qed.

(** ** The ring that aio_setup_ring() builds *)

Section Setup.
Variables (file_ok array_ok : bool) (page_ok : nat -> bool) (mmap_addr : Z).

Lemma alloc_pages_ok n i :
  Forall (fun p => length p = 128%nat) (alloc_pages page_ok n i).
Proof.
  revert i. induction n as [|n IH]; intros i; simpl; [constructor|].
  destruct (page_ok i); [|constructor]. constructor; [|apply IH]. done.
Qed.

(** the pages needed for [m] requests, as a number without wrap-around *)
Lemma ring_nr_pages_eq m : 0 <= m < 2 ^ 28 -> ring_nr_pages m = (m + 130) / 128.
Proof.
  intros Hm. unfold ring_nr_pages, sizeof_aio_ring, sizeof_io_event, PAGE_SIZE.
  rewrite (u32_id (m + 2)) by lia. unfold u64.
  rewrite (Z.mod_small (32 + 32 * (m + 2))) by lia.
  rewrite (Z.mod_small (32 + 32 * (m + 2) + 4096 - 1)) by lia.
  replace (32 + 32 * (m + 2) + 4096 - 1) with (31 + (m + 130) * 32) by lia.
  change 4096 with (32 * 128). rewrite <- Z.div_div, Z.div_add by lia. change (31 / 32) with 0.
  rewrite Z.add_0_l. apply s32_id.
  pose proof (Z.div_pos (m + 130) 128). pose proof (Z.div_le_upper_bound (m + 130) 128 (2 ^ 28)). lia.
Qed.

Lemma ring_nr_events_eq p : 1 <= p < 2 ^ 24 -> ring_nr_events p = 128 * p - 1.
Proof.
  intros Hp. unfold ring_nr_events, sizeof_aio_ring, sizeof_io_event, PAGE_SIZE.
  replace (4096 * p - 32) with ((128 * p - 1) * 32) by lia. rewrite Z.div_mul by lia.
  apply u32_id. lia.
Qed.

(** a context after aio_setup_ring() succeeded, with [p] pages *)
Definition with_ring (pages : list (list io_event)) (c : kioctx) : kioctx :=
  let n := 128 * Z.of_nat (length pages) - 1 in
  set_mmap_size (Z.of_nat (length pages) * PAGE_SIZE)
    (set_user_id mmap_addr (set_nr_events n
      (set_r_nr n (set_r_id (2 ^ 32 - 1) (set_r_head 0 (set_r_tail 0
        (set_ring_pages pages (set_ring_file true c)))))))).

Lemma setup_ring_eq c :
  0 <= max_reqs c < 2 ^ 28 -> ring_pages c = [] ->
  exists r c', aio_setup_ring file_ok array_ok page_ok mmap_addr c = Ret r c' /\
    ((r = 0 /\ exists pages, c' = with_ring pages c /\ Forall (fun p => length p = 128%nat) pages /\
        Z.of_nat (length pages) = (max_reqs c + 130) / 128) \/
     (r < 0 /\ ring_pages c' = [] /\ ring_file c' = false)).
Proof.
  intros Hm Hp. unfold aio_setup_ring, mbind, M_bind, get, modify. rewrite ring_nr_pages_eq by lia.
  set (p := (max_reqs c + 130) / 128). pose proof (Z.div_mod (max_reqs c + 130) 128 ltac:(lia)) as Hdm.
  pose proof (Z.mod_pos_bound (max_reqs c + 130) 128 ltac:(lia)) as Hmod. fold p in Hdm.
  destruct (p <? 0) eqn:G0; zbool; [lia|].
  destruct file_ok; simpl; [|eexists _, _; split; [done|]; by right].
  rewrite ring_nr_events_eq by lia.
  destruct ((AIO_RING_PAGES <? p) && negb array_ok); [eexists _, _; split; [done|]; by right|].
  set (pages := alloc_pages page_ok (Z.to_nat p) 0).
  destruct (Z.of_nat (length pages) =? p) eqn:G1; simpl; [|eexists _, _; split; [done|]; by right].
  destruct (mmap_addr <? 0); [eexists _, _; split; [done|]; by right|].
  zbool. eexists 0, _. split; [done|]. left. split; [done|]. exists pages. unfold with_ring. rewrite G1.
  split_and!; [done|apply alloc_pages_ok|done].
Qed.
End Setup.

(** C32: The ring of a context, with its slot counters, implements a bounded
    FIFO queue of capacity nr_events - 1, whichever CPUs the calls run on:
    every operation (taking a slot for a submission, returning it, writing a
    completion, reading completions across page boundaries and the wrap of
    the ring) returns, does what the abstract queue does, and leaves a
    well-formed context.  In particular a completion never overwrites an
    event that was not read, no event is lost, duplicated or reordered, a
    read that faults consumes nothing, and a submission is refused only when
    more than half of the slots are in use. *)
Theorem ring_refines_fifo c f o :
  ctx_ok c f -> enabled c f o ->
  exists r f' c', run_ring o c = Ret r c' /\ fifo_step (nr_events c - 1) f o r f' /\ ctx_ok c' f'.
Proof.
  intros Hc He. destruct f as [n q]. destruct o as [cpu|cpu|ev|cpu nr room]; simpl in *;
    unfold mbind, M_bind.
  - destruct (submit_refines c _ cpu Hc He) as (b & f' & c' & E & Hs & Hc' & _).
    exists (Granted b), f', c'. by rewrite E.
  - destruct He as [He Hn]. destruct (abandon_refines c n q cpu Hc He Hn) as (c' & E & Hc' & _).
    exists Done, (Fifo (n - 1) q), c'. rewrite E. split_and!; [done|by apply step_abandon|done].
  - destruct (complete_refines c n q ev Hc He) as (c' & E & Hc' & _).
    exists Done, (Fifo (n - 1) (q ++ [ev])), c'. rewrite E. split_and!; [done|by apply step_complete|done].
  - destruct (reap_refines c n q cpu nr room Hc He) as (r & f' & c' & E & Hs & Hc' & _).
    exists (Reaped (fst r) (snd r)), f', c'. by rewrite E.
Qed.

(** When aio_setup_ring() succeeds, the ring has room for max_reqs + 1
    events besides the slot that tells a full ring from an empty one, every
    slot lies inside the allocated pages, and with the counters
    ioctx_alloc() sets the new context is well-formed, empty and idle; when
    it fails, no page is left allocated. *)
Theorem aio_setup_ring_ok (file_ok array_ok : bool) (page_ok : nat -> bool) (mmap_addr : Z)
    (ncpu m : Z) (c : kioctx) :
  1 <= ncpu -> 8 * ncpu <= m < 2 ^ 28 ->
  c = Kioctx 1 false 1 0 (replicate (Z.to_nat ncpu) 0) 0 m 0 0 [] false 0 [] false [] 0 0 0 0 0 0 ->
  exists r c', aio_setup_ring file_ok array_ok page_ok mmap_addr c = Ret r c' /\
    if r =? 0 then m + 1 <= nr_events c' - 1 /\ ctx_ok (init_counters ncpu c') (Fifo 0 [])
    else r < 0 /\ ring_pages c' = [] /\ ring_file c' = false.
Proof.
  intros Hcpu Hm Hc. assert (max_reqs c = m) as Em by by subst.
  destruct (setup_ring_eq file_ok array_ok page_ok mmap_addr c) as (r & c' & E & Hr); [lia|by subst|].
  exists r, c'. split; [done|]. destruct Hr as [(-> & pages & -> & Hp & Hlen)|(Hr & H')].
  2: { rewrite (proj2 (Z.eqb_neq _ _)) by lia. done. }
  rewrite Em in Hlen. set (p := Z.of_nat (length pages)) in *. simpl (0 =? 0).
  pose proof (Z.div_mod (m + 130) 128 ltac:(lia)) as Hdm. pose proof (Z.mod_pos_bound (m + 130) 128 ltac:(lia)) as Hmod.
  rewrite <- Hlen in Hdm. subst c; unfold with_ring, init_counters; fold p; simpl. split; [lia|].
  assert (u32 (128 * p - 1 - 1) / u32 (ncpu * 4) = (128 * p - 2) / (ncpu * 4)) as ->.
  { rewrite !u32_id by lia. f_equal. lia. }
  pose proof (Z.div_mod (128 * p - 2) (ncpu * 4) ltac:(lia)) as Hdb.
  pose proof (Z.mod_pos_bound (128 * p - 2) (ncpu * 4) ltac:(lia)) as Hmb.
  assert (1 <= (128 * p - 2) / (ncpu * 4)) as Hb1 by (apply Z.div_le_lower_bound; lia).
  destruct (_ <? 1) eqn:G2; zbool; [lia|]. rewrite s32_id by lia.
  set (b := (128 * p - 2) / (ncpu * 4)) in *.
  assert (Forall (fun n => 0 <= n) (replicate (Z.to_nat ncpu) 0)) by (apply Forall_replicate; lia).
  split; simpl; try done; try lia.
  - split; simpl; try done; lia.
  - split; simpl; lia.
  - split; simpl; try lia; [nia|done|]. unfold free_slots; simpl. rewrite zsum_replicate. lia.
  - split; simpl; [apply Forall_replicate; lia|]. rewrite length_replicate. nia.
  - unfold free_slots, used; simpl. rewrite zsum_replicate. lia.
Qed.

(** ** Concrete contexts *)

(** a context for 8 requests on a machine with one CPU *)
Definition fresh_ctx (m : Z) : kioctx :=
  Kioctx 1 false 1 0 [0] 0 m 0 0 [] false 0 [] false [] 0 0 0 0 0 0.

Definition setup_ctx (m : Z) : kioctx :=
  match aio_setup_ring true true (fun _ => true) 4096 (fresh_ctx m) with
  | Ret _ c => init_counters 1 c
  | _ => fresh_ctx m
  end.

Lemma setup_ctx_ok : ctx_ok (setup_ctx 8) (Fifo 0 []).
Proof.
  split; try done.
  - split; [by vm_compute|by vm_compute|].
    apply Forall_forall. intros p Hp. change (p ∈ [replicate 128 (IoEvent 0 0 0 0)]) in Hp.
    apply list_elem_of_singleton in Hp as ->. done.
  - split; [by vm_compute|by vm_compute|by vm_compute|by repeat constructor|by vm_compute].
  - split; [by repeat constructor|by vm_compute].
Qed.

Lemma ring_refines_fifo_witness :
  exists r f' c', run_ring (Submit 0) (setup_ctx 8) = Ret r c' /\
    fifo_step (nr_events (setup_ctx 8) - 1) (Fifo 0 []) (Submit 0) r f' /\ ctx_ok c' f'.
Proof. apply (ring_refines_fifo (setup_ctx 8) (Fifo 0 []) (Submit 0) setup_ctx_ok). simpl. lia. Defined.

Lemma aio_setup_ring_ok_witness :
  exists r c', aio_setup_ring true true (fun _ => true) 4096 (fresh_ctx 8) = Ret r c' /\
    if r =? 0 then 8 + 1 <= nr_events c' - 1 /\ ctx_ok (init_counters 1 c') (Fifo 0 [])
    else r < 0 /\ ring_pages c' = [] /\ ring_file c' = false.
Proof. apply (aio_setup_ring_ok true true (fun _ => true) 4096 1 8 (fresh_ctx 8)); [lia|lia|reflexivity]. Defined.

(** ** What the ring trusts *)

(** a head that user space wrote into the shared page *)
Definition tampered (head : Z) (c : kioctx) : kioctx := set_r_head head c.

(** aio_read_events_ring() uses the head index that user space can write
    without checking it: on a context that is otherwise well-formed, a head
    far beyond the ring makes it read a page outside ring_pages (a kernel
    memory disclosure or an oops), whatever the buffer of the caller.
    Proved for a context of 8 requests and one CPU. *)
Theorem tampered_head_oops copy_ok :
  ctx_ok (setup_ctx 8) (Fifo 0 []) /\
  aio_read_events_ring copy_ok 0 1 (tampered (2 ^ 20) (setup_ctx 8)) = Oops.
Proof. split; [apply setup_ctx_ok|]. by vm_compute. Qed.
