(* ===== verification/EpWake.v ===== *)
(** * Callbacks (fs/eventpoll.c), proofs

    What the world must look like for a device's wake-up to be safe, and
    what the callbacks it runs, nested through eventpolls that watch
    eventpolls, may change: ready items are only added. *)

From S2P Require Import Prelude Wait Tasklet Cmgroup Sched CmWake CmInv CmTask CmOps.
From S2P Require Import EpTree EpState EpNest EpReady.
Local Open Scope Z_scope.

(** ** Waking the tasks of an eventpoll *)

(** the tasks on the queues [ep->wq] wait with the default wake function *)
Definition default_queues (k : kernel) : Prop :=
  forall ep q, ep_wq k !! ep = Some q -> Forall (fun w => wq_func w = default_wake_function) q.

(** what a wake-up on an eventpoll's queue does to the kernel *)
Record wakes (k k' : kernel) : Prop := Wakes {
  wk_ok : ok no_refs k -> ok no_refs k';
  wk_evolves : evolves k k';
  wk_queues : ep_wq k' = ep_wq k
}.

Lemma wakes_refl k : wakes k k.
Proof. split; auto with kernel. Qed.
Lemma wakes_trans k1 k2 k3 : wakes k1 k2 -> wakes k2 k3 -> wakes k1 k3.
Proof. intros [O1 E1 Q1] [O2 E2 Q2]. split; [auto|by eapply evolves_trans|congruence]. Qed.
#[export] Hint Resolve wakes_refl : kernel.

Lemma default_wake_wakes k w :
  ok no_refs k -> entry_ok k w -> exists b k', default_wake w k = Ret b k' /\ wakes k k'.
Proof.
  intros Ho (Hne & t & Hw & [x Ht]). unfold default_wake. rewrite Hw.
  destruct (wake_up_op no_refs t TASK_NORMAL x k (proj1 Ho) Ht) as (k' & E & Hi' & Hs').
  eexists _, k'. split; [exact E|].
  destruct (ok_upd no_refs k k' t x _ Ho Ht Hi' Hs') as [Ho' Hev].
  { destruct (Z.land (tstate x) TASK_NORMAL =? 0); [done|]. apply woken_ok. }
  split; [done|done|]. by rewrite (sr_epwq _ _ Hs').
Qed.

Section Wakes.
Context `{WL : WaitLib}.

Lemma scan_default_wakes k nr r g q :
  ok no_refs k -> Forall (entry_ok k) q -> Forall (fun w => wq_func w = default_wake_function) q ->
  exists k', scan_queue nr r g q k = Ret tt k' /\ wakes k k'.
Proof.
  unfold scan_queue. revert k nr. induction q as [|w q IH]; intros k nr Ho Hq Hd.
  - exists k. rewrite wake_up_common_nil. auto with kernel.
  - apply Forall_cons in Hq as [Hw Hq]. apply Forall_cons in Hd as [Hdw Hd].
    destruct (default_wake_wakes k w Ho Hw) as (b & k1 & E1 & W1).
    assert (Forall (entry_ok k1) q) as Hq1.
    { eapply Forall_impl; [exact Hq|]. intros w'. apply entry_ok_evolves, W1. }
    rewrite wake_up_common_cons. unfold call_scan at 1, call_func. rewrite Hdw, E1.
    assert (forall nr', exists k', wake_up_common (call_scan r g) q nr' (Ret tt k1) = Ret tt k' /\ wakes k k') as Hrec.
    { intros nr'. destruct (IH k1 nr' (wk_ok _ _ W1 Ho) Hq1 Hd) as (k2 & E2 & W2).
      exists k2. split; [done|]. by eapply wakes_trans. }
    destruct (b && is_exclusive w); [|apply Hrec]. destruct (nr - 1 =? 0); [|apply Hrec]. by exists k1.
Qed.

Lemma ep_wake_wq_wakes k ep :
  ok no_refs k -> default_queues k -> is_Some (ep_wq k !! ep) ->
  exists k', ep_wake_wq ep k = Ret tt k' /\ wakes k k'.
Proof.
  intros Ho Hd [q Hq]. pose proof (q_epoll _ (proj2 (proj2 Ho)) _ _ Hq) as He.
  assert (forall g, exists k', wake_up_wq 1 (Epoll_wq ep) g k = Ret tt k' /\ wakes k k') as Hwake.
  { intros g. destruct (scan_default_wakes k 1 (Epoll_wq ep) g q Ho He (Hd _ _ Hq)) as (k' & E & W).
    exists k'. split; [|done]. unfold wake_up_wq, get_queue, mbind, M_bind, deref. by rewrite Hq. }
  unfold ep_wake_wq, mbind at 1, M_bind at 1, deref. rewrite Hq.
  destruct (waitqueue_active q); [|by exists k; auto with kernel].
  unfold mbind at 1, M_bind at 1, get. destruct (ep_cmgroup k !! ep) as [g|] eqn:Eg; [|apply Hwake].
  assert (pinned no_refs k g) as Hp by (right; left; eauto).
  destruct (held_get _ _ _ Ho Hp) as (c & Hc & Egc).
  unfold cmgroup_available, mbind at 1, M_bind at 1. mrun Egc. unfold mret, M_ret.
  destruct (available c <=? 0); [|apply Hwake].
  destruct (upd_keeps no_refs k g (set_action CMGROUP_ACTION_RESET_WAKEONE) Ho Hp) as ([] & k' & E & Ho' & Ev).
  { intros []. by split_and!. }
  exists k'. split; [done|]. split; [done|done|].
  unfold cmgroup_request_action, upd_cm, mbind, M_bind in E. rewrite Egc in E.
  unfold put_cm, modify in E. by simplify_eq.
Qed.
End Wakes.

(** ** The world of callbacks *)

Section World.
Context `{PL : PmLib}.

(** Every pointer a callback follows leads to an object that exists. *)
Record hooks_ok (w : world) : Prop := HooksOk {
  ho_kern : ok no_refs (kern w) /\ default_queues (kern w);
  ho_wq : forall ep e, eps w !! ep = Some e -> is_Some (ep_wq (kern w) !! ep);
  ho_poll_wait : forall ep e, eps w !! ep = Some e -> is_Some (wheads w !! poll_wait e);
  ho_item : forall i x, epis w !! i = Some x -> is_Some (eps w !! epi_ep x);
  ho_hook : forall h l p, wheads w !! h = Some l -> p ∈ l ->
              exists q, pwqs w !! p = Some q /\ whead q = Some h /\ is_Some (epis w !! base q);
  ho_dev : forall f d h, devs w !! f = Some d -> h ∈ d_wheads d -> is_Some (wheads w !! h)
}.

(** item [i] is an item of eventpoll [ep] *)
Definition belongs (m : gmap nat epitem) (ep i : nat) : Prop :=
  exists x, m !! i = Some x /\ epi_ep x = ep.

(** the lists of an eventpoll hold items of [B], each at most once *)
Record ep_wf (B : nat -> Prop) (e : eventpoll) : Prop := EpWf {
  wf_items : forall i, i ∈ rdllist e \/ i ∈ txlist e \/ i ∈ default [] (ovflist e) -> B i;
  wf_links : NoDup (rdllist e ++ txlist e);
  wf_chain : NoDup (default [] (ovflist e))
}.

(** an eventpoll after callbacks: new items of [B] at the end of the ready
    list or, during a scan, at the front of the overflow chain *)
Inductive ep_grows (B : nat -> Prop) (e e' : eventpoll) : Prop :=
  | grows_rdl l : ovflist e = None -> NoDup l ->
      (forall i, i ∈ l -> B i /\ i ∉ rdllist e /\ i ∉ txlist e) ->
      e' = set_rdllist (rdllist e ++ l) e -> ep_grows B e e'
  | grows_ovf c l : ovflist e = Some c -> NoDup l ->
      (forall i, i ∈ l -> B i /\ i ∉ c) ->
      e' = set_ovflist (Some (l ++ c)) e -> ep_grows B e e'.

Lemma ep_grows_refl B e : ep_grows B e e.
Proof.
  destruct e as [? ? ? ? ? [c|] ? ? ? ?] eqn:E.
  - apply (grows_ovf _ _ _ c []); [done|constructor|set_solver|done].
  - apply (grows_rdl _ _ _ []); [done|constructor|set_solver|]. simpl. by rewrite app_nil_r.
Qed.

Lemma ep_grows_trans B e1 e2 e3 : ep_grows B e1 e2 -> ep_grows B e2 e3 -> ep_grows B e1 e3.
Proof.
  intros [l1 O1 N1 B1 ->|c1 l1 O1 N1 B1 ->] [l2 O2 N2 B2 ->|c2 l2 O2 N2 B2 ->]; simpl in *; simplify_eq.
  - apply (grows_rdl _ _ _ (l1 ++ l2)); [done| | |by rewrite app_assoc].
    + apply NoDup_app. split_and!; [done| |done]. intros i Hi1 Hi2.
      destruct (B2 i Hi2) as (_ & Hn & _). set_solver.
    + intros i [Hi|Hi]%elem_of_app; [by apply B1|]. destruct (B2 i Hi) as (? & ? & ?). set_solver.
  - apply (grows_ovf _ _ _ c1 (l2 ++ l1)); [done| | |by rewrite app_assoc].
    + apply NoDup_app. split_and!; [done| |done]. intros i Hi2 Hi1.
      destruct (B2 i Hi2) as (_ & Hn). set_solver.
    + intros i [Hi|Hi]%elem_of_app; [|by apply B1]. destruct (B2 i Hi) as (? & ?). set_solver.
Qed.
#[local] Hint Resolve ep_grows_refl : core.

Lemma grows_wf B e e' : ep_grows B e e' -> ep_wf B e -> ep_wf B e'.
Proof.
  intros [l O N HB ->|c l O N HB ->] [H1 H2 H3]; split; simpl in *; rewrite ?O in *; simpl in *.
  - intros i. rewrite elem_of_app. intros [[?|Hi]|[?|?]]; auto. by apply HB.
  - rewrite <- app_assoc. apply NoDup_app in H2 as (N1 & N2 & N3). apply NoDup_app. split_and!; [done| |].
    + intros i Hi [Hl|Ht]%elem_of_app; [|by eapply N2]. by destruct (HB i Hl) as (_ & ? & _).
    + apply NoDup_app. split_and!; [done| |done]. intros i Hi Ht. by destruct (HB i Hi) as (_ & _ & ?).
  - done.
  - intros i. rewrite elem_of_app. intros [?|[?|[Hi|?]]]; auto. by apply HB.
  - done.
  - apply NoDup_app. split_and!; [done| |done]. intros i Hi. by apply HB.
Qed.

(** what callbacks may change *)
Record cb_le (w w' : world) : Prop := CbLe {
  cb_kern : wakes (kern w) (kern w');
  cb_eps : forall ep, match eps w !! ep, eps w' !! ep with
                      | Some e, Some e' => ep_grows (belongs (epis w) ep) e e'
                      | None, None => True
                      | _, _ => False
                      end;
  cb_epis : epis w' = epis w;
  cb_pwqs : pwqs w' = pwqs w;
  cb_wheads : wheads w' = wheads w;
  cb_devs : devs w' = devs w;
  cb_links : f_ep_links w' = f_ep_links w;
  cb_lists : tfile_check_list w' = tfile_check_list w /\ visited_list w' = visited_list w /\
             path_count w' = path_count w /\ epmutex w' = epmutex w /\ watches w' = watches w;
  cb_nests : poll_loop_ncalls w' = poll_loop_ncalls w /\
             poll_safewake_ncalls w' = poll_safewake_ncalls w /\
             poll_readywalk_ncalls w' = poll_readywalk_ncalls w;
  cb_env : allocs w' = allocs w /\ script w' = script w /\ addr w' = addr w /\
           ubuf w' = ubuf w /\ current w' = current w
}.

Lemma cb_eps_refl (m : gmap nat eventpoll) B ep :
  match m !! ep, m !! ep with
  | Some e, Some e' => ep_grows B e e' | None, None => True | _, _ => False end.
Proof. by destruct (m !! ep). Qed.

Lemma cb_le_refl w : cb_le w w.
Proof. split; auto with kernel. intros ep. apply cb_eps_refl. Qed.

Lemma cb_le_trans w1 w2 w3 : cb_le w1 w2 -> cb_le w2 w3 -> cb_le w1 w3.
Proof.
  intros [K1 E1 I1 ? ? ? ? (?&?&?&?&?) (?&?&?) (?&?&?&?&?)]
         [K2 E2 ? ? ? ? ? (?&?&?&?&?) (?&?&?) (?&?&?&?&?)].
  split; try congruence; try (split_and!; congruence); [by eapply wakes_trans|].
  intros ep. specialize (E1 ep). specialize (E2 ep). rewrite I1 in E2.
  destruct (eps w1 !! ep), (eps w2 !! ep), (eps w3 !! ep); try done. by eapply ep_grows_trans.
Qed.

(** an eventpoll that exists before exists after, grown *)
Lemma cb_ep w w' ep e :
  cb_le w w' -> eps w !! ep = Some e ->
  exists e', eps w' !! ep = Some e' /\ ep_grows (belongs (epis w) ep) e e'.
Proof.
  intros Hcb He. pose proof (cb_eps _ _ Hcb ep) as H. rewrite He in H.
  destruct (eps w' !! ep) as [e'|]; [eauto|done].
Qed.

Lemma cb_ep_back w w' ep e' :
  cb_le w w' -> eps w' !! ep = Some e' ->
  exists e, eps w !! ep = Some e /\ ep_grows (belongs (epis w) ep) e e'.
Proof.
  intros Hcb He. pose proof (cb_eps _ _ Hcb ep) as H. rewrite He in H.
  destruct (eps w !! ep) as [e|]; [eauto|done].
Qed.

Lemma grows_poll_wait B e e' : ep_grows B e e' -> poll_wait e' = poll_wait e.
Proof. by intros [l _ _ _ ->|c l _ _ _ ->]. Qed.

Lemma hooks_cb w w' : hooks_ok w -> cb_le w w' -> hooks_ok w'.
Proof.
  intros [[Ho Hd] Hwq Hpw Hi Hh Hdv] Hcb. destruct (cb_kern _ _ Hcb) as [Ho' Hev Hq].
  split.
  - split; [auto|]. intros ep q. rewrite Hq. apply Hd.
  - intros ep e' He'. destruct (cb_ep_back _ _ _ _ Hcb He') as (e & He & _). rewrite Hq. by eapply Hwq.
  - intros ep e' He'. destruct (cb_ep_back _ _ _ _ Hcb He') as (e & He & G).
    rewrite (grows_poll_wait _ _ _ G), (cb_wheads _ _ Hcb). by eapply Hpw.
  - intros i x. rewrite (cb_epis _ _ Hcb). intros Hx. destruct (Hi _ _ Hx) as [e He].
    destruct (cb_ep _ _ _ _ Hcb He) as (e' & He' & _). eauto.
  - intros h l p. rewrite (cb_wheads _ _ Hcb), (cb_pwqs _ _ Hcb), (cb_epis _ _ Hcb). apply Hh.
  - intros f d h. rewrite (cb_devs _ _ Hcb), (cb_wheads _ _ Hcb). apply Hdv.
Qed.

(** ** Readiness *)

(** an item is on the ready list, on the list of a scan or on the overflow
    chain of its eventpoll *)
Definition ready_in (i : nat) (e : eventpoll) : bool :=
  ep_is_linked i e ||
  match ovflist e with Some c => bool_decide (i ∈ c) | None => false end.

(** an item is where a callback puts it: on the overflow chain during a
    scan, on the ready list otherwise *)
Definition caught_in (i : nat) (e : eventpoll) : bool :=
  match ovflist e with Some c => bool_decide (i ∈ c) | None => ep_is_linked i e end.

(** the item at [i] is listed in its eventpoll, as one of the two tells *)
Definition listed (caught : bool) (w : world) (i : nat) : Prop :=
  exists x e, epis w !! i = Some x /\ eps w !! epi_ep x = Some e /\
    (if caught then caught_in i e else ready_in i e) = true.

Abbreviation ready := (listed false).
Abbreviation caught := (listed true).

Lemma caught_ready_in i e : caught_in i e = true -> ready_in i e = true.
Proof.
  unfold caught_in, ready_in. destruct (ovflist e); [intros ->; by rewrite orb_true_r|by intros ->].
Qed.

Lemma caught_ready w i : caught w i -> ready w i.
Proof. intros (x & e & ? & ? & H%caught_ready_in). by exists x, e. Qed.

Lemma grows_ready B i e e' : ep_grows B e e' -> ready_in i e = true -> ready_in i e' = true.
Proof.
  unfold ready_in, ep_is_linked. intros [l O _ _ ->|c l O _ _ ->]; simpl; rewrite O.
  - rewrite !orb_true_iff, !bool_decide_eq_true, elem_of_app. tauto.
  - rewrite !orb_true_iff, !bool_decide_eq_true, elem_of_app. tauto.
Qed.

Lemma grows_caught B i e e' : ep_grows B e e' -> caught_in i e = true -> caught_in i e' = true.
Proof.
  unfold caught_in, ep_is_linked. intros [l O _ _ ->|c l O _ _ ->]; simpl; rewrite O.
  - rewrite !orb_true_iff, !bool_decide_eq_true, elem_of_app. tauto.
  - rewrite !bool_decide_eq_true, elem_of_app. tauto.
Qed.

Lemma listed_cb c w w' i : cb_le w w' -> listed c w i -> listed c w' i.
Proof.
  intros Hcb (x & e & Hx & He & Hr). destruct (cb_ep _ _ _ _ Hcb He) as (e' & He' & G).
  exists x, e'. rewrite (cb_epis _ _ Hcb). split_and!; [done|done|].
  destruct c; [by eapply grows_caught|by eapply grows_ready].
Qed.

(** ** Steps of a callback *)

Lemma cb_pm w s : cb_le w (set_pm s w).
Proof. split; simpl; auto with kernel. intros ep. apply cb_eps_refl. Qed.

Lemma cb_set_kern w k : wakes (kern w) k -> cb_le w (set_kern k w).
Proof. intros. split; simpl; auto with kernel. intros ep. apply cb_eps_refl. Qed.

Lemma cb_set_ep w ep e e' :
  eps w !! ep = Some e -> ep_grows (belongs (epis w) ep) e e' -> cb_le w (set_eps (<[ep := e']> (eps w)) w).
Proof.
  intros He G. split; simpl; auto with kernel. intros ep'. rewrite lookup_insert.
  case_decide; subst; [by rewrite He|]. apply cb_eps_refl.
Qed.

(** the list of nested calls is put back *)
Lemma cb_nest w w' l :
  cb_le (set_poll_safewake_ncalls l w) w' ->
  cb_le w (set_poll_safewake_ncalls (poll_safewake_ncalls w) w').
Proof.
  intros [? ? ? ? ? ? ? ? (?&?&?) ?]. split; simpl in *; try done.
Qed.

Lemma get_ep_eq w ep e : eps w !! ep = Some e -> get_ep ep w = Ret e w.
Proof. intros E. unfold get_ep, deref. by rewrite E. Qed.
Lemma get_epi_eq w i x : epis w !! i = Some x -> get_epi i w = Ret x w.
Proof. intros E. unfold get_epi, deref. by rewrite E. Qed.
Lemma upd_ep_eq w ep e f :
  eps w !! ep = Some e -> upd_ep ep f w = Ret tt (set_eps (<[ep := f e]> (eps w)) w).
Proof. intros E. unfold upd_ep, mbind, M_bind. by rewrite (get_ep_eq _ _ _ E). Qed.
Lemma upd_epi_eq w i x f :
  epis w !! i = Some x -> upd_epi i f w = Ret tt (set_epis (<[i := f x]> (epis w)) w).
Proof. intros E. unfold upd_epi, mbind, M_bind. by rewrite (get_epi_eq _ _ _ E). Qed.

Lemma stay_awake_cb w i x :
  epis w !! i = Some x -> exists w', ep_pm_stay_awake i w = Ret tt w' /\ cb_le w w'.
Proof.
  intros Hx. eexists. unfold ep_pm_stay_awake. mrun (get_epi_eq _ _ _ Hx). split; [done|apply cb_pm].
Qed.

Context `{WL : WaitLib}.

Lemma wake_both_cb w ep :
  hooks_ok w -> is_Some (eps w !! ep) ->
  exists b w', wake_both ep w = Ret b w' /\ cb_le w w'.
Proof.
  intros Hw [e He]. destruct (ho_kern _ Hw) as [Ho Hd].
  destruct (ep_wake_wq_wakes (kern w) ep Ho Hd (ho_wq _ Hw _ _ He)) as (k' & E & W).
  pose proof (cb_set_kern w k' W) as Hcb. pose proof (hooks_cb _ _ Hw Hcb) as Hw'.
  unfold wake_both, mbind at 1, M_bind at 1, liftK. rewrite E.
  destruct (ho_poll_wait _ Hw' ep e He) as [l Hl].
  eexists _, _. unfold poll_wait_active. mrun (get_ep_eq (set_kern k' w) _ _ He).
  unfold mbind, M_bind, deref. rewrite Hl. split; [done|exact Hcb].
Qed.

(** the key of a wake-up concerns an item with this event mask *)
Definition triggers (key ev : Z) : bool :=
  negb (Z.land ev (Z.lnot EP_PRIVATE_BITS) =? 0) && ((key =? 0) || meets key ev).

Lemma caught_chain w i x e c :
  epis w !! i = Some x -> eps w !! epi_ep x = Some e -> ovflist e = Some c -> i ∈ c -> caught w i.
Proof.
  intros Hx He Ho Hi. exists x, e. split_and!; [done..|]. unfold caught_in. rewrite Ho.
  by apply bool_decide_eq_true_2.
Qed.

(** the item is put at the end of the ready list, unless it is on a list *)
Lemma link_cb w i x e :
  epis w !! i = Some x -> eps w !! epi_ep x = Some e -> ovflist e = None ->
  exists w', (if ep_is_linked i e then mret tt
              else upd_ep (epi_ep x) (rdl_add i) ;; ep_pm_stay_awake i) w = Ret tt w' /\
    cb_le w w' /\ caught w' i.
Proof.
  intros Hx He Eo. destruct (ep_is_linked i e) eqn:El.
  { exists w. split_and!; [done|apply cb_le_refl|]. exists x, e. split_and!; [done..|].
    unfold caught_in. by rewrite Eo. }
  set (e' := rdl_add i e).
  assert (ep_grows (belongs (epis w) (epi_ep x)) e e') as G.
  { unfold ep_is_linked in El. apply orb_false_iff in El as [L1%bool_decide_eq_false L2%bool_decide_eq_false].
    apply (grows_rdl _ _ _ [i]); [done|apply NoDup_singleton| |done].
    intros j ->%list_elem_of_singleton. split_and!; [by exists x|done|done]. }
  pose proof (cb_set_ep w (epi_ep x) e e' He G) as Hcb.
  set (w1 := set_eps (<[epi_ep x := e']> (eps w)) w) in *.
  assert (caught w1 i) as Hr.
  { exists x, e'. unfold w1; simpl. split_and!; [done|apply lookup_insert_eq|].
    unfold caught_in, ep_is_linked, e', rdl_add; simpl. rewrite Eo, bool_decide_eq_true_2; [done|set_solver]. }
  destruct (stay_awake_cb w1 i x Hx) as (w2 & E2 & Hcb2).
  exists w2. mrun (upd_ep_eq w _ _ (rdl_add i) He). eauto using listed_cb, cb_le_trans.
Qed.

(** the item is put on the overflow chain *)
Lemma chain_cb w i x e c :
  epis w !! i = Some x -> eps w !! epi_ep x = Some e -> ovflist e = Some c ->
  exists w', (if bool_decide (i ∈ c) then mret tt
              else upd_ep (epi_ep x) (set_ovflist (Some (i :: c))) ;;
                   match epi_ws x with
                   | Some _ => on_pm (pm_stay_awake (ep_ws e))
                   | None => mret tt
                   end) w = Ret tt w' /\
    cb_le w w' /\ caught w' i.
Proof.
  intros Hx He Eo. destruct (bool_decide (i ∈ c)) eqn:Ei.
  { exists w. split_and!; [done|apply cb_le_refl|]. apply bool_decide_eq_true in Ei. by eapply caught_chain. }
  set (e' := set_ovflist (Some (i :: c)) e).
  assert (ep_grows (belongs (epis w) (epi_ep x)) e e') as G.
  { apply bool_decide_eq_false in Ei. apply (grows_ovf _ _ _ c [i]); [done|apply NoDup_singleton| |done].
    intros j ->%list_elem_of_singleton. split; [by exists x|done]. }
  pose proof (cb_set_ep w (epi_ep x) e e' He G) as Hcb.
  assert (caught (set_eps (<[epi_ep x := e']> (eps w)) w) i) as Hr.
  { apply (caught_chain _ i x e' (i :: c)); simpl; [done|apply lookup_insert_eq|done|set_solver]. }
  mrun (upd_ep_eq w _ _ (set_ovflist (Some (i :: c))) He).
  destruct (epi_ws x); (eexists; split_and!; [done| |]); eauto using cb_le_trans, cb_pm, listed_cb.
Qed.

Lemma callback_locked_cb w i x key :
  hooks_ok w -> epis w !! i = Some x ->
  exists b w', callback_locked i key w = Ret b w' /\ cb_le w w' /\
    (triggers key (events x) = true -> caught w' i).
Proof.
  intros Hw Hx. destruct (ho_item _ Hw _ _ Hx) as [e He].
  unfold callback_locked, triggers. mrun (get_epi_eq _ _ _ Hx). mrun (get_ep_eq _ _ _ He).
  destruct (Z.land (events x) (Z.lnot EP_PRIVATE_BITS) =? 0); simpl;
    [exists false, w; split_and!; [done|apply cb_le_refl|done]|].
  destruct (negb (key =? 0) && negb (meets key (events x))) eqn:Ek.
  { exists false, w. split_and!; [done|apply cb_le_refl|].
    destruct (key =? 0), (meets key (events x)); simpl in *; done. }
  destruct (ovflist e) as [c|] eqn:Eo.
  - destruct (chain_cb w i x e c Hx He Eo) as (w1 & E1 & Hcb1 & Hr1).
    exists false, w1. mrun E1. done.
  - destruct (link_cb w i x e Hx He Eo) as (w1 & E1 & Hcb1 & Hr1).
    destruct (cb_ep _ _ _ _ Hcb1 He) as (e1 & He1 & _).
    destruct (wake_both_cb w1 (epi_ep x) (hooks_cb _ _ Hw Hcb1)) as (b & w2 & E2 & Hcb2); [by rewrite He1|].
    exists b, w2. mrun E1. split_and!; [done|by eapply cb_le_trans|]. intros _. by eapply listed_cb.
Qed.

(** ** Nested wake-ups *)

(** the number of calls a context is in *)
Definition depth (ctx : nat) (l : list nested_call_node) : nat :=
  length (filter (fun n => snd n = ctx) l).

Lemma nest_check_Some max cookie ctx l n0 n :
  nest_check max cookie ctx l n0 = Some n ->
  n = n0 + Z.of_nat (depth ctx l) /\ (cookie, ctx) ∉ l /\ (n0 <= max -> n <= max).
Proof.
  unfold depth. revert n0. induction l as [|[c x] l IH]; intros n0; simpl.
  { intros [= ->]. split_and!; [simpl; lia|apply not_elem_of_nil|done]. }
  destruct (decide (x = ctx)) as [->|Hx].
  - destruct (decide (c = cookie)) as [|Hc]; [done|].
    destruct (max <? n0 + 1) eqn:G; [done|]. intros (-> & Hn & Hm)%IH. zbool.
    rewrite filter_cons_True by done. simpl. split_and!; [lia| |lia].
    rewrite elem_of_cons. naive_solver.
  - intros (-> & Hn & Hm)%IH. rewrite filter_cons_False by done. split_and!; [done| |done].
    rewrite elem_of_cons. naive_solver.
Qed.

Lemma filter_notin {A} `{EqDecision A} (x : A) (l : list A) : x ∉ l -> filter (fun y => y <> x) l = l.
Proof.
  induction l as [|y l IH]; intros Hn; [done|]. rewrite not_elem_of_cons in Hn.
  rewrite filter_cons_True by naive_solver. f_equal. naive_solver.
Qed.

(** the hooks of a list, called in order *)
Definition called (w : world) (l : list nat) (key : Z) (w' : world) : Prop :=
  forall p q x, p ∈ l -> pwqs w !! p = Some q -> epis w !! base q = Some x ->
    triggers key (events x) = true -> caught w' (base q).

Lemma safewake_cb wake w h :
  hooks_ok w -> is_Some (wheads w !! h) ->
  (forall w1, hooks_ok w1 -> is_Some (wheads w1 !! h) -> this_cpu (kern w1) = this_cpu (kern w) ->
     depth (this_cpu (kern w)) (poll_safewake_ncalls w1) =
       S (depth (this_cpu (kern w)) (poll_safewake_ncalls w)) ->
     (depth (this_cpu (kern w)) (poll_safewake_ncalls w) <= 4)%nat ->
     exists w2, wake h POLLIN w1 = Ret tt w2 /\ cb_le w1 w2) ->
  exists w', ep_poll_safewake wake h w = Ret tt w' /\ cb_le w w'.
Proof.
  intros Hw Hh Hwake. unfold ep_poll_safewake, ep_call_nested, tasks_call_list, set_tasks_call_list.
  mstep. destruct (nest_check _ _ _ _ _) as [n|] eqn:En; [|exists w; auto using cb_le_refl].
  destruct (nest_check_Some _ _ _ _ _ _ En) as (-> & Hni & Hle).
  set (ctx := this_cpu (kern w)) in *. set (l := poll_safewake_ncalls w) in *.
  set (w1 := set_poll_safewake_ncalls ((h, ctx) :: l) w).
  destruct (Hwake w1) as (w2 & E2 & Hcb2).
  - by destruct Hw.
  - done.
  - done.
  - unfold w1, depth; simpl. by rewrite filter_cons_True.
  - unfold EP_MAX_NESTS in Hle. lia.
  - exists (set_poll_safewake_ncalls l w2). unfold ep_poll_wakeup_proc. mstep. rewrite E2.
    destruct (cb_nests _ _ Hcb2) as (_ & N2 & _). rewrite N2. unfold w1; simpl.
    rewrite filter_cons_False by naive_solver. rewrite filter_notin by done.
    split; [done|]. by apply (cb_nest w w2 ((h, ctx) :: l)).
Qed.

Lemma poll_callback_cb wake w p q x key :
  hooks_ok w -> pwqs w !! p = Some q -> epis w !! base q = Some x -> meets key POLLFREE = false ->
  (forall w1 h, hooks_ok w1 -> is_Some (wheads w1 !! h) -> cb_le w w1 ->
     exists w2, ep_poll_safewake wake h w1 = Ret tt w2 /\ cb_le w1 w2) ->
  exists w', EpReady.ep_poll_callback wake p key w = Ret tt w' /\ cb_le w w' /\
    (triggers key (events x) = true -> caught w' (base q)).
Proof.
  intros Hw Hp Hx Hk Hsafe. destruct (callback_locked_cb w (base q) x key Hw Hx) as (b & w1 & E1 & Hcb1 & Hr1).
  pose proof (hooks_cb _ _ Hw Hcb1) as Hw1.
  unfold EpReady.ep_poll_callback. unfold mbind at 1, M_bind at 1, deref. rewrite Hp.
  mrun (get_epi_eq _ _ _ Hx). rewrite Hk. unfold mbind at 1, M_bind at 1, mret at 1, M_ret at 1. mrun E1.
  unfold poll_wake. destruct b; [|by exists w1].
  destruct (ho_item _ Hw _ _ Hx) as [e He]. destruct (cb_ep _ _ _ _ Hcb1 He) as (e1 & He1 & _).
  destruct (Hsafe w1 (poll_wait e1) Hw1 (ho_poll_wait _ Hw1 _ _ He1) Hcb1) as (w2 & E2 & Hcb2).
  exists w2. mrun (get_ep_eq _ _ _ He1).
  split_and!; [done|by eapply cb_le_trans|]. intros Ht. eapply listed_cb; [done|auto].
Qed.

Lemma callbacks_cb wake key l w :
  hooks_ok w -> meets key POLLFREE = false ->
  (forall p, p ∈ l -> exists q, pwqs w !! p = Some q /\ is_Some (epis w !! base q)) ->
  (forall w1 h, hooks_ok w1 -> is_Some (wheads w1 !! h) -> cb_le w w1 ->
     exists w2, ep_poll_safewake wake h w1 = Ret tt w2 /\ cb_le w1 w2) ->
  exists w', mfor (fun p => EpReady.ep_poll_callback wake p key) l w = Ret tt w' /\
    cb_le w w' /\ called w l key w'.
Proof.
  revert w. induction l as [|p l IH]; intros w Hw Hk Hl Hsafe; simpl.
  { exists w. split_and!; [done|apply cb_le_refl|]. intros p q x Hp. by apply elem_of_nil in Hp. }
  destruct (Hl p) as (q & Hq & [x Hx]); [set_solver|].
  destruct (poll_callback_cb wake w p q x key Hw Hq Hx Hk Hsafe) as (w1 & E1 & Hcb1 & Hr1).
  pose proof (hooks_cb _ _ Hw Hcb1) as Hw1.
  destruct (IH w1 Hw1 Hk) as (w2 & E2 & Hcb2 & Hr2).
  - intros p' Hp'. rewrite (cb_pwqs _ _ Hcb1), (cb_epis _ _ Hcb1). apply Hl. set_solver.
  - intros w' h Hw' Hh Hcb'. apply Hsafe; eauto using cb_le_trans.
  - exists w2. mrun E1. split_and!; [done|by eapply cb_le_trans|].
    intros p' q' x' [->|Hp']%elem_of_cons Hq' Hx' Ht; simplify_eq; [by eapply listed_cb; eauto|].
    apply (Hr2 p' q' x'); [done|by rewrite (cb_pwqs _ _ Hcb1)|by rewrite (cb_epis _ _ Hcb1)|done].
Qed.

(** The fuel EP_MAX_NESTS + 2 is enough, whatever watches what: a wake-up
    that is already nested too deep is refused. *)
Lemma wake_up_poll_cb fuel w h l key :
  hooks_ok w -> wheads w !! h = Some l -> meets key POLLFREE = false ->
  (1 <= fuel)%nat -> (6 <= fuel + depth (this_cpu (kern w)) (poll_safewake_ncalls w))%nat ->
  exists w', wake_up_poll fuel h key w = Ret tt w' /\ cb_le w w' /\ called w l key w'.
Proof.
  revert w h l key. induction fuel as [|fuel IH]; intros w h l key Hw Hh Hk Hf Hd; [lia|].
  simpl. unfold mbind, M_bind, deref. rewrite Hh. apply callbacks_cb; try done.
  - intros p Hp. destruct (ho_hook _ Hw _ _ _ Hh Hp) as (q & Hq & _ & Hx). eauto.
  - intros w1 h1 Hw1 Hh1 Hcb1. apply safewake_cb; try done.
    pose proof (ev_cpu _ _ (wk_evolves _ _ (cb_kern _ _ Hcb1))) as Hcpu.
    destruct (cb_nests _ _ Hcb1) as (_ & Hn & _). rewrite Hcpu, Hn.
    intros w2 Hw2 [l2 Hl2] Hcpu2 Hd2 Hle.
    destruct (IH w2 h1 l2 POLLIN Hw2 Hl2) as (w3 & E3 & Hcb3 & _); [done|lia|rewrite Hcpu2; lia|].
    eauto.
Qed.

Lemma safewake_top w ep b :
  hooks_ok w -> is_Some (eps w !! ep) -> depth (this_cpu (kern w)) (poll_safewake_ncalls w) = 0%nat ->
  exists w', safewake ep b w = Ret tt w' /\ cb_le w w'.
Proof.
  intros Hw [e He] Hd. unfold safewake, poll_wake. destruct b; [|exists w; auto using cb_le_refl].
  mrun (get_ep_eq _ _ _ He). apply safewake_cb; [done|by eapply ho_poll_wait|].
  intros w2 Hw2 [l2 Hl2] Hcpu2 Hd2 Hle.
  destruct (wake_up_poll_cb nest_fuel w2 (poll_wait e) l2 POLLIN Hw2 Hl2) as (w3 & E3 & Hcb3 & _);
    [done|unfold nest_fuel; lia|unfold nest_fuel; lia|]. eauto.
Qed.
End World.

Abbreviation ready := (listed false).
Abbreviation caught := (listed true).
