(* ===== verification/EpLoop.v ===== *)
(** * Loops of eventpolls (fs/eventpoll.c), proofs

    ep_loop_check() walks the eventpolls below a new link depth first: it
    returns, it leaves no mark behind, and it refuses the link exactly when
    it closes a loop or makes a chain that is too deep. *)

From stdpp Require Import relations.
From S2P Require Import Prelude Wait Tasklet Cmgroup Sched CmWake CmInv CmTask CmOps.
From S2P Require Import EpTree EpState EpNest EpWake.
Local Open Scope Z_scope.

Section Loop.
Context `{PL : PmLib}.

(** ** Links *)

(** item [i] watches eventpoll [b] *)
Definition item_link (w : world) (i b : nat) : Prop :=
  exists x fl, epis w !! i = Some x /\ files (kern w) !! ffd_file (ffd x) = Some fl /\
    is_file_epoll fl = true /\ private_data fl = Some b.

(** eventpoll [a] watches eventpoll [b] *)
Definition links (w : world) (a b : nat) : Prop :=
  exists e i, eps w !! a = Some e /\ i ∈ inorder (rbr e) /\ item_link w i b.

(** the trees hold items that exist, on files that exist *)
Definition trees_ok (w : world) : Prop :=
  forall a e i, eps w !! a = Some e -> i ∈ inorder (rbr e) ->
  exists x fl, epis w !! i = Some x /\ files (kern w) !! ffd_file (ffd x) = Some fl /\
    (is_file_epoll fl = true -> exists b, private_data fl = Some b /\ is_Some (eps w !! b)).

(** nobody walks the eventpolls *)
Record at_rest (w : world) : Prop := AtRest {
  ar_flags : forall k e, eps w !! k = Some e -> visited e = false /\ mtx e = false;
  ar_list : visited_list w = [];
  ar_calls : poll_loop_ncalls w = []
}.

(** ** The world during the walk *)

Definition mark (V H : gset nat) (m : gmap nat eventpoll) : gmap nat eventpoll :=
  map_imap (fun k e => Some (set_visited (bool_decide (k ∈ V)) (set_mtx (bool_decide (k ∈ H)) e))) m.

Variable w0 : world.
Hypothesis rest : at_rest w0.
Hypothesis trees : trees_ok w0.

(** [V] are the eventpolls visited so far, [H] those whose mutex is held *)
Definition walk (V : list nat) (H : gset nat) (T : list nat) (N : list nested_call_node) : world :=
  set_eps (mark (list_to_set V) H (eps w0))
    (set_visited_list V (set_tfile_check_list T (set_poll_loop_ncalls N w0))).

Lemma mark_lookup V H k e :
  eps w0 !! k = Some e ->
  mark V H (eps w0) !! k = Some (set_visited (bool_decide (k ∈ V)) (set_mtx (bool_decide (k ∈ H)) e)).
Proof. intros E. unfold mark. by rewrite map_lookup_imap, E. Qed.

Lemma walk_start : walk [] ∅ (tfile_check_list w0) [] = w0.
Proof.
  destruct rest as [Hf Hv Hc]. unfold walk. replace (mark _ _ _) with (eps w0).
  { destruct w0; simpl in *. by subst. }
  apply map_eq. intros k. unfold mark. rewrite map_lookup_imap.
  destruct (eps w0 !! k) as [e|] eqn:E; simpl; [|done]. destruct (Hf k e E). f_equal.
  rewrite !bool_decide_eq_false_2 by set_solver. destruct e; simpl in *. by subst.
Qed.

(** a change of one flag *)
Lemma mark_upd V H V' H' k e f :
  eps w0 !! k = Some e ->
  f (set_visited (bool_decide (k ∈ V)) (set_mtx (bool_decide (k ∈ H)) e)) =
    set_visited (bool_decide (k ∈ V')) (set_mtx (bool_decide (k ∈ H')) e) ->
  (forall j, j <> k -> (j ∈ V <-> j ∈ V') /\ (j ∈ H <-> j ∈ H')) ->
  <[k := f (set_visited (bool_decide (k ∈ V)) (set_mtx (bool_decide (k ∈ H)) e))]> (mark V H (eps w0)) =
  mark V' H' (eps w0).
Proof.
  intros E Ef Hj. apply map_eq. intros j. rewrite lookup_insert. destruct (decide (k = j)) as [<-|Ej].
  - by rewrite (mark_lookup _ _ _ _ E), Ef.
  - unfold mark. rewrite !map_lookup_imap. destruct (eps w0 !! j); simpl; [|done].
    destruct (Hj j (not_eq_sym Ej)) as [H1 H2]. by rewrite (bool_decide_ext _ _ H1), (bool_decide_ext _ _ H2).
Qed.

Lemma walk_eps V H H' T N m :
  m = mark (list_to_set V) H' (eps w0) -> set_eps m (walk V H T N) = walk V H' T N.
Proof. by intros ->. Qed.

Lemma walk_get V H T N k e :
  eps w0 !! k = Some e ->
  get_ep k (walk V H T N) =
    Ret (set_visited (bool_decide (k ∈ V)) (set_mtx (bool_decide (k ∈ H)) e)) (walk V H T N).
Proof.
  intros E. rewrite (get_ep_eq (walk V H T N) _ _ (mark_lookup (list_to_set V) H k e E)).
  by rewrite (bool_decide_ext _ (k ∈ V)) by apply elem_of_list_to_set.
Qed.

Lemma walk_lock V H T N k e :
  eps w0 !! k = Some e -> k ∉ H ->
  ep_mutex_lock k (walk V H T N) = Ret tt (walk V ({[k]} ∪ H) T N).
Proof.
  intros E Hk. unfold ep_mutex_lock. mrun (walk_get V H T N k e E). simpl.
  rewrite (bool_decide_eq_false_2 (k ∈ H)) by done. rewrite (upd_ep_eq (walk V H T N) _ _ _ (mark_lookup _ _ _ _ E)).
  f_equal. apply walk_eps, mark_upd; [done| |set_solver]. simpl.
  by rewrite (bool_decide_eq_true_2 (k ∈ {[k]} ∪ H)) by set_solver.
Qed.

Lemma walk_unlock V H T N k e :
  eps w0 !! k = Some e -> k ∉ H ->
  ep_mutex_unlock k (walk V ({[k]} ∪ H) T N) = Ret tt (walk V H T N).
Proof.
  intros E Hk. unfold ep_mutex_unlock. rewrite (upd_ep_eq (walk V ({[k]} ∪ H) T N) _ _ _ (mark_lookup _ _ _ _ E)).
  f_equal. apply walk_eps, mark_upd; [done| |set_solver]. simpl.
  by rewrite (bool_decide_eq_false_2 (k ∈ H)) by set_solver.
Qed.

Lemma walk_visit V H T N k e :
  eps w0 !! k = Some e ->
  (upd_ep k (set_visited true) ;; modify (fun w => set_visited_list (k :: visited_list w) w))
    (walk V H T N) = Ret tt (walk (k :: V) H T N).
Proof.
  intros E. mrun (upd_ep_eq (walk V H T N) _ _ (set_visited true) (mark_lookup (list_to_set V) H k e E)).
  unfold modify. f_equal. apply (walk_eps (k :: V) H), mark_upd; [done| |set_solver]. simpl.
  by rewrite (bool_decide_eq_true_2 (k ∈ {[k]} ∪ _)) by set_solver.
Qed.

Lemma walk_epi V H T N i x : epis w0 !! i = Some x -> get_epi i (walk V H T N) = Ret x (walk V H T N).
Proof. intros E. by apply get_epi_eq. Qed.

(** ** The walk *)

Variable root : nat.
Abbreviation ctx := (current w0).

Lemma nest_check_None max cookie c l n :
  nest_check max cookie c l n = None -> (cookie, c) ∈ l \/ max < n + Z.of_nat (depth c l).
Proof.
  unfold depth. revert n. induction l as [|[k x] l IH]; intros n; simpl; [done|].
  destruct (decide (x = c)) as [->|Hx].
  - rewrite filter_cons_True by done. simpl. destruct (decide (k = cookie)) as [->|Hk]; [intros _; left; set_solver|].
    destruct (max <? n + 1) eqn:E; zbool; [right; lia|]. intros [?|?]%IH; [left; set_solver|right; lia].
  - rewrite filter_cons_False by done. intros [?|?]%IH; [left; set_solver|by right].
Qed.

(** why the walk below [v] fails at depth [d]: a loop, or a chain with more
    than EP_MAX_NESTS nested calls *)
Definition refused (d v : nat) : Prop :=
  tc (links w0) v root \/ exists c, nsteps (links w0) (6 - d) v c.

Lemma refused_up d v c : (d <= 4)%nat -> links w0 v c -> refused (S d) c -> refused d v.
Proof.
  intros Hd Hl [Ht|[u Hu]]; [left; by eapply tc_l|right; exists u].
  replace (6 - d)%nat with (S (6 - S d)) by lia. by econstructor.
Qed.

(** what is newly visited is closed under links *)
Definition closed (V V' : list nat) : Prop :=
  forall u c, u ∈ V' -> u ∉ V -> links w0 u c -> c ∈ V'.

Lemma closed_trans V1 V2 V3 : V2 ⊆ V3 -> closed V1 V2 -> closed V2 V3 -> closed V1 V3.
Proof.
  intros Hs C1 C2 u c Hu Hn Hl. destruct (decide (u ∈ V2)) as [H2|H2]; [|by apply (C2 u)].
  apply Hs. by apply (C1 u).
Qed.

(** the pending calls are of the root and of visited eventpolls *)
Definition calls_ok (V : list nat) (N : list nested_call_node) : Prop :=
  root ∉ V /\ (root, ctx) ∈ N /\ forall c, (c, ctx) ∈ N -> c = root \/ c ∈ V.

Lemma calls_ok_mono V V' N : V ⊆ V' -> root ∉ V' -> calls_ok V N -> calls_ok V' N.
Proof. intros Hs Hr (_ & Hn & Hc). split_and!; [done..|]. intros c [?|?]%Hc; auto. Qed.

(** more eventpolls were visited *)
Definition grown (V V' : list nat) : Prop :=
  V ⊆ V' /\ forall u, u ∈ V' -> u ∈ V \/ is_Some (eps w0 !! u).

Lemma grown_refl V : grown V V.
Proof. split; auto. Qed.
Lemma grown_trans V1 V2 V3 : grown V1 V2 -> grown V2 V3 -> grown V1 V3.
Proof. intros [S1 E1] [S2 E2]. split; [set_solver|]. intros u [?|?]%E2; auto. Qed.

(** the outcome of a walk that started with [V] *)
Definition walked (d v : nat) (V V' : list nat) (r : Z) : Prop :=
  grown V V' /\ root ∉ V' /\ ((r = 0 /\ closed V V') \/ (r = -1 /\ refused d v)).

Definition rec_ok (n : nat) (rec : nat -> Z -> W Z) : Prop :=
  forall file fl v e V H T N k,
  files (kern w0) !! file = Some fl -> private_data fl = Some v -> eps w0 !! v = Some e ->
  v ∉ V -> H ⊆ list_to_set V -> calls_ok (v :: V) N -> (7 <= n + depth ctx N)%nat -> (depth ctx N <= 5)%nat ->
  exists r V' T', rec file k (walk V H T N) = Ret r (walk V' H T' N) /\ v ∈ V' /\ walked (depth ctx N) v V V' r.

(** the nested call *)
Lemma nested_walk n rec file fl c e V H T N v :
  rec_ok n rec -> files (kern w0) !! file = Some fl -> private_data fl = Some c -> eps w0 !! c = Some e ->
  c ∉ V -> H ⊆ list_to_set V -> calls_ok V N -> (7 <= n + 1 + depth ctx N)%nat ->
  links w0 v c -> (depth ctx N <= 5)%nat ->
  exists r V' T', ep_call_nested poll_loop EP_MAX_NESTS (rec file) c ctx (walk V H T N) =
    Ret r (walk V' H T' N) /\ walked (depth ctx N) v V V' r /\ (r = 0 -> c ∈ V').
Proof.
  intros Hr Hf Hp He Hc HH Hcalls Hn Hl Hd. unfold ep_call_nested, mbind at 1, M_bind at 1, get.
  change (tasks_call_list poll_loop (walk V H T N)) with N.
  destruct (nest_check _ _ _ _ _) as [k|] eqn:En.
  - destruct (nest_check_Some _ _ _ _ _ _ En) as (-> & Hni & Hle). unfold EP_MAX_NESTS in Hle.
    specialize (Hle ltac:(lia)). unfold mbind at 1, M_bind at 1, modify at 1.
    change (set_tasks_call_list poll_loop ((c, ctx) :: N) (walk V H T N)) with (walk V H T ((c, ctx) :: N)).
    assert (depth ctx ((c, ctx) :: N) = S (depth ctx N)) as Ed.
    { unfold depth. by rewrite filter_cons_True. }
    destruct (Hr file fl c e V H T ((c, ctx) :: N) (0 + Z.of_nat (depth ctx N))) as (r & V' & T' & E & Hv & Hs & Hro & Ho);
      try done; [|lia|lia|].
    { destruct Hcalls as (Hroot & Hin & Hcs). split_and!; [|set_solver|].
      - rewrite elem_of_cons. intros [->|?]; done.
      - intros c'. rewrite elem_of_cons. intros [[= ->]|[?|?]%Hcs]; set_solver. }
    exists r, V', T'. mrun E. split_and!.
    + unfold mbind, M_bind, modify. simpl tasks_call_list. f_equal.
      rewrite filter_cons_False by tauto. by rewrite filter_notin.
    + split_and!; [done|done|]. destruct Ho as [?|[-> ?]]; [by left|right]. split; [done|]. eapply refused_up; [lia|exact Hl|].
      by rewrite <- Ed.
    + done.
  - exists (-1), V, T. split_and!; [done| |done]. split_and!; [apply grown_refl|apply Hcalls|]. right. split; [done|].
    destruct (nest_check_None _ _ _ _ _ En) as [[-> | ?]%Hcalls|Hm]; [left; by apply tc_once|done|].
    right. exists c. replace (6 - depth ctx N)%nat with 1%nat by (unfold EP_MAX_NESTS in Hm; lia).
    by apply nsteps_once.
Qed.

(** the walk over the items of [v] *)
Lemma loop_walk_ok n rec v ev l : forall V H T N,
  rec_ok n rec -> eps w0 !! v = Some ev -> l ⊆ inorder (rbr ev) ->
  H ⊆ list_to_set V -> calls_ok V N -> (7 <= n + 1 + depth ctx N)%nat -> (depth ctx N <= 5)%nat ->
  exists r V' T', loop_walk rec l (walk V H T N) = Ret r (walk V' H T' N) /\ walked (depth ctx N) v V V' r /\
    (r = 0 -> forall i c, i ∈ l -> item_link w0 i c -> c ∈ V').
Proof.
  induction l as [|i l IH]; intros V H T N Hr Hv Hl HH Hc Hn Hd; simpl.
  { exists 0, V, T. split_and!; [done| |set_solver]. split_and!; [apply grown_refl|apply Hc|]. left. split; [done|]. by intros u c Hu Hnu. }
  destruct (trees v ev i Hv) as (x & fl & Hx & Hf & Hb); [set_solver|].
  assert (l ⊆ inorder (rbr ev)) as Hl' by set_solver.
  mrun (walk_epi V H T N i x Hx). unfold mbind at 1, M_bind at 1, get_file, deref. simpl kern. rewrite Hf.
  destruct (is_file_epoll fl) eqn:Efl.
  - destruct (Hb eq_refl) as (c & Hp & [ec Hec]). unfold mbind at 1, M_bind at 1, file_ep. rewrite Hp.
    unfold mret at 1, M_ret at 1. mrun (walk_get V H T N c ec Hec). 
    assert (item_link w0 i c) as Hic by by exists x, fl.
    assert (forall c', item_link w0 i c' -> c' = c) as Huniq.
    { intros c' (x' & fl' & Hx' & Hf' & _ & Hp'). congruence. }
    destruct (decide (c ∈ V)) as [HcV|HcV].
    + rewrite bool_decide_eq_true_2 by done. cbn [visited set_visited set_mtx]. destruct (IH V H T N) as (r & V' & T' & E & W & Hi); try done.
      exists r, V', T'. split_and!; [done|done|]. intros Hr0 j c' [-> | Hj]%elem_of_cons Hjc; [|by apply (Hi Hr0 j)].
      rewrite (Huniq _ Hjc). by apply (proj1 W).
    + rewrite bool_decide_eq_false_2 by done. cbn [visited set_visited set_mtx].
      unfold mbind at 1, M_bind at 1, get. change (current (walk V H T N)) with ctx.
      destruct (nested_walk n rec (ffd_file (ffd x)) fl c ec V H T N v) as (r & V1 & T1 & E1 & W1 & Hc1); try done.
      { exists ev, i. split_and!; [done|set_solver|done]. }
      mrun E1. destruct (r =? 0) eqn:Er; simpl; [zbool; subst r|].
      * destruct W1 as (S1 & R1 & [[_ C1]|[? _]]); [|done].
        destruct (IH V1 H T1 N) as (r & V' & T' & E & (S2 & R2 & W2) & Hi); try done.
        { destruct S1. set_solver. }
        { eapply calls_ok_mono; [apply S1|done|done]. }
        exists r, V', T'. split_and!; [done| |].
        -- split_and!; [by eapply grown_trans|done|]. destruct W2 as [[-> C2]|?]; [left|by right].
           split; [done|]. eapply closed_trans; [apply S2|done|done].
        -- intros Hr0 j c' [-> | Hj]%elem_of_cons Hjc; [|by apply (Hi Hr0 j)]. rewrite (Huniq _ Hjc).
           by apply S2, Hc1.
      * zbool. exists r, V1, T1. split_and!; done.
  - unfold mbind at 1, M_bind at 1, get.
    assert (exists T1, (if bool_decide (ffd_file (ffd x) ∈ tfile_check_list (walk V H T N)) then mret tt
         else modify (fun w => set_tfile_check_list (ffd_file (ffd x) :: tfile_check_list w) w)) (walk V H T N) =
      Ret tt (walk V H T1 N)) as [T1 E1] by (destruct (bool_decide _); eexists; reflexivity).
    mrun E1. destruct (IH V H T1 N) as (r & V' & T' & E & W & Hi); try done.
    exists r, V', T'. split_and!; [done|done|]. intros Hr0 j c' [-> | Hj]%elem_of_cons Hjc; [|by apply (Hi Hr0 j)].
    destruct Hjc as (x' & fl' & Hx' & Hf' & Hfl' & _). congruence.
Qed.

Lemma loop_proc_ok n : rec_ok n (ep_loop_check_proc n).
Proof.
  induction n as [|n IH]; intros file fl v e V H T N k Hf Hp He Hv HH Hc Hn Hd; [lia|]. simpl.
  unfold mbind at 1, M_bind at 1, get_file, deref. simpl kern. rewrite Hf.
  unfold mbind at 1, M_bind at 1, file_ep. rewrite Hp. unfold mret at 1, M_ret at 1.
  assert (v ∉ H) as HvH by set_solver. mrun (walk_lock V H T N v e He HvH).
  pose proof (walk_visit V ({[v]} ∪ H) T N v e He) as E1. unfold mbind at 1, M_bind at 1 in E1.
  unfold mbind at 1, M_bind at 1. destruct (upd_ep v (set_visited true) _); try done. mrun E1.
  mrun (walk_get (v :: V) ({[v]} ∪ H) T N v e He). simpl rbr.
  destruct (loop_walk_ok n (ep_loop_check_proc n) v e (inorder (rbr e)) (v :: V) ({[v]} ∪ H) T N)
    as (r & V' & T' & E & (S & R & W) & Hi); try done; [set_solver|lia|].
  mrun E. mrun (walk_unlock V' H T' N v e He HvH). exists r, V', T'.
  assert (grown V (v :: V)) as G.
  { split; [set_solver|]. intros u [-> | ?]%elem_of_cons; [right; by rewrite He|by left]. }
  split_and!; [done|apply S; set_solver|]. split_and!; [by eapply grown_trans|done|]. destruct W as [[-> C]|?]; [left|by right]. split; [done|].
  intros u c Hu Hnu Hl. destruct (decide (u = v)) as [->|Hne]; [|apply (C u); [done|set_solver|done]].
  destruct Hl as (e' & i & He' & Hin & Hil). simplify_eq. by apply (Hi eq_refl i).
Qed.

(** ** The check *)

Lemma clear_visited_ok l wb : forall V H,
  (forall u, u ∈ l -> is_Some (eps w0 !! u)) ->
  clear_visited l (set_eps (mark V H (eps w0)) wb) = Ret tt (set_eps (mark (V ∖ list_to_set l) H (eps w0)) wb).
Proof.
  induction l as [|k l IH]; intros V H Hl; simpl.
  { by replace (V ∖ ∅) with V by set_solver. }
  destruct (Hl k) as [e He]; [set_solver|]. set (w := set_eps _ _).
  assert (eps w !! k = Some (set_visited (bool_decide (k ∈ V)) (set_mtx (bool_decide (k ∈ H)) e))) as Ek
    by by apply mark_lookup.
  mrun (upd_ep_eq w k _ (set_visited false) Ek). change (eps w) with (mark V H (eps w0)).
  rewrite (mark_upd V H (V ∖ {[k]}) H k e); [|done| |set_solver].
  - rewrite <- difference_difference_l_L. apply (IH (V ∖ {[k]}) H). set_solver.
  - simpl. by rewrite (bool_decide_eq_false_2 (k ∈ V ∖ {[k]})) by set_solver.
Qed.

(** what is visited from [tep] on is all that [tep] leads to *)
Lemma closed_reach V v c : closed [] V -> v ∈ V -> rtc (links w0) v c -> c ∈ V.
Proof. intros C Hv H. induction H as [|a b c Hl _ IH]; [done|]. apply IH. apply (C a); set_solver. Qed.

(** the outermost call *)
Lemma first_call nproc r V T :
  nproc 0 (walk [] ∅ (tfile_check_list w0) [(root, ctx)]) = Ret r (walk V ∅ T [(root, ctx)]) ->
  ep_call_nested poll_loop EP_MAX_NESTS nproc root ctx w0 = Ret r (walk V ∅ T []).
Proof.
  intros E. unfold ep_call_nested. unfold mbind at 1, M_bind at 1, get.
  cbn [tasks_call_list set_tasks_call_list]. rewrite (ar_calls _ rest). cbn [nest_check].
  unfold mbind at 1, M_bind at 1, modify at 1.
  replace (set_poll_loop_ncalls [(root, ctx)] w0) with (walk [] ∅ (tfile_check_list w0) [(root, ctx)]).
  - mrun E. unfold mbind, M_bind, modify, mret, M_ret. f_equal. simpl poll_loop_ncalls.
    by rewrite filter_cons_False by tauto.
  - transitivity (set_poll_loop_ncalls [(root, ctx)] (walk [] ∅ (tfile_check_list w0) [])); [done|].
    by rewrite walk_start.
Qed.

Lemma loop_check_ok file fl tep e :
  files (kern w0) !! file = Some fl -> private_data fl = Some tep -> eps w0 !! tep = Some e -> tep <> root ->
  exists r T, ep_loop_check root file w0 = Ret r (set_tfile_check_list T w0) /\
    ((r = 0 /\ ~ rtc (links w0) tep root) \/ (r = -1 /\ refused 1 tep)).
Proof.
  intros Hf Hp He Hne.
  assert (depth ctx [(root, ctx)] = 1%nat) as Ed by (unfold depth; by rewrite filter_cons_True).
  destruct (loop_proc_ok nest_fuel file fl tep e [] ∅ (tfile_check_list w0) [(root, ctx)] 0)
    as (r & V & T & E & Hv & [_ G] & Hr & Ho); try done; try (rewrite Ed; unfold nest_fuel; lia); [set_solver| |].
  { split_and!; [set_solver|set_solver|]. intros c [[= ->]|[]%elem_of_nil]%elem_of_cons. by left. }
  exists r, T. split.
  - unfold ep_loop_check, mbind at 1, M_bind at 1, get. mrun (first_call _ _ _ _ E).
    unfold mbind at 1, M_bind at 1, get. unfold walk at 2.
    mrun (clear_visited_ok (visited_list (walk V ∅ T [])) (set_visited_list V (set_tfile_check_list T (set_poll_loop_ncalls [] w0)))
      (list_to_set V) ∅); [|intros u [[]%elem_of_nil|?]%G; done].
    unfold mbind, M_bind, modify, mret, M_ret. f_equal. simpl visited_list. rewrite difference_diag_L.
    transitivity (set_tfile_check_list T (walk [] ∅ (tfile_check_list w0) [])); [done|]. by rewrite walk_start.
  - rewrite Ed in Ho. destruct Ho as [[-> C]|Ho]; [left|by right]. split; [done|]. intros Hreach.
    by apply Hr, (closed_reach V tep).
Qed.
End Loop.

(** ** Adding a link *)

Definition acyclic (R : relation nat) : Prop := forall a, ~ tc R a a.

(** [R] with a link from [a] to [b] *)
Definition add_link (R : relation nat) (a b : nat) : relation nat :=
  fun x y => R x y \/ (x = a /\ y = b).

Lemma add_link_path R a b x y :
  ~ rtc R b a -> tc (add_link R a b) x y -> tc R x y \/ (rtc R x a /\ rtc R b y).
Proof.
  intros Hn H. induction H as [x y [H|[-> ->]]|x z y [H|[-> ->]] _ IH].
  - left. by apply tc_once.
  - right. split; apply rtc_refl.
  - destruct IH as [?|[? ?]]; [left; by eapply tc_l|right]. split; [by eapply rtc_l|done].
  - destruct IH as [?|[? ?]]; [right|done]. split; [apply rtc_refl|by apply tc_rtc].
Qed.

Lemma acyclic_add R a b : acyclic R -> ~ rtc R b a -> acyclic (add_link R a b).
Proof.
  intros HR Hn x Hx. destruct (add_link_path _ _ _ _ _ Hn Hx) as [?|[H1 H2]]; [by eapply HR|].
  apply Hn. by etransitivity.
Qed.

Section Check.
Context `{PL : PmLib}.

(** C17: ep_loop_check() for a link from [ep] to the eventpoll [tep] of another
    file returns, and apart from the list of files for reverse_path_check() it
    leaves everything (visited flags, mutexes, pending calls) as it was.  If it
    returns 0, the link keeps the eventpolls free of loops.  It returns -1
    only when the link closes a loop or when a chain of five links starts at
    [tep], one more than EP_MAX_NESTS allows. *)
Theorem ep_loop_check_spec (w : world) (ep file tep : nat) (fl : Cmgroup.file) (e : eventpoll) :
  at_rest w -> trees_ok w -> files (kern w) !! file = Some fl -> private_data fl = Some tep ->
  eps w !! tep = Some e -> tep <> ep ->
  exists r T, ep_loop_check ep file w = Ret r (set_tfile_check_list T w) /\
    ((r = 0 /\ (acyclic (links w) -> acyclic (add_link (links w) ep tep))) \/
     (r = -1 /\ (tc (links w) tep ep \/ exists c, nsteps (links w) 5 tep c))).
Proof.
  intros Hr Ht Hf Hp He Hne. destruct (loop_check_ok w Hr Ht ep file fl tep e Hf Hp He Hne) as (r & T & E & Ho).
  exists r, T. split; [done|]. destruct Ho as [[-> H]|[-> H]]; [left|by right].
  split; [done|]. intros Ha. by apply acyclic_add.
Qed.
End Check.

(** eventpoll 10 watches eventpoll 11 *)
Definition loop_world : world (H := pm_none) :=
  World (H := pm_none)
    (Kernel ∅ ∅ (<[ 1%nat := File eventpoll_fops (Some 10%nat) ]> {[ 2%nat := File eventpoll_fops (Some 11%nat) ]})
      ∅ ∅ ∅ ∅ [] false (Tasklet.Softirq (fun _ => Tasklet.PerCpu 0 [] [] false false) ∅) 0)
    (<[ 10%nat := Eventpoll false 40 [] [] (rb_node rb_null 20%nat rb_null) None None 0 (Some 1%nat) false ]>
      {[ 11%nat := Eventpoll false 41 [] [] rb_null None None 0 (Some 2%nat) false ]})
    {[ 20%nat := Epitem (Filefd 2 8) 1 [] 10 None POLLIN 6 ]}
    ∅ ∅ ∅ ∅ [] [] [] [] [] [] false ∅ tt [] [] 100 [] 1.

(** a link from 11 to 10 would close a loop *)
Lemma ep_loop_check_spec_witness :
  exists T, ep_loop_check 11 1 loop_world = Ret (-1) (set_tfile_check_list T loop_world) /\
    (tc (links loop_world) 10%nat 11%nat \/ exists c, nsteps (links loop_world) 5 10%nat c).
Proof.
  destruct (ep_loop_check_spec loop_world 11 1 10 (File eventpoll_fops (Some 10%nat))
    (Eventpoll false 40 [] [] (rb_node rb_null 20%nat rb_null) None None 0 (Some 1%nat) false))
    as (r & T & E & H).
  - split; [|reflexivity|reflexivity]. intros k e. unfold loop_world; simpl.
    intros [[_ <-]|[_ [_ <-]%lookup_singleton_Some]]%lookup_insert_Some; split; reflexivity.
  - intros a e i. unfold loop_world; simpl.
    intros [[_ <-]|[_ [_ <-]%lookup_singleton_Some]]%lookup_insert_Some; simpl; intros Hi; [|set_solver].
    assert (i = 20%nat) as -> by set_solver. eexists _, _. split; [reflexivity|]. split; [reflexivity|].
    intros _. exists 11%nat. split; [reflexivity|]. eexists. reflexivity.
  - reflexivity.
  - reflexivity.
  - reflexivity.
  - discriminate.
  - assert (match ep_loop_check 11 1 loop_world with Ret r _ => r | _ => 0 end = -1) as Er by reflexivity.
    rewrite E in Er. subst r. exists T. split; [exact E|]. destruct H as [[H _]|[_ H]]; [discriminate|exact H].
Defined.
