(* ===== verification/EpPath.v ===== *)
(** * Wakeup paths (fs/eventpoll.c), proofs

    reverse_path_check() counts, for every file a new link makes reachable,
    the paths by which an event of the file can wake an eventpoll, by length,
    in an array of five counters. *)

From S2P Require Import Prelude Wait Tasklet Cmgroup Sched CmWake CmInv CmTask CmOps.
From S2P Require Import EpTree EpState EpNest EpWake EpLoop.
Local Open Scope Z_scope.

(** the counters are within the limits *)
Definition in_limits (pc : list Z) : Prop := Forall2 (fun n l => 0 <= n <= l) pc path_limits.

Lemma in_limits_init : in_limits (replicate 5 0).
Proof. repeat constructor; done. Qed.

Section Path.
Context `{PL : PmLib}.

(** whoever watches a file is an item of an eventpoll with an open file *)
Definition watchers_ok (w : world) : Prop :=
  forall f i, i ∈ ep_links f w -> exists x e g fl, epis w !! i = Some x /\ eps w !! epi_ep x = Some e /\
    ep_file e = Some g /\ files (kern w) !! g = Some fl.

Variable w0 : world.
Hypothesis watchers : watchers_ok w0.

Definition counting (pc : list Z) (N : list nested_call_node) : world :=
  set_path_count pc (set_poll_loop_ncalls N w0).

Abbreviation ctx := (current w0).

(** the result of counting: the limits hold, or the link is refused *)
Definition counted (r : Z) (pc : list Z) : Prop := (r = 0 /\ in_limits pc) \/ r = -1.

(** a counter goes up by one; the index is within the array *)
Lemma path_count_inc_ok k pc N :
  0 <= k <= EP_MAX_NESTS -> in_limits pc ->
  exists r pc', path_count_inc k (counting pc N) = Ret r (counting pc' N) /\ counted r pc'.
Proof.
  intros Hk Hp. unfold path_count_inc. destruct (k =? 0) eqn:E0; [exists 0, pc; split; [done|by left]|]. zbool.
  unfold mbind at 1, M_bind at 1, get. change (path_count (counting pc N)) with pc.
  assert (Z.to_nat k < length path_limits)%nat as Hlt by (unfold EP_MAX_NESTS in Hk; simpl; lia).
  destruct (lookup_lt_is_Some_2 path_limits _ Hlt) as [limit Hl]. rewrite Hl.
  destruct (Forall2_lookup_r _ _ _ _ _ Hp Hl) as (n & Hn & Hr). rewrite Hn.
  eexists _, _. split; [reflexivity|]. assert (limit <= 1000) as Hmax.
  { assert (Forall (fun l => l <= 1000) path_limits) as H by (repeat constructor; lia).
    exact (Forall_lookup_1 _ _ _ _ H Hl). }
  rewrite s32_id by lia.
  destruct (limit <? n + 1) eqn:El; zbool; [by right|left]. split; [done|].
  unfold in_limits. rewrite <- (list_insert_id path_limits _ _ Hl). apply Forall2_insert; [done|lia].
Qed.

Definition count_ok (n : nat) (rec : nat -> Z -> W Z) : Prop :=
  forall file k pc N, in_limits pc -> 0 <= k <= EP_MAX_NESTS ->
  (7 <= n + depth ctx N)%nat -> (depth ctx N <= 5)%nat ->
  exists r pc', rec file k (counting pc N) = Ret r (counting pc' N) /\ counted r pc'.

Lemma nested_count n rec file c pc N :
  count_ok n rec -> in_limits pc -> (7 <= n + 1 + depth ctx N)%nat -> (depth ctx N <= 5)%nat ->
  exists r pc', ep_call_nested poll_loop EP_MAX_NESTS (rec file) c ctx (counting pc N) =
    Ret r (counting pc' N) /\ counted r pc'.
Proof.
  intros Hr Hp Hn Hd. unfold ep_call_nested. unfold mbind at 1, M_bind at 1, get.
  change (tasks_call_list poll_loop (counting pc N)) with N.
  destruct (nest_check _ _ _ _ _) as [k|] eqn:En; [|exists (-1), pc; split; [done|by right]].
  destruct (nest_check_Some _ _ _ _ _ _ En) as (-> & Hni & Hle).
  specialize (Hle ltac:(unfold EP_MAX_NESTS; lia)). unfold mbind at 1, M_bind at 1, modify at 1.
  change (set_tasks_call_list poll_loop ((c, ctx) :: N) (counting pc N)) with (counting pc ((c, ctx) :: N)).
  assert (depth ctx ((c, ctx) :: N) = S (depth ctx N)) as Ed by (unfold depth; by rewrite filter_cons_True).
  destruct (Hr file (0 + Z.of_nat (depth ctx N)) pc ((c, ctx) :: N)) as (r & pc' & E & Ho);
    unfold EP_MAX_NESTS in *; try done; try lia.
  mrun E. exists r, pc'. split; [|done]. unfold mbind, M_bind, modify, mret, M_ret. f_equal.
  change (tasks_call_list poll_loop (counting pc' ((c, ctx) :: N))) with ((c, ctx) :: N).
  rewrite filter_cons_False by tauto. by rewrite filter_notin.
Qed.

Lemma reverse_walk_ok n rec file k l : forall pc N,
  count_ok n rec -> l ⊆ ep_links file w0 -> in_limits pc -> 0 <= k <= EP_MAX_NESTS ->
  (7 <= n + 1 + depth ctx N)%nat -> (depth ctx N <= 5)%nat ->
  exists r pc', reverse_walk rec k l (counting pc N) = Ret r (counting pc' N) /\ counted r pc'.
Proof.
  induction l as [|i l IH]; intros pc N Hr Hl Hp Hk Hn Hd; simpl; [exists 0, pc; split; [done|by left]|].
  destruct (watchers file i) as (x & e & g & fl & Hx & He & Hg & Hf); [set_solver|].
  assert (l ⊆ ep_links file w0) as Hl' by set_solver.
  mrun (get_epi_eq (counting pc N) i x Hx). mrun (get_ep_eq (counting pc N) _ e He). rewrite Hg.
  unfold mbind at 1, M_bind at 1, mret at 1, M_ret at 1. unfold mbind at 1, M_bind at 1, get_file, deref.
  simpl kern. rewrite Hf. destruct (is_file_epoll fl); [|by apply IH].
  unfold mbind at 1, M_bind at 1, get. change (current (counting pc N)) with ctx.
  assert (exists r pc', (if bool_decide (ep_links g (counting pc N) = []) then
      r ← path_count_inc k; mret (if negb (r =? 0) then -1 else 0)
    else ep_call_nested poll_loop EP_MAX_NESTS (rec g) g ctx) (counting pc N) = Ret r (counting pc' N) /\ counted r pc')
    as (r & pc1 & E1 & H1).
  { destruct (bool_decide _); [|by apply (nested_count n)].
    destruct (path_count_inc_ok k pc N Hk Hp) as (r & pc' & E & Ho). exists (if negb (r =? 0) then -1 else 0), pc'.
    mrun E. split; [done|]. destruct Ho as [[-> ?]| ->]; [by left|by right]. }
  mrun E1. destruct H1 as [[-> H1]| ->]; simpl; [by apply IH|]. exists (-1), pc1. split; [done|by right].
Qed.

Lemma reverse_proc_ok n : count_ok n (reverse_path_check_proc n).
Proof.
  induction n as [|n IH]; intros file k pc N Hp Hk Hn Hd; [lia|]. simpl.
  unfold mbind at 1, M_bind at 1, get. change (ep_links file (counting pc N)) with (ep_links file w0).
  apply (reverse_walk_ok n _ file); try done. lia.
Qed.

Lemma reverse_files_ok l : forall pc, poll_loop_ncalls w0 = [] -> in_limits pc ->
  exists r pc', reverse_files l (counting pc []) = Ret r (counting pc' []) /\ counted r pc'.
Proof.
  induction l as [|f l IH]; intros pc Hc Hp; cbn [reverse_files]; [exists 0, pc; split; [done|by left]|].
  unfold path_count_init. unfold mbind at 1, M_bind at 1, modify at 1. unfold mbind at 1, M_bind at 1, get.
  change (set_path_count (replicate 5 0) (counting pc [])) with (counting (replicate 5 0) []).
  change (current (counting (replicate 5 0) [])) with ctx.
  destruct (nested_count nest_fuel (reverse_path_check_proc nest_fuel) f f (replicate 5 0) []) as (r & pc1 & E1 & H1);
    [apply reverse_proc_ok|apply in_limits_init|unfold nest_fuel; lia|unfold depth; simpl; lia|].
  mrun E1. destruct H1 as [[-> H1]| ->]; simpl; [by apply IH|]. exists (-1), pc1. split; [done|by right].
Qed.
End Path.

Section Check.
Context `{PL : PmLib}.

(** reverse_path_check() returns: it never indexes its array of five
    counters out of bounds, however the eventpolls watch one another, its
    counters do not overflow, and only they change.  If it returns 0 the
    counts are within [path_limits]; otherwise it returns -1. *)
Theorem reverse_path_check_spec (w : world) :
  watchers_ok w -> poll_loop_ncalls w = [] -> in_limits (path_count w) ->
  exists r pc, reverse_path_check w = Ret r (set_path_count pc w) /\
    ((r = 0 /\ in_limits pc) \/ r = -1).
Proof.
  intros Hw Hc Hp. destruct (reverse_files_ok w Hw (tfile_check_list w) (path_count w) Hc Hp) as (r & pc & E & Ho).
  exists r, pc. split; [|done]. unfold reverse_path_check, mbind, M_bind, get.
  assert (forall p, counting w p [] = set_path_count p w) as Ec.
  { intros p. unfold counting. destruct w; simpl in *. by subst. }
  rewrite !Ec in E. rewrite <- E. f_equal. by destruct w.
Qed.
End Check.

(** eventpoll 10 watches file 3 *)
Definition path_world : world (H := pm_none) :=
  World (H := pm_none)
    (Kernel ∅ ∅ {[ 1%nat := File eventpoll_fops (Some 10%nat) ]}
      ∅ ∅ ∅ ∅ [] false (Tasklet.Softirq (fun _ => Tasklet.PerCpu 0 [] [] false false) ∅) 0)
    {[ 10%nat := Eventpoll false 40 [] [] (rb_node rb_null 20%nat rb_null) None None 0 (Some 1%nat) false ]}
    {[ 20%nat := Epitem (Filefd 3 8) 1 [] 10 None POLLIN 6 ]}
    ∅ ∅ ∅ {[ 3%nat := [20%nat] ]} [3%nat] [] (replicate 5 0) [] [] [] false ∅ tt [] [] 100 [] 1.

Lemma reverse_path_check_spec_witness :
  exists pc, reverse_path_check path_world = Ret 0 (set_path_count pc path_world) /\ in_limits pc.
Proof.
  destruct (reverse_path_check_spec path_world) as (r & pc & E & H).
  - intros f i. unfold ep_links, path_world; simpl. rewrite lookup_singleton. case_decide; simpl; [|set_solver].
    intros Hi. assert (i = 20%nat) as -> by set_solver. eexists _, _, _, _. split_and!; reflexivity.
  - reflexivity.
  - apply in_limits_init.
  - assert (match reverse_path_check path_world with Ret r _ => r | _ => 1 end = 0) as Er by reflexivity.
    rewrite E in Er. subst r. exists pc. split; [exact E|]. destruct H as [[_ H]|H]; [exact H|discriminate].
Defined.
