(* ===== verification/EpLevel.v ===== *)
(** * No event is lost (fs/eventpoll.c), proofs: devices

    The level-triggered promise, item by item: when the device an item
    watches is ready, the item is on one of the lists of its eventpoll.
    Devices that wake their queues when they become ready keep it, at any
    moment at which their interrupts arrive. *)

From S2P Require Import Prelude Wait Tasklet Cmgroup Sched CmWake CmInv CmTask CmOps.
From S2P Require Import EpTree EpState EpNest EpReady EpWake.
Local Open Scope Z_scope.

(** ** Masks *)

Lemma nonzero_bit z : z <> 0 -> exists n, 0 <= n /\ Z.testbit z n = true.
Proof.
  intros Hz. destruct (Z.lt_trichotomy z 0) as [H|[H|H]]; [|done|].
  - exists (Z.log2 (Z.pred (- z)) + 1). pose proof (Z.log2_nonneg (Z.pred (- z))).
    split; [lia|]. apply Z.bits_above_log2_neg; lia.
  - exists (Z.log2 z). split; [apply Z.log2_nonneg|]. by apply Z.bit_log2.
Qed.

Lemma meets_spec a b :
  meets a b = true <-> exists n, 0 <= n /\ Z.testbit a n = true /\ Z.testbit b n = true.
Proof.
  unfold meets. rewrite negb_true_iff, Z.eqb_neq. split.
  - intros (n & Hn & Hb)%nonzero_bit. rewrite Z.land_spec, andb_true_iff in Hb. eauto.
  - intros (n & Hn & Ha & Hb) E. assert (Z.testbit (Z.land a b) n = false) as F by by rewrite E, Z.bits_0.
    rewrite Z.land_spec, Ha, Hb in F. done.
Qed.

Lemma meets_false a b : meets a b = false <-> Z.land a b = 0.
Proof. unfold meets. by rewrite negb_false_iff, Z.eqb_eq. Qed.

(** bits of the new mask [m'] that were not in [m] are in the key, and
    neither mask has a private bit: a wake-up for them triggers the item *)
Lemma newly_triggers m m' key ev :
  meets m' ev = true -> meets m ev = false -> meets m' EP_PRIVATE_BITS = false ->
  key = 0 \/ meets (Z.land m' (Z.lnot m)) (Z.lnot key) = false -> triggers key ev = true.
Proof.
  intros (n & Hn & Hm' & He)%meets_spec Hm Hp Hk. unfold triggers.
  assert (Z.testbit m n = false) as Hmn.
  { destruct (Z.testbit m n) eqn:E; [|done]. assert (meets m ev = true) by (apply meets_spec; eauto). congruence. }
  assert (Z.testbit EP_PRIVATE_BITS n = false) as Hpn.
  { destruct (Z.testbit EP_PRIVATE_BITS n) eqn:E; [|done].
    assert (meets m' EP_PRIVATE_BITS = true) by (apply meets_spec; eauto). congruence. }
  rewrite andb_true_iff, orb_true_iff. split.
  - apply (meets_spec ev). exists n. rewrite Z.lnot_spec, Hpn by done. done.
  - destruct Hk as [->|Hk]; [by left|right]. apply meets_spec. exists n. split_and!; [done| |done].
    destruct (Z.testbit key n) eqn:E; [done|]. assert (meets (Z.land m' (Z.lnot m)) (Z.lnot key) = true); [|congruence].
    apply meets_spec. exists n. rewrite Z.land_spec, !Z.lnot_spec, Hm', Hmn, E by done. done.
Qed.

(** ** Devices that keep their word *)

(** the driver wakes one of its queues, with a key that covers what is new
    (0 stands for all events), and reports poll events only *)
Definition honest (d : device) (a : arrival) : Prop :=
  a_whead a ∈ d_wheads d /\ meets (a_key a) POLLFREE = false /\
  meets (a_mask a) EP_PRIVATE_BITS = false /\
  (a_key a = 0 \/ meets (Z.land (a_mask a) (Z.lnot (d_mask d))) (Z.lnot (a_key a)) = false).

Definition arrive_devs (a : arrival) (ds : gmap nat device) : gmap nat device :=
  match ds !! a_file a with
  | Some d => <[a_file a := Device (a_mask a) (d_wheads d)]> ds
  | None => ds
  end.

Fixpoint honest_list (ds : gmap nat device) (l : list arrival) : Prop :=
  match l with
  | [] => True
  | a :: l' => (forall d, ds !! a_file a = Some d -> honest d a) /\ honest_list (arrive_devs a ds) l'
  end.

Definition arrive_all (l : list arrival) (ds : gmap nat device) : gmap nat device :=
  foldl (fun ds a => arrive_devs a ds) ds l.

Fixpoint honest_script (ds : gmap nat device) (s : list (list arrival)) : Prop :=
  match s with
  | [] => True
  | l :: s' => honest_list ds l /\ honest_script (arrive_all l ds) s'
  end.

Section Level.
Context `{PL : PmLib}.

(** devices report poll events only *)
Definition masks_ok (ds : gmap nat device) : Prop :=
  forall f d, ds !! f = Some d -> meets (d_mask d) EP_PRIVATE_BITS = false.

(** the devices of the world have kept and will keep their word *)
Definition honest_world (w : world) : Prop :=
  masks_ok (devs w) /\ honest_script (devs w) (script w).

Lemma masks_arrive_all l ds : masks_ok ds -> honest_list ds l -> masks_ok (arrive_all l ds).
Proof.
  unfold arrive_all. revert ds. induction l as [|a l IH]; intros ds Hm Hh; simpl in *; [done|].
  destruct Hh as [Ha Hl]. apply IH; [|done]. unfold arrive_devs in *.
  destruct (ds !! a_file a) as [d|] eqn:E; [|done]. intros f d'. rewrite lookup_insert.
  case_decide; [|apply Hm]. intros [= <-]. by apply (Ha d eq_refl).
Qed.

(** ** The promise for an item *)

(** item [i] watches device [d], with a hook on each of its queues *)
Definition watch (w : world) (i : nat) (x : epitem) (d : device) : Prop :=
  epis w !! i = Some x /\ devs w !! ffd_file (ffd x) = Some d /\
  forall h, h ∈ d_wheads d -> exists l p q, wheads w !! h = Some l /\ p ∈ l /\
    pwqs w !! p = Some q /\ base q = i.

(** when the device has an event for the item, the item is listed, or [P]
    excuses it *)
Definition lvl (c : bool) (w : world) (i : nat) (P : Prop) : Prop :=
  forall x d, watch w i x d -> meets (d_mask d) (events x) = true -> listed c w i \/ P.

Lemma lvl_weaken c w i (P Q : Prop) : lvl c w i P -> (P -> Q) -> lvl c w i Q.
Proof. intros H HPQ x d Hx Hm. destruct (H x d Hx Hm); auto. Qed.
Lemma lvl_caught w i P : lvl true w i P -> lvl false w i P.
Proof. intros H x d Hx Hm. destruct (H x d Hx Hm); auto using caught_ready. Qed.

Lemma watch_cb w w' i x d : cb_le w w' -> watch w' i x d -> watch w i x d.
Proof.
  intros Hcb (Hx & Hd & Hh). rewrite (cb_epis _ _ Hcb) in Hx. rewrite (cb_devs _ _ Hcb) in Hd.
  split_and!; [done|done|]. intros h Hi. destruct (Hh h Hi) as (l & p & q & ? & ? & ? & ?).
  rewrite (cb_wheads _ _ Hcb) in *. rewrite (cb_pwqs _ _ Hcb) in *. eauto 8.
Qed.

Lemma lvl_cb c w w' i P : cb_le w w' -> lvl c w i P -> lvl c w' i P.
Proof.
  intros Hcb Hl x d Hx Hm. destruct (Hl x d (watch_cb _ _ _ _ _ Hcb Hx) Hm); [|by right].
  left. by eapply listed_cb.
Qed.

(** ** Interrupts *)

(** the state after devices changed and their callbacks ran *)
Definition irq_le (w w' : world) : Prop :=
  exists ds s, cb_le (set_devs ds (set_script s w)) w' /\
    forall f, d_wheads <$> ds !! f = d_wheads <$> devs w !! f.

Lemma arrive_wheads a ds f : d_wheads <$> arrive_devs a ds !! f = d_wheads <$> ds !! f.
Proof.
  unfold arrive_devs. destruct (ds !! a_file a) as [d|] eqn:E; [|done].
  rewrite lookup_insert. case_decide; subst; [by rewrite E|done].
Qed.

Lemma hooks_set_devs w ds :
  hooks_ok w -> (forall f, d_wheads <$> ds !! f = d_wheads <$> devs w !! f) -> hooks_ok (set_devs ds w).
Proof.
  intros Hw Hds. pose proof (ho_dev _ Hw) as Hdv. destruct Hw. split; try done. simpl.
  intros f d h Hd Hh. specialize (Hds f). rewrite Hd in Hds.
  destruct (devs w !! f) as [d0|] eqn:E; [|done]. simpl in Hds. injection Hds as Hw.
  rewrite Hw in Hh. by eapply Hdv.
Qed.

Context `{WL : WaitLib}.

(** not inside a wake-up *)
Definition awake (w : world) : Prop :=
  depth (this_cpu (kern w)) (poll_safewake_ncalls w) = 0%nat.

Lemma awake_cb w w' : cb_le w w' -> awake w -> awake w'.
Proof.
  unfold awake. intros Hcb. destruct (cb_nests _ _ Hcb) as (_ & -> & _).
  by rewrite (ev_cpu _ _ (wk_evolves _ _ (cb_kern _ _ Hcb))).
Qed.

Lemma arrive_ok w a :
  hooks_ok w -> awake w -> (forall d, devs w !! a_file a = Some d -> honest d a) ->
  exists w', arrive a w = Ret tt w' /\ cb_le (set_devs (arrive_devs a (devs w)) w) w' /\
    forall c i P, lvl c w i P -> lvl c w' i P.
Proof.
  intros Hw Ha Hh. unfold arrive, arrive_devs, mbind at 1, M_bind at 1, get.
  destruct (devs w !! a_file a) as [d|] eqn:Ed.
  2: { exists w. split_and!; [done| |done]. replace (set_devs (devs w) w) with w by by destruct w. apply cb_le_refl. }
  destruct (Hh d eq_refl) as (Hin & Hf & Hp & Hk).
  set (w1 := set_devs (<[a_file a := Device (a_mask a) (d_wheads d)]> (devs w)) w).
  assert (hooks_ok w1) as Hw1.
  { apply (hooks_set_devs w); [done|]. intros f. pose proof (arrive_wheads a (devs w) f) as H.
    unfold arrive_devs in H. by rewrite Ed in H. }
  destruct (ho_dev _ Hw _ _ _ Ed Hin) as [l Hl].
  destruct (wake_up_poll_cb nest_fuel w1 (a_whead a) l (a_key a) Hw1 Hl Hf) as (w2 & E2 & Hcb2 & Hc2);
    [unfold nest_fuel; lia|unfold awake in Ha; unfold nest_fuel; simpl; lia|].
  exists w2. unfold mbind, M_bind, modify. rewrite bool_decide_eq_true_2 by done. fold w1.
  split_and!; [exact E2|exact Hcb2|].
  intros c i P Hlv x d2 Hx2 Hm2. destruct (watch_cb _ _ _ _ _ Hcb2 Hx2) as (Hx & Hd & Hhk).
  unfold w1 in Hx, Hd, Hhk; simpl in Hx, Hd, Hhk. rewrite lookup_insert in Hd. case_decide as Ef.
  - injection Hd as <-. simpl in *. destruct (meets (d_mask d) (events x)) eqn:Em.
    + destruct (Hlv x d) as [Hr|]; [|done| |by right].
      * split_and!; [done|by rewrite <- Ef|done].
      * left. eapply listed_cb; [exact Hcb2|]. destruct Hr as (x' & e & ? & ? & ?). by exists x', e.
    + left. destruct (Hhk _ Hin) as (l' & p & q & Hl' & Hp' & Hq & <-). simplify_eq.
      assert (caught w2 (base q)).
      { apply (Hc2 p q x); [done..|]. by apply (newly_triggers (d_mask d) (a_mask a)). }
      destruct c; auto using caught_ready.
  - destruct (Hlv x d2) as [Hr|]; [by split_and!|done| |by right].
    left. eapply listed_cb; [exact Hcb2|]. destruct Hr as (x' & e & ? & ? & ?). by exists x', e.
Qed.

Lemma cb_set_devs w w' a b : cb_le (set_devs a w) w' -> cb_le (set_devs b w) (set_devs b w').
Proof. intros []. split; done. Qed.

Lemma cb_devs_trans w a w1 b w2 :
  cb_le (set_devs a w) w1 -> cb_le (set_devs b w1) w2 -> cb_le (set_devs b w) w2.
Proof. intros H1 H2. eapply cb_le_trans; [by eapply cb_set_devs|done]. Qed.

Lemma arrivals_ok l w :
  hooks_ok w -> awake w -> honest_list (devs w) l ->
  exists w', mfor arrive l w = Ret tt w' /\ cb_le (set_devs (arrive_all l (devs w)) w) w' /\
    hooks_ok w' /\ awake w' /\ forall c i P, lvl c w i P -> lvl c w' i P.
Proof.
  revert w. induction l as [|a l IH]; intros w Hw Ha Hl; simpl.
  { exists w. split_and!; try done. replace (set_devs (devs w) w) with w by by destruct w. apply cb_le_refl. }
  destruct Hl as [Hh Hl]. destruct (arrive_ok w a Hw Ha Hh) as (w1 & E1 & Hcb1 & Hlv1).
  assert (hooks_ok w1) as Hw1.
  { eapply hooks_cb; [|exact Hcb1]. apply hooks_set_devs; [done|]. apply arrive_wheads. }
  assert (awake w1) as Ha1 by (eapply awake_cb; [exact Hcb1|done]).
  assert (devs w1 = arrive_devs a (devs w)) as Ed by apply (cb_devs _ _ Hcb1).
  destruct (IH w1 Hw1 Ha1) as (w2 & E2 & Hcb2 & Hw2 & Ha2 & Hlv2); [by rewrite Ed|].
  exists w2. mrun E1. rewrite Ed in Hcb2. split_and!; auto. by eapply cb_devs_trans.
Qed.

Lemma arrive_all_wheads l ds f : d_wheads <$> arrive_all l ds !! f = d_wheads <$> ds !! f.
Proof.
  unfold arrive_all. revert ds. induction l as [|a l IH]; intros ds; simpl; [done|].
  by rewrite IH, arrive_wheads.
Qed.

Lemma interrupts_ok w :
  hooks_ok w -> awake w -> honest_world w ->
  exists w', interrupts w = Ret tt w' /\ irq_le w w' /\ hooks_ok w' /\ awake w' /\ honest_world w' /\
    forall c i P, lvl c w i P -> lvl c w' i P.
Proof.
  intros Hw Ha [Hm Hh]. unfold interrupts, mbind, M_bind, get, modify.
  set (w1 := set_script (tail (script w)) w).
  assert (hooks_ok w1) as Hw1 by (by destruct Hw).
  assert (honest_list (devs w) (default [] (head (script w))) /\
          honest_script (arrive_all (default [] (head (script w))) (devs w)) (tail (script w))) as [Hl Hs].
  { destruct (script w); simpl in *; [done|]. exact Hh. }
  destruct (arrivals_ok _ w1 Hw1 Ha Hl) as (w2 & E2 & Hcb2 & Hw2 & Ha2 & Hlv2).
  exists w2. split_and!; [exact E2| |done|done| |].
  - exists (arrive_all (default [] (head (script w))) (devs w)), (tail (script w)).
    split; [done|]. apply arrive_all_wheads.
  - unfold honest_world. destruct (cb_env _ _ Hcb2) as (_ & -> & _). rewrite (cb_devs _ _ Hcb2).
    split; [by apply masks_arrive_all|done].
  - intros c i P Hi. apply Hlv2. done.
Qed.

(** ** What polling and scanning may change *)

(** no scan is under way, and nobody holds the mutex *)
Definition idle (e : eventpoll) : Prop := mtx e = false /\ txlist e = [] /\ ovflist e = None.

(** the lists of an eventpoll, changed; a scan is under way after iff it is
    before *)
Definition relisted (e e' : eventpoll) : Prop :=
  (exists l t o, e' = set_rdllist l (set_txlist t (set_ovflist o e))) /\
  ((txlist e = [] /\ ovflist e = None /\ txlist e' = [] /\ ovflist e' = None) \/
   (ovflist e <> None /\ ovflist e' <> None)).

(** an eventpoll of [R] may have been scanned; to the others items of [B]
    were only added *)
Definition ep_step (R : Prop) (B : nat -> Prop) (e e' : eventpoll) : Prop :=
  ep_grows B e e' \/ (R /\ relisted e e' /\ (ep_wf B e -> ep_wf B e')).

Lemma relisted_trans e1 e2 e3 : relisted e1 e2 -> relisted e2 e3 -> relisted e1 e3.
Proof.
  intros [(l & t & o & ->) S1] [(l' & t' & o' & ->) S2]. split.
  - by exists l', t', o'.
  - simpl in *. destruct S1 as [(?&?&?&?)|[? ?]], S2 as [(?&?&?&?)|[? ?]]; subst; try done; auto.
Qed.

Lemma grows_relisted B e e' : ep_grows B e e' -> ovflist e <> None \/ txlist e = [] -> relisted e e'.
Proof.
  intros [l O _ _ ->|c l O _ _ ->] H; split.
  - exists (rdllist e ++ l), (txlist e), None. destruct e; simpl in *. by rewrite O.
  - left. simpl. destruct H as [H|H]; [congruence|done].
  - exists (rdllist e), (txlist e), (Some (l ++ c)). by destruct e.
  - right. simpl. by rewrite O.
Qed.

Lemma relisted_shape e e' : relisted e e' -> ovflist e <> None \/ txlist e = [].
Proof. intros [_ [(?&?&?&?)|[? ?]]]; auto. Qed.
Lemma relisted_shape' e e' : relisted e e' -> ovflist e' <> None \/ txlist e' = [].
Proof. intros [_ [(?&?&?&?)|[? ?]]]; auto. Qed.

Lemma grows_shape B e e' :
  ep_grows B e e' -> ovflist e' <> None \/ txlist e' = [] -> ovflist e <> None \/ txlist e = [].
Proof. intros [l O _ _ ->|c l O _ _ ->]; simpl; intros []; auto. left. congruence. Qed.

Lemma ep_step_trans (R : Prop) B e1 e2 e3 : ep_step R B e1 e2 -> ep_step R B e2 e3 -> ep_step R B e1 e3.
Proof.
  intros [G1|(HR1 & R1 & W1)] [G2|(HR2 & R2 & W2)].
  - left. by eapply ep_grows_trans.
  - right. split_and!; [done| |intros; eauto using grows_wf]. eapply relisted_trans; [|done].
    eapply grows_relisted; [done|]. eapply grows_shape; [done|]. by eapply relisted_shape.
  - right. split_and!; [done| |intros; eauto using grows_wf]. eapply relisted_trans; [done|].
    eapply grows_relisted; [done|]. by eapply relisted_shape'.
  - right. split_and!; [done| |auto]. by eapply relisted_trans.
Qed.

Lemma ep_step_weaken (R R' : Prop) B e e' : ep_step R B e e' -> (R -> R') -> ep_step R' B e e'.
Proof. intros [?|(? & ? & ?)] HR; [by left|right; auto]. Qed.

Lemma ep_step_wf R B e e' : ep_step R B e e' -> ep_wf B e -> ep_wf B e'.
Proof. intros [?|(? & ? & ?)]; [by apply grows_wf|done]. Qed.

(** an item after events were delivered: a one-shot item may be disabled *)
Definition item_step (x x' : epitem) : Prop :=
  exists ev, x' = set_events ev x /\ (ev = events x \/ ev = Z.land (events x) EP_PRIVATE_BITS).

Lemma item_step_refl x : item_step x x.
Proof. exists (events x). split; [by destruct x|by left]. Qed.

Lemma item_step_trans x1 x2 x3 : item_step x1 x2 -> item_step x2 x3 -> item_step x1 x3.
Proof.
  intros (e1 & -> & H1) (e2 & -> & H2). exists e2. split; [by destruct x1|]. simpl in H2.
  assert (Z.land (Z.land (events x1) EP_PRIVATE_BITS) EP_PRIVATE_BITS = Z.land (events x1) EP_PRIVATE_BITS) as I
    by by rewrite <- Z.land_assoc, Z.land_diag.
  destruct H1 as [-> | ->], H2 as [-> | ->]; auto.
Qed.

(** two maps with the same keys, related value by value *)
Definition map_le {V} (P : nat -> V -> V -> Prop) (m m' : gmap nat V) : Prop :=
  forall k, match m !! k, m' !! k with
            | Some v, Some v' => P k v v' | None, None => True | _, _ => False end.

Lemma map_le_refl {V} (P : nat -> V -> V -> Prop) m : (forall k v, P k v v) -> map_le P m m.
Proof. intros H k. by destruct (m !! k). Qed.
Lemma map_le_trans {V} (P Q S : nat -> V -> V -> Prop) m1 m2 m3 :
  (forall k a b c, P k a b -> Q k b c -> S k a c) -> map_le P m1 m2 -> map_le Q m2 m3 -> map_le S m1 m3.
Proof.
  intros H H1 H2 k. specialize (H1 k). specialize (H2 k).
  destruct (m1 !! k), (m2 !! k), (m3 !! k); try done; eauto.
Qed.
Lemma map_le_fwd {V} (P : nat -> V -> V -> Prop) m m' k v :
  map_le P m m' -> m !! k = Some v -> exists v', m' !! k = Some v' /\ P k v v'.
Proof. intros H E. specialize (H k). rewrite E in H. destruct (m' !! k); [eauto|done]. Qed.
Lemma map_le_back {V} (P : nat -> V -> V -> Prop) m m' k v' :
  map_le P m m' -> m' !! k = Some v' -> exists v, m !! k = Some v /\ P k v v'.
Proof. intros H E. specialize (H k). rewrite E in H. destruct (m !! k); [eauto|done]. Qed.
Lemma map_le_insert {V} (P : nat -> V -> V -> Prop) m k v v' :
  (forall k v, P k v v) -> m !! k = Some v -> P k v v' -> map_le P m (<[k := v']> m).
Proof.
  intros Hr E HP k'. rewrite lookup_insert. case_decide; subst; [by rewrite E|]. by destruct (m !! k').
Qed.

(** what a poll or a scan of the eventpolls of [R] may change *)
Record run_le (R : nat -> Prop) (w w' : world) : Prop := RunLe {
  rl_kern : wakes (kern w) (kern w');
  rl_eps : map_le (fun ep => ep_step (R ep) (belongs (epis w) ep)) (eps w) (eps w');
  rl_epis : map_le (fun _ => item_step) (epis w) (epis w');
  rl_pwqs : pwqs w' = pwqs w;
  rl_wheads : wheads w' = wheads w;
  rl_devs : forall f, d_wheads <$> devs w' !! f = d_wheads <$> devs w !! f;
  rl_links : f_ep_links w' = f_ep_links w;
  rl_lists : tfile_check_list w' = tfile_check_list w /\ visited_list w' = visited_list w /\
             path_count w' = path_count w /\ epmutex w' = epmutex w /\ watches w' = watches w;
  rl_nests : poll_loop_ncalls w' = poll_loop_ncalls w /\
             poll_safewake_ncalls w' = poll_safewake_ncalls w /\
             poll_readywalk_ncalls w' = poll_readywalk_ncalls w;
  rl_env : allocs w' = allocs w /\ addr w' = addr w /\ current w' = current w
}.

Lemma run_le_refl R w : run_le R w w.
Proof.
  split; auto with kernel; apply map_le_refl.
  - intros k e. left. apply ep_grows_refl.
  - intros k x. apply item_step_refl.
Qed.

(** items keep their eventpoll *)
Lemma belongs_step m m' ep i : map_le (fun _ => item_step) m m' -> belongs m' ep i <-> belongs m ep i.
Proof.
  intros H. split.
  - intros (x' & Hx' & <-). destruct (map_le_back _ _ _ _ _ H Hx') as (x & Hx & (ev & -> & _)). by exists x.
  - intros (x & Hx & <-). destruct (map_le_fwd _ _ _ _ _ H Hx) as (x' & Hx' & (ev & -> & _)). by eexists.
Qed.

Lemma ep_wf_iff (B B' : nat -> Prop) e : (forall i, B i <-> B' i) -> ep_wf B e -> ep_wf B' e.
Proof. intros H [H1 H2 H3]. split; try done. intros i Hi. apply H. auto. Qed.

Lemma ep_step_iff R (B B' : nat -> Prop) e e' : (forall i, B i <-> B' i) -> ep_step R B e e' -> ep_step R B' e e'.
Proof.
  intros H [[l O N HB ->|c l O N HB ->]|(? & ? & HW)].
  - left. apply (grows_rdl _ _ _ l); try done. intros i Hi. rewrite <- H. auto.
  - left. apply (grows_ovf _ _ _ c l); try done. intros i Hi. rewrite <- H. auto.
  - right. split_and!; try done. intros Hw. apply (ep_wf_iff B); [done|]. apply HW.
    apply (ep_wf_iff B'); [|done]. intros i. symmetry. apply H.
Qed.

Lemma run_le_trans R w1 w2 w3 : run_le R w1 w2 -> run_le R w2 w3 -> run_le R w1 w3.
Proof.
  intros [K1 E1 I1 ? ? D1 ? (?&?&?&?&?) (?&?&?) (?&?&?)] [K2 E2 I2 ? ? D2 ? (?&?&?&?&?) (?&?&?) (?&?&?)].
  split; try congruence; try (split_and!; congruence); [by eapply wakes_trans| |].
  - eapply map_le_trans; [|exact E1|exact E2]. intros k a b c S1 S2. eapply ep_step_trans; [exact S1|].
    eapply ep_step_iff; [|exact S2]. intros i. by apply belongs_step.
  - eapply map_le_trans; [|exact I1|exact I2]. intros k a b c. apply item_step_trans.
Qed.

Lemma run_le_weaken (R R' : nat -> Prop) w w' :
  run_le R w w' -> (forall ep, R ep -> R' ep) -> run_le R' w w'.
Proof.
  intros [? E ? ? ? ? ? ? ? ?] HR. split; try done. intros k. specialize (E k). specialize (HR k).
  destruct (eps w !! k), (eps w' !! k); try done. by eapply ep_step_weaken.
Qed.

Lemma run_cb R w w' : cb_le w w' -> run_le R w w'.
Proof.
  intros [K E I ? ? D ? ? ? (?&?&?&?&?)]. split; try done.
  - intros ep. specialize (E ep). destruct (eps w !! ep), (eps w' !! ep); try done. by left.
  - rewrite I. apply map_le_refl. intros k x. apply item_step_refl.
  - intros f. by rewrite D.
Qed.

Lemma run_irq R w w' : irq_le w w' -> run_le R w w'.
Proof.
  intros (ds & s & Hcb & Hds). destruct (run_cb R _ _ Hcb) as [K E I ? ? D ? ? ? ?]. split; try done.
  intros f. rewrite D. apply Hds.
Qed.
End Level.
