(* ===== verification/EpScan.v ===== *)
(** * No event is lost (fs/eventpoll.c), proofs: polling and scanning

    ep_scan_ready_list() with the two procedures it is used with, and the
    poll method through nested eventpolls: they return, they keep the lists
    well-formed, and they keep the level-triggered promise of EpLevel.v
    whatever arrives meanwhile. *)

From S2P Require Import Prelude Wait Tasklet Cmgroup Sched CmWake CmInv CmTask CmOps.
From S2P Require Import EpTree EpState EpNest EpReady EpWake EpLevel.
Local Open Scope Z_scope.

Section Scan.
Context `{PL : PmLib} `{WL : WaitLib}.

(** an order of the eventpolls in which each is above those it watches *)
Variable rank : nat -> nat.

(** ** The world of polls *)

(** a file that can be polled, and if it is an eventpoll, one below [r] *)
Definition file_ok (w : world) (r file : nat) : Prop :=
  exists fl, files (kern w) !! file = Some fl /\
    if is_file_epoll fl
    then exists ep, private_data fl = Some ep /\ is_Some (eps w !! ep) /\ (rank ep < r)%nat
    else is_Some (devs w !! file).

Record poll_ok (w : world) : Prop := PollOk {
  po_hooks : hooks_ok w;
  po_files : forall i x, epis w !! i = Some x -> file_ok w (rank (epi_ep x)) (ffd_file (ffd x));
  po_devs : forall f d fl, devs w !! f = Some d -> files (kern w) !! f = Some fl ->
              is_file_epoll fl = false;
  po_wf : forall ep e, eps w !! ep = Some e -> ep_wf (belongs (epis w) ep) e;
  po_honest : honest_world w;
  po_awake : awake w
}.

(** no scan is under way below [r] *)
Definition below (r : nat) (w : world) : Prop :=
  forall ep e, eps w !! ep = Some e -> (rank ep < r)%nat -> idle e.

(** [n] levels of fuel are enough for the nested polls that are left *)
Definition rw_room (n : nat) (w : world) : Prop :=
  (1 <= n)%nat /\ (6 <= n + depth (current w) (poll_readywalk_ncalls w))%nat.

(** the promise is kept for the items of [I] *)
Definition keeps_lvl (I : nat -> Prop) (w w' : world) : Prop :=
  forall i P, I i -> lvl false w i P -> lvl false w' i P.

Lemma keeps_lvl_refl I w : keeps_lvl I w w.
Proof. by intros i P. Qed.
Lemma keeps_lvl_trans I w1 w2 w3 : keeps_lvl I w1 w2 -> keeps_lvl I w2 w3 -> keeps_lvl I w1 w3.
Proof. intros K1 K2 i P Hi Hl. by apply K2, K1. Qed.

Lemma step_idle R B e e' : ep_step R B e e' -> idle e -> idle e'.
Proof.
  intros [[l O _ _ ->|c l O _ _ ->]|(_ & [(l & t & o & ->) S] & _)] (M & T & V); simpl in *; try congruence.
  - done.
  - destruct S as [(?&?&?&?)|[? ?]]; [by split_and!|congruence].
Qed.

Lemma step_same R B e e' :
  ep_step R B e e' -> exists l t o, e' = set_rdllist l (set_txlist t (set_ovflist o e)).
Proof.
  intros [[l O _ _ ->|c l O _ _ ->]|(_ & [Hs _] & _)]; [| |done].
  - exists (rdllist e ++ l), (txlist e), (ovflist e). by destruct e.
  - exists (rdllist e), (txlist e), (Some (l ++ c)). by destruct e.
Qed.

Lemma step_busy R B e e' : ep_step R B e e' -> ovflist e <> None -> ovflist e' <> None.
Proof.
  intros [[l O _ _ ->|c l O _ _ ->]|(_ & [(l & t & o & ->) S] & _)]; simpl in *; try congruence.
  destruct S as [(?&?&?&?)|[? ?]]; congruence.
Qed.

Lemma below_run R r w w' : run_le R w w' -> below r w -> below r w'.
Proof.
  intros Hr Hb ep e' He' Hk. destruct (map_le_back _ _ _ _ _ (rl_eps _ _ _ Hr) He') as (e & He & S).
  eapply step_idle; [exact S|]. by eapply Hb.
Qed.

Lemma room_run R n w w' : run_le R w w' -> rw_room n w -> rw_room n w'.
Proof.
  intros Hr. unfold rw_room. destruct (rl_nests _ _ _ Hr) as (_ & _ & ->).
  by destruct (rl_env _ _ _ Hr) as (_ & _ & ->).
Qed.

Lemma dev_run R w w' f : run_le R w w' -> is_Some (devs w !! f) <-> is_Some (devs w' !! f).
Proof.
  intros Hr. pose proof (rl_devs _ _ _ Hr f) as H.
  destruct (devs w !! f), (devs w' !! f); simpl in H; try done; split; eauto.
Qed.

Lemma files_run R w w' : run_le R w w' -> files (kern w') = files (kern w).
Proof. intros Hr. apply (wk_evolves _ _ (rl_kern _ _ _ Hr)). Qed.

Lemma file_ok_run R w w' r file : run_le R w w' -> file_ok w r file -> file_ok w' r file.
Proof.
  intros Hr (fl & Hf & Ht). exists fl. rewrite (files_run _ _ _ Hr). split; [done|].
  destruct (is_file_epoll fl).
  - destruct Ht as (ep & Hp & [e He] & Hk). exists ep. split_and!; [done| |done].
    destruct (map_le_fwd _ _ _ _ _ (rl_eps _ _ _ Hr) He) as (e' & -> & _). done.
  - by apply (dev_run _ _ _ file Hr).
Qed.

Lemma hooks_run R w w' : run_le R w w' -> hooks_ok w -> hooks_ok w'.
Proof.
  intros Hr [[Ho Hd] Hwq Hpw Hi Hh Hdv]. destruct (rl_kern _ _ _ Hr) as [Ho' Hev Hq]. split.
  - split; [auto|]. intros ep q. rewrite Hq. apply Hd.
  - intros ep e' He'. destruct (map_le_back _ _ _ _ _ (rl_eps _ _ _ Hr) He') as (e & He & _).
    rewrite Hq. by eapply Hwq.
  - intros ep e' He'. destruct (map_le_back _ _ _ _ _ (rl_eps _ _ _ Hr) He') as (e & He & S).
    destruct (step_same _ _ _ _ S) as (l & t & o & ->). simpl. rewrite (rl_wheads _ _ _ Hr). by eapply Hpw.
  - intros i x' Hx'. destruct (map_le_back _ _ _ _ _ (rl_epis _ _ _ Hr) Hx') as (x & Hx & (ev & -> & _)).
    simpl. destruct (Hi _ _ Hx) as [e He].
    destruct (map_le_fwd _ _ _ _ _ (rl_eps _ _ _ Hr) He) as (e' & -> & _). done.
  - intros h l p Hl Hp. rewrite (rl_wheads _ _ _ Hr) in Hl. destruct (Hh _ _ _ Hl Hp) as (q & Hq' & Hw & [x Hx]).
    exists q. rewrite (rl_pwqs _ _ _ Hr). split_and!; [done..|].
    destruct (map_le_fwd _ _ _ _ _ (rl_epis _ _ _ Hr) Hx) as (x' & -> & _). done.
  - intros f d' h Hd' Hin. rewrite (rl_wheads _ _ _ Hr). pose proof (rl_devs _ _ _ Hr f) as H.
    rewrite Hd' in H. destruct (devs w !! f) as [d|] eqn:E; [|done]. simpl in H. injection H as H.
    rewrite H in Hin. by eapply Hdv.
Qed.

Lemma poll_ok_run R w w' : run_le R w w' -> honest_world w' -> poll_ok w -> poll_ok w'.
Proof.
  intros Hr Hh [H1 H2 H3 H4 H5 H6]. split; [by eapply hooks_run| | | |done|].
  - intros i x' Hx'. destruct (map_le_back _ _ _ _ _ (rl_epis _ _ _ Hr) Hx') as (x & Hx & (ev & -> & _)).
    simpl. eapply file_ok_run; [done|by eapply H2].
  - intros f d' fl Hd'. rewrite (files_run _ _ _ Hr). destruct (proj2 (dev_run _ _ _ f Hr)) as [d Hd]; [by rewrite Hd'|].
    by eapply H3.
  - intros ep e' He'. destruct (map_le_back _ _ _ _ _ (rl_eps _ _ _ Hr) He') as (e & He & S).
    apply (ep_wf_iff (belongs (epis w) ep)); [|eapply ep_step_wf; [exact S|by apply H4]].
    intros i. symmetry. apply belongs_step, (rl_epis _ _ _ Hr).
  - unfold awake in *. destruct (rl_nests _ _ _ Hr) as (_ & -> & _).
    by rewrite (ev_cpu _ _ (wk_evolves _ _ (rl_kern _ _ _ Hr))).
Qed.

Lemma irq_keeps w :
  poll_ok w -> exists w', interrupts w = Ret tt w' /\ irq_le w w' /\ honest_world w' /\
    (forall c i P, lvl c w i P -> lvl c w' i P).
Proof.
  intros [H1 _ _ _ H5 H6]. destruct (interrupts_ok w H1 H6 H5) as (w' & E & Hi & _ & _ & Hh & Hl). eauto.
Qed.

(** the items, and what the caller has been told of them *)
Definition shown (w : world) : gmap nat epitem * list (Z * Z) := (epis w, ubuf w).

Lemma shown_epis w w' : shown w' = shown w -> epis w' = epis w.
Proof. by intros [= -> _]. Qed.
Lemma shown_cb w w' : cb_le w w' -> shown w' = shown w.
Proof. intros Hcb. unfold shown. destruct (cb_env _ _ Hcb) as (_ & _ & _ & -> & _). by rewrite (cb_epis _ _ Hcb). Qed.
Lemma shown_irq w w' : irq_le w w' -> shown w' = shown w.
Proof. intros (ds & s & Hcb & _). by rewrite (shown_cb _ _ Hcb). Qed.
Lemma irq_epis w w' : irq_le w w' -> epis w' = epis w.
Proof. intros H. by apply shown_epis, shown_irq. Qed.

(** ** What a poll promises *)

(** [poll] is safe below [r]: it returns, scans only below [r], keeps the
    promise of all items, and afterwards an item that watches the polled
    device is caught if the device has an event it was not told of *)
Definition poll_spec (r n : nat) (poll : nat -> option nat -> W Z) : Prop :=
  forall w file, poll_ok w -> below r w -> file_ok w r file -> rw_room n w ->
  exists m w', poll file None w = Ret m w' /\ run_le (fun ep => rank ep < r)%nat w w' /\
    honest_world w' /\ shown w' = shown w /\ keeps_lvl (fun _ => True) w w' /\
    forall i x, epis w !! i = Some x -> ffd_file (ffd x) = file ->
      lvl true w' i (meets m (events x) = true).

(** the same of an item *)
Lemma item_poll_ok r n poll w i x :
  poll_spec r n poll -> poll_ok w -> below r w -> rw_room n w ->
  epis w !! i = Some x -> rank (epi_ep x) = r ->
  exists m w', ep_item_poll poll i None w = Ret m w' /\ run_le (fun ep => rank ep < r)%nat w w' /\
    honest_world w' /\ shown w' = shown w /\ keeps_lvl (fun _ => True) w w' /\
    lvl true w' i (m <> 0) /\ Z.land m (events x) = m.
Proof.
  intros Hs Hw Hb Hn Hx <-.
  destruct (Hs w _ Hw Hb (po_files _ Hw _ _ Hx) Hn) as (m & w' & E & Hr & Hh & Hi & Hk & Hl).
  exists (Z.land m (events x)), w'. unfold ep_item_poll. mrun (get_epi_eq _ _ _ Hx). mrun E.
  mrun (get_epi_eq w' i x ltac:(by rewrite (shown_epis _ _ Hi))). split_and!; try done.
  - eapply lvl_weaken; [by apply (Hl i x)|]. intros Hm E0. unfold meets in Hm. by rewrite E0 in Hm.
  - by rewrite <- Z.land_assoc, Z.land_diag.
Qed.

(** ** Changing the lists of the eventpoll that is scanned *)

Definition put_ep (ep : nat) (e : eventpoll) (w : world) : world := set_eps (<[ep := e]> (eps w)) w.

Lemma put_ep_run (R : nat -> Prop) w ep e e' :
  eps w !! ep = Some e -> R ep -> relisted e e' ->
  (ep_wf (belongs (epis w) ep) e -> ep_wf (belongs (epis w) ep) e') ->
  run_le R w (put_ep ep e' w).
Proof.
  intros He HR Hl Hw. destruct (run_le_refl R w) as [? ? ? ? ? ? ? ? ? ?]. split; try done. simpl.
  apply (map_le_insert _ _ _ e); [|done|by right].
  intros k v. left. apply ep_grows_refl.
Qed.

(** the promise when an eventpoll's lists change: item by item *)
Lemma put_ep_lvl w ep e e' i P :
  eps w !! ep = Some e ->
  (belongs (epis w) ep i -> ready_in i e = true -> ready_in i e' = true) ->
  lvl false w i P -> lvl false (put_ep ep e' w) i P.
Proof.
  intros He Hr Hl x d Hx Hm. destruct (Hl x d Hx Hm) as [(x' & e0 & Hx' & He0 & Hl0)|]; [left|by right].
  exists x'. destruct (decide (ep = epi_ep x')) as [->|Hne].
  - simplify_eq. exists e'. unfold put_ep; simpl. split_and!; [done|apply lookup_insert_eq|].
    apply Hr; [by exists x'|done].
  - exists e0. unfold put_ep; simpl. by rewrite lookup_insert_ne.
Qed.

(** an item is caught during a scan: it is on the chain *)
Lemma caught_busy w i P ep e e' x :
  eps w !! ep = Some e -> epis w !! i = Some x -> epi_ep x = ep ->
  ovflist e <> None -> ovflist e' = ovflist e ->
  lvl true w i P -> lvl false (put_ep ep e' w) i P.
Proof.
  intros He Hx Hep Hb Ho Hl y d Hy Hm. destruct (Hl y d Hy Hm) as [(x' & e0 & Hx' & He0 & Hc)|]; [left|by right].
  assert (x' = x) as -> by congruence. subst ep. assert (e0 = e) as -> by congruence.
  exists x, e'. unfold put_ep; simpl. split_and!; [done|apply lookup_insert_eq|].
  unfold ready_in. rewrite Ho. unfold caught_in in Hc. destruct (ovflist e); [|done]. by rewrite Hc, orb_true_r.
Qed.

Lemma elem_without i j l : j ∈ without i l <-> j <> i /\ j ∈ l.
Proof. unfold without. by rewrite list_elem_of_filter. Qed.

Lemma without_notin i l : i ∉ l -> without i l = l.
Proof. apply filter_notin. Qed.

Lemma nodup_without i l : NoDup l -> NoDup (without i l).
Proof. apply NoDup_filter. Qed.

Lemma rdl_del_wf B i e : ep_wf B e -> ep_wf B (rdl_del i e).
Proof.
  intros [H1 H2 H3]. split; simpl; [| |done].
  - intros j. rewrite !elem_without. intros Hj. apply H1. tauto.
  - unfold without. rewrite <- filter_app. by apply NoDup_filter.
Qed.

Lemma rdl_del_relisted i e : ovflist e <> None -> relisted e (rdl_del i e).
Proof.
  intros Hb. split; [|right; done].
  exists (without i (rdllist e)), (without i (txlist e)), (ovflist e). by destruct e.
Qed.

Lemma rdl_del_ready i j e : j <> i -> ready_in j e = true -> ready_in j (rdl_del i e) = true.
Proof.
  intros Hne. unfold ready_in, ep_is_linked, rdl_del; simpl.
  rewrite !orb_true_iff, !bool_decide_eq_true, !elem_without. tauto.
Qed.

(** an item found not ready is taken off its list *)
Lemma drop_item (R : nat -> Prop) w ep e i x :
  eps w !! ep = Some e -> R ep -> ovflist e <> None -> epis w !! i = Some x -> epi_ep x = ep ->
  lvl true w i False ->
  run_le R w (put_ep ep (rdl_del i e) w) /\ keeps_lvl (fun _ => True) w (put_ep ep (rdl_del i e) w).
Proof.
  intros He HR Hb Hx Hep Hc. split.
  - apply (put_ep_run _ _ _ e); auto using rdl_del_relisted, rdl_del_wf.
  - intros j P _ Hl. destruct (decide (j = i)) as [->|Hne].
    + eapply caught_busy; eauto. eapply lvl_weaken; [exact Hc|done].
    + apply (put_ep_lvl w ep e); [done| |done]. intros _. by apply rdl_del_ready.
Qed.

Lemma pm_run R w s : run_le R w (set_pm s w).
Proof. apply run_cb, cb_pm. Qed.
Lemma pm_lvl w s c i P : lvl c w i P -> lvl c (set_pm s w) i P.
Proof. apply lvl_cb, cb_pm. Qed.
Lemma pm_honest w s : honest_world w -> honest_world (set_pm s w).
Proof. done. Qed.

(** ** The scan of a nested poll *)

(** scanning [ep] touches it and what is below it *)
Abbreviation under ep := (fun e => (rank e < rank ep)%nat \/ e = ep).

Lemma run_le_under ep w w' : run_le (fun e => rank e < rank ep)%nat w w' -> run_le (under ep) w w'.
Proof. intros Hr. eapply run_le_weaken; [exact Hr|]. by left. Qed.

Lemma read_events_ok n poll ep head :
  poll_spec (rank ep) n poll ->
  forall w e, poll_ok w -> below (rank ep) w -> rw_room n w -> eps w !! ep = Some e -> ovflist e <> None ->
  (forall i, i ∈ head -> belongs (epis w) ep i) ->
  exists v w', ep_read_events_proc poll ep head w = Ret v w' /\ run_le (under ep) w w' /\
    honest_world w' /\ shown w' = shown w /\ keeps_lvl (fun _ => True) w w'.
Proof.
  intros Hs. induction head as [|i head IH]; intros w e Hw Hb Hn He Ho Hi; simpl.
  { exists 0, w. split_and!; [done|apply run_le_refl|apply Hw|done|apply keeps_lvl_refl]. }
  destruct (Hi i) as (x & Hx & Hep); [set_solver|].
  destruct (item_poll_ok _ _ _ w i x Hs Hw Hb Hn Hx) as (m & w1 & E1 & R1 & H1 & I1 & K1 & L1 & _); [congruence|].
  mrun E1. pose proof (run_le_under _ _ _ R1) as R1'.
  destruct (m =? 0) eqn:Em; simpl; [|eexists _, w1; split_and!; done].
  zbool. subst m. rewrite <- (shown_epis _ _ I1) in Hx. mrun (get_epi_eq _ _ _ Hx).
  unfold mbind at 1, M_bind at 1, on_pm, modify. set (w2 := set_pm _ w1).
  destruct (map_le_fwd _ _ _ _ _ (rl_eps _ _ _ R1) He) as (e1 & He1 & S1).
  pose proof (step_busy _ _ _ _ S1 Ho) as Ho1.
  destruct (drop_item (under ep) w2 ep e1 i x) as [R2 K2]; try done; [by right| |].
  { apply pm_lvl. eapply lvl_weaken; [exact L1|done]. }
  mrun (upd_ep_eq w2 ep e1 (rdl_del i) He1). fold (put_ep ep (rdl_del i e1) w2). set (w3 := put_ep _ _ w2) in *.
  assert (run_le (under ep) w w3) as R3.
  { eapply run_le_trans; [exact R1'|]. eapply run_le_trans; [apply pm_run|exact R2]. }
  destruct (IH w3 (rdl_del i e1)) as (v & w4 & E4 & R4 & H4 & I4 & K4).
  - by eapply poll_ok_run.
  - by eapply below_run.
  - by eapply room_run.
  - apply lookup_insert_eq.
  - done.
  - intros j Hj. unfold w3, put_ep, w2; simpl. rewrite (shown_epis _ _ I1). apply Hi. set_solver.
  - exists v, w4. split_and!; [done|by eapply run_le_trans|done|by rewrite I4|].
    eapply keeps_lvl_trans; [exact K1|]. eapply keeps_lvl_trans; [|exact K4].
    intros j P Hj Hl. apply K2; [done|]. by apply pm_lvl.
Qed.

(** ** The frame of a scan *)

(** the lists are stolen, and the mutex is taken unless the caller has it *)
Definition started (locked : bool) (e : eventpoll) : eventpoll :=
  set_txlist (rdllist e) (set_rdllist [] (set_ovflist (Some [])
    (set_mtx (if locked then mtx e else true) e))).

(** the items of the chain that are not listed are put on the ready list *)
Definition merged (c : list nat) (e : eventpoll) : eventpoll :=
  foldl (fun e i => if ep_is_linked i e then e else rdl_add i e) e c.

Definition spliced (e : eventpoll) : eventpoll :=
  let m := merged (default [] (ovflist e)) e in
  set_rdllist (txlist m ++ rdllist m) (set_txlist [] (set_ovflist None m)).

Definition finished (locked : bool) (e : eventpoll) : eventpoll :=
  set_mtx (if locked then mtx e else false) (spliced e).

Lemma merged_same c e :
  exists l, merged c e = set_rdllist (rdllist e ++ l) e /\
    (forall i, i ∈ l -> i ∈ c /\ i ∉ rdllist e /\ i ∉ txlist e) /\ NoDup l /\
    (forall i, i ∈ c -> i ∈ rdllist e ++ l \/ i ∈ txlist e).
Proof.
  unfold merged. revert e. induction c as [|i c IH]; intros e; simpl.
  { exists []. split_and!; [destruct e; simpl; by rewrite app_nil_r|set_solver|constructor|set_solver]. }
  destruct (ep_is_linked i e) eqn:El.
  - destruct (IH e) as (l & -> & Hl & Hn & Hc). exists l. split_and!; [done|set_solver|done|].
    intros j [->|Hj]%elem_of_cons; [|by apply Hc]. unfold ep_is_linked in El.
    apply orb_true_iff in El as [?%bool_decide_eq_true|?%bool_decide_eq_true]; set_solver.
  - unfold ep_is_linked in El. apply orb_false_iff in El as [L1%bool_decide_eq_false L2%bool_decide_eq_false].
    destruct (IH (rdl_add i e)) as (l & -> & Hl & Hn & Hc). simpl in *. exists (i :: l). split_and!.
    + destruct e; simpl. by rewrite <- app_assoc.
    + intros j [->|Hj]%elem_of_cons; [set_solver|]. destruct (Hl j Hj) as (? & ? & ?). set_solver.
    + apply NoDup_cons. split; [|done]. intros Hi. destruct (Hl i Hi) as (_ & Hx & _). set_solver.
    + intros j [->|Hj]%elem_of_cons; [set_solver|]. destruct (Hc j Hj); set_solver.
Qed.

Lemma spliced_lists e : exists l,
  spliced e = set_rdllist (txlist e ++ rdllist e ++ l) (set_txlist [] (set_ovflist None e)) /\
  (forall i, i ∈ l -> i ∈ default [] (ovflist e) /\ i ∉ rdllist e /\ i ∉ txlist e) /\ NoDup l /\
  (forall i, i ∈ default [] (ovflist e) -> i ∈ rdllist e ++ l \/ i ∈ txlist e).
Proof.
  unfold spliced. destruct (merged_same (default [] (ovflist e)) e) as (l & -> & H1 & H2 & H3).
  exists l. split_and!; try done.
Qed.

Lemma finished_ready locked i e : ready_in i e = true -> ready_in i (finished locked e) = true.
Proof.
  unfold finished. destruct (spliced_lists e) as (l & -> & _ & _ & Hc).
  unfold ready_in, ep_is_linked; simpl. rewrite !orb_true_iff, !bool_decide_eq_true, !elem_of_app.
  intros [[?|?]|H]; [tauto|tauto|]. destruct (ovflist e) as [c|]; [|done].
  apply bool_decide_eq_true in H. specialize (Hc i H). rewrite elem_of_app in Hc. tauto.
Qed.

Lemma finished_wf locked B e : ep_wf B e -> ep_wf B (finished locked e).
Proof.
  intros [H1 H2 H3]. unfold finished. destruct (spliced_lists e) as (l & -> & Hl & Hn & _). split; simpl.
  - intros i. rewrite !elem_of_app. intros [[?|[?|Hi]]|[?|?]]; [by auto..|apply H1|set_solver|set_solver].
    right; right. by apply Hl.
  - rewrite app_nil_r, app_assoc. apply NoDup_app. split_and!; [|intros i Hi Hj; destruct (Hl i Hj) as (_ & ? & ?); set_solver|done].
    apply (NoDup_Permutation_proper (rdllist e ++ txlist e)); [|done]. apply Permutation_app_comm.
  - constructor.
Qed.

(** no scan is under way *)
Definition quiet (e : eventpoll) : Prop := txlist e = [] /\ ovflist e = None.

Lemma started_ready locked i e : quiet e -> ready_in i e = true -> ready_in i (started locked e) = true.
Proof.
  intros [Ht Ho]. unfold ready_in, ep_is_linked, started; simpl. rewrite Ho, Ht, orb_false_r.
  rewrite !orb_true_iff, !bool_decide_eq_true. set_solver.
Qed.

Lemma started_wf locked B e : quiet e -> ep_wf B e -> ep_wf B (started locked e).
Proof.
  intros [Ht Ho] [H1 H2 H3]. rewrite Ht, app_nil_r in H2. split; simpl; [|done|constructor].
  intros i [Hi|[Hi|Hi]]; [set_solver|auto|set_solver].
Qed.

(** the loop over the chain *)
Lemma requeue_item_eq w ep e i :
  eps w !! ep = Some e -> is_Some (epis w !! i) ->
  exists s, requeue_item ep i w =
    Ret tt (set_pm s (put_ep ep (if ep_is_linked i e then e else rdl_add i e) w)).
Proof.
  intros He [x Hx]. unfold requeue_item. mrun (get_ep_eq _ _ _ He). destruct (ep_is_linked i e).
  - exists (pm w). unfold put_ep. rewrite insert_id by done. by destruct w.
  - mrun (upd_ep_eq w _ _ (rdl_add i) He). eexists. unfold ep_pm_stay_awake.
    fold (put_ep ep (rdl_add i e) w). mrun (get_epi_eq (put_ep ep (rdl_add i e) w) i x Hx). done.
Qed.

Lemma merge_loop w ep e c :
  eps w !! ep = Some e -> (forall i, i ∈ c -> is_Some (epis w !! i)) ->
  exists s, mfor (requeue_item ep) c w = Ret tt (set_pm s (put_ep ep (merged c e) w)).
Proof.
  revert w e. induction c as [|i c IH]; intros w e He Hc; simpl.
  { exists (pm w). unfold put_ep, merged; simpl. rewrite insert_id by done. by destruct w. }
  destruct (requeue_item_eq w ep e i He) as [s Es]; [apply Hc; set_solver|]. mrun Es.
  set (e1 := if ep_is_linked i e then e else rdl_add i e) in *. set (w1 := set_pm s _).
  destruct (IH w1 e1) as [s' Es']; [apply lookup_insert_eq|intros j Hj; apply Hc; set_solver|].
  exists s'. rewrite Es'. unfold put_ep, w1; simpl. by rewrite insert_insert_eq.
Qed.

Lemma poll_ok_put w ep e e' :
  poll_ok w -> eps w !! ep = Some e -> poll_wait e' = poll_wait e ->
  ep_wf (belongs (epis w) ep) e' -> poll_ok (put_ep ep e' w).
Proof.
  intros [[Hk Hwq Hpw Hi Hh Hdv] H2 H3 H4 H5 H6] He Hp Hwf.
  assert (forall k, is_Some (eps w !! k) -> is_Some (<[ep := e']> (eps w) !! k)) as Hdom.
  { intros k Hk'. rewrite lookup_insert. by case_decide. }
  split; [split| | | | |]; try done; simpl.
  - intros k v. rewrite lookup_insert. case_decide; [intros [= <-]; subst; by eapply Hwq|apply Hwq].
  - intros k v. rewrite lookup_insert. case_decide; [intros [= <-]; subst; rewrite Hp; by eapply Hpw|apply Hpw].
  - intros i x Hx. apply Hdom. by eapply Hi.
  - intros i x Hx. destruct (H2 i x Hx) as (fl & Hf & Ht). exists fl. split; [done|].
    destruct (is_file_epoll fl); [|done]. destruct Ht as (ep' & ? & ? & ?). exists ep'. auto.
  - intros k v. rewrite lookup_insert. case_decide; [intros [= <-]; by subst|apply H4].
Qed.

Lemma below_put w ep e : below (rank ep) w -> below (rank ep) (put_ep ep e w).
Proof.
  intros Hb k v. simpl. rewrite lookup_insert. case_decide; [subst; lia|apply Hb].
Qed.

(** what happened between two changes of [ep] *)
Lemma run_le_seal w ep e e1 w4 e4 e5 :
  eps w !! ep = Some e -> run_le (under ep) (put_ep ep e1 w) w4 -> eps w4 !! ep = Some e4 ->
  relisted e e5 -> (ep_wf (belongs (epis w) ep) e -> ep_wf (belongs (epis w) ep) e5) ->
  run_le (under ep) w (put_ep ep e5 w4).
Proof.
  intros He [K E I ? ? D ? ? ? ?] He4 Hl Hw. split; try done. simpl in *.
  intros k. specialize (E k). rewrite lookup_insert. destruct (decide (ep = k)) as [->|Hne].
  - rewrite He. right. auto.
  - by rewrite lookup_insert_ne in E.
Qed.

Lemma finished_relisted R B locked e e4 :
  quiet e -> mtx e = locked -> ep_step R B (started locked e) e4 ->
  relisted e (finished locked e4).
Proof.
  intros [Ht Ho] Hm Hs. destruct (step_same _ _ _ _ Hs) as (l & t & o & ->).
  unfold finished. destruct (spliced_lists (set_rdllist l (set_txlist t (set_ovflist o (started locked e))))) as (l' & -> & _).
  split; [|by left]. exists (t ++ l ++ l'), [], None. destruct e; simpl in *. by destruct locked; subst.
Qed.

Lemma wake_both_eq w ep :
  hooks_ok w -> is_Some (eps w !! ep) ->
  exists b k, wake_both ep w = Ret b (set_kern k w) /\ wakes (kern w) k.
Proof.
  intros Hw [e He]. destruct (ho_kern _ Hw) as [Ho Hd].
  destruct (ep_wake_wq_wakes (kern w) ep Ho Hd (ho_wq _ Hw _ _ He)) as (k & E & W).
  destruct (ho_poll_wait _ Hw _ _ He) as [l Hl].
  eexists _, k. unfold wake_both, mbind at 1, M_bind at 1, liftK. rewrite E.
  unfold poll_wait_active. mrun (get_ep_eq (set_kern k w) _ _ He).
  unfold mbind, M_bind, deref. simpl. rewrite Hl. done.
Qed.

(** the first part of a scan, up to the release of the lock *)
Definition scan_begin (ep : nat) (locked : bool) : W (list nat) :=
  (if locked then mret tt else ep_mutex_lock ep) ;;
  e ← get_ep ep;
  upd_ep ep (fun e => set_txlist (rdllist e) (set_rdllist [] (set_ovflist (Some []) e))) ;;
  mret (rdllist e).

Lemma scan_begin_eq w ep e :
  eps w !! ep = Some e ->
  scan_begin ep (mtx e) w = Ret (rdllist e) (put_ep ep (started (mtx e) e) w).
Proof.
  intros He. unfold scan_begin, started. destruct (mtx e) eqn:Em.
  - unfold mbind at 1, M_bind at 1, mret at 1, M_ret at 1. mrun (get_ep_eq _ _ _ He).
    mrun (upd_ep_eq w ep e (fun e => set_txlist (rdllist e) (set_rdllist [] (set_ovflist (Some []) e))) He).
    unfold put_ep. destruct e; simpl in *. by subst.
  - unfold mbind at 1, M_bind at 1, ep_mutex_lock. mrun (get_ep_eq _ _ _ He). rewrite Em.
    rewrite (upd_ep_eq w ep e (set_mtx true) He). fold (put_ep ep (set_mtx true e) w).
    assert (eps (put_ep ep (set_mtx true e) w) !! ep = Some (set_mtx true e)) as He' by apply lookup_insert_eq.
    mrun (get_ep_eq _ _ _ He').
    mrun (upd_ep_eq _ ep _ (fun e => set_txlist (rdllist e) (set_rdllist [] (set_ovflist (Some []) e))) He').
    unfold put_ep; simpl. rewrite insert_insert_eq. by destruct e.
Qed.

(** the part after the scan procedure *)
Definition scan_end (ep : nat) (locked : bool) (error : Z) : W Z :=
  e ← get_ep ep;
  mfor (requeue_item ep) (default [] (ovflist e)) ;;
  upd_ep ep (fun e => set_rdllist (txlist e ++ rdllist e) (set_txlist [] (set_ovflist None e))) ;;
  e ← get_ep ep;
  on_pm (pm_relax (ep_ws e)) ;;
  pwake ← (if bool_decide (rdllist e = []) then mret false else wake_both ep);
  (if locked then mret tt else ep_mutex_unlock ep) ;;
  safewake ep pwake ;;
  mret error.

Lemma scan_split sproc ep locked w :
  ep_scan_ready_list sproc ep locked w =
  (head ← scan_begin ep locked; interrupts ;; error ← sproc head; interrupts ;; scan_end ep locked error) w.
Proof.
  unfold ep_scan_ready_list, scan_begin, scan_end, mbind, M_bind, mret, M_ret.
  destruct locked; [|destruct (ep_mutex_lock ep w) as [? w1| |]; try done].
  - destruct (get_ep ep w) as [? w2| |]; try done. by destruct (upd_ep _ _ _).
  - destruct (get_ep ep w1) as [? w2| |]; try done. by destruct (upd_ep _ _ _).
Qed.

Lemma scan_end_ok w ep e locked error :
  poll_ok w -> eps w !! ep = Some e ->
  exists w', scan_end ep locked error w = Ret error w' /\ cb_le (put_ep ep (finished locked e) w) w'.
Proof.
  intros Hw He. pose proof (po_wf _ Hw _ _ He) as Hwf. unfold scan_end. mrun (get_ep_eq _ _ _ He).
  destruct (merge_loop w ep e (default [] (ovflist e)) He) as [s1 E1].
  { intros i Hi. destruct (wf_items _ _ Hwf i) as (x & Hx & _); [auto|]. by rewrite Hx. }
  mrun E1. set (m := merged _ e). set (w1 := set_pm s1 _).
  assert (eps w1 !! ep = Some m) as Hm by apply lookup_insert_eq.
  mrun (upd_ep_eq w1 ep m (fun e => set_rdllist (txlist e ++ rdllist e) (set_txlist [] (set_ovflist None e))) Hm).
  change (set_rdllist (txlist m ++ rdllist m) (set_txlist [] (set_ovflist None m))) with (spliced e).
  fold (put_ep ep (spliced e) w1). set (w2 := put_ep ep (spliced e) w1).
  assert (eps w2 !! ep = Some (spliced e)) as Hs by apply lookup_insert_eq.
  mrun (get_ep_eq _ _ _ Hs). unfold mbind at 1, M_bind at 1, on_pm, modify. set (w3 := set_pm _ w2).
  assert (poll_ok w3) as Hw3.
  { assert (poll_ok (put_ep ep (spliced e) w)) as Hp.
    { apply (poll_ok_put w ep e); try done.
      - by destruct (spliced_lists e) as (l & -> & _).
      - pose proof (finished_wf true _ _ Hwf) as F. by destruct F. }
    eapply (poll_ok_run (fun _ => True)); [|apply Hp|exact Hp].
    unfold w3, w2, w1, put_ep; simpl. rewrite insert_insert_eq. apply (pm_run _ (put_ep ep (spliced e) w)). }
  assert (exists b k, (if bool_decide (rdllist (spliced e) = []) then mret false else wake_both ep) w3 =
    Ret b (set_kern k w3) /\ wakes (kern w3) k) as (b & k & E4 & W4).
  { destruct (bool_decide _).
    - exists false, (kern w3). split; [by destruct w|apply wakes_refl].
    - apply wake_both_eq; [apply Hw3|done]. }
  mrun E4. set (w4 := set_kern k w3).
  assert (exists s, (if locked then mret tt else ep_mutex_unlock ep) w4 =
    Ret tt (set_kern k (set_pm s (put_ep ep (finished locked e) w)))) as [s5 E5].
  { exists (pm w3). destruct locked.
    - unfold w4, w3, w2, w1, put_ep; simpl. rewrite insert_insert_eq. unfold finished.
      replace (set_mtx (mtx e) (spliced e)) with (spliced e); [done|].
      destruct (spliced_lists e) as (l & -> & _). by destruct e.
    - unfold ep_mutex_unlock. rewrite (upd_ep_eq w4 ep (spliced e)) by done.
      unfold w4, w3, w2, w1, put_ep; simpl. by rewrite !insert_insert_eq. }
  mrun E5. set (w5 := set_kern k _).
  assert (cb_le (put_ep ep (finished locked e) w) w5) as Hcb5.
  { eapply cb_le_trans; [apply (cb_pm _ s5)|]. by apply cb_set_kern. }
  assert (poll_ok (put_ep ep (finished locked e) w)) as Hw5.
  { apply (poll_ok_put w ep e); try done; [|by apply finished_wf].
    unfold finished. by destruct (spliced_lists e) as (l & -> & _). }
  destruct (safewake_top w5 ep b) as (w6 & E6 & Hcb6).
  - eapply hooks_cb; [|exact Hcb5]. apply Hw5.
  - unfold w5; simpl. by rewrite lookup_insert_eq.
  - eapply awake_cb; [exact Hcb5|]. apply Hw5.
  - exists w6. mrun E6. split; [done|by eapply cb_le_trans].
Qed.

(** what a scan procedure promises: it keeps the promise for the items of
    [I], and its value, the items and the user's buffer are as [X] tells *)
Definition sproc_spec (n ep : nat) (I : gmap nat epitem -> nat -> Prop)
    (X : gmap nat epitem * list (Z * Z) -> Z -> gmap nat epitem * list (Z * Z) -> Prop)
    (sproc : list nat -> W Z) : Prop :=
  forall w e, poll_ok w -> below (rank ep) w -> rw_room n w ->
  eps w !! ep = Some e -> ovflist e <> None -> rdllist e = [] ->
  exists v w', sproc (txlist e) w = Ret v w' /\ run_le (under ep) w w' /\ honest_world w' /\
    keeps_lvl (I (epis w)) w w' /\ X (shown w) v (shown w').

(** the world when the procedure starts *)
Lemma scan_start w ep e :
  poll_ok w -> below (rank ep) w -> eps w !! ep = Some e -> quiet e ->
  exists w2 e2, interrupts (put_ep ep (started (mtx e) e) w) = Ret tt w2 /\
    run_le (under ep) (put_ep ep (started (mtx e) e) w) w2 /\ poll_ok w2 /\ below (rank ep) w2 /\
    keeps_lvl (fun _ => True) w w2 /\ shown w2 = shown w /\ eps w2 !! ep = Some e2 /\ ovflist e2 <> None /\
    rdllist e2 = [] /\ txlist e2 = rdllist e /\ ep_grows (belongs (epis w) ep) (started (mtx e) e) e2.
Proof.
  intros Hw Hb He Hq. set (e1 := started (mtx e) e). set (w1 := put_ep ep e1 w).
  assert (poll_ok w1) as Hw1.
  { apply (poll_ok_put w ep e); try done. apply started_wf; [done|by apply Hw]. }
  destruct (irq_keeps w1 Hw1) as (w2 & E2 & Hi2 & Hh2 & Hl2).
  pose proof (run_irq (under ep) _ _ Hi2) as R2. pose proof (shown_irq _ _ Hi2) as Hx2.
  destruct Hi2 as (ds & sc & Hcb & _).
  destruct (cb_ep _ _ ep e1 Hcb) as (e2 & He2 & G2); [apply lookup_insert_eq|].
  exists w2, e2. split_and!; try done.
  - by eapply poll_ok_run.
  - eapply below_run; [exact R2|]. by apply below_put.
  - intros i P _ Hl. apply Hl2. apply (put_ep_lvl w ep e); [done| |done].
    intros _. by apply started_ready.
  - by destruct G2 as [l O _ _ ->|c l O _ _ ->].
  - by destruct G2 as [l O _ _ ->|c l O _ _ ->].
  - by destruct G2 as [l O _ _ ->|c l O _ _ ->].
Qed.

Lemma room_put n w ep e : rw_room n w -> rw_room n (put_ep ep e w).
Proof. done. Qed.

Lemma scan_ok n ep I X sproc w e :
  sproc_spec n ep I X sproc -> poll_ok w -> below (rank ep) w -> rw_room n w ->
  eps w !! ep = Some e -> quiet e ->
  exists v w', ep_scan_ready_list sproc ep (mtx e) w = Ret v w' /\ run_le (under ep) w w' /\
    honest_world w' /\ keeps_lvl (I (epis w)) w w' /\ X (shown w) v (shown w').
Proof.
  intros Hsp Hw Hb Hn He Hq.
  destruct (scan_start w ep e Hw Hb He Hq) as (w2 & e2 & E2 & R2 & Hw2 & Hb2 & K2 & Hx2 & He2 & Ho2 & Hr2 & Ht2 & G2).
  destruct (Hsp w2 e2 Hw2 Hb2) as (v & w3 & E3 & R3 & Hh3 & K3 & Hx3); try done.
  { eapply room_run; [exact R2|by apply room_put]. }
  assert (poll_ok w3) as Hw3 by by eapply poll_ok_run.
  destruct (irq_keeps w3 Hw3) as (w4 & E4 & Hi4 & Hh4 & Hl4). pose proof (shown_irq _ _ Hi4) as Hx4.
  pose proof (run_irq (under ep) _ _ Hi4) as R4.
  assert (poll_ok w4) as Hw4 by by eapply poll_ok_run.
  pose proof (run_le_trans _ _ _ _ R2 (run_le_trans _ _ _ _ R3 R4)) as R24.
  destruct (map_le_fwd _ _ _ ep (started (mtx e) e) (rl_eps _ _ _ R24)) as (e4 & He4 & S4); [apply lookup_insert_eq|].
  destruct (scan_end_ok w4 ep e4 (mtx e) v Hw4 He4) as (w5 & E5 & Hcb5).
  exists v, w5. split_and!.
  - rewrite scan_split. mrun (scan_begin_eq w ep e He). mrun E2. rewrite <- Ht2. mrun E3. mrun E4. exact E5.
  - eapply run_le_trans; [|apply run_cb, Hcb5].
    apply (run_le_seal w ep e (started (mtx e) e) w4 e4); try done.
    + eapply finished_relisted; [done|done|exact S4].
    + intros Hwf. apply finished_wf. apply (ep_wf_iff (belongs (epis w4) ep)); [|by apply Hw4].
      intros i. apply belongs_step. apply (rl_epis _ _ _ R24).
  - destruct (cb_env _ _ Hcb5) as (_ & Hsc & _). unfold honest_world in *.
    by rewrite Hsc, (cb_devs _ _ Hcb5).
  - intros i P Hi Hl. apply (lvl_cb _ _ _ _ _ Hcb5). apply (put_ep_lvl w4 ep e4); [done| |].
    + intros _. apply finished_ready.
    + apply Hl4, K3; [by rewrite (shown_epis _ _ Hx2)|]. by apply K2.
  - rewrite (shown_cb _ _ Hcb5), <- Hx2. change (shown (put_ep ep (finished (mtx e) e4) w4)) with (shown w4).
    by rewrite Hx4.
Qed.

(** ** The poll method *)

Lemma mfor_none (l : list nat) (w : world) : mfor (fun _ => mret tt) l w = Ret tt w.
Proof. induction l as [|h l IH]; simpl; [done|]. exact IH. Qed.

Lemma device_poll_ok r n w file :
  poll_ok w -> (exists fl, files (kern w) !! file = Some fl /\ is_file_epoll fl = false) ->
  is_Some (devs w !! file) ->
  exists m w', f_op_poll (S n) file None w = Ret m w' /\ run_le (fun ep => rank ep < r)%nat w w' /\
    honest_world w' /\ shown w' = shown w /\ keeps_lvl (fun _ => True) w w' /\
    forall i x, epis w !! i = Some x -> ffd_file (ffd x) = file ->
      lvl true w' i (meets m (events x) = true).
Proof.
  intros Hw (fl & Hf & Hep) [d Hd]. simpl. unfold mbind at 1, M_bind at 1, get_file, deref. rewrite Hf, Hep.
  unfold mbind at 1, M_bind at 1. rewrite Hd. mrun (mfor_none (d_wheads d) w).
  destruct (irq_keeps w Hw) as (w1 & E1 & Hi1 & Hh1 & Hl1). mrun E1.
  pose proof (run_irq (fun ep => rank ep < r)%nat _ _ Hi1) as R1.
  destruct (proj1 (dev_run _ _ _ file R1)) as [d1 Hd1]; [by rewrite Hd|].
  unfold mbind at 1, M_bind at 1. rewrite Hd1.
  assert (poll_ok w1) as Hw1 by by eapply poll_ok_run.
  destruct (irq_keeps w1 Hw1) as (w2 & E2 & Hi2 & Hh2 & Hl2). mrun E2.
  pose proof (run_irq (fun ep => rank ep < r)%nat _ _ Hi2) as R2.
  exists (d_mask d1), w2. split_and!; [done|by eapply run_le_trans|done| | |].
  - by rewrite (shown_irq _ _ Hi2), (shown_irq _ _ Hi1).
  - intros i P _ Hl. by apply Hl2, Hl1.
  - intros i x Hx <-. apply Hl2. intros x' d' (Hx' & Hd' & _) Hm. rewrite (irq_epis _ _ Hi1) in Hx'.
    right. by simplify_eq.
Qed.

(** the list of nested polls is put back *)
Lemma run_nest R w w' l :
  run_le R (set_poll_readywalk_ncalls l w) w' ->
  run_le R w (set_poll_readywalk_ncalls (poll_readywalk_ncalls w) w').
Proof. intros [? ? ? ? ? ? ? ? (?&?&?) ?]. split; simpl in *; try done. Qed.

Lemma nested_poll_ok n poll w ep e :
  poll_spec (rank ep) n poll -> poll_ok w -> below (rank ep) w -> rw_room (S n) w ->
  eps w !! ep = Some e -> idle e ->
  exists m w', ep_eventpoll_poll poll ep None w = Ret m w' /\ run_le (under ep) w w' /\
    honest_world w' /\ shown w' = shown w /\ keeps_lvl (fun _ => True) w w'.
Proof.
  intros Hp Hw Hb Hn He (Hm & Ht & Ho). unfold ep_eventpoll_poll. mrun (get_ep_eq _ _ _ He).
  unfold mbind at 1, M_bind at 1, poll_wait_on, mret at 1, M_ret at 1.
  unfold mbind at 1, M_bind at 1, get. unfold ep_call_nested, tasks_call_list, set_tasks_call_list.
  unfold mbind at 1, M_bind at 1. unfold mbind at 1, M_bind at 1, get.
  destruct (nest_check _ _ _ _ _) as [k|] eqn:En.
  2: { eexists 0, w. split_and!; [done|apply run_le_refl|apply Hw|done|apply keeps_lvl_refl]. }
  destruct (nest_check_Some _ _ _ _ _ _ En) as (-> & Hni & Hle).
  set (l := poll_readywalk_ncalls w) in *. set (ctx := current w) in *.
  unfold mbind at 1, M_bind at 1, modify at 1. set (w1 := set_poll_readywalk_ncalls ((ep, ctx) :: l) w).
  assert (poll_ok w1) as Hw1 by (by destruct Hw as [[] ? ? ? ? ?]).
  assert (rw_room n w1) as Hn1.
  { destruct Hn as [_ Hn]. unfold rw_room, w1, depth; simpl. rewrite filter_cons_True by done. simpl.
    unfold EP_MAX_NESTS in Hle. unfold depth in *. fold ctx. fold l ctx in Hn. lia. }
  destruct (scan_ok n ep (fun _ _ => True) (fun a _ b => b = a)
    (ep_read_events_proc poll ep) w1 e) as (v & w2 & E2 & R2 & Hh2 & K2 & X2); try done.
  { intros w' e' H1 H2 H3 H4 H5 _.
    destruct (read_events_ok n poll ep (txlist e') Hp w' e') as (v & w'' & ? & ? & ? & ? & ?); try done.
    - intros i Hi. apply (wf_items _ _ (po_wf _ H1 _ _ H4)). auto.
    - by exists v, w''. }
  rewrite Hm in E2. unfold ep_poll_readyevents_proc. simpl bool_decide. mrun E2.
  destruct (rl_nests _ _ _ R2) as (_ & _ & N2).
  eexists _, (set_poll_readywalk_ncalls l w2). unfold mbind, M_bind, modify. rewrite N2. unfold w1; simpl.
  rewrite filter_cons_False by naive_solver. rewrite filter_notin by done.
  split_and!; [done| |done|done|].
  - by apply (run_nest (under ep) w w2 ((ep, ctx) :: l)).
  - intros i P Hi Hl. by apply (K2 i P Hi).
Qed.

(** every level of fuel gives a safe poll *)
Lemma f_op_poll_ok n r : poll_spec r n (f_op_poll n).
Proof.
  revert r. induction n as [|n IH]; intros r w file Hw Hb (fl & Hf & Ht) Hn; [by destruct Hn; lia|].
  destruct (is_file_epoll fl) eqn:Efl; [|by apply device_poll_ok; eauto].
  destruct Ht as (ep & Hp & [e He] & Hk). simpl. unfold mbind at 1, M_bind at 1, get_file, deref.
  rewrite Hf, Efl. unfold mbind at 1, M_bind at 1, file_ep. rewrite Hp.
  destruct (nested_poll_ok n (f_op_poll n) w ep e (IH (rank ep)) Hw) as (m & w' & E & R & Hh & X & K); try done.
  - intros k v Hv Hlt. apply (Hb k v Hv). lia.
  - by apply (Hb ep e).
  - unfold mret, M_ret. exists m, w'. split_and!; try done.
    + eapply run_le_weaken; [exact R|]. intros k [?|Hk']; [lia|]. subst. lia.
    + intros i x Hx Hfile y d (Hy & Hd & _) _. rewrite (shown_epis _ _ X), Hx in Hy. simplify_eq.
      assert (poll_ok w') as Hw' by by eapply poll_ok_run.
      pose proof (po_devs _ Hw' _ _ fl Hd) as Hno. rewrite (files_run _ _ _ R), Hf, Efl in Hno.
      by specialize (Hno eq_refl).
Qed.
End Scan.
