(* ===== verification/EpSend.v ===== *)
(** * No event is lost (fs/eventpoll.c), proofs: delivering events

    ep_send_events() tells the caller of events that are there, takes an
    item off the lists only when its device has no event for it, and puts
    level-triggered items back. *)

From S2P Require Import Prelude Wait Tasklet Cmgroup Sched CmWake CmInv CmTask CmOps.
From S2P Require Import EpTree EpState EpNest EpReady EpWake EpLevel EpScan.
Local Open Scope Z_scope.

(** ** What the caller is told *)

(** edge-triggered items are not reported again *)
Definition edge (x : epitem) : bool := negb (meets (events x) EPOLLONESHOT) && meets (events x) EPOLLET.

(** the items for which the promise must be kept *)
Definition level (m : gmap nat epitem) (i : nat) : Prop :=
  forall x, m !! i = Some x -> edge x = false.

(** an event of the buffer: some of the events an item of [ep] asks for *)
Definition delivered (ep : nat) (m : gmap nat epitem) (v : Z * Z) : Prop :=
  exists i x, m !! i = Some x /\ epi_ep x = ep /\ snd v = data x /\
    fst v <> 0 /\ Z.land (fst v) (events x) = fst v.

(** [n] events were stored *)
Definition buf_ok (ep : nat) (m : gmap nat epitem) (n : Z) (u : list (Z * Z)) : Prop :=
  n = 0 \/ (Z.of_nat (length u) = n /\ Forall (delivered ep m) u).

Lemma meets_private ev b :
  Z.land EP_PRIVATE_BITS b = b -> meets (Z.land ev EP_PRIVATE_BITS) b = meets ev b.
Proof. intros E. unfold meets. by rewrite <- Z.land_assoc, E. Qed.

Lemma edge_step x x' : item_step x x' -> edge x' = edge x.
Proof.
  intros (ev & -> & [-> | ->]); unfold edge; simpl; [done|]. by rewrite !meets_private.
Qed.

Lemma land_sub r a b : Z.land r (Z.land a b) = r -> Z.land r a = r.
Proof.
  intros E. rewrite <- E at 1. rewrite (Z.land_comm a b), <- Z.land_assoc, <- (Z.land_assoc b a a), Z.land_diag.
  by rewrite (Z.land_comm b a).
Qed.

Lemma delivered_step ep i x0 x m r :
  m !! i = Some x0 -> item_step x0 x -> epi_ep x = ep -> r <> 0 -> Z.land r (events x) = r ->
  delivered ep m (r, data x).
Proof.
  intros Hm (ev & -> & Hev) Hep Hr Hl. exists i, x0. simpl in *. split_and!; try done.
  destruct Hev as [-> | ->]; [done|]. by eapply land_sub.
Qed.

Lemma buf_ok_snoc ep m n u v :
  0 <= n -> buf_ok ep m n u -> delivered ep m v ->
  buf_ok ep m (n + 1) (take (Z.to_nat n) u ++ [v]).
Proof.
  intros Hn Hu Hv. right. destruct Hu as [->|[El HF]]; simpl.
  - split; [done|by constructor].
  - rewrite take_ge by lia. rewrite length_app, Forall_app. simpl. split; [lia|]. by split; [|constructor].
Qed.

Section Send.
Context `{PL : PmLib} `{WL : WaitLib}.
Variable rank : nat -> nat.

(** ** Putting an item back *)

Definition relisted_with (i : nat) (e e' : eventpoll) : Prop :=
  e' = set_txlist (i :: txlist e) e \/ e' = rdl_add i e.

Lemma relisted_with_wf B i e e' :
  relisted_with i e e' -> B i -> i ∉ rdllist e -> i ∉ txlist e -> ep_wf B e -> ep_wf B e'.
Proof.
  intros H Hi Hr Ht [H1 H2 H3]. apply NoDup_app in H2 as (N1 & N2 & N3).
  destruct H as [-> | ->]; (split; simpl; [| |done]).
  - intros j. rewrite elem_of_cons. intros [?|[[->|?]|?]]; auto.
  - apply NoDup_app. split_and!; [done| |by constructor]. intros j Hj. rewrite elem_of_cons.
    intros [->|?]; [done|]. by eapply N2.
  - intros j. rewrite elem_of_app, list_elem_of_singleton. intros [[?| ->]|?]; auto.
  - rewrite <- app_assoc. apply NoDup_app. split_and!; [done| |by constructor]. intros j Hj. simpl.
    rewrite elem_of_cons. intros [->|?]; [done|]. by eapply N2.
Qed.

Lemma relisted_with_ready i j e e' :
  relisted_with i e e' -> ready_in j e = true \/ j = i -> ready_in j e' = true.
Proof.
  unfold ready_in, ep_is_linked. intros [-> | ->]; simpl; rewrite !orb_true_iff, !bool_decide_eq_true.
  - rewrite elem_of_cons. tauto.
  - rewrite elem_of_app, list_elem_of_singleton. tauto.
Qed.

Lemma relist_item (R : nat -> Prop) w0 w ep e e' i x :
  eps w !! ep = Some e -> R ep -> ovflist e <> None -> epis w !! i = Some x -> epi_ep x = ep ->
  i ∉ rdllist e -> i ∉ txlist e -> relisted_with i e e' -> keeps_lvl (fun j => j <> i) w0 w ->
  run_le R w (put_ep ep e' w) /\ keeps_lvl (fun _ => True) w0 (put_ep ep e' w).
Proof.
  intros He HR Hb Hx Hep Hr Ht Hl K. split.
  - apply (put_ep_run _ _ _ e); [done|done| |].
    + split; [|right; by destruct Hl as [-> | ->]].
      destruct Hl as [-> | ->]; [exists (rdllist e), (i :: txlist e), (ovflist e)
        |exists (rdllist e ++ [i]), (txlist e), (ovflist e)]; by destruct e.
    + apply (relisted_with_wf _ i); [done|by exists x|done|done].
  - intros j P _ Hj. destruct (decide (j = i)) as [->|Hne].
    + intros y d (Hy & _) _. left. exists y, e'. unfold put_ep in *; simpl in *.
      assert (y = x) as -> by congruence. rewrite Hep. split_and!; [done|apply lookup_insert_eq|].
      eapply relisted_with_ready; [exact Hl|by right].
    + apply (put_ep_lvl w ep e); [done| |by apply K]. intros _ Hrd.
      eapply relisted_with_ready; [exact Hl|by left].
Qed.

(** ** Disabling a one-shot item *)

Lemma disable_item R w0 w i x :
  epis w !! i = Some x -> honest_world w -> keeps_lvl (fun j => j <> i) w0 w ->
  let w' := set_epis (<[i := set_events (Z.land (events x) EP_PRIVATE_BITS) x]> (epis w)) w in
  run_le R w w' /\ keeps_lvl (fun _ => True) w0 w'.
Proof.
  intros Hx [Hm _] K w'. split.
  - destruct (run_le_refl R w) as [? ? ? ? ? ? ? ? ? ?]. split; try done. simpl.
    apply (map_le_insert _ _ _ x); [intros; apply item_step_refl|done|].
    exists (Z.land (events x) EP_PRIVATE_BITS). auto.
  - intros j P _ Hj y d (Hy & Hd & Hh) Hev. unfold w' in *; simpl in *. rewrite lookup_insert in Hy.
    case_decide as Ej.
    + subst j. injection Hy as <-. simpl in *. exfalso. specialize (Hm _ _ Hd).
      rewrite meets_false in Hm. unfold meets in Hev.
      rewrite (Z.land_comm (events x)), Z.land_assoc, Hm, Z.land_0_l in Hev. done.
    + destruct (K j P (not_eq_sym Ej) Hj y d) as [(y' & e & Hy' & He & Hl)|]; [done|done| |by right].
      left. exists y', e. simpl. rewrite lookup_insert_ne by done. done.
Qed.

(** ** The loop *)

Variables (n ep : nat) (poll : nat -> option nat -> W Z) (put_ok : nat -> bool) (maxevents : Z).
Hypothesis poll_good : poll_spec rank (rank ep) n poll.

(** what is done with an item once it was polled *)
Definition sent (i : nat) (head : list nat) (cnt revents : Z) : W Z :=
  if revents =? 0 then ep_send_events_proc poll put_ok ep maxevents head cnt
  else if negb (put_ok (Z.to_nat cnt)) then
    upd_ep ep (fun e => set_txlist (i :: txlist e) e) ;;
    ep_pm_stay_awake i ;;
    mret (if cnt =? 0 then - EFAULT else cnt)
  else
    x ← get_epi i;
    modify (fun w => set_ubuf (take (Z.to_nat cnt) (ubuf w) ++ [(revents, data x)]) w) ;;
    (if meets (events x) EPOLLONESHOT then
       upd_epi i (set_events (Z.land (events x) EP_PRIVATE_BITS))
     else if meets (events x) EPOLLET then mret tt
     else upd_ep ep (rdl_add i) ;; ep_pm_stay_awake i) ;;
    ep_send_events_proc poll put_ok ep maxevents head (cnt + 1).

(** the world in which the loop runs *)
Record sending (w : world) (e : eventpoll) : Prop := Sending {
  sd_ok : poll_ok rank w;
  sd_below : below rank (rank ep) w;
  sd_room : rw_room n w;
  sd_ep : eps w !! ep = Some e;
  sd_busy : ovflist e <> None
}.

Lemma sending_run w e w' :
  sending w e -> run_le (fun k => (rank k < rank ep)%nat \/ k = ep) w w' -> honest_world w' ->
  exists e', sending w' e'.
Proof.
  intros [H1 H2 H3 H4 H5] Hr Hh.
  destruct (map_le_fwd _ _ _ _ _ (rl_eps _ _ _ Hr) H4) as (e' & He' & S).
  exists e'. split; [by eapply poll_ok_run|by eapply below_run|by eapply room_run|done|by eapply step_busy].
Qed.

Lemma pm_prefix w x e :
  exists s, match epi_ws x with
    | Some ws => (if pm_active ws (pm w) then on_pm (pm_stay_awake (ep_ws e)) else mret tt) ;;
                 on_pm (pm_relax (Some ws))
    | None => mret tt
    end w = Ret tt (set_pm s w).
Proof.
  destruct (epi_ws x); [|exists (pm w); by destruct w].
  unfold mbind, M_bind, on_pm, modify. destruct (pm_active _ _); eexists; done.
Qed.

Lemma grows_links B e e' :
  ep_grows B e e' -> ovflist e <> None -> rdllist e' = rdllist e /\ txlist e' = txlist e.
Proof. by intros [l O _ _ ->|c l O _ _ ->]. Qed.

Lemma unlink_poll w e i x head cnt :
  sending w e -> epis w !! i = Some x -> epi_ep x = ep -> cnt < maxevents ->
  exists m w' e', ep_send_events_proc poll put_ok ep maxevents (i :: head) cnt w = sent i head cnt m w' /\
    run_le (fun k => (rank k < rank ep)%nat \/ k = ep) w w' /\ sending w' e' /\ shown w' = shown w /\
    keeps_lvl (fun j => j <> i) w w' /\ lvl true w' i (m <> 0) /\ Z.land m (events x) = m /\
    i ∉ rdllist e' /\ i ∉ txlist e'.
Proof.
  intros [H1 H2 H3 He Hb] Hx Hep Hcnt. simpl. rewrite (proj2 (Z.ltb_lt _ _)) by done.
  mrun (get_epi_eq _ _ _ Hx). mrun (get_ep_eq _ _ _ He). unfold mbind at 1, M_bind at 1, get.
  destruct (pm_prefix w x e) as [s Es]. mrun Es. set (w1 := set_pm s w).
  mrun (upd_ep_eq w1 ep e (rdl_del i) He). fold (put_ep ep (rdl_del i e) w1). set (w2 := put_ep _ _ w1).
  assert (run_le (fun k => (rank k < rank ep)%nat \/ k = ep) w w2) as R2.
  { eapply run_le_trans; [apply (pm_run _ _ s)|].
    apply (put_ep_run _ _ _ e); auto using rdl_del_relisted, rdl_del_wf. }
  assert (poll_ok rank w2) as P2 by (eapply poll_ok_run; [exact R2|apply H1|done]).
  destruct (item_poll_ok rank (rank ep) n poll w2 i x poll_good) as (m & w3 & E3 & R3 & Hh3 & I3 & K3 & L3 & M3);
    [done|by eapply below_run|by eapply room_run|done|congruence|].
  mrun E3. pose proof (run_le_under rank ep _ _ R3) as R3'.
  destruct (map_le_fwd _ _ _ ep (rdl_del i e) (rl_eps _ _ _ R3)) as (e3 & He3 & S3); [apply lookup_insert_eq|].
  assert (rdllist e3 = without i (rdllist e) /\ txlist e3 = without i (txlist e)) as [Er Et].
  { destruct S3 as [G|[? _]]; [|lia]. by apply (grows_links _ _ _ G). }
  exists m, w3, e3. split_and!; try done.
  - by eapply run_le_trans.
  - split; [by eapply poll_ok_run| | |done|by eapply step_busy].
    + by eapply below_run, below_run.
    + by eapply room_run, room_run.
  - intros j P Hj Hl. apply K3; [done|]. apply (put_ep_lvl w1 ep e); [done| |by apply pm_lvl].
    intros _. by apply rdl_del_ready.
  - rewrite Er, elem_without. tauto.
  - rewrite Et, elem_without. tauto.
Qed.

Abbreviation scanning := (fun k => (rank k < rank ep)%nat \/ k = ep).

(** the outcome of delivering from [w], where the items were [m0] first *)
Definition delivery (m0 : gmap nat epitem) (w : world) (v : Z) (w' : world) : Prop :=
  run_le scanning w w' /\ honest_world w' /\ keeps_lvl (level m0) w w' /\
  (v = - EFAULT \/ (0 <= v <= maxevents /\ buf_ok ep m0 v (ubuf w'))).

(** the item is stored and put back, disabled or left out *)
Lemma store_item m0 w0 w e i x cnt m :
  sending w e -> map_le (fun _ => item_step) m0 (epis w) -> epis w !! i = Some x -> epi_ep x = ep ->
  i ∉ rdllist e -> i ∉ txlist e -> keeps_lvl (fun j => j <> i) w0 w ->
  let w1 := set_ubuf (take (Z.to_nat cnt) (ubuf w) ++ [(m, data x)]) w in
  exists w', (if meets (events x) EPOLLONESHOT then
       upd_epi i (set_events (Z.land (events x) EP_PRIVATE_BITS))
     else if meets (events x) EPOLLET then mret tt
     else upd_ep ep (rdl_add i) ;; ep_pm_stay_awake i) w1 = Ret tt w' /\
    run_le scanning w w' /\ honest_world w' /\ ubuf w' = ubuf w1 /\ keeps_lvl (level m0) w0 w'.
Proof.
  intros [H1 H2 H3 He Hb] Hm0 Hx Hep Hr Ht K w1.
  assert (run_le scanning w w1) as R1 by (destruct (run_le_refl scanning w); by split).
  pose proof (po_honest _ _ H1) as Hh1.
  destruct (meets (events x) EPOLLONESHOT) eqn:Eo; [|destruct (meets (events x) EPOLLET) eqn:Et].
  - destruct (disable_item scanning w0 w1 i x) as [R2 K2]; try done.
    eexists. rewrite (upd_epi_eq w1 i x) by done. split_and!; try done; [by eapply run_le_trans|].
    intros j P _ Hj. by apply K2.
  - exists w1. split_and!; try done. intros j P Hj Hl. apply K; [|done]. intros ->.
    destruct (map_le_back _ _ _ _ _ Hm0 Hx) as (x0 & Hx0 & S0). pose proof (Hj _ Hx0) as Hed.
    rewrite <- (edge_step _ _ S0) in Hed. unfold edge in Hed. by rewrite Eo, Et in Hed.
  - destruct (relist_item scanning w0 w1 ep e (rdl_add i e) i x) as [R2 K2]; try done; [by right..|].
    destruct (stay_awake_cb (put_ep ep (rdl_add i e) w1) i x) as (w2 & E2 & C2); [done|].
    exists w2. mrun (upd_ep_eq w1 ep e (rdl_add i) He). split_and!; [done| | | |].
    + eapply run_le_trans; [exact R1|]. eapply run_le_trans; [exact R2|by apply run_cb].
    + destruct (cb_env _ _ C2) as (_ & Hsc & _). unfold honest_world. rewrite Hsc, (cb_devs _ _ C2). apply Hh1.
    + by destruct (cb_env _ _ C2) as (_ & _ & _ & -> & _).
    + intros j P _ Hj. apply (lvl_cb _ _ _ _ _ C2). by apply K2.
Qed.

(** the user's buffer cannot be written: the item goes back to the list *)
Lemma put_back m0 w0 w e i x cnt :
  sending w e -> epis w !! i = Some x -> epi_ep x = ep -> i ∉ rdllist e -> i ∉ txlist e ->
  keeps_lvl (fun j => j <> i) w0 w -> run_le scanning w0 w ->
  0 <= cnt <= maxevents -> buf_ok ep m0 cnt (ubuf w) ->
  exists v w', (upd_ep ep (fun e => set_txlist (i :: txlist e) e) ;;
    ep_pm_stay_awake i ;; mret (if cnt =? 0 then - EFAULT else cnt)) w = Ret v w' /\
    delivery m0 w0 v w'.
Proof.
  intros [H1 H2 H3 He Hb] Hx Hep Hr Ht K R Hc Hu. set (e' := set_txlist (i :: txlist e) e).
  destruct (relist_item scanning w0 w ep e e' i x) as [R2 K2]; try done; [by right|by left|].
  destruct (stay_awake_cb (put_ep ep e' w) i x) as (w2 & E2 & C2); [done|].
  assert (upd_ep ep (fun e => set_txlist (i :: txlist e) e) w = Ret tt (put_ep ep e' w)) as E1
    by exact (upd_ep_eq w ep e _ He).
  eexists _, w2. mrun E1. mrun E2.
  destruct (cb_env _ _ C2) as (_ & Hsc & _ & Hub & _). split; [done|]. split_and!.
  - eapply run_le_trans; [exact R|]. eapply run_le_trans; [exact R2|by apply run_cb].
  - unfold honest_world. rewrite Hsc, (cb_devs _ _ C2). apply (po_honest _ _ H1).
  - intros j P _ Hj. apply (lvl_cb _ _ _ _ _ C2). by apply K2.
  - destruct (cnt =? 0); [by left|right]. by rewrite Hub.
Qed.

Lemma delivery_trans m0 w w1 v w2 :
  run_le scanning w w1 -> keeps_lvl (level m0) w w1 -> delivery m0 w1 v w2 -> delivery m0 w v w2.
Proof.
  intros R K (R2 & Hh & K2 & Hv). split_and!; [by eapply run_le_trans|done|by eapply keeps_lvl_trans|done].
Qed.

Lemma send_events_ok m0 head : forall cnt w e,
  0 <= cnt <= maxevents -> sending w e -> (forall i, i ∈ head -> belongs (epis w) ep i) ->
  map_le (fun _ => item_step) m0 (epis w) -> buf_ok ep m0 cnt (ubuf w) ->
  exists v w', ep_send_events_proc poll put_ok ep maxevents head cnt w = Ret v w' /\ delivery m0 w v w'.
Proof.
  induction head as [|i head IH]; intros cnt w e Hc Hs Hi Hm Hu.
  { exists cnt, w. split; [done|]. split_and!; [apply run_le_refl|apply (sd_ok _ _ Hs)|apply keeps_lvl_refl|auto]. }
  destruct (decide (cnt < maxevents)) as [Hlt|Hge].
  2: { exists cnt, w. split; [simpl; by rewrite (proj2 (Z.ltb_ge _ _)) by lia|].
       split_and!; [apply run_le_refl|apply (sd_ok _ _ Hs)|apply keeps_lvl_refl|auto]. }
  destruct (Hi i) as (x & Hx & Hep); [set_solver|].
  destruct (unlink_poll w e i x head cnt Hs Hx Hep Hlt) as (m & w1 & e1 & -> & R1 & S1 & I1 & K1 & L1 & M1 & N1 & N2).
  injection I1 as I1 U1. rewrite <- I1 in Hx, Hm. rewrite <- U1 in Hu.
  assert (forall w', run_le scanning w1 w' -> forall j, j ∈ head -> belongs (epis w') ep j) as Hh.
  { intros w' Hr j Hj. apply (belongs_step _ _ _ _ (rl_epis _ _ _ Hr)). rewrite I1. apply Hi. set_solver. }
  unfold sent. destruct (m =? 0) eqn:Em; [|destruct (put_ok (Z.to_nat cnt)) eqn:Ep; simpl].
  - zbool. subst m. destruct (IH cnt w1 e1) as (v & w2 & E2 & D2); try done; [apply Hh, run_le_refl|].
    exists v, w2. split; [done|]. eapply delivery_trans; [done| |exact D2].
    intros j P _ Hl. destruct (decide (j = i)) as [->|Hne]; [|by apply K1].
    apply lvl_caught. eapply lvl_weaken; [exact L1|done].
  - destruct (store_item m0 w w1 e1 i x cnt m) as (w2 & E2 & R2 & H2 & U2 & K2); try done.
    destruct (sending_run _ _ _ S1 R2 H2) as [e2 S2].
    destruct (IH (cnt + 1) w2 e2) as (v & w3 & E3 & D3); try done; [lia|by apply Hh| | |].
    + eapply map_le_trans; [|exact Hm|apply (rl_epis _ _ _ R2)]. intros k. apply item_step_trans.
    + rewrite U2. apply buf_ok_snoc; [lia|done|].
      destruct (map_le_back _ _ _ _ _ Hm Hx) as (x0 & Hx0 & Sx). zbool. by eapply (delivered_step ep i x0 x).
    + exists v, w3. mrun (get_epi_eq _ _ _ Hx). unfold mbind at 1, M_bind at 1, modify. mrun E2.
      split; [done|]. eapply delivery_trans; [|exact K2|exact D3]. by eapply run_le_trans.
  - by apply (put_back m0 w w1 e1 i x cnt).
Qed.
End Send.
