(* ===== verification/EpProps.v ===== *)
(** * The properties of event delivery (fs/eventpoll.c)

    What ep_send_events() promises: nothing is lost whatever arrives while
    it runs, and without arrivals it delivers exactly the events that are
    there, in order. *)

From S2P Require Import Prelude Wait Tasklet Cmgroup Sched CmWake CmInv CmTask CmOps.
From S2P Require Import EpTree EpState EpNest EpReady EpWake EpLevel EpScan EpSend.
Local Open Scope Z_scope.

Section Delivery.
Context `{PL : PmLib} `{WL : WaitLib}.
Variable rank : nat -> nat.

Lemma room_fuel w : rw_room nest_fuel w.
Proof. unfold rw_room, nest_fuel. lia. Qed.

(** the scan procedure of epoll_wait *)
Lemma send_sproc n ep poll put_ok maxevents :
  poll_spec rank (rank ep) n poll -> 0 < maxevents ->
  sproc_spec rank n ep level
    (fun a v b => v = - EFAULT \/ (0 <= v <= maxevents /\ buf_ok ep (fst a) v (snd b)))
    (fun head => ep_send_events_proc poll put_ok ep maxevents head 0).
Proof.
  intros Hp Hm w e H1 H2 H3 H4 H5 _.
  destruct (send_events_ok rank n ep poll put_ok maxevents Hp (epis w) (txlist e) 0 w e)
    as (v & w' & E & R & Hh & K & Hv).
  - lia.
  - by split.
  - intros i Hi. apply (wf_items _ _ (po_wf _ _ H1 _ _ H4)). auto.
  - apply map_le_refl. intros _. apply item_step_refl.
  - by left.
  - exists v, w'. by split_and!.
Qed.

(** C10: ep_send_events() on an eventpoll nobody scans, above idle nested
    eventpolls, whatever the devices do whenever interrupts are on, as long as
    they wake their queues when they become ready: it returns, with at most
    [maxevents] events that items of the eventpoll asked for in the user's
    buffer, or -EFAULT; all lists are well-formed again (every item at most
    once) and no scan is under way; and no level-triggered or one-shot item is
    lost: if every ready item was on the ready list before, it is after. *)
Theorem ep_send_events_loses_nothing (put_ok : nat -> bool) (ep : nat) (maxevents : Z)
    (w : world) (e : eventpoll) :
  poll_ok rank w -> (forall k v, eps w !! k = Some v -> (rank k <= rank ep)%nat -> idle v) ->
  eps w !! ep = Some e -> 0 < maxevents ->
  exists v w' e', ep_send_events vfs_poll put_ok ep maxevents w = Ret v w' /\
    (v = - EFAULT \/ (0 <= v <= maxevents /\ buf_ok ep (epis w) v (ubuf w'))) /\
    poll_ok rank w' /\ eps w' !! ep = Some e' /\ idle e' /\
    (forall i, level (epis w) i -> lvl false w i False -> lvl false w' i False).
Proof.
  intros Hw Hidle He Hm. destruct (Hidle ep e He (le_n _)) as (M & T & O).
  destruct (scan_ok rank nest_fuel ep _ _ _ w e
    (send_sproc nest_fuel ep vfs_poll put_ok maxevents (f_op_poll_ok rank nest_fuel (rank ep)) Hm))
    as (v & w' & E & R & Hh & K & X); [done| |apply room_fuel|done|done|].
  { intros k u Hu Hk. apply (Hidle k u Hu). lia. }
  destruct (map_le_fwd _ _ _ _ _ (rl_eps _ _ _ R) He) as (e' & He' & S).
  rewrite M in E. exists v, w', e'. split_and!; try done.
  - by eapply poll_ok_run.
  - by eapply step_idle.
  - intros i. apply K.
Qed.
End Delivery.

(** ** A small world: eventpoll 10 watches an idle nested eventpoll and a
    device that becomes writable while it is scanned *)

Definition demo_kernel : kernel :=
  Kernel ∅ {[ 1%nat := TaskStruct TASK_RUNNING true true 0 None false false ]}
    (<[ 1%nat := File eventpoll_fops (Some 10%nat) ]> (<[ 2%nat := File eventpoll_fops (Some 11%nat) ]>
      {[ 3%nat := File other_fops None ]})) {[ 5 := 1%nat ]}
    ∅ (<[ 10%nat := [] ]> {[ 11%nat := [] ]}) ∅ [] false
    (Tasklet.Softirq (fun _ => Tasklet.PerCpu 0 [] [] false false) ∅) 0.

Definition demo_ep (pw : nat) (l : list nat) (file : nat) : eventpoll :=
  Eventpoll false pw l [] rb_null None None 0 (Some file) false.

Definition demo_world (s : list (list arrival)) (l : list nat) : world (H := pm_none) :=
  World (H := pm_none) demo_kernel
    (<[ 10%nat := demo_ep 40 l 1 ]> {[ 11%nat := demo_ep 41 [] 2 ]})
    (<[ 20%nat := Epitem (Filefd 3 7) 1 [30%nat] 10 None 5 5 ]>
      {[ 21%nat := Epitem (Filefd 2 8) 1 [31%nat] 10 None POLLIN 6 ]})
    (<[ 30%nat := EppollEntry 20 (Some 42%nat) ]> {[ 31%nat := EppollEntry 21 (Some 41%nat) ]})
    (<[ 40%nat := [] ]> (<[ 41%nat := [31%nat] ]> {[ 42%nat := [30%nat] ]}))
    {[ 3%nat := Device POLLIN [42%nat] ]}
    ∅ [] [] [] [] [] [] false ∅ tt [] s 100 [] 1.

Definition demo_script : list (list arrival) := [[]; [Arrival 3 5 42 4]].

Definition demo_rank (ep : nat) : nat := if decide (ep = 10%nat) then 1 else 0.

(** the bindings of a map that is written out *)
Ltac each H :=
  repeat match type of H with
  | <[_ := _]> _ !! _ = Some _ => apply lookup_insert_Some in H as [[? ?]|[? H]]; [subst|]
  | {[_ := _]} !! _ = Some _ => apply lookup_singleton_Some in H as [? ?]; subst
  | ∅ !! _ = Some _ => by rewrite lookup_empty in H
  end.

Lemma demo_kernel_ok : ok no_refs demo_kernel /\ default_queues demo_kernel.
Proof.
  assert (Hg : forall g c, cmgroups demo_kernel !! g = Some c -> False).
  { intros g c. unfold demo_kernel; simpl. by rewrite lookup_empty. }
  assert (Hq : forall ep q, ep_wq demo_kernel !! ep = Some q -> q = []).
  { intros ep q. unfold demo_kernel; simpl. intros H. each H; done. }
  split; [split_and!|].
  - split; try by (intros g c ?%Hg).
    + done.
    + intros g _. unfold refs, tasklet_pending, demo_kernel; simpl. rewrite !count_empty, lookup_empty.
      rewrite (count_false (file_to g)), (count_false (in_group g)); [done| |];
        intros t x H; each H; done.
    + intros g. split; [by intros ?%not_elem_of_nil|]. by intros (c & ?%Hg & _).
    + constructor.
    + by intros g [c ?%Hg].
    + unfold demo_kernel; simpl. rewrite map_size_singleton. done.
  - intros t x. unfold demo_kernel; simpl. by intros [_ <-]%lookup_singleton_Some.
  - split; [by intros g c ?%Hg| |by intros g c ep ?%Hg]. by intros ep q ->%Hq.
  - by intros ep q ->%Hq.
Qed.

Lemma demo_hooks s l : hooks_ok (demo_world s l).
Proof.
  split; [apply demo_kernel_ok|unfold demo_world; simpl..].
  - intros ep e H. each H; by eexists.
  - intros ep e H. each H; by eexists.
  - intros i x H. each H; by eexists.
  - intros h l0 p H Hp. each H; set_unfold; destruct_or?; subst; eexists; (split_and!; [done..|by eexists]).
  - intros f d h H Hh. each H. set_unfold. destruct_or?; subst. by eexists.
Qed.

Lemma demo_honest : honest_world (demo_world demo_script [20%nat; 21%nat]).
Proof.
  split; [intros f d H; unfold demo_world in H; simpl in H; by each H|].
  split; [done|]. split; [split; [|done]|done].
  intros d H. unfold demo_world in H. vm_compute in H. injection H as <-. split_and!; [set_solver|done|done|by right].
Qed.

Lemma demo_quiet l : honest_world (demo_world [] l).
Proof. split; [intros f d H; unfold demo_world in H; simpl in H; by each H|done]. Qed.

Lemma demo_poll_ok s l :
  honest_world (demo_world s l) -> NoDup l -> (forall i, i ∈ l -> i = 20%nat \/ i = 21%nat) ->
  poll_ok (PL := pm_none) demo_rank (demo_world s l).
Proof.
  intros Hs Hn Hl. split; [apply demo_hooks|unfold demo_world; simpl..].
  - intros i x H. each H; eexists; (split; [done|simpl]); [by eexists|].
    exists 11%nat. split_and!; [done|by eexists|]. vm_compute. lia.
  - intros f d fl H Hf. each H. by injection Hf as <-.
  - intros ep e H. each H; split; simpl; rewrite ?app_nil_r; try done; try apply NoDup_nil_2.
    + intros i. rewrite !elem_of_nil. intros [Hi|[[]|[]]]. destruct (Hl i Hi) as [-> | ->]; by eexists.
    + intros i. rewrite !elem_of_nil. tauto.
  - done.
  - done.
Qed.

Lemma demo_idle s l k v : eps (demo_world s l) !! k = Some v -> (demo_rank k <= demo_rank 10)%nat -> idle v.
Proof. unfold demo_world; simpl. intros H _. each H; done. Qed.

(** the device of item 20 is ready, and the promise is kept for it *)
Lemma ep_send_events_loses_nothing_witness :
  exists v w', ep_send_events (H := wait_lib) (H0 := pm_none)
    (vfs_poll (H := wait_lib) (H0 := pm_none)) (fun _ => true) 10 2
    (demo_world demo_script [20%nat; 21%nat]) = Ret v w' /\ lvl false w' 20 False.
Proof.
  destruct (ep_send_events_loses_nothing (PL := pm_none) (WL := wait_lib) demo_rank (fun _ => true) 10 2
    (demo_world demo_script [20%nat; 21%nat]) (demo_ep 40 [20%nat; 21%nat] 1)) as (v & w' & e' & E & _ & _ & _ & _ & H).
  - apply demo_poll_ok; [apply demo_honest| |set_solver]. apply NoDup_cons. split; [set_solver|]. apply NoDup_singleton.
  - apply demo_idle.
  - reflexivity.
  - lia.
  - exists v, w'. split; [exact E|]. apply H.
    + intros x Hx. vm_compute in Hx. injection Hx as <-. reflexivity.
    + intros x d _ _. left. eexists _, _. split; [reflexivity|]. split; reflexivity.
Defined.

