(* ===== verification/EpExact.v ===== *)
(** * Exactly the events that are there (fs/eventpoll.c), proofs

    ep_send_events() of an eventpoll that watches devices only, when nothing
    happens meanwhile, is a function of the ready list: the reference
    definition [deliver]. *)

From S2P Require Import Prelude Wait Tasklet Cmgroup Sched CmWake CmInv CmTask CmOps.
From S2P Require Import EpTree EpState EpNest EpReady EpWake EpLevel EpScan EpSend EpProps.
Local Open Scope Z_scope.

(** ** The reference *)

(** the events device [file] has now *)
Definition mask_of (ds : gmap nat device) (file : nat) : Z :=
  match ds !! file with Some d => d_mask d | None => 0 end.

Record delivered_events := Delivered {
  dv_events : list (Z * Z);             (* what the user gets, in order *)
  dv_rest : list nat;                   (* items that were not looked at *)
  dv_again : list nat;                  (* level-triggered items, to be looked at again *)
  dv_items : gmap nat epitem            (* one-shot items that fired are disabled *)
}.

(** at most [n] events of the items of [head] *)
Fixpoint deliver (ds : gmap nat device) (n : nat) (head : list nat) (m : gmap nat epitem) : delivered_events :=
  match n, head with
  | O, _ | _, [] => Delivered [] head [] m
  | S n', i :: head' =>
      match m !! i with
      | None => Delivered [] head [] m
      | Some x =>
          let revents := Z.land (mask_of ds (ffd_file (ffd x))) (events x) in
          if revents =? 0 then deliver ds n head' m
          else
            let once := meets (events x) EPOLLONESHOT in
            let r := deliver ds n' head'
                       (if once then <[i := set_events (Z.land (events x) EP_PRIVATE_BITS) x]> m else m) in
            Delivered ((revents, data x) :: dv_events r) (dv_rest r)
              (if once || meets (events x) EPOLLET then dv_again r else i :: dv_again r) (dv_items r)
      end
  end.

Section Exact.
Context `{PL : PmLib} `{WL : WaitLib}.

(** items that watch devices *)
Definition on_device (w : world) (i : nat) : Prop :=
  exists x fl d, epis w !! i = Some x /\ files (kern w) !! ffd_file (ffd x) = Some fl /\
    is_file_epoll fl = false /\ devs w !! ffd_file (ffd x) = Some d.

Lemma interrupts_quiet w : script w = [] -> interrupts w = Ret tt w.
Proof. intros E. unfold interrupts, mbind, M_bind, get, modify. rewrite E. simpl. destruct w; simpl in *. by subst. Qed.

Lemma device_item_poll w i x fl d :
  script w = [] -> epis w !! i = Some x -> files (kern w) !! ffd_file (ffd x) = Some fl ->
  is_file_epoll fl = false -> devs w !! ffd_file (ffd x) = Some d ->
  ep_item_poll vfs_poll i None w = Ret (Z.land (d_mask d) (events x)) w.
Proof.
  intros Hs Hx Hf Hfl Hd. unfold ep_item_poll. mrun (get_epi_eq _ _ _ Hx).
  assert (vfs_poll (ffd_file (ffd x)) None w = Ret (d_mask d) w) as E.
  { unfold vfs_poll, nest_fuel. simpl. unfold mbind at 1, M_bind at 1, get_file, deref. rewrite Hf, Hfl.
    unfold mbind at 1, M_bind at 1. rewrite Hd. mrun (mfor_none (d_wheads d) w).
    mrun (interrupts_quiet w Hs). unfold mbind at 1, M_bind at 1. rewrite Hd. by mrun (interrupts_quiet w Hs). }
  mrun E. by mrun (get_epi_eq _ _ _ Hx).
Qed.

(** ** The loop *)

Variables (ep : nat) (put_ok : nat -> bool) (maxevents : Z).
Hypothesis put_good : forall n, put_ok n = true.

(** the buffer after [evs] were stored from position [cnt] on *)
Definition stored (cnt : Z) (u evs : list (Z * Z)) : list (Z * Z) :=
  match evs with [] => u | _ => take (Z.to_nat cnt) u ++ evs end.

Lemma stored_cons cnt u v evs :
  0 <= cnt <= Z.of_nat (length u) ->
  stored (cnt + 1) (take (Z.to_nat cnt) u ++ [v]) evs = stored cnt u (v :: evs).
Proof.
  intros Hc. unfold stored. destruct evs as [|v' evs]; [done|].
  rewrite (take_ge (_ ++ _)); [by rewrite <- app_assoc|]. rewrite length_app, length_take. simpl. lia.
Qed.

(** the eventpoll and the world after a delivery *)
Definition relist (r : delivered_events) (e : eventpoll) : eventpoll :=
  set_rdllist (rdllist e ++ dv_again r) (set_txlist (dv_rest r) e).

Definition told (s : pm_state) (cnt : Z) (r : delivered_events) (e : eventpoll) (w : world) : world :=
  set_pm s (set_ubuf (stored cnt (ubuf w) (dv_events r)) (set_epis (dv_items r) (put_ep ep (relist r e) w))).

Lemma on_device_upd w w' i x ev j :
  kern w' = kern w -> devs w' = devs w -> epis w !! i = Some x ->
  epis w' = epis w \/ epis w' = <[i := set_events ev x]> (epis w) -> on_device w j -> on_device w' j.
Proof.
  intros Hk Hd Hx Hi (y & fl & d & Hy & Hf & Hfl & Hdv). unfold on_device. rewrite Hk, Hd.
  destruct Hi as [-> | ->]; [by exists y, fl, d|]. rewrite lookup_insert. case_decide; subst.
  - simplify_eq. by eexists _, fl, d.
  - by exists y, fl, d.
Qed.

(** what an item's turn does before its events are known *)
Lemma turn w e i x head cnt m :
  cnt < maxevents -> epis w !! i = Some x -> eps w !! ep = Some e -> txlist e = i :: head ->
  NoDup (rdllist e ++ i :: head) ->
  (forall s, ep_item_poll vfs_poll i None (set_pm s (put_ep ep (set_txlist head e) w)) =
     Ret m (set_pm s (put_ep ep (set_txlist head e) w))) ->
  exists s, ep_send_events_proc vfs_poll put_ok ep maxevents (i :: head) cnt w =
    sent ep vfs_poll put_ok maxevents i head cnt m (set_pm s (put_ep ep (set_txlist head e) w)).
Proof.
  intros Hcnt Hx He Ht Hn Hp. simpl. rewrite (proj2 (Z.ltb_lt _ _)) by done.
  mrun (get_epi_eq _ _ _ Hx). mrun (get_ep_eq _ _ _ He). unfold mbind at 1, M_bind at 1, get.
  destruct (pm_prefix w x e) as [s Es]. mrun Es. exists s.
  mrun (upd_ep_eq (set_pm s w) ep e (rdl_del i) He).
  assert (rdl_del i e = set_txlist head e) as ->.
  { apply NoDup_app in Hn as (_ & N2 & [N3 N4]%NoDup_cons). unfold rdl_del. rewrite Ht.
    rewrite (without_notin i (rdllist e)) by (intros Hi; apply (N2 i Hi); set_solver).
    unfold without. rewrite filter_cons_False by tauto. fold (without i head). rewrite without_notin by done.
    by destruct e. }
  fold (put_ep ep (set_txlist head e) (set_pm s w)).
  change (put_ep ep (set_txlist head e) (set_pm s w)) with (set_pm s (put_ep ep (set_txlist head e) w)).
  by mrun (Hp s).
Qed.

Definition fired (i : nat) (x : epitem) (m : gmap nat epitem) : gmap nat epitem :=
  if meets (events x) EPOLLONESHOT
  then <[i := set_events (Z.land (events x) EP_PRIVATE_BITS) x]> m else m.
Definition back_in (i : nat) (x : epitem) (e : eventpoll) : eventpoll :=
  if meets (events x) EPOLLONESHOT || meets (events x) EPOLLET then e else rdl_add i e.

Lemma store_exact w e i x s u :
  epis w !! i = Some x ->
  exists s', (if meets (events x) EPOLLONESHOT then
       upd_epi i (set_events (Z.land (events x) EP_PRIVATE_BITS))
     else if meets (events x) EPOLLET then mret tt
     else upd_ep ep (rdl_add i) ;; ep_pm_stay_awake i) (set_ubuf u (set_pm s (put_ep ep e w))) =
    Ret tt (set_pm s' (set_ubuf u (set_epis (fired i x (epis w)) (put_ep ep (back_in i x e) w)))).
Proof.
  intros Hx. unfold fired, back_in. set (w1 := set_ubuf u (set_pm s (put_ep ep e w))).
  assert (eps w1 !! ep = Some e) as He1 by apply lookup_insert_eq.
  destruct (meets (events x) EPOLLONESHOT); simpl; [|destruct (meets (events x) EPOLLET)].
  - exists s. by rewrite (upd_epi_eq w1 i x _ Hx).
  - exists s. by destruct w.
  - mrun (upd_ep_eq w1 ep e (rdl_add i) He1). unfold ep_pm_stay_awake.
    mrun (get_epi_eq (set_eps (<[ep:=rdl_add i e]> (eps w1)) w1) i x Hx).
    eexists. unfold on_pm, modify, w1, put_ep; simpl. rewrite insert_insert_eq. by destruct w.
Qed.

Lemma deliver_cons ds k i head m x :
  m !! i = Some x ->
  deliver ds (S k) (i :: head) m =
    let r := Z.land (mask_of ds (ffd_file (ffd x))) (events x) in
    if r =? 0 then deliver ds (S k) head m
    else let d := deliver ds k head (fired i x m) in
      Delivered ((r, data x) :: dv_events d) (dv_rest d)
        (if meets (events x) EPOLLONESHOT || meets (events x) EPOLLET then dv_again d else i :: dv_again d)
        (dv_items d).
Proof. intros Hx. simpl. by rewrite Hx. Qed.

Lemma told_nothing cnt head e w :
  eps w !! ep = Some e -> txlist e = head -> told (pm w) cnt (Delivered [] head [] (epis w)) e w = w.
Proof.
  intros He <-. unfold told, relist, put_ep; simpl. rewrite app_nil_r.
  replace (set_rdllist _ _) with e by by destruct e. rewrite insert_id by done. by destruct w.
Qed.

Lemma fired_cases i x m :
  fired i x m = m \/ fired i x m = <[i := set_events (Z.land (events x) EP_PRIVATE_BITS) x]> m.
Proof. unfold fired. destruct (meets _ _); auto. Qed.

(** a delivery that goes on *)
Lemma told_more s s' cnt q i x v head e m w :
  0 <= cnt <= Z.of_nat (length (ubuf w)) ->
  told s (cnt + 1) q (back_in i x (set_txlist head e))
    (set_pm s' (set_ubuf (take (Z.to_nat cnt) (ubuf w) ++ [v])
      (set_epis m (put_ep ep (back_in i x (set_txlist head e)) w)))) =
  told s cnt (Delivered (v :: dv_events q) (dv_rest q)
    (if meets (events x) EPOLLONESHOT || meets (events x) EPOLLET then dv_again q else i :: dv_again q)
    (dv_items q)) e w.
Proof.
  intros Hc. unfold told, put_ep; simpl ubuf. rewrite stored_cons by done. simpl. rewrite insert_insert_eq.
  unfold relist, back_in. destruct (_ || _); simpl; [done|]. by rewrite <- app_assoc.
Qed.

(** the new position is on the list only once *)
Lemma nodup_move {A} (l : list A) i t :
  NoDup (l ++ i :: t) -> NoDup (l ++ t) /\ NoDup ((l ++ [i]) ++ t).
Proof.
  intros H. rewrite <- (app_assoc l). simpl. split; [|done].
  apply NoDup_app in H as (N1 & N2 & [N3 N4]%NoDup_cons). apply NoDup_app. split_and!; [done| |done].
  intros j Hj Ht. apply (N2 j Hj). set_solver.
Qed.

Lemma loop_exact head : forall cnt w e,
  script w = [] -> eps w !! ep = Some e -> txlist e = head -> NoDup (rdllist e ++ head) ->
  Forall (on_device w) head -> 0 <= cnt <= maxevents -> cnt <= Z.of_nat (length (ubuf w)) ->
  let r := deliver (devs w) (Z.to_nat (maxevents - cnt)) head (epis w) in
  exists s, ep_send_events_proc vfs_poll put_ok ep maxevents head cnt w =
    Ret (cnt + Z.of_nat (length (dv_events r))) (told s cnt r e w).
Proof.
  induction head as [|i head IH]; intros cnt w e Hs He Ht Hn Hd Hc Hu r.
  { exists (pm w). unfold r. replace (deliver _ _ _ _) with (Delivered [] [] [] (epis w)) by by destruct (Z.to_nat _).
    simpl. rewrite told_nothing by done. by rewrite Z.add_0_r. }
  destruct (decide (cnt < maxevents)) as [Hlt|Hge].
  2: { exists (pm w). unfold r. replace (Z.to_nat (maxevents - cnt)) with O by lia. simpl.
       rewrite told_nothing by done. rewrite (proj2 (Z.ltb_ge _ _)) by lia. by rewrite Z.add_0_r. }
  apply Forall_cons in Hd as [(x & fl & d & Hx & Hf & Hfl & Hdv) Hd].
  set (m := Z.land (d_mask d) (events x)). set (e1 := set_txlist head e).
  destruct (turn w e i x head cnt m Hlt Hx He Ht Hn) as [s E].
  { intros s'. by apply (device_item_poll _ i x fl d). }
  fold e1 in E. set (w1 := set_pm s (put_ep ep e1 w)) in *.
  assert (eps w1 !! ep = Some e1) as He1 by apply lookup_insert_eq.
  destruct (nodup_move _ _ _ Hn) as [Hn1 Hn2].
  unfold r. replace (Z.to_nat (maxevents - cnt)) with (S (Z.to_nat (maxevents - (cnt + 1)))) by lia.
  rewrite (deliver_cons _ _ _ _ _ x Hx). unfold mask_of. rewrite Hdv. fold m.
  rewrite E. unfold sent. destruct (m =? 0) eqn:Em.
  - destruct (IH cnt w1 e1) as [s2 E2]; try done. exists s2. rewrite E2.
    replace (S (Z.to_nat (maxevents - (cnt + 1)))) with (Z.to_nat (maxevents - cnt)) by lia.
    f_equal. unfold told, relist, w1, put_ep; simpl. by rewrite insert_insert_eq.
  - rewrite put_good. cbn [negb]. mrun (get_epi_eq w1 i x Hx). unfold mbind at 1, M_bind at 1, modify.
    set (u := take (Z.to_nat cnt) (ubuf w1) ++ [(m, data x)]).
    destruct (store_exact w e1 i x s u Hx) as [s2 E2]. fold w1 in E2. mrun E2.
    set (w2 := set_pm s2 (set_ubuf u (set_epis (fired i x (epis w)) (put_ep ep (back_in i x e1) w)))).
    destruct (IH (cnt + 1) w2 (back_in i x e1)) as [s3 E3].
    + done.
    + apply lookup_insert_eq.
    + unfold back_in. by destruct (_ || _).
    + unfold back_in. by destruct (_ || _).
    + eapply Forall_impl; [exact Hd|]. intros j. apply (on_device_upd w w2 i x (Z.land (events x) EP_PRIVATE_BITS)); try done.
      apply fired_cases.
    + lia.
    + unfold w2, u; simpl. rewrite length_app, length_take. simpl. lia.
    + exists s3. rewrite E3. f_equal; [simpl; lia|].
      apply (told_more s3 s2 cnt _ i x (m, data x) head e (fired i x (epis w)) w). lia.
Qed.
End Exact.

(** ** The system call's part *)

Lemma finished_told r e :
  ovflist e = None ->
  rdllist (finished false (relist r (started false e))) = dv_rest r ++ dv_again r.
Proof. intros O. done. Qed.

Section Whole.
Context `{PL : PmLib} `{WL : WaitLib}.
Variable rank : nat -> nat.

Lemma send_events_exact (put_ok : nat -> bool) (ep : nat) (maxevents : Z) (w : world) (e : eventpoll) :
  poll_ok rank w -> (forall k v, eps w !! k = Some v -> (rank k <= rank ep)%nat -> idle v) ->
  eps w !! ep = Some e -> 0 < maxevents -> (forall n, put_ok n = true) ->
  script w = [] -> Forall (on_device w) (rdllist e) ->
  let r := deliver (devs w) (Z.to_nat maxevents) (rdllist e) (epis w) in
  exists w' e' l, ep_send_events vfs_poll put_ok ep maxevents w = Ret (Z.of_nat (length (dv_events r))) w' /\
    ubuf w' = (match dv_events r with [] => ubuf w | evs => evs end) /\
    epis w' = dv_items r /\ devs w' = devs w /\
    eps w' !! ep = Some e' /\ rdllist e' = dv_rest r ++ dv_again r ++ l.
Proof.
  intros Hw Hidle He Hm Hput Hs Hd r. destruct (Hidle ep e He (le_n _)) as (M & T & O).
  destruct (scan_start rank w ep e Hw) as (w1 & e1 & E1 & R1 & Hw1 & Hb1 & _ & _ & He1 & Ho1 & _); try done.
  { intros k v Hv Hk. apply (Hidle k v Hv). lia. }
  rewrite (interrupts_quiet (put_ep ep (started (mtx e) e) w) Hs) in E1. injection E1 as <-. rewrite M in *.
  set (es := started false e) in *. set (w1 := put_ep ep es w) in *.
  assert (eps w1 !! ep = Some es) as Hes by apply lookup_insert_eq.
  assert (txlist es = rdllist e) as Htx by done.
  destruct (loop_exact ep put_ok maxevents Hput (rdllist e) 0 w1 es) as [s E2]; try done; [|lia|simpl; lia|].
  { pose proof (wf_links _ _ (po_wf _ _ Hw _ _ He)) as Hn. by rewrite T, app_nil_r in Hn. }
  rewrite Z.sub_0_r in E2. change (deliver (devs w1) _ (rdllist e) (epis w1)) with r in E2.
  set (w2 := told ep s 0 r es w1) in *.
  assert (poll_ok rank w2) as Hw2.
  { destruct (send_sproc rank nest_fuel ep vfs_poll put_ok maxevents (f_op_poll_ok rank nest_fuel (rank ep)) Hm w1 es)
      as (v & w' & E & R & Hh & _); try done; [apply room_fuel|].
    rewrite Htx, E2 in E. injection E as _ <-. by eapply poll_ok_run. }
  destruct (scan_end_ok rank w2 ep (relist r es) false (0 + Z.of_nat (length (dv_events r))) Hw2)
    as (w3 & E3 & C3); [apply lookup_insert_eq|].
  destruct (cb_ep _ _ ep (finished false (relist r es)) C3) as (e3 & He3 & G3); [apply lookup_insert_eq|].
  assert (exists l, rdllist e3 = rdllist (finished false (relist r es)) ++ l) as [l Hl].
  { destruct G3 as [l _ _ _ ->|c l Hc _ _ ->]; [by exists l|done]. }
  exists w3, e3, l. destruct (cb_env _ _ C3) as (_ & _ & _ & -> & _).
  rewrite (cb_epis _ _ C3), (cb_devs _ _ C3). split_and!; try done.
  - unfold ep_send_events. rewrite scan_split. pose proof (scan_begin_eq w ep e He) as E0. rewrite M in E0.
    mrun E0. fold es w1. mrun (interrupts_quiet w1 Hs). mrun E2. by mrun (interrupts_quiet w2 Hs).
  - simpl. unfold stored. by destruct (dv_events r).
  - unfold es in Hl. by rewrite Hl, finished_told, <- app_assoc by done.
Qed.

(** C11: when nothing happens meanwhile and the user's buffer can be written,
    ep_send_events() on an eventpoll whose ready items watch devices returns
    the number of events of the reference [deliver], stores exactly those
    events in the buffer, disables the one-shot items that fired, and leaves
    on the ready list the items that were not looked at and, behind them, the
    level-triggered items that were reported (wake-ups may add others at the
    end). *)
Theorem ep_send_events_exact (put_ok : nat -> bool) (ep : nat) (maxevents : Z) (w : world) (e : eventpoll) :
  poll_ok rank w -> (forall k v, eps w !! k = Some v -> (rank k <= rank ep)%nat -> idle v) ->
  eps w !! ep = Some e -> 0 < maxevents -> (forall n, put_ok n = true) ->
  script w = [] -> Forall (on_device w) (rdllist e) ->
  let r := deliver (devs w) (Z.to_nat maxevents) (rdllist e) (epis w) in
  exists w' e' l, ep_send_events vfs_poll put_ok ep maxevents w = Ret (Z.of_nat (length (dv_events r))) w' /\
    ubuf w' = (match dv_events r with [] => ubuf w | evs => evs end) /\
    epis w' = dv_items r /\ devs w' = devs w /\
    eps w' !! ep = Some e' /\ rdllist e' = dv_rest r ++ dv_again r ++ l.
Proof. apply send_events_exact. Qed.
End Whole.

(** the device of item 20 is readable, and the item asks for it *)
Lemma ep_send_events_exact_witness :
  exists w', ep_send_events (H := wait_lib) (H0 := pm_none) (vfs_poll (H := wait_lib) (H0 := pm_none))
    (fun _ => true) 10 2 (demo_world [] [20%nat]) = Ret 1 w' /\ ubuf w' = [(1, 5)].
Proof.
  destruct (ep_send_events_exact (PL := pm_none) (WL := wait_lib) demo_rank (fun _ => true) 10 2
    (demo_world [] [20%nat]) (demo_ep 40 [20%nat] 1)) as (w' & e' & l & E & U & _).
  - apply demo_poll_ok; [apply demo_quiet|apply NoDup_singleton|set_solver].
  - apply demo_idle.
  - reflexivity.
  - lia.
  - reflexivity.
  - reflexivity.
  - apply Forall_singleton. eexists _, _, _. split_and!; reflexivity.
  - exists w'. split; [exact E|exact U].
Defined.
