(* ===== verification/EpWait.v ===== *)
(** * The properties of epoll_wait() (fs/eventpoll.c)

    When the call sleeps: never if it is not to block, not while there are
    events and the group has room, and always, before it looks at any event,
    while the group is over its limit. *)

From S2P Require Import Prelude Wait Tasklet Cmgroup Sched CmWake CmInv CmTask CmOps.
From S2P Require Import CmSys CmLife.
From S2P Require Import EpTree EpState EpNest EpReady EpCtl EpPoll EpWake EpLevel EpScan EpSend EpProps EpExact.
Local Open Scope Z_scope.

Section Joined.
Context `{PL : PmLib}.

(** the caller is a task that belongs to the group of the eventpoll, if it
    has one *)
Definition caller_joined (w : world) (ep : nat) : Prop :=
  exists x, tasks (kern w) !! current w = Some x /\
    (ep_cmgroup (kern w) !! ep = None \/ task_cmgroup x = ep_cmgroup (kern w) !! ep).

Lemma join_done w ep :
  caller_joined w ep -> ep_cmgroup (kern w) !! ep <> None -> join (ep_cmgroup (kern w) !! ep) w = Ret tt w.
Proof.
  intros (x & Hx & Hg) Hne. unfold join, mbind at 1, M_bind at 1, get.
  unfold mbind at 1, M_bind at 1, liftK. rewrite (get_task_eq _ _ _ Hx).
  rewrite bool_decide_eq_true_2 by naive_solver. by destruct w.
Qed.

Lemma ep_group_eq w ep : ep_group ep w = Ret (ep_cmgroup (kern w) !! ep) w.
Proof. done. Qed.

(** the group, if there is one, has room *)
Definition has_room (w : world) (ep : nat) : Prop :=
  forall g, ep_cmgroup (kern w) !! ep = Some g -> exists c, get_cm g (kern w) = Ret c (kern w) /\ 0 <= available c.

Lemma over_limit_no w ep : has_room w ep -> over_limit (ep_cmgroup (kern w) !! ep) w = Ret false w.
Proof.
  intros Hr. destruct (ep_cmgroup (kern w) !! ep) as [g|] eqn:Eg; [|done].
  destruct (Hr g Eg) as (c & Ec & Ha). unfold over_limit, mbind at 1, M_bind at 1, liftK, cmgroup_available.
  unfold mbind at 1, M_bind at 1. rewrite Ec. unfold mret, M_ret. rewrite (proj2 (Z.ltb_ge _ _)) by done. by destruct w.
Qed.

Lemma join_maybe w ep cm :
  cm = None -> caller_joined w ep ->
  (if bool_decide (cm = ep_cmgroup (kern w) !! ep) then mret tt else join (ep_cmgroup (kern w) !! ep)) w = Ret tt w.
Proof.
  intros -> Hj. destruct (bool_decide _) eqn:Eb; [done|]. apply bool_decide_eq_false in Eb.
  apply join_done; [done|]. intros E. by rewrite E in Eb.
Qed.


Lemma enqueue_wait_eq id w ep q :
  ep_wq (kern w) !! ep = Some q ->
  enqueue_wait id ep w = Ret tt (set_kern (set_ep_wq
    (<[ep := __add_wait_queue_exclusive q (init_waitqueue_entry id (current w))]> (ep_wq (kern w))) (kern w)) w).
Proof. intros E. unfold enqueue_wait, mbind, M_bind, get, liftK, deref, modify. by rewrite E. Qed.

Lemma set_state_eq s w x :
  tasks (kern w) !! current w = Some x ->
  set_current_state s w =
    Ret tt (set_kern (set_tasks (<[current w := set_tstate s x]> (tasks (kern w))) (kern w)) w).
Proof.
  intros E. unfold set_current_state, mbind, M_bind, get, liftK.
  by rewrite (get_task_eq _ _ _ E).
Qed.

Lemma signal_pending_eq w x :
  tasks (kern w) !! current w = Some x -> signal_pending w = Ret (sigpending x) w.
Proof.
  intros E. unfold signal_pending, mbind, M_bind, get, liftK. rewrite (get_task_eq _ _ _ E). by destruct w.
Qed.

Lemma available_eq w g c :
  get_cm g (kern w) = Ret c (kern w) -> liftK (cmgroup_available g) w = Ret (available c) w.
Proof. intros E. unfold liftK, cmgroup_available, mbind, M_bind. rewrite E. by destruct w. Qed.

Lemma request_action_eq w g c a :
  get_cm g (kern w) = Ret c (kern w) ->
  liftK (cmgroup_request_action g a) w =
    Ret tt (set_kern (set_cmgroups (<[g := set_action a c]> (cmgroups (kern w))) (kern w)) w).
Proof. intros E. unfold liftK, cmgroup_request_action. by rewrite (upd_cm_eq _ _ _ _ E). Qed.

Lemma get_cm_same g k k' c : get_cm g k = Ret c k -> cmgroups k' = cmgroups k -> get_cm g k' = Ret c k'.
Proof. unfold get_cm, deref. intros E ->. destruct (_ ≫= _); [|done]. by injection E as ->. Qed.
End Joined.

Section Waiting.
Context `{WL : WaitLib} `{PL : PmLib}.
Variable rank : nat -> nat.
Variables (sleep : W bool) (id : nat) (put_ok : nat -> bool).

(** events are there, or not, when nobody scans *)
Lemma idle_available e : idle e -> ep_events_available e = negb (bool_decide (rdllist e = [])).
Proof. intros (_ & _ & O). unfold ep_events_available. rewrite O. simpl. by rewrite orb_false_r. Qed.

(** the last part, with no time left *)
Lemma check_events_done fuel ep maxevents cm w e :
  poll_ok rank w -> (forall k v, eps w !! k = Some v -> (rank k <= rank ep)%nat -> idle v) ->
  eps w !! ep = Some e -> 0 < maxevents ->
  exists r w', ep_poll_from sleep id put_ok (S fuel) ep maxevents check_events 0 cm true w = Ret r w' /\
    (r = - EFAULT \/ 0 <= r <= maxevents) /\ poll_ok rank w' /\ (rdllist e = [] -> r = 0 /\ w' = w).
Proof.
  intros Hw Hidle He Hm. simpl. mrun (get_ep_eq _ _ _ He). rewrite idle_available by by apply (Hidle ep).
  destruct (decide (rdllist e = [])) as [El|El].
  { rewrite bool_decide_eq_true_2 by done. simpl. exists 0, w. split_and!; try done. right. lia. }
  rewrite bool_decide_eq_false_2 by done. simpl. destruct (Hidle ep e He (le_n _)) as (M & T & O).
  destruct (scan_ok rank nest_fuel ep _ _ _ w e
    (send_sproc rank nest_fuel ep vfs_poll put_ok maxevents (f_op_poll_ok rank nest_fuel (rank ep)) Hm))
    as (v & w' & E & R & Hh & _ & X); [done| |apply room_fuel|done|done|].
  { intros k u Hu Hk. apply (Hidle k u Hu). lia. }
  rewrite M in E. fold (ep_send_events vfs_poll put_ok ep maxevents) in E. mrun E.
  rewrite andb_false_r. exists v, w'. split_and!; [done| |by eapply poll_ok_run|done]. tauto.
Qed.

(** epoll_wait() with a zero timeout never sleeps, whatever [sleep] would
    do: called on the descriptor of an eventpoll nobody scans, by a task of its
    group, it returns at most [maxevents] events or -EFAULT, and 0, without
    any effect, when the ready list is empty. *)
Theorem epoll_wait_nonblocking (fuel file ep : nat) (epfd maxevents : Z) (fl : Cmgroup.file)
    (w : world) (e : eventpoll) :
  0 < maxevents <= EP_MAX_EVENTS -> fdt (kern w) !! epfd = Some file -> files (kern w) !! file = Some fl ->
  is_file_epoll fl = true -> private_data fl = Some ep -> eps w !! ep = Some e -> caller_joined w ep ->
  poll_ok rank w -> (forall k v, eps w !! k = Some v -> (rank k <= rank ep)%nat -> idle v) ->
  exists r w', sys_epoll_wait sleep id put_ok (S fuel) true epfd maxevents 0 w = Ret r w' /\
    (r = - EFAULT \/ 0 <= r <= maxevents) /\ poll_ok rank w' /\ (rdllist e = [] -> r = 0 /\ w' = w).
Proof.
  intros Hm Hfd Hf Hfl Hp He Hj Hw Hidle. unfold sys_epoll_wait.
  rewrite (proj2 (Z.leb_gt _ _)), (proj2 (Z.ltb_ge _ _)) by lia. simpl.
  unfold mbind at 1, M_bind at 1, get. rewrite Hfd. unfold mbind at 1, M_bind at 1, get_file, deref. rewrite Hf, Hfl.
  cbn [negb]. unfold mbind at 1, M_bind at 1, file_ep. rewrite Hp. unfold mret at 1, M_ret at 1, ep_poll. rewrite Z.eqb_refl.
  mrun (ep_group_eq w ep).
  assert (match ep_cmgroup (kern w) !! ep with Some _ => join (ep_cmgroup (kern w) !! ep) | None => mret tt end w =
    Ret tt w) as Ej.
  { destruct (ep_cmgroup (kern w) !! ep) as [g|] eqn:Eg; [|done]. rewrite <- Eg. apply join_done; [done|congruence]. }
  mrun Ej. apply (check_events_done fuel ep maxevents _ w e); try done. lia.
Qed.

(** C13: epoll_wait() that may block does not sleep when there are events to
    report and the group has room: with a caller of the group and no arrivals
    meanwhile it returns exactly the events of the reference [deliver]. *)
Theorem epoll_wait_takes_ready (fuel ep : nat) (maxevents timeout : Z) (w : world) (e : eventpoll) :
  poll_ok rank w -> (forall k v, eps w !! k = Some v -> (rank k <= rank ep)%nat -> idle v) ->
  eps w !! ep = Some e -> 0 < maxevents -> (forall n, put_ok n = true) ->
  script w = [] -> Forall (on_device w) (rdllist e) -> caller_joined w ep -> has_room w ep -> timeout <> 0 ->
  let r := deliver (devs w) (Z.to_nat maxevents) (rdllist e) (epis w) in
  dv_events r <> [] ->
  exists w', ep_poll sleep id put_ok (4 + fuel) ep maxevents timeout w = Ret (Z.of_nat (length (dv_events r))) w' /\
    ubuf w' = dv_events r /\ epis w' = dv_items r.
Proof.
  intros Hw Hidle He Hm Hput Hs Hd Hj Hr Ht r Hne.
  destruct (send_events_exact rank put_ok ep maxevents w e Hw Hidle He Hm Hput Hs Hd)
    as (w' & e' & l & E & Hu & Hi & _). fold r in E, Hu, Hi.
  assert (rdllist e <> []) as Hl.
  { intros El. apply Hne. unfold r. rewrite El. by destruct (Z.to_nat maxevents). }
  exists w'. split_and!; [|by destruct (dv_events r)|done].
  unfold ep_poll. rewrite (proj2 (Z.eqb_neq _ _)) by done. cbn [ep_poll_from Nat.add].
  mrun (ep_group_eq w ep).
  mrun (join_maybe w ep None eq_refl Hj). mrun (over_limit_no w ep Hr). mrun (get_ep_eq _ _ _ He).
  rewrite idle_available by by apply (Hidle ep). rewrite bool_decide_eq_false_2 by done. cbn [negb].
  mrun (get_ep_eq _ _ _ He). rewrite idle_available by by apply (Hidle ep).
  rewrite bool_decide_eq_false_2 by done. simpl. mrun E.
  by destruct (dv_events r).
Qed.
End Waiting.

Section Limit.
Context `{WL : WaitLib} `{PL : PmLib}.

(** C12: when the group of the eventpoll is over its limit, epoll_wait() that
    may block, called by a task of the group without a pending signal, goes to
    sleep before it looks at any event: at that moment it is queued first and
    exclusively on the eventpoll, its state is TASK_INTERRUPTIBLE, the group's
    tasklet is told to start over, and no list, item or buffer was touched. *)
Theorem epoll_wait_over_limit (id : nat) (put_ok : nat -> bool) (fuel ep g : nat) (maxevents timeout : Z) (w : world)
    (q : wait_queue_head_t) (c : cmgroup) (x : task_struct) :
  ep_wq (kern w) !! ep = Some q -> ep_cmgroup (kern w) !! ep = Some g -> get_cm g (kern w) = Ret c (kern w) ->
  available c < 0 -> tasks (kern w) !! current w = Some x -> task_cmgroup x = Some g -> sigpending x = false ->
  timeout <> 0 ->
  exists w', ep_poll block id put_ok (2 + fuel) ep maxevents timeout w = Blocked w' /\
    eps w' = eps w /\ epis w' = epis w /\ ubuf w' = ubuf w /\
    ep_wq (kern w') !! ep = Some (__add_wait_queue_exclusive q (init_waitqueue_entry id (current w))) /\
    tasks (kern w') !! current w = Some (set_tstate TASK_INTERRUPTIBLE x) /\
    cmgroups (kern w') !! g = Some (set_action CMGROUP_ACTION_RESET_WAKEONE c).
Proof.
  intros Hq Hg Hc Ha Hx Hxg Hs Ht. unfold ep_poll. rewrite (proj2 (Z.eqb_neq _ _)) by done. cbn [ep_poll_from Nat.add].
  mrun (ep_group_eq w ep). rewrite Hg.
  assert (caller_joined w ep) as Hj by (exists x; rewrite Hg; auto).
  pose proof (join_maybe w ep None eq_refl Hj) as Ej. rewrite Hg in Ej. mrun Ej.
  assert (over_limit (Some g) w = Ret true w) as Eo.
  { unfold over_limit, mbind at 1, M_bind at 1, liftK, cmgroup_available. unfold mbind at 1, M_bind at 1. rewrite Hc.
    unfold mret, M_ret. rewrite (proj2 (Z.ltb_lt _ _)) by done. by destruct w. }
  mrun Eo. unfold ep_cmgroup_wait_available. unfold mbind at 1, M_bind at 1. mrun (enqueue_wait_eq id w ep q Hq).
  set (w1 := set_kern _ w). assert (get_cm g (kern w1) = Ret c (kern w1)) as Hc1 by by eapply get_cm_same.
  cbn [wait_available_loop]. unfold mbind at 1, M_bind at 1. mrun (ep_group_eq w1 ep). change (ep_cmgroup (kern w1)) with (ep_cmgroup (kern w)). rewrite Hg.
  mrun (available_eq w1 g c Hc1). rewrite (proj2 (Z.leb_gt _ _)) by done.
  mrun (set_state_eq TASK_INTERRUPTIBLE w1 x Hx). set (w2 := set_kern _ w1).
  assert (tasks (kern w2) !! current w2 = Some (set_tstate TASK_INTERRUPTIBLE x)) as Hx2 by apply lookup_insert_eq.
  mrun (signal_pending_eq w2 _ Hx2). cbn [sigpending set_tstate]. rewrite Hs.
  assert (get_cm g (kern w2) = Ret c (kern w2)) as Hc2 by by eapply get_cm_same.
  mrun (request_action_eq w2 g c CMGROUP_ACTION_RESET_WAKEONE Hc2). eexists. split; [done|].
  split_and!; try done; apply lookup_insert_eq.
Qed.
End Limit.

(** ** Witnesses *)

Lemma demo_joined s l : caller_joined (demo_world s l) 10.
Proof. eexists. split; [reflexivity|by left]. Qed.

(** with an empty ready list nothing happens *)
Lemma epoll_wait_nonblocking_witness :
  exists r w', sys_epoll_wait (H := wait_lib) (H0 := pm_none) block 8 (fun _ => true) 1 true 5 2 0
    (demo_world [] []) = Ret r w' /\ r = 0 /\ w' = demo_world [] [].
Proof.
  destruct (epoll_wait_nonblocking (WL := wait_lib) (PL := pm_none) demo_rank block 8 (fun _ => true) 0 1 10 5 2
    (File eventpoll_fops (Some 10%nat)) (demo_world [] []) (demo_ep 40 [] 1)) as (r & w' & E & _ & _ & H).
  - split; [lia|]. vm_compute. discriminate.
  - reflexivity.
  - reflexivity.
  - reflexivity.
  - reflexivity.
  - reflexivity.
  - apply demo_joined.
  - apply demo_poll_ok; [apply demo_quiet|apply NoDup_nil_2|set_solver].
  - apply demo_idle.
  - exists r, w'. destruct (H eq_refl) as [H1 H2]. split; [exact E|]. split; [exact H1|exact H2].
Defined.

(** one event, and no sleep *)
Lemma epoll_wait_takes_ready_witness :
  exists w', ep_poll (H := wait_lib) (H0 := pm_none) block 8 (fun _ => true) 4 10 2 (-1)
    (demo_world [] [20%nat]) = Ret 1 w' /\ ubuf w' = [(1, 5)].
Proof.
  destruct (epoll_wait_takes_ready (WL := wait_lib) (PL := pm_none) demo_rank block 8 (fun _ => true) 0 10 2 (-1)
    (demo_world [] [20%nat]) (demo_ep 40 [20%nat] 1)) as (w' & E & U & _).
  - apply demo_poll_ok; [apply demo_quiet|apply NoDup_singleton|set_solver].
  - apply demo_idle.
  - reflexivity.
  - lia.
  - reflexivity.
  - reflexivity.
  - apply Forall_singleton. eexists _, _, _. split_and!; reflexivity.
  - apply demo_joined.
  - intros g Hg. discriminate Hg.
  - lia.
  - discriminate.
  - exists w'. split; [exact E|exact U].
Defined.

(** a group with one opening and two running tasks *)
Definition full_group : cmgroup := set_available (-1) (set_kref 3 (new_group 1)).
Definition full_task : task_struct := TaskStruct TASK_RUNNING true true 0 (Some 100%nat) true false.

Definition full_world : world (H := pm_none) :=
  set_kern (Kernel {[ 100%nat := full_group ]} (<[ 1%nat := full_task ]> {[ 2%nat := full_task ]}) (files demo_kernel)
    ∅ {[ 10%nat := 100%nat ]} (ep_wq demo_kernel) ∅ [] false (sirqs demo_kernel) 0) (demo_world [] [20%nat]).

Lemma epoll_wait_over_limit_witness :
  exists w', ep_poll (H := wait_lib) (H0 := pm_none) block 8 (fun _ => true) 2 10 2 (-1) full_world = Blocked w' /\
    ubuf w' = [] /\ tasks (kern w') !! 1%nat = Some (set_tstate TASK_INTERRUPTIBLE full_task).
Proof.
  destruct (epoll_wait_over_limit (WL := wait_lib) (PL := pm_none) 8 (fun _ => true) 0 10 100 2 (-1) full_world
    [] full_group full_task) as (w' & E & _ & _ & U & _ & Ht & _).
  - reflexivity.
  - reflexivity.
  - reflexivity.
  - vm_compute. reflexivity.
  - reflexivity.
  - reflexivity.
  - reflexivity.
  - lia.
  - exists w'. split; [exact E|]. split; [exact U|exact Ht].
Defined.
