(* ===== verification/EpHook.v ===== *)
(** * Hooking an item on the queues of a device (fs/eventpoll.c), proofs

    ep_ptable_queue_proc() called by the poll method of a device, and
    ep_unregister_pollwait(), which undoes it. *)

From S2P Require Import Prelude Wait Tasklet Cmgroup Sched CmWake CmInv CmTask CmOps.
From S2P Require Import EpTree EpState EpNest EpReady EpCtl EpWake EpLevel EpScan.
Local Open Scope Z_scope.

Section Hook.
Context `{PL : PmLib}.

(** what hooking leaves alone *)
Definition frame (w : world) : world :=
  set_epis ∅ (set_pwqs ∅ (set_wheads ∅ (set_addr 0 (set_allocs [] w)))).

Lemma frame_fields w w' :
  frame w' = frame w ->
  kern w' = kern w /\ eps w' = eps w /\ devs w' = devs w /\ script w' = script w /\
  f_ep_links w' = f_ep_links w /\ watches w' = watches w /\ current w' = current w /\
  poll_safewake_ncalls w' = poll_safewake_ncalls w /\ poll_readywalk_ncalls w' = poll_readywalk_ncalls w /\
  ubuf w' = ubuf w.
Proof. destruct w, w'. unfold frame; simpl. intros [=]. by subst. Qed.

(** addresses that will be handed out are not in use *)
Definition fresh (w : world) : Prop :=
  (forall i x, epis w !! i = Some x -> (i < addr w)%nat) /\
  (forall p q, pwqs w !! p = Some q -> (p < addr w)%nat /\ (base q < addr w)%nat).

(** item [i] got the new hooks [ps] *)
Record hookup (i : nat) (ps : list nat) (w w' : world) : Prop := Hookup {
  hk_frame : frame w' = frame w;
  hk_item : exists x n, epis w !! i = Some x /\
              epis w' = <[i := set_nwait n (set_pwqlist (pwqlist x ++ ps) x)]> (epis w);
  hk_addr : (addr w <= addr w')%nat;
  hk_nodup : NoDup ps;
  hk_new : forall p, p ∈ ps -> (addr w <= p < addr w')%nat /\
             exists h, pwqs w' !! p = Some (EppollEntry i (Some h));
  hk_other : forall p, p ∉ ps -> pwqs w' !! p = pwqs w !! p;
  hk_heads : forall h, match wheads w !! h, wheads w' !! h with
               | Some l, Some l' => exists n, l' = n ++ l /\
                   forall p, p ∈ n -> p ∈ ps /\ pwqs w' !! p = Some (EppollEntry i (Some h))
               | None, None => True
               | _, _ => False
               end
}.

Lemma hookup_fresh i ps w w' : hookup i ps w w' -> fresh w -> fresh w'.
Proof.
  intros [Hf (x & n & Hx & He) Ha Hnd Hn Ho Hh] [F1 F2]. split.
  - intros j y. rewrite He, lookup_insert. case_decide; [subst; intros _|]; [apply F1 in Hx; lia|].
    intros Hy%F1. lia.
  - intros p q Hq. destruct (decide (p ∈ ps)) as [Hp|Hp].
    + destruct (Hn p Hp) as [? [h Hq']]. rewrite Hq' in Hq. injection Hq as <-. simpl. apply F1 in Hx. lia.
    + rewrite Ho in Hq by done. apply F2 in Hq. lia.
Qed.

Lemma hookup_trans i ps ps' w1 w2 w3 :
  fresh w1 -> hookup i ps w1 w2 -> hookup i ps' w2 w3 -> hookup i (ps ++ ps') w1 w3.
Proof.
  intros Fr H12 H23. pose proof (hookup_fresh _ _ _ _ H12 Fr) as Fr2.
  destruct H12 as [Hf (x & n & Hx & He) Ha Hnd Hn Ho Hh].
  destruct H23 as [Hf' (x' & n' & Hx' & He') Ha' Hnd' Hn' Ho' Hh'].
  assert (forall p, p ∈ ps -> p ∉ ps') as Hdis.
  { intros p Hp Hp'. destruct (Hn p Hp) as [? _], (Hn' p Hp') as [? _]. lia. }
  split; [congruence| |lia| | | |].
  - rewrite He, lookup_insert_eq in Hx'. injection Hx' as <-. exists x, n'. split; [done|].
    rewrite He', He, insert_insert_eq. simpl. by rewrite <- app_assoc.
  - apply NoDup_app. auto.
  - intros p [Hp|Hp]%elem_of_app.
    + destruct (Hn p Hp) as [? [h Hq]]. split; [lia|]. exists h. by rewrite Ho' by auto.
    + destruct (Hn' p Hp) as [? Hq]. split; [lia|done].
  - intros p [Hp Hp']%not_elem_of_app. by rewrite Ho', Ho.
  - intros h. specialize (Hh h). specialize (Hh' h).
    destruct (wheads w1 !! h) as [l1|], (wheads w2 !! h) as [l2|], (wheads w3 !! h) as [l3|]; try done.
    destruct Hh as (m & -> & Hm), Hh' as (m' & -> & Hm'). exists (m' ++ m). split; [by rewrite app_assoc|].
    intros p [Hp|Hp]%elem_of_app.
    + destruct (Hm' p Hp). set_solver.
    + destruct (Hm p Hp) as [Hp1 Hq]. split; [set_solver|]. by rewrite Ho' by auto.
Qed.

End Hook.

Section HookOk.
Context `{PL : PmLib}.
Variable rank : nat -> nat.

(** a world with the same eventpolls, files and devices, and items that are
    where they were *)
Lemma poll_ok_hookup i ps w w' : fresh w -> poll_ok rank w -> hookup i ps w w' -> poll_ok rank w'.
Proof.
  intros [_ F2] [[Hk Hwq Hpw Hi Hho Hdv] H2 H3 H4 H5 H6] [Hf (x & n & Hx & He) Ha Hnd Hn Ho Hh].
  destruct (frame_fields _ _ Hf) as (Ek & Ee & Ed & Es & _ & _ & _ & Esw & _).
  assert (forall h, is_Some (wheads w !! h) -> is_Some (wheads w' !! h)) as Hdom.
  { intros h [l Hl]. specialize (Hh h). rewrite Hl in Hh. by destruct (wheads w' !! h). }
  assert (forall j y, epis w' !! j = Some y -> exists y0, epis w !! j = Some y0 /\ epi_ep y0 = epi_ep y /\ ffd y0 = ffd y) as Hep.
  { intros j y. rewrite He, lookup_insert. case_decide; [subst; intros [= <-]; by exists x|eauto]. }
  assert (forall j, is_Some (epis w !! j) -> is_Some (epis w' !! j)) as Hep'.
  { intros j [y Hy]. rewrite He, lookup_insert. by case_decide. }
  split; [split| | | | |]; rewrite ?Ek, ?Ee, ?Ed; try done.
  - intros ep e Hee. apply Hdom. by eapply Hpw.
  - intros j y Hy. destruct (Hep j y Hy) as (y0 & Hy0 & <- & _). by eapply Hi.
  - intros h l' p Hl' Hp. specialize (Hh h). rewrite Hl' in Hh. destruct (wheads w !! h) as [l|] eqn:El; [|done].
    destruct Hh as (m & -> & Hm). apply elem_of_app in Hp as [Hp|Hp].
    + destruct (Hm p Hp) as [_ Hq]. exists (EppollEntry i (Some h)). split_and!; [done|done|]. apply Hep'. simpl. by rewrite Hx.
    + destruct (Hho h l p El Hp) as (q & Hq & Hwh & Hb). exists q. split_and!; [|done|by apply Hep'].
      rewrite Ho; [done|]. intros Hps. apply F2 in Hq. destruct (Hn p Hps) as [? _]. lia.
  - intros f d h Hd Hin. apply Hdom. by eapply Hdv.
  - intros j y Hy. destruct (Hep j y Hy) as (y0 & Hy0 & <- & <-). unfold file_ok. rewrite Ek, Ee, Ed. by apply (H2 j).
  - intros ep e Hee. apply (ep_wf_iff (belongs (epis w) ep)); [|by apply H4]. intros j. split.
    + intros (y & Hy & <-). destruct (decide (j = i)) as [->|Hne].
      * assert (y = x) as -> by congruence. eexists. rewrite He, lookup_insert_eq. by split.
      * exists y. by rewrite He, lookup_insert_ne.
    + intros (y & Hy & <-). destruct (Hep j y Hy) as (y0 & Hy0 & ? & _). by exists y0.
  - unfold honest_world in *. by rewrite Ed, Es.
  - unfold awake in *. by rewrite Ek, Esw.
Qed.

(** the promise of the other items *)
Lemma hookup_lvl i ps w w' j c P :
  fresh w -> poll_ok rank w -> hookup i ps w w' -> j <> i -> lvl c w j P -> lvl c w' j P.
Proof.
  intros [_ F2] Hw [Hf (x & n & Hx & He) Ha Hnd Hn Ho Hh] Hne Hl y d (Hy & Hd & Hhk) Hm.
  destruct (frame_fields _ _ Hf) as (Ek & Ee & Ed & _). rewrite Ed in Hd. rewrite He, lookup_insert_ne in Hy by done.
  destruct (Hl y d) as [(y' & e & Hy' & Hee & Hli)|]; [|done| |by right].
  - split_and!; [done|done|]. intros h Hin. destruct (Hhk h Hin) as (l' & p & q & Hl' & Hp & Hq & Hb).
    specialize (Hh h). rewrite Hl' in Hh. destruct (wheads w !! h) as [l|] eqn:El; [|done].
    destruct Hh as (m & -> & Hm'). apply elem_of_app in Hp as [Hp|Hp].
    + destruct (Hm' p Hp) as [_ Hq']. rewrite Hq' in Hq. injection Hq as <-. done.
    + exists l, p, q. split_and!; [done|done| |done].
      destruct (ho_hook _ (po_hooks _ _ Hw) h l p El Hp) as (q' & Hq' & _).
      rewrite Ho in Hq; [done|]. intros Hps. apply F2 in Hq'. destruct (Hn p Hps) as [? _]. lia.
  - left. exists y', e. rewrite He, lookup_insert_ne, Ee by done. done.
Qed.
End HookOk.

Section Hooking.
Context `{PL : PmLib}.

(** item [i] has a hook on queue [h] *)
Definition hooked (i : nat) (w : world) (h : nat) : Prop :=
  exists l p q, wheads w !! h = Some l /\ p ∈ l /\ pwqs w !! p = Some q /\ base q = i.

Lemma hookup_hooked i ps w w' h : fresh w -> hookup i ps w w' -> hooked i w h -> hooked i w' h.
Proof.
  intros [_ F2] [_ _ _ _ Hn Ho Hh] (l & p & q & Hl & Hp & Hq & Hb). specialize (Hh h). rewrite Hl in Hh.
  destruct (wheads w' !! h) as [l'|] eqn:El; [|done]. destruct Hh as (m & -> & _).
  exists (m ++ l), p, q. split_and!; [done|set_solver| |done].
  rewrite Ho; [done|]. intros Hps. apply F2 in Hq. destruct (Hn p Hps) as [? _]. lia.
Qed.

Definition allocs_ok (w : world) : Prop := Forall (fun b => b = true) (allocs w).

(** the outcome of hooking [i], whose [nwait] was [n], on the queues [hs] *)
Record hooking (i : nat) (n : Z) (hs : list nat) (w w' : world) : Prop := Hooking {
  hg_done : forall x', epis w' !! i = Some x' -> 0 <= nwait x' -> 0 <= n /\ Forall (hooked i w') hs;
  hg_all : allocs_ok w -> 0 <= n -> n + Z.of_nat (length hs) < 2 ^ 31 ->
             allocs_ok w' /\ forall x', epis w' !! i = Some x' -> nwait x' = n + Z.of_nat (length hs)
}.

(** no hook: the item is marked *)
Lemma mark_item i w w0 x :
  epis w0 !! i = Some x -> frame w0 = frame w -> epis w0 = epis w -> pwqs w0 = pwqs w -> wheads w0 = wheads w ->
  addr w0 = addr w ->
  exists w', upd_epi i (set_nwait (-1)) w0 = Ret tt w' /\ hookup i [] w w' /\
    epis w' !! i = Some (set_nwait (-1) x).
Proof.
  intros Hx Hf He Hp Hh Ha. eexists. rewrite (upd_epi_eq w0 i x _ Hx). split; [done|]. split; [split; simpl|].
  - rewrite <- Hf. by destruct w0.
  - exists x, (-1). rewrite <- He. split; [done|]. rewrite app_nil_r. by destruct x.
  - rewrite Ha. lia.
  - constructor.
  - intros p Hp0. by apply elem_of_nil in Hp0.
  - intros p _. by rewrite Hp.
  - intros h. rewrite Hh. destruct (wheads w !! h) as [l|]; [|done]. exists []. split; [done|].
    intros p Hp0. by apply elem_of_nil in Hp0.
  - simpl. apply lookup_insert_eq.
Qed.

Lemma queue_proc_ok i h l w x :
  fresh w -> epis w !! i = Some x -> wheads w !! h = Some l ->
  exists ps w', ep_ptable_queue_proc i h w = Ret tt w' /\ hookup i ps w w' /\ hooking i (nwait x) [h] w w'.
Proof.
  intros Fr Hx Hl. unfold ep_ptable_queue_proc. mrun (get_epi_eq _ _ _ Hx).
  destruct (0 <=? nwait x) eqn:En; zbool.
  2: { unfold mbind at 1, M_bind at 1, mret at 1, M_ret at 1.
       destruct (mark_item i w w x) as (w' & E & H & Hx'); try done. exists [], w'. split_and!; [done|done|]. split.
       - intros x'. rewrite Hx'. intros [= <-]; simpl. lia.
       - intros _ ?. lia. }
  unfold mbind at 1, M_bind at 1, kmem_alloc. unfold mbind at 1, M_bind at 1, get. unfold mbind at 1, M_bind at 1, modify.
  destruct (match allocs w with [] => true | b :: _ => b end) eqn:Ea.
  2: { unfold mret at 1, M_ret at 1. set (w0 := set_allocs (tail (allocs w)) w).
       destruct (mark_item i w w0 x) as (w' & E & H & Hx'); try done. exists [], w'. split_and!; [done|done|]. split.
       - intros x'. rewrite Hx'. intros [= <-]; simpl. lia.
       - intros Hok. unfold allocs_ok in Hok. destruct (allocs w) as [|b bs]; [done|]. apply Forall_cons in Hok as [-> _]. done. }
  set (p := addr w). unfold mbind at 1, M_bind at 1. unfold mret at 1, M_ret at 1. unfold mbind at 1, M_bind at 1.
  unfold mbind at 1, M_bind at 1, deref. simpl wheads. rewrite Hl. unfold mbind at 1, M_bind at 1.
  set (w1 := set_wheads _ _). assert (epis w1 !! i = Some x) as Hx1 by done.
  rewrite (upd_epi_eq w1 i x _ Hx1). exists [p]. eexists. split; [done|].
  assert (pwqs w1 !! p = Some (EppollEntry i (Some h))) as Hp1 by apply lookup_insert_eq.
  split; [split; simpl|split].
  - by destruct w.
  - exists x, (s32 (nwait x + 1)). done.
  - lia.
  - apply NoDup_singleton.
  - intros p' ->%list_elem_of_singleton. split; [unfold p; lia|]. by exists h.
  - intros p' Hp'. rewrite lookup_insert_ne; [done|]. intros <-. apply Hp'. set_solver.
  - intros h'. rewrite lookup_insert. case_decide as Eh.
    + subst h'. rewrite Hl. exists [p]. split; [done|].
      intros p' ->%list_elem_of_singleton. split; [set_solver|exact Hp1].
    + destruct (wheads w !! h') as [l'|]; [|done]. exists []. split; [done|]. intros p' Hp'. by apply elem_of_nil in Hp'.
  - intros x' _ _. split; [done|]. apply Forall_singleton. exists (p :: l), p, (EppollEntry i (Some h)).
    split_and!; [simpl; apply lookup_insert_eq|set_solver|done|done].
  - intros Hok _ Hb. split.
    + unfold allocs_ok in *; simpl. by destruct Hok.
    + intros x'. simpl. rewrite lookup_insert_eq. intros [= <-]; simpl in *. rewrite s32_id by lia. lia.
Qed.

Lemma hook_loop i hs : forall w x,
  fresh w -> epis w !! i = Some x -> (forall h, h ∈ hs -> is_Some (wheads w !! h)) ->
  exists ps w', mfor (fun wh => poll_wait_on wh (Some i)) hs w = Ret tt w' /\ hookup i ps w w' /\
    hooking i (nwait x) hs w w'.
Proof.
  induction hs as [|h hs IH]; intros w x Fr Hx Hh; cbn [mfor].
  { exists [], w. split_and!; [done| |].
    - split; try done; [|constructor|by intros p ?%elem_of_nil|].
      + exists x, (nwait x). split; [done|]. rewrite app_nil_r. rewrite insert_id; [done|]. rewrite Hx. by destruct x.
      + intros h. destruct (wheads w !! h); [|done]. exists []. split; [done|]. by intros p ?%elem_of_nil.
    - split; [intros x' Hx' ?; simplify_eq; by split; [|constructor]|]. intros Hok _ _. split; [done|].
      intros x' Hx'. simplify_eq. simpl. lia. }
  destruct (Hh h) as [l Hl]; [set_solver|].
  destruct (queue_proc_ok i h l w x Fr Hx Hl) as (ps & w1 & E1 & K1 & [G1 A1]).
  destruct (hk_item _ _ _ _ K1) as (x0 & n & Hx0 & He1). assert (x0 = x) as -> by congruence.
  set (x1 := set_nwait n (set_pwqlist (pwqlist x ++ ps) x)) in *.
  assert (epis w1 !! i = Some x1) as Hx1 by (rewrite He1; apply lookup_insert_eq).
  pose proof (hookup_fresh _ _ _ _ K1 Fr) as Fr1.
  destruct (IH w1 x1 Fr1 Hx1) as (ps' & w2 & E2 & K2 & [G2 A2]).
  { intros h' Hh'. destruct (Hh h') as [l' Hl']; [set_solver|]. pose proof (hk_heads _ _ _ _ K1 h') as H.
    rewrite Hl' in H. by destruct (wheads w1 !! h'). }
  change (poll_wait_on h (Some i) w = Ret tt w1) in E1.
  exists (ps ++ ps'), w2. split_and!; [by mrun E1|by eapply hookup_trans|]. split.
  - intros x' Hx' Hnw. destruct (G2 x' Hx' Hnw) as [Hn1 Hf]. destruct (G1 x1 Hx1 Hn1) as [Hn Hf1].
    split; [done|]. constructor; [|done]. apply (hookup_hooked i ps' w1); [done|done|]. by inversion Hf1.
  - intros Hok Hn Hb. simpl length in *. destruct (A1 Hok Hn) as [Hok1 Hn1]; [simpl; lia|].
    pose proof (Hn1 x1 Hx1) as Hnw. cbn [length] in Hnw. destruct (A2 Hok1) as [Hok2 Hn2]; [lia|lia|]. split; [done|].
    intros x' Hx'. rewrite (Hn2 x' Hx'). lia.
Qed.

(** ** Unhooking *)

(** the world with other hooks *)
Definition with_hooks (m : gmap nat epitem) (q : gmap nat eppoll_entry) (h : gmap nat (list nat)) (w : world) : world :=
  set_epis m (set_pwqs q (set_wheads h w)).

Lemma unregister_loop i l : forall w x,
  epis w !! i = Some x -> NoDup l ->
  (forall p, p ∈ l -> exists h, pwqs w !! p = Some (EppollEntry i (Some h))) ->
  (forall h l0 p q, wheads w !! h = Some l0 -> p ∈ l0 -> pwqs w !! p = Some q -> whead q = Some h) ->
  exists m q hs, unregister_hooks i l w = Ret tt (with_hooks m q hs w) /\
    (exists pl, m = <[i := set_pwqlist pl x]> (epis w)) /\
    (forall p, q !! p = if decide (p ∈ l) then None else pwqs w !! p) /\
    (forall h, hs !! h = filter (fun p => p ∉ l) <$> wheads w !! h).
Proof.
  induction l as [|p l IH]; intros w x Hx Hnd Hp Hown; cbn [unregister_hooks].
  { exists (epis w), (pwqs w), (wheads w). split_and!; [by destruct w| | |].
    - exists (pwqlist x). rewrite insert_id; [done|]. rewrite Hx. by destruct x.
    - intros p. by rewrite decide_False by set_solver.
    - intros h. destruct (wheads w !! h) as [l0|]; [|done]. simpl. f_equal.
      symmetry. apply list_filter_all. set_solver. }
  apply NoDup_cons in Hnd as [Hni Hnd]. destruct (Hp p) as [h Hq]; [set_solver|].
  mrun (upd_epi_eq w i x (fun x => set_pwqlist (without p (pwqlist x)) x) Hx). set (x1 := set_pwqlist _ x).
  set (w1 := set_epis _ w). unfold mbind at 1, M_bind at 1, ep_remove_wait_queue. unfold mbind at 1, M_bind at 1, deref.
  change (pwqs w1) with (pwqs w). rewrite Hq. simpl whead. 
  set (w2 := set_pwqs (delete p (pwqs w)) (set_wheads (alter (without p) h (wheads w)) w1)).
  assert (forall h' l0, wheads w2 !! h' = Some l0 -> exists l1, wheads w !! h' = Some l1 /\
    l0 = (if decide (h' = h) then without p l1 else l1)) as Hh2.
  { intros h' l0. unfold w2, w1; simpl. rewrite lookup_alter. destruct (decide (h = h')) as [<-|Hne].
    - intros (l1 & Hl1 & ->)%fmap_Some. exists l1. by rewrite decide_True.
    - intros Hl0. exists l0. by rewrite decide_False. }
  destruct (IH w2 x1) as (m & q & hs & E & (pl & Hm) & Hq2 & Hf).
  { apply lookup_insert_eq. }
  { done. }
  { intros p' Hp'. destruct (Hp p') as [h' Hq']; [set_solver|]. exists h'. unfold w2; simpl.
    rewrite lookup_delete_ne; [done|]. intros ->. done. }
  { intros h' l0 p' q Hl0 Hp' Hq'. destruct (Hh2 h' l0 Hl0) as (l1 & Hl1 & ->).
    unfold w2 in Hq'; simpl in Hq'. apply lookup_delete_Some in Hq' as [_ Hq'].
    apply (Hown h' l1 p' q); [done| |done]. destruct (decide (h' = h)); [|done]. by apply elem_without in Hp' as [_ ?]. }
  exists m, q, hs. split_and!; [exact E| | |].
  - exists pl. rewrite Hm. unfold w2, w1; simpl. by rewrite insert_insert_eq.
  - intros p'. rewrite Hq2. unfold w2; simpl. destruct (decide (p' ∈ l)) as [H|H].
    + by rewrite decide_True by set_solver.
    + destruct (decide (p' = p)) as [->|Hne].
      * rewrite decide_True by set_solver. apply lookup_delete_eq.
      * rewrite decide_False by set_solver. by rewrite lookup_delete_ne.
  - intros h'. rewrite Hf. unfold w2, w1; simpl. rewrite lookup_alter.
    destruct (decide (h = h')) as [<-|Hne].
    all: destruct (wheads w !! _) as [l1|] eqn:E1; [simpl; f_equal|done].
    + unfold without. rewrite list_filter_filter. apply list_filter_iff. intros j. rewrite elem_of_cons. tauto.
    + apply list_filter_ext_in. intros j Hj. rewrite not_elem_of_cons. split; [|tauto]. intros Hjl. split; [|done].
      intros ->. pose proof (Hown h' l1 p _ E1 Hj Hq) as Hw. simpl in Hw. congruence.
Qed.
End Hooking.
