(* ===== verification/EpInsert.v ===== *)
(** * Adding and removing watches (fs/eventpoll.c), proofs

    ep_insert() establishes the promise of delivery for the new item, or
    leaves no trace of it; ep_remove() leaves nothing behind that points to
    the item. *)

From S2P Require Import Prelude Wait Tasklet Cmgroup Sched CmWake CmInv CmTask CmOps.
From S2P Require Import EpTree EpState EpNest EpReady EpCtl EpWake EpLevel EpScan EpProps EpHook.
Local Open Scope Z_scope.

Section Insert.
Context `{WL : WaitLib} `{PL : PmLib}.
Variable rank : nat -> nat.

(** ** A new item *)

Definition add_item (i : nat) (x : epitem) (w : world) : world := set_epis (<[i := x]> (epis w)) w.

Lemma ep_wf_mono (B B' : nat -> Prop) e : (forall i, B i -> B' i) -> ep_wf B e -> ep_wf B' e.
Proof. intros H [H1 H2 H3]. split; auto. Qed.

Lemma add_item_ok w i x :
  poll_ok rank w -> (forall x0, epis w !! i = Some x0 -> epi_ep x0 = epi_ep x) -> is_Some (eps w !! epi_ep x) ->
  file_ok rank w (rank (epi_ep x)) (ffd_file (ffd x)) -> poll_ok rank (add_item i x w).
Proof.
  intros [[Hk Hwq Hpw Hi Hho Hdv] H2 H3 H4 H5 H6] Hn He Hf.
  assert (forall j, is_Some (epis w !! j) -> is_Some (<[i := x]> (epis w) !! j)) as Hdom.
  { intros j Hj. rewrite lookup_insert. by case_decide. }
  split; [split| | | | |]; try done; simpl.
  - intros j y. rewrite lookup_insert. case_decide; [intros [= <-]; done|apply Hi].
  - intros h l p Hl Hp. destruct (Hho h l p Hl Hp) as (q & ? & ? & ?). exists q. auto.
  - intros j y. rewrite lookup_insert. case_decide; [intros [= <-]; done|apply H2].
  - intros ep e Hee. eapply ep_wf_mono; [|by apply H4]. intros j (y & Hy & Hyp).
    destruct (decide (j = i)) as [->|Hne]; [exists x; rewrite lookup_insert_eq, <- (Hn y Hy); done|].
    exists y. by rewrite lookup_insert_ne.
Qed.

Lemma add_item_lvl w i x c j P : j <> i -> lvl c w j P -> lvl c (add_item i x w) j P.
Proof.
  intros Hne Hl y d (Hy & Hd & Hh) Hm. unfold add_item in *; simpl in *. rewrite lookup_insert_ne in Hy by done.
  destruct (Hl y d) as [(y' & e & Hy' & He & Hli)|]; [done|done| |by right].
  left. exists y', e. simpl. by rewrite lookup_insert_ne.
Qed.

(** ** The first poll *)

(** everything but the lists of the eventpolls, the devices and the kernel *)
Definition pinned (w w' : world) : Prop :=
  epis w' = epis w /\ pwqs w' = pwqs w /\ wheads w' = wheads w /\ f_ep_links w' = f_ep_links w /\
  watches w' = watches w /\ addr w' = addr w /\ allocs w' = allocs w.

Lemma pinned_irq w w' : irq_le w w' -> pinned w w'.
Proof.
  intros (ds & s & [? ? ? ? ? ? ? (?&?&?&?&?) ? (?&?&?&?&?)] & _). by split_and!.
Qed.
Lemma pinned_trans w1 w2 w3 : pinned w1 w2 -> pinned w2 w3 -> pinned w1 w3.
Proof. intros (?&?&?&?&?&?&?) (?&?&?&?&?&?&?). split_and!; congruence. Qed.

(** an event that arrives from the moment of the hooking on is caught, one
    that was there before is seen by the poll *)
Lemma hook_poll w i x fl d :
  poll_ok rank w -> fresh w -> epis w !! i = Some x -> files (kern w) !! ffd_file (ffd x) = Some fl ->
  is_file_epoll fl = false -> devs w !! ffd_file (ffd x) = Some d ->
  exists m ps w1 w', vfs_poll (ffd_file (ffd x)) (Some i) w = Ret m w' /\ hookup i ps w w1 /\
    hooking i (nwait x) (d_wheads d) w w1 /\ run_le (fun _ => False) w1 w' /\ pinned w1 w' /\
    poll_ok rank w' /\ (forall j P, j <> i -> lvl false w j P -> lvl false w' j P) /\
    lvl true w' i (meets m (events x) = true).
Proof.
  intros Hw Fr Hx Hf Hfl Hd.
  destruct (hook_loop i (d_wheads d) w x Fr Hx) as (ps & w1 & E1 & K1 & G1).
  { intros h Hh. by eapply (ho_dev _ (po_hooks _ _ Hw)). }
  pose proof (poll_ok_hookup rank _ _ _ _ Fr Hw K1) as Hw1.
  destruct (frame_fields _ _ (hk_frame _ _ _ _ K1)) as (Ek & _ & Ed & _).
  destruct (irq_keeps rank w1 Hw1) as (w2 & E2 & Hi2 & Hh2 & Hl2).
  pose proof (run_irq (fun _ => False) _ _ Hi2) as R2.
  assert (poll_ok rank w2) as Hw2 by by eapply poll_ok_run.
  destruct (proj1 (dev_run _ _ _ (ffd_file (ffd x)) R2)) as [d2 Hd2]; [by rewrite Ed, Hd|].
  destruct (irq_keeps rank w2 Hw2) as (w3 & E3 & Hi3 & Hh3 & Hl3).
  pose proof (run_irq (fun _ => False) _ _ Hi3) as R3.
  exists (d_mask d2), ps, w1, w3. split_and!; try done.
  - unfold vfs_poll, nest_fuel. cbn [f_op_poll]. unfold mbind at 1, M_bind at 1, get_file, deref. rewrite Hf, Hfl.
    unfold mbind at 1, M_bind at 1. rewrite Hd. mrun E1. mrun E2. unfold mbind at 1, M_bind at 1. rewrite Hd2. by mrun E3.
  - by eapply run_le_trans.
  - eapply pinned_trans; by apply pinned_irq.
  - by eapply poll_ok_run.
  - intros j P Hne Hl. apply Hl3, Hl2. by apply (hookup_lvl rank i ps w).
  - apply Hl3. intros y d' (Hy & Hd' & _) Hm. right.
    destruct (hk_item _ _ _ _ K1) as (x0 & n & Hx0 & He1). rewrite (irq_epis _ _ Hi2), He1, lookup_insert_eq in Hy.
    injection Hy as <-. simpl in *. simplify_eq. done.
Qed.

(** ** Forgetting an item *)

(** the world without item [i], whose eventpoll is now [e'] *)
Record forgets (i ep : nat) (e' : eventpoll) (w w' : world) : Prop := Forgets {
  fg_kern : kern w' = kern w;
  fg_eps : eps w' = <[ep := e']> (eps w);
  fg_epis : epis w' = delete i (epis w);
  fg_hooks : forall h, match wheads w !! h, wheads w' !! h with
               | Some l, Some l' => forall p, p ∈ l' -> p ∈ l /\ pwqs w' !! p = pwqs w !! p /\
                   forall q, pwqs w !! p = Some q -> base q <> i
               | None, None => True
               | _, _ => False
               end;
  fg_devs : devs w' = devs w;
  fg_script : script w' = script w;
  fg_nests : poll_safewake_ncalls w' = poll_safewake_ncalls w
}.

(** [e'] is [e] without the item *)
Definition unlisted (i : nat) (e e' : eventpoll) : Prop :=
  exists r, e' = set_rbr r (rdl_del i e).

Lemma unlisted_wf B i e e' :
  unlisted i e e' -> quiet e -> ep_wf B e -> ep_wf (fun j => B j /\ j <> i) e'.
Proof.
  intros [r ->] [Ht Ho] Hw. pose proof (rdl_del_wf rank B i e Hw) as [H1 H2 H3]. split; simpl in *; [|done|done].
  intros j Hj. split; [auto|]. rewrite Ho, !elem_without in Hj. simpl in Hj.
  destruct Hj as [[? _]|[[? _]|Hj]]; [done|done|by apply elem_of_nil in Hj].
Qed.

Lemma forget_ok i ep e e' x w w' :
  poll_ok rank w -> epis w !! i = Some x -> epi_ep x = ep -> eps w !! ep = Some e -> quiet e ->
  unlisted i e e' -> forgets i ep e' w w' -> poll_ok rank w'.
Proof.
  intros [[Hk Hwq Hpw Hi Hho Hdv] H2 H3 H4 H5 H6] Hx Hep He Hq Hu [Ek Ee Ei Eh Ed Es En].
  assert (forall h, is_Some (wheads w !! h) -> is_Some (wheads w' !! h)) as Hdom.
  { intros h [l Hl]. specialize (Eh h). rewrite Hl in Eh. by destruct (wheads w' !! h). }
  assert (forall k, is_Some (eps w !! k) -> is_Some (eps w' !! k)) as Hdom'.
  { intros k Hk'. rewrite Ee, lookup_insert. by case_decide. }
  assert (poll_wait e' = poll_wait e) as Hpe by by destruct Hu as [r ->].
  split; [split| | | | |]; rewrite ?Ek, ?Ed; try done.
  - intros k v. rewrite Ee, lookup_insert. case_decide; [intros [= <-]; subst; by eapply Hwq|apply Hwq].
  - intros k v. rewrite Ee, lookup_insert.
    case_decide; [intros [= <-]; subst; rewrite Hpe|intros Hv]; apply Hdom; by eapply Hpw.
  - intros j y. rewrite Ei. intros [_ Hy]%lookup_delete_Some. apply Hdom'. by eapply Hi.
  - intros h l' p Hl' Hp. specialize (Eh h). rewrite Hl' in Eh. destruct (wheads w !! h) as [l|] eqn:El; [|done].
    destruct (Eh p Hp) as (Hpl & Hpq & Hb). destruct (Hho h l p El Hpl) as (q & Hq' & Hwh & Hbs).
    exists q. rewrite Hpq, Ei, lookup_delete_ne; [done|]. symmetry. by apply Hb.
  - intros f d h Hd Hin. apply Hdom. by eapply Hdv.
  - intros j y. rewrite Ei. intros [_ Hy]%lookup_delete_Some. destruct (H2 j y Hy) as (fl & Hf & Ht).
    exists fl. rewrite Ek, Ed. split; [done|]. destruct (is_file_epoll fl); [|done].
    destruct Ht as (k & ? & ? & ?). exists k. auto.
  - intros k v. rewrite Ee, Ei, lookup_insert. case_decide as Ekk.
    + intros [= <-]. subst k. eapply ep_wf_mono; [|eapply unlisted_wf; [exact Hu|done|by apply H4]].
      intros j [(y & Hy & Hye) Hne]. exists y. rewrite lookup_delete_ne; [done|congruence].
    + intros Hv. eapply ep_wf_mono; [|by apply H4]. intros j (y & Hy & Hye). exists y.
      rewrite lookup_delete_ne; [done|]. intros <-. congruence.
  - unfold honest_world in *. by rewrite Ed, Es.
  - unfold awake in *. by rewrite Ek, En.
Qed.

Lemma forget_lvl i ep e e' x w w' j P :
  poll_ok rank w -> epis w !! i = Some x -> epi_ep x = ep -> eps w !! ep = Some e -> unlisted i e e' ->
  forgets i ep e' w w' -> j <> i -> lvl false w j P -> lvl false w' j P.
Proof.
  intros Hw Hx Hep He Hu [Ek Ee Ei Eh Ed Es En] Hne Hl y d (Hy & Hd & Hhk) Hm.
  rewrite Ei in Hy. apply lookup_delete_Some in Hy as [_ Hy]. rewrite Ed in Hd.
  destruct (Hl y d) as [(y' & e1 & Hy' & He1 & Hli)|]; [|done| |by right].
  - split_and!; [done|done|]. intros h Hin. destruct (Hhk h Hin) as (l' & p & q & Hl' & Hp & Hq & Hb).
    specialize (Eh h). rewrite Hl' in Eh. destruct (wheads w !! h) as [l|] eqn:El; [|done].
    destruct (Eh p Hp) as (Hpl & Hpq & _). exists l, p, q. rewrite <- Hpq. done.
  - assert (y' = y) as -> by congruence. subst ep. left. exists y. destruct (decide (epi_ep x = epi_ep y)) as [Eq|Hn].
    + exists e'. rewrite Ei, lookup_delete_ne, Ee by done. rewrite Eq, lookup_insert_eq. split_and!; [done|done|].
      rewrite Eq in He. assert (e1 = e) as -> by congruence. destruct Hu as [r ->].
      change (ready_in j (rdl_del i e) = true). by apply rdl_del_ready.
    + exists e1. rewrite Ei, lookup_delete_ne, Ee, lookup_insert_ne by done. done.
Qed.

(** the hooks of an item are those on its list *)
Record item_hooks (w : world) (i : nat) (x : epitem) : Prop := ItemHooks {
  ih_nodup : NoDup (pwqlist x);
  ih_hook : forall p, p ∈ pwqlist x -> exists h, pwqs w !! p = Some (EppollEntry i (Some h));
  ih_all : forall p q, pwqs w !! p = Some q -> base q = i -> p ∈ pwqlist x
}.

(** the outcome of ep_unregister_pollwait() *)
Lemma unregister_ok w i x :
  poll_ok rank w -> epis w !! i = Some x -> item_hooks w i x ->
  exists pl q hs, ep_unregister_pollwait i w = Ret tt (with_hooks (<[i := set_pwqlist pl x]> (epis w)) q hs w) /\
    (forall p, q !! p = if decide (p ∈ pwqlist x) then None else pwqs w !! p) /\
    (forall h, hs !! h = filter (fun p => p ∉ pwqlist x) <$> wheads w !! h).
Proof.
  intros Hw Hx [Hn Hh Ha]. unfold ep_unregister_pollwait. mrun (get_epi_eq _ _ _ Hx).
  destruct (unregister_loop i (pwqlist x) w x Hx Hn Hh) as (m & q & hs & E & [pl ->] & Hq & Hhs).
  { intros h l p q Hl Hp Hq. destruct (ho_hook _ (po_hooks _ _ Hw) h l p Hl Hp) as (q' & Hq' & Hwh & _). congruence. }
  eauto 10.
Qed.

(** afterwards no queue has a hook of the item *)
Lemma unhooked_heads w i x (q : gmap nat eppoll_entry) (hs : gmap nat (list nat)) h :
  poll_ok rank w -> item_hooks w i x ->
  (forall p, q !! p = if decide (p ∈ pwqlist x) then None else pwqs w !! p) ->
  (forall h, hs !! h = filter (fun p => p ∉ pwqlist x) <$> wheads w !! h) ->
  match wheads w !! h, hs !! h with
  | Some l, Some l' => forall p, p ∈ l' -> p ∈ l /\ q !! p = pwqs w !! p /\
      forall e, pwqs w !! p = Some e -> base e <> i
  | None, None => True
  | _, _ => False
  end.
Proof.
  intros Hw [_ _ Ha] Hq Hhs. rewrite Hhs. destruct (wheads w !! h) as [l|]; simpl; [|done].
  intros p [Hp Hl]%list_elem_of_filter. split_and!; [done|by rewrite Hq, decide_False|].
  intros e He Hb. by apply Hp, (Ha p e).
Qed.

(** the error path of ep_insert(): whatever callbacks did with the item in
    the meantime is undone *)
Lemma error_unregister_ok ep i x e err w :
  poll_ok rank w -> epis w !! i = Some x -> epi_ep x = ep -> eps w !! ep = Some e -> quiet e -> item_hooks w i x ->
  exists w' e', error_unregister ep i err w = Ret err w' /\ poll_ok rank w' /\
    (forall j P, j <> i -> lvl false w j P -> lvl false w' j P) /\
    epis w' = delete i (epis w) /\
    (forall p, pwqs w' !! p = if decide (p ∈ pwqlist x) then None else pwqs w !! p) /\
    (forall h, wheads w' !! h = filter (fun p => p ∉ pwqlist x) <$> wheads w !! h) /\
    f_ep_links w' = f_ep_links w /\ watches w' = watches w /\ addr w' = addr w /\
    eps w' !! ep = Some e' /\ unlisted i e e' /\ rbr e' = rbr e.
Proof.
  intros Hw Hx Hep He Hq Hih. destruct (unregister_ok w i x Hw Hx Hih) as (pl & q & hs & E1 & Hpq & Hhs).
  unfold error_unregister. mrun E1. set (w1 := with_hooks _ q hs w).
  assert (eps w1 !! ep = Some e) as He1 by done. mrun (get_ep_eq _ _ _ He1).
  assert (exists e', (if ep_is_linked i e then upd_ep ep (rdl_del i) else mret tt) w1 = Ret tt (put_ep ep e' w1) /\
    e' = rdl_del i e) as (e' & E2 & He').
  { exists (rdl_del i e). split; [|done]. destruct (ep_is_linked i e) eqn:El; [by rewrite (upd_ep_eq _ _ _ _ He1)|].
    unfold ep_is_linked in El. apply orb_false_iff in El as [L1%bool_decide_eq_false L2%bool_decide_eq_false].
    unfold rdl_del. rewrite !without_notin by done. unfold put_ep.
    replace (set_rdllist _ _) with e by by destruct e. rewrite insert_id by done. by destruct w. }
  mrun E2. set (w2 := put_ep ep e' w1). assert (epis w2 !! i = Some (set_pwqlist pl x)) as Hx2 by apply lookup_insert_eq.
  mrun (get_epi_eq _ _ _ Hx2). unfold mbind at 1, M_bind at 1, on_pm, modify at 1. unfold mbind at 1, M_bind at 1, modify.
  set (w3 := set_epis _ _).
  assert (epis w3 = delete i (epis w)) as E3 by (unfold w3, w2, w1; simpl; apply delete_insert_eq).
  assert (unlisted i e e') as Hu by (exists (rbr e); rewrite He'; by destruct e).
  assert (forgets i ep e' w w3) as Hfg.
  { split; try done. intros h. by apply (unhooked_heads w i x q hs h). }
  exists w3, e'. split_and!; try done.
  - by eapply (forget_ok i ep e e').
  - intros j P Hne Hl. by eapply (forget_lvl i ep e e').
  - apply lookup_insert_eq.
  - by rewrite He'.
Qed.

(** ** Queueing an item that is ready *)

Lemma cb_rdl_add w ep e i x :
  eps w !! ep = Some e -> epis w !! i = Some x -> epi_ep x = ep -> ovflist e = None ->
  ep_is_linked i e = false -> cb_le w (put_ep ep (rdl_add i e) w).
Proof.
  intros He Hx Hep Ho El. unfold ep_is_linked in El.
  apply orb_false_iff in El as [L1%bool_decide_eq_false L2%bool_decide_eq_false].
  apply (cb_set_ep w ep e); [done|].
  apply (grows_rdl _ _ _ [i]); [done|apply NoDup_singleton| |done].
  intros j ->%list_elem_of_singleton. split_and!; [by exists x|done|done].
Qed.

Lemma queue_ready_ok w ep e i x :
  poll_ok rank w -> eps w !! ep = Some e -> epis w !! i = Some x -> epi_ep x = ep -> ovflist e = None ->
  exists b w', queue_ready ep i w = Ret b w' /\ cb_le w w' /\ ready w' i.
Proof.
  intros Hw He Hx Hep Ho. unfold queue_ready. mrun (get_ep_eq _ _ _ He). destruct (ep_is_linked i e) eqn:El.
  { exists false, w. split_and!; [done|apply cb_le_refl|]. exists x, e. rewrite Hep. split_and!; [done|done|].
    unfold ready_in. by rewrite El. }
  mrun (upd_ep_eq w ep e (rdl_add i) He). fold (put_ep ep (rdl_add i e) w). set (w1 := put_ep _ _ w).
  pose proof (cb_rdl_add w ep e i x He Hx Hep Ho El) as C1. fold w1 in C1.
  destruct (stay_awake_cb w1 i x Hx) as (w2 & E2 & C2). mrun E2.
  pose proof (cb_le_trans _ _ _ C1 C2) as C12.
  destruct (cb_ep _ _ ep e C12 He) as (e2 & He2 & _).
  destruct (wake_both_eq w2 ep) as (b & k & E3 & W3); [eapply hooks_cb; [apply Hw|done]|by rewrite He2|].
  exists b, (set_kern k w2). split_and!; [done|eapply cb_le_trans; [exact C12|by apply cb_set_kern]|].
  eapply listed_cb; [by apply cb_set_kern|]. eapply listed_cb; [exact C2|].
  exists x, (rdl_add i e). rewrite Hep. split_and!; [done|apply lookup_insert_eq|].
  unfold ready_in, ep_is_linked, rdl_add; simpl. rewrite bool_decide_eq_true_2 by set_solver. done.
Qed.

(** ** A hooked item becomes a member *)

(** the tail of insert_hooked(), with the poll's result [revents] *)
Definition enlist (ep i : nat) (ev revents : Z) : W Z :=
  pwake ← (if meets revents ev then queue_ready ep i else mret false);
  e ← get_ep ep;
  add_watches (ep_user e) 1 ;;
  safewake ep pwake ;;
  mret 0.

Lemma grows_same B e e' : ep_grows B e e' -> rbr e' = rbr e /\ ep_user e' = ep_user e /\ mtx e' = mtx e.
Proof. by intros [l _ _ _ ->|c l _ _ _ ->]. Qed.

Lemma poll_ok_cb w w' : poll_ok rank w -> cb_le w w' -> poll_ok rank w'.
Proof.
  intros Hw Hcb. eapply (poll_ok_run rank (fun _ => True)); [by apply run_cb| |done].
  destruct (cb_env _ _ Hcb) as (_ & Hsc & _). unfold honest_world. rewrite Hsc, (cb_devs _ _ Hcb). apply Hw.
Qed.

Lemma poll_ok_watches w u : poll_ok rank w -> poll_ok rank (set_watches u w).
Proof. by intros [[] ? ? ? ? ?]. Qed.
Lemma poll_ok_links w u : poll_ok rank w -> poll_ok rank (set_f_ep_links u w).
Proof. by intros [[] ? ? ? ? ?]. Qed.

Lemma enlist_ok w ep e i x revents :
  poll_ok rank w -> eps w !! ep = Some e -> epis w !! i = Some x -> epi_ep x = ep -> ovflist e = None ->
  lvl true w i (meets revents (events x) = true) ->
  exists w' e', enlist ep i (events x) revents w = Ret 0 w' /\ poll_ok rank w' /\
    lvl false w' i False /\ (forall j P, lvl false w j P -> lvl false w' j P) /\
    epis w' = epis w /\ pwqs w' = pwqs w /\ wheads w' = wheads w /\ f_ep_links w' = f_ep_links w /\
    eps w' !! ep = Some e' /\ rbr e' = rbr e /\
    watches w' = <[ep_user e := default 0 (watches w !! ep_user e) + 1]> (watches w).
Proof.
  intros Hw He Hx Hep Ho Hl.
  assert (exists b w1, (if meets revents (events x) then queue_ready ep i else mret false) w = Ret b w1 /\ cb_le w w1 /\
    lvl false w1 i False) as (b & w1 & E1 & C1 & L1).
  { destruct (meets revents (events x)) eqn:Em.
    - destruct (queue_ready_ok w ep e i x Hw He Hx Hep Ho) as (b & w1 & E & C & Hr). exists b, w1. split_and!; try done.
      intros y d _ _. by left.
    - exists false, w. split_and!; [done|apply cb_le_refl|]. apply lvl_caught. eapply lvl_weaken; [exact Hl|done]. }
  destruct (cb_ep _ _ ep e C1 He) as (e1 & He1 & G1). destruct (grows_same _ _ _ G1) as (Hr1 & Hu1 & _).
  unfold enlist. mrun E1. mrun (get_ep_eq _ _ _ He1). unfold mbind at 1, M_bind at 1, add_watches, modify.
  set (w2 := set_watches _ w1).
  assert (poll_ok rank w2) as Hw2 by (apply poll_ok_watches; by eapply poll_ok_cb).
  destruct (safewake_top w2 ep b) as (w3 & E3 & C3); [apply Hw2|by exists e1|apply Hw2|].
  destruct (cb_ep _ _ ep e1 C3 He1) as (e3 & He3 & G3). destruct (grows_same _ _ _ G3) as (Hr3 & _).
  destruct (cb_lists _ _ C1) as (_ & _ & _ & _ & W1). destruct (cb_lists _ _ C3) as (_ & _ & _ & _ & W3).
  exists w3, e3. mrun E3. split_and!; try done.
  - by eapply poll_ok_cb.
  - by apply (lvl_cb _ _ _ _ _ C3).
  - intros j P Hj. apply (lvl_cb _ _ _ _ _ C3). by apply (lvl_cb _ _ _ _ _ C1) in Hj.
  - rewrite (cb_epis _ _ C3). apply (cb_epis _ _ C1).
  - rewrite (cb_pwqs _ _ C3). apply (cb_pwqs _ _ C1).
  - rewrite (cb_wheads _ _ C3). apply (cb_wheads _ _ C1).
  - rewrite (cb_links _ _ C3). apply (cb_links _ _ C1).
  - congruence.
  - rewrite W3. simpl. by rewrite Hu1, W1.
Qed.

(** ** ep_insert *)

Context `{RB : RbLib}.

(** a new member: hooked on every queue of its device, in the tree and on the
    list of the file, charged to the user, and with its promise kept *)
Record member (w w' : world) (ep i : nat) (f : nat) (hs : list nat) (x : epitem) : Prop := Member {
  mb_item : epis w' !! i = Some x;
  mb_hooks : Forall (hooked i w') hs;
  mb_lvl : lvl false w' i False;
  mb_tree : exists e e', eps w !! ep = Some e /\ eps w' !! ep = Some e' /\
              (forall j, j ∈ inorder (rbr e') <-> j = i \/ j ∈ inorder (rbr e)) /\
              watches w' = <[ep_user e := default 0 (watches w !! ep_user e) + 1]> (watches w);
  mb_link : ep_links f w' = ep_links f w ++ [i]
}.

(** no trace of an item *)
Record untouched (w w' : world) (ep : nat) : Prop := Untouched {
  un_epis : epis w' = epis w;
  un_pwqs : pwqs w' = pwqs w;
  un_wheads : wheads w' = wheads w;
  un_links : f_ep_links w' = f_ep_links w;
  un_watches : watches w' = watches w;
  un_tree : forall e, eps w !! ep = Some e -> exists e', eps w' !! ep = Some e' /\ rbr e' = rbr e
}.

(** what hooking did is what unhooking undoes *)
Lemma rehook_same i ps w w1 v (q : gmap nat eppoll_entry) (hs : gmap nat (list nat)) :
  poll_ok rank w -> fresh w -> hookup i ps w w1 -> pwqs v = pwqs w1 -> wheads v = wheads w1 ->
  (forall p, q !! p = if decide (p ∈ ps) then None else pwqs v !! p) ->
  (forall h, hs !! h = filter (fun p => p ∉ ps) <$> wheads v !! h) -> q = pwqs w /\ hs = wheads w.
Proof.
  intros Hw [_ F2] [_ _ _ _ Hn Ho Hh] Ep Eh Hq Hhs. split; apply map_eq.
  - intros p. rewrite Hq, Ep. case_decide as Hp; [|by apply Ho].
    destruct (pwqs w !! p) as [q0|] eqn:E; [|done]. apply F2 in E. destruct (Hn p Hp) as [? _]. lia.
  - intros h. rewrite Hhs, Eh. specialize (Hh h). destruct (wheads w !! h) as [l|] eqn:El, (wheads w1 !! h) as [l'|]; try done.
    destruct Hh as (n & -> & Hin). simpl. f_equal. rewrite filter_app, list_filter_none, list_filter_all; [done| |].
    + intros p Hp Hps. destruct (ho_hook _ (po_hooks _ _ Hw) h l p El Hp) as (q0 & Hq0 & _).
      apply F2 in Hq0. destruct (Hn p Hps) as [? _]. lia.
    + intros p Hp Hnp. by apply Hnp, Hin.
Qed.

Lemma hooked_items i ps w w1 x n v :
  fresh w -> (forall p q, pwqs w !! p = Some q -> base q <> i) -> pwqlist x = [] -> hookup i ps w w1 ->
  pwqs v = pwqs w1 -> item_hooks v i (set_nwait n (set_pwqlist (pwqlist x ++ ps) x)).
Proof.
  intros Fr Hno Hx [_ _ _ Hnd Hn Ho _] Ep. rewrite Hx. split; simpl.
  - done.
  - intros p Hp. rewrite Ep. by apply Hn.
  - intros p q Hq Hb. destruct (decide (p ∈ ps)) as [Hp|Hp]; [done|].
    rewrite Ep, Ho in Hq by done. by destruct (Hno p q Hq).
Qed.

Lemma grows_quiet B e e' : ep_grows B e e' -> quiet e -> quiet e'.
Proof. intros [l O _ _ ->|c l O _ _ ->] [Ht Hq]; simpl in *; [by split|congruence]. Qed.

(** the world with the new item, and what is known of it *)
Record prepared (w : world) (ep i f : nat) (ev : Z) (e : eventpoll) (x : epitem) (fl : Cmgroup.file) (d : device) : Prop :=
  Prepared {
  pr_ok : poll_ok rank w;
  pr_fresh : fresh w;
  pr_ep : eps w !! ep = Some e;
  pr_quiet : quiet e;
  pr_item : epis w !! i = Some x;
  pr_of : epi_ep x = ep;
  pr_ev : events x = ev;
  pr_new : pwqlist x = [] /\ nwait x = 0;
  pr_nohooks : forall p q, pwqs w !! p = Some q -> base q <> i;
  pr_file : files (kern w) !! ffd_file (ffd x) = Some fl;
  pr_plain : is_file_epoll fl = false;
  pr_dev : devs w !! ffd_file (ffd x) = Some d;
  pr_f : ffd_file (ffd x) = f
}.

(** the part after a successful first poll *)
Lemma insert_tail v ep e i x f revents :
  poll_ok rank v -> eps v !! ep = Some e -> epis v !! i = Some x -> epi_ep x = ep -> ovflist e = None ->
  lvl true v i (meets revents (events x) = true) ->
  exists w' e', (add_ep_link f i ;; ep_rbtree_insert_in ep i ;;
      bad ← mret false;
      if (bad : bool) then
        del_ep_link f i ;; upd_ep ep (fun e => set_rbr (rb_erase i (rbr e)) e) ;; error_unregister ep i (- EINVAL)
      else enlist ep i (events x) revents) v = Ret 0 w' /\
    poll_ok rank w' /\ lvl false w' i False /\ (forall j P, lvl false v j P -> lvl false w' j P) /\
    epis w' = epis v /\ pwqs w' = pwqs v /\ wheads w' = wheads v /\ ep_links f w' = ep_links f v ++ [i] /\
    eps w' !! ep = Some e' /\ (forall j, j ∈ inorder (rbr e') <-> j = i \/ j ∈ inorder (rbr e)) /\
    watches w' = <[ep_user e := default 0 (watches v !! ep_user e) + 1]> (watches v).
Proof.
  intros Hv He Hx Hep Ho Hl. unfold mbind at 1, M_bind at 1, add_ep_link, modify. set (v1 := set_f_ep_links _ v).
  assert (poll_ok rank v1) as Hv1 by by apply poll_ok_links.
  unfold mbind at 1, M_bind at 1, ep_rbtree_insert_in. unfold mbind at 1, M_bind at 1, get.
  assert (eps v1 !! ep = Some e) as He1 by done. set (t := ep_rbtree_insert (ffd_of v1) i (rbr e)).
  assert (upd_ep ep (fun e => set_rbr (ep_rbtree_insert (ffd_of v1) i (rbr e)) e) v1 = Ret tt (put_ep ep (set_rbr t e) v1))
    as E2 by exact (upd_ep_eq v1 ep e _ He1).
  rewrite E2. set (v2 := put_ep ep (set_rbr t e) v1). unfold mbind at 1, M_bind at 1, mret at 1, M_ret at 1.
  assert (forall j P, lvl false v j P -> lvl false v2 j P) as L2.
  { intros j P Hj. apply (put_ep_lvl v1 ep e); [done|by intros _|exact Hj]. }
  assert (poll_ok rank v2) as Hv2.
  { apply (poll_ok_put rank v1 ep e); try done. destruct (po_wf _ _ Hv1 _ _ He1). by split. }
  assert (eps v2 !! ep = Some (set_rbr t e)) as He2 by apply lookup_insert_eq.
  assert (lvl true v2 i (meets revents (events x) = true)) as Hl2.
  { intros y d Hy Hm. destruct (Hl y d Hy Hm) as [(y' & e' & Hy' & He' & Hc)|]; [left|by right].
    assert (y' = x) as -> by congruence. rewrite Hep in He'. assert (e' = e) as -> by congruence.
    exists x, (set_rbr t e). rewrite Hep. split_and!; done. }
  destruct (enlist_ok v2 ep (set_rbr t e) i x revents Hv2 He2 Hx Hep Ho Hl2)
    as (w' & e' & E3 & Hw' & Li & Lj & X & Pq & Wh & Lk & He' & Hr & Hwt).
  exists w', e'. split_and!; try done.
  - intros j P Hj. by apply Lj, L2.
  - unfold ep_links at 1. rewrite Lk. simpl. by rewrite lookup_insert_eq.
  - intros j. rewrite Hr. simpl. unfold t. apply ep_rbtree_insert_elem.
Qed.

Lemma insert_hooked_ok w ep i f ev e x fl d :
  prepared w ep i f ev e x fl d ->
  exists r w', insert_hooked ep i ev f false w = Ret r w' /\ poll_ok rank w' /\
    (forall j P, j <> i -> lvl false w j P -> lvl false w' j P) /\
    ((r = 0 /\ exists x', member w w' ep i f (d_wheads d) x' /\ ffd x' = ffd x /\ epi_ep x' = ep /\
        events x' = ev /\ data x' = data x) \/
     (r = - ENOMEM /\ untouched (set_epis (delete i (epis w)) w) w' ep)) /\
    (allocs_ok w -> Z.of_nat (length (d_wheads d)) < 2 ^ 31 -> r = 0).
Proof.
  intros [Hw Fr He Hq Hx Hep Hev [Hpl Hnw] Hno Hf Hfl Hd <-].
  destruct (hook_poll w i x fl d Hw Fr Hx Hf Hfl Hd) as (m & ps & w1 & v & E & K & G & R & Pn & Hv & Lj & Li).
  destruct (hk_item _ _ _ _ K) as (x0 & n & Hx0 & Ei). assert (x0 = x) as -> by congruence.
  set (x1 := set_nwait n (set_pwqlist (pwqlist x ++ ps) x)) in *.
  destruct Pn as (Pe & Pp & Ph & Pl & Pw & Pa & _).
  destruct (frame_fields _ _ (hk_frame _ _ _ _ K)) as (_ & Fe & _ & _ & Fl & Fw & _).
  assert (epis v !! i = Some x1) as Hx1 by (rewrite Pe, Ei; apply lookup_insert_eq).
  destruct (map_le_fwd _ _ _ ep e (rl_eps _ _ _ R)) as (ev1 & He1 & S1); [by rewrite Fe|].
  destruct S1 as [S1|[[] _]]. pose proof (grows_quiet _ _ _ S1 Hq) as Hq1. destruct (grows_same _ _ _ S1) as (Hr1 & Hu1 & _).
  unfold insert_hooked. unfold mbind at 1, M_bind at 1, ep_item_poll. mrun (get_epi_eq _ _ _ Hx). mrun E.
  mrun (get_epi_eq v i x1 Hx1). unfold mret at 1, M_ret at 1. mrun (get_epi_eq v i x1 Hx1). subst ev.
  change (events x1) with (events x). change (nwait x1) with n.
  destruct (n <? 0) eqn:En; zbool.
  - destruct (error_unregister_ok ep i x1 ev1 (- ENOMEM) v Hv Hx1 Hep He1 Hq1) as
      (w' & e' & E' & Hw' & Lj' & Ee & Eq & Eh & El & Ew & _ & Hee & _ & Hrr).
    { by eapply hooked_items. }
    assert (pwqlist x1 = ps) as Eps by (unfold x1; simpl; by rewrite Hpl). rewrite Eps in Eq, Eh.
    destruct (rehook_same i ps w w1 v (pwqs w') (wheads w') Hw Fr K Pp Ph Eq Eh) as [Eq' Eh'].
    exists (- ENOMEM), w'. split_and!; try done; [intros j P Hne Hl; by apply Lj', Lj| |].
    + right. split; [done|]. split; simpl; try congruence.
      * rewrite Ee, Pe, Ei. by rewrite delete_insert_eq.
      * intros e0 He0. exists e'. split; [done|]. assert (e0 = e) as -> by congruence. congruence.
    + intros Hok Hlen. exfalso. destruct (hg_all _ _ _ _ _ G Hok) as [_ Hn]; [lia|lia|].
      rewrite <- Pe in Hn. specialize (Hn x1 Hx1). simpl in Hn. lia.
  - destruct (insert_tail v ep ev1 i x1 (ffd_file (ffd x)) (Z.land m (events x)) Hv He1 Hx1 Hep (proj2 Hq1))
      as (w' & e' & E' & Hw' & Li' & Lj' & Ee & Eq & Eh & El & Hee & Ht & Hwt).
    { eapply lvl_weaken; [exact Li|]. unfold meets. simpl. intros Hm. by rewrite <- Z.land_assoc, Z.land_diag. }
    exists 0, w'. split_and!; try done; [intros j P Hne Hl; by apply Lj', Lj|]. left. split; [done|].
    exists x1. split_and!; try done. split.
    + by rewrite Ee.
    + destruct (hg_done _ _ _ _ _ G x1) as [_ Hf1]; [by rewrite <- Pe|done|].
      eapply Forall_impl; [exact Hf1|]. intros h (l & p & q & Hl & Hp & Hpq & Hb). exists l, p, q.
      by rewrite Eh, Eq, Ph, Pp.
    + done.
    + exists e, e'. split_and!; try done; [intros j; by rewrite Ht, Hr1|]. by rewrite Hwt, Hu1, Pw, Fw.
    + rewrite El. unfold ep_links. by rewrite Pl, Fl.
Qed.

Lemma poll_ok_alloc w a l : poll_ok rank w -> poll_ok rank (set_addr a (set_allocs l w)).
Proof. by intros [[] ? ? ? ? ?]. Qed.
Lemma poll_ok_allocs w l : poll_ok rank w -> poll_ok rank (set_allocs l w).
Proof. by intros [[] ? ? ? ? ?]. Qed.

Lemma fresh_alloc w l x :
  fresh w -> fresh (add_item (addr w) x (set_addr (S (addr w)) (set_allocs l w))).
Proof.
  intros [F1 F2]. split; simpl.
  - intros i y. rewrite lookup_insert. case_decide; [subst; lia|]. intros Hy%F1. lia.
  - intros p q Hq%F2. lia.
Qed.


(** ** ep_remove *)


(** ** ep_modify *)

(** EPOLL_CTL_MOD (ep_modify, with the eventpoll's mutex held) returns 0,
    the item has the new events and data, and the promise holds for the new
    events: when the watched device has one of them, before, during or after
    the call, the item is on the ready list; the promise of all other items is
    kept. *)
Theorem ep_modify_spec (ep i : nat) (ev dat : Z) (w : world) (e : eventpoll) (x : epitem) :
  poll_ok rank w -> (forall k v, eps w !! k = Some v -> (rank k < rank ep)%nat -> idle v) ->
  eps w !! ep = Some e -> ovflist e = None -> epis w !! i = Some x -> epi_ep x = ep -> epi_ws x = None ->
  meets ev EPOLLWAKEUP = false ->
  exists w', ep_modify ep i ev dat w = Ret 0 w' /\ poll_ok rank w' /\
    epis w' = <[i := set_data dat (set_events ev x)]> (epis w) /\
    lvl false w' i False /\ (forall j, j <> i -> lvl false w j False -> lvl false w' j False).
Proof.
  intros Hw Hidle He Ho Hx Hep Hws Hwk. unfold ep_modify. set (x1 := set_data dat (set_events ev x)).
  assert (upd_epi i (fun x => set_data dat (set_events ev x)) w = Ret tt (add_item i x1 w)) as E1
    by exact (upd_epi_eq w i x _ Hx).
  mrun E1. set (w1 := add_item i x1 w). assert (epis w1 !! i = Some x1) as Hx1 by apply lookup_insert_eq.
  mrun (get_epi_eq _ _ _ Hx1). rewrite Hwk. change (epi_ws x1) with (epi_ws x). rewrite Hws.
  rewrite bool_decide_eq_false_2 by auto. unfold mbind at 1, M_bind at 1, mret at 1, M_ret at 1.
  assert (poll_ok rank w1) as Hw1.
  { apply add_item_ok; [done|intros x0 Hx0; by simplify_eq|exists e; by rewrite <- He, <- Hep|].
    apply (po_files _ _ Hw _ _ Hx). }
  destruct (item_poll_ok rank (rank ep) nest_fuel vfs_poll w1 i x1) as (m & w2 & E2 & R2 & Hh2 & I2 & K2 & L2 & M2);
    [apply f_op_poll_ok|done|done| |done|by rewrite <- Hep|].
  { unfold rw_room, nest_fuel. lia. }
  mrun E2. assert (poll_ok rank w2) as Hw2 by by eapply poll_ok_run.
  destruct (map_le_fwd _ _ _ ep e (rl_eps _ _ _ R2) He) as (e2 & He2 & [G2|[? _]]); [|lia].
  assert (ovflist e2 = None) as Ho2 by (destruct G2 as [l O _ _ ->|c l O _ _ ->]; [done|congruence]).
  assert (epis w2 !! i = Some x1) as Hx2 by by rewrite (shown_epis _ _ I2).
  change (events x1) with ev in M2.
  assert (exists b w3, (if meets m ev then queue_ready ep i else mret false) w2 = Ret b w3 /\ cb_le w2 w3 /\
    lvl false w3 i False) as (b & w3 & E3 & C3 & L3).
  { unfold meets. rewrite M2. destruct (m =? 0) eqn:Em; simpl; zbool.
    - exists false, w2. split_and!; [done|apply cb_le_refl|]. apply lvl_caught. eapply lvl_weaken; [exact L2|done].
    - destruct (queue_ready_ok w2 ep e2 i x1 Hw2 He2 Hx2 Hep Ho2) as (b & w3 & E & C & Hr). exists b, w3.
      split_and!; try done. intros y d _ _. by left. }
  mrun E3. pose proof (poll_ok_cb _ _ Hw2 C3) as Hw3. destruct (cb_ep _ _ ep e2 C3 He2) as (e3 & He3 & _).
  destruct (safewake_top w3 ep b) as (w4 & E4 & C4); [apply Hw3|by exists e3|apply Hw3|].
  mrun E4. exists w4. split_and!; try done.
  - by eapply poll_ok_cb.
  - by rewrite (cb_epis _ _ C4), (cb_epis _ _ C3), (shown_epis _ _ I2).
  - by apply (lvl_cb _ _ _ _ _ C4).
  - intros j Hne Hl. apply (lvl_cb _ _ _ _ _ C4), (lvl_cb _ _ _ _ _ C3), K2; [done|]. by apply add_item_lvl.
Qed.
End Insert.

(** ** Witnesses: the small world of EpProps.v *)

Lemma demo_fresh s l : fresh (demo_world s l).
Proof.
  split; unfold demo_world; simpl.
  - intros i x H. each H; lia.
  - intros p q H. each H; simpl; lia.
Qed.



Lemma ep_modify_spec_witness :
  exists w', ep_modify (H := wait_lib) (H0 := pm_none) 10 20 4 6 (demo_world [] []) = Ret 0 w' /\ lvl false w' 20 False.
Proof.
  destruct (ep_modify_spec (WL := wait_lib) (PL := pm_none) demo_rank 10 20 4 6 (demo_world [] [])
    (demo_ep 40 [] 1) (Epitem (Filefd 3 7) 1 [30%nat] 10 None 5 5)) as (w' & E & _ & _ & L & _).
  - apply demo_poll_ok; [apply demo_quiet|apply NoDup_nil_2|set_solver].
  - intros k v H Hk. apply (demo_idle _ _ _ _ H). lia.
  - reflexivity.
  - reflexivity.
  - reflexivity.
  - reflexivity.
  - reflexivity.
  - reflexivity.
  - exists w'. split; [exact E|exact L].
Defined.
