(* ===== verification/AioInv.v ===== *)
(** * References of AIO contexts and requests: the invariant (fs/aio.c)

    What holds of the contexts and requests of a process between any two
    operations of AioCtx.v: the two reference counts of a context are exact,
    nothing points to a freed context or request, a context whose last
    request is gone is scheduled for free_ioctx() once, and [aio_nr] is the
    sum over the live contexts.  The part of the ring that user space can
    write is left unconstrained. *)

From S2P Require Import Prelude Wait Tasklet Cmgroup Sched CmWake CmInv CmTask CmOps CmSys.
From S2P Require Import AioRing AioQueue AioCtx.
Local Open Scope Z_scope.

(** ** Sums over a map *)

Section Total.
Context {V : Type} (w : V -> Z).

Definition total (m : gmap nat V) : Z := map_fold (fun _ v acc => w v + acc) 0 m.

Lemma total_new m k v : m !! k = None -> total (<[k := v]> m) = w v + total m.
Proof. intros Hk. unfold total. rewrite map_fold_insert_L; [done|intros; lia|done]. Qed.

Lemma total_lookup m k v : m !! k = Some v -> total m = w v + total (delete k m).
Proof.
  intros Hk. rewrite <- (insert_delete_id m k v Hk) at 1. apply total_new, lookup_delete_eq.
Qed.

Lemma total_insert m k v v' : m !! k = Some v -> total (<[k := v']> m) = total m - w v + w v'.
Proof.
  intros Hk. rewrite (total_lookup m k v Hk), (total_lookup (<[k := v']> m) k v') by apply lookup_insert_eq.
  rewrite delete_insert_eq. lia.
Qed.

Lemma total_nonneg m : (forall k v, m !! k = Some v -> 0 <= w v) -> 0 <= total m.
Proof.
  induction m as [|k v m Hk Hf IH] using map_first_key_ind; intros Hw; [done|].
  rewrite total_new by done. pose proof (Hw k v ltac:(apply lookup_insert_eq)).
  enough (0 <= total m) by lia. apply IH. intros k' v' Hk'. apply (Hw k' v').
  rewrite lookup_insert_ne; [done|]. intros ->. congruence.
Qed.

Lemma total_le m k v : (forall k v, m !! k = Some v -> 0 <= w v) -> m !! k = Some v -> 0 <= w v <= total m.
Proof.
  intros Hw Hk. pose proof (Hw k v Hk). rewrite (total_lookup m k v Hk).
  enough (0 <= total (delete k m)) by lia. apply total_nonneg. intros k' v' [_ H']%lookup_delete_Some. eauto.
Qed.
End Total.

(** ** What is counted *)

#[export] Instance ki_ctx_eq_dec : EqDecision ki_ctx_t.
Proof. solve_decision. Defined.

Definition of_ctx (ctx : nat) (x : kiocb) : bool := bool_decide (ki_ctx x = Ctx ctx).
Definition uses_file (f : nat) (x : kiocb) : bool := bool_decide (ki_filp x = Some f).
Definition uses_eventfd (e : nat) (x : kiocb) : bool := bool_decide (ki_eventfd x = Some e).

(** the requests of a context *)
Definition nreqs (s : aio) (ctx : nat) : Z := count (of_ctx ctx) (kiocbs s).

(** its share of [aio_nr] *)
Definition share (c : kioctx) : Z := if dead c then 0 else max_reqs c.

(** [n] more at [ctx] *)
Definition plus (ctx : nat) (n : Z) (f : nat -> Z) (x : nat) : Z := if decide (x = ctx) then f x + n else f x.

Lemma plus_eq ctx n f : plus ctx n f ctx = f ctx + n.
Proof. unfold plus. by case_decide. Qed.
Lemma plus_ne ctx x n f : x <> ctx -> plus ctx n f x = f x.
Proof. intros. unfold plus. by case_decide. Qed.

(** ** The invariant *)

Section Ring.
(** the number of possible CPUs *)
Variable ncpus : nat.

(** the kernel's own part of the ring *)
Record ring_safe (c : kioctx) : Prop := RingSafe {
  rs_geometry : geometry_ok c;
  rs_tail : 0 <= tail_idx c < nr_events c;
  rs_batch : 1 <= req_batch c < 2 ^ 30;
  rs_cpus : length (pcpu c) = ncpus;
  rs_pcpu : Forall (fun n => 0 <= n < 2 ^ 32) (pcpu c);
  rs_lock : ring_lock c = false
}.

Lemma ring_safe_ext c c' :
  nr_events c' = nr_events c -> ring_pages c' = ring_pages c -> tail_idx c' = tail_idx c ->
  req_batch c' = req_batch c -> pcpu c' = pcpu c -> ring_lock c' = ring_lock c -> ring_safe c -> ring_safe c'.
Proof.
  intros E1 E2 E3 E4 E5 E6 [[? ? ?] ? ? ? ? ?].
  split; [split|..]; rewrite ?E1, ?E2, ?E3, ?E4, ?E5, ?E6; done.
Qed.

End Ring.

(** a field of a context changed: what the others guarantee stays *)
Ltac ctx_field := intros []; split; try done; try (eapply ring_safe_ext; [..|eassumption]; done).

Section Inv.
Variable ncpus : nat.

(** A context, of whose [users] references [h] are held by system calls
    under way (one more belongs to the table while it is not dead), and of
    whose [reqs] references [q] are not held by requests. *)
Record ctx_inv (s : aio) (h q : Z) (ctx : nat) (c : kioctx) : Prop := CtxInv {
  ci_users : users c = h + (if dead c then 0 else 1);
  ci_held : 0 <= h;
  ci_reqs : reqs c = nreqs s ctx + q;
  ci_due : 0 <= q;
  ci_work : ctx ∈ aio_works s <-> reqs c = 0;
  ci_table : dead c = false -> exists t, ioctx_table s = Some t /\ 0 <= ctx_id c /\
               t !! Z.to_nat (ctx_id c) = Some (Some ctx);
  ci_nodup : NoDup (active_reqs c);
  ci_active : forall r, r ∈ active_reqs c ->
                exists x, kiocbs s !! r = Some x /\ ki_ctx x = Ctx ctx /\ ki_linked x = true;
  ci_waiters : forall t, t ∈ waiters c -> is_Some (tasks (akern s) !! t);
  ci_max : 0 <= max_reqs c < 2 ^ 32;
  ci_ring : ring_safe ncpus c
}.

(** The whole: [ai_files] says that every request has its own reference to
    its file, so that the file is not freed before it. *)
Record aio_inv (h q : nat -> Z) (s : aio) : Prop := AioInv {
  ai_sys : sys_ok (akern s);
  ai_ctx : forall ctx c, ctxs s !! ctx = Some c -> ctx_inv s (h ctx) (q ctx) ctx c;
  ai_gone : forall ctx, ctxs s !! ctx = None -> h ctx = 0;
  ai_req : forall r x ctx, kiocbs s !! r = Some x -> ki_ctx x = Ctx ctx -> is_Some (ctxs s !! ctx);
  ai_files : forall f, match iofiles s !! f with
               | Some y => count (uses_file f) (kiocbs s) <= f_count y
               | None => count (uses_file f) (kiocbs s) = 0
               end;
  ai_eventfds : forall e, match eventfds s !! e with
               | Some y => count (uses_eventfd e) (kiocbs s) <= snd y
               | None => count (uses_eventfd e) (kiocbs s) = 0
               end;
  ai_table : forall t i ctx, ioctx_table s = Some t -> t !! i = Some (Some ctx) ->
               exists c, ctxs s !! ctx = Some c /\ dead c = false /\ ctx_id c = Z.of_nat i;
  ai_nr : aio_nr s = total share (ctxs s) /\ aio_nr s < 2 ^ 64;
  ai_works : NoDup (aio_works s) /\ forall ctx, ctx ∈ aio_works s -> is_Some (ctxs s !! ctx);
  ai_groups : forall a g, aio_cmgroup (akern s) !! a = Some g -> is_Some (ctxs s !! a);
  ai_fresh : forall n, (aaddr s <= n)%nat -> ctxs s !! n = None /\ kiocbs s !! n = None;
  ai_cpu : (this_cpu (akern s) < ncpus)%nat;
  ai_current : is_Some (tasks (akern s) !! acurrent s);
  ai_slots : ioctx_table s <> Some []
}.

(** between operations: a context that has users holds two references to
    itself, one that has none holds none *)
Definition due (s : aio) (ctx : nat) : Z :=
  match ctxs s !! ctx with Some c => if users c =? 0 then 0 else 2 | None => 0 end.
Definition aio_ok (h : nat -> Z) (s : aio) : Prop := aio_inv h (due s) s.

Lemma aio_inv_ext h h' q q' s :
  (forall ctx, h ctx = h' ctx) -> (forall ctx c, ctxs s !! ctx = Some c -> q ctx = q' ctx) ->
  aio_inv h q s -> aio_inv h' q' s.
Proof.
  intros Eh Eq [I1 I2 I3 I4 I5 I6 I7 I8 I9 I10 I11 I12 I13 I14]. split; try done.
  - intros ctx c Hc. rewrite <- Eh, <- (Eq _ _ Hc). by apply I2.
  - intros ctx Hc. rewrite <- Eh. by apply I3.
Qed.

(** what a context's invariant reads of the rest of the state *)
Lemma ctx_inv_ext s s' h q ctx c :
  nreqs s' ctx = nreqs s ctx -> (ctx ∈ aio_works s' <-> ctx ∈ aio_works s) ->
  (dead c = false -> forall t, ioctx_table s = Some t -> t !! Z.to_nat (ctx_id c) = Some (Some ctx) ->
    exists t', ioctx_table s' = Some t' /\ t' !! Z.to_nat (ctx_id c) = Some (Some ctx)) ->
  (forall r x, r ∈ active_reqs c -> kiocbs s !! r = Some x -> ki_ctx x = Ctx ctx -> ki_linked x = true ->
    exists x', kiocbs s' !! r = Some x' /\ ki_ctx x' = Ctx ctx /\ ki_linked x' = true) ->
  (forall t, is_Some (tasks (akern s) !! t) -> is_Some (tasks (akern s') !! t)) ->
  ctx_inv s h q ctx c -> ctx_inv s' h q ctx c.
Proof.
  intros En Ew Et Er Ek [I1 I2 I3 I4 I5 I6 I7 I8 I9 I10 I11]. split; try done.
  - by rewrite En.
  - by rewrite Ew.
  - intros Hd. destruct (I6 Hd) as (t & Ht & H0 & Hl). destruct (Et Hd t Ht Hl) as (t' & ? & ?). eauto.
  - intros r Hr. destruct (I8 r Hr) as (x & Hx & Hk & Hl). by apply (Er r x).
  - auto.
Qed.

(** ** Changes of one context *)

Definition put_ctx (ctx : nat) (c : kioctx) (s : aio) : aio := set_ctxs (<[ctx := c]> (ctxs s)) s.

Lemma put_ctx_put ctx c c' s : put_ctx ctx c' (put_ctx ctx c s) = put_ctx ctx c' s.
Proof. unfold put_ctx; simpl. by rewrite insert_insert_eq. Qed.

Lemma put_ctx_lookup ctx c s : ctxs (put_ctx ctx c s) !! ctx = Some c.
Proof. apply lookup_insert_eq. Qed.

Lemma get_ctx_eq ctx c s : ctxs s !! ctx = Some c -> get_ctx ctx s = Ret c s.
Proof. intros E. unfold get_ctx, deref. by rewrite E. Qed.

Lemma on_ctx_eq {B} ctx c (m : C B) b c' s :
  ctxs s !! ctx = Some c -> m c = Ret b c' -> on_ctx ctx m s = Ret b (put_ctx ctx c' s).
Proof. intros E Em. unfold on_ctx. by rewrite E, Em. Qed.

Lemma upd_ctx_eq ctx c f s : ctxs s !! ctx = Some c -> upd_ctx ctx f s = Ret tt (put_ctx ctx (f c) s).
Proof. intros E. by apply (on_ctx_eq ctx c). Qed.

Lemma get_req_eq r x s : kiocbs s !! r = Some x -> get_req r s = Ret x s.
Proof. intros E. unfold get_req, deref. by rewrite E. Qed.

Definition put_req (r : nat) (x : kiocb) (s : aio) : aio := set_kiocbs (<[r := x]> (kiocbs s)) s.

Lemma upd_req_eq r x f s : kiocbs s !! r = Some x -> upd_req r f s = Ret tt (put_req r (f x) s).
Proof. intros E. unfold upd_req. by mrun (get_req_eq r x s E). Qed.

Lemma is_Some_insert {V} (m : gmap nat V) k v k' : is_Some (m !! k') -> is_Some (<[k := v]> m !! k').
Proof. intros [x Hx]. rewrite lookup_insert. case_decide; eauto. Qed.
Lemma is_Some_insert_inv {V} (m : gmap nat V) k v k' : is_Some (m !! k) -> is_Some (<[k := v]> m !! k') -> is_Some (m !! k').
Proof. intros Hk. rewrite lookup_insert. case_decide; subst; eauto. Qed.

(** a new value for a context; [dn] is what the references change by *)
Lemma inv_put_ctx h q s ctx c c' dh dq :
  aio_inv h q s -> ctxs s !! ctx = Some c ->
  (ctx_inv s (h ctx) (q ctx) ctx c -> ctx_inv s (h ctx + dh) (q ctx + dq) ctx c') ->
  dead c' = dead c -> ctx_id c' = ctx_id c -> max_reqs c' = max_reqs c ->
  aio_inv (plus ctx dh h) (plus ctx dq q) (put_ctx ctx c' s).
Proof.
  intros [I1 I2 I3 I4 I5 I6 I7 I8 I9 I10 I11 I12 I13 I14] Hc Hci Ed Ei Em.
  assert (forall a, is_Some (ctxs s !! a) -> is_Some (<[ctx := c']> (ctxs s) !! a)) as Hs.
  { intros a. apply is_Some_insert. }
  split; simpl; try done.
  - intros a d. rewrite lookup_insert. case_decide as E; [subst a; intros [= <-]|intros Hd].
    + rewrite !plus_eq. eapply ctx_inv_ext; [..|by apply Hci, I2]; eauto.
    + rewrite !plus_ne by done. eapply ctx_inv_ext; [..|by apply I2]; eauto.
  - intros a. rewrite lookup_insert. case_decide; [done|]. intros Ha. rewrite plus_ne by done. by apply I3.
  - intros r x a Hx Hk. eapply Hs, I4; eauto.
  - intros t i a Ht Hi. destruct (I7 t i a Ht Hi) as (d & Hd & Hdd & Hdi). rewrite lookup_insert.
    case_decide; [|eauto]. subst. assert (d = c) as -> by congruence. exists c'. split_and!; congruence.
  - destruct I8. split; [|done]. rewrite (total_insert _ _ _ c) by done.
    assert (share c' = share c) as -> by (unfold share; by rewrite Ed, Em). lia.
  - split; [apply I9|]. intros a Ha. by apply Hs, I9.
  - intros a g Ha. by eapply Hs, I10.
  - intros n Hn. destruct (I11 n Hn) as [H1 H2]. split; [|done]. rewrite lookup_insert_ne; [done|]. intros ->. congruence.
Qed.

(** a change that no reference count sees *)
Lemma inv_same_ctx h q s ctx c c' :
  aio_inv h q s -> ctxs s !! ctx = Some c ->
  (ctx_inv s (h ctx) (q ctx) ctx c -> ctx_inv s (h ctx) (q ctx) ctx c') ->
  dead c' = dead c -> ctx_id c' = ctx_id c -> max_reqs c' = max_reqs c ->
  aio_inv h q (put_ctx ctx c' s).
Proof.
  intros Hi Hc Hci Ed Ei Em. eapply aio_inv_ext; [| |apply (inv_put_ctx h q s ctx c c' 0 0)]; try done.
  - intros a. unfold plus. case_decide; lia.
  - intros a ? _. unfold plus. case_decide; lia.
  - rewrite !Z.add_0_r. done.
Qed.

(** ** Changes of the kernel *)

Lemma inv_kern h q s k' :
  aio_inv h q s -> sys_ok k' -> (this_cpu k' < ncpus)%nat ->
  (forall t, is_Some (tasks (akern s) !! t) -> is_Some (tasks k' !! t)) ->
  (forall a g, aio_cmgroup k' !! a = Some g -> is_Some (ctxs s !! a)) ->
  aio_inv h q (set_akern k' s).
Proof.
  intros [I1 I2 I3 I4 I5 I6 I7 I8 I9 I10 I11 I12 I13 I14] Hk Ecpu Ht Hg. split; simpl; try done.
  - intros ctx c Hc. eapply ctx_inv_ext; [..|by apply I2]; eauto.
  - auto.
Qed.

(** operations on one task: wake-ups and state changes *)
Lemma lift_task_op {B} s t (m : K B) x r y :
  sys_ok (akern s) -> tasks (akern s) !! t = Some x -> task_op no_refs t m x r y -> (task_ok x -> task_ok y) ->
  exists k', lift_kern m s = Ret r (set_akern k' s) /\ sys_ok k' /\ evolves (akern s) k'.
Proof.
  intros Hk Hx Hm Hxy. destruct (Hm (akern s) (proj1 (proj1 Hk)) Hx) as (k' & E & Hi' & Hs). exists k'.
  assert (evolves (akern s) k') as He by (eapply upd_evolves; eauto). split_and!; [|by eapply sys_upd|done].
  unfold lift_kern. by rewrite E.
Qed.

(** ** Waking the waiters of a context *)

(** the state after it *)
Definition woken_up (ctx : nat) (c : kioctx) (w : list nat) (k : kernel) (s : aio) : aio :=
  put_ctx ctx (set_waiters w c) (set_akern k s).

Lemma woken_up_id ctx c s : ctxs s !! ctx = Some c -> woken_up ctx c (waiters c) (akern s) s = s.
Proof. intros Hc. destruct c, s; unfold woken_up, put_ctx; simpl in *. by rewrite insert_id. Qed.

Lemma woken_up_twice ctx c w w' k k' s :
  woken_up ctx (set_waiters w c) w' k' (woken_up ctx c w k s) = woken_up ctx c w' k' s.
Proof. unfold woken_up, put_ctx; simpl. by rewrite insert_insert_eq. Qed.

Lemma wake_waiters_eq l : forall s ctx c,
  sys_ok (akern s) -> ctxs s !! ctx = Some c -> (forall t, t ∈ l -> is_Some (tasks (akern s) !! t)) ->
  exists k' w', wake_waiters ctx l s = Ret tt (woken_up ctx c w' k' s) /\ sys_ok k' /\ evolves (akern s) k' /\
    (forall t, t ∈ w' -> t ∈ waiters c).
Proof.
  induction l as [|t l IH]; intros s ctx c Hk Hc Hl.
  { exists (akern s), (waiters c). rewrite woken_up_id by done. split_and!; auto using evolves_refl. }
  destruct (Hl t ltac:(set_solver)) as [x Hx]. simpl.
  destruct (lift_task_op s t _ x _ _ Hk Hx (wake_up_op no_refs t TASK_NORMAL x)) as (k1 & E1 & Hk1 & Hev1).
  { destruct (Z.land (tstate x) TASK_NORMAL =? 0); [done|]. apply woken_ok. }
  mrun E1. set (b := negb _).
  set (w1 := if b then filter (fun u => u <> t) (waiters c) else waiters c).
  assert ((if b then upd_ctx ctx (fun c => set_waiters (filter (fun u => u <> t) (waiters c)) c) else mret tt)
    (set_akern k1 s) = Ret tt (woken_up ctx c w1 k1 s)) as E2.
  { unfold w1. destruct b; [by rewrite (upd_ctx_eq ctx c _ (set_akern k1 s) Hc)|].
    unfold mret, M_ret. f_equal. symmetry. by apply (woken_up_id ctx c (set_akern k1 s)). }
  mrun E2. assert (forall u, u ∈ w1 -> u ∈ waiters c) as Hw1.
  { unfold w1. destruct b; [|done]. intros u [_ ?]%list_elem_of_filter. done. }
  destruct (IH (woken_up ctx c w1 k1 s) ctx (set_waiters w1 c) Hk1 (put_ctx_lookup _ _ _)) as (k' & w' & E & Hk' & Hev & Hw').
  { intros u Hu. apply (ev_tasks _ _ Hev1), Hl. set_solver. }
  exists k', w'. rewrite woken_up_twice in E. split_and!; [done|done|by eapply evolves_trans|auto].
Qed.

Lemma wake_ctx_eq s ctx c :
  sys_ok (akern s) -> ctxs s !! ctx = Some c -> (forall t, t ∈ waiters c -> is_Some (tasks (akern s) !! t)) ->
  exists k' w', wake_ctx ctx s = Ret tt (woken_up ctx c w' k' s) /\ sys_ok k' /\ evolves (akern s) k' /\
    (forall t, t ∈ w' -> t ∈ waiters c).
Proof.
  intros Hk Hc Hw. destruct (wake_waiters_eq (waiters c) s ctx c Hk Hc Hw) as (k' & w' & E & H').
  exists k', w'. split; [|done]. unfold wake_ctx. by mrun (get_ctx_eq ctx c s Hc).
Qed.

Lemma inv_woken h q s ctx c w k' :
  aio_inv h q s -> ctxs s !! ctx = Some c -> sys_ok k' -> evolves (akern s) k' -> (forall t, t ∈ w -> t ∈ waiters c) ->
  aio_inv h q (woken_up ctx c w k' s).
Proof.
  intros Hi Hc Hk Hev Hw. apply (inv_same_ctx h q (set_akern k' s) ctx c); try done.
  - apply inv_kern; [done|done|rewrite (ev_cpu _ _ Hev); apply Hi|apply Hev|]. rewrite (ev_aio _ _ Hev). apply Hi.
  - ctx_field. auto.
Qed.

Lemma wake_ctx_ok h q s ctx c :
  aio_inv h q s -> ctxs s !! ctx = Some c ->
  exists k' w', wake_ctx ctx s = Ret tt (woken_up ctx c w' k' s) /\ aio_inv h q (woken_up ctx c w' k' s) /\ evolves (akern s) k'.
Proof.
  intros Hi Hc. destruct (wake_ctx_eq s ctx c) as (k' & w' & E & Hk' & Hev & Hw); [apply Hi|done|apply (ai_ctx _ _ _ Hi ctx c Hc)|].
  exists k', w'. split_and!; [done| |done]. by apply inv_woken.
Qed.

(** ** Slots *)

(** new values for the counters of a context *)
Lemma recount_safe a m cpu c : ring_safe ncpus c -> 0 <= m < 2 ^ 32 -> ring_safe ncpus (recount a (<[cpu := m]> (pcpu c)) c).
Proof.
  intros [[] ? ? Hl Hp ?] Hm. split; [by split|done..| | |done]; unfold recount; simpl.
  - by rewrite length_insert.
  - by apply Forall_insert.
Qed.

Lemma return_batches_safe fuel cpu : forall n c,
  1 <= req_batch c < 2 ^ 30 -> 0 <= n < 2 ^ 32 -> pcpu c !! cpu = Some n -> n < Z.of_nat fuel ->
  exists a m, return_batches fuel cpu c = Ret tt (recount a (<[cpu := m]> (pcpu c)) c) /\ 0 <= m < 2 ^ 32.
Proof.
  induction fuel as [|fuel IH]; intros n c Hb H0 Hn Hf; [lia|].
  simpl. unfold mbind, M_bind, get. rewrite (get_kcpu_eq _ n) by done.
  rewrite u32_id by lia. destruct (req_batch c * 2 <=? n) eqn:G; zbool.
  - unfold put_kcpu, modify; simpl. rewrite u32_id by lia.
    set (c1 := set_reqs_available _ _). destruct (IH (n - req_batch c) c1) as (a & m & E & Hm); [done|lia| |lia|].
    + unfold c1; simpl. apply list_lookup_insert_eq. by eapply lookup_lt_Some.
    + exists a, m. split; [|done]. rewrite E. unfold c1, recount; simpl. by rewrite list_insert_insert_eq.
  - exists (reqs_available c), n. rewrite list_insert_id by done. by rewrite recount_idem.
Qed.

Lemma recount_inv h q s ctx c a m cpu :
  aio_inv h q s -> ctxs s !! ctx = Some c -> 0 <= m < 2 ^ 32 ->
  aio_inv h q (put_ctx ctx (recount a (<[cpu := m]> (pcpu c)) c) s).
Proof.
  intros Hi Hc Hm. apply (inv_same_ctx h q s ctx c); try done. intros []. split; try done. by apply recount_safe.
Qed.

Lemma inv_cpu h q s ctx c :
  aio_inv h q s -> ctxs s !! ctx = Some c -> exists n, pcpu c !! this_cpu (akern s) = Some n /\ 0 <= n < 2 ^ 32.
Proof.
  intros Hi Hc. pose proof (ci_ring _ _ _ _ _ (ai_ctx _ _ _ Hi ctx c Hc)) as Hr.
  destruct (lookup_lt_is_Some_2 (pcpu c) (this_cpu (akern s))) as [n Hn].
  { rewrite (rs_cpus _ _ Hr). apply Hi. }
  exists n. split; [done|]. by apply (proj1 (Forall_lookup _ _) (rs_pcpu _ _ Hr) _ _ Hn).
Qed.

Lemma put_reqs_safe cpu n nr c :
  1 <= req_batch c < 2 ^ 30 -> pcpu c !! cpu = Some n ->
  exists a m, put_reqs_available cpu nr c = Ret tt (recount a (<[cpu := m]> (pcpu c)) c) /\ 0 <= m < 2 ^ 32.
Proof.
  intros Hb Hn. unfold put_reqs_available. mrun (get_kcpu_eq cpu n c Hn). unfold mbind at 1, M_bind at 1, put_kcpu, modify.
  set (c1 := set_pcpu _ c). pose proof (u32_range (n + nr)).
  destruct (return_batches_safe (S (Z.to_nat (u32 (n + nr)))) cpu (u32 (n + nr)) c1) as (a & m & E & Hm); [done|done| |lia|].
  - apply list_lookup_insert_eq. by eapply lookup_lt_Some.
  - exists a, m. split; [|done]. rewrite E. unfold c1, recount; simpl. by rewrite list_insert_insert_eq.
Qed.

Lemma put_slots_ok h q s ctx c nr :
  aio_inv h q s -> ctxs s !! ctx = Some c ->
  exists a p, put_slots ctx nr s = Ret tt (put_ctx ctx (recount a p c) s) /\ aio_inv h q (put_ctx ctx (recount a p c) s) /\
    (slots_ok c -> 0 <= nr -> free_slots c + nr < nr_events c ->
     slots_ok (recount a p c) /\ free_slots (recount a p c) = free_slots c + nr).
Proof.
  intros Hi Hc. destruct (inv_cpu h q s ctx c Hi Hc) as (n & Hn & _).
  destruct (put_reqs_safe (this_cpu (akern s)) n nr c) as (a & m & E & Hm); [|done|].
  { apply (rs_batch _ _ (ci_ring _ _ _ _ _ (ai_ctx _ _ _ Hi ctx c Hc))). }
  eexists a, _. split_and!; [|by eapply recount_inv|].
  - unfold put_slots, smp_processor_id. unfold mbind at 1 2, M_bind at 1 2, get, mret, M_ret. by eapply on_ctx_eq.
  - intros Hs H0 Hroom. destruct (put_reqs_available_ok (this_cpu (akern s)) c nr Hs) as (a' & m' & E' & Hs' & Hf' & _);
      [by eapply lookup_lt_Some|done|done|]. rewrite E in E'. apply Ret_inj in E' as [_ Ec]. by rewrite Ec.
Qed.

Lemma get_slot_ok h q s ctx c :
  aio_inv h q s -> ctxs s !! ctx = Some c ->
  exists (b : bool) a p, on_ctx ctx (get_reqs_available (this_cpu (akern s))) s = Ret b (put_ctx ctx (recount a p c) s) /\
    aio_inv h q (put_ctx ctx (recount a p c) s) /\
    (slots_ok c -> slots_ok (recount a p c) /\ free_slots (recount a p c) = free_slots c - (if b then 1 else 0)).
Proof.
  intros Hi Hc. destruct (inv_cpu h q s ctx c Hi Hc) as (n & Hn & Hr).
  assert (exists b a m, get_reqs_available (this_cpu (akern s)) c =
    Ret b (recount a (<[this_cpu (akern s) := m]> (pcpu c)) c) /\ 0 <= m < 2 ^ 32) as (b & a & m & E & Hm).
  { unfold get_reqs_available. mrun (get_kcpu_eq _ n c Hn). unfold mbind at 1, M_bind at 1, get.
    destruct (n =? 0) eqn:En; zbool.
    - destruct (u32 (reqs_available c) <? req_batch c).
      + exists false, (reqs_available c), n. rewrite list_insert_id, recount_idem by done. done.
      + eexists true, _, _. split; [reflexivity|]. apply u32_range.
    - exists true, (reqs_available c), (u32 (n - 1)). split; [by destruct c|apply u32_range]. }
  exists b, a. eexists. split_and!; [by eapply on_ctx_eq|by eapply recount_inv|]. intros Hs.
  destruct (get_reqs_available_ok (this_cpu (akern s)) c Hs) as (b' & a' & m' & E' & Hs' & Hf' & _); [by eapply lookup_lt_Some|].
  rewrite E in E'. apply Ret_inj in E' as [<- Ec]. by rewrite Ec.
Qed.

(** ** Changes of one request *)

(** the number of requests of each kind, as the maps of requests differ *)
Lemma nreqs_put r x s ctx : nreqs (put_req r x s) ctx = count (of_ctx ctx) (<[r := x]> (kiocbs s)).
Proof. done. Qed.

(** a new value for a request, and for the references to files and eventfds *)
Definition files_ok (fs : gmap nat iofile) (m : gmap nat kiocb) : Prop :=
  forall f, match fs !! f with
            | Some y => count (uses_file f) m <= f_count y
            | None => count (uses_file f) m = 0
            end.
Definition eventfds_ok (es : gmap nat (Z * Z)) (m : gmap nat kiocb) : Prop :=
  forall e, match es !! e with
            | Some y => count (uses_eventfd e) m <= snd y
            | None => count (uses_eventfd e) m = 0
            end.

Lemma inv_set_req h q s r x x' fs es :
  aio_inv h q s -> kiocbs s !! r = Some x -> ki_ctx x' = ki_ctx x -> (ki_linked x = true -> ki_linked x' = true) ->
  files_ok fs (<[r := x']> (kiocbs s)) -> eventfds_ok es (<[r := x']> (kiocbs s)) ->
  aio_inv h q (put_req r x' (set_eventfds es (set_iofiles fs s))).
Proof.
  intros [I1 I2 I3 I4 I5 I6 I7 I8 I9 I10 I11 I12 I13 I14] Hx E1 E4 Hf He. split; try done; simpl.
  - intros ctx c Hc. eapply ctx_inv_ext; [..|by apply I2]; eauto.
    + unfold nreqs; simpl. rewrite (count_insert _ _ _ _ x) by done. unfold of_ctx at 2 3. rewrite E1. lia.
    + simpl. intros r' y _ Hy Hk Hl. rewrite lookup_insert. case_decide; [|eauto]. subst.
      assert (y = x) as -> by congruence. exists x'. split_and!; [done|congruence|auto].
  - intros r' y ctx. rewrite lookup_insert. case_decide; [|apply I4]. intros [= <-]. rewrite E1. eauto.
  - intros n Hn. destruct (I11 n Hn) as [H1 H2]. split; [done|]. rewrite lookup_insert_ne; [done|]. intros ->. congruence.
Qed.

(** the requests that use a file, when one of them changes *)
Lemma files_same fs m r x x' :
  files_ok fs m -> m !! r = Some x -> ki_filp x' = ki_filp x -> files_ok fs (<[r := x']> m).
Proof.
  intros H Hx E f. specialize (H f). rewrite (count_insert _ _ _ _ x) by done. unfold uses_file at 2 3 5 6. rewrite E.
  destruct (fs !! f); lia.
Qed.
Lemma eventfds_same es m r x x' :
  eventfds_ok es m -> m !! r = Some x -> ki_eventfd x' = ki_eventfd x -> eventfds_ok es (<[r := x']> m).
Proof.
  intros H Hx E f. specialize (H f). rewrite (count_insert _ _ _ _ x) by done. unfold uses_eventfd at 2 3 5 6. rewrite E.
  destruct (es !! f); lia.
Qed.

Lemma inv_same_req h q s r x x' :
  aio_inv h q s -> kiocbs s !! r = Some x -> ki_ctx x' = ki_ctx x -> ki_filp x' = ki_filp x ->
  ki_eventfd x' = ki_eventfd x -> (ki_linked x = true -> ki_linked x' = true) ->
  aio_inv h q (put_req r x' s).
Proof.
  intros Hi Hx E1 E2 E3 E4. assert (s = set_eventfds (eventfds s) (set_iofiles (iofiles s) s)) as Es by by destruct s.
  rewrite Es. apply (inv_set_req h q s r x); try done; [eapply files_same; [exact (ai_files _ _ _ Hi)|done..]|eapply eventfds_same; [exact (ai_eventfds _ _ _ Hi)|done..]].
Qed.

(** a new request takes over a reference of its context *)
Lemma inv_new_req h q s r ctx :
  aio_inv h q s -> kiocbs s !! r = None -> (r < aaddr s)%nat -> is_Some (ctxs s !! ctx) -> 0 < q ctx ->
  aio_inv h (plus ctx (- 1) q) (put_req r (Kiocb (Ctx ctx) no_cancel false None None 0 0 0 0 0) s).
Proof.
  intros [I1 I2 I3 I4 I5 I6 I7 I8 I9 I10 I11 I12 I13 I14] Hr Hlt Hctx Hq. set (x := Kiocb _ _ _ _ _ _ _ _ _ _).
  assert (forall p : kiocb -> bool, p x = false -> count p (<[r := x]> (kiocbs s)) = count p (kiocbs s)) as Hcnt.
  { intros p Ep. rewrite count_insert_new by done. rewrite Ep. lia. }
  split; simpl; try done.
  - intros a c Hc. destruct (decide (a = ctx)) as [->|Hne].
    + rewrite plus_eq. destruct (I2 ctx c Hc). split; try done; [|lia|].
      * unfold nreqs in *; simpl. rewrite count_insert_new by done. unfold of_ctx at 1. rewrite bool_decide_eq_true_2 by done. lia.
      * intros r' Hr'. destruct (ci_active0 r' Hr') as (y & Hy & ?). exists y. split; [|done].
        simpl. rewrite lookup_insert_ne; [done|]. intros ->. congruence.
    + rewrite plus_ne by done. eapply ctx_inv_ext; [..|by apply I2]; eauto.
      * unfold nreqs; simpl. apply Hcnt. unfold of_ctx. apply bool_decide_eq_false_2. unfold x; simpl. congruence.
      * simpl. intros r' y _ Hy Hk Hl. rewrite lookup_insert_ne; [eauto|]. intros ->. congruence.
  - intros r' y a. rewrite lookup_insert. case_decide; [|apply I4]. by intros [= <-] [= <-].
  - intros f. rewrite Hcnt by done. apply I5.
  - intros e. rewrite Hcnt by done. apply I6.
  - intros n Hn. destruct (I11 n Hn) as [H1 H2]. split; [done|]. rewrite lookup_insert_ne; [done|]. lia.
Qed.

(** the references a freed request gives back *)
Definition drop_file (x : kiocb) (m : gmap nat iofile) : gmap nat iofile :=
  match ki_filp x with Some f => alter (fun y => set_f_count (f_count y - 1) y) f m | None => m end.
Definition drop_eventfd (x : kiocb) (m : gmap nat (Z * Z)) : gmap nat (Z * Z) :=
  match ki_eventfd x with Some e => alter (fun y => (fst y, snd y - 1)) e m | None => m end.
Definition freed (r : nat) (x : kiocb) (s : aio) : aio :=
  set_kiocbs (delete r (kiocbs s)) (set_eventfds (drop_eventfd x (eventfds s)) (set_iofiles (drop_file x (iofiles s)) s)).

Lemma alter_eq {V} (f : V -> V) (m : gmap nat V) k v : m !! k = Some v -> alter f k m = <[k := f v]> m.
Proof. intros Hk. rewrite <- (insert_id m k v Hk) at 1. by rewrite alter_insert_eq. Qed.

Lemma kiocb_free_eq h q s r x :
  aio_inv h q s -> kiocbs s !! r = Some x -> kiocb_free r s = Ret tt (freed r x s).
Proof.
  intros Hi Hx. unfold kiocb_free, freed, drop_file, drop_eventfd. mrun (get_req_eq r x s Hx).
  pose proof (ai_files _ _ _ Hi) as Hf. pose proof (ai_eventfds _ _ _ Hi) as He.
  destruct (ki_filp x) as [f|] eqn:Ef.
  - specialize (Hf f). pose proof (count_pos (uses_file f) _ r x Hx ltac:(unfold uses_file; by rewrite Ef, bool_decide_true)).
    destruct (iofiles s !! f) as [y|] eqn:Ey; [|lia].
    unfold fput, mbind, M_bind, deref, modify. rewrite Ey. rewrite (alter_eq _ _ _ y Ey).
    destruct (ki_eventfd x) as [e|] eqn:Ee; [|done].
    specialize (He e). pose proof (count_pos (uses_eventfd e) _ r x Hx ltac:(unfold uses_eventfd; by rewrite Ee, bool_decide_true)).
    destruct (eventfds s !! e) as [z|] eqn:Ez; [|lia].
    unfold eventfd_ctx_put, mbind, M_bind, deref, modify; simpl. rewrite Ez. by rewrite (alter_eq _ _ _ z Ez).
  - destruct (ki_eventfd x) as [e|] eqn:Ee; [|by destruct s].
    specialize (He e). pose proof (count_pos (uses_eventfd e) _ r x Hx ltac:(unfold uses_eventfd; by rewrite Ee, bool_decide_true)).
    destruct (eventfds s !! e) as [z|] eqn:Ez; [|lia].
    unfold eventfd_ctx_put, mbind, M_bind, mret, M_ret, deref, modify; simpl. rewrite Ez. by rewrite (alter_eq _ _ _ z Ez); destruct s.
Qed.

Lemma freed_inv h q s r x ctx :
  aio_inv h q s -> kiocbs s !! r = Some x -> ki_ctx x = Ctx ctx ->
  (forall c, ctxs s !! ctx = Some c -> r ∉ active_reqs c) ->
  aio_inv h (plus ctx 1 q) (freed r x s).
Proof.
  intros [I1 I2 I3 I4 I5 I6 I7 I8 I9 I10 I11 I12 I13 I14] Hx Hk Hna.
  split; simpl; try done.
  - intros a c Hc. destruct (decide (a = ctx)) as [->|Hne].
    + rewrite plus_eq. destruct (I2 ctx c Hc). split; try done; [|lia|].
      * unfold nreqs in *; simpl. rewrite (count_delete _ _ _ x) by done. unfold of_ctx at 2.
        rewrite bool_decide_eq_true_2 by done. lia.
      * intros r' Hr'. destruct (ci_active0 r' Hr') as (y & Hy & ?). exists y. split; [|done].
        simpl. rewrite lookup_delete_ne; [done|]. intros ->. by apply (Hna c Hc).
    + rewrite plus_ne by done. eapply ctx_inv_ext; [..|by apply I2]; eauto.
      * unfold nreqs; simpl. rewrite (count_delete _ _ _ x) by done. unfold of_ctx at 2.
        rewrite bool_decide_eq_false_2 by congruence. lia.
      * simpl. intros r' y _ Hy Hky Hl. rewrite lookup_delete_ne; [eauto|]. intros ->. congruence.
  - intros r' y a [_ Hy]%lookup_delete_Some. by apply (I4 r').
  - intros f. rewrite (count_delete _ _ _ x) by done. specialize (I5 f). pose proof (count_pos (uses_file f) _ r x Hx).
    unfold drop_file. destruct (uses_file f x) eqn:U; pose proof U as U'; unfold uses_file in U'.
    + apply bool_decide_eq_true in U'. rewrite U', lookup_alter_eq. destruct (iofiles s !! f); simpl; lia.
    + apply bool_decide_eq_false in U'. destruct (ki_filp x) as [g|]; [rewrite lookup_alter_ne by congruence|];
        destruct (iofiles s !! f); simpl; lia.
  - intros e. rewrite (count_delete _ _ _ x) by done. specialize (I6 e). pose proof (count_pos (uses_eventfd e) _ r x Hx).
    unfold drop_eventfd. destruct (uses_eventfd e x) eqn:U; pose proof U as U'; unfold uses_eventfd in U'.
    + apply bool_decide_eq_true in U'. rewrite U', lookup_alter_eq. destruct (eventfds s !! e); simpl; lia.
    + apply bool_decide_eq_false in U'. destruct (ki_eventfd x) as [g|]; [rewrite lookup_alter_ne by congruence|];
        destruct (eventfds s !! e); simpl; lia.
  - intros n Hn. destruct (I11 n Hn) as [H1 H2]. split; [done|]. rewrite lookup_delete. by case_decide.
Qed.
End Inv.
