(* ===== verification/AioOps.v ===== *)
(** * The operations of AIO keep the invariant (fs/aio.c) *)

From S2P Require Import Prelude Wait Tasklet Cmgroup Sched CmWake CmInv CmTask CmOps CmSys CmLife CmAttach CmTop.
From S2P Require Import AioRing AioQueue AioCtx AioInv.
Local Open Scope Z_scope.

(** what the operations on requests leave alone *)
Record keeps (s s' : aio) : Prop := Keeps {
  kp_users : forall ctx, users <$> ctxs s' !! ctx = users <$> ctxs s !! ctx;
  kp_table : ioctx_table s' = ioctx_table s;
  kp_nr : aio_nr s' = aio_nr s;
  kp_current : acurrent s' = acurrent s;
  kp_kern : evolves (akern s) (akern s');
  kp_files : forall f, is_Some (iofiles s !! f) -> is_Some (iofiles s' !! f);
  kp_eventfds : forall e, is_Some (eventfds s !! e) -> is_Some (eventfds s' !! e)
}.

(** a change that touches none of these *)
Ltac keep := split; try done; try apply evolves_refl.

Lemma keeps_refl s : keeps s s.
Proof. keep. Qed.
Lemma keeps_trans s1 s2 s3 : keeps s1 s2 -> keeps s2 s3 -> keeps s1 s3.
Proof. intros [] []. split; try congruence; auto. by eapply evolves_trans. Qed.
#[export] Hint Resolve keeps_refl : kernel.

Lemma keeps_put_ctx s ctx c c' : ctxs s !! ctx = Some c -> users c' = users c -> keeps s (put_ctx ctx c' s).
Proof.
  intros Hc Hu. keep. intros a; simpl. rewrite lookup_insert. case_decide; [|done]. subst. rewrite Hc. simpl. congruence.
Qed.

Lemma keeps_woken s ctx c w k : ctxs s !! ctx = Some c -> evolves (akern s) k -> keeps s (woken_up ctx c w k s).
Proof.
  intros Hc Hev. keep. intros a; simpl. rewrite lookup_insert. case_decide; [|done]. subst. by rewrite Hc.
Qed.

Lemma is_Some_alter {V} (f : V -> V) (m : gmap nat V) k k' : is_Some (m !! k') -> is_Some (alter f k m !! k').
Proof. intros [v Hv]. rewrite lookup_alter. case_decide; [subst; rewrite Hv|]; simpl; eauto. Qed.

Lemma keeps_freed s r x : keeps s (freed r x s).
Proof.
  keep; intros i Hi; simpl.
  - unfold drop_file. case_match; [by apply is_Some_alter|done].
  - unfold drop_eventfd. case_match; [by apply is_Some_alter|done].
Qed.

Lemma keeps_due s s' ctx : keeps s s' -> due s' ctx = due s ctx.
Proof.
  intros K. pose proof (kp_users _ _ K ctx) as E. unfold due.
  destruct (ctxs s' !! ctx), (ctxs s !! ctx); simpl in E; try done. by injection E as ->.
Qed.

Lemma keeps_ctx s s' ctx c : keeps s s' -> ctxs s !! ctx = Some c -> exists c', ctxs s' !! ctx = Some c' /\ users c' = users c.
Proof.
  intros K Hc. pose proof (kp_users _ _ K ctx) as E. rewrite Hc in E.
  destruct (ctxs s' !! ctx) as [c'|]; simpl in E; [|done]. exists c'. split; congruence.
Qed.

Lemma keeps_alive s s' ctx : keeps s s' -> is_Some (ctxs s !! ctx) -> is_Some (ctxs s' !! ctx).
Proof. intros K [c Hc]. destruct (keeps_ctx s s' ctx c K Hc) as (c' & ? & _). eauto. Qed.

Section Ops.
Variable ncpus : nat.
#[local] Abbreviation inv := (aio_inv ncpus).
#[local] Abbreviation ok := (aio_ok ncpus).

Lemma ok_keeps h s s' : inv h (due s) s' -> keeps s s' -> ok h s'.
Proof.
  intros Hi K. eapply aio_inv_ext; [| |exact Hi]; [done|]. intros. by rewrite (keeps_due s s').
Qed.

(** ** Dropping a reference of a context *)

Lemma reqs_put_ok h q s ctx c :
  inv h q s -> ctxs s !! ctx = Some c -> 0 < q ctx ->
  exists s', reqs_put ctx s = Ret tt s' /\ inv h (plus ctx (- 1) q) s' /\ keeps s s' /\ kiocbs s' = kiocbs s /\
    ctxs s' = <[ctx := set_reqs (reqs c - 1) c]> (ctxs s) /\ akern s' = akern s /\
    iofiles s' = iofiles s /\ eventfds s' = eventfds s /\ (reqs c <> 1 -> aio_works s' = aio_works s).
Proof.
  intros Hi Hc Hq. unfold reqs_put. mrun (get_ctx_eq ctx c s Hc). mrun (upd_ctx_eq ctx c (set_reqs (reqs c - 1)) s Hc).
  set (c' := set_reqs (reqs c - 1) c). pose proof (ai_ctx _ _ _ _ Hi ctx c Hc) as Hci.
  assert (0 <= nreqs s ctx) as Hn by apply count_bounds.
  assert (reqs c <> 0) as Hr0 by (rewrite (ci_reqs _ _ _ _ _ _ Hci); lia).
  set (W := if reqs c - 1 =? 0 then aio_works s ++ [ctx] else aio_works s).
  exists (set_aio_works W (put_ctx ctx c' s)). split_and!; try done.
  - unfold W. destruct (reqs c - 1 =? 0); [done|]. by destruct s.
  - assert (ctx ∉ aio_works s) as Hnw by (rewrite (ci_work _ _ _ _ _ _ Hci); done).
    assert (forall a, a <> ctx -> a ∈ W <-> a ∈ aio_works s) as Hw.
    { intros a Ha. unfold W. destruct (_ =? 0); [|done]. set_solver. }
    destruct Hi as [I1 I2 I3 I4 I5 I6 I7 I8 I9 I10 I11 I12 I13 I14].
    split; simpl; try done.
    + intros a d. rewrite lookup_insert. case_decide as E; [subst a; intros [= <-]|intros Hd].
      * rewrite plus_eq. destruct Hci. split; try done; simpl; [|lia| |].
        -- unfold nreqs in *; simpl. lia.
        -- unfold W. destruct (reqs c - 1 =? 0) eqn:E; zbool; [set_solver|]. by split.
        -- eapply ring_safe_ext; [..|eassumption]; done.
      * rewrite plus_ne by done. eapply ctx_inv_ext; [..|by apply I2]; eauto.
    + intros a. rewrite lookup_insert. case_decide; [done|]. apply I3.
    + intros r x a Hx Hk. eapply is_Some_insert, I4; eauto.
    + intros t i a Ht Hi. destruct (I7 t i a Ht Hi) as (d & Hd & Hdd & Hdi). rewrite lookup_insert.
      case_decide; [|eauto]. subst. assert (d = c) as -> by congruence. eauto.
    + destruct I8. split; [|done]. rewrite (total_insert _ _ _ c) by done. change (share c') with (share c). lia.
    + unfold W. destruct (reqs c - 1 =? 0).
      * split; [apply NoDup_app; split_and!; [apply I9|set_solver|apply NoDup_singleton]|]. intros a [Ha| ->%list_elem_of_singleton]%elem_of_app; [by apply is_Some_insert, I9|].
        rewrite lookup_insert_eq. eauto.
      * split; [apply I9|]. intros a Ha. by apply is_Some_insert, I9.
    + intros a g Ha. by eapply is_Some_insert, I10.
    + intros n Hn'. destruct (I11 n Hn') as [H1 H2]. split; [|done]. rewrite lookup_insert_ne; [done|]. intros ->. congruence.
  - keep. intros a; simpl. rewrite lookup_insert. case_decide; [|done]. subst. by rewrite Hc.
  - intros Hr. unfold W; simpl. by rewrite (proj2 (Z.eqb_neq _ _)) by lia.
Qed.

(** ** Completing a request *)

Lemma pushed_safe ev page c :
  ring_safe ncpus c -> ring_pages c !! Z.to_nat ((tail_idx c + 1) / 128) = Some page -> length page = 128%nat ->
  ring_safe ncpus (pushed ev page c).
Proof.
  intros [[? ? Hp] ? ? ? ? ?] Hpg Hl. split; [split|..]; unfold pushed; simpl; try done.
  - by rewrite length_insert.
  - apply Forall_insert; [done|]. by rewrite length_insert.
  - destruct (nr_events c <=? tail_idx c + 1) eqn:E; zbool; lia.
Qed.

Lemma push_ok h q s ctx c ev :
  inv h q s -> ctxs s !! ctx = Some c ->
  exists c', on_ctx ctx (ring_push ev) s = Ret tt (put_ctx ctx c' s) /\ inv h q (put_ctx ctx c' s) /\
    users c' = users c /\ active_reqs c' = active_reqs c /\ (exists page, c' = pushed ev page c).
Proof.
  intros Hi Hc. pose proof (ci_ring _ _ _ _ _ _ (ai_ctx _ _ _ _ Hi ctx c Hc)) as Hr.
  destruct (ring_push_eq ev c (rs_geometry _ _ Hr) (rs_tail _ _ Hr)) as (page & Hp & Hl & E).
  exists (pushed ev page c). split_and!; try done; [by apply (on_ctx_eq ctx c)| |by eexists].
  apply (inv_same_ctx ncpus h q s ctx c); try done. intros []. split; try done. by apply pushed_safe.
Qed.

Lemma inv_eventfd h q s e y : 
  inv h q s -> eventfds s !! e = Some y -> forall n, inv h q (set_eventfds (<[e := (n, snd y)]> (eventfds s)) s).
Proof.
  intros [I1 I2 I3 I4 I5 I6 I7 I8 I9 I10 I11 I12 I13 I14] He n. split; simpl; try done.
  - intros ctx c Hc. eapply ctx_inv_ext; [..|by apply I2]; eauto.
  - intros e'. specialize (I6 e'). rewrite lookup_insert. case_decide; [|done]. subst. by rewrite He in I6.
Qed.

Lemma signal_ok h q s r x :
  inv h q s -> kiocbs s !! r = Some x ->
  exists m, match ki_eventfd x with Some e => eventfd_signal e 1 | None => mret tt end s = Ret tt (set_eventfds m s) /\
    inv h q (set_eventfds m s) /\ keeps s (set_eventfds m s).
Proof.
  intros Hi Hx. destruct (ki_eventfd x) as [e|] eqn:Ee; [|exists (eventfds s); destruct s; split_and!; try done; keep].
  pose proof (ai_eventfds _ _ _ _ Hi e) as He.
  pose proof (count_pos (uses_eventfd e) _ r x Hx ltac:(unfold uses_eventfd; by rewrite Ee, bool_decide_true)).
  destruct (eventfds s !! e) as [y|] eqn:Ey; [|lia].
  eexists. split; [unfold eventfd_signal, mbind, M_bind, deref, modify; by rewrite Ey|]. split; [by apply inv_eventfd|].
  keep. intros e' He'. by apply is_Some_insert.
Qed.

(** leaving the list of cancellable requests *)
Lemma unlink_req_ok h q s r x ctx c :
  inv h q s -> kiocbs s !! r = Some x -> ctxs s !! ctx = Some c ->
  exists l, (if ki_linked x then upd_ctx ctx (fun c => set_active_reqs (filter (fun q => q <> r) (active_reqs c)) c) else mret tt) s =
      Ret tt (put_ctx ctx (set_active_reqs l c) s) /\
    inv h q (put_ctx ctx (set_active_reqs l c) s) /\ r ∉ l.
Proof.
  intros Hi Hx Hc. pose proof (ai_ctx _ _ _ _ Hi ctx c Hc) as Hci. destruct (ki_linked x) eqn:El.
  - exists (filter (fun q => q <> r) (active_reqs c)). split_and!.
    + by rewrite (upd_ctx_eq ctx c _ s Hc).
    + apply (inv_same_ctx ncpus h q s ctx c); try done. ctx_field; simpl.
      * by apply NoDup_filter.
      * intros r' [_ Hr']%list_elem_of_filter. auto.
    + intros [? _]%list_elem_of_filter. done.
  - exists (active_reqs c). assert (put_ctx ctx (set_active_reqs (active_reqs c) c) s = s) as ->.
    { destruct c, s; unfold put_ctx; simpl in *. by rewrite insert_id. }
    split_and!; try done. intros Hr. destruct (ci_active _ _ _ _ _ _ Hci r Hr) as (y & Hy & _ & Hl). congruence.
Qed.

Lemma wake_some_ok h q s ctx c :
  inv h q s -> ctxs s !! ctx = Some c ->
  exists k' w', (if bool_decide (waiters c = []) then mret tt else wake_ctx ctx) s = Ret tt (woken_up ctx c w' k' s) /\
    inv h q (woken_up ctx c w' k' s) /\ evolves (akern s) k'.
Proof.
  intros Hi Hc. case_bool_decide; [|by apply wake_ctx_ok].
  exists (akern s), (waiters c). rewrite woken_up_id by done. split_and!; auto using evolves_refl.
Qed.

(** aio_complete() gives the request's reference back last: the context
    outlives the completion *)
Lemma aio_complete_ok h q s r x ctx res res2 :
  inv h q s -> kiocbs s !! r = Some x -> ki_ctx x = Ctx ctx ->
  exists s', aio_complete r res res2 s = Ret tt s' /\ inv h q s' /\ keeps s s' /\ kiocbs s' = delete r (kiocbs s).
Proof.
  intros Hi Hx Hk. destruct (ai_req _ _ _ _ Hi r x ctx Hx Hk) as [c Hc].
  unfold aio_complete. mrun (get_req_eq r x s Hx). rewrite Hk.
  destruct (unlink_req_ok h q s r x ctx c Hi Hx Hc) as (l & E1 & Hi1 & Hr). mrun E1. clear E1.
  set (c1 := set_active_reqs l c) in *. set (s1 := put_ctx ctx c1 s) in *.
  assert (keeps s s1) as K1 by by apply (keeps_put_ctx s ctx c).
  destruct (push_ok h q s1 ctx c1 (IoEvent (ki_user x) (ki_user_data x) res res2) Hi1 (put_ctx_lookup _ _ _))
    as (c2 & E2 & Hi2 & Hu2 & Ha2 & _). mrun E2. clear E2. set (s2 := put_ctx ctx c2 s1) in *.
  assert (keeps s s2) as K2. { eapply keeps_trans; [exact K1|]. by apply (keeps_put_ctx _ ctx c1); [apply put_ctx_lookup|]. }
  destruct (signal_ok h q s2 r x Hi2 Hx) as (m & E3 & Hi3 & K3). mrun E3. clear E3. set (s3 := set_eventfds m s2) in *.
  mrun (kiocb_free_eq ncpus h q s3 r x Hi3 Hx).
  assert (inv h (plus ctx 1 q) (freed r x s3)) as Hi4.
  { apply freed_inv; [done|done|done|]. intros d Hd. assert (d = c2) as -> by (unfold s3, s2 in Hd; simpl in Hd;
      rewrite lookup_insert_eq in Hd; congruence). by rewrite Ha2. }
  set (s4 := freed r x s3) in *. assert (ctxs s4 !! ctx = Some c2) as Hc4 by apply put_ctx_lookup.
  mrun (get_ctx_eq ctx c2 s4 Hc4).
  destruct (wake_some_ok h _ s4 ctx c2 Hi4 Hc4) as (k5 & w & E5 & Hi5 & Hev5). mrun E5. clear E5.
  set (s5 := woken_up ctx c2 w k5 s4) in *.
  destruct (reqs_put_ok h _ s5 ctx (set_waiters w c2) Hi5 (put_ctx_lookup _ _ _)) as (s6 & E6 & Hi6 & K6 & Q6 & _).
  { rewrite plus_eq. pose proof (ci_due _ _ _ _ _ _ (ai_ctx _ _ _ _ Hi ctx c Hc)). lia. }
  exists s6. split_and!; [done| | |].
  - eapply aio_inv_ext; [| |exact Hi6]; [done|]. intros a ? _. unfold plus. repeat case_decide; lia.
  - eapply keeps_trans; [|exact K6]. eapply keeps_trans; [exact K2|]. eapply keeps_trans; [exact K3|].
    eapply keeps_trans; [apply keeps_freed|by apply keeps_woken].
  - by rewrite Q6.
Qed.

Lemma set_cancel_fn_ok h q s r x ctx :
  inv h q s -> kiocbs s !! r = Some x -> ki_ctx x = Ctx ctx ->
  exists s', kiocb_set_cancel_fn r s = Ret tt s' /\ inv h q s' /\ keeps s s' /\
    kiocbs s' = <[r := set_ki_linked true (set_ki_cancel can_cancel x)]> (kiocbs s).
Proof.
  intros Hi Hx Hk. destruct (ai_req _ _ _ _ Hi r x ctx Hx Hk) as [c Hc]. pose proof (ai_ctx _ _ _ _ Hi ctx c Hc) as Hci.
  unfold kiocb_set_cancel_fn. mrun (get_req_eq r x s Hx). rewrite Hk. set (x' := set_ki_linked true (set_ki_cancel can_cancel x)).
  assert (inv h q (put_req r x' s)) as Hi1 by by apply (inv_same_req ncpus h q s r x).
  destruct (ki_linked x) eqn:El.
  - unfold mbind at 1, M_bind at 1, mret at 1, M_ret at 1. rewrite (upd_req_eq r x _ s Hx).
    exists (put_req r x' s). split_and!; try done. keep.
  - mrun (upd_ctx_eq ctx c (fun c => set_active_reqs (r :: active_reqs c) c) s Hc).
    set (c' := set_active_reqs (r :: active_reqs c) c). rewrite (upd_req_eq r x _ (put_ctx ctx c' s) Hx).
    assert (r ∉ active_reqs c) as Hnr.
    { intros Hr. destruct (ci_active _ _ _ _ _ _ Hci r Hr) as (y & Hy & _ & Hl). congruence. }
    exists (put_ctx ctx c' (put_req r x' s)). split_and!; try done; [|apply (keeps_trans _ (put_req r x' s)); [keep|by apply (keeps_put_ctx _ ctx c)]].
    apply (inv_same_ctx ncpus h q _ ctx c); try done. ctx_field; simpl.
    + by constructor.
    + intros r' [->|Hr']%elem_of_cons; [|auto]. exists x'. rewrite lookup_insert_eq. by split_and!.
Qed.

(** ** Allocating a request *)

(** memory for an object, at an address that is not in use *)
Definition allocated (a : list bool) (n : nat) (s : aio) : aio := set_aaddr n (set_aallocs a s).

Lemma inv_allocated h q s a n : inv h q s -> (aaddr s <= n)%nat -> inv h q (allocated a n s).
Proof.
  intros [I1 I2 I3 I4 I5 I6 I7 I8 I9 I10 I11 I12 I13 I14] Hn. split; simpl; try done.
  - intros ctx c Hc. eapply ctx_inv_ext; [..|by apply I2]; eauto.
  - intros m Hm. apply I11. lia.
Qed.

Lemma kmem_zalloc_eq s :
  kmem_zalloc s = (if match aallocs s with [] => true | b :: _ => b end
    then Ret (Some (aaddr s)) (allocated (tail (aallocs s)) (S (aaddr s)) s)
    else Ret None (allocated (tail (aallocs s)) (aaddr s) s)).
Proof.
  unfold kmem_zalloc, mbind, M_bind, get, modify, mret, M_ret.
  destruct (match aallocs s with [] => true | b :: _ => b end); [done|by destruct s].
Qed.

Definition new_req (ctx : nat) : kiocb := Kiocb (Ctx ctx) no_cancel false None None 0 0 0 0 0.

(** what taking a request, or giving it back, may leave changed *)
Record recounted_only (ctx : nat) (s s' : aio) : Prop := RecountedOnly {
  ro_ctx : forall a c, ctxs s !! a = Some c -> exists v p, ctxs s' !! a = Some (recount v p c) /\
             (a <> ctx -> recount v p c = c) /\
             (slots_ok c -> slots_ok (recount v p c) /\ free_slots (recount v p c) = free_slots c);
  ro_reqs : kiocbs s' = kiocbs s;
  ro_files : iofiles s' = iofiles s;
  ro_eventfds : eventfds s' = eventfds s;
  ro_works : aio_works s' = aio_works s;
  ro_kern : akern s' = akern s
}.

Lemma recounted_put ctx s s' c v p :
  ctxs s !! ctx = Some c -> ctxs s' = <[ctx := recount v p c]> (ctxs s) ->
  (slots_ok c -> slots_ok (recount v p c) /\ free_slots (recount v p c) = free_slots c) -> kiocbs s' = kiocbs s ->
  iofiles s' = iofiles s -> eventfds s' = eventfds s -> aio_works s' = aio_works s -> akern s' = akern s -> recounted_only ctx s s'.
Proof.
  intros Hc E1 Es E2 E3 E4 E5 E6. split; try done. intros a d Hd. rewrite E1, lookup_insert. case_decide.
  - subst. assert (d = c) as -> by congruence. by exists v, p.
  - exists (reqs_available d), (pcpu d). rewrite recount_idem. done.
Qed.

Lemma held_due h s ctx c : ok h s -> ctxs s !! ctx = Some c -> 0 < h ctx -> due s ctx = 2.
Proof.
  intros Hi Hc Hh. pose proof (ci_users _ _ _ _ _ _ (ai_ctx _ _ _ _ Hi ctx c Hc)) as Hu. unfold due. rewrite Hc.
  destruct (users c =? 0) eqn:E; zbool; [|done]. destruct (dead c); lia.
Qed.

(** a slot taken and given back *)
Lemma slot_back v p v' p' c :
  (slots_ok c -> slots_ok (recount v p c) /\ free_slots (recount v p c) = free_slots c - 1) ->
  (slots_ok (recount v p c) -> 0 <= 1 -> free_slots (recount v p c) + 1 < nr_events c ->
   slots_ok (recount v' p' (recount v p c)) /\ free_slots (recount v' p' (recount v p c)) = free_slots (recount v p c) + 1) ->
  slots_ok c -> slots_ok (recount v' p' c) /\ free_slots (recount v' p' c) = free_slots c.
Proof.
  intros H1 H2 Hs. destruct (H1 Hs) as [S1 F1]. pose proof (so_free _ Hs).
  destruct (H2 S1) as [S2 F2]; [lia|lia|]. split; [exact S2|]. change (free_slots (recount v' p' c)) with (free_slots (recount v' p' (recount v p c))). lia.
Qed.

(** one more request, with its reference to the context *)
Lemma ok_new_req h s ctx c r :
  ok h s -> ctxs s !! ctx = Some c -> 0 < h ctx -> kiocbs s !! r = None -> (r < aaddr s)%nat ->
  let s' := put_req r (new_req ctx) (put_ctx ctx (set_reqs (reqs c + 1) c) s) in ok h s' /\ keeps s s'.
Proof.
  intros Hi Hc Hh Hr Hlt s'. pose proof (held_due h s ctx c Hi Hc Hh) as Hdue.
  set (c1 := set_reqs (reqs c + 1) c). set (s1 := put_ctx ctx c1 s).
  assert (keeps s s') as K by (apply (keeps_trans _ s1); [by apply (keeps_put_ctx s ctx c)|keep]).
  assert (inv (plus ctx 0 h) (plus ctx 1 (due s)) s1) as Hi1.
  { apply (inv_put_ctx ncpus h _ s ctx c); try done. pose proof (count_bounds (of_ctx ctx) (kiocbs s)) as Hn.
    rewrite Z.add_0_r. intros []. split; try done.
    - unfold c1; cbn [reqs set_reqs]. lia.
    - lia.
    - unfold c1; cbn [reqs set_reqs]. rewrite ci_work. unfold nreqs in *. split; intros; lia.
    - eapply ring_safe_ext; [..|eassumption]; done. }
  split; [|done]. apply (ok_keeps h s s'); [|done].
  eapply aio_inv_ext; [| |apply (inv_new_req ncpus _ _ s1 r ctx Hi1)]; try done.
  - intros a. unfold plus. case_decide; lia.
  - intros a ? _. unfold plus. repeat case_decide; lia.
  - exists c1. apply put_ctx_lookup.
  - rewrite plus_eq. lia.
Qed.

Lemma get_req_ok h s ctx c :
  ok h s -> ctxs s !! ctx = Some c -> 0 < h ctx ->
  exists o s', aio_get_req ctx s = Ret o s' /\ ok h s' /\ keeps s s' /\
    match o with
    | None => recounted_only ctx s s'
    | Some r => r = aaddr s /\ kiocbs s' = <[r := new_req ctx]> (kiocbs s) /\ iofiles s' = iofiles s /\ eventfds s' = eventfds s /\
        aio_works s' = aio_works s /\ akern s' = akern s /\
        exists v p, ctxs s' = <[ctx := set_reqs (reqs c + 1) (recount v p c)]> (ctxs s) /\
          (slots_ok c -> slots_ok (recount v p c) /\ free_slots (recount v p c) = free_slots c - 1)
    end.
Proof.
  intros Hi Hc Hh. unfold aio_get_req. unfold smp_processor_id, mbind at 1 2, M_bind at 1 2, get, mret at 1, M_ret at 1.
  destruct (get_slot_ok ncpus h _ s ctx c Hi Hc) as (b & v & p & E1 & Hi1 & Hsl). mrun E1. clear E1.
  set (s1 := put_ctx ctx (recount v p c) s) in *. assert (keeps s s1) as K1 by by apply (keeps_put_ctx s ctx c).
  assert (ok h s1) as Hok1 by by eapply ok_keeps.
  destruct b; cbn [negb].
  2: { exists None, s1. split_and!; [done..|]. apply (recounted_put ctx s s1 c v p); try done.
       intros Hs. by rewrite Z.sub_0_r in Hsl; apply Hsl. }
  assert (forall a n, (aaddr s1 <= n)%nat -> ok h (allocated a n s1) /\ keeps s (allocated a n s1)) as Hal.
  { intros a n Hn. split; [by apply (inv_allocated _ (due s1) s1)|]. apply (keeps_trans _ s1); [done|keep]. }
  mrun (kmem_zalloc_eq s1). destruct (match aallocs s1 with [] => true | b :: _ => b end).
  - set (r := aaddr s1). destruct (Hal (tail (aallocs s1)) (S r)) as [Hi2 K2]; [unfold r; lia|]. set (s2 := allocated _ _ s1) in *.
    assert (ctxs s2 !! ctx = Some (recount v p c)) as Hc2 by exact (put_ctx_lookup ctx (recount v p c) s).
    mrun (upd_ctx_eq ctx (recount v p c) (fun c => set_reqs (reqs c + 1) c) s2 Hc2).
    unfold mbind at 1, M_bind at 1, modify. set (c3 := set_reqs _ _).
    destruct (ok_new_req h s2 ctx (recount v p c) r Hi2 Hc2 Hh) as [Hi3 K3]; [by apply (ai_fresh _ _ _ _ Hi)|unfold s2; simpl; lia|].
    exists (Some r), (put_req r (new_req ctx) (put_ctx ctx c3 s2)). split_and!; try done; [by apply (keeps_trans _ s2)|].
    exists v, p. split; [|done]. unfold s2, s1; simpl. by rewrite insert_insert_eq.
  - destruct (Hal (tail (aallocs s1)) (aaddr s1)) as [Hi2 K2]; [done|]. set (s2 := allocated _ _ s1) in *.
    assert (ctxs s2 !! ctx = Some (recount v p c)) as Hc2 by exact (put_ctx_lookup ctx (recount v p c) s).
    destruct (put_slots_ok ncpus h _ s2 ctx _ 1 Hi2 Hc2) as (v' & p' & E3 & Hi3 & Hsl'). mrun E3.
    set (s3 := put_ctx ctx (recount v' p' (recount v p c)) s2) in *.
    assert (keeps s2 s3) as K3 by by apply (keeps_put_ctx s2 ctx (recount v p c)).
    exists None, s3. split_and!; [done|by eapply ok_keeps|by apply (keeps_trans _ s2)|].
    apply (recounted_put ctx s _ c v' p'); try done; [unfold s3, s2, s1; simpl; by rewrite insert_insert_eq|].
    intros Hs. by apply (slot_back v p).
Qed.
End Ops.
