(* ===== verification/AioLife.v ===== *)
(** * The life of an AIO context (fs/aio.c)

    io_setup(), the table of contexts, io_destroy() and exit_aio(), and the
    worker that frees a context: each keeps the invariant of AioInv.v.  The
    driver's cancel method is called with the context's lock held and
    interrupts off: it can only tell the device to stop, and neither
    completes a request nor starts one ([cancel_quiet]). *)

From S2P Require Import Prelude Wait Tasklet Cmgroup Sched CmWake CmInv CmTask CmOps CmSys CmLife CmAttach CmTop.
From S2P Require Import AioRing AioQueue AioFifo AioCtx AioInv AioOps.
Local Open Scope Z_scope.

Section Life.
Variable ncpus : nat.
#[local] Abbreviation inv := (aio_inv ncpus).
#[local] Abbreviation ok := (aio_ok ncpus).

Variable cancel : nat -> A Z.
Hypothesis cancel_quiet : forall r s, exists z, cancel r s = Ret z s.

(** ** The last user of a context *)

Lemma kiocb_cancel_ok h q s r x :
  inv h q s -> kiocbs s !! r = Some x ->
  exists z s', kiocb_cancel cancel r s = Ret z s' /\ inv h q s' /\ keeps s s' /\ ctxs s' = ctxs s.
Proof.
  intros Hi Hx. unfold kiocb_cancel. mrun (get_req_eq r x s Hx).
  destruct (ki_cancel x); try by (exists (- EINVAL), s; auto with kernel).
  mrun (upd_req_eq r x (set_ki_cancel KIOCB_CANCELLED) s Hx).
  destruct (cancel_quiet r (put_req r (set_ki_cancel KIOCB_CANCELLED x) s)) as [z E].
  eexists z, _. split_and!; [exact E|by apply (inv_same_req ncpus h q s r x)|keep|done].
Qed.

Lemma cancel_all_ok fuel : forall h q s ctx c,
  inv h q s -> ctxs s !! ctx = Some c -> (length (active_reqs c) < fuel)%nat ->
  exists s', cancel_all cancel fuel ctx s = Ret tt s' /\ inv h q s' /\ keeps s s' /\
    ctxs s' = <[ctx := set_active_reqs [] c]> (ctxs s).
Proof.
  induction fuel as [|fuel IH]; intros h q s ctx c Hi Hc Hf; [lia|].
  simpl. mrun (get_ctx_eq ctx c s Hc). destruct (active_reqs c) as [|r l] eqn:El; simpl in Hf.
  { exists s. split_and!; auto with kernel. rewrite <- El. rewrite insert_id; [done|]. by destruct c. }
  mrun (upd_ctx_eq ctx c (set_active_reqs l) s Hc). set (c1 := set_active_reqs l c). set (s1 := put_ctx ctx c1 s).
  destruct (ci_active _ _ _ _ _ _ (ai_ctx _ _ _ _ Hi ctx c Hc) r) as (x & Hx & _); [rewrite El; set_solver|].
  assert (inv h q s1) as Hi1.
  { apply (inv_same_ctx ncpus h q s ctx c); try done. ctx_field; simpl.
    - rewrite El in ci_nodup. apply NoDup_cons in ci_nodup. apply ci_nodup.
    - intros r' Hr'. apply ci_active. rewrite El. set_solver. }
  destruct (kiocb_cancel_ok h q s1 r x Hi1 Hx) as (z & s2 & E2 & Hi2 & K2 & C2). mrun E2.
  destruct (IH h q s2 ctx c1 Hi2) as (s' & E & Hi' & K' & C'); [rewrite C2; apply put_ctx_lookup|simpl; lia|].
  exists s'. split_and!; [done|done| |].
  - apply (keeps_trans _ s1); [by apply (keeps_put_ctx s ctx c)|]. by apply (keeps_trans _ s2).
  - rewrite C', C2. unfold s1; simpl. by rewrite insert_insert_eq.
Qed.

(** the two references that free_ioctx_users() drops *)
Lemma reqs_put_twice h q s ctx c :
  inv h q s -> ctxs s !! ctx = Some c -> q ctx = 2 ->
  exists s', (reqs_put ctx ;; reqs_put ctx) s = Ret tt s' /\ inv h (plus ctx (- 2) q) s' /\ keeps s s'.
Proof.
  intros Hi Hc Hq. destruct (reqs_put_ok ncpus h q s ctx c Hi Hc) as (s1 & E1 & Hi1 & K1 & _ & C1 & _); [lia|].
  destruct (reqs_put_ok ncpus h _ s1 ctx (set_reqs (reqs c - 1) c) Hi1) as (s2 & E2 & Hi2 & K2 & _).
  { rewrite C1. apply lookup_insert_eq. }
  { rewrite plus_eq. lia. }
  exists s2. split_and!; [by mrun E1| |by eapply keeps_trans].
  eapply aio_inv_ext; [| |exact Hi2]; [done|]. intros a ? _. unfold plus. case_decide; lia.
Qed.

Lemma free_ioctx_users_ok h q s ctx c :
  inv h q s -> ctxs s !! ctx = Some c -> q ctx = 2 ->
  exists s', free_ioctx_users cancel ctx s = Ret tt s' /\ inv h (plus ctx (- 2) q) s' /\ keeps s s'.
Proof.
  intros Hi Hc Hq. unfold free_ioctx_users. mrun (get_ctx_eq ctx c s Hc).
  destruct (cancel_all_ok (S (length (active_reqs c))) h q s ctx c Hi Hc ltac:(lia)) as (s1 & E1 & Hi1 & K1 & C1). mrun E1.
  destruct (reqs_put_twice h q s1 ctx (set_active_reqs [] c) Hi1) as (s2 & E2 & Hi2 & K2); [|done|].
  { rewrite C1. apply lookup_insert_eq. }
  exists s2. split_and!; [done|done|by eapply keeps_trans].
Qed.

(** dropping a reference that a system call holds *)
Lemma users_put_ok h s ctx c :
  ok h s -> ctxs s !! ctx = Some c -> 0 < h ctx ->
  exists s', users_put cancel ctx s = Ret tt s' /\ ok (plus ctx (- 1) h) s' /\ keeps (put_ctx ctx (set_users (users c - 1) c) s) s' /\
    (users c <> 1 -> s' = put_ctx ctx (set_users (users c - 1) c) s).
Proof.
  intros Hi Hc Hh. pose proof (held_due ncpus h s ctx c Hi Hc Hh) as Hdue.
  unfold users_put. mrun (get_ctx_eq ctx c s Hc). mrun (upd_ctx_eq ctx c (set_users (users c - 1)) s Hc).
  set (c1 := set_users (users c - 1) c). set (s1 := put_ctx ctx c1 s).
  assert (inv (plus ctx (- 1) h) (due s) s1) as Hi1.
  { eapply aio_inv_ext; [| |apply (inv_put_ctx ncpus h (due s) s ctx c c1 (- 1) 0)]; try done.
    - intros a ? _. unfold plus. case_decide; lia.
    - rewrite Z.add_0_r. ctx_field; unfold c1; cbn [users dead set_users]; lia. }
  assert (forall a, a <> ctx -> due s1 a = due s a) as Hne.
  { intros a Ha. unfold due, s1; simpl. by rewrite lookup_insert_ne. }
  assert (due s1 ctx = if users c - 1 =? 0 then 0 else 2) as Heq.
  { unfold due, s1. by rewrite put_ctx_lookup. }
  destruct (users c - 1 =? 0) eqn:Eu; zbool.
  - destruct (free_ioctx_users_ok _ _ s1 ctx c1 Hi1 (put_ctx_lookup _ _ _) Hdue) as (s2 & E2 & Hi2 & K2).
    exists s2. split_and!; [done| |done|lia].
    eapply aio_inv_ext; [| |exact Hi2]; [done|]. intros a ? _. rewrite (keeps_due s1 s2 a K2).
    destruct (decide (a = ctx)) as [->|]; [rewrite plus_eq; lia|]. rewrite plus_ne by done. by rewrite Hne.
  - exists s1. split_and!; auto with kernel. eapply aio_inv_ext; [| |exact Hi1]; [done|]. intros a ? _.
    destruct (decide (a = ctx)) as [->|]; [lia|]. by rewrite Hne.
Qed.

(** ** Looking a context up *)

Lemma lookup_ioctx_ok h s uid addr :
  ok h s -> (forall id, uid = Some id -> 0 <= id) ->
  exists o s', lookup_ioctx uid addr s = Ret o s' /\
    match o with
    | None => s' = s /\ ok h s
    | Some ctx => ok (plus ctx 1 h) s' /\ exists c, ctxs s !! ctx = Some c /\ dead c = false /\ user_id c = addr /\
                  s' = put_ctx ctx (set_users (users c + 1) c) s
    end.
Proof.
  intros Hi Hid. unfold lookup_ioctx. unfold mbind at 1, M_bind at 1, get.
  destruct uid as [id|]; [|by exists None, s]. destruct (ioctx_table s) as [t|] eqn:Et; [|by exists None, s].
  destruct (Z.of_nat (length t) <=? id); [by exists None, s|].
  destruct (t !! Z.to_nat id) as [[ctx|]|] eqn:El; [|by exists None, s..].
  destruct (ai_table _ _ _ _ Hi t _ ctx Et El) as (c & Hc & Hd & _). mrun (get_ctx_eq ctx c s Hc).
  destruct (user_id c =? addr) eqn:Ea; zbool; [|by exists None, s].
  mrun (upd_ctx_eq ctx c (set_users (users c + 1)) s Hc). set (c1 := set_users (users c + 1) c).
  exists (Some ctx), (put_ctx ctx c1 s). split; [done|]. split; [|by exists c].
  pose proof (ai_ctx _ _ _ _ Hi ctx c Hc) as Hci. pose proof (ci_users _ _ _ _ _ _ Hci) as Hu.
  pose proof (ci_held _ _ _ _ _ _ Hci). rewrite Hd in Hu.
  eapply aio_inv_ext; [| |apply (inv_put_ctx ncpus h (due s) s ctx c c1 1 0)]; try done.
  - intros a d _. unfold plus. unfold due, put_ctx; simpl. rewrite lookup_insert.
    destruct (decide (ctx = a)) as [->|]; [rewrite decide_True by done|by rewrite decide_False].
    rewrite Hc. unfold c1; cbn [users set_users]. destruct (users c =? 0) eqn:E1, (users c + 1 =? 0) eqn:E2; zbool; lia.
  - rewrite Z.add_0_r. ctx_field; unfold c1; cbn [users dead set_users]; lia.
Qed.

(** ** Killing a context *)

Lemma inv_mmaps h q s m : inv h q s -> inv h q (set_mmaps m s).
Proof.
  intros [I1 I2 I3 I4 I5 I6 I7 I8 I9 I10 I11 I12 I13 I14]. split; simpl; try done.
  intros ctx c Hc. eapply ctx_inv_ext; [..|by apply I2]; eauto.
Qed.

(** the context is dead and out of the table; the table's reference is the
    caller's until percpu_ref_kill() drops it *)
Definition killed (ctx : nat) (c : kioctx) (t : list (option nat)) (s : aio) : aio :=
  set_aio_nr (aio_nr s - max_reqs c)
    (set_ioctx_table (Some (<[Z.to_nat (ctx_id c) := None]> t)) (put_ctx ctx (set_dead true c) s)).

Lemma inv_killed h q s ctx c t :
  inv h q s -> ctxs s !! ctx = Some c -> dead c = false -> ioctx_table s = Some t ->
  inv (plus ctx 1 h) q (killed ctx c t s).
Proof.
  intros [I1 I2 I3 I4 I5 I6 I7 I8 I9 I10 I11 I12 I13 I14] Hc Hd Ht. destruct (I2 ctx c Hc) as [J1 J2 J3 J4 J5 J6 J7 J8 J9 J10 J11].
  destruct (J6 Hd) as (t' & Ht' & H0 & Hl). assert (t' = t) as -> by congruence.
  split; simpl; try done.
  - intros a d. rewrite lookup_insert. case_decide as E; [subst a; intros [= <-]|intros Hdd].
    + rewrite plus_eq. split; try done; [cbn [users dead set_dead]; rewrite Hd in J1; lia|lia|].
      eapply ring_safe_ext; [..|eassumption]; done.
    + rewrite plus_ne by done. eapply ctx_inv_ext; [..|by apply I2]; eauto.
      intros Hdead t1 Ht1 Hl1; simpl. assert (t1 = t) as -> by congruence. eexists. split; [done|].
      rewrite list_lookup_insert_ne; [done|]. intros E'. rewrite E' in Hl. congruence.
  - intros a. rewrite lookup_insert. case_decide; [done|]. intros Ha. rewrite plus_ne by done. by apply I3.
  - intros r x a Hx Hk. eapply is_Some_insert, I4; eauto.
  - intros t1 i a [= <-] Hi. apply list_lookup_insert_Some in Hi as [(? & ? & ?)|[Hne Hi]]; [done|].
    destruct (I7 t i a Ht Hi) as (d & Hdd & Hdd' & Hdi). rewrite lookup_insert_ne; [eauto|]. intros <-.
    assert (d = c) as -> by congruence. rewrite Hdi in Hne. lia.
  - destruct I8 as [N1 N2]. rewrite (total_insert _ _ _ c) by done. change (share (set_dead true c)) with 0.
    assert (share c = max_reqs c) as -> by (unfold share; by rewrite Hd). lia.
  - split; [apply I9|]. intros a Ha. by apply is_Some_insert, I9.
  - intros a g Ha. by eapply is_Some_insert, I10.
  - intros n Hn. destruct (I11 n Hn) as [H1 H2]. split; [|done]. rewrite lookup_insert_ne; [done|]. intros ->. congruence.
  - intros [= E]. apply (f_equal length) in E. rewrite length_insert in E. destruct t; [congruence|done].
Qed.

Lemma aio_nr_sub_eq n s : 0 <= n <= aio_nr s -> aio_nr s < 2 ^ 64 -> aio_nr_sub n s = Ret tt (set_aio_nr (aio_nr s - n) s).
Proof.
  intros Hn H64. unfold aio_nr_sub, mbind, M_bind, get, modify.
  assert (u64 (aio_nr s - n) = aio_nr s - n) as -> by (unfold u64; apply Z.mod_small; lia).
  by rewrite (proj2 (Z.ltb_ge _ _)) by lia.
Qed.

(** the share of a live context is part of [aio_nr] *)
Lemma share_le h q s ctx c : inv h q s -> ctxs s !! ctx = Some c -> dead c = false -> 0 <= max_reqs c <= aio_nr s.
Proof.
  intros Hi Hc Hd. rewrite (proj1 (ai_nr _ _ _ _ Hi)).
  assert (share c = max_reqs c) as <- by (unfold share; by rewrite Hd). eapply total_le; [|done].
  intros a d Ha. pose proof (ci_max _ _ _ _ _ _ (ai_ctx _ _ _ _ Hi a d Ha)). unfold share. destruct (dead d); lia.
Qed.

(** everything of kill_ioctx() before percpu_ref_kill() *)
Definition kill_prefix (ctx : nat) (c : kioctx) : A unit :=
  upd_ctx ctx (set_dead true) ;;
  s ← get;
  match ioctx_table s with
  | None => oops
  | Some table =>
      if Z.of_nat (length table) <=? ctx_id c then oops
      else modify (set_ioctx_table (Some (<[Z.to_nat (ctx_id c) := None]> table)))
  end ;;
  wake_ctx ctx ;;
  aio_nr_sub (max_reqs c) ;;
  (if mmap_size c =? 0 then mret tt
   else modify (fun s => set_mmaps (mmaps s ∖ {[user_id c]}) s)).

Lemma kill_ioctx_split ctx c s :
  ctxs s !! ctx = Some c -> dead c = false -> kill_ioctx cancel ctx s = (kill_prefix ctx c ;; users_put cancel ctx) s.
Proof.
  intros Hc Hd. unfold kill_ioctx, kill_prefix. mrun (get_ctx_eq ctx c s Hc). rewrite Hd.
  unfold mbind, M_bind. repeat (case_match; try done).
Qed.

Lemma kill_prefix_ok h s ctx c :
  ok h s -> ctxs s !! ctx = Some c -> dead c = false ->
  exists t w k m, ioctx_table s = Some t /\ kill_prefix ctx c s = Ret tt
      (set_mmaps m (woken_up ctx (set_dead true c) w k (killed ctx c t s))) /\
    ok (plus ctx 1 h) (set_mmaps m (woken_up ctx (set_dead true c) w k (killed ctx c t s))) /\ evolves (akern s) k.
Proof.
  intros Hi Hc Hd. pose proof (ai_ctx _ _ _ _ Hi ctx c Hc) as Hci.
  destruct (ci_table _ _ _ _ _ _ Hci Hd) as (t & Ht & H0 & Hl). pose proof (inv_killed h _ s ctx c t Hi Hc Hd Ht) as Hk.
  set (c1 := set_dead true c) in *. set (s1 := killed ctx c t s) in *.
  unfold kill_prefix. mrun (upd_ctx_eq ctx c (set_dead true) s Hc). fold c1.
  unfold mbind at 1, M_bind at 1, get. simpl ioctx_table. rewrite Ht.
  pose proof (lookup_lt_Some _ _ _ Hl) as Hlt. rewrite (proj2 (Z.leb_gt _ _)) by lia.
  unfold mbind at 1, M_bind at 1, modify at 1. set (s2 := set_ioctx_table _ _).
  destruct (wake_ctx_eq s2 ctx c1) as (k & w & E & Hk' & Hev & Hw); [apply Hi|apply put_ctx_lookup|apply Hci|].
  mrun E. pose proof (share_le h _ s ctx c Hi Hc Hd).
  mrun (aio_nr_sub_eq (max_reqs c) (woken_up ctx c1 w k s2) ltac:(done) ltac:(apply Hi)).
  set (m := if mmap_size c =? 0 then mmaps s else mmaps s ∖ {[user_id c]}).
  exists t, w, k, m. split_and!; [done| | |done].
  - unfold m. destruct (mmap_size c =? 0); [by destruct s|done].
  - eapply aio_inv_ext; [| |apply inv_mmaps, (inv_woken ncpus (plus ctx 1 h) (due s) s1 ctx c1 w k)]; try done.
    + intros a ? _. unfold due; simpl. rewrite !lookup_insert. case_decide; [|done]. subst. by rewrite Hc.
    + apply put_ctx_lookup.
Qed.

(** what kill_ioctx() leaves of the table *)
Lemma kill_ioctx_ok h s ctx c :
  ok h s -> ctxs s !! ctx = Some c ->
  exists s', kill_ioctx cancel ctx s = Ret tt s' /\ ok h s' /\ evolves (akern s) (akern s') /\ acurrent s' = acurrent s /\
    (forall a, is_Some (ctxs s !! a) -> is_Some (ctxs s' !! a)) /\
    if dead c then s' = s
    else exists t, ioctx_table s = Some t /\ ioctx_table s' = Some (<[Z.to_nat (ctx_id c) := None]> t) /\
                   aio_nr s' = aio_nr s - max_reqs c.
Proof.
  intros Hi Hc. destruct (dead c) eqn:Hd.
  { exists s. split_and!; auto using evolves_refl. unfold kill_ioctx. mrun (get_ctx_eq ctx c s Hc). by rewrite Hd. }
  rewrite (kill_ioctx_split ctx c s Hc Hd).
  destruct (kill_prefix_ok h s ctx c Hi Hc Hd) as (t & w & k & m & Ht & E1 & Hi1 & Hev). mrun E1.
  set (s1 := set_mmaps _ _) in *. set (c1 := set_waiters w (set_dead true c)).
  destruct (users_put_ok _ s1 ctx c1 Hi1) as (s2 & E2 & Hi2 & K2 & _).
  { unfold s1, woken_up, put_ctx; simpl. apply lookup_insert_eq. }
  { rewrite plus_eq. pose proof (ci_held _ _ _ _ _ _ (ai_ctx _ _ _ _ Hi ctx c Hc)). lia. }
  assert (acurrent s2 = acurrent s /\ ioctx_table s2 = ioctx_table s1 /\ aio_nr s2 = aio_nr s1) as (? & Et2 & En2)
    by (destruct K2; done).
  exists s2. split_and!; [done| |by eapply evolves_trans, K2|done| |].
  - eapply aio_inv_ext; [| |exact Hi2]; [|done]. intros a. unfold plus. case_decide; lia.
  - intros a Ha. apply (keeps_alive _ _ a K2). unfold s1, woken_up, killed, put_ctx; simpl.
    by repeat apply is_Some_insert.
  - exists t. by rewrite Et2, En2.
Qed.

(** ** The end of the process *)

(** an entry of the table that is empty, or beyond its end *)
Definition no_entry (s : aio) (i : nat) : Prop := forall t, ioctx_table s = Some t -> t !! i = None \/ t !! i = Some None.

Lemma inv_no_table h s :
  ok h s -> (forall i, no_entry s i) -> ok h (set_ioctx_table None s).
Proof.
  intros [I1 I2 I3 I4 I5 I6 I7 I8 I9 I10 I11 I12 I13 I14] Hn. split; try done.
  - intros a d Hd. change (due _ a) with (due s a). eapply ctx_inv_ext; [..|by apply I2]; eauto.
    intros _ t Ht Hl. destruct (Hn (Z.to_nat (ctx_id d)) t Ht); congruence.
Qed.

Lemma exit_from_ok fuel : forall h s i,
  ok h s -> (forall j, (j < i)%nat -> no_entry s j) ->
  (i <= length (default [] (ioctx_table s)) < fuel + i)%nat ->
  exists s', exit_from cancel fuel i s = Ret tt s' /\ ok h s' /\ ioctx_table s' = None.
Proof.
  induction fuel as [|fuel IH]; intros h s i Hi Hn Hf; [lia|]. simpl. unfold mbind at 1, M_bind at 1, get.
  destruct (ioctx_table s) as [t|] eqn:Et; simpl in *.
  2: { exists (set_ioctx_table None s). split_and!; try done. apply inv_no_table; [done|]. intros j t' Ht'. congruence. }
  destruct (t !! i) as [[ctx|]|] eqn:El.
  - destruct (ai_table _ _ _ _ Hi t i ctx Et El) as (c & Hc & Hd & Hid).
    mrun (upd_ctx_eq ctx c (set_mmap_size 0) s Hc). set (c1 := set_mmap_size 0 c). set (s1 := put_ctx ctx c1 s).
    assert (ok h s1) as Hi1.
    { eapply ok_keeps; [|by apply (keeps_put_ctx s ctx c)]. apply (inv_same_ctx ncpus h _ s ctx c); try done. ctx_field. }
    destruct (kill_ioctx_ok h s1 ctx c1 Hi1 (put_ctx_lookup _ _ _)) as (s2 & E2 & Hi2 & _ & _ & _ & H2). mrun E2.
    change (dead c1) with (dead c) in H2. rewrite Hd in H2. destruct H2 as (t' & Ht' & Ht2 & _).
    change (ioctx_table s1) with (ioctx_table s) in Ht'. assert (t' = t) as -> by congruence. change (ctx_id c1) with (ctx_id c) in Ht2. rewrite Hid, Nat2Z.id in Ht2.
    apply (IH h s2 (S i) Hi2).
    + intros j Hj t2 Ht2'. assert (t2 = <[i := None]> t) as -> by congruence.
      destruct (decide (i = j)) as [<-|]; [right; apply list_lookup_insert_eq; by eapply lookup_lt_Some|].
      rewrite list_lookup_insert_ne by done. apply (Hn j); [lia|done].
    + rewrite Ht2. simpl. rewrite length_insert. apply lookup_lt_Some in El. lia.
  - apply (IH h s (S i) Hi).
    + intros j Hj. destruct (decide (j = i)) as [->|]; [|apply Hn; lia]. intros t' Ht'. right. congruence.
    + rewrite Et. simpl. apply lookup_lt_Some in El. lia.
  - exists (set_ioctx_table None s). split_and!; try done. apply inv_no_table; [done|]. intros j.
    destruct (decide (j < i)%nat); [by apply Hn|]. intros t' Ht'. left. assert (t' = t) as -> by congruence.
    apply lookup_ge_None. apply lookup_ge_None in El. lia.
Qed.

(** ** The table of contexts *)

Lemma first_free_Some l i : first_free l = Some i -> l !! i = Some None.
Proof.
  revert i. induction l as [|[x|] l IH]; intros i; simpl; [done| |by intros [= <-]].
  destruct (first_free l) as [j|]; [|done]. intros [= <-]. by apply IH.
Qed.

Lemma first_free_grown l n : (0 < n)%nat -> is_Some (first_free (l ++ replicate n None)).
Proof.
  intros Hn. induction l as [|[x|] l IH]; simpl; [destruct n; [lia|by eexists]| |by eexists].
  destruct IH as [j ->]. by eexists.
Qed.

(** a table with the same contexts *)
Lemma inv_table h q s t' :
  inv h q s -> t' <> [] ->
  (forall i ctx, t' !! i = Some (Some ctx) <-> exists t, ioctx_table s = Some t /\ t !! i = Some (Some ctx)) ->
  inv h q (set_ioctx_table (Some t') s).
Proof.
  intros [I1 I2 I3 I4 I5 I6 I7 I8 I9 I10 I11 I12 I13 I14] Ht' Hsame. split; simpl; try done.
  - intros a d Hd. eapply ctx_inv_ext; [..|by apply I2]; eauto.
    intros _ t Ht Hl. exists t'. split; [done|]. apply Hsame. eauto.
  - intros t i ctx [= <-] Hl. apply Hsame in Hl as (t0 & Ht0 & Hl). eauto.
  - congruence.
Qed.

Lemma inv_grown h q s n :
  inv h q s -> (0 < n)%nat ->
  inv h q (set_ioctx_table (Some (default [] (ioctx_table s) ++ replicate n None)) s).
Proof.
  intros Hi Hn. apply inv_table; [done|by destruct (default [] (ioctx_table s)), n; try lia|].
  intros i ctx. rewrite lookup_app_Some, lookup_replicate. destruct (ioctx_table s) as [t|]; simpl.
  - split; [intros [?|(_ & ? & _)]; [by exists t|done]|]. intros (t0 & [= <-] & ?). by left.
  - split; [intros [?|(_ & ? & _)]; done|]. by intros (t0 & ? & _).
Qed.

(** the state with [ctx] at entry [i] *)
Definition entered (ctx i : nat) (t : list (option nat)) (c : kioctx) (s : aio) : aio :=
  set_ioctx_table (Some (<[i := Some ctx]> t)) (put_ctx ctx (set_r_id (Z.of_nat i) (set_ctx_id (Z.of_nat i) c)) s).

Lemma add_first n ctx c s t i :
  ioctx_table s = Some t -> first_free t = Some i ->
  ioctx_add_table (S n) ctx (put_ctx ctx c s) = Ret 0 (entered ctx i t c s).
Proof.
  intros Et Ef. simpl. unfold mbind at 1, M_bind at 1, get. change (ioctx_table (put_ctx ctx c s)) with (ioctx_table s).
  rewrite Et. simpl. rewrite Ef. mrun (upd_ctx_eq ctx c (set_ctx_id (Z.of_nat i)) _ (put_ctx_lookup ctx c s)).
  unfold mbind at 1, M_bind at 1, modify. set (c1 := set_ctx_id _ c). rewrite put_ctx_put.
  set (s1 := set_ioctx_table _ _). assert (ctxs s1 !! ctx = Some c1) as Hc1 by apply put_ctx_lookup.
  mrun (upd_ctx_eq ctx c1 (set_r_id (Z.of_nat i)) s1 Hc1). unfold entered, s1, put_ctx; simpl. by rewrite insert_insert_eq.
Qed.

(** the new table replaces the old one, four times its size *)
Definition grow (s : aio) (table : option (list (option nat))) : A unit :=
  let nr := ((match ioctx_table s with Some t => length t | None => 1 end) * 4)%nat in
  match table with
  | None => modify (set_ioctx_table (Some (replicate nr None)))
  | Some old =>
      if decide (length old < nr)%nat then modify (set_ioctx_table (Some (old ++ replicate (nr - length old) None))) else mret tt
  end.

Lemma table_grows s :
  ioctx_table s <> Some [] ->
  exists n, (0 < n)%nat /\ forall s1 : aio, ioctx_table s1 = ioctx_table s ->
    grow s (ioctx_table s1) s1 = Ret tt (set_ioctx_table (Some (default [] (ioctx_table s) ++ replicate n None)) s1).
Proof.
  intros Hs. unfold grow. destruct (ioctx_table s) as [t|]; simpl.
  - exists (length t * 4 - length t)%nat. assert (length t <> 0)%nat by (destruct t; simpl; congruence).
    split; [lia|]. intros s1 ->. by rewrite decide_True by lia.
  - exists 4%nat. split; [lia|]. by intros s1 ->.
Qed.

(** the context [ctx], not yet known to anybody, takes the first free entry *)
Lemma ioctx_add_table_ok h s ctx c :
  ioctx_table s <> Some [] ->
  exists e s1, (forall z, ok h (set_aio_nr z s) -> ok h (set_aio_nr z s1)) /\ ctxs s1 = ctxs s /\ akern s1 = akern s /\ aio_nr s1 = aio_nr s /\ (aaddr s <= aaddr s1)%nat /\
    ((e = - ENOMEM /\ ioctx_add_table 2 ctx (put_ctx ctx c s) = Ret e (put_ctx ctx c s1)) \/
     (e = 0 /\ exists t i, ioctx_table s1 = Some t /\ t !! i = Some None /\
      ioctx_add_table 2 ctx (put_ctx ctx c s) = Ret e (entered ctx i t c s1))).
Proof.
  intros Hs. destruct (ioctx_table s ≫= first_free) as [i|] eqn:Ef.
  { destruct (ioctx_table s) as [t|] eqn:Et; simpl in Ef; [|done].
    exists 0, s. split_and!; try done. right. split; [done|]. exists t, i. split_and!; [done|by apply first_free_Some|by apply add_first]. }
  destruct (table_grows s Hs) as (n & Hn & Hgrow). set (t1 := default [] (ioctx_table s) ++ replicate n None) in *.
  assert (forall z a m, (aaddr s <= m)%nat -> ok h (set_aio_nr z s) -> ok h (set_aio_nr z (allocated a m s))) as Hal.
  { intros z a m Hm Hi. eapply aio_inv_ext; [| |by apply (inv_allocated ncpus h _ (set_aio_nr z s) a m)]; done. }
  assert (forall n s', ioctx_table s' = ioctx_table s -> ioctx_add_table (S n) ctx s' = (a ← kmem_zalloc;
    match a with
    | None => mret (- ENOMEM)
    | Some _ => s1 ← get; grow s (ioctx_table s1) ;; ioctx_add_table n ctx
    end) s') as Hun.
  { intros m s' Es. unfold grow. simpl. unfold mbind at 1, M_bind at 1, get. rewrite Es, Ef. done. }
  destruct (match aallocs (put_ctx ctx c s) with [] => true | b :: _ => b end) eqn:Ea.
  - set (s2 := allocated (tail (aallocs s)) (S (aaddr s)) s). set (s3 := set_ioctx_table (Some t1) s2).
    destruct (first_free_grown (default [] (ioctx_table s)) n Hn) as [i Hf].
    exists 0, s3. split_and!; try done; [|simpl; lia|].
    + intros z Hi. apply (inv_grown h (due s) (set_aio_nr z s2) n); [apply Hal; [lia|done]|done].
    + right. split; [done|]. exists t1, i. split_and!; [done|by apply first_free_Some|].
      rewrite Hun by done. mrun (kmem_zalloc_eq (put_ctx ctx c s)). rewrite Ea. unfold mbind at 1, M_bind at 1, get.
      change (allocated _ _ (put_ctx ctx c s)) with (put_ctx ctx c s2). mrun (Hgrow (put_ctx ctx c s2) eq_refl).
      by apply (add_first 0 ctx c s3).
  - exists (- ENOMEM), (allocated (tail (aallocs s)) (aaddr s) s). split_and!; try done; [intros z; by apply Hal|]. left. split; [done|].
    rewrite Hun by done. mrun (kmem_zalloc_eq (put_ctx ctx c s)). by rewrite Ea.
Qed.
End Life.
