(* ===== verification/AioSetup.v ===== *)
(** * io_setup() and the freeing of a context (fs/aio.c)

    ioctx_alloc() on all its branches, io_setup(), io_destroy() and the
    worker that runs free_ioctx(). *)

From S2P Require Import Prelude Wait Tasklet Cmgroup Sched CmWake CmInv CmTask CmOps CmSys CmLife CmAttach CmTop.
From S2P Require Import AioRing AioQueue AioFifo AioCtx AioInv AioOps AioLife.
Local Open Scope Z_scope.

Section Setup.
Context `{WL : WaitLib}.
Variable ncpus : nat.
#[local] Abbreviation inv := (aio_inv ncpus).
#[local] Abbreviation ok := (aio_ok ncpus).

Variable cancel : nat -> A Z.
Hypothesis cancel_quiet : forall r s, exists z, cancel r s = Ret z s.

(** an unsigned sum that is not less than a summand did not wrap around *)
Lemma u64_no_wrap a b : 0 <= a < 2 ^ 64 -> 0 <= b < 2 ^ 64 -> a <= u64 (a + b) -> u64 (a + b) = a + b /\ a + b < 2 ^ 64.
Proof.
  intros Ha Hb H. unfold u64 in *. destruct (decide (a + b < 2 ^ 64)); [by rewrite Z.mod_small by lia|].
  rewrite <- (Z.mod_unique (a + b) (2 ^ 64) 1 (a + b - 2 ^ 64)) in H; lia.
Qed.

(** a context that nobody knows yet *)
Record newborn (nr : Z) (c : kioctx) : Prop := Newborn {
  nb_users : users c = 1;
  nb_reqs : reqs c = 1;
  nb_dead : dead c = false;
  nb_active : active_reqs c = [];
  nb_waiters : waiters c = [];
  nb_max : max_reqs c = nr;
  nb_nr : 0 <= nr < 2 ^ 32;
  nb_ring : ring_safe ncpus c
}.

Lemma no_reqs h q s ctx : inv h q s -> ctxs s !! ctx = None -> nreqs s ctx = 0.
Proof.
  intros Hi Hc. apply count_false. intros r x Hx. unfold of_ctx. apply bool_decide_eq_false. intros Hk.
  destruct (ai_req _ _ _ _ Hi r x ctx Hx Hk). congruence.
Qed.

(** the two references that ioctx_alloc() takes besides the initial ones *)
Definition published (c : kioctx) : kioctx := set_users (users c + 1) (set_reqs (reqs c + 1) c).

Lemma inv_entered h s ctx i t nr c :
  ok h s -> ctxs s !! ctx = None -> (ctx < aaddr s)%nat -> newborn nr c -> ioctx_table s = Some t -> t !! i = Some None ->
  aio_nr s + nr < 2 ^ 64 ->
  ok (plus ctx 1 h) (set_aio_nr (aio_nr s + nr) (entered ctx i t (published c) s)).
Proof.
  intros Hi Hc Hlt [B1 B2 B3 B4 B5 B6 B7 B8] Ht Hfree Hnr. pose proof (no_reqs h _ s ctx Hi Hc) as Hn0.
  destruct Hi as [I1 I2 I3 I4 I5 I6 I7 I8 I9 I10 I11 I12 I13 I14].
  set (s' := set_aio_nr _ _). set (c' := set_r_id (Z.of_nat i) (set_ctx_id (Z.of_nat i) (published c))).
  assert (due s' ctx = 2) as Hd1. { unfold due, s'; simpl. rewrite lookup_insert_eq. simpl. by rewrite B1. }
  assert (forall a, a <> ctx -> due s' a = due s a) as Hd2.
  { intros a Ha. unfold due, s'; simpl. by rewrite lookup_insert_ne. }
  split; try done.
  - intros a d. unfold s' at 1; simpl. rewrite lookup_insert. case_decide as E; [subst a; intros [= <-]|intros Hd].
    + rewrite plus_eq, Hd1, (I3 ctx Hc). split; try done; unfold s'; simpl; rewrite ?B1, ?B2, ?B3, ?B4, ?B5, ?B6; try done; try lia.
      * unfold nreqs in *; simpl. lia.
      * split; [|lia]. intros [d Hd]%I9. congruence.
      * intros _. eexists. split; [done|]. split; [lia|]. rewrite Nat2Z.id. apply list_lookup_insert_eq. by eapply lookup_lt_Some.
      * constructor.
      * intros r []%not_elem_of_nil.
      * intros r []%not_elem_of_nil.
      * eapply ring_safe_ext; [..|exact B8]; done.
    + rewrite plus_ne, Hd2 by done. eapply ctx_inv_ext; [..|by apply I2]; eauto.
      intros _ t1 Ht1 Hl1. assert (t1 = t) as -> by congruence. eexists. split; [done|].
      rewrite list_lookup_insert_ne; [done|]. intros ->. congruence.
  - intros a. unfold s' at 1; simpl. rewrite lookup_insert. case_decide; [done|]. intros Ha. rewrite plus_ne by done. by apply I3.
  - intros r x a Hx Hk. eapply is_Some_insert, I4; eauto.
  - intros t1 j a [= <-] Hl. unfold s'; simpl. apply list_lookup_insert_Some in Hl as [(<- & [= <-] & _)|[Hne Hl]].
    + rewrite lookup_insert_eq. exists c'. split_and!; try done.
    + destruct (I7 t j a Ht Hl) as (d & Hd & Hdd). rewrite lookup_insert_ne; [eauto|]. intros <-. congruence.
  - unfold s'; simpl. rewrite total_new by done. fold c'. assert (share c' = nr) as -> by (unfold share, c'; simpl; by rewrite B3).
    destruct I8. split; [lia|done].
  - split; [apply I9|]. intros a Ha. by apply is_Some_insert, I9.
  - intros a g Ha. by eapply is_Some_insert, I10.
  - intros n Hn. destruct (I11 n Hn) as [H1 H2]. split; [|done]. unfold s'; simpl. rewrite lookup_insert_ne; [done|]. intros <-. unfold s' in Hn; simpl in Hn. lia.
  - intros [= E]. apply (f_equal length) in E. rewrite length_insert in E. apply lookup_lt_Some in Hfree. simpl in E. lia.
Qed.

Variables (sizeof_kiocb aio_max_nr : Z).

(** what an attempt that failed leaves *)
Definition untouched (h : nat -> Z) (s s' : aio) : Prop := ok h s' /\ ctxs s' = ctxs s /\ aio_nr s' = aio_nr s.

Lemma err_ctx_eq s ctx c e :
  ctxs s !! ctx = None -> ioctx_err_ctx ctx e (put_ctx ctx c s) = Ret (inl e) s.
Proof.
  intros Hc. unfold ioctx_err_ctx. mrun (on_ctx_eq ctx c aio_free_ring tt _ _ (put_ctx_lookup ctx c s) eq_refl).
  unfold ioctx_err, mbind, M_bind, modify, mret, M_ret, put_ctx; simpl. do 2 f_equal.
  rewrite insert_insert_eq, delete_insert_id by done. by destruct s.
Qed.

(** ctx->cmgroup = NULL, for a context that has no group *)
Lemma detached_eq s ctx :
  aio_cmgroup (akern s) !! ctx = None ->
  lift_kern (modify (fun k => set_aio_cmgroup (delete ctx (aio_cmgroup k)) k)) s = Ret tt s.
Proof.
  intros Hg. unfold lift_kern, modify. rewrite delete_id by done. destruct s as [k]; simpl. by destruct k.
Qed.

(** the outcome of an allocation: [None] or the new context *)
Definition alloc_post (h : nat -> Z) (nr : Z) (s : aio) (r : Z + nat) (s' : aio) : Prop :=
  match r with
  | inl e => e < 0 /\ untouched h s s'
  | inr ctx => ok (plus ctx 1 h) s' /\ ctxs s !! ctx = None /\ aio_nr s' = aio_nr s + nr /\ akern s' = akern s /\
      exists c t i, ctxs s' !! ctx = Some c /\ users c = 2 /\ dead c = false /\ max_reqs c = nr /\
        ioctx_table s' = Some t /\ t !! i = Some (Some ctx) /\ ctx_id c = Z.of_nat i
  end.

Lemma publish_ok h s ctx nr c :
  ok h s -> ctxs s !! ctx = None -> (ctx < aaddr s)%nat -> newborn nr c ->
  exists r s', ioctx_publish aio_max_nr ctx nr (put_ctx ctx c s) = Ret r s' /\ alloc_post h nr s r s' /\
    (r = inl (- EAGAIN) \/ r = inl (- ENOMEM) \/ (r = inr ctx /\ exists d, ctxs s' !! ctx = Some d /\ user_id d = user_id c)).
Proof.
  intros Hi Hc Hlt Hb. pose proof (nb_nr _ _ Hb) as Hnr. destruct (ai_nr _ _ _ _ Hi) as [Ht H64].
  assert (0 <= aio_nr s) as Hpos.
  { rewrite Ht. apply total_nonneg. intros a d Hd. pose proof (ci_max _ _ _ _ _ _ (ai_ctx _ _ _ _ Hi a d Hd)).
    unfold share. destruct (dead d); lia. }
  unfold ioctx_publish. unfold mbind at 1, M_bind at 1, get. change (aio_nr (put_ctx ctx c s)) with (aio_nr s).
  destruct (_ || _) eqn:G; zbool.
  { exists (inl (- EAGAIN)), s. rewrite err_ctx_eq by done. split_and!; try done. by left. }
  assert (u64 (aio_nr s + nr) = aio_nr s + nr /\ aio_nr s + nr < 2 ^ 64) as [-> Hsum].
  { apply u64_no_wrap; lia. }
  unfold mbind at 1, M_bind at 1, modify at 1. set (s1 := set_aio_nr (aio_nr s + nr) s).
  change (set_aio_nr _ (put_ctx ctx c s)) with (put_ctx ctx c s1).
  change (upd_ctx ctx _) with (upd_ctx ctx published).
  mrun (upd_ctx_eq ctx c published (put_ctx ctx c s1) (put_ctx_lookup ctx c s1)). rewrite put_ctx_put.
  destruct (ioctx_add_table_ok ncpus h s1 ctx (published c)) as (e & s2 & Hok2 & C2 & K2 & N2 & A2 & H2); [apply Hi|].
  assert (ok h (set_aio_nr (aio_nr s) s2)) as Hi2 by (apply Hok2; by destruct s).
  set (s3 := set_aio_nr (aio_nr s) s2) in *.
  assert (ctxs s3 !! ctx = None) as Hc3 by (change (ctxs s3) with (ctxs s2); by rewrite C2).
  destruct H2 as [(-> & E)|(-> & t & i & Et & El & E)]; mrun E.
  - exists (inl (- ENOMEM)), s3. simpl (negb _).
    mrun (aio_nr_sub_eq nr (put_ctx ctx (published c) s2) ltac:(simpl; rewrite N2; simpl; lia) ltac:(simpl; rewrite N2; simpl; lia)).
    assert (aio_nr (put_ctx ctx (published c) s2) - nr = aio_nr s) as -> by (simpl; rewrite N2; simpl; lia).
    change (set_aio_nr (aio_nr s) _) with (put_ctx ctx (published c) s3). rewrite err_ctx_eq by done.
    split_and!; try done. right; by left.
  - simpl (negb _). set (s4 := entered ctx i t (published c) s2).
    assert (lift_kern (modify (fun k => set_aio_cmgroup (delete ctx (aio_cmgroup k)) k)) s4 = Ret tt s4) as E4.
    { apply detached_eq. change (akern s4) with (akern s2). rewrite K2.
      destruct (aio_cmgroup (akern s1) !! ctx) eqn:Eg; [|done]. destruct (ai_groups _ _ _ _ Hi _ _ Eg). congruence. }
    cbn iota. mrun E4. exists (inr ctx), s4. split_and!; [done| |].
    + assert (s4 = set_aio_nr (aio_nr s3 + nr) (entered ctx i t (published c) s3)) as ->.
      { unfold s4, s3, entered, put_ctx; simpl. assert (aio_nr s2 = aio_nr s + nr) as En by done. rewrite <- En. by destruct s2. }
      unfold alloc_post. split_and!; [|done|done|done|].
      * apply inv_entered; try done. unfold s3, s1 in *; simpl in *; lia.
      * eexists _, _, i. split; [apply lookup_insert_eq|]. destruct Hb. simpl. rewrite nb_users0.
        split_and!; try done. apply list_lookup_insert_eq. by eapply lookup_lt_Some.
    + right; right. split; [done|]. eexists. split; [apply lookup_insert_eq|]. done.
Qed.

Variables (file_ok array_ok : bool) (page_ok : nat -> bool) (mmap_addr : Z).
#[local] Abbreviation setup := (aio_setup_ring file_ok array_ok page_ok mmap_addr).

(** the ring of a context, as aio_setup_ring() and the counters leave it *)
Lemma with_ring_safe pages c :
  ring_lock c = false -> tail_idx c = 0 -> pcpu c = replicate ncpus 0 -> 0 <= max_reqs c <= 2 ^ 23 ->
  1 <= Z.of_nat ncpus < 2 ^ 20 ->
  Forall (fun p => length p = 128%nat) pages -> Z.of_nat (length pages) = (max_reqs c + 130) / 128 ->
  ring_safe ncpus (init_counters (Z.of_nat ncpus) (with_ring mmap_addr pages c)).
Proof.
  intros Hp Ht Hc Hm Hn Hall Hlen.
  pose proof (Z.div_mod (max_reqs c + 130) 128 ltac:(lia)). pose proof (Z.mod_pos_bound (max_reqs c + 130) 128 ltac:(lia)).
  rewrite <- Hlen in *. unfold init_counters, with_ring. split; simpl.
  - split; simpl; [lia|lia|done].
  - lia.
  - set (b := u32 (_ - 1 - 1)). destruct (_ <? 1) eqn:E; zbool; [lia|].
    split; [done|]. unfold b. rewrite (u32_id (_ - 1 - 1)), u32_id by lia.
    apply Z.div_lt_upper_bound; [lia|]. nia.
  - rewrite Hc. apply length_replicate.
  - rewrite Hc. apply Forall_replicate. lia.
  - done.
Qed.

Lemma err_eq s ctx c e : ctxs s !! ctx = None -> ioctx_err ctx e (put_ctx ctx c s) = Ret (inl e) s.
Proof.
  intros Hc. unfold ioctx_err, mbind, M_bind, modify, mret, M_ret, put_ctx; simpl. do 2 f_equal.
  rewrite delete_insert_id by done. by destruct s.
Qed.

(** the number of requests a context is made for; the multiplication wraps *)
Definition rounded (nr : Z) : Z := u32 (Z.max nr (u32 (Z.of_nat ncpus * 4)) * 2).

Definition alloc_result (h : nat -> Z) (nr : Z) (s : aio) (o : outcome aio (Z + nat)) : Prop :=
  exists r s', o = Ret r s' /\ alloc_post h nr s r s' /\
    (r = inl (- EINVAL) \/ r = inl (- EAGAIN) \/ r = inl (- ENOMEM) \/
     exists ctx d, r = inr ctx /\ ctxs s' !! ctx = Some d /\ user_id d = mmap_addr).

Lemma alloc_fails h nr s s' e :
  ok h s' -> ctxs s' = ctxs s -> aio_nr s' = aio_nr s -> e = - EINVAL \/ e = - EAGAIN \/ e = - ENOMEM ->
  alloc_result h nr s (Ret (inl e) s').
Proof.
  intros Hi Ec En He. exists (inl e), s'. split; [done|]. split; [|destruct He as [->|[->| ->]]; tauto].
  split; [destruct He as [->|[->| ->]]; done|]. by split_and!.
Qed.

(** alloc_percpu() and percpu_ref_init(), and what follows when they succeed *)
Lemma percpu_step h nr s ctx c (k : A (Z + nat)) :
  ok h s -> ctxs s !! ctx = None ->
  (forall a n, (aaddr s <= n)%nat -> ok h (allocated a n s) -> alloc_result h nr s (k (put_ctx ctx c (allocated a n s)))) ->
  alloc_result h nr s ((a ← kmem_zalloc; if bool_decide (a = None) then ioctx_err ctx (- ENOMEM) else k) (put_ctx ctx c s)).
Proof.
  intros Hi Hc Hk. mrun (kmem_zalloc_eq (put_ctx ctx c s)).
  assert (forall a n, (aaddr s <= n)%nat -> ok h (allocated a n s)) as Hal.
  { intros a n Hn. eapply aio_inv_ext; [| |by apply (inv_allocated ncpus h _ s a n)]; done. }
  destruct (match aallocs (put_ctx ctx c s) with [] => true | b :: _ => b end).
  - rewrite bool_decide_eq_false_2 by done. apply (Hk (tail (aallocs s)) (S (aaddr s))); [lia|]. apply Hal. lia.
  - rewrite bool_decide_eq_true_2 by done. change (allocated _ _ (put_ctx ctx c s)) with (put_ctx ctx c (allocated (tail (aallocs s)) (aaddr s) s)).
    rewrite err_eq by done. apply alloc_fails; try done; [by apply Hal|tauto].
Qed.

Definition blank (nr : Z) : kioctx := Kioctx 1 false 1 0 [] 0 nr 0 0 [] false 0 [] false [] 0 0 0 0 0 0.

Lemma ring_step h nr s ctx :
  ok h s -> 1 <= Z.of_nat ncpus < 2 ^ 20 -> ctxs s !! ctx = None -> (ctx < aaddr s)%nat -> 0 <= nr <= 2 ^ 23 ->
  alloc_result h nr s
    ((upd_ctx ctx (set_pcpu (replicate (Z.to_nat (Z.of_nat ncpus)) 0)) ;;
      e ← on_ctx ctx setup;
      if e <? 0 then ioctx_err ctx (- ENOMEM) else
      c ← get_ctx ctx;
      modify (fun s => set_mmaps ({[user_id c]} ∪ mmaps s) s) ;;
      upd_ctx ctx (init_counters (Z.of_nat ncpus)) ;;
      ioctx_publish aio_max_nr ctx nr) (put_ctx ctx (blank nr) s)).
Proof.
  intros Hi Hn Hc Hlt Hm. mrun (upd_ctx_eq ctx (blank nr) (set_pcpu (replicate (Z.to_nat (Z.of_nat ncpus)) 0)) _ (put_ctx_lookup _ _ s)).
  rewrite put_ctx_put, Nat2Z.id. set (c := set_pcpu _ (blank nr)).
  destruct (setup_ring_eq file_ok array_ok page_ok mmap_addr c) as (e & c' & E & He); [simpl; lia|done|].
  mrun (on_ctx_eq ctx c setup e c' _ (put_ctx_lookup ctx c s) E). rewrite put_ctx_put.
  destruct He as [(-> & pages & -> & Hp & Hlen)|(He & _)].
  2: { rewrite (proj2 (Z.ltb_lt e 0)) by done. rewrite err_eq by done. apply alloc_fails; try done. tauto. }
  set (c1 := with_ring mmap_addr pages c) in *. change (0 <? 0) with false. cbn iota.
  mrun (get_ctx_eq ctx c1 _ (put_ctx_lookup ctx c1 s)).
  unfold mbind at 1, M_bind at 1, modify at 1. set (s1 := set_mmaps ({[user_id c1]} ∪ mmaps s) s).
  change (set_mmaps _ (put_ctx ctx c1 s)) with (put_ctx ctx c1 s1).
  mrun (upd_ctx_eq ctx c1 (init_counters (Z.of_nat ncpus)) _ (put_ctx_lookup ctx c1 s1)). rewrite put_ctx_put.
  destruct (publish_ok h s1 ctx nr (init_counters (Z.of_nat ncpus) c1)) as (r & s' & E' & Hp' & Hr).
  - by apply inv_mmaps.
  - done.
  - done.
  - split; try done; [lia|]. by apply with_ring_safe.
  - exists r, s'. split_and!; [done|done|]. destruct Hr as [->|[->|[-> (d & Hd & Hu)]]]; [tauto..|]. do 3 right. exists ctx, d. by split_and!.
Qed.

Lemma ioctx_alloc_ok h s nr :
  ok h s -> 1 <= Z.of_nat ncpus < 2 ^ 20 ->
  alloc_result h (rounded nr) s (ioctx_alloc sizeof_kiocb (Z.of_nat ncpus) aio_max_nr setup nr s).
Proof.
  intros Hi Hn. unfold ioctx_alloc. fold (rounded nr). set (m := rounded nr).
  destruct (_ || _) eqn:G1; zbool; [apply alloc_fails; tauto|].
  destruct ((m =? 0) || _) eqn:G2; zbool; [apply alloc_fails; tauto|].
  assert (0 <= m <= 2 ^ 23) as Hm. { pose proof (u32_range (Z.max nr (u32 (Z.of_nat ncpus * 4)) * 2)). unfold m, rounded in *. 
    change (268435456 / sizeof_io_event) with (2 ^ 23) in *. lia. }
  assert (forall a n, (aaddr s <= n)%nat -> ok h (allocated a n s)) as Hal.
  { intros a n Hn'. eapply aio_inv_ext; [| |by apply (inv_allocated ncpus h _ s a n)]; done. }
  mrun (kmem_zalloc_eq s). destruct (match aallocs s with [] => true | b :: _ => b end).
  2: { apply alloc_fails; try done; [by apply Hal|tauto]. }
  set (ctx := aaddr s). assert (ctxs s !! ctx = None) as Hc by by apply (ai_fresh _ _ _ _ Hi).
  unfold mbind at 1, M_bind at 1, modify at 1. set (s1 := allocated _ _ s). change (set_ctxs _ s1) with (put_ctx ctx (blank m) s1).
  change (alloc_result h m s) with (alloc_result h m s1).
  apply percpu_step; [apply Hal; lia|done|]. intros a2 n2 Hn2 Hi2. set (s2 := allocated a2 n2 s1) in *.
  change (alloc_result h m s1) with (alloc_result h m s2).
  apply percpu_step; [done|done|]. intros a3 n3 Hn3 Hi3. set (s3 := allocated a3 n3 s2) in *.
  change (alloc_result h m s2) with (alloc_result h m s3).
  apply percpu_step; [done|done|]. intros a4 n4 Hn4 Hi4. set (s4 := allocated a4 n4 s3) in *.
  change (alloc_result h m s3) with (alloc_result h m s4).
  apply ring_step; try done. unfold s4, s3, s2, s1, ctx in *; simpl in *. lia.
Qed.

(** ** io_setup() and io_destroy() *)

Lemma ok_shift h s ctx a b : ok (plus ctx a (plus ctx b h)) s -> a + b = 0 -> ok h s.
Proof.
  intros Hi Hab. eapply aio_inv_ext; [| |exact Hi]; [|done]. intros x. unfold plus. case_decide; lia.
Qed.

Lemma sys_io_setup_ok h s nr ctxp put_ok :
  ok h s -> 1 <= Z.of_nat ncpus < 2 ^ 20 ->
  exists r s', sys_io_setup cancel sizeof_kiocb (Z.of_nat ncpus) aio_max_nr setup nr ctxp put_ok s = Ret r s' /\ ok h s' /\
    (r = 0 -> put_ok = true /\ exists ctx c t i, ctxs s !! ctx = None /\ ctxs s' !! ctx = Some c /\ dead c = false /\ users c = 1 /\
       user_id c = mmap_addr /\ max_reqs c = rounded nr /\ ioctx_table s' = Some t /\ t !! i = Some (Some ctx) /\ ctx_id c = Z.of_nat i /\
       aio_nr s' = aio_nr s + rounded nr) /\
    (r <> 0 -> aio_nr s' = aio_nr s).
Proof.
  intros Hi Hn. unfold sys_io_setup. destruct ctxp as [p|]; [|by exists (- EFAULT), s].
  destruct (negb (p =? 0) || (nr =? 0)); [by exists (- EINVAL), s|].
  destruct (ioctx_alloc_ok h s nr Hi Hn) as (r & s1 & E1 & Hr & Hcode). mrun E1. destruct r as [e|ctx].
  { destruct Hr as (He & Hi1 & _ & En). exists e, s1. split_and!; try done. lia. }
  destruct Hr as (Hi1 & Hc0 & En & Ek & c & t & i & Hc & Hu & Hd & Hm & Ht & Hl & Hid).
  destruct Hcode as [|[|[|(ctx' & d & [= <-] & Hd' & Haddr)]]]; try done. assert (d = c) as -> by congruence.
  assert (0 <= h ctx) as Hh0 by (rewrite (ai_gone _ _ _ _ Hi ctx Hc0); lia).
  destruct put_ok.
  - unfold mbind at 1, M_bind at 1, mret at 1, M_ret at 1.
    destruct (users_put_ok ncpus cancel cancel_quiet _ s1 ctx c Hi1 Hc) as (s2 & E2 & Hi2 & _ & Es2); [rewrite plus_eq; lia|].
    mrun E2. rewrite (Es2 ltac:(lia)) in *. eexists 0, _. split_and!; [done|by eapply ok_shift| |done].
    intros _. split; [done|]. exists ctx, (set_users (users c - 1) c), t, i.
    rewrite put_ctx_lookup. split_and!; try done. simpl. lia.
  - destruct (kill_ioctx_ok ncpus cancel cancel_quiet _ s1 ctx c Hi1 Hc) as (s2 & E2 & Hi2 & _ & _ & Halive & H2).
    mrun E2. rewrite Hd in H2. destruct H2 as (t' & _ & _ & En2). destruct (Halive ctx ltac:(eauto)) as [c2 Hc2].
    destruct (users_put_ok ncpus cancel cancel_quiet _ s2 ctx c2 Hi2 Hc2) as (s3 & E3 & Hi3 & K3 & _); [rewrite plus_eq; lia|].
    mrun E3. eexists (- EFAULT), _. split_and!; [done|by eapply ok_shift|done|].
    intros _. rewrite (kp_nr _ _ K3). simpl. rewrite En2, En. unfold rounded in *. lia.
Qed.

Lemma sys_io_destroy_ok h s uid addr :
  ok h s -> (forall id, uid = Some id -> 0 <= id) ->
  exists r s', sys_io_destroy cancel uid addr s = Ret r s' /\ ok h s' /\ (r = 0 \/ r = - EINVAL /\ s' = s).
Proof.
  intros Hi Hid. unfold sys_io_destroy. destruct (lookup_ioctx_ok ncpus h s uid addr Hi Hid) as (o & s1 & E1 & H1). mrun E1.
  destruct o as [ctx|]; [|destruct H1 as [-> _]; exists (- EINVAL), s; auto].
  destruct H1 as (Hi1 & c & Hc & Hd & _ & ->). set (c1 := set_users (users c + 1) c) in *.
  destruct (kill_ioctx_ok ncpus cancel cancel_quiet _ _ ctx c1 Hi1 (put_ctx_lookup _ _ _)) as (s2 & E2 & Hi2 & _ & _ & Halive & _). mrun E2.
  destruct (Halive ctx) as [c2 Hc2]; [eexists; apply put_ctx_lookup|].
  destruct (users_put_ok ncpus cancel cancel_quiet _ s2 ctx c2 Hi2 Hc2) as (s3 & E3 & Hi3 & _).
  { rewrite plus_eq. pose proof (ci_held _ _ _ _ _ _ (ai_ctx _ _ _ _ Hi ctx c Hc)). lia. }
  mrun E3. exists 0, s3. split_and!; [done|by eapply ok_shift|by left].
Qed.

End Setup.

(** ** The worker *)

Section Worker.
Context `{WL : WaitLib}.
Variable ncpus : nat.
#[local] Abbreviation ok := (aio_ok ncpus).
Variables (msleep : K unit) (lockout : nat).

(** the group of a context can be detached at once (otherwise
    cmgroup_detach() waits for that) *)
Definition ctx_quiet (s : aio) (ctx : nat) : Prop :=
  forall g, aio_cmgroup (akern s) !! ctx = Some g -> quiet (akern s) g.

(** a context whose work is scheduled has no reference left *)
Lemma scheduled_unused h s ctx c :
  ok h s -> ctxs s !! ctx = Some c -> ctx ∈ aio_works s ->
  h ctx = 0 /\ dead c = true /\ nreqs s ctx = 0 /\ users c = 0 /\ due s ctx = 0.
Proof.
  intros Hi Hc Hw. destruct (ai_ctx _ _ _ _ Hi ctx c Hc) as [J1 J2 J3 J4 J5 _ _ _ _ _ _].
  apply J5 in Hw. assert (0 <= nreqs s ctx) by apply count_bounds.
  assert (due s ctx = 0 /\ nreqs s ctx = 0) as [Hd Hn] by lia. pose proof Hd as Hd'.
  unfold due in Hd'. rewrite Hc in Hd'. destruct (users c =? 0) eqn:E; zbool; [|done].
  destruct (dead c); split_and!; try done; lia.
Qed.

Lemma inv_free h s ctx c l k' :
  ok h s -> ctxs s !! ctx = Some c -> aio_works s = ctx :: l ->
  sys_ok k' -> aio_cmgroup k' = delete ctx (aio_cmgroup (akern s)) ->
  tasks k' = tasks (akern s) -> this_cpu k' = this_cpu (akern s) ->
  ok h (set_ctxs (delete ctx (ctxs s)) (set_akern k' (set_aio_works l s))).
Proof.
  intros Hi Hc Hw Hk Eg Et Ecpu. destruct (scheduled_unused h s ctx c Hi Hc) as (Hh & Hd & Hn & _); [rewrite Hw; set_solver|].
  destruct Hi as [I1 I2 I3 I4 I5 I6 I7 I8 I9 I10 I11 I12 I13 I14]. set (s' := set_ctxs _ _).
  assert (ctx ∉ l /\ NoDup l) as [Hnl Hnd] by (apply NoDup_cons; rewrite <- Hw; apply I9).
  assert (forall a, a <> ctx -> is_Some (ctxs s !! a) -> is_Some (ctxs s' !! a)) as Hs.
  { intros a Ha Hsome. unfold s'; simpl. by rewrite lookup_delete_ne. }
  split; try done.
  - intros a d Hda. unfold s' in Hda; simpl in Hda. apply lookup_delete_Some in Hda as [Hne Hda]. assert (due s' a = due s a) as ->.
    { unfold due, s'; simpl. by rewrite lookup_delete_ne. }
    eapply ctx_inv_ext; [..|by apply I2]; eauto; unfold s'; simpl; [|by rewrite Et]. rewrite Hw. set_solver.
  - intros a Ha. unfold s' in Ha; simpl in Ha. apply lookup_delete_None in Ha as [->|Ha]; [done|by apply I3].
  - intros r x a Hx Hka. apply Hs; [|by eapply I4]. intros ->.
    pose proof (count_zero _ _ Hn r x Hx) as Hz. unfold of_ctx in Hz. apply bool_decide_eq_false in Hz. done.
  - intros t i a Ht Hl. destruct (I7 t i a Ht Hl) as (d & Hda & Hdd & Hid). exists d. split; [|done].
    unfold s'; simpl. rewrite lookup_delete_ne; [done|]. intros <-. congruence.
  - unfold s'; simpl. destruct I8 as [N1 N2]. split; [|done]. rewrite N1, (total_lookup _ _ _ _ Hc).
    assert (share c = 0) as -> by (unfold share; by rewrite Hd). lia.
  - split; [done|]. intros a Ha. apply Hs; [by intros ->|]. apply I9. rewrite Hw. set_solver.
  - intros a g. unfold s'; simpl. rewrite Eg. intros [Hne Ha]%lookup_delete_Some. rewrite lookup_delete_ne by done. by eapply I10.
  - intros n Hn'. destruct (I11 n Hn') as [H1 H2]. split; [|done]. unfold s'; simpl. rewrite lookup_delete. by case_decide.
  - unfold s'; simpl. by rewrite Ecpu.
  - unfold s'; simpl. by rewrite Et.
Qed.

Lemma run_free_ioctx_ok h s :
  ok h s -> (forall ctx, ctx ∈ aio_works s -> ctx_quiet s ctx) ->
  exists s', run_free_ioctx msleep (S lockout) s = Ret tt s' /\ ok h s' /\ aio_works s' = tail (aio_works s) /\
    match aio_works s with [] => s' = s | ctx :: _ => ctxs s' = delete ctx (ctxs s) end.
Proof.
  intros Hi Hq. unfold run_free_ioctx. unfold mbind at 1, M_bind at 1, get.
  destruct (aio_works s) as [|ctx l] eqn:Ew; [exists s; by split_and!|].
  destruct (proj2 (ai_works _ _ _ _ Hi) ctx) as [c Hc]; [rewrite Ew; set_solver|].
  unfold mbind at 1, M_bind at 1, modify at 1. unfold free_ioctx.
  set (s1 := set_aio_works l s). mrun (on_ctx_eq ctx c aio_free_ring tt _ s1 Hc eq_refl).
  destruct (sys_free_ioctx msleep (akern s) ctx lockout (ai_sys _ _ _ _ Hi)) as (k' & E & Hk' & Eg & Et & Ecpu).
  { apply Hq. set_solver. }
  unfold mbind at 1, M_bind at 1, lift_kern. change (akern (put_ctx _ _ s1)) with (akern s). rewrite E.
  exists (set_ctxs (delete ctx (ctxs s)) (set_akern k' s1)).
  split_and!; [|by apply (inv_free h s ctx c l k')|done|done].
  unfold modify, put_ctx; simpl. by rewrite delete_insert_eq.
Qed.
End Worker.
