(* ===== verification/AioSubmit.v ===== *)
(** * Submitting, cancelling and reading (fs/aio.c)

    io_submit_one() on all its branches.  What drivers and file systems do
    while one of their methods runs is a sequence of the two calls they have:
    kiocb_set_cancel_fn() and aio_complete(), on any requests ([drv]). *)

From S2P Require Import Prelude Wait Tasklet Cmgroup Sched CmWake CmInv CmTask CmOps CmSys CmLife CmAttach CmTop.
From S2P Require Import AioRing AioQueue AioFifo AioCtx AioInv AioOps AioLife AioSetup.
Local Open Scope Z_scope.

(** ** Drivers *)

Inductive drv : aio -> aio -> Prop :=
  | drv_done s : drv s s
  | drv_set_cancel_fn s r x ctx s1 s2 :
      kiocbs s !! r = Some x -> ki_ctx x = Ctx ctx -> kiocb_set_cancel_fn r s = Ret tt s1 -> drv s1 s2 -> drv s s2
  | drv_complete s r x ctx res res2 s1 s2 :
      kiocbs s !! r = Some x -> ki_ctx x = Ctx ctx -> aio_complete r res res2 s = Ret tt s1 -> drv s1 s2 -> drv s s2.

Section Submit.
Variable ncpus : nat.
#[local] Abbreviation inv := (aio_inv ncpus).
#[local] Abbreviation ok := (aio_ok ncpus).

Lemma drv_ok s s' : drv s s' -> forall h, ok h s -> ok h s' /\ keeps s s'.
Proof.
  induction 1 as [s|s r x ctx s1 s2 Hx Hk E _ IH|s r x ctx res res2 s1 s2 Hx Hk E _ IH]; intros h Hi.
  - split; [done|apply keeps_refl].
  - destruct (set_cancel_fn_ok ncpus h _ s r x ctx Hi Hx Hk) as (s1' & E' & Hi1 & K1 & _).
    assert (s1' = s1) as -> by congruence. destruct (IH h) as [Hi2 K2]; [by eapply ok_keeps|].
    split; [done|by eapply keeps_trans].
  - destruct (aio_complete_ok ncpus h _ s r x ctx res res2 Hi Hx Hk) as (s1' & E' & Hi1 & K1 & _).
    assert (s1' = s1) as -> by congruence. destruct (IH h) as [Hi2 K2]; [by eapply ok_keeps|].
    split; [done|by eapply keeps_trans].
Qed.

(** the contract of a method: it returns, and unless it returns
    -EIOCBQUEUED the request is still the caller's to complete *)
Definition method_ok (op : nat -> A Z) : Prop :=
  forall h s r x ctx, ok h s -> kiocbs s !! r = Some x -> ki_ctx x = Ctx ctx ->
    exists z s', op r s = Ret z s' /\ drv s s' /\
      (z <> - EIOCBQUEUED -> exists x', kiocbs s' !! r = Some x' /\ ki_ctx x' = Ctx ctx).

Variables
  (access_ok : bool -> Z -> Z -> bool)
  (copy_check_uvector : bool -> bool -> Z -> Z -> Z)
  (rw_verify_area : bool -> nat -> Z -> Z -> Z)
  (rw_op : bool -> nat -> A Z)
  (fsync_op : bool -> nat -> A Z).
Hypothesis rw_ok : forall w, method_ok (rw_op w).
Hypothesis fsync_ok : forall d, method_ok (fsync_op d).

(** a request before its method runs *)
Record unstarted (s : aio) (r ctx : nat) (x : kiocb) : Prop := Unstarted {
  us_req : kiocbs s !! r = Some x;
  us_ctx : ki_ctx x = Ctx ctx;
  us_linked : ki_linked x = false
}.

(** only fields of the request differ *)
Definition same_but_req (r : nat) (s s' : aio) : Prop := exists x, s' = put_req r x s.

Lemma put_req_put r x y s : put_req r y (put_req r x s) = put_req r y s.
Proof. unfold put_req; simpl. by rewrite insert_insert_eq. Qed.
Lemma put_req_id r x s : kiocbs s !! r = Some x -> put_req r x s = s.
Proof. intros Hx. unfold put_req. rewrite insert_id by done. by destruct s. Qed.

Lemma run_done_ok h s r x ctx ret :
  ok h s -> (ret <> - EIOCBQUEUED -> kiocbs s !! r = Some x /\ ki_ctx x = Ctx ctx) ->
  exists s', run_done r ret s = Ret 0 s' /\ ok h s' /\ keeps s s'.
Proof.
  intros Hi Hx. unfold run_done. destruct (ret =? - EIOCBQUEUED) eqn:E; zbool.
  { exists s. split_and!; try done. apply keeps_refl. }
  destruct (Hx E) as [Hx' Hk]. match goal with |- context [aio_complete r ?z 0] => set (ret' := z) end.
  destruct (aio_complete_ok ncpus h _ s r x ctx ret' 0 Hi Hx' Hk) as (s' & E' & Hi' & K' & _). mrun E'.
  exists s'. split_and!; try done. by eapply ok_keeps.
Qed.

(** running the method and completing the request *)
Lemma run_method_ok h s r x ctx op :
  method_ok op -> ok h s -> kiocbs s !! r = Some x -> ki_ctx x = Ctx ctx ->
  exists s', (ret ← op r; run_done r ret) s = Ret 0 s' /\ ok h s' /\ keeps s s'.
Proof.
  intros Hop Hi Hx Hk. destruct (Hop h s r x ctx Hi Hx Hk) as (z & s1 & E1 & D1 & H1). mrun E1.
  destruct (drv_ok s s1 D1 h Hi) as [Hi1 K1]. destruct (decide (z = - EIOCBQUEUED)) as [Ez|Ez].
  - destruct (run_done_ok h s1 r x ctx z Hi1) as (s2 & E2 & Hi2 & K2); [done|].
    exists s2. split_and!; [done|done|by eapply keeps_trans].
  - destruct (H1 Ez) as (x' & Hx' & Hk'). destruct (run_done_ok h s1 r x' ctx z Hi1) as (s2 & E2 & Hi2 & K2); [done|].
    exists s2. split_and!; [done|done|by eapply keeps_trans].
Qed.

(** what aio_run_iocb() does: the request has been started, or it is refused
    and at most its length differs *)
Definition run_post (h : nat -> Z) (r : nat) (x : kiocb) (s : aio) (o : outcome aio Z) : Prop :=
  exists ret s', o = Ret ret s' /\
    ((ret = 0 /\ ok h s' /\ keeps s s') \/ (ret < 0 /\ exists n, s' = put_req r (set_ki_nbytes n x) s)).

Lemma run_refused h r x s ret : kiocbs s !! r = Some x -> ret < 0 -> run_post h r x s (Ret ret s).
Proof.
  intros Hx Hr. exists ret, s. split; [done|]. right. split; [done|]. exists (ki_nbytes x).
  rewrite put_req_id; [done|]. rewrite Hx. by destruct x.
Qed.

Lemma run_started h r x s s' : ok h s' -> keeps s s' -> run_post h r x s (Ret 0 s').
Proof. intros Hi K. exists 0, s'. split; [done|]. by left. Qed.

Lemma ok_put_req h s r x x' :
  ok h s -> kiocbs s !! r = Some x -> ki_ctx x' = ki_ctx x -> ki_filp x' = ki_filp x ->
  ki_eventfd x' = ki_eventfd x -> (ki_linked x = true -> ki_linked x' = true) -> ok h (put_req r x' s).
Proof.
  intros Hi Hx E1 E2 E3 E4. eapply aio_inv_ext; [| |by apply (inv_same_req ncpus h _ s r x x')]; done.
Qed.

(** the file of a request is there *)
Lemma req_file h s r x f : ok h s -> kiocbs s !! r = Some x -> ki_filp x = Some f -> is_Some (iofiles s !! f).
Proof.
  intros Hi Hx Hf. pose proof (ai_files _ _ _ _ Hi f) as H.
  pose proof (count_pos (uses_file f) _ r x Hx ltac:(unfold uses_file; by rewrite Hf, bool_decide_true)).
  destruct (iofiles s !! f); [eauto|lia].
Qed.

Lemma run_rw_ok h s r x ctx f write vectored buf compat :
  ok h s -> kiocbs s !! r = Some x -> ki_ctx x = Ctx ctx -> ki_filp x = Some f ->
  run_post h r x s (run_rw access_ok copy_check_uvector rw_verify_area rw_op r write vectored buf compat s).
Proof.
  intros Hi Hx Hk Hf. destruct (req_file h s r x f Hi Hx Hf) as [y Hy]. unfold run_rw.
  mrun (get_req_eq r x s Hx). rewrite Hf. unfold mbind at 1, M_bind at 1, mret at 1, M_ret at 1.
  unfold mbind at 1, M_bind at 1, deref. rewrite Hy.
  destruct (negb (if write then fmode_write y else fmode_read y)); [by apply run_refused|].
  destruct (negb (if write then AioCtx.aio_write y else AioCtx.aio_read y)); [by apply run_refused|].
  destruct (if vectored then _ else _) as [e|n] eqn:Es.
  { apply run_refused; [done|]. destruct vectored; unfold aio_setup_vectored_rw, aio_setup_single_vector in Es.
    - destruct (_ <? 0) eqn:E; zbool; congruence.
    - destruct (access_ok _ _ _); [done|]. by injection Es as <-. }
  mrun (upd_req_eq r x (set_ki_nbytes n) s Hx). set (x1 := set_ki_nbytes n x). set (s1 := put_req r x1 s).
  assert (ok h s1) as Hi1 by by apply (ok_put_req h s r x).
  destruct (rw_verify_area write f (ki_pos x) n <? 0) eqn:Ev; zbool.
  { eexists _, s1. split; [done|]. right. split; [done|]. by exists n. }
  set (v := rw_verify_area write f (ki_pos x) n) in *.
  assert (kiocbs s1 !! r = Some x1) as Hx1 by apply lookup_insert_eq.
  mrun (upd_req_eq r x1 (set_ki_nbytes v) s1 Hx1). set (x2 := set_ki_nbytes v x1). set (s2 := put_req r x2 s1).
  assert (ok h s2) as Hi2 by by apply (ok_put_req h s1 r x1).
  assert (kiocbs s2 !! r = Some x2) as Hx2 by apply lookup_insert_eq.
  assert (keeps s s2) as K2 by (unfold s2, s1; rewrite put_req_put; keep).
  destruct (ki_pos x <? 0).
  - destruct (run_done_ok h s2 r x2 ctx (- EINVAL) Hi2) as (s' & E' & Hi' & K'); [done|].
    unfold mbind, M_bind, mret, M_ret. rewrite E'. apply run_started; [done|by eapply keeps_trans].
  - destruct (run_method_ok h s2 r x2 ctx (rw_op write) (rw_ok write) Hi2 Hx2 Hk) as (s' & E' & Hi' & K').
    rewrite E'. apply run_started; [done|by eapply keeps_trans].
Qed.

Lemma run_fsync_ok h s r x ctx f datasync :
  ok h s -> kiocbs s !! r = Some x -> ki_ctx x = Ctx ctx -> ki_filp x = Some f ->
  run_post h r x s (run_fsync fsync_op r datasync s).
Proof.
  intros Hi Hx Hk Hf. destruct (req_file h s r x f Hi Hx Hf) as [y Hy]. unfold run_fsync.
  mrun (get_req_eq r x s Hx). rewrite Hf. unfold mbind at 1, M_bind at 1, mret at 1, M_ret at 1.
  unfold mbind at 1, M_bind at 1, deref. rewrite Hy. destruct (AioCtx.aio_fsync y); [|by apply run_refused].
  destruct (run_method_ok h s r x ctx (fsync_op datasync) (fsync_ok datasync) Hi Hx Hk) as (s' & E' & Hi' & K').
  cbn [negb]. rewrite E'. by apply run_started.
Qed.

Lemma run_iocb_ok h s r x ctx f opcode buf compat :
  ok h s -> kiocbs s !! r = Some x -> ki_ctx x = Ctx ctx -> ki_filp x = Some f ->
  run_post h r x s (aio_run_iocb access_ok copy_check_uvector rw_verify_area rw_op fsync_op r opcode buf compat s).
Proof.
  intros Hi Hx Hk Hf. unfold aio_run_iocb.
  repeat match goal with |- context [if ?b then _ else _] => destruct b end;
    first [by eapply run_rw_ok|by eapply run_fsync_ok|by apply run_refused].
Qed.

(** ** Taking and giving back what a request needs *)

(** a request unwound by out_put_req: its slot, its reference and its
    memory are given back *)
Lemma out_put_req_ok h s ctx c r x ret :
  ok h s -> ctxs s !! ctx = Some c -> 0 < h ctx -> kiocbs s !! r = Some x -> ki_ctx x = Ctx ctx -> ki_linked x = false ->
  exists v p s', out_put_req ctx r ret s = Ret ret s' /\ ok h s' /\
    ctxs s' = <[ctx := set_reqs (reqs c - 1) (recount v p c)]> (ctxs s) /\ kiocbs s' = delete r (kiocbs s) /\
    iofiles s' = drop_file x (iofiles s) /\ eventfds s' = drop_eventfd x (eventfds s) /\
    aio_works s' = aio_works s /\ akern s' = akern s /\ keeps s s' /\
    (slots_ok c -> 0 <= 1 -> free_slots c + 1 < nr_events c ->
     slots_ok (recount v p c) /\ free_slots (recount v p c) = free_slots c + 1).
Proof.
  intros Hi Hc Hh Hx Hk Hl. unfold out_put_req. pose proof (held_due ncpus h s ctx c Hi Hc Hh) as Hdue.
  destruct (put_slots_ok ncpus h _ s ctx c 1 Hi Hc) as (v & p & E1 & Hi1 & Hsl). mrun E1. set (s1 := put_ctx ctx (recount v p c) s) in *.
  destruct (reqs_put_ok ncpus h _ s1 ctx _ Hi1 (put_ctx_lookup _ _ _)) as (s2 & E2 & Hi2 & K2 & Q2 & C2 & A2 & F2 & V2 & W2); [lia|].
  mrun E2. assert (kiocbs s2 !! r = Some x) as Hx2 by by rewrite Q2. mrun (kiocb_free_eq ncpus h _ s2 r x Hi2 Hx2).
  assert (r ∉ active_reqs c) as Hna.
  { intros Hr. destruct (ci_active _ _ _ _ _ _ (ai_ctx _ _ _ _ Hi ctx c Hc) r Hr) as (y & Hy & _ & Hly). congruence. }
  assert (inv h (plus ctx 1 (plus ctx (- 1) (due s))) (freed r x s2)) as Hi3.
  { apply freed_inv; [done..|]. intros d Hd. rewrite C2, lookup_insert_eq in Hd. by injection Hd as <-. }
  assert (reqs c <> 1) as Hne.
  { pose proof (ci_reqs _ _ _ _ _ _ (ai_ctx _ _ _ _ Hi ctx c Hc)). pose proof (count_bounds (of_ctx ctx) (kiocbs s)).
    unfold nreqs in *. lia. }
  exists v, p, (freed r x s2). split_and!; try done.
  - eapply aio_inv_ext; [| |exact Hi3]; [done|]. intros a ? _. change (due (freed r x s2) a) with (due s2 a).
    rewrite (keeps_due s1 s2 a K2). unfold plus. rewrite (keeps_due s s1 a) by by apply (keeps_put_ctx s ctx c).
    case_decide; lia.
  - simpl. rewrite C2. unfold s1; simpl. by rewrite insert_insert_eq.
  - simpl. by rewrite Q2.
  - simpl. by rewrite F2.
  - simpl. by rewrite V2.
  - simpl. by rewrite W2.
  - eapply keeps_trans; [|apply keeps_freed]. apply (keeps_trans _ s1); [by apply (keeps_put_ctx s ctx c)|done].
Qed.

(** a request [r] under construction, on top of the state [s] *)
Record pending (h : nat -> Z) (s s2 : aio) (ctx : nat) (c : kioctx) (r : nat) (x : kiocb) : Prop := Pending {
  pd_ok : ok h s2;
  pd_new : kiocbs s !! r = None;
  pd_req : kiocbs s2 = <[r := x]> (kiocbs s);
  pd_ki_ctx : ki_ctx x = Ctx ctx;
  pd_unlinked : ki_linked x = false;
  pd_files : drop_file x (iofiles s2) = iofiles s;
  pd_eventfds : drop_eventfd x (eventfds s2) = eventfds s;
  pd_works : aio_works s2 = aio_works s;
  pd_kern : akern s2 = akern s;
  pd_keeps : keeps s s2;
  pd_ctxs : exists v p, ctxs s2 = <[ctx := set_reqs (reqs c + 1) (recount v p c)]> (ctxs s) /\
      (slots_ok c -> slots_ok (recount v p c) /\ free_slots (recount v p c) = free_slots c - 1)
}.

Lemma pd_lookup h s s2 ctx c r x : pending h s s2 ctx c r x -> kiocbs s2 !! r = Some x.
Proof. intros P. rewrite (pd_req _ _ _ _ _ _ _ P). apply lookup_insert_eq. Qed.

Lemma slots_reqs n c : slots_ok (set_reqs n c) <-> slots_ok c.
Proof. split; intros []; by split. Qed.

Lemma unwind_ok h s s2 ctx c r x ret :
  pending h s s2 ctx c r x -> ctxs s !! ctx = Some c -> 0 < h ctx ->
  exists s', out_put_req ctx r ret s2 = Ret ret s' /\ ok h s' /\ keeps s s' /\ recounted_only ctx s s'.
Proof.
  intros P Hc Hh. pose proof (pd_lookup _ _ _ _ _ _ _ P) as Hx. destruct P as [Hi Hn Hr Hk Hl Hf He Hw Ha K (v & p & Ec & Hs)].
  set (c1 := set_reqs (reqs c + 1) (recount v p c)) in *.
  destruct (out_put_req_ok h s2 ctx c1 r x ret Hi) as (v' & p' & s' & E & Hi' & C' & Q' & F' & V' & W' & A' & K' & Hsl); try done.
  { rewrite Ec. apply lookup_insert_eq. }
  exists s'. split_and!; [done|done|by apply (keeps_trans _ s2)|]. apply (recounted_put ctx s s' c v' p'); try congruence.
  - rewrite C', Ec, insert_insert_eq. f_equal.
    change (set_reqs (reqs c + 1 - 1) (recount v' p' c) = recount v' p' c). rewrite Z.add_simpl_r. by destruct c.
  - apply (slot_back v p); [done|]. intros H1 H2 H3.
    destruct Hsl as [S1 F1]; [by apply slots_reqs|done|done|]. split; [|exact F1]. by apply (slots_reqs (reqs c + 1)).
  - rewrite Q', Hr. by rewrite delete_insert_id.
Qed.

(** fget() and the assignment of ki_filp *)
Lemma pd_take_file h s s2 ctx c r x f y :
  pending h s s2 ctx c r x -> ki_filp x = None -> iofiles s2 !! f = Some y ->
  pending h s (put_req r (set_ki_filp (Some f) x) (set_iofiles (<[f := set_f_count (f_count y + 1) y]> (iofiles s2)) s2))
    ctx c r (set_ki_filp (Some f) x).
Proof.
  intros P Hfp Hy. pose proof (pd_lookup _ _ _ _ _ _ _ P) as Hx. destruct P as [Hi Hn Hr Hk Hl Hf He Hw Ha K Hc].
  set (x' := set_ki_filp (Some f) x). split; try done.
  - eapply aio_inv_ext; [| |apply (inv_set_req ncpus h _ s2 r x x' (<[f := set_f_count (f_count y + 1) y]> (iofiles s2)) (eventfds s2) Hi Hx)]; try done.
    + intros f'. pose proof (ai_files _ _ _ _ Hi f') as I5. rewrite (count_insert _ _ _ _ x) by done.
      unfold uses_file at 2 3 5 6. rewrite Hfp, (bool_decide_eq_false_2 (None = _)) by done. unfold x'; simpl. rewrite lookup_insert.
      destruct (decide (f = f')) as [<-|Hne].
      * rewrite Hy in I5. rewrite bool_decide_true by done. simpl. lia.
      * rewrite bool_decide_false by congruence. destruct (iofiles s2 !! f'); lia.
    + eapply eventfds_same; [exact (ai_eventfds _ _ _ _ Hi)|done..].
  - simpl. by rewrite Hr, insert_insert_eq.
  - unfold drop_file in *. simpl. rewrite Hfp in Hf. rewrite alter_insert_eq, <- Hf. rewrite insert_id; [done|].
    rewrite Hy. destruct y; unfold set_f_count; simpl. by rewrite Z.add_simpl_r.
  - apply (keeps_trans _ s2); [done|]. keep. intros f' Hf'. by apply is_Some_insert.
Qed.

(** eventfd_ctx_fdget() and the assignment of ki_eventfd *)
Lemma pd_take_eventfd h s s2 ctx c r x e y :
  pending h s s2 ctx c r x -> ki_eventfd x = None -> eventfds s2 !! e = Some y ->
  pending h s (put_req r (set_ki_eventfd (Some e) x) (set_eventfds (<[e := (fst y, snd y + 1)]> (eventfds s2)) s2))
    ctx c r (set_ki_eventfd (Some e) x).
Proof.
  intros P Hfp Hy. pose proof (pd_lookup _ _ _ _ _ _ _ P) as Hx. destruct P as [Hi Hn Hr Hk Hl Hf He Hw Ha K Hc].
  set (x' := set_ki_eventfd (Some e) x). split; try done.
  - eapply aio_inv_ext; [| |apply (inv_set_req ncpus h _ s2 r x x' (iofiles s2) (<[e := (fst y, snd y + 1)]> (eventfds s2)) Hi Hx)]; try done.
    + eapply files_same; [exact (ai_files _ _ _ _ Hi)|done..].
    + intros e'. pose proof (ai_eventfds _ _ _ _ Hi e') as I6. rewrite (count_insert _ _ _ _ x) by done.
      unfold uses_eventfd at 2 3 5 6. rewrite Hfp, (bool_decide_eq_false_2 (None = _)) by done. unfold x'; simpl. rewrite lookup_insert.
      destruct (decide (e = e')) as [<-|Hne].
      * rewrite Hy in I6. rewrite bool_decide_true by done. simpl. lia.
      * rewrite bool_decide_false by congruence. destruct (eventfds s2 !! e'); lia.
  - simpl. by rewrite Hr, insert_insert_eq.
  - unfold drop_eventfd in *. simpl. rewrite Hfp in He. rewrite alter_insert_eq, <- He. rewrite insert_id; [done|].
    rewrite Hy. destruct y; simpl. by rewrite Z.add_simpl_r.
  - apply (keeps_trans _ s2); [done|]. keep. intros e' He'. by apply is_Some_insert.
Qed.

(** ** io_submit_one() *)

Variable eventfd_of : Z -> Z + nat.

(** the descriptors a request names: an open one has its file, an eventfd
    its counter, and a failed lookup an error code *)
Record fds_ok (s : aio) (io : iocb) : Prop := FdsOk {
  fo_file : forall f, fdt (akern s) !! aio_fildes io = Some f -> is_Some (iofiles s !! f);
  fo_eventfd : match eventfd_of (s32 (aio_resfd io)) with inl e => e < 0 | inr e => is_Some (eventfds s !! e) end
}.

Lemma fget_eq s fd :
  (forall f, fdt (akern s) !! fd = Some f -> is_Some (iofiles s !! f)) ->
  (fdt (akern s) !! fd = None /\ fget fd s = Ret None s) \/
  exists f y, iofiles s !! f = Some y /\
    fget fd s = Ret (Some f) (set_iofiles (<[f := set_f_count (f_count y + 1) y]> (iofiles s)) s).
Proof.
  intros Hf. unfold fget, mbind, M_bind, get, deref, modify, mret, M_ret.
  destruct (fdt (akern s) !! fd) as [f|]; [|by left]. right. destruct (Hf f eq_refl) as [y Hy]. exists f, y. by rewrite Hy.
Qed.

(** the eventfd of a request, when it asks for one *)
Lemma take_eventfd_ok h s s2 ctx c r x io :
  pending h s s2 ctx c r x -> ki_eventfd x = None -> fds_ok s io -> eventfds s2 = eventfds s ->
  exists e s3 x3, (if negb (Z.land (aio_flags io) IOCB_FLAG_RESFD =? 0) then
       e ← eventfd_ctx_fdget eventfd_of (s32 (aio_resfd io));
       match e with
       | inl error => mret error
       | inr e => upd_req r (set_ki_eventfd (Some e)) ;; mret 0
       end
     else mret 0) s2 = Ret e s3 /\ e <= 0 /\ pending h s s3 ctx c r x3 /\ ki_filp x3 = ki_filp x.
Proof.
  intros P Hn [_ Hfe] Ee. destruct (negb _); [|by exists 0, s2, x]. unfold eventfd_ctx_fdget.
  destruct (eventfd_of (s32 (aio_resfd io))) as [e|e].
  { exists e, s2, x. unfold mbind, M_bind, mret, M_ret. split_and!; try done. lia. }
  rewrite <- Ee in Hfe. destruct Hfe as [y Hy]. pose proof (pd_take_eventfd h s s2 ctx c r x e y P Hn Hy) as P3.
  eexists 0, _, _. split_and!; [|done|exact P3|done].
  unfold mbind, M_bind, deref, modify, mret, M_ret. rewrite Hy.
  erewrite (upd_req_eq r x); [done|]. apply (pd_lookup _ _ _ _ _ _ _ P).
Qed.

Definition submitted (x : kiocb) (user_iocb : Z) (io : iocb) : kiocb :=
  set_ki_user user_iocb (set_ki_user_data (aio_data io) (set_ki_pos (aio_offset io) (set_ki_nbytes (aio_nbytes io) x))).

Lemma pd_same h s s2 ctx c r x x' :
  pending h s s2 ctx c r x -> ki_ctx x' = ki_ctx x -> ki_filp x' = ki_filp x -> ki_eventfd x' = ki_eventfd x ->
  ki_linked x' = ki_linked x -> pending h s (put_req r x' s2) ctx c r x'.
Proof.
  intros P E1 E2 E3 E4. pose proof (pd_lookup _ _ _ _ _ _ _ P) as Hx. destruct P as [Hi Hn Hr Hk Hl Hf He Hw Ha K Hc].
  split; try done; try congruence.
  - apply (ok_put_req h s2 r x); try done. congruence.
  - simpl. by rewrite Hr, insert_insert_eq.
  - unfold drop_file in *; simpl. by rewrite E2.
  - unfold drop_eventfd in *; simpl. by rewrite E3.
  - apply (keeps_trans _ s2); [done|keep].
Qed.

#[local] Abbreviation submit_one := (io_submit_one access_ok copy_check_uvector rw_verify_area rw_op fsync_op eventfd_of).

(** the request is started, or nothing is left of it but moved slots *)
Definition submit_post (h : nat -> Z) (ctx : nat) (s : aio) (o : outcome aio Z) : Prop :=
  exists ret s', o = Ret ret s' /\ ret <= 0 /\ ok h s' /\ keeps s s' /\ (ret <> 0 -> recounted_only ctx s s').

Lemma submit_unwound h s s2 ctx c r x ret :
  pending h s s2 ctx c r x -> ctxs s !! ctx = Some c -> 0 < h ctx -> ret <= 0 -> submit_post h ctx s (out_put_req ctx r ret s2).
Proof.
  intros P Hc Hh Hr. destruct (unwind_ok h s s2 ctx c r x ret P Hc Hh) as (s' & E & Hi' & K' & Hro).
  exists ret, s'. by split_and!.
Qed.

Lemma io_submit_one_ok h s ctx c user_iocb key_ok io compat :
  ok h s -> ctxs s !! ctx = Some c -> 0 < h ctx -> fds_ok s io ->
  submit_post h ctx s (submit_one ctx user_iocb key_ok io compat s).
Proof.
  intros Hi Hc Hh Hfd. unfold io_submit_one.
  assert (submit_post h ctx s (Ret (- EINVAL) s)) as Hinval.
  { exists (- EINVAL), s. split_and!; try done; [apply keeps_refl|]. intros _.
    apply (recounted_put ctx s s c (reqs_available c) (pcpu c)); rewrite ?recount_idem; try done. by rewrite insert_id. }
  destruct (_ || _); [done|]. destruct (_ <=? _); [done|].
  destruct (get_req_ok ncpus h s ctx c Hi Hc Hh) as (o & s1 & E1 & Hi1 & K1 & H1). mrun E1. destruct o as [r|].
  2: { exists (- EAGAIN), s1. by split_and!. }
  destruct H1 as (-> & Q1 & F1 & V1 & W1 & A1 & C1). set (r := aaddr s) in *.
  assert (pending h s s1 ctx c r (new_req ctx)) as P1.
  { split; try done. by apply (ai_fresh _ _ _ _ Hi). }
  destruct (fget_eq s1 (aio_fildes io)) as [[_ E2]|(f & y & Hy & E2)]; [rewrite A1, F1; apply Hfd|..]; mrun E2.
  { by eapply submit_unwound. }
  pose proof (pd_take_file h s s1 ctx c r (new_req ctx) f y P1 eq_refl Hy) as P2.
  set (x2 := set_ki_filp (Some f) (new_req ctx)) in *. set (s1' := set_iofiles _ s1) in *.
  mrun (upd_req_eq r (new_req ctx) (set_ki_filp (Some f)) s1' (pd_lookup _ _ _ _ _ _ _ P1)). fold x2.
  destruct (take_eventfd_ok h s _ ctx c r x2 io P2 eq_refl Hfd V1) as (e & s3 & x3 & E3 & He & P3 & Hx3). mrun E3.
  destruct (negb (e =? 0)); [by eapply submit_unwound|].
  destruct key_ok; cbn [negb]; [|by eapply submit_unwound].
  change (upd_req r _) with (upd_req r (fun x => submitted x user_iocb io)).
  mrun (upd_req_eq r x3 (fun x => submitted x user_iocb io) s3 (pd_lookup _ _ _ _ _ _ _ P3)).
  set (x4 := submitted x3 user_iocb io). set (s4 := put_req r x4 s3).
  assert (pending h s s4 ctx c r x4) as P4 by by apply (pd_same h s s3 ctx c r x3).
  pose proof (pd_lookup _ _ _ _ _ _ _ P4) as Hx4.
  destruct (run_iocb_ok h s4 r x4 ctx f (aio_lio_opcode io) (aio_buf io) compat (pd_ok _ _ _ _ _ _ _ P4) Hx4)
    as (ret & s5 & E5 & [(-> & Hi5 & K5)|(Hr & n & ->)]); [apply P4|exact Hx3|..]; mrun E5.
  - exists 0, s5. split_and!; try done. apply (keeps_trans _ s4); [apply P4|done].
  - rewrite (proj2 (Z.eqb_neq ret 0)) by lia. cbn [negb]. apply (submit_unwound h s _ ctx c r (set_ki_nbytes n x4)); try done; [|lia].
    by apply (pd_same h s s4 ctx c r x4).
Qed.
End Submit.
