(* ===== verification/AioSys.v ===== *)
(** * No sequence of operations breaks an AIO context (fs/aio.c)

    The operations of system calls, drivers, the worker and user space on
    the contexts of a process, interleaved in any order ([aop]): a system
    call is the lookup of a context, operations on it while the reference is
    held, and the release of the reference.  User space writes what it likes
    into the header of a ring ([Tamper]). *)

From S2P Require Import Prelude Wait Tasklet Cmgroup Sched CmWake CmInv CmTask CmOps CmSys CmLife CmAttach CmTop.
From S2P Require Import AioRing AioQueue AioFifo AioCtx AioInv AioOps AioLife AioSetup AioSubmit.
Local Open Scope Z_scope.

(** ** Reading a ring whose header may be anything *)

(** some events lie between any two indices *)
Lemma some_queue c head n :
  geometry_ok c -> 0 <= head < nr_events c ->
  exists q, length q = n /\ forall k ev, q !! k = Some ev -> slot c ((head + Z.of_nat k) mod nr_events c) = Some ev.
Proof.
  intros Hg Hh. induction n as [|n (q & Hl & Hq)]; [exists []; by split|].
  set (i := (head + Z.of_nat n) mod nr_events c). pose proof (go_nr _ Hg).
  assert (0 <= i < nr_events c) as Hi by (apply Z.mod_pos_bound; lia).
  destruct (page_ok c (i + 1) Hg) as (page & Hp & Hpl); [lia|].
  destruct (lookup_lt_is_Some_2 page (Z.to_nat ((i + 1) mod 128))) as [ev Hev].
  { rewrite Hpl. pose proof (Z.mod_pos_bound (i + 1) 128). lia. }
  exists (q ++ [ev]). rewrite length_app; simpl. split; [lia|].
  intros k e He. apply lookup_snoc_Some in He as [[_ He]|[-> <-]]; [by apply Hq|].
  rewrite Hl. fold i. unfold slot. by rewrite Hp.
Qed.

Section Reading.
Variable ncpus : nat.

(** aio_read_events_ring() when both indices are inside the ring *)
Lemma read_ring_safe room cpu n nr c :
  ring_safe ncpus c -> pcpu c !! cpu = Some n -> 0 <= r_head c < nr_events c -> 0 <= r_tail c < nr_events c ->
  exists r c', aio_read_events_ring room cpu nr c = Ret r c' /\
    exists a m hd, 0 <= m < 2 ^ 32 /\ c' = recount a (<[cpu := m]> (pcpu c)) (set_r_head hd c).
Proof.
  intros Hs Hn Hh Ht. unfold aio_read_events_ring. unfold mbind at 1, M_bind at 1, get. rewrite (rs_lock _ _ Hs).
  pose proof (proj1 (Forall_lookup _ _) (rs_pcpu _ _ Hs) _ _ Hn) as Hb. simpl in Hb.
  set (c0 := set_ring_lock true c).
  assert (c = recount (reqs_available c) (<[cpu := n]> (pcpu c)) (set_r_head (r_head c) c)) as Hid
    by (rewrite list_insert_id by done; by destruct c).
  assert (set_ring_lock false c0 = c) as Hun by (pose proof (rs_lock _ _ Hs); destruct c; simpl in *; by subst).
  unfold mbind at 1, M_bind at 1, modify at 1. fold c0.
  destruct (r_head c =? r_tail c).
  { eexists _, c. split; [unfold mbind, M_bind, mret, M_ret, modify; by rewrite Hun|].
    exists (reqs_available c), n, (r_head c). split; [done|exact Hid]. }
  assert (geometry_ok c0) as Hg by (destruct (rs_geometry _ _ Hs); by split).
  destruct (some_queue c0 (r_head c) (Z.to_nat ((r_tail c - r_head c) mod nr_events c)) Hg Hh) as (q & Hl & Hq).
  pose proof (Z.mod_pos_bound (r_tail c - r_head c) (nr_events c) ltac:(lia)) as Hmod.
  destruct (ring_read_ok room c0 (r_tail c) Hg Ht (S (Z.to_nat (nr_events c))) (r_head c) 0 nr [] q) as (r & E & Hr); try done.
  { split; [|done]. rewrite Hl, Z2Nat.id by lia. done. }
  { rewrite Hl. simpl in *. lia. }
  unfold mbind, M_bind. rewrite E. destruct r as [[[ret hd] out]|].
  - unfold modify at 1. set (c1 := set_r_head hd c0).
    destruct (put_reqs_safe cpu n (u32 ret) c1) as (a & m & E1 & Hm); [apply (rs_batch _ _ Hs)|done|]. rewrite E1.
    eexists _, _. split; [reflexivity|]. exists a, m, hd. split; [done|].
    unfold c1, c0, recount; simpl. rewrite <- (rs_lock _ _ Hs). by destruct c.
  - eexists _, c. split; [unfold mbind, M_bind, mret, M_ret, modify; by rewrite Hun|].
    exists (reqs_available c), n, (r_head c). split; [done|exact Hid].
Qed.

(** ** Finding the request to cancel *)

Lemma find_req_ok h s user_iocb l :
  aio_ok ncpus h s -> (forall r, r ∈ l -> is_Some (kiocbs s !! r)) ->
  exists o, find_req l user_iocb s = Ret o s /\ forall r, o = Some r -> r ∈ l.
Proof.
  intros Hi. induction l as [|r l IH]; intros Hl; [by exists None|].
  destruct (Hl r ltac:(set_solver)) as [x Hx]. simpl. mrun (get_req_eq r x s Hx).
  destruct (ki_user x =? user_iocb).
  - exists (Some r). split; [done|]. intros ? [= <-]. set_solver.
  - destruct IH as (o & E & Ho); [set_solver|]. exists o. split; [done|]. set_solver.
Qed.

Lemma lookup_kiocb_ok h s ctx c user_iocb key :
  aio_ok ncpus h s -> ctxs s !! ctx = Some c ->
  exists o, lookup_kiocb ctx user_iocb key s = Ret o s /\ forall r, o = Some r -> r ∈ active_reqs c.
Proof.
  intros Hi Hc. unfold lookup_kiocb. destruct (negb (key =? KIOCB_KEY)); [by exists None|].
  mrun (get_ctx_eq ctx c s Hc). eapply find_req_ok; [done|]. intros r Hr.
  destruct (ci_active _ _ _ _ _ _ (ai_ctx _ _ _ _ Hi ctx c Hc) r Hr) as (x & Hx & _). eauto.
Qed.

End Reading.

(** ** The operations *)

Inductive aop :=
  | Io_setup (nr : Z) (ctxp : option Z) (put_ok file_ok array_ok : bool) (page_ok : nat -> bool) (mmap_addr : Z)
  | Lookup (uid : option Z) (addr : Z)
  | Release (ctx : nat)
  | Kill (ctx : nat)
  | Submit_one (ctx : nat) (user_iocb : Z) (key_ok : bool) (io : iocb) (compat : bool)
  | Cancel_one (ctx : nat) (user_iocb key : Z)
  | Read_ring (ctx : nat) (nr : Z) (room : Z -> bool)
  | Complete_req (r : nat) (res res2 : Z)
  | Set_cancel_fn (r : nat)
  | Free_work
  | Exit_mm
  | Tamper (ctx : nat) (id nr head tail : Z)
  | Env_kernel (k : kernel)
  | Env_files (fs : gmap nat iofile) (es : gmap nat (Z * Z))
  | Env_memory (l : list bool)
  | Switch_to (t : nat).

Section System.
Context `{WL : WaitLib}.
Variables (ncpus : nat) (sizeof_kiocb aio_max_nr : Z).
Hypothesis ncpus_ok : 1 <= Z.of_nat ncpus < 2 ^ 20.

Variable cancel : nat -> A Z.
Hypothesis cancel_quiet : forall r s, exists z, cancel r s = Ret z s.
Variable msleep : K unit.

Variables
  (access_ok : bool -> Z -> Z -> bool)
  (copy_check_uvector : bool -> bool -> Z -> Z -> Z)
  (rw_verify_area : bool -> nat -> Z -> Z -> Z)
  (rw_op : bool -> nat -> A Z)
  (fsync_op : bool -> nat -> A Z)
  (eventfd_of : Z -> Z + nat).
Hypothesis rw_ok : forall w, method_ok ncpus (rw_op w).
Hypothesis fsync_ok : forall d, method_ok ncpus (fsync_op d).

#[local] Abbreviation ok := (aio_ok ncpus).

Definition quietly {B} (m : A B) : A (option nat) := m ;; mret None.

(** user space writes the header of the ring *)
Definition tamper (id nr head tail : Z) (c : kioctx) : kioctx :=
  set_r_id id (set_r_nr nr (set_r_head head (set_r_tail tail c))).

(** the result is the context whose [users] reference the caller now holds *)
Definition run_aop (o : aop) : A (option nat) :=
  match o with
  | Io_setup nr ctxp put_ok file_ok array_ok page_ok mmap_addr =>
      quietly (sys_io_setup cancel sizeof_kiocb (Z.of_nat ncpus) aio_max_nr
        (aio_setup_ring file_ok array_ok page_ok mmap_addr) nr ctxp put_ok)
  | Lookup uid addr => lookup_ioctx uid addr
  | Release ctx => quietly (users_put cancel ctx)
  | Kill ctx => quietly (kill_ioctx cancel ctx)
  | Submit_one ctx user_iocb key_ok io compat =>
      quietly (io_submit_one access_ok copy_check_uvector rw_verify_area rw_op fsync_op eventfd_of ctx user_iocb key_ok io compat)
  | Cancel_one ctx user_iocb key =>
      r ← lookup_kiocb ctx user_iocb key;
      match r with Some r => quietly (kiocb_cancel cancel r) | None => mret None end
  | Read_ring ctx nr room => cpu ← smp_processor_id; quietly (on_ctx ctx (aio_read_events_ring room cpu nr))
  | Complete_req r res res2 => quietly (aio_complete r res res2)
  | Set_cancel_fn r => quietly (kiocb_set_cancel_fn r)
  | Free_work => quietly (run_free_ioctx msleep 1)
  | Exit_mm => quietly (exit_aio cancel)
  | Tamper ctx id nr head tail => quietly (upd_ctx ctx (tamper id nr head tail))
  | Env_kernel k => quietly (modify (set_akern k))
  | Env_files fs es => quietly (modify (fun s => set_eventfds es (set_iofiles fs s)))
  | Env_memory l => quietly (modify (set_aallocs l))
  | Switch_to t => quietly (modify (set_acurrent t))
  end.

(** the references held after it *)
Definition holds_after (o : aop) (r : option nat) (h : nat -> Z) : nat -> Z :=
  match o, r with
  | Lookup _ _, Some ctx => plus ctx 1 h
  | Release ctx, _ => plus ctx (- 1) h
  | _, _ => h
  end.

(** an asynchronous request *)
Definition async (s : aio) (r : nat) : Prop := exists x ctx, kiocbs s !! r = Some x /\ ki_ctx x = Ctx ctx.

(** What the callers guarantee: a context is used by a caller that holds a
    reference to it, a request is completed once, the worker finds the group
    of a context idle; of the ring's header, that user space left the two
    indices inside the ring; and of the rest of the kernel, that it keeps its
    own invariant, its tasks, the references of requests, and attaches
    groups only to contexts that are held. *)
Definition avalid (h : nat -> Z) (s : aio) (o : aop) : Prop :=
  match o with
  | Io_setup _ _ _ _ _ _ _ | Exit_mm | Env_memory _ => True
  | Lookup uid _ => forall id, uid = Some id -> 0 <= id
  | Release ctx | Kill ctx | Cancel_one ctx _ _ => 0 < h ctx
  | Submit_one ctx _ _ io _ => 0 < h ctx /\ fds_ok eventfd_of s io
  | Read_ring ctx _ _ => 0 < h ctx /\ forall c, ctxs s !! ctx = Some c ->
      0 <= r_head c < nr_events c /\ 0 <= r_tail c < nr_events c
  | Complete_req r _ _ | Set_cancel_fn r => async s r
  | Free_work => forall ctx, ctx ∈ aio_works s -> ctx_quiet s ctx
  | Tamper ctx _ _ _ _ => is_Some (ctxs s !! ctx)
  | Env_kernel k => sys_ok k /\ (this_cpu k < ncpus)%nat /\
      (forall t, is_Some (tasks (akern s) !! t) -> is_Some (tasks k !! t)) /\
      (forall a g, aio_cmgroup k !! a = Some g -> aio_cmgroup (akern s) !! a = Some g \/ 0 < h a)
  | Env_files fs es => files_ok fs (kiocbs s) /\ eventfds_ok es (kiocbs s)
  | Switch_to t => is_Some (tasks (akern s) !! t)
  end.

(** the beginning: no context, no request *)
Record astart (s : aio) : Prop := AStart {
  as_kern : sys_ok (akern s);
  as_groups : aio_cmgroup (akern s) = ∅;
  as_ctxs : ctxs s = ∅;
  as_reqs : kiocbs s = ∅;
  as_files : files_ok (iofiles s) ∅;
  as_eventfds : eventfds_ok (eventfds s) ∅;
  as_table : ioctx_table s = None;
  as_nr : aio_nr s = 0;
  as_works : aio_works s = [];
  as_cpu : (this_cpu (akern s) < ncpus)%nat;
  as_current : is_Some (tasks (akern s) !! acurrent s)
}.

Inductive areach : (nat -> Z) -> aio -> Prop :=
  | areach_start s : astart s -> areach (fun _ => 0) s
  | areach_step h s o r s' : areach h s -> avalid h s o -> run_aop o s = Ret r s' -> areach (holds_after o r h) s'.

(** ** Every operation keeps the invariant *)

Lemma start_ok s : astart s -> ok (fun _ => 0) s.
Proof.
  intros [A1 A2 A3 A4 A5 A6 A7 A8 A9 A10 A11]. split; rewrite ?A2, ?A3, ?A4, ?A7, ?A8, ?A9; try done.
  split; [constructor|]. intros ctx []%not_elem_of_nil.
Qed.

Lemma quietly_eq {B} (m : A B) b s s' : m s = Ret b s' -> quietly m s = Ret None s'.
Proof. intros E. unfold quietly. by mrun E. Qed.

(** the caller's context is there *)
Lemma held_ctx h s ctx : ok h s -> 0 < h ctx -> exists c, ctxs s !! ctx = Some c.
Proof.
  intros Hi Hh. destruct (ctxs s !! ctx) as [c|] eqn:Hc; [eauto|]. pose proof (ai_gone _ _ _ _ Hi ctx Hc). lia.
Qed.

(** an operation that changed nothing of the counts *)
Lemma step_kept h s s' (m : A unit) :
  m s = Ret tt s' -> aio_inv ncpus h (due s) s' -> keeps s s' ->
  exists r s', quietly m s = Ret r s' /\ ok h s'.
Proof. intros E Hi K. exists None, s'. split; [by eapply quietly_eq|by eapply ok_keeps]. Qed.

(** operations on a context the caller holds *)
Lemma held_step h s o ctx c :
  ok h s -> ctxs s !! ctx = Some c -> 0 < h ctx -> avalid h s o ->
  match o with
  | Release a | Kill a | Submit_one a _ _ _ _ | Cancel_one a _ _ | Read_ring a _ _ => a = ctx
  | _ => False
  end ->
  exists r s', run_aop o s = Ret r s' /\ ok (holds_after o r h) s'.
Proof.
  intros Hi Hc Hh Hv Ha. destruct o; try done; subst ctx0; simpl in *.
  - destruct (users_put_ok ncpus cancel cancel_quiet h s ctx c Hi Hc Hh) as (s' & E & Hi' & _).
    exists None, s'. split; [by eapply quietly_eq|done].
  - destruct (kill_ioctx_ok ncpus cancel cancel_quiet h s ctx c Hi Hc) as (s' & E & Hi' & _).
    exists None, s'. split; [by eapply quietly_eq|done].
  - destruct (io_submit_one_ok ncpus access_ok copy_check_uvector rw_verify_area rw_op fsync_op rw_ok fsync_ok eventfd_of
      h s ctx c user_iocb key_ok io compat Hi Hc Hh (proj2 Hv)) as (z & s' & E & _ & Hi' & _).
    exists None, s'. split; [by eapply quietly_eq|done].
  - destruct (lookup_kiocb_ok ncpus h s ctx c user_iocb key Hi Hc) as (o & E & Ho). mrun E. destruct o as [r|]; [|by exists None, s].
    destruct (ci_active _ _ _ _ _ _ (ai_ctx _ _ _ _ Hi ctx c Hc) r (Ho r eq_refl)) as (x & Hx & _).
    destruct (kiocb_cancel_ok ncpus cancel cancel_quiet h _ s r x Hi Hx) as (z & s' & E' & Hi' & K' & _).
    exists None, s'. split; [by eapply quietly_eq|by eapply ok_keeps].
  - destruct Hv as [_ Hv]. destruct (Hv c Hc) as [H1 H2]. destruct (inv_cpu ncpus h _ s ctx c Hi Hc) as (n & Hn & _).
    pose proof (ci_ring _ _ _ _ _ _ (ai_ctx _ _ _ _ Hi ctx c Hc)) as Hrs.
    destruct (read_ring_safe ncpus room (this_cpu (akern s)) n nr c) as (z & c' & E & a & m & hd & Hm & Ec); try done.
    exists None, (put_ctx ctx c' s). split.
    + unfold smp_processor_id, mbind, M_bind, get, mret, M_ret. eapply quietly_eq. by apply (on_ctx_eq ctx c).
    + eapply ok_keeps; [|by apply (keeps_put_ctx s ctx c); subst c'].
      apply (inv_same_ctx ncpus h _ s ctx c); subst c'; try done. intros []. split; try done.
      apply (recount_safe ncpus a m (this_cpu (akern s)) (set_r_head hd c)); [|done].
      eapply ring_safe_ext; [..|eassumption]; done.
Qed.

(** operations of the rest of the kernel and of user space *)
Lemma env_step h s o :
  ok h s -> avalid h s o ->
  match o with Tamper _ _ _ _ _ | Env_kernel _ | Env_files _ _ | Env_memory _ | Switch_to _ => True | _ => False end ->
  exists r s', run_aop o s = Ret r s' /\ ok (holds_after o r h) s'.
Proof.
  intros Hi Hv Ho. destruct o; try done; simpl in *.
  - destruct Hv as [c Hc]. exists None, (put_ctx ctx (tamper id nr head tail c) s).
    split; [eapply quietly_eq; by apply upd_ctx_eq|]. eapply ok_keeps; [|by apply (keeps_put_ctx s ctx c)].
    apply (inv_same_ctx ncpus h _ s ctx c); try done. ctx_field.
  - destruct Hv as (V1 & V2 & V3 & V4). exists None, (set_akern k s). split; [by eapply quietly_eq|].
    apply (inv_kern ncpus h (due s) s k); try done. intros a g Hg.
    destruct (V4 a g Hg) as [Hg'|Hh]; [by eapply (ai_groups _ _ _ _ Hi)|]. destruct (held_ctx h s a Hi Hh). eauto.
  - destruct Hv as [V1 V2]. exists None, (set_eventfds es (set_iofiles fs s)). split; [by eapply quietly_eq|].
    destruct Hi as [I1 I2 I3 I4 I5 I6 I7 I8 I9 I10 I11 I12 I13 I14]. split; try done.
    intros ctx c Hc. eapply ctx_inv_ext; [..|by apply I2]; eauto.
  - exists None, (set_aallocs l s). split; [by eapply quietly_eq|].
    apply (inv_allocated ncpus h (due s) s l (aaddr s)); done.
  - exists None, (set_acurrent t s). split; [by eapply quietly_eq|].
    destruct Hi as [I1 I2 I3 I4 I5 I6 I7 I8 I9 I10 I11 I12 I13 I14]. split; try done.
    intros ctx c Hc. eapply ctx_inv_ext; [..|by apply I2]; eauto.
Qed.

Lemma aop_ok h s o : ok h s -> avalid h s o -> exists r s', run_aop o s = Ret r s' /\ ok (holds_after o r h) s'.
Proof.
  intros Hi Hv.
  destruct o; try (by apply env_step);
    try (assert (0 < h ctx) as Hh by apply Hv; destruct (held_ctx h s ctx Hi Hh) as [c Hc]; by apply (held_step h s _ ctx c));
    simpl in *.
  - destruct (sys_io_setup_ok ncpus cancel cancel_quiet sizeof_kiocb aio_max_nr file_ok array_ok page_ok mmap_addr h s nr ctxp put_ok
      Hi ncpus_ok) as (z & s' & E & Hi' & _). exists None, s'. split; [by eapply quietly_eq|done].
  - destruct (lookup_ioctx_ok ncpus h s uid addr Hi Hv) as (r & s' & E & H'). exists r, s'. split; [done|].
    destruct r as [ctx|]; [by destruct H'|by destruct H' as [-> ?]].
  - destruct Hv as (x & ctx & Hx & Hk). destruct (aio_complete_ok ncpus h _ s r x ctx res res2 Hi Hx Hk) as (s' & E & Hi' & K' & _).
    by eapply step_kept.
  - destruct Hv as (x & ctx & Hx & Hk). destruct (set_cancel_fn_ok ncpus h _ s r x ctx Hi Hx Hk) as (s' & E & Hi' & K' & _).
    by eapply step_kept.
  - destruct (run_free_ioctx_ok ncpus msleep 0 h s Hi Hv) as (s' & E & Hi' & _).
    exists None, s'. split; [by eapply quietly_eq|done].
  - unfold exit_aio. destruct (exit_from_ok ncpus cancel cancel_quiet (S (length (default [] (ioctx_table s)))) h s 0 Hi)
      as (s' & E & Hi' & _); [intros j Hj; lia|lia|]. exists None, s'. split; [|done].
    eapply quietly_eq. unfold mbind, M_bind, get. exact E.
Qed.

Lemma areach_ok h s : areach h s -> ok h s.
Proof.
  induction 1 as [s Hs|h s o r s' _ IH Hv E]; [by apply start_ok|].
  destruct (aop_ok h s o IH Hv) as (r' & s2 & E' & Hi'). rewrite E in E'. by apply Ret_inj in E' as [<- <-].
Qed.
End System.
