(* ===== verification/AioProps.v ===== *)
(** * AIO contexts: the properties (fs/aio.c)

    The theorems about the operations of AioSys.v, and what two system calls
    do that their comments do not say. *)

From S2P Require Import Prelude Wait Tasklet Cmgroup Sched CmWake CmInv CmTask CmOps CmSys CmLife CmAttach CmTop CmProps.
From S2P Require Import AioRing AioQueue AioFifo AioCtx AioInv AioOps AioLife AioSetup AioSubmit AioSys.
Local Open Scope Z_scope.

(** ** Looking up *)

Lemma lookup_hit ncpus h s ctx c t i :
  aio_ok ncpus h s -> ctxs s !! ctx = Some c -> ioctx_table s = Some t -> t !! i = Some (Some ctx) ->
  let s' := put_ctx ctx (set_users (users c + 1) c) s in
  lookup_ioctx (Some (Z.of_nat i)) (user_id c) s = Ret (Some ctx) s' /\ aio_ok ncpus (plus ctx 1 h) s'.
Proof.
  intros Hi Hc Ht Hl s'. assert (lookup_ioctx (Some (Z.of_nat i)) (user_id c) s = Ret (Some ctx) s') as E.
  { unfold lookup_ioctx. unfold mbind at 1, M_bind at 1, get. rewrite Ht. pose proof (lookup_lt_Some _ _ _ Hl).
    rewrite (proj2 (Z.leb_gt _ _)) by lia. rewrite Nat2Z.id, Hl. mrun (get_ctx_eq ctx c s Hc). rewrite Z.eqb_refl.
    by mrun (upd_ctx_eq ctx c (set_users (users c + 1)) s Hc). }
  split; [done|]. destruct (lookup_ioctx_ok ncpus h s (Some (Z.of_nat i)) (user_id c) Hi) as (o & s2 & E' & H').
  { intros id [= <-]. lia. }
  rewrite E in E'. apply Ret_inj in E' as [<- <-]. apply H'.
Qed.

Lemma lookup_miss s t i addr :
  ioctx_table s = Some t -> t !! i = Some None -> lookup_ioctx (Some (Z.of_nat i)) addr s = Ret None s.
Proof.
  intros Ht Hl. unfold lookup_ioctx. unfold mbind at 1, M_bind at 1, get. rewrite Ht. pose proof (lookup_lt_Some _ _ _ Hl).
  rewrite (proj2 (Z.leb_gt _ _)) by lia. by rewrite Nat2Z.id, Hl.
Qed.

Section Properties.
Context `{WL : WaitLib}.
Variables (ncpus : nat) (sizeof_kiocb aio_max_nr : Z).
Hypothesis ncpus_ok : 1 <= Z.of_nat ncpus < 2 ^ 20.
Variable cancel : nat -> A Z.
Hypothesis cancel_quiet : forall r s, exists z, cancel r s = Ret z s.
Variable msleep : K unit.
Variables
  (access_ok : bool -> Z -> Z -> bool)
  (copy_check_uvector : bool -> bool -> Z -> Z -> Z)
  (rw_verify_area : bool -> nat -> Z -> Z -> Z)
  (rw_op : bool -> nat -> A Z)
  (fsync_op : bool -> nat -> A Z)
  (eventfd_of : Z -> Z + nat).
Hypothesis rw_ok : forall w, method_ok ncpus (rw_op w).
Hypothesis fsync_ok : forall d, method_ok ncpus (fsync_op d).

#[local] Abbreviation reach := (areach ncpus sizeof_kiocb aio_max_nr cancel msleep access_ok copy_check_uvector
  rw_verify_area rw_op fsync_op eventfd_of).
#[local] Abbreviation run := (run_aop ncpus sizeof_kiocb aio_max_nr cancel msleep access_ok copy_check_uvector
  rw_verify_area rw_op fsync_op eventfd_of).

Lemma reach_ok h s : reach h s -> aio_ok ncpus h s.
Proof. eapply areach_ok; eauto. Qed.


(** C34: In every reachable state the two reference counts of a context are
    exact: [users] counts the system calls under way and the table, [reqs] the
    requests plus two while there are users; a context is queued for the
    worker, once, exactly when nothing refers to it; every request's context
    is there, and its file has a reference for it; and [aio_nr] is the sum of
    the sizes of the contexts in the table (so that the subtraction of
    kill_ioctx() never meets its WARN_ON). *)
Theorem aio_refs_exact h s :
  reach h s ->
  (forall ctx c, ctxs s !! ctx = Some c ->
     users c = h ctx + (if dead c then 0 else 1) /\
     reqs c = nreqs s ctx + (if users c =? 0 then 0 else 2) /\
     (ctx ∈ aio_works s <-> users c = 0 /\ nreqs s ctx = 0)) /\
  NoDup (aio_works s) /\
  (forall r x ctx, kiocbs s !! r = Some x -> ki_ctx x = Ctx ctx -> is_Some (ctxs s !! ctx)) /\
  (forall r x f, kiocbs s !! r = Some x -> ki_filp x = Some f -> exists y, iofiles s !! f = Some y /\ 0 < f_count y) /\
  aio_nr s = total share (ctxs s) /\ aio_nr s < 2 ^ 64.
Proof.
  intros Hr. pose proof (reach_ok h s Hr) as Hi. split_and!; try apply Hi.
  - intros ctx c Hc. destruct (ai_ctx _ _ _ _ Hi ctx c Hc) as [J1 J2 J3 _ J5 _ _ _ _ _ _]. unfold due in J3. rewrite Hc in J3.
    assert (0 <= nreqs s ctx) by apply count_bounds. split_and!; try done. rewrite J5.
    destruct (users c =? 0) eqn:E; zbool; split; lia.
  - intros r x f Hx Hf. pose proof (ai_files _ _ _ _ Hi f) as H.
    pose proof (count_pos (uses_file f) _ r x Hx ltac:(unfold uses_file; by rewrite Hf, bool_decide_true)).
    destruct (iofiles s !! f) as [y|]; [|lia]. exists y. split; [done|lia].
Qed.

(** C35: When io_submit_one() refuses a request, for whatever reason and after
    whatever step, it returns a negative error and leaves the request's slot,
    memory and references to its context, file and eventfd exactly as they
    were (free slots may have moved between the counters of the CPUs, their
    number is the same). *)
Theorem io_submit_one_unwinds h s ctx c user_iocb key_ok io compat :
  reach h s -> ctxs s !! ctx = Some c -> 0 < h ctx -> fds_ok eventfd_of s io ->
  exists ret s', io_submit_one access_ok copy_check_uvector rw_verify_area rw_op fsync_op eventfd_of
      ctx user_iocb key_ok io compat s = Ret ret s' /\ ret <= 0 /\
    (ret <> 0 ->
     kiocbs s' = kiocbs s /\ iofiles s' = iofiles s /\ eventfds s' = eventfds s /\ akern s' = akern s /\
     exists v p, ctxs s' !! ctx = Some (recount v p c) /\
       (slots_ok c -> free_slots (recount v p c) = free_slots c)).
Proof.
  intros Hr Hc Hh Hfd. pose proof (reach_ok h s Hr) as Hi.
  destruct (io_submit_one_ok ncpus access_ok copy_check_uvector rw_verify_area rw_op fsync_op rw_ok fsync_ok eventfd_of
      h s ctx c user_iocb key_ok io compat Hi Hc Hh Hfd) as (ret & s' & E & Hle & _ & _ & Hro).
  exists ret, s'. split_and!; try done. intros Hne. destruct (Hro Hne) as [R1 R2 R3 R4 _ R6]. split_and!; try done.
  destruct (R1 ctx c Hc) as (v & p & Hc' & _ & Hs). exists v, p. split; [done|]. intros Hsl. by apply Hs.
Qed.

(** io_setup() and io_destroy() are inverse: after an io_setup() that
    returned 0, looking the new address up (with the index that the kernel
    stored in the ring) finds the new context; io_destroy() of it returns 0,
    after which the address is not found any more and the system-wide count
    of requests is what it was before. *)
Theorem io_setup_destroy_roundtrip h s nr put_ok file_ok array_ok page_ok mmap_addr s1 :
  reach h s ->
  sys_io_setup cancel sizeof_kiocb (Z.of_nat ncpus) aio_max_nr (aio_setup_ring file_ok array_ok page_ok mmap_addr)
    nr (Some 0) put_ok s = Ret 0 s1 ->
  exists ctx id s2 s3, ctxs s !! ctx = None /\
    lookup_ioctx (Some id) mmap_addr s1 = Ret (Some ctx) s2 /\
    sys_io_destroy cancel (Some id) mmap_addr s1 = Ret 0 s3 /\
    lookup_ioctx (Some id) mmap_addr s3 = Ret None s3 /\ aio_nr s3 = aio_nr s.
Proof.
  intros Hr E. pose proof (reach_ok h s Hr) as Hi.
  destruct (sys_io_setup_ok ncpus cancel cancel_quiet sizeof_kiocb aio_max_nr file_ok array_ok page_ok mmap_addr h s nr
    (Some 0) put_ok Hi ncpus_ok) as (r & s1' & E' & Hi1 & H0 & _).
  rewrite E in E'. apply Ret_inj in E' as [<- <-].
  destruct (H0 eq_refl) as (_ & ctx & c & t & i & Hnew & Hc & Hd & Hu & Haddr & Hm & Ht & Hl & Hid & Hnr).
  destruct (lookup_hit ncpus h s1 ctx c t i Hi1 Hc Ht Hl) as [E2 Hi2].
  rewrite Haddr in E2. set (s2 := put_ctx ctx (set_users (users c + 1) c) s1) in *.
  destruct (kill_ioctx_ok ncpus cancel cancel_quiet _ s2 ctx _ Hi2 (put_ctx_lookup _ _ _)) as (s3 & E3 & Hi3 & _ & _ & Halive & H3).
  change (dead (set_users (users c + 1) c)) with (dead c) in H3. rewrite Hd in H3. destruct H3 as (t' & Ht' & Ht3 & Hnr3).
  change (ioctx_table s2) with (ioctx_table s1) in Ht'. assert (t' = t) as -> by congruence.
  change (ctx_id (set_users (users c + 1) c)) with (ctx_id c) in Ht3. rewrite Hid, Nat2Z.id in Ht3.
  destruct (Halive ctx) as [c3 Hc3]; [eexists; apply put_ctx_lookup|].
  destruct (users_put_ok ncpus cancel cancel_quiet _ s3 ctx c3 Hi3 Hc3) as (s4 & E4 & Hi4 & K4 & _).
  { rewrite plus_eq. pose proof (ci_held _ _ _ _ _ _ (ai_ctx _ _ _ _ Hi1 ctx c Hc)). lia. }
  exists ctx, (Z.of_nat i), s2, s4. split_and!; [done|done| | |].
  - unfold sys_io_destroy. mrun E2. mrun E3. by mrun E4.
  - apply (lookup_miss s4 (<[i := None]> t)); [by rewrite (kp_table _ _ K4)|]. apply list_lookup_insert_eq. by eapply lookup_lt_Some.
  - rewrite (kp_nr _ _ K4). simpl. rewrite Hnr3. simpl. lia.
Qed.
End Properties.

(** ** Witnesses: a process on a machine with one CPU *)

Definition no_cancel_fn (r : nat) : A Z := mret 0.
Definition queued (w : bool) (r : nat) : A Z := mret (- EIOCBQUEUED).
Definition no_eventfd (fd : Z) : Z + nat := inl (- EBADF).

Lemma no_cancel_quiet : forall r s, exists z, no_cancel_fn r s = Ret z s.
Proof. intros r s. exists 0. reflexivity. Defined.

Lemma queued_ok ncpus : forall w, method_ok ncpus (queued w).
Proof.
  intros w h s r x ctx _ Hx Hk. exists (- EIOCBQUEUED), s. split; [reflexivity|]. split; [constructor|]. intros H. by contradiction H.
Defined.

(** descriptor 3 is a file that can be read *)
Definition demo_kernel : kernel := set_fdt {[ 3 := 60%nat ]} boot.
Definition demo_start : aio :=
  Aio demo_kernel ∅ ∅ {[ 60%nat := Iofile 1 true false true false false ]} ∅ None 0 [] ∅ [] 1 1.

#[local] Abbreviation demo_reach := (areach (WL := wait_lib) 1 192 65536 no_cancel_fn (mret tt)
  (fun _ _ _ => true) (fun _ _ _ n => n) (fun _ _ _ n => n) queued queued no_eventfd).
#[local] Abbreviation demo_run := (run_aop (WL := wait_lib) 1 192 65536 no_cancel_fn (mret tt)
  (fun _ _ _ => true) (fun _ _ _ n => n) (fun _ _ _ n => n) queued queued no_eventfd).

Lemma aio_kernel_ok : sys_ok demo_kernel.
Proof.
  destruct boot_ok as ((Hi & Ht & Hq) & Hs & Hm). split_and!; [split_and!; [by destruct Hi|done|by destruct Hq]|..].
  - intros g c Hc. by destruct (Hs g c Hc).
  - done.
Qed.

Lemma demo_start_ok : astart 1 demo_start.
Proof.
  split; try reflexivity.
  - apply aio_kernel_ok.
  - intros f. unfold demo_start; simpl. rewrite count_empty. destruct (decide (f = 60%nat)) as [->|Hne].
    + rewrite lookup_singleton_eq. simpl. lia.
    + by rewrite lookup_singleton_ne.
  - intros e. unfold demo_start; simpl. by rewrite lookup_empty, count_empty.
  - simpl. lia.
  - eexists. reflexivity.
Qed.

Definition after (o : outcome aio (option nat)) : aio := match o with Ret _ s => s | _ => demo_start end.

(** io_setup(8), the lookup of the new context (number 1, at address 4096) *)
Definition demo_setup : aop := Io_setup 8 (Some 0) true true true (fun _ => true) 4096.
Definition demo_made : aio := after (demo_run demo_setup demo_start).
Definition demo_held : aio := after (demo_run (Lookup (Some 0) 4096) demo_made).
Definition demo_holds : nat -> Z := plus 1 1 (fun _ => 0).

Lemma demo_made_reach : demo_reach (fun _ => 0) demo_made.
Proof.
  apply (areach_step (WL := wait_lib) 1 192 65536 no_cancel_fn (mret tt) (fun _ _ _ => true) (fun _ _ _ n => n) (fun _ _ _ n => n)
    queued queued no_eventfd (fun _ => 0) demo_start demo_setup None); [|done|vm_compute; reflexivity].
  apply areach_start. exact demo_start_ok.
Qed.

Lemma demo_held_reach : demo_reach demo_holds demo_held.
Proof.
  apply (areach_step (WL := wait_lib) 1 192 65536 no_cancel_fn (mret tt) (fun _ _ _ => true) (fun _ _ _ n => n) (fun _ _ _ n => n)
    queued queued no_eventfd (fun _ => 0) demo_made (Lookup (Some 0) 4096) (Some 1%nat)); [exact demo_made_reach| |vm_compute; reflexivity].
  intros id [= <-]. lia.
Qed.

(** a read of 16 bytes from descriptor 3, and one from a closed descriptor *)
Definition demo_iocb (fd : Z) : iocb := Iocb 77 0 0 IOCB_CMD_PREAD fd 8192 16 0 0 0.

Lemma demo_fds fd : fds_ok no_eventfd demo_held (demo_iocb fd).
Proof.
  split; [|done]. simpl. intros f Hf. change (akern demo_held) with demo_kernel in Hf. unfold demo_kernel in Hf; simpl in Hf.
  apply lookup_singleton_Some in Hf as [<- <-]. eexists. reflexivity.
Qed.


Lemma aio_refs_exact_witness :
  exists c, ctxs demo_held !! 1%nat = Some c /\ users c = 2 /\ reqs c = 2 /\ aio_nr demo_held = 16.
Proof.
  destruct (aio_refs_exact (WL := wait_lib) 1 192 65536 ltac:(lia) no_cancel_fn no_cancel_quiet (mret tt) (fun _ _ _ => true)
    (fun _ _ _ n => n) (fun _ _ _ n => n) queued queued no_eventfd (queued_ok 1) (queued_ok 1) demo_holds demo_held
    demo_held_reach) as (H & _).
  eexists. split; [vm_compute; reflexivity|]. split; [reflexivity|]. split; [reflexivity|]. vm_compute. reflexivity.
Defined.

Lemma io_submit_one_unwinds_witness :
  exists s', io_submit_one (fun _ _ _ => true) (fun _ _ _ n => n) (fun _ _ _ n => n) queued queued no_eventfd
    1 9000 true (demo_iocb 4) false demo_held = Ret (- EBADF) s' /\ kiocbs s' = ∅.
Proof.
  destruct (io_submit_one_unwinds (WL := wait_lib) 1 192 65536 ltac:(lia) no_cancel_fn no_cancel_quiet (mret tt) (fun _ _ _ => true)
    (fun _ _ _ n => n) (fun _ _ _ n => n) queued queued no_eventfd (queued_ok 1) (queued_ok 1) demo_holds demo_held 1
    (match ctxs demo_held !! 1%nat with Some c => c | None => blank 0 end) 9000 true (demo_iocb 4) false)
    as (ret & s' & E & _ & H).
  - exact demo_held_reach.
  - vm_compute. reflexivity.
  - vm_compute. reflexivity.
  - apply demo_fds.
  - assert (ret = - EBADF) as -> by (vm_compute in E; apply Ret_inj in E as [<- _]; reflexivity).
    exists s'. split; [exact E|]. destruct (H ltac:(done)) as (-> & _). vm_compute. reflexivity.
Defined.

Lemma io_setup_destroy_roundtrip_witness :
  exists ctx id s2 s3, ctxs demo_start !! ctx = None /\
    lookup_ioctx (Some id) 4096 demo_made = Ret (Some ctx) s2 /\
    sys_io_destroy no_cancel_fn (Some id) 4096 demo_made = Ret 0 s3 /\
    lookup_ioctx (Some id) 4096 s3 = Ret None s3 /\ aio_nr s3 = aio_nr demo_start.
Proof.
  apply (io_setup_destroy_roundtrip (WL := wait_lib) 1 192 65536 ltac:(lia) no_cancel_fn no_cancel_quiet (mret tt) (fun _ _ _ => true)
    (fun _ _ _ n => n) (fun _ _ _ n => n) queued queued no_eventfd (queued_ok 1) (queued_ok 1) (fun _ => 0) demo_start
    8 true true true (fun _ => true) 4096 demo_made).
  - apply areach_start. exact demo_start_ok.
  - vm_compute. reflexivity.
Defined.

(** ** What the comments do not say *)

(** Two flaws of io_setup(), on a machine with one CPU.  It doubles its
    argument in 32 bits before it checks it: io_setup(2^31 + 4) wraps to a
    context for 8 requests and returns 0, although io_setup() of much less
    (2^22 + 1) is refused with -EINVAL as too many.  And when it fails after
    aio_setup_ring() (here because the system-wide limit is reached) it frees
    the context but leaves the ring mapped in the address space of the
    process: aio_free_ring() does not unmap it, only kill_ioctx() does. *)
Theorem io_setup_flaws :
  let setup := aio_setup_ring true true (fun _ => true) 4096 in
  (exists s c, sys_io_setup no_cancel_fn 192 1 65536 setup (2 ^ 31 + 4) (Some 0) true demo_start = Ret 0 s /\
     ctxs s !! 1%nat = Some c /\ max_reqs c = 8) /\
  sys_io_setup no_cancel_fn 192 1 65536 setup (2 ^ 22 + 1) (Some 0) true demo_start = Ret (- EINVAL) demo_start /\
  (exists s, sys_io_setup no_cancel_fn 192 1 65536 setup 8 (Some 0) true (set_aio_nr 131072 demo_start) = Ret (- EAGAIN) s /\
     ctxs s = ∅ /\ 4096 ∈ mmaps s).
Proof.
  split_and!; [|vm_compute; reflexivity|].
  - eexists _, _. split; [vm_compute; reflexivity|]. split; [vm_compute; reflexivity|]. reflexivity.
  - eexists. split; [vm_compute; reflexivity|]. split; [reflexivity|]. set_solver.
Qed.

(** a group (100) that is one over its limit, attached to context 1; task 1
    belongs to it *)
Definition demo_full : aio :=
  match cmgroups demo2 !! 100%nat with
  | Some g => set_akern (set_aio_cmgroup {[ 1%nat := 100%nat ]}
      (set_cmgroups (<[100%nat := set_attached_aio (Some 1%nat) (set_available (-1) g)]> (cmgroups demo2)) demo2)) demo_made
  | None => demo_made
  end.

#[local] Abbreviation demo_getevents := (fun garbage => sys_io_getevents (H := wait_lib) no_cancel_fn (fun _ => true)
  (fun _ => block) garbage 5 50 (fun _ _ => block)).

(** io_getevents() with an invalid count and a timeout passes two local
    variables to cmgroup_wait() that it never set: depending on what the stack
    held there, a call that fails with -EINVAL returns at once (0) or first
    sleeps in the group (any other value beyond the timer slack), although
    its timeout says not to wait at all. *)
Theorem io_getevents_garbage :
  (exists s, demo_getevents 0 9%nat (Some 0) 4096 2 1 (Some (Some 0)) demo_full = Ret (- EINVAL, []) s) /\
  (exists s, demo_getevents 1000 9%nat (Some 0) 4096 2 1 (Some (Some 0)) demo_full = Blocked s).
Proof. split; eexists; vm_compute; reflexivity. Qed.
