(* ===== verification/RtRq.v ===== *)
(** * The real-time class: run queues (kernel/sched/rt.c, sched.h, core.c)

    SCHED_FIFO and SCHED_RR tasks wait in a priority array per CPU.  Next to
    the array the run queue caches its best priority, the counts of tasks and
    of tasks that may migrate, the list of tasks that other CPUs may take and
    the time real-time tasks have used in the current period.  The kernel is
    configured with CONFIG_SMP and CONFIG_CMGROUPS and without
    CONFIG_RT_GROUP_SCHED, CONFIG_IRQ_TIME_ACCOUNTING,
    CONFIG_PARAVIRT_TIME_ACCOUNTING and CONFIG_NO_HZ_FULL; there is one root
    domain.  A run queue is named by its CPU, a task by its address; locks are
    held as the functions require them.  Statistics, trace points and the
    interrupts that resched_task() sends to other CPUs are not modelled. *)

From S2P Require Import Prelude Wait Tasklet Cmgroup Sched.
Local Open Scope Z_scope.

Definition MAX_RT_PRIO : Z := 100.
Definition MAX_DL_PRIO : Z := 0.
Definition MAX_PRIO : Z := 140.
Definition RUNTIME_INF : Z := 2 ^ 64 - 1.
Definition NSEC_PER_USEC : Z := 1000.
Definition CPUPRI_INVALID : Z := -1.
Definition SCHED_RR : Z := 2.

(** ** What the class uses of other files

    lib/plist.c, lists sorted by priority, and kernel/sched/cpupri.c, the
    priorities of all CPUs, are not part of the tree.  [cpupri_find p m s] is
    the mask of CPUs that cpupri_find() fills for a task of priority [p] and
    affinity [m], or [None] when it finds none. *)
Class RtLib := {
  plist_add : Z -> nat -> list (Z * nat) -> list (Z * nat);
  plist_del : nat -> list (Z * nat) -> list (Z * nat);
  cpupri : Type;
  cpupri_set : nat -> Z -> cpupri -> cpupri;
  cpupri_find : Z -> gset nat -> cpupri -> option (gset nat)
}.

(** ** Structures *)

(** struct rt_rq with its priority array.  [highest_prio.curr] and [.next] are
    [hp_curr] and [hp_next]; a queue holds tasks, a [pushable_tasks] entry is a
    plist node with its own priority. *)
Record rt_rq := RtRq {
  bitmap : Z;
  queue : list (list nat);
  rt_nr_running : Z;
  hp_curr : Z;
  hp_next : Z;
  rt_nr_migratory : Z;
  rt_nr_total : Z;
  overloaded : bool;
  pushable_tasks : list (Z * nat);
  rt_throttled : bool;
  rt_time : Z;
  rt_runtime : Z
}.

Definition set_bitmap (x : Z) (r : rt_rq) : rt_rq :=
  RtRq x (queue r) (rt_nr_running r) (hp_curr r) (hp_next r) (rt_nr_migratory r)
    (rt_nr_total r) (overloaded r) (pushable_tasks r) (rt_throttled r) (rt_time r)
    (rt_runtime r).
Definition set_queue (x : list (list nat)) (r : rt_rq) : rt_rq :=
  RtRq (bitmap r) x (rt_nr_running r) (hp_curr r) (hp_next r) (rt_nr_migratory r)
    (rt_nr_total r) (overloaded r) (pushable_tasks r) (rt_throttled r) (rt_time r)
    (rt_runtime r).
Definition set_rt_nr_running (x : Z) (r : rt_rq) : rt_rq :=
  RtRq (bitmap r) (queue r) x (hp_curr r) (hp_next r) (rt_nr_migratory r) (rt_nr_total
    r) (overloaded r) (pushable_tasks r) (rt_throttled r) (rt_time r) (rt_runtime r).
Definition set_hp_curr (x : Z) (r : rt_rq) : rt_rq :=
  RtRq (bitmap r) (queue r) (rt_nr_running r) x (hp_next r) (rt_nr_migratory r)
    (rt_nr_total r) (overloaded r) (pushable_tasks r) (rt_throttled r) (rt_time r)
    (rt_runtime r).
Definition set_hp_next (x : Z) (r : rt_rq) : rt_rq :=
  RtRq (bitmap r) (queue r) (rt_nr_running r) (hp_curr r) x (rt_nr_migratory r)
    (rt_nr_total r) (overloaded r) (pushable_tasks r) (rt_throttled r) (rt_time r)
    (rt_runtime r).
Definition set_rt_nr_migratory (x : Z) (r : rt_rq) : rt_rq :=
  RtRq (bitmap r) (queue r) (rt_nr_running r) (hp_curr r) (hp_next r) x (rt_nr_total r)
    (overloaded r) (pushable_tasks r) (rt_throttled r) (rt_time r) (rt_runtime r).
Definition set_rt_nr_total (x : Z) (r : rt_rq) : rt_rq :=
  RtRq (bitmap r) (queue r) (rt_nr_running r) (hp_curr r) (hp_next r) (rt_nr_migratory
    r) x (overloaded r) (pushable_tasks r) (rt_throttled r) (rt_time r) (rt_runtime r).
Definition set_overloaded (x : bool) (r : rt_rq) : rt_rq :=
  RtRq (bitmap r) (queue r) (rt_nr_running r) (hp_curr r) (hp_next r) (rt_nr_migratory
    r) (rt_nr_total r) x (pushable_tasks r) (rt_throttled r) (rt_time r) (rt_runtime r).
Definition set_pushable_tasks (x : list (Z * nat)) (r : rt_rq) : rt_rq :=
  RtRq (bitmap r) (queue r) (rt_nr_running r) (hp_curr r) (hp_next r) (rt_nr_migratory
    r) (rt_nr_total r) (overloaded r) x (rt_throttled r) (rt_time r) (rt_runtime r).
Definition set_rt_throttled (x : bool) (r : rt_rq) : rt_rq :=
  RtRq (bitmap r) (queue r) (rt_nr_running r) (hp_curr r) (hp_next r) (rt_nr_migratory
    r) (rt_nr_total r) (overloaded r) (pushable_tasks r) x (rt_time r) (rt_runtime r).
Definition set_rt_time (x : Z) (r : rt_rq) : rt_rq :=
  RtRq (bitmap r) (queue r) (rt_nr_running r) (hp_curr r) (hp_next r) (rt_nr_migratory
    r) (rt_nr_total r) (overloaded r) (pushable_tasks r) (rt_throttled r) x (rt_runtime
    r).
Definition set_rt_runtime (x : Z) (r : rt_rq) : rt_rq :=
  RtRq (bitmap r) (queue r) (rt_nr_running r) (hp_curr r) (hp_next r) (rt_nr_migratory
    r) (rt_nr_total r) (overloaded r) (pushable_tasks r) (rt_throttled r) (rt_time r) x.

(** struct rq: the fields the class uses; [sd] lists the domains of the CPU,
    smallest first, as flags and span *)
Record rq := Rq {
  rt : rt_rq;
  nr_running : Z;
  curr : nat;
  idle : nat;
  online : bool;
  clock : Z;
  clock_task : Z;
  skip_clock_update : Z;
  post_schedule : bool;
  sd : list (Z * gset nat)
}.

Definition set_rt (x : rt_rq) (r : rq) : rq :=
  Rq x (nr_running r) (curr r) (idle r) (online r) (clock r) (clock_task r)
    (skip_clock_update r) (post_schedule r) (sd r).
Definition set_nr_running (x : Z) (r : rq) : rq :=
  Rq (rt r) x (curr r) (idle r) (online r) (clock r) (clock_task r) (skip_clock_update
    r) (post_schedule r) (sd r).
Definition set_curr (x : nat) (r : rq) : rq :=
  Rq (rt r) (nr_running r) x (idle r) (online r) (clock r) (clock_task r)
    (skip_clock_update r) (post_schedule r) (sd r).
Definition set_idle (x : nat) (r : rq) : rq :=
  Rq (rt r) (nr_running r) (curr r) x (online r) (clock r) (clock_task r)
    (skip_clock_update r) (post_schedule r) (sd r).
Definition set_online (x : bool) (r : rq) : rq :=
  Rq (rt r) (nr_running r) (curr r) (idle r) x (clock r) (clock_task r)
    (skip_clock_update r) (post_schedule r) (sd r).
Definition set_clock (x : Z) (r : rq) : rq :=
  Rq (rt r) (nr_running r) (curr r) (idle r) (online r) x (clock_task r)
    (skip_clock_update r) (post_schedule r) (sd r).
Definition set_clock_task (x : Z) (r : rq) : rq :=
  Rq (rt r) (nr_running r) (curr r) (idle r) (online r) (clock r) x (skip_clock_update
    r) (post_schedule r) (sd r).
Definition set_skip_clock_update (x : Z) (r : rq) : rq :=
  Rq (rt r) (nr_running r) (curr r) (idle r) (online r) (clock r) (clock_task r) x
    (post_schedule r) (sd r).
Definition set_post_schedule (x : bool) (r : rq) : rq :=
  Rq (rt r) (nr_running r) (curr r) (idle r) (online r) (clock r) (clock_task r)
    (skip_clock_update r) x (sd r).
Definition set_sd (x : list (Z * gset nat)) (r : rq) : rq :=
  Rq (rt r) (nr_running r) (curr r) (idle r) (online r) (clock r) (clock_task r)
    (skip_clock_update r) (post_schedule r) x.

(** the scheduling classes, and the fields of a task the class uses (those the
    group's accounting uses are in the [task_struct] of Cmgroup.v) *)
Inductive sched_class := stop_class | dl_class | rt_class | fair_class | idle_class.
#[export] Instance sched_class_eq_dec : EqDecision sched_class.
Proof. solve_decision. Defined.

Record rt_task := RtTask {
  prio : Z;
  policy : Z;
  class : sched_class;
  cpus_allowed : gset nat;
  nr_cpus_allowed : Z;
  timeout : Z;
  watchdog_stamp : Z;
  time_slice : Z;
  exec_start : Z;
  sum_exec_runtime : Z;
  sched_exp : Z;
  rttime : Z * Z;
  on_cpu : bool;
  need_resched : bool
}.

Definition set_prio (x : Z) (t : rt_task) : rt_task :=
  RtTask x (policy t) (class t) (cpus_allowed t) (nr_cpus_allowed t) (timeout t)
    (watchdog_stamp t) (time_slice t) (exec_start t) (sum_exec_runtime t) (sched_exp t)
    (rttime t) (on_cpu t) (need_resched t).
Definition set_policy (x : Z) (t : rt_task) : rt_task :=
  RtTask (prio t) x (class t) (cpus_allowed t) (nr_cpus_allowed t) (timeout t)
    (watchdog_stamp t) (time_slice t) (exec_start t) (sum_exec_runtime t) (sched_exp t)
    (rttime t) (on_cpu t) (need_resched t).
Definition set_class (x : sched_class) (t : rt_task) : rt_task :=
  RtTask (prio t) (policy t) x (cpus_allowed t) (nr_cpus_allowed t) (timeout t)
    (watchdog_stamp t) (time_slice t) (exec_start t) (sum_exec_runtime t) (sched_exp t)
    (rttime t) (on_cpu t) (need_resched t).
Definition set_cpus_allowed (x : gset nat) (t : rt_task) : rt_task :=
  RtTask (prio t) (policy t) (class t) x (nr_cpus_allowed t) (timeout t) (watchdog_stamp
    t) (time_slice t) (exec_start t) (sum_exec_runtime t) (sched_exp t) (rttime t)
    (on_cpu t) (need_resched t).
Definition set_nr_cpus_allowed (x : Z) (t : rt_task) : rt_task :=
  RtTask (prio t) (policy t) (class t) (cpus_allowed t) x (timeout t) (watchdog_stamp t)
    (time_slice t) (exec_start t) (sum_exec_runtime t) (sched_exp t) (rttime t) (on_cpu
    t) (need_resched t).
Definition set_timeout (x : Z) (t : rt_task) : rt_task :=
  RtTask (prio t) (policy t) (class t) (cpus_allowed t) (nr_cpus_allowed t) x
    (watchdog_stamp t) (time_slice t) (exec_start t) (sum_exec_runtime t) (sched_exp t)
    (rttime t) (on_cpu t) (need_resched t).
Definition set_watchdog_stamp (x : Z) (t : rt_task) : rt_task :=
  RtTask (prio t) (policy t) (class t) (cpus_allowed t) (nr_cpus_allowed t) (timeout t)
    x (time_slice t) (exec_start t) (sum_exec_runtime t) (sched_exp t) (rttime t)
    (on_cpu t) (need_resched t).
Definition set_time_slice (x : Z) (t : rt_task) : rt_task :=
  RtTask (prio t) (policy t) (class t) (cpus_allowed t) (nr_cpus_allowed t) (timeout t)
    (watchdog_stamp t) x (exec_start t) (sum_exec_runtime t) (sched_exp t) (rttime t)
    (on_cpu t) (need_resched t).
Definition set_exec_start (x : Z) (t : rt_task) : rt_task :=
  RtTask (prio t) (policy t) (class t) (cpus_allowed t) (nr_cpus_allowed t) (timeout t)
    (watchdog_stamp t) (time_slice t) x (sum_exec_runtime t) (sched_exp t) (rttime t)
    (on_cpu t) (need_resched t).
Definition set_sum_exec_runtime (x : Z) (t : rt_task) : rt_task :=
  RtTask (prio t) (policy t) (class t) (cpus_allowed t) (nr_cpus_allowed t) (timeout t)
    (watchdog_stamp t) (time_slice t) (exec_start t) x (sched_exp t) (rttime t) (on_cpu
    t) (need_resched t).
Definition set_sched_exp (x : Z) (t : rt_task) : rt_task :=
  RtTask (prio t) (policy t) (class t) (cpus_allowed t) (nr_cpus_allowed t) (timeout t)
    (watchdog_stamp t) (time_slice t) (exec_start t) (sum_exec_runtime t) x (rttime t)
    (on_cpu t) (need_resched t).
Definition set_rttime (x : Z * Z) (t : rt_task) : rt_task :=
  RtTask (prio t) (policy t) (class t) (cpus_allowed t) (nr_cpus_allowed t) (timeout t)
    (watchdog_stamp t) (time_slice t) (exec_start t) (sum_exec_runtime t) (sched_exp t)
    x (on_cpu t) (need_resched t).
Definition set_on_cpu (x : bool) (t : rt_task) : rt_task :=
  RtTask (prio t) (policy t) (class t) (cpus_allowed t) (nr_cpus_allowed t) (timeout t)
    (watchdog_stamp t) (time_slice t) (exec_start t) (sum_exec_runtime t) (sched_exp t)
    (rttime t) x (need_resched t).
Definition set_need_resched (x : bool) (t : rt_task) : rt_task :=
  RtTask (prio t) (policy t) (class t) (cpus_allowed t) (nr_cpus_allowed t) (timeout t)
    (watchdog_stamp t) (time_slice t) (exec_start t) (sum_exec_runtime t) (sched_exp t)
    (rttime t) (on_cpu t) x.

(** struct rt_bandwidth and struct root_domain *)
Record rt_bandwidth := RtBandwidth {
  rt_period : Z;
  rt_b_runtime : Z;
  rt_period_timer : bool
}.

Definition set_rt_period (x : Z) (r : rt_bandwidth) : rt_bandwidth :=
  RtBandwidth x (rt_b_runtime r) (rt_period_timer r).
Definition set_rt_b_runtime (x : Z) (r : rt_bandwidth) : rt_bandwidth :=
  RtBandwidth (rt_period r) x (rt_period_timer r).
Definition set_rt_period_timer (x : bool) (r : rt_bandwidth) : rt_bandwidth :=
  RtBandwidth (rt_period r) (rt_b_runtime r) x.
Record root_domain := RootDomain {
  span : gset nat;
  rto_mask : gset nat;
  rto_count : Z;
  dl_bw : Z;
  dl_total_bw : Z
}.

Definition set_span (x : gset nat) (r : root_domain) : root_domain :=
  RootDomain x (rto_mask r) (rto_count r) (dl_bw r) (dl_total_bw r).
Definition set_rto_mask (x : gset nat) (r : root_domain) : root_domain :=
  RootDomain (span r) x (rto_count r) (dl_bw r) (dl_total_bw r).
Definition set_rto_count (x : Z) (r : root_domain) : root_domain :=
  RootDomain (span r) (rto_mask r) x (dl_bw r) (dl_total_bw r).
Definition set_dl_bw (x : Z) (r : root_domain) : root_domain :=
  RootDomain (span r) (rto_mask r) (rto_count r) x (dl_total_bw r).
Definition set_dl_total_bw (x : Z) (r : root_domain) : root_domain :=
  RootDomain (span r) (rto_mask r) (rto_count r) (dl_bw r) x.
Record sysctls := Sysctls {
  sysctl_rt_period : Z;
  sysctl_rt_runtime : Z;
  rr_timeslice : Z;
  RT_RUNTIME_SHARE : bool;
  scheduler_running : bool
}.

Definition set_sysctl_rt_period (x : Z) (r : sysctls) : sysctls :=
  Sysctls x (sysctl_rt_runtime r) (rr_timeslice r) (RT_RUNTIME_SHARE r)
    (scheduler_running r).
Definition set_sysctl_rt_runtime (x : Z) (r : sysctls) : sysctls :=
  Sysctls (sysctl_rt_period r) x (rr_timeslice r) (RT_RUNTIME_SHARE r)
    (scheduler_running r).
Definition set_rr_timeslice (x : Z) (r : sysctls) : sysctls :=
  Sysctls (sysctl_rt_period r) (sysctl_rt_runtime r) x (RT_RUNTIME_SHARE r)
    (scheduler_running r).
Definition set_RT_RUNTIME_SHARE (x : bool) (r : sysctls) : sysctls :=
  Sysctls (sysctl_rt_period r) (sysctl_rt_runtime r) (rr_timeslice r) x
    (scheduler_running r).
Definition set_scheduler_running (x : bool) (r : sysctls) : sysctls :=
  Sysctls (sysctl_rt_period r) (sysctl_rt_runtime r) (rr_timeslice r) (RT_RUNTIME_SHARE
    r) x.

Section Class.
Context {RL : RtLib}.

(** the scheduler's world; [krn] is the kernel of Cmgroup.v, [now] what
    sched_clock_cpu() reads *)
Record rtw := RtW {
  rqs : gmap nat rq;
  rts : gmap nat rt_task;
  rd : root_domain;
  rt_b : rt_bandwidth;
  pri : cpupri;
  sys : sysctls;
  cpu_online_mask : gset nat;
  jiffies : Z;
  now : Z;
  krn : kernel
}.

Definition set_rqs (x : gmap nat rq) (w : rtw) : rtw :=
  RtW x (rts w) (rd w) (rt_b w) (pri w) (sys w) (cpu_online_mask w) (jiffies w) (now w)
    (krn w).
Definition set_rts (x : gmap nat rt_task) (w : rtw) : rtw :=
  RtW (rqs w) x (rd w) (rt_b w) (pri w) (sys w) (cpu_online_mask w) (jiffies w) (now w)
    (krn w).
Definition set_rd (x : root_domain) (w : rtw) : rtw :=
  RtW (rqs w) (rts w) x (rt_b w) (pri w) (sys w) (cpu_online_mask w) (jiffies w) (now w)
    (krn w).
Definition set_rt_b (x : rt_bandwidth) (w : rtw) : rtw :=
  RtW (rqs w) (rts w) (rd w) x (pri w) (sys w) (cpu_online_mask w) (jiffies w) (now w)
    (krn w).
Definition set_pri (x : cpupri) (w : rtw) : rtw :=
  RtW (rqs w) (rts w) (rd w) (rt_b w) x (sys w) (cpu_online_mask w) (jiffies w) (now w)
    (krn w).
Definition set_sys (x : sysctls) (w : rtw) : rtw :=
  RtW (rqs w) (rts w) (rd w) (rt_b w) (pri w) x (cpu_online_mask w) (jiffies w) (now w)
    (krn w).
Definition set_cpu_online_mask (x : gset nat) (w : rtw) : rtw :=
  RtW (rqs w) (rts w) (rd w) (rt_b w) (pri w) (sys w) x (jiffies w) (now w) (krn w).
Definition set_jiffies (x : Z) (w : rtw) : rtw :=
  RtW (rqs w) (rts w) (rd w) (rt_b w) (pri w) (sys w) (cpu_online_mask w) x (now w) (krn
    w).
Definition set_now (x : Z) (w : rtw) : rtw :=
  RtW (rqs w) (rts w) (rd w) (rt_b w) (pri w) (sys w) (cpu_online_mask w) (jiffies w) x
    (krn w).
Definition set_krn (x : kernel) (w : rtw) : rtw :=
  RtW (rqs w) (rts w) (rd w) (rt_b w) (pri w) (sys w) (cpu_online_mask w) (jiffies w)
    (now w) x.

Definition W : Type -> Type := M rtw.

(** ** Access *)

Definition cpu_rq (c : nat) : W rq := deref (fun w => rqs w !! c).
Definition put_rq (c : nat) (r : rq) : W unit :=
  modify (fun w => set_rqs (<[c := r]> (rqs w)) w).
Definition rt_rq_of (c : nat) : W rt_rq := r ← cpu_rq c; mret (rt r).
Definition put_rt_rq (c : nat) (x : rt_rq) : W unit := r ← cpu_rq c; put_rq c (set_rt x r).
Definition upd_rt_rq (c : nat) (f : rt_rq -> rt_rq) : W unit :=
  x ← rt_rq_of c; put_rt_rq c (f x).
Definition get_rt (t : nat) : W rt_task := deref (fun w => rts w !! t).
Definition put_rt (t : nat) (x : rt_task) : W unit :=
  modify (fun w => set_rts (<[t := x]> (rts w)) w).
Definition BUG_ON (b : bool) : W unit := if b then oops else mret tt.

(** code of the other components *)
Definition lift_k {A} (m : K A) : W A := fun w =>
  match m (krn w) with
  | Ret a k => Ret a (set_krn k w)
  | Blocked k => Blocked (set_krn k w)
  | Oops => Oops
  end.

Definition task_cpu (t : nat) : W nat := x ← lift_k (get_task t); mret (tcpu x).
Definition task_on_rq (t : nat) : W bool := x ← lift_k (get_task t); mret (on_rq x).

(** CPU masks: the CPUs in increasing order, the first one, the weight *)
Definition for_each_cpu (m : gset nat) : list nat := merge_sort le (elements m).
Definition cpumask_first (m : gset nat) : option nat := head (for_each_cpu m).
Definition cpumask_weight (m : gset nat) : Z := Z.of_nat (size m).

(** the priority array: the index of the first set bit, and the queue of a
    priority, which is an element of the array only for a real-time one *)
Definition sched_find_first_bit (b : Z) : Z :=
  match list_find (fun i => Z.testbit b i = true) (seqZ 0 (MAX_RT_PRIO + 1)) with
  | Some (_, i) => i
  | None => MAX_RT_PRIO + 1
  end.
Definition queue_of (p : Z) (x : rt_rq) : option (list nat) :=
  if (0 <=? p) && (p <? MAX_RT_PRIO) then queue x !! Z.to_nat p else None.
Definition put_queue_of (p : Z) (q : list nat) (x : rt_rq) : rt_rq :=
  set_queue (<[Z.to_nat p := q]> (queue x)) x.

Definition rt_prio (p : Z) : bool := p <? MAX_RT_PRIO.
Definition dl_prio (p : Z) : bool := p <? MAX_DL_PRIO.

(** ** The clock and the request to reschedule *)

Definition update_rq_clock (c : nat) : W unit :=
  r ← cpu_rq c;
  if 0 <? skip_clock_update r then mret tt
  else
    w ← get;
    let delta := s64 (now w - clock r) in
    put_rq c (set_clock_task (u64 (clock_task r + delta)) (set_clock (u64 (clock r + delta)) r)).

Definition resched_task (t : nat) : W unit :=
  x ← get_rt t;
  if need_resched x then mret tt else put_rt t (set_need_resched true x).

Definition rt_bandwidth_enabled (w : rtw) : bool := 0 <=? sysctl_rt_runtime (sys w).

(** start_bandwidth_timer() loops until the timer is active *)
Definition start_rt_bandwidth : W unit :=
  w ← get;
  if negb (rt_bandwidth_enabled w) || (rt_b_runtime (rt_b w) =? RUNTIME_INF) then mret tt
  else if rt_period_timer (rt_b w) then mret tt
  else put (set_rt_b (set_rt_period_timer true (rt_b w)) w).

(** ** Tasks that can migrate, and run queues with too many tasks *)

Definition rt_set_overload (c : nat) : W unit :=
  r ← cpu_rq c;
  if negb (online r) then mret tt
  else modify (fun w =>
    let d := set_rto_mask ({[c]} ∪ rto_mask (rd w)) (rd w) in
    set_rd (set_rto_count (s32 (rto_count d + 1)) d) w).

Definition rt_clear_overload (c : nat) : W unit :=
  r ← cpu_rq c;
  if negb (online r) then mret tt
  else modify (fun w =>
    let d := set_rto_count (s32 (rto_count (rd w) - 1)) (rd w) in
    set_rd (set_rto_mask (rto_mask d ∖ {[c]}) d) w).

Definition update_rt_migration (c : nat) : W unit :=
  x ← rt_rq_of c;
  if negb (rt_nr_migratory x =? 0) && (1 <? rt_nr_total x) then
    if negb (overloaded x) then rt_set_overload c ;; upd_rt_rq c (set_overloaded true)
    else mret tt
  else if overloaded x then rt_clear_overload c ;; upd_rt_rq c (set_overloaded false)
  else mret tt.

Definition inc_rt_migration (t c : nat) : W unit :=
  p ← get_rt t;
  upd_rt_rq c (fun x => set_rt_nr_total (u64 (rt_nr_total x + 1)) x) ;;
  when (1 <? nr_cpus_allowed p)
    (upd_rt_rq c (fun x => set_rt_nr_migratory (u64 (rt_nr_migratory x + 1)) x)) ;;
  update_rt_migration c.

Definition dec_rt_migration (t c : nat) : W unit :=
  p ← get_rt t;
  upd_rt_rq c (fun x => set_rt_nr_total (u64 (rt_nr_total x - 1)) x) ;;
  when (1 <? nr_cpus_allowed p)
    (upd_rt_rq c (fun x => set_rt_nr_migratory (u64 (rt_nr_migratory x - 1)) x)) ;;
  update_rt_migration c.

Definition has_pushable_tasks (c : nat) : W bool :=
  x ← rt_rq_of c; mret (bool_decide (pushable_tasks x <> [])).

Definition enqueue_pushable_task (c t : nat) : W unit :=
  p ← get_rt t;
  upd_rt_rq c (fun x =>
    set_pushable_tasks (plist_add (prio p) t (plist_del t (pushable_tasks x))) x) ;;
  upd_rt_rq c (fun x => if prio p <? hp_next x then set_hp_next (prio p) x else x).

Definition dequeue_pushable_task (c t : nat) : W unit :=
  upd_rt_rq c (fun x => set_pushable_tasks (plist_del t (pushable_tasks x)) x) ;;
  x ← rt_rq_of c;
  match pushable_tasks x with
  | (_, q) :: _ => p ← get_rt q; upd_rt_rq c (set_hp_next (prio p))
  | [] => upd_rt_rq c (set_hp_next MAX_RT_PRIO)
  end.

(** ** The priority array *)

Definition on_rt_rq (x : rt_rq) (t : nat) : bool := bool_decide (t ∈ concat (queue x)).

Definition inc_rt_prio_smp (c : nat) (p prev_prio : Z) : W unit :=
  r ← cpu_rq c;
  when (online r && (p <? prev_prio)) (modify (fun w => set_pri (cpupri_set c p (pri w)) w)).

Definition dec_rt_prio_smp (c : nat) (prev_prio : Z) : W unit :=
  r ← cpu_rq c;
  when (online r && negb (hp_curr (rt r) =? prev_prio))
    (modify (fun w => set_pri (cpupri_set c (hp_curr (rt r)) (pri w)) w)).

Definition inc_rt_prio (c : nat) (p : Z) : W unit :=
  x ← rt_rq_of c;
  let prev_prio := hp_curr x in
  when (p <? prev_prio) (upd_rt_rq c (set_hp_curr p)) ;;
  inc_rt_prio_smp c p prev_prio.

Definition dec_rt_prio (c : nat) (p : Z) : W unit :=
  x ← rt_rq_of c;
  let prev_prio := hp_curr x in
  (if negb (rt_nr_running x =? 0) then
     when (p =? prev_prio) (upd_rt_rq c (set_hp_curr (sched_find_first_bit (bitmap x))))
   else upd_rt_rq c (set_hp_curr MAX_RT_PRIO)) ;;
  dec_rt_prio_smp c prev_prio.

Definition inc_rt_tasks (t c : nat) : W unit :=
  p ← get_rt t;
  upd_rt_rq c (fun x => set_rt_nr_running (u32 (rt_nr_running x + 1)) x) ;;
  inc_rt_prio c (prio p) ;;
  inc_rt_migration t c ;;
  start_rt_bandwidth.

Definition dec_rt_tasks (t c : nat) : W unit :=
  p ← get_rt t;
  upd_rt_rq c (fun x => set_rt_nr_running (u32 (rt_nr_running x - 1)) x) ;;
  dec_rt_prio c (prio p) ;;
  dec_rt_migration t c.

Definition __enqueue_rt_entity (c t : nat) (head : bool) : W unit :=
  p ← get_rt t;
  x ← rt_rq_of c;
  match queue_of (prio p) x with
  | None => oops
  | Some q =>
      put_rt_rq c (set_bitmap (Z.setbit (bitmap x) (prio p))
        (put_queue_of (prio p) (if head then t :: q else q ++ [t]) x)) ;;
      inc_rt_tasks t c
  end.

(** list_del_init() unlinks the task from whatever queue it is in *)
Definition list_del_init (t : nat) (x : rt_rq) : rt_rq :=
  set_queue (filter (fun u => u <> t) <$> queue x) x.

Definition __dequeue_rt_entity (c t : nat) : W unit :=
  p ← get_rt t;
  upd_rt_rq c (list_del_init t) ;;
  x ← rt_rq_of c;
  match queue_of (prio p) x with
  | None => oops
  | Some q =>
      when (bool_decide (q = []))
        (put_rt_rq c (set_bitmap (Z.clearbit (bitmap x) (prio p)) x)) ;;
      dec_rt_tasks t c
  end.

(** without groups the stack of entities is the task's own entity *)
Definition dequeue_rt_stack (c t : nat) : W unit :=
  x ← rt_rq_of c; when (on_rt_rq x t) (__dequeue_rt_entity c t).

Definition enqueue_rt_entity (c t : nat) (head : bool) : W unit :=
  dequeue_rt_stack c t ;; __enqueue_rt_entity c t head.

Definition dequeue_rt_entity (c t : nat) : W unit := dequeue_rt_stack c t.

Definition requeue_rt_entity (c t : nat) (head : bool) : W unit :=
  x ← rt_rq_of c;
  if on_rt_rq x t then
    p ← get_rt t;
    let x := list_del_init t x in
    match queue_of (prio p) x with
    | None => oops
    | Some q => put_rt_rq c (put_queue_of (prio p) (if head then t :: q else q ++ [t]) x)
    end
  else mret tt.

Definition requeue_task_rt (c t : nat) (head : bool) : W unit := requeue_rt_entity c t head.

(** ** Bandwidth: the time real-time tasks may use in a period *)

Definition sched_rt_bandwidth_account (c : nat) : W bool :=
  x ← rt_rq_of c; w ← get;
  mret (rt_period_timer (rt_b w) || (rt_time x <? rt_b_runtime (rt_b w))).

(** the loop of do_balance_runtime(): [c] borrows from the CPUs [l] *)
Fixpoint balance_from (c : nat) (weight period : Z) (l : list nat) (more : bool) : W bool :=
  match l with
  | [] => mret more
  | i :: l =>
      if decide (i = c) then balance_from c weight period l more
      else
        iter ← rt_rq_of i;
        if rt_runtime iter =? RUNTIME_INF then balance_from c weight period l more
        else
          let diff := s64 (rt_runtime iter - rt_time iter) in
          if 0 <? diff then
            x ← rt_rq_of c;
            let diff := u64 diff / weight in
            let diff := if period <? u64 (rt_runtime x + diff)
                        then s64 (period - rt_runtime x) else diff in
            upd_rt_rq i (fun y => set_rt_runtime (u64 (rt_runtime y - diff)) y) ;;
            upd_rt_rq c (fun y => set_rt_runtime (u64 (rt_runtime y + diff)) y) ;;
            x ← rt_rq_of c;
            if rt_runtime x =? period then mret true
            else balance_from c weight period l true
          else balance_from c weight period l more
  end.

Definition do_balance_runtime (c : nat) : W bool :=
  w ← get;
  balance_from c (cpumask_weight (span (rd w))) (rt_period (rt_b w))
    (for_each_cpu (span (rd w))) false.

Definition balance_runtime (c : nat) : W bool :=
  w ← get;
  if negb (RT_RUNTIME_SHARE (sys w)) then mret false
  else
    x ← rt_rq_of c;
    if rt_runtime x <? rt_time x then do_balance_runtime c else mret false.

(** the loop of __disable_runtime(): [c] takes [want] back from the CPUs [l] *)
Fixpoint reclaim_from (c : nat) (l : list nat) (want : Z) : W Z :=
  match l with
  | [] => mret want
  | i :: l =>
      iter ← rt_rq_of i;
      if bool_decide (i = c) || (rt_runtime iter =? RUNTIME_INF) then reclaim_from c l want
      else
        let diff := if 0 <? want then Z.min (s64 (rt_runtime iter)) want else want in
        upd_rt_rq i (fun y => set_rt_runtime (u64 (rt_runtime y - diff)) y) ;;
        let want := s64 (want - diff) in
        if want =? 0 then mret want else reclaim_from c l want
  end.

Definition __disable_runtime (c : nat) : W unit :=
  w ← get;
  if negb (scheduler_running (sys w)) then mret tt
  else
    x ← rt_rq_of c;
    (if (rt_runtime x =? RUNTIME_INF) || (rt_runtime x =? rt_b_runtime (rt_b w)) then mret tt
     else
       let want := s64 (rt_b_runtime (rt_b w) - rt_runtime x) in
       want ← reclaim_from c (for_each_cpu (span (rd w))) want;
       BUG_ON (negb (want =? 0))) ;;
    upd_rt_rq c (fun x => set_rt_throttled false (set_rt_runtime RUNTIME_INF x)).

Definition __enable_runtime (c : nat) : W unit :=
  w ← get;
  if negb (scheduler_running (sys w)) then mret tt
  else upd_rt_rq c (fun x =>
    set_rt_throttled false (set_rt_time 0 (set_rt_runtime (rt_b_runtime (rt_b w)) x))).

(** without groups the root queue is always in place *)
Definition sched_rt_rq_enqueue (c : nat) : W unit :=
  r ← cpu_rq c;
  when (negb (rt_nr_running (rt r) =? 0)) (resched_task (curr r)).

(** one CPU in do_sched_rt_period_timer(); returns what it contributes to
    [idle] and to [throttled] *)
Definition rt_period_cpu (overrun : Z) (c : nat) : W (bool * bool) :=
  x ← rt_rq_of c;
  ie ← (if negb (rt_time x =? 0) then
          (if rt_throttled x then (_ ← balance_runtime c; mret tt) else mret tt) ;;
          x ← rt_rq_of c;
          let runtime := rt_runtime x in
          let x := set_rt_time (rt_time x - Z.min (rt_time x) (u64 (overrun * runtime))) x in
          let unthrottle := rt_throttled x && (rt_time x <? runtime) in
          let x := if unthrottle then set_rt_throttled false x else x in
          put_rt_rq c x ;;
          r ← cpu_rq c;
          when (unthrottle && negb (rt_nr_running x =? 0) && bool_decide (curr r = idle r))
            (put_rq c (set_skip_clock_update (-1) r)) ;;
          mret ((rt_time x =? 0) && (rt_nr_running x =? 0), unthrottle)
        else if negb (rt_nr_running x =? 0) then mret (false, negb (rt_throttled x))
        else mret (true, false));
  x ← rt_rq_of c;
  when (snd ie) (sched_rt_rq_enqueue c) ;;
  mret (fst ie, rt_throttled x).

Fixpoint rt_period_cpus (overrun : Z) (l : list nat) (idle throttled : bool) : W (bool * bool) :=
  match l with
  | [] => mret (idle, throttled)
  | c :: l =>
      it ← rt_period_cpu overrun c;
      rt_period_cpus overrun l (idle && fst it) (throttled || snd it)
  end.

Definition do_sched_rt_period_timer (overrun : Z) : W bool :=
  w ← get;
  it ← rt_period_cpus overrun (for_each_cpu (cpu_online_mask w)) true false;
  w ← get;
  if negb (snd it) && (negb (rt_bandwidth_enabled w) || (rt_b_runtime (rt_b w) =? RUNTIME_INF))
  then mret true
  else mret (fst it).

(** the timer's callback: [overruns] is what hrtimer_forward() returns, call
    by call, before it returns 0; the timer stays active if it restarts *)
Fixpoint sched_rt_period_timer (overruns : list Z) (idle : bool) : W unit :=
  match overruns with
  | [] => modify (fun w => set_rt_b (set_rt_period_timer (negb idle) (rt_b w)) w)
  | n :: l => i ← do_sched_rt_period_timer n; sched_rt_period_timer l i
  end.

Definition sched_rt_runtime_exceeded (c : nat) : W bool :=
  x ← rt_rq_of c; w ← get;
  if rt_throttled x then mret true
  else if rt_period (rt_b w) <=? rt_runtime x then mret false
  else
    balance_runtime c ;;
    x ← rt_rq_of c;
    let runtime := rt_runtime x in
    if runtime =? RUNTIME_INF then mret false
    else if runtime <? rt_time x then
      if negb (rt_b_runtime (rt_b w) =? 0) then
        put_rt_rq c (set_rt_throttled true x) ;; mret true
      else put_rt_rq c (set_rt_time 0 x) ;; mret false
    else mret false.

Definition update_curr_rt (c : nat) : W unit :=
  r ← cpu_rq c;
  p ← get_rt (curr r);
  if bool_decide (class p <> rt_class) then mret tt
  else
    let delta_exec := u64 (clock_task r - exec_start p) in
    if s64 delta_exec <=? 0 then mret tt
    else
      put_rt (curr r) (set_exec_start (clock_task r)
        (set_sum_exec_runtime (u64 (sum_exec_runtime p + delta_exec)) p)) ;;
      w ← get;
      if negb (rt_bandwidth_enabled w) then mret tt
      else
        x ← rt_rq_of c;
        if negb (rt_runtime x =? RUNTIME_INF) then
          put_rt_rq c (set_rt_time (u64 (rt_time x + delta_exec)) x) ;;
          e ← sched_rt_runtime_exceeded c;
          when e (resched_task (curr r))
        else mret tt.

(** *** The limits set by the administrator (core.c) *)

Definition global_rt_period (s : sysctls) : Z := u64 (sysctl_rt_period s * NSEC_PER_USEC).
Definition global_rt_runtime (s : sysctls) : Z :=
  if sysctl_rt_runtime s <? 0 then RUNTIME_INF else u64 (sysctl_rt_runtime s * NSEC_PER_USEC).

Definition to_ratio (period runtime : Z) : Z :=
  if runtime =? RUNTIME_INF then Z.shiftl 1 20
  else if period =? 0 then 0
  else u64 (Z.shiftl runtime 20) / period.

Definition sched_rt_global_validate (s : sysctls) : Z :=
  if sysctl_rt_period s <=? 0 then - EINVAL
  else if negb (u64 (sysctl_rt_runtime s) =? RUNTIME_INF)
            && (sysctl_rt_period s <? u32 (sysctl_rt_runtime s)) then - EINVAL
  else 0.

Definition sched_rt_global_constraints : W unit :=
  modify (fun w => set_rqs
    ((fun r => set_rt (set_rt_runtime (global_rt_runtime (sys w)) (rt r)) r) <$> rqs w) w).

Definition sched_dl_global_constraints (w : rtw) : Z :=
  if to_ratio (global_rt_period (sys w)) (global_rt_runtime (sys w)) <? dl_total_bw (rd w)
  then - EBUSY else 0.

Definition sched_rt_do_global : W unit :=
  modify (fun w => set_rt_b (set_rt_period (global_rt_period (sys w))
    (set_rt_b_runtime (global_rt_runtime (sys w)) (rt_b w))) w).

Definition sched_dl_do_global : W unit :=
  modify (fun w => set_rd (set_dl_bw
    (if global_rt_runtime (sys w) =? RUNTIME_INF then u64 (-1)
     else to_ratio (global_rt_period (sys w)) (global_rt_runtime (sys w))) (rd w)) w).

(** a write of the two limits; [ret] and the integers are what proc_dointvec()
    returns and stores (the period is unsigned, the runtime is signed) *)
Definition sched_rt_handler (write : bool) (ret period runtime : Z) : W Z :=
  w ← get;
  let old := sys w in
  modify (set_sys (set_sysctl_rt_period (u32 period) (set_sysctl_rt_runtime (s32 runtime) old))) ;;
  if (ret =? 0) && write then
    w ← get;
    let ret := sched_rt_global_validate (sys w) in
    if negb (ret =? 0) then modify (set_sys old) ;; mret ret
    else
      sched_rt_global_constraints ;;
      w ← get;
      let ret := sched_dl_global_constraints w in
      if negb (ret =? 0) then modify (set_sys old) ;; mret ret
      else sched_rt_do_global ;; sched_dl_do_global ;; mret 0
  else mret ret.

(** ** The methods of the class *)

(** [head] is flags & ENQUEUE_HEAD *)
Definition enqueue_task_rt (c t : nat) (flags : Z) : W unit :=
  p ← get_rt t;
  when (negb (Z.land flags ENQUEUE_WAKEUP =? 0)) (put_rt t (set_timeout 0 p)) ;;
  enqueue_rt_entity c t (negb (Z.land flags ENQUEUE_HEAD =? 0)) ;;
  r ← cpu_rq c;
  p ← get_rt t;
  when (bool_decide (curr r <> t) && (1 <? nr_cpus_allowed p)) (enqueue_pushable_task c t) ;;
  r ← cpu_rq c;
  put_rq c (set_nr_running (u32 (nr_running r + 1)) r).

Definition dequeue_task_rt (c t : nat) : W unit :=
  update_curr_rt c ;;
  dequeue_rt_entity c t ;;
  dequeue_pushable_task c t ;;
  r ← cpu_rq c;
  put_rq c (set_nr_running (u32 (nr_running r - 1)) r).

Definition yield_task_rt (c : nat) : W unit :=
  r ← cpu_rq c; requeue_task_rt c (curr r) false.

Definition check_preempt_equal_prio (c t : nat) : W unit :=
  r ← cpu_rq c;
  q ← get_rt (curr r);
  p ← get_rt t;
  w ← get;
  let find x := bool_decide (cpupri_find (prio x) (cpus_allowed x) (pri w) <> None) in
  if nr_cpus_allowed q =? 1 then mret tt
  else if negb (nr_cpus_allowed p =? 1) && find p then mret tt
  else if negb (find q) then mret tt
  else requeue_task_rt c t true ;; resched_task (curr r).

Definition check_preempt_curr_rt (c t : nat) : W unit :=
  r ← cpu_rq c;
  q ← get_rt (curr r);
  p ← get_rt t;
  if prio p <? prio q then resched_task (curr r)
  else when ((prio p =? prio q) && negb (need_resched q)) (check_preempt_equal_prio c t).

(** the head of the first queue that is not empty; [None] is the BUG_ON() or a
    queue without entries, from which no task can be read *)
Definition pick_next_rt_entity (x : rt_rq) : option nat :=
  let idx := sched_find_first_bit (bitmap x) in
  if MAX_RT_PRIO <=? idx then None else queue_of idx x ≫= head.

Definition _pick_next_task_rt (c : nat) : W (option nat) :=
  r ← cpu_rq c;
  if (rt_nr_running (rt r) =? 0) || rt_throttled (rt r) then mret None
  else
    t ← deref (fun _ => pick_next_rt_entity (rt r));
    p ← get_rt t;
    put_rt t (set_exec_start (clock_task r) p) ;;
    mret (Some t).

Definition pick_next_task_rt (c : nat) : W (option nat) :=
  p ← _pick_next_task_rt c;
  match p with Some t => dequeue_pushable_task c t | None => mret tt end ;;
  b ← has_pushable_tasks c;
  r ← cpu_rq c;
  put_rq c (set_post_schedule b r) ;;
  mret p.

Definition put_prev_task_rt (c t : nat) : W unit :=
  update_curr_rt c ;;
  x ← rt_rq_of c;
  p ← get_rt t;
  when (on_rt_rq x t && (1 <? nr_cpus_allowed p)) (enqueue_pushable_task c t).

Definition set_curr_task_rt (c : nat) : W unit :=
  r ← cpu_rq c;
  p ← get_rt (curr r);
  put_rt (curr r) (set_exec_start (clock_task r) p) ;;
  dequeue_pushable_task c (curr r).

Definition set_cpus_allowed_rt (t : nat) (new_mask : gset nat) : W unit :=
  p ← get_rt t;
  BUG_ON (negb (rt_prio (prio p))) ;;
  q ← task_on_rq t;
  let weight := cpumask_weight new_mask in
  if negb q then mret tt
  else if bool_decide ((1 <? nr_cpus_allowed p) = (1 <? weight)) then mret tt
  else
    c ← task_cpu t;
    r ← cpu_rq c;
    (if weight <=? 1 then
       when (bool_decide (curr r <> t)) (dequeue_pushable_task c t) ;;
       x ← rt_rq_of c;
       BUG_ON (rt_nr_migratory x =? 0) ;;
       put_rt_rq c (set_rt_nr_migratory (u64 (rt_nr_migratory x - 1)) x)
     else
       when (bool_decide (curr r <> t)) (enqueue_pushable_task c t) ;;
       upd_rt_rq c (fun x => set_rt_nr_migratory (u64 (rt_nr_migratory x + 1)) x)) ;;
    update_rt_migration c.

(** do_set_cpus_allowed() for a task of the class *)
Definition do_set_cpus_allowed (t : nat) (new_mask : gset nat) : W unit :=
  p ← get_rt t;
  when (bool_decide (class p = rt_class)) (set_cpus_allowed_rt t new_mask) ;;
  p ← get_rt t;
  put_rt t (set_nr_cpus_allowed (cpumask_weight new_mask) (set_cpus_allowed new_mask p)).

Definition rq_online_rt (c : nat) : W unit :=
  x ← rt_rq_of c;
  when (overloaded x) (rt_set_overload c) ;;
  __enable_runtime c ;;
  x ← rt_rq_of c;
  modify (fun w => set_pri (cpupri_set c (hp_curr x) (pri w)) w).

Definition rq_offline_rt (c : nat) : W unit :=
  x ← rt_rq_of c;
  when (overloaded x) (rt_clear_overload c) ;;
  __disable_runtime c ;;
  modify (fun w => set_pri (cpupri_set c CPUPRI_INVALID (pri w)) w).

(** set_rq_online() and set_rq_offline(), the real-time part *)
Definition set_rq_online (c : nat) : W unit :=
  r ← cpu_rq c;
  if online r then mret tt else put_rq c (set_online true r) ;; rq_online_rt c.

Definition set_rq_offline (c : nat) : W unit :=
  r ← cpu_rq c;
  if online r then rq_offline_rt c ;; r ← cpu_rq c; put_rq c (set_online false r)
  else mret tt.

(** [HZ] ticks a second *)
Definition DIV_ROUND_UP (a b : Z) : Z := (a + b - 1) / b.
Definition RLIM_INFINITY : Z := 2 ^ 64 - 1.

Definition watchdog (HZ : Z) (t : nat) : W unit :=
  p ← get_rt t; w ← get;
  let '(soft, hard) := rttime p in
  if soft =? RLIM_INFINITY then mret tt
  else
    let p := if negb (watchdog_stamp p =? jiffies w)
             then set_watchdog_stamp (jiffies w) (set_timeout (u64 (timeout p + 1)) p) else p in
    let next := DIV_ROUND_UP (Z.min soft hard) (1000000 / HZ) in
    put_rt t (if next <? timeout p then set_sched_exp (sum_exec_runtime p) p else p).

(** run_list.prev != run_list.next: the task is not alone in its queue (a
    task that is in no queue points to itself) *)
Definition has_neighbours (x : rt_rq) (t : nat) : bool :=
  match list_find (fun q => t ∈ q) (queue x) with
  | Some (_, q) => bool_decide (q <> [t])
  | None => false
  end.

Definition task_tick_rt (HZ : Z) (c t : nat) : W unit :=
  update_curr_rt c ;;
  watchdog HZ t ;;
  p ← get_rt t;
  if negb (policy p =? SCHED_RR) then mret tt
  else
    let p := set_time_slice (u32 (time_slice p - 1)) p in
    put_rt t p ;;
    if negb (time_slice p =? 0) then mret tt
    else
      w ← get;
      put_rt t (set_time_slice (u32 (rr_timeslice (sys w))) p) ;;
      x ← rt_rq_of c;
      if has_neighbours x t then
        requeue_task_rt c t false ;;
        p ← get_rt t;
        put_rt t (set_need_resched true p)
      else mret tt.

Definition get_rr_interval_rt (t : nat) : W Z :=
  p ← get_rt t; w ← get;
  mret (if policy p =? SCHED_RR then u32 (rr_timeslice (sys w)) else 0).
End Class.
