(* ===== verification/RtPush.v ===== *)
(** * The real-time class: moving tasks between CPUs (kernel/sched/rt.c, core.c)

    A CPU with several real-time tasks pushes those it does not run to CPUs
    that run something less important, and a CPU about to run something less
    important pulls from the others.  The moves are hidden from cmgroup by
    the flags of deactivate_task() and activate_task().

    To lock a second run queue a CPU may have to give up its own lock:
    [contend c d w] is [None] when CPU [c] gets the lock of [d] at once and
    [Some w'] when others have brought the world to [w'] before [c] holds both
    locks (_double_lock_balance() in sched.h, in either configuration). *)

From S2P Require Import Prelude Wait Tasklet Cmgroup Sched RtRq.
Local Open Scope Z_scope.

Definition SD_BALANCE_FORK : Z := 8.
Definition SD_BALANCE_WAKE : Z := 16.
Definition SD_WAKE_AFFINE : Z := 32.
Definition RT_MAX_TRIES : nat := 3.

(** the domains of a CPU, smallest first *)
Fixpoint search_domains (lowest : gset nat) (this_cpu : option nat)
    (l : list (Z * gset nat)) : option nat :=
  match l with
  | [] => None
  | (flags, sp) :: l =>
      if negb (Z.land flags SD_WAKE_AFFINE =? 0) then
        match this_cpu with
        | Some t =>
            if decide (t ∈ sp) then Some t
            else match cpumask_first (lowest ∩ sp) with
                 | Some b => Some b
                 | None => search_domains lowest this_cpu l
                 end
        | None =>
            match cpumask_first (lowest ∩ sp) with
            | Some b => Some b
            | None => search_domains lowest this_cpu l
            end
        end
      else search_domains lowest this_cpu l
  end.

Section Push.
Context {RL : RtLib}.
Variable contend : nat -> nat -> rtw -> option rtw.

Definition double_lock_balance (c d : nat) : W bool := fun w =>
  match contend c d w with
  | None => Ret false w
  | Some w' => Ret true w'
  end.

(** ** Entering and leaving a run queue (core.c), for a task of the class *)

Definition activate_task_rt (c t : nat) (flags : Z) : W unit :=
  update_rq_clock c ;; enqueue_task_rt c t flags ;; lift_k (activate_task t flags).

Definition deactivate_task_rt (c t : nat) (flags : Z) : W unit :=
  update_rq_clock c ;; dequeue_task_rt c t ;; lift_k (deactivate_task t flags).

(** the three calls of push_rt_task() and pull_rt_task() that move a task *)
Definition move_task_rt (c t d : nat) : W unit :=
  deactivate_task_rt c t DEQUEUE_NOCMGROUP ;;
  lift_k (set_task_cpu t d) ;;
  activate_task_rt d t ENQUEUE_NOCMGROUP.

(** ** Where a task can go *)

Definition find_lowest_rq (t : nat) : W (option nat) :=
  p ← get_rt t;
  w ← get;
  let this_cpu := this_cpu (krn w) in
  cpu ← task_cpu t;
  if nr_cpus_allowed p =? 1 then mret None
  else
    match cpupri_find (prio p) (cpus_allowed p) (pri w) with
    | None => mret None
    | Some lowest =>
        if decide (cpu ∈ lowest) then mret (Some cpu)
        else
          let this := if decide (this_cpu ∈ lowest) then Some this_cpu else None in
          r ← cpu_rq cpu;
          match search_domains lowest this (sd r) with
          | Some b => mret (Some b)
          | None => mret (match this with Some b => Some b | None => cpumask_first lowest end)
          end
    end.

(** [t] may have moved, changed its affinity, started to run or gone to sleep *)
Definition still_there (c t d : nat) : W bool :=
  cpu ← task_cpu t;
  p ← get_rt t;
  q ← task_on_rq t;
  mret (bool_decide (cpu = c) && bool_decide (d ∈ cpus_allowed p) && negb (on_cpu p) && q).

Fixpoint find_lock_lowest_rq (tries : nat) (t c : nat) : W (option nat) :=
  match tries with
  | O => mret None
  | S n =>
      cpu ← find_lowest_rq t;
      match cpu with
      | None => mret None
      | Some d =>
          if decide (d = c) then mret None
          else
            dropped ← double_lock_balance c d;
            ok ← (if (dropped : bool) then still_there c t d else mret true);
            if negb ok then mret None
            else
              x ← rt_rq_of d;
              p ← get_rt t;
              if prio p <? hp_curr x then mret (Some d) else find_lock_lowest_rq n t c
      end
  end.

Definition select_task_rq_rt (t cpu : nat) (sd_flag : Z) : W nat :=
  p ← get_rt t;
  if nr_cpus_allowed p =? 1 then mret cpu
  else if negb (sd_flag =? SD_BALANCE_WAKE) && negb (sd_flag =? SD_BALANCE_FORK) then mret cpu
  else
    r ← cpu_rq cpu;
    q ← get_rt (curr r);
    if rt_prio (prio q) && ((nr_cpus_allowed q <? 2) || (prio q <=? prio p)) then
      target ← find_lowest_rq t;
      mret (match target with Some d => d | None => cpu end)
    else mret cpu.

(** ** Pushing *)

Definition pick_next_pushable_task (c : nat) : W (option nat) :=
  x ← rt_rq_of c;
  match pushable_tasks x with
  | [] => mret None
  | (_, t) :: _ =>
      r ← cpu_rq c;
      p ← get_rt t;
      cpu ← task_cpu t;
      q ← task_on_rq t;
      BUG_ON (bool_decide (c <> cpu)) ;;
      BUG_ON (bool_decide (curr r = t)) ;;
      BUG_ON (nr_cpus_allowed p <=? 1) ;;
      BUG_ON (negb q) ;;
      BUG_ON (negb (rt_prio (prio p))) ;;
      mret (Some t)
  end.

(** from the label retry *)
Fixpoint push_rt_retry (fuel : nat) (c t : nat) : W bool :=
  match fuel with
  | O => block
  | S n =>
      r ← cpu_rq c;
      if decide (t = curr r) then mret false
      else
        p ← get_rt t;
        q ← get_rt (curr r);
        if prio p <? prio q then resched_task (curr r) ;; mret false
        else
          lowest ← find_lock_lowest_rq RT_MAX_TRIES t c;
          match lowest with
          | Some d =>
              move_task_rt c t d ;;
              r ← cpu_rq d;
              resched_task (curr r) ;;
              mret true
          | None =>
              task ← pick_next_pushable_task c;
              cpu ← task_cpu t;
              match task with
              | Some u => if decide (cpu = c /\ u = t) then mret false else push_rt_retry n c u
              | None => mret false
              end
          end
  end.

Definition push_rt_task (fuel : nat) (c : nat) : W bool :=
  x ← rt_rq_of c;
  if negb (overloaded x) then mret false
  else
    next ← pick_next_pushable_task c;
    match next with
    | None => mret false
    | Some t => push_rt_retry fuel c t
    end.

Fixpoint push_rt_tasks (fuel : nat) (c : nat) : W unit :=
  match fuel with
  | O => block
  | S n => b ← push_rt_task fuel c; if (b : bool) then push_rt_tasks n c else mret tt
  end.

(** ** Pulling *)

Definition pick_rt_task (p : rt_task) (cpu : nat) : bool :=
  negb (on_cpu p) && bool_decide (cpu ∈ cpus_allowed p).

Fixpoint first_pickable (l : list (Z * nat)) (cpu : nat) : W (option nat) :=
  match l with
  | [] => mret None
  | (_, t) :: l =>
      p ← get_rt t;
      if pick_rt_task p cpu then mret (Some t) else first_pickable l cpu
  end.

Definition pick_highest_pushable_task (c cpu : nat) : W (option nat) :=
  x ← rt_rq_of c; first_pickable (pushable_tasks x) cpu.

(** the body of the loop, for the overloaded CPU [src] *)
Definition pull_rt_from (this src : nat) : W bool :=
  s ← rt_rq_of src;
  x ← rt_rq_of this;
  if hp_curr x <=? hp_next s then mret false
  else
    double_lock_balance this src ;;
    p ← pick_highest_pushable_task src this;
    match p with
    | None => mret false
    | Some t =>
        p ← get_rt t;
        x ← rt_rq_of this;
        r ← cpu_rq src;
        if prio p <? hp_curr x then
          q ← get_rt (curr r);
          if prio p <? prio q then mret false
          else move_task_rt src t this ;; mret true
        else mret false
    end.

(** for_each_cpu() reads the mask as it goes *)
Fixpoint pull_rt_cpus (this : nat) (l : list nat) (ret : bool) : W bool :=
  match l with
  | [] => mret ret
  | c :: l =>
      w ← get;
      if decide (c ∈ rto_mask (rd w) /\ c <> this) then
        b ← pull_rt_from this c; pull_rt_cpus this l (b || ret)
      else pull_rt_cpus this l ret
  end.

Definition pull_rt_task (this : nat) : W bool :=
  w ← get;
  if rto_count (rd w) =? 0 then mret false
  else pull_rt_cpus this (for_each_cpu (dom (rqs w))) false.

(** ** The methods that push and pull *)

Definition pre_schedule_rt (c prev : nat) : W unit :=
  x ← rt_rq_of c;
  p ← get_rt prev;
  when (prio p <? hp_curr x) (pull_rt_task c ;; mret tt).

Definition post_schedule_rt (fuel c : nat) : W unit := push_rt_tasks fuel c.

Definition task_woken_rt (fuel c t : nat) : W unit :=
  r ← cpu_rq c;
  p ← get_rt t;
  q ← get_rt (curr r);
  b ← has_pushable_tasks c;
  when (negb (on_cpu p) && negb (need_resched q) && b && (1 <? nr_cpus_allowed p)
        && (dl_prio (prio q) || rt_prio (prio q))
        && ((nr_cpus_allowed q <? 2) || (prio q <=? prio p)))
    (push_rt_tasks fuel c).

Definition switched_from_rt (c t : nat) : W unit :=
  q ← task_on_rq t;
  r ← cpu_rq c;
  if negb q || negb (rt_nr_running (rt r) =? 0) then mret tt
  else
    b ← pull_rt_task c;
    when b (r ← cpu_rq c; resched_task (curr r)).

Definition switched_to_rt (fuel c t : nat) : W unit :=
  q ← task_on_rq t;
  r ← cpu_rq c;
  if q && bool_decide (curr r <> t) then
    moved ← (if overloaded (rt r) then push_rt_task fuel c else mret false);
    cpu ← task_cpu t;
    if moved && bool_decide (c <> cpu) then mret tt
    else
      r ← cpu_rq c;
      p ← get_rt t;
      q ← get_rt (curr r);
      when (prio p <? prio q) (resched_task (curr r))
  else mret tt.

Definition prio_changed_rt (c t : nat) (oldprio : Z) : W unit :=
  q ← task_on_rq t;
  r ← cpu_rq c;
  if negb q then mret tt
  else if decide (curr r = t) then
    p ← get_rt t;
    (if oldprio <? prio p then pull_rt_task c ;; mret tt else mret tt) ;;
    r ← cpu_rq c;
    p ← get_rt t;
    when ((hp_curr (rt r) <? prio p) && bool_decide (curr r = t)) (resched_task t)
  else
    p ← get_rt t;
    q ← get_rt (curr r);
    when (prio p <? prio q) (resched_task (curr r)).

(** rt_mutex_setprio() for a task of the class that stays in it *)
Definition rt_mutex_setprio (t : nat) (newprio : Z) : W unit :=
  BUG_ON (MAX_PRIO <? newprio) ;;
  c ← task_cpu t;
  r ← cpu_rq c;
  if decide (t = idle r) then mret tt
  else
    p ← get_rt t;
    let oldprio := prio p in
    q ← task_on_rq t;
    let running := bool_decide (curr r = t) in
    when q (update_rq_clock c ;; dequeue_task_rt c t ;;
            lift_k (dequeue_task t DEQUEUE_NOCMGROUP)) ;;
    when running (put_prev_task_rt c t) ;;
    let enqueue_flag := if oldprio <? newprio then ENQUEUE_HEAD else 0 in
    p ← get_rt t;
    put_rt t (set_prio newprio (set_class rt_class p)) ;;
    when running (set_curr_task_rt c) ;;
    when q (update_rq_clock c ;; enqueue_task_rt c t (Z.lor enqueue_flag ENQUEUE_NOCMGROUP) ;;
            lift_k (enqueue_task t (Z.lor enqueue_flag ENQUEUE_NOCMGROUP))) ;;
    when (negb (oldprio =? newprio)) (prio_changed_rt c t oldprio).

(** ** The scheduler's steps for tasks of the class (core.c) *)

(** for_each_class(): the classes in order *)
Definition class_rank (s : sched_class) : nat :=
  match s with stop_class => 0 | dl_class => 1 | rt_class => 2 | fair_class => 3 | idle_class => 4 end.

Definition check_preempt_curr (c t : nat) : W unit :=
  r ← cpu_rq c;
  q ← get_rt (curr r);
  p ← get_rt t;
  (if decide (class p = class q) then check_preempt_curr_rt c t
   else when (class_rank (class p) <? class_rank (class q))%nat (resched_task (curr r))) ;;
  r ← cpu_rq c;
  q ← get_rt (curr r);
  o ← task_on_rq (curr r);
  when (o && need_resched q) (put_rq c (set_skip_clock_update 1 r)).

(** ttwu_do_activate(): a task that sleeps is woken on its CPU *)
Definition ttwu_do_activate_rt (fuel c t : nat) : W unit :=
  update_rq_clock c ;;
  enqueue_task_rt c t (Z.lor ENQUEUE_WAKEUP ENQUEUE_WAKING) ;;
  lift_k (ttwu_activate t (Z.lor ENQUEUE_WAKEUP ENQUEUE_WAKING)) ;;
  check_preempt_curr c t ;;
  lift_k (ttwu_do_wakeup t) ;;
  task_woken_rt fuel c t.

(** the part of __schedule() in which the current task leaves the run queue *)
Definition schedule_out_rt (fatal : bool) (c : nat) : W unit :=
  r ← cpu_rq c;
  x ← lift_k (get_task (curr r));
  when (negb (tstate x =? 0) && negb (signal_pending_state fatal (tstate x) x))
    (update_rq_clock c ;; dequeue_task_rt c (curr r)) ;;
  lift_k (schedule_out fatal (curr r)).

(** the part of __schedule() that chooses the next task and switches to it:
    [hi] is the task of a class before this one, if there is one, and [lo] the
    task a later class gives *)
Definition switch_rt (hi : option nat) (lo c : nat) : W unit :=
  r ← cpu_rq c;
  let prev := curr r in
  p ← get_rt prev;
  o ← task_on_rq prev;
  when (o || (skip_clock_update r <? 0)) (update_rq_clock c) ;;
  when (bool_decide (class p = rt_class)) (put_prev_task_rt c prev) ;;
  next ← match hi with
         | Some t => mret t
         | None => n ← pick_next_task_rt c; mret (match n with Some t => t | None => lo end)
         end;
  p ← get_rt prev;
  put_rt prev (set_need_resched false p) ;;
  r ← cpu_rq c;
  put_rq c (set_skip_clock_update 0 r) ;;
  if decide (prev = next) then mret tt
  else
    r ← cpu_rq c;
    put_rq c (set_curr next r) ;;
    n ← get_rt next;
    put_rt next (set_on_cpu true n) ;;
    p ← get_rt prev;
    put_rt prev (set_on_cpu false p).
End Push.
