(* ===== verification/RtInv.v ===== *)
(** * The real-time class: what a run queue caches, and its invariant

    The primary state of a CPU is its array of queues, its set of pushable
    tasks, its current task and whether it is online ([rq_view]); the world
    seen that way is [abs].  Everything else that rt.c keeps for a run queue
    is a cache: the bitmap, the counters, the best priorities, the overload
    flag, and, shared by all CPUs, the mask of overloaded CPUs and the
    priorities of cpupri.  [arr_ok] says that every cache agrees with the
    primary state.  Code that changes only clocks, times and flags keeps both
    ([calm]). *)

From Stdlib Require Import Sorting.Sorted.
From S2P Require Import Prelude Wait Tasklet Cmgroup Sched RtRq.
Local Open Scope Z_scope.

(** ** The contract of the libraries *)

Definition prio_le (a b : Z * nat) : Prop := a.1 <= b.1.

Class RtLaws {RL : RtLib} := {
  plist_add_perm : forall p t l, plist_add p t l ≡ₚ (p, t) :: l;
  plist_add_sorted : forall p t l, StronglySorted prio_le l -> StronglySorted prio_le (plist_add p t l);
  plist_del_filter : forall t l, plist_del t l = filter (fun e => e.2 <> t) l;
  cpupri_level : cpupri -> nat -> Z;
  cpupri_level_set : forall c p s d,
    cpupri_level (cpupri_set c p s) d = if decide (d = c) then p else cpupri_level s d;
  cpupri_find_spec : forall p m s lowest, cpupri_find p m s = Some lowest ->
    lowest <> ∅ /\ forall c, c ∈ lowest -> c ∈ m /\ p < cpupri_level s c
}.
Arguments RtLaws RL : clear implicits.

(** ** The primary state *)

Record rq_view := RqView {
  v_queue : list (list nat);
  v_push : gset nat;
  v_curr : nat;
  v_idle : nat;
  v_online : bool;
  v_sd : list (Z * gset nat)
}.

Definition rq_abs (r : rq) : rq_view :=
  RqView (queue (rt r)) (list_to_set (pushable_tasks (rt r)).*2) (curr r) (idle r) (online r)
    (sd r).

(** a task without its clocks and requests *)
Definition task_abs (p : rt_task) : rt_task :=
  RtTask (prio p) (policy p) (class p) (cpus_allowed p) (nr_cpus_allowed p) 0 0 0 0 0 0 (0, 0)
    (on_cpu p) false.

Record view := View {
  v_rqs : gmap nat rq_view;
  v_rts : gmap nat rt_task;
  v_krn : kernel
}.

(** a run queue without its clocks and times *)
Definition rt_core (x : rt_rq) : rt_rq := set_rt_throttled false (set_rt_time 0 (set_rt_runtime 0 x)).
Definition rq_core (r : rq) : rq :=
  Rq (rt_core (rt r)) 0 (curr r) (idle r) (online r) 0 0 0 false (sd r).

(** ** Maps that agree up to a function *)

Section Fmap.
Context {A B C : Type}.
Implicit Types m : gmap nat A.

Lemma fmap_lookup_eq (f : A -> B) m m' i a :
  f <$> m = f <$> m' -> m !! i = Some a -> exists a', m' !! i = Some a' /\ f a = f a'.
Proof.
  intros Hf Ha. assert (Hi : (f <$> m) !! i = (f <$> m') !! i) by by rewrite Hf.
  rewrite !lookup_fmap, Ha in Hi. destruct (m' !! i) as [a'|]; simplify_eq/=. eauto.
Qed.

Lemma fmap_eq_fmap (f : A -> B) (g : A -> C) m m' :
  (forall a b, f a = f b -> g a = g b) -> f <$> m = f <$> m' -> g <$> m = g <$> m'.
Proof.
  intros Hfg Hf. apply map_eq. intros i. rewrite !lookup_fmap. destruct (m !! i) as [a|] eqn:E.
  - destruct (fmap_lookup_eq f m m' i a Hf E) as (a' & -> & Ha). simpl. f_equal. auto.
  - destruct (m' !! i) as [a'|] eqn:E'; [|done].
    destruct (fmap_lookup_eq f m' m i a' (eq_sym Hf) E') as (a & ? & _). congruence.
Qed.
End Fmap.

(** ** Lists of queues *)

Section Queues.
Implicit Types (Q : list (list nat)) (q : list nat) (t : nat).

Lemma concat_insert Q i q :
  Q !! i = Some q -> exists l1 l2, concat Q = l1 ++ q ++ l2 /\
    forall q', concat (<[i := q']> Q) = l1 ++ q' ++ l2.
Proof.
  intros Hq. pose proof (take_drop_middle Q i q Hq) as E.
  exists (concat (take i Q)), (concat (drop (S i) Q)). split.
  - by rewrite <- E, concat_app at 1.
  - intros q'. rewrite insert_take_drop by by eapply lookup_lt_Some. by rewrite concat_app.
Qed.

Lemma concat_enq Q i q t (head : bool) :
  Q !! i = Some q -> concat (<[i := if head then t :: q else q ++ [t]]> Q) ≡ₚ t :: concat Q.
Proof.
  intros Hq. destruct (concat_insert Q i q Hq) as (l1 & l2 & -> & ->).
  destruct head; simpl; solve_Permutation.
Qed.

Lemma alter_insert {A} (f : A -> A) (l : list A) i a : l !! i = Some a -> alter f i l = <[i := f a]> l.
Proof. intros Ha. rewrite list_insert_alter. apply list_alter_ext; [|done]. intros ? ?. congruence. Qed.

Lemma concat_filter Q t :
  concat (filter (fun u => u <> t) <$> Q) = filter (fun u => u <> t) (concat Q).
Proof. induction Q as [|q Q IH]; csimpl; [done|]. by rewrite IH, filter_app. Qed.

Lemma elem_of_queues Q t : t ∈ concat Q <-> exists i q, Q !! i = Some q /\ t ∈ q.
Proof.
  rewrite list_elem_of_In, in_concat. split.
  - intros (q & Hq & Ht). apply list_elem_of_In, list_elem_of_lookup in Hq as [i Hi].
    exists i, q. by rewrite list_elem_of_In.
  - intros (i & q & Hi & Ht). exists q. rewrite <- !list_elem_of_In. split; [|done].
    by eapply list_elem_of_lookup_2.
Qed.

Lemma remove_perm (l : list nat) t :
  NoDup l -> t ∈ l -> l ≡ₚ t :: filter (fun u => u <> t) l.
Proof.
  intros Hl Ht. apply NoDup_Permutation; [done| |].
  - constructor; [|by apply NoDup_filter]. by intros [? _]%list_elem_of_filter.
  - intros u. rewrite elem_of_cons, list_elem_of_filter. destruct (decide (u = t)) as [->|]; tauto.
Qed.

End Queues.

(** ** The first bit *)

Lemma ffs_unique b i :
  0 <= i <= MAX_RT_PRIO -> Z.testbit b i = true ->
  (forall j, 0 <= j < i -> Z.testbit b j = false) -> sched_find_first_bit b = i.
Proof.
  intros Hi Hb Hj. unfold sched_find_first_bit.
  assert (list_find (fun i => Z.testbit b i = true) (seqZ 0 (MAX_RT_PRIO + 1)) = Some (Z.to_nat i, i)) as ->;
    [|done].
  apply list_find_Some. split_and!; [|done|].
  - apply lookup_seqZ. lia.
  - intros j y [-> Hy]%lookup_seqZ Hlt. rewrite Hj by lia. done.
Qed.

Lemma ffs_spec b :
  Z.testbit b MAX_RT_PRIO = true ->
  0 <= sched_find_first_bit b <= MAX_RT_PRIO /\ Z.testbit b (sched_find_first_bit b) = true /\
  forall j, 0 <= j < sched_find_first_bit b -> Z.testbit b j = false.
Proof.
  intros Hb. unfold sched_find_first_bit.
  destruct (list_find _ _) as [[n i]|] eqn:E.
  - apply list_find_Some in E as ([-> Hn]%lookup_seqZ & Hi & Hj). split_and!; [lia|unfold MAX_RT_PRIO in *; lia|done|].
    intros j Hlt. apply not_true_is_false, (Hj (Z.to_nat j)); [apply lookup_seqZ; lia|lia].
  - apply list_find_None in E. rewrite Forall_forall in E. destruct (E MAX_RT_PRIO); [|done].
    apply elem_of_seqZ. done.
Qed.

Lemma ffs_setbit b p :
  Z.testbit b MAX_RT_PRIO = true -> 0 <= p < MAX_RT_PRIO ->
  sched_find_first_bit (Z.setbit b p) = Z.min p (sched_find_first_bit b).
Proof.
  intros Hb Hp. destruct (ffs_spec b Hb) as (Hr & Hi & Hj).
  apply ffs_unique; [lia| |].
  - rewrite Z.setbit_eqb by lia. destruct (Z.min_spec p (sched_find_first_bit b)) as [[_ ->]|[_ ->]].
    + by rewrite Z.eqb_refl.
    + by rewrite Hi, orb_true_r.
  - intros j Hlt. rewrite Z.setbit_eqb, Hj, orb_false_r by lia. apply Z.eqb_neq. lia.
Qed.

Lemma ffs_clearbit b p :
  Z.testbit b MAX_RT_PRIO = true -> 0 <= p < MAX_RT_PRIO -> p <> sched_find_first_bit b ->
  sched_find_first_bit (Z.clearbit b p) = sched_find_first_bit b.
Proof.
  intros Hb Hp Hne. destruct (ffs_spec b Hb) as (Hr & Hi & Hj).
  apply ffs_unique; [lia| |].
  - rewrite Z.clearbit_eqb, Hi by lia. simpl. apply negb_true_iff, Z.eqb_neq. lia.
  - intros j Hlt. rewrite Z.clearbit_eqb, Hj by lia. done.
Qed.

Section Inv.
Context {RL : RtLib}.
Implicit Types (w : rtw) (r : rq) (x : rt_rq).

Definition abs w : view := View (rq_abs <$> rqs w) (task_abs <$> rts w) (krn w).

(** ** Changes of clocks and flags only *)

Record calm w w' : Prop := {
  calm_rqs : rq_core <$> rqs w = rq_core <$> rqs w';
  calm_rts : task_abs <$> rts w = task_abs <$> rts w';
  calm_rd : rd w = rd w';
  calm_pri : pri w = pri w';
  calm_krn : krn w = krn w';
  calm_sys : sys w = sys w';
  calm_mask : cpu_online_mask w = cpu_online_mask w'
}.

#[export] Instance calm_equiv : Equivalence calm.
Proof.
  split.
  - by intros w.
  - by intros w w' [].
  - intros w1 w2 w3 [] []. split; by etrans.
Qed.

Lemma rq_abs_core r r' : rq_core r = rq_core r' -> rq_abs r = rq_abs r'.
Proof. destruct r as [[] ], r' as [[] ]. unfold rq_core, rq_abs, rt_core. simpl. by intros [=]; subst. Qed.

#[export] Instance abs_calm : Proper (calm ==> eq) abs.
Proof.
  intros w w' [H1 H2 _ _ H5 _ _]. unfold abs. f_equal; [|done|done].
  eapply fmap_eq_fmap, H1. apply rq_abs_core.
Qed.

Lemma calm_rq w w' c r :
  calm w w' -> rqs w !! c = Some r -> exists r', rqs w' !! c = Some r' /\ rq_core r = rq_core r'.
Proof. intros H%calm_rqs. by apply fmap_lookup_eq. Qed.

Lemma calm_rt w w' t p :
  calm w w' -> rts w !! t = Some p -> exists p', rts w' !! t = Some p' /\ task_abs p = task_abs p'.
Proof. intros H%calm_rts. by apply fmap_lookup_eq. Qed.

(** ** The caches of one run queue *)

Definition is_migratory (ts : gmap nat rt_task) (t : nat) : bool :=
  match ts !! t with Some p => 1 <? nr_cpus_allowed p | None => false end.

Record rq_ok (ts : gmap nat rt_task) x : Prop := {
  ok_len : length (queue x) = Z.to_nat MAX_RT_PRIO;
  ok_prio : forall i q t, queue x !! i = Some q -> t ∈ q ->
    exists p, ts !! t = Some p /\ prio p = Z.of_nat i /\ class p = rt_class;
  ok_nodup : NoDup (concat (queue x));
  ok_bits : forall i q, queue x !! i = Some q ->
    Z.testbit (bitmap x) (Z.of_nat i) = bool_decide (q <> []);
  ok_delim : Z.testbit (bitmap x) MAX_RT_PRIO = true;
  ok_running : rt_nr_running x = Z.of_nat (length (concat (queue x)));
  ok_total : rt_nr_total x = Z.of_nat (length (concat (queue x)));
  ok_migratory : rt_nr_migratory x =
    Z.of_nat (length (filter (fun t => is_migratory ts t = true) (concat (queue x))));
  ok_curr : hp_curr x = sched_find_first_bit (bitmap x);
  ok_over : overloaded x = negb (rt_nr_migratory x =? 0) && (1 <? rt_nr_total x);
  ok_sorted : StronglySorted prio_le (pushable_tasks x);
  ok_pnodup : NoDup (pushable_tasks x).*2;
  ok_pprio : forall p t, (p, t) ∈ pushable_tasks x -> exists y, ts !! t = Some y /\ prio y = p;
  ok_next : hp_next x = match pushable_tasks x with [] => MAX_RT_PRIO | (p, _) :: _ => p end
}.

(** ** The caches of the world *)

Definition is_overloaded r : bool := online r && overloaded (rt r).

Record arr_ok `{!RtLaws RL} w : Prop := {
  arr_rqs : forall c r, rqs w !! c = Some r -> rq_ok (rts w) (rt r);
  arr_mask : forall c, c ∈ rto_mask (rd w) <-> exists r, rqs w !! c = Some r /\ is_overloaded r = true;
  arr_count : rto_count (rd w) = Z.of_nat (size (rto_mask (rd w)));
  arr_pri : forall c r, rqs w !! c = Some r ->
    cpupri_level (pri w) c = if online r then hp_curr (rt r) else CPUPRI_INVALID;
  arr_size : Z.of_nat (size (rts w)) < 2 ^ 31 /\ Z.of_nat (size (rqs w)) < 2 ^ 31
}.

Lemma task_abs_inv p p' : task_abs p = task_abs p' ->
  prio p = prio p' /\ class p = class p' /\ nr_cpus_allowed p = nr_cpus_allowed p' /\
  cpus_allowed p = cpus_allowed p' /\ on_cpu p = on_cpu p' /\ policy p = policy p'.
Proof. unfold task_abs. intros [= -> -> -> -> -> ->]. done. Qed.

(** the caches of a run queue depend on the tasks only through [task_abs] *)
Lemma rq_ok_tasks ts ts' x :
  task_abs <$> ts = task_abs <$> ts' -> rq_ok ts x -> rq_ok ts' x.
Proof.
  intros Hts.
  pose proof (fun t p => fmap_lookup_eq task_abs ts ts' t p Hts) as Hl.
  assert (Hm : forall t, is_migratory ts t = is_migratory ts' t).
  { intros t. unfold is_migratory. destruct (ts !! t) as [p|] eqn:E.
    - by destruct (Hl t p E) as (p' & -> & (_ & _ & -> & _)%task_abs_inv).
    - destruct (ts' !! t) as [p'|] eqn:E'; [|done].
      destruct (fmap_lookup_eq task_abs ts' ts t p' (eq_sym Hts) E') as (p & ? & _). congruence. }
  intros []. split; try done.
  - intros i q t Hq Ht. destruct (ok_prio0 i q t Hq Ht) as (p & Hp & Hi & Hc).
    destruct (Hl t p Hp) as (p' & Hp' & (E1 & E2 & _)%task_abs_inv). exists p'. split_and!; congruence.
  - rewrite ok_migratory0. do 2 f_equal. apply list_filter_iff. intros t. by rewrite Hm.
  - intros p t Hpt. destruct (ok_pprio0 p t Hpt) as (y & Hy & Hp).
    destruct (Hl t y Hy) as (p' & Hp' & (E1 & _)%task_abs_inv). exists p'. split; congruence.
Qed.

Lemma rq_ok_core ts x x' : rt_core x = rt_core x' -> rq_ok ts x -> rq_ok ts x'.
Proof.
  destruct x, x'. unfold rt_core; simpl. intros [=]; subst. intros []. by split.
Qed.

Lemma is_overloaded_core r r' : rq_core r = rq_core r' -> is_overloaded r = is_overloaded r'.
Proof. destruct r as [[] ], r' as [[] ]. unfold rq_core, rt_core; simpl. by intros [=]; subst. Qed.

Lemma arr_ok_calm `{!RtLaws RL} w w' : calm w w' -> arr_ok w -> arr_ok w'.
Proof.
  intros Hc [H1 H2 H3 H4 H5]. pose proof Hc as [Er Et Ed Ep Ek _ _].
  assert (Hback : forall c r', rqs w' !! c = Some r' -> exists r, rqs w !! c = Some r /\ rq_core r = rq_core r').
  { intros c r' Hr. destruct (calm_rq w' w c r') as (r & ? & ?); [by symmetry|done|eauto]. }
  split.
  - intros c r' (r & Hr & E)%Hback. eapply rq_ok_tasks; [exact Et|]. eapply rq_ok_core, (H1 c r Hr).
    unfold rq_core in E. congruence.
  - intros c. rewrite <- Ed, H2. split.
    + intros (r & Hr & Ho). destruct (calm_rq w w' c r Hc Hr) as (r' & ? & E%is_overloaded_core).
      exists r'. by rewrite <- E.
    + intros (r' & Hr & Ho). destruct (Hback c r' Hr) as (r & ? & E%is_overloaded_core).
      exists r. by rewrite E.
  - by rewrite <- Ed.
  - intros c r' (r & Hr & E)%Hback. rewrite <- Ep, (H4 c r Hr). destruct r as [[] ], r' as [[] ].
    unfold rq_core, rt_core in E; simpl in *. by inversion E; subst.
  - rewrite <- (map_size_fmap rq_core (rqs w')), <- Er, <- (map_size_fmap task_abs (rts w')), <- Et.
    by rewrite !map_size_fmap.
Qed.
End Inv.

(** ** Code that leaves the queues alone

    The clock, requests to reschedule, the accounting of time, throttling, the
    sharing of runtime between CPUs and the period timer change only clocks,
    times and flags: they are [calm], whatever the times are. *)

(** the world with another run queue for [c], and with another task *)
Definition with_rq {RL : RtLib} (c : nat) (r : rq) (w : rtw) : rtw := set_rqs (<[c := r]> (rqs w)) w.
Definition with_rt {RL : RtLib} (t : nat) (p : rt_task) (w : rtw) : rtw :=
  set_rts (<[t := p]> (rts w)) w.

Section Calm.
Context {RL : RtLib}.
Implicit Types (w : rtw) (r : rq) (x : rt_rq) (p : rt_task).

(** ** Access *)

Lemma cpu_rq_eq c r w : rqs w !! c = Some r -> cpu_rq c w = Ret r w.
Proof. intros H. unfold cpu_rq, deref. by rewrite H. Qed.

Lemma rt_rq_of_eq c r w : rqs w !! c = Some r -> rt_rq_of c w = Ret (rt r) w.
Proof. intros H. unfold rt_rq_of. by mrun (cpu_rq_eq c r w H). Qed.

Lemma put_rt_rq_eq c r x w : rqs w !! c = Some r -> put_rt_rq c x w = Ret tt (with_rq c (set_rt x r) w).
Proof. intros H. unfold put_rt_rq. by mrun (cpu_rq_eq c r w H). Qed.

Lemma upd_rt_rq_eq c r f w :
  rqs w !! c = Some r -> upd_rt_rq c f w = Ret tt (with_rq c (set_rt (f (rt r)) r) w).
Proof.
  intros H. unfold upd_rt_rq. mrun (rt_rq_of_eq c r w H). by apply put_rt_rq_eq.
Qed.

Lemma get_rt_eq t p w : rts w !! t = Some p -> get_rt t w = Ret p w.
Proof. intros H. unfold get_rt, deref. by rewrite H. Qed.

Lemma with_rq_lookup c r w : rqs (with_rq c r w) !! c = Some r.
Proof. apply lookup_insert_eq. Qed.

Lemma with_rq_ne c d r w : c <> d -> rqs (with_rq c r w) !! d = rqs w !! d.
Proof. intros H. by apply lookup_insert_ne. Qed.

Lemma with_rq_rq c r r' w : with_rq c r' (with_rq c r w) = with_rq c r' w.
Proof. unfold with_rq. simpl. by rewrite insert_insert_eq. Qed.

Lemma with_rt_lookup t p w : rts (with_rt t p w) !! t = Some p.
Proof. apply lookup_insert_eq. Qed.

(** ** Calm changes *)

Lemma calm_with_rq c r r' w :
  rqs w !! c = Some r -> rq_core r = rq_core r' -> calm w (with_rq c r' w).
Proof.
  intros Hr E. split; try done. simpl. rewrite fmap_insert, <- E, <- fmap_insert.
  by rewrite insert_id.
Qed.

Lemma calm_with_rt t p p' w :
  rts w !! t = Some p -> task_abs p = task_abs p' -> calm w (with_rt t p' w).
Proof.
  intros Hr E. split; try done. simpl. rewrite fmap_insert, <- E, <- fmap_insert.
  by rewrite insert_id.
Qed.

Lemma calm_rt_b b w : calm w (set_rt_b b w).
Proof. by split. Qed.

(** every run queue has a current task, and the masks name run queues *)
Record wf w : Prop := {
  wf_curr : forall c r, rqs w !! c = Some r -> is_Some (rts w !! curr r);
  wf_span : forall c, c ∈ span (rd w) -> is_Some (rqs w !! c);
  wf_mask : forall c, c ∈ cpu_online_mask w -> is_Some (rqs w !! c)
}.

Lemma wf_calm w w' : calm w w' -> wf w -> wf w'.
Proof.
  intros Hc [H1 H2 H3].
  assert (Hrq : forall c, is_Some (rqs w !! c) -> is_Some (rqs w' !! c)).
  { intros c [r Hr]. destruct (calm_rq w w' c r Hc Hr) as (r' & -> & _). done. }
  split.
  - intros c r' Hr. destruct (calm_rq w' w c r') as (r & Hr0 & E); [by symmetry|done|].
    destruct (H1 c r Hr0) as [p Hp]. replace (curr r') with (curr r) by (destruct r, r'; by inversion E).
    destruct (calm_rt w w' _ p Hc Hp) as (p' & -> & _). done.
  - intros c. rewrite <- (calm_rd _ _ Hc). eauto.
  - intros c. rewrite <- (calm_mask _ _ Hc). eauto.
Qed.

(** [m] returns from [w], and the change is calm *)
Definition calms {A} (m : W A) w : Prop := exists a w', m w = Ret a w' /\ calm w w'.

Lemma calms_ret {A} (a : A) w : calms (mret a) w.
Proof. by exists a, w. Qed.

Lemma calms_bind {A B} (m : W A) (f : A -> W B) w :
  calms m w -> (forall a w', m w = Ret a w' -> calm w w' -> calms (f a) w') -> calms (mbind f m) w.
Proof.
  intros (a & w1 & E & H1) Hf. destruct (Hf a w1 E H1) as (b & w2 & E2 & H2).
  exists b, w2. split; [apply bind_Ret; eauto|]. by trans w1.
Qed.

Lemma calms_get {B} (f : rtw -> W B) w : calms (f w) w -> calms (mbind f get) w.
Proof. done. Qed.

Lemma calms_when (b : bool) (m : W unit) w : (b = true -> calms m w) -> calms (when b m) w.
Proof. destruct b; [by intros H; apply H|intros _; apply calms_ret]. Qed.

Lemma calms_read {A B} (m : W A) (f : A -> W B) a w : m w = Ret a w -> calms (f a) w -> calms (mbind f m) w.
Proof. intros E (b & w' & Ef & H). exists b, w'. split; [|done]. by mrun E. Qed.

Lemma calms_put_rq c r r' w : rqs w !! c = Some r -> rq_core r = rq_core r' -> calms (put_rq c r') w.
Proof. intros Hr E. exists tt, (with_rq c r' w). split; [done|]. by eapply calm_with_rq. Qed.

Lemma calms_put_rt_rq c r x w : rqs w !! c = Some r -> rt_core (rt r) = rt_core x -> calms (put_rt_rq c x) w.
Proof.
  intros Hr E. exists tt, (with_rq c (set_rt x r) w). split; [by apply put_rt_rq_eq|].
  eapply calm_with_rq; [done|]. unfold rq_core. by rewrite E.
Qed.

Lemma calms_upd_rt_rq c r f w :
  rqs w !! c = Some r -> (forall x, rt_core x = rt_core (f x)) -> calms (upd_rt_rq c f) w.
Proof.
  intros Hr E. unfold upd_rt_rq. eapply calms_read; [by apply rt_rq_of_eq|].
  by eapply calms_put_rt_rq.
Qed.

Lemma calms_put_rt t p p' w : rts w !! t = Some p -> task_abs p = task_abs p' -> calms (put_rt t p') w.
Proof. intros Hr E. exists tt, (with_rt t p' w). split; [done|]. by eapply calm_with_rt. Qed.

(** ** The clock and flags *)

Lemma update_rq_clock_calm c r w : rqs w !! c = Some r -> calms (update_rq_clock c) w.
Proof.
  intros Hr. unfold update_rq_clock. eapply calms_read; [by apply cpu_rq_eq|].
  destruct (0 <? _); [apply calms_ret|]. apply calms_get. by eapply calms_put_rq.
Qed.

Lemma resched_task_calm t w : is_Some (rts w !! t) -> calms (resched_task t) w.
Proof.
  intros [p Hp]. unfold resched_task. eapply calms_read; [by apply get_rt_eq|].
  destruct (need_resched p); [apply calms_ret|]. by eapply calms_put_rt.
Qed.

Lemma start_rt_bandwidth_calm w : calms start_rt_bandwidth w.
Proof.
  unfold start_rt_bandwidth. apply calms_get. destruct (_ || _); [apply calms_ret|].
  destruct (rt_period_timer _); [apply calms_ret|]. exists tt, (set_rt_b (set_rt_period_timer true (rt_b w)) w).
  split; [done|apply calm_rt_b].
Qed.

(** ** Runtime *)

Lemma calm_is_some w w' c : calm w w' -> is_Some (rqs w !! c) -> is_Some (rqs w' !! c).
Proof. intros Hc [r Hr]. destruct (calm_rq w w' c r Hc Hr) as (r' & -> & _). done. Qed.

Lemma calms_rt_rq_of {B} c (f : rt_rq -> W B) w :
  is_Some (rqs w !! c) -> (forall r, rqs w !! c = Some r -> calms (f (rt r)) w) ->
  calms (mbind f (rt_rq_of c)) w.
Proof. intros [r Hr] Hf. eapply calms_read; [by apply rt_rq_of_eq|]. auto. Qed.

Lemma calms_set_runtime {B} c g (k : unit -> W B) w :
  is_Some (rqs w !! c) -> (forall w', calm w w' -> calms (k tt) w') ->
  calms (mbind k (upd_rt_rq c (fun y => set_rt_runtime (g y) y))) w.
Proof.
  intros [r Hr] Hk. apply calms_bind; [by eapply calms_upd_rt_rq|]. intros [] w' _. apply Hk.
Qed.

Lemma balance_from_calm c weight period l more w :
  is_Some (rqs w !! c) -> (forall i, i ∈ l -> is_Some (rqs w !! i)) ->
  calms (balance_from c weight period l more) w.
Proof.
  revert more w. induction l as [|i l IH]; intros more w Hc Hl; simpl; [apply calms_ret|].
  assert (Hgo : forall more w', calm w w' -> calms (balance_from c weight period l more) w').
  { intros m w' Hw. apply IH; [by eapply calm_is_some|]. intros j Hj. eapply calm_is_some; [done|].
    apply Hl. by right. }
  destruct (decide (i = c)); [by apply Hgo|].
  apply calms_rt_rq_of; [apply Hl; by left|]. intros r Hr.
  destruct (rt_runtime (rt r) =? RUNTIME_INF); [by apply Hgo|].
  destruct (0 <? _); [|by apply Hgo].
  apply calms_rt_rq_of; [done|]. intros rc Hrc.
  apply calms_set_runtime; [done|]. intros w1 H1.
  apply calms_set_runtime; [by eapply calm_is_some|]. intros w2 H2.
  apply calms_rt_rq_of; [eapply calm_is_some; [done|]; by eapply calm_is_some|]. intros r3 Hr3.
  destruct (_ =? _); [apply calms_ret|]. apply Hgo. by trans w1.
Qed.

Lemma elem_of_for_each_cpu m i : i ∈ for_each_cpu m <-> i ∈ m.
Proof. unfold for_each_cpu. by rewrite merge_sort_Permutation, elem_of_elements. Qed.

Lemma balance_runtime_calm c w : wf w -> is_Some (rqs w !! c) -> calms (balance_runtime c) w.
Proof.
  intros Hw Hc. unfold balance_runtime. apply calms_get. destruct (negb _); [apply calms_ret|].
  apply calms_rt_rq_of; [done|]. intros r Hr. destruct (_ <? _); [|apply calms_ret].
  unfold do_balance_runtime. apply calms_get. apply balance_from_calm; [done|].
  intros i Hi%elem_of_for_each_cpu. by apply (wf_span w Hw).
Qed.

Lemma runtime_exceeded_calm c w : wf w -> is_Some (rqs w !! c) -> calms (sched_rt_runtime_exceeded c) w.
Proof.
  intros Hw Hc. unfold sched_rt_runtime_exceeded. apply calms_rt_rq_of; [done|]. intros r Hr.
  apply calms_get. destruct (rt_throttled _); [apply calms_ret|].
  destruct (_ <=? _); [apply calms_ret|]. apply calms_bind; [by apply balance_runtime_calm|].
  intros b w1 _ H1. apply calms_rt_rq_of; [by eapply calm_is_some|]. intros r1 Hr1.
  destruct (_ =? _); [apply calms_ret|]. destruct (_ <? _); [|apply calms_ret].
  destruct (negb _).
  all: apply calms_bind; [by eapply calms_put_rt_rq|]. all: intros; apply calms_ret.
Qed.

Lemma calm_is_some_rt w w' t : calm w w' -> is_Some (rts w !! t) -> is_Some (rts w' !! t).
Proof. intros Hc [r Hr]. destruct (calm_rt w w' t r Hc Hr) as (r' & -> & _). done. Qed.

Lemma update_curr_rt_calm c w : wf w -> is_Some (rqs w !! c) -> calms (update_curr_rt c) w.
Proof.
  intros Hw [r Hr]. unfold update_curr_rt. eapply calms_read; [by apply cpu_rq_eq|].
  destruct (wf_curr w Hw c r Hr) as [p Hp]. eapply calms_read; [by apply get_rt_eq|].
  destruct (bool_decide _); [apply calms_ret|]. destruct (_ <=? _); [apply calms_ret|].
  apply calms_bind; [by eapply calms_put_rt|]. intros [] w1 _ H1. apply calms_get.
  destruct (negb _); [apply calms_ret|]. apply calms_rt_rq_of; [by eapply calm_is_some|].
  intros r1 Hr1. destruct (negb _); [|apply calms_ret].
  apply calms_bind; [by eapply calms_put_rt_rq|]. intros [] w2 _ H2.
  assert (H02 : calm w w2) by by trans w1.
  apply calms_bind.
  { apply runtime_exceeded_calm; [by eapply wf_calm|by eapply calm_is_some]. }
  intros e w3 _ H3. apply calms_when. intros _. apply resched_task_calm.
  eapply calm_is_some_rt; [by trans w2|done].
Qed.
End Calm.
