(* ===== verification/RtQueue.v ===== *)
(** * The real-time class: queueing keeps the caches right

    What enqueueing, dequeueing and requeueing an entity do to a run queue, as
    pure functions ([enq_rt], [deq_rt], [req_rt]); that they keep the caches
    of the run queue ([rq_ok]); that the code of rt.c computes them together
    with the matching change of the shared caches ([sync]). *)

From S2P Require Import Prelude Wait Tasklet Cmgroup Sched RtRq RtInv.
Local Open Scope Z_scope.

(** ** The pure changes of a run queue *)

Definition set_over (x : rt_rq) : rt_rq :=
  set_overloaded (negb (rt_nr_migratory x =? 0) && (1 <? rt_nr_total x)) x.

Definition enq_rt (t : nat) (p : rt_task) (head : bool) (q : list nat) (x : rt_rq) : rt_rq :=
  set_over
    (RtRq (Z.setbit (bitmap x) (prio p))
       (<[Z.to_nat (prio p) := if head then t :: q else q ++ [t]]> (queue x))
       (u32 (rt_nr_running x + 1)) (if prio p <? hp_curr x then prio p else hp_curr x) (hp_next x)
       (if 1 <? nr_cpus_allowed p then u64 (rt_nr_migratory x + 1) else rt_nr_migratory x)
       (u64 (rt_nr_total x + 1)) (overloaded x) (pushable_tasks x) (rt_throttled x) (rt_time x)
       (rt_runtime x)).

(** [q] is what remains in the queue of the task's priority *)
Definition deq_rt (t : nat) (p : rt_task) (q : list nat) (x : rt_rq) : rt_rq :=
  let b := if bool_decide (q = []) then Z.clearbit (bitmap x) (prio p) else bitmap x in
  let n := u32 (rt_nr_running x - 1) in
  set_over
    (RtRq b (filter (fun u => u <> t) <$> queue x) n
       (if n =? 0 then MAX_RT_PRIO
        else if prio p =? hp_curr x then sched_find_first_bit b else hp_curr x) (hp_next x)
       (if 1 <? nr_cpus_allowed p then u64 (rt_nr_migratory x - 1) else rt_nr_migratory x)
       (u64 (rt_nr_total x - 1)) (overloaded x) (pushable_tasks x) (rt_throttled x) (rt_time x)
       (rt_runtime x)).

Definition req_rt (t : nat) (p : rt_task) (head : bool) (q : list nat) (x : rt_rq) : rt_rq :=
  put_queue_of (prio p) (if head then t :: q else q ++ [t]) (list_del_init t x).

(** compute projections of run queues *)
Ltac rtproj := cbn [bitmap queue rt_nr_running hp_curr hp_next rt_nr_migratory rt_nr_total
  overloaded pushable_tasks rt_throttled rt_time rt_runtime set_over set_overloaded enq_rt deq_rt
  req_rt set_bitmap set_queue set_rt_nr_running set_hp_curr set_hp_next set_rt_nr_migratory
  set_rt_nr_total set_pushable_tasks put_queue_of list_del_init].

(** ** They keep the caches of the run queue *)

Section Pure.
Implicit Types (ts : gmap nat rt_task) (x : rt_rq) (p : rt_task).

Lemma queue_of_lookup (i : Z) x q :
  queue_of i x = Some q <-> 0 <= i < MAX_RT_PRIO /\ queue x !! Z.to_nat i = Some q.
Proof.
  unfold queue_of. destruct ((0 <=? i) && (i <? MAX_RT_PRIO)) eqn:E.
  - zbool. split; [by intros ?; split|by intros [_ ?]].
  - split; [done|]. intros [Hp _]. apply andb_false_iff in E as [E|E]; zbool; lia.
Qed.

Lemma rq_ok_queue_of ts x (i : Z) : rq_ok ts x -> 0 <= i < MAX_RT_PRIO -> exists q, queue_of i x = Some q.
Proof.
  intros Hx Hp. destruct (lookup_lt_is_Some_2 (queue x) (Z.to_nat i)) as [q Hq].
  - rewrite (ok_len _ _ Hx). unfold MAX_RT_PRIO in *. lia.
  - exists q. by apply queue_of_lookup.
Qed.

(** the tasks of a run queue are few *)
Lemma rq_ok_size ts x : rq_ok ts x -> Z.of_nat (length (concat (queue x))) <= Z.of_nat (size ts).
Proof.
  intros Hx. rewrite <- size_dom. apply inj_le.
  rewrite <- (size_list_to_set (C := gset nat)) by apply Hx. apply subseteq_size.
  intros t Ht%elem_of_list_to_set. apply elem_of_queues in Ht as (i & q & Hi & Ht).
  destruct (ok_prio _ _ Hx i q t Hi Ht) as (p & Hp & _). by apply elem_of_dom_2 in Hp.
Qed.

Lemma filter_length_le (P : nat -> Prop) `{!forall u, Decision (P u)} (l : list nat) :
  (length (filter P l) <= length l)%nat.
Proof. apply length_filter. Qed.

Lemma elem_of_enq (head : bool) (q : list nat) t u :
  u ∈ (if head then t :: q else q ++ [t]) -> u = t \/ u ∈ q.
Proof. destruct head; rewrite ?elem_of_cons, ?elem_of_app, ?list_elem_of_singleton; tauto. Qed.

Lemma filter_migratory_cons ts t (l : list nat) :
  filter (fun u => is_migratory ts u = true) (t :: l) =
    match ts !! t with
    | Some p => if 1 <? nr_cpus_allowed p then t :: filter (fun u => is_migratory ts u = true) l
                else filter (fun u => is_migratory ts u = true) l
    | None => filter (fun u => is_migratory ts u = true) l
    end.
Proof.
  rewrite filter_cons. destruct (decide _) as [E|E]; unfold is_migratory in E at 1;
    destruct (ts !! t) as [p|]; try done; by destruct (1 <? nr_cpus_allowed p).
Qed.

(** membership in the queues decides the counters *)
Lemma enq_ok ts x t p head q :
  rq_ok ts x -> ts !! t = Some p -> class p = rt_class -> t ∉ concat (queue x) ->
  queue_of (prio p) x = Some q -> Z.of_nat (size ts) < 2 ^ 31 ->
  rq_ok ts (enq_rt t p head q x).
Proof.
  intros Hx Ht Hcl Hnt [Hp Hq]%queue_of_lookup Hsz.
  pose proof (rq_ok_size ts x Hx) as Hlen.
  pose proof (concat_enq (queue x) _ q t head Hq) as HP.
  pose proof (filter_length_le (fun t => is_migratory ts t = true) (concat (queue x))) as Hfl.
  split; rtproj; try apply Hx.
  - rewrite length_insert. apply Hx.
  - intros i q' u [[<- [<- _]]|[Hi Hq']]%list_lookup_insert_Some Hu; [|by apply (ok_prio _ _ Hx _ q')].
    assert (u = t \/ u ∈ q) as [->|Hu'] by by apply elem_of_enq in Hu.
    + exists p. split_and!; [done|lia|done].
    + by apply (ok_prio _ _ Hx _ q u Hq).
  - rewrite HP. constructor; [done|apply Hx].
  - intros i q' [[<- [<- _]]|[Hi Hq']]%list_lookup_insert_Some.
    + rewrite Z.setbit_eqb, Z2Nat.id, Z.eqb_refl by lia. simpl. symmetry. apply bool_decide_eq_true.
      destruct head; [done|]. by destruct q.
    + rewrite Z.setbit_eqb by lia. rewrite (proj2 (Z.eqb_neq _ _)) by lia. by apply (ok_bits _ _ Hx).
  - rewrite Z.setbit_eqb, (ok_delim _ _ Hx) by lia. apply orb_true_r.
  - rewrite HP, (ok_running _ _ Hx), u32_id; cbn [length]; lia.
  - rewrite HP, (ok_total _ _ Hx), u64_id; cbn [length]; lia.
  - rewrite HP, (ok_migratory _ _ Hx), filter_migratory_cons, Ht.
    destruct (1 <? nr_cpus_allowed p); [|done]. rewrite u64_id; cbn [length]; lia.
  - rewrite (ok_curr _ _ Hx), ffs_setbit by first [done|apply Hx]. destruct (Z.ltb_spec (prio p) (sched_find_first_bit (bitmap x))); lia.
  - done.
Qed.

(** a queued task is in the queue of its priority, and in no other *)
Lemma queued_at ts x t p i q :
  rq_ok ts x -> ts !! t = Some p -> queue x !! i = Some q -> t ∈ q -> Z.of_nat i = prio p.
Proof. intros Hx Ht Hq Hin. destruct (ok_prio _ _ Hx i q t Hq Hin) as (p' & ? & <- & _). congruence. Qed.

Lemma queued_range ts x t p : rq_ok ts x -> ts !! t = Some p -> t ∈ concat (queue x) -> 0 <= prio p < MAX_RT_PRIO.
Proof.
  intros Hx Ht (i & q & Hi & Hq)%elem_of_queues. rewrite <- (queued_at ts x t p i q) by done.
  apply lookup_lt_Some in Hi. rewrite (ok_len _ _ Hx) in Hi. unfold MAX_RT_PRIO in *. lia.
Qed.

Lemma del_lookup ts x t p i q :
  rq_ok ts x -> ts !! t = Some p -> queue (list_del_init t x) !! i = Some q ->
  exists q0, queue x !! i = Some q0 /\ q = filter (fun u => u <> t) q0 /\ (Z.of_nat i <> prio p -> q = q0).
Proof.
  intros Hx Ht. rtproj. rewrite list_lookup_fmap. destruct (queue x !! i) as [q0|] eqn:E; [|done].
  intros [= <-]. exists q0. split_and!; [done|done|]. intros Hne. apply remove_absent.
  intros Hin. by apply Hne, (queued_at ts x t p i q0).
Qed.

Lemma deq_bits ts x t p q i q' :
  rq_ok ts x -> ts !! t = Some p -> queue_of (prio p) (list_del_init t x) = Some q ->
  queue (list_del_init t x) !! i = Some q' ->
  Z.testbit (if bool_decide (q = []) then Z.clearbit (bitmap x) (prio p) else bitmap x) (Z.of_nat i)
    = bool_decide (q' <> []).
Proof.
  intros Hx Ht [Hp Hq]%queue_of_lookup Hi.
  destruct (del_lookup ts x t p i q' Hx Ht Hi) as (q0 & Hq0 & E & Hne).
  destruct (decide (Z.of_nat i = prio p)) as [Hip|Hip].
  - replace (Z.to_nat (prio p)) with i in Hq by lia. assert (q = q') as -> by congruence.
    case_bool_decide as Hn.
    + rewrite Z.clearbit_eqb, Hip, Z.eqb_refl, andb_false_r by lia. by rewrite Hn.
    + rewrite (ok_bits _ _ Hx i q0 Hq0), bool_decide_eq_true_2, bool_decide_eq_true_2; [done|done|].
      intros ->. by rewrite E in Hn.
  - rewrite <- (Hne Hip) in Hq0. rewrite <- (ok_bits _ _ Hx i q' Hq0).
    case_bool_decide; [|done]. rewrite Z.clearbit_eqb by lia.
    rewrite (proj2 (Z.eqb_neq _ _)) by lia. apply andb_true_r.
Qed.

Lemma deq_delim ts x (b : bool) (i : Z) :
  rq_ok ts x -> 0 <= i < MAX_RT_PRIO ->
  Z.testbit (if b then Z.clearbit (bitmap x) i else bitmap x) MAX_RT_PRIO = true.
Proof.
  intros Hx Hi. destruct b; [|apply Hx]. rewrite Z.clearbit_eqb, (ok_delim _ _ Hx) by lia.
  apply negb_true_iff, Z.eqb_neq. lia.
Qed.

(** an empty array has no bit but the delimiter *)
Lemma empty_array x b :
  (forall i q, queue x !! i = Some q -> Z.testbit b (Z.of_nat i) = bool_decide (q <> [])) ->
  length (queue x) = Z.to_nat MAX_RT_PRIO -> Z.testbit b MAX_RT_PRIO = true ->
  concat (queue x) = [] -> sched_find_first_bit b = MAX_RT_PRIO.
Proof.
  intros Hb Hl Hd He. apply ffs_unique; [done|done|]. intros j Hj.
  destruct (lookup_lt_is_Some_2 (queue x) (Z.to_nat j)) as [q Hq]; [unfold MAX_RT_PRIO in *; lia|].
  rewrite <- (Z2Nat.id j), (Hb _ q Hq) by lia. apply bool_decide_eq_false. intros Hne.
  destruct q as [|u q]; [done|]. assert (Hu : u ∈ concat (queue x)).
  { apply elem_of_queues. eexists _, _. split; [exact Hq|by left]. }
  by rewrite He in Hu; apply elem_of_nil in Hu.
Qed.

Lemma deq_ok ts x t p q :
  rq_ok ts x -> ts !! t = Some p -> t ∈ concat (queue x) ->
  queue_of (prio p) (list_del_init t x) = Some q -> Z.of_nat (size ts) < 2 ^ 31 ->
  rq_ok ts (deq_rt t p q x).
Proof.
  intros Hx Ht Hin Hq Hsz. pose proof (queued_range ts x t p Hx Ht Hin) as Hp.
  pose proof (rq_ok_size ts x Hx) as Hlen.
  pose proof (remove_perm _ t (ok_nodup _ _ Hx) Hin) as HP.
  pose proof (concat_filter (queue x) t) as HF.
  pose proof (filter_length_le (fun t => is_migratory ts t = true) (concat (queue x))) as Hfl.
  pose proof (fun i q' => deq_bits ts x t p q i q' Hx Ht Hq) as Hbits.
  pose proof (deq_delim ts x (bool_decide (q = [])) (prio p) Hx Hp) as Hdelim.
  assert (Hn : Z.of_nat (length (concat (queue x))) =
               1 + Z.of_nat (length (filter (fun u => u <> t) (concat (queue x))))).
  { rewrite HP at 1. cbn [length]. lia. }
  split; rtproj; try apply Hx; try done.
  - rewrite length_fmap. apply Hx.
  - intros i q' u Hi Hu. destruct (del_lookup ts x t p i q' Hx Ht Hi) as (q0 & Hq0 & -> & _).
    apply list_elem_of_filter in Hu as [_ Hu]. by apply (ok_prio _ _ Hx i q0 u).
  - rewrite HF. apply NoDup_filter, Hx.
  - rewrite HF, (ok_running _ _ Hx), u32_id; lia.
  - rewrite HF, (ok_total _ _ Hx), u64_id; lia.
  - rewrite HF, (ok_migratory _ _ Hx).
    assert (Hm : length (filter (fun u => is_migratory ts u = true) (concat (queue x))) =
      length (filter (fun u => is_migratory ts u = true) (t :: filter (fun u => u <> t) (concat (queue x)))))
      by by rewrite HP at 1.
    rewrite filter_migratory_cons, Ht in Hm. rewrite Hm in *.
    destruct (1 <? nr_cpus_allowed p); [|done]. cbn [length] in *. rewrite u64_id; lia.
  - rewrite (ok_running _ _ Hx), u32_id by lia. destruct (Z.eqb_spec (Z.of_nat (length (concat (queue x))) - 1) 0).
    + symmetry. apply (empty_array (list_del_init t x)); [exact Hbits| |done|].
      * rtproj. rewrite length_fmap. apply Hx.
      * rtproj. rewrite HF. apply length_zero_iff_nil. lia.
    + destruct (Z.eqb_spec (prio p) (hp_curr x)) as [E|E]; [done|]. rewrite (ok_curr _ _ Hx) in *.
      case_bool_decide; [|done]. symmetry. apply ffs_clearbit; [apply Hx|done|done].
Qed.

Lemma req_ok ts x t p head q :
  rq_ok ts x -> ts !! t = Some p -> t ∈ concat (queue x) ->
  queue_of (prio p) (list_del_init t x) = Some q -> rq_ok ts (req_rt t p head q x).
Proof.
  intros Hx Ht Hin [Hp Hq]%queue_of_lookup.
  assert (HP : concat (queue (req_rt t p head q x)) ≡ₚ concat (queue x)).
  { rtproj. rewrite (concat_enq _ _ q t head Hq). rtproj. rewrite concat_filter.
    symmetry. by apply remove_perm; [apply Hx|]. }
  split; try apply Hx.
  - rtproj. rewrite length_insert, length_fmap. apply Hx.
  - intros i q' u. rtproj. intros [[<- [<- _]]|[Hi Hq']]%list_lookup_insert_Some Hu.
    + apply elem_of_enq in Hu as [->|Hu].
      * apply elem_of_queues in Hin as (j & q1 & Hj & Hin).
        destruct (ok_prio _ _ Hx j q1 t Hj Hin) as (p' & Hp' & E & Hc).
        exists p'. split_and!; [done| |done]. replace p' with p by congruence. lia.
      * destruct (del_lookup ts x t p _ q Hx Ht Hq) as (q0 & Hq0 & -> & _).
        apply list_elem_of_filter in Hu as [_ Hu]. by apply (ok_prio _ _ Hx _ q0 u).
    + destruct (del_lookup ts x t p i q' Hx Ht Hq') as (q0 & Hq0 & -> & _).
      apply list_elem_of_filter in Hu as [_ Hu]. by apply (ok_prio _ _ Hx _ q0 u).
  - rewrite HP. apply Hx.
  - intros i q'. rtproj. intros [[<- [<- _]]|[Hi Hq']]%list_lookup_insert_Some.
    + destruct (del_lookup ts x t p _ q Hx Ht Hq) as (q0 & Hq0 & _ & _).
      rewrite (ok_bits _ _ Hx _ q0 Hq0), bool_decide_eq_true_2, bool_decide_eq_true_2; [done|by destruct head, q|].
      intros ->. apply elem_of_queues in Hin as (j & q1 & Hj & Hin).
      pose proof (queued_at ts x t p j q1 Hx Ht Hj Hin). replace (Z.to_nat (prio p)) with j in Hq0 by lia.
      simplify_eq. by apply elem_of_nil in Hin.
    + destruct (del_lookup ts x t p i q' Hx Ht Hq') as (q0 & Hq0 & _ & E).
      rewrite E by lia. by apply (ok_bits _ _ Hx).
  - rewrite HP. apply Hx.
  - rewrite HP. apply Hx.
  - rewrite HP. apply Hx.
Qed.
End Pure.

(** ** The pushable tasks *)

Definition head_prio (l : list (Z * nat)) : Z :=
  match l with [] => MAX_RT_PRIO | (p, _) :: _ => p end.

Definition push_add {RL : RtLib} (t : nat) (p : rt_task) (x : rt_rq) : rt_rq :=
  let x := set_pushable_tasks (plist_add (prio p) t (plist_del t (pushable_tasks x))) x in
  if prio p <? hp_next x then set_hp_next (prio p) x else x.

Definition push_del {RL : RtLib} (t : nat) (x : rt_rq) : rt_rq :=
  let l := plist_del t (pushable_tasks x) in set_hp_next (head_prio l) (set_pushable_tasks l x).

Section Pushable.
Context {RL : RtLib} {LL : RtLaws RL}.
Implicit Types (ts : gmap nat rt_task) (x : rt_rq) (p : rt_task) (l : list (Z * nat)).

Lemma head_prio_least l e : StronglySorted prio_le l -> e ∈ l -> head_prio l <= e.1.
Proof.
  intros Hs He. destruct Hs as [|[h u] l Hs Hall]; [by apply elem_of_nil in He|].
  apply elem_of_cons in He as [->|He]; [done|]. rewrite Forall_forall in Hall. by apply Hall in He.
Qed.

Lemma head_prio_in l : l <> [] -> exists u, (head_prio l, u) ∈ l.
Proof. destruct l as [|[h u] l]; [done|]. intros _. exists u. by left. Qed.

Lemma push_list_perm t (i : Z) l : plist_add i t (plist_del t l) ≡ₚ (i, t) :: filter (fun e => e.2 <> t) l.
Proof. by rewrite plist_add_perm, plist_del_filter. Qed.

Lemma elem_of_push_list t (i : Z) l e :
  e ∈ plist_add i t (plist_del t l) <-> e = (i, t) \/ (e.2 <> t /\ e ∈ l).
Proof. rewrite push_list_perm, elem_of_cons, list_elem_of_filter. done. Qed.

Lemma StronglySorted_filter (P : Z * nat -> Prop) `{!forall e, Decision (P e)} l :
  StronglySorted prio_le l -> StronglySorted prio_le (filter P l).
Proof.
  induction 1 as [|e l Hs IH Hall]; [constructor|]. rewrite filter_cons. destruct (decide (P e)); [|done].
  constructor; [done|]. rewrite Forall_forall in *. intros e' [_ He']%list_elem_of_filter. auto.
Qed.

Lemma NoDup_snd_filter (P : Z * nat -> Prop) `{!forall e, Decision (P e)} l :
  NoDup l.*2 -> NoDup (filter P l).*2.
Proof.
  intros Hl. eapply sublist_NoDup; [exact Hl|]. apply fmap_sublist, sublist_filter.
Qed.

(** the best priority after a task has been added *)
Lemma head_prio_add ts x t p :
  rq_ok ts x -> ts !! t = Some p -> prio p < MAX_RT_PRIO ->
  head_prio (plist_add (prio p) t (plist_del t (pushable_tasks x))) = Z.min (prio p) (hp_next x).
Proof.
  intros Hx Ht Hp. set (l := pushable_tasks x). set (l' := plist_add _ _ _).
  assert (Hs : StronglySorted prio_le l').
  { apply plist_add_sorted. rewrite plist_del_filter. apply StronglySorted_filter, Hx. }
  assert (Hin : (prio p, t) ∈ l') by (apply elem_of_push_list; by left).
  pose proof (head_prio_least l' _ Hs Hin) as Hle. cbn in Hle.
  destruct (head_prio_in l') as (u & Hu); [intros E; rewrite E in Hin; by apply elem_of_nil in Hin|].
  assert (Hnext : hp_next x = head_prio l) by apply Hx. rewrite Hnext.
  apply elem_of_push_list in Hu as [[= Hh ->]|[Hne Hu]].
  - rewrite Hh. destruct l as [|[h v] l0] eqn:El; [cbn; lia|]. cbn.
    destruct (decide (v = t)) as [->|Hv].
    + destruct (ok_pprio _ _ Hx h t) as (y & Hy & <-); [fold l; rewrite El; by left|]. simplify_eq. lia.
    + assert (Hv' : (h, v) ∈ l') by (apply elem_of_push_list; right; split; [done|]; by left).
      pose proof (head_prio_least l' _ Hs Hv'). cbn in *. lia.
  - pose proof (head_prio_least l _ (ok_sorted _ _ Hx) Hu) as Hl. cbn in Hl.
    destruct l as [|[h v] l0] eqn:El; [by apply elem_of_nil in Hu|]. cbn in *.
    destruct (decide (v = t)) as [->|Hv].
    + destruct (ok_pprio _ _ Hx h t) as (y & Hy & <-); [fold l; rewrite El; by left|]. simplify_eq. lia.
    + assert (Hv' : (h, v) ∈ l') by (apply elem_of_push_list; right; split; [done|]; by left).
      pose proof (head_prio_least l' _ Hs Hv'). cbn in *. lia.
Qed.

Lemma push_add_ok ts x t p :
  rq_ok ts x -> ts !! t = Some p -> prio p < MAX_RT_PRIO -> rq_ok ts (push_add t p x).
Proof.
  intros Hx Ht Hp. pose proof (head_prio_add ts x t p Hx Ht Hp) as Hh.
  assert (Hok : rq_ok ts (set_hp_next (Z.min (prio p) (hp_next x))
    (set_pushable_tasks (plist_add (prio p) t (plist_del t (pushable_tasks x))) x))).
  { split; rtproj; try apply Hx.
    - apply plist_add_sorted. rewrite plist_del_filter. apply StronglySorted_filter, Hx.
    - rewrite push_list_perm. cbn. constructor; [|apply NoDup_snd_filter, Hx].
      intros ([? ?] & E & [Hne _]%list_elem_of_filter)%list_elem_of_fmap. by cbn in *.
    - intros q u [[= -> ->]|[_ Hin]]%elem_of_push_list; [by exists p|by apply (ok_pprio _ _ Hx)].
    - by rewrite <- Hh. }
  unfold push_add. destruct (Z.ltb_spec (prio p) (hp_next (set_pushable_tasks
    (plist_add (prio p) t (plist_del t (pushable_tasks x))) x))) as [Hlt|Hge]; cbn in *.
  - by rewrite Z.min_l in Hok by lia.
  - rewrite Z.min_r in Hok by lia. by destruct x.
Qed.

Lemma push_del_ok ts x t : rq_ok ts x -> rq_ok ts (push_del t x).
Proof.
  intros Hx. unfold push_del. rewrite plist_del_filter. split; rtproj; try apply Hx.
  - apply StronglySorted_filter, Hx.
  - apply NoDup_snd_filter, Hx.
  - intros q u [_ Hin]%list_elem_of_filter. by apply (ok_pprio _ _ Hx).
  - done.
Qed.

Lemma push_add_set x t p :
  (list_to_set (pushable_tasks (push_add t p x)).*2 : gset nat)
  = {[t]} ∪ list_to_set (pushable_tasks x).*2.
Proof.
  assert (E : pushable_tasks (push_add t p x) = plist_add (prio p) t (plist_del t (pushable_tasks x)))
    by (unfold push_add; by destruct (_ <? _)).
  rewrite E. apply set_eq. intros u.
  rewrite elem_of_list_to_set, list_elem_of_fmap, elem_of_union, elem_of_singleton,
    elem_of_list_to_set, list_elem_of_fmap.
  setoid_rewrite elem_of_push_list. split.
  - intros (e & -> & [->|[Hne He]]); [by left|]. right. eauto.
  - intros [->|(e & -> & He)]; [exists (prio p, t); split; [done|]; by left|].
    destruct (decide (e.2 = t)) as [->|]; [exists (prio p, t); split; [done|]; by left|].
    exists e. split; [done|]. by right.
Qed.

Lemma push_del_set x t :
  (list_to_set (pushable_tasks (push_del t x)).*2 : gset nat)
  = list_to_set (pushable_tasks x).*2 ∖ {[t]}.
Proof.
  unfold push_del. rtproj. rewrite plist_del_filter. apply set_eq. intros u.
  rewrite elem_of_list_to_set, list_elem_of_fmap, elem_of_difference, elem_of_singleton,
    elem_of_list_to_set, list_elem_of_fmap.
  setoid_rewrite list_elem_of_filter. naive_solver.
Qed.
End Pushable.
