(* ===== verification/RtExec.v ===== *)
(** * The real-time class: the code computes the changes of RtQueue.v

    A change of the run queue of [c] from [r] to [r'] comes with the matching
    change of the shared caches: the mask and the count of overloaded CPUs and
    the priority cpupri knows ([sync]).  The code of rt.c that queues and
    dequeues entities is shown to be [sync] of the pure changes. *)

From S2P Require Import Prelude Wait Tasklet Cmgroup Sched RtRq RtInv RtQueue.
Local Open Scope Z_scope.

Section Exec.
Context {RL : RtLib}.
Implicit Types (w : rtw) (r : rq) (x : rt_rq) (p : rt_task).

(** ** Changes of the shared caches *)

Definition rd_over (c : nat) (on old new : bool) (d : root_domain) : root_domain :=
  if on then
    match old, new with
    | false, true => set_rto_count (s32 (rto_count d + 1)) (set_rto_mask ({[c]} ∪ rto_mask d) d)
    | true, false => set_rto_mask (rto_mask d ∖ {[c]}) (set_rto_count (s32 (rto_count d - 1)) d)
    | _, _ => d
    end
  else d.

Definition pri_curr (c : nat) (on : bool) (old new : Z) (s : cpupri) : cpupri :=
  if on && negb (new =? old) then cpupri_set c new s else s.

Definition sync (c : nat) r r' w : rtw :=
  set_rd (rd_over c (online r) (overloaded (rt r)) (overloaded (rt r')) (rd w))
    (set_pri (pri_curr c (online r) (hp_curr (rt r)) (hp_curr (rt r')) (pri w)) (with_rq c r' w)).

Section Laws.
Context {LL : RtLaws RL}.

Lemma mask_size w : arr_ok w -> Z.of_nat (size (rto_mask (rd w))) <= Z.of_nat (size (rqs w)).
Proof.
  intros Hw. rewrite <- size_dom. apply inj_le, subseteq_size. intros c (r & Hr & _)%(arr_mask w Hw).
  by apply elem_of_dom_2 in Hr.
Qed.

(** the mask and the counter after one CPU becomes overloaded or ceases to be *)
Lemma rd_flag_ok w c r (b : bool) :
  arr_ok w -> rqs w !! c = Some r ->
  let d := rd_over c true (is_overloaded r) b (rd w) in
  (forall e, e ∈ rto_mask d <-> if decide (e = c) then b = true else e ∈ rto_mask (rd w)) /\
  rto_count d = Z.of_nat (size (rto_mask d)).
Proof.
  intros Hw Hr d. pose proof (arr_mask w Hw c) as Hc. pose proof (arr_count w Hw) as Hn.
  pose proof (mask_size w Hw) as Hsz. pose proof (proj2 (arr_size w Hw)) as Hb.
  assert (Hc' : c ∈ rto_mask (rd w) <-> is_overloaded r = true).
  { rewrite Hc. split; [intros (? & ? & ?); by simplify_eq|eauto]. }
  subst d. unfold rd_over.
  destruct (is_overloaded r), b; cbn; try (split; [|done]; intros e; case_decide; [subst|done]; by rewrite Hc').
  - assert (Hin : c ∈ rto_mask (rd w)) by by apply Hc'. split.
    + intros e. case_decide; set_solver.
    + rewrite size_difference, size_singleton by set_solver.
      assert (0 < size (rto_mask (rd w)))%nat.
      { apply Nat.neq_0_lt_0. intros E%size_empty_inv. set_solver. }
      rewrite Hn, s32_id; lia.
  - assert (Hin : c ∉ rto_mask (rd w)) by (rewrite Hc'; done). split.
    + intros e. case_decide; set_solver.
    + rewrite size_union, size_singleton by set_solver.
      assert (size ({[c]} ∪ rto_mask (rd w)) <= size (rqs w))%nat as Hle.
      { rewrite <- size_dom. apply subseteq_size. intros e [->%elem_of_singleton|He]%elem_of_union.
        - by apply elem_of_dom_2 in Hr.
        - apply (arr_mask w Hw) in He as (re & He & _). by apply elem_of_dom_2 in He. }
      rewrite size_union, size_singleton in Hle by set_solver. rewrite Hn, s32_id; lia.
Qed.

Lemma rd_over_ok w c r r' :
  arr_ok w -> rqs w !! c = Some r -> online r' = online r ->
  let d := rd_over c (online r) (overloaded (rt r)) (overloaded (rt r')) (rd w) in
  (forall e, e ∈ rto_mask d <-> if decide (e = c) then is_overloaded r' = true else e ∈ rto_mask (rd w)) /\
  rto_count d = Z.of_nat (size (rto_mask d)).
Proof.
  intros Hw Hr Hon. unfold is_overloaded. rewrite Hon.
  pose proof (rd_flag_ok w c r (overloaded (rt r')) Hw Hr) as H. unfold is_overloaded in H. destruct (online r) eqn:Eo; [done|].
  cbn. split; [|apply Hw]. intros e. case_decide; [subst e|done]. rewrite (arr_mask w Hw c).
  split; [|done]. intros (r0 & Hr0 & Ho). unfold is_overloaded in Ho. simplify_eq. by rewrite Eo in Ho.
Qed.

(** the shared caches after the change; the tasks [ts] may change with it *)
Lemma sync_tasks_ok w c r r' ts :
  arr_ok w -> rqs w !! c = Some r -> online r' = online r -> size ts = size (rts w) -> rq_ok ts (rt r') ->
  (forall d rd, d <> c -> rqs w !! d = Some rd -> rq_ok ts (rt rd)) ->
  arr_ok (set_rts ts (sync c r r' w)).
Proof.
  intros Hw Hr Hon Hts Hok Hother. destruct (rd_over_ok w c r r' Hw Hr Hon) as [Hm Hn]. split; cbn.
  - intros d rd'. rewrite lookup_insert. case_decide; [by intros [= <-]|]. by apply Hother.
  - intros e. rewrite Hm. rewrite lookup_insert. destruct (decide (e = c)) as [->|Hne].
    + rewrite decide_True by done. split; [eauto|]. intros (? & ? & ?); by simplify_eq.
    + rewrite decide_False by done. apply Hw.
  - done.
  - intros d rd'. rewrite lookup_insert. unfold pri_curr. case_decide as Hd; [subst d; intros [= <-]|intros Hrd].
    + rewrite Hon. pose proof (arr_pri w Hw c r Hr) as Hl. destruct (online r); cbn; [|done].
      destruct (Z.eqb_spec (hp_curr (rt r')) (hp_curr (rt r))) as [->|]; cbn; [done|].
      by rewrite cpupri_level_set, decide_True.
    + destruct (_ && _); [rewrite cpupri_level_set, decide_False by done|]; by apply Hw.
  - rewrite map_size_insert_Some by eauto. rewrite Hts. apply Hw.
Qed.

Lemma sync_ok w c r r' :
  arr_ok w -> rqs w !! c = Some r -> online r' = online r -> rq_ok (rts w) (rt r') ->
  arr_ok (sync c r r' w).
Proof.
  intros Hw Hr Hon Hok. assert (E : sync c r r' w = set_rts (rts w) (sync c r r' w)) by by destruct w.
  rewrite E. apply sync_tasks_ok; try done. intros d rd' _. apply Hw.
Qed.

Lemma sync_same w c r r' :
  overloaded (rt r') = overloaded (rt r) -> hp_curr (rt r') = hp_curr (rt r) ->
  sync c r r' w = with_rq c r' w.
Proof.
  intros H1 H2. unfold sync, pri_curr, rd_over. rewrite H1, H2, Z.eqb_refl, andb_false_r.
  destruct (online r), (overloaded (rt r)); by destruct w.
Qed.
End Laws.

Lemma sync_rqs w c r r' : rqs (sync c r r' w) = <[c := r']> (rqs w).
Proof. done. Qed.

(** ** The code *)

Lemma with_rq_id c r w : rqs w !! c = Some r -> with_rq c r w = w.
Proof. intros H. unfold with_rq. rewrite insert_id by done. by destruct w. Qed.

Lemma update_rt_migration_eq c r w :
  rqs w !! c = Some r ->
  update_rt_migration c w =
    Ret tt (set_rd (rd_over c (online r) (overloaded (rt r)) (overloaded (set_over (rt r))) (rd w))
              (with_rq c (set_rt (set_over (rt r)) r) w)).
Proof.
  intros Hr. unfold update_rt_migration. mrun (rt_rq_of_eq c r w Hr).
  assert (Hid : forall b, overloaded (rt r) = b -> set_rt (set_overloaded b (rt r)) r = r)
    by (intros b <-; by destruct r as [[] ]).
  assert (Hset : rt_set_overload c w = Ret tt (set_rd (rd_over c (online r) false true (rd w)) w)).
  { unfold rt_set_overload. mrun (cpu_rq_eq c r w Hr). destruct (online r); [done|by destruct w]. }
  assert (Hclr : rt_clear_overload c w = Ret tt (set_rd (rd_over c (online r) true false (rd w)) w)).
  { unfold rt_clear_overload. mrun (cpu_rq_eq c r w Hr). destruct (online r); [done|by destruct w]. }
  assert (Hsame : forall b, rd_over c (online r) b b (rd w) = rd w)
    by (intros b; unfold rd_over; by destruct (online r), b).
  assert (Hset_rd : set_rd (rd w) w = w) by by destruct w.
  unfold set_over. rtproj. destruct (_ && _), (overloaded (rt r)) eqn:Eo; cbn [negb].
  - by rewrite Hid, Hsame, with_rq_id, Hset_rd.
  - mrun Hset. by rewrite (upd_rt_rq_eq c r).
  - mrun Hclr. by rewrite (upd_rt_rq_eq c r).
  - by rewrite Hid, Hsame, with_rq_id, Hset_rd.
Qed.

(** one statement that changes the run queue *)
Lemma upd_run {B} c r f (k : unit -> W B) w :
  rqs w !! c = Some r ->
  mbind k (upd_rt_rq c f) w = k tt (with_rq c (set_rt (f (rt r)) r) w).
Proof. intros Hr. by mrun (upd_rt_rq_eq c r f w Hr). Qed.

Lemma when_upd_run {B} c r (b : bool) f (k : unit -> W B) w :
  rqs w !! c = Some r ->
  mbind k (when b (upd_rt_rq c f)) w
  = k tt (with_rq c (set_rt (if b then f (rt r) else rt r) r) w).
Proof.
  intros Hr. destruct b; [by apply upd_run|]. cbn. unfold mbind at 1, M_bind at 1. cbn.
  replace (set_rt (rt r) r) with r by by destruct r. by rewrite with_rq_id.
Qed.

Lemma inc_rt_prio_eq c r i w :
  rqs w !! c = Some r ->
  inc_rt_prio c i w =
    let h := if i <? hp_curr (rt r) then i else hp_curr (rt r) in
    Ret tt (set_pri (pri_curr c (online r) (hp_curr (rt r)) h (pri w))
              (with_rq c (set_rt (set_hp_curr h (rt r)) r) w)).
Proof.
  intros Hr. unfold inc_rt_prio. mrun (rt_rq_of_eq c r w Hr). cbv zeta.
  rewrite (when_upd_run c r) by done. unfold inc_rt_prio_smp.
  mrun (cpu_rq_eq c _ _ (with_rq_lookup c (set_rt (if i <? hp_curr (rt r) then set_hp_curr i (rt r)
    else rt r) r) w)). unfold pri_curr. cbn [online set_rt].
  destruct (Z.ltb_spec i (hp_curr (rt r))).
  - rewrite (proj2 (Z.eqb_neq _ _)) by lia. rewrite !andb_true_r. destruct (online r); [done|].
    cbn. by destruct w.
  - rewrite Z.eqb_refl, !andb_false_r. cbn. replace (set_hp_curr (hp_curr (rt r)) (rt r)) with (rt r)
      by by destruct r as [[] ]. by destruct w.
Qed.

Lemma dec_rt_prio_smp_eq c r i w :
  rqs w !! c = Some r ->
  dec_rt_prio_smp c i w = Ret tt (set_pri (pri_curr c (online r) i (hp_curr (rt r)) (pri w)) w).
Proof.
  intros Hr. unfold dec_rt_prio_smp. mrun (cpu_rq_eq c r w Hr). unfold pri_curr.
  destruct (online r && _); [done|]. cbn. by destruct w.
Qed.

Lemma dec_rt_prio_eq c r i w :
  rqs w !! c = Some r ->
  dec_rt_prio c i w =
    let x := rt r in
    let h := if rt_nr_running x =? 0 then MAX_RT_PRIO
             else if i =? hp_curr x then sched_find_first_bit (bitmap x) else hp_curr x in
    Ret tt (set_pri (pri_curr c (online r) (hp_curr x) h (pri w))
              (with_rq c (set_rt (set_hp_curr h x) r) w)).
Proof.
  intros Hr. unfold dec_rt_prio. mrun (rt_rq_of_eq c r w Hr). cbv zeta.
  destruct (rt_nr_running (rt r) =? 0); cbn [negb].
  - rewrite (upd_run c r) by done. by erewrite dec_rt_prio_smp_eq by apply with_rq_lookup.
  - rewrite (when_upd_run c r) by done. erewrite dec_rt_prio_smp_eq by apply with_rq_lookup.
    destruct (i =? hp_curr (rt r)); [done|].
    by replace (set_hp_curr (hp_curr (rt r)) (rt r)) with (rt r) by by destruct r as [[] ].
Qed.

(** run the next statements *)
Lemma bind_run {A B} (m : W A) (k : A -> W B) a w w' : m w = Ret a w' -> mbind k m w = k a w'.
Proof. intros E. by mrun E. Qed.

Lemma inc_rt_migration_eq c t r p w :
  rqs w !! c = Some r -> rts w !! t = Some p ->
  inc_rt_migration t c w =
    let x := set_rt_nr_total (u64 (rt_nr_total (rt r) + 1)) (rt r) in
    let x := if 1 <? nr_cpus_allowed p then set_rt_nr_migratory (u64 (rt_nr_migratory x + 1)) x
             else x in
    Ret tt (set_rd (rd_over c (online r) (overloaded (rt r)) (overloaded (set_over x)) (rd w))
              (with_rq c (set_rt (set_over x) r) w)).
Proof.
  intros Hr Hp. unfold inc_rt_migration. rewrite (bind_run _ _ _ _ _ (get_rt_eq t p w Hp)).
  rewrite (upd_run c r) by done. erewrite when_upd_run by apply with_rq_lookup.
  rewrite with_rq_rq. erewrite update_rt_migration_eq by apply with_rq_lookup.
  rewrite with_rq_rq. cbv zeta. by destruct (1 <? nr_cpus_allowed p).
Qed.

Lemma dec_rt_migration_eq c t r p w :
  rqs w !! c = Some r -> rts w !! t = Some p ->
  dec_rt_migration t c w =
    let x := set_rt_nr_total (u64 (rt_nr_total (rt r) - 1)) (rt r) in
    let x := if 1 <? nr_cpus_allowed p then set_rt_nr_migratory (u64 (rt_nr_migratory x - 1)) x
             else x in
    Ret tt (set_rd (rd_over c (online r) (overloaded (rt r)) (overloaded (set_over x)) (rd w))
              (with_rq c (set_rt (set_over x) r) w)).
Proof.
  intros Hr Hp. unfold dec_rt_migration. rewrite (bind_run _ _ _ _ _ (get_rt_eq t p w Hp)).
  rewrite (upd_run c r) by done. erewrite when_upd_run by apply with_rq_lookup.
  rewrite with_rq_rq. erewrite update_rt_migration_eq by apply with_rq_lookup.
  rewrite with_rq_rq. cbv zeta. by destruct (1 <? nr_cpus_allowed p).
Qed.

Lemma enqueue_entity_eq c t r p q head w :
  rqs w !! c = Some r -> rts w !! t = Some p -> queue_of (prio p) (rt r) = Some q ->
  __enqueue_rt_entity c t head w =
    start_rt_bandwidth (sync c r (set_rt (enq_rt t p head q (rt r)) r) w).
Proof.
  intros Hr Hp Hq. unfold __enqueue_rt_entity.
  rewrite (bind_run _ _ _ _ _ (get_rt_eq t p w Hp)), (bind_run _ _ _ _ _ (rt_rq_of_eq c r w Hr)), Hq.
  rewrite (bind_run _ _ _ _ _ (put_rt_rq_eq c r _ w Hr)). unfold inc_rt_tasks.
  rewrite (bind_run _ _ p _ (with_rq c _ w)) by by apply get_rt_eq.
  erewrite upd_run by apply with_rq_lookup. rewrite with_rq_rq.
  erewrite bind_run by (apply inc_rt_prio_eq, with_rq_lookup).
  erewrite bind_run by (apply inc_rt_migration_eq; [apply with_rq_lookup|exact Hp]).
  f_equal. unfold sync, enq_rt. cbv zeta. destruct r as [x], w. cbn.
  unfold with_rq. cbn. rewrite !insert_insert_eq. by destruct (1 <? nr_cpus_allowed p).
Qed.

Lemma dequeue_entity_eq c t r p q w :
  rqs w !! c = Some r -> rts w !! t = Some p -> queue_of (prio p) (list_del_init t (rt r)) = Some q ->
  __dequeue_rt_entity c t w = Ret tt (sync c r (set_rt (deq_rt t p q (rt r)) r) w).
Proof.
  intros Hr Hp Hq. unfold __dequeue_rt_entity.
  rewrite (bind_run _ _ _ _ _ (get_rt_eq t p w Hp)). erewrite upd_run by done.
  erewrite bind_run by (apply rt_rq_of_eq, with_rq_lookup). cbn [rt set_rt]. rewrite Hq.
  set (x := list_del_init t (rt r)).
  assert (E : forall k : unit -> W unit, mbind k (when (bool_decide (q = [])) (put_rt_rq c
      (set_bitmap (Z.clearbit (bitmap x) (prio p)) x))) (with_rq c (set_rt x r) w) =
    k tt (with_rq c (set_rt (set_bitmap (if bool_decide (q = []) then Z.clearbit (bitmap x) (prio p)
           else bitmap x) x) r) w)).
  { intros k. case_bool_decide; cbn [when].
    - erewrite bind_run by (apply put_rt_rq_eq, with_rq_lookup). by rewrite with_rq_rq.
    - by replace (set_bitmap (bitmap x) x) with x by by destruct x. }
  rewrite E. unfold dec_rt_tasks.
  rewrite (bind_run _ _ p _ (with_rq c _ w)) by by apply get_rt_eq.
  erewrite upd_run by apply with_rq_lookup. rewrite with_rq_rq.
  erewrite bind_run by (apply dec_rt_prio_eq, with_rq_lookup).
  erewrite dec_rt_migration_eq by (first [apply with_rq_lookup|exact Hp]).
  f_equal. unfold sync, deq_rt. cbv zeta. destruct r as [y], w. subst x. cbn.
  unfold with_rq. cbn. rewrite !insert_insert_eq. by destruct (1 <? nr_cpus_allowed p).
Qed.

Lemma requeue_entity_eq c t r p q head w :
  rqs w !! c = Some r -> rts w !! t = Some p -> t ∈ concat (queue (rt r)) ->
  queue_of (prio p) (list_del_init t (rt r)) = Some q ->
  requeue_rt_entity c t head w = Ret tt (with_rq c (set_rt (req_rt t p head q (rt r)) r) w).
Proof.
  intros Hr Hp Hin Hq. unfold requeue_rt_entity.
  rewrite (bind_run _ _ _ _ _ (rt_rq_of_eq c r w Hr)). unfold on_rt_rq.
  rewrite bool_decide_eq_true_2 by done.
  rewrite (bind_run _ _ _ _ _ (get_rt_eq t p w Hp)). rewrite Hq. by apply put_rt_rq_eq.
Qed.
End Exec.
