(* ===== verification/RtOps.v ===== *)
(** * The real-time class: the methods on the primary state

    [repr w a]: the caches of the world [w] are right and its primary state is
    [a].  Each method of the class returns, keeps the caches right, and
    changes the primary state as a simple function says ([v_enq], [v_deq],
    ...): the caches are never read wrongly and never matter. *)

From S2P Require Import Prelude Wait Tasklet Cmgroup Sched RtRq RtInv RtQueue RtExec.
Local Open Scope Z_scope.

(** ** Views *)

Definition v_upd (c : nat) (v : rq_view) (a : view) : view :=
  View (<[c := v]> (v_rqs a)) (v_rts a) (v_krn a).

Definition set_v_queue (q : list (list nat)) (v : rq_view) : rq_view :=
  RqView q (v_push v) (v_curr v) (v_idle v) (v_online v) (v_sd v).
Definition set_v_push (s : gset nat) (v : rq_view) : rq_view :=
  RqView (v_queue v) s (v_curr v) (v_idle v) (v_online v) (v_sd v).
Definition set_v_online (b : bool) (v : rq_view) : rq_view :=
  RqView (v_queue v) (v_push v) (v_curr v) (v_idle v) b (v_sd v).

(** [t] joins the queue of its priority, at either end; leaves; is put again *)
Definition v_enqueue (t : nat) (i : Z) (head : bool) (v : rq_view) : rq_view :=
  set_v_queue (alter (fun q => if head then t :: q else q ++ [t]) (Z.to_nat i) (v_queue v)) v.
Definition v_dequeue (t : nat) (v : rq_view) : rq_view :=
  set_v_queue (filter (fun u => u <> t) <$> v_queue v) v.
Definition v_pushable (b : bool) (t : nat) (v : rq_view) : rq_view :=
  set_v_push (if b then {[t]} ∪ v_push v else v_push v ∖ {[t]}) v.

Definition v_enqueue_task (t : nat) (p : rt_task) (head : bool) (v : rq_view) : rq_view :=
  let v' := v_enqueue t (prio p) head v in
  if bool_decide (v_curr v <> t) && (1 <? nr_cpus_allowed p) then v_pushable true t v' else v'.
Definition v_dequeue_task (t : nat) (v : rq_view) : rq_view := v_pushable false t (v_dequeue t v).
Definition v_requeue (t : nat) (i : Z) (head : bool) (v : rq_view) : rq_view :=
  if decide (t ∈ concat (v_queue v)) then v_enqueue t i head (v_dequeue t v) else v.

(** the head of the first queue that is not empty *)
Definition v_first (v : rq_view) : option nat := head (concat (v_queue v)).

Lemma abs_curr r v : rq_abs r = v -> curr r = v_curr v.
Proof. by intros <-. Qed.

(** after a statement: the new state and what is known of it *)
Tactic Notation "next" ident(w) ident(H) := let u := fresh "b" in intros u w H; cbn beta in H.

Section Ops.
Context {RL : RtLib} {LL : RtLaws RL}.
Implicit Types (w : rtw) (r : rq) (x : rt_rq) (p : rt_task) (a : view) (v : rq_view).

Record repr w a : Prop := {
  rp_arr : arr_ok w;
  rp_wf : wf w;
  rp_abs : abs w = a
}.

(** [m] returns from [w] in a state that satisfies [P] *)
Definition runs {A} (m : W A) w (P : A -> rtw -> Prop) : Prop := exists b w', m w = Ret b w' /\ P b w'.

Lemma runs_bind {A B} (m : W A) (k : A -> W B) w P Q :
  runs m w P -> (forall b w', P b w' -> runs (k b) w' Q) -> runs (mbind k m) w Q.
Proof.
  intros (b & w1 & E & H1) Hk. destruct (Hk b w1 H1) as (d & w2 & E2 & H2).
  exists d, w2. split; [apply bind_Ret; eauto|done].
Qed.

Lemma runs_read {A B} (m : W A) (k : A -> W B) b w Q : m w = Ret b w -> runs (k b) w Q -> runs (mbind k m) w Q.
Proof. intros E (d & w' & Ek & H). exists d, w'. split; [|done]. by mrun E. Qed.

Lemma runs_ret {A} (b : A) w (P : A -> rtw -> Prop) : P b w -> runs (mret b) w P.
Proof. intros H. by exists b, w. Qed.

Lemma runs_mono {A} (m : W A) w (P Q : A -> rtw -> Prop) :
  runs m w P -> (forall b w', P b w' -> Q b w') -> runs m w Q.
Proof. intros (b & w' & E & H) HPQ. exists b, w'. auto. Qed.

Lemma repr_calm w w' a : repr w a -> calm w w' -> repr w' a.
Proof.
  intros [H1 H2 H3] Hc. split; [by eapply arr_ok_calm|by eapply wf_calm|]. by rewrite <- Hc.
Qed.

Lemma runs_calm {A} (m : W A) w a : repr w a -> calms m w -> runs m w (fun _ w' => repr w' a).
Proof. intros Hr (b & w' & E & Hc). exists b, w'. split; [done|]. by eapply repr_calm. Qed.

Lemma repr_rq w a c v :
  repr w a -> v_rqs a !! c = Some v -> exists r, rqs w !! c = Some r /\ rq_abs r = v.
Proof. intros [_ _ <-]. cbn. rewrite lookup_fmap. destruct (rqs w !! c) as [r|]; [|done]. intros [= <-]. eauto. Qed.

Lemma repr_rq_back w a c r : repr w a -> rqs w !! c = Some r -> v_rqs a !! c = Some (rq_abs r).
Proof. intros [_ _ <-] Hr. cbn. by rewrite lookup_fmap, Hr. Qed.

Lemma repr_rt w a t p :
  repr w a -> v_rts a !! t = Some p -> exists p', rts w !! t = Some p' /\ task_abs p' = p.
Proof. intros [_ _ <-]. cbn. rewrite lookup_fmap. destruct (rts w !! t) as [p'|]; [|done]. intros [= <-]. eauto. Qed.

Lemma repr_rt_back w a t p : repr w a -> rts w !! t = Some p -> v_rts a !! t = Some (task_abs p).
Proof. intros [_ _ <-] Hr. cbn. by rewrite lookup_fmap, Hr. Qed.

Lemma repr_krn w a : repr w a -> krn w = v_krn a.
Proof. by intros [_ _ <-]. Qed.

(** replacing a run queue by one with the same current task *)
Lemma repr_sync w a c r r' :
  repr w a -> rqs w !! c = Some r -> online r' = online r -> curr r' = curr r ->
  rq_ok (rts w) (rt r') -> repr (sync c r r' w) (v_upd c (rq_abs r') a).
Proof.
  intros [H1 H2 H3] Hr Hon Hcu Hok. split.
  - by apply sync_ok.
  - assert (Hi : forall d, is_Some (rqs w !! d) -> is_Some (rqs (sync c r r' w) !! d)).
    { intros d Hd. cbn. rewrite lookup_insert. by case_decide. }
    destruct H2 as [W1 W2 W3]. split.
    + intros d r0. cbn. rewrite lookup_insert. case_decide; [intros [= <-]; rewrite Hcu|]; eauto.
    + intros d Hd. apply Hi, W2. revert Hd. unfold sync, rd_over. cbn. by destruct (online r), (overloaded (rt r)), (overloaded (rt r')).
    + intros d Hd. by apply Hi, W3.
  - subst a. unfold abs, v_upd. cbn. by rewrite fmap_insert.
Qed.

Lemma repr_with_rq w a c r r' :
  repr w a -> rqs w !! c = Some r -> online r' = online r -> curr r' = curr r ->
  overloaded (rt r') = overloaded (rt r) -> hp_curr (rt r') = hp_curr (rt r) ->
  rq_ok (rts w) (rt r') -> repr (with_rq c r' w) (v_upd c (rq_abs r') a).
Proof. intros. rewrite <- (sync_same w c r r') by done. by apply repr_sync. Qed.

Lemma v_upd_id c v a : v_rqs a !! c = Some v -> v_upd c v a = a.
Proof. intros H. unfold v_upd. rewrite insert_id by done. by destruct a. Qed.

Lemma v_upd_upd c v v' a : v_upd c v' (v_upd c v a) = v_upd c v' a.
Proof. unfold v_upd. cbn. by rewrite insert_insert_eq. Qed.

(** ** The array *)

(** a task that can be queued on its CPU *)
Definition queueable a (t : nat) p : Prop :=
  v_rts a !! t = Some p /\ class p = rt_class /\ 0 <= prio p < MAX_RT_PRIO.

Lemma repr_queueable w a t p :
  repr w a -> queueable a t p ->
  exists p', rts w !! t = Some p' /\ prio p' = prio p /\ nr_cpus_allowed p' = nr_cpus_allowed p /\
    class p' = rt_class /\ 0 <= prio p' < MAX_RT_PRIO.
Proof.
  intros Hr (Ht & Hc & Hp). destruct (repr_rt w a t p Hr Ht) as (p' & Hp' & <-). eauto 10.
Qed.

Lemma enqueue_entity_ok w a c v t p head :
  repr w a -> v_rqs a !! c = Some v -> queueable a t p -> t ∉ concat (v_queue v) ->
  runs (__enqueue_rt_entity c t head) w (fun _ w' => repr w' (v_upd c (v_enqueue t (prio p) head v) a)).
Proof.
  intros Hr Hv Hq Hnt. destruct (repr_queueable w a t p Hr Hq) as (p' & Hp' & Ep & _ & Hc & Hrg).
  destruct (repr_rq w a c v Hr Hv) as (r & Hrq & <-).
  pose proof (arr_rqs w (rp_arr _ _ Hr) c r Hrq) as Hok.
  destruct (rq_ok_queue_of _ _ _ Hok Hrg) as [q Hqq]. unfold runs.
  rewrite (enqueue_entity_eq c t r p' q head w Hrq Hp' Hqq).
  set (r' := set_rt (enq_rt t p' head q (rt r)) r).
  assert (Hr' : repr (sync c r r' w) (v_upd c (rq_abs r') a)).
  { apply repr_sync; try done. apply enq_ok; try done. apply (arr_size w (rp_arr _ _ Hr)). }
  destruct (runs_calm _ _ _ Hr' (start_rt_bandwidth_calm _)) as (b & w' & E & Hw').
  exists b, w'. split; [done|]. replace (v_enqueue t (prio p) head (rq_abs r)) with (rq_abs r'); [done|].
  unfold rq_abs, v_enqueue, set_v_queue, r'. cbn. f_equal. rewrite Ep.
  apply queue_of_lookup in Hqq as [_ Hqq]. rewrite Ep in Hqq. by rewrite (alter_insert _ _ _ q).
Qed.

Lemma list_del_queue_of ts x t p :
  rq_ok ts x -> 0 <= prio p < MAX_RT_PRIO -> exists q, queue_of (prio p) (list_del_init t x) = Some q.
Proof.
  intros Hx Hp. destruct (rq_ok_queue_of _ _ _ Hx Hp) as [q Hq].
  apply queue_of_lookup in Hq as [_ Hq]. eexists. apply queue_of_lookup. split; [done|].
  cbn. by rewrite list_lookup_fmap, Hq.
Qed.

(** dequeueing: a queued task leaves, another one changes nothing *)
Lemma dequeue_stack_ok w a c v t p :
  repr w a -> v_rqs a !! c = Some v -> v_rts a !! t = Some p ->
  runs (dequeue_rt_stack c t) w (fun _ w' => repr w' (v_upd c (v_dequeue t v) a)).
Proof.
  intros Hr Hv Ht. destruct (repr_rt w a t p Hr Ht) as (p' & Hp' & Ep).
  destruct (repr_rq w a c v Hr Hv) as (r & Hrq & <-).
  pose proof (arr_rqs w (rp_arr _ _ Hr) c r Hrq) as Hok. unfold dequeue_rt_stack.
  eapply runs_read; [by apply rt_rq_of_eq|]. unfold on_rt_rq. case_bool_decide as Hin; cbn [when].
  - pose proof (queued_range _ _ _ _ Hok Hp' Hin) as Hrg.
    destruct (list_del_queue_of _ _ t p' Hok Hrg) as [q Hq]. unfold runs.
    rewrite (dequeue_entity_eq c t r p' q w Hrq Hp' Hq). eexists _, _. split; [done|].
    apply (repr_sync w a c r (set_rt (deq_rt t p' q (rt r)) r)); try done.
    apply deq_ok; try done. apply (arr_size w (rp_arr _ _ Hr)).
  - apply runs_ret. replace (v_dequeue t (rq_abs r)) with (rq_abs r); [by rewrite v_upd_id|].
    unfold v_dequeue, set_v_queue, rq_abs. cbn. f_equal. symmetry. apply list_eq. intros i.
    rewrite list_lookup_fmap. destruct (queue (rt r) !! i) as [q|] eqn:E; [|done]. cbn. f_equal.
    apply remove_absent. intros Hq. apply Hin, elem_of_queues. eauto.
Qed.

(** ** Pushable tasks *)

Lemma enqueue_pushable_eq w c r t p :
  rqs w !! c = Some r -> rts w !! t = Some p ->
  enqueue_pushable_task c t w = Ret tt (with_rq c (set_rt (push_add t p (rt r)) r) w).
Proof.
  intros Hr Hp. unfold enqueue_pushable_task.
  rewrite (bind_run _ _ _ _ _ (get_rt_eq t p w Hp)), (upd_run c r) by done.
  erewrite upd_rt_rq_eq by apply with_rq_lookup. by rewrite with_rq_rq.
Qed.

Lemma dequeue_pushable_eq w c r t :
  rqs w !! c = Some r -> rq_ok (rts w) (rt r) ->
  dequeue_pushable_task c t w = Ret tt (with_rq c (set_rt (push_del t (rt r)) r) w).
Proof.
  intros Hr Hok. unfold dequeue_pushable_task. rewrite (upd_run c r) by done.
  erewrite bind_run by (apply rt_rq_of_eq, with_rq_lookup). cbn [rt set_rt pushable_tasks set_pushable_tasks].
  destruct (plist_del t (pushable_tasks (rt r))) as [|[i u] l] eqn:El.
  - erewrite upd_rt_rq_eq by apply with_rq_lookup. rewrite with_rq_rq. unfold push_del. by rewrite El.
  - destruct (ok_pprio _ _ Hok i u) as (y & Hy & <-).
    { assert (Hin : (i, u) ∈ plist_del t (pushable_tasks (rt r))) by (rewrite El; by left).
      rewrite plist_del_filter in Hin. by apply list_elem_of_filter in Hin as [_ ?]. }
    erewrite bind_run by by apply get_rt_eq. erewrite upd_rt_rq_eq by apply with_rq_lookup.
    rewrite with_rq_rq. unfold push_del. by rewrite El.
Qed.

Lemma push_add_rest t p x :
  queue (push_add t p x) = queue x /\ overloaded (push_add t p x) = overloaded x /\
  hp_curr (push_add t p x) = hp_curr x /\ rt_nr_migratory (push_add t p x) = rt_nr_migratory x.
Proof. unfold push_add. by destruct (_ <? _). Qed.

Lemma push_add_abs t p r : rq_abs (set_rt (push_add t p (rt r)) r) = v_pushable true t (rq_abs r).
Proof.
  unfold rq_abs, v_pushable, set_v_push. cbn. rewrite push_add_set. f_equal. apply push_add_rest.
Qed.

Lemma push_del_abs t r : rq_abs (set_rt (push_del t (rt r)) r) = v_pushable false t (rq_abs r).
Proof. unfold rq_abs, v_pushable, set_v_push. cbn [rt set_rt]. by rewrite push_del_set. Qed.

Lemma enqueue_pushable_ok w a c v t p :
  repr w a -> v_rqs a !! c = Some v -> queueable a t p ->
  runs (enqueue_pushable_task c t) w (fun _ w' => repr w' (v_upd c (v_pushable true t v) a)).
Proof.
  intros Hr Hv Hq. destruct (repr_queueable w a t p Hr Hq) as (p' & Hp' & _ & _ & _ & Hrg).
  destruct (repr_rq w a c v Hr Hv) as (r & Hrq & <-).
  pose proof (arr_rqs w (rp_arr _ _ Hr) c r Hrq) as Hok. unfold runs.
  rewrite (enqueue_pushable_eq w c r t p' Hrq Hp'). eexists _, _. split; [done|].
  rewrite <- (push_add_abs t p'). destruct (push_add_rest t p' (rt r)) as (_ & ? & ? & _).
  apply (repr_with_rq w a c r); try done. apply push_add_ok; [done|done|lia].
Qed.

Lemma dequeue_pushable_ok w a c v t :
  repr w a -> v_rqs a !! c = Some v ->
  runs (dequeue_pushable_task c t) w (fun _ w' => repr w' (v_upd c (v_pushable false t v) a)).
Proof.
  intros Hr Hv. destruct (repr_rq w a c v Hr Hv) as (r & Hrq & <-).
  pose proof (arr_rqs w (rp_arr _ _ Hr) c r Hrq) as Hok. unfold runs.
  rewrite (dequeue_pushable_eq w c r t Hrq Hok). eexists _, _. split; [done|].
  rewrite <- (push_del_abs t). apply (repr_with_rq w a c r); try done. by apply push_del_ok.
Qed.

(** ** The methods *)

Lemma v_dequeue_absent t v : t ∉ concat (v_queue v) -> v_dequeue t v = v.
Proof.
  intros Hin. destruct v as [Q ? ? ? ? ?]. unfold v_dequeue, set_v_queue. cbn in *. f_equal.
  apply list_eq. intros i. rewrite list_lookup_fmap. destruct (Q !! i) as [q|] eqn:E; [|done]. cbn. f_equal.
  apply remove_absent. intros Hq. apply Hin, elem_of_queues. eauto.
Qed.

Lemma v_upd_lookup c v a : v_rqs (v_upd c v a) !! c = Some v.
Proof. apply lookup_insert_eq. Qed.

Lemma queueable_upd c v a t p : queueable (v_upd c v a) t p <-> queueable a t p.
Proof. done. Qed.

Lemma calms_nr_running c r n w : rqs w !! c = Some r -> calms (put_rq c (set_nr_running n r)) w.
Proof. intros Hr. by eapply calms_put_rq. Qed.

Lemma enqueue_task_rt_ok w a c v t p flags :
  repr w a -> v_rqs a !! c = Some v -> queueable a t p -> t ∉ concat (v_queue v) ->
  runs (enqueue_task_rt c t flags) w (fun _ w' => repr w'
    (v_upd c (v_enqueue_task t p (negb (Z.land flags ENQUEUE_HEAD =? 0)) v) a)).
Proof.
  intros Hr Hv Hq Hnt. set (head := negb _). unfold enqueue_task_rt.
  destruct (repr_queueable w a t p Hr Hq) as (p' & Hp' & _ & En & _ & _).
  eapply runs_read; [by apply get_rt_eq|].
  eapply runs_bind.
  { apply (runs_calm _ w a Hr), calms_when. intros _. by eapply calms_put_rt. }
  next w1 H1. unfold enqueue_rt_entity. eapply runs_bind.
  { eapply runs_bind; [apply (dequeue_stack_ok w1 a c v t p); [done|done|apply Hq]|].
    rewrite (v_dequeue_absent t v Hnt), (v_upd_id c v a Hv). next w2 H2.
    by apply (enqueue_entity_ok w2 a c v t p head). }
  next w3 H3. set (v' := v_enqueue t (prio p) head v) in *. set (a' := v_upd c v' a) in *.
  assert (Hv' : v_rqs a' !! c = Some v') by apply v_upd_lookup.
  destruct (repr_rq w3 a' c v' H3 Hv') as (r3 & Hr3 & Er3).
  eapply runs_read; [by apply cpu_rq_eq|].
  destruct (repr_queueable w3 a' t p H3 Hq) as (p3 & Hp3 & _ & En3 & _ & _).
  eapply runs_read; [by apply get_rt_eq|]. rewrite En3.
  replace (curr r3) with (v_curr v) by by rewrite (abs_curr r3 v' Er3).
  eapply (runs_bind _ _ _ (fun _ w' => repr w' (v_upd c (v_enqueue_task t p head v) a))).
  { unfold v_enqueue_task. fold v'. destruct (_ && _); cbn [when]; [|by apply runs_ret].
    rewrite <- (v_upd_upd c v' _ a). by apply (enqueue_pushable_ok w3 a' c v' t p). }
  next w4 H4. destruct (repr_rq w4 _ c _ H4 (v_upd_lookup c _ a)) as (r4 & Hr4 & _).
  eapply runs_read; [by apply cpu_rq_eq|]. apply (runs_calm _ w4); [done|]. by apply calms_nr_running.
Qed.

Lemma dequeue_task_rt_ok w a c v t p :
  repr w a -> v_rqs a !! c = Some v -> v_rts a !! t = Some p ->
  runs (dequeue_task_rt c t) w (fun _ w' => repr w' (v_upd c (v_dequeue_task t v) a)).
Proof.
  intros Hr Hv Ht. unfold dequeue_task_rt.
  destruct (repr_rq w a c v Hr Hv) as (r & Hrq & _).
  eapply runs_bind; [apply (runs_calm _ w a Hr), update_curr_rt_calm; [apply Hr|by eexists]|].
  next w1 H1. unfold dequeue_rt_entity.
  eapply runs_bind; [by apply (dequeue_stack_ok w1 a c v t p)|]. next w2 H2.
  eapply runs_bind; [eapply (dequeue_pushable_ok w2 _ c _ t H2), v_upd_lookup|]. next w3 H3.
  rewrite v_upd_upd in H3. destruct (repr_rq w3 _ c _ H3 (v_upd_lookup c _ a)) as (r4 & Hr4 & _).
  eapply runs_read; [by apply cpu_rq_eq|]. apply (runs_calm _ w3); [done|]. by apply calms_nr_running.
Qed.

Lemma requeue_task_rt_ok w a c v t p head :
  repr w a -> v_rqs a !! c = Some v -> v_rts a !! t = Some p ->
  runs (requeue_task_rt c t head) w (fun _ w' => repr w' (v_upd c (v_requeue t (prio p) head v) a)).
Proof.
  intros Hr Hv Ht. destruct (repr_rt w a t p Hr Ht) as (p' & Hp' & Ep).
  destruct (repr_rq w a c v Hr Hv) as (r & Hrq & <-).
  pose proof (arr_rqs w (rp_arr _ _ Hr) c r Hrq) as Hok. unfold v_requeue.
  destruct (decide _) as [Hin|Hin]; cbn [v_queue rq_abs] in Hin.
  - pose proof (queued_range _ _ _ _ Hok Hp' Hin) as Hrg.
    destruct (list_del_queue_of _ _ t p' Hok Hrg) as [q Hq]. unfold runs, requeue_task_rt.
    rewrite (requeue_entity_eq c t r p' q head w Hrq Hp' Hin Hq). eexists _, _. split; [done|].
    replace (v_enqueue _ _ _ _) with (rq_abs (set_rt (req_rt t p' head q (rt r)) r)).
    { apply (repr_with_rq w a c r); try done. by apply req_ok. }
    unfold rq_abs, v_enqueue, v_dequeue, set_v_queue. cbn. f_equal.
    replace (prio p) with (prio p') by by rewrite <- Ep.
    apply queue_of_lookup in Hq as [_ Hq]. cbn in Hq. by rewrite (alter_insert _ _ _ q).
  - unfold requeue_task_rt, requeue_rt_entity. eapply runs_read; [by apply rt_rq_of_eq|].
    unfold on_rt_rq. rewrite bool_decide_eq_false_2 by done. apply runs_ret. by rewrite v_upd_id.
Qed.

Lemma yield_task_rt_ok w a c v p :
  repr w a -> v_rqs a !! c = Some v -> v_rts a !! v_curr v = Some p ->
  runs (yield_task_rt c) w (fun _ w' => repr w' (v_upd c (v_requeue (v_curr v) (prio p) false v) a)).
Proof.
  intros Hr Hv Hp. destruct (repr_rq w a c v Hr Hv) as (r & Hrq & E). unfold yield_task_rt.
  eapply runs_read; [by apply cpu_rq_eq|]. rewrite (abs_curr r v E). by apply requeue_task_rt_ok.
Qed.

Lemma put_prev_task_rt_ok w a c v t p :
  repr w a -> v_rqs a !! c = Some v -> v_rts a !! t = Some p -> (t ∈ concat (v_queue v) -> queueable a t p) ->
  runs (put_prev_task_rt c t) w (fun _ w' => repr w' (v_upd c
    (if bool_decide (t ∈ concat (v_queue v)) && (1 <? nr_cpus_allowed p) then v_pushable true t v else v) a)).
Proof.
  intros Hr Hv Ht Hq. unfold put_prev_task_rt. destruct (repr_rq w a c v Hr Hv) as (r & Hrq & _).
  eapply runs_bind; [apply (runs_calm _ w a Hr), update_curr_rt_calm; [apply Hr|by eexists]|].
  next w1 H1. destruct (repr_rq w1 a c v H1 Hv) as (r1 & Hr1 & E1).
  destruct (repr_rt w1 a t p H1 Ht) as (p1 & Hp1 & <-).
  eapply runs_read; [by apply rt_rq_of_eq|]. eapply runs_read; [by apply get_rt_eq|]. unfold on_rt_rq.
  replace (queue (rt r1)) with (v_queue v) by by rewrite <- E1. cbn [nr_cpus_allowed task_abs].
  case_bool_decide as Hin; cbn; [|apply runs_ret; by rewrite v_upd_id].
  destruct (1 <? nr_cpus_allowed p1); cbn; [|apply runs_ret; by rewrite v_upd_id].
  eapply enqueue_pushable_ok; [done|done|by apply Hq].
Qed.

(** *** The next task *)

Lemma head_concat (Q : list (list nat)) i t q :
  Q !! i = Some (t :: q) -> (forall j, (j < i)%nat -> Q !! j = Some []) -> head (concat Q) = Some t.
Proof.
  revert i. induction Q as [|q0 Q IH]; intros [|i] Hi Hj; cbn in *; try done.
  - by injection Hi as ->.
  - pose proof (Hj 0%nat ltac:(lia)) as [= ->]. cbn. apply (IH i); [done|].
    intros j Hlt. apply (Hj (S j)). lia.
Qed.

(** the entity picked through the bitmap is the first of the whole array *)
Lemma pick_entity_head ts x : rq_ok ts x -> pick_next_rt_entity x = head (concat (queue x)).
Proof.
  intros Hx. unfold pick_next_rt_entity. destruct (ffs_spec _ (ok_delim _ _ Hx)) as (Hr & Hb & Hj).
  set (i := sched_find_first_bit (bitmap x)) in *. destruct (Z.leb_spec MAX_RT_PRIO i) as [Hi|Hi].
  - destruct (concat (queue x)) as [|u l] eqn:E; [done|]. exfalso.
    assert (Hu : u ∈ concat (queue x)) by (rewrite E; by left).
    apply elem_of_queues in Hu as (k & q & Hk & Hu). pose proof (ok_bits _ _ Hx k q Hk) as Hkb.
    apply lookup_lt_Some in Hk as Hlt. rewrite (ok_len _ _ Hx) in Hlt.
    rewrite Hj in Hkb by lia. symmetry in Hkb. apply bool_decide_eq_false in Hkb. destruct q; [by apply elem_of_nil in Hu|].
    by apply Hkb.
  - destruct (rq_ok_queue_of _ _ i Hx) as [q Hq]; [lia|]. rewrite Hq. cbn.
    apply queue_of_lookup in Hq as [_ Hq]. pose proof (ok_bits _ _ Hx _ q Hq) as Hne.
    rewrite Z2Nat.id, Hb in Hne by lia. symmetry in Hne. apply bool_decide_eq_true in Hne.
    destruct q as [|u q]; [done|]. symmetry. eapply head_concat; [exact Hq|].
    intros j Hlt. destruct (lookup_lt_is_Some_2 (queue x) j) as [q' Hq'].
    { rewrite (ok_len _ _ Hx). lia. }
    pose proof (ok_bits _ _ Hx j q' Hq') as Hb'. rewrite Hj in Hb' by lia.
    symmetry in Hb'. apply bool_decide_eq_false in Hb'. by destruct q'; [|destruct Hb'].
Qed.

Lemma pick_next_task_rt_ok w a c v r :
  repr w a -> v_rqs a !! c = Some v -> rqs w !! c = Some r ->
  let o := if rt_throttled (rt r) then None else v_first v in
  runs (pick_next_task_rt c) w (fun o' w' => o' = o /\
    repr w' (match o with Some t => v_upd c (v_pushable false t v) a | None => a end)).
Proof.
  intros Hr Hv Hrq o. pose proof (arr_rqs w (rp_arr _ _ Hr) c r Hrq) as Hok.
  destruct (repr_rq w a c v Hr Hv) as (r' & Hrq' & E). simplify_eq. unfold pick_next_task_rt.
  eapply (runs_bind _ _ _ (fun o' w' => o' = o /\ repr w' a)).
  { unfold _pick_next_task_rt. eapply runs_read; [by apply cpu_rq_eq|].
    subst o. unfold v_first. cbn [v_queue rq_abs]. rewrite (ok_running _ _ Hok).
    rewrite <- (pick_entity_head _ _ Hok). destruct (rt_throttled (rt r)).
    { rewrite orb_true_r. by apply runs_ret. }
    rewrite orb_false_r. destruct (pick_next_rt_entity (rt r)) as [t|] eqn:Ep.
    - rewrite (proj2 (Z.eqb_neq _ _)).
      2: { rewrite (pick_entity_head _ _ Hok) in Ep. by destruct (concat (queue (rt r))). }
      eapply runs_read; [unfold deref; reflexivity|].
      assert (Hin : t ∈ concat (queue (rt r))).
      { rewrite (pick_entity_head _ _ Hok) in Ep. destruct (concat (queue (rt r))); [done|]. injection Ep as ->. by left. }
      apply elem_of_queues in Hin as (i & q & Hi & Hq). destruct (ok_prio _ _ Hok i q t Hi Hq) as (p & Hp & _).
      eapply runs_read; [by apply get_rt_eq|]. eapply runs_bind; [apply (runs_calm _ w a Hr); by eapply calms_put_rt|].
      next w1 H1. by apply runs_ret.
    - rewrite (pick_entity_head _ _ Hok) in Ep. destruct (concat (queue (rt r))); [|done]. by apply runs_ret. }
  intros o' w1 [-> H1]. set (a' := match o with Some t => v_upd c (v_pushable false t (rq_abs r)) a | None => a end).
  eapply (runs_bind _ _ _ (fun _ w' => repr w' a')).
  { destruct o as [t|]; [by apply dequeue_pushable_ok|by apply runs_ret]. }
  next w2 H2. assert (Hv' : is_Some (v_rqs a' !! c)).
  { subst a'. destruct o; [rewrite v_upd_lookup|rewrite Hv]; by eexists. }
  destruct Hv' as [v' Hv']. destruct (repr_rq w2 a' c v' H2 Hv') as (r2 & Hr2 & _).
  unfold has_pushable_tasks. eapply runs_bind.
  { eapply runs_read; [by apply rt_rq_of_eq|]. apply (runs_ret _ _ (fun _ w' => repr w' a' /\ rqs w' !! c = Some r2)).
    by split. }
  intros b3 w3 [H3 Hr3]. eapply runs_read; [by apply cpu_rq_eq|].
  eapply runs_bind; [apply (runs_calm _ w3 a' H3); by eapply calms_put_rq|].
  next w4 H4. by apply runs_ret.
Qed.

Lemma set_curr_task_rt_ok w a c v p :
  repr w a -> v_rqs a !! c = Some v -> v_rts a !! v_curr v = Some p ->
  runs (set_curr_task_rt c) w (fun _ w' => repr w' (v_upd c (v_pushable false (v_curr v) v) a)).
Proof.
  intros Hr Hv Hp. destruct (repr_rq w a c v Hr Hv) as (r & Hrq & E).
  destruct (repr_rt w a _ p Hr Hp) as (p' & Hp' & _). unfold set_curr_task_rt.
  eapply runs_read; [by apply cpu_rq_eq|]. rewrite (abs_curr r v E).
  eapply runs_read; [by apply get_rt_eq|].
  eapply runs_bind; [apply (runs_calm _ w a Hr); by eapply calms_put_rt|].
  next w1 H1. by apply dequeue_pushable_ok.
Qed.

(** *** Changing a task *)

(** a task that is nowhere queued can change *)
Lemma rq_ok_task ts x t p :
  t ∉ concat (queue x) -> t ∉ (pushable_tasks x).*2 -> rq_ok ts x -> rq_ok (<[t := p]> ts) x.
Proof.
  intros Hq Hl Hx.
  assert (Hne : forall u, u ∈ concat (queue x) -> (<[t := p]> ts) !! u = ts !! u).
  { intros u Hu. apply lookup_insert_ne. intros ->. done. }
  split; try apply Hx.
  - intros i q u Hi Hu. rewrite Hne; [by apply (ok_prio _ _ Hx i q u)|]. apply elem_of_queues. eauto.
  - rewrite (ok_migratory _ _ Hx). do 2 f_equal.
    assert (Hall : Forall (fun u => is_migratory ts u = is_migratory (<[t := p]> ts) u) (concat (queue x))).
    { apply Forall_forall. intros u Hu. unfold is_migratory. by rewrite Hne. }
    clear -Hall. induction Hall as [|u l Hu _ IH]; [done|]. rewrite !filter_cons, IH.
    destruct (decide (is_migratory ts u = true)); destruct (decide _); congruence.
  - intros i u Hu. rewrite lookup_insert_ne; [by apply (ok_pprio _ _ Hx)|].
    intros <-. apply Hl, list_elem_of_fmap. by exists (i, t).
Qed.

Lemma filter_bool_ext (f g : nat -> bool) (l : list nat) :
  (forall u, u ∈ l -> f u = g u) -> filter (fun u => f u = true) l = filter (fun u => g u = true) l.
Proof.
  induction l as [|u l IH]; intros H; [done|]. rewrite !filter_cons.
  rewrite IH by (intros; apply H; by right). assert (E : f u = g u) by (apply H; by left).
  destruct (decide (f u = true)), (decide (g u = true)); congruence.
Qed.

(** the caches depend on the priority, the class and the affinity of tasks *)
Lemma rq_ok_ext ts ts' x :
  (forall t p, ts !! t = Some p -> exists p', ts' !! t = Some p' /\ prio p' = prio p /\ class p' = class p /\
     (1 <? nr_cpus_allowed p') = (1 <? nr_cpus_allowed p)) -> rq_ok ts x -> rq_ok ts' x.
Proof.
  intros H Hx. split; try apply Hx.
  - intros i q t Hi Ht. destruct (ok_prio _ _ Hx i q t Hi Ht) as (p & Hp & ? & ?).
    destruct (H t p Hp) as (p' & ? & ? & ? & _). exists p'. split_and!; congruence.
  - rewrite (ok_migratory _ _ Hx). do 2 f_equal. apply filter_bool_ext.
    intros u (i & q & Hi & Hu)%elem_of_queues. destruct (ok_prio _ _ Hx i q u Hi Hu) as (p & Hp & _).
    unfold is_migratory. destruct (H u p Hp) as (p' & -> & _ & _ & ->). by rewrite Hp.
  - intros i t Ht. destruct (ok_pprio _ _ Hx i t Ht) as (y & Hy & ?). destruct (H t y Hy) as (p' & ? & ? & _).
    exists p'. split; congruence.
Qed.

Lemma repr_put_rt w a t p p' :
  repr w a -> rts w !! t = Some p -> (forall c r, rqs w !! c = Some r -> rq_ok (<[t := p']> (rts w)) (rt r)) ->
  repr (with_rt t p' w) (View (v_rqs a) (<[t := task_abs p']> (v_rts a)) (v_krn a)).
Proof.
  intros [[A1 A2 A3 A4 A5] [W1 W2 W3] Ea] Hp Hok. split.
  - split; try done. cbn. rewrite map_size_insert_Some by by eexists. done.
  - split; try done. intros c r Hr. cbn. rewrite lookup_insert. case_decide; [done|by apply (W1 c)].
  - rewrite <- Ea. unfold abs. cbn. by rewrite fmap_insert.
Qed.

Definition set_v_curr (t : nat) (v : rq_view) : rq_view :=
  RqView (v_queue v) (v_push v) t (v_idle v) (v_online v) (v_sd v).

Lemma repr_set_curr w a c r t :
  repr w a -> rqs w !! c = Some r -> is_Some (rts w !! t) ->
  repr (with_rq c (set_curr t r) w) (v_upd c (set_v_curr t (rq_abs r)) a).
Proof.
  intros [Ha [W1 W2 W3] Ea] Hr Ht. split.
  - rewrite <- (sync_same w c r) by done. apply sync_ok; try done. exact (arr_rqs w Ha c r Hr).
  - split.
    + intros d r0. cbn. rewrite lookup_insert. case_decide; [by intros [= <-]|apply W1].
    + intros d Hd. cbn. rewrite lookup_insert. case_decide; [done|by apply W2].
    + intros d Hd. cbn. rewrite lookup_insert. case_decide; [done|by apply W3].
  - rewrite <- Ea. unfold abs, v_upd. cbn. by rewrite fmap_insert.
Qed.
End Ops.
