(* ===== verification/RtBalance.v ===== *)
(** * The real-time class: the invariant of all CPUs, and moving tasks

    [view_ok]: a task is in the array of a CPU exactly when it is a real-time
    task, runnable and assigned to that CPU; it is pushable exactly when it is
    queued, may migrate and is not the one that runs ([run]); and the kernel
    of Cmgroup.v is in order.  Moving a task keeps all that, and the groups
    see nothing of it. *)

From S2P Require Import Prelude Wait Tasklet Cmgroup Sched CmInv CmTask CmSys RtRq RtPush RtInv RtQueue RtExec RtOps.
Local Open Scope Z_scope.

(** [run c] is the task of CPU [c] that must not be pushed: its current task,
    but none while the CPU is choosing the next one *)
Record view_ok (run : nat -> option nat) (a : view) : Prop := {
  vo_len : forall c v, v_rqs a !! c = Some v -> length (v_queue v) = Z.to_nat MAX_RT_PRIO;
  vo_place : forall c v t, v_rqs a !! c = Some v ->
    (t ∈ concat (v_queue v) <-> exists p x, v_rts a !! t = Some p /\ tasks (v_krn a) !! t = Some x /\
       class p = rt_class /\ on_rq x = true /\ tcpu x = c);
  vo_push : forall c v t, v_rqs a !! c = Some v ->
    (t ∈ v_push v <-> t ∈ concat (v_queue v) /\ is_migratory (v_rts a) t = true /\ run c <> Some t);
  vo_curr : forall c v, v_rqs a !! c = Some v ->
    exists p x, v_rts a !! v_curr v = Some p /\ tasks (v_krn a) !! v_curr v = Some x /\
      on_cpu p = true /\ tcpu x = c;
  vo_task : forall t p, v_rts a !! t = Some p ->
    (class p = rt_class -> 0 <= prio p < MAX_RT_PRIO) /\
    nr_cpus_allowed p = Z.of_nat (size (cpus_allowed p)) /\ cpus_allowed p ⊆ dom (v_rqs a);
  vo_sys : sys_ok (v_krn a)
}.

(** every CPU runs its current task *)
Definition running (a : view) (c : nat) : option nat := v_curr <$> v_rqs a !! c.

Section View.
Implicit Types (a : view) (v : rq_view) (p : rt_task) (t : nat).

Lemma elem_of_v_enqueue t i head v u :
  (0 <= i < Z.of_nat (length (v_queue v))) ->
  u ∈ concat (v_queue (v_enqueue t i head v)) <-> u = t \/ u ∈ concat (v_queue v).
Proof.
  intros Hi. unfold v_enqueue. cbn. destruct (lookup_lt_is_Some_2 (v_queue v) (Z.to_nat i)) as [q Hq]; [lia|].
  rewrite (alter_insert _ _ _ q Hq). by rewrite (concat_enq _ _ q t head Hq), elem_of_cons.
Qed.

Lemma elem_of_v_dequeue t v u :
  u ∈ concat (v_queue (v_dequeue t v)) <-> u <> t /\ u ∈ concat (v_queue v).
Proof. unfold v_dequeue. cbn. by rewrite concat_filter, list_elem_of_filter. Qed.

Lemma length_v_enqueue t i head v : length (v_queue (v_enqueue t i head v)) = length (v_queue v).
Proof. apply length_alter. Qed.
Lemma length_v_dequeue t v : length (v_queue (v_dequeue t v)) = length (v_queue v).
Proof. apply length_fmap. Qed.

Lemma v_enqueue_task_queue t p head v :
  v_queue (v_enqueue_task t p head v) = v_queue (v_enqueue t (prio p) head v).
Proof. unfold v_enqueue_task. by destruct (_ && _). Qed.
Lemma v_enqueue_task_curr t p head v : v_curr (v_enqueue_task t p head v) = v_curr v.
Proof. unfold v_enqueue_task. by destruct (_ && _). Qed.
Lemma elem_of_v_enqueue_task_push t p head v u :
  u ∈ v_push (v_enqueue_task t p head v) <->
  u ∈ v_push v \/ (u = t /\ v_curr v <> t /\ 1 < nr_cpus_allowed p).
Proof.
  unfold v_enqueue_task. case_bool_decide as Hc; cbn.
  - destruct (Z.ltb_spec 1 (nr_cpus_allowed p)); cbn; [rewrite elem_of_union, elem_of_singleton|]; intuition lia.
  - tauto.
Qed.

(** ** Moving a task *)

Definition v_moved (c : nat) v t p (d : nat) (vd : rq_view) (x : task_struct) a : view :=
  View (<[d := v_enqueue_task t p false vd]> (<[c := v_dequeue_task t v]> (v_rqs a))) (v_rts a)
    (upd_task t (set_tcpu d x) (v_krn a)).

(** the queued task [t] of [c], which does not run, may go to [d] *)
Record movable a (c : nat) v t p (d : nat) vd x : Prop := {
  mv_c : v_rqs a !! c = Some v;
  mv_d : v_rqs a !! d = Some vd;
  mv_ne : c <> d;
  mv_in : t ∈ concat (v_queue v);
  mv_curr : v_curr v <> t;
  mv_p : v_rts a !! t = Some p;
  mv_x : tasks (v_krn a) !! t = Some x
}.

Lemma upd_task_ok k t x y :
  sys_ok k -> tasks k !! t = Some x -> task_cmgroup y = task_cmgroup x ->
  cmgroup_charged y = cmgroup_charged x -> (task_ok x -> task_ok y) -> sys_ok (upd_task t y k).
Proof.
  intros Hk Ht Hg Hc Hxy.
  destruct (sys_task_op k t (put_task t y) x tt y Hk Ht) as (k' & E & Hk'); [by apply task_op_put|done|].
  unfold put_task, modify in E. by injection E as <-.
Qed.

Section Moved.
Context (a : view) (c : nat) (v : rq_view) (t : nat) (p : rt_task) (d : nat) (vd : rq_view) (x : task_struct).
Context (Ha : view_ok (running a) a) (Hm : movable a c v t p d vd x).

#[local] Abbreviation a' := (v_moved c v t p d vd x a).

Lemma moved_task : class p = rt_class /\ on_rq x = true /\ tcpu x = c /\ 0 <= prio p < MAX_RT_PRIO.
Proof.
  destruct (proj1 (vo_place _ _ Ha c v t (mv_c _ _ _ _ _ _ _ _ Hm)) (mv_in _ _ _ _ _ _ _ _ Hm))
    as (p' & x' & Hp' & Hx' & Hcl & Hrq & Hcpu).
  rewrite (mv_p _ _ _ _ _ _ _ _ Hm) in Hp'. rewrite (mv_x _ _ _ _ _ _ _ _ Hm) in Hx'. simplify_eq.
  split_and!; try done. all: apply (vo_task _ _ Ha t p' (mv_p _ _ _ _ _ _ _ _ Hm)); done.
Qed.

Lemma moved_lookup e ve :
  v_rqs a' !! e = Some ve ->
  exists v0, v_rqs a !! e = Some v0 /\ v_curr ve = v_curr v0 /\ length (v_queue ve) = length (v_queue v0) /\
    (forall u, u ∈ concat (v_queue ve) <-> (u = t /\ e = d) \/ (u <> t /\ u ∈ concat (v_queue v0))) /\
    (forall u, u ∈ v_push ve <-> (u = t /\ e = d /\ 1 < nr_cpus_allowed p) \/ (u <> t /\ u ∈ v_push v0)).
Proof.
  destruct Hm as [Mc Md Mn Mi Mcu Mp Mx]. destruct moved_task as (Hcl & Hrq & Hcpu & Hpr).
  assert (Hnd : t ∉ concat (v_queue vd)).
  { intros (p1 & x1 & _ & Hx1 & _ & _ & E)%(vo_place _ _ Ha d vd t Md). simplify_eq. }
  assert (Hnp : t ∉ v_push vd) by by intros [? _]%(vo_push _ _ Ha d vd t Md).
  assert (Hcd : v_curr vd <> t).
  { intros E. destruct (vo_curr _ _ Ha d vd Md) as (p1 & x1 & _ & Hx1 & _ & E1). rewrite E in Hx1. simplify_eq. }
  cbn. rewrite lookup_insert. case_decide as Ed; [subst e; intros [= <-]|].
  - exists vd. rewrite v_enqueue_task_curr, v_enqueue_task_queue. split_and!; [done|done|apply length_v_enqueue| |].
    + intros u. rewrite elem_of_v_enqueue by (rewrite (vo_len _ _ Ha d vd Md); unfold MAX_RT_PRIO in *; lia).
      destruct (decide (u = t)) as [->|]; tauto.
    + intros u. rewrite elem_of_v_enqueue_task_push. destruct (decide (u = t)) as [->|]; tauto.
  - rewrite lookup_insert. case_decide as Ec; [subst e; intros [= <-]|].
    + exists v. split_and!; [done|done|apply length_v_dequeue| |].
      * intros u. unfold v_dequeue_task. cbn [v_pushable set_v_push v_queue].
        rewrite elem_of_v_dequeue. naive_solver.
      * intros u. unfold v_dequeue_task, v_pushable. cbn. rewrite elem_of_difference, elem_of_singleton. naive_solver.
    + intros Hv. exists ve. split_and!; [done|done|done| |]; intros u; split; intros Hu.
      * right. split; [|done]. intros ->. apply (vo_place _ _ Ha e ve t Hv) in Hu as (? & ? & ? & ? & ? & ? & ?).
        simplify_eq.
      * by destruct Hu as [[_ ->]|[_ ?]].
      * right. split; [|done]. intros ->. apply (vo_push _ _ Ha e ve t Hv) in Hu as [Hu _].
        apply (vo_place _ _ Ha e ve t Hv) in Hu as (? & ? & ? & ? & ? & ? & ?). simplify_eq.
      * by destruct Hu as [(_ & -> & _)|[_ ?]].
Qed.

Lemma view_moved : view_ok (running a') a'.
Proof.
  pose proof Hm as [Mc Md Mn Mi Mcu Mp Mx]. destruct moved_task as (Hcl & Hrq & Hcpu & Hpr).
  assert (Hmig : is_migratory (v_rts a) t = true <-> 1 < nr_cpus_allowed p).
  { unfold is_migratory. rewrite Mp. apply Z.ltb_lt. }
  split.
  - intros e ve (v0 & Hv0 & _ & -> & _)%moved_lookup. by apply (vo_len _ _ Ha e).
  - intros e ve u Hve. destruct (moved_lookup e ve Hve) as (v0 & Hv0 & _ & _ & Hq & _). rewrite Hq. cbn.
    setoid_rewrite lookup_insert. destruct (decide (u = t)) as [->|Hut].
    + rewrite decide_True by done. split.
      * intros [[_ ->]|[? _]]; [|done]. by exists p, (set_tcpu d x).
      * intros (? & ? & ? & [= <-] & _ & _ & E). cbn in E. subst e. by left.
    + rewrite decide_False by done. rewrite <- (vo_place _ _ Ha e v0 u Hv0). tauto.
  - intros e ve u Hve. destruct (moved_lookup e ve Hve) as (v0 & Hv0 & Ecu & _ & Hq & Hp).
    rewrite Hp, Hq. unfold running at 1. rewrite Hve. cbn [fmap option_fmap option_map v_rts v_moved]. rewrite Ecu.
    pose proof (vo_push _ _ Ha e v0 u Hv0) as Hpu. unfold running in Hpu. rewrite Hv0 in Hpu. cbn in Hpu.
    destruct (decide (u = t)) as [->|Hut]; [|tauto].
    assert (e = d -> v_curr v0 <> t).
    { intros -> E. destruct (vo_curr _ _ Ha d v0 Hv0) as (? & ? & _ & Hx1 & _ & E1). rewrite E in Hx1. simplify_eq. }
    rewrite Hmig. naive_solver.
  - intros e ve (v0 & Hv0 & -> & _)%moved_lookup. destruct (vo_curr _ _ Ha e v0 Hv0) as (p1 & x1 & Hp1 & Hx1 & Ho & Hc1).
    exists p1, x1. cbn. rewrite lookup_insert_ne; [done|]. intros E. subst t. simplify_eq.
  - intros u q Hu. cbn in Hu. destruct (vo_task _ _ Ha u q Hu) as (H1 & H2 & H3). split_and!; [done|done|].
    cbn. rewrite !dom_insert. set_solver.
  - apply (upd_task_ok _ t x); [apply Ha|done|done|done|]. by intros [].
Qed.
End Moved.
End View.

(** ** Pushing and pulling keep the invariant

    [rt_inv] is the invariant of the whole class.  push_rt_task() and
    pull_rt_task() are proved against any interference at the points where a
    lock is given up, as long as it keeps the invariant and changes no task's
    class; without interference they return. *)

Section Balance.
Context {RL : RtLib} {LL : RtLaws RL}.
Implicit Types (w : rtw) (a : view) (v : rq_view) (p : rt_task) (x : task_struct) (c d t : nat).

Definition rt_inv w : Prop := repr w (abs w) /\ view_ok (running (abs w)) (abs w).

Lemma rt_inv_repr w a : repr w a -> view_ok (running a) a -> rt_inv w.
Proof. intros Hr Ha. pose proof (rp_abs _ _ Hr) as E. split; by rewrite E. Qed.

Lemma rt_inv_calm w w' : calm w w' -> rt_inv w -> rt_inv w'.
Proof. intros Hc [Hr Ha]. apply (rt_inv_repr w' (abs w)); [by eapply repr_calm|done]. Qed.

(** ** The kernel of the other components *)

Lemma repr_set_krn w a k : repr w a -> repr (set_krn k w) (View (v_rqs a) (v_rts a) k).
Proof. intros [[] [] <-]. split; [by split|by split|done]. Qed.

Lemma lift_get_run w a t x : repr w a -> tasks (v_krn a) !! t = Some x -> lift_k (get_task t) w = Ret x w.
Proof.
  intros Hr Hx. unfold lift_k. rewrite (repr_krn _ _ Hr), (get_task_eq t _ x Hx).
  rewrite <- (repr_krn _ _ Hr). by destruct w.
Qed.

Lemma task_cpu_run w a t x : repr w a -> tasks (v_krn a) !! t = Some x -> task_cpu t w = Ret (tcpu x) w.
Proof. intros Hr Hx. unfold task_cpu. by mrun (lift_get_run w a t x Hr Hx). Qed.

Lemma task_on_rq_run w a t x : repr w a -> tasks (v_krn a) !! t = Some x -> task_on_rq t w = Ret (on_rq x) w.
Proof. intros Hr Hx. unfold task_on_rq. by mrun (lift_get_run w a t x Hr Hx). Qed.

Lemma runs_lift {A} (m : K A) w a b k :
  repr w a -> m (v_krn a) = Ret b k ->
  runs (lift_k m) w (fun b' w' => b' = b /\ repr w' (View (v_rqs a) (v_rts a) k)).
Proof.
  intros Hr E. exists b, (set_krn k w). split; [|by split; [|apply repr_set_krn]].
  unfold lift_k. by rewrite (repr_krn _ _ Hr), E.
Qed.

(** ** Moving a task *)

Lemma move_task_rt_ok w a c v t p d vd x :
  repr w a -> view_ok (running a) a -> movable a c v t p d vd x ->
  runs (move_task_rt c t d) w (fun _ w' => repr w' (v_moved c v t p d vd x a)).
Proof.
  intros Hr Ha Hm. destruct (moved_task a c v t p d vd x Ha Hm) as (Hcl & Hrq & Hcpu & Hpr).
  pose proof Hm as [Mc Md Mn Mi Mcu Mp Mx].
  destruct (repr_rq w a c v Hr Mc) as (r & Hr0 & _). unfold move_task_rt, deactivate_task_rt.
  eapply runs_bind.
  { eapply runs_bind; [by apply (runs_calm _ w a Hr), (update_rq_clock_calm c r)|]. next w1 H1.
    eapply runs_bind; [by apply (dequeue_task_rt_ok w1 a c v t p)|]. next w2 H2.
    eapply (runs_lift _ w2 _ _ _ H2). unfold deactivate_task. by apply hidden_dequeue. }
  intros ? w3 [_ H3]. cbn [v_rqs v_rts v_krn v_upd] in H3. set (x1 := set_se_queued false x) in *.
  eapply runs_bind.
  { apply (runs_lift _ w3 _ tt (upd_task t (set_tcpu d x1) (upd_task t x1 (v_krn a))) H3).
    unfold set_task_cpu. cbn [v_krn]. by mrun (get_task_eq t (upd_task t x1 (v_krn a)) x1 (lookup_insert_eq _ _ _)). }
  intros ? w4 [_ H4]. cbn [v_rqs v_rts v_krn v_upd] in H4. set (a4 := View _ _ _) in H4.
  assert (Hd : v_rqs a4 !! d = Some vd) by (cbn; by rewrite lookup_insert_ne).
  destruct (repr_rq w4 a4 d vd H4 Hd) as (r4 & Hr4 & _). unfold activate_task_rt.
  eapply runs_bind; [by apply (runs_calm _ w4 a4 H4), (update_rq_clock_calm d r4)|]. next w5 H5.
  eapply runs_bind.
  { eapply (enqueue_task_rt_ok w5 a4 d vd t p ENQUEUE_NOCMGROUP H5 Hd); [done|].
    intros (p1 & y & _ & Hy & _ & _ & E)%(vo_place _ _ Ha d vd t Md). simplify_eq. }
  next w6 H6. eapply runs_mono.
  { eapply (runs_lift _ w6 _ tt _ H6). unfold activate_task.
    apply (hidden_enqueue t 0 _ (set_tcpu d x1)). cbn. apply lookup_insert_eq. }
  intros ? w7 [_ H7]. cbn [v_rqs v_rts v_krn v_upd a4] in H7.
  replace (upd_task t (set_se_queued true (set_tcpu d x1)) (upd_task t (set_tcpu d x1) (upd_task t x1 (v_krn a))))
    with (upd_task t (set_tcpu d x) (v_krn a)) in H7; [done|].
  destruct (proj1 (vo_sys _ _ Ha)) as [_ [Hok _]]. destruct (Hok t x Mx) as [Hse _]. rewrite Hrq in Hse.
  unfold upd_task, set_tasks; cbn. rewrite !insert_insert_eq. do 2 f_equal. unfold x1. destruct x; cbn in *.
  unfold set_tcpu, set_se_queued; cbn. congruence.
Qed.

(** ** Candidates *)

(** [t] is queued on [c] and does not run *)
Definition waits w c t : Prop :=
  exists v, v_rqs (abs w) !! c = Some v /\ t ∈ concat (v_queue v) /\ v_curr v <> t.

Lemma queued_lookup w c v t :
  rt_inv w -> v_rqs (abs w) !! c = Some v -> t ∈ concat (v_queue v) ->
  exists p x, rts w !! t = Some p /\ tasks (krn w) !! t = Some x /\ class p = rt_class /\
    on_rq x = true /\ tcpu x = c /\ 0 <= prio p < MAX_RT_PRIO /\ cpus_allowed p ⊆ dom (rqs w).
Proof.
  intros [Hr Ha] Hv Ht. destruct (proj1 (vo_place _ _ Ha c v t Hv) Ht) as (p & x & Hp & Hx & Hcl & Hrq & Hc).
  destruct (repr_rt w _ t p Hr Hp) as (p' & Hp' & <-).
  destruct (vo_task _ _ Ha t _ Hp) as (H1 & _ & H3). exists p', x. split_and!; try done.
  - by apply H1.
  - by apply H1.
  - cbn in H3. by rewrite dom_fmap_L in H3.
Qed.

(** the first pushable task, and that it is the most urgent one *)
Lemma pick_next_pushable_ok w c v :
  rt_inv w -> v_rqs (abs w) !! c = Some v ->
  exists o, pick_next_pushable_task c w = Ret o w /\
    match o with
    | None => v_push v = ∅
    | Some t => t ∈ v_push v /\ waits w c t /\
        forall u p q, u ∈ v_push v -> rts w !! u = Some q -> rts w !! t = Some p -> prio p <= prio q
    end.
Proof.
  intros Hi Hv. pose proof Hi as [Hr Ha]. destruct (repr_rq w _ c v Hr Hv) as (r & Hrq & E).
  pose proof (arr_rqs w (rp_arr _ _ Hr) c r Hrq) as Hok. unfold pick_next_pushable_task.
  rewrite (bind_run _ _ _ _ _ (rt_rq_of_eq c r w Hrq)).
  destruct (pushable_tasks (rt r)) as [|[i t] l] eqn:El.
  - exists None. split; [done|]. by rewrite <- E; cbn; rewrite El.
  - assert (Hin : forall u, u ∈ v_push v <-> u ∈ (pushable_tasks (rt r)).*2)
      by (intros u; rewrite <- E; cbn; by rewrite elem_of_list_to_set).
    assert (Ht : t ∈ v_push v) by (rewrite Hin, El; by left).
    destruct (proj1 (vo_push _ _ Ha c v t Hv) Ht) as (Hq & Hmig & Hrun).
    destruct (queued_lookup w c v t Hi Hv Hq) as (p & x & Hp & Hx & _ & Hon & Hcpu & Hpr & _).
    unfold running in Hrun. rewrite Hv in Hrun. cbn in Hrun.
    assert (Hc : v_curr v <> t) by congruence.
    rewrite (bind_run _ _ _ _ _ (cpu_rq_eq c r w Hrq)), (bind_run _ _ _ _ _ (get_rt_eq t p w Hp)).
    rewrite (bind_run _ _ _ _ _ (task_cpu_run w _ t x Hr Hx)), (bind_run _ _ _ _ _ (task_on_rq_run w _ t x Hr Hx)).
    rewrite Hcpu, Hon, (abs_curr r v E). unfold is_migratory in Hmig. cbn in Hmig.
    rewrite lookup_fmap, Hp in Hmig. cbn in Hmig. zbool.
    rewrite (bool_decide_eq_false_2 (c <> c)) by tauto.
    rewrite (bool_decide_eq_false_2 (v_curr v = t)) by done.
    rewrite (proj2 (Z.leb_gt _ _)) by done. unfold rt_prio. rewrite (proj2 (Z.ltb_lt _ _)) by lia.
    exists (Some t). split; [done|]. split_and!; [done|by exists v|].
    intros u p1 q Hu Hqu Hp1. simplify_eq. apply Hin, list_elem_of_fmap in Hu as ([j u'] & -> & Hu).
    destruct (ok_pprio _ _ Hok j u' Hu) as (y & Hy & <-). cbn in Hqu. simplify_eq.
    destruct (ok_pprio _ _ Hok i t) as (y & Hy' & <-); [rewrite El; by left|]. simplify_eq.
    pose proof (head_prio_least _ _ (ok_sorted _ _ Hok) Hu) as Hl. by rewrite El in Hl.
Qed.

(** ** Finding a CPU *)

Lemma search_domains_in lowest this l b :
  (forall t, this = Some t -> t ∈ lowest) -> search_domains lowest this l = Some b -> b ∈ lowest.
Proof.
  intros Hthis. induction l as [|[fl sp] l IH]; cbn; [done|].
  assert (Hf : forall k, match cpumask_first (lowest ∩ sp) with Some b => Some b | None => k end = Some b ->
    k = Some b \/ b ∈ lowest).
  { intros k. destruct (cpumask_first _) as [b'|] eqn:E; [|by left]. intros [= ->]. right.
    unfold cpumask_first in E. assert (Hin : b ∈ for_each_cpu (lowest ∩ sp)).
    { destruct (for_each_cpu _); [done|]. injection E as ->. by left. }
    apply elem_of_for_each_cpu, elem_of_intersection in Hin. apply Hin. }
  destruct (negb _); [|done]. destruct this as [t|].
  - destruct (decide (t ∈ sp)); [intros [= <-]; by apply Hthis|]. intros [?|?]%Hf; auto.
  - intros [?|?]%Hf; auto.
Qed.

Lemma cpumask_first_in m b : cpumask_first m = Some b -> b ∈ m.
Proof.
  unfold cpumask_first. intros E. apply elem_of_for_each_cpu. destruct (for_each_cpu m); [done|].
  injection E as ->. by left.
Qed.

Lemma find_lowest_ok w t p x :
  rt_inv w -> rts w !! t = Some p -> tasks (krn w) !! t = Some x -> is_Some (rqs w !! tcpu x) ->
  exists o, find_lowest_rq t w = Ret o w /\
    forall d, o = Some d -> d ∈ cpus_allowed p /\ prio p < cpupri_level (pri w) d.
Proof.
  intros [Hr Ha] Hp Hx [r Hrq]. unfold find_lowest_rq.
  rewrite (bind_run _ _ _ _ _ (get_rt_eq t p w Hp)), (bind_run get _ w _ w eq_refl).
  rewrite (bind_run _ _ _ _ _ (task_cpu_run w _ t x Hr Hx)).
  destruct (nr_cpus_allowed p =? 1); [by exists None|].
  destruct (cpupri_find _ _ _) as [lowest|] eqn:Ef; [|by exists None].
  destruct (cpupri_find_spec _ _ _ _ Ef) as [_ Hl].
  destruct (decide (tcpu x ∈ lowest)); [eexists; split; [done|]; intros d [= <-]; auto|].
  rewrite (bind_run _ _ _ _ _ (cpu_rq_eq _ r w Hrq)).
  set (this := if decide _ then _ else _).
  assert (Hthis : forall b, this = Some b -> b ∈ lowest).
  { intros b. subst this. destruct (decide _); [by intros [= <-]|done]. }
  destruct (search_domains lowest this (sd r)) as [b|] eqn:Es.
  - eexists; split; [done|]. intros d [= <-]. apply Hl. by eapply search_domains_in.
  - eexists; split; [done|]. intros d Hd. apply Hl. destruct this as [b|].
    + injection Hd as <-. by apply Hthis.
    + by apply cpumask_first_in.
Qed.

(** ** Interference *)

(** what others may do while a CPU waits for a lock: the invariant holds when
    it gets the lock, no task and no CPU is gone, no task has changed class *)
Record persists w w' : Prop := {
  ps_rqs : dom (rqs w') = dom (rqs w);
  ps_class : class <$> rts w' = class <$> rts w;
  ps_tasks : forall t, is_Some (tasks (krn w) !! t) -> is_Some (tasks (krn w') !! t)
}.

#[export] Instance persists_preorder : PreOrder persists.
Proof.
  split.
  - intros w. split; eauto.
  - intros w1 w2 w3 [A1 B1 C1] [A2 B2 C2]. split; [congruence|congruence|auto].
Qed.

Lemma ps_rts w w' : persists w w' ->
  forall t p, rts w !! t = Some p -> exists p', rts w' !! t = Some p' /\ class p' = class p.
Proof.
  intros H t p Hp. destruct (fmap_lookup_eq class (rts w) (rts w') t p (eq_sym (ps_class _ _ H)) Hp) as (p' & ? & E).
  by exists p'.
Qed.

Lemma class_abs (m : gmap nat rt_task) : class <$> (task_abs <$> m) = class <$> m.
Proof. rewrite <- map_fmap_compose. by apply map_fmap_ext. Qed.

Definition polite (contend : nat -> nat -> rtw -> option rtw) : Prop :=
  forall c d w w', contend c d w = Some w' -> rt_inv w -> rt_inv w' /\ persists w w'.

Section Contend.
Variable contend : nat -> nat -> rtw -> option rtw.
Hypothesis Hpolite : polite contend.

Definition alone : Prop := forall c d w, contend c d w = None.

Lemma waits_lookup w c t :
  rt_inv w -> waits w c t ->
  exists r p x, rqs w !! c = Some r /\ rts w !! t = Some p /\ tasks (krn w) !! t = Some x /\
    class p = rt_class /\ tcpu x = c /\ curr r <> t /\ cpus_allowed p ⊆ dom (rqs w).
Proof.
  intros Hi (v & Hv & Hq & Hc). destruct (queued_lookup w c v t Hi Hv Hq) as (p & x & Hp & Hx & Hcl & _ & Hcpu & _ & Hs).
  destruct (repr_rq w _ c v (proj1 Hi) Hv) as (r & Hr & E). exists r, p, x.
  rewrite (abs_curr r v E). done.
Qed.

(** the check after the lock has been given up *)
Lemma still_there_ok w c t d p x :
  rt_inv w -> is_Some (rqs w !! c) -> rts w !! t = Some p -> tasks (krn w) !! t = Some x -> class p = rt_class ->
  exists b, still_there c t d w = Ret b w /\ (b = true -> waits w c t /\ d ∈ cpus_allowed p).
Proof.
  intros [Hr Ha] [r Hrq] Hp Hx Hcl. unfold still_there.
  rewrite (bind_run _ _ _ _ _ (task_cpu_run w _ t x Hr Hx)), (bind_run _ _ _ _ _ (get_rt_eq t p w Hp)).
  rewrite (bind_run _ _ _ _ _ (task_on_rq_run w _ t x Hr Hx)). eexists. split; [done|].
  intros H. zbool. apply bool_decide_eq_true in H, H2. split; [|done].
  pose proof (repr_rq_back w _ c r Hr Hrq) as Hv. exists (rq_abs r). split_and!; [done| |].
  - apply (vo_place _ _ Ha c _ t Hv). exists (task_abs p), x. split_and!; try done. by apply (repr_rt_back w).
  - intros E. destruct (vo_curr _ _ Ha c _ Hv) as (p1 & x1 & Hp1 & _ & Ho & _). rewrite E in Hp1.
    rewrite (repr_rt_back w _ t p Hr Hp) in Hp1. simplify_eq. cbn in Ho. congruence.
Qed.

Definition chosen w c t d : Prop :=
  waits w c t /\ d <> c /\ exists r p, rqs w !! d = Some r /\ rts w !! t = Some p /\
    d ∈ cpus_allowed p /\ prio p < hp_curr (rt r).

Lemma find_lock_ok n w c t :
  rt_inv w -> waits w c t ->
  runs (find_lock_lowest_rq contend n t c) w (fun o w' =>
    rt_inv w' /\ persists w w' /\ (alone -> w' = w) /\ forall d, o = Some d -> chosen w' c t d).
Proof.
  revert w. induction n as [|n IH]; intros w Hi Hwt; [by apply runs_ret|]. cbn [find_lock_lowest_rq].
  destruct (waits_lookup w c t Hi Hwt) as (r & p & x & Hr & Hp & Hx & Hcl & Hcpu & Hcu & Hs).
  destruct (find_lowest_ok w t p x Hi Hp Hx) as (o & Eo & Ho); [rewrite Hcpu; by eexists|].
  eapply runs_read; [exact Eo|]. destruct o as [d|]; [|by apply runs_ret].
  destruct (decide (d = c)) as [|Hdc]; [by apply runs_ret|].
  destruct (Ho d eq_refl) as [Hd _].
  assert (Hgo : forall w1 p1, rt_inv w1 -> persists w w1 -> (alone -> w1 = w) -> waits w1 c t ->
    rts w1 !! t = Some p1 -> d ∈ cpus_allowed p1 ->
    runs (x ← rt_rq_of d; p ← get_rt t;
          if prio p <? hp_curr x then mret (Some d) else find_lock_lowest_rq contend n t c) w1
      (fun o w' => rt_inv w' /\ persists w w' /\ (alone -> w' = w) /\ forall d, o = Some d -> chosen w' c t d)).
  { intros w1 p1 H1 Hw1 Ha1 Hwt1 Hp1 Hd1.
    assert (is_Some (rqs w1 !! d)) as [rd Hrd].
    { apply elem_of_dom. rewrite (ps_rqs _ _ Hw1). by apply Hs. }
    eapply runs_read; [by apply rt_rq_of_eq|]. eapply runs_read; [by apply get_rt_eq|].
    destruct (Z.ltb_spec (prio p1) (hp_curr (rt rd))).
    - apply runs_ret. split_and!; try done. intros d' [= <-]. split_and!; try done. eauto 10.
    - eapply runs_mono; [by apply IH|]. intros o w2 (H2 & Hw2 & Ha2 & Hc2). split_and!; [done|by trans w1| |done].
      intros Hal. rewrite (Ha2 Hal). by apply Ha1. }
  destruct (contend c d w) as [w1|] eqn:Ec.
  - eapply (runs_bind _ _ _ (fun b w' => b = true /\ w' = w1)).
    { exists true, w1. unfold double_lock_balance. by rewrite Ec. }
    intros b w' [-> ->].
    destruct (Hpolite c d w w1 Ec Hi) as [H1 Hw1]. destruct (ps_rts _ _ Hw1 t p Hp) as (p1 & Hp1 & Ecl).
    destruct (ps_tasks _ _ Hw1 t) as [x1 Hx1]; [by eexists|].
    destruct (still_there_ok w1 c t d p1 x1) as (b & Eb & Hb); [done| |done|done|congruence|].
    { apply elem_of_dom. rewrite (ps_rqs _ _ Hw1). by apply elem_of_dom_2 in Hr. }
    eapply runs_read; [exact Eb|]. assert (Hal : alone -> w1 = w) by (intros Hn; by rewrite (Hn c d w) in Ec).
    destruct b; cbn [negb]; [|by apply runs_ret]. destruct (Hb eq_refl) as [Hwt1 Hd1]. by apply (Hgo w1 p1).
  - eapply runs_read; [unfold double_lock_balance; by rewrite Ec|]. eapply runs_read; [done|]. cbn [negb].
    by apply (Hgo w p).
Qed.

(** ** Pushing *)

(** the outcome of a loop with fuel: no oops, and blocked only with interference *)
Definition ends {A} (o : outcome rtw A) (P : A -> rtw -> Prop) : Prop :=
  match o with Ret b w' => P b w' | Blocked _ => ~ alone | Oops => False end.

Lemma ends_runs {A} (m : W A) w P : runs m w P -> ends (m w) P.
Proof. intros (b & w' & E & H). by rewrite E. Qed.

Lemma ends_bind {A B} (m : W A) (k : A -> W B) w P Q :
  runs m w P -> (forall b w', P b w' -> ends (k b w') Q) -> ends (mbind k m w) Q.
Proof. intros (b & w' & E & H) Hk. rewrite (bind_run m k b w w' E). by apply Hk. Qed.

Lemma ends_read {A B} (m : W A) (k : A -> W B) b w Q : m w = Ret b w -> ends (k b w) Q -> ends (mbind k m w) Q.
Proof. intros E H. by rewrite (bind_run m k b w w E). Qed.

(** what one push did: it moved [t], the most urgent candidate of [c], to a
    CPU [d] it may run on and where it is more urgent than all that is queued *)
Definition pushed w c t w' : Prop :=
  exists v p d vd x r, movable (abs w) c v t p d vd x /\ d ∈ cpus_allowed p /\
    rqs w !! d = Some r /\ prio p < hp_curr (rt r) /\ abs w' = v_moved c v t p d vd x (abs w).

Lemma chosen_movable w c t d :
  rt_inv w -> chosen w c t d ->
  exists v p vd x r, movable (abs w) c v t p d vd x /\ d ∈ cpus_allowed p /\
    rqs w !! d = Some r /\ prio p < hp_curr (rt r).
Proof.
  intros Hi ((v & Hv & Hq & Hcu) & Hdc & r & p & Hr & Hp & Hd & Hlt).
  destruct (queued_lookup w c v t Hi Hv Hq) as (p' & x & Hp' & Hx & _). simplify_eq.
  exists v, (task_abs p), (rq_abs r), x, r. split_and!; try done. split; try done.
  - by apply (repr_rq_back w _ d r (proj1 Hi)).
  - by apply (repr_rt_back w _ t p (proj1 Hi)).
Qed.

Lemma moved_inv w c v t p d vd x w' :
  rt_inv w -> movable (abs w) c v t p d vd x -> repr w' (v_moved c v t p d vd x (abs w)) ->
  rt_inv w' /\ persists w w'.
Proof.
  intros [Hr Ha] Hm Hr'. split; [by eapply rt_inv_repr, view_moved|].
  pose proof (rp_abs _ _ Hr') as E. apply (f_equal v_rqs) in E as E1. apply (f_equal v_rts) in E as E2.
  apply (f_equal v_krn) in E as E3. cbn in E1, E2, E3. split.
  - rewrite <- (dom_fmap_L rq_abs (rqs w')), E1, !dom_insert_L, dom_fmap_L.
    destruct (repr_rq w _ c v Hr (mv_c _ _ _ _ _ _ _ _ Hm)) as (r & Hrc%elem_of_dom_2 & _).
    destruct (repr_rq w _ d vd Hr (mv_d _ _ _ _ _ _ _ _ Hm)) as (r' & Hrd%elem_of_dom_2 & _).
    apply set_eq. intros e. rewrite !elem_of_union, !elem_of_singleton. naive_solver.
  - by rewrite <- (class_abs (rts w')), E2, class_abs.
  - intros u Hu. rewrite E3. cbn. rewrite lookup_insert. by case_decide.
Qed.

Lemma curr_lookup w c v : rt_inv w -> v_rqs (abs w) !! c = Some v -> is_Some (rts w !! v_curr v).
Proof.
  intros [Hr Ha] Hv. destruct (vo_curr _ _ Ha c v Hv) as (p & x & Hp & _).
  destruct (repr_rt w _ _ p Hr Hp) as (p' & ? & _). by eexists.
Qed.

Lemma calm_persists w w' : calm w w' -> persists w w'.
Proof.
  intros Hc. split.
  - rewrite <- (dom_fmap_L rq_core (rqs w')), <- (calm_rqs _ _ Hc). by rewrite dom_fmap_L.
  - by rewrite <- (class_abs (rts w')), <- (calm_rts _ _ Hc), class_abs.
  - intros t. by rewrite (calm_krn _ _ Hc).
Qed.

Lemma push_retry_ok n w c t :
  rt_inv w -> waits w c t -> pick_next_pushable_task c w = Ret (Some t) w ->
  ends (push_rt_retry contend (S n) c t w) (fun b w' => rt_inv w' /\ persists w w' /\
    (alone -> if b then pushed w c t w' else abs w' = abs w)).
Proof.
  revert w t. induction n as [n IH] using (well_founded_ind Nat.lt_wf_0); intros w t Hi Hwt Hpick.
  cbn [push_rt_retry]. destruct (waits_lookup w c t Hi Hwt) as (r & p & x & Hr & Hp & Hx & _ & Hcpu & Hcu & _).
  eapply ends_read; [by apply cpu_rq_eq|]. rewrite decide_False by congruence.
  destruct (curr_lookup w c (rq_abs r) Hi) as [q Hq]; [by apply (repr_rq_back w _ c r (proj1 Hi))|].
  eapply ends_read; [by apply get_rt_eq|]. eapply ends_read; [by apply get_rt_eq|].
  destruct (prio p <? prio q).
  { destruct (resched_task_calm (curr r) w) as (b & w' & E & Hc); [by eexists|].
    rewrite (bind_run _ _ b w w' E). cbn. split_and!; [by eapply rt_inv_calm|by apply calm_persists|].
    intros _. by rewrite Hc. }
  eapply ends_bind; [by apply find_lock_ok|]. intros o w1 (H1 & Hw1 & Hal & Hch). destruct o as [d|].
  - destruct (chosen_movable w1 c t d H1 (Hch d eq_refl)) as (v1 & p1 & vd & x1 & rd & Hm & Hd & Hrd & Hlt).
    eapply ends_bind; [by apply (move_task_rt_ok w1 _ c v1 t p1 d vd x1 (proj1 H1) (proj2 H1) Hm)|].
    next w2 H2. destruct (moved_inv w1 c v1 t p1 d vd x1 w2 H1 Hm H2) as [Hi2 Hp2].
    assert (is_Some (rqs w2 !! d)) as [rd2 Hrd2].
    { apply elem_of_dom. rewrite (ps_rqs _ _ Hp2). by apply elem_of_dom_2 in Hrd. }
    eapply ends_read; [by apply cpu_rq_eq|].
    destruct (resched_task_calm (curr rd2) w2) as (u & w' & E & Hc).
    { apply (curr_lookup w2 d (rq_abs rd2) Hi2), (repr_rq_back w2 _ d rd2 (proj1 Hi2) Hrd2). }
    rewrite (bind_run _ _ u w2 w' E). cbn. split_and!; [by eapply rt_inv_calm| |].
    { trans w1; [done|]. trans w2; [done|]. by apply calm_persists. }
    intros Ha. specialize (Hal Ha). subst w1. exists v1, p1, d, vd, x1, rd. split_and!; try done.
    rewrite <- Hc. apply H2.
  - assert (is_Some (rqs w1 !! c)) as [r1 Hr1].
    { apply elem_of_dom. rewrite (ps_rqs _ _ Hw1). by apply elem_of_dom_2 in Hr. }
    pose proof (repr_rq_back w1 _ c r1 (proj1 H1) Hr1) as Hv1.
    destruct (pick_next_pushable_ok w1 c (rq_abs r1) H1 Hv1) as (o & Eo & Ho).
    eapply ends_read; [exact Eo|]. destruct (ps_tasks _ _ Hw1 t) as [x1 Hx1]; [by eexists|].
    eapply ends_read; [by apply (task_cpu_run w1 _ t x1 (proj1 H1))|].
    destruct o as [u|]; [|cbn; split_and!; [done|done|intros Ha; by rewrite (Hal Ha)]].
    destruct (decide (tcpu x1 = c /\ u = t)) as [_|Hne];
      [cbn; split_and!; [done|done|intros Ha; by rewrite (Hal Ha)]|].
    assert (Hna : ~ alone).
    { intros Ha. specialize (Hal Ha). subst w1. apply Hne. split; congruence. }
    destruct n as [|n]; [done|]. destruct Ho as (_ & Hwu & _).
    pose proof (IH n ltac:(lia) w1 u H1 Hwu Eo) as HIH.
    unfold ends in *. destruct (push_rt_retry contend (S n) c u w1) as [b w2| |]; try done.
    destruct HIH as (H2 & Hp2 & _). split_and!; [done|by trans w1|]. by intros ?%Hna.
Qed.

Lemma push_rt_task_ok n w c r :
  rt_inv w -> rqs w !! c = Some r ->
  ends (push_rt_task contend (S n) c w) (fun b w' => rt_inv w' /\ persists w w' /\
    (alone -> if b then exists t, pushed w c t w' /\ t ∈ v_push (rq_abs r) /\
       forall u p q, u ∈ v_push (rq_abs r) -> rts w !! u = Some q -> rts w !! t = Some p -> prio p <= prio q
     else abs w' = abs w)).
Proof.
  intros Hi Hr. unfold push_rt_task. eapply ends_read; [by apply rt_rq_of_eq|].
  destruct (negb _); [by cbn|].
  pose proof (repr_rq_back w _ c r (proj1 Hi) Hr) as Hv.
  destruct (pick_next_pushable_ok w c (rq_abs r) Hi Hv) as (o & Eo & Ho).
  eapply ends_read; [exact Eo|]. destruct o as [t|]; [|by cbn]. destruct Ho as (Ht & Hwt & Hbest).
  pose proof (push_retry_ok n w c t Hi Hwt Eo) as H. unfold ends in *.
  destruct (push_rt_retry contend (S n) c t w) as [b w'| |]; try done.
  destruct H as (H1 & H2 & H3). split_and!; [done|done|]. intros Ha. specialize (H3 Ha).
  destruct b; [|done]. by exists t.
Qed.

(** each push takes one task off the pushable ones *)
Lemma pushed_size w c r t w' :
  rt_inv w -> rqs w !! c = Some r -> pushed w c t w' -> t ∈ v_push (rq_abs r) ->
  exists r', rqs w' !! c = Some r' /\ (size (v_push (rq_abs r')) < size (v_push (rq_abs r)))%nat.
Proof.
  intros Hi Hr (v & p & d & vd & x & rd & Hm & _ & _ & _ & E) Ht.
  apply (f_equal v_rqs) in E. cbn in E.
  assert (Hc : (rq_abs <$> rqs w') !! c = Some (v_dequeue_task t v)).
  { rewrite E, lookup_insert_ne by (symmetry; apply Hm). apply lookup_insert_eq. }
  rewrite lookup_fmap in Hc. destruct (rqs w' !! c) as [r'|]; [|done]. cbn in Hc.
  assert (Er' : rq_abs r' = v_dequeue_task t v) by congruence.
  exists r'. split; [done|]. rewrite Er'. pose proof (mv_c _ _ _ _ _ _ _ _ Hm) as Hv.
  rewrite (repr_rq_back w _ c r (proj1 Hi) Hr) in Hv. assert (v = rq_abs r) as -> by congruence.
  unfold v_dequeue_task, v_pushable. cbn. cbn in Ht.
  apply subset_size, subset_difference_elem_of. done.
Qed.

Lemma push_rt_tasks_ok n w c r :
  rt_inv w -> rqs w !! c = Some r ->
  match push_rt_tasks contend n c w with
  | Ret _ w' => rt_inv w' /\ persists w w'
  | Blocked _ => alone -> (n <= size (v_push (rq_abs r)))%nat
  | Oops => False
  end.
Proof.
  revert w r. induction n as [|n IH]; intros w r Hi Hr; [cbn; lia|].
  cbn [push_rt_tasks]. pose proof (push_rt_task_ok n w c r Hi Hr) as H.
  unfold mbind, M_bind. unfold ends in H.
  destruct (push_rt_task contend (S n) c w) as [b w1| |] eqn:E; [|by intros ?%H|done].
  destruct H as (H1 & H2 & H3). destruct b; [|done].
  assert (is_Some (rqs w1 !! c)) as [r1 Hr1].
  { apply elem_of_dom. rewrite (ps_rqs _ _ H2). by apply elem_of_dom_2 in Hr. }
  pose proof (IH w1 r1 H1 Hr1) as HI. destruct (push_rt_tasks contend n c w1) as [[] w2| |]; [|..|done].
  - destruct HI as [? ?]. split; [done|]. by trans w1.
  - intros Ha. destruct (H3 Ha) as (t & Hp & Ht & _).
    destruct (pushed_size w c r t w1 Hi Hr Hp Ht) as (r' & Hr' & Hs). simplify_eq. specialize (HI Ha). lia.
Qed.

(** ** Pulling *)

Lemma first_pickable_ok w l cpu :
  (forall e, e ∈ l -> is_Some (rts w !! e.2)) ->
  exists o, first_pickable l cpu w = Ret o w /\
    forall t, o = Some t -> exists i p, (i, t) ∈ l /\ rts w !! t = Some p /\ pick_rt_task p cpu = true.
Proof.
  induction l as [|[i t] l IH]; intros Hl; cbn; [by exists None|].
  destruct (Hl (i, t)) as [p Hp]; [by left|]. rewrite (bind_run _ _ _ _ _ (get_rt_eq t p w Hp)).
  destruct (pick_rt_task p cpu) eqn:Ep.
  - exists (Some t). split; [done|]. intros ? [= <-]. exists i, p. split_and!; [by left|done|done].
  - destruct IH as (o & E & Ho); [intros e He; apply Hl; by right|]. exists o. split; [done|].
    intros u Hu. destruct (Ho u Hu) as (j & q & ? & ?). exists j, q. split; [by right|done].
Qed.

(** what one pull did: it took a waiting task of [src] that may run on [this]
    and is more urgent than all that is queued there, and not more urgent than
    what [src] runs *)
Definition pulled w this src t w' : Prop :=
  exists v p vd x r q, movable (abs w) src v t p this vd x /\ this ∈ cpus_allowed p /\
    rqs w !! this = Some r /\ prio p < hp_curr (rt r) /\ rts w !! v_curr v = Some q /\ prio q <= prio p /\
    abs w' = v_moved src v t p this vd x (abs w).

Lemma pull_rt_from_ok w this src :
  rt_inv w -> is_Some (rqs w !! this) -> is_Some (rqs w !! src) -> this <> src ->
  runs (pull_rt_from contend this src) w (fun b w' => rt_inv w' /\ persists w w' /\
    (alone -> if b then exists t, pulled w this src t w' else abs w' = abs w)).
Proof.
  intros Hi [r Hr] [s Hs] Hne. unfold pull_rt_from.
  eapply runs_read; [by apply rt_rq_of_eq|]. eapply runs_read; [by apply rt_rq_of_eq|].
  destruct (_ <=? _); [by apply runs_ret|].
  eapply (runs_bind _ _ _ (fun _ w' => rt_inv w' /\ persists w w' /\ (alone -> w' = w))).
  { unfold double_lock_balance, runs. destruct (contend this src w) as [w1|] eqn:Ec.
    - destruct (Hpolite _ _ _ _ Ec Hi). exists true, w1. split_and!; try done. intros Ha. by rewrite (Ha _ _ _) in Ec.
    - by exists false, w. }
  intros ? w1 (H1 & Hw1 & Hal).
  assert (Hsome : forall e, is_Some (rqs w !! e) -> is_Some (rqs w1 !! e)).
  { intros e He. apply elem_of_dom. rewrite (ps_rqs _ _ Hw1). by apply elem_of_dom. }
  destruct (Hsome this) as [r1 Hr1]; [by eexists|]. destruct (Hsome src) as [s1 Hs1]; [by eexists|].
  pose proof (arr_rqs w1 (rp_arr _ _ (proj1 H1)) src s1 Hs1) as Hok.
  pose proof (repr_rq_back w1 _ src s1 (proj1 H1) Hs1) as Hvs.
  pose proof (repr_rq_back w1 _ this r1 (proj1 H1) Hr1) as Hvr.
  destruct (first_pickable_ok w1 (pushable_tasks (rt s1)) this) as (o & Eo & Ho).
  { intros [i u] Hu. destruct (ok_pprio _ _ Hok i u Hu) as (y & Hy & _). by eexists. }
  unfold pick_highest_pushable_task. eapply runs_read.
  { rewrite (bind_run _ _ _ _ _ (rt_rq_of_eq src s1 w1 Hs1)). exact Eo. }
  assert (Hno : rt_inv w1 /\ persists w w1 /\ (alone -> abs w1 = abs w))
    by (split_and!; [done|done|intros Ha; by rewrite (Hal Ha)]).
  destruct o as [t|]; [|by apply runs_ret]. destruct (Ho t eq_refl) as (i & p & Hin & Hp & Hpick).
  eapply runs_read; [by apply get_rt_eq|]. eapply runs_read; [by apply rt_rq_of_eq|].
  eapply runs_read; [by apply cpu_rq_eq|].
  destruct (Z.ltb_spec (prio p) (hp_curr (rt r1))) as [Hlt|]; [|by apply runs_ret].
  destruct (curr_lookup w1 src (rq_abs s1) H1 Hvs) as [q Hq]. cbn in Hq.
  eapply runs_read; [by apply get_rt_eq|]. destruct (Z.ltb_spec (prio p) (prio q)); [by apply runs_ret|].
  assert (Ht : t ∈ v_push (rq_abs s1)).
  { cbn. apply elem_of_list_to_set, list_elem_of_fmap. by exists (i, t). }
  destruct (proj1 (vo_push _ _ (proj2 H1) src _ t Hvs) Ht) as (Hqt & _ & Hrun).
  unfold running in Hrun. rewrite Hvs in Hrun. cbn in Hrun.
  destruct (queued_lookup w1 src _ t H1 Hvs Hqt) as (p' & x & Hp' & Hx & _). simplify_eq.
  assert (Hm : movable (abs w1) src (rq_abs s1) t (task_abs p) this (rq_abs r1) x).
  { split; try done; [cbn; congruence|]. by apply (repr_rt_back w1 _ t p (proj1 H1)). }
  unfold pick_rt_task in Hpick. apply andb_true_iff in Hpick as [_ Hall%bool_decide_eq_true].
  eapply runs_bind; [by apply (move_task_rt_ok w1 _ _ _ _ _ _ _ _ (proj1 H1) (proj2 H1) Hm)|].
  next w2 H2'. destruct (moved_inv w1 _ _ _ _ _ _ _ w2 H1 Hm H2') as [Hi2 Hp2].
  apply runs_ret. split_and!; [done|by trans w1|]. intros Ha. specialize (Hal Ha). subst w1.
  exists t, (rq_abs s1), (task_abs p), (rq_abs r1), x, r1, q. split_and!; try done. apply H2'.
Qed.

Lemma pull_rt_cpus_ok this l b w :
  rt_inv w -> (forall c, c ∈ l -> is_Some (rqs w !! c)) -> is_Some (rqs w !! this) ->
  runs (pull_rt_cpus contend this l b) w (fun _ w' => rt_inv w' /\ persists w w').
Proof.
  revert b w. induction l as [|c l IH]; intros b w Hi Hl Ht; cbn [pull_rt_cpus]; [by apply runs_ret|].
  eapply runs_read; [done|]. destruct (decide _) as [[_ Hne]|_].
  - eapply runs_bind; [apply pull_rt_from_ok; [done|done|apply Hl; by left|done]|].
    intros b1 w1 (H1 & Hp & _).
    assert (Hsome : forall e, is_Some (rqs w !! e) -> is_Some (rqs w1 !! e)).
    { intros e He. apply elem_of_dom. rewrite (ps_rqs _ _ Hp). by apply elem_of_dom. }
    eapply runs_mono; [apply IH; [done| |auto]; intros e He; apply Hsome, Hl; by right|].
    intros ? w2 [? ?]. split; [done|]. by trans w1.
  - apply IH; [done| |done]. intros e He. apply Hl. by right.
Qed.

Lemma pull_rt_task_ok this w :
  rt_inv w -> is_Some (rqs w !! this) ->
  runs (pull_rt_task contend this) w (fun _ w' => rt_inv w' /\ persists w w').
Proof.
  intros Hi Ht. unfold pull_rt_task. eapply runs_read; [done|]. destruct (_ =? 0); [by apply runs_ret|].
  apply pull_rt_cpus_ok; [done| |done]. intros c Hc%elem_of_for_each_cpu. by apply elem_of_dom.
Qed.
End Contend.
End Balance.
