(* ===== verification/RtStep.v ===== *)
(** * The real-time class: the scheduler's steps keep the invariant

    The steps that drive the class: a real-time task wakes up or goes to
    sleep, a CPU switches to another task, a tick, a yield, a change of
    priority or affinity.  A step that concerns one task changes what the
    invariant says of that task only ([near]). *)

From S2P Require Import Prelude Wait Tasklet Cmgroup Sched CmInv CmTask CmSys RtRq RtPush RtInv.
From S2P Require Import RtQueue RtExec RtOps RtBalance.
Local Open Scope Z_scope.

(** [a] and [a'] differ in what concerns [t] only *)
Record near (t : nat) (run run' : nat -> option nat) (a a' : view) : Prop := {
  nr_rts : forall u, u <> t -> v_rts a' !! u = v_rts a !! u;
  nr_tasks : forall u, u <> t -> tasks (v_krn a') !! u = tasks (v_krn a) !! u;
  nr_run : forall c u, u <> t -> run' c = Some u <-> run c = Some u;
  nr_dom : dom (v_rqs a') = dom (v_rqs a);
  nr_rqs : forall c v', v_rqs a' !! c = Some v' -> exists v, v_rqs a !! c = Some v /\
    length (v_queue v') = length (v_queue v) /\ v_curr v' = v_curr v /\
    forall u, u <> t -> (u ∈ concat (v_queue v') <-> u ∈ concat (v_queue v)) /\ (u ∈ v_push v' <-> u ∈ v_push v);
  nr_sys : sys_ok (v_krn a')
}.

(** what the invariant says of one task *)
Record task_at (t : nat) (run : nat -> option nat) (a : view) : Prop := {
  ta_place : forall c v, v_rqs a !! c = Some v ->
    (t ∈ concat (v_queue v) <-> exists p x, v_rts a !! t = Some p /\ tasks (v_krn a) !! t = Some x /\
       class p = rt_class /\ on_rq x = true /\ tcpu x = c);
  ta_push : forall c v, v_rqs a !! c = Some v ->
    (t ∈ v_push v <-> t ∈ concat (v_queue v) /\ is_migratory (v_rts a) t = true /\ run c <> Some t);
  ta_curr : forall c v, v_rqs a !! c = Some v -> v_curr v = t ->
    exists p x, v_rts a !! t = Some p /\ tasks (v_krn a) !! t = Some x /\ on_cpu p = true /\ tcpu x = c;
  ta_task : forall p, v_rts a !! t = Some p ->
    (class p = rt_class -> 0 <= prio p < MAX_RT_PRIO) /\
    nr_cpus_allowed p = Z.of_nat (size (cpus_allowed p)) /\ cpus_allowed p ⊆ dom (v_rqs a)
}.

Section Near.
Implicit Types (a : view) (v : rq_view) (p : rt_task) (x : task_struct) (t c : nat).

Lemma near_ok t run run' a a' :
  view_ok run a -> near t run run' a a' -> task_at t run' a' -> view_ok run' a'.
Proof.
  intros [V1 V2 V3 V4 V5 V6] [N1 N2 N3 N4 N5 N6] [T1 T2 T3 T4]. split.
  - intros c v' (v & Hv & -> & _)%N5. by eapply V1.
  - intros c v' u Hv'. destruct (decide (u = t)) as [->|Hu]; [by apply T1|].
    destruct (N5 c v' Hv') as (v & Hv & _ & _ & Hq). destruct (Hq u Hu) as [-> _].
    rewrite N1, N2 by done. by apply V2.
  - intros c v' u Hv'. destruct (decide (u = t)) as [->|Hu]; [by apply T2|].
    destruct (N5 c v' Hv') as (v & Hv & _ & _ & Hq). destruct (Hq u Hu) as [-> ->].
    rewrite (V3 c v u Hv). unfold is_migratory. rewrite N1, N3 by done. done.
  - intros c v' Hv'. destruct (decide (v_curr v' = t)) as [E|Hu]; [rewrite E; by apply (T3 c v')|].
    destruct (N5 c v' Hv') as (v & Hv & _ & Ec & _). rewrite Ec in *. rewrite N1, N2 by done. by apply (V4 c v).
  - intros u p Hp. destruct (decide (u = t)) as [->|Hu]; [by apply T4|].
    rewrite N1 in Hp by done. rewrite N4. by apply (V5 u p).
  - done.
Qed.

Lemma task_at_of t run a : view_ok run a -> task_at t run a.
Proof.
  intros [V1 V2 V3 V4 V5 V6]. split; [by intros; apply V2|by intros; apply V3| |by intros; apply (V5 t)].
  intros c v Hv <-. by apply (V4 c v).
Qed.

(** a task that is not on a run queue is in no array and pushable nowhere *)
Lemma off_rq t run a c v x :
  view_ok run a -> tasks (v_krn a) !! t = Some x -> on_rq x = false -> v_rqs a !! c = Some v ->
  (t ∉ concat (v_queue v)) /\ t ∉ v_push v.
Proof.
  intros Ha Hx Ho Hv. assert (Hq : t ∉ concat (v_queue v)).
  { intros (p & x' & _ & Hx' & _ & Ho' & _)%(vo_place _ _ Ha c v t Hv). congruence. }
  split; [done|]. by intros [? _]%(vo_push _ _ Ha c v t Hv).
Qed.

(** updating the run queue of [c] and the kernel, for task [t] *)
Lemma near_upd t run run' a c v v' k :
  v_rqs a !! c = Some v -> (forall u, u <> t -> tasks k !! u = tasks (v_krn a) !! u) -> sys_ok k ->
  (forall e u, u <> t -> run' e = Some u <-> run e = Some u) ->
  length (v_queue v') = length (v_queue v) -> v_curr v' = v_curr v ->
  (forall u, u <> t -> (u ∈ concat (v_queue v') <-> u ∈ concat (v_queue v)) /\ (u ∈ v_push v' <-> u ∈ v_push v)) ->
  near t run run' a (View (<[c := v']> (v_rqs a)) (v_rts a) k).
Proof.
  intros Hv Hk Hs Hr Hl Hc Hq. split; try done.
  - cbn. rewrite dom_insert_L. apply elem_of_dom_2 in Hv. set_solver.
  - intros e ve. cbn. rewrite lookup_insert. case_decide; [subst e; intros [= <-]; eauto 10|].
    intros He. exists ve. done.
Qed.

(** ** Waking up and going to sleep *)

Lemma view_wake a c v t p x y k head :
  view_ok (running a) a -> v_rqs a !! c = Some v -> v_rts a !! t = Some p -> tasks (v_krn a) !! t = Some x ->
  class p = rt_class -> on_rq x = false -> tcpu x = c ->
  sys_ok k -> tasks k = <[t := y]> (tasks (v_krn a)) -> on_rq y = true -> tcpu y = c ->
  let a' := View (<[c := v_enqueue_task t p head v]> (v_rqs a)) (v_rts a) k in
  view_ok (running a') a'.
Proof.
  intros Ha Hv Hp Hx Hcl Ho Hcpu Hs Hk Hoy Hcy a'.
  destruct (vo_task _ _ Ha t p Hp) as (Hpr & Hn & Hd). specialize (Hpr Hcl).
  assert (Hlen : 0 <= prio p < Z.of_nat (length (v_queue v))).
  { rewrite (vo_len _ _ Ha c v Hv). unfold MAX_RT_PRIO in *. lia. }
  assert (Hkt : tasks k !! t = Some y) by (rewrite Hk; apply lookup_insert_eq).
  assert (Hrun : forall e, running a' e = running a e).
  { intros e. unfold running, a'. cbn. rewrite lookup_insert. case_decide; [subst e|done].
    rewrite Hv. cbn. by rewrite v_enqueue_task_curr. }
  eapply (near_ok t (running a)); [done| |].
  - apply (near_upd t _ _ a c v); try done.
    + intros u Hu. by rewrite Hk, lookup_insert_ne.
    + intros e u _. by rewrite Hrun.
    + rewrite v_enqueue_task_queue. apply length_v_enqueue.
    + apply v_enqueue_task_curr.
    + intros u Hu. rewrite v_enqueue_task_queue, elem_of_v_enqueue, elem_of_v_enqueue_task_push by done. tauto.
  - assert (Hother : forall e ve, e <> c -> v_rqs a !! e = Some ve -> t ∉ concat (v_queue ve) /\ t ∉ v_push ve)
      by (intros e ve _ He; by eapply off_rq).
    destruct (off_rq t _ a c v x Ha Hx Ho Hv) as [Hnq Hnp].
    split.
    + intros e ve. unfold a'. cbn. rewrite lookup_insert, Hkt. case_decide as E.
      * subst e. intros [= <-]. rewrite v_enqueue_task_queue, elem_of_v_enqueue by done.
        split; [intros _; by exists p, y|by left].
      * intros He. destruct (Hother e ve) as [Hn' _]; [done|done|]. split; [done|].
        intros (? & ? & ? & [= <-] & _ & _ & ?). congruence.
    + intros e ve. rewrite Hrun. unfold a'. cbn. rewrite lookup_insert. case_decide as E.
      * subst e. intros [= <-]. rewrite v_enqueue_task_queue, elem_of_v_enqueue, elem_of_v_enqueue_task_push by done.
        unfold running, is_migratory. rewrite Hv, Hp. cbn. rewrite Z.ltb_lt.
        split; [intros [?|(_ & ? & ?)]; [done|split_and!; [by left|done|congruence]]|].
        intros (_ & ? & ?). right. split_and!; [done|congruence|done].
      * intros He. destruct (Hother e ve) as [Hn1 Hn2]; [done|done|]. tauto.
    + intros e ve. unfold a'. cbn. rewrite lookup_insert, Hkt. case_decide as E.
      * subst e. intros [= <-]. rewrite v_enqueue_task_curr. intros E.
        destruct (vo_curr _ _ Ha c v Hv) as (p1 & x1 & Hp1 & _ & Hoc & _). rewrite E in Hp1. exists p1, y. done.
      * intros He Et. destruct (vo_curr _ _ Ha e ve He) as (p1 & x1 & Hp1 & Hx1 & Hoc & Hc1). rewrite Et in *.
        congruence.
    + intros q Hq. cbn in Hq. simplify_eq. split_and!; [done|done|]. cbn. rewrite dom_insert_L. set_solver.
Qed.

Lemma view_sleep a c v t p x y k :
  view_ok (running a) a -> v_rqs a !! c = Some v -> v_rts a !! t = Some p -> tasks (v_krn a) !! t = Some x ->
  tcpu x = c -> sys_ok k -> tasks k = <[t := y]> (tasks (v_krn a)) -> on_rq y = false -> tcpu y = c ->
  let a' := View (<[c := v_dequeue_task t v]> (v_rqs a)) (v_rts a) k in
  view_ok (running a') a'.
Proof.
  intros Ha Hv Hp Hx Hcpu Hs Hk Hoy Hcy a'.
  assert (Hkt : tasks k !! t = Some y) by (rewrite Hk; apply lookup_insert_eq).
  assert (Hrun : forall e, running a' e = running a e).
  { intros e. unfold running, a'. cbn. rewrite lookup_insert. case_decide; [subst e|done]. by rewrite Hv. }
  assert (Hq : forall u, u ∈ concat (v_queue (v_dequeue_task t v)) <-> u <> t /\ u ∈ concat (v_queue v))
    by (intros u; unfold v_dequeue_task; cbn [v_pushable set_v_push v_queue]; apply elem_of_v_dequeue).
  assert (Hpu : forall u, u ∈ v_push (v_dequeue_task t v) <-> u <> t /\ u ∈ v_push v)
    by (intros u; unfold v_dequeue_task, v_pushable; cbn; rewrite elem_of_difference, elem_of_singleton; tauto).
  eapply (near_ok t (running a)); [done| |].
  - apply (near_upd t _ _ a c v); try done.
    + intros u Hu. by rewrite Hk, lookup_insert_ne.
    + intros e u _. by rewrite Hrun.
    + unfold v_dequeue_task. cbn [v_pushable set_v_push v_queue]. apply length_v_dequeue.
    + intros u Hu. rewrite Hq, Hpu. tauto.
  - assert (Hother : forall e ve, v_rqs a' !! e = Some ve -> t ∉ concat (v_queue ve) /\ t ∉ v_push ve).
    { intros e ve. cbn. rewrite lookup_insert. case_decide as E.
      - intros [= <-]. rewrite Hq, Hpu. tauto.
      - intros He. assert (t ∉ concat (v_queue ve)).
        { intros (? & ? & _ & ? & _ & _ & ?)%(vo_place _ _ Ha e ve t He). congruence. }
        split; [done|]. by intros [? _]%(vo_push _ _ Ha e ve t He). }
    split.
    + intros e ve He. split; [by intros ?%(proj1 (Hother e ve He))|].
      intros (? & y' & _ & Hy' & _ & ? & _). cbn in Hy'. congruence.
    + intros e ve He. destruct (Hother e ve He). tauto.
    + intros e ve. unfold a'. cbn. rewrite lookup_insert, Hkt. intros He Et.
      assert (exists ve0, v_rqs a !! e = Some ve0 /\ v_curr ve0 = t) as (ve0 & He0 & Et0).
      { revert He. case_decide; [subst e; intros [= <-]; by exists v|eauto]. }
      destruct (vo_curr _ _ Ha e ve0 He0) as (p1 & x1 & Hp1 & Hx1 & Hoc & Hc1). rewrite Et0 in *.
      exists p1, y. split_and!; try done. congruence.
    + intros q Hq'. cbn in Hq'. simplify_eq. destruct (vo_task _ _ Ha t p Hp) as (? & ? & ?). split_and!; try done.
      cbn. rewrite dom_insert_L. set_solver.
Qed.
End Near.

(** ** Steps that keep who is queued where *)

Section Members.
Implicit Types (a : view) (v : rq_view).

Lemma view_members run a (c : nat) v v' :
  view_ok run a -> v_rqs a !! c = Some v -> length (v_queue v') = length (v_queue v) -> v_curr v' = v_curr v ->
  (forall u, u ∈ concat (v_queue v') <-> u ∈ concat (v_queue v)) -> (forall u, u ∈ v_push v' <-> u ∈ v_push v) ->
  view_ok run (v_upd c v' a).
Proof.
  intros Ha Hv Hl Hc Hq Hp.
  assert (Hb : forall e ve, v_rqs (v_upd c v' a) !! e = Some ve -> exists v0, v_rqs a !! e = Some v0 /\
    length (v_queue ve) = length (v_queue v0) /\ v_curr ve = v_curr v0 /\
    (forall u, u ∈ concat (v_queue ve) <-> u ∈ concat (v_queue v0)) /\ (forall u, u ∈ v_push ve <-> u ∈ v_push v0)).
  { intros e ve. cbn. rewrite lookup_insert. case_decide; [subst; intros [= <-]; eauto 10|].
    intros He. by exists ve. }
  destruct Ha as [V1 V2 V3 V4 V5 V6]. split; try done.
  - intros e ve (v0 & H0 & -> & _)%Hb. by eapply V1.
  - intros e ve u (v0 & H0 & _ & _ & Hqe & _)%Hb. rewrite Hqe. by apply V2.
  - intros e ve u (v0 & H0 & _ & _ & Hqe & Hpe)%Hb. rewrite Hqe, Hpe. by apply V3.
  - intros e ve (v0 & H0 & _ & -> & _)%Hb. by apply V4.
  - intros u p Hu. destruct (V5 u p Hu) as (? & ? & ?). split_and!; try done. cbn. rewrite dom_insert_L. set_solver.
Qed.

Lemma running_upd a (c : nat) v v' : v_rqs a !! c = Some v -> v_curr v' = v_curr v -> forall e, running (v_upd c v' a) e = running a e.
Proof.
  intros Hv Hc e. unfold running. cbn. rewrite lookup_insert. case_decide; [subst e; rewrite Hv; cbn; congruence|done].
Qed.

Lemma view_ok_run run run' a : (forall c, run' c = run c) -> view_ok run a -> view_ok run' a.
Proof. intros He [V1 V2 V3 V4 V5 V6]. split; try done. intros c v t Hv. rewrite He. by apply V3. Qed.

Lemma view_requeue a (c : nat) v (t : nat) p head :
  view_ok (running a) a -> v_rqs a !! c = Some v -> v_rts a !! t = Some p ->
  let a' := v_upd c (v_requeue t (prio p) head v) a in view_ok (running a') a'.
Proof.
  intros Ha Hv Hp a'. unfold a'. unfold v_requeue. destruct (decide _) as [Hin|]; [|by rewrite v_upd_id].
  destruct (proj1 (vo_place _ _ Ha c v t Hv) Hin) as (p' & x & Hp' & _ & Hcl & _).
  assert (p' = p) as -> by congruence. destruct (vo_task _ _ Ha t p Hp) as (Hpr & _). specialize (Hpr Hcl).
  eapply view_ok_run; [by eapply running_upd|].
  eapply view_members; try done.
  - by rewrite length_v_enqueue, length_v_dequeue.
  - intros u. rewrite elem_of_v_enqueue, elem_of_v_dequeue.
    + destruct (decide (u = t)) as [->|]; tauto.
    + rewrite length_v_dequeue, (vo_len _ _ Ha c v Hv). unfold MAX_RT_PRIO in *. lia.
Qed.

(** the kernel changes a task without moving it *)
Lemma view_krn_task run a (t : nat) x y k :
  view_ok run a -> tasks (v_krn a) !! t = Some x -> on_rq y = on_rq x -> tcpu y = tcpu x ->
  sys_ok k -> tasks k = <[t := y]> (tasks (v_krn a)) -> view_ok run (View (v_rqs a) (v_rts a) k).
Proof.
  intros Ha Hx Ho Hc Hs Hk. destruct Ha as [V1 V2 V3 V4 V5 V6]. split; try done.
  - intros c v u Hv. cbn in *. rewrite (V2 c v u Hv), Hk. setoid_rewrite lookup_insert.
    destruct (decide (t = u)) as [->|]; [|done]. rewrite Hx. split.
    + intros (p & x' & Hp & [= <-] & ?). exists p, y. rewrite Ho, Hc. done.
    + intros (p & x' & Hp & [= <-] & ?). exists p, x. rewrite <- Ho, <- Hc. done.
  - intros c v Hv. cbn in *. destruct (V4 c v Hv) as (p & x' & Hp & Hx' & ? & ?). rewrite Hk.
    destruct (decide (v_curr v = t)) as [E|Hne].
    + rewrite E in *. exists p, y. rewrite lookup_insert_eq. split_and!; try done. congruence.
    + exists p, x'. rewrite lookup_insert_ne by done. done.
Qed.

(** a step of one task in the kernel, with what it does to the tasks *)
Lemma sys_task_run {A} k t (m : K A) x r y :
  sys_ok k -> tasks k !! t = Some x -> task_op no_refs t m x r y -> (task_ok x -> task_ok y) ->
  exists k', m k = Ret r k' /\ sys_ok k' /\ tasks k' = <[t := y]> (tasks k).
Proof.
  intros Hk Ht Hm Hxy. destruct (Hm k (proj1 (proj1 Hk)) Ht) as (k' & E & Hi & Hs).
  exists k'. split_and!; [done|by eapply sys_upd|]. by rewrite (sr_tasks _ _ Hs).
Qed.
End Members.

Section Steps.
Context {RL : RtLib} {LL : RtLaws RL}.
Implicit Types (w : rtw) (a : view) (v : rq_view) (p : rt_task) (x : task_struct) (c d t : nat).

(** [o] is no oops, if it returns [P] holds, and it returns unless [E] *)
Definition safe {A} (E : Prop) (o : outcome rtw A) (P : A -> rtw -> Prop) : Prop :=
  match o with Ret b w' => P b w' | Blocked _ => E | Oops => False end.

Lemma safe_runs {A} E (m : W A) w P : runs m w P -> safe E (m w) P.
Proof. intros (b & w' & Em & H). by rewrite Em. Qed.

Lemma safe_mono {A} (E E' : Prop) (o : outcome rtw A) (P Q : A -> rtw -> Prop) :
  safe E o P -> (E -> E') -> (forall b w', P b w' -> Q b w') -> safe E' o Q.
Proof. destruct o; cbn; auto. Qed.

(** the loop over the pushable tasks ends if nothing interferes and the fuel
    exceeds the number of tasks *)
Definition starved (contend : nat -> nat -> rtw -> option rtw) (fuel : nat) w : Prop :=
  alone contend -> (fuel <= size (rts w))%nat.

Lemma safe_bind {A B} E (m : W A) (k : A -> W B) w P Q :
  runs m w P -> (forall b w', P b w' -> safe E (k b w') Q) -> safe E (mbind k m w) Q.
Proof. intros (b & w' & Em & H) Hk. rewrite (bind_run m k b w w' Em). by apply Hk. Qed.

(** what every step guarantees *)
Definition kept w w' : Prop := rt_inv w' /\ persists w w'.

Lemma kept_refl w : rt_inv w -> kept w w.
Proof. done. Qed.

Lemma kept_trans w1 w2 w3 : kept w1 w2 -> kept w2 w3 -> kept w1 w3.
Proof. intros [_ H1] [? H2]. split; [done|]. by trans w2. Qed.

Lemma kept_calm w w' : rt_inv w -> calm w w' -> kept w w'.
Proof. intros Hi Hc. split; [by eapply rt_inv_calm|by apply calm_persists]. Qed.

Lemma runs_calms {A} (m : W A) w : rt_inv w -> calms m w -> runs m w (fun _ w' => kept w w').
Proof. intros Hi (b & w' & E & Hc). exists b, w'. split; [done|]. by apply kept_calm. Qed.

(** a new view with the same CPUs and classes *)
Lemma kept_repr w w' a :
  rt_inv w -> repr w' a -> view_ok (running a) a -> dom (v_rqs a) = dom (rqs w) ->
  class <$> v_rts a = class <$> rts w ->
  (forall t, is_Some (tasks (krn w) !! t) -> is_Some (tasks (v_krn a) !! t)) -> kept w w'.
Proof.
  intros Hi Hr Ha Hd Hc Hk. split; [by eapply rt_inv_repr|]. split.
  - rewrite <- Hd, <- (rp_abs _ _ Hr). cbn. by rewrite dom_fmap_L.
  - rewrite <- Hc, <- (rp_abs _ _ Hr). symmetry. apply class_abs.
  - intros t Ht. rewrite (repr_krn _ _ Hr). auto.
Qed.

Lemma kept_upd w w' c v v' :
  rt_inv w -> v_rqs (abs w) !! c = Some v -> repr w' (v_upd c v' (abs w)) ->
  view_ok (running (v_upd c v' (abs w))) (v_upd c v' (abs w)) -> kept w w'.
Proof.
  intros Hi Hv Hr Ha. eapply kept_repr; try done.
  - cbn. rewrite dom_insert_L, dom_fmap_L. apply elem_of_dom_2 in Hv. cbn in Hv. rewrite dom_fmap_L in Hv. set_solver.
  - apply class_abs.
Qed.

Lemma requeue_step w c t head :
  rt_inv w -> is_Some (rqs w !! c) -> is_Some (rts w !! t) ->
  runs (requeue_task_rt c t head) w (fun _ w' => kept w w').
Proof.
  intros Hi [r Hr] [p Hp]. pose proof (repr_rq_back w _ c r (proj1 Hi) Hr) as Hv.
  pose proof (repr_rt_back w _ t p (proj1 Hi) Hp) as Hpv.
  eapply runs_mono; [apply (requeue_task_rt_ok w _ c _ t _ head (proj1 Hi) Hv Hpv)|].
  next w' H'. eapply kept_upd; try done. apply view_requeue; [apply Hi|done|done].
Qed.

Lemma runs_then {A B} (m : W A) (k : A -> W B) w :
  runs m w (fun _ w' => kept w w') -> (forall b w', kept w w' -> runs (k b) w' (fun _ w2 => kept w' w2)) ->
  runs (mbind k m) w (fun _ w2 => kept w w2).
Proof.
  intros Hm Hk. eapply runs_bind; [exact Hm|]. intros b w' Hw. eapply runs_mono; [by apply Hk|].
  intros ? w2. by apply kept_trans.
Qed.

Lemma kept_rq w w' c : kept w w' -> is_Some (rqs w !! c) -> is_Some (rqs w' !! c).
Proof. intros [_ Hp] Hc. apply elem_of_dom. rewrite (ps_rqs _ _ Hp). by apply elem_of_dom. Qed.

Lemma kept_rt w w' t : kept w w' -> is_Some (rts w !! t) -> is_Some (rts w' !! t).
Proof. intros [_ Hp] [p Ht]. destruct (ps_rts _ _ Hp t p Ht) as (p' & -> & _). done. Qed.

Lemma curr_some w c r : rt_inv w -> rqs w !! c = Some r ->
  exists q x, rts w !! curr r = Some q /\ tasks (krn w) !! curr r = Some x /\ tcpu x = c.
Proof.
  intros Hi Hr. pose proof (repr_rq_back w _ c r (proj1 Hi) Hr) as Hv.
  destruct (vo_curr _ _ (proj2 Hi) c _ Hv) as (p & x & Hp & Hx & _ & Hc).
  destruct (repr_rt w _ _ p (proj1 Hi) Hp) as (q & Hq & _). by exists q, x.
Qed.

(** ** Preemption *)

Lemma check_preempt_curr_step w c t :
  rt_inv w -> is_Some (rqs w !! c) -> is_Some (rts w !! t) ->
  runs (check_preempt_curr c t) w (fun _ w' => kept w w').
Proof.
  intros Hi [r Hr] [p Hp]. destruct (curr_some w c r Hi Hr) as (q & x & Hq & Hx & _). unfold check_preempt_curr.
  eapply runs_read; [by apply cpu_rq_eq|]. eapply runs_read; [by apply get_rt_eq|].
  eapply runs_read; [by apply get_rt_eq|].
  apply runs_then.
  - assert (Hres : forall w1, kept w w1 -> runs (resched_task (curr r)) w1 (fun _ w' => kept w1 w')).
    { intros w1 H1. apply runs_calms; [apply H1|]. apply resched_task_calm, (kept_rt w w1); [done|by eexists]. }
    destruct (decide _); [|destruct (_ <? _)%nat; [by apply Hres|by apply runs_ret]].
    unfold check_preempt_curr_rt. eapply runs_read; [by apply cpu_rq_eq|].
    eapply runs_read; [by apply get_rt_eq|]. eapply runs_read; [by apply get_rt_eq|].
    destruct (_ <? _); [by apply Hres|]. destruct (_ && _); [|by apply runs_ret]. cbn [when].
    unfold check_preempt_equal_prio. eapply runs_read; [by apply cpu_rq_eq|].
    eapply runs_read; [by apply get_rt_eq|]. eapply runs_read; [by apply get_rt_eq|]. eapply runs_read; [done|].
    cbv zeta. destruct (_ =? 1); [by apply runs_ret|]. destruct (_ && _); [by apply runs_ret|].
    destruct (negb _); [by apply runs_ret|]. apply runs_then; [apply requeue_step; [done|by eexists|by eexists]|].
    intros ? w1 H1. by apply Hres.
  - intros ? w1 H1. destruct (kept_rq w w1 c H1) as [r1 Hr1]; [by eexists|].
    destruct (curr_some w1 c r1 (proj1 H1) Hr1) as (q1 & x1 & Hq1 & Hx1 & _).
    eapply runs_read; [by apply cpu_rq_eq|]. eapply runs_read; [by apply get_rt_eq|].
    eapply runs_read; [by apply (task_on_rq_run w1 _ _ x1 (proj1 (proj1 H1)))|].
    destruct (_ && _); [|by apply runs_ret, kept_refl, H1]. cbn [when].
    apply runs_calms; [apply H1|]. by eapply calms_put_rq.
Qed.

(** ** Waking up *)

(** the kernel's part of a step, when it moves no task *)
Lemma lift_step w t x y (m : K unit) :
  rt_inv w -> tasks (krn w) !! t = Some x -> task_op no_refs t m x tt y -> (task_ok x -> task_ok y) ->
  on_rq y = on_rq x -> tcpu y = tcpu x -> runs (lift_k m) w (fun _ w' => kept w w').
Proof.
  intros Hi Hx Hm Hok Ho Hc. destruct (sys_task_run (krn w) t m x tt y (vo_sys _ _ (proj2 Hi)) Hx Hm Hok) as (k & E & Hk & Ht).
  eapply runs_mono; [by apply (runs_lift m w (abs w) tt k (proj1 Hi))|]. intros ? w' [_ H'].
  eapply kept_repr; [done|exact H'| | | |].
  - apply (view_krn_task _ (abs w) t x y k (proj2 Hi)); done.
  - cbn. by rewrite dom_fmap_L.
  - apply class_abs.
  - intros u Hu. cbn. rewrite Ht, lookup_insert. by case_decide.
Qed.

Lemma has_pushable_eq c r w :
  rqs w !! c = Some r -> has_pushable_tasks c w = Ret (bool_decide (pushable_tasks (rt r) <> [])) w.
Proof. intros Hr. unfold has_pushable_tasks. by rewrite (bind_run _ _ _ _ _ (rt_rq_of_eq c r w Hr)). Qed.

(** the tasks that can be pushed are tasks *)
Lemma pushable_size w c r : rt_inv w -> rqs w !! c = Some r -> (size (v_push (rq_abs r)) <= size (rts w))%nat.
Proof.
  intros [Hr Ha] Hc. rewrite <- (size_dom (rts w)). apply subseteq_size. intros t Ht.
  apply (vo_push _ _ Ha c _ t (repr_rq_back w _ c r Hr Hc)) in Ht as [Hq _].
  apply (vo_place _ _ Ha c _ t (repr_rq_back w _ c r Hr Hc)) in Hq as (p & _ & Hp & _).
  apply elem_of_dom. by destruct (repr_rt w _ t p Hr Hp) as (p' & -> & _).
Qed.

Lemma push_tasks_step contend fuel w c :
  polite contend -> rt_inv w -> is_Some (rqs w !! c) ->
  safe (starved contend fuel w) (push_rt_tasks contend fuel c w) (fun _ w' => kept w w').
Proof.
  intros Hp Hi [r Hr]. pose proof (push_rt_tasks_ok contend Hp fuel w c r Hi Hr) as H.
  pose proof (pushable_size w c r Hi Hr). unfold safe, starved. destruct (push_rt_tasks contend fuel c w); [done| |done].
  intros Ha. specialize (H Ha). lia.
Qed.

Lemma kept_size w w' : kept w w' -> size (rts w') = size (rts w).
Proof.
  intros [_ H]. rewrite <- !size_dom, <- (dom_fmap_L class (rts w')), <- (dom_fmap_L class (rts w)).
  by rewrite (ps_class _ _ H).
Qed.

Lemma kept_starved contend fuel w w' : kept w w' -> starved contend fuel w' -> starved contend fuel w.
Proof. intros H. unfold starved. by rewrite (kept_size w w' H). Qed.

Lemma task_woken_step contend fuel w c t :
  polite contend -> rt_inv w -> is_Some (rqs w !! c) -> is_Some (rts w !! t) ->
  safe (starved contend fuel w) (task_woken_rt contend fuel c t w) (fun _ w' => kept w w').
Proof.
  intros Hp Hi [r Hr] [p Ht]. destruct (curr_some w c r Hi Hr) as (q & x & Hq & _). unfold task_woken_rt.
  rewrite (bind_run _ _ _ _ _ (cpu_rq_eq c r w Hr)), (bind_run _ _ _ _ _ (get_rt_eq t p w Ht)).
  rewrite (bind_run _ _ _ _ _ (get_rt_eq _ q w Hq)).
  rewrite (bind_run _ _ _ _ _ (has_pushable_eq c r w Hr)).
  destruct (_ && _); cbn [when]; [|by cbn].
  by apply push_tasks_step; [|done|eexists].
Qed.

Lemma wake_step contend fuel w c t p x :
  polite contend -> rt_inv w -> is_Some (rqs w !! c) -> rts w !! t = Some p -> tasks (krn w) !! t = Some x ->
  class p = rt_class -> on_rq x = false -> tcpu x = c ->
  safe (starved contend fuel w) (ttwu_do_activate_rt contend fuel c t w) (fun _ w' => kept w w').
Proof.
  intros Hpol Hi [r Hr] Hp Hx Hcl Ho Hcpu. set (fl := Z.lor ENQUEUE_WAKEUP ENQUEUE_WAKING).
  pose proof (repr_rq_back w _ c r (proj1 Hi) Hr) as Hv. pose proof (repr_rt_back w _ t p (proj1 Hi) Hp) as Hpv.
  set (y := set_on_rq true (enqueued fl x)).
  assert (Htcpu : tcpu y = c) by (unfold y, enqueued; cbn; by destruct (_ && _)).
  destruct (sys_task_run (krn w) t (ttwu_activate t fl) x tt y (vo_sys _ _ (proj2 Hi)) Hx) as (k & Ek & Hk & Htk).
  { unfold ttwu_activate, activate_task. task_ops. }
  { intros Hok. pose proof (woken_ok x Hok) as Hw. unfold woken in Hw. by rewrite Ho in Hw. }
  unfold ttwu_do_activate_rt. eapply safe_bind.
  { by apply (runs_calm _ w _ (proj1 Hi)), (update_rq_clock_calm c r). }
  next w1 H1. destruct (off_rq t _ _ c _ x (proj2 Hi) Hx Ho Hv) as [Hnq _].
  eapply safe_bind.
  { apply (enqueue_task_rt_ok w1 (abs w) c (rq_abs r) t (task_abs p) fl H1 Hv); [|done].
    split_and!; [done|done|by apply (vo_task _ _ (proj2 Hi) t _ Hpv)..]. }
  next w2 H2. eapply safe_bind; [by apply (runs_lift _ w2 _ tt k H2)|]. intros ? w3 [_ H3].
  assert (H03 : kept w w3).
  { eapply kept_repr; [done|exact H3| | | |].
    - eapply (view_wake (abs w) c (rq_abs r) t (task_abs p) x y k); try done. apply Hi.
    - cbn. rewrite dom_insert_L, dom_fmap_L. apply elem_of_dom_2 in Hr. set_solver.
    - apply class_abs.
    - intros u Hu. cbn. rewrite Htk, lookup_insert. by case_decide. }
  eapply safe_bind.
  { apply check_preempt_curr_step; [apply H03|eapply kept_rq; [done|by eexists]|eapply kept_rt; [done|by eexists]]. }
  next w4 H4. assert (H04 : kept w w4) by by eapply kept_trans.
  destruct (ps_tasks _ _ (proj2 H04) t) as [x4 Hx4]; [by eexists|].
  eapply safe_bind.
  { eapply (lift_step w4 t x4 (set_tstate TASK_RUNNING x4)); [apply H04|done| |by intros []|done|done].
    unfold ttwu_do_wakeup. task_ops. }
  next w5 H5. assert (H05 : kept w w5) by by eapply kept_trans.
  eapply safe_mono; [apply (task_woken_step contend fuel w5 c t Hpol (proj1 H05))| |].
  - eapply kept_rq; [done|by eexists].
  - eapply kept_rt; [done|by eexists].
  - by apply kept_starved.
  - intros ? w6. by apply kept_trans.
Qed.

(** ** Going to sleep *)

Lemma sleep_step w c r p x fatal :
  rt_inv w -> rqs w !! c = Some r -> rts w !! curr r = Some p -> tasks (krn w) !! curr r = Some x ->
  on_rq x = true -> runs (schedule_out_rt fatal c) w (fun _ w' => kept w w').
Proof.
  intros Hi Hr Hp Hx Ho. destruct (curr_some w c r Hi Hr) as (q & x' & Hq & Hx' & Hcpu). simplify_eq.
  pose proof (repr_rq_back w _ _ r (proj1 Hi) Hr) as Hv. pose proof (repr_rt_back w _ _ p (proj1 Hi) Hp) as Hpv.
  unfold schedule_out_rt. eapply runs_read; [by apply cpu_rq_eq|].
  eapply runs_read; [by apply (lift_get_run w _ _ x (proj1 Hi))|].
  destruct (negb _ && negb _) eqn:Eb; cbn [when].
  - eapply runs_bind.
    { eapply runs_bind; [|next w2 H2; apply (dequeue_task_rt_ok w2 _ _ _ _ _ H2 Hv Hpv)].
      by apply (runs_calm _ w _ (proj1 Hi)), (update_rq_clock_calm _ r). }
    next w3 H3.
    destruct (sys_task_run (krn w) (curr r) (schedule_out fatal (curr r)) x tt (slept fatal x)
      (vo_sys _ _ (proj2 Hi)) Hx (schedule_out_op _ _ _ _)) as (k & Ek & Hk & Htk); [intros; by apply slept_ok|].
    eapply runs_mono; [by apply (runs_lift _ w3 _ tt k H3)|]. intros ? w4 [_ H4].
    assert (Hy : on_rq (slept fatal x) = false /\ tcpu (slept fatal x) = tcpu x).
    { apply andb_true_iff in Eb as [E1%negb_true_iff E2%negb_true_iff].
      unfold slept. rewrite E1, E2. split; [done|]. unfold dequeued. cbn. by destruct (_ && _). }
    eapply kept_repr; [done|exact H4| | | |].
    + eapply (view_sleep (abs w) (tcpu x) (rq_abs r) (curr r) (task_abs p) x (slept fatal x) k); try done; apply Hi || apply Hy.
    + cbn. rewrite dom_insert_L, dom_fmap_L. apply elem_of_dom_2 in Hr. set_solver.
    + apply class_abs.
    + intros u Hu. cbn. rewrite Htk, lookup_insert. by case_decide.
  - eapply runs_read; [done|].
    apply (lift_step w (curr r) x (slept fatal x)); [done|done|apply schedule_out_op|intros; by apply slept_ok| |].
    all: unfold slept; destruct (tstate x =? 0); [done|]; cbn in Eb; apply negb_false_iff in Eb; by rewrite Eb.
Qed.

(** ** Switching *)

Definition idle_run (c : nat) (run : nat -> option nat) (o : option nat) (e : nat) : option nat :=
  if decide (e = c) then o else run e.

(** the current task, whose data is [p], is put back *)
Definition v_put_prev p v : rq_view :=
  if bool_decide (class p = rt_class) &&
     (bool_decide (v_curr v ∈ concat (v_queue v)) && (1 <? nr_cpus_allowed p))
  then v_pushable true (v_curr v) v else v.

(** while the next task is chosen nobody runs, and all that may migrate is pushable *)
Lemma view_put_prev a c v p :
  view_ok (running a) a -> v_rqs a !! c = Some v -> v_rts a !! v_curr v = Some p ->
  view_ok (idle_run c (running a) None) (v_upd c (v_put_prev p v) a) /\ v_curr (v_put_prev p v) = v_curr v.
Proof.
  intros Ha Hv Hp. set (v' := v_put_prev p v). unfold v_put_prev in v'. set (t := v_curr v) in *.
  assert (Et : v_curr v = t) by done. clearbody t.
  assert (Hqc : v_queue v' = v_queue v /\ v_curr v' = v_curr v) by (unfold v'; by destruct (_ && _)).
  destruct Hqc as [Hq Hc]. split; [|congruence].
  assert (Hpu : forall u, u ∈ v_push v' <-> u ∈ concat (v_queue v) /\ is_migratory (v_rts a) u = true).
  { intros u. pose proof (vo_push _ _ Ha c v u Hv) as Hu. unfold running in Hu. rewrite Hv in Hu. cbn in Hu.
    destruct (decide (u = t)) as [->|Hne].
    - assert (Hmig : is_migratory (v_rts a) t = (1 <? nr_cpus_allowed p)) by (unfold is_migratory; by rewrite Hp).
      assert (Hrt : t ∈ concat (v_queue v) -> class p = rt_class).
      { intros (p' & ? & Hp' & _ & Hcl & _)%(vo_place _ _ Ha c v t Hv). congruence. }
      unfold v'. case_bool_decide as Hcl; cbn; [|naive_solver].
      case_bool_decide as Hin; cbn; [|naive_solver]. rewrite Hmig. destruct (1 <? nr_cpus_allowed p); cbn.
      + rewrite elem_of_union, elem_of_singleton. tauto.
      + naive_solver.
    - assert (Hu' : u ∈ v_push v' <-> u ∈ v_push v).
      { unfold v'. destruct (_ && _); [|done]. cbn. rewrite elem_of_union, elem_of_singleton. tauto. }
      rewrite Hu', Hu. split; [tauto|]. intros [? ?]. split_and!; [done|done|congruence]. }
  eapply (near_ok t (running a)); [done| |].
  - apply (near_upd t _ _ a c v v' (v_krn a)); try done; [apply Ha| |by rewrite Hq|].
    + intros e u Hu. unfold idle_run. case_decide as E; [subst e|done]. unfold running. rewrite Hv. cbn.
      split; [done|]. intros [= E]. congruence.
    + intros u Hu. rewrite Hq. split; [done|]. unfold v'. destruct (_ && _); [|done]. cbn.
      rewrite elem_of_union, elem_of_singleton. tauto.
  - pose proof (task_at_of t _ _ Ha) as [T1 T2 T3 T4]. split.
    + intros e ve. cbn. rewrite lookup_insert. case_decide; [subst; intros [= <-]; rewrite Hq|]; by apply T1.
    + intros e ve. unfold idle_run. cbn. rewrite lookup_insert. case_decide as E.
      * subst e. intros [= <-]. rewrite decide_True by done. rewrite Hq, Hpu. naive_solver.
      * rewrite decide_False by done. by apply T2.
    + intros e ve. cbn. rewrite lookup_insert. case_decide; [subst; intros [= <-]; rewrite Hc|]; by apply T3.
    + intros q Hq'. destruct (T4 q Hq') as (? & ? & ?). split_and!; try done. cbn. rewrite dom_insert_L. set_solver.
Qed.

Lemma view_pick a c v run n :
  view_ok (idle_run c run None) a -> v_rqs a !! c = Some v ->
  view_ok (idle_run c run (Some n)) (v_upd c (v_pushable false n v) a).
Proof.
  intros Ha Hv. eapply (near_ok n (idle_run c run None)); [done| |].
  - apply (near_upd n _ _ a c v _ (v_krn a)); try done; [apply Ha| |].
    + intros e u Hu. unfold idle_run. case_decide; [|done]. split; [intros [= E]; by destruct Hu|done].
    + intros u Hu. split; [done|]. cbn. rewrite elem_of_difference, elem_of_singleton. tauto.
  - pose proof (task_at_of n _ _ Ha) as [T1 T2 T3 T4]. split.
    + intros e ve. cbn. rewrite lookup_insert. case_decide; [subst; intros [= <-]; cbn|]; by apply T1.
    + intros e ve. cbn. rewrite lookup_insert. case_decide as E.
      * subst e. intros [= <-]. unfold idle_run. rewrite decide_True by done. cbn.
        rewrite elem_of_difference, elem_of_singleton. naive_solver.
      * intros He. rewrite (T2 e ve He). unfold idle_run. by rewrite !decide_False by done.
    + intros e ve. cbn. rewrite lookup_insert. case_decide; [subst; intros [= <-]; cbn|]; by apply T3.
    + intros q Hq'. destruct (T4 q Hq') as (? & ? & ?). split_and!; try done. cbn. rewrite dom_insert_L. set_solver.
Qed.
End Steps.
