(* ===== verification/RtParam.v ===== *)
(** * The real-time class: context switches, ticks and changes of parameters *)

From S2P Require Import Prelude Wait Tasklet Cmgroup Sched CmInv CmTask CmSys RtRq RtPush RtInv RtQueue RtExec RtOps RtBalance RtStep.
Local Open Scope Z_scope.

Section Switch.
Context {RL : RtLib} {LL : RtLaws RL}.
Implicit Types (w : rtw) (a : view) (v : rq_view) (p : rt_task) (x : task_struct) (c d t : nat).

(** ** Switching *)

(** tasks change only whether they are on a CPU *)
Definition on_cpu_only (m m' : gmap nat rt_task) : Prop :=
  forall t, match m !! t, m' !! t with
            | Some p, Some p' => p' = set_on_cpu (on_cpu p') p
            | None, None => True
            | _, _ => False
            end.

Lemma on_cpu_only_lookup m m' t p' :
  on_cpu_only m m' -> m' !! t = Some p' -> exists p, m !! t = Some p /\ p' = set_on_cpu (on_cpu p') p.
Proof. intros H Hp. specialize (H t). rewrite Hp in H. destruct (m !! t); [eauto|done]. Qed.

Lemma on_cpu_only_migratory m m' t : on_cpu_only m m' -> is_migratory m' t = is_migratory m t.
Proof.
  intros H. specialize (H t). unfold is_migratory. destruct (m !! t), (m' !! t); try done. by rewrite H.
Qed.

Lemma on_cpu_only_back m m' t p :
  on_cpu_only m m' -> m !! t = Some p -> exists p', m' !! t = Some p' /\ p' = set_on_cpu (on_cpu p') p.
Proof. intros H Hp. specialize (H t). rewrite Hp in H. destruct (m' !! t); [eauto|done]. Qed.

Lemma on_cpu_only_class m m' : on_cpu_only m m' -> class <$> m' = class <$> m.
Proof.
  intros H. apply map_eq. intros t. specialize (H t). rewrite !lookup_fmap.
  destruct (m !! t), (m' !! t); try done. by rewrite H.
Qed.

Lemma view_switch run a c v n ts x :
  view_ok run a -> v_rqs a !! c = Some v -> on_cpu_only (v_rts a) ts ->
  tasks (v_krn a) !! n = Some x -> tcpu x = c -> (exists p, ts !! n = Some p /\ on_cpu p = true) ->
  (forall t, t <> v_curr v -> t <> n -> ts !! t = v_rts a !! t) ->
  view_ok run (View (<[c := set_v_curr n v]> (v_rqs a)) ts (v_krn a)).
Proof.
  intros Ha Hv Hts Hx Hc Hn Hother.
  assert (Hb : forall e ve, <[c := set_v_curr n v]> (v_rqs a) !! e = Some ve -> exists v0, v_rqs a !! e = Some v0 /\
    v_queue ve = v_queue v0 /\ v_push ve = v_push v0 /\
    v_curr ve = if decide (e = c) then n else v_curr v0).
  { intros e ve. rewrite lookup_insert. case_decide; [subst; intros [= <-]; exists v; by rewrite decide_True|].
    intros He. exists ve. by rewrite decide_False. }
  pose proof Ha as [V1 V2 V3 V4 V5 V6]. split; try done.
  - intros e ve (v0 & H0 & -> & _)%Hb. by eapply V1.
  - intros e ve u (v0 & H0 & -> & _)%Hb. rewrite (V2 e v0 u H0). cbn. split.
    + intros (p & y & Hp & Hy & Hcl & ? & ?). destruct (on_cpu_only_back _ _ _ _ Hts Hp) as (p' & Hp' & E).
      exists p', y. split_and!; try done. by rewrite E.
    + intros (p' & y & Hp' & Hy & Hcl & ? & ?). destruct (on_cpu_only_lookup _ _ _ _ Hts Hp') as (p & Hp & E).
      exists p, y. split_and!; try done. by rewrite E in Hcl.
  - intros e ve u (v0 & H0 & -> & -> & _)%Hb. cbn. rewrite (on_cpu_only_migratory _ _ u Hts). by apply V3.
  - intros e ve (v0 & H0 & _ & _ & ->)%Hb. cbn. case_decide as E.
    + subst e. destruct Hn as (p & Hp & Ho). by exists p, x.
    + destruct (V4 e v0 H0) as (p & y & Hp & Hy & Ho & Hcy).
      destruct (decide (v_curr v0 = n)) as [En|Hne]; [rewrite En in *; congruence|].
      assert (v_curr v0 <> v_curr v).
      { intros Ev. destruct (V4 c v Hv) as (? & y' & _ & Hy' & _ & ?). rewrite Ev in *. congruence. }
      exists p, y. rewrite Hother by done. done.
  - intros u p' Hp'. destruct (on_cpu_only_lookup _ _ _ _ Hts Hp') as (p & Hp & E). destruct (V5 u p Hp) as (? & ? & ?).
    cbn. rewrite dom_insert_L. rewrite E. split_and!; try done. cbn. set_solver.
Qed.

Lemma put_on_cpu w a t p b :
  repr w a -> rts w !! t = Some p ->
  repr (with_rt t (set_on_cpu b p) w) (View (v_rqs a) (<[t := set_on_cpu b (task_abs p)]> (v_rts a)) (v_krn a)).
Proof.
  intros Hr Hp. apply (repr_put_rt w a t p (set_on_cpu b p) Hr Hp).
  intros c r Hrc. eapply rq_ok_ext; [|by apply (arr_rqs w (rp_arr _ _ Hr) c)].
  intros u q Hq. destruct (decide (u = t)) as [->|Hne]; [|exists q; by rewrite lookup_insert_ne].
  exists (set_on_cpu b p). rewrite lookup_insert_eq. simplify_eq. done.
Qed.

(** the task of another class that takes the CPU *)
Definition foreign a c t : Prop :=
  exists p x, v_rts a !! t = Some p /\ tasks (v_krn a) !! t = Some x /\ class p <> rt_class /\ tcpu x = c.

Lemma foreign_not_pushable run a c v t :
  foreign a c t -> view_ok run a -> v_rqs a !! c = Some v -> v_pushable false t v = v.
Proof.
  intros (p & x & Hp & Hx & Hcl & _) Ha Hv. unfold v_pushable, set_v_push. destruct v as [Q P cu idl on sdl].
  cbn. f_equal. apply difference_disjoint_L, disjoint_singleton_r. intros [Hq _]%(vo_push _ _ Ha c _ t Hv).
  apply (vo_place _ _ Ha c _ t Hv) in Hq as (q & ? & Hq & _ & Hq' & _). congruence.
Qed.

(** choosing the next task, after the previous one has been put back *)
Lemma choose_next w a c v run hi lo :
  repr w a -> view_ok (idle_run c run None) a -> v_rqs a !! c = Some v ->
  (forall t, hi = Some t -> foreign a c t) -> foreign a c lo ->
  runs (match hi with
        | Some t => mret t
        | None => n ← pick_next_task_rt c; mret (match n with Some t => t | None => lo end)
        end) w
    (fun n w' => repr w' (v_upd c (v_pushable false n v) a) /\
       exists p x, v_rts a !! n = Some p /\ tasks (v_krn a) !! n = Some x /\ tcpu x = c).
Proof.
  intros Hr Ha Hv Hhi Hlo.
  assert (Hf : forall t, foreign a c t -> v_upd c (v_pushable false t v) a = a /\
    exists p x, v_rts a !! t = Some p /\ tasks (v_krn a) !! t = Some x /\ tcpu x = c).
  { intros t Ht. rewrite (foreign_not_pushable _ a c v t Ht Ha Hv), (v_upd_id c v a Hv). split; [done|].
    destruct Ht as (p & x & ? & ? & _ & ?). by exists p, x. }
  destruct hi as [t|]; [apply runs_ret; destruct (Hf t (Hhi t eq_refl)) as [-> ?]; done|].
  destruct (repr_rq w a c v Hr Hv) as (r & Hrq & E).
  eapply runs_bind; [by apply (pick_next_task_rt_ok w a c v r)|]. cbv zeta. intros o w1 [-> H1].
  destruct (rt_throttled (rt r)); [|destruct (v_first v) as [t|] eqn:Ef].
  - apply runs_ret. by destruct (Hf lo Hlo) as [-> ?].
  - apply runs_ret. split; [done|]. assert (Hin : t ∈ concat (v_queue v)).
    { unfold v_first in Ef. destruct (concat (v_queue v)); [done|]. injection Ef as ->. by left. }
    apply (vo_place _ _ Ha c v t Hv) in Hin as (p & x & ? & ? & _ & _ & ?). by exists p, x.
  - apply runs_ret. by destruct (Hf lo Hlo) as [-> ?].
Qed.

Lemma runs_on_cpu w a t p b :
  repr w a -> rts w !! t = Some p ->
  runs (put_rt t (set_on_cpu b p)) w (fun _ w' =>
    repr w' (View (v_rqs a) (<[t := set_on_cpu b (task_abs p)]> (v_rts a)) (v_krn a))).
Proof. intros Hr Hp. exists tt, (with_rt t (set_on_cpu b p) w). split; [done|]. by apply put_on_cpu. Qed.

Lemma runs_set_curr w a c r t :
  repr w a -> rqs w !! c = Some r -> is_Some (rts w !! t) ->
  runs (put_rq c (set_curr t r)) w (fun _ w' => repr w' (v_upd c (set_v_curr t (rq_abs r)) a)).
Proof. intros Hr Hrq Ht. exists tt, (with_rq c (set_curr t r) w). split; [done|]. by apply repr_set_curr. Qed.

(** the context switch itself *)
Lemma switch_to_ok w a c v n run p0 x0 :
  repr w a -> view_ok (idle_run c run (Some n)) a -> v_rqs a !! c = Some v ->
  v_rts a !! n = Some p0 -> tasks (v_krn a) !! n = Some x0 -> tcpu x0 = c ->
  runs (if decide (v_curr v = n) then mret tt
        else
          r ← cpu_rq c; put_rq c (set_curr n r) ;;
          q ← get_rt n; put_rt n (set_on_cpu true q) ;;
          p ← get_rt (v_curr v); put_rt (v_curr v) (set_on_cpu false p)) w
    (fun _ w' => exists a', repr w' a' /\ view_ok (idle_run c run (Some n)) a' /\
       v_krn a' = v_krn a /\ on_cpu_only (v_rts a) (v_rts a') /\
       exists v', v_rqs a' = <[c := v']> (v_rqs a) /\ v_curr v' = n).
Proof.
  intros Hr Ha Hv Hn Hx Hc. destruct (decide (v_curr v = n)) as [E|Hne].
  { apply runs_ret. exists a. split_and!; try done; [intros t; by destruct (v_rts a !! t) as [[] |]|].
    exists v. by rewrite insert_id. }
  destruct (repr_rq w a c v Hr Hv) as (r & Hrq & Ev). destruct (repr_rt w a n p0 Hr Hn) as (q & Hq & Eq).
  destruct (vo_curr _ _ Ha c v Hv) as (p1 & x1 & Hp1 & _).
  eapply runs_read; [by apply cpu_rq_eq|].
  eapply runs_bind; [apply (runs_set_curr w a c r n Hr Hrq); by eexists|].
  next w1 H1. rewrite Ev in H1. set (a1 := v_upd c (set_v_curr n v) a) in *.
  destruct (repr_rt w1 a1 n p0 H1 Hn) as (q1 & Hq1 & Eq1). eapply runs_read; [by apply get_rt_eq|].
  eapply runs_bind; [by apply (runs_on_cpu w1 a1 n q1 true)|].
  next w2 H2. rewrite Eq1 in H2. set (a2 := View _ _ _) in H2.
  assert (Hp2 : v_rts a2 !! v_curr v = Some p1) by (cbn; by rewrite lookup_insert_ne).
  destruct (repr_rt w2 a2 _ p1 H2 Hp2) as (q2 & Hq2 & Eq2). eapply runs_read; [by apply get_rt_eq|].
  eapply runs_mono; [by apply (runs_on_cpu w2 a2 (v_curr v) q2 false)|]. next w3 H3. rewrite Eq2 in H3.
  eexists. split; [exact H3|]. cbn.
  assert (Hon : on_cpu_only (v_rts a) (<[v_curr v := set_on_cpu false p1]> (<[n := set_on_cpu true p0]> (v_rts a)))).
  { intros t. rewrite !lookup_insert. destruct (decide (v_curr v = t)) as [<-|]; [by rewrite Hp1; destruct p1|].
    destruct (decide (n = t)) as [<-|]; [by rewrite Hn; destruct p0|]. by destruct (v_rts a !! t) as [[] |]. }
  split_and!; [|done|done|by exists (set_v_curr n v)].
  eapply view_switch; try done.
  - exists (set_on_cpu true p0). rewrite lookup_insert_ne by done. by rewrite lookup_insert_eq.
  - intros t H4 H5. by rewrite !lookup_insert_ne.
Qed.

Lemma switch_step w c r hi lo :
  rt_inv w -> rqs w !! c = Some r ->
  (forall t, hi = Some t -> foreign (abs w) c t) -> foreign (abs w) c lo ->
  runs (switch_rt hi lo c) w (fun _ w' => kept w w').
Proof.
  intros Hi Hr Hhi Hlo. destruct (curr_some w c r Hi Hr) as (q & x & Hq & Hx & _).
  pose proof (repr_rq_back w _ c r (proj1 Hi) Hr) as Hv. pose proof (repr_rt_back w _ _ q (proj1 Hi) Hq) as Hqv.
  unfold switch_rt. eapply runs_read; [by apply cpu_rq_eq|]. cbv zeta. eapply runs_read; [by apply get_rt_eq|].
  eapply runs_read; [by apply (task_on_rq_run w _ _ x (proj1 Hi))|].
  eapply runs_bind.
  { apply (runs_calm _ w _ (proj1 Hi)), calms_when. intros _. by apply (update_rq_clock_calm c r). }
  next w1 H1. destruct (view_put_prev (abs w) c (rq_abs r) (task_abs q) (proj2 Hi) Hv Hqv) as (Ha1 & Ec1).
  set (v1 := v_put_prev (task_abs q) (rq_abs r)) in *. set (a1 := v_upd c v1 (abs w)) in Ha1.
  eapply (runs_bind _ _ _ (fun _ w' => repr w' a1)).
  { unfold a1, v1, v_put_prev. cbn [class task_abs v_curr rq_abs nr_cpus_allowed]. case_bool_decide as Hcl; cbn [when andb].
    - apply (put_prev_task_rt_ok w1 _ c _ (curr r) (task_abs q) H1 Hv Hqv). intros Hin.
      split_and!; [done|done|by apply (vo_task _ _ (proj2 Hi) _ _ Hqv)..].
    - apply runs_ret. by rewrite v_upd_id. }
  next w2 H2. eapply runs_bind; [apply (choose_next w2 a1 c v1 (running (abs w)) hi lo H2 Ha1); [apply v_upd_lookup|done|done]|].
  intros n w3 (H3 & p0 & x0 & Hp0 & Hx0 & Hc0). set (v3 := v_pushable false n v1) in H3. set (a3 := v_upd c v3 a1) in H3.
  assert (Ha3 : view_ok (idle_run c (running (abs w)) (Some n)) a3) by (apply view_pick; [done|apply v_upd_lookup]).
  destruct (repr_rt w3 a3 (curr r) _ H3 Hqv) as (q3 & Hq3 & _). eapply runs_read; [by apply get_rt_eq|].
  eapply runs_bind; [apply (runs_calm _ w3 _ H3); by eapply calms_put_rt|]. next w4 H4.
  destruct (repr_rq w4 a3 c v3 H4 (v_upd_lookup _ _ _)) as (r4 & Hr4 & _).
  eapply runs_read; [by apply cpu_rq_eq|].
  eapply runs_bind; [apply (runs_calm _ w4 _ H4); by eapply calms_put_rq|]. next w5 H5.
  replace (curr r) with (v_curr v3) by exact Ec1.
  eapply runs_mono; [by apply (switch_to_ok w5 a3 c v3 n (running (abs w)) p0 x0 H5 Ha3 (v_upd_lookup _ _ _))|].
  intros ? w6 (a6 & H6 & Ha6 & Ek & Eo & v6 & Er & Ec6).
  eapply kept_repr; [done|exact H6| | | |].
  - eapply view_ok_run; [|exact Ha6]. intros e. unfold running, idle_run. rewrite Er. cbn. rewrite lookup_insert.
    case_decide as E; [subst e|]; [rewrite decide_True by done; cbn; congruence|].
    rewrite decide_False, !lookup_insert_ne by done. done.
  - rewrite Er. cbn. rewrite !dom_insert_L, dom_fmap_L. apply elem_of_dom_2 in Hr. set_solver.
  - rewrite (on_cpu_only_class _ _ Eo). apply class_abs.
  - intros t Ht. by rewrite Ek.
Qed.
End Switch.

(** ** The real-time class: ticks, the period timer, affinity and priority *)

Section Param.
Context {RL : RtLib} {LL : RtLaws RL}.
Implicit Types (w : rtw) (a : view) (v : rq_view) (p : rt_task) (x : task_struct) (c d t : nat).

(** ** Ticks *)

Lemma watchdog_calm HZ t w : is_Some (rts w !! t) -> calms (watchdog HZ t) w.
Proof.
  intros [p Hp]. unfold watchdog. eapply calms_read; [by apply get_rt_eq|]. apply calms_get.
  destruct (rttime p) as [soft hard]. destruct (soft =? RLIM_INFINITY); [apply calms_ret|].
  eapply calms_put_rt; [done|]. destruct (negb _); cbv zeta; by destruct (_ <? _).
Qed.

Lemma tick_step HZ w c t :
  rt_inv w -> is_Some (rqs w !! c) -> is_Some (rts w !! t) ->
  runs (task_tick_rt HZ c t) w (fun _ w' => kept w w').
Proof.
  intros Hi Hc Ht. unfold task_tick_rt.
  apply runs_then; [apply runs_calms; [done|]; by apply update_curr_rt_calm; [apply Hi|]|].
  intros ? w1 H1. apply runs_then; [apply runs_calms; [apply H1|]; by apply watchdog_calm, (kept_rt w)|].
  intros ? w2 H2. assert (H02 : kept w w2) by by eapply kept_trans.
  destruct (kept_rt w w2 t H02 Ht) as [p Hp]. eapply runs_read; [by apply get_rt_eq|].
  destruct (negb _); [by apply runs_ret, kept_refl, H02|]. cbv zeta.
  set (p1 := set_time_slice _ p).
  eapply (runs_bind _ _ _ (fun _ w' => w' = with_rt t p1 w2)); [by exists tt, (with_rt t p1 w2)|].
  intros ? w3 ->. set (w3 := with_rt t p1 w2).
  assert (H3 : kept w2 w3) by (apply kept_calm; [apply H02|]; by eapply calm_with_rt).
  assert (Hp3 : rts w3 !! t = Some p1) by apply with_rt_lookup.
  destruct (negb _); [by apply runs_ret|]. eapply runs_read; [done|].
  eapply runs_mono; [|intros ? w' H'; eapply kept_trans; [exact H3|exact H']].
  apply runs_then; [apply runs_calms; [apply H3|]; by eapply calms_put_rt|].
  intros ? w4 H4. assert (H04 : kept w w4) by (eapply kept_trans; [exact H02|]; by eapply kept_trans).
  destruct (kept_rq w w4 c H04 Hc) as [r4 Hr4]. eapply runs_read; [by apply rt_rq_of_eq|].
  destruct (has_neighbours _ _); [|by apply runs_ret, kept_refl, H04].
  apply runs_then; [apply requeue_step; [apply H04|by eexists|by apply (kept_rt w)]|].
  intros ? w5 H5. assert (H05 : kept w w5) by by eapply kept_trans.
  destruct (kept_rt w w5 t H05 Ht) as [p5 Hp5]. eapply runs_read; [by apply get_rt_eq|].
  apply runs_calms; [apply H05|]. by eapply calms_put_rt.
Qed.

(** ** The period timer *)

Lemma rt_period_cpu_calm n c w : wf w -> is_Some (rqs w !! c) -> calms (rt_period_cpu n c) w.
Proof.
  intros Hw Hc. unfold rt_period_cpu. apply calms_rt_rq_of; [done|]. intros r Hr.
  apply calms_bind.
  - destruct (negb (rt_time _ =? 0)); [|destruct (negb _); apply calms_ret].
    apply calms_bind.
    { destruct (rt_throttled _); [|apply calms_ret].
      apply calms_bind; [by apply balance_runtime_calm|]. intros; apply calms_ret. }
    intros ? w1 _ H1. apply calms_rt_rq_of; [by eapply calm_is_some|]. intros r1 Hr1. cbv zeta.
    apply calms_bind; [eapply calms_put_rt_rq; [done|]; by destruct (_ && _)|].
    intros ? w2 _ H2. destruct (calm_is_some w w2 c) as [r2 Hr2]; [by trans w1|done|].
    eapply calms_read; [by apply cpu_rq_eq|]. apply calms_bind; [|intros; apply calms_ret].
    apply calms_when. intros _. by eapply calms_put_rq.
  - intros ie w1 _ H1. apply calms_rt_rq_of; [by eapply calm_is_some|]. intros r1 Hr1.
    apply calms_bind; [|intros; apply calms_ret]. apply calms_when. intros _.
    unfold sched_rt_rq_enqueue. eapply calms_read; [by apply cpu_rq_eq|]. apply calms_when. intros _.
    apply resched_task_calm. apply (fun Hw1 => wf_curr w1 Hw1 c r1 Hr1). by eapply wf_calm.
Qed.

Lemma rt_period_cpus_calm n l i b w :
  wf w -> (forall c, c ∈ l -> is_Some (rqs w !! c)) -> calms (rt_period_cpus n l i b) w.
Proof.
  revert i b w. induction l as [|c l IH]; intros i b w Hw Hl; cbn [rt_period_cpus]; [apply calms_ret|].
  apply calms_bind; [apply rt_period_cpu_calm; [done|apply Hl; by left]|].
  intros it w1 _ H1. apply IH; [by eapply wf_calm|]. intros e He. eapply calm_is_some; [done|]. apply Hl. by right.
Qed.

Lemma period_timer_calm l i w : wf w -> calms (sched_rt_period_timer l i) w.
Proof.
  revert i w. induction l as [|n l IH]; intros i w Hw; cbn [sched_rt_period_timer].
  { eexists _, _. split; [done|]. apply calm_rt_b. }
  apply calms_bind.
  - unfold do_sched_rt_period_timer. apply calms_get. apply calms_bind.
    { apply rt_period_cpus_calm; [done|]. intros c Hc%elem_of_for_each_cpu. by apply (wf_mask w). }
    intros it w1 _ H1. apply calms_get. destruct (_ && _); apply calms_ret.
  - intros b w1 _ H1. apply IH. by eapply wf_calm.
Qed.

(** ** Affinity *)

Lemma repr_sync_task w a c r r' t p p' :
  repr w a -> rqs w !! c = Some r -> online r' = online r -> curr r' = curr r -> rts w !! t = Some p ->
  rq_ok (<[t := p']> (rts w)) (rt r') ->
  (forall d rd, d <> c -> rqs w !! d = Some rd -> rq_ok (<[t := p']> (rts w)) (rt rd)) ->
  repr (with_rt t p' (sync c r r' w))
    (View (<[c := rq_abs r']> (v_rqs a)) (<[t := task_abs p']> (v_rts a)) (v_krn a)).
Proof.
  intros [Ha [W1 W2 W3] Ea] Hr Hon Hc Ht Hok Hother. split.
  - unfold with_rt. apply sync_tasks_ok; try done. by rewrite map_size_insert_Some by by eexists.
  - assert (Hi : forall d, is_Some (rqs w !! d) -> is_Some (<[c := r']> (rqs w) !! d)).
    { intros d Hd. rewrite lookup_insert. by case_decide. }
    assert (Hj : forall u, is_Some (rts w !! u) -> is_Some (<[t := p']> (rts w) !! u)).
    { intros u Hu. rewrite lookup_insert. by case_decide. }
    split; cbn.
    + intros d r0. rewrite lookup_insert. case_decide; [intros [= <-]; rewrite Hc|]; eauto.
    + intros d Hd. apply Hi, W2. revert Hd. unfold rd_over. by destruct (online r), (overloaded (rt r)), (overloaded (rt r')).
    + intros d Hd. by apply Hi, W3.
  - rewrite <- Ea. unfold abs. cbn. by rewrite !fmap_insert.
Qed.

(** a task with another affinity *)
Definition with_mask (m : gset nat) p : rt_task :=
  set_nr_cpus_allowed (cpumask_weight m) (set_cpus_allowed m p).

Lemma count_migratory ts t p p' (l : list nat) :
  NoDup l -> t ∈ l -> ts !! t = Some p ->
  Z.of_nat (length (filter (fun u => is_migratory (<[t := p']> ts) u = true) l)) =
  Z.of_nat (length (filter (fun u => is_migratory ts u = true) l))
    - b2z (1 <? nr_cpus_allowed p) + b2z (1 <? nr_cpus_allowed p').
Proof.
  intros Hl Ht Hp. pose proof (remove_perm l t Hl Ht) as HP. set (l' := filter (fun u => u <> t) l) in *.
  rewrite HP. rewrite !filter_migratory_cons, Hp, lookup_insert_eq.
  rewrite (filter_bool_ext (is_migratory (<[t := p']> ts)) (is_migratory ts) l').
  - destruct (1 <? nr_cpus_allowed p), (1 <? nr_cpus_allowed p'); cbn [length b2z]; lia.
  - intros u [Hu _]%list_elem_of_filter. unfold is_migratory. by rewrite lookup_insert_ne.
Qed.

Lemma rq_ok_affinity ts y t p p' n :
  rq_ok ts y -> ts !! t = Some p -> t ∈ concat (queue y) -> prio p' = prio p -> class p' = class p ->
  n = rt_nr_migratory y - b2z (1 <? nr_cpus_allowed p) + b2z (1 <? nr_cpus_allowed p') ->
  rq_ok (<[t := p']> ts) (set_over (set_rt_nr_migratory n y)).
Proof.
  intros Hy Ht Hin Hp Hc Hn.
  assert (Hl : forall u q, ts !! u = Some q -> exists q', <[t := p']> ts !! u = Some q' /\ prio q' = prio q /\ class q' = class q).
  { intros u q Hq. destruct (decide (u = t)) as [->|Hne]; [|exists q; by rewrite lookup_insert_ne].
    exists p'. rewrite lookup_insert_eq. simplify_eq. done. }
  split; rtproj; try apply Hy; try done.
  - intros i q u Hi Hu. destruct (ok_prio _ _ Hy i q u Hi Hu) as (z & Hz & ? & ?).
    destruct (Hl u z Hz) as (z' & ? & ? & ?). exists z'. split_and!; congruence.
  - rewrite Hn, (ok_migratory _ _ Hy). symmetry. by apply count_migratory; [apply Hy|..].
  - intros i u Hu. destruct (ok_pprio _ _ Hy i u Hu) as (z & Hz & ?).
    destruct (Hl u z Hz) as (z' & ? & ? & ?). exists z'. split; congruence.
Qed.

(** on the CPUs where the task is not, nothing changes *)
Lemma rq_ok_elsewhere w c d r t p x p' :
  rt_inv w -> rqs w !! d = Some r -> rts w !! t = Some p -> tasks (krn w) !! t = Some x ->
  class p <> rt_class \/ on_rq x = false \/ tcpu x <> d -> rq_ok (<[t := p']> (rts w)) (rt r).
Proof.
  intros [Hr Ha] Hrd Hp Hx Hn. pose proof (repr_rq_back w _ d r Hr Hrd) as Hv.
  assert (Hq : t ∉ concat (queue (rt r))).
  { intros (q & y & Hq & Hy & Hcl & Ho & Hc)%(vo_place _ _ Ha d _ t Hv).
    rewrite (repr_rt_back w _ t p Hr Hp) in Hq. cbn in Hy. simplify_eq. cbn in Hcl. destruct Hn as [?|[?|?]]; congruence. }
  apply rq_ok_task; [done| |by apply (arr_rqs w (rp_arr _ _ Hr) d)].
  intros Hl. apply Hq. by apply (vo_push _ _ Ha d _ t Hv), elem_of_list_to_set.
Qed.

Lemma view_affinity a c v v' t p m :
  view_ok (running a) a -> v_rqs a !! c = Some v -> v_rts a !! t = Some p -> m ⊆ dom (v_rqs a) ->
  v_queue v' = v_queue v -> v_curr v' = v_curr v -> (forall u, u <> t -> u ∈ v_push v' <-> u ∈ v_push v) ->
  (t ∈ v_push v' <-> t ∈ concat (v_queue v) /\ 1 < cpumask_weight m /\ v_curr v <> t) ->
  (forall e ve, e <> c -> v_rqs a !! e = Some ve -> t ∉ concat (v_queue ve)) ->
  let a' := View (<[c := v']> (v_rqs a)) (<[t := with_mask m p]> (v_rts a)) (v_krn a) in
  view_ok (running a') a'.
Proof.
  intros Ha Hv Hp Hm Hq Hc Hpu Hpt Hel a'.
  assert (Hrun : forall e, running a' e = running a e).
  { intros e. unfold running, a'. cbn. rewrite lookup_insert. case_decide; [subst e; rewrite Hv; cbn; congruence|done]. }
  eapply view_ok_run; [exact Hrun|]. eapply (near_ok t (running a)); [done| |].
  - split; try done.
    + intros u Hu. cbn. by rewrite lookup_insert_ne.
    + cbn. rewrite dom_insert_L. apply elem_of_dom_2 in Hv. set_solver.
    + intros e ve. cbn. rewrite lookup_insert. case_decide; [subst e; intros [= <-]; exists v; rewrite Hq|].
      * split_and!; try done. intros u Hu. by split; [|apply Hpu].
      * intros He. by exists ve.
    + apply Ha.
  - pose proof (task_at_of t _ _ Ha) as [T1 T2 T3 T4]. split; cbn.
    + intros e ve. rewrite lookup_insert. intros He. assert (exists v0, v_rqs a !! e = Some v0 /\ v_queue ve = v_queue v0) as (v0 & H0 & ->).
      { revert He. case_decide; [subst; intros [= <-]; by exists v|intros; by exists ve]. }
      rewrite (T1 e v0 H0), lookup_insert_eq, Hp. split; intros (q & y & [= <-] & ?); eexists _, _; done.
    + intros e ve. rewrite lookup_insert. unfold is_migratory. rewrite lookup_insert_eq. cbn. rewrite Z.ltb_lt.
      case_decide as E; [subst e; intros [= <-]|intros He].
      * unfold running. rewrite Hv, Hq, Hpt. cbn. split; intros (? & ? & ?); split_and!; congruence.
      * pose proof (Hel e ve ltac:(done) He). split; [intros [? _]%(T2 e ve He); done|tauto].
    + intros e ve. rewrite lookup_insert, lookup_insert_eq. intros He E.
      assert (exists v0, v_rqs a !! e = Some v0 /\ v_curr ve = v_curr v0) as (v0 & H0 & Ec).
      { revert He. case_decide; [subst; intros [= <-]; by exists v|intros; by exists ve]. }
      rewrite Ec in E. destruct (T3 e v0 H0 E) as (q & y & Hq' & ? & ? & ?). simplify_eq. by exists (with_mask m p), y.
    + intros q. rewrite lookup_insert_eq. intros [= <-]. destruct (T4 p Hp) as (? & _ & _). split_and!; try done.
      cbn. rewrite dom_insert_L. set_solver.
Qed.

(** the run queue of a task whose affinity changes between one CPU and many *)
Definition affinity_rt t p m (running : bool) (x : rt_rq) : rt_rq :=
  let x := if running then x else if 1 <? cpumask_weight m then push_add t p x else push_del t x in
  set_over (set_rt_nr_migratory
    (u64 (rt_nr_migratory x - b2z (1 <? nr_cpus_allowed p) + b2z (1 <? cpumask_weight m))) x).

Lemma sync_pri w c r y :
  hp_curr y = hp_curr (rt r) ->
  set_rd (rd_over c (online r) (overloaded (rt r)) (overloaded y) (rd w)) (with_rq c (set_rt y r) w)
  = sync c r (set_rt y r) w.
Proof.
  intros E. unfold sync, pri_curr. cbn [rt set_rt]. rewrite E, Z.eqb_refl, andb_false_r. by destruct w.
Qed.

Lemma set_rt_id r : set_rt (rt r) r = r.
Proof. by destruct r. Qed.

(** the counter is changed, then the overload flag is brought up to date *)
Lemma update_after w c r y n m (z : rt_rq) :
  overloaded y = overloaded (rt r) -> hp_curr y = hp_curr (rt r) ->
  m w = Ret tt (with_rq c (set_rt (set_rt_nr_migratory n y) r) w) ->
  z = set_over (set_rt_nr_migratory n y) ->
  (m ;; update_rt_migration c) w = Ret tt (sync c r (set_rt z r) w).
Proof.
  intros Ho Hh Em ->. rewrite (bind_run m _ _ _ _ Em).
  erewrite update_rt_migration_eq by apply with_rq_lookup. cbn [rt set_rt online]. rewrite with_rq_rq.
  rewrite <- (sync_pri w c r (set_over (set_rt_nr_migratory n y))) by done. by rewrite <- Ho.
Qed.

Lemma minus_plus_bits n : n - b2z true + b2z false = n - 1.
Proof. cbn. lia. Qed.

Lemma plus_minus_bits n : n - b2z false + b2z true = n + 1.
Proof. cbn. lia. Qed.

Lemma set_cpus_allowed_eq w c r t p x m :
  rt_inv w -> rqs w !! c = Some r -> rts w !! t = Some p -> tasks (krn w) !! t = Some x ->
  class p = rt_class -> on_rq x = true -> tcpu x = c -> (1 <? nr_cpus_allowed p) <> (1 <? cpumask_weight m) ->
  set_cpus_allowed_rt t m w =
    Ret tt (sync c r (set_rt (affinity_rt t p m (bool_decide (curr r = t)) (rt r)) r) w).
Proof.
  intros Hi Hr Hp Hx Hcl Ho Hc Hne. pose proof Hi as [Hrp Ha].
  pose proof (arr_rqs w (rp_arr _ _ Hrp) c r Hr) as Hok.
  pose proof (repr_rt_back w _ t p Hrp Hp) as Hpv. destruct (vo_task _ _ Ha t _ Hpv) as (Hpr & _). specialize (Hpr Hcl). cbn in Hpr.
  assert (Hin : t ∈ concat (queue (rt r))).
  { apply (vo_place _ _ Ha c _ t (repr_rq_back w _ c r Hrp Hr)). exists (task_abs p), x. done. }
  assert (Hmig : 1 < nr_cpus_allowed p -> rt_nr_migratory (rt r) <> 0).
  { intros Hn. rewrite (ok_migratory _ _ Hok). assert (Hin' : t ∈ filter (fun u => is_migratory (rts w) u = true) (concat (queue (rt r)))).
    { apply list_elem_of_filter. split; [|done]. unfold is_migratory. rewrite Hp. by apply Z.ltb_lt. }
    destruct (filter _ _); [by apply elem_of_nil in Hin'|]. cbn. lia. }
  unfold set_cpus_allowed_rt. rewrite (bind_run _ _ _ _ _ (get_rt_eq t p w Hp)). unfold rt_prio.
  rewrite (proj2 (Z.ltb_lt (prio p) MAX_RT_PRIO)) by lia. cbn [negb BUG_ON]. rewrite (bind_run (mret tt) _ tt w w eq_refl).
  rewrite (bind_run _ _ _ _ _ (task_on_rq_run w _ t x Hrp Hx)), Ho. cbn [negb].
  rewrite bool_decide_eq_false_2 by done. rewrite (bind_run _ _ _ _ _ (task_cpu_run w _ t x Hrp Hx)), Hc.
  rewrite (bind_run _ _ _ _ _ (cpu_rq_eq c r w Hr)).
  unfold affinity_rt. destruct (Z.leb_spec (cpumask_weight m) 1) as [Hw|Hw].
  - assert (E1 : (1 <? cpumask_weight m) = false) by (apply Z.ltb_ge; lia).
    assert (E2 : (1 <? nr_cpus_allowed p) = true) by (rewrite E1 in Hne; by destruct (1 <? nr_cpus_allowed p)).
    rewrite E1, E2. apply Z.ltb_lt in E2. specialize (Hmig E2).
    set (y := if bool_decide (curr r = t) then rt r else push_del t (rt r)).
    assert (Hy : rt_nr_migratory y = rt_nr_migratory (rt r) /\ overloaded y = overloaded (rt r) /\ hp_curr y = hp_curr (rt r))
      by (unfold y; by case_bool_decide). destruct Hy as (Hy1 & Hy2 & Hy3).
    rewrite minus_plus_bits. eapply (update_after w c r y (u64 (rt_nr_migratory y - 1))); [done|done| |done].
    rewrite (bind_run _ _ tt w (with_rq c (set_rt y r) w)).
    + erewrite bind_run by (apply rt_rq_of_eq, with_rq_lookup). cbn [rt set_rt].
      rewrite Hy1, (proj2 (Z.eqb_neq _ _)) by done. cbn [BUG_ON]. rewrite (bind_run (mret tt) _ tt _ _ eq_refl).
      erewrite put_rt_rq_eq by apply with_rq_lookup. by rewrite with_rq_rq.
    + unfold y. case_bool_decide as Hcu; [rewrite bool_decide_eq_false_2 by tauto|rewrite bool_decide_eq_true_2 by done]; cbn [when].
      * by apply dequeue_pushable_eq.
      * by rewrite (set_rt_id r), with_rq_id.
  - assert (E1 : (1 <? cpumask_weight m) = true) by (apply Z.ltb_lt; lia).
    assert (E2 : (1 <? nr_cpus_allowed p) = false) by (rewrite E1 in Hne; by destruct (1 <? nr_cpus_allowed p)).
    rewrite E1, E2. set (y := if bool_decide (curr r = t) then rt r else push_add t p (rt r)).
    destruct (push_add_rest t p (rt r)) as (_ & Hp2 & Hp3 & Hp4).
    assert (Hy : overloaded y = overloaded (rt r) /\ hp_curr y = hp_curr (rt r))
      by (unfold y; by case_bool_decide). destruct Hy as (Hy2 & Hy3).
    rewrite plus_minus_bits. eapply (update_after w c r y (u64 (rt_nr_migratory y + 1))); [done|done| |done].
    rewrite (bind_run _ _ tt w (with_rq c (set_rt y r) w)).
    + erewrite upd_rt_rq_eq by apply with_rq_lookup. by rewrite with_rq_rq.
    + unfold y. case_bool_decide as Hcu; [rewrite bool_decide_eq_false_2 by tauto|rewrite bool_decide_eq_true_2 by done]; cbn [when].
      * by apply enqueue_pushable_eq.
      * by rewrite (set_rt_id r), with_rq_id.
Qed.
Lemma affinity_rt_ok ts y t p m run :
  rq_ok ts y -> ts !! t = Some p -> prio p < MAX_RT_PRIO -> t ∈ concat (queue y) ->
  Z.of_nat (size ts) < 2 ^ 31 -> rq_ok (<[t := with_mask m p]> ts) (affinity_rt t p m run y).
Proof.
  intros Hy Ht Hpr Hin Hsz. unfold affinity_rt.
  set (z := if run then y else if 1 <? cpumask_weight m then push_add t p y else push_del t y).
  assert (Hz : rq_ok ts z /\ queue z = queue y).
  { destruct (push_add_rest t p y) as (Hq & _). unfold z. destruct run; [done|].
    destruct (1 <? cpumask_weight m); split; try done; [by apply push_add_ok|by apply push_del_ok]. }
  destruct Hz as [Hz Eq]. apply (rq_ok_affinity ts z t p); try done; [by rewrite Eq|].
  assert (Hin' : t ∈ concat (queue z)) by by rewrite Eq.
  pose proof (count_migratory ts t p (with_mask m p) (concat (queue z)) (ok_nodup _ _ Hz) Hin' Ht) as Hcm.
  rewrite <- (ok_migratory _ _ Hz) in Hcm. cbn [with_mask nr_cpus_allowed set_nr_cpus_allowed] in *.
  rewrite <- Hcm. apply u64_id. pose proof (rq_ok_size ts z Hz).
  pose proof (filter_length_le (fun u => is_migratory (<[t := with_mask m p]> ts) u = true) (concat (queue z))). lia.
Qed.

Lemma affinity_rt_abs t p m run r :
  rq_abs (set_rt (affinity_rt t p m run (rt r)) r) =
    if run then rq_abs r else v_pushable (1 <? cpumask_weight m) t (rq_abs r).
Proof.
  destruct run; [by destruct r|]. unfold affinity_rt.
  destruct (1 <? cpumask_weight m); [rewrite <- (push_add_abs t p r)|rewrite <- (push_del_abs t r)]; done.
Qed.

Lemma v_pushable_in b t v u :
  u ∈ v_push (v_pushable b t v) <-> if b then u = t \/ u ∈ v_push v else u ∈ v_push v /\ u <> t.
Proof. destruct b; cbn; set_solver. Qed.

Lemma affinity_rt_queue t p m run r :
  v_queue (rq_abs (set_rt (affinity_rt t p m run (rt r)) r)) = v_queue (rq_abs r).
Proof. rewrite affinity_rt_abs. by destruct run, (1 <? cpumask_weight m). Qed.

Lemma sync_idle w c r : rqs w !! c = Some r -> sync c r r w = w.
Proof.
  intros Hr. unfold sync, pri_curr, rd_over. rewrite Z.eqb_refl, andb_false_r, with_rq_id by done.
  destruct w, rd; cbn. by destruct (online r), (overloaded (rt r)).
Qed.

Lemma rq_ok_same_mask w c r t p m :
  rt_inv w -> rqs w !! c = Some r -> rts w !! t = Some p ->
  (t ∈ concat (queue (rt r)) -> (1 <? nr_cpus_allowed p) = (1 <? cpumask_weight m)) ->
  rq_ok (<[t := with_mask m p]> (rts w)) (rt r).
Proof.
  intros [Hrp Ha] Hr Hp Hq. pose proof (arr_rqs w (rp_arr _ _ Hrp) c r Hr) as Hok.
  destruct (decide (t ∈ concat (queue (rt r)))) as [Hin|Hin].
  - apply (rq_ok_ext (rts w)); [|done]. intros u q Hu. rewrite lookup_insert. case_decide; [|by exists q].
    subst u. exists (with_mask m p). simplify_eq. split_and!; try done. symmetry. by apply Hq.
  - apply rq_ok_task; [done| |done]. intros Hl. apply Hin.
    by apply (vo_push _ _ Ha c _ t (repr_rq_back w _ c r Hrp Hr)), elem_of_list_to_set.
Qed.

(** the last assignment of do_set_cpus_allowed(), after the class has brought
    the run queue up to date *)
Lemma affinity_end w c r r' t p x m :
  rt_inv w -> rqs w !! c = Some r -> rts w !! t = Some p -> tasks (krn w) !! t = Some x -> tcpu x = c -> m ⊆ dom (rqs w) ->
  online r' = online r -> curr r' = curr r -> queue (rt r') = queue (rt r) ->
  rq_ok (<[t := with_mask m p]> (rts w)) (rt r') ->
  (forall u, u <> t -> u ∈ v_push (rq_abs r') <-> u ∈ v_push (rq_abs r)) ->
  (t ∈ v_push (rq_abs r') <-> t ∈ concat (queue (rt r)) /\ 1 < cpumask_weight m /\ curr r <> t) ->
  kept w (with_rt t (with_mask m p) (sync c r r' w)).
Proof.
  intros Hi Hr Hp Hx Hc Hm Ho Hcu Hq Hok Hpu Hpt. pose proof Hi as [Hrp Ha].
  pose proof (repr_rq_back w _ c r Hrp Hr) as Hv. pose proof (repr_rt_back w _ t p Hrp Hp) as Hpv.
  assert (Hel : forall e re, e <> c -> rqs w !! e = Some re -> t ∉ concat (queue (rt re))).
  { intros e re He Hve (q & y & _ & Hy & _ & _ & Hcy)%(vo_place _ _ Ha e _ t (repr_rq_back w _ e re Hrp Hve)).
    cbn in Hy. simplify_eq. }
  eapply kept_repr; [done|eapply (repr_sync_task w _ c r r' t p); try done| | | |done].
  - intros d rd Hd Hrd. apply (rq_ok_same_mask w d rd); try done. intros Hin. by destruct (Hel d rd).
  - apply (view_affinity (abs w) c (rq_abs r) (rq_abs r') t (task_abs p) m); try done.
    + cbn. by rewrite dom_fmap_L.
    + intros e ve He Hve. destruct (repr_rq w _ e ve Hrp Hve) as (re & Hre & <-). by apply (Hel e re).
  - cbn. rewrite dom_insert_L, dom_fmap_L. apply elem_of_dom_2 in Hr. set_solver.
  - cbn. by rewrite fmap_insert, class_abs, insert_id by by rewrite lookup_fmap, Hp.
Qed.

Lemma set_cpus_allowed_same w t p x m :
  rt_inv w -> rts w !! t = Some p -> tasks (krn w) !! t = Some x ->
  (class p = rt_class /\ on_rq x = true -> (1 <? nr_cpus_allowed p) = (1 <? cpumask_weight m)) ->
  when (bool_decide (class p = rt_class)) (set_cpus_allowed_rt t m) w = Ret tt w.
Proof.
  intros [Hrp Ha] Hp Hx Hs. case_bool_decide as Hcl; [|done]. cbn [when].
  destruct (vo_task _ _ Ha t _ (repr_rt_back w _ t p Hrp Hp)) as (Hpr & _). specialize (Hpr Hcl). cbn in Hpr.
  unfold set_cpus_allowed_rt. rewrite (bind_run _ _ _ _ _ (get_rt_eq t p w Hp)). unfold rt_prio.
  rewrite (proj2 (Z.ltb_lt (prio p) MAX_RT_PRIO)) by lia. cbn [negb BUG_ON]. rewrite (bind_run (mret tt) _ tt w w eq_refl).
  rewrite (bind_run _ _ _ _ _ (task_on_rq_run w _ t x Hrp Hx)). destruct (on_rq x); [|done]. cbn [negb].
  by rewrite bool_decide_eq_true_2 by by apply Hs.
Qed.

(** do_set_cpus_allowed(): a task of any class is given another affinity *)
Lemma affinity_step w t p x m :
  rt_inv w -> rts w !! t = Some p -> tasks (krn w) !! t = Some x -> is_Some (rqs w !! tcpu x) -> m ⊆ dom (rqs w) ->
  runs (do_set_cpus_allowed t m) w (fun _ w' => kept w w' /\
    exists p', rts w' !! t = Some p' /\ cpus_allowed p' = m).
Proof.
  intros Hi Hp Hx [r Hr] Hm. pose proof Hi as [Hrp Ha].
  set (c := tcpu x) in *. pose proof (repr_rq_back w _ c r Hrp Hr) as Hv.
  pose proof (repr_rt_back w _ t p Hrp Hp) as Hpv. destruct (vo_task _ _ Ha t _ Hpv) as (Hpr & _).
  assert (Hin : t ∈ concat (queue (rt r)) <-> class p = rt_class /\ on_rq x = true).
  { rewrite (vo_place _ _ Ha c _ t Hv). split; [|intros []; by exists (task_abs p), x].
    intros (q & y & Hq & Hy & ? & ? & _). cbn in Hy. by simplify_eq. }
  assert (Hpu : t ∈ v_push (rq_abs r) <-> t ∈ concat (queue (rt r)) /\ 1 < nr_cpus_allowed p /\ curr r <> t).
  { rewrite (vo_push _ _ Ha c _ t Hv). unfold is_migratory, running. rewrite Hpv, Hv. cbn. rewrite Z.ltb_lt.
    split; intros (? & ? & ?); split_and!; congruence. }
  unfold do_set_cpus_allowed. eapply runs_read; [by apply get_rt_eq|].
  assert (Hend : forall r', when (bool_decide (class p = rt_class)) (set_cpus_allowed_rt t m) w = Ret tt (sync c r r' w) ->
    kept w (with_rt t (with_mask m p) (sync c r r' w)) ->
    runs (when (bool_decide (class p = rt_class)) (set_cpus_allowed_rt t m) ;;
          p0 ← get_rt t; put_rt t (with_mask m p0)) w (fun _ w' => kept w w' /\
      exists p', rts w' !! t = Some p' /\ cpus_allowed p' = m)).
  { intros r' E HK. eapply (runs_bind _ _ _ (fun _ w' => w' = sync c r r' w)); [by eexists _, _|].
    intros ? ? ->. eapply runs_read; [by apply get_rt_eq|]. eexists _, _. split; [done|]. split; [done|].
    exists (with_mask m p). split; [apply with_rt_lookup|done]. }
  destruct (decide (t ∈ concat (queue (rt r)) /\ (1 <? nr_cpus_allowed p) <> (1 <? cpumask_weight m))) as [[Hq Hne]|Hsame].
  - destruct (proj1 Hin Hq) as [Hcl Ho]. 
    apply (Hend (set_rt (affinity_rt t p m (bool_decide (curr r = t)) (rt r)) r)); clear Hend.
    + rewrite bool_decide_eq_true_2 by done. by apply (set_cpus_allowed_eq w c r t p x).
    + apply (affinity_end w c r _ t p x m); try done.
      * exact (affinity_rt_queue t p m (bool_decide (curr r = t)) r).
      * apply affinity_rt_ok; try done; [by apply (arr_rqs w (rp_arr _ _ Hrp) c)|by apply Hpr|apply (rp_arr _ _ Hrp)].
      * intros u Hu. rewrite affinity_rt_abs. case_bool_decide; [done|]. rewrite v_pushable_in.
        destruct (1 <? cpumask_weight m); split; [intros [|]|by right|by intros []|by split]; done.
      * rewrite affinity_rt_abs. case_bool_decide as Hcu; [rewrite Hpu; tauto|].
        rewrite v_pushable_in. destruct (Z.ltb_spec 1 (cpumask_weight m)); split; try done; [by left|by intros []|lia].
  - assert (Hs : t ∈ concat (queue (rt r)) -> (1 <? nr_cpus_allowed p) = (1 <? cpumask_weight m)).
    { intros Hq. destruct (decide ((1 <? nr_cpus_allowed p) = (1 <? cpumask_weight m))); [done|tauto]. }
    apply (Hend r).
    + rewrite (sync_idle w c r Hr). apply (set_cpus_allowed_same w t p x); try done. by rewrite <- Hin.
    + apply (affinity_end w c r r t p x m); try done; [by apply (rq_ok_same_mask w c)|].
      rewrite Hpu. split; intros (Hq & Hl & ?); split_and!; try done; apply Z.ltb_lt; [rewrite <- Hs|rewrite Hs]; try done; by apply Z.ltb_lt.
Qed.
End Param.

(** ** Priority inheritance and explicit balancing

    rt_mutex_setprio() takes a task of the class off its run queue, changes its
    priority and puts it back, without telling the group of the task; the
    callbacks of the class then pull a task that has become more urgent. *)

Section Prio.
Context {RL : RtLib} {LL : RtLaws RL}.
Implicit Types (w : rtw) (a : view) (v : rq_view) (p : rt_task) (x : task_struct) (c d t : nat).

(** a task with another priority *)
Definition with_prio (n : Z) p : rt_task := set_prio n (set_class rt_class p).

(** the run queue of the task afterwards *)
Definition v_setprio (t : nat) p' (q head : bool) v : rq_view :=
  if q then v_enqueue_task t p' head (v_dequeue_task t v) else v_dequeue_task t v.

Lemma in_dequeued t v u :
  (u ∈ concat (v_queue (v_dequeue_task t v)) <-> u <> t /\ u ∈ concat (v_queue v)) /\
  (u ∈ v_push (v_dequeue_task t v) <-> u <> t /\ u ∈ v_push v).
Proof.
  split.
  - unfold v_dequeue_task. cbn [v_pushable set_v_push v_queue]. apply elem_of_v_dequeue.
  - unfold v_dequeue_task, v_pushable; cbn. rewrite elem_of_difference, elem_of_singleton. tauto.
Qed.

Lemma dequeued_pushable t v : v_pushable false t (v_dequeue_task t v) = v_dequeue_task t v.
Proof.
  unfold v_dequeue_task, v_pushable, set_v_push. cbn. f_equal. set_solver.
Qed.

Lemma in_setprio t p' q head v u :
  0 <= prio p' < Z.of_nat (length (v_queue v)) ->
  (u ∈ concat (v_queue (v_setprio t p' q head v)) <-> (u <> t /\ u ∈ concat (v_queue v)) \/ (u = t /\ q = true)) /\
  (u ∈ v_push (v_setprio t p' q head v) <->
     (u <> t /\ u ∈ v_push v) \/ (u = t /\ q = true /\ v_curr v <> t /\ 1 < nr_cpus_allowed p')).
Proof.
  intros Hp. destruct (in_dequeued t v u) as [Hq Hpu]. unfold v_setprio. destruct q.
  - rewrite v_enqueue_task_queue, elem_of_v_enqueue, elem_of_v_enqueue_task_push.
    + rewrite Hq, Hpu. cbn [v_curr]. cbn. tauto.
    + unfold v_dequeue_task. cbn [v_pushable set_v_push v_queue]. by rewrite length_v_dequeue.
  - rewrite Hq, Hpu. split; (split; [by left|intros [|(? & ? & _)]; done]) || naive_solver.
Qed.

Lemma setprio_rest t p' q head v :
  length (v_queue (v_setprio t p' q head v)) = length (v_queue v) /\ v_curr (v_setprio t p' q head v) = v_curr v.
Proof.
  unfold v_setprio. destruct q; split; try done.
  - rewrite v_enqueue_task_queue, length_v_enqueue. apply length_v_dequeue.
  - by rewrite v_enqueue_task_curr.
  - apply length_v_dequeue.
Qed.

Lemma view_setprio a c v t p x n head :
  view_ok (running a) a -> v_rqs a !! c = Some v -> v_rts a !! t = Some p -> tasks (v_krn a) !! t = Some x ->
  tcpu x = c -> class p = rt_class -> 0 <= n < MAX_RT_PRIO ->
  let a' := View (<[c := v_setprio t (with_prio n p) (on_rq x) head v]> (v_rqs a)) (<[t := with_prio n p]> (v_rts a)) (v_krn a) in
  view_ok (running a') a'.
Proof.
  intros Ha Hv Hp Hx Hc Hcl Hn. set (p' := with_prio n p). intros a'.
  assert (Hlen : 0 <= prio p' < Z.of_nat (length (v_queue v))).
  { rewrite (vo_len _ _ Ha c v Hv). cbn. unfold MAX_RT_PRIO in *. lia. }
  pose proof (in_setprio t p' (on_rq x) head v) as Hin. destruct (setprio_rest t p' (on_rq x) head v) as [Hl Hcu].
  assert (Hrun : forall e, running a' e = running a e).
  { intros e. unfold running, a'. cbn. rewrite lookup_insert. case_decide; [subst e; rewrite Hv; cbn; congruence|done]. }
  eapply view_ok_run; [exact Hrun|]. eapply (near_ok t (running a)); [done| |].
  - split; try done.
    + intros u Hu. cbn. by rewrite lookup_insert_ne.
    + cbn. rewrite dom_insert_L. apply elem_of_dom_2 in Hv. set_solver.
    + intros e ve. cbn. rewrite lookup_insert. case_decide; [subst e; intros [= <-]; exists v|intros He; by exists ve].
      split_and!; try done. intros u Hu. destruct (Hin u Hlen) as [-> ->]. tauto.
    + apply Ha.
  - pose proof (task_at_of t _ _ Ha) as [T1 T2 T3 T4]. destruct (Hin t Hlen) as [Hi1 Hi2]. split; cbn.
    + intros e ve. rewrite lookup_insert, lookup_insert_eq. case_decide as E.
      * subst e. intros [= <-]. rewrite Hi1. split; [intros [[? _]|[_ ?]]; [done|by exists p', x]|].
        intros (? & ? & [= <-] & Hx' & _ & ? & _). simplify_eq. by right.
      * intros He. rewrite (T1 e ve He), Hp. split; [|intros (? & ? & _ & ? & _ & _ & ?)]; [|congruence].
        intros (? & ? & _ & ? & _ & _ & ?). congruence.
    + intros e ve. rewrite lookup_insert. unfold is_migratory. rewrite lookup_insert_eq. cbn. rewrite Z.ltb_lt. case_decide as E.
      * subst e. intros [= <-]. rewrite Hi1, Hi2. unfold running. rewrite Hv. cbn. naive_solver congruence.
      * intros He. rewrite (T2 e ve He). unfold is_migratory. rewrite Hp. by rewrite Z.ltb_lt.
    + intros e ve. rewrite lookup_insert, lookup_insert_eq. intros He E.
      assert (exists v0, v_rqs a !! e = Some v0 /\ v_curr ve = v_curr v0) as (v0 & H0 & Ec).
      { revert He. case_decide; [subst; intros [= <-]; by exists v|intros; by exists ve]. }
      rewrite Ec in E. destruct (T3 e v0 H0 E) as (q & y & Hq' & Hy & Hoc & Hcy).
      rewrite Hp in Hq'. injection Hq' as <-. by exists p', y.
    + intros q. rewrite lookup_insert_eq. intros [= <-]. destruct (T4 p Hp) as (? & ? & ?). split_and!; try done.
      cbn. rewrite dom_insert_L. set_solver.
Qed.
(** a task that is on no queue may change *)
Lemma repr_put_free w a t p p' :
  repr w a -> rts w !! t = Some p ->
  (forall e ve, v_rqs a !! e = Some ve -> t ∉ concat (v_queue ve) /\ t ∉ v_push ve) ->
  repr (with_rt t p' w) (View (v_rqs a) (<[t := task_abs p']> (v_rts a)) (v_krn a)).
Proof.
  intros Hr Hp Hf. eapply repr_put_rt; [done|done|]. intros c r Hc.
  destruct (Hf c _ (repr_rq_back w a c r Hr Hc)) as [Hq Hl].
  apply rq_ok_task; [done|intros ?; by apply Hl, elem_of_list_to_set|by apply (arr_rqs w (rp_arr _ _ Hr) c)].
Qed.

(** the task leaves its queue *)
Lemma setprio_out w c v t p x :
  rt_inv w -> v_rqs (abs w) !! c = Some v -> v_rts (abs w) !! t = Some p -> tasks (krn w) !! t = Some x -> tcpu x = c ->
  runs (when (on_rq x) (update_rq_clock c ;; dequeue_task_rt c t ;; lift_k (dequeue_task t DEQUEUE_NOCMGROUP))) w
    (fun _ w' => repr w' (View (<[c := v_dequeue_task t v]> (v_rqs (abs w))) (v_rts (abs w))
       (if on_rq x then upd_task t (set_se_queued false x) (krn w) else krn w))).
Proof.
  intros [Hr Ha] Hv Hp Hx Hc. destruct (on_rq x) eqn:Ho; cbn [when].
  - destruct (repr_rq w _ c v Hr Hv) as (r & Hrc & _).
    eapply runs_bind; [by apply (runs_calm _ w _ Hr), (update_rq_clock_calm c r)|]. next w1 H1.
    eapply runs_bind; [apply (dequeue_task_rt_ok w1 _ c v t p H1 Hv Hp)|]. next w2 H2.
    eapply runs_mono; [eapply (runs_lift _ w2 _ _ _ H2); by apply (hidden_dequeue t _ x)|]. by intros ? w3 [_ H3].
  - apply runs_ret. destruct (off_rq t _ _ c v x Ha Hx Ho Hv) as [Hq Hpu].
    replace (v_dequeue_task t v) with v; [by rewrite insert_id by done|].
    unfold v_dequeue_task. rewrite v_dequeue_absent by done. unfold v_pushable, set_v_push. destruct v; cbn in *.
    f_equal. set_solver.
Qed.

(** the task goes back, with the priority it has then *)
Lemma setprio_in w a c v t p x flag :
  repr w a -> v_rqs a !! c = Some v -> queueable a t p -> t ∉ concat (v_queue v) -> tasks (v_krn a) !! t = Some x ->
  on_rq x = true ->
  runs (update_rq_clock c ;; enqueue_task_rt c t (Z.lor flag ENQUEUE_NOCMGROUP) ;;
        lift_k (enqueue_task t (Z.lor flag ENQUEUE_NOCMGROUP))) w
    (fun _ w' => repr w' (View
       (<[c := v_enqueue_task t p (negb (Z.land (Z.lor flag ENQUEUE_NOCMGROUP) ENQUEUE_HEAD =? 0)) v]> (v_rqs a))
       (v_rts a) (upd_task t (set_se_queued true x) (v_krn a)))).
Proof.
  intros Hr Hv Hq Hn Hx Ho. destruct (repr_rq w _ c v Hr Hv) as (r & Hrc & _).
  eapply runs_bind; [by apply (runs_calm _ w _ Hr), (update_rq_clock_calm c r)|]. next w1 H1.
  eapply runs_bind; [apply (enqueue_task_rt_ok w1 _ c v t p _ H1 Hv Hq Hn)|]. next w2 H2.
  eapply runs_mono; [eapply (runs_lift _ w2 _ _ _ H2); by apply (hidden_enqueue t flag _ x)|]. by intros ? w3 [_ H3].
Qed.
Lemma put_prev_free w a c v t p (b : bool) :
  repr w a -> v_rqs a !! c = Some v -> v_rts a !! t = Some p -> t ∉ concat (v_queue v) ->
  runs (when b (put_prev_task_rt c t)) w (fun _ w' => repr w' a).
Proof.
  intros Hr Hv Hp Hq. destruct b; [|by apply runs_ret]. cbn [when].
  eapply runs_mono; [eapply (put_prev_task_rt_ok w a c v t p Hr Hv Hp); done|]. intros ? w'.
  by rewrite bool_decide_eq_false_2, v_upd_id by done.
Qed.

Lemma set_curr_free w a c v p (b : bool) :
  repr w a -> v_rqs a !! c = Some v -> v_rts a !! v_curr v = Some p ->
  (b = true -> v_pushable false (v_curr v) v = v) ->
  runs (when b (set_curr_task_rt c)) w (fun _ w' => repr w' a).
Proof.
  intros Hr Hv Hp Hq. destruct b; [|by apply runs_ret]. cbn [when].
  eapply runs_mono; [apply (set_curr_task_rt_ok w a c v p Hr Hv Hp)|]. intros ? w'.
  by rewrite Hq, v_upd_id by done.
Qed.

(** prio_changed_rt(): only pulls and reschedules *)
Lemma prio_changed_step contend w c t oldprio :
  polite contend -> rt_inv w -> is_Some (rqs w !! c) -> is_Some (rts w !! t) -> is_Some (tasks (krn w) !! t) ->
  runs (prio_changed_rt contend c t oldprio) w (fun _ w' => kept w w').
Proof.
  intros HC Hi [r Hr] [p Hp] [x Hx]. unfold prio_changed_rt.
  eapply runs_read; [by apply (task_on_rq_run w _ t x (proj1 Hi))|]. eapply runs_read; [by apply cpu_rq_eq|].
  destruct (on_rq x); cbn [negb]; [|by apply runs_ret]. destruct (decide (curr r = t)) as [E|E].
  - eapply runs_read; [by apply get_rt_eq|]. apply runs_then.
    { destruct (oldprio <? prio p); [|by apply runs_ret]. eapply runs_bind; [by apply (pull_rt_task_ok contend HC)|].
      intros ? w1 H1. by apply runs_ret. }
    intros ? w1 H1. destruct (kept_rq w w1 c H1 ltac:(by eexists)) as [r1 Hr1].
    destruct (kept_rt w w1 t H1 ltac:(by eexists)) as [p1 Hp1].
    eapply runs_read; [by apply cpu_rq_eq|]. eapply runs_read; [by apply get_rt_eq|].
    destruct (_ && _); [|by apply runs_ret, kept_refl, H1]. apply runs_calms; [apply H1|]. by apply resched_task_calm.
  - eapply runs_read; [by apply get_rt_eq|]. destruct (curr_some w c r Hi Hr) as (q & y & Hq & _).
    eapply runs_read; [by apply get_rt_eq|]. destruct (_ <? _); [|by apply runs_ret].
    apply runs_calms; [done|]. by apply resched_task_calm.
Qed.
(** a task that has left the queue of its CPU is on no queue *)
Lemma dequeued_free a c v t x e ve :
  view_ok (running a) a -> tasks (v_krn a) !! t = Some x -> tcpu x = c ->
  <[c := v_dequeue_task t v]> (v_rqs a) !! e = Some ve -> t ∉ concat (v_queue ve) /\ t ∉ v_push ve.
Proof.
  intros Ha Hx Hc. destruct (in_dequeued t v t) as [Hq Hp]. rewrite lookup_insert.
  case_decide as E; [intros [= <-]; tauto|]. intros He. assert (t ∉ concat (v_queue ve)).
  { intros (? & y & _ & Hy & _ & _ & Hcy)%(vo_place _ _ Ha e ve t He). simplify_eq. }
  split; [done|]. by intros [? _]%(vo_push _ _ Ha e ve t He).
Qed.

(** everything up to the class's callback *)
Lemma setprio_kept w w' t p x n head :
  rt_inv w -> rts w !! t = Some p -> class p = rt_class -> tasks (krn w) !! t = Some x -> 0 <= n < MAX_RT_PRIO ->
  forall v, v_rqs (abs w) !! tcpu x = Some v ->
  repr w' (View (<[tcpu x := v_setprio t (with_prio n (task_abs p)) (on_rq x) head v]> (v_rqs (abs w)))
    (<[t := with_prio n (task_abs p)]> (v_rts (abs w))) (krn w)) -> kept w w'.
Proof.
  intros Hi Hp Hcl Hx Hn v Hv Hr. pose proof (repr_rt_back w _ t p (proj1 Hi) Hp) as Hpv.
  eapply kept_repr; [done|exact Hr| | | |done].
  - by apply (view_setprio (abs w) (tcpu x) v t (task_abs p) x n head); try apply Hi.
  - cbn. rewrite dom_insert_L, dom_fmap_L. apply elem_of_dom_2 in Hv. cbn in Hv. rewrite dom_fmap_L in Hv. set_solver.
  - cbn. by rewrite fmap_insert, class_abs, insert_id by by rewrite lookup_fmap, Hp; cbn; rewrite Hcl.
Qed.

(** se.on_rq follows p->on_rq, so putting the task back restores the kernel *)
Lemma requeued_krn k t x : sys_ok k -> tasks k !! t = Some x -> on_rq x = true ->
  upd_task t (set_se_queued true (set_se_queued false x)) (upd_task t (set_se_queued false x) k) = k.
Proof.
  intros [[_ [Hok _]] _] Hx Ho. destruct (Hok t x Hx) as [Hse _]. rewrite Ho in Hse.
  unfold upd_task, set_tasks. cbn. rewrite insert_insert_eq. rewrite insert_id; [by destruct k|].
  rewrite Hx. f_equal. destruct x; cbn in *. unfold set_se_queued; cbn. congruence.
Qed.

Lemma setprio_step contend w t p x n :
  polite contend -> rt_inv w -> rts w !! t = Some p -> class p = rt_class -> tasks (krn w) !! t = Some x ->
  is_Some (rqs w !! tcpu x) -> 0 <= n < MAX_RT_PRIO ->
  runs (rt_mutex_setprio contend t n) w (fun _ w' => kept w w').
Proof.
  intros HC Hi Hp Hcl Hx [r Hr] Hn. pose proof Hi as [Hrp Ha]. set (c := tcpu x) in *.
  pose proof (repr_rq_back w _ c r Hrp Hr) as Hv. pose proof (repr_rt_back w _ t p Hrp Hp) as Hpv.
  set (v0 := v_dequeue_task t (rq_abs r)). set (b := bool_decide (curr r = t)).
  unfold rt_mutex_setprio. rewrite (proj2 (Z.ltb_ge MAX_PRIO n)) by (unfold MAX_PRIO, MAX_RT_PRIO in *; lia).
  eapply runs_read; [done|]. eapply runs_read; [by apply (task_cpu_run w _ t x Hrp)|].
  eapply runs_read; [by apply cpu_rq_eq|]. destruct (decide (t = idle r)); [by apply runs_ret|].
  eapply runs_read; [by apply get_rt_eq|]. cbv zeta. eapply runs_read; [by apply (task_on_rq_run w _ t x Hrp)|].
  eapply runs_bind; [by apply (setprio_out w c (rq_abs r) t (task_abs p) x)|]. fold v0. next w1 H1.
  set (k1 := if on_rq x then _ else _) in H1. set (a1 := View _ _ k1) in H1.
  assert (Hv1 : v_rqs a1 !! c = Some v0) by apply lookup_insert_eq.
  destruct (in_dequeued t (rq_abs r) t) as [Hq0 Hp0]. fold v0 in Hq0, Hp0.
  eapply runs_bind; [by apply (put_prev_free w1 a1 c v0 t (task_abs p) b); [..|tauto]|]. next w2 H2.
  destruct (repr_rt w2 a1 t (task_abs p) H2 Hpv) as (p2 & Hp2 & Ep2).
  eapply runs_read; [by apply get_rt_eq|].
  eapply (runs_bind _ _ _ (fun _ w' => w' = with_rt t (with_prio n p2) w2)); [by eexists _, _|]. intros ? w3 ->.
  assert (H3 : repr (with_rt t (with_prio n p2) w2)
    (View (v_rqs a1) (<[t := with_prio n (task_abs p)]> (v_rts a1)) k1)).
  { rewrite <- Ep2. apply (repr_put_free w2 a1 t p2); [done|done|]. intros e ve. by apply (dequeued_free (abs w) c (rq_abs r) t x). }
  set (a3 := View _ _ k1) in H3. set (p3 := with_prio n (task_abs p)) in *.
  assert (Hc3 : is_Some (v_rts a3 !! v_curr v0)).
  { cbn. rewrite lookup_insert. case_decide; [done|]. destruct (vo_curr _ _ Ha c _ Hv) as (q & _ & Hq & _). by exists q. }
  destruct Hc3 as [q3 Hq3].
  eapply runs_bind; [apply (set_curr_free _ a3 c v0 q3 b H3 Hv1 Hq3)|].
  { unfold b. intros <-%bool_decide_eq_true. apply dequeued_pushable. }
  next w4 H4. set (flag := if prio p <? n then _ else _).
  set (head := negb (Z.land (Z.lor flag ENQUEUE_NOCMGROUP) ENQUEUE_HEAD =? 0)).
  apply (runs_bind _ _ w4 (fun _ w' => kept w w')).
  - eapply runs_mono; [|intros u w'; apply (setprio_kept w w' t p x n head Hi Hp Hcl Hx Hn _ Hv)].
    unfold v_setprio, a3, a1, k1, v0 in *. fold c p3. destruct (on_rq x) eqn:Ho; cbn [when]; [|by apply runs_ret].
    eapply runs_mono.
    { eapply (setprio_in w4 _ c _ t p3 (set_se_queued false x) flag H4); [done| |tauto|apply lookup_insert_eq|done].
      split; [apply lookup_insert_eq|by split]. }
    intros ? w5. cbn [v_rqs v_rts v_krn]. rewrite insert_insert_eq, (requeued_krn (krn w) t x); [done|apply Ha|done|done].
  - intros ? w5 H5. eapply runs_mono; [|intros ? w6; apply (kept_trans _ _ _ H5)].
    destruct (negb (prio p =? n)); [|by apply runs_ret, kept_refl, H5].
    apply prio_changed_step; [done|apply H5|by apply (kept_rq w)|by apply (kept_rt w); [|eexists]|].
    apply H5. by eexists.
Qed.
End Prio.
