(* ===== verification/RtTime.v ===== *)
(** * The real-time class: time and bandwidth

    The bandwidth control and the queues of the class share the run queues.
    [fr] projects a state to what the bandwidth control looks at: runtime,
    used time, clocks and running task of every CPU, class and start of
    execution of every task, the limits.  The operations on the queues do not
    change it ([keeps]). *)

From S2P Require Import Prelude Wait Tasklet Cmgroup Sched CmInv CmTask CmSys RtRq RtPush RtInv.
Local Open Scope Z_scope.

Section Frame.
Context {RL : RtLib}.
Implicit Types (w : rtw) (p : rt_task) (r : rq) (c t : nat).

Record cpu_bw := CpuBw {
  f_runtime : Z; f_time : Z; f_clock : Z; f_clock_task : Z; f_curr : nat; f_online : bool
}.
Definition bw_rq r : cpu_bw :=
  CpuBw (rt_runtime (rt r)) (rt_time (rt r)) (clock r) (clock_task r) (curr r) (online r).
Definition bw_task p : sched_class * Z := (class p, exec_start p).

Record frame := Frame {
  f_rqs : gmap nat cpu_bw;
  f_tasks : gmap nat (sched_class * Z);
  f_span : gset nat;
  f_limit : Z;
  f_period : Z;
  f_now : Z;
  f_sys : sysctls
}.
Definition fr w : frame :=
  Frame (bw_rq <$> rqs w) (bw_task <$> rts w) (span (rd w)) (rt_b_runtime (rt_b w)) (rt_period (rt_b w))
    (now w) (sys w).

(** partial correctness of one run *)
Definition wp {A} (m : W A) w (Q : A -> rtw -> Prop) : Prop :=
  match m w with Ret b w' => Q b w' | Blocked _ | Oops => True end.
Definition keeps {A} (m : W A) : Prop := forall w, wp m w (fun _ w' => fr w' = fr w).

Lemma wp_ret {A} (b : A) w (Q : A -> rtw -> Prop) : Q b w -> wp (mret b) w Q.
Proof. done. Qed.
Lemma wp_bind {A B} (m : W A) (k : A -> W B) w Q :
  wp m w (fun b w' => wp (k b) w' Q) -> wp (mbind k m) w Q.
Proof. unfold wp, mbind, M_bind. by destruct (m w). Qed.
Lemma wp_mono {A} (m : W A) w (P Q : A -> rtw -> Prop) : wp m w P -> (forall b w', P b w' -> Q b w') -> wp m w Q.
Proof. unfold wp. destruct (m w); auto. Qed.
Lemma wp_get w (Q : rtw -> rtw -> Prop) : Q w w -> wp get w Q.
Proof. done. Qed.
Lemma wp_put w w' (Q : unit -> rtw -> Prop) : Q tt w' -> wp (put w') w Q.
Proof. done. Qed.
Lemma wp_modify f w (Q : unit -> rtw -> Prop) : Q tt (f w) -> wp (modify f) w Q.
Proof. done. Qed.
Lemma wp_oops {A} w (Q : A -> rtw -> Prop) : wp oops w Q.
Proof. done. Qed.
Lemma wp_bug b w (Q : unit -> rtw -> Prop) : (b = false -> Q tt w) -> wp (BUG_ON b) w Q.
Proof. unfold wp, BUG_ON. destruct b; cbn; auto. Qed.
Lemma wp_when (b : bool) m w (Q : unit -> rtw -> Prop) :
  (b = true -> wp m w Q) -> (b = false -> Q tt w) -> wp (when b m) w Q.
Proof. destruct b; cbn; auto. Qed.
Lemma wp_deref {A} (f : rtw -> option A) w Q : (forall b, f w = Some b -> Q b w) -> wp (deref f) w Q.
Proof. unfold wp, deref. destruct (f w); auto. Qed.
Lemma wp_cpu_rq c w Q : (forall r, rqs w !! c = Some r -> Q r w) -> wp (cpu_rq c) w Q.
Proof. apply (wp_deref (fun w => rqs w !! c)). Qed.
Lemma wp_get_rt t w Q : (forall p, rts w !! t = Some p -> Q p w) -> wp (get_rt t) w Q.
Proof. apply (wp_deref (fun w => rts w !! t)). Qed.
Lemma wp_rt_rq_of c w Q : (forall r, rqs w !! c = Some r -> Q (rt r) w) -> wp (rt_rq_of c) w Q.
Proof. intros H. apply wp_bind, wp_cpu_rq. auto. Qed.
Lemma wp_put_rq c r w (Q : unit -> rtw -> Prop) : Q tt (with_rq c r w) -> wp (put_rq c r) w Q.
Proof. done. Qed.
Lemma wp_put_rt t p w (Q : unit -> rtw -> Prop) : Q tt (with_rt t p w) -> wp (put_rt t p) w Q.
Proof. done. Qed.
Lemma wp_put_rt_rq c x w (Q : unit -> rtw -> Prop) :
  (forall r, rqs w !! c = Some r -> Q tt (with_rq c (set_rt x r) w)) -> wp (put_rt_rq c x) w Q.
Proof. intros H. apply wp_bind, wp_cpu_rq. intros r Hr. apply wp_put_rq. auto. Qed.
Lemma wp_upd_rt_rq c f w (Q : unit -> rtw -> Prop) :
  (forall r, rqs w !! c = Some r -> Q tt (with_rq c (set_rt (f (rt r)) r) w)) -> wp (upd_rt_rq c f) w Q.
Proof.
  intros H. apply wp_bind, wp_rt_rq_of. intros r Hr. apply wp_put_rt_rq. intros r' Hr'. simplify_eq. auto.
Qed.
Lemma wp_lift {A} (m : K A) w Q : (forall b k, Q b (set_krn k w)) -> wp (lift_k m) w Q.
Proof. unfold wp, lift_k. destruct (m (krn w)); auto. Qed.
Lemma wp_read_task {A} t (f : task_struct -> A) w (Q : A -> rtw -> Prop) :
  (forall b, Q b w) -> wp (x ← lift_k (get_task t); mret (f x)) w Q.
Proof.
  intros H. apply wp_bind. unfold wp, lift_k, get_task, deref. destruct (tasks (krn w) !! t); [|done].
  assert (set_krn (krn w) w = w) as -> by by destruct w. apply H.
Qed.
Lemma wp_task_cpu t w (Q : nat -> rtw -> Prop) : (forall b, Q b w) -> wp (task_cpu t) w Q.
Proof. apply wp_read_task. Qed.
Lemma wp_task_on_rq t w (Q : bool -> rtw -> Prop) : (forall b, Q b w) -> wp (task_on_rq t) w Q.
Proof. apply wp_read_task. Qed.
Lemma wp_keeps {A} (m : W A) w (Q : A -> rtw -> Prop) :
  keeps m -> (forall b w', fr w' = fr w -> Q b w') -> wp m w Q.
Proof. intros Hm HQ. by eapply wp_mono; [apply Hm|]. Qed.

(** ** Writes that do not change the frame *)

Lemma fr_with_rq c r r' w : rqs w !! c = Some r -> bw_rq r' = bw_rq r -> fr (with_rq c r' w) = fr w.
Proof.
  intros Hr E. unfold fr. cbn. f_equal. rewrite fmap_insert, insert_id; [done|]. by rewrite lookup_fmap, Hr, E.
Qed.
Lemma fr_with_rt t p p' w : rts w !! t = Some p -> bw_task p' = bw_task p -> fr (with_rt t p' w) = fr w.
Proof.
  intros Hp E. unfold fr. cbn. f_equal. rewrite fmap_insert, insert_id; [done|]. by rewrite lookup_fmap, Hp, E.
Qed.
End Frame.

(** symbolic execution of the class's code: one step, and to the end *)
Create HintDb rt_keeps.

Ltac wp_step :=
  lazymatch goal with
  | |- wp (mbind _ _) _ _ => apply wp_bind
  | |- wp (mret _) _ _ => apply wp_ret
  | |- wp get _ _ => apply wp_get
  | |- wp (put _) _ _ => apply wp_put
  | |- wp (modify _) _ _ => apply wp_modify
  | |- wp oops _ _ => apply wp_oops
  | |- wp (BUG_ON _) _ _ => apply wp_bug; intros ?
  | |- wp (when _ _) _ _ => apply wp_when; intros ?
  | |- wp (deref _) _ _ => apply wp_deref; intros ? ?
  | |- wp (cpu_rq _) _ _ => apply wp_cpu_rq; intros ? ?
  | |- wp (get_rt _) _ _ => apply wp_get_rt; intros ? ?
  | |- wp (rt_rq_of _) _ _ => apply wp_rt_rq_of; intros ? ?
  | |- wp (put_rq _ _) _ _ => apply wp_put_rq
  | |- wp (put_rt _ _) _ _ => apply wp_put_rt
  | |- wp (put_rt_rq _ _) _ _ => apply wp_put_rt_rq; intros ? ?
  | |- wp (upd_rt_rq _ _) _ _ => apply wp_upd_rt_rq; intros ? ?
  | |- wp (task_cpu _) _ _ => apply wp_task_cpu; intros ?
  | |- wp (task_on_rq _) _ _ => apply wp_task_on_rq; intros ?
  | |- wp (lift_k _) _ _ => apply wp_lift; intros ? ?
  | |- wp (if ?b then _ else _) _ _ => destruct b eqn:?
  | |- wp (match ?x with _ => _ end) _ _ => destruct x eqn:?
  | |- wp (let _ := _ in _) _ _ => cbv zeta
  | |- wp _ _ _ => apply wp_keeps; [solve [auto with rt_keeps]|intros ? ? ?]
  end.

(** the frame of a state that was reached by such writes *)
Ltac fr_solve :=
  repeat first
    [ reflexivity
    | assumption
    | match goal with H : rqs ?w !! ?c = Some ?r, H' : rqs ?w !! ?c = Some ?r' |- _ =>
        tryif constr_eq r r' then fail else (rewrite H in H'; injection H' as H'; subst) end
    | match goal with H : fr ?w = fr ?w' |- fr ?w = _ => rewrite H end
    | erewrite fr_with_rq by first [eassumption|apply with_rq_lookup|reflexivity|(repeat case_match; reflexivity)]
    | erewrite fr_with_rt by first [eassumption|apply with_rt_lookup|reflexivity|(repeat case_match; reflexivity)] ].

Ltac keep := intros ?; repeat wp_step; cbv beta; fr_solve.
Tactic Notation "keeping" constr(d) := unfold d; keep.

Section Queues.
Context {RL : RtLib}.

Lemma resched_keeps t : keeps (resched_task t).
Proof. keeping @resched_task. Qed.
Lemma start_keeps : keeps start_rt_bandwidth.
Proof. keeping @start_rt_bandwidth. Qed.
Lemma set_overload_keeps c : keeps (rt_set_overload c).
Proof. keeping @rt_set_overload. Qed.
Lemma clear_overload_keeps c : keeps (rt_clear_overload c).
Proof. keeping @rt_clear_overload. Qed.
Hint Resolve resched_keeps start_keeps set_overload_keeps clear_overload_keeps : rt_keeps.
Lemma migration_keeps c : keeps (update_rt_migration c).
Proof. keeping @update_rt_migration. Qed.
Hint Resolve migration_keeps : rt_keeps.
Lemma inc_migration_keeps t c : keeps (inc_rt_migration t c).
Proof. keeping @inc_rt_migration. Qed.
Hint Resolve inc_migration_keeps : rt_keeps.
Lemma dec_migration_keeps t c : keeps (dec_rt_migration t c).
Proof. keeping @dec_rt_migration. Qed.
Hint Resolve dec_migration_keeps : rt_keeps.
Lemma has_pushable_keeps c : keeps (has_pushable_tasks c).
Proof. keeping @has_pushable_tasks. Qed.
Hint Resolve has_pushable_keeps : rt_keeps.
Lemma enqueue_pushable_keeps c t : keeps (enqueue_pushable_task c t).
Proof. keeping @enqueue_pushable_task. Qed.
Hint Resolve enqueue_pushable_keeps : rt_keeps.
Lemma dequeue_pushable_keeps c t : keeps (dequeue_pushable_task c t).
Proof. keeping @dequeue_pushable_task. Qed.
Hint Resolve dequeue_pushable_keeps : rt_keeps.
Lemma inc_prio_smp_keeps c p q : keeps (inc_rt_prio_smp c p q).
Proof. keeping @inc_rt_prio_smp. Qed.
Hint Resolve inc_prio_smp_keeps : rt_keeps.
Lemma dec_prio_smp_keeps c p : keeps (dec_rt_prio_smp c p).
Proof. keeping @dec_rt_prio_smp. Qed.
Hint Resolve dec_prio_smp_keeps : rt_keeps.
Lemma inc_prio_keeps c p : keeps (inc_rt_prio c p).
Proof. keeping @inc_rt_prio. Qed.
Hint Resolve inc_prio_keeps : rt_keeps.
Lemma dec_prio_keeps c p : keeps (dec_rt_prio c p).
Proof. keeping @dec_rt_prio. Qed.
Hint Resolve dec_prio_keeps : rt_keeps.
Lemma inc_tasks_keeps t c : keeps (inc_rt_tasks t c).
Proof. keeping @inc_rt_tasks. Qed.
Hint Resolve inc_tasks_keeps : rt_keeps.
Lemma dec_tasks_keeps t c : keeps (dec_rt_tasks t c).
Proof. keeping @dec_rt_tasks. Qed.
Hint Resolve dec_tasks_keeps : rt_keeps.
Lemma enqueue__entity_keeps c t h : keeps (__enqueue_rt_entity c t h).
Proof. keeping @__enqueue_rt_entity. Qed.
Hint Resolve enqueue__entity_keeps : rt_keeps.
Lemma dequeue__entity_keeps c t : keeps (__dequeue_rt_entity c t).
Proof. keeping @__dequeue_rt_entity. Qed.
Hint Resolve dequeue__entity_keeps : rt_keeps.
Lemma dequeue_stack_keeps c t : keeps (dequeue_rt_stack c t).
Proof. keeping @dequeue_rt_stack. Qed.
Hint Resolve dequeue_stack_keeps : rt_keeps.
Lemma enqueue_entity_keeps c t h : keeps (enqueue_rt_entity c t h).
Proof. keeping @enqueue_rt_entity. Qed.
Hint Resolve enqueue_entity_keeps : rt_keeps.
Lemma dequeue_entity_keeps c t : keeps (dequeue_rt_entity c t).
Proof. keeping @dequeue_rt_entity. Qed.
Hint Resolve dequeue_entity_keeps : rt_keeps.
Lemma requeue_entity_keeps c t h : keeps (requeue_rt_entity c t h).
Proof. keeping @requeue_rt_entity. Qed.
Hint Resolve requeue_entity_keeps : rt_keeps.
Lemma requeue_task_keeps c t h : keeps (requeue_task_rt c t h).
Proof. keeping @requeue_task_rt. Qed.
Hint Resolve requeue_task_keeps : rt_keeps.
Lemma enqueue_task_keeps c t f : keeps (enqueue_task_rt c t f).
Proof. keeping @enqueue_task_rt. Qed.
Hint Resolve enqueue_task_keeps : rt_keeps.
Lemma yield_keeps c : keeps (yield_task_rt c).
Proof. keeping @yield_task_rt. Qed.
Hint Resolve yield_keeps : rt_keeps.
Lemma preempt_equal_keeps c t : keeps (check_preempt_equal_prio c t).
Proof. keeping @check_preempt_equal_prio. Qed.
Hint Resolve preempt_equal_keeps : rt_keeps.
Lemma preempt_curr_rt_keeps c t : keeps (check_preempt_curr_rt c t).
Proof. keeping @check_preempt_curr_rt. Qed.
Hint Resolve preempt_curr_rt_keeps : rt_keeps.
Lemma preempt_curr_keeps c t : keeps (check_preempt_curr c t).
Proof. keeping @check_preempt_curr. Qed.
Hint Resolve preempt_curr_keeps : rt_keeps.
Lemma set_cpus_allowed_keeps t m : keeps (set_cpus_allowed_rt t m).
Proof. keeping @set_cpus_allowed_rt. Qed.
Hint Resolve set_cpus_allowed_keeps : rt_keeps.
Lemma do_set_cpus_allowed_keeps t m : keeps (do_set_cpus_allowed t m).
Proof. keeping @do_set_cpus_allowed. Qed.
Hint Resolve do_set_cpus_allowed_keeps : rt_keeps.
Lemma watchdog_keeps h t : keeps (watchdog h t).
Proof. keeping @watchdog. Qed.
Hint Resolve watchdog_keeps : rt_keeps.
Lemma rq_enqueue_keeps c : keeps (sched_rt_rq_enqueue c).
Proof. keeping @sched_rt_rq_enqueue. Qed.
End Queues.

#[export] Hint Resolve rq_enqueue_keeps resched_keeps start_keeps set_overload_keeps clear_overload_keeps migration_keeps inc_migration_keeps dec_migration_keeps has_pushable_keeps enqueue_pushable_keeps dequeue_pushable_keeps inc_prio_smp_keeps dec_prio_smp_keeps inc_prio_keeps dec_prio_keeps inc_tasks_keeps dec_tasks_keeps enqueue__entity_keeps dequeue__entity_keeps dequeue_stack_keeps enqueue_entity_keeps dequeue_entity_keeps requeue_entity_keeps requeue_task_keeps enqueue_task_keeps yield_keeps preempt_equal_keeps preempt_curr_rt_keeps preempt_curr_keeps set_cpus_allowed_keeps do_set_cpus_allowed_keeps watchdog_keeps : rt_keeps.

(** ** The invariant of time and bandwidth

    A CPU may use its runtime in every period.  CPUs lend runtime to each
    other, and what they hold together is what the administrator allows:
    the shares add up to zero ([tb_share]), so a CPU that goes offline can always
    take back what it has lent.  The time a CPU has used never exceeds its
    clock ([tb_clock]), so the 64-bit arithmetic does not wrap. *)

(** ** Sums over a set of CPUs *)

Definition total (g : nat -> Z) (S : gset nat) : Z := foldr (fun c acc => g c + acc) 0 (elements S).

Lemma total_perm g (l l' : list nat) :
  l ≡ₚ l' -> foldr (fun c acc => g c + acc) 0 l = foldr (fun c acc => g c + acc) 0 l'.
Proof. induction 1; cbn; lia. Qed.

Lemma total_split g c S : c ∈ S -> total g S = g c + total g (S ∖ {[c]}).
Proof.
  intros Hc. unfold total. rewrite (total_perm g (elements S) (c :: elements (S ∖ {[c]}))); [done|].
  rewrite <- elements_union_singleton by set_solver. by rewrite <- union_difference_singleton_L.
Qed.

Lemma total_ext g g' S : (forall c, c ∈ S -> g c = g' c) -> total g S = total g' S.
Proof.
  intros H. unfold total. assert (Hl : forall c, c ∈ elements S -> g c = g' c) by set_solver.
  induction (elements S) as [|c l IH]; [done|]. cbn. rewrite IH, (Hl c); [done|by left|].
  intros d Hd. apply Hl. by right.
Qed.

Lemma total_lower g S b : (forall c, c ∈ S -> b <= g c) -> Z.of_nat (size S) * b <= total g S.
Proof.
  intros H. unfold total. assert (Hl : forall c, c ∈ elements S -> b <= g c) by set_solver.
  change (size S) with (length (elements S)). induction (elements S) as [|c l IH]; [done|]. cbn [length foldr].
  pose proof (Hl c ltac:(by left)). pose proof (IH ltac:(intros d Hd; apply Hl; by right)). lia.
Qed.

Lemma total_upper g S b : (forall c, c ∈ S -> g c <= b) -> total g S <= Z.of_nat (size S) * b.
Proof.
  intros H. unfold total. assert (Hl : forall c, c ∈ elements S -> g c <= b) by set_solver.
  change (size S) with (length (elements S)). induction (elements S) as [|c l IH]; [done|]. cbn [length foldr].
  pose proof (Hl c ltac:(by left)). pose proof (IH ltac:(intros d Hd; apply Hl; by right)). lia.
Qed.

(** ** The invariant *)

Implicit Types (F : frame) (x y : cpu_bw) (c : nat).

Definition enabled x : bool := negb (f_runtime x =? RUNTIME_INF).

(** what a CPU has borrowed, negative if it has lent *)
Definition share F c : Z :=
  match f_rqs F !! c with
  | Some x => if enabled x then f_runtime x - f_limit F else 0
  | None => 0
  end.

Record tb_ok F : Prop := {
  tb_span : f_span F = dom (f_rqs F);
  tb_share : total (share F) (f_span F) = 0;
  tb_pos : forall c x, f_rqs F !! c = Some x -> 0 <= f_runtime x;
  tb_limit : (f_limit F = RUNTIME_INF /\ forall c x, f_rqs F !! c = Some x -> enabled x = false) \/
    (0 <= f_limit F /\ Z.of_nat (size (f_span F)) * f_limit F < 2 ^ 63);
  tb_period : 0 < f_period F < 2 ^ 63;
  tb_off : forall c x, f_rqs F !! c = Some x -> f_online x = false -> enabled x = false;
  tb_started : scheduler_running (f_sys F) = true;
  tb_now : f_now F < 2 ^ 63;
  tb_clock : forall c x, f_rqs F !! c = Some x -> 0 <= f_time x <= f_clock_task x /\ f_clock_task x <= f_clock x <= f_now F;
  tb_curr : forall c x e, f_rqs F !! c = Some x -> f_tasks F !! f_curr x = Some (rt_class, e) ->
    f_time x <= e <= f_clock_task x
}.

(** a task runs on one CPU only *)
Definition curr_inj F : Prop :=
  forall c d x y, f_rqs F !! c = Some x -> f_rqs F !! d = Some y -> f_curr x = f_curr y -> c = d.

(** what no operation on time changes *)
Record flow F F' : Prop := {
  fl_class : fst <$> f_tasks F' = fst <$> f_tasks F;
  fl_curr : f_curr <$> f_rqs F' = f_curr <$> f_rqs F;
  fl_online : f_online <$> f_rqs F' = f_online <$> f_rqs F;
  fl_rest : f_span F' = f_span F /\ f_limit F' = f_limit F /\ f_period F' = f_period F /\ f_now F' = f_now F /\
    f_sys F' = f_sys F
}.
#[export] Instance flow_preorder : PreOrder flow.
Proof.
  split; [by intros F; split|]. intros F1 F2 F3 [A1 B1 C1 (? & ? & ? & ? & ?)] [A2 B2 C2 (? & ? & ? & ? & ?)].
  split; [congruence..|split_and!; congruence].
Qed.

(** the runtime a CPU can hold *)
Lemma share_ge F c : tb_ok F -> f_limit F <> RUNTIME_INF -> - f_limit F <= share F c.
Proof.
  intros HF Hn. destruct (tb_limit F HF) as [[? _]|[Hl _]]; [done|]. unfold share.
  destruct (f_rqs F !! c) as [x|] eqn:E; [|lia]. pose proof (tb_pos F HF c x E). destruct (enabled x); lia.
Qed.

Lemma runtime_bound F c x :
  tb_ok F -> f_rqs F !! c = Some x -> enabled x = true ->
  f_limit F <> RUNTIME_INF /\ 0 <= f_runtime x <= Z.of_nat (size (f_span F)) * f_limit F /\ 
  Z.of_nat (size (f_span F)) * f_limit F < 2 ^ 63.
Proof.
  intros HF Hx He. destruct (tb_limit F HF) as [[_ H]|[Hl Hs]]; [by rewrite (H c x Hx) in He|].
  pose proof (tb_pos F HF c x Hx) as Hp. assert (Hc : c ∈ f_span F).
  { rewrite (tb_span F HF). by apply elem_of_dom_2 in Hx. }
  assert (Hn : f_limit F <> RUNTIME_INF).
  { intros E. assert (1 <= Z.of_nat (size (f_span F))).
    { assert (size (f_span F) <> 0%nat); [|lia]. intros E0%size_empty_inv. set_solver. }
    unfold RUNTIME_INF in E. nia. }
  split; [done|]. pose proof (total_split (share F) c (f_span F) Hc) as E. rewrite (tb_share F HF) in E.
  pose proof (total_lower (share F) (f_span F ∖ {[c]}) (- f_limit F)) as Hg.
  rewrite size_difference, size_singleton in Hg by set_solver.
  specialize (Hg ltac:(intros; by apply share_ge)). unfold share at 1 in E. rewrite Hx, He in E.
  assert (size (f_span F) <> 0%nat) by (intros E0%size_empty_inv; set_solver). split; [|done]. nia.
Qed.

(** ** Updates of the frame *)

Definition upd_rq c x F : frame :=
  Frame (<[c := x]> (f_rqs F)) (f_tasks F) (f_span F) (f_limit F) (f_period F) (f_now F) (f_sys F).
Definition upd_tk (t : nat) (q : sched_class * Z) F : frame :=
  Frame (f_rqs F) (<[t := q]> (f_tasks F)) (f_span F) (f_limit F) (f_period F) (f_now F) (f_sys F).
Definition set_runtime (v : Z) x : cpu_bw :=
  CpuBw v (f_time x) (f_clock x) (f_clock_task x) (f_curr x) (f_online x).

Lemma fr_rq `{RL : RtLib} c r w : fr (with_rq c r w) = upd_rq c (bw_rq r) (fr w).
Proof. unfold fr, upd_rq. cbn. by rewrite fmap_insert. Qed.
Lemma fr_rt `{RL : RtLib} t p w : fr (with_rt t p w) = upd_tk t (bw_task p) (fr w).
Proof. unfold fr, upd_tk. cbn. by rewrite fmap_insert. Qed.

Lemma upd_rq_lookup c d x F : f_rqs (upd_rq c x F) !! d = if decide (c = d) then Some x else f_rqs F !! d.
Proof. cbn. apply lookup_insert. Qed.

Lemma flow_rq F c x x' :
  f_rqs F !! c = Some x -> f_curr x' = f_curr x -> f_online x' = f_online x -> flow F (upd_rq c x' F).
Proof.
  intros Hx Hc Ho. split; try done; cbn; rewrite fmap_insert, insert_id; try done; rewrite lookup_fmap, Hx; cbn; congruence.
Qed.
Lemma flow_tk F t q q' : f_tasks F !! t = Some q -> q'.1 = q.1 -> flow F (upd_tk t q' F).
Proof.
  intros Ht E. split; try done. cbn. rewrite fmap_insert, insert_id; [done|]. rewrite lookup_fmap, Ht. cbn. by rewrite E.
Qed.

(** time passes on one CPU *)
Lemma tb_time F c x x' :
  tb_ok F -> f_rqs F !! c = Some x -> f_runtime x' = f_runtime x -> f_online x' = f_online x ->
  0 <= f_time x' <= f_clock_task x' -> f_clock_task x' <= f_clock x' <= f_now F ->
  (forall e, f_tasks F !! f_curr x' = Some (rt_class, e) -> f_time x' <= e <= f_clock_task x') ->
  tb_ok (upd_rq c x' F).
Proof.
  intros HF Hx Hr Ho H1 H2 H3. pose proof (elem_of_dom_2 _ _ _ Hx) as Hd.
  assert (Hen : enabled x' = enabled x) by (unfold enabled; by rewrite Hr).
  assert (Hsh : forall d, share (upd_rq c x' F) d = share F d).
  { intros d. unfold share. rewrite upd_rq_lookup. case_decide; [subst d|done]. rewrite Hx, Hen, Hr. done. }
  split; try apply HF.
  - cbn. rewrite dom_insert_L, (tb_span F HF). set_solver.
  - cbn [f_span upd_rq]. rewrite (total_ext _ (share F)); [apply HF|done].
  - intros d y. rewrite upd_rq_lookup. case_decide; [subst d; intros [= <-]; rewrite Hr|]; by eapply (tb_pos F HF).
  - destruct (tb_limit F HF) as [[? H]|?]; [left|by right]. split; [done|]. intros d y. rewrite upd_rq_lookup.
    case_decide; [subst d; intros [= <-]; rewrite Hen|]; by eapply H.
  - intros d y. rewrite upd_rq_lookup.
    case_decide; [subst d; intros [= <-]; rewrite Hen, Ho|]; by eapply (tb_off F HF).
  - intros d y. rewrite upd_rq_lookup. case_decide; [subst d; by intros [= <-]|by eapply (tb_clock F HF)].
  - intros d y e. rewrite upd_rq_lookup. case_decide; [subst d; intros [= <-]; apply H3|by eapply (tb_curr F HF)].
Qed.

(** a task starts to be charged from another moment *)
Lemma tb_task F t cl e :
  tb_ok F -> (forall c x, f_rqs F !! c = Some x -> f_curr x = t -> cl = rt_class -> f_time x <= e <= f_clock_task x) ->
  tb_ok (upd_tk t (cl, e) F).
Proof.
  intros HF H. split; try apply HF. intros c x e' Hx. cbn. rewrite lookup_insert. case_decide as E.
  - intros [= -> ->]. by apply (H c x).
  - by eapply (tb_curr F HF).
Qed.

(** runtime moves between CPUs *)
Record same_time F F' : Prop := {
  st_rqs : set_runtime 0 <$> f_rqs F' = set_runtime 0 <$> f_rqs F;
  st_tasks : f_tasks F' = f_tasks F;
  st_rest : f_span F' = f_span F /\ f_limit F' = f_limit F /\ f_period F' = f_period F /\ f_now F' = f_now F /\
    f_sys F' = f_sys F
}.
#[export] Instance same_time_preorder : PreOrder same_time.
Proof.
  split; [by intros F; split|]. intros F1 F2 F3 [A1 B1 (? & ? & ? & ? & ?)] [A2 B2 (? & ? & ? & ? & ?)].
  split; [congruence..|split_and!; congruence].
Qed.

Lemma st_lookup F F' c x' :
  same_time F F' -> f_rqs F' !! c = Some x' -> exists x, f_rqs F !! c = Some x /\ x' = set_runtime (f_runtime x') x.
Proof.
  intros H Hx. pose proof (f_equal (lookup c) (st_rqs _ _ H)) as E. rewrite !lookup_fmap, Hx in E. cbn in E.
  destruct (f_rqs F !! c) as [x|]; [|done]. exists x. split; [done|].
  destruct x, x'; unfold set_runtime in *; cbn in *; congruence.
Qed.

Lemma same_time_upd F c x v : f_rqs F !! c = Some x -> same_time F (upd_rq c (set_runtime v x) F).
Proof.
  intros Hx. split; try done. cbn. rewrite fmap_insert, insert_id; [done|]. by rewrite lookup_fmap, Hx.
Qed.

Lemma same_time_flow F F' : same_time F F' -> flow F F'.
Proof.
  intros [A B C]. split; [by rewrite B| | |done].
  - apply (f_equal (fmap f_curr)) in A. rewrite <- !map_fmap_compose in A.
    erewrite (map_fmap_ext _ _ (f_rqs F')), (map_fmap_ext _ _ (f_rqs F)) in A; [exact A|done..].
  - apply (f_equal (fmap f_online)) in A. rewrite <- !map_fmap_compose in A.
    erewrite (map_fmap_ext _ _ (f_rqs F')), (map_fmap_ext _ _ (f_rqs F)) in A; [exact A|done..].
Qed.

Lemma tb_runtime F F' :
  tb_ok F -> same_time F F' -> total (share F') (f_span F) = 0 ->
  (forall c x, f_rqs F' !! c = Some x -> 0 <= f_runtime x) ->
  (f_limit F = RUNTIME_INF -> forall c x, f_rqs F' !! c = Some x -> enabled x = false) ->
  (forall c x, f_rqs F' !! c = Some x -> f_online x = false -> enabled x = false) -> tb_ok F'.
Proof.
  intros HF Hst Hs Hp Hl Ho. pose proof (st_rest _ _ Hst) as (E1 & E2 & E3 & E4 & E5). split.
  - rewrite E1, (tb_span F HF), <- (dom_fmap_L (set_runtime 0) (f_rqs F')), (st_rqs _ _ Hst). by rewrite dom_fmap_L.
  - by rewrite E1.
  - done.
  - rewrite E1, E2. destruct (tb_limit F HF) as [[? _]|?]; [left|by right]. split; [done|by apply Hl].
  - rewrite E3. apply HF.
  - done.
  - rewrite E5. apply HF.
  - rewrite E4. apply HF.
  - intros c x' Hx. destruct (st_lookup _ _ c x' Hst Hx) as (x & Hx' & ->). rewrite E4. by apply (tb_clock F HF c x).
  - intros c x' e Hx. destruct (st_lookup _ _ c x' Hst Hx) as (x & Hx' & ->). rewrite (st_tasks _ _ Hst).
    by apply (tb_curr F HF c x).
Qed.
