(* ===== verification/RtBand.v ===== *)
(** * The real-time class: charging time and lending runtime

    The accounting of the class, the period timer and the exchange of runtime
    between CPUs keep the invariant of RtTime.v; runtime is conserved, and a CPU
    that goes offline takes back exactly what it lent. *)

From S2P Require Import Prelude Wait Tasklet Cmgroup Sched CmInv CmTask CmSys RtRq RtPush RtInv RtQueue RtExec RtOps RtBalance RtStep.
From S2P Require Import RtTime.
Local Open Scope Z_scope.

Implicit Types (F : frame) (x y : cpu_bw).

Lemma total_two g c i S : c ∈ S -> i ∈ S -> c <> i -> total g S = g c + (g i + total g (S ∖ {[c]} ∖ {[i]})).
Proof. intros Hc Hi Hn. rewrite (total_split g c S) by done. by rewrite (total_split g i (S ∖ {[c]})) by set_solver. Qed.

Lemma share_at F c x : f_rqs F !! c = Some x -> share F c = if enabled x then f_runtime x - f_limit F else 0.
Proof. intros H. unfold share. by rewrite H. Qed.

Lemma enabled_set v x : v <> RUNTIME_INF -> enabled (set_runtime v x) = true.
Proof. intros H. unfold enabled. cbn. by rewrite (proj2 (Z.eqb_neq _ _)). Qed.

(** [d] moves from [i] to [c] *)
Definition transfer (i c : nat) xi xc (d : Z) F : frame :=
  upd_rq c (set_runtime (f_runtime xc + d) xc) (upd_rq i (set_runtime (f_runtime xi - d) xi) F).

Lemma transfer_ok F i c xi xc d :
  tb_ok F -> f_rqs F !! i = Some xi -> f_rqs F !! c = Some xc -> i <> c -> enabled xi = true -> enabled xc = true ->
  0 <= f_runtime xi - d -> 0 <= f_runtime xc + d ->
  tb_ok (transfer i c xi xc d F) /\ same_time F (transfer i c xi xc d F).
Proof.
  intros HF Hi Hc Hn Ei Ec H1 H2.
  destruct (runtime_bound F i xi HF Hi Ei) as (Hl & Bi & Hs). destruct (runtime_bound F c xc HF Hc Ec) as (_ & Bc & _).
  assert (Hst : same_time F (transfer i c xi xc d F)).
  { trans (upd_rq i (set_runtime (f_runtime xi - d) xi) F); [by apply same_time_upd|].
    apply same_time_upd. rewrite upd_rq_lookup. by rewrite decide_False. }
  split; [|done]. unfold transfer. set (F' := upd_rq c _ _).
  assert (Lc : f_rqs F' !! c = Some (set_runtime (f_runtime xc + d) xc)) by (unfold F'; rewrite upd_rq_lookup; by rewrite decide_True).
  assert (Li : f_rqs F' !! i = Some (set_runtime (f_runtime xi - d) xi)).
  { unfold F'. rewrite upd_rq_lookup, decide_False by done. rewrite upd_rq_lookup. by rewrite decide_True. }
  assert (Lo : forall e, e <> c -> e <> i -> f_rqs F' !! e = f_rqs F !! e).
  { intros e ? ?. unfold F'. by rewrite !upd_rq_lookup, !decide_False by done. }
  assert (Dc : c ∈ f_span F) by (rewrite (tb_span F HF); by apply elem_of_dom_2 in Hc).
  assert (Di : i ∈ f_span F) by (rewrite (tb_span F HF); by apply elem_of_dom_2 in Hi).
  assert (Hall : forall e y, f_rqs F' !! e = Some y -> (e = c /\ y = set_runtime (f_runtime xc + d) xc) \/
    (e = i /\ y = set_runtime (f_runtime xi - d) xi) \/ f_rqs F !! e = Some y).
  { intros e y He. destruct (decide (e = c)) as [->|]; [left; split; congruence|].
    destruct (decide (e = i)) as [->|]; [right; left; split; congruence|]. right; right. by rewrite <- Lo. }
  apply (tb_runtime F); try done.
  - rewrite (total_two _ c i) by done. pose proof (tb_share F HF) as E. rewrite (total_two _ c i) in E by done.
    rewrite (share_at F' c _ Lc), (share_at F' i _ Li). rewrite (share_at F c _ Hc), (share_at F i _ Hi) in E.
    rewrite !enabled_set by (unfold RUNTIME_INF; lia). rewrite Ec, Ei in E.
    rewrite (total_ext _ (share F)); [cbn; lia|]. intros e He. unfold share. rewrite Lo by set_solver. done.
  - intros e y [[-> ->]|[[-> ->]|He]]%Hall; [done..|]. by eapply (tb_pos F HF).
  - intros e y [[-> ->]|[[-> ->]|He]]%Hall; cbn; intros Ho; [pose proof (tb_off F HF c xc Hc Ho); congruence|..].
    + pose proof (tb_off F HF i xi Hi Ho). congruence.
    + by eapply (tb_off F HF).
Qed.

Section Charge.
Context {RL : RtLib}.
Implicit Types (w : rtw) (r : rq) (p : rt_task) (c t : nat).

Definition tb_inv w : Prop := tb_ok (fr w) /\ curr_inj (fr w).

(** an operation on time: it keeps the invariant and the rest of the frame *)
Definition keeps_time {A} (m : W A) : Prop :=
  forall w, tb_inv w -> wp m w (fun _ w' => tb_inv w' /\ flow (fr w) (fr w')).

Lemma flow_inj F F' : flow F F' -> curr_inj F -> curr_inj F'.
Proof.
  intros H HF c d x y Hx Hy E. pose proof (fl_curr _ _ H) as Hc.
  destruct (fmap_lookup_eq f_curr (f_rqs F') (f_rqs F) c x Hc Hx) as (x0 & Hx0 & E1).
  destruct (fmap_lookup_eq f_curr (f_rqs F') (f_rqs F) d y Hc Hy) as (y0 & Hy0 & E2).
  apply (HF c d x0 y0); congruence.
Qed.

Lemma tb_inv_flow w w' : tb_inv w -> tb_ok (fr w') -> flow (fr w) (fr w') -> tb_inv w' /\ flow (fr w) (fr w').
Proof. intros [_ Hi] H Hf. split; [|done]. split; [done|]. by eapply flow_inj. Qed.

Lemma keeps_keeps_time {A} (m : W A) : keeps m -> keeps_time m.
Proof. intros Hm w Hw. eapply wp_mono; [apply Hm|]. intros b w' E. unfold tb_inv. by rewrite E. Qed.

Lemma wp_keeps_time {A} (m : W A) w (Q : A -> rtw -> Prop) :
  keeps_time m -> tb_inv w -> (forall b w', tb_inv w' -> flow (fr w) (fr w') -> Q b w') -> wp m w Q.
Proof. intros Hm Hw HQ. eapply wp_mono; [by apply Hm|]. intros b w' []. by apply HQ. Qed.

Lemma fr_lookup w c r : rqs w !! c = Some r -> f_rqs (fr w) !! c = Some (bw_rq r).
Proof. intros H. cbn. by rewrite lookup_fmap, H. Qed.
Lemma fr_task w t p : rts w !! t = Some p -> f_tasks (fr w) !! t = Some (bw_task p).
Proof. intros H. cbn. by rewrite lookup_fmap, H. Qed.

(** the clocks of a CPU *)
Lemma clock_bounds w c r : tb_inv w -> rqs w !! c = Some r ->
  0 <= rt_time (rt r) <= clock_task r /\ clock_task r <= clock r <= now w /\ now w < 2 ^ 63.
Proof.
  intros [H _] Hr. destruct (tb_clock _ H c _ (fr_lookup w c r Hr)) as [? ?].
  pose proof (tb_now _ H). cbn in *. lia.
Qed.

Lemma update_clock_time c : keeps_time (update_rq_clock c).
Proof.
  intros w Hw. unfold update_rq_clock. wp_step. apply wp_cpu_rq. intros r Hr. wp_step; [by wp_step|].
  repeat wp_step. destruct (clock_bounds w c r Hw Hr) as (H1 & H2 & H3).
  rewrite (s64_id (now w - clock r)), !u64_id by lia.
  apply tb_inv_flow; [done| |]; rewrite fr_rq.
  - apply (tb_time _ c (bw_rq r)); try done; [apply Hw|by apply fr_lookup|cbn; lia..|].
    intros e He. destruct (tb_curr _ (proj1 Hw) c _ e (fr_lookup w c r Hr) He). cbn in *. lia.
  - by apply (flow_rq _ c (bw_rq r)); [apply fr_lookup|..].
Qed.
(** ** Lending *)

(** the part of the spare time of [i] that [c] takes *)
Lemma borrow_bounds ri ti rc weight period d :
  0 <= ti < 2 ^ 63 -> 0 <= ri < 2 ^ 63 -> 0 <= rc < 2 ^ 63 -> 0 < period < 2 ^ 63 -> 1 <= weight -> 0 < s64 (ri - ti) ->
  d = (let diff := u64 (s64 (ri - ti)) / weight in
       if period <? u64 (rc + diff) then s64 (period - rc) else diff) ->
  0 <= ri - d < 2 ^ 64 /\ 0 <= rc + d < 2 ^ 64.
Proof.
  intros Ht Hi Hc Hp Hw. rewrite (s64_id (ri - ti)) by lia. intros Hd ->. rewrite (u64_id (ri - ti)) by lia. cbv zeta.
  assert (0 <= (ri - ti) / weight <= ri - ti).
  { split; [apply Z.div_pos; lia|]. apply Z.div_le_upper_bound; [lia|]. nia. }
  rewrite (u64_id (rc + _)) by lia. destruct (Z.ltb_spec period (rc + (ri - ti) / weight)); [|lia].
  rewrite s64_id by lia. lia.
Qed.

Lemma fr_transfer w i c ri rc d :
  rqs w !! i = Some ri -> rqs w !! c = Some rc -> i <> c ->
  fr (with_rq c (set_rt (set_rt_runtime (rt_runtime (rt rc) + d) (rt rc)) rc)
       (with_rq i (set_rt (set_rt_runtime (rt_runtime (rt ri) - d) (rt ri)) ri) w))
  = transfer i c (bw_rq ri) (bw_rq rc) d (fr w).
Proof. intros. by rewrite !fr_rq. Qed.

Lemma enabled_rq r : enabled (bw_rq r) = negb (rt_runtime (rt r) =? RUNTIME_INF).
Proof. done. Qed.

Lemma balance_from_time c weight period l more w :
  tb_inv w -> 1 <= weight -> period = rt_period (rt_b w) ->
  (exists r, rqs w !! c = Some r /\ enabled (bw_rq r) = true) ->
  wp (balance_from c weight period l more) w (fun _ w' => tb_inv w' /\ same_time (fr w) (fr w')).
Proof.
  intros Hw Hwt Hper. revert more w Hw Hper. induction l as [|i l IH]; intros more w Hw Hper (rc & Hrc & Hec); cbn [balance_from].
  { by apply wp_ret. }
  case_decide as Hne; [by apply IH; [..|exists rc]|].
  wp_step. apply wp_rt_rq_of. intros ri Hri.
  destruct (Z.eqb_spec (rt_runtime (rt ri)) RUNTIME_INF) as [|Hinf]; [by apply IH; [..|exists rc]|]. cbv zeta.
  destruct (Z.ltb_spec 0 (s64 (rt_runtime (rt ri) - rt_time (rt ri)))) as [Hd|]; [|by apply IH; [..|exists rc]].
  assert (Hei : enabled (bw_rq ri) = true) by (rewrite enabled_rq; by apply negb_true_iff, Z.eqb_neq).
  destruct (runtime_bound _ i _ (proj1 Hw) (fr_lookup w i ri Hri) Hei) as (_ & Bi & Bs).
  destruct (runtime_bound _ c _ (proj1 Hw) (fr_lookup w c rc Hrc) Hec) as (_ & Bc & _).
  destruct (clock_bounds w i ri Hw Hri) as (T1 & T2 & T3).
  wp_step. apply wp_rt_rq_of. intros r' Hr'. simplify_eq.
  set (d := if rt_period (rt_b w) <? _ then _ else _).
  destruct (borrow_bounds (rt_runtime (rt ri)) (rt_time (rt ri)) (rt_runtime (rt rc)) weight (rt_period (rt_b w)) d) as [D1 D2];
    try done; [cbn in *; lia..|apply (tb_period _ (proj1 Hw))|].
  wp_step. apply wp_upd_rt_rq. intros r' Hr'. simplify_eq.
  wp_step. apply wp_upd_rt_rq. intros r' Hr'. rewrite with_rq_ne in Hr' by done. simplify_eq.
  rewrite !u64_id by lia. set (w1 := with_rq c _ _).
  destruct (transfer_ok (fr w) i c (bw_rq ri) (bw_rq rc) d) as [Hok Hst];
    try first [apply Hw|by apply fr_lookup|done|cbn; lia].
  rewrite <- fr_transfer in Hok, Hst by done. fold w1 in Hok, Hst.
  destruct (tb_inv_flow w w1 Hw Hok (same_time_flow _ _ Hst)) as [Hw1 _].
  wp_step. apply wp_rt_rq_of. intros r1 Hr1. destruct (_ =? _); [by apply wp_ret|].
  eapply wp_mono; [apply IH; [done|done|]|].
  - exists r1. split; [done|]. unfold w1 in Hr1. rewrite with_rq_lookup in Hr1. injection Hr1 as <-.
    apply negb_true_iff, Z.eqb_neq. cbn in *. unfold RUNTIME_INF. lia.
  - intros b w2 [? ?]. split; [done|]. by trans (fr w1).
Qed.

Lemma span_weight w c r : tb_inv w -> rqs w !! c = Some r -> c ∈ span (rd w) /\ 1 <= cpumask_weight (span (rd w)).
Proof.
  intros [H _] Hr. assert (Hc : c ∈ span (rd w)).
  { pose proof (tb_span _ H) as E. cbn in E. rewrite E, dom_fmap_L. by apply elem_of_dom_2 in Hr. }
  split; [done|]. unfold cpumask_weight. assert (size (span (rd w)) <> 0%nat); [|lia].
  intros E%size_empty_inv. set_solver.
Qed.

Lemma balance_time c : keeps_time (balance_runtime c).
Proof.
  intros w Hw. unfold balance_runtime. wp_step. wp_step. wp_step; [by apply wp_ret|]. wp_step. apply wp_rt_rq_of. intros r Hr.
  destruct (Z.ltb_spec (rt_runtime (rt r)) (rt_time (rt r))); [|by apply wp_ret].
  unfold do_balance_runtime. wp_step. wp_step. destruct (clock_bounds w c r Hw Hr) as (? & ? & ?).
  eapply wp_mono; [apply balance_from_time; [done|by eapply span_weight|done|]|].
  - exists r. split; [done|]. apply negb_true_iff, Z.eqb_neq. cbn. unfold RUNTIME_INF. lia.
  - intros ? w' [? ?]. split; [done|]. by apply same_time_flow.
Qed.
(** ** Composition *)

Lemma kt_ret {A} (b : A) : keeps_time (mret b).
Proof. intros w Hw. by apply wp_ret. Qed.
Lemma kt_bind {A B} (m : W A) (k : A -> W B) : keeps_time m -> (forall b, keeps_time (k b)) -> keeps_time (mbind k m).
Proof.
  intros Hm Hk w Hw. apply wp_bind. apply (wp_keeps_time m); [done|done|]. intros b w1 H1 F1.
  eapply wp_mono; [by apply Hk|]. intros ? w2 [? ?]. split; [done|]. by trans (fr w1).
Qed.
Lemma kt_when b m : keeps_time m -> keeps_time (when b m).
Proof. intros Hm. destruct b; [done|apply kt_ret]. Qed.
Lemma kt_cpu_rq c : keeps_time (cpu_rq c).
Proof. apply keeps_keeps_time. keep. Qed.
Lemma kt_rt_rq_of c : keeps_time (rt_rq_of c).
Proof. apply keeps_keeps_time. keep. Qed.
Lemma kt_get_rt t : keeps_time (get_rt t).
Proof. apply keeps_keeps_time. keep. Qed.
Lemma kt_get : keeps_time get.
Proof. apply keeps_keeps_time. keep. Qed.

(** ** Charging *)

(** the used time of a CPU goes down, or is reset *)
Lemma lower_time w c r r' v :
  tb_inv w -> rqs w !! c = Some r -> 0 <= v <= rt_time (rt r) ->
  bw_rq r' = CpuBw (rt_runtime (rt r)) v (clock r) (clock_task r) (curr r) (online r) ->
  tb_inv (with_rq c r' w) /\ flow (fr w) (fr (with_rq c r' w)).
Proof.
  intros Hw Hr Hv E. destruct (clock_bounds w c r Hw Hr) as (? & ? & ?).
  apply tb_inv_flow; [done| |]; rewrite fr_rq, E.
  - apply (tb_time _ c (bw_rq r)); try done; [apply Hw|by apply fr_lookup|cbn; lia..|].
    intros e He. destruct (tb_curr _ (proj1 Hw) c _ e (fr_lookup w c r Hr) He). cbn in *. lia.
  - by apply (flow_rq _ c (bw_rq r)); [apply fr_lookup|..].
Qed.

(** the running task of [c] is charged from now on *)
Lemma restart_curr w c r p p' :
  tb_inv w -> rqs w !! c = Some r -> rts w !! curr r = Some p -> class p' = class p -> exec_start p' = clock_task r ->
  tb_inv (with_rt (curr r) p' w) /\ flow (fr w) (fr (with_rt (curr r) p' w)).
Proof.
  intros Hw Hr Hp Hcl He. destruct (clock_bounds w c r Hw Hr) as (? & ? & ?).
  apply tb_inv_flow; [done| |]; rewrite fr_rt.
  - apply tb_task; [apply Hw|]. intros d x Hx E _.
    assert (d = c) as -> by by apply (proj2 Hw d c x (bw_rq r)); [|apply fr_lookup|].
    rewrite (fr_lookup w c r Hr) in Hx. injection Hx as <-. cbn. lia.
  - by apply (flow_tk _ _ (bw_task p)); [apply fr_task|].
Qed.

Lemma exceeded_time c : keeps_time (sched_rt_runtime_exceeded c).
Proof.
  unfold sched_rt_runtime_exceeded. apply kt_bind; [apply kt_rt_rq_of|]. intros x0. apply kt_bind; [apply kt_get|]. intros w0.
  destruct (rt_throttled x0); [apply kt_ret|]. destruct (_ <=? _); [apply kt_ret|].
  apply kt_bind; [apply balance_time|]. intros _ w Hw. wp_step. apply wp_rt_rq_of. intros r Hr.
  destruct (_ =? _); [by apply wp_ret|]. destruct (_ <? _); [|by apply wp_ret].
  destruct (clock_bounds w c r Hw Hr) as (? & ? & ?).
  destruct (negb _); wp_step; apply wp_put_rt_rq; intros r' Hr'; simplify_eq; apply wp_ret.
  - apply (lower_time w c r _ (rt_time (rt r))); [done|done|lia|done].
  - apply (lower_time w c r _ 0); [done|done|lia|done].
Qed.

Lemma update_curr_time c : keeps_time (update_curr_rt c).
Proof.
  intros w Hw. unfold update_curr_rt. wp_step. apply wp_cpu_rq. intros r Hr. wp_step. apply wp_get_rt. intros p Hp.
  case_bool_decide as Hcl; [by apply wp_ret|]. cbv zeta. destruct (clock_bounds w c r Hw Hr) as (B1 & B2 & B3).
  assert (Hcl' : class p = rt_class) by (destruct (decide (class p = rt_class)); tauto).
  destruct (tb_curr _ (proj1 Hw) c _ (exec_start p) (fr_lookup w c r Hr)) as [E1 E2].
  { pose proof (fr_task w _ p Hp) as E. unfold bw_task in E. by rewrite Hcl' in E. }
  cbn in E1, E2. rewrite (u64_id (clock_task r - exec_start p)) by lia. rewrite s64_id by lia.
  destruct (Z.leb_spec (clock_task r - exec_start p) 0); [by apply wp_ret|].
  wp_step. apply wp_put_rt. set (p' := set_exec_start _ _).
  destruct (restart_curr w c r p p' Hw Hr Hp eq_refl eq_refl) as [Hw1 F1]. set (w1 := with_rt (curr r) p' w) in *.
  wp_step. wp_step. destruct (negb _); [by apply wp_ret|]. wp_step. apply wp_rt_rq_of. intros r1 Hr1.
  change (rqs w1) with (rqs w) in Hr1. simplify_eq. destruct (negb _); [|by apply wp_ret].
  wp_step. apply wp_put_rt_rq. intros r1 Hr1. change (rqs w1) with (rqs w) in Hr1. simplify_eq.
  rewrite u64_id by lia. set (w2 := with_rq c _ w1).
  assert (H2 : tb_inv w2 /\ flow (fr w1) (fr w2)).
  { apply tb_inv_flow; [done| |]; unfold w2; rewrite fr_rq.
    - apply (tb_time _ c (bw_rq r)); try done; [apply Hw1|by apply fr_lookup|cbn; lia..|].
      intros e. cbn. rewrite fmap_insert, lookup_insert_eq. intros [= _ <-]. lia.
    - by apply (flow_rq _ c (bw_rq r)); [apply (fr_lookup w1)|..]. }
  destruct H2 as [Hw2 F2]. eapply wp_mono.
  { apply (kt_bind _ _ (exceeded_time c)); [|done]. intros b. apply kt_when, keeps_keeps_time. auto with rt_keeps. }
  intros ? w3 [Hw3 F3]. split; [done|]. trans (fr w1); [done|]. by trans (fr w2).
Qed.
End Charge.

(** ** The bandwidth invariant under every operation

    The methods of the class and the balancing keep the invariant of time and
    bandwidth; a CPU that leaves takes its runtime back, one that joins gets its
    own, and the administrator sets the limits. *)

Create HintDb rt_time.
Create HintDb rt_tb.
#[export] Hint Resolve update_clock_time balance_time exceeded_time update_curr_time : rt_time.

(** an operation made of operations that keep the invariant *)
Ltac kt :=
  cbv zeta;
  lazymatch goal with
  | |- keeps_time (mret _) => apply kt_ret
  | |- keeps_time (cpu_rq _) => apply kt_cpu_rq
  | |- keeps_time (rt_rq_of _) => apply kt_rt_rq_of
  | |- keeps_time (get_rt _) => apply kt_get_rt
  | |- keeps_time get => apply kt_get
  | |- keeps_time _ =>
      first [ solve [auto with rt_time]
            | solve [apply keeps_keeps_time; auto with rt_keeps]
            | solve [apply keeps_keeps_time; keep]
            | lazymatch goal with
              | |- keeps_time (mbind _ _) => apply kt_bind; [kt|intros ?; kt]
              | |- keeps_time (when _ _) => apply kt_when; kt
              | |- keeps_time (if ?b then _ else _) => destruct b; kt
              | |- keeps_time (match ?x with _ => _ end) => destruct x; kt
              end ]
  end.

Section Methods.
Context {RL : RtLib}.
Implicit Types (w : rtw) (r : rq) (p : rt_task) (c t : nat).

Lemma dequeue_task_time c t : keeps_time (dequeue_task_rt c t).
Proof. unfold dequeue_task_rt. kt. Qed.
Hint Resolve dequeue_task_time : rt_time.

Lemma put_prev_time c t : keeps_time (put_prev_task_rt c t).
Proof. unfold put_prev_task_rt. kt. Qed.
Hint Resolve put_prev_time : rt_time.

Lemma set_curr_time c : keeps_time (set_curr_task_rt c).
Proof.
  intros w Hw. unfold set_curr_task_rt. wp_step. apply wp_cpu_rq. intros r Hr. wp_step. apply wp_get_rt. intros p Hp.
  wp_step. apply wp_put_rt. destruct (restart_curr w c r p (set_exec_start (clock_task r) p) Hw Hr Hp eq_refl eq_refl) as [H1 F1].
  apply wp_keeps; [auto with rt_keeps|]. intros ? w2 E. unfold tb_inv. by rewrite E.
Qed.

Lemma task_tick_time h c t : keeps_time (task_tick_rt h c t).
Proof. unfold task_tick_rt. kt. Qed.

Lemma activate_time c t f : keeps_time (activate_task_rt c t f).
Proof. unfold activate_task_rt. kt. Qed.

Lemma deactivate_time c t f : keeps_time (deactivate_task_rt c t f).
Proof. unfold deactivate_task_rt. kt. Qed.
Lemma move_time c t d : keeps_time (move_task_rt c t d).
Proof. unfold move_task_rt, activate_task_rt, deactivate_task_rt. kt. Qed.

(** *** The period timer *)

(** one CPU: at most what it has used is given back *)
Lemma period_cpu_time n c : 0 <= n -> keeps_time (rt_period_cpu n c).
Proof.
  intros Hn. unfold rt_period_cpu. apply kt_bind; [kt|]. intros x0. apply kt_bind; [|intros ie; kt].
  destruct (negb (rt_time x0 =? 0)); [|kt]. apply kt_bind; [kt|]. intros _ w Hw.
  wp_step. apply wp_rt_rq_of. intros r Hr. cbv zeta.
  set (v := rt_time (rt r) - _). set (x := if _ && _ then _ else _).
  assert (Hv : 0 <= v <= rt_time (rt r)).
  { destruct (clock_bounds w c r Hw Hr) as (? & _). pose proof (Z.mod_pos_bound (n * rt_runtime (rt r)) (2 ^ 64) eq_refl).
    unfold v, u64. lia. }
  wp_step. apply wp_put_rt_rq. intros r' Hr'. simplify_eq.
  destruct (lower_time w c r (set_rt x r) v Hw Hr Hv) as [H1 F1]; [unfold x; by destruct (_ && _)|].
  eapply wp_mono; [apply keeps_keeps_time; [|exact H1]; keep|]. intros ? w2 [? ?]. split; [done|]. by etrans.
Qed.

Lemma period_cpus_time n l i b : 0 <= n -> keeps_time (rt_period_cpus n l i b).
Proof.
  intros Hn. revert i b. induction l as [|c l IH]; intros i b; cbn [rt_period_cpus]; [kt|].
  apply kt_bind; [by apply period_cpu_time|]. intros ?. apply IH.
Qed.

Lemma period_timer_time l i : Forall (Z.le 0) l -> keeps_time (sched_rt_period_timer l i).
Proof.
  intros Hl. revert i. induction Hl as [|n l Hn _ IH]; intros i; cbn [sched_rt_period_timer]; [kt|].
  apply kt_bind; [|done]. unfold do_sched_rt_period_timer. apply kt_bind; [kt|]. intros w0.
  apply kt_bind; [by apply period_cpus_time|]. intros it. kt.
Qed.
End Methods.
#[export] Hint Resolve dequeue_task_time put_prev_time set_curr_time task_tick_time move_time : rt_time.

(** ** Balancing, where the locks may be given up *)

Section Push.
Context {RL : RtLib}.
Implicit Types (w : rtw) (r : rq) (p : rt_task) (c t : nat).
Variable contend : nat -> nat -> rtw -> option rtw.
Hypothesis Hcontend : forall c d w w', contend c d w = Some w' -> tb_inv w -> tb_inv w'.

Definition keeps_tb {A} (m : W A) : Prop := forall w, tb_inv w -> wp m w (fun _ w' => tb_inv w').

Lemma kb_time {A} (m : W A) : keeps_time m -> keeps_tb m.
Proof. intros Hm w Hw. eapply wp_mono; [by apply Hm|]. by intros ? ? []. Qed.
Lemma kb_bind {A B} (m : W A) (k : A -> W B) : keeps_tb m -> (forall b, keeps_tb (k b)) -> keeps_tb (mbind k m).
Proof. intros Hm Hk w Hw. apply wp_bind. eapply wp_mono; [by apply Hm|]. intros b w1 H1. by apply Hk. Qed.
Lemma kb_lock c d : keeps_tb (double_lock_balance contend c d).
Proof. intros w Hw. unfold wp, double_lock_balance. destruct (contend c d w) eqn:E; [by eapply Hcontend|done]. Qed.
Hint Resolve kb_lock : rt_tb.

Ltac kb :=
  first [ solve [auto with rt_tb]
        | solve [apply kb_time; kt]
        | lazymatch goal with
          | |- keeps_tb (mbind _ _) => apply kb_bind; [kb|intros ?; kb]
          | |- keeps_tb (when ?b _) => destruct b; cbn [when]; kb
          | |- keeps_tb (if ?b then _ else _) => destruct b; kb
          | |- keeps_tb (match ?x with _ => _ end) => destruct x; kb
          end ].

Lemma find_lowest_keeps t : keeps (find_lowest_rq t).
Proof. unfold find_lowest_rq. keep. Qed.
Lemma next_pushable_keeps c : keeps (pick_next_pushable_task c).
Proof. unfold pick_next_pushable_task. keep. Qed.
Lemma first_pickable_keeps l c : keeps (first_pickable l c).
Proof. induction l as [|[z t] l IH]; cbn [first_pickable]; keep. Qed.
Lemma still_there_keeps c t d : keeps (still_there c t d).
Proof. unfold still_there. keep. Qed.
Hint Resolve find_lowest_keeps next_pushable_keeps first_pickable_keeps still_there_keeps : rt_keeps.
Lemma highest_pushable_keeps c d : keeps (pick_highest_pushable_task c d).
Proof. unfold pick_highest_pushable_task. keep. Qed.
Hint Resolve highest_pushable_keeps : rt_keeps.

Lemma find_lock_tb n t c : keeps_tb (find_lock_lowest_rq contend n t c).
Proof. induction n as [|n IH]; cbn [find_lock_lowest_rq]; kb. Qed.
Hint Resolve find_lock_tb : rt_tb.

Lemma push_retry_tb n c t : keeps_tb (push_rt_retry contend n c t).
Proof. revert t. induction n as [|n IH]; intros t; cbn [push_rt_retry]; [done|]. kb. Qed.
Hint Resolve push_retry_tb : rt_tb.

Lemma push_rt_task_tb n c : keeps_tb (push_rt_task contend n c).
Proof. unfold push_rt_task. kb. Qed.
Hint Resolve push_rt_task_tb : rt_tb.

Lemma push_rt_tasks_tb n c : keeps_tb (push_rt_tasks contend n c).
Proof. induction n as [|n IH]; cbn [push_rt_tasks]; [done|]. kb. Qed.
Hint Resolve push_rt_tasks_tb : rt_tb.

Lemma pull_from_tb c d : keeps_tb (pull_rt_from contend c d).
Proof. unfold pull_rt_from. kb. Qed.
Hint Resolve pull_from_tb : rt_tb.

Lemma pull_cpus_tb c l b : keeps_tb (pull_rt_cpus contend c l b).
Proof. revert b. induction l as [|d l IH]; intros b; cbn [pull_rt_cpus]; kb. Qed.
Hint Resolve pull_cpus_tb : rt_tb.

Lemma pull_rt_task_tb c : keeps_tb (pull_rt_task contend c).
Proof. unfold pull_rt_task. kb. Qed.
Hint Resolve pull_rt_task_tb : rt_tb.

Lemma task_woken_tb n c t : keeps_tb (task_woken_rt contend n c t).
Proof. unfold task_woken_rt. kb. Qed.
Hint Resolve task_woken_tb : rt_tb.

Lemma ttwu_tb n c t : keeps_tb (ttwu_do_activate_rt contend n c t).
Proof. unfold ttwu_do_activate_rt. kb. Qed.

Lemma schedule_out_tb b c : keeps_tb (schedule_out_rt b c).
Proof. unfold schedule_out_rt. kb. Qed.

Lemma prio_changed_tb c t z : keeps_tb (prio_changed_rt contend c t z).
Proof. unfold prio_changed_rt. kb. Qed.
Hint Resolve prio_changed_tb : rt_tb.

(** a task of the class stays in it *)
Lemma flow_class w w' t p p' : flow (fr w) (fr w') -> rts w !! t = Some p -> rts w' !! t = Some p' -> class p' = class p.
Proof.
  intros F Hp Hp'. pose proof (f_equal (lookup t) (fl_class _ _ F)) as E. cbn in E.
  rewrite !lookup_fmap, Hp, Hp' in E. cbn in E. congruence.
Qed.

Lemma setprio_tb t n w p :
  tb_inv w -> rts w !! t = Some p -> class p = rt_class -> wp (rt_mutex_setprio contend t n) w (fun _ w' => tb_inv w').
Proof.
  intros Hw Hp Hcl. unfold rt_mutex_setprio. do 3 wp_step. apply wp_task_cpu. intros c. wp_step. apply wp_cpu_rq. intros r Hr.
  wp_step; [by apply wp_ret|]. wp_step. apply wp_get_rt. intros p0 Hp0. simplify_eq. cbv zeta.
  wp_step. apply wp_task_on_rq. intros q. wp_step. apply wp_keeps_time; [kt|done|]. intros _ w1 H1 F1.
  wp_step. apply wp_keeps_time; [kt|done|]. intros _ w2 H2 F2.
  wp_step. apply wp_get_rt. intros p2 Hp2. wp_step. apply wp_put_rt.
  assert (Hc2 : class p2 = rt_class) by (rewrite <- Hcl; apply (flow_class w w2 t); [by etrans|done|done]).
  set (w3 := with_rt _ _ w2). assert (H3 : tb_inv w3).
  { unfold tb_inv, w3. rewrite (fr_with_rt t p2); [done|done|]. unfold bw_task. cbn. by rewrite Hc2. }
  apply (kb_bind (when (bool_decide (curr r = t)) (set_curr_task_rt c))); [kb| |done]. intros _. kb.
Qed.

(** __schedule() and the running task: [curr_inj] of the new state comes from
    the placement of tasks *)
Lemma pre_schedule_tb c t : keeps_tb (pre_schedule_rt contend c t).
Proof. unfold pre_schedule_rt. kb. Qed.
End Push.
