(* ===== verification/RtHotplug.v ===== *)
(** * The real-time class: CPUs that come and go, and the limits

    __disable_runtime() takes back what the CPU has lent and never fails to;
    __enable_runtime() gives the CPU its runtime; the invariants of the queues
    and of the bandwidth hold across both. *)

From S2P Require Import Prelude Wait Tasklet Cmgroup Sched CmInv CmTask CmSys RtRq RtPush RtInv.
From S2P Require Import RtQueue RtExec RtOps RtBalance RtStep RtTime RtBand.
Local Open Scope Z_scope.

Implicit Types (F : frame) (x y : cpu_bw).

(** ** Taking runtime back *)

(** what holds while [c] takes back [want], with the CPUs [seen] behind it *)
Record reclaiming (c : nat) F (want : Z) (seen : gset nat) : Prop := {
  rc_span : f_span F = dom (f_rqs F);
  rc_want : total (share F) (f_span F ∖ {[c]}) = want;
  rc_le : want <= f_limit F;
  rc_limit : 0 <= f_limit F /\ Z.of_nat (size (f_span F)) * f_limit F < 2 ^ 63;
  rc_pos : forall d y, f_rqs F !! d = Some y -> 0 <= f_runtime y;
  rc_off : forall d y, f_rqs F !! d = Some y -> f_online y = false -> enabled y = false;
  rc_seen : want <> 0 -> forall d y, d ∈ seen -> d <> c -> f_rqs F !! d = Some y ->
    enabled y = false \/ (0 < want /\ f_runtime y = 0)
}.

(** nothing is left when every CPU has been asked *)
Lemma reclaim_end c F want :
  reclaiming c F want (f_span F) -> want = 0.
Proof.
  intros [Hs Hw _ [Hl _] Hp _ Hd]. destruct (decide (want = 0)) as [|Hne]; [done|]. specialize (Hd Hne).
  assert (Hin : forall d, d ∈ f_span F ∖ {[c]} -> exists y, f_rqs F !! d = Some y /\ (enabled y = false \/ (0 < want /\ f_runtime y = 0))).
  { intros d Hin. assert (is_Some (f_rqs F !! d)) as [y Hy] by (apply elem_of_dom; set_solver).
    exists y. split; [done|]. apply (Hd d); set_solver. }
  assert (total (share F) (f_span F ∖ {[c]}) <= Z.of_nat (size (f_span F ∖ {[c]})) * 0).
  { apply total_upper. intros d (y & Hy & H)%Hin. unfold share. rewrite Hy. destruct H as [->|[_ ->]]; [done|]. destruct (enabled y); lia. }
  destruct (Z.lt_trichotomy want 0) as [Hneg|[?|?]]; [|done|lia].
  rewrite (total_ext _ (fun _ => 0)) in Hw.
  - pose proof (total_lower (fun _ => 0) (f_span F ∖ {[c]}) 0 ltac:(done)). lia.
  - intros d (y & Hy & [H'|[? _]])%Hin; [|lia]. unfold share. by rewrite Hy, H'.
Qed.

Lemma reclaim_bound c F want seen i y :
  reclaiming c F want seen -> c ∈ f_span F -> i <> c -> f_rqs F !! i = Some y -> enabled y = true ->
  0 <= f_runtime y < 2 ^ 63 /\ f_runtime y - want < 2 ^ 63.
Proof.
  intros [Hs Hw Hle [Hl Hn] Hp _ _] Hc Hi Hy He. pose proof (Hp i y Hy).
  assert (Hin : i ∈ f_span F ∖ {[c]}) by (rewrite Hs; apply elem_of_dom_2 in Hy; set_solver).
  rewrite (total_split _ i) in Hw by done.
  pose proof (total_lower (share F) (f_span F ∖ {[c]} ∖ {[i]}) (- f_limit F)) as Hg.
  assert (Hsz : Z.of_nat (size (f_span F ∖ {[c]} ∖ {[i]})) = Z.of_nat (size (f_span F)) - 2).
  { pose proof (size_difference (f_span F) {[c]} ltac:(set_solver)) as E1.
    pose proof (size_difference (f_span F ∖ {[c]}) {[i]} ltac:(set_solver)) as E2.
    rewrite size_singleton in E1, E2. assert (size (f_span F ∖ {[c]}) <> 0%nat) by (intros E%size_empty_inv; set_solver).
    lia. }
  rewrite Hsz in Hg.
  rewrite (share_at F i y Hy), He in Hw. specialize (Hg ltac:(intros d _; unfold share; destruct (f_rqs F !! d) as [z|] eqn:Ez;
    [pose proof (Hp d z Ez); destruct (enabled z); lia|lia])). nia.
Qed.

Lemma reclaim_step c F want seen i y d :
  reclaiming c F want seen -> i <> c -> f_rqs F !! i = Some y -> enabled y = true -> f_runtime y - d <> RUNTIME_INF ->
  0 <= f_runtime y - d -> (0 < want -> 0 <= d <= want /\ (d = want \/ f_runtime y = d)) -> (want <= 0 -> d = want) ->
  reclaiming c (upd_rq i (set_runtime (f_runtime y - d) y) F) (want - d) ({[i]} ∪ seen) /\
  same_time F (upd_rq i (set_runtime (f_runtime y - d) y) F).
Proof.
  intros [Hs Hw Hle Hl Hp Ho Hd] Hi Hy He Hn Hpos H1 H2. split; [|by apply same_time_upd].
  assert (Hin : i ∈ f_span F ∖ {[c]}) by (rewrite Hs; apply elem_of_dom_2 in Hy; set_solver).
  split; cbn [f_span f_limit upd_rq].
  - rewrite Hs. cbn. rewrite dom_insert_L. apply elem_of_dom_2 in Hy. set_solver.
  - rewrite (total_split _ i) in Hw by done. rewrite (total_split _ i) by done. rewrite (share_at F i y Hy), He in Hw.
    rewrite (share_at _ i (set_runtime (f_runtime y - d) y)) by (rewrite upd_rq_lookup; by rewrite decide_True).
    rewrite enabled_set by done. cbn. rewrite (total_ext _ (share F)); [lia|].
    intros e He'. unfold share. rewrite upd_rq_lookup, decide_False by set_solver. done.
  - destruct (decide (0 < want)) as [?|?]; [destruct (H1 ltac:(done)); lia|]. rewrite H2 by lia. lia.
  - done.
  - intros e z. rewrite upd_rq_lookup. case_decide; [intros [= <-]; done|]. by apply Hp.
  - intros e z. rewrite upd_rq_lookup. case_decide; [intros [= <-]; cbn; intros Hoff|by apply Ho].
    pose proof (Ho i y Hy Hoff). congruence.
  - intros Hne e z Hez Hec. assert (Hg : 0 < want) by (destruct (decide (0 < want)); [done|]; rewrite H2 in Hne by lia; lia).
    destruct (H1 Hg) as [? [->|Hz]]; [lia|]. rewrite upd_rq_lookup. case_decide as E; [subst e; intros [= <-]|].
    + right. cbn. lia.
    + intros Hz'. destruct (Hd ltac:(lia) e z ltac:(set_solver) Hec Hz') as [?|[? ?]]; [by left|]. right. lia.
Qed.

Section Hotplug.
Context {RL : RtLib}.
Implicit Types (w : rtw) (r : rq) (p : rt_task) (c t i : nat).

Lemma skip_seen c F want seen i :
  reclaiming c F want seen -> (i = c \/ forall y, f_rqs F !! i = Some y -> enabled y = false) ->
  reclaiming c F want ({[i]} ∪ seen).
Proof.
  intros [] H. split; try done. intros Hne d y Hd Hdc Hy. destruct (decide (d = i)) as [->|].
  - left. destruct H as [?|H]; [done|]. by apply H.
  - apply (rc_seen0 Hne d); set_solver.
Qed.

Lemma reclaim_ok c l w want seen :
  reclaiming c (fr w) want seen -> want <> 0 -> c ∈ span (rd w) ->
  (forall i, i ∈ span (rd w) -> i ∈ seen \/ i ∈ l) -> (forall i, i ∈ l -> is_Some (rqs w !! i)) ->
  runs (reclaim_from c l want) w (fun z w' => z = 0 /\ reclaiming c (fr w') 0 ∅ /\ same_time (fr w) (fr w') /\
    f_rqs (fr w') !! c = f_rqs (fr w) !! c /\ calm w w').
Proof.
  revert w want seen. induction l as [|i l IH]; intros w want seen HR Hne Hc Hcov Hl; cbn [reclaim_from].
  { destruct Hne. apply (reclaim_end c (fr w)). destruct HR. split; try done. intros Hne d y Hd. cbn in Hd.
    destruct (Hcov d Hd) as [?|H%elem_of_nil]; [|done]. by apply rc_seen0. }
  destruct (Hl i) as [ri Hri]; [by left|]. eapply runs_read; [by apply rt_rq_of_eq|].
  assert (Hskip : (i = c \/ enabled (bw_rq ri) = false) -> runs (reclaim_from c l want) w (fun z w' => z = 0 /\ reclaiming c (fr w') 0 ∅ /\ same_time (fr w) (fr w') /\
    f_rqs (fr w') !! c = f_rqs (fr w) !! c /\ calm w w')).
  { intros H. apply (IH w want ({[i]} ∪ seen)); try done.
    - apply skip_seen; [done|]. destruct H as [?|H]; [by left|right]. intros y Hy.
      rewrite (fr_lookup w i ri Hri) in Hy. by injection Hy as <-.
    - intros j [?|[->|?]%elem_of_cons]%Hcov; set_solver.
    - intros j Hj. apply Hl. by right. }
  case_bool_decide as Eic; cbn [orb]; [by apply Hskip; left|].
  destruct (Z.eqb_spec (rt_runtime (rt ri)) RUNTIME_INF) as [Ei|Ei].
  { apply Hskip. right. rewrite enabled_rq. by apply negb_false_iff, Z.eqb_eq. }
  clear Hskip. assert (He : enabled (bw_rq ri) = true) by (rewrite enabled_rq; by apply negb_true_iff, Z.eqb_neq).
  destruct (reclaim_bound c (fr w) want seen i (bw_rq ri) HR Hc Eic (fr_lookup w i ri Hri) He) as [B1 B2]. cbn in B1, B2.
  pose proof (rc_le _ _ _ _ HR) as Hle. pose proof (rc_limit _ _ _ _ HR) as [Hl0 Hl1].
  assert (Hsz : 1 <= Z.of_nat (size (f_span (fr w)))).
  { assert (size (f_span (fr w)) <> 0%nat); [|lia]. intros E%size_empty_inv. cbn in E. set_solver. }
  cbv zeta. rewrite (s64_id (rt_runtime (rt ri))) by lia. set (d := if 0 <? want then _ else _).
  assert (Hd : (0 < want -> 0 <= d <= want /\ (d = want \/ rt_runtime (rt ri) = d)) /\ (want <= 0 -> d = want)).
  { unfold d. destruct (Z.ltb_spec 0 want); split; intros; lia. }
  destruct Hd as [Hd1 Hd2]. assert (Hd3 : 0 <= rt_runtime (rt ri) - d < 2 ^ 63) by (unfold d; destruct (Z.ltb_spec 0 want); lia).
  destruct (reclaim_step c (fr w) want seen i (bw_rq ri) d HR Eic (fr_lookup w i ri Hri) He) as [HR' Hst];
    try done; [cbn; unfold RUNTIME_INF; lia|cbn; lia|].
  eapply (runs_bind _ _ _ (fun _ w' => w' = with_rq i (set_rt (set_rt_runtime (rt_runtime (rt ri) - d) (rt ri)) ri) w)).
  { exists tt. eexists. split; [by erewrite upd_rt_rq_eq by done|]. by rewrite u64_id by lia. }
  intros ? w1 ->. set (w1 := with_rq i _ w).
  assert (E1 : fr w1 = upd_rq i (set_runtime (rt_runtime (rt ri) - d) (bw_rq ri)) (fr w)) by (unfold w1; by rewrite fr_rq).
  cbn [f_runtime bw_rq] in HR', Hst. rewrite <- E1 in HR', Hst.
  assert (Hcalm : calm w w1) by by eapply calm_with_rq.
  assert (Hc1 : f_rqs (fr w1) !! c = f_rqs (fr w) !! c) by (rewrite E1, upd_rq_lookup; by rewrite decide_False).
  assert (HB : f_limit (fr w) < 2 ^ 63) by nia.
  rewrite (s64_id (want - d)) by (unfold d; destruct (Z.ltb_spec 0 want); lia).
  destruct (Z.eqb_spec (want - d) 0) as [Ez|Ez].
  - apply runs_ret. rewrite Ez in *. split_and!; try done. destruct HR'; by split.
  - eapply runs_mono; [apply (IH w1 (want - d) ({[i]} ∪ seen)); try done|].
    + intros j [?|[->|?]%elem_of_cons]%Hcov; set_solver.
    + intros j Hj. unfold w1. cbn. rewrite lookup_insert. case_decide; [done|]. apply Hl. by right.
    + intros z w2 (-> & ? & ? & E2 & ?). split_and!; try done; [by trans (fr w1)|congruence|by trans w1].
Qed.
Lemma limit_finite F c : c ∈ f_span F -> Z.of_nat (size (f_span F)) * f_limit F < 2 ^ 63 -> f_limit F <> RUNTIME_INF.
Proof.
  intros Hc Hl E. assert (size (f_span F) <> 0%nat) by (intros E0%size_empty_inv; set_solver).
  rewrite E in Hl. unfold RUNTIME_INF in Hl. nia.
Qed.

Lemma limit_infinite F c : tb_ok F -> c ∈ f_span F -> f_limit F = RUNTIME_INF ->
  forall d y, f_rqs F !! d = Some y -> enabled y = false.
Proof.
  intros HF Hc Hinf. destruct (tb_limit F HF) as [[_ H]|[_ H]]; [done|]. by destruct (limit_finite F c Hc H).
Qed.

(** a CPU whose share is settled may leave *)
Lemma reclaimed_ok c w r :
  tb_ok (fr w) -> rqs w !! c = Some r -> share (fr w) c = 0 -> reclaiming c (fr w) 0 ∅ \/ f_limit (fr w) = RUNTIME_INF.
Proof.
  intros Hok Hr Hs. destruct (tb_limit _ Hok) as [[? _]|Hl]; [by right|left]. pose proof (tb_share _ Hok) as E.
  assert (Hc : c ∈ f_span (fr w)) by (rewrite (tb_span _ Hok); by eapply elem_of_dom_2, fr_lookup).
  rewrite (total_split _ c) in E by done. split; try apply Hok; try done; [lia|apply Hl].
Qed.

Lemma leave_ok c w w' r :
  tb_ok (fr w) -> same_time (fr w) (fr w') -> rqs w' !! c = Some r ->
  (reclaiming c (fr w') 0 ∅ \/ (f_limit (fr w) = RUNTIME_INF /\ fr w' = fr w)) ->
  tb_ok (upd_rq c (set_runtime RUNTIME_INF (bw_rq r)) (fr w')).
Proof.
  intros Hok Hst Hr HR. set (F := upd_rq _ _ _).
  assert (Hst' : same_time (fr w) F) by (trans (fr w'); [done|]; by apply same_time_upd, fr_lookup).
  pose proof (st_rest _ _ Hst) as (Es & El & _).
  assert (Hc : c ∈ f_span (fr w)).
  { rewrite <- Es. destruct HR as [HR|[_ HR]]; [rewrite (rc_span _ _ _ _ HR)|rewrite HR, (tb_span _ Hok), <- HR];
      by eapply elem_of_dom_2, fr_lookup. }
  assert (Hdis : enabled (set_runtime RUNTIME_INF (bw_rq r)) = false) by done.
  assert (Hlk : f_rqs F !! c = Some (set_runtime RUNTIME_INF (bw_rq r))) by (unfold F; rewrite upd_rq_lookup; by rewrite decide_True).
  assert (Hsh : share F c = 0) by by rewrite (share_at F c _ Hlk).
  assert (Hother : total (share F) (f_span (fr w) ∖ {[c]}) = total (share (fr w')) (f_span (fr w) ∖ {[c]})).
  { apply total_ext. intros d Hd. unfold share, F. rewrite upd_rq_lookup, decide_False by set_solver. done. }
  apply (tb_runtime (fr w)); [done|done|..].
  - rewrite (total_split _ c) by done. rewrite Hsh, Hother, <- Es. destruct HR as [HR|[Hinf ->]].
    + by rewrite (rc_want _ _ _ _ HR).
    + rewrite (total_ext _ (fun _ => 0)); [unfold total; by induction (elements _)|]. intros d _. unfold share.
      destruct (f_rqs (fr w) !! d) as [y|] eqn:Ey; [|done]. by rewrite (limit_infinite _ c Hok Hc Hinf d y Ey).
  - intros d y. unfold F. rewrite upd_rq_lookup. case_decide; [by intros [= <-]|].
    destruct HR as [HR|[_ ->]]; [by eapply (rc_pos _ _ _ _ HR)|by eapply (tb_pos _ Hok)].
  - intros Hinf d y. unfold F. rewrite upd_rq_lookup. case_decide; [by intros [= <-]|]. intros Hy.
    destruct HR as [HR|[_ E]]; [|rewrite E in Hy; by eapply (limit_infinite _ c)].
    destruct (limit_finite (fr w') c); [by rewrite Es|apply (rc_limit _ _ _ _ HR)|by rewrite El].
  - intros d y. unfold F. rewrite upd_rq_lookup. case_decide; [by intros [= <-]|].
    destruct HR as [HR|[_ ->]]; [by eapply (rc_off _ _ _ _ HR)|by eapply (tb_off _ Hok)].
Qed.
(** the beginning of the loop *)
Lemma reclaim_start c w r :
  tb_ok (fr w) -> rqs w !! c = Some r -> enabled (bw_rq r) = true ->
  s64 (rt_b_runtime (rt_b w) - rt_runtime (rt r)) = rt_b_runtime (rt_b w) - rt_runtime (rt r) /\
  reclaiming c (fr w) (rt_b_runtime (rt_b w) - rt_runtime (rt r)) ∅.
Proof.
  intros Hok Hr He. destruct (runtime_bound _ c _ Hok (fr_lookup w c r Hr) He) as (Hl & Hb & Hs).
  assert (Hc : c ∈ f_span (fr w)) by (rewrite (tb_span _ Hok); by eapply elem_of_dom_2, fr_lookup).
  assert (Hpos : 0 <= f_limit (fr w)) by (destruct (tb_limit _ Hok) as [[? _]|[? _]]; done).
  assert (size (f_span (fr w)) <> 0%nat) by (intros E0%size_empty_inv; set_solver).
  split; [apply s64_id; cbn in *; nia|]. pose proof (tb_share _ Hok) as E. rewrite (total_split _ c) in E by done.
  rewrite (share_at _ c _ (fr_lookup w c r Hr)), He in E. cbn in E.
  split; try apply Hok; try done; cbn in *; lia.
Qed.

Lemma disable_ok w c r :
  tb_inv w -> rqs w !! c = Some r ->
  runs (__disable_runtime c) w (fun _ w' => calm w w' /\ tb_inv w' /\ flow (fr w) (fr w') /\
    exists r', rqs w' !! c = Some r' /\ rt_runtime (rt r') = RUNTIME_INF).
Proof.
  intros Hw Hr. pose proof (proj1 Hw) as Hok. destruct (span_weight w c r Hw Hr) as [Hc _].
  unfold __disable_runtime. eapply runs_read; [done|]. pose proof (tb_started _ Hok) as Hrun. cbn in Hrun. rewrite Hrun. cbn [negb].
  eapply runs_read; [by apply rt_rq_of_eq|].
  eapply (runs_bind _ _ _ (fun _ w' => calm w w' /\ same_time (fr w) (fr w') /\
    (reclaiming c (fr w') 0 ∅ \/ (f_limit (fr w) = RUNTIME_INF /\ fr w' = fr w)))).
  - destruct (_ || _) eqn:Eb.
    + apply runs_ret. split_and!; [done|done|]. destruct (reclaimed_ok c w r Hok Hr) as [?|?]; [|by left|by right].
      rewrite (share_at _ c _ (fr_lookup w c r Hr)), enabled_rq.
      apply orb_true_iff in Eb as [->|E%Z.eqb_eq]; [done|]. cbn. destruct (negb _); lia.
    + apply orb_false_iff in Eb as [E1 E2]. assert (He : enabled (bw_rq r) = true) by by rewrite enabled_rq, E1.
      apply Z.eqb_neq in E2. destruct (reclaim_start c w r Hok Hr He) as [-> HR].
      eapply runs_bind; [eapply (reclaim_ok c _ w _ ∅ HR)|]; [lia|done|..].
      * intros i Hi. right. by apply elem_of_for_each_cpu.
      * intros i Hi%elem_of_for_each_cpu. pose proof (tb_span _ Hok) as E. cbn in E. rewrite E, dom_fmap_L in Hi. by apply elem_of_dom.
      * intros z w' (-> & ? & ? & ? & ?). apply runs_ret. split_and!; try done. by left.
  - intros _ w1 (Hcalm & Hst & HR). destruct (calm_is_some w w1 c Hcalm ltac:(by eexists)) as [r1 Hr1].
    eexists _, _. split; [by erewrite upd_rt_rq_eq by done|]. set (w2 := with_rq c _ w1).
    assert (E2 : fr w2 = upd_rq c (set_runtime RUNTIME_INF (bw_rq r1)) (fr w1)) by (unfold w2; by rewrite fr_rq).
    assert (H2 : tb_inv w2 /\ flow (fr w) (fr w2)).
    { apply tb_inv_flow; [done|rewrite E2; by eapply leave_ok|]. rewrite E2. apply same_time_flow.
      trans (fr w1); [done|]. by apply same_time_upd, fr_lookup. }
    destruct H2 as [? ?]. split_and!; [trans w1; [done|by eapply calm_with_rq]|done|done|].
    eexists. split; [apply with_rq_lookup|done].
Qed.
End Hotplug.

(** ** Going offline and online *)

Section Online.
Context {RL : RtLib} {LL : RtLaws RL}.
Implicit Types (w : rtw) (a : view) (r : rq) (p : rt_task) (c t i : nat).

(** the state after CPU [c] has changed sides, apart from its runtime *)
Definition sided (b : bool) c r w : rtw :=
  with_rq c (set_online b r) (set_pri (cpupri_set c (if b then hp_curr (rt r) else CPUPRI_INVALID) (pri w))
    (set_rd (rd_over c true (is_overloaded r) (b && overloaded (rt r)) (rd w)) w)).

Lemma sided_repr b c r w a :
  repr w a -> rqs w !! c = Some r -> repr (sided b c r w) (v_upd c (set_v_online b (rq_abs r)) a).
Proof.
  intros [Ha [W1 W2 W3] Ea] Hr. destruct (rd_flag_ok w c r (b && overloaded (rt r)) Ha Hr) as [Hm Hn].
  assert (Hsp : span (rd_over c true (is_overloaded r) (b && overloaded (rt r)) (rd w)) = span (rd w)).
  { unfold rd_over. by destruct (is_overloaded r), (b && overloaded (rt r)). }
  split.
  - split; cbn.
    + intros d r'. rewrite lookup_insert. case_decide; [intros [= <-]; cbn|]; by eapply (arr_rqs w Ha).
    + intros e. rewrite Hm, lookup_insert. destruct (decide (e = c)) as [->|Hne].
      * rewrite decide_True by done. split; [eauto|]. intros (? & ? & ?). by simplify_eq.
      * rewrite decide_False by done. apply (arr_mask w Ha).
    + done.
    + intros d r'. rewrite lookup_insert, cpupri_level_set. case_decide as Hd; [subst d; intros [= <-]|intros Hrd].
      * rewrite decide_True by done. cbn. by destruct b.
      * rewrite decide_False by done. by apply (arr_pri w Ha).
    + rewrite map_size_insert_Some by eauto. apply Ha.
  - split; cbn.
    + intros d r'. rewrite lookup_insert. case_decide; [intros [= <-]; cbn|]; eauto.
    + intros d Hd. rewrite lookup_insert. case_decide; [done|]. apply W2. rewrite <- Hsp. exact Hd.
    + intros d Hd. rewrite lookup_insert. case_decide; [done|]. by apply W3.
  - rewrite <- Ea. unfold abs, v_upd. cbn. by rewrite fmap_insert.
Qed.

Lemma sided_kept b c r w : rt_inv w -> rqs w !! c = Some r -> kept w (sided b c r w).
Proof.
  intros Hi Hr. pose proof (repr_rq_back w _ c r (proj1 Hi) Hr) as Hv.
  eapply kept_upd; [done|done|by apply sided_repr; [apply Hi|]|].
  eapply view_ok_run; [intros e; by apply (running_upd _ c (rq_abs r))|]. by apply (view_members _ _ c (rq_abs r)); [apply Hi|..].
Qed.

(** a calm change in between *)
Lemma calm_sided b c r1 r2 q w1 w2 :
  calm w1 w2 -> rqs w1 !! c = Some r1 -> rqs w2 !! c = Some r2 ->
  calm (with_rq c (set_online b r1) (set_pri q w1)) (with_rq c (set_online b r2) (set_pri q w2)).
Proof.
  intros [C1 C2 C3 C4 C5 C6 C7] H1 H2. split; try done. cbn. rewrite !fmap_insert, C1. f_equal.
  assert (E : rq_core r1 = rq_core r2).
  { pose proof (f_equal (lookup c) C1) as E. rewrite !lookup_fmap, H1, H2 in E. cbn in E. congruence. }
  destruct r1, r2. unfold rq_core in *. cbn in *. congruence.
Qed.
(** a CPU that holds no share changes sides: with no runtime it leaves, with
    the limit it joins *)
Lemma tb_side F c x x' :
  tb_ok F -> f_rqs F !! c = Some x -> enabled x = false -> f_curr x' = f_curr x -> f_clock x' = f_clock x ->
  f_clock_task x' = f_clock_task x -> f_time x' = f_time x \/ f_time x' = 0 ->
  f_runtime x' = RUNTIME_INF \/ (f_runtime x' = f_limit F /\ f_online x' = true) -> tb_ok (upd_rq c x' F).
Proof.
  intros HF Hx He Hc Hcl Hct Ht Hr. pose proof (elem_of_dom_2 _ _ _ Hx) as Hd.
  assert (Hs : c ∈ f_span F) by by rewrite (tb_span F HF).
  assert (Hsh : forall d, share (upd_rq c x' F) d = share F d).
  { intros d. unfold share. rewrite upd_rq_lookup. case_decide; [subst d|done]. rewrite Hx, He. cbn.
    destruct Hr as [Hr|[Hr _]]; unfold enabled; rewrite Hr; [done|]. destruct (negb _); lia. }
  assert (Hinf : f_limit F = RUNTIME_INF -> enabled x' = false).
  { intros E. unfold enabled. destruct Hr as [->|[-> _]]; [done|]. by rewrite E. }
  split; try apply HF.
  - cbn. rewrite dom_insert_L, (tb_span F HF). set_solver.
  - cbn [f_span upd_rq]. rewrite (total_ext _ (share F)); [apply HF|done].
  - intros d y. rewrite upd_rq_lookup. case_decide; [intros [= <-]|by eapply (tb_pos F HF)].
    destruct Hr as [->|[-> _]]; [done|]. destruct (tb_limit F HF) as [[-> _]|[? _]]; done.
  - destruct (tb_limit F HF) as [[E H]|?]; [left|by right]. split; [done|]. intros d y. rewrite upd_rq_lookup.
    case_decide; [intros [= <-]; by apply Hinf|by apply H].
  - intros d y. rewrite upd_rq_lookup. case_decide; [intros [= <-] Ho|by eapply (tb_off F HF)].
    destruct Hr as [Hr|[_ Hr]]; [unfold enabled; by rewrite Hr|congruence].
  - intros d y. rewrite upd_rq_lookup. case_decide; [intros [= <-]|by eapply (tb_clock F HF)].
    cbn [f_now upd_rq]. destruct (tb_clock F HF c x Hx). rewrite Hcl, Hct. destruct Ht as [->| ->]; lia.
  - intros d y e. rewrite upd_rq_lookup. case_decide; [intros [= <-]; rewrite Hc, Hct; intros He'|by eapply (tb_curr F HF)].
    destruct (tb_clock F HF c x Hx). pose proof (tb_curr F HF c x e Hx He'). destruct Ht as [->| ->]; lia.
Qed.

Lemma inj_side F c x x' : curr_inj F -> f_rqs F !! c = Some x -> f_curr x' = f_curr x -> curr_inj (upd_rq c x' F).
Proof.
  intros HF Hx Hc. assert (H : forall d y, f_rqs (upd_rq c x' F) !! d = Some y -> exists y0, f_rqs F !! d = Some y0 /\ f_curr y0 = f_curr y).
  { intros d y. rewrite upd_rq_lookup. case_decide; [subst d; intros [= <-]; by exists x|intros ?; by exists y]. }
  intros d e y z (y0 & Hy & E1)%H (z0 & Hz & E2)%H E. apply (HF d e y0 z0); congruence.
Qed.
(** rq_offline_rt(): everything but the flag *)
Lemma rq_offline_ok w c r :
  tb_inv w -> rqs w !! c = Some r -> online r = true ->
  let w1 := set_rd (rd_over c true (is_overloaded r) false (rd w)) w in
  runs (rq_offline_rt c) w (fun _ w' => exists w2 r2, w' = set_pri (cpupri_set c CPUPRI_INVALID (pri w2)) w2 /\
    calm w1 w2 /\ tb_inv w2 /\ rqs w2 !! c = Some r2 /\ rt_runtime (rt r2) = RUNTIME_INF).
Proof.
  intros Hw Hr Eo w1.
  assert (E1 : fr w1 = fr w) by (unfold w1, fr, rd_over; cbn; by destruct (is_overloaded r)).
  unfold rq_offline_rt. eapply runs_read; [by apply rt_rq_of_eq|].
  eapply (runs_bind _ _ _ (fun _ w' => w' = w1)).
  { exists tt, w1. split; [|done]. unfold w1, is_overloaded, rd_over. rewrite Eo. cbn [andb].
    destruct (overloaded (rt r)); [|by destruct w]. cbn [when]. unfold rt_clear_overload.
    rewrite (bind_run _ _ _ _ _ (cpu_rq_eq c r w Hr)), Eo. done. }
  intros ? ? ->. eapply runs_bind; [apply (disable_ok w1 c r); [unfold tb_inv; by rewrite E1|done]|].
  intros ? w2 (Hc2 & Hw2 & _ & r2 & Hr2 & Einf). eexists _, _. split; [done|]. by exists w2, r2.
Qed.

Lemma offline_step w c r :
  rt_inv w -> tb_inv w -> rqs w !! c = Some r ->
  runs (set_rq_offline c) w (fun _ w' => kept w w' /\ tb_inv w' /\
    (online r = true -> abs w' = v_upd c (set_v_online false (rq_abs r)) (abs w))).
Proof.
  intros Hi Hw Hr. unfold set_rq_offline. eapply runs_read; [by apply cpu_rq_eq|].
  destruct (online r) eqn:Eo; [|apply runs_ret; by split_and!].
  eapply runs_bind; [by apply (rq_offline_ok w c r)|]. intros ? w3 (w2 & r2 & -> & Hc2 & Hw2 & Hr2 & Einf).
  eapply runs_read; [by apply cpu_rq_eq|].
  exists tt, (with_rq c (set_online false r2) (set_pri (cpupri_set c CPUPRI_INVALID (pri w2)) w2)). split; [done|].
  assert (Hcalm : calm (sided false c r w) (with_rq c (set_online false r2) (set_pri (cpupri_set c CPUPRI_INVALID (pri w2)) w2))).
  { unfold sided. rewrite (calm_pri _ _ Hc2 : pri w = pri w2). by apply calm_sided. }
  split_and!.
  - pose proof (sided_kept false c r w Hi Hr) as HK. eapply kept_trans; [exact HK|]. by apply kept_calm; [apply HK|].
  - split; rewrite fr_rq.
    + apply (tb_side _ c (bw_rq r2)); try done; [apply Hw2|by apply fr_lookup| |by left|by left].
      rewrite enabled_rq. by apply negb_false_iff, Z.eqb_eq.
    + by apply (inj_side _ c (bw_rq r2)); [apply Hw2|apply fr_lookup|].
  - intros _. apply rp_abs. eapply repr_calm; [|exact Hcalm]. by apply sided_repr; [apply Hi|].
Qed.

Lemma enable_eq w c r :
  rqs w !! c = Some r -> scheduler_running (sys w) = true ->
  __enable_runtime c w = Ret tt (with_rq c (set_rt
    (set_rt_throttled false (set_rt_time 0 (set_rt_runtime (rt_b_runtime (rt_b w)) (rt r)))) r) w).
Proof.
  intros Hr Hrun. unfold __enable_runtime. rewrite (bind_run get _ w w w eq_refl), Hrun. cbn [negb].
  by erewrite upd_rt_rq_eq by done.
Qed.

(** the state after a CPU has come online *)
Definition joined c r w : rtw :=
  let x := set_rt_throttled false (set_rt_time 0 (set_rt_runtime (rt_b_runtime (rt_b w)) (rt r))) in
  with_rq c (set_rt x (set_online true r)) (set_pri (cpupri_set c (hp_curr (rt r)) (pri w))
    (set_rd (rd_over c true false (overloaded (rt r)) (rd w)) w)).

Lemma online_eq w c r :
  rqs w !! c = Some r -> online r = false -> scheduler_running (sys w) = true ->
  set_rq_online c w = Ret tt (joined c r w).
Proof.
  intros Hr Eo Hrun. unfold set_rq_online. rewrite (bind_run _ _ _ _ _ (cpu_rq_eq c r w Hr)), Eo.
  rewrite (bind_run (put_rq c (set_online true r)) _ tt w (with_rq c (set_online true r) w) eq_refl).
  set (w1 := with_rq c (set_online true r) w). unfold rq_online_rt.
  assert (Hr1 : rqs w1 !! c = Some (set_online true r)) by apply with_rq_lookup.
  rewrite (bind_run _ _ _ _ _ (rt_rq_of_eq c _ w1 Hr1)). cbn [rt set_online].
  set (w2 := set_rd (rd_over c true false (overloaded (rt r)) (rd w)) w1).
  assert (E2 : when (overloaded (rt r)) (rt_set_overload c) w1 = Ret tt w2).
  { unfold w2. destruct (overloaded (rt r)); cbn [when]; [|by destruct w].
    unfold rt_set_overload. by rewrite (bind_run _ _ _ _ _ (cpu_rq_eq c _ w1 Hr1)). }
  rewrite (bind_run _ _ _ _ _ E2).
  rewrite (bind_run _ _ _ _ _ (enable_eq w2 c (set_online true r) Hr1 Hrun)).
  rewrite (bind_run _ _ _ _ _ (rt_rq_of_eq c _ _ (with_rq_lookup c _ w2))).
  unfold joined, w2, w1, with_rq, modify, put. cbn. by rewrite insert_insert_eq.
Qed.

Lemma online_step w c r :
  rt_inv w -> tb_inv w -> rqs w !! c = Some r ->
  runs (set_rq_online c) w (fun _ w' => kept w w' /\ tb_inv w' /\
    (online r = false -> abs w' = v_upd c (set_v_online true (rq_abs r)) (abs w) /\
       exists r', rqs w' !! c = Some r' /\ rt_runtime (rt r') = rt_b_runtime (rt_b w))).
Proof.
  intros Hi Hw Hr. destruct (online r) eqn:Eo.
  { exists tt, w. split; [|by split_and!]. unfold set_rq_online. by rewrite (bind_run _ _ _ _ _ (cpu_rq_eq c r w Hr)), Eo. }
  exists tt, (joined c r w). split; [apply online_eq; [done|done|apply (tb_started _ (proj1 Hw))]|].
  assert (Eov : is_overloaded r = false) by (unfold is_overloaded; by rewrite Eo).
  assert (Hcalm : calm (sided true c r w) (joined c r w)).
  { unfold sided, joined. rewrite Eov. cbn [andb]. set (w1 := set_pri _ _).
    rewrite <- (with_rq_rq c (set_online true r) (set_rt _ _) w1). eapply calm_with_rq; [apply with_rq_lookup|done]. }
  split_and!.
  - pose proof (sided_kept true c r w Hi Hr) as HK. eapply kept_trans; [exact HK|]. by apply kept_calm; [apply HK|].
  - assert (Ed : enabled (bw_rq r) = false) by by apply (tb_off _ (proj1 Hw) c _ (fr_lookup w c r Hr)).
    assert (Ef : fr (joined c r w) = upd_rq c (CpuBw (rt_b_runtime (rt_b w)) 0 (clock r) (clock_task r) (curr r) true) (fr w)).
    { unfold joined. rewrite fr_rq. unfold fr, rd_over. cbn. by destruct (overloaded (rt r)). }
    split; rewrite Ef.
    + apply (tb_side _ c (bw_rq r)); try done; [apply Hw|by apply fr_lookup|by right|by right].
    + by apply (inj_side _ c (bw_rq r)); [apply Hw|apply fr_lookup|].
  - intros _. split; [apply rp_abs; eapply repr_calm; [|exact Hcalm]; by apply sided_repr; [apply Hi|]|].
    eexists. split; [apply with_rq_lookup|done].
Qed.
End Online.
