(* ===== verification/RtLimits.v ===== *)
(** * The real-time class: the limits of the administrator

    sched_rt_handler() validates the two limits, gives every CPU the new
    runtime and installs the limits.  A write that is refused because
    of the deadline class comes too late: the run queues already have the new
    runtime ([handler_busy]). *)

From S2P Require Import Prelude Wait Tasklet Cmgroup Sched CmInv CmTask CmSys RtRq RtPush RtInv.
From S2P Require Import RtQueue RtExec RtOps RtBalance RtStep RtTime RtBand.
From S2P Require Import RtHotplug.
Local Open Scope Z_scope.

Section Limits.
Context {RL : RtLib} {LL : RtLaws RL}.
Implicit Types (w : rtw) (a : view) (r : rq) (s : sysctls) (c : nat).

Definition all_runtime (v : Z) w : rtw :=
  set_rqs ((fun r => set_rt (set_rt_runtime v (rt r)) r) <$> rqs w) w.
Definition new_limits (period runtime : Z) w : sysctls :=
  set_sysctl_rt_period (u32 period) (set_sysctl_rt_runtime (s32 runtime) (sys w)).
Definition installed (s : sysctls) w : rtw :=
  set_rd (set_dl_bw (if global_rt_runtime s =? RUNTIME_INF then u64 (-1)
                     else to_ratio (global_rt_period s) (global_rt_runtime s)) (rd w))
    (set_rt_b (set_rt_period (global_rt_period s) (set_rt_b_runtime (global_rt_runtime s) (rt_b w)))
      (all_runtime (global_rt_runtime s) (set_sys s w))).

(** the four ways a write can end *)
Lemma handler_eq w period runtime :
  let s := new_limits period runtime w in
  sched_rt_handler true 0 period runtime w =
    if negb (sched_rt_global_validate s =? 0) then Ret (sched_rt_global_validate s) w
    else if to_ratio (global_rt_period s) (global_rt_runtime s) <? dl_total_bw (rd w)
    then Ret (- EBUSY) (all_runtime (global_rt_runtime s) w)
    else Ret 0 (installed s w).
Proof.
  intros s. unfold sched_rt_handler. rewrite (bind_run get _ w w w eq_refl). fold (new_limits period runtime w). fold s.
  rewrite (bind_run (modify (set_sys s)) _ tt w (set_sys s w) eq_refl).
  change ((0 =? 0) && true) with true. cbn match. rewrite (bind_run get _ (set_sys s w) (set_sys s w) _ eq_refl).
  change (sys (set_sys s w)) with s. destruct (negb (sched_rt_global_validate s =? 0)); [by destruct w|].
  rewrite (bind_run sched_rt_global_constraints _ tt (set_sys s w) (all_runtime (global_rt_runtime s) (set_sys s w)) eq_refl).
  set (w1 := all_runtime _ _). rewrite (bind_run get _ w1 w1 w1 eq_refl).
  unfold sched_dl_global_constraints. change (sys w1) with s. change (rd w1) with (rd w).
  destruct (_ <? _); [by destruct w|]. done.
Qed.

Lemma runtime_bounds s : - 2 ^ 31 <= sysctl_rt_runtime s < 2 ^ 31 ->
  global_rt_runtime s = RUNTIME_INF \/ 0 <= global_rt_runtime s < 2 ^ 41.
Proof.
  intros H. unfold global_rt_runtime. destruct (Z.ltb_spec (sysctl_rt_runtime s) 0); [by left|right].
  unfold NSEC_PER_USEC. rewrite u64_id; lia.
Qed.

Lemma period_bounds s : 0 <= sysctl_rt_period s < 2 ^ 32 -> sched_rt_global_validate s = 0 ->
  0 < global_rt_period s < 2 ^ 63.
Proof.
  intros H. unfold sched_rt_global_validate. destruct (Z.leb_spec (sysctl_rt_period s) 0); [done|]. intros _.
  unfold global_rt_period, NSEC_PER_USEC. rewrite u64_id; lia.
Qed.

Lemma new_limits_bounds period runtime w :
  0 <= sysctl_rt_period (new_limits period runtime w) < 2 ^ 32 /\
  - 2 ^ 31 <= sysctl_rt_runtime (new_limits period runtime w) < 2 ^ 31.
Proof.
  cbn. unfold u32, s32. pose proof (Z.mod_pos_bound period (2 ^ 32) eq_refl).
  pose proof (Z.mod_pos_bound (runtime + 2 ^ 31) (2 ^ 32) eq_refl). lia.
Qed.

(** the queues do not see the limits *)
Lemma installed_kept s w : rt_inv w -> kept w (installed s w).
Proof.
  intros Hi. set (v := global_rt_runtime s).
  assert (Hc : calm w (all_runtime v w)).
  { split; try done. cbn. rewrite <- map_fmap_compose. by apply map_fmap_ext. }
  pose proof (kept_calm w _ Hi Hc) as [[[A [W1 W2 W3] E] V] [P1 P2 P3]].
  split; [|split; [exact P1|exact P2|exact P3]].
  apply (rt_inv_repr _ (abs (all_runtime v w))); [|exact V]. split; [|by split|done].
  destruct A. by split.
Qed.
Lemma installed_rq s w c y :
  f_rqs (fr (installed s w)) !! c = Some y ->
  exists r, rqs w !! c = Some r /\ y = set_runtime (global_rt_runtime s) (bw_rq r).
Proof.
  cbn. rewrite !lookup_fmap. destruct (rqs w !! c) as [r|]; [|done]. cbn. intros [= <-]. by exists r.
Qed.

(** all CPUs are online, so all get the same runtime and nobody owes anything *)
Lemma installed_tb s w :
  tb_inv w -> (forall c r, rqs w !! c = Some r -> online r = true) -> Z.of_nat (size (rqs w)) < 2 ^ 22 ->
  - 2 ^ 31 <= sysctl_rt_runtime s < 2 ^ 31 -> 0 <= sysctl_rt_period s < 2 ^ 32 -> sched_rt_global_validate s = 0 ->
  scheduler_running s = scheduler_running (sys w) -> tb_inv (installed s w).
Proof.
  intros [Hok Hinj] Hon Hsz Hr Hp Hv Hrun. set (v := global_rt_runtime s). set (w' := installed s w).
  assert (Hx : forall c y, f_rqs (fr w') !! c = Some y -> exists r, rqs w !! c = Some r /\ y = set_runtime v (bw_rq r))
    by apply installed_rq.
  assert (Hd : dom (f_rqs (fr w')) = dom (f_rqs (fr w))) by (cbn; by rewrite !dom_fmap_L).
  assert (Hs : f_span (fr w') = dom (rqs w)).
  { pose proof (tb_span _ Hok) as E. cbn in E |- *. by rewrite dom_fmap_L in E. }
  split; [split|].
  - rewrite Hd, Hs. cbn. by rewrite dom_fmap_L.
  - rewrite (total_ext _ (fun _ => 0)); [unfold total; by induction (elements _)|]. intros c _. unfold share.
    destruct (f_rqs (fr w') !! c) as [y|] eqn:Ey; [|done]. destruct (Hx c y Ey) as (r & _ & ->). cbn. destruct (enabled _); lia.
  - intros c y (r & _ & ->)%Hx. cbn. destruct (runtime_bounds s Hr) as [E|E]; unfold v; [by rewrite E|lia].
  - destruct (runtime_bounds s Hr) as [E|E]; [left|right].
    + split; [done|]. intros c y (r & _ & ->)%Hx. unfold enabled, v. cbn. by rewrite E.
    + rewrite Hs, size_dom. change (f_limit (fr w')) with (global_rt_runtime s). split; [lia|]. nia.
  - by apply period_bounds.
  - intros c y (r & Hr0 & ->)%Hx. cbn. by rewrite (Hon c r Hr0).
  - cbn. rewrite Hrun. apply (tb_started _ Hok).
  - apply (tb_now _ Hok).
  - intros c y (r & Hr0 & ->)%Hx. apply (tb_clock _ Hok c _ (fr_lookup w c r Hr0)).
  - intros c y e (r & Hr0 & ->)%Hx. apply (tb_curr _ Hok c _ e (fr_lookup w c r Hr0)).
  - intros c d y z (r1 & H1 & ->)%Hx (r2 & H2 & ->)%Hx E.
    by apply (Hinj c d (bw_rq r1) (bw_rq r2)); [apply fr_lookup..|].
Qed.

Lemma limits_step w period runtime :
  rt_inv w -> tb_inv w -> (forall c r, rqs w !! c = Some r -> online r = true) -> Z.of_nat (size (rqs w)) < 2 ^ 22 ->
  (forall w', sched_rt_handler true 0 period runtime w <> Ret (- EBUSY) w') ->
  runs (sched_rt_handler true 0 period runtime) w (fun _ w' => kept w w' /\ tb_inv w').
Proof.
  intros Hi Hw Hon Hsz Hb. unfold runs. rewrite handler_eq in *. set (s := new_limits period runtime w) in *.
  destruct (new_limits_bounds period runtime w) as [B1 B2]. fold s in B1, B2.
  destruct (Z.eqb_spec (sched_rt_global_validate s) 0) as [Ev|Ev]; cbn [negb] in *; [|by eexists _, w].
  destruct (_ <? _); [by destruct (Hb _ eq_refl)|]. eexists _, _. split; [done|]. split; [by apply installed_kept|].
  by apply installed_tb.
Qed.
End Limits.
