(* ===== verification/RtSys.v ===== *)
(** * The real-time class as a system

    __schedule() charges the task that leaves and starts to charge the one it
    picks; the invariant of time holds for the new running task. *)

From S2P Require Import Prelude Wait Tasklet Cmgroup Sched CmInv CmTask CmSys RtRq RtPush RtInv RtQueue RtExec RtOps RtBalance RtStep.
From S2P Require Import RtParam RtTime RtBand RtHotplug RtLimits.
Local Open Scope Z_scope.

Section Turn.
Context {RL : RtLib} {LL : RtLaws RL}.
Implicit Types (w : rtw) (a : view) (v : rq_view) (r : rq) (p : rt_task) (c d t : nat).

Lemma wp_runs {A} (m : W A) w (P Q : A -> rtw -> Prop) : runs m w P -> wp m w Q -> wp m w (fun b w' => P b w' /\ Q b w').
Proof. intros (b & w' & E & H) HQ. unfold wp in *. by rewrite E in *. Qed.

(** the task [n] may start to run on [c] *)
Definition ready w c (n : nat) : Prop :=
  forall e, f_tasks (fr w) !! n = Some (rt_class, e) -> exists y, f_rqs (fr w) !! c = Some y /\ e = f_clock_task y.

(** no other CPU runs what [c] has queued *)
Definition own_head w c : Prop :=
  forall r t d y, rqs w !! c = Some r -> pick_next_rt_entity (rt r) = Some t -> f_rqs (fr w) !! d = Some y ->
    f_curr y = t -> d = c.

Lemma pick_time w c :
  tb_inv w -> own_head w c ->
  wp (pick_next_task_rt c) w (fun o w' => tb_inv w' /\ flow (fr w) (fr w') /\ forall t, o = Some t -> ready w' c t).
Proof.
  intros Hw Hown. unfold pick_next_task_rt, _pick_next_task_rt.
  assert (Hrest : forall o w1, tb_inv w1 -> flow (fr w) (fr w1) -> (forall t, o = Some t -> ready w1 c t) ->
    wp (match o with Some t => dequeue_pushable_task c t | None => mret tt end ;;
        b ← has_pushable_tasks c; r ← cpu_rq c; put_rq c (set_post_schedule b r) ;; mret o) w1
      (fun o w' => tb_inv w' /\ flow (fr w) (fr w') /\ forall t, o = Some t -> ready w' c t)).
  { intros o w1 H1 F1 R1. assert (HK : wp (match o with Some t => dequeue_pushable_task c t | None => mret tt end ;;
        b ← has_pushable_tasks c; r ← cpu_rq c; put_rq c (set_post_schedule b r) ;; mret o) w1 (fun o' w' => o' = o /\ fr w' = fr w1)).
    { repeat wp_step; split; try done; fr_solve. }
    eapply wp_mono; [exact HK|]. intros ? w2 [-> E]. unfold tb_inv, ready in *. by rewrite E. }
  wp_step. wp_step. apply wp_cpu_rq. intros r Hr. destruct (_ || _); [apply wp_ret; by apply Hrest|].
  wp_step. apply wp_deref. intros t Et. wp_step. apply wp_get_rt. intros p Hp. wp_step. apply wp_put_rt. apply wp_ret.
  set (w1 := with_rt t _ w). destruct (clock_bounds w c r Hw Hr) as (B1 & B2 & B3).
  assert (H1 : tb_inv w1 /\ flow (fr w) (fr w1)).
  { apply tb_inv_flow; [done| |]; unfold w1; rewrite fr_rt.
    - apply tb_task; [apply Hw|]. intros d y Hy Ec _. assert (d = c) as -> by by apply (Hown r t d y).
      rewrite (fr_lookup w c r Hr) in Hy. injection Hy as <-. cbn. lia.
    - by apply (flow_tk _ _ (bw_task p)); [apply fr_task|]. }
  destruct H1 as [H1 F1]. apply Hrest; [done|done|]. intros ? [= <-] e He. exists (bw_rq r).
  split; [by apply (fr_lookup w1)|]. unfold w1 in He. rewrite fr_rt in He. cbn in He. rewrite lookup_insert_eq in He.
  by injection He as _ <-.
Qed.
(** what is queued on [c] runs nowhere else, while the queue and the running
    tasks are those of [w] *)
Lemma own_head_of w w2 a2 c v2 :
  rt_inv w -> repr w2 a2 -> flow (fr w) (fr w2) -> v_rqs a2 !! c = Some v2 ->
  (exists r, rqs w !! c = Some r /\ v_queue v2 = queue (rt r)) -> own_head w2 c.
Proof.
  intros [Hr Ha] H2 F2 Hv2 (r & Hrc & Eq) r2 t d y Hr2 Et Hy Ec.
  rewrite (repr_rq_back w2 a2 c r2 H2 Hr2) in Hv2. injection Hv2 as <-. cbn in Eq.
  rewrite (pick_entity_head _ _ (arr_rqs w2 (rp_arr _ _ H2) c r2 Hr2)), Eq in Et.
  assert (Hin : t ∈ concat (queue (rt r))) by (destruct (concat (queue (rt r))); [done|]; injection Et as ->; by left).
  apply (vo_place _ _ Ha c _ t (repr_rq_back w _ c r Hr Hrc)) in Hin as (p & x & _ & Hx & _ & _ & Hc).
  destruct (fmap_lookup_eq f_curr (f_rqs (fr w2)) (f_rqs (fr w)) d y (fl_curr _ _ F2) Hy) as (y0 & Hy0 & E0).
  cbn in Hy0. rewrite lookup_fmap in Hy0. destruct (rqs w !! d) as [rd|] eqn:Ed; [|done]. injection Hy0 as <-.
  destruct (vo_curr _ _ Ha d _ (repr_rq_back w _ d rd Hr Ed)) as (? & x' & _ & Hx' & _ & Hd). cbn in Hx, Hx', E0.
  congruence.
Qed.

(** a task of another class is always ready *)
Lemma foreign_ready w w2 c t : rt_inv w -> flow (fr w) (fr w2) -> foreign (abs w) c t -> ready w2 c t.
Proof.
  intros [Hr _] F (p & x & Hp & _ & Hcl & _) e He. destruct Hcl.
  destruct (repr_rt w _ t p Hr Hp) as (p' & Hp' & <-). pose proof (f_equal (lookup t) (fl_class _ _ F)) as E.
  cbn in E. rewrite !lookup_fmap, Hp' in E. cbn in He. rewrite lookup_fmap in He. destruct (rts w2 !! t) as [r|]; [|done].
  cbn in He, E. unfold bw_task in He. cbn. congruence.
Qed.

(** the switch itself *)
Lemma turn_tb w c n m :
  tb_inv w -> ready w c n ->
  wp (p ← get_rt m; put_rt m (set_need_resched false p) ;;
      r ← cpu_rq c; put_rq c (set_skip_clock_update 0 r) ;;
      if decide (m = n) then mret tt
      else r ← cpu_rq c; put_rq c (set_curr n r) ;; q ← get_rt n; put_rt n (set_on_cpu true q) ;;
           p ← get_rt m; put_rt m (set_on_cpu false p)) w (fun _ w' => tb_ok (fr w')).
Proof.
  intros Hw Hn. wp_step. apply wp_get_rt. intros p Hp. wp_step. apply wp_put_rt. set (w1 := with_rt _ _ w).
  assert (E1 : fr w1 = fr w) by by eapply fr_with_rt.
  wp_step. apply wp_cpu_rq. intros r Hr. wp_step. apply wp_put_rq. set (w2 := with_rq _ _ w1).
  assert (E2 : fr w2 = fr w) by (rewrite <- E1; by eapply fr_with_rq). clearbody w2.
  case_decide; [apply wp_ret; rewrite E2; apply Hw|]. wp_step. apply wp_cpu_rq. intros r2 Hr2. wp_step. apply wp_put_rq.
  set (w3 := with_rq _ _ w2). assert (H3 : tb_ok (fr w3)).
  { unfold w3. rewrite fr_rq. pose proof (fr_lookup w2 c r2 Hr2) as Hl. rewrite E2 in *.
    destruct (tb_clock _ (proj1 Hw) c _ Hl). apply (tb_time _ c (bw_rq r2)); try done; [apply Hw|].
    intros e He. destruct (Hn e He) as (y & Hy & ->). rewrite Hl in Hy. injection Hy as <-. cbn in *. lia. }
  assert (HK : keeps (q ← get_rt n; put_rt n (set_on_cpu true q) ;; p ← get_rt m; put_rt m (set_on_cpu false p))) by keep.
  apply (wp_keeps _ w3 _ HK). intros ? w4 ->. done.
Qed.
Lemma switch_tb w c r hi lo :
  rt_inv w -> tb_inv w -> rqs w !! c = Some r ->
  (forall t, hi = Some t -> foreign (abs w) c t) -> foreign (abs w) c lo ->
  wp (switch_rt hi lo c) w (fun _ w' => tb_ok (fr w')).
Proof.
  intros Hi Hw Hr Hhi Hlo. destruct (curr_some w c r Hi Hr) as (q & x & Hq & Hx & _).
  pose proof (repr_rq_back w _ c r (proj1 Hi) Hr) as Hv. pose proof (repr_rt_back w _ _ q (proj1 Hi) Hq) as Hqv.
  unfold switch_rt. wp_step. apply wp_cpu_rq. intros r0 Hr0. simplify_eq. cbv zeta. wp_step. apply wp_get_rt. intros q0 Hq0.
  rewrite Hq in Hq0. injection Hq0 as <-. wp_step. apply wp_task_on_rq. intros o. wp_step.
  eapply wp_mono; [apply wp_runs; [|apply (kt_when (o || _) _ (update_clock_time c)); done]|].
  { apply (runs_calm _ w _ (proj1 Hi)), calms_when. intros _. by apply (update_rq_clock_calm c r). }
  intros _ w1 (H1 & T1 & F1). wp_step. set (b := bool_decide (class q = rt_class)).
  eapply wp_mono; [apply wp_runs; [|apply (kt_when b _ (put_prev_time c (curr r))); done]|].
  { apply (runs_mono _ _ (fun _ w' => exists v2, repr w' (v_upd c v2 (abs w)) /\ v_queue v2 = queue (rt r))); [|intros ? ? H; exact H].
    unfold b. case_bool_decide as Hcl; cbn [when]; [|apply runs_ret; exists (rq_abs r); by rewrite v_upd_id].
    eapply runs_mono; [apply (put_prev_task_rt_ok w1 _ c _ (curr r) (task_abs q) H1 Hv Hqv)|].
    - intros Hin. split_and!; [done|done|by apply (vo_task _ _ (proj2 Hi) _ _ Hqv)..].
    - intros ? w2 H2. eexists. split; [exact H2|]. by destruct (_ && _). }
  intros _ w2 ((v2 & H2 & Eq) & T2 & F2). assert (F : flow (fr w) (fr w2)) by by trans (fr w1).
  apply wp_bind. apply (wp_mono _ _ (fun n w3 => tb_inv w3 /\ ready w3 c n)); [|intros n w3 [? ?]; by apply turn_tb].
  destruct hi as [t|]; [apply wp_ret; split; [done|]; by apply (foreign_ready w), Hhi|].
  wp_step. eapply wp_mono; [apply pick_time; [done|]|].
  - eapply (own_head_of w w2); [done|exact H2|done|apply v_upd_lookup|by exists r].
  - intros n w3 (T3 & F3 & R3). apply wp_ret. split; [done|]. destruct n as [t|]; [by apply R3|].
    apply (foreign_ready w); [done|by trans (fr w2)|done].
Qed.

(** two CPUs never run the same task *)
Lemma placed_inj w : rt_inv w -> curr_inj (fr w).
Proof.
  intros [Hr Ha] c d x y. cbn. rewrite !lookup_fmap.
  destruct (rqs w !! c) as [rc|] eqn:Ec; [|done]. destruct (rqs w !! d) as [rd|] eqn:Ed; [|done].
  cbn. intros [= <-] [= <-] E. cbn in E.
  destruct (vo_curr _ _ Ha c _ (repr_rq_back w _ c rc Hr Ec)) as (? & x1 & _ & Hx1 & _ & H1).
  destruct (vo_curr _ _ Ha d _ (repr_rq_back w _ d rd Hr Ed)) as (? & x2 & _ & Hx2 & _ & H2).
  cbn in Hx1, Hx2. congruence.
Qed.
End Turn.

(** ** Events

    The events that drive the class, one operation each, composed from the code
    of rt.c and core.c.  [rt_step_safe] is the heart of the component: in a state
    that satisfies the invariants every valid event runs without an oops
    (BUG_ON, a null or dangling pointer, an index out of range), and both
    invariants hold afterwards; it returns if nothing interferes with the locks.
    [contend] is the interference at the points where a lock is given up. *)

Inductive rt_op :=
| Wake (t : nat)                                (** try_to_wake_up() of a task of the class *)
| Sleep (fatal : bool) (c : nat)                (** __schedule(): the running task sleeps *)
| Switch (hi : option nat) (lo c : nat)         (** __schedule(): the next task *)
| Tick (c : nat)                                (** scheduler_tick() *)
| Yield (c : nat)                               (** sys_sched_yield() *)
| Affinity (t : nat) (m : gset nat)             (** set_cpus_allowed_ptr() *)
| SetPrio (t : nat) (prio : Z)                  (** rt_mutex_setprio() *)
| Push (c : nat)                                (** post_schedule() *)
| Pull (c prev : nat)                           (** pre_schedule() *)
| Timer (overruns : list Z) (idle : bool)       (** the period timer *)
| Clock (ns ticks : Z)                          (** time passes *)
| Offline (c : nat)                             (** set_rq_offline() *)
| Online (c : nat)                              (** set_rq_online() *)
| Limits (period runtime : Z).                  (** sched_rt_handler() *)

Section System.
Context {RL : RtLib}.
Implicit Types (w : rtw) (a : view) (r : rq) (p : rt_task) (x : task_struct) (c d t : nat).
Variables (HZ : Z) (contend : nat -> nat -> rtw -> option rtw) (fuel : nat).

(** scheduler_tick(), up to the call of the class *)
Definition scheduler_tick_rt (c : nat) : W unit := update_rq_clock c ;; r ← cpu_rq c; task_tick_rt HZ c (curr r).

Definition exec (o : rt_op) : W unit :=
  match o with
  | Wake t => c ← task_cpu t; ttwu_do_activate_rt contend fuel c t
  | Sleep fatal c => schedule_out_rt fatal c
  | Switch hi lo c => switch_rt hi lo c
  | Tick c => scheduler_tick_rt c
  | Yield c => yield_task_rt c
  | Affinity t m => do_set_cpus_allowed t m
  | SetPrio t n => rt_mutex_setprio contend t n
  | Push c => post_schedule_rt contend fuel c
  | Pull c prev => pre_schedule_rt contend c prev
  | Timer l i => sched_rt_period_timer l i
  | Clock n j => modify (fun w => set_jiffies j (set_now n w))
  | Offline c => set_rq_offline c
  | Online c => set_rq_online c
  | Limits p r => _ ← sched_rt_handler true 0 p r; mret tt
  end.

(** a task of the class, with its two records and its CPU *)
Definition rt_member w t p x : Prop :=
  rts w !! t = Some p /\ tasks (krn w) !! t = Some x /\ class p = rt_class /\ is_Some (rqs w !! tcpu x).

(** the running task of [c] belongs to the class *)
Definition runs_rt w c : Prop := exists r p x, rqs w !! c = Some r /\ rt_member w (curr r) p x.

Definition valid w (o : rt_op) : Prop :=
  match o with
  | Wake t => exists p x, rt_member w t p x /\ on_rq x = false
  | Sleep _ c => exists r p x, rqs w !! c = Some r /\ rt_member w (curr r) p x /\ on_rq x = true
  | Switch hi lo c => is_Some (rqs w !! c) /\ (forall t, hi = Some t -> foreign (abs w) c t) /\ foreign (abs w) c lo
  | Tick c | Yield c => runs_rt w c
  | Affinity t m => m ⊆ dom (rqs w) /\ exists p x, rts w !! t = Some p /\ tasks (krn w) !! t = Some x /\ is_Some (rqs w !! tcpu x)
  | SetPrio t n => 0 <= n < MAX_RT_PRIO /\ exists p x, rt_member w t p x
  | Push c => is_Some (rqs w !! c)
  | Pull c prev => is_Some (rqs w !! c) /\ is_Some (rts w !! prev)
  | Timer l _ => Forall (Z.le 0) l
  | Clock n _ => now w <= n < 2 ^ 63
  | Offline c | Online c => is_Some (rqs w !! c)
  | Limits p r => (forall c r0, rqs w !! c = Some r0 -> online r0 = true) /\ Z.of_nat (size (rqs w)) < 2 ^ 22 /\
      forall w', sched_rt_handler true 0 p r w <> Ret (- EBUSY) w'
  end.

(** ** The invariant *)

Context {LL : RtLaws RL}.
Definition rt_sys_inv w : Prop := rt_inv w /\ tb_inv w.

(** what others do while a lock is given up keeps each invariant *)
Definition polite_sys : Prop :=
  polite contend /\ forall c d w w', contend c d w = Some w' -> tb_inv w -> tb_inv w'.

(** a run that keeps the first invariant, with the second *)
Lemma safe_both {A} E (m : W A) w (P : A -> rtw -> Prop) (Q : A -> rtw -> Prop) :
  safe E (m w) P -> wp m w Q -> safe E (m w) (fun b w' => P b w' /\ Q b w').
Proof. unfold safe, wp. by destruct (m w). Qed.

Lemma step_both {A} E (m : W A) w :
  rt_sys_inv w -> safe E (m w) (fun _ w' => kept w w') -> wp m w (fun _ w' => tb_inv w') ->
  safe E (m w) (fun _ w' => kept w w' /\ rt_sys_inv w').
Proof.
  intros Hi H1 H2. eapply safe_mono; [apply safe_both; [exact H1|exact H2]|done|].
  intros ? w' [H H']. split; [done|]. split; [apply H|done].
Qed.

Lemma step_time {A} E (m : W A) w :
  rt_sys_inv w -> runs m w (fun _ w' => kept w w') -> keeps_time m ->
  safe E (m w) (fun _ w' => kept w w' /\ rt_sys_inv w').
Proof.
  intros Hi H1 H2. apply step_both; [done|by apply safe_runs|]. eapply wp_mono; [apply H2, Hi|]. by intros ? ? [].
Qed.

Lemma step_tb {A} E (m : W A) w :
  runs m w (fun _ w' => kept w w' /\ tb_inv w') -> safe E (m w) (fun _ w' => kept w w' /\ rt_sys_inv w').
Proof.
  intros H. apply safe_runs. eapply runs_mono; [exact H|]. intros ? w' [H1 H2]. split; [done|]. split; [apply H1|done].
Qed.

Lemma yield_step w c : rt_inv w -> is_Some (rqs w !! c) -> runs (yield_task_rt c) w (fun _ w' => kept w w').
Proof.
  intros Hi [r Hr]. unfold yield_task_rt. eapply runs_read; [by apply cpu_rq_eq|].
  destruct (curr_some w c r Hi Hr) as (q & y & Hq & _). by apply requeue_step.
Qed.

Lemma tick_event w c r : rt_inv w -> rqs w !! c = Some r -> runs (scheduler_tick_rt c) w (fun _ w' => kept w w').
Proof.
  intros Hi Hr. unfold scheduler_tick_rt. apply runs_then; [apply runs_calms; [done|]; by eapply update_rq_clock_calm|].
  intros ? w1 H1. destruct (kept_rq w w1 c H1 ltac:(by eexists)) as [r1 Hr1]. eapply runs_read; [by apply cpu_rq_eq|].
  destruct (curr_some w1 c r1 (proj1 H1) Hr1) as (q & y & Hq & _). apply tick_step; [apply H1|by eexists|by eexists].
Qed.

Lemma pre_schedule_step w c prev :
  polite contend -> rt_inv w -> is_Some (rqs w !! c) -> is_Some (rts w !! prev) ->
  runs (pre_schedule_rt contend c prev) w (fun _ w' => kept w w').
Proof.
  intros Hp Hi [r Hr] [p Ht]. unfold pre_schedule_rt. eapply runs_read; [by apply rt_rq_of_eq|].
  eapply runs_read; [by apply get_rt_eq|]. destruct (_ <? _); cbn [when]; [|by apply runs_ret].
  eapply runs_bind; [by apply (pull_rt_task_ok contend Hp)|]. intros ? w1 H1. by apply runs_ret.
Qed.

Lemma clock_tb n j w : tb_inv w -> now w <= n < 2 ^ 63 -> tb_inv (set_jiffies j (set_now n w)).
Proof.
  intros [[] Hj] Hn. split; [|done]. split; try done; [apply Hn|].
  intros c x Hx. destruct (tb_clock c x Hx) as [? [? ?]]. cbn in *. lia.
Qed.

Lemma clock_kept n j w : rt_inv w -> kept w (set_jiffies j (set_now n w)).
Proof. intros Hi. apply kept_calm; [done|]. by split. Qed.
Lemma rt_step w o :
  polite_sys -> rt_sys_inv w -> valid w o ->
  safe (starved contend fuel w) (exec o w) (fun _ w' => kept w w' /\ rt_sys_inv w').
Proof.
  intros [HC HT] Hs Hv. pose proof Hs as [Hi Hw]. destruct o; cbn [valid exec] in *.
  - destruct Hv as (p & x & (Hp & Hx & Hcl & Hc) & Ho). apply step_both; [done| |].
    + rewrite (bind_run _ _ _ _ _ (task_cpu_run w _ t x (proj1 Hi) Hx)). by apply (wake_step _ _ _ _ _ p x).
    + wp_step. apply wp_task_cpu. intros c. by apply ttwu_tb.
  - destruct Hv as (r & p & x & Hr & (Hp & Hx & _ & _) & Ho). apply step_both; [done| |by apply schedule_out_tb].
    by apply safe_runs, (sleep_step _ _ r p x).
  - destruct Hv as ([r Hr] & Hhi & Hlo). pose proof (switch_step w c r hi lo Hi Hr Hhi Hlo) as HR.
    apply step_both; [done|by apply safe_runs|]. eapply wp_mono; [exact (wp_runs _ _ _ _ HR (switch_tb w c r hi lo Hi Hw Hr Hhi Hlo))|].
    intros ? w' [Hk Ht]. split; [done|]. by apply placed_inj, Hk.
  - destruct Hv as (r & p & x & Hr & Hp & _). apply step_time; [done|by eapply tick_event|].
    apply kt_bind; [apply update_clock_time|]. intros ?. apply kt_bind; [kt|]. intros r0. apply task_tick_time.
  - destruct Hv as (r & p & x & Hr & Hp & _). apply step_time; [done|by apply yield_step; [|eexists]|].
    apply keeps_keeps_time. auto with rt_keeps.
  - destruct Hv as (Hm & p & x & Hp & Hx & Hc). apply step_time; [done| |apply keeps_keeps_time; auto with rt_keeps].
    eapply runs_mono; [by apply (affinity_step w t p x)|]. by intros ? ? [].
  - destruct Hv as (Hn & p & x & (Hp & Hx & Hcl & Hc)). apply step_both; [done| |].
    + by apply safe_runs, (setprio_step _ _ _ p x).
    + by apply (setprio_tb contend HT t prio w p).
  - apply step_both; [done|by apply push_tasks_step|by apply push_rt_tasks_tb].
  - destruct Hv as [Hc Hp]. apply step_both; [done|by apply safe_runs, pre_schedule_step|by apply pre_schedule_tb].
  - apply step_time; [done| |by apply period_timer_time]. apply runs_calms; [done|]. apply period_timer_calm, Hi.
  - apply safe_runs. eexists _, _. split; [done|]. pose proof (clock_kept ns ticks w Hi) as HK.
    split; [done|]. split; [apply HK|by apply clock_tb].
  - destruct Hv as [r Hr]. apply step_tb. eapply runs_mono; [by apply (offline_step w c r)|]. by intros ? ? (? & ? & _).
  - destruct Hv as [r Hr]. apply step_tb. eapply runs_mono; [by apply (online_step w c r)|]. by intros ? ? (? & ? & _).
  - destruct Hv as (Hon & Hsz & Hb). apply step_tb. eapply runs_bind; [by apply limits_step|].
    intros ? w1 H1. by apply runs_ret.
Qed.

(** ** Executions *)

(** [steps w l w']: the events [l] happen one after the other, each of them
    valid when it happens *)
Inductive steps : rtw -> list rt_op -> rtw -> Prop :=
| steps_nil w : steps w [] w
| steps_cons w o w1 l w2 : valid w o -> exec o w = Ret tt w1 -> steps w1 l w2 -> steps w (o :: l) w2.

Lemma steps_inv w l w' : polite_sys -> rt_sys_inv w -> steps w l w' -> rt_sys_inv w' /\ persists w w'.
Proof.
  intros HC Hi H. induction H as [|w o w1 l w2 Hv E _ IH]; [done|].
  pose proof (rt_step w o HC Hi Hv) as Hs. rewrite E in Hs. destruct Hs as [[_ Hp] Hi1].
  destruct (IH Hi1) as [? Hl]. split; [done|]. by trans w1.
Qed.
End System.
