(* ===== verification/RtBoot.v ===== *)
(** * The real-time class at boot, and a library for it

    init_rt_rq() and init_rt_bandwidth(); a system in which no real-time task
    is runnable satisfies the invariants.  [demo_lib] is one implementation of
    the functions the class takes from elsewhere: it shows that what the
    theorems assume of them can hold. *)

From S2P Require Import Prelude Wait Tasklet Cmgroup Sched CmInv CmTask CmSys CmTop RtRq RtPush.
From S2P Require Import RtInv RtQueue RtExec RtOps RtBalance RtStep RtParam RtTime.
From S2P Require Import RtBand RtSys.
Local Open Scope Z_scope.

(** INIT_LIST_HEAD() and __clear_bit() for every priority, then the delimiter *)
Definition init_rt_rq (x : rt_rq) : rt_rq :=
  let bits := foldr (fun i b => Z.clearbit b (Z.of_nat i)) (bitmap x) (seq 0 (Z.to_nat MAX_RT_PRIO)) in
  RtRq (Z.setbit bits MAX_RT_PRIO) (replicate (Z.to_nat MAX_RT_PRIO) []) (rt_nr_running x) MAX_RT_PRIO MAX_RT_PRIO
    0 (rt_nr_total x) false [] false 0 0.

Definition init_rt_bandwidth (period runtime : Z) : rt_bandwidth := RtBandwidth period runtime false.

(** the memory of a run queue before it is initialised *)
Definition zero_rt_rq : rt_rq := RtRq 0 [] 0 0 0 0 0 false [] false 0 0.

Lemma init_bits n b i :
  0 <= i -> Z.testbit (foldr (fun j b => Z.clearbit b (Z.of_nat j)) b (seq 0 n)) i =
    if i <? Z.of_nat n then false else Z.testbit b i.
Proof.
  intros Hi. assert (H : forall l, Z.testbit (foldr (fun j b => Z.clearbit b (Z.of_nat j)) b l) i =
    if bool_decide (Z.to_nat i ∈ l) then false else Z.testbit b i).
  { induction l as [|j l IH]; [done|]. cbn. rewrite Z.clearbit_eqb, IH. case_bool_decide as E1; case_bool_decide as E2.
    - done.
    - rewrite not_elem_of_cons in E2. tauto.
    - apply elem_of_cons in E2 as [E2|?]; [|done]. rewrite (proj2 (Z.eqb_eq (Z.of_nat j) i)) by lia. by rewrite andb_false_r.
    - rewrite not_elem_of_cons in E2. rewrite (proj2 (Z.eqb_neq (Z.of_nat j) i)) by lia. by rewrite andb_true_r. }
  rewrite H. case_bool_decide as E; rewrite elem_of_seq in E; destruct (Z.ltb_spec i (Z.of_nat n)); try done; lia.
Qed.

Lemma concat_replicate_nil n : concat (replicate n ([] : list nat)) = [].
Proof. by induction n. Qed.

(** an initialised run queue is a well-formed empty one *)
Lemma init_rt_rq_ok ts x : rt_nr_running x = 0 -> rt_nr_total x = 0 -> rq_ok ts (init_rt_rq x).
Proof.
  intros Hr Ht. assert (Hd : Z.testbit (bitmap (init_rt_rq x)) MAX_RT_PRIO = true) by by apply Z.setbit_eq.
  assert (Hb : forall i, 0 <= i < MAX_RT_PRIO -> Z.testbit (bitmap (init_rt_rq x)) i = false).
  { intros i Hi. cbn [bitmap init_rt_rq]. rewrite Z.setbit_neq, init_bits by (unfold MAX_RT_PRIO in *; lia).
    by rewrite (proj2 (Z.ltb_lt _ _)) by (unfold MAX_RT_PRIO in *; lia). }
  split; cbn [queue rt_nr_running rt_nr_total rt_nr_migratory hp_curr hp_next overloaded pushable_tasks init_rt_rq];
    rewrite ?concat_replicate_nil, ?length_replicate; try done.
  - by intros i q t [-> _]%lookup_replicate ?%not_elem_of_nil.
  - constructor.
  - intros i q [-> Hi]%lookup_replicate. rewrite bool_decide_eq_false_2 by tauto. apply Hb. unfold MAX_RT_PRIO in *. lia.
  - symmetry. by apply ffs_unique.
  - constructor.
  - constructor.
  - by intros p t ?%not_elem_of_nil.
Qed.

(** ** A system without runnable real-time tasks *)

Section Quiet.
Context {RL : RtLib} {LL : RtLaws RL}.
Implicit Types (w : rtw) (r : rq) (p : rt_task) (x : task_struct) (c t : nat).

Record quiet w : Prop := {
  qt_rq : forall c r, rqs w !! c = Some r -> rt_core (rt r) = rt_core (init_rt_rq zero_rt_rq) /\ online r = true /\
    cpupri_level (pri w) c = MAX_RT_PRIO /\
    exists p x, rts w !! curr r = Some p /\ tasks (krn w) !! curr r = Some x /\ on_cpu p = true /\ tcpu x = c;
  qt_off : forall t p x, rts w !! t = Some p -> tasks (krn w) !! t = Some x -> class p = rt_class -> on_rq x = false;
  qt_task : forall t p, rts w !! t = Some p -> (class p = rt_class -> 0 <= prio p < MAX_RT_PRIO) /\
    nr_cpus_allowed p = Z.of_nat (size (cpus_allowed p)) /\ cpus_allowed p ⊆ dom (rqs w);
  qt_rd : rto_mask (rd w) = ∅ /\ rto_count (rd w) = 0 /\ span (rd w) ⊆ dom (rqs w) /\ cpu_online_mask w ⊆ dom (rqs w);
  qt_size : Z.of_nat (size (rts w)) < 2 ^ 31 /\ Z.of_nat (size (rqs w)) < 2 ^ 31;
  qt_krn : sys_ok (krn w)
}.

Lemma core_ok ts (x y : rt_rq) : rt_core x = rt_core y -> rq_ok ts y -> rq_ok ts x.
Proof. intros E [ ]. destruct x, y. unfold rt_core in E. cbn in *. simplify_eq. by split. Qed.

Lemma quiet_inv w : quiet w -> rt_inv w.
Proof.
  intros [Q1 Q2 Q3 (Q4 & Q5 & Q6 & Q7) Q8 Q9].
  assert (Hq : forall c r, rqs w !! c = Some r -> queue (rt r) = replicate (Z.to_nat MAX_RT_PRIO) [] /\ pushable_tasks (rt r) = [] /\
    overloaded (rt r) = false /\ hp_curr (rt r) = MAX_RT_PRIO).
  { intros c r Hr. destruct (Q1 c r Hr) as (E & _). destruct (rt r). unfold rt_core in E. cbn in E |- *. by simplify_eq. }
  assert (Hv : forall c v, v_rqs (abs w) !! c = Some v -> exists r, rqs w !! c = Some r /\ v = rq_abs r).
  { intros c v. cbn. rewrite lookup_fmap. destruct (rqs w !! c) as [r|]; [|done]. intros [= <-]. by exists r. }
  assert (Ht : forall t p, v_rts (abs w) !! t = Some p -> exists q, rts w !! t = Some q /\ p = task_abs q).
  { intros t p. cbn. rewrite lookup_fmap. destruct (rts w !! t) as [q|]; [|done]. intros [= <-]. by exists q. }
  split; [split; [split|split|done]|split].
  - intros c r Hr. destruct (Q1 c r Hr) as (E & _). eapply core_ok; [exact E|]. by apply init_rt_rq_ok.
  - intros c. rewrite Q4. split; [by intros ?%not_elem_of_empty|]. intros (r & Hr & Ho). destruct (Hq c r Hr) as (_ & _ & E & _).
    unfold is_overloaded in Ho. by rewrite E, andb_false_r in Ho.
  - by rewrite Q5, Q4, size_empty.
  - intros c r Hr. destruct (Q1 c r Hr) as (_ & -> & -> & _). by destruct (Hq c r Hr) as (_ & _ & _ & ->).
  - done.
  - intros c r Hr. destruct (Q1 c r Hr) as (_ & _ & _ & p & x & Hp & _). by exists p.
  - intros c Hc. by apply elem_of_dom, Q6.
  - intros c Hc. by apply elem_of_dom, Q7.
  - intros c v (r & Hr & ->)%Hv. cbn. destruct (Hq c r Hr) as (-> & _). apply length_replicate.
  - intros c v t (r & Hr & ->)%Hv. cbn. destruct (Hq c r Hr) as (-> & _). rewrite concat_replicate_nil.
    split; [by intros ?%not_elem_of_nil|]. intros (p & x & Hp & Hx & Hcl & Ho & _).
    destruct (Ht t p Hp) as (q & Hq' & ->). rewrite (Q2 t q x Hq' Hx Hcl) in Ho. done.
  - intros c v t (r & Hr & ->)%Hv. cbn. destruct (Hq c r Hr) as (-> & -> & _). rewrite concat_replicate_nil. cbn.
    split; [by intros ?%not_elem_of_empty|]. by intros [?%not_elem_of_nil _].
  - intros c v (r & Hr & ->)%Hv. destruct (Q1 c r Hr) as (_ & _ & _ & p & x & Hp & Hx & Ho & Hc).
    exists (task_abs p), x. cbn. rewrite lookup_fmap, Hp. done.
  - intros t p (q & Hq' & ->)%Ht. destruct (Q3 t q Hq') as (? & ? & ?). split_and!; try done. cbn. by rewrite dom_fmap_L.
  - done.
Qed.
(** the scheduler has just been started: every CPU is online, runs a task of
    another class and has the runtime of the limit *)
Record booted w : Prop := {
  bo_quiet : quiet w;
  bo_rq : forall c r, rqs w !! c = Some r -> rt_runtime (rt r) = rt_b_runtime (rt_b w) /\ rt_time (rt r) = 0 /\
    0 <= clock_task r <= clock r /\ clock r <= now w;
  bo_curr : forall c r p, rqs w !! c = Some r -> rts w !! curr r = Some p -> class p <> rt_class;
  bo_span : span (rd w) = dom (rqs w);
  bo_limit : rt_b_runtime (rt_b w) = RUNTIME_INF \/
    (0 <= rt_b_runtime (rt_b w) /\ Z.of_nat (size (rqs w)) * rt_b_runtime (rt_b w) < 2 ^ 63);
  bo_period : 0 < rt_period (rt_b w) < 2 ^ 63;
  bo_started : scheduler_running (sys w) = true;
  bo_now : now w < 2 ^ 63
}.

Lemma booted_inv w : booted w -> rt_sys_inv w.
Proof.
  intros [B1 B2 B3 B4 B5 B6 B7 B8]. pose proof (quiet_inv w B1) as Hi. split; [done|]. split; [|by apply placed_inj].
  assert (Hx : forall c y, f_rqs (fr w) !! c = Some y -> exists r, rqs w !! c = Some r /\ y = bw_rq r).
  { intros c y. cbn. rewrite lookup_fmap. destruct (rqs w !! c) as [r|]; [|done]. intros [= <-]. by exists r. }
  split; try done.
  - cbn. by rewrite dom_fmap_L.
  - rewrite (total_ext _ (fun _ => 0)); [unfold total; by induction (elements _)|]. intros c _. unfold share.
    destruct (f_rqs (fr w) !! c) as [y|] eqn:Ey; [|done]. destruct (Hx c y Ey) as (r & Hr & ->). cbn.
    destruct (B2 c r Hr) as (-> & _). destruct (enabled _); lia.
  - intros c y (r & Hr & ->)%Hx. cbn. destruct (B2 c r Hr) as (-> & _). destruct B5 as [->|[? _]]; done.
  - destruct B5 as [E|[? ?]]; [left; split; [done|]|right; split; [done|cbn; by rewrite B4, size_dom]].
    intros c y (r & Hr & ->)%Hx. rewrite enabled_rq. destruct (B2 c r Hr) as (-> & _). by rewrite E.
  - intros c y (r & Hr & ->)%Hx. cbn. by destruct (qt_rq w B1 c r Hr) as (_ & -> & _).
  - intros c y (r & Hr & ->)%Hx. cbn. destruct (B2 c r Hr) as (_ & -> & ? & ?). lia.
  - intros c y e (r & Hr & ->)%Hx. cbn. rewrite lookup_fmap. destruct (rts w !! curr r) as [p|] eqn:Ep; [|done].
    intros [= E _]. by destruct (B3 c r p Hr Ep).
Qed.
End Quiet.

(** ** One implementation of the library *)

Fixpoint plist_insert (p : Z) (t : nat) (l : list (Z * nat)) : list (Z * nat) :=
  match l with
  | [] => [(p, t)]
  | (q, u) :: l' => if p <? q then (p, t) :: l else (q, u) :: plist_insert p t l'
  end.

(** the CPUs whose level is the least urgent, if it is less urgent than [p] *)
Definition least_urgent (p : Z) (m : gset nat) (s : gmap nat Z) : option (gset nat) :=
  let level c := default CPUPRI_INVALID (s !! c) in
  let top := foldr (fun c b => Z.max (level c) b) CPUPRI_INVALID (elements m) in
  let l := filter (fun c => level c = top) m in
  if (p <? top) && bool_decide (l <> ∅) then Some l else None.

#[export] Instance demo_lib : RtLib := {|
  plist_add := plist_insert;
  plist_del t l := filter (fun e => e.2 <> t) l;
  cpupri := gmap nat Z;
  cpupri_set c p s := <[c := p]> s;
  cpupri_find := least_urgent
|}.

Lemma plist_insert_perm p t l : plist_insert p t l ≡ₚ (p, t) :: l.
Proof.
  induction l as [|[q u] l IH]; [done|]. cbn. destruct (p <? q); [done|]. rewrite IH. constructor.
Qed.

#[export] Instance demo_laws : RtLaws demo_lib.
Proof.
  refine {| cpupri_level := (fun (s : gmap nat Z) c => default CPUPRI_INVALID (s !! c)) : @cpupri demo_lib -> nat -> Z |}.
  - apply plist_insert_perm.
  - intros p t l H. induction H as [|[q u] l Hs IH Hf]; [by repeat constructor|]. cbn.
    destruct (Z.ltb_spec p q).
    + constructor; [by constructor|]. constructor; [unfold prio_le; cbn; lia|].
      eapply Forall_impl; [exact Hf|]. unfold prio_le. cbn. intros; lia.
    + constructor; [done|]. unfold plist_add. cbn. apply Forall_forall. intros e He.
      rewrite (plist_insert_perm p t l) in He. apply elem_of_cons in He as [->|He]; [done|].
      by eapply Forall_forall in Hf.
  - done.
  - intros c p s d. cbn. rewrite lookup_insert. case_decide; case_decide; congruence || done.
  - intros p m s lowest. cbn. unfold least_urgent. destruct (_ && _) eqn:E; [|done]. intros [= <-].
    apply andb_true_iff in E as [E1%Z.ltb_lt E2%bool_decide_eq_true]. split; [done|].
    intros c [E Hc]%elem_of_filter. split; [done|]. lia.
Defined.

(** ** A small machine

    Two CPUs that run their idle tasks 0 and 1; the real-time tasks 2, 3 and 4
    sleep, with priorities 10, 20 and 30.  Task 4 may run on CPU 0 only. *)

Definition demo_rt_task (p pol : Z) (cl : sched_class) (m : gset nat) (cpu : bool) : rt_task :=
  RtTask p pol cl m (Z.of_nat (size m)) 0 0 100 0 0 0 (RLIM_INFINITY, RLIM_INFINITY) cpu false.
Definition demo_task (c : nat) (run : bool) : task_struct := TaskStruct (if run then 0 else 1) run run c None false false.
Definition demo_rq (limit : Z) (i : nat) : rq :=
  Rq (set_rt_runtime limit (init_rt_rq zero_rt_rq)) 0 i i true 0 0 0 false [].

Definition demo_world : rtw :=
  RtW {[ 0%nat := demo_rq 950000000 0; 1%nat := demo_rq 950000000 1 ]}
    {[ 0%nat := demo_rt_task 140 0 idle_class {[0%nat]} true; 1%nat := demo_rt_task 140 0 idle_class {[1%nat]} true;
       2%nat := demo_rt_task 10 1 rt_class {[0%nat; 1%nat]} false; 3%nat := demo_rt_task 20 SCHED_RR rt_class {[0%nat; 1%nat]} false;
       4%nat := demo_rt_task 30 1 rt_class {[0%nat]} false ]}
    (RootDomain {[0%nat; 1%nat]} ∅ 0 (2 ^ 20) (2 ^ 19)) (init_rt_bandwidth 1000000000 950000000)
    {[ 0%nat := MAX_RT_PRIO; 1%nat := MAX_RT_PRIO ]} (Sysctls 1000000 950000 100 true true) {[0%nat; 1%nat]} 0 0
    (kernel_with {[ 0%nat := demo_task 0 true; 1%nat := demo_task 1 true; 2%nat := demo_task 0 false;
                    3%nat := demo_task 0 false; 4%nat := demo_task 0 false ]}).

(** a fact about every entry of a map that is written out *)
Ltac each_entry := repeat first [apply map_Forall_insert_2|apply map_Forall_singleton].

Lemma demo_booted : booted demo_world.
Proof.
  assert (H1 : map_Forall (fun c r => (rt_core (rt r) = rt_core (init_rt_rq zero_rt_rq) /\ online r = true /\
      cpupri_level (pri demo_world) c = MAX_RT_PRIO /\
      exists p x, rts demo_world !! curr r = Some p /\ tasks (krn demo_world) !! curr r = Some x /\ on_cpu p = true /\ tcpu x = c)
      /\ (rt_runtime (rt r) = 950000000 /\ rt_time (rt r) = 0 /\ 0 <= clock_task r <= clock r /\ clock r <= 0) /\
      match rts demo_world !! curr r with Some p => class p <> rt_class | None => True end) (rqs demo_world)).
  { each_entry; (repeat apply conj; first [done|by vm_compute|eexists _, _; repeat apply conj; reflexivity]). }
  assert (H2 : map_Forall (fun t p => (class p = rt_class -> 0 <= prio p < MAX_RT_PRIO) /\
      nr_cpus_allowed p = Z.of_nat (size (cpus_allowed p)) /\ cpus_allowed p ⊆ dom (rqs demo_world) /\
      (class p = rt_class -> match tasks (krn demo_world) !! t with Some x => on_rq x = false | None => True end)) (rts demo_world)).
  { each_entry; (repeat apply conj; try done; set_solver). }
  assert (Hd : dom (rqs demo_world) = {[0%nat; 1%nat]}) by (vm_compute; reflexivity).
  split; [split|..].
  - intros c r Hr. by apply (H1 c r).
  - intros t p x Hp Hx Hcl. destruct (H2 t p Hp) as (_ & _ & _ & H). specialize (H Hcl). by rewrite Hx in H.
  - intros t p Hp. destruct (H2 t p Hp) as (? & ? & ? & _). done.
  - rewrite Hd. done.
  - done.
  - apply kernel_with_ok; [|done]. each_entry; done.
  - intros c r Hr. by apply (H1 c r).
  - intros c r p Hr Hp. destruct (H1 c r Hr) as (_ & _ & H). by rewrite Hp in H.
  - by rewrite Hd.
  - right. done.
  - done.
  - done.
  - done.
Qed.
