(* ===== verification/RtProps.v ===== *)
(** * The real-time class: the properties *)

From S2P Require Import Prelude Wait Tasklet Cmgroup Sched CmInv CmTask CmSys CmTop RtRq RtPush.
From S2P Require Import RtInv RtQueue RtExec RtOps RtBalance RtStep RtParam RtTime.
From S2P Require Import RtBand RtParam RtHotplug RtLimits RtSys RtBoot.
Local Open Scope Z_scope.

(** ** A run of the small machine

    Tasks 2 and 3 wake up on CPU 0, which then switches to task 2. *)

Definition calm_locks : nat -> nat -> rtw -> option rtw := fun _ _ _ => None.
Definition demo_exec (o : rt_op) (w : rtw) : rtw :=
  match exec 1000 calm_locks 9 o w with Ret _ w' => w' | _ => w end.
Definition demo_a : rtw := demo_exec (Wake 2) demo_world.
Definition demo_b : rtw := demo_exec (Wake 3) demo_a.
Definition demo_c : rtw := demo_exec (Switch None 0 0) demo_b.

Definition returns {A} (o : outcome rtw A) : bool := match o with Ret _ _ => true | _ => false end.

Lemma demo_exec_eq o w :
  returns (exec 1000 calm_locks 9 o w) = true -> exec 1000 calm_locks 9 o w = Ret tt (demo_exec o w).
Proof. unfold demo_exec. by destruct (exec 1000 calm_locks 9 o w) as [[]| |]. Qed.

Lemma calm_locks_polite : polite_sys calm_locks.
Proof. done. Qed.

(** the conditions of the events, as tests *)
Definition has_rq (w : rtw) (c : nat) : bool := match rqs w !! c with Some _ => true | None => false end.
Definition foreign_test (w : rtw) (c t : nat) : bool :=
  match rts w !! t, tasks (krn w) !! t with
  | Some p, Some x => bool_decide (class p <> rt_class) && bool_decide (tcpu x = c)
  | _, _ => false
  end.
Definition sleeper_test (w : rtw) (t : nat) : bool :=
  match rts w !! t, tasks (krn w) !! t with
  | Some p, Some x => bool_decide (class p = rt_class) && negb (on_rq x) && has_rq w (tcpu x)
  | _, _ => false
  end.

Lemma has_rq_true w c : has_rq w c = true -> is_Some (rqs w !! c).
Proof. unfold has_rq. by destruct (rqs w !! c). Qed.

Lemma foreign_test_true w c t : foreign_test w c t = true -> foreign (abs w) c t.
Proof.
  unfold foreign_test. destruct (rts w !! t) as [p|] eqn:Ep; [|done]. destruct (tasks (krn w) !! t) as [x|] eqn:Ex; [|done].
  intros [H1%bool_decide_eq_true H2%bool_decide_eq_true]%andb_true_iff. exists (task_abs p), x. cbn. by rewrite lookup_fmap, Ep.
Qed.

Lemma sleeper_test_true w t : sleeper_test w t = true -> valid w (Wake t).
Proof.
  unfold sleeper_test. destruct (rts w !! t) as [p|] eqn:Ep; [|done]. destruct (tasks (krn w) !! t) as [x|] eqn:Ex; [|done].
  intros [[H1%bool_decide_eq_true H2%negb_true_iff]%andb_true_iff H3%has_rq_true]%andb_true_iff. by exists p, x.
Qed.

Lemma demo_steps : steps 1000 calm_locks 9 demo_world [Wake 2; Wake 3; Switch None 0 0] demo_c.
Proof.
  apply (steps_cons _ _ _ _ _ demo_a); [apply sleeper_test_true|apply demo_exec_eq|]; [vm_compute; reflexivity..|].
  apply (steps_cons _ _ _ _ _ demo_b); [apply sleeper_test_true|apply demo_exec_eq|]; [vm_compute; reflexivity..|].
  apply (steps_cons _ _ _ _ _ demo_c); [|apply demo_exec_eq; vm_compute; reflexivity|constructor].
  split; [apply has_rq_true; vm_compute; reflexivity|].
  split; [intros t [=]|]. apply foreign_test_true. vm_compute. reflexivity.
Qed.

Lemma demo_inv : rt_sys_inv demo_c.
Proof. exact (proj1 (steps_inv _ _ _ _ _ _ calm_locks_polite (booted_inv _ demo_booted) demo_steps)). Qed.

Section Props.
Context {RL : RtLib} {LL : RtLaws RL}.
Implicit Types (w : rtw) (r : rq) (p : rt_task) (x : task_struct) (c d t u : nat).

Lemma persists_size w w' : persists w w' -> size (rts w') = size (rts w).
Proof.
  intros H. rewrite <- !size_dom, <- (dom_fmap_L class (rts w')), <- (dom_fmap_L class (rts w)).
  by rewrite (ps_class _ _ H).
Qed.


Lemma concat_head_index (Q : list (list nat)) t :
  head (concat Q) = Some t -> exists i q, Q !! i = Some (t :: q) /\ forall j q', Q !! j = Some q' -> q' <> [] -> (i <= j)%nat.
Proof.
  induction Q as [|q Q IH]; [done|]. destruct q as [|y q]; cbn.
  - intros (i & q & Hi & Hj)%IH. exists (S i), q. split; [done|]. intros [|j] q' Hq Hn; [by injection Hq as <-|].
    specialize (Hj j q' Hq Hn). lia.
  - intros [= <-]. exists 0%nat, q. split; [done|]. intros; lia.
Qed.

(** C18: pick_next_task_rt() returns nothing exactly when the run queue is empty
    or throttled; otherwise it returns the first task of the most urgent queue, so
    no queued task is more urgent and the tasks of one priority run in the
    order in which they were queued. *)
Theorem rt_pick_most_urgent w c r :
  rt_sys_inv w -> rqs w !! c = Some r ->
  exists o w', pick_next_task_rt c w = Ret o w' /\
    (o = None <-> rt_throttled (rt r) = true \/ concat (queue (rt r)) = []) /\
    forall t, o = Some t -> exists p q, rts w !! t = Some p /\ class p = rt_class /\
      queue (rt r) !! Z.to_nat (prio p) = Some (t :: q) /\
      forall u z, u ∈ concat (queue (rt r)) -> rts w !! u = Some z -> prio p <= prio z.
Proof.
  intros [Hi _] Hr. pose proof Hi as [Hrp Ha]. pose proof (arr_rqs w (rp_arr _ _ Hrp) c r Hr) as Hok.
  destruct (pick_next_task_rt_ok w _ c _ r Hrp (repr_rq_back w _ c r Hrp Hr) Hr) as (o & w' & E & Eo & _).
  exists o, w'. split; [done|]. unfold v_first in Eo. cbn in Eo. split.
  - rewrite Eo. destruct (rt_throttled (rt r)); [by split; [left|]|]. destruct (concat (queue (rt r))); cbn; [by split; [right|]|].
    split; [done|]. by intros [?|?].
  - intros t ->. destruct (rt_throttled (rt r)); [done|].
    destruct (concat_head_index _ t (eq_sym Eo)) as (i & q & Hq & Hmin).
    destruct (ok_prio _ _ Hok i (t :: q) t Hq ltac:(by left)) as (p & Hp & Ei & Hcl). exists p, q.
    rewrite Ei, Nat2Z.id. split_and!; try done. intros u z (j & q' & Hj & Hu)%elem_of_queues Hz.
    destruct (ok_prio _ _ Hok j q' u Hj Hu) as (z' & Hz' & Ej & _). simplify_eq. rewrite Ej.
    assert (i <= j)%nat; [|lia]. apply (Hmin j q' Hj). by intros ->; apply elem_of_nil in Hu.
Qed.
Lemma alone_polite contend : alone contend -> polite contend.
Proof. intros H c d w w' E. by rewrite H in E. Qed.

(** what a move changes: the queues of two CPUs and the CPU of the task *)
Lemma moved_krn w w' c v t p d vd x :
  abs w' = v_moved c v t p d vd x (abs w) ->
  tasks (krn w') = <[t := set_tcpu d x]> (tasks (krn w)) /\ cmgroups (krn w') = cmgroups (krn w).
Proof. intros E. apply (f_equal v_krn) in E. cbn in E. by rewrite E. Qed.

(** C19: push_rt_task() moves the most urgent task that waits on its CPU and may
    run elsewhere, to a CPU that the task's affinity allows and where it
    is more urgent than everything queued; only the task's CPU changes in the
    rest of the kernel, so its group does not notice.  If it returns false
    nothing has moved. *)
Theorem rt_push_most_urgent contend n w c r :
  alone contend -> rt_inv w -> rqs w !! c = Some r ->
  exists b w', push_rt_task contend (S n) c w = Ret b w' /\ rt_inv w' /\
    if b then exists t d p rd x, t ∈ (pushable_tasks (rt r)).*2 /\ rts w !! t = Some p /\
        (forall u q, u ∈ (pushable_tasks (rt r)).*2 -> rts w !! u = Some q -> prio p <= prio q) /\
        d <> c /\ d ∈ cpus_allowed p /\ rqs w !! d = Some rd /\ prio p < hp_curr (rt rd) /\
        tasks (krn w) !! t = Some x /\ tasks (krn w') = <[t := set_tcpu d x]> (tasks (krn w)) /\
        cmgroups (krn w') = cmgroups (krn w)
    else abs w' = abs w.
Proof.
  intros Hal Hi Hr. pose proof (push_rt_task_ok contend (alone_polite _ Hal) n w c r Hi Hr) as H. unfold ends in H.
  destruct (push_rt_task contend (S n) c w) as [b w'| |]; [|by destruct H|done]. destruct H as (Hi' & _ & H).
  exists b, w'. split; [done|]. split; [done|]. specialize (H Hal). destruct b; [|done].
  destruct H as (t & (v & p & d & vd & x & rd & Hm & Hd & Hrd & Hlt & E) & Ht & Hmin).
  destruct (moved_krn _ _ _ _ _ _ _ _ _ E) as [Hk1 Hk2].
  destruct (repr_rt w _ t p (proj1 Hi) (mv_p _ _ _ _ _ _ _ _ Hm)) as (p' & Hp' & <-).
  exists t, d, p', rd, x. cbn in Ht, Hmin. rewrite elem_of_list_to_set in Ht. split_and!; try done.
  - intros u q Hu Hq. by apply (Hmin u); [apply elem_of_list_to_set| |].
  - intros ->. by apply (mv_ne _ _ _ _ _ _ _ _ Hm).
  - apply (mv_x _ _ _ _ _ _ _ _ Hm).
Qed.

(** pull_rt_task() takes from an overloaded CPU only a task that does not run
    there, that this CPU may run and that is more urgent than everything queued
    here, and that its CPU would not run next; its group does not notice. *)
Theorem rt_pull_only_urgent contend w this src :
  alone contend -> rt_inv w -> is_Some (rqs w !! this) -> is_Some (rqs w !! src) -> this <> src ->
  exists b w', pull_rt_from contend this src w = Ret b w' /\ rt_inv w' /\
    if b then exists t p r rs q x, rqs w !! this = Some r /\ rqs w !! src = Some rs /\ rts w !! t = Some p /\
        t ∈ concat (queue (rt rs)) /\ curr rs <> t /\ this ∈ cpus_allowed p /\ prio p < hp_curr (rt r) /\
        rts w !! curr rs = Some q /\ prio q <= prio p /\
        tasks (krn w) !! t = Some x /\ tasks (krn w') = <[t := set_tcpu this x]> (tasks (krn w)) /\
        cmgroups (krn w') = cmgroups (krn w)
    else abs w' = abs w.
Proof.
  intros Hal Hi Ht Hs Hne. destruct (pull_rt_from_ok contend (alone_polite _ Hal) w this src Hi Ht Hs Hne) as (b & w' & Er & Hi' & _ & H).
  exists b, w'. split; [done|]. split; [done|]. specialize (H Hal). destruct b; [|done].
  destruct H as (t & v & p & vd & x & r & q & Hm & Hd & Hr & Hlt & Hq & Hle & E).
  destruct (moved_krn _ _ _ _ _ _ _ _ _ E) as [Hk1 Hk2].
  destruct (repr_rt w _ t p (proj1 Hi) (mv_p _ _ _ _ _ _ _ _ Hm)) as (p' & Hp' & <-).
  destruct (repr_rq w _ src v (proj1 Hi) (mv_c _ _ _ _ _ _ _ _ Hm)) as (rs & Hrs & <-).
  exists t, p', r, rs, q, x. split_and!; try done; apply Hm.
Qed.
(** what a CPU has borrowed, in the terms of the run queues *)
Definition borrowed w c : Z :=
  match rqs w !! c with
  | Some r => if rt_runtime (rt r) =? RUNTIME_INF then 0 else rt_runtime (rt r) - rt_b_runtime (rt_b w)
  | None => 0
  end.

Lemma borrowed_share w c : share (fr w) c = borrowed w c.
Proof.
  unfold share, borrowed. cbn. rewrite lookup_fmap. destruct (rqs w !! c) as [r|]; [|done]. cbn.
  unfold enabled. cbn. by destruct (_ =? _).
Qed.



(** init_rt_rq() makes of any memory whose counters are zero a well-formed
    run queue of the class: a hundred empty queues, a bitmap with the delimiter
    only, exact counters and cached priorities; on such a run queue
    pick_next_task_rt() gives way to the next class. *)
Theorem init_rt_rq_wellformed ts (x : rt_rq) w c r :
  rt_nr_running x = 0 -> rt_nr_total x = 0 -> rqs w !! c = Some r -> rt r = init_rt_rq x ->
  rq_ok ts (rt r) /\ pick_next_task_rt c w = Ret None (with_rq c (set_post_schedule false r) w).
Proof.
  intros H1 H2 Hr E. rewrite E. split; [by apply init_rt_rq_ok|].
  assert (Ep : _pick_next_task_rt c w = Ret None w).
  { unfold _pick_next_task_rt. rewrite (bind_run _ _ r w w) by by apply cpu_rq_eq. rewrite E. cbn. by rewrite H1. }
  unfold pick_next_task_rt. rewrite (bind_run _ _ None w w Ep), (bind_run _ _ tt w w eq_refl).
  rewrite (bind_run (has_pushable_tasks c) _ false w w).
  - by rewrite (bind_run _ _ r w w) by by apply cpu_rq_eq.
  - unfold has_pushable_tasks, rt_rq_of. rewrite (bind_run _ _ (rt r) w w); [by rewrite E|].
    by rewrite (bind_run _ _ r w w) by by apply cpu_rq_eq.
Qed.
End Props.


(** ** The theorems at work on the small machine *)

Definition demo_rq_of (w : rtw) (c : nat) : rq := default (demo_rq 0 0) (rqs w !! c).

Lemma demo_rq_eq w c : has_rq w c = true -> rqs w !! c = Some (demo_rq_of w c).
Proof. unfold has_rq, demo_rq_of. by destruct (rqs w !! c). Qed.


Lemma rt_pick_most_urgent_witness : exists w', pick_next_task_rt 0 demo_b = Ret (Some 2%nat) w'.
Proof.
  assert (Hb : rt_sys_inv demo_b).
  { refine (proj1 (steps_inv 1000 calm_locks 9 demo_world [Wake 2; Wake 3] demo_b calm_locks_polite (booted_inv _ demo_booted) _)).
    apply (steps_cons _ _ _ _ _ demo_a); [apply sleeper_test_true|apply demo_exec_eq|]; [vm_compute; reflexivity..|].
    apply (steps_cons _ _ _ _ _ demo_b); [apply sleeper_test_true|apply demo_exec_eq|constructor]; vm_compute; reflexivity. }
  destruct (rt_pick_most_urgent demo_b 0 (demo_rq_of demo_b 0) Hb) as (o & w' & E & _).
  { apply demo_rq_eq. vm_compute. reflexivity. }
  exists w'. rewrite E. f_equal.
  assert (Ho : match pick_next_task_rt 0 demo_b with Ret o _ => o | _ => None end = Some 2%nat) by (vm_compute; reflexivity).
  by rewrite E in Ho.
Defined.

Lemma rt_push_most_urgent_witness : exists w', push_rt_task calm_locks 9 0 demo_c = Ret true w' /\ rt_inv w'.
Proof.
  destruct (rt_push_most_urgent calm_locks 8 demo_c 0 (demo_rq_of demo_c 0)) as (b & w' & E & Hi & _).
  - done.
  - apply demo_inv.
  - apply demo_rq_eq. vm_compute. reflexivity.
  - exists w'. split; [|done]. rewrite E. f_equal.
    assert (Ho : match push_rt_task calm_locks 9 0 demo_c with Ret b _ => b | _ => false end = true) by (vm_compute; reflexivity).
    by rewrite E in Ho.
Defined.

Lemma rt_pull_only_urgent_witness : exists w', pull_rt_from calm_locks 1 0 demo_c = Ret true w' /\ rt_inv w'.
Proof.
  destruct (rt_pull_only_urgent calm_locks demo_c 1 0) as (b & w' & E & Hi & _).
  - done.
  - apply demo_inv.
  - apply has_rq_true. vm_compute. reflexivity.
  - apply has_rq_true. vm_compute. reflexivity.
  - done.
  - exists w'. split; [|done]. rewrite E. f_equal.
    assert (Ho : match pull_rt_from calm_locks 1 0 demo_c with Ret b _ => b | _ => false end = true) by (vm_compute; reflexivity).
    by rewrite E in Ho.
Defined.



Definition garbage : rt_rq := RtRq (2 ^ 70 + 5) [] 0 7 7 3 0 true [] true 9 9.
Definition fresh_rq : rq := Rq (init_rt_rq garbage) 0 0 0 false 0 0 0 true [].

Lemma init_rt_rq_wellformed_witness :
  rq_ok ∅ (init_rt_rq garbage) /\
  pick_next_task_rt 0 (with_rq 0 fresh_rq demo_world) = Ret None
    (with_rq 0 (set_post_schedule false fresh_rq) (with_rq 0 fresh_rq demo_world)).
Proof.
  exact (init_rt_rq_wellformed ∅ garbage _ 0%nat fresh_rq eq_refl eq_refl (lookup_insert_eq _ _ _) eq_refl).
Defined.
