(* ===== verification/DlRq.v ===== *)
(** * The deadline class: run queues and bandwidth servers (kernel/sched/deadline.c)

    SCHED_DEADLINE tasks wait in a tree per CPU, ordered by absolute deadline;
    a task that has used up the runtime of its current instance is taken off
    the tree and comes back, with a later deadline, when its timer fires.  The
    world is that of the real-time class (RtRq.v, field [base]) with the parts
    of struct rq, struct task_struct and struct root_domain that belong to this
    class.  The configuration is the same, without CONFIG_SCHED_HRTICK.

    lib/rbtree.c is the class [RbLib] of EpTree.v, kernel/sched/cpudeadline.c
    the class [DlLib] below; a timer of kernel/hrtimer.c is the time at which
    it expires, if it is active. *)

From S2P Require Import Prelude Wait Tasklet Cmgroup Sched EpTree RtRq RtPush.
Local Open Scope Z_scope.

Definition DL_SCALE : Z := 10.
Definition DL_MAX_TRIES : nat := 3.
Definition SCHED_DEADLINE : Z := 6.

(** ** What the class uses of other files

    [cpudl_find d m s] is the CPU cpudl_find() returns for a task of deadline
    [d] and affinity [m] with the mask it fills, or [None] for -1;
    [cpudl_find_null] is the same with a null pointer for the mask.
    [ktime_us_delta] is in include/linux/ktime.h. *)
Class DlLib := {
  cpudl : Type;
  cpudl_set : nat -> Z -> bool -> cpudl -> cpudl;
  cpudl_find : Z -> gset nat -> cpudl -> option (nat * gset nat);
  cpudl_find_null : Z -> gset nat -> cpudl -> option nat;
  ktime_us_delta : Z -> Z -> Z
}.

(** ** Structures *)

(** struct dl_rq; [earliest_dl.curr] and [.next] are [earliest_curr] and
    [earliest_next], the trees hold tasks *)
Record dl_rq := DlRq {
  dl_root : rbtree nat;
  rb_leftmost : option nat;
  dl_nr_running : Z;
  earliest_curr : Z;
  earliest_next : Z;
  dl_nr_migratory : Z;
  dl_overloaded : bool;
  pushable_root : rbtree nat;
  pushable_leftmost : option nat
}.

Definition set_dl_root (z : rbtree nat) (x : dl_rq) : dl_rq :=
  DlRq z (rb_leftmost x) (dl_nr_running x) (earliest_curr x) (earliest_next x)
    (dl_nr_migratory x) (dl_overloaded x) (pushable_root x) (pushable_leftmost x).
Definition set_rb_leftmost (z : option nat) (x : dl_rq) : dl_rq :=
  DlRq (dl_root x) z (dl_nr_running x) (earliest_curr x) (earliest_next x)
    (dl_nr_migratory x) (dl_overloaded x) (pushable_root x) (pushable_leftmost x).
Definition set_dl_nr_running (z : Z) (x : dl_rq) : dl_rq :=
  DlRq (dl_root x) (rb_leftmost x) z (earliest_curr x) (earliest_next x)
    (dl_nr_migratory x) (dl_overloaded x) (pushable_root x) (pushable_leftmost x).
Definition set_earliest_curr (z : Z) (x : dl_rq) : dl_rq :=
  DlRq (dl_root x) (rb_leftmost x) (dl_nr_running x) z (earliest_next x)
    (dl_nr_migratory x) (dl_overloaded x) (pushable_root x) (pushable_leftmost x).
Definition set_earliest_next (z : Z) (x : dl_rq) : dl_rq :=
  DlRq (dl_root x) (rb_leftmost x) (dl_nr_running x) (earliest_curr x) z
    (dl_nr_migratory x) (dl_overloaded x) (pushable_root x) (pushable_leftmost x).
Definition set_dl_nr_migratory (z : Z) (x : dl_rq) : dl_rq :=
  DlRq (dl_root x) (rb_leftmost x) (dl_nr_running x) (earliest_curr x)
    (earliest_next x) z (dl_overloaded x) (pushable_root x) (pushable_leftmost x).
Definition set_dl_overloaded (z : bool) (x : dl_rq) : dl_rq :=
  DlRq (dl_root x) (rb_leftmost x) (dl_nr_running x) (earliest_curr x)
    (earliest_next x) (dl_nr_migratory x) z (pushable_root x) (pushable_leftmost x).
Definition set_pushable_root (z : rbtree nat) (x : dl_rq) : dl_rq :=
  DlRq (dl_root x) (rb_leftmost x) (dl_nr_running x) (earliest_curr x)
    (earliest_next x) (dl_nr_migratory x) (dl_overloaded x) z (pushable_leftmost x).
Definition set_pushable_leftmost (z : option nat) (x : dl_rq) : dl_rq :=
  DlRq (dl_root x) (rb_leftmost x) (dl_nr_running x) (earliest_curr x)
    (earliest_next x) (dl_nr_migratory x) (dl_overloaded x) (pushable_root x) z.

(** struct sched_dl_entity and three fields of the task.  [rb_linked] and
    [pushable_linked] tell that the task's nodes are not RB_EMPTY_NODE();
    [pi_top] is rt_mutex_get_top_task(). *)
Record dl_entity := DlEntity {
  dl_runtime : Z;
  dl_deadline : Z;
  dl_period : Z;
  se_bw : Z;
  runtime : Z;
  deadline : Z;
  se_flags : Z;
  dl_throttled : bool;
  dl_new : bool;
  dl_boosted : bool;
  dl_timer : option Z;
  rb_linked : bool;
  pushable_linked : bool;
  normal_prio : Z;
  pi_top : option nat
}.

Definition set_dl_runtime (z : Z) (e : dl_entity) : dl_entity :=
  DlEntity z (dl_deadline e) (dl_period e) (se_bw e) (runtime e) (deadline e)
    (se_flags e) (dl_throttled e) (dl_new e) (dl_boosted e) (dl_timer e) (rb_linked
    e) (pushable_linked e) (normal_prio e) (pi_top e).
Definition set_dl_deadline (z : Z) (e : dl_entity) : dl_entity :=
  DlEntity (dl_runtime e) z (dl_period e) (se_bw e) (runtime e) (deadline e)
    (se_flags e) (dl_throttled e) (dl_new e) (dl_boosted e) (dl_timer e) (rb_linked
    e) (pushable_linked e) (normal_prio e) (pi_top e).
Definition set_dl_period (z : Z) (e : dl_entity) : dl_entity :=
  DlEntity (dl_runtime e) (dl_deadline e) z (se_bw e) (runtime e) (deadline e)
    (se_flags e) (dl_throttled e) (dl_new e) (dl_boosted e) (dl_timer e) (rb_linked
    e) (pushable_linked e) (normal_prio e) (pi_top e).
Definition set_se_bw (z : Z) (e : dl_entity) : dl_entity :=
  DlEntity (dl_runtime e) (dl_deadline e) (dl_period e) z (runtime e) (deadline e)
    (se_flags e) (dl_throttled e) (dl_new e) (dl_boosted e) (dl_timer e) (rb_linked
    e) (pushable_linked e) (normal_prio e) (pi_top e).
Definition set_runtime (z : Z) (e : dl_entity) : dl_entity :=
  DlEntity (dl_runtime e) (dl_deadline e) (dl_period e) (se_bw e) z (deadline e)
    (se_flags e) (dl_throttled e) (dl_new e) (dl_boosted e) (dl_timer e) (rb_linked
    e) (pushable_linked e) (normal_prio e) (pi_top e).
Definition set_deadline (z : Z) (e : dl_entity) : dl_entity :=
  DlEntity (dl_runtime e) (dl_deadline e) (dl_period e) (se_bw e) (runtime e) z
    (se_flags e) (dl_throttled e) (dl_new e) (dl_boosted e) (dl_timer e) (rb_linked
    e) (pushable_linked e) (normal_prio e) (pi_top e).
Definition set_se_flags (z : Z) (e : dl_entity) : dl_entity :=
  DlEntity (dl_runtime e) (dl_deadline e) (dl_period e) (se_bw e) (runtime e)
    (deadline e) z (dl_throttled e) (dl_new e) (dl_boosted e) (dl_timer e)
    (rb_linked e) (pushable_linked e) (normal_prio e) (pi_top e).
Definition set_dl_throttled (z : bool) (e : dl_entity) : dl_entity :=
  DlEntity (dl_runtime e) (dl_deadline e) (dl_period e) (se_bw e) (runtime e)
    (deadline e) (se_flags e) z (dl_new e) (dl_boosted e) (dl_timer e) (rb_linked e)
    (pushable_linked e) (normal_prio e) (pi_top e).
Definition set_dl_new (z : bool) (e : dl_entity) : dl_entity :=
  DlEntity (dl_runtime e) (dl_deadline e) (dl_period e) (se_bw e) (runtime e)
    (deadline e) (se_flags e) (dl_throttled e) z (dl_boosted e) (dl_timer e)
    (rb_linked e) (pushable_linked e) (normal_prio e) (pi_top e).
Definition set_dl_boosted (z : bool) (e : dl_entity) : dl_entity :=
  DlEntity (dl_runtime e) (dl_deadline e) (dl_period e) (se_bw e) (runtime e)
    (deadline e) (se_flags e) (dl_throttled e) (dl_new e) z (dl_timer e) (rb_linked
    e) (pushable_linked e) (normal_prio e) (pi_top e).
Definition set_dl_timer (z : option Z) (e : dl_entity) : dl_entity :=
  DlEntity (dl_runtime e) (dl_deadline e) (dl_period e) (se_bw e) (runtime e)
    (deadline e) (se_flags e) (dl_throttled e) (dl_new e) (dl_boosted e) z
    (rb_linked e) (pushable_linked e) (normal_prio e) (pi_top e).
Definition set_rb_linked (z : bool) (e : dl_entity) : dl_entity :=
  DlEntity (dl_runtime e) (dl_deadline e) (dl_period e) (se_bw e) (runtime e)
    (deadline e) (se_flags e) (dl_throttled e) (dl_new e) (dl_boosted e) (dl_timer
    e) z (pushable_linked e) (normal_prio e) (pi_top e).
Definition set_pushable_linked (z : bool) (e : dl_entity) : dl_entity :=
  DlEntity (dl_runtime e) (dl_deadline e) (dl_period e) (se_bw e) (runtime e)
    (deadline e) (se_flags e) (dl_throttled e) (dl_new e) (dl_boosted e) (dl_timer
    e) (rb_linked e) z (normal_prio e) (pi_top e).
Definition set_normal_prio (z : Z) (e : dl_entity) : dl_entity :=
  DlEntity (dl_runtime e) (dl_deadline e) (dl_period e) (se_bw e) (runtime e)
    (deadline e) (se_flags e) (dl_throttled e) (dl_new e) (dl_boosted e) (dl_timer
    e) (rb_linked e) (pushable_linked e) z (pi_top e).
Definition set_pi_top (z : option nat) (e : dl_entity) : dl_entity :=
  DlEntity (dl_runtime e) (dl_deadline e) (dl_period e) (se_bw e) (runtime e)
    (deadline e) (se_flags e) (dl_throttled e) (dl_new e) (dl_boosted e) (dl_timer
    e) (rb_linked e) (pushable_linked e) (normal_prio e) z.

Definition dl_time_before (a b : Z) : bool := s64 (a - b) <? 0.
Definition dl_entity_preempt (a b : dl_entity) : bool := dl_time_before (deadline a) (deadline b).
Definition dl_policy (p : Z) : bool := p =? SCHED_DEADLINE.

(** the walk down a tree ordered by deadline, for a task with deadline [d] *)
Definition dl_link (ents : gmap nat dl_entity) (t : nat) (d : Z) (p : rbtree nat) : option (rbtree nat * bool) :=
  rb_walk (fun u => entry ← ents !! u; Some (dl_time_before d (deadline entry))) t p.

(** ** The budget of a task (constant bandwidth server) *)

(** the loop of replenish_dl_entity(); every turn adds [run] to the runtime *)
Fixpoint replenish_loop (fuel : nat) (period run : Z) (e : dl_entity) : option dl_entity :=
  if 0 <? runtime e then Some e
  else match fuel with
       | O => None
       | S n => replenish_loop n period run
                  (set_runtime (s64 (runtime e + run)) (set_deadline (u64 (deadline e + period)) e))
       end.
Definition replenish_fuel (run : Z) (e : dl_entity) : nat := S (Z.to_nat (- runtime e / run)).

(** a new instance that starts at time [now] with the parameters of [pi] *)
Definition renew (now : Z) (pi e : dl_entity) : dl_entity :=
  set_runtime (s64 (dl_runtime pi)) (set_deadline (u64 (now + dl_deadline pi)) e).

Definition setup_new_dl_entity (now : Z) (pi e : dl_entity) : dl_entity := set_dl_new false (renew now pi e).

(** [None] is the BUG_ON() *)
Definition replenish_dl_entity (now : Z) (pi e : dl_entity) : option dl_entity :=
  if dl_runtime pi <=? 0 then None
  else
    let e := if dl_deadline e =? 0 then renew now pi e else e in
    e ← replenish_loop (replenish_fuel (dl_runtime pi) e) (dl_period pi) (dl_runtime pi) e;
    Some (if dl_time_before (deadline e) now then renew now pi e else e).

Definition dl_entity_overflow (t : Z) (pi e : dl_entity) : bool :=
  let left := u64 (Z.shiftr (dl_period pi) DL_SCALE * Z.shiftr (runtime e) DL_SCALE) in
  let right := u64 (Z.shiftr (u64 (deadline e - t)) DL_SCALE * Z.shiftr (dl_runtime pi) DL_SCALE) in
  dl_time_before right left.

Definition update_dl_entity (now : Z) (pi e : dl_entity) : dl_entity :=
  if dl_new e then setup_new_dl_entity now pi e
  else if dl_time_before (deadline e) now || dl_entity_overflow now pi e then renew now pi e
  else e.

(** returns whether the budget is used up, and the entity *)
Definition dl_runtime_exceeded (now : Z) (e : dl_entity) : bool * dl_entity :=
  let dmiss := dl_time_before (deadline e) now in
  let rorun := runtime e <=? 0 in
  if negb rorun && negb dmiss then (false, e)
  else if dmiss then
    let r := if rorun then runtime e else 0 in
    (true, set_runtime (s64 (r - (now - deadline e))) e)
  else (true, e).

(** ** Initialisation *)

Definition init_dl_rq (x : dl_rq) : dl_rq :=
  DlRq rb_null (rb_leftmost x) (dl_nr_running x) 0 0 0 false rb_null (pushable_leftmost x).

Section Class.
Context {RL : RtLib} {DL : DlLib} {RB : RbLib}.

(** the world of the scheduler with this class; [hrtime] is what
    hrtimer_cb_get_time() reads *)
Record dlw := DlW {
  base : rtw;
  dls : gmap nat dl_rq;
  dlt : gmap nat dl_entity;
  dlo_mask : gset nat;
  dlo_count : Z;
  dlc : cpudl;
  hrtime : Z;
  cpu_active_mask : gset nat
}.

Definition set_base (z : rtw) (w : dlw) : dlw :=
  DlW z (dls w) (dlt w) (dlo_mask w) (dlo_count w) (dlc w) (hrtime w)
    (cpu_active_mask w).
Definition set_dls (z : gmap nat dl_rq) (w : dlw) : dlw :=
  DlW (base w) z (dlt w) (dlo_mask w) (dlo_count w) (dlc w) (hrtime w)
    (cpu_active_mask w).
Definition set_dlt (z : gmap nat dl_entity) (w : dlw) : dlw :=
  DlW (base w) (dls w) z (dlo_mask w) (dlo_count w) (dlc w) (hrtime w)
    (cpu_active_mask w).
Definition set_dlo_mask (z : gset nat) (w : dlw) : dlw :=
  DlW (base w) (dls w) (dlt w) z (dlo_count w) (dlc w) (hrtime w) (cpu_active_mask
    w).
Definition set_dlo_count (z : Z) (w : dlw) : dlw :=
  DlW (base w) (dls w) (dlt w) (dlo_mask w) z (dlc w) (hrtime w) (cpu_active_mask
    w).
Definition set_dlc (z : cpudl) (w : dlw) : dlw :=
  DlW (base w) (dls w) (dlt w) (dlo_mask w) (dlo_count w) z (hrtime w)
    (cpu_active_mask w).
Definition set_hrtime (z : Z) (w : dlw) : dlw :=
  DlW (base w) (dls w) (dlt w) (dlo_mask w) (dlo_count w) (dlc w) z (cpu_active_mask
    w).
Definition set_cpu_active_mask (z : gset nat) (w : dlw) : dlw :=
  DlW (base w) (dls w) (dlt w) (dlo_mask w) (dlo_count w) (dlc w) (hrtime w) z.

Definition D : Type -> Type := M dlw.

(** ** Access *)

Definition lift_rt {A} (m : W A) : D A := fun w =>
  match m (base w) with
  | Ret a b => Ret a (set_base b w)
  | Blocked b => Blocked (set_base b w)
  | Oops => Oops
  end.
Definition dl_rq_of (c : nat) : D dl_rq := deref (fun w => dls w !! c).
Definition put_dl_rq (c : nat) (x : dl_rq) : D unit :=
  modify (fun w => set_dls (<[c := x]> (dls w)) w).
Definition upd_dl_rq (c : nat) (f : dl_rq -> dl_rq) : D unit := x ← dl_rq_of c; put_dl_rq c (f x).
Definition get_dl (t : nat) : D dl_entity := deref (fun w => dlt w !! t).
Definition put_dl (t : nat) (e : dl_entity) : D unit :=
  modify (fun w => set_dlt (<[t := e]> (dlt w)) w).
Definition upd_dl (t : nat) (f : dl_entity -> dl_entity) : D unit := e ← get_dl t; put_dl t (f e).
Definition dl_bug_on (b : bool) : D unit := if b then oops else mret tt.
Definition rq_of (c : nat) : D rq := lift_rt (cpu_rq c).
Definition task_of (t : nat) : D rt_task := lift_rt (get_rt t).
Definition cpu_of_task (t : nat) : D nat := lift_rt (task_cpu t).
Definition queued (t : nat) : D bool := lift_rt (task_on_rq t).
Definition resched (t : nat) : D unit := lift_rt (resched_task t).
Definition dl_task (p : rt_task) : bool := dl_prio (prio p).
Definition task_has_dl_policy (p : rt_task) : bool := dl_policy (policy p).

Definition on_dl_rq (e : dl_entity) : bool := rb_linked e.
Definition is_leftmost (t : nat) (x : dl_rq) : bool := bool_decide (rb_leftmost x = Some t).

(** ** CPUs with more than one task *)

Definition dl_overloaded_rd : D bool := w ← get; mret (negb (dlo_count w =? 0)).

Definition dl_set_overload (c : nat) : D unit :=
  r ← rq_of c;
  if negb (online r) then mret tt
  else modify (fun w => set_dlo_count (s32 (dlo_count w + 1)) (set_dlo_mask ({[c]} ∪ dlo_mask w) w)).

Definition dl_clear_overload (c : nat) : D unit :=
  r ← rq_of c;
  if negb (online r) then mret tt
  else modify (fun w => set_dlo_mask (dlo_mask w ∖ {[c]}) (set_dlo_count (s32 (dlo_count w - 1)) w)).

Definition update_dl_migration (c : nat) : D unit :=
  x ← dl_rq_of c;
  if negb (dl_nr_migratory x =? 0) && (1 <? dl_nr_running x) then
    when (negb (dl_overloaded x)) (dl_set_overload c ;; upd_dl_rq c (set_dl_overloaded true))
  else when (dl_overloaded x) (dl_clear_overload c ;; upd_dl_rq c (set_dl_overloaded false)).

Definition inc_dl_migration (t c : nat) : D unit :=
  p ← task_of t;
  when (1 <? nr_cpus_allowed p)
    (upd_dl_rq c (fun x => set_dl_nr_migratory (u64 (dl_nr_migratory x + 1)) x)) ;;
  update_dl_migration c.

Definition dec_dl_migration (t c : nat) : D unit :=
  p ← task_of t;
  when (1 <? nr_cpus_allowed p)
    (upd_dl_rq c (fun x => set_dl_nr_migratory (u64 (dl_nr_migratory x - 1)) x)) ;;
  update_dl_migration c.

(** ** The tree of tasks that can be pushed away *)

Definition enqueue_pushable_dl_task (c t : nat) : D unit :=
  e ← get_dl t;
  dl_bug_on (pushable_linked e) ;;
  x ← dl_rq_of c;
  '(tree, leftmost) ← deref (fun w => dl_link (dlt w) t (deadline e) (pushable_root x));
  put_dl_rq c (set_pushable_root (rb_insert_color tree)
    (if (leftmost : bool) then set_pushable_leftmost (Some t) x else x)) ;;
  put_dl t (set_pushable_linked true e).

Definition dequeue_pushable_dl_task (c t : nat) : D unit :=
  e ← get_dl t;
  if negb (pushable_linked e) then mret tt
  else
    upd_dl_rq c (fun x =>
      let x := if bool_decide (pushable_leftmost x = Some t)
               then set_pushable_leftmost (rb_next t (pushable_root x)) x else x in
      set_pushable_root (rb_erase t (pushable_root x)) x) ;;
    put_dl t (set_pushable_linked false e).

Definition has_pushable_dl_tasks (c : nat) : D bool :=
  x ← dl_rq_of c; mret (match pushable_root x with rb_null => false | _ => true end).

(** ** Deadlines of a CPU *)

Definition pick_dl_task (p : rt_task) (cpu : nat) : bool :=
  negb (on_cpu p) && bool_decide (cpu ∈ cpus_allowed p) && (1 <? nr_cpus_allowed p).

Fixpoint first_dl_pickable (l : list nat) (cpu : nat) : D (option nat) :=
  match l with
  | [] => mret None
  | t :: l =>
      p ← task_of t;
      if pick_dl_task p cpu then mret (Some t) else first_dl_pickable l cpu
  end.

(** rb_next() needs a node *)
Definition pick_next_earliest_dl_task (c cpu : nat) : D (option nat) :=
  x ← dl_rq_of c;
  match rb_leftmost x with
  | None => oops
  | Some t => first_dl_pickable (rb_after t (inorder (dl_root x))) cpu
  end.

Definition next_deadline (c : nat) : D Z :=
  next ← pick_next_earliest_dl_task c c;
  match next with
  | Some t => p ← task_of t; e ← get_dl t; mret (if dl_prio (prio p) then deadline e else 0)
  | None => mret 0
  end.

Definition cpudl_upd (c : nat) (d : Z) (valid : bool) : D unit :=
  modify (fun w => set_dlc (cpudl_set c d valid (dlc w)) w).

Definition inc_dl_deadline (c : nat) (d : Z) : D unit :=
  x ← dl_rq_of c;
  if (earliest_curr x =? 0) || dl_time_before d (earliest_curr x) then
    put_dl_rq c (set_earliest_curr d (set_earliest_next (earliest_curr x) x)) ;;
    cpudl_upd c d true
  else
    when ((earliest_next x =? 0) || dl_time_before d (earliest_next x))
      (n ← next_deadline c; upd_dl_rq c (set_earliest_next n)).

Definition dec_dl_deadline (c : nat) : D unit :=
  x ← dl_rq_of c;
  if dl_nr_running x =? 0 then
    put_dl_rq c (set_earliest_next 0 (set_earliest_curr 0 x)) ;;
    cpudl_upd c 0 false
  else
    match rb_leftmost x with
    | None => oops
    | Some t =>
        entry ← get_dl t;
        put_dl_rq c (set_earliest_curr (deadline entry) x) ;;
        n ← next_deadline c;
        upd_dl_rq c (set_earliest_next n) ;;
        cpudl_upd c (deadline entry) true
    end.

(** ** The tree of runnable tasks *)

Definition inc_nr_running (c : nat) : D unit :=
  lift_rt (r ← cpu_rq c; put_rq c (set_nr_running (u32 (nr_running r + 1)) r)).
Definition dec_nr_running (c : nat) : D unit :=
  lift_rt (r ← cpu_rq c; put_rq c (set_nr_running (u32 (nr_running r - 1)) r)).

Definition inc_dl_tasks (t c : nat) : D unit :=
  e ← get_dl t;
  upd_dl_rq c (fun x => set_dl_nr_running (u64 (dl_nr_running x + 1)) x) ;;
  inc_nr_running c ;;
  inc_dl_deadline c (deadline e) ;;
  inc_dl_migration t c.

Definition dec_dl_tasks (t c : nat) : D unit :=
  upd_dl_rq c (fun x => set_dl_nr_running (u64 (dl_nr_running x - 1)) x) ;;
  dec_nr_running c ;;
  dec_dl_deadline c ;;
  dec_dl_migration t c.

Definition __enqueue_dl_entity (t : nat) : D unit :=
  c ← cpu_of_task t;
  e ← get_dl t;
  dl_bug_on (rb_linked e) ;;
  x ← dl_rq_of c;
  '(tree, leftmost) ← deref (fun w => dl_link (dlt w) t (deadline e) (dl_root x));
  put_dl_rq c (set_dl_root (rb_insert_color tree)
    (if (leftmost : bool) then set_rb_leftmost (Some t) x else x)) ;;
  put_dl t (set_rb_linked true e) ;;
  inc_dl_tasks t c.

Definition __dequeue_dl_entity (t : nat) : D unit :=
  c ← cpu_of_task t;
  e ← get_dl t;
  if negb (rb_linked e) then mret tt
  else
    upd_dl_rq c (fun x =>
      let x := if bool_decide (rb_leftmost x = Some t)
               then set_rb_leftmost (rb_next t (dl_root x)) x else x in
      set_dl_root (rb_erase t (dl_root x)) x) ;;
    put_dl t (set_rb_linked false e) ;;
    dec_dl_tasks t c.

Definition enqueue_dl_entity (t pi : nat) (flags : Z) : D unit :=
  e ← get_dl t;
  dl_bug_on (on_dl_rq e) ;;
  pe ← get_dl pi;
  c ← cpu_of_task t;
  r ← rq_of c;
  e ← (if negb (dl_new e) && negb (Z.land flags ENQUEUE_REPLENISH =? 0)
       then deref (fun _ => replenish_dl_entity (clock r) pe e)
       else mret (update_dl_entity (clock r) pe e));
  put_dl t e ;;
  __enqueue_dl_entity t.

Definition enqueue_task_dl (c t : nat) (flags : Z) : D unit :=
  e ← get_dl t;
  pi ← (match pi_top e with
        | Some u =>
            if dl_boosted e then pe ← get_dl u; mret (if dl_prio (normal_prio pe) then u else t)
            else mret t
        | None => mret t
        end);
  if dl_throttled e then mret tt
  else
    enqueue_dl_entity t pi flags ;;
    r ← rq_of c;
    p ← task_of t;
    when (bool_decide (curr r <> t) && (1 <? nr_cpus_allowed p)) (enqueue_pushable_dl_task c t).

Definition __dequeue_task_dl (c t : nat) : D unit :=
  __dequeue_dl_entity t ;; dequeue_pushable_dl_task c t.

(** ** Running *)

(** whether the timer was started *)
Definition start_dl_timer (t : nat) (boosted : bool) : D bool :=
  if boosted then mret false
  else
    e ← get_dl t;
    c ← cpu_of_task t;
    r ← rq_of c;
    w ← get;
    let delta := s64 (hrtime w - clock r) in
    let act := s64 (deadline e + delta) in
    if ktime_us_delta act (hrtime w) <? 0 then mret false
    else put_dl t (set_dl_timer (Some act) e) ;; mret true.

(** the time charged to the limit of the real-time class *)
Definition account_rt_time (c : nat) (delta : Z) : D unit :=
  w ← get;
  when (rt_bandwidth_enabled (base w))
    (lift_rt (b ← sched_rt_bandwidth_account c;
              when b (upd_rt_rq c (fun x => set_rt_time (u64 (rt_time x + delta)) x)))).

Definition update_curr_dl (c : nat) : D unit :=
  r ← rq_of c;
  let t := curr r in
  p ← task_of t;
  e ← get_dl t;
  if negb (dl_task p) || negb (on_dl_rq e) then mret tt
  else
    let d := u64 (clock_task r - exec_start p) in
    let delta := if s64 d <? 0 then 0 else d in
    lift_rt (put_rt t (set_exec_start (clock_task r)
      (set_sum_exec_runtime (u64 (sum_exec_runtime p + delta)) p))) ;;
    let '(exceeded, e) := dl_runtime_exceeded (clock r) (set_runtime (s64 (runtime e - delta)) e) in
    put_dl t e ;;
    when exceeded
      (__dequeue_task_dl c t ;;
       started ← start_dl_timer t (dl_boosted e);
       (if (started : bool) then upd_dl t (set_dl_throttled true)
        else enqueue_task_dl c t ENQUEUE_REPLENISH) ;;
       x ← dl_rq_of c;
       when (negb (is_leftmost t x)) (resched t)) ;;
    account_rt_time c delta.

Definition dequeue_task_dl (c t : nat) : D unit := update_curr_dl c ;; __dequeue_task_dl c t.

Definition yield_task_dl (c : nat) : D unit :=
  r ← rq_of c;
  e ← get_dl (curr r);
  when (0 <? runtime e) (put_dl (curr r) (set_runtime 0 (set_dl_new true e))) ;;
  update_curr_dl c.

(** ** Choosing *)

Definition check_preempt_equal_dl (c t : nat) : D unit :=
  r ← rq_of c;
  q ← task_of (curr r);
  f ← get_dl (curr r);
  p ← task_of t;
  e ← get_dl t;
  w ← get;
  let found (e : dl_entity) (p : rt_task) :=
    match cpudl_find_null (deadline e) (cpus_allowed p) (dlc w) with Some _ => true | None => false end in
  if (nr_cpus_allowed q =? 1) || negb (found f q) then mret tt
  else if negb (nr_cpus_allowed p =? 1) && found e p then mret tt
  else resched (curr r).

Definition check_preempt_curr_dl (c t : nat) : D unit :=
  r ← rq_of c;
  q ← task_of (curr r);
  f ← get_dl (curr r);
  e ← get_dl t;
  if dl_entity_preempt e f then resched (curr r)
  else when ((deadline e =? deadline f) && negb (need_resched q)) (check_preempt_equal_dl c t).

Definition pick_next_dl_entity (x : dl_rq) : option nat := rb_leftmost x.

Definition pick_next_task_dl (c : nat) : D (option nat) :=
  x ← dl_rq_of c;
  if dl_nr_running x =? 0 then mret None
  else
    t ← deref (fun _ => pick_next_dl_entity x);
    r ← rq_of c;
    p ← task_of t;
    lift_rt (put_rt t (set_exec_start (clock_task r) p)) ;;
    dequeue_pushable_dl_task c t ;;
    b ← has_pushable_dl_tasks c;
    lift_rt (r ← cpu_rq c; put_rq c (set_post_schedule b r)) ;;
    mret (Some t).

Definition put_prev_task_dl (c t : nat) : D unit :=
  update_curr_dl c ;;
  e ← get_dl t;
  p ← task_of t;
  when (on_dl_rq e && (1 <? nr_cpus_allowed p)) (enqueue_pushable_dl_task c t).

Definition task_tick_dl (c : nat) : D unit := update_curr_dl c.

Definition set_curr_task_dl (c : nat) : D unit :=
  r ← rq_of c;
  p ← task_of (curr r);
  lift_rt (put_rt (curr r) (set_exec_start (clock_task r) p)) ;;
  dequeue_pushable_dl_task c (curr r).

(** ** Affinity, and CPUs that come and go *)

Definition set_cpus_allowed_dl (t : nat) (new_mask : gset nat) : D unit :=
  p ← task_of t;
  dl_bug_on (negb (dl_task p)) ;;
  e ← get_dl t;
  let weight := cpumask_weight new_mask in
  if negb (on_dl_rq e) then mret tt
  else if bool_decide ((1 <? nr_cpus_allowed p) = (1 <? weight)) then mret tt
  else
    c ← cpu_of_task t;
    r ← rq_of c;
    (if weight <=? 1 then
       when (bool_decide (curr r <> t)) (dequeue_pushable_dl_task c t) ;;
       x ← dl_rq_of c;
       dl_bug_on (dl_nr_migratory x =? 0) ;;
       put_dl_rq c (set_dl_nr_migratory (u64 (dl_nr_migratory x - 1)) x)
     else
       when (bool_decide (curr r <> t)) (enqueue_pushable_dl_task c t) ;;
       upd_dl_rq c (fun x => set_dl_nr_migratory (u64 (dl_nr_migratory x + 1)) x)) ;;
    update_dl_migration c.

Definition rq_online_dl (c : nat) : D unit :=
  x ← dl_rq_of c;
  when (dl_overloaded x) (dl_set_overload c) ;;
  when (0 <? dl_nr_running x) (cpudl_upd c (earliest_curr x) true).

Definition rq_offline_dl (c : nat) : D unit :=
  x ← dl_rq_of c;
  when (dl_overloaded x) (dl_clear_overload c) ;;
  cpudl_upd c 0 false.
End Class.
