(* ===== verification/DlPush.v ===== *)
(** * The deadline class: moving tasks, timers and admission (kernel/sched/deadline.c, core.c)

    As in the real-time class, a CPU pushes the tasks it cannot run to CPUs
    whose tasks have later deadlines, and pulls tasks with earlier deadlines;
    [contend c d w] is what happens when CPU [c], to lock the run queue of
    [d], has to give up its own lock.  The bandwidth of a task is checked when it
    enters the class or changes its parameters. *)

From S2P Require Import Prelude Wait Tasklet Cmgroup Sched EpTree RtRq RtPush DlRq.
Local Open Scope Z_scope.

(** the domains of a CPU, smallest first *)
Fixpoint search_later (best : nat) (this_cpu : option nat) (l : list (Z * gset nat)) : option nat :=
  match l with
  | [] => None
  | (flags, sp) :: l =>
      if negb (Z.land flags SD_WAKE_AFFINE =? 0) then
        if match this_cpu with Some t => bool_decide (t ∈ sp) | None => false end then this_cpu
        else if decide (best ∈ sp) then Some best
        else search_later best this_cpu l
      else search_later best this_cpu l
  end.

Section Push.
Context {RL : RtLib} {DL : DlLib} {RB : RbLib}.
Variable contend : nat -> nat -> dlw -> option dlw.

Definition double_lock_dl (c d : nat) : D bool := fun w =>
  match contend c d w with
  | None => Ret false w
  | Some w' => Ret true w'
  end.

(** ** Entering and leaving a run queue (core.c), for a task of the class *)

Definition activate_task_dl (c t : nat) (flags : Z) : D unit :=
  lift_rt (update_rq_clock c) ;; enqueue_task_dl c t flags ;; lift_rt (lift_k (activate_task t flags)).

Definition deactivate_task_dl (c t : nat) (flags : Z) : D unit :=
  lift_rt (update_rq_clock c) ;; dequeue_task_dl c t ;; lift_rt (lift_k (deactivate_task t flags)).

Definition move_task_dl (c t d : nat) : D unit :=
  deactivate_task_dl c t DEQUEUE_NOCMGROUP ;;
  lift_rt (lift_k (set_task_cpu t d)) ;;
  activate_task_dl d t ENQUEUE_NOCMGROUP.

(** ** Where a task can go *)

Definition find_later_rq (t : nat) : D (option nat) :=
  p ← task_of t;
  e ← get_dl t;
  w ← get;
  let this_cpu := this_cpu (krn (base w)) in
  cpu ← cpu_of_task t;
  if nr_cpus_allowed p =? 1 then mret None
  else
    match cpudl_find (deadline e) (cpus_allowed p) (dlc w) with
    | None => mret None
    | Some (best, later) =>
        if decide (cpu ∈ later) then mret (Some cpu)
        else
          let this := if decide (this_cpu ∈ later) then Some this_cpu else None in
          r ← rq_of cpu;
          match search_later best this (sd r) with
          | Some b => mret (Some b)
          | None => mret (match this with Some b => Some b | None => cpumask_first later end)
          end
    end.

Definition still_there_dl (c t d : nat) : D bool :=
  cpu ← cpu_of_task t;
  p ← task_of t;
  q ← queued t;
  mret (bool_decide (cpu = c) && bool_decide (d ∈ cpus_allowed p) && negb (on_cpu p) && q).

Fixpoint find_lock_later_rq (tries : nat) (t c : nat) : D (option nat) :=
  match tries with
  | O => mret None
  | S n =>
      cpu ← find_later_rq t;
      match cpu with
      | None => mret None
      | Some d =>
          if decide (d = c) then mret None
          else
            dropped ← double_lock_dl c d;
            ok ← (if (dropped : bool) then still_there_dl c t d else mret true);
            if negb ok then mret None
            else
              x ← dl_rq_of d;
              e ← get_dl t;
              if (dl_nr_running x =? 0) || dl_time_before (deadline e) (earliest_curr x)
              then mret (Some d) else find_lock_later_rq n t c
      end
  end.

Definition select_task_rq_dl (t cpu : nat) (sd_flag : Z) : D nat :=
  if negb (sd_flag =? SD_BALANCE_WAKE) && negb (sd_flag =? SD_BALANCE_FORK) then mret cpu
  else
    r ← rq_of cpu;
    q ← task_of (curr r);
    f ← get_dl (curr r);
    p ← task_of t;
    e ← get_dl t;
    if dl_task q && ((nr_cpus_allowed q <? 2) || negb (dl_entity_preempt e f)) && (1 <? nr_cpus_allowed p) then
      target ← find_later_rq t;
      mret (match target with Some d => d | None => cpu end)
    else mret cpu.

(** ** Pushing *)

Definition pick_next_pushable_dl_task (c : nat) : D (option nat) :=
  b ← has_pushable_dl_tasks c;
  if negb b then mret None
  else
    x ← dl_rq_of c;
    t ← deref (fun _ => pushable_leftmost x);
    r ← rq_of c;
    p ← task_of t;
    cpu ← cpu_of_task t;
    q ← queued t;
    dl_bug_on (bool_decide (c <> cpu)) ;;
    dl_bug_on (bool_decide (curr r = t)) ;;
    dl_bug_on (nr_cpus_allowed p <=? 1) ;;
    dl_bug_on (negb q) ;;
    dl_bug_on (negb (dl_task p)) ;;
    mret (Some t).

(** from the label retry *)
Fixpoint push_dl_retry (fuel : nat) (c t : nat) : D bool :=
  match fuel with
  | O => block
  | S n =>
      r ← rq_of c;
      if decide (t = curr r) then mret false
      else
        q ← task_of (curr r);
        f ← get_dl (curr r);
        e ← get_dl t;
        if dl_task q && dl_time_before (deadline e) (deadline f) && (1 <? nr_cpus_allowed q) then
          resched (curr r) ;; mret false
        else
          later ← find_lock_later_rq DL_MAX_TRIES t c;
          match later with
          | Some d =>
              move_task_dl c t d ;;
              r ← rq_of d;
              resched (curr r) ;;
              mret true
          | None =>
              task ← pick_next_pushable_dl_task c;
              cpu ← cpu_of_task t;
              match task with
              | Some u =>
                  if decide (cpu = c /\ u = t) then dequeue_pushable_dl_task c t ;; mret true
                  else push_dl_retry n c u
              | None => mret true
              end
          end
  end.

Definition push_dl_task (fuel : nat) (c : nat) : D bool :=
  x ← dl_rq_of c;
  if negb (dl_overloaded x) then mret false
  else
    next ← pick_next_pushable_dl_task c;
    match next with
    | None => mret false
    | Some t => push_dl_retry fuel c t
    end.

Fixpoint push_dl_tasks (fuel : nat) (c : nat) : D unit :=
  match fuel with
  | O => block
  | S n => b ← push_dl_task fuel c; if (b : bool) then push_dl_tasks n c else mret tt
  end.

(** ** Pulling *)

(** the body of the loop, for the overloaded CPU [src]; the result is the
    deadline of the task that was pulled *)
Definition pull_dl_from (this src : nat) (dmin : Z) : D (option Z) :=
  x ← dl_rq_of this;
  s ← dl_rq_of src;
  if negb (dl_nr_running x =? 0) && dl_time_before (earliest_curr x) (earliest_next s) then mret None
  else
    double_lock_dl this src ;;
    s ← dl_rq_of src;
    if dl_nr_running s <=? 1 then mret None
    else
      p ← pick_next_earliest_dl_task src this;
      match p with
      | None => mret None
      | Some t =>
          e ← get_dl t;
          x ← dl_rq_of this;
          r ← rq_of src;
          if dl_time_before (deadline e) dmin &&
             ((dl_nr_running x =? 0) || dl_time_before (deadline e) (earliest_curr x)) then
            f ← get_dl (curr r);
            if dl_time_before (deadline e) (deadline f) then mret None
            else
              move_task_dl src t this ;;
              e ← get_dl t;
              mret (Some (deadline e))
          else mret None
      end.

(** for_each_cpu() reads the mask as it goes *)
Fixpoint pull_dl_cpus (this : nat) (l : list nat) (dmin : Z) (ret : bool) : D bool :=
  match l with
  | [] => mret ret
  | c :: l =>
      w ← get;
      if decide (c ∈ dlo_mask w /\ c <> this) then
        o ← pull_dl_from this c dmin;
        match o with
        | Some d => pull_dl_cpus this l d true
        | None => pull_dl_cpus this l dmin ret
        end
      else pull_dl_cpus this l dmin ret
  end.

Definition pull_dl_task (this : nat) : D bool :=
  b ← dl_overloaded_rd;
  if negb b then mret false
  else w ← get; pull_dl_cpus this (for_each_cpu (dom (dls w))) LONG_MAX false.

(** ** The methods that push and pull *)

Definition pre_schedule_dl (c prev : nat) : D unit :=
  p ← task_of prev;
  when (dl_task p) (pull_dl_task c ;; mret tt).

Definition post_schedule_dl (fuel c : nat) : D unit := push_dl_tasks fuel c.

Definition task_woken_dl (fuel c t : nat) : D unit :=
  r ← rq_of c;
  p ← task_of t;
  q ← task_of (curr r);
  e ← get_dl t;
  f ← get_dl (curr r);
  b ← has_pushable_dl_tasks c;
  when (negb (on_cpu p) && negb (need_resched q) && b && (1 <? nr_cpus_allowed p) && dl_task q
        && ((nr_cpus_allowed q <? 2) || dl_entity_preempt f e))
    (push_dl_tasks fuel c).

(** the bandwidth enforcement timer of [t] expires; it is not active while its
    callback runs *)
Definition dl_task_timer (fuel t : nat) : D unit :=
  upd_dl t (set_dl_timer None) ;;
  c ← cpu_of_task t;
  p ← task_of t;
  e ← get_dl t;
  if negb (dl_task p) || dl_new e then mret tt
  else
    lift_rt (update_rq_clock c) ;;
    upd_dl t (set_dl_throttled false) ;;
    q ← queued t;
    when q
      (enqueue_task_dl c t ENQUEUE_REPLENISH ;;
       r ← rq_of c;
       cur ← task_of (curr r);
       (if task_has_dl_policy cur then check_preempt_curr_dl c t else resched (curr r)) ;;
       b ← has_pushable_dl_tasks c;
       when b (push_dl_task fuel c ;; mret tt)).

(** an active timer is cancelled (its callback is not running) *)
Definition init_dl_task_timer (t : nat) : D unit := upd_dl t (set_dl_timer None).

Definition switched_from_dl (c t : nat) : D unit :=
  e ← get_dl t;
  p ← task_of t;
  when (bool_decide (dl_timer e <> None) && negb (dl_policy (policy p))) (put_dl t (set_dl_timer None e)) ;;
  x ← dl_rq_of c;
  when (dl_nr_running x =? 0) (pull_dl_task c ;; mret tt).

Definition switched_to_dl (fuel c t : nat) : D unit :=
  e ← get_dl t;
  if dl_throttled e then mret tt
  else
    q ← queued t;
    r ← rq_of c;
    when (q || bool_decide (curr r <> t))
      (x ← dl_rq_of c;
       moved ← (if dl_overloaded x then push_dl_task fuel c else mret false);
       cpu ← cpu_of_task t;
       r ← rq_of c;
       cur ← task_of (curr r);
       when (negb (moved && bool_decide (c <> cpu)) && task_has_dl_policy cur) (check_preempt_curr_dl c t)).

Definition prio_changed_dl (fuel c t : nat) : D unit :=
  q ← queued t;
  r ← rq_of c;
  if q || bool_decide (curr r = t) then
    x ← dl_rq_of c;
    when (negb (dl_overloaded x)) (pull_dl_task c ;; mret tt) ;;
    x ← dl_rq_of c;
    e ← get_dl t;
    r ← rq_of c;
    when (dl_time_before (earliest_curr x) (deadline e) && bool_decide (curr r = t)) (resched t)
  else switched_to_dl fuel c t.

(** ** The scheduler's steps for tasks of the class (core.c) *)

(** check_preempt_curr() for a task of the class *)
Definition check_preempt_task_dl (c t : nat) : D unit :=
  r ← rq_of c;
  q ← task_of (curr r);
  p ← task_of t;
  (if decide (class p = class q) then check_preempt_curr_dl c t
   else when (class_rank (class p) <? class_rank (class q))%nat (resched (curr r))) ;;
  r ← rq_of c;
  q ← task_of (curr r);
  o ← queued (curr r);
  when (o && need_resched q) (lift_rt (put_rq c (set_skip_clock_update 1 r))).

(** ttwu_do_activate(): a task that sleeps is woken on its CPU *)
Definition ttwu_do_activate_dl (fuel c t : nat) : D unit :=
  lift_rt (update_rq_clock c) ;;
  enqueue_task_dl c t (Z.lor ENQUEUE_WAKEUP ENQUEUE_WAKING) ;;
  lift_rt (lift_k (ttwu_activate t (Z.lor ENQUEUE_WAKEUP ENQUEUE_WAKING))) ;;
  check_preempt_task_dl c t ;;
  lift_rt (lift_k (ttwu_do_wakeup t)) ;;
  task_woken_dl fuel c t.

(** the part of __schedule() in which the current task leaves the run queue *)
Definition schedule_out_dl (fatal : bool) (c : nat) : D unit :=
  r ← rq_of c;
  x ← lift_rt (lift_k (get_task (curr r)));
  when (negb (tstate x =? 0) && negb (signal_pending_state fatal (tstate x) x))
    (lift_rt (update_rq_clock c) ;; dequeue_task_dl c (curr r)) ;;
  lift_rt (lift_k (schedule_out fatal (curr r))).

(** the end of __schedule(): CPU [c] switches from [prev] to [next] *)
Definition context_switch (c prev next : nat) : W unit :=
  p ← get_rt prev;
  put_rt prev (set_need_resched false p) ;;
  r ← cpu_rq c;
  put_rq c (set_skip_clock_update 0 r) ;;
  if decide (prev = next) then mret tt
  else
    r ← cpu_rq c;
    put_rq c (set_curr next r) ;;
    n ← get_rt next;
    put_rt next (set_on_cpu true n) ;;
    p ← get_rt prev;
    put_rt prev (set_on_cpu false p).

(** the part of __schedule() that chooses the next task and switches to it:
    [hi] is the task of the stop class, if there is one, and [lo] the task a
    later class gives *)
Definition switch_dl (hi : option nat) (lo c : nat) : D unit :=
  r ← rq_of c;
  let prev := curr r in
  p ← task_of prev;
  o ← queued prev;
  when (o || (skip_clock_update r <? 0)) (lift_rt (update_rq_clock c)) ;;
  when (bool_decide (class p = dl_class)) (put_prev_task_dl c prev) ;;
  next ← match hi with
         | Some t => mret t
         | None => n ← pick_next_task_dl c; mret (match n with Some t => t | None => lo end)
         end;
  lift_rt (context_switch c prev next).

(** do_set_cpus_allowed() for a task of the class *)
Definition do_set_cpus_allowed_dl (t : nat) (new_mask : gset nat) : D unit :=
  p ← task_of t;
  when (bool_decide (class p = dl_class)) (set_cpus_allowed_dl t new_mask) ;;
  lift_rt (p ← get_rt t;
           put_rt t (set_nr_cpus_allowed (cpumask_weight new_mask) (set_cpus_allowed new_mask p))).

(** set_rq_online() and set_rq_offline(), the part of this class *)
Definition set_rq_online_dl (c : nat) : D unit :=
  r ← rq_of c;
  if online r then mret tt else lift_rt (put_rq c (set_online true r)) ;; rq_online_dl c.

Definition set_rq_offline_dl (c : nat) : D unit :=
  r ← rq_of c;
  if online r then rq_offline_dl c ;; lift_rt (r ← cpu_rq c; put_rq c (set_online false r))
  else mret tt.

(** ** Admission (core.c) *)

Definition u64_max : Z := 2 ^ 64 - 1.

Definition dl_bw_cpus : D Z :=
  w ← get; mret (cpumask_weight (span (rd (base w)) ∩ cpu_active_mask w)).

Definition __dl_overflow (bw total cpus old_bw new_bw : Z) : bool :=
  negb (bw =? u64_max) && (u64 (bw * cpus) <? u64 (total - old_bw + new_bw)).

Definition set_total_bw (z : Z) : D unit :=
  lift_rt (modify (fun b => set_rd (set_dl_total_bw z (rd b)) b)).

(** struct sched_attr *)
Record sched_attr := SchedAttr {
  sched_policy : Z; sched_flags : Z; sched_nice : Z; sched_priority : Z;
  sched_runtime : Z; sched_deadline : Z; sched_period : Z
}.

Definition attr_period (a : sched_attr) : Z :=
  if sched_period a =? 0 then sched_deadline a else sched_period a.

Definition __checkparam_dl (a : sched_attr) : bool :=
  negb (sched_deadline a =? 0) &&
  ((sched_period a =? 0) || (0 <=? s64 (sched_period a - sched_deadline a))) &&
  (0 <=? s64 (sched_deadline a - sched_runtime a)) &&
  (Z.shiftl 2 (DL_SCALE - 1) <=? sched_runtime a).

(** returns 0 or -1 *)
Definition dl_overflow (t : nat) (new_policy : Z) (a : sched_attr) : D Z :=
  let new_bw := if dl_policy new_policy then to_ratio (attr_period a) (sched_runtime a) else 0 in
  e ← get_dl t;
  p ← task_of t;
  if new_bw =? se_bw e then mret 0
  else
    cpus ← dl_bw_cpus;
    w ← get;
    let bw := dl_bw (rd (base w)) in
    let total := dl_total_bw (rd (base w)) in
    if dl_policy new_policy && negb (task_has_dl_policy p) && negb (__dl_overflow bw total cpus 0 new_bw) then
      set_total_bw (u64 (total + new_bw)) ;; mret 0
    else if dl_policy new_policy && task_has_dl_policy p && negb (__dl_overflow bw total cpus (se_bw e) new_bw) then
      set_total_bw (u64 (u64 (total - se_bw e) + new_bw)) ;; mret 0
    else if negb (dl_policy new_policy) && task_has_dl_policy p then
      set_total_bw (u64 (total - se_bw e)) ;; mret 0
    else mret (-1).

Definition __setparam_dl (t : nat) (a : sched_attr) : D unit :=
  init_dl_task_timer t ;;
  upd_dl t (fun e =>
    let e := set_dl_period (attr_period a)
               (set_dl_deadline (sched_deadline a) (set_dl_runtime (sched_runtime a) e)) in
    set_dl_new true (set_dl_throttled false
      (set_se_bw (to_ratio (dl_period e) (dl_runtime e)) (set_se_flags (u32 (sched_flags a)) e)))).

(** ** Changes of policy (core.c)

    [static] is the static priority of the task; [getprio t n] is
    rt_mutex_getprio() of kernel/locking/rtmutex.c for task [t] of normal
    priority [n].  The static and real-time priorities and the load weight of
    the task have no place in the model. *)

Definition SCHED_NORMAL : Z := 0.
Definition SCHED_FIFO : Z := 1.
Definition SCHED_BATCH : Z := 3.
Definition fair_policy (p : Z) : bool := (p =? SCHED_NORMAL) || (p =? SCHED_BATCH).
Definition rt_policy (p : Z) : bool := (p =? SCHED_FIFO) || (p =? SCHED_RR).
Definition NICE_TO_PRIO (nice : Z) : Z := MAX_RT_PRIO + nice + 20.

Definition normal_prio_of (policy rt_priority static : Z) : Z :=
  if dl_policy policy then MAX_DL_PRIO - 1
  else if rt_policy policy then MAX_RT_PRIO - 1 - rt_priority
  else static.

Definition class_of_prio (p : Z) : sched_class :=
  if dl_prio p then dl_class else if rt_prio p then rt_class else fair_class.

(** the policy that __setscheduler() and __sched_setscheduler() take from the
    attributes, whose field is an unsigned int *)
Definition set_policy_of (p : rt_task) (a : sched_attr) : Z :=
  let policy' := s32 (sched_policy a) in if policy' =? -1 then policy p else policy'.
Definition check_policy_of (p : rt_task) (a : sched_attr) : Z :=
  let policy' := s32 (sched_policy a) in if policy' <? 0 then policy p else policy'.

Definition __setscheduler (static : Z) (getprio : nat -> Z -> Z) (t : nat) (a : sched_attr) : D unit :=
  p ← task_of t;
  let policy := set_policy_of p a in
  lift_rt (put_rt t (set_policy policy p)) ;;
  when (dl_policy policy) (__setparam_dl t a) ;;
  let static := if fair_policy policy then NICE_TO_PRIO (sched_nice a) else static in
  let normal := normal_prio_of policy (sched_priority a) static in
  upd_dl t (set_normal_prio normal) ;;
  let prio := getprio t normal in
  lift_rt (p ← get_rt t; put_rt t (set_prio prio (set_class (class_of_prio prio) p))).

(** check_class_changed(), the part of this class *)
Definition check_class_changed_dl (fuel c t : nat) (prev_class : sched_class) (oldprio : Z) : D unit :=
  p ← task_of t;
  if decide (prev_class <> class p) then
    when (bool_decide (prev_class = dl_class)) (switched_from_dl c t) ;;
    when (bool_decide (class p = dl_class)) (switched_to_dl fuel c t)
  else when (bool_decide (class p = dl_class) && (negb (oldprio =? prio p) || dl_task p)) (prio_changed_dl fuel c t).

(** __sched_setscheduler() from the test of the bandwidth on, what the other
    classes do left out *)
Definition sched_setscheduler_dl (fuel : nat) (static : Z) (getprio : nat -> Z -> Z) (t : nat) (a : sched_attr) : D Z :=
  c ← cpu_of_task t;
  r ← rq_of c;
  p ← task_of t;
  let policy := check_policy_of p a in
  err ← (if dl_policy policy || dl_task p then dl_overflow t policy a else mret 0);
  if negb (err =? 0) then mret (- EBUSY)
  else
    q ← queued t;
    let running := bool_decide (curr r = t) in
    let prev_class := class p in
    when q (lift_rt (update_rq_clock c) ;;
            when (bool_decide (prev_class = dl_class)) (dequeue_task_dl c t) ;;
            lift_rt (lift_k (dequeue_task t DEQUEUE_NOCMGROUP))) ;;
    when (running && bool_decide (prev_class = dl_class)) (put_prev_task_dl c t) ;;
    __setscheduler static getprio t a ;;
    p' ← task_of t;
    when (running && bool_decide (class p' = dl_class)) (set_curr_task_dl c) ;;
    when q (lift_rt (update_rq_clock c) ;;
            when (bool_decide (class p' = dl_class)) (enqueue_task_dl c t ENQUEUE_NOCMGROUP) ;;
            lift_rt (lift_k (enqueue_task t ENQUEUE_NOCMGROUP))) ;;
    check_class_changed_dl fuel c t prev_class (prio p) ;;
    mret 0.

(** a task of the class dies: its bandwidth is free again *)
Definition task_dead_dl (t : nat) : D unit :=
  e ← get_dl t;
  w ← get;
  set_total_bw (u64 (dl_total_bw (rd (base w)) - se_bw e)) ;;
  upd_dl t (set_dl_timer None).
End Push.
