(* ===== verification/DlCbs.v ===== *)
(** * The deadline class: budgets

    The rules of the constant bandwidth server: how a used-up budget is
    replenished, when a task that wakes up may keep its deadline and the rest
    of its budget, and when it has used it up. *)

From S2P Require Import Prelude Wait Tasklet Cmgroup Sched EpTree RtRq RtPush DlRq DlPush.
Local Open Scope Z_scope.

(** two times less than 2^63 apart are compared as numbers *)
Lemma dl_before a b : - 2 ^ 63 <= a - b < 2 ^ 63 -> dl_time_before a b = (a <? b).
Proof. intros H. unfold dl_time_before. rewrite s64_id by done. apply eq_true_iff_eq. rewrite !Z.ltb_lt. lia. Qed.

(** ** Replenishment *)

(** the number of instances that pay for a negative budget [r] *)
Definition instances (run r : Z) : Z := if 0 <? r then 0 else - r / run + 1.

Definition advance (k period run : Z) (e : dl_entity) : dl_entity :=
  set_runtime (runtime e + k * run) (set_deadline (u64 (deadline e + k * period)) e).

Lemma instances_pays run r :
  0 < run -> r <= 0 -> 0 < r + instances run r * run <= run /\ 0 < instances run r.
Proof.
  intros Hrun Hr. unfold instances. rewrite (proj2 (Z.ltb_ge 0 r)) by lia.
  pose proof (Z.div_mod (- r) run ltac:(lia)). pose proof (Z.mod_pos_bound (- r) run Hrun).
  pose proof (Z.div_pos (- r) run ltac:(lia) Hrun). nia.
Qed.

Lemma instances_step run r : 0 < run -> r <= 0 -> instances run r = 1 + instances run (r + run).
Proof.
  intros Hrun Hr. unfold instances at 1. rewrite (proj2 (Z.ltb_ge 0 r)) by lia. unfold instances.
  destruct (Z.ltb_spec 0 (r + run)).
  - rewrite Z.div_small by lia. lia.
  - replace (- r) with (- (r + run) + 1 * run) by lia. rewrite Z.div_add by lia. lia.
Qed.

Lemma advance_step k period run e :
  advance k period run (set_runtime (runtime e + run) (set_deadline (u64 (deadline e + period)) e)) =
  advance (1 + k) period run e.
Proof.
  unfold advance, set_runtime, set_deadline. cbn. rewrite u64_add_l. f_equal; [lia|f_equal; lia].
Qed.

Lemma replenish_loop_spec fuel period run e :
  0 < run < 2 ^ 63 -> - 2 ^ 63 <= runtime e < 2 ^ 63 -> deadline e = u64 (deadline e) ->
  instances run (runtime e) <= Z.of_nat fuel ->
  replenish_loop fuel period run e = Some (advance (instances run (runtime e)) period run e).
Proof.
  intros Hrun. revert e. induction fuel as [|n IH]; intros e He Hd Hf; cbn [replenish_loop].
  all: destruct (Z.ltb_spec 0 (runtime e)) as [Hpos|Hneg].
  1,3: unfold instances; rewrite (proj2 (Z.ltb_lt 0 _)) by done;
       unfold advance, set_runtime, set_deadline; rewrite !Z.mul_0_l, !Z.add_0_r, <- Hd; by destruct e.
  - pose proof (instances_pays run (runtime e) ltac:(lia) Hneg). lia.
  - rewrite s64_id by lia. rewrite IH.
    + cbn. rewrite advance_step, <- instances_step by lia. done.
    + cbn. lia.
    + cbn. unfold u64. by rewrite Zmod_mod.
    + cbn. rewrite (instances_step run (runtime e)) in Hf by lia. lia.
Qed.

Lemma replenish_enough run e : 0 < run -> instances run (runtime e) <= Z.of_nat (replenish_fuel run e).
Proof.
  intros Hrun. unfold replenish_fuel, instances. rewrite Nat2Z.inj_succ. destruct (Z.ltb_spec 0 (runtime e)); [lia|].
  rewrite Z2Nat.id by (apply Z.div_pos; lia). lia.
Qed.

(** ** What is asked of an entity *)

Record params_ok (e : dl_entity) : Prop := {
  po_runtime : 0 < dl_runtime e < 2 ^ 63;
  po_deadline : 0 < dl_deadline e < 2 ^ 63;
  po_period : 0 < dl_period e < 2 ^ 63
}.
Record budget_ok (e : dl_entity) : Prop := {
  bo_runtime : - 2 ^ 63 <= runtime e < 2 ^ 63;
  bo_deadline : 0 <= deadline e < 2 ^ 64
}.

Lemma renew_budget now pi e : budget_ok (renew now pi e).
Proof. split; cbn; [apply s64_range|apply u64_range]. Qed.

Lemma replenish_eq now pi e :
  params_ok pi -> budget_ok e -> dl_deadline e <> 0 ->
  replenish_dl_entity now pi e =
    let e' := advance (instances (dl_runtime pi) (runtime e)) (dl_period pi) (dl_runtime pi) e in
    Some (if dl_time_before (deadline e') now then renew now pi e' else e').
Proof.
  intros [Hr Hd Hp] [Hb Hbd] Hne. unfold replenish_dl_entity. rewrite (proj2 (Z.leb_gt (dl_runtime pi) 0)) by lia.
  rewrite (proj2 (Z.eqb_neq _ _)) by done.
  by rewrite replenish_loop_spec; [|lia|lia|rewrite u64_id by lia|apply replenish_enough; lia].
Qed.

Lemma replenish_total now pi e :
  params_ok pi -> budget_ok e -> exists e', replenish_dl_entity now pi e = Some e' /\ budget_ok e' /\
    (exists r d, e' = set_runtime r (set_deadline d e)).
Proof.
  intros Hpi Hb. destruct (decide (dl_deadline e = 0)) as [E|E].
  - pose proof Hpi as [Hr _ _]. unfold replenish_dl_entity. rewrite (proj2 (Z.leb_gt (dl_runtime pi) 0)) by lia.
    rewrite (proj2 (Z.eqb_eq _ _) E). set (e0 := renew now pi e).
    assert (H0 : runtime e0 = dl_runtime pi) by (cbn; apply s64_id; lia).
    assert (E0 : replenish_loop (replenish_fuel (dl_runtime pi) e0) (dl_period pi) (dl_runtime pi) e0 = Some e0).
    { unfold replenish_fuel. cbn [replenish_loop]. by rewrite H0, (proj2 (Z.ltb_lt 0 _)) by lia. }
    rewrite E0. cbn. eexists. split; [done|]. split; [destruct (dl_time_before _ _); apply renew_budget|].
    destruct (dl_time_before _ _); eexists _, _; done.
  - rewrite replenish_eq by done. cbv zeta. eexists. split; [done|]. destruct (dl_time_before _ _).
    + split; [apply renew_budget|by eexists _, _].
    + split; [|by eexists _, _]. destruct Hpi as [Hr _ _], Hb as [Hb _]. split; cbn; [|apply u64_range].
      destruct (Z.ltb_spec 0 (runtime e)) as [H|H].
      * unfold instances. rewrite (proj2 (Z.ltb_lt _ _)) by done. lia.
      * pose proof (instances_pays (dl_runtime pi) (runtime e) ltac:(lia) H). lia.
Qed.
