(* ===== verification/DlInv.v ===== *)
(** * The deadline class: trees ordered by deadline, and the invariant

    What the insertion walk, rb_next() and erasure do to the sequence of tasks
    in a tree and to the cached leftmost task; and the calculus in which the
    code of the class is run. *)

From S2P Require Import Prelude Wait Tasklet Cmgroup Sched CmInv CmTask CmSys EpTree RtRq RtPush RtInv DlRq DlPush DlCbs.
Local Open Scope Z_scope.

(** ** The walk *)

Lemma dl_link_total (ents : gmap nat dl_entity) t d p :
  (forall u, u ∈ inorder p -> is_Some (ents !! u)) -> is_Some (dl_link ents t d p).
Proof. intros H. apply rb_walk_total. intros u [e ->]%H. by eexists. Qed.

(** ** Running the code *)

Section Run.
Context {RL : RtLib} {DL : DlLib} {RB : RbLib}.
Implicit Types (w : dlw) (b : rtw) (e : dl_entity) (x : dl_rq) (p : rt_task) (r : rq) (c t : nat).

Lemma swp_bug E (b : bool) w (Q : unit -> dlw -> Prop) : b = false -> Q tt w -> swp E (dl_bug_on b) w Q.
Proof. by intros ->. Qed.
Lemma swp_dl_rq E c x w (Q : dl_rq -> dlw -> Prop) : dls w !! c = Some x -> Q x w -> swp E (dl_rq_of c) w Q.
Proof. apply (swp_deref E (fun w => dls w !! c)). Qed.
Lemma swp_put_dl_rq E c x w (Q : unit -> dlw -> Prop) :
  Q tt (set_dls (<[c := x]> (dls w)) w) -> swp E (put_dl_rq c x) w Q.
Proof. done. Qed.
Lemma swp_upd_dl_rq E c x f w (Q : unit -> dlw -> Prop) :
  dls w !! c = Some x -> Q tt (set_dls (<[c := f x]> (dls w)) w) -> swp E (upd_dl_rq c f) w Q.
Proof. intros Hx H. apply swp_bind, (swp_dl_rq E c x); [done|]. by apply swp_put_dl_rq. Qed.
Lemma swp_get_dl E t e w (Q : dl_entity -> dlw -> Prop) : dlt w !! t = Some e -> Q e w -> swp E (get_dl t) w Q.
Proof. apply (swp_deref E (fun w => dlt w !! t)). Qed.
Lemma swp_put_dl E t e w (Q : unit -> dlw -> Prop) :
  Q tt (set_dlt (<[t := e]> (dlt w)) w) -> swp E (put_dl t e) w Q.
Proof. done. Qed.
Lemma swp_upd_dl E t e f w (Q : unit -> dlw -> Prop) :
  dlt w !! t = Some e -> Q tt (set_dlt (<[t := f e]> (dlt w)) w) -> swp E (upd_dl t f) w Q.
Proof. intros He H. apply swp_bind, (swp_get_dl E t e); [done|]. by apply swp_put_dl. Qed.

(** reading and changing the world of the real-time class *)
Lemma set_base_id w : set_base (base w) w = w.
Proof. by destruct w. Qed.
Lemma swp_read {A} E (m : W A) a w (Q : A -> dlw -> Prop) :
  m (base w) = Ret a (base w) -> Q a w -> swp E (lift_rt m) w Q.
Proof. intros Em H. unfold swp, lift_rt. by rewrite Em, set_base_id. Qed.
Lemma swp_rq_of E c r w (Q : rq -> dlw -> Prop) : rqs (base w) !! c = Some r -> Q r w -> swp E (rq_of c) w Q.
Proof. intros Hr. apply swp_read. by apply cpu_rq_eq. Qed.
Lemma swp_task_of E t p w (Q : rt_task -> dlw -> Prop) : rts (base w) !! t = Some p -> Q p w -> swp E (task_of t) w Q.
Proof. intros Hp. apply swp_read. by apply get_rt_eq. Qed.
Lemma lift_get_task_eq b t k : tasks (krn b) !! t = Some k -> lift_k (get_task t) b = Ret k b.
Proof. intros Hk. unfold lift_k. rewrite (get_task_eq t _ k Hk). by destruct b. Qed.
Lemma swp_cpu_of_task E t k w (Q : nat -> dlw -> Prop) :
  tasks (krn (base w)) !! t = Some k -> Q (tcpu k) w -> swp E (cpu_of_task t) w Q.
Proof. intros Hk. apply swp_read. unfold task_cpu. by mrun (lift_get_task_eq _ t k Hk). Qed.
Lemma swp_queued E t k w (Q : bool -> dlw -> Prop) :
  tasks (krn (base w)) !! t = Some k -> Q (on_rq k) w -> swp E (queued t) w Q.
Proof. intros Hk. apply swp_read. unfold task_on_rq. by mrun (lift_get_task_eq _ t k Hk). Qed.
Lemma swp_calms {A} E (m : W A) w (Q : A -> dlw -> Prop) :
  calms m (base w) -> (forall a b, calm (base w) b -> Q a (set_base b w)) -> swp E (lift_rt m) w Q.
Proof. intros (a & b & Em & Hc) H. unfold swp, lift_rt. rewrite Em. auto. Qed.
End Run.

(** reads whose result is known *)
Ltac dread :=
  cbv beta;
  lazymatch goal with
  | |- swp _ (mbind _ _) _ _ => apply swp_bind; dread
  | |- swp _ (mret _) _ _ => apply swp_ret
  | |- swp _ get _ _ => apply swp_get
  | |- swp _ (modify _) _ _ => apply swp_modify
  | |- swp _ (cpudl_upd _ _ _) _ _ => apply swp_modify
  | |- swp _ (dl_rq_of _) _ _ => eapply swp_dl_rq; [eassumption|]
  | |- swp _ (put_dl_rq _ _) _ _ => apply swp_put_dl_rq
  | |- swp _ (upd_dl_rq _ _) _ _ => eapply swp_upd_dl_rq; [eassumption|]
  | |- swp _ (get_dl _) _ _ => eapply swp_get_dl; [eassumption|]
  | |- swp _ (put_dl _ _) _ _ => apply swp_put_dl
  | |- swp _ (upd_dl _ _) _ _ => eapply swp_upd_dl; [eassumption|]
  | |- swp _ (rq_of _) _ _ => eapply swp_rq_of; [eassumption|]
  | |- swp _ (task_of _) _ _ => eapply swp_task_of; [eassumption|]
  | |- swp _ (cpu_of_task _) _ _ => eapply swp_cpu_of_task; [eassumption|]
  | |- swp _ (queued _) _ _ => eapply swp_queued; [eassumption|]
  end.

(** ** The invariant

    The trees hold exactly the tasks whose nodes are linked, each on the CPU of
    the task; the counters, the leftmost tasks, the overload flags and the
    masks of the root domain are exact; a queued task has a budget to run on
    and its timer is not active.  [wk] is the task that is being woken up, which
    is queued before it is marked so, and [run c] the task that CPU [c] must not
    push away. *)

(** cpudl_find() stays within the affinity of the task *)
Class DlLaws (DL : DlLib) := {
  cpudl_find_mask : forall d m s best later, cpudl_find d m s = Some (best, later) -> best ∈ later /\ later ⊆ m
}.

(** ** One run queue *)

Definition ov (x : dl_rq) : bool := negb (dl_nr_migratory x =? 0) && (1 <? dl_nr_running x).

Record dlq_ok (ts : gmap nat rt_task) (x : dl_rq) : Prop := {
  q_tree : tree_ok (dl_root x) (rb_leftmost x);
  q_push : tree_ok (pushable_root x) (pushable_leftmost x);
  q_sub : forall t, t ∈ inorder (pushable_root x) -> t ∈ inorder (dl_root x) /\ is_migratory ts t = true;
  q_running : dl_nr_running x = Z.of_nat (length (inorder (dl_root x)));
  q_migratory : dl_nr_migratory x =
    Z.of_nat (length (filter (fun t => is_migratory ts t = true) (inorder (dl_root x))));
  q_over : dl_overloaded x = ov x
}.

(** ** One task *)

(** what is asked of the entity of a task *)
Record ent_ok (n : gset nat) (p : rt_task) (e : dl_entity) : Prop := {
  eo_budget : budget_ok e;
  eo_timer : dl_timer e <> None -> dl_throttled e = true;
  eo_params : class p = dl_class -> params_ok e;
  eo_boost : dl_boosted e = false;
  eo_class : dl_task p = bool_decide (class p = dl_class);
  eo_cpus : cpus_allowed p ⊆ n;
  eo_nr : nr_cpus_allowed p = Z.of_nat (size (cpus_allowed p))
}.

Section Inv.
Context {RL : RtLib} {DL : DlLib} {RB : RbLib}.
Implicit Types (w : dlw) (b : rtw) (e : dl_entity) (x : dl_rq) (p : rt_task) (r : rq) (c t : nat).

(** the root domain knows the overloaded CPUs that are online *)
Record marks w : Prop := {
  mk_mask : forall c, c ∈ dlo_mask w <-> exists r x, rqs (base w) !! c = Some r /\ dls w !! c = Some x /\
    online r = true /\ dl_overloaded x = true;
  mk_count : dlo_count w = Z.of_nat (size (dlo_mask w))
}.

Definition runnable (wk : option nat) w c t : Prop :=
  exists e p k, dlt w !! t = Some e /\ rts (base w) !! t = Some p /\ tasks (krn (base w)) !! t = Some k /\
    rb_linked e = true /\ dl_throttled e = false /\ class p = dl_class /\ tcpu k = c /\
    (on_rq k = true \/ wk = Some t).

Record dl_ok (wk : option nat) (run : nat -> option nat) w : Prop := {
  d_dom : dom (dls w) = dom (rqs (base w));
  d_q : forall c x, dls w !! c = Some x -> dlq_ok (rts (base w)) x;
  d_in : forall c x t, dls w !! c = Some x -> t ∈ inorder (dl_root x) -> runnable wk w c t;
  d_out : forall t e, dlt w !! t = Some e -> rb_linked e = true ->
    exists c x, dls w !! c = Some x /\ t ∈ inorder (dl_root x);
  d_pin : forall c x t, dls w !! c = Some x -> t ∈ inorder (pushable_root x) ->
    run c <> Some t /\ exists e, dlt w !! t = Some e /\ pushable_linked e = true;
  d_pout : forall t e, dlt w !! t = Some e -> pushable_linked e = true ->
    exists c x, dls w !! c = Some x /\ t ∈ inorder (pushable_root x);
  d_task : forall t p, rts (base w) !! t = Some p -> exists e k, dlt w !! t = Some e /\
    tasks (krn (base w)) !! t = Some k /\ tcpu k ∈ dom (dls w) /\ ent_ok (dom (dls w)) p e;
  d_curr : forall c r, rqs (base w) !! c = Some r -> exists p k, rts (base w) !! curr r = Some p /\
    tasks (krn (base w)) !! curr r = Some k /\ tcpu k = c;
  d_marks : marks w;
  d_size : Z.of_nat (size (rts (base w))) < 2 ^ 31 /\ Z.of_nat (size (dls w)) < 2 ^ 31 - 1
}.

(** ** What depends on what *)

(** parts of a calm change *)
Lemma calm_facts b b' :
  calm b b' ->
  (forall c r, rqs b !! c = Some r -> exists r', rqs b' !! c = Some r' /\ curr r' = curr r /\ online r' = online r /\ sd r' = sd r) /\
  (forall t p, rts b !! t = Some p -> exists p', rts b' !! t = Some p' /\ task_abs p' = task_abs p) /\
  krn b' = krn b /\ dom (rqs b') = dom (rqs b) /\ size (rts b') = size (rts b).
Proof.
  intros H. split_and!.
  - intros c r Hr. destruct (calm_rq b b' c r H Hr) as (r' & Hr' & E). exists r'. split; [done|].
    destruct r, r'. by inversion E.
  - intros t p Hp. destruct (calm_rt b b' t p H Hp) as (p' & ? & ?). by exists p'.
  - symmetry. apply H.
  - rewrite <- (dom_fmap_L rq_core), <- (calm_rqs _ _ H). by rewrite dom_fmap_L.
  - rewrite <- (map_size_fmap task_abs (rts b')), <- (calm_rts _ _ H). by rewrite map_size_fmap.
Qed.

Lemma calm_facts_back b b' :
  calm b b' ->
  (forall c r', rqs b' !! c = Some r' -> exists r, rqs b !! c = Some r /\ curr r' = curr r /\ online r' = online r /\ sd r' = sd r) /\
  (forall t p', rts b' !! t = Some p' -> exists p, rts b !! t = Some p /\ task_abs p' = task_abs p).
Proof.
  intros H. assert (H' : calm b' b) by by symmetry. destruct (calm_facts b' b H') as (H1 & H2 & _). split.
  - intros c r Hr. destruct (H1 c r Hr) as (r' & ? & ? & ? & ?). by exists r'.
  - intros t p Hp. destruct (H2 t p Hp) as (p' & ? & ?). by exists p'.
Qed.

Lemma is_migratory_calm b b' t : calm b b' -> is_migratory (rts b') t = is_migratory (rts b) t.
Proof.
  intros H. unfold is_migratory. destruct (calm_facts b b' H) as (_ & H2 & _). destruct (calm_facts_back b b' H) as [_ H3].
  destruct (rts b !! t) as [p|] eqn:E.
  - destruct (H2 t p E) as (p' & -> & Ea). by apply task_abs_inv in Ea as (_ & _ & -> & _).
  - destruct (rts b' !! t) as [p'|] eqn:E'; [|done]. destruct (H3 t p' E') as (? & ? & _). congruence.
Qed.

Lemma ent_ok_abs n p p' e : task_abs p' = task_abs p -> ent_ok n p e -> ent_ok n p' e.
Proof.
  intros (E1 & E2 & E3 & E4 & _)%task_abs_inv [H1 H2 H3 H4 H5 H6 H7].
  split; rewrite ?E2, ?E3, ?E4; try done. unfold dl_task in *. by rewrite E1.
Qed.

(** a step of the code on the run queue of [c] and the entity of [t] *)
Record stepped c t x' e' w w' : Prop := {
  st_base : calm (base w) (base w');
  st_dls : dls w' = <[c := x']> (dls w);
  st_dlt : dlt w' = <[t := e']> (dlt w)
}.

Lemma stepped_id c t x e w : dls w !! c = Some x -> dlt w !! t = Some e -> stepped c t x e w w.
Proof. intros Hx He. split; [done|by rewrite insert_id|by rewrite insert_id]. Qed.

Lemma stepped_put c t x' e w w' :
  dlt w !! t = Some e -> base w' = base w -> dls w' = <[c := x']> (dls w) -> dlt w' = dlt w ->
  stepped c t x' e w w'.
Proof. intros He Eb Es Et. split; [by rewrite Eb|done|]. by rewrite Et, insert_id. Qed.

Lemma stepped_trans c t x1 e1 x2 e2 w w1 w2 :
  stepped c t x1 e1 w w1 -> stepped c t x2 e2 w1 w2 -> stepped c t x2 e2 w w2.
Proof.
  intros [B1 S1 T1] [B2 S2 T2]. split; [by trans (base w1)| |].
  - by rewrite S2, S1, insert_insert_eq.
  - by rewrite T2, T1, insert_insert_eq.
Qed.

Lemma stepped_rq c t x e w w' : stepped c t x e w w' -> dls w' !! c = Some x.
Proof. intros [_ E _]. rewrite E. apply lookup_insert_eq. Qed.
Lemma stepped_ent c t x e w w' : stepped c t x e w w' -> dlt w' !! t = Some e.
Proof. intros [_ _ E]. rewrite E. apply lookup_insert_eq. Qed.

(** the marks depend on the flags only *)
Lemma marks_frame w w' :
  calm (base w) (base w') -> dl_overloaded <$> dls w' = dl_overloaded <$> dls w ->
  dlo_mask w' = dlo_mask w -> dlo_count w' = dlo_count w -> marks w -> marks w'.
Proof.
  intros Hc Ho Em Ec [H1 H2]. destruct (calm_facts _ _ Hc) as (F1 & _). destruct (calm_facts_back _ _ Hc) as [F2 _].
  split; [|by rewrite Em, Ec]. intros c. rewrite Em, H1. split.
  - intros (r & x & Hr & Hx & Hon & Hov). destruct (F1 c r Hr) as (r' & Hr' & _ & Eo & _).
    destruct (fmap_lookup_eq dl_overloaded (dls w) (dls w') c x) as (x' & Hx' & E); [done|done|].
    exists r', x'. split_and!; congruence.
  - intros (r & x & Hr & Hx & Hon & Hov). destruct (F2 c r Hr) as (r' & Hr' & _ & Eo & _).
    destruct (fmap_lookup_eq dl_overloaded (dls w') (dls w) c x) as (x' & Hx' & E); [done|done|].
    exists r', x'. split_and!; congruence.
Qed.

Lemma overloaded_insert w c x x' : dls w !! c = Some x -> dl_overloaded x' = dl_overloaded x ->
  dl_overloaded <$> <[c := x']> (dls w) = dl_overloaded <$> dls w.
Proof. intros Hx E. rewrite fmap_insert, E, <- fmap_insert. by rewrite insert_id. Qed.

(** ** The overload flag *)

Lemma mask_size_dl w : marks w -> (forall c, c ∈ dlo_mask w -> is_Some (dls w !! c)) /\ (size (dlo_mask w) <= size (dls w))%nat.
Proof.
  intros [H1 _]. assert (H : forall c, c ∈ dlo_mask w -> is_Some (dls w !! c)).
  { intros c (r & x & _ & Hx & _)%H1. by exists x. }
  split; [done|]. rewrite <- size_dom. apply subseteq_size. intros c Hc%H. by apply elem_of_dom.
Qed.

Lemma update_dl_migration_ok E c x r w t e :
  dls w !! c = Some x -> rqs (base w) !! c = Some r -> dlt w !! t = Some e -> marks w ->
  Z.of_nat (size (dls w)) < 2 ^ 31 - 1 ->
  swp E (update_dl_migration c) w (fun _ w' => stepped c t (set_dl_overloaded (ov x) x) e w w' /\ marks w').
Proof.
  intros Hx Hr He Hm Hs. unfold update_dl_migration. dread. fold (ov x).
  assert (Hsame : ov x = dl_overloaded x -> stepped c t (set_dl_overloaded (ov x) x) e w w /\ marks w).
  { intros Eo. split; [|done]. replace (set_dl_overloaded (ov x) x) with x by (rewrite Eo; by destruct x).
    by apply stepped_id. }
  destruct (mask_size_dl w Hm) as [_ Hsz].
  destruct (ov x) eqn:Eo; apply swp_when; intros Ex; try (apply Hsame; by destruct (dl_overloaded x)).
  - apply negb_true_iff in Ex. assert (Hc : online r = true -> c ∉ dlo_mask w).
    { intros _ (? & x' & _ & Hx' & _ & H)%(mk_mask _ Hm). congruence. }
    unfold dl_set_overload. dread. destruct (online r) eqn:On; cbn [negb]; do 2 dread.
    all: split; [by apply stepped_put|].
    + split; cbn.
      * intros d. rewrite elem_of_union, elem_of_singleton, (mk_mask _ Hm). setoid_rewrite lookup_insert. split.
        -- intros [->|(r' & x' & Hr' & Hx' & ?)].
           ++ exists r, (set_dl_overloaded true x). by rewrite decide_True.
           ++ destruct (decide (d = c)) as [->|]; [exists r, (set_dl_overloaded true x); by rewrite decide_True|].
              exists r', x'. by rewrite decide_False.
        -- intros (r' & x' & Hr' & Hx' & ?). destruct (decide (c = d)); [by left|right; by exists r', x'].
      * rewrite (mk_count _ Hm), size_union, size_singleton by set_solver. rewrite s32_id by lia. lia.
    + split; cbn; [|apply Hm]. intros d. rewrite (mk_mask _ Hm). setoid_rewrite lookup_insert.
      split; intros (r' & x' & Hr' & Hx' & ? & ?); exists r', x'; (destruct (decide (c = d)); [exfalso; simplify_eq; congruence|done]).
  - unfold dl_clear_overload. dread. destruct (online r) eqn:On; cbn [negb]; do 2 dread.
    all: split; [by apply stepped_put|].
    + assert (Hc : c ∈ dlo_mask w) by (apply (mk_mask _ Hm); by exists r, x). split; cbn.
      * intros d. rewrite elem_of_difference, elem_of_singleton, (mk_mask _ Hm). setoid_rewrite lookup_insert. split.
        -- intros [(r' & x' & Hr' & Hx' & ?) Hne]. exists r', x'. by rewrite decide_False by congruence.
        -- intros (r' & x' & Hr' & Hx' & ? & Hov). destruct (decide (c = d)) as [->|]; [by simplify_eq/=|].
           split; [by exists r', x'|done].
      * assert (Hd : size (dlo_mask w) = S (size (dlo_mask w ∖ {[c]}))).
        { rewrite size_difference by set_solver. rewrite size_singleton. assert (size (dlo_mask w) <> 0%nat); [|lia].
          intros E0%size_empty_inv. set_solver. }
        rewrite (mk_count _ Hm), Hd. rewrite s32_id by lia. lia.
    + split; cbn; [|apply Hm]. intros d. rewrite (mk_mask _ Hm). setoid_rewrite lookup_insert.
      split; intros (r' & x' & Hr' & Hx' & ? & ?); exists r', x'; (destruct (decide (c = d)); [exfalso; simplify_eq; congruence|done]).
Qed.
End Inv.
