(* ===== verification/DlOps.v ===== *)
(** * The deadline class: entering and leaving the trees

    The operations on one run queue: each keeps the counters, the cached
    leftmost tasks, the overload flag and the marks exact. *)

From S2P Require Import Prelude Wait Tasklet Cmgroup Sched CmInv CmTask CmSys EpTree RtRq RtPush RtInv.
From S2P Require Import DlRq DlPush DlCbs DlInv.
Local Open Scope Z_scope.

Section Ops.
Context {RL : RtLib} {DL : DlLib} {RB : RbLib}.
Implicit Types (w : dlw) (b : rtw) (e : dl_entity) (x : dl_rq) (p : rt_task) (r : rq) (c t : nat).

(** the tasks of a run queue exist *)
Definition present w x : Prop :=
  forall u, u ∈ inorder (dl_root x) -> is_Some (rts (base w) !! u) /\ is_Some (dlt w !! u).

(** ** The earliest deadlines *)

Lemma first_pickable_ok_dl E l cpu w :
  (forall u, u ∈ l -> is_Some (rts (base w) !! u)) ->
  swp E (first_dl_pickable l cpu) w (fun o w' => w' = w /\
    forall t, o = Some t -> t ∈ l /\ exists p, rts (base w) !! t = Some p /\ pick_dl_task p cpu = true).
Proof.
  induction l as [|u l IH]; intros Hl; cbn [first_dl_pickable]; [by dread|].
  destruct (Hl u) as [p Hp]; [by left|]. dread. destruct (pick_dl_task p cpu) eqn:Ep.
  - dread. split; [done|]. intros t [= <-]. split; [by left|by exists p].
  - eapply swp_cons; [apply IH; intros; apply Hl; by right|]. intros o w' [-> Ho]. split; [done|].
    intros t Ht. destruct (Ho t Ht) as (? & p' & ? & ?). split; [by right|by exists p'].
Qed.

Lemma earliest_task_ok E c cpu x w :
  dls w !! c = Some x -> tree_ok (dl_root x) (rb_leftmost x) -> inorder (dl_root x) <> [] -> present w x ->
  swp E (pick_next_earliest_dl_task c cpu) w (fun o w' => w' = w /\
    forall t, o = Some t -> t ∈ inorder (dl_root x) /\ exists p, rts (base w) !! t = Some p /\ pick_dl_task p cpu = true).
Proof.
  intros Hx [_ Ht] Hne Hp. unfold pick_next_earliest_dl_task. dread.
  destruct (inorder (dl_root x)) as [|u l] eqn:El; [done|]. cbn in Ht. rewrite Ht. cbn [inorder]. rewrite rb_after_cons.
  assert (Hin : forall v, v ∈ l -> v ∈ u :: l) by (intros; by right).
  eapply swp_cons; [apply first_pickable_ok_dl|].
  - intros v Hv. unfold present in Hp. rewrite El in Hp. by apply Hp, Hin.
  - intros o w' [-> Ho]. split; [done|]. intros t Et. destruct (Ho t Et) as [H1 H2]. auto.
Qed.

Lemma next_deadline_ok E c x w :
  dls w !! c = Some x -> tree_ok (dl_root x) (rb_leftmost x) -> inorder (dl_root x) <> [] -> present w x ->
  swp E (next_deadline c) w (fun _ w' => w' = w).
Proof.
  intros Hx Ht Hne Hp. unfold next_deadline. eapply swp_seq; [by apply earliest_task_ok|].
  intros o w' [-> Ho]. destruct o as [t|]; [|by dread]. destruct (Ho t eq_refl) as [Hin (p & Hpt & _)].
  destruct (Hp t Hin) as [_ [e He]]. by do 3 dread.
Qed.

(** the earliest deadline after a task of deadline [d] has come *)
Definition earlier (d : Z) x : Z :=
  if (earliest_curr x =? 0) || dl_time_before d (earliest_curr x) then d else earliest_curr x.

Lemma marks_put w w' c x x' :
  dls w !! c = Some x -> dls w' = <[c := x']> (dls w) -> dl_overloaded x' = dl_overloaded x ->
  base w' = base w -> dlo_mask w' = dlo_mask w -> dlo_count w' = dlo_count w -> marks w -> marks w'.
Proof.
  intros Hx Es Eo Eb Em Ec. apply marks_frame; [by rewrite Eb| |done|done]. rewrite Es. by eapply overloaded_insert.
Qed.

Lemma inc_dl_deadline_ok E c d x t e w :
  dls w !! c = Some x -> dlt w !! t = Some e -> marks w ->
  tree_ok (dl_root x) (rb_leftmost x) -> inorder (dl_root x) <> [] -> present w x ->
  swp E (inc_dl_deadline c d) w (fun _ w' => marks w' /\
    exists n, stepped c t (set_earliest_next n (set_earliest_curr (earlier d x) x)) e w w').
Proof.
  intros Hx He Hm Ht Hne Hp. unfold inc_dl_deadline, earlier. dread. destruct (_ || _).
  - do 2 dread. split; [by eapply marks_put|]. eexists. by apply stepped_put.
  - apply swp_when; intros _.
    + eapply swp_seq; [by eapply next_deadline_ok|]. intros n ? ->. dread. split; [by eapply marks_put|].
      exists n. apply stepped_put; [done|done| |done]. done.
    + split; [done|]. exists (earliest_next x). apply stepped_put; [done|done| |done].
      rewrite insert_id; [done|]. rewrite Hx. by destruct x.
Qed.

(** the deadline of the leftmost task *)
Definition first_deadline (ents : gmap nat dl_entity) (l : list nat) : Z :=
  match l with u :: _ => match ents !! u with Some e => deadline e | None => 0 end | [] => 0 end.

Lemma dec_dl_deadline_ok E c x t e w :
  dls w !! c = Some x -> dlt w !! t = Some e -> marks w ->
  tree_ok (dl_root x) (rb_leftmost x) -> dl_nr_running x = Z.of_nat (length (inorder (dl_root x))) -> present w x ->
  swp E (dec_dl_deadline c) w (fun _ w' => marks w' /\
    exists n, stepped c t (set_earliest_next n (set_earliest_curr
      (first_deadline (dlt w) (inorder (dl_root x))) x)) e w w').
Proof.
  intros Hx He Hm Ht Hn Hp. unfold dec_dl_deadline. dread. rewrite Hn.
  destruct (inorder (dl_root x)) as [|u l] eqn:El; cbn [length first_deadline].
  - rewrite (proj2 (Z.eqb_eq (Z.of_nat 0) 0)) by done. do 2 dread. split; [by eapply marks_put|]. eexists. by apply stepped_put.
  - rewrite (proj2 (Z.eqb_neq _ _)) by lia. pose proof Ht as [_ ->]. rewrite El. cbn [head].
    destruct (Hp u) as [_ [f Hf]]; [rewrite El; by left|]. rewrite Hf. do 2 dread.
    eapply swp_seq.
    { eapply (next_deadline_ok E c (set_earliest_curr (deadline f) x)); cbn; [apply lookup_insert_eq|done|by rewrite El|done]. }
    intros n ? ->. apply swp_bind. eapply swp_upd_dl_rq; [apply lookup_insert_eq|]. dread.
    split; [eapply marks_put; [exact Hx|cbn; apply insert_insert_eq|done..]|].
    exists n. apply stepped_put; [done|done| |done]. cbn. by rewrite insert_insert_eq.
Qed.

(** ** Steps of one run queue *)

Lemma upd_queue_ok E c t x e f w :
  dls w !! c = Some x -> dlt w !! t = Some e -> marks w -> dl_overloaded (f x) = dl_overloaded x ->
  swp E (upd_dl_rq c f) w (fun _ w' => marks w' /\ stepped c t (f x) e w w').
Proof. intros Hx He Hm Eo. dread. split; [by eapply marks_put|by apply stepped_put]. Qed.

Lemma put_queue_ok_dl E c t x e x' w :
  dls w !! c = Some x -> dlt w !! t = Some e -> marks w -> dl_overloaded x' = dl_overloaded x ->
  swp E (put_dl_rq c x') w (fun _ w' => marks w' /\ stepped c t x' e w w').
Proof. intros Hx He Hm Eo. dread. split; [by eapply marks_put|by apply stepped_put]. Qed.

Lemma put_entity_ok E c t x e' w :
  dls w !! c = Some x -> marks w -> swp E (put_dl t e') w (fun _ w' => marks w' /\ stepped c t x e' w w').
Proof. intros Hx Hm. dread. split; [by apply (marks_frame w)|]. split; [done|cbn; by rewrite insert_id|done]. Qed.

Lemma base_step_ok {A} E (m : W A) c t x e w :
  dls w !! c = Some x -> dlt w !! t = Some e -> marks w -> calms m (base w) ->
  swp E (lift_rt m) w (fun _ w' => marks w' /\ stepped c t x e w w').
Proof.
  intros Hx He Hm Hc. apply swp_calms; [done|]. intros _ b Hb. split; [by apply (marks_frame w)|].
  split; [done|cbn; by rewrite insert_id|cbn; by rewrite insert_id].
Qed.

Lemma present_stepped c t x' e' x w w' : stepped c t x' e' w w' -> present w x -> present w' x.
Proof.
  intros [Hb _ Ht] Hp u Hu. destruct (Hp u Hu) as [H1 H2]. split; [by eapply calm_is_some_rt|].
  rewrite Ht, lookup_insert. case_decide; [by eexists|done].
Qed.

Lemma stepped_task c t x' e' w w' u p :
  stepped c t x' e' w w' -> rts (base w) !! u = Some p ->
  exists p', rts (base w') !! u = Some p' /\ task_abs p' = task_abs p.
Proof. intros [Hb _ _]. by apply (calm_facts _ _ Hb). Qed.

Lemma stepped_cpu c t x' e' w w' d r :
  stepped c t x' e' w w' -> rqs (base w) !! d = Some r ->
  exists r', rqs (base w') !! d = Some r' /\ curr r' = curr r /\ online r' = online r /\ sd r' = sd r.
Proof. intros [Hb _ _]. by apply (calm_facts _ _ Hb). Qed.

Lemma stepped_size c t x x' e' w w' :
  stepped c t x' e' w w' -> dls w !! c = Some x -> size (dls w') = size (dls w).
Proof. intros [_ E _] Hx. rewrite E, map_size_insert, Hx. done. Qed.

Lemma enters_krn c t x' e' w w' u (k : task_struct) : stepped c t x' e' w w' -> tasks (krn (base w)) !! u = Some k ->
  tasks (krn (base w')) !! u = Some k.
Proof. intros [Hb _ _]. by rewrite <- (calm_krn _ _ Hb). Qed.

(** counting one more or one less *)
Lemma migration_ok E c t x e r p (up : bool) w :
  dls w !! c = Some x -> dlt w !! t = Some e -> rqs (base w) !! c = Some r -> rts (base w) !! t = Some p ->
  marks w -> Z.of_nat (size (dls w)) < 2 ^ 31 - 1 ->
  let s := if up then 1 else -1 in
  let x1 := if 1 <? nr_cpus_allowed p then set_dl_nr_migratory (u64 (dl_nr_migratory x + s)) x else x in
  swp E ((if up then inc_dl_migration else dec_dl_migration) t c) w
    (fun _ w' => marks w' /\ stepped c t (set_dl_overloaded (ov x1) x1) e w w').
Proof.
  intros Hx He Hr Hp Hm Hsz s x1.
  assert (Hgo : swp E (p ← task_of t;
      when (1 <? nr_cpus_allowed p) (upd_dl_rq c (fun x => set_dl_nr_migratory (u64 (dl_nr_migratory x + s)) x)) ;;
      update_dl_migration c) w (fun _ w' => marks w' /\ stepped c t (set_dl_overloaded (ov x1) x1) e w w')).
  { dread. eapply (swp_seq _ _ _ _ (fun _ w1 => marks w1 /\ stepped c t x1 e w w1)).
    - unfold x1. destruct (1 <? nr_cpus_allowed p); cbn [when].
      + by apply (upd_queue_ok E c t x e (fun x => set_dl_nr_migratory (u64 (dl_nr_migratory x + s)) x)).
      + split; [done|by apply stepped_id].
    - intros _ w1 [Hm1 S1]. destruct (stepped_cpu _ _ _ _ _ _ _ r S1 Hr) as (r1 & Hr1 & _).
      eapply swp_cons; [apply (update_dl_migration_ok E c x1 r1 w1 t e); [by eapply stepped_rq|done|by eapply stepped_ent|done|]|].
      + by rewrite (stepped_size _ _ _ _ _ _ _ S1 Hx).
      + intros _ w2 [S2 Hm2]. split; [done|]. by eapply stepped_trans. }
  destruct up; exact Hgo.
Qed.

(** ** The tree of runnable tasks *)

Lemma calms_nr c (f : rq -> rq) b :
  is_Some (rqs b !! c) -> (forall r, rq_core (f r) = rq_core r) -> calms (r ← cpu_rq c; put_rq c (f r)) b.
Proof.
  intros [r Hr] Hf. eapply calms_read; [by apply cpu_rq_eq|]. eapply calms_put_rq; [done|]. by rewrite Hf.
Qed.

Lemma is_migratory_eq (ts : gmap nat rt_task) t p : ts !! t = Some p -> is_migratory ts t = (1 <? nr_cpus_allowed p).
Proof. unfold is_migratory. by intros ->. Qed.

Lemma count_cons (f : nat -> bool) (l l' : list nat) t :
  l' ≡ₚ t :: l -> Z.of_nat (length (filter (fun u => f u = true) l')) =
    Z.of_nat (length (filter (fun u => f u = true) l)) + (if f t then 1 else 0).
Proof.
  intros E. rewrite E, filter_cons. destruct (f t) eqn:Ef.
  - rewrite decide_True by done. cbn. lia.
  - rewrite decide_False by done. lia.
Qed.

(** the counters move by [s], the trees stay *)
Record counted (s : Z) (m : bool) x x' : Prop := {
  ct_root : dl_root x' = dl_root x;
  ct_left : rb_leftmost x' = rb_leftmost x;
  ct_push : pushable_root x' = pushable_root x;
  ct_pleft : pushable_leftmost x' = pushable_leftmost x;
  ct_run : dl_nr_running x' = u64 (dl_nr_running x + s);
  ct_mig : dl_nr_migratory x' = if m then u64 (dl_nr_migratory x + s) else dl_nr_migratory x;
  ct_over : dl_overloaded x' = ov x'
}.

(** a run queue and a task in the world, at rest *)
Record here w t c x e p r : Prop := {
  h_rq : dls w !! c = Some x;
  h_ent : dlt w !! t = Some e;
  h_rt : rts (base w) !! t = Some p;
  h_rrq : rqs (base w) !! c = Some r;
  h_marks : marks w;
  h_size : Z.of_nat (size (dls w)) < 2 ^ 31 - 1
}.

Lemma here_stepped w w' t c x x' e e' p r :
  here w t c x e p r -> stepped c t x' e' w w' -> marks w' ->
  exists p' r', here w' t c x' e' p' r' /\ nr_cpus_allowed p' = nr_cpus_allowed p.
Proof.
  intros [Hx He Hp Hr Hm Hs] S Hm'.
  destruct (stepped_task _ _ _ _ _ _ t p S Hp) as (p' & Hp' & (_ & _ & En & _)%task_abs_inv).
  destruct (stepped_cpu _ _ _ _ _ _ _ r S Hr) as (r' & Hr' & _). exists p', r'. split; [|done].
  split; [by eapply stepped_rq|by eapply stepped_ent|done|done|done|by rewrite (stepped_size _ _ _ _ _ _ _ S Hx)].
Qed.

(** the first two statements of inc_dl_tasks() and dec_dl_tasks() *)
Lemma count_step E s w t c x e p r :
  here w t c x e p r ->
  let x1 := set_dl_nr_running (u64 (dl_nr_running x + s)) x in
  swp E (upd_dl_rq c (fun x => set_dl_nr_running (u64 (dl_nr_running x + s)) x) ;;
         lift_rt (r ← cpu_rq c; put_rq c (set_nr_running (u32 (nr_running r + s)) r))) w
    (fun _ w' => exists p' r', here w' t c x1 e p' r' /\ nr_cpus_allowed p' = nr_cpus_allowed p /\ stepped c t x1 e w w').
Proof.
  intros H x1. pose proof H as [Hx He Hp Hr Hm Hs].
  eapply swp_seq; [by apply (upd_queue_ok E c t x e (fun x => set_dl_nr_running (u64 (dl_nr_running x + s)) x) w)|].
  intros _ w1 [Hm1 S1]. destruct (here_stepped _ _ _ _ _ _ _ _ _ _ H S1 Hm1) as (p1 & r1 & H1 & E1).
  eapply swp_cons.
  { eapply (base_step_ok E _ c t x1 e w1); [apply H1..|]. apply calms_nr; [eexists; apply H1|done]. }
  intros _ w2 [Hm2 S2]. destruct (here_stepped _ _ _ _ _ _ _ _ _ _ H1 S2 Hm2) as (p2 & r2 & H2 & E2).
  exists p2, r2. split; [done|]. split; [congruence|by eapply stepped_trans].
Qed.

Lemma counted_overload s (m : bool) x n d :
  let x3 := set_earliest_next n (set_earliest_curr d (set_dl_nr_running (u64 (dl_nr_running x + s)) x)) in
  let x4 := if m then set_dl_nr_migratory (u64 (dl_nr_migratory x3 + s)) x3 else x3 in
  counted s m x (set_dl_overloaded (ov x4) x4) /\ earliest_curr (set_dl_overloaded (ov x4) x4) = d.
Proof. intros x3 x4. unfold x4. by destruct m. Qed.

Lemma inc_dl_tasks_ok E w t c x e p r :
  here w t c x e p r -> tree_ok (dl_root x) (rb_leftmost x) -> inorder (dl_root x) <> [] -> present w x ->
  swp E (inc_dl_tasks t c) w (fun _ w' => marks w' /\ exists x', stepped c t x' e w w' /\
    counted 1 (1 <? nr_cpus_allowed p) x x' /\ earliest_curr x' = earlier (deadline e) x).
Proof.
  intros H Ht Hne Hall. pose proof H as [Hx He Hp Hr Hm Hs]. unfold inc_dl_tasks. dread.
  eapply swp_seq2; [by apply (count_step E 1 w t c x e p r)|]. intros _ w1 (p1 & r1 & H1 & E1 & S1). set (x1 := set_dl_nr_running _ x) in *.
  eapply swp_seq; [apply (inc_dl_deadline_ok E c (deadline e) x1 t e w1); [apply H1..|done|done|by eapply present_stepped]|].
  intros _ w2 (Hm2 & n & S2). destruct (here_stepped _ _ _ _ _ _ _ _ _ _ H1 S2 Hm2) as (p2 & r2 & [F1 F2 F3 F4 F5 F6] & E2).
  eapply swp_cons; [exact (migration_ok E c t _ e r2 p2 true w2 F1 F2 F4 F3 F5 F6)|]. cbv zeta.
  intros _ w3 [Hm3 S3]. split; [done|]. eexists. split; [by eapply stepped_trans, stepped_trans|].
  rewrite E2, E1. apply (counted_overload 1 _ x n (earlier (deadline e) x1)).
Qed.

Lemma dec_dl_tasks_ok E w t c x e p r :
  here w t c x e p r -> tree_ok (dl_root x) (rb_leftmost x) -> present w x ->
  u64 (dl_nr_running x - 1) = Z.of_nat (length (inorder (dl_root x))) ->
  swp E (dec_dl_tasks t c) w (fun _ w' => marks w' /\ exists x', stepped c t x' e w w' /\
    counted (-1) (1 <? nr_cpus_allowed p) x x' /\ earliest_curr x' = first_deadline (dlt w) (inorder (dl_root x))).
Proof.
  intros H Ht Hall Hn. unfold dec_dl_tasks.
  eapply swp_seq2; [by apply (count_step E (-1) w t c x e p r)|]. intros _ w1 (p1 & r1 & H1 & E1 & S1). set (x1 := set_dl_nr_running _ x) in *.
  eapply swp_seq; [apply (dec_dl_deadline_ok E c x1 t e w1); [apply H1..|done|done|by eapply present_stepped]|].
  intros _ w2 (Hm2 & n & S2). destruct (here_stepped _ _ _ _ _ _ _ _ _ _ H1 S2 Hm2) as (p2 & r2 & [F1 F2 F3 F4 F5 F6] & E2).
  eapply swp_cons; [exact (migration_ok E c t _ e r2 p2 false w2 F1 F2 F4 F3 F5 F6)|]. cbv zeta.
  intros _ w3 [Hm3 S3]. split; [done|]. eexists. split; [by eapply stepped_trans, stepped_trans|].
  rewrite E2, E1. destruct (counted_overload (-1) (1 <? nr_cpus_allowed p) x n
    (first_deadline (dlt w1) (inorder (dl_root x1)))) as [Hc He]. split; [exact Hc|]. etrans; [exact He|].
  rewrite (st_dlt _ _ _ _ _ _ S1), insert_id by apply H. done.
Qed.

(** a run queue whose tree has changed by [t], after counting *)
Lemma dlq_ok_counted ts t p x x1 x' (up : bool) :
  dlq_ok ts x -> ts !! t = Some p ->
  tree_ok (dl_root x1) (rb_leftmost x1) -> tree_ok (pushable_root x1) (pushable_leftmost x1) ->
  dl_nr_running x1 = dl_nr_running x -> dl_nr_migratory x1 = dl_nr_migratory x ->
  (forall u, u ∈ inorder (pushable_root x1) -> u ∈ inorder (dl_root x1) /\ is_migratory ts u = true) ->
  (if up then inorder (dl_root x1) ≡ₚ t :: inorder (dl_root x) else inorder (dl_root x) ≡ₚ t :: inorder (dl_root x1)) ->
  Z.of_nat (length (inorder (dl_root x))) < 2 ^ 31 ->
  counted (if up then 1 else -1) (1 <? nr_cpus_allowed p) x1 x' -> dlq_ok ts x'.
Proof.
  intros [_ _ _ Q4 Q5 _] Hp T1 T2 N1 N2 Hsub HL Hlen [C1 C2 C3 C4 C5 C6 C7].
  assert (Hcount : forall l, Z.of_nat (length (filter (fun u => is_migratory ts u = true) l)) <= Z.of_nat (length l)).
  { intros l. pose proof (length_filter (fun u => is_migratory ts u = true) l). lia. }
  pose proof (Hcount (inorder (dl_root x))). pose proof (Hcount (inorder (dl_root x1))).
  split; rewrite ?C1, ?C2, ?C3, ?C4; try done.
  - rewrite C5, N1, Q4. destruct up; rewrite HL in *; cbn [length] in *; rewrite u64_id; lia.
  - rewrite C6, N2, Q5, <- (is_migratory_eq ts t p Hp). destruct up.
    + rewrite (count_cons (is_migratory ts) (inorder (dl_root x)) (inorder (dl_root x1)) t HL) in *.
      destruct (is_migratory ts t); [rewrite u64_id; lia|lia].
    + rewrite (count_cons (is_migratory ts) (inorder (dl_root x1)) (inorder (dl_root x)) t HL) in *.
      destruct (is_migratory ts t); [rewrite u64_id; lia|lia].
Qed.

Lemma enqueue_entity_ok_dl E w t k c x e p r :
  tasks (krn (base w)) !! t = Some k -> tcpu k = c -> here w t c x e p r -> dlq_ok (rts (base w)) x -> present w x ->
  Z.of_nat (length (inorder (dl_root x))) < 2 ^ 31 -> rb_linked e = false -> t ∉ inorder (dl_root x) ->
  swp E (__enqueue_dl_entity t) w (fun _ w' => marks w' /\ exists x' tr (b : bool),
    dl_link (dlt w) t (deadline e) (dl_root x) = Some (tr, b) /\ stepped c t x' (set_rb_linked true e) w w' /\
    dlq_ok (rts (base w)) x' /\ inorder (dl_root x') = inorder tr /\ inorder (dl_root x') ≡ₚ t :: inorder (dl_root x) /\
    earliest_curr x' = earlier (deadline e) x /\ pushable_root x' = pushable_root x).
Proof.
  intros Hk <- H Hq Hall Hlen Hun Hnin. pose proof H as [Hx He Hp Hr Hm Hsz]. set (c := tcpu k) in *.
  unfold __enqueue_dl_entity. do 2 dread. apply swp_bind, swp_bug; [done|]. dread.
  destruct (dl_link_total (dlt w) t (deadline e) (dl_root x)) as [[tr b] Hl]; [intros u Hu; by apply Hall|].
  destruct (tree_insert _ _ _ _ _ _ (q_tree _ _ Hq) Hnin Hl) as [Ht' HL'].
  apply swp_bind, (swp_deref _ _ _ (tr, b)); [done|].
  set (x1 := set_dl_root _ _). assert (Hx1 : tree_ok (dl_root x1) (rb_leftmost x1)) by (by destruct b).
  assert (HL1 : inorder (dl_root x1) ≡ₚ t :: inorder (dl_root x)) by by destruct b.
  eapply swp_seq; [apply (put_queue_ok_dl E c t x e x1); [done|done|done|by destruct b]|]. intros _ w1 [Hm1 S1].
  eapply swp_seq; [apply (put_entity_ok E c t x1 _ w1); [by eapply stepped_rq|done]|]. intros _ w2 [Hm2 S2].
  pose proof (stepped_trans _ _ _ _ _ _ _ _ _ S1 S2) as S02. set (e1 := set_rb_linked true e) in *.
  destruct (here_stepped _ _ _ _ _ _ _ _ _ _ H S02 Hm2) as (p2 & r2 & H2 & E2).
  eapply swp_cons; [apply (inc_dl_tasks_ok E w2 t c x1 e1 p2 r2 H2 Hx1)|].
  - intros E0. rewrite E0 in HL1. by apply Permutation_nil_cons in HL1.
  - intros u Hu. rewrite HL1 in Hu. apply elem_of_cons in Hu as [->|Hu]; [split; eexists; apply H2|].
    by apply (present_stepped _ _ _ _ x _ _ S02).
  - intros _ w3 (Hm3 & x' & S3 & Hc & Ee). split; [done|]. exists x', tr, b. split; [done|].
    split; [by eapply stepped_trans|]. rewrite E2 in Hc. assert (Hq' : dlq_ok (rts (base w)) x').
    { eapply (dlq_ok_counted _ t p x x1 x' true Hq Hp Hx1); try done; try (by destruct b); [by destruct b; apply Hq|].
      intros u Hu. rewrite HL1. assert (Hu' : u ∈ inorder (pushable_root x)) by by destruct b.
      destruct (q_sub _ _ Hq u Hu'). split; [by right|done]. }
    destruct Hc as [C1 _ C3 _ _ _ _]. split; [done|]. rewrite C1, C3, Ee.
    split_and!; [by destruct b; cbn; rewrite rb_insert_color_inorder|done|by destruct b|by destruct b].
Qed.

(** ** The tree of pushable tasks *)

Record same_queue x x' : Prop := {
  sq_root : dl_root x' = dl_root x;
  sq_left : rb_leftmost x' = rb_leftmost x;
  sq_run : dl_nr_running x' = dl_nr_running x;
  sq_mig : dl_nr_migratory x' = dl_nr_migratory x;
  sq_over : dl_overloaded x' = dl_overloaded x;
  sq_earliest : earliest_curr x' = earliest_curr x
}.

Lemma dlq_ok_push ts x x' :
  dlq_ok ts x -> same_queue x x' -> tree_ok (pushable_root x') (pushable_leftmost x') ->
  (forall u, u ∈ inorder (pushable_root x') -> u ∈ inorder (dl_root x) /\ is_migratory ts u = true) -> dlq_ok ts x'.
Proof.
  intros [Q1 Q2 Q3 Q4 Q5 Q6] [S1 S2 S3 S4 S5 _] Ht Hs. split; rewrite ?S1, ?S2, ?S3, ?S4, ?S5; try done.
  rewrite Q6. unfold ov. by rewrite S3, S4.
Qed.

Lemma enqueue_pushable_ok_dl E w t c x e p r :
  here w t c x e p r -> tree_ok (pushable_root x) (pushable_leftmost x) -> pushable_linked e = false ->
  t ∉ inorder (pushable_root x) -> (forall u, u ∈ inorder (pushable_root x) -> is_Some (dlt w !! u)) ->
  swp E (enqueue_pushable_dl_task c t) w (fun _ w' => marks w' /\ exists x',
    stepped c t x' (set_pushable_linked true e) w w' /\ same_queue x x' /\
    tree_ok (pushable_root x') (pushable_leftmost x') /\ inorder (pushable_root x') ≡ₚ t :: inorder (pushable_root x)).
Proof.
  intros H Ht Hun Hnin Hall. pose proof H as [Hx He Hp Hr Hm Hsz]. unfold enqueue_pushable_dl_task.
  dread. apply swp_bind, swp_bug; [done|]. dread.
  destruct (dl_link_total (dlt w) t (deadline e) (pushable_root x)) as [[tr b] Hl]; [done|].
  destruct (tree_insert _ _ _ _ _ _ Ht Hnin Hl) as [Ht' HL'].
  apply swp_bind, (swp_deref _ _ _ (tr, b)); [done|]. set (x1 := set_pushable_root _ _).
  eapply swp_seq; [apply (put_queue_ok_dl E c t x e x1); [done|done|done|by destruct b]|]. intros _ w1 [Hm1 S1].
  eapply swp_cons; [apply (put_entity_ok E c t x1 _ w1); [by eapply stepped_rq|done]|]. intros _ w2 [Hm2 S2].
  split; [done|]. exists x1. split; [by eapply stepped_trans|]. by destruct b.
Qed.

Lemma dequeue_pushable_ok_dl E w t c x e p r :
  here w t c x e p r -> tree_ok (pushable_root x) (pushable_leftmost x) ->
  (t ∈ inorder (pushable_root x) -> pushable_linked e = true) ->
  swp E (dequeue_pushable_dl_task c t) w (fun _ w' => marks w' /\ exists x',
    stepped c t x' (set_pushable_linked false e) w w' /\ same_queue x x' /\
    tree_ok (pushable_root x') (pushable_leftmost x') /\
    inorder (pushable_root x') = filter (fun u => u <> t) (inorder (pushable_root x))).
Proof.
  intros H Ht Hin. pose proof H as [Hx He Hp Hr Hm Hsz]. unfold dequeue_pushable_dl_task. dread.
  destruct (pushable_linked e) eqn:El; cbn [negb].
  - destruct (tree_erase t _ _ Ht) as [Ht' HL'].
    eapply swp_seq; [eapply upd_queue_ok; [done|done|done|by case_bool_decide]|]. intros _ w1 [Hm1 S1].
    set (x1 := set_pushable_root _ _) in S1.
    eapply swp_cons; [apply (put_entity_ok E c t x1 _ w1); [by eapply stepped_rq|done]|]. intros _ w2 [Hm2 S2].
    split; [done|]. exists x1. split; [by eapply stepped_trans|]. unfold x1. by case_bool_decide.
  - dread. split; [done|]. exists x. split; [|split; [done|split; [done|]]].
    + replace (set_pushable_linked false e) with e by (destruct e; cbn in *; by subst). by apply stepped_id.
    + symmetry. apply remove_absent. intros Hu%Hin. done.
Qed.

(** ** Leaving *)

Lemma dequeue_entity_ok E w t k c x e p r :
  tasks (krn (base w)) !! t = Some k -> tcpu k = c -> here w t c x e p r -> dlq_ok (rts (base w)) x -> present w x ->
  Z.of_nat (length (inorder (dl_root x))) < 2 ^ 31 -> rb_linked e = true -> t ∈ inorder (dl_root x) ->
  swp E (__dequeue_dl_entity t) w (fun _ w' => marks w' /\ exists x1 x',
    stepped c t x' (set_rb_linked false e) w w' /\ counted (-1) (1 <? nr_cpus_allowed p) x1 x' /\
    tree_ok (dl_root x1) (rb_leftmost x1) /\ inorder (dl_root x1) = filter (fun u => u <> t) (inorder (dl_root x)) /\
    pushable_root x1 = pushable_root x /\ pushable_leftmost x1 = pushable_leftmost x /\
    dl_nr_running x1 = dl_nr_running x /\ dl_nr_migratory x1 = dl_nr_migratory x /\
    earliest_curr x' = first_deadline (dlt w) (inorder (dl_root x1))).
Proof.
  intros Hk <- H Hq Hall Hlen Hl Hin. pose proof H as [Hx He Hp Hr Hm Hsz]. set (c := tcpu k) in *.
  unfold __dequeue_dl_entity. do 2 dread. rewrite Hl. cbn [negb].
  destruct (tree_erase t _ _ (q_tree _ _ Hq)) as [Ht' HL'].
  eapply swp_seq; [eapply upd_queue_ok; [done|done|done|by case_bool_decide]|]. intros _ w1 [Hm1 S1].
  set (x1 := set_dl_root _ _) in S1. assert (Hx1 : tree_ok (dl_root x1) (rb_leftmost x1)) by (unfold x1; by case_bool_decide).
  assert (HL1 : inorder (dl_root x1) = filter (fun u => u <> t) (inorder (dl_root x))) by (unfold x1; by case_bool_decide).
  assert (Hs1 : pushable_root x1 = pushable_root x /\ pushable_leftmost x1 = pushable_leftmost x /\
    dl_nr_running x1 = dl_nr_running x /\ dl_nr_migratory x1 = dl_nr_migratory x) by (unfold x1; by case_bool_decide).
  clearbody x1. destruct Hs1 as (F1 & F2 & F3 & F4).
  eapply swp_seq; [apply (put_entity_ok E c t x1 _ w1); [by eapply stepped_rq|done]|]. intros _ w2 [Hm2 S2].
  pose proof (stepped_trans _ _ _ _ _ _ _ _ _ S1 S2) as S02.
  destruct (here_stepped _ _ _ _ _ _ _ _ _ _ H S02 Hm2) as (p2 & r2 & H2 & E2).
  assert (HP : inorder (dl_root x) ≡ₚ t :: inorder (dl_root x1)) by (rewrite HL1; apply remove_perm; [apply Hq|done]).
  eapply swp_cons; [apply (dec_dl_tasks_ok E w2 t c x1 _ p2 r2 H2 Hx1)|].
  - intros u Hu. apply (present_stepped _ _ _ _ x _ _ S02); [done|]. rewrite HP. by right.
  - rewrite F3, (q_running _ _ Hq), HP in *. cbn [length] in *. rewrite u64_id; lia.
  - intros _ w3 (Hm3 & x' & S3 & Hc & Ee). split; [done|]. exists x1, x'. rewrite E2 in Hc.
    split; [by eapply stepped_trans|]. split_and!; try done. rewrite Ee, (st_dlt _ _ _ _ _ _ S02).
    unfold first_deadline. rewrite HL1. destruct (filter _ _) as [|u l] eqn:Ef; [done|].
    rewrite lookup_insert_ne; [done|]. intros ->. assert (Hu : u ∈ filter (fun v => v <> u) (inorder (dl_root x))) by (rewrite Ef; by left).
    by apply list_elem_of_filter in Hu as [? _].
Qed.
End Ops.
