(* ===== verification/DlStep.v ===== *)
(** * The deadline class: the operations keep the invariant *)

From S2P Require Import Prelude Wait Tasklet Cmgroup Sched CmInv CmTask CmSys EpTree RtRq RtPush RtInv.
From S2P Require Import DlRq DlPush DlCbs DlInv DlOps.
Local Open Scope Z_scope.

Section Step.
Context {RL : RtLib} {DL : DlLib} {RB : RbLib}.
Implicit Types (w : dlw) (b : rtw) (e : dl_entity) (x : dl_rq) (p : rt_task) (r : rq) (k : task_struct) (c d t u : nat).
Implicit Types (wk : option nat) (run : nat -> option nat).

(** ** Changes of one queue and one entity *)

(** the change, as far as the invariant is concerned *)
Record change wk run run' w c t x x' e e' p k : Prop := {
  cg_rq : dls w !! c = Some x;
  cg_ent : dlt w !! t = Some e;
  cg_rt : rts (base w) !! t = Some p;
  cg_task : tasks (krn (base w)) !! t = Some k;
  cg_q : dlq_ok (rts (base w)) x';
  cg_in : forall u, u <> t -> (u ∈ inorder (dl_root x') <-> u ∈ inorder (dl_root x));
  cg_pin : forall u, u <> t -> (u ∈ inorder (pushable_root x') <-> u ∈ inorder (pushable_root x));
  cg_run : forall d u, (u <> t \/ d <> c) -> run d <> Some u -> run' d <> Some u;
  cg_linked : t ∈ inorder (dl_root x') <-> rb_linked e' = true;
  cg_plinked : t ∈ inorder (pushable_root x') <-> pushable_linked e' = true;
  cg_else : forall d y, d <> c -> dls w !! d = Some y -> t ∉ inorder (dl_root y);
  cg_runnable : t ∈ inorder (dl_root x') -> dl_throttled e' = false /\ class p = dl_class /\ tcpu k = c /\
    (on_rq k = true \/ wk = Some t);
  cg_push : t ∈ inorder (pushable_root x') -> run' c <> Some t;
  cg_ok : ent_ok (dom (dls w)) p e'
}.

Lemma runnable_other wk w w' c t x' e' u d :
  stepped c t x' e' w w' -> u <> t -> runnable wk w d u -> runnable wk w' d u.
Proof.
  intros S Hu (e & p & k & He & Hp & Hk & Hl & Ht & Hc & Hcpu & Ho).
  destruct (stepped_task _ _ _ _ _ _ u p S Hp) as (p' & Hp' & (_ & Ec & _)%task_abs_inv).
  exists e, p', k. rewrite (st_dlt _ _ _ _ _ _ S), lookup_insert_ne by done. rewrite Ec.
  split_and!; try done. rewrite <- (calm_krn _ _ (st_base _ _ _ _ _ _ S)). done.
Qed.

Lemma stepped_dom c t x x' e' w w' : dls w !! c = Some x -> stepped c t x' e' w w' -> dom (dls w') = dom (dls w).
Proof. intros Hx S. rewrite (st_dls _ _ _ _ _ _ S), dom_insert_L. apply elem_of_dom_2 in Hx. set_solver. Qed.

(** the members of the trees after the change *)
Lemma change_members wk run run' w w' c t x x' e e' p k :
  dl_ok wk run w -> change wk run run' w c t x x' e e' p k -> stepped c t x' e' w w' ->
  (forall d y u, dls w' !! d = Some y -> u ∈ inorder (dl_root y) -> runnable wk w' d u) /\
  (forall d y u, dls w' !! d = Some y -> u ∈ inorder (pushable_root y) ->
     run' d <> Some u /\ exists f, dlt w' !! u = Some f /\ pushable_linked f = true).
Proof.
  intros H G S. pose proof G as [G1 G2 G3 G4 G5 G6 G7 G8 G9 G10 G11 G12 G13 G14].
  assert (Hent : dlt w' !! t = Some e') by by eapply stepped_ent.
  destruct (stepped_task _ _ _ _ _ _ t p S G3) as (p' & Hp' & (_ & Ec & _)%task_abs_inv).
  assert (Hold : forall u f, u <> t -> dlt w !! u = Some f -> dlt w' !! u = Some f).
  { intros u f Hu Hf. by rewrite (st_dlt _ _ _ _ _ _ S), lookup_insert_ne. }
  split; intros d y u; rewrite (st_dls _ _ _ _ _ _ S), lookup_insert; case_decide as Ed.
  - subst d. intros [= <-] Hu. destruct (decide (u = t)) as [->|Hne].
    + destruct (G12 Hu) as (? & ? & ? & ?). exists e', p', k. rewrite Ec, <- (calm_krn _ _ (st_base _ _ _ _ _ _ S)).
      split_and!; try done. by apply G9.
    + eapply runnable_other; [done|done|]. eapply (d_in _ _ _ H c x); [done|]. by apply G6.
  - intros Hy Hu. eapply runnable_other; [done| |by eapply (d_in _ _ _ H)]. intros ->. by eapply G11.
  - subst d. intros [= <-] Hu. destruct (decide (u = t)) as [->|Hne].
    + split; [by apply G13|]. exists e'. split; [done|by apply G10].
    + destruct (d_pin _ _ _ H c x u G1) as (Hr & f & Hf & Hl); [by apply G7|]. split; [apply G8; [by left|done]|].
      exists f. split; [by apply Hold|done].
  - intros Hy Hu. assert (Hne : u <> t).
    { intros ->. destruct (q_sub _ _ (d_q _ _ _ H d y Hy) t Hu). by eapply G11. }
    destruct (d_pin _ _ _ H d y u Hy Hu) as (Hr & f & Hf & Hl). split; [apply G8; [by left|done]|].
    exists f. split; [by apply Hold|done].
Qed.

Lemma change_linked wk run run' w w' c t x x' e e' p k :
  dl_ok wk run w -> change wk run run' w c t x x' e e' p k -> stepped c t x' e' w w' ->
  (forall u f, dlt w' !! u = Some f -> rb_linked f = true -> exists d y, dls w' !! d = Some y /\ u ∈ inorder (dl_root y)) /\
  (forall u f, dlt w' !! u = Some f -> pushable_linked f = true ->
     exists d y, dls w' !! d = Some y /\ u ∈ inorder (pushable_root y)).
Proof.
  intros H G S. pose proof G as [G1 G2 G3 G4 G5 G6 G7 G8 G9 G10 G11 G12 G13 G14].
  assert (Hc : dls w' !! c = Some x') by by eapply stepped_rq.
  assert (Hd : forall d y, d <> c -> dls w !! d = Some y -> dls w' !! d = Some y).
  { intros d y Hd Hy. by rewrite (st_dls _ _ _ _ _ _ S), lookup_insert_ne. }
  split; intros u f; rewrite (st_dlt _ _ _ _ _ _ S), lookup_insert; case_decide as Eu.
  - subst u. intros [= <-] Hl. exists c, x'. split; [done|by apply G9].
  - intros Hf Hl. destruct (d_out _ _ _ H u f Hf Hl) as (d & y & Hy & Hin). destruct (decide (d = c)) as [->|Hne].
    + exists c, x'. split; [done|]. simplify_eq. by apply G6.
    + exists d, y. split; [by apply Hd|done].
  - subst u. intros [= <-] Hl. exists c, x'. split; [done|by apply G10].
  - intros Hf Hl. destruct (d_pout _ _ _ H u f Hf Hl) as (d & y & Hy & Hin). destruct (decide (d = c)) as [->|Hne].
    + exists c, x'. split; [done|]. simplify_eq. by apply G7.
    + exists d, y. split; [by apply Hd|done].
Qed.

Lemma dlq_ok_calm b b' x : calm b b' -> dlq_ok (rts b) x -> dlq_ok (rts b') x.
Proof.
  intros Hc [Q1 Q2 Q3 Q4 Q5 Q6]. pose proof (fun t => is_migratory_calm b b' t Hc) as Hm. split; try done.
  - intros t Ht. rewrite Hm. by apply Q3.
  - rewrite Q5. do 2 f_equal. apply list_filter_iff. intros t. by rewrite Hm.
Qed.

Lemma dl_ok_change wk run run' w w' c t x x' e e' p k :
  dl_ok wk run w -> change wk run run' w c t x x' e e' p k -> stepped c t x' e' w w' -> marks w' -> dl_ok wk run' w'.
Proof.
  intros H G S Hm. destruct (change_members _ _ _ _ _ _ _ _ _ _ _ _ _ H G S) as [M1 M2].
  destruct (change_linked _ _ _ _ _ _ _ _ _ _ _ _ _ H G S) as [L1 L2].
  pose proof (st_base _ _ _ _ _ _ S) as Hb. destruct (calm_facts _ _ Hb) as (B1 & B2 & Bk & Bd & Bs).
  destruct (calm_facts_back _ _ Hb) as [B3 B4]. pose proof (stepped_dom _ _ _ _ _ _ _ (cg_rq _ _ _ _ _ _ _ _ _ _ _ _ G) S) as Dd.
  split; try done.
  - rewrite Dd, Bd. apply H.
  - intros d y. rewrite (st_dls _ _ _ _ _ _ S), lookup_insert. case_decide; [intros [= <-]|intros Hy].
    + eapply dlq_ok_calm; [done|apply G].
    + eapply dlq_ok_calm; [done|by eapply (d_q _ _ _ H)].
  - intros u q Hq. destruct (B4 u q Hq) as (q0 & Hq0 & Eq). destruct (d_task _ _ _ H u q0 Hq0) as (f & l & Hf & Hl & Hcpu & Hok).
    rewrite Dd, Bk, (st_dlt _ _ _ _ _ _ S). destruct (decide (u = t)) as [->|Hne].
    + exists e', l. rewrite lookup_insert_eq. split_and!; try done. eapply ent_ok_abs; [done|].
      assert (q0 = p) as -> by (rewrite (cg_rt _ _ _ _ _ _ _ _ _ _ _ _ G) in Hq0; congruence). apply G.
    + exists f, l. rewrite lookup_insert_ne by done. split_and!; try done. by eapply ent_ok_abs.
  - intros d r Hr. destruct (B3 d r Hr) as (r0 & Hr0 & Ec & _). destruct (d_curr _ _ _ H d r0 Hr0) as (q & l & Hq & Hl & Hcpu).
    destruct (B2 _ q Hq) as (q' & Hq' & _). exists q', l. by rewrite Ec, Bk.
  - destruct (d_size _ _ _ H) as [H1 H2]. rewrite Bs. split; [done|].
    rewrite <- size_dom in H2 |- *. by rewrite Dd.
Qed.

(** no CPU has got a task more to push away *)
Definition pushes w c : list nat := from_option (fun x => inorder (pushable_root x)) [] (dls w !! c).
Definition shrinks w w' : Prop := forall c, pushes w' c ⊆ pushes w c.

#[export] Instance shrinks_preorder : PreOrder shrinks.
Proof. split; [by intros w c|]. intros w1 w2 w3 H1 H2 c t Ht. by apply H1, H2. Qed.

Lemma shrinks_dls w w' : dls w' = dls w -> shrinks w w'.
Proof. intros E c. unfold pushes. by rewrite E. Qed.

Lemma shrinks_stepped c t x x' e' w w' :
  dls w !! c = Some x -> stepped c t x' e' w w' ->
  (forall u, u ∈ inorder (pushable_root x') -> u ∈ inorder (pushable_root x)) -> shrinks w w'.
Proof.
  intros Hx S Hu d u. unfold pushes. rewrite (st_dls _ _ _ _ _ _ S), lookup_insert. case_decide; [|done].
  subst d. rewrite Hx. cbn. apply Hu.
Qed.

Lemma pushes_elsewhere c t x' e' w w' d : stepped c t x' e' w w' -> d <> c -> pushes w' d = pushes w d.
Proof. intros S Hd. unfold pushes. by rewrite (st_dls _ _ _ _ _ _ S), lookup_insert_ne. Qed.

(** ** A task and its run queue *)

Record task_at w t c x e p k r : Prop := {
  a_here : here w t c x e p r;
  a_task : tasks (krn (base w)) !! t = Some k;
  a_cpu : tcpu k = c;
  a_ok : ent_ok (dom (dls w)) p e
}.

Lemma find_task wk run w t p :
  dl_ok wk run w -> rts (base w) !! t = Some p -> exists c x e k r, task_at w t c x e p k r.
Proof.
  intros H Hp. destruct (d_task _ _ _ H t p Hp) as (e & k & He & Hk & Hc & Hok). pose proof Hc as [x Hx]%elem_of_dom.
  rewrite (d_dom _ _ _ H) in Hc. apply elem_of_dom in Hc as [r Hr]. exists (tcpu k), x, e, k, r.
  split; [|done|done|done]. split; try done; apply H.
Qed.

Section At.
Context {wk run w t c x e p k r} (H : dl_ok wk run w) (A : task_at w t c x e p k r).

Lemma at_linked : t ∈ inorder (dl_root x) <-> rb_linked e = true.
Proof.
  destruct A as [[Hx He Hp Hr _ _] Hk Hc _]. split.
  - intros (f & q & l & Hf & _ & _ & Hl & _)%(d_in _ _ _ H c x t Hx). congruence.
  - intros Hl. destruct (d_out _ _ _ H t e He Hl) as (d & y & Hy & Hin).
    destruct (d_in _ _ _ H d y t Hy Hin) as (f & q & l & _ & _ & Hl' & _ & _ & _ & Hcpu & _).
    assert (d = c) as -> by congruence. simplify_eq. done.
Qed.

Lemma at_plinked : t ∈ inorder (pushable_root x) <-> pushable_linked e = true.
Proof.
  destruct A as [[Hx He Hp Hr _ _] Hk Hc _]. split.
  - intros (_ & f & Hf & Hl)%(d_pin _ _ _ H c x t Hx). congruence.
  - intros Hl. destruct (d_pout _ _ _ H t e He Hl) as (d & y & Hy & Hin).
    destruct (q_sub _ _ (d_q _ _ _ H d y Hy) t Hin) as [Hin' _].
    destruct (d_in _ _ _ H d y t Hy Hin') as (f & q & l & _ & _ & Hl' & _ & _ & _ & Hcpu & _).
    assert (d = c) as -> by congruence. simplify_eq. done.
Qed.

Lemma at_else d y : d <> c -> dls w !! d = Some y -> t ∉ inorder (dl_root y).
Proof.
  intros Hd Hy Hin. destruct (d_in _ _ _ H d y t Hy Hin) as (f & q & l & _ & _ & Hl' & _ & _ & _ & Hcpu & _).
  destruct A as [_ Hk Hc _]. congruence.
Qed.

Lemma at_q : dlq_ok (rts (base w)) x.
Proof. eapply (d_q _ _ _ H), A. Qed.

Lemma at_present : present w x.
Proof.
  intros u (f & q & l & Hf & Hq & _)%(d_in _ _ _ H c x u (h_rq _ _ _ _ _ _ _ (a_here _ _ _ _ _ _ _ _ A))).
  split; by eexists.
Qed.

Lemma at_len : Z.of_nat (length (inorder (dl_root x))) < 2 ^ 31.
Proof.
  destruct (d_size _ _ _ H) as [Hs _]. eapply Z.le_lt_trans, Hs. apply inj_le.
  rewrite <- (size_dom (rts (base w))), <- (size_list_to_set (C := gset nat)) by apply at_q. apply subseteq_size.
  intros u Hu%elem_of_list_to_set. apply elem_of_dom. by apply at_present.
Qed.

Lemma at_runnable : rb_linked e = true ->
  dl_throttled e = false /\ class p = dl_class /\ tcpu k = c /\ (on_rq k = true \/ wk = Some t).
Proof.
  intros Hl%at_linked. destruct A as [[Hx He Hp Hr _ _] Hk Hc _].
  destruct (d_in _ _ _ H c x t Hx Hl) as (f & q & l & Hf & Hq & Hl' & _ & Ht & Hcl & _ & Ho). simplify_eq. done.
Qed.

Lemma at_run : pushable_linked e = true -> run c <> Some t /\ rb_linked e = true.
Proof.
  intros Hl. pose proof (proj2 at_plinked Hl) as Hin. destruct A as [[Hx He Hp Hr _ _] Hk Hc _].
  split; [by apply (d_pin _ _ _ H c x t Hx)|]. apply at_linked. by apply (q_sub _ _ at_q).
Qed.

(** a change of the entity alone *)
Lemma entity_change e' :
  rb_linked e' = rb_linked e -> pushable_linked e' = pushable_linked e ->
  (rb_linked e = true -> dl_throttled e' = dl_throttled e) -> ent_ok (dom (dls w)) p e' ->
  change wk run run w c t x x e e' p k.
Proof.
  intros E1 E2 E3 Hok. destruct A as [[Hx He Hp Hr _ _] Hk Hc Ho]. split; try done.
  - apply at_q.
  - by rewrite E1, <- at_linked.
  - by rewrite E2, <- at_plinked.
  - apply at_else.
  - intros Hl%at_linked. rewrite E3 by done. by apply at_runnable.
  - intros Hin%at_plinked. by apply at_run.
Qed.
End At.

(** stores to the entity *)
Lemma put_entity_step E wk run w t c x e p k r e' :
  dl_ok wk run w -> task_at w t c x e p k r ->
  rb_linked e' = rb_linked e -> pushable_linked e' = pushable_linked e ->
  (rb_linked e = true -> dl_throttled e' = dl_throttled e) -> ent_ok (dom (dls w)) p e' ->
  swp E (put_dl t e') w (fun _ w' => dl_ok wk run w' /\ base w' = base w /\ dls w' = dls w /\ task_at w' t c x e' p k r).
Proof.
  intros H A E1 E2 E3 Hok. pose proof A as [Hh Hk Hc Ho]. pose proof Hh as [Hx He Hp Hr Hm Hs]. dread.
  assert (S : stepped c t x e' w (set_dlt (<[t := e']> (dlt w)) w)) by (split; [done|cbn; by rewrite insert_id|done]).
  assert (Hm' : marks (set_dlt (<[t := e']> (dlt w)) w)) by by apply (marks_frame w).
  split; [eapply dl_ok_change; [done|by eapply entity_change|done|done]|]. split; [done|]. split; [done|].
  split; [|done|done|done]. split; try done. apply lookup_insert_eq.
Qed.

Lemma task_at_stepped w w' t c x x' e e' p k r :
  task_at w t c x e p k r -> stepped c t x' e' w w' -> marks w' -> ent_ok (dom (dls w)) p e' ->
  exists p' r', task_at w' t c x' e' p' k r' /\ task_abs p' = task_abs p /\ curr r' = curr r.
Proof.
  intros [Hh Hk Hc _] S Hm' Hok. pose proof Hh as [Hx He Hp Hr Hm Hs].
  destruct (stepped_task _ _ _ _ _ _ t p S Hp) as (p' & Hp' & Ea).
  destruct (stepped_cpu _ _ _ _ _ _ _ r S Hr) as (r' & Hr' & Ec & _).
  exists p', r'. split; [|done]. split; [|by eapply enters_krn|done|].
  - split; [by eapply stepped_rq|by eapply stepped_ent|done|done|done|].
    by rewrite (stepped_size _ _ _ _ _ _ _ S Hx).
  - rewrite (stepped_dom _ _ _ _ _ _ _ Hx S). by eapply ent_ok_abs.
Qed.

(** ** Leaving the trees *)

Definition unlinked e : dl_entity := set_pushable_linked false (set_rb_linked false e).

Lemma ent_ok_same n p e e' :
  ent_ok n p e -> runtime e' = runtime e -> deadline e' = deadline e -> dl_timer e' = dl_timer e ->
  dl_throttled e' = dl_throttled e -> dl_boosted e' = dl_boosted e -> dl_runtime e' = dl_runtime e ->
  dl_deadline e' = dl_deadline e -> dl_period e' = dl_period e -> ent_ok n p e'.
Proof.
  intros [[] ? Hp ? ? ? ?] E1 E2 E3 E4 E5 E6 E7 E8. split; rewrite ?E3, ?E4, ?E5; try done.
  - split; by rewrite ?E1, ?E2.
  - intros Hc. destruct (Hp Hc). split; by rewrite ?E6, ?E7, ?E8.
Qed.

Lemma ent_ok_unlinked n p e : ent_ok n p e -> ent_ok n p (unlinked e).
Proof. intros Hok. by apply (ent_ok_same n p e). Qed.

Lemma dlq_ok_removed ts t p x x1 x' x'' :
  dlq_ok ts x -> ts !! t = Some p -> Z.of_nat (length (inorder (dl_root x))) < 2 ^ 31 ->
  t ∈ inorder (dl_root x) -> inorder (dl_root x1) = filter (fun u => u <> t) (inorder (dl_root x)) ->
  tree_ok (dl_root x1) (rb_leftmost x1) -> dl_nr_running x1 = dl_nr_running x -> dl_nr_migratory x1 = dl_nr_migratory x ->
  counted (-1) (1 <? nr_cpus_allowed p) x1 x' -> same_queue x' x'' -> tree_ok (pushable_root x'') (pushable_leftmost x'') ->
  inorder (pushable_root x'') = filter (fun u => u <> t) (inorder (pushable_root x)) -> dlq_ok ts x''.
Proof.
  intros Hq Hp Hlen Hin HL1 Ht1 N1 N2 [C1 C2 C3 C4 C5 C6 C7] [S1 S2 S3 S4 S5 _] Ht'' HP.
  set (x2 := set_pushable_leftmost (pushable_leftmost x'') (set_pushable_root (pushable_root x'') x1)).
  apply (dlq_ok_counted ts t p x x2 x'' false Hq Hp); try done.
  - intros u. cbn. rewrite HP, HL1, !list_elem_of_filter. intros [Hu Hu2]. destruct (q_sub _ _ Hq u Hu2). done.
  - cbn. rewrite HL1. apply remove_perm; [apply Hq|done].
  - split; cbn; [congruence|congruence|done|done|congruence|by rewrite S4, C6|].
    rewrite S5, C7. unfold ov. by rewrite S3, S4.
Qed.

Lemma dequeue_task_step E wk run w t c x e p k r :
  dl_ok wk run w -> task_at w t c x e p k r ->
  swp E (__dequeue_task_dl c t) w (fun _ w' => dl_ok wk run w' /\ calm (base w) (base w') /\ shrinks w w' /\
    exists x' p' r', task_at w' t c x' (unlinked e) p' k r' /\ task_abs p' = task_abs p /\ curr r' = curr r).
Proof.
  intros H A. pose proof A as [Hh Hk Hc Hok]. unfold __dequeue_task_dl.
  pose proof (at_q H A) as Hq. pose proof (at_linked H A) as Hlk. pose proof (at_plinked H A) as Hpl.
  destruct (rb_linked e) eqn:El.
  - eapply swp_seq; [apply (dequeue_entity_ok E w t k c x e p r Hk Hc Hh Hq (at_present H A) (at_len H A) El); tauto|].
    intros _ w1 (Hm1 & x1 & x' & S1 & Hct & Ht1 & HL1 & P1 & P2 & N1 & N2 & _).
    destruct (here_stepped _ _ _ _ _ _ _ _ _ _ Hh S1 Hm1) as (p1 & r1 & H1 & _).
    assert (Hpu : pushable_root x' = pushable_root x /\ pushable_leftmost x' = pushable_leftmost x) by (destruct Hct; split; congruence).
    destruct Hpu as [Hpr Hpf]. eapply swp_cons.
    { apply (dequeue_pushable_ok_dl E w1 t c x' _ p1 r1 H1); [rewrite Hpr, Hpf; apply Hq|]. rewrite Hpr. cbn. tauto. }
    intros _ w2 (Hm2 & x'' & S2 & Hs & Ht'' & HP). pose proof (stepped_trans _ _ _ _ _ _ _ _ _ S1 S2) as S02. rewrite Hpr in HP.
    assert (Hq'' : dlq_ok (rts (base w)) x'').
    { eapply (dlq_ok_removed _ t p x x1 x' x''); try done; [apply Hh|apply (at_len H A)|tauto]. }
    assert (HL'' : inorder (dl_root x'') = filter (fun u => u <> t) (inorder (dl_root x))).
    { destruct Hs as [-> _ _ _ _ _], Hct as [-> _ _ _ _ _ _]. done. }
    split; [|split; [apply S02|split]].
    + eapply dl_ok_change; [done| |exact S02|done]. fold (unlinked e). destruct Hh as [Hx He Hp Hr Hm Hs'].
      split; try done; rewrite ?HL'', ?HP; try (intros ?; rewrite list_elem_of_filter; tauto).
      * rewrite list_elem_of_filter. split; [tauto|done].
      * rewrite list_elem_of_filter. split; [tauto|done].
      * apply (at_else H A).
      * by intros [? _]%list_elem_of_filter.
      * by intros [? _]%list_elem_of_filter.
      * by apply ent_ok_unlinked.
    + apply (shrinks_stepped c t x x'' _ w w2 (h_rq _ _ _ _ _ _ _ Hh) S02). intros u. rewrite HP, list_elem_of_filter. tauto.
    + destruct (task_at_stepped _ _ _ _ _ _ _ _ _ _ _ A S02 Hm2) as (p2 & r2 & A2 & Ea & Ec); [by apply ent_ok_unlinked|].
      by exists x'', p2, r2.
  - assert (Hpn : pushable_linked e = false).
    { apply not_true_is_false. intros Hl. destruct (at_run H A Hl). congruence. }
    pose proof Hh as [Hx He Hp Hr Hm Hs]. unfold __dequeue_dl_entity, dequeue_pushable_dl_task.
    do 2 dread. rewrite El. cbn [negb]. do 2 dread. rewrite Hpn. cbn [negb]. dread. split; [done|]. split; [done|]. split; [done|]. exists x, p, r.
    split; [|done]. replace (unlinked e) with e by (destruct e; cbn in *; by subst). done.
Qed.

(** ** The tree of pushable tasks *)

Lemma push_enqueue_step E wk run w t c x e p k r :
  dl_ok wk run w -> task_at w t c x e p k r -> rb_linked e = true -> pushable_linked e = false ->
  (1 <? nr_cpus_allowed p) = true -> run c <> Some t ->
  swp E (enqueue_pushable_dl_task c t) w (fun _ w' => dl_ok wk run w' /\ calm (base w) (base w') /\
    forall d, d <> c -> pushes w' d = pushes w d).
Proof.
  intros H A Hl Hpn Hmig Hrun. pose proof A as [Hh Hk Hc Hok]. pose proof (at_q H A) as Hq. pose proof (at_plinked H A) as Hpl.
  pose proof Hh as [Hx He Hp Hr Hm Hs]. assert (Hnin : t ∉ inorder (pushable_root x)) by (rewrite Hpl; congruence).
  eapply swp_cons; [apply (enqueue_pushable_ok_dl E w t c x e p r Hh); [apply Hq|done|done|]|].
  { intros u Hu. apply (at_present H A). by apply (q_sub _ _ Hq). }
  intros _ w' (Hm' & x' & S & Hsq & Ht' & HP). split; [|split; [apply S|intros d Hd; by apply (pushes_elsewhere c t x' _ w w' d S)]].
  eapply dl_ok_change; [done| |exact S|done].
  assert (Hin' : forall u, u ∈ inorder (pushable_root x') <-> u = t \/ u ∈ inorder (pushable_root x)) by (intros u; by rewrite HP, elem_of_cons).
  split; try done; rewrite ?(sq_root _ _ Hsq); try done.
  - eapply dlq_ok_push; [done|done|done|]. intros u [->|Hu]%Hin'; [|by apply (q_sub _ _ Hq)].
    split; [by apply (at_linked H A)|]. by rewrite (is_migratory_eq _ _ p Hp).
  - intros u Hu. rewrite Hin'. tauto.
  - by rewrite (at_linked H A).
  - rewrite Hin'. cbn. tauto.
  - apply (at_else H A).
  - intros _. by apply (at_runnable H A).
  - by apply (ent_ok_same _ p e).
Qed.

Lemma push_dequeue_step E wk run run' w t c x e p k r :
  dl_ok wk run w -> task_at w t c x e p k r ->
  (forall d u, (u <> t \/ d <> c) -> run d <> Some u -> run' d <> Some u) ->
  swp E (dequeue_pushable_dl_task c t) w (fun _ w' => dl_ok wk run' w' /\ calm (base w) (base w') /\ shrinks w w' /\
    exists x' p' r', task_at w' t c x' (set_pushable_linked false e) p' k r' /\ same_queue x x' /\
      inorder (pushable_root x') = filter (fun u => u <> t) (inorder (pushable_root x)) /\
      task_abs p' = task_abs p /\ curr r' = curr r).
Proof.
  intros H A Hrun. pose proof A as [Hh Hk Hc Hok]. pose proof (at_q H A) as Hq. pose proof (at_plinked H A) as Hpl.
  pose proof Hh as [Hx He Hp Hr Hm Hs].
  assert (Hok' : ent_ok (dom (dls w)) p (set_pushable_linked false e)) by by apply (ent_ok_same _ p e).
  eapply swp_cons; [apply (dequeue_pushable_ok_dl E w t c x e p r Hh); [apply Hq|by apply Hpl]|].
  intros _ w' (Hm' & x' & S & Hsq & Ht' & HP). split; [|split; [apply S|split]].
  - eapply dl_ok_change; [done| |exact S|done].
    assert (Hin' : forall u, u ∈ inorder (pushable_root x') <-> u <> t /\ u ∈ inorder (pushable_root x)).
    { intros u. rewrite HP, list_elem_of_filter. done. }
    split; try done; rewrite ?(sq_root _ _ Hsq); try done.
    + eapply dlq_ok_push; [done|done|done|]. intros u [_ Hu]%Hin'. by apply (q_sub _ _ Hq).
    + intros u Hu. rewrite Hin'. tauto.
    + by rewrite (at_linked H A).
    + rewrite Hin'. cbn. naive_solver.
    + apply (at_else H A).
    + intros Hl%(at_linked H A). by apply (at_runnable H A).
    + by intros [? _]%Hin'.
  - apply (shrinks_stepped c t x x' _ w w' Hx S). intros u. rewrite HP, list_elem_of_filter. tauto.
  - destruct (task_at_stepped _ _ _ _ _ _ _ _ _ _ _ A S Hm' Hok') as (p' & r' & A' & Ea & Ec). by exists x', p', r'.
Qed.

(** ** Entering the trees *)

Lemma unlinked_id e : rb_linked e = false -> pushable_linked e = false -> unlinked e = e.
Proof. destruct e; cbn. by intros -> ->. Qed.

Lemma at_off wk run w t c x e p k r :
  dl_ok wk run w -> task_at w t c x e p k r -> rb_linked e = false -> pushable_linked e = false.
Proof. intros H A Hl. apply not_true_is_false. intros Hp. destruct (at_run H A Hp). congruence. Qed.

Lemma link_step E wk run w t c x e p k r :
  dl_ok wk run w -> task_at w t c x e p k r -> rb_linked e = false -> dl_throttled e = false ->
  class p = dl_class -> (on_rq k = true \/ wk = Some t) ->
  swp E (__enqueue_dl_entity t) w (fun _ w' => dl_ok wk run w' /\ calm (base w) (base w') /\ shrinks w w' /\
    exists x' p' r', task_at w' t c x' (set_rb_linked true e) p' k r' /\ task_abs p' = task_abs p /\ curr r' = curr r).
Proof.
  intros H A Hl Hth Hcl Ho. pose proof A as [Hh Hk Hc Hok]. pose proof (at_q H A) as Hq. pose proof (at_linked H A) as Hlk.
  pose proof (at_plinked H A) as Hpl. rewrite (at_off _ _ _ _ _ _ _ _ _ _ H A Hl) in Hpl. rewrite Hl in Hlk.
  pose proof Hh as [Hx He Hp Hr Hm Hs].
  assert (Hok' : ent_ok (dom (dls w)) p (set_rb_linked true e)) by by apply (ent_ok_same _ p e).
  eapply swp_cons; [apply (enqueue_entity_ok_dl E w t k c x e p r Hk Hc Hh Hq (at_present H A) (at_len H A) Hl); rewrite Hlk; done|].
  intros _ w' (Hm' & x' & tr & b & _ & S & Hq' & _ & HL & _ & HP). split; [|split; [apply S|split]].
  - eapply dl_ok_change; [done| |exact S|done].
    assert (Hin' : forall u, u ∈ inorder (dl_root x') <-> u = t \/ u ∈ inorder (dl_root x)) by (intros u; by rewrite HL, elem_of_cons).
    split; try done; rewrite ?HP; try done.
    + intros u Hu. rewrite Hin'. tauto.
    + rewrite Hin'. cbn. tauto.
    + rewrite Hpl. cbn. by rewrite (at_off _ _ _ _ _ _ _ _ _ _ H A Hl).
    + apply (at_else H A).
    + rewrite Hpl. done.
  - apply (shrinks_stepped c t x x' _ w w' Hx S). intros u. by rewrite HP.
  - destruct (task_at_stepped _ _ _ _ _ _ _ _ _ _ _ A S Hm' Hok') as (p' & r' & A' & Ea & Ec). by exists x', p', r'.
Qed.

(** a replenished or updated entity *)
Lemma refreshed n p now e e' :
  ent_ok n p e -> class p = dl_class -> replenish_dl_entity now e e = Some e' \/ e' = update_dl_entity now e e ->
  ent_ok n p e' /\ rb_linked e' = rb_linked e /\ pushable_linked e' = pushable_linked e /\ dl_throttled e' = dl_throttled e.
Proof.
  intros Hok Hc He. pose proof (eo_params _ _ _ Hok Hc) as Hpar.
  assert (Hgo : exists (r d : Z) (b : bool), e' = set_dl_new b (set_runtime r (set_deadline d e)) /\ budget_ok e').
  { destruct He as [He| ->].
    - destruct (replenish_total now e e Hpar (eo_budget _ _ _ Hok)) as (f & Ef & Hb & r & d & Er). simplify_eq.
      exists r, d, (dl_new e). split; [by destruct e|done].
    - unfold update_dl_entity. destruct (dl_new e) eqn:En; [|destruct (_ || _)].
      + eexists _, _, false. split; [done|]. destruct (renew_budget now e e). by split.
      + eexists _, _, false. split; [unfold renew, set_dl_new; cbn; rewrite <- En; by destruct e|apply renew_budget].
      + exists (runtime e), (deadline e), false. split; [rewrite <- En; by destruct e|apply Hok]. }
  destruct Hgo as (r & d & b & -> & Hb). split; [|done]. destruct Hok as [_ ? ? ? ? ? ?]. split; try done. intros _. destruct Hpar. by split.
Qed.

Lemma enqueue_task_step E wk run w t c x e p k r flags :
  dl_ok wk run w -> task_at w t c x e p k r -> rb_linked e = false -> class p = dl_class ->
  (on_rq k = true \/ wk = Some t) -> (curr r <> t -> run c <> Some t) ->
  swp E (enqueue_task_dl c t flags) w (fun _ w' => dl_ok wk run w' /\ calm (base w) (base w') /\
    (forall d, curr r = t \/ d <> c -> pushes w' d ⊆ pushes w d)).
Proof.
  intros H A Hl Hcl Ho Hrun. pose proof A as [Hh Hk Hc Hok]. pose proof Hh as [Hx He Hp Hr Hm Hs].
  unfold enqueue_task_dl. dread. eapply (swp_seq _ _ _ _ (fun pi w' => pi = t /\ w' = w)).
  { rewrite (eo_boost _ _ _ Hok). by destruct (pi_top e). }
  intros ? ? [-> ->]. destruct (dl_throttled e) eqn:Eth; [done|].
  eapply (swp_seq _ _ _ _ (fun _ w' => dl_ok wk run w' /\ calm (base w) (base w') /\ shrinks w w' /\ exists x' e' p' r',
    task_at w' t c x' e' p' k r' /\ rb_linked e' = true /\ pushable_linked e' = false /\ task_abs p' = task_abs p /\ curr r' = curr r)).
  - unfold enqueue_dl_entity. dread. apply swp_bind, swp_bug; [done|]. do 2 dread. rewrite Hc. dread.
    eapply (swp_seq _ _ _ _ (fun e' w' => w' = w /\ (replenish_dl_entity (clock r) e e = Some e' \/ e' = update_dl_entity (clock r) e e))).
    { destruct (_ && _); [|dread; auto].
      destruct (replenish_total (clock r) e e (eo_params _ _ _ Hok Hcl) (eo_budget _ _ _ Hok)) as (e' & Ee & _).
      apply (swp_deref _ _ _ e'); [done|auto]. }
    intros e' ? [-> Ee]. destruct (refreshed _ _ _ _ _ Hok Hcl Ee) as (Hok' & E1 & E2 & E3).
    eapply swp_seq; [by apply (put_entity_step E wk run w t c x e p k r e' H A)|]. intros _ w1 (H1 & Eb & Es & A1).
    eapply swp_cons; [apply (link_step E wk run w1 t c x e' p k r H1 A1); congruence|].
    intros _ w2 (H2 & Hc2 & Hs2 & x2 & p2 & r2 & A2 & Ea & Ec). rewrite Eb in Hc2. split; [done|]. split; [done|].
    split; [trans w1; [by apply shrinks_dls|done]|].
    exists x2, (set_rb_linked true e'), p2, r2. split_and!; try done. cbn. rewrite E2. exact (at_off _ _ _ _ _ _ _ _ _ _ H A Hl).
  - intros _ w1 (H1 & Hc1 & Hs1 & x1 & e1 & p1 & r1 & A1 & El & Epl & Ea & Ec). pose proof (a_here _ _ _ _ _ _ _ _ A1) as [].
    do 2 dread. apply swp_when; [|by intros _]. rewrite andb_true_iff, bool_decide_eq_true.
    intros [Hcu Hmig].
    eapply swp_cons; [apply (push_enqueue_step E wk run w1 t c x1 e1 p1 k r1); try done; rewrite Ec in Hcu; auto|].
    intros _ w2 (H2 & Hc2 & Hs2). split; [done|]. split; [by trans (base w1)|]. intros d [Hcu'|Hd]; [congruence|].
    rewrite Hs2 by done. apply Hs1.
Qed.
End Step.
