(* ===== verification/DlMove.v ===== *)
(** * The deadline class: running, choosing, throttling and moving tasks *)

From S2P Require Import Prelude Wait Tasklet Cmgroup Sched CmInv CmTask CmSys EpTree RtRq RtPush RtInv RtBalance RtStep DlRq DlPush.
From S2P Require Import DlCbs DlInv DlOps DlStep.
Local Open Scope Z_scope.

Section Turn.
Context {RL : RtLib} {DL : DlLib} {RB : RbLib}.
Implicit Types (w : dlw) (b : rtw) (e : dl_entity) (x : dl_rq) (p : rt_task) (r : rq) (k : task_struct) (c d t u : nat).
Implicit Types (wk : option nat) (run : nat -> option nat).

(** what all the operations of the class guarantee *)
Definition kept_dl wk run w w' : Prop := dl_ok wk run w' /\ calm (base w) (base w') /\ shrinks w w'.

Lemma kept_dl_refl wk run w : dl_ok wk run w -> kept_dl wk run w w.
Proof. done. Qed.
Lemma kept_dl_trans wk run run' w1 w2 w3 : kept_dl wk run w1 w2 -> kept_dl wk run' w2 w3 -> kept_dl wk run' w1 w3.
Proof. intros (_ & H1 & S1) (? & H2 & S2). split; [done|]. split; [by trans (base w2)|by trans w2]. Qed.

Lemma swp_kept {A} E (m : D A) wk run run' w w1 w2 :
  kept_dl wk run w w1 -> swp E m w2 (fun _ w' => kept_dl wk run' w1 w') -> swp E m w2 (fun _ w' => kept_dl wk run' w w').
Proof. intros H Hm. eapply swp_cons; [exact Hm|]. intros a w' H'. by eapply kept_dl_trans. Qed.

Lemma kept_rq_dl wk run w w' c r :
  kept_dl wk run w w' -> rqs (base w) !! c = Some r ->
  exists r', rqs (base w') !! c = Some r' /\ curr r' = curr r /\ online r' = online r /\ sd r' = sd r.
Proof. intros (_ & Hc & _). by apply (calm_facts _ _ Hc). Qed.
Lemma kept_rt_dl wk run w w' t p :
  kept_dl wk run w w' -> rts (base w) !! t = Some p -> exists p', rts (base w') !! t = Some p' /\ task_abs p' = task_abs p.
Proof. intros (_ & Hc & _). by apply (calm_facts _ _ Hc). Qed.

Lemma queue_of_cpu wk run w c r : dl_ok wk run w -> rqs (base w) !! c = Some r -> exists x, dls w !! c = Some x.
Proof. intros H Hr. apply elem_of_dom_2 in Hr. rewrite <- (d_dom _ _ _ H) in Hr. by apply elem_of_dom in Hr as [x ?]; exists x. Qed.

Lemma curr_at wk run w c r :
  dl_ok wk run w -> rqs (base w) !! c = Some r -> exists x e p k, task_at w (curr r) c x e p k r.
Proof.
  intros H Hr. destruct (d_curr _ _ _ H c r Hr) as (p & k & Hp & Hk & Hc).
  destruct (find_task _ _ _ _ _ H Hp) as (d & x & e & k' & r' & A). pose proof A as [[] Hk' Hc' _].
  assert (d = c) as -> by congruence. assert (r' = r) as -> by congruence. by exists x, e, p, k'.
Qed.

(** ** Steps *)

Lemma calm_step {A} E (m : W A) wk run w t c x e p k r :
  dl_ok wk run w -> task_at w t c x e p k r -> calms m (base w) ->
  swp E (lift_rt m) w (fun _ w' => kept_dl wk run w w' /\
    exists p' r', task_at w' t c x e p' k r' /\ task_abs p' = task_abs p /\ curr r' = curr r).
Proof.
  intros H A0 Hc. pose proof A0 as [Hh Hk Hcpu Hok]. pose proof Hh as [Hx He Hp Hr Hm Hs].
  eapply swp_cons; [by apply (base_step_ok E m c t x e w)|]. intros _ w' [Hm' S]. split.
  - split; [|split; [apply S|by apply (shrinks_stepped c t x x e w w')]]. eapply dl_ok_change; [done|by apply (entity_change H A0 e)|done|done].
  - destruct (task_at_stepped _ _ _ _ _ _ _ _ _ _ _ A0 S Hm' Hok) as (p' & r' & ? & ? & ?). by exists p', r'.
Qed.

Lemma resched_step E wk run w t p :
  dl_ok wk run w -> rts (base w) !! t = Some p -> swp E (resched t) w (fun _ w' => kept_dl wk run w w').
Proof.
  intros H Hp. destruct (find_task _ _ _ _ _ H Hp) as (c & x & e & k & r & A).
  eapply swp_cons; [apply (calm_step E _ wk run w t c x e p k r H A), resched_task_calm; by eexists|]. by intros _ w' [].
Qed.

(** the queued task that is taken off and throttled *)
Lemma throttle_step E wk run w t c x e p k r act :
  dl_ok wk run w -> task_at w t c x e p k r -> rb_linked e = false ->
  swp E (upd_dl t (set_dl_throttled true)) (set_dlt (<[t := set_dl_timer (Some act) e]> (dlt w)) w)
    (fun _ w' => kept_dl wk run w w').
Proof.
  intros H A Hl. pose proof A as [[Hx He Hp Hr Hm Hs] Hk Hc Hok].
  eapply swp_upd_dl; [apply lookup_insert_eq|]. set (e' := set_dl_throttled _ _). set (w' := set_dlt _ _).
  assert (S : stepped c t x e' w w') by (split; [done|cbn; by rewrite insert_id|cbn; by rewrite insert_insert_eq]).
  split; [|split; [apply S|by apply shrinks_dls]]. eapply dl_ok_change; [done| |exact S|by apply (marks_frame w)].
  apply (entity_change H A); [done|done|congruence|]. destruct Hok as [[] ? Hpar ? ? ? ?]. split; try done.
  intros Hcl. destruct (Hpar Hcl). by split.
Qed.

Lemma start_timer_ok E w t c x e p k r :
  task_at w t c x e p k r ->
  swp E (start_dl_timer t false) w (fun (started : bool) w' => if started then exists act, w' = set_dlt (<[t := set_dl_timer (Some act) e]> (dlt w)) w else w' = w).
Proof.
  intros [[Hx He Hp Hr Hm Hs] Hk Hc Hok]. unfold start_dl_timer. do 2 dread. rewrite Hc. do 2 dread. cbv zeta.
  destruct (_ <? _); [by dread|]. do 2 dread. by eexists.
Qed.

Lemma exceeded_ok n p now e exc e' :
  ent_ok n p e -> dl_runtime_exceeded now e = (exc, e') ->
  ent_ok n p e' /\ rb_linked e' = rb_linked e /\ pushable_linked e' = pushable_linked e /\ dl_throttled e' = dl_throttled e /\
  dl_boosted e' = dl_boosted e.
Proof.
  intros Hok. unfold dl_runtime_exceeded. destruct (_ && _); [by intros [= <- <-]|].
  destruct (dl_time_before _ _); intros [= <- <-]; [|done]. split; [|done].
  destruct Hok as [[] ? Hpar ? ? ? ?]. split; try done; [split; [apply s64_range|done]|].
  intros Hcl. destruct (Hpar Hcl). by split.
Qed.

Lemma account_step E wk run w t c x e p k r delta :
  dl_ok wk run w -> task_at w t c x e p k r -> swp E (account_rt_time c delta) w (fun _ w' => kept_dl wk run w w').
Proof.
  intros H A. pose proof A as [[Hx He Hp Hr Hm Hs] Hk Hc Hok]. unfold account_rt_time. dread.
  apply swp_when; intros _; [|by apply kept_dl_refl]. eapply swp_cons; [apply (calm_step E _ wk run w t c x e p k r H A)|by intros _ w' []].
  unfold sched_rt_bandwidth_account. apply calms_bind; [|intros b0 w' _ Hw'; apply calms_when; intros _].
  - eapply calms_read; [by apply rt_rq_of_eq|]. apply calms_get, calms_ret.
  - destruct (calm_rq _ _ c r Hw' Hr) as (r' & Hr' & _). by eapply calms_upd_rt_rq.
Qed.

(** the running task whose budget is used up *)
Lemma exceed_step E wk run w t c x e p k r :
  dl_ok wk run w -> task_at w t c x e p k r -> rb_linked e = true -> curr r = t ->
  swp E (__dequeue_task_dl c t ;;
         started ← start_dl_timer t (dl_boosted e);
         (if (started : bool) then upd_dl t (set_dl_throttled true) else enqueue_task_dl c t ENQUEUE_REPLENISH) ;;
         x ← dl_rq_of c;
         when (negb (is_leftmost t x)) (resched t)) w (fun _ w' => kept_dl wk run w w').
Proof.
  intros H A Hl Hcu. destruct (at_runnable H A Hl) as (Hth & Hcl & _ & Ho). rewrite (eo_boost _ _ _ (a_ok _ _ _ _ _ _ _ _ A)).
  eapply swp_seq; [by apply (dequeue_task_step E wk run w t c x e p k r H A)|].
  intros _ w1 (H1 & Hc1 & Hs1 & x1 & p1 & r1 & A1 & Ea1 & Ec1). pose proof (task_abs_inv _ _ Ea1) as (_ & Ecl & _).
  eapply (swp_seq2 _ _ _ _ _ (fun _ w2 => kept_dl wk run w w2)).
  { eapply swp_seq; [exact (start_timer_ok E w1 t c x1 _ p1 k r1 A1)|]. intros [|] w2.
    - intros (act & ->). apply (swp_kept E _ wk run run w w1 _); [by split|]. by apply (throttle_step E wk run w1 t c x1 (unlinked e) p1 k r1 act).
    - intros ->. apply (swp_kept E _ wk run run w w1 _); [by split|].
      eapply swp_cons; [apply (enqueue_task_step E wk run w1 t c x1 _ p1 k r1 _ H1 A1); [done|congruence|done|congruence]|].
      intros ? w2 (? & ? & Hs2). split; [done|]. split; [done|]. intros d. apply Hs2. left. congruence. }
  intros _ w2 H2. pose proof A as [[Hx He Hp Hr Hm Hs] Hk Hc Hok].
  destruct (kept_rq_dl _ _ _ _ _ _ H2 Hr) as (r2 & Hr2 & _). destruct (queue_of_cpu _ _ _ _ _ (proj1 H2) Hr2) as [x2 Hx2]. dread.
  destruct (kept_rt_dl _ _ _ _ _ _ H2 Hp) as (p2 & Hp2 & _).
  apply swp_when; intros _; [|done]. apply (swp_kept E _ wk run run w w2 _ H2).
  apply (resched_step E wk run w2 t p2 (proj1 H2) Hp2).
Qed.

Lemma charged_ok n p e z : ent_ok n p e -> ent_ok n p (set_runtime (s64 z) e).
Proof.
  intros [[] ? Hpar ? ? ? ?]. split; try done; [split; [apply s64_range|done]|].
  intros Hcl. destruct (Hpar Hcl). by split.
Qed.

Lemma update_curr_step E wk run w c r :
  dl_ok wk run w -> rqs (base w) !! c = Some r -> swp E (update_curr_dl c) w (fun _ w' => kept_dl wk run w w').
Proof.
  intros H Hr. destruct (curr_at _ _ _ _ _ H Hr) as (x & e & p & k & A). set (t := curr r) in *.
  pose proof A as [[Hx He Hp _ Hm Hs] Hk Hc Hok]. unfold update_curr_dl. dread. fold t. do 2 dread.
  destruct (negb (dl_task p) || negb (on_dl_rq e)) eqn:Eb; [by apply swp_ret, kept_dl_refl|].
  apply orb_false_iff in Eb as [_ Hl%negb_false_iff]. cbv zeta. set (delta := if _ <? 0 then 0 else _).
  eapply swp_seq; [apply (calm_step E _ wk run w t c x e p k r H A); by eapply calms_put_rt|].
  intros ? w1 (K1 & p1 & r1 & A1 & Ea & Ec). destruct (dl_runtime_exceeded _ _) as [exc e1] eqn:Ex.
  destruct (exceeded_ok (dom (dls w1)) p1 _ _ _ _ (charged_ok _ _ e _ (a_ok _ _ _ _ _ _ _ _ A1)) Ex) as (Hok1 & F1 & F2 & F3 & F4).
  eapply swp_seq; [by apply (put_entity_step E wk run w1 t c x e p1 k r1 e1 (proj1 K1) A1)|].
  intros ? w2 (H2 & Eb2 & Es2 & A2).
  assert (K2 : kept_dl wk run w w2) by (apply (kept_dl_trans wk run run w w1 w2 K1); split; [done|]; rewrite Eb2; split; [done|by apply shrinks_dls]).
  eapply (swp_seq _ _ _ _ (fun _ w3 => kept_dl wk run w w3)).
  { apply swp_when; intros _; [|done]. apply (swp_kept E _ wk run run w w2 _ K2).
    apply (exceed_step E wk run w2 t c x e1 p1 k r1 H2 A2); [by rewrite F1|by rewrite Ec]. }
  intros ? w3 K3. apply (swp_kept E _ wk run run w w3 _ K3). destruct (kept_rt_dl _ _ _ _ _ _ K3 Hp) as (p3 & Hp3 & _).
  destruct (kept_rq_dl _ _ _ _ _ _ K3 Hr) as (r3 & Hr3 & _).
  destruct (curr_at _ _ _ _ _ (proj1 K3) Hr3) as (x3 & e3 & q3 & k3 & A3).
  by apply (account_step E wk run w3 (curr r3) c x3 e3 q3 k3 r3 delta (proj1 K3)).
Qed.

Lemma dequeue_dl_step E wk run w t c x e p k r :
  dl_ok wk run w -> task_at w t c x e p k r ->
  swp E (dequeue_task_dl c t) w (fun _ w' => kept_dl wk run w w' /\
    exists x' e' p' r', task_at w' t c x' e' p' k r' /\ rb_linked e' = false /\ task_abs p' = task_abs p /\ curr r' = curr r).
Proof.
  intros H A. pose proof A as [[Hx He Hp Hr Hm Hs] Hk Hc Hok]. unfold dequeue_task_dl.
  eapply swp_seq; [by apply (update_curr_step E wk run w c r)|]. intros ? w1 K1.
  destruct (kept_rt_dl _ _ _ _ _ _ K1 Hp) as (p1 & Hp1 & Ea1). destruct (kept_rq_dl _ _ _ _ _ _ K1 Hr) as (r1 & Hr1 & Ec1 & _).
  destruct (find_task _ _ _ _ _ (proj1 K1) Hp1) as (d & x1 & e1 & k1 & r1' & A1). pose proof A1 as [[] Hk1 Hc1 _].
  assert (k1 = k) as -> by (rewrite <- (calm_krn _ _ (proj1 (proj2 K1))) in Hk1; congruence).
  assert (d = c) as -> by congruence. assert (r1' = r1) as -> by congruence.
  eapply swp_cons; [by apply (dequeue_task_step E wk run w1 t c x1 e1 p1 k r1 (proj1 K1))|].
  intros ? w2 (H2 & C2 & S2 & x2 & p2 & r2 & A2 & Ea2 & Ec2). split; [by apply (kept_dl_trans wk run run w w1 w2 K1)|].
  exists x2, (unlinked e1), p2, r2. split_and!; [done|done|congruence|congruence].
Qed.

Lemma yield_step_dl E wk run w c r :
  dl_ok wk run w -> rqs (base w) !! c = Some r -> swp E (yield_task_dl c) w (fun _ w' => kept_dl wk run w w').
Proof.
  intros H Hr. destruct (curr_at _ _ _ _ _ H Hr) as (x & e & p & k & A).
  pose proof A as [[Hx He Hp _ Hm Hs] Hk Hc Hok]. unfold yield_task_dl. do 2 dread.
  eapply (swp_seq _ _ _ _ (fun _ w1 => kept_dl wk run w w1 /\ base w1 = base w)).
  { apply swp_when; intros _; [|done]. eapply swp_cons; [apply (put_entity_step E wk run w (curr r) c x e p k r _ H A); try done|].
    - destruct Hok as [[] ? Hpar ? ? ? ?]. split; try done. intros Hcl. destruct (Hpar Hcl). by split.
    - intros ? w1 (H1 & Eb & Es & _). split; [|done]. split; [done|]. rewrite Eb. split; [done|by apply shrinks_dls]. }
  intros ? w1 [K1 Eb]. apply (swp_kept E _ wk run run w w1 _ K1). eapply update_curr_step; [apply K1|by rewrite Eb].
Qed.

(** ** Choosing *)

(** the task whose turn it is on [c], or nobody *)
Definition turn c (o : option nat) run : nat -> option nat := fun d => if decide (d = c) then o else run d.

Lemma turn_other c t run d u : (u <> t \/ d <> c) -> run d <> Some u -> turn c (Some t) run d <> Some u.
Proof. unfold turn. intros Hd Hr. case_decide; [|done]. intros E. injection E as ->. by destruct Hd. Qed.

Lemma dl_ok_weaken wk run run' w :
  dl_ok wk run w -> (forall d u, run d <> Some u -> run' d <> Some u) -> dl_ok wk run' w.
Proof.
  intros H Hr. destruct H as [H1 H2 H3 H4 H5 H6 H7 H8 H9 H10]. split; try done. intros c x t Hx Ht. destruct (H5 c x t Hx Ht) as [Ha Hb]. auto.
Qed.

Lemma put_prev_step E wk run w c r p :
  dl_ok wk run w -> rqs (base w) !! c = Some r -> run c = Some (curr r) -> rts (base w) !! curr r = Some p ->
  swp E (put_prev_task_dl c (curr r)) w (fun _ w' => dl_ok wk (turn c None run) w' /\ calm (base w) (base w')).
Proof.
  intros H Hr Hrun Hp. unfold put_prev_task_dl. eapply swp_seq; [by apply (update_curr_step E wk run w c r)|]. intros ? w1 K1.
  destruct (kept_rq_dl _ _ _ _ _ _ K1 Hr) as (r1 & Hr1 & Ec1 & _).
  destruct (curr_at _ _ _ _ _ (proj1 K1) Hr1) as (x1 & e1 & p1 & k1 & A1). rewrite Ec1 in A1.
  pose proof A1 as [[Hx1 He1 Hp1 _ _ _] Hk1 Hc1 Hok1]. do 2 dread.
  assert (H1 : dl_ok wk (turn c None run) w1).
  { apply (dl_ok_weaken wk run); [apply K1|]. intros d u. unfold turn. by case_decide. }
  destruct K1 as (K1 & C1 & _). apply swp_when; [|done]. intros [Hl Hmig]%andb_true_iff.
  assert (Hpl : pushable_linked e1 = false).
  { apply not_true_is_false. intros Hpl. by destruct (at_run K1 A1 Hpl). }
  eapply swp_cons; [apply (push_enqueue_step E wk _ w1 (curr r) c x1 e1 p1 k1 r1 H1 A1 Hl Hpl Hmig)|].
  - unfold turn. by rewrite decide_True.
  - intros ? w2 (H2 & C2 & _). split; [done|by trans (base w1)].
Qed.

Lemma set_curr_step E wk run w c r :
  dl_ok wk run w -> rqs (base w) !! c = Some r ->
  swp E (set_curr_task_dl c) w (fun _ w' => kept_dl wk (turn c (Some (curr r)) run) w w').
Proof.
  intros H Hr. destruct (curr_at _ _ _ _ _ H Hr) as (x & e & p & k & A).
  pose proof A as [[Hx He Hp _ Hm Hs] Hk Hc Hok]. unfold set_curr_task_dl. do 2 dread.
  eapply swp_seq; [apply (calm_step E _ wk run w _ c x e p k r H A); by eapply calms_put_rt|].
  intros ? w1 (K1 & p1 & r1 & A1 & _). apply (swp_kept E _ wk run _ w w1 _ K1).
  eapply swp_cons; [apply (push_dequeue_step E wk run (turn c (Some (curr r)) run) w1 (curr r) c x e p1 k r1 (proj1 K1) A1)|].
  - by apply turn_other.
  - by intros ? w2 (H2 & C2 & S2 & _).
Qed.

(** the members of a tree are tasks of this CPU *)
Lemma member_at wk run w c r x t :
  dl_ok wk run w -> rqs (base w) !! c = Some r -> dls w !! c = Some x -> t ∈ inorder (dl_root x) ->
  exists e p k, task_at w t c x e p k r /\ rb_linked e = true.
Proof.
  intros H Hr Hx Ht. destruct (d_in _ _ _ H c x t Hx Ht) as (e & p & k & He & Hp & Hk & Hl & _ & _ & Hc & _).
  destruct (find_task _ _ _ _ _ H Hp) as (d & x' & e' & k' & r' & A). pose proof A as [[] Hk' Hc' _].
  assert (d = c) as -> by congruence. assert (e' = e) as -> by congruence. assert (x' = x) as -> by congruence.
  assert (r' = r) as -> by congruence. by exists e, p, k'.
Qed.

Lemma pick_step E wk run w c r x :
  dl_ok wk run w -> rqs (base w) !! c = Some r -> dls w !! c = Some x ->
  swp E (pick_next_task_dl c) w (fun o w' => o = head (inorder (dl_root x)) /\
    kept_dl wk (match o with Some t => turn c (Some t) run | None => run end) w w').
Proof.
  intros H Hr Hx. pose proof (d_q _ _ _ H c x Hx) as Hq. unfold pick_next_task_dl. dread. rewrite (q_running _ _ Hq).
  unfold pick_next_dl_entity. rewrite (proj2 (q_tree _ _ Hq)).
  destruct (inorder (dl_root x)) as [|t l] eqn:El; cbn [length head].
  { rewrite (proj2 (Z.eqb_eq (Z.of_nat 0) 0)) by done. by apply swp_ret. }
  rewrite (proj2 (Z.eqb_neq _ _)) by lia. apply swp_bind, (swp_deref _ _ _ t); [done|].
  destruct (member_at _ _ _ _ _ _ t H Hr Hx) as (e & p & k & A & _); [rewrite El; by left|].
  pose proof A as [[_ He Hp _ Hm Hs] Hk Hc Hok]. do 2 dread.
  eapply swp_seq; [apply (calm_step E _ wk run w t c x e p k r H A); by eapply calms_put_rt|].
  intros ? w1 (K1 & p1 & r1 & A1 & _).
  eapply swp_seq; [apply (push_dequeue_step E wk run (turn c (Some t) run) w1 t c x e p1 k r1 (proj1 K1) A1), turn_other|].
  intros ? w2 (H2 & C2 & S2 & x2 & p2 & r2 & A2 & _). pose proof A2 as [[Hx2 _ _ Hr2 _ _] _ _ _].
  unfold has_pushable_dl_tasks. do 2 dread.
  eapply swp_seq; [apply (calm_step E _ wk _ w2 t c x2 _ p2 k r2 H2 A2), calms_nr; [by eexists|done]|].
  intros ? w3 (K3 & _). dread. split; [done|]. apply (kept_dl_trans wk run _ w w1 w3 K1).
  by apply (kept_dl_trans wk (turn c (Some t) run) _ w1 w2 w3).
Qed.
End Turn.

(** ** Moving tasks

    [dl_sys] is the state between the steps of the scheduler: the invariant of
    the class, the invariant of the rest of the kernel, and that the task a CPU
    runs knows that it is running. *)

Section Move.
Context {RL : RtLib} {DL : DlLib} {RB : RbLib}.
Implicit Types (w : dlw) (b : rtw) (e : dl_entity) (x : dl_rq) (p : rt_task) (r : rq) (k y : task_struct) (c d t u : nat).
Implicit Types (wk : option nat) (run : nat -> option nat).

(** ** The rest of the kernel changes *)

Lemma krn_change wk wk' run w (n : kernel) t k y e :
  dl_ok wk run w -> tasks (krn (base w)) !! t = Some k -> dlt w !! t = Some e ->
  tasks n = <[t := y]> (tasks (krn (base w))) ->
  (forall u, u <> t -> wk = Some u -> wk' = Some u) ->
  (rb_linked e = true -> tcpu y = tcpu k /\ (on_rq y = true \/ wk' = Some t)) -> tcpu y ∈ dom (dls w) ->
  (forall c r, rqs (base w) !! c = Some r -> curr r = t -> tcpu y = c) ->
  dl_ok wk' run (set_base (set_krn n (base w)) w).
Proof.
  intros H Hk He Hn Hwk Hl Hd Hcur. destruct H as [D1 D2 D3 D4 D5 D6 D7 D8 D9 D10].
  split; try done; [| | |by destruct D9].
  - intros c x u Hx Hu. destruct (D3 c x u Hx Hu) as (f & q & l & Hf & Hq & Hlk & Hl' & Ht & Hcl & Hcp & Ho).
    destruct (decide (u = t)) as [->|Hne].
    + assert (f = e) as -> by congruence. destruct (Hl Hl') as [E1 E2]. exists e, q, y. cbn. rewrite Hn, lookup_insert_eq.
      split_and!; try done. congruence.
    + exists f, q, l. cbn. rewrite Hn, lookup_insert_ne by done. split_and!; try done. destruct Ho; auto.
  - intros u q Hq. destruct (D7 u q Hq) as (f & l & Hf & Hlk & Hcp & Hok). destruct (decide (u = t)) as [->|Hne].
    + exists f, y. cbn. by rewrite Hn, lookup_insert_eq.
    + exists f, l. cbn. by rewrite Hn, lookup_insert_ne by done.
  - intros c r Hr. destruct (D8 c r Hr) as (q & l & Hq & Hlk & Hcp). destruct (decide (curr r = t)) as [E|Hne].
    + exists q, y. cbn. rewrite Hn, E, lookup_insert_eq. split_and!; [by rewrite <- E|done|by apply (Hcur c r)].
    + exists q, l. cbn. by rewrite Hn, lookup_insert_ne by done.
Qed.

Lemma swp_lift_k {A} E (m : K A) a n w (Q : A -> dlw -> Prop) :
  m (krn (base w)) = Ret a n -> Q a (set_base (set_krn n (base w)) w) -> swp E (lift_rt (lift_k m)) w Q.
Proof. intros Em H. unfold swp, lift_rt, lift_k. by rewrite Em. Qed.

(** ** The state between two steps *)

Definition turns w c : option nat := curr <$> rqs (base w) !! c.

Record dl_sys w : Prop := {
  dy_ok : dl_ok None (turns w) w;
  dy_sys : sys_ok (krn (base w));
  dy_cpu : forall c r p, rqs (base w) !! c = Some r -> rts (base w) !! curr r = Some p -> on_cpu p = true
}.

Lemma turns_calm w w' c : calm (base w) (base w') -> turns w' c = turns w c.
Proof.
  intros Hc. unfold turns. destruct (calm_facts _ _ Hc) as (F & _). destruct (calm_facts_back _ _ Hc) as [G _].
  destruct (rqs (base w) !! c) as [r|] eqn:E.
  - destruct (F c r E) as (r' & -> & Ec & _). cbn. by rewrite Ec.
  - destruct (rqs (base w') !! c) as [r'|] eqn:E'; [|done]. destruct (G c r' E') as (? & ? & _). congruence.
Qed.

(** [b] and [b'] differ in the rest of the kernel, calm changes apart *)
Definition alike b b' : Prop := calm (set_krn (krn b') b) b'.

Lemma calm_set_krn n b b' : calm b b' -> calm (set_krn n b) (set_krn n b').
Proof. intros []. by split. Qed.
Lemma calm_alike b b' : calm b b' -> alike b b'.
Proof. intros Hc. unfold alike. rewrite <- (calm_krn _ _ Hc). by destruct b. Qed.
Lemma alike_krn n b : alike b (set_krn n b).
Proof. unfold alike. done. Qed.
Lemma alike_trans b1 b2 b3 : alike b1 b2 -> alike b2 b3 -> alike b1 b3.
Proof. unfold alike. intros H1 H2. trans (set_krn (krn b3) b2); [|done]. by apply (calm_set_krn (krn b3)) in H1. Qed.

Lemma alike_rq b b' c r' : alike b b' -> rqs b' !! c = Some r' -> exists r, rqs b !! c = Some r /\ curr r' = curr r.
Proof. intros Ha Hr. destruct (calm_facts_back _ _ Ha) as [G _]. destruct (G c r' Hr) as (r & ? & ? & _). by exists r. Qed.
Lemma alike_rt b b' t p : alike b b' -> rts b !! t = Some p -> exists p', rts b' !! t = Some p' /\ task_abs p' = task_abs p.
Proof. intros Ha. apply (calm_facts _ _ Ha). Qed.
Lemma alike_turns w w' c : alike (base w) (base w') -> turns w' c = turns w c.
Proof. apply (turns_calm (set_base (set_krn (krn (base w')) (base w)) w) w' c). Qed.

(** the class has done something that does not concern who is running *)
Lemma dl_sys_alike w w' run :
  dl_sys w -> dl_ok None run w' -> alike (base w) (base w') -> sys_ok (krn (base w')) ->
  (forall d, run d = turns w d) -> dl_sys w'.
Proof.
  intros [H _ Ho] H' Hc Hs Hr. split; [|done|].
  - apply (dl_ok_weaken None run); [done|]. intros d u. by rewrite (alike_turns w w' d Hc), Hr.
  - intros c r p Hrq Hp. destruct (alike_rq _ _ c r Hc Hrq) as (r0 & Hr0 & Ec).
    destruct (calm_facts_back _ _ Hc) as [_ G2]. destruct (G2 _ p Hp) as (p0 & Hp0 & (_ & _ & _ & _ & -> & _)%task_abs_inv).
    rewrite Ec in Hp0. by apply (Ho c r0).
Qed.

Lemma dl_sys_calm w w' run :
  dl_sys w -> dl_ok None run w' -> calm (base w) (base w') -> (forall d, run d = turns w d) -> dl_sys w'.
Proof.
  intros H H' Hc. apply dl_sys_alike; [done|done|by apply calm_alike|]. rewrite <- (calm_krn _ _ Hc). apply H.
Qed.

Lemma alike_persists b b' :
  alike b b' -> (forall t, is_Some (tasks (krn b) !! t) -> is_Some (tasks (krn b') !! t)) -> persists b b'.
Proof. intros Ha Ht. destruct (calm_persists _ _ Ha) as [P1 P2 P3]. by split. Qed.

(** what every step guarantees *)
Definition held w w' : Prop := dl_sys w' /\ persists (base w) (base w').

Lemma held_refl w : dl_sys w -> held w w.
Proof. done. Qed.
Lemma held_trans w1 w2 w3 : held w1 w2 -> held w2 w3 -> held w1 w3.
Proof. intros [_ H1] [? H2]. split; [done|]. by trans (base w2). Qed.
Lemma held_kept w w' : dl_sys w -> kept_dl None (turns w) w w' -> held w w'.
Proof. intros H (H' & Hc & _). split; [by apply (dl_sys_calm w w' (turns w))|by apply calm_persists]. Qed.

Lemma swp_held {A} E (m : D A) w w1 w2 :
  held w w1 -> swp E m w2 (fun _ w' => held w1 w') -> swp E m w2 (fun _ w' => held w w').
Proof. intros H Hm. eapply swp_cons; [exact Hm|]. intros a w'. by apply held_trans. Qed.

Lemma held_rq w w' c : held w w' -> is_Some (rqs (base w) !! c) -> exists r, rqs (base w') !! c = Some r.
Proof. intros [_ Hp] Hc. assert (H : c ∈ dom (rqs (base w'))) by (rewrite (ps_rqs _ _ Hp); by apply elem_of_dom). by apply elem_of_dom in H as [r ?]; exists r. Qed.
Lemma held_rt w w' t p : held w w' -> rts (base w) !! t = Some p -> exists p', rts (base w') !! t = Some p' /\ class p' = class p.
Proof. intros [_ Hp]. by apply (ps_rts _ _ Hp). Qed.
Lemma held_dl_rq w c r : dl_sys w -> rqs (base w) !! c = Some r -> exists x, dls w !! c = Some x.
Proof. intros H. apply (queue_of_cpu _ _ _ _ _ (dy_ok _ H)). Qed.

(** a calm step of the rest of the world *)
Lemma base_step {A} E (m : W A) wk run w : dl_ok wk run w -> calms m (base w) ->
  swp E (lift_rt m) w (fun _ w' => kept_dl wk run w w').
Proof.
  intros H Hc. apply swp_calms; [done|]. intros a b Hb. destruct H as [D1 D2 D3 D4 D5 D6 D7 D8 D9 D10].
  assert (Hb' : calm (base w) (base (set_base b w))) by done. split; [|by split; [|apply shrinks_dls]].
  destruct (calm_facts _ _ Hb) as (F1 & F2 & F3 & F4 & F5). destruct (calm_facts_back _ _ Hb) as [G1 G2]. split; cbn; rewrite ?F3, ?F4, ?F5; try done.
  - intros c x Hx. eapply dlq_ok_calm; [done|by eapply D2].
  - intros c x t Hx Ht. destruct (D3 c x t Hx Ht) as (f & q & l & Hf & Hq & Hlk & Hl & Hth & Hcl & Hcp & Ho).
    destruct (F2 t q Hq) as (q' & Hq' & (_ & Ecl & _)%task_abs_inv). exists f, q', l. rewrite Ecl. cbn. by rewrite F3.
  - intros t q' Hq'. destruct (G2 t q' Hq') as (q & Hq & Ea). destruct (D7 t q Hq) as (f & l & ? & ? & ? & ?).
    exists f, l. split_and!; try done. by eapply ent_ok_abs.
  - intros c r Hr. destruct (G1 c r Hr) as (r0 & Hr0 & -> & _). destruct (D8 c r0 Hr0) as (q & l & Hq & ? & ?).
    destruct (F2 _ q Hq) as (q' & Hq' & _). by exists q', l.
  - by apply (marks_frame w).
Qed.

(** ** Moving *)

(** a task leaves the trees *)
Lemma leave_step E w t c x e p k r :
  dl_sys w -> task_at w t c x e p k r ->
  swp E (lift_rt (update_rq_clock c) ;; dequeue_task_dl c t) w (fun _ w' => kept_dl None (turns w) w w' /\
    exists x' e' p' r', task_at w' t c x' e' p' k r' /\ rb_linked e' = false).
Proof.
  intros H A. pose proof A as [[Hx He Hp Hr Hm Hs] Hk Hc Hok].
  eapply swp_seq; [apply (calm_step E _ None _ w t c x e p k r (dy_ok _ H) A); by eapply update_rq_clock_calm|].
  intros ? w1 (K1 & p1 & r1 & A1 & _). eapply swp_cons; [by apply (dequeue_dl_step E None (turns w) w1 t c x e p1 k r1 (proj1 K1))|].
  intros ? w2 (K2 & x2 & e2 & p2 & r2 & A2 & Hl2 & _). split; [by apply (kept_dl_trans _ _ _ _ _ _ K1 K2)|]. by exists x2, e2, p2, r2.
Qed.

(** the entity of a task that leaves the trees of [c] for good *)
Lemma deactivate_step E w t c x e p k r :
  dl_sys w -> task_at w t c x e p k r -> curr r <> t ->
  swp E (deactivate_task_dl c t DEQUEUE_NOCMGROUP) w (fun _ w' => dl_ok None (turns w) w' /\ alike (base w) (base w') /\
    krn (base w') = upd_task t (set_se_queued false k) (krn (base w)) /\ shrinks w w' /\ (t ∉ pushes w' c) /\
    exists e', dlt w' !! t = Some e' /\ rb_linked e' = false).
Proof.
  intros H A Hne. unfold deactivate_task_dl. eapply swp_seq2; [by apply (leave_step E w t c x e p k r)|].
  intros ? w2 ((H2 & C2 & S2) & x2 & e2 & p2 & r2 & A2 & Hl2).
  pose proof A2 as [[Hx2 He2 Hp2 Hr2 _ _] Hk2 Hc2 _].
  eapply swp_lift_k; [by apply (hidden_dequeue t _ k)|]. split; [|split; [|split; [|split; [|split]]]].
  - eapply (krn_change None None _ w2 _ t k _ e2); try done; [congruence|cbn; rewrite Hc2; by eapply elem_of_dom_2|].
    intros d q Hd Hq. destruct (d_curr _ _ _ H2 d q Hd) as (? & l & _ & Hl & Ecp). cbn. congruence.
  - eapply alike_trans; [by apply calm_alike|apply alike_krn].
  - cbn. by rewrite <- (calm_krn _ _ C2).
  - done.
  - unfold pushes. cbn. rewrite Hx2. cbn. rewrite (at_plinked H2 A2), (at_off _ _ _ _ _ _ _ _ _ _ H2 A2 Hl2). done.
  - by exists e2.
Qed.

Lemma activate_step E w w1 t d xd e1 p1 k1 rd :
  dl_ok None (turns w) w1 -> task_at w1 t d xd e1 p1 k1 rd -> rb_linked e1 = false -> class p1 = dl_class -> on_rq k1 = true ->
  curr rd <> t -> turns w d <> Some t ->
  swp E (activate_task_dl d t ENQUEUE_NOCMGROUP) w1 (fun _ w' => dl_ok None (turns w) w' /\ alike (base w1) (base w') /\
    krn (base w') = upd_task t (set_se_queued true k1) (krn (base w1)) /\ forall c, c <> d -> pushes w' c ⊆ pushes w1 c).
Proof.
  intros H A Hl Hcl Hq Hcu Hrun. pose proof A as [[Hx He Hp Hr Hm Hs] Hk Hc Hok]. unfold activate_task_dl.
  eapply swp_seq; [by apply (calm_step E _ None _ w1 t d xd e1 p1 k1 rd H A); eapply update_rq_clock_calm|].
  intros ? w2 (K2 & p2 & r2 & A2 & Ea & Ec). pose proof (task_abs_inv _ _ Ea) as (_ & Ecl & _).
  eapply swp_seq; [apply (enqueue_task_step E None _ w2 t d xd e1 p2 k1 r2 _ (proj1 K2) A2); auto; congruence|].
  intros ? w3 (H3 & C3 & S3). destruct (alike_rt _ _ t p2 (calm_alike _ _ C3)) as (p3 & Hp3 & _); [apply A2|].
  destruct (find_task _ _ _ _ _ H3 Hp3) as (d' & x3 & e3 & k3 & r3 & A3). pose proof A3 as [[Hx3 He3 _ Hr3 _ _] Hk3 Hc3 _].
  assert (E3 : krn (base w3) = krn (base w1)) by (rewrite <- (calm_krn _ _ C3); symmetry; apply K2).
  assert (k3 = k1) as -> by congruence. assert (d' = d) as -> by congruence.
  eapply swp_lift_k; [apply (hidden_enqueue t 0 _ k1); by rewrite E3|]. split; [|split; [|split]].
  - eapply (krn_change None None _ w3 _ t k1 _ e3); try done; [by auto|cbn; rewrite Hc3; by eapply elem_of_dom_2|].
    intros d' q Hd Hq'. destruct (d_curr _ _ _ H3 d' q Hd) as (? & l & _ & Hl' & Ecp). cbn. congruence.
  - eapply alike_trans; [apply calm_alike, K2|]. eapply alike_trans; [by apply calm_alike|apply alike_krn].
  - cbn. by rewrite E3.
  - intros c Hne. unfold pushes. cbn. etrans; [apply S3; by right|]. apply (proj2 (proj2 K2)).
Qed.

Lemma not_running w t c x e p k r d : dl_sys w -> task_at w t c x e p k r -> curr r <> t -> turns w d <> Some t.
Proof.
  intros H [[_ _ _ Hr _ _] Hk Hc _] Hne. unfold turns. destruct (rqs (base w) !! d) as [q|] eqn:Hq; [|done].
  cbn. intros [= E]. destruct (d_curr _ _ _ (dy_ok _ H) d q Hq) as (_ & l & _ & Hl & El). rewrite E in Hl. congruence.
Qed.

Lemma upd_task_upd t k1 k2 (n : kernel) : upd_task t k1 (upd_task t k2 n) = upd_task t k1 n.
Proof. unfold upd_task, set_tasks. cbn. by rewrite insert_insert_eq. Qed.

Definition moved c t d k w w' : Prop :=
  held w w' /\ krn (base w') = upd_task t (set_tcpu d k) (krn (base w)) /\
  (forall c', turns w' c' = turns w c') /\ forall u, u ∈ pushes w' c -> u ∈ pushes w c /\ u <> t.

Lemma move_step E w t c x e p k r d :
  dl_sys w -> task_at w t c x e p k r -> class p = dl_class -> on_rq k = true -> curr r <> t ->
  d ∈ dom (dls w) -> d <> c -> swp E (move_task_dl c t d) w (fun _ w' => moved c t d k w w').
Proof.
  intros H A Hcl Hq Hne Hd Hdc. pose proof A as [[Hx He Hp Hr Hm Hs] Hk Hc Hok]. unfold move_task_dl.
  pose proof (fun d => not_running w t c x e p k r d H A Hne) as Hturn.
  eapply swp_seq; [by apply (deactivate_step E w t c x e p k r)|].
  intros ? w1 (H1 & L1 & E1 & S1 & N1 & e1 & He1 & Hl1). set (k1 := set_se_queued false k) in *.
  assert (Hk1 : tasks (krn (base w1)) !! t = Some k1) by (rewrite E1; apply lookup_insert_eq).
  set (k2 := set_tcpu d k1). set (w2 := set_base (set_krn (upd_task t k2 (krn (base w1))) (base w1)) w1).
  eapply (swp_seq _ _ _ _ (fun _ w' => w' = w2)).
  { eapply swp_lift_k; [|done]. unfold set_task_cpu. by mrun (get_task_eq t _ k1 Hk1). }
  intros ? ? ->. assert (Hd1 : dom (dls w1) = dom (dls w)).
  { rewrite (d_dom _ _ _ H1), (d_dom _ _ _ (dy_ok _ H)). by destruct (calm_facts _ _ L1) as (_ & _ & _ & -> & _). }
  assert (H2 : dl_ok None (turns w) w2).
  { eapply (krn_change None None _ w1 _ t k1 k2 e1); try done; [congruence|by rewrite Hd1|].
    intros c' q Hc' Hcu. destruct (alike_rq _ _ c' q L1 Hc') as (q0 & Hq0 & Eq0). destruct (Hturn c'). unfold turns.
    rewrite Hq0. cbn. congruence. }
  destruct (alike_rt _ _ t p L1 Hp) as (p1 & Hp1 & (_ & Ecl & _)%task_abs_inv).
  destruct (find_task None (turns w) w2 t p1 H2 Hp1) as (d' & xd & e2 & k2' & rd & A2). pose proof A2 as [[Hxd He2 _ Hrd _ _] Hk2 Hc2 _].
  assert (k2' = k2) as -> by (cbn in Hk2; rewrite lookup_insert_eq in Hk2; congruence). assert (d' = d) as -> by done.
  assert (e2 = e1) as -> by (cbn in He2; congruence).
  eapply swp_cons; [apply (activate_step E w w2 t d xd e1 p1 k2 rd H2 A2); auto; [congruence|]|].
  { intros Hcu. destruct (alike_rq _ _ d rd L1 Hrd) as (q0 & Hq0 & Eq0). destruct (Hturn d). unfold turns. rewrite Hq0. cbn. congruence. }
  intros ? w3 (H3 & L3 & E3 & S3). assert (L03 : alike (base w) (base w3)).
  { eapply alike_trans; [exact L1|]. eapply alike_trans; [apply alike_krn|exact L3]. }
  assert (Ek : krn (base w3) = upd_task t (set_tcpu d k) (krn (base w))).
  { rewrite E3. cbn. rewrite E1, !upd_task_upd. do 2 f_equal. destruct (proj1 (dy_sys _ H)) as [_ [Hso _]].
    destruct (Hso t k Hk) as [Hse _]. rewrite Hq in Hse. unfold k2, k1. destruct k; cbn in *. unfold set_tcpu, set_se_queued; cbn. congruence. }
  assert (Hsys : sys_ok (krn (base w3))).
  { rewrite Ek. apply (upd_task_ok _ t k); [apply H|done|done|done|by intros []]. }
  split; [split|split; [done|split]].
  - by apply (dl_sys_alike w w3 (turns w)).
  - apply alike_persists; [done|]. intros u Hu. rewrite Ek. cbn. rewrite lookup_insert. by case_decide.
  - intros c'. by apply alike_turns.
  - intros u Hu. apply S3 in Hu; [|done]. split; [by apply S1|]. by intros ->.
Qed.
End Move.
