(* ===== verification/DlEvent.v ===== *)
(** * The deadline class: pushing, pulling and the steps of the scheduler

    push_dl_task() and pull_dl_task() keep the invariants against any
    interference at the points where a lock is given up, as long as it keeps
    them too and changes no task's class; without interference they return. *)

From S2P Require Import Prelude Wait Tasklet Cmgroup Sched CmInv CmTask CmSys EpTree RtRq RtPush RtInv RtBalance RtStep DlRq DlPush.
From S2P Require Import DlCbs DlInv DlOps DlStep DlMove.
Local Open Scope Z_scope.

Section Balance.
Context {RL : RtLib} {DL : DlLib} {LL : DlLaws DL} {RB : RbLib}.
Implicit Types (w : dlw) (b : rtw) (e : dl_entity) (x : dl_rq) (p : rt_task) (r : rq) (k y : task_struct) (c d t u : nat).

(** ** Where a task can go *)

Lemma search_later_in best this l o :
  search_later best this l = Some o -> o = best \/ this = Some o.
Proof.
  induction l as [|[fl sp] l IH]; cbn; [done|]. destruct (negb _); [|done].
  destruct this as [t|].
  - case_bool_decide; [by right|]. destruct (decide _); [intros [= <-]; by left|done].
  - destruct (decide _); [intros [= <-]; by left|done].
Qed.

Lemma find_later_ok E w t c x e p k r :
  dl_sys w -> task_at w t c x e p k r ->
  swp E (find_later_rq t) w (fun o w' => w' = w /\ forall d, o = Some d -> d ∈ cpus_allowed p).
Proof.
  intros H [[Hx He Hp Hr Hm Hs] Hk Hc Hok]. unfold find_later_rq. do 4 dread. cbv zeta. rewrite Hc.
  destruct (_ =? 1); [by apply swp_ret|]. destruct (cpudl_find _ _ _) as [[best later]|] eqn:Ef; [|by apply swp_ret].
  destruct (cpudl_find_mask _ _ _ _ _ Ef) as [Hb Hl].
  destruct (decide (c ∈ later)); [apply swp_ret; split; [done|]; intros d [= <-]; auto|]. dread.
  set (this := if decide _ then _ else _).
  assert (Hthis : forall o, this = Some o -> o ∈ later) by (intros o; unfold this; destruct (decide _); [by intros [= <-]|done]).
  destruct (search_later best this (sd r)) as [o|] eqn:Es; apply swp_ret; (split; [done|]); intros d Hd.
  - injection Hd as <-. apply Hl. apply search_later_in in Es as [->|Ho]; auto.
  - apply Hl. destruct this as [o|]; [injection Hd as <-; auto|by apply cpumask_first_in].
Qed.

(** [t] waits on [c] *)
Definition candidate w c t : Prop :=
  exists x e p k r, task_at w t c x e p k r /\ class p = dl_class /\ on_rq k = true /\ curr r <> t.

Lemma candidate_of w t c x e p k r :
  dl_sys w -> task_at w t c x e p k r -> class p = dl_class -> on_rq k = true -> on_cpu p = false -> candidate w c t.
Proof.
  intros H A Hcl Hq Ho. exists x, e, p, k, r. split_and!; try done. intros E. pose proof A as [[_ _ Hp Hr _ _] _ _ _].
  rewrite <- E in Hp. pose proof (dy_cpu _ H c r p Hr Hp). congruence.
Qed.

(** tasks stay in their class *)
Lemma held_task w w' t c x e p k r :
  held w w' -> task_at w t c x e p k r -> class p = dl_class ->
  exists c' x' e' p' k' r', task_at w' t c' x' e' p' k' r' /\ class p' = dl_class.
Proof.
  intros Hh [[_ _ Hp _ _ _] _ _ _] Hcl. destruct (held_rt _ _ _ _ Hh Hp) as (p' & Hp' & Ec).
  destruct (find_task _ _ _ _ _ (dy_ok _ (proj1 Hh)) Hp') as (c' & x' & e' & k' & r' & A).
  exists c', x', e', p', k', r'. split; [done|congruence].
Qed.

Lemma still_there_ok_dl E w t c d x e p k r :
  dl_sys w -> task_at w t c x e p k r -> class p = dl_class -> forall c0,
  swp E (still_there_dl c0 t d) w (fun ok w' => w' = w /\ (ok = true -> candidate w c0 t /\ d ∈ dom (dls w))).
Proof.
  intros H A Hcl c0. pose proof A as [[Hx He Hp Hr Hm Hs] Hk Hc Hok]. unfold still_there_dl. do 4 dread. split; [done|].
  rewrite !andb_true_iff, !bool_decide_eq_true, negb_true_iff. intros [[[E1 E2] E3] E4].
  assert (c0 = c) as -> by congruence. split; [by eapply candidate_of|]. by apply Hok.
Qed.

Section Contend.
Variable contend : nat -> nat -> dlw -> option dlw.

(** what others may do while a CPU waits for a lock *)
Definition polite_dl : Prop := forall c d w w', contend c d w = Some w' -> dl_sys w -> held w w'.
Definition alone_dl : Prop := forall c d w, contend c d w = None.
Hypothesis Hpolite : polite_dl.

Lemma double_lock_ok E w c d :
  dl_sys w -> swp E (double_lock_dl contend c d) w (fun dropped w' => held w w' /\ (alone_dl -> w' = w) /\ (dropped = false -> w' = w)).
Proof.
  intros H. unfold swp, double_lock_dl. destruct (contend c d w) as [w'|] eqn:Ec; [|done].
  split; [by eapply Hpolite|]. split; [|done]. intros Ha. by rewrite Ha in Ec.
Qed.

Lemma find_lock_later_ok E n w c t :
  dl_sys w -> candidate w c t ->
  swp E (find_lock_later_rq contend n t c) w (fun o w' => held w w' /\ (alone_dl -> w' = w) /\
    forall d, o = Some d -> d <> c /\ candidate w' c t /\ d ∈ dom (dls w')).
Proof.
  revert w. induction n as [|n IH]; intros w H Hc; cbn [find_lock_later_rq]; [by apply swp_ret|].
  pose proof Hc as (x & e & p & k & r & A & Hcl & Hq & Hne).
  eapply swp_seq; [by apply (find_later_ok E w t c x e p k r)|]. intros o ? [-> Ho].
  destruct o as [d|]; [|by apply swp_ret]. destruct (decide (d = c)) as [|Hdc]; [by apply swp_ret|].
  eapply swp_seq; [by apply double_lock_ok|]. intros dropped w1 (H1 & Ha1 & Hd1).
  destruct (held_task _ _ _ _ _ _ _ _ _ H1 A Hcl) as (c1 & x1 & e1 & p1 & k1 & r1 & A1 & Hcl1).
  eapply (swp_seq _ _ _ _ (fun ok w' => w' = w1 /\ (ok = true -> candidate w1 c t /\ d ∈ dom (dls w1)))).
  { destruct dropped; [by apply (still_there_ok_dl E w1 t c1 d x1 e1 p1 k1 r1 (proj1 H1))|].
    rewrite (Hd1 eq_refl). apply swp_ret. split; [done|]. intros _. split; [done|]. apply A. by apply Ho. }
  intros ok ? [-> Hok]. destruct ok; cbn [negb]; [|by apply swp_ret]. destruct (Hok eq_refl) as [Hc1 Hd].
  pose proof Hd as [xd Hxd]%elem_of_dom. pose proof A1 as [[_ He1 _ _ _ _] _ _ _]. do 2 dread. destruct (_ || _).
  - apply swp_ret. split; [done|]. split; [done|]. by intros ? [= <-].
  - eapply swp_cons; [apply (IH w1 (proj1 H1) Hc1)|]. intros o w2 (H2 & Ha2 & Ho2).
    split; [by eapply held_trans|]. split; [|done]. intros Ha. rewrite (Ha2 Ha). by apply Ha1.
Qed.

(** ** Pushing *)

Lemma at_dl_task w t c x e p k r : task_at w t c x e p k r -> class p = dl_class -> dl_task p = true.
Proof. intros [_ _ _ Hok] Hcl. rewrite (eo_class _ _ _ Hok). by apply bool_decide_eq_true. Qed.

Lemma pick_pushable_ok E w c r :
  dl_sys w -> rqs (base w) !! c = Some r ->
  swp E (pick_next_pushable_dl_task c) w (fun o w' => w' = w /\ o = head (pushes w c) /\ forall t, o = Some t -> candidate w c t).
Proof.
  intros H Hr. destruct (held_dl_rq _ _ _ H Hr) as [x Hx]. pose proof (d_q _ _ _ (dy_ok _ H) c x Hx) as Hq.
  unfold pick_next_pushable_dl_task, has_pushable_dl_tasks. do 2 dread. destruct (pushable_root x) as [|l0 u0 r0] eqn:Er; cbn [negb].
  { apply swp_ret. split; [done|]. split; [|done]. unfold pushes. rewrite Hx. cbn. by rewrite Er. }
  destruct (q_push _ _ Hq) as [_ Hleft]. destruct (inorder (pushable_root x)) as [|t l] eqn:El.
  { rewrite Er in El. cbn in El. by destruct (inorder l0). }
  dread. apply swp_bind, (swp_deref _ _ _ t); [by rewrite Hleft|]. assert (Hin : t ∈ inorder (pushable_root x)) by (rewrite El; by left).
  destruct (q_sub _ _ Hq t Hin) as [Hroot Hmig]. destruct (d_pin _ _ _ (dy_ok _ H) c x t Hx Hin) as [Hrun _].
  destruct (member_at _ _ _ _ _ _ _ (dy_ok _ H) Hr Hx Hroot) as (e & p & k & A & Hl).
  destruct (at_runnable (dy_ok _ H) A Hl) as (_ & Hcl & _ & [Ho|]); [|done]. pose proof A as [[_ _ Hp _ _ _] Hk Hc _].
  rewrite (is_migratory_eq _ _ p Hp) in Hmig. apply Z.ltb_lt in Hmig.
  assert (Hne : curr r <> t) by (intros E1; apply Hrun; unfold turns; by rewrite Hr, <- E1).
  do 4 dread. rewrite Hc, Ho, (at_dl_task _ _ _ _ _ _ _ _ A Hcl). cbn [negb].
  apply swp_bind, swp_bug; [by rewrite bool_decide_eq_false_2 by tauto|].
  apply swp_bind, swp_bug; [by rewrite bool_decide_eq_false_2|].
  apply swp_bind, swp_bug; [by apply Z.leb_gt|]. apply swp_bind, swp_bug; [done|]. apply swp_bind, swp_bug; [done|].
  apply swp_ret. split; [done|]. split; [unfold pushes; by rewrite Hx; cbn; rewrite El|].
  intros ? [= <-]. by exists x, e, p, k, r.
Qed.

Definition dropped c t w w' : Prop := forall u, u ∈ pushes w' c -> u ∈ pushes w c /\ u <> t.

Lemma resched_held E w t p : dl_sys w -> rts (base w) !! t = Some p -> swp E (resched t) w (fun _ w' => held w w' /\ shrinks w w').
Proof.
  intros H Hp. eapply swp_cons; [by apply (resched_step E None (turns w) w t p (dy_ok _ H))|].
  intros ? w' K. split; [by apply held_kept|apply K].
Qed.

Lemma push_retry_ok_dl n w c t :
  dl_sys w -> candidate w c t -> head (pushes w c) = Some t ->
  swp (~ alone_dl) (push_dl_retry contend (S n) c t) w (fun more w' => held w w' /\ (alone_dl -> more = true -> dropped c t w w')).
Proof.
  revert w t. induction n as [n IH] using (well_founded_ind Nat.lt_wf_0); intros w t H Hc Hh. cbn [push_dl_retry].
  pose proof Hc as (x & e & p & k & r & A & Hcl & Hq & Hne). pose proof A as [[Hx He Hp Hr _ _] Hk Hcp _].
  dread. rewrite decide_False by congruence. destruct (curr_at _ _ _ _ _ (dy_ok _ H) Hr) as (xc & f & q & l & [[_ Hf Hq' _ _ _] _ _ _]).
  do 3 dread. destruct (_ && _).
  { eapply swp_seq; [by apply (resched_held _ w _ q)|]. intros ? w' [H' _]. by apply swp_ret. }
  eapply swp_seq; [by apply find_lock_later_ok|]. intros o w1 (H1 & Ha1 & Ho). destruct o as [d|].
  - destruct (Ho d eq_refl) as (Hdc & (x1 & e1 & p1 & k1 & r1 & A1 & Hcl1 & Hq1 & Hne1) & Hd).
    eapply swp_seq; [by apply (move_step _ w1 t c x1 e1 p1 k1 r1 d (proj1 H1) A1)|]. intros ? w2 (H2 & _ & _ & Hdr).
    assert (Hrd : is_Some (rqs (base w1) !! d)) by (apply elem_of_dom; by rewrite <- (d_dom _ _ _ (dy_ok _ (proj1 H1)))).
    destruct (held_rq _ _ d H2 Hrd) as [r2 Hr2]. destruct (curr_at _ _ _ _ _ (dy_ok _ (proj1 H2)) Hr2) as (? & ? & q2 & ? & [[_ _ Hq2 _ _ _] _ _ _]).
    dread. eapply swp_seq; [by apply (resched_held _ w2 _ q2 (proj1 H2))|]. intros ? w3 [H3 S3]. apply swp_ret. split.
    + eapply held_trans; [exact H1|]. by eapply held_trans.
    + intros Ha _ u Hu%S3. rewrite <- (Ha1 Ha). by apply Hdr.
  - destruct (held_rq _ _ c H1) as [r1 Hr1]; [by eexists|]. eapply swp_seq; [by apply (pick_pushable_ok _ w1 c r1 (proj1 H1))|].
    intros o ? (-> & Eo & Hcand). destruct (held_task _ _ _ _ _ _ _ _ _ H1 A Hcl) as (c1 & x1 & e1 & p1 & k1 & r1' & A1 & Hcl1).
    pose proof A1 as [_ Hk1 Hc1 _]. dread. rewrite Hc1. destruct o as [u|].
    2: { apply swp_ret. split; [done|]. intros Ha. rewrite (Ha1 Ha) in Eo. congruence. }
    destruct (decide (c1 = c /\ u = t)) as [[-> ->]|Hno].
    + assert (r1' = r1) as -> by (destruct A1 as [[] ]; congruence).
      eapply swp_seq; [by apply (push_dequeue_step _ None (turns w1) (turns w1) w1 t c x1 e1 p1 k1 r1 (dy_ok _ (proj1 H1)) A1)|].
      intros ? w2 (K2 & C2 & S2 & x2 & p2 & r2 & A2 & _ & Hpu & _). apply swp_ret. split.
      * eapply held_trans; [exact H1|]. by apply (held_kept w1 w2 (proj1 H1)).
      * intros Ha _ v Hv. split; [rewrite <- (Ha1 Ha); by apply S2|]. intros ->. unfold pushes in Hv. rewrite (h_rq _ _ _ _ _ _ _ (a_here _ _ _ _ _ _ _ _ A2)) in Hv.
        cbn in Hv. rewrite Hpu, list_elem_of_filter in Hv. tauto.
    + assert (Hn : ~ alone_dl).
      { intros Ha. apply Hno. pose proof (Ha1 Ha) as ->. split; [|congruence]. destruct A1 as [_ Hk' <- _]. congruence. }
      destruct n as [|n]; [done|]. eapply swp_cons; [apply (IH n ltac:(lia) w1 u (proj1 H1)); [auto|done]|].
      intros b w2 [H2 _]. split; [by eapply held_trans|done].
Qed.

Lemma push_task_ok n w c r :
  dl_sys w -> rqs (base w) !! c = Some r ->
  swp (~ alone_dl) (push_dl_task contend (S n) c) w (fun more w' => held w w' /\
    (alone_dl -> more = true -> (length (pushes w' c) < length (pushes w c))%nat)).
Proof.
  intros H Hr. destruct (held_dl_rq _ _ _ H Hr) as [x Hx]. unfold push_dl_task. dread. destruct (negb _); [by apply swp_ret|].
  eapply swp_seq; [by apply (pick_pushable_ok _ w c r)|]. intros o ? (-> & Eo & Hc). destruct o as [t|]; [|by apply swp_ret].
  eapply swp_cons; [apply push_retry_ok_dl; auto|]. intros more w' [H' Hd]. split; [done|]. intros Ha Hm. specialize (Hd Ha Hm).
  assert (Hin : t ∈ pushes w c) by (destruct (pushes w c); [done|]; injection Eo as <-; by left).
  assert (Hnd : NoDup (pushes w' c)).
  { unfold pushes. destruct (dls w' !! c) as [y|] eqn:Hy; [|constructor]. cbn. apply (d_q _ _ _ (dy_ok _ (proj1 H')) c y Hy). }
  assert (Hs : t :: pushes w' c ⊆+ pushes w c).
  { apply NoDup_submseteq; [constructor; [|done]; by intros [_ ?]%Hd|]. intros u [->|Hu]%elem_of_cons; [done|]. by apply Hd. }
  apply submseteq_length in Hs. cbn in Hs. lia.
Qed.

Lemma push_tasks_ok fuel w c r :
  dl_sys w -> rqs (base w) !! c = Some r ->
  swp (alone_dl -> (fuel <= length (pushes w c))%nat) (push_dl_tasks contend fuel c) w (fun _ w' => held w w').
Proof.
  revert w r. induction fuel as [|n IH]; intros w r H Hr; [cbn; intros _; lia|]. cbn [push_dl_tasks].
  eapply swp_seq; [eapply swp_mono; [by apply (push_task_ok n w c r)|done|intros more w' P; exact P]|].
  intros more w1 [H1 Hl]. destruct more; [|by apply swp_ret]. destruct (held_rq _ _ c H1) as [r1 Hr1]; [by eexists|].
  eapply swp_mono; [apply (IH w1 r1 (proj1 H1) Hr1)| |].
  - intros Hn Ha. specialize (Hn Ha). specialize (Hl Ha eq_refl). lia.
  - intros ? w2. by apply held_trans.
Qed.

(** ** Pulling *)

Lemma pull_from_ok E this src w dmin r0 :
  dl_sys w -> is_Some (rqs (base w) !! this) -> rqs (base w) !! src = Some r0 -> src <> this ->
  swp E (pull_dl_from contend this src dmin) w (fun _ w' => held w w').
Proof.
  intros H [rt Hrt] Hr0 Hne. destruct (held_dl_rq _ _ _ H Hrt) as [x Hx]. destruct (held_dl_rq _ _ _ H Hr0) as [s Hs].
  unfold pull_dl_from. do 2 dread. destruct (_ && _); [by apply swp_ret|].
  eapply swp_seq; [by apply double_lock_ok|]. intros ? w1 (H1 & _).
  destruct (held_rq _ _ src H1) as [r1 Hr1]; [by eexists|]. destruct (held_dl_rq _ _ _ (proj1 H1) Hr1) as [s1 Hs1].
  destruct (held_rq _ _ this H1) as [rt1 Hrt1]; [by eexists|]. destruct (held_dl_rq _ _ _ (proj1 H1) Hrt1) as [x1 Hx1].
  pose proof (dy_ok _ (proj1 H1)) as D1. pose proof (d_q _ _ _ D1 src s1 Hs1) as Hq. dread.
  destruct (Z.leb_spec (dl_nr_running s1) 1) as [|Hrun]; [by apply swp_ret|].
  eapply swp_seq; [apply (earliest_task_ok E src this s1 w1 Hs1 (q_tree _ _ Hq))|].
  { intros E0. rewrite (q_running _ _ Hq), E0 in Hrun. cbn in Hrun. lia. }
  { intros u (f & q & l & Hf & Hq' & _)%(d_in _ _ _ D1 src s1 u Hs1). split; by eexists. }
  intros o ? [-> Ho]. destruct o as [t|]; [|by apply swp_ret]. destruct (Ho t eq_refl) as (Hin & p0 & Hp0 & Hpick).
  destruct (member_at _ _ _ _ _ _ _ D1 Hr1 Hs1 Hin) as (e & p & k & A & Hl). pose proof A as [[_ He Hp _ _ _] _ _ _].
  assert (p0 = p) as -> by congruence. apply andb_true_iff in Hpick as [[Hoc%negb_true_iff Hall%bool_decide_eq_true]%andb_true_iff _].
  destruct (at_runnable D1 A Hl) as (_ & Hcl & _ & [Hqd|]); [|done].
  destruct (candidate_of w1 t src s1 e p k r1 (proj1 H1) A Hcl Hqd Hoc) as (y & e' & p' & k' & r' & A' & Hcl' & Hq1 & Hnc).
  do 3 dread. destruct (_ && _); [|by apply swp_ret]. destruct (curr_at _ _ _ _ _ D1 Hr1) as (? & f & q & ? & [[_ Hf _ _ _ _] _ _ _]). dread.
  destruct (dl_time_before _ _); [by apply swp_ret|].
  eapply swp_seq; [apply (move_step E w1 t src y e' p' k' r' this (proj1 H1) A' Hcl' Hq1 Hnc); [by eapply elem_of_dom_2|done]|].
  intros ? w2 (H2 & _). destruct (held_task _ _ _ _ _ _ _ _ _ H2 A' Hcl') as (? & ? & e2 & ? & ? & ? & [[_ He2 _ _ _ _] _ _ _] & _).
  dread. apply swp_ret. by eapply held_trans.
Qed.

Lemma pull_cpus_ok E this l w dmin ret :
  dl_sys w -> is_Some (rqs (base w) !! this) -> swp E (pull_dl_cpus contend this l dmin ret) w (fun _ w' => held w w').
Proof.
  revert w dmin ret. induction l as [|c l IH]; intros w dmin ret H Ht; cbn [pull_dl_cpus]; [by apply swp_ret|]. dread.
  destruct (decide _) as [[Hc Hne]|]; [|by apply IH].
  apply (mk_mask _ (d_marks _ _ _ (dy_ok _ H))) in Hc as (r & x & Hr & _).
  eapply swp_seq; [by apply (pull_from_ok E this c w dmin r)|]. intros o w1 H1.
  assert (Ht1 : is_Some (rqs (base w1) !! this)) by (by destruct (held_rq _ _ this H1 Ht) as [? ->]).
  destruct o; apply (swp_held E _ w w1 _ H1), IH; by try apply H1.
Qed.

Lemma pull_ok E this w :
  dl_sys w -> is_Some (rqs (base w) !! this) -> swp E (pull_dl_task contend this) w (fun _ w' => held w w').
Proof.
  intros H Ht. unfold pull_dl_task, dl_overloaded_rd. do 2 dread. destruct (negb _); [by apply swp_ret|]. dread. by apply pull_cpus_ok.
Qed.
End Contend.
End Balance.

(** ** The scheduler's steps keep the invariant *)

Section Event.
Context {RL : RtLib} {DL : DlLib} {LL : DlLaws DL} {RB : RbLib}.
Implicit Types (w : dlw) (b : rtw) (e : dl_entity) (x : dl_rq) (p : rt_task) (r : rq) (k y : task_struct) (c d t u : nat).

(** ** Steps that are the business of the class alone *)

Lemma held_cons {A} E (m : D A) w :
  dl_sys w -> swp E m w (fun _ w' => kept_dl None (turns w) w w') -> swp E m w (fun _ w' => held w w').
Proof. intros H Hm. eapply swp_cons; [exact Hm|]. intros ? w'. by apply held_kept. Qed.

Lemma base_held {A} E (m : W A) w : dl_sys w -> calms m (base w) -> swp E (lift_rt m) w (fun _ w' => held w w').
Proof. intros H Hm. apply held_cons; [done|]. apply base_step; [apply H|done]. Qed.

Lemma swp_then {A B} E (m : D A) (f : A -> D B) w :
  swp E m w (fun _ w' => held w w') -> (forall a w', held w w' -> swp E (f a) w' (fun _ w2 => held w' w2)) ->
  swp E (mbind f m) w (fun _ w2 => held w w2).
Proof. intros Hm Hf. eapply swp_seq; [exact Hm|]. intros a w1 H1. apply (swp_held E _ w w1 _ H1). by apply Hf. Qed.

(** the first three statements together *)
Lemma swp_seq3 {A B C F} E (m1 : D A) (m2 : A -> D B) (m3 : B -> D C) (f : C -> D F) w P Q :
  swp E (mbind (fun a => mbind m3 (m2 a)) m1) w P -> (forall a w', P a w' -> swp E (f a) w' Q) ->
  swp E (mbind (fun a => mbind (fun z => mbind f (m3 z)) (m2 a)) m1) w Q.
Proof.
  intros H Hf. unfold swp, mbind, M_bind in *. destruct (m1 w) as [a w1|w1|]; try done. destruct (m2 a w1) as [z w2|w2|]; try done.
  destruct (m3 z w2) as [g w3|w3|]; try done. by apply Hf.
Qed.

(** the current task and its entity *)
Lemma curr_parts w c r : dl_sys w -> rqs (base w) !! c = Some r ->
  exists q f k, rts (base w) !! curr r = Some q /\ dlt w !! curr r = Some f /\ tasks (krn (base w)) !! curr r = Some k.
Proof.
  intros H Hr. destruct (curr_at _ _ _ _ _ (dy_ok _ H) Hr) as (x & f & q & k & [[] Hk _ _]). by exists q, f, k.
Qed.
Lemma task_parts w t p : dl_sys w -> rts (base w) !! t = Some p -> exists e k, dlt w !! t = Some e /\ tasks (krn (base w)) !! t = Some k.
Proof. intros H Hp. destruct (d_task _ _ _ (dy_ok _ H) t p Hp) as (e & k & He & Hk & _). by exists e, k. Qed.

Lemma tick_held E w c r : dl_sys w -> rqs (base w) !! c = Some r -> swp E (task_tick_dl c) w (fun _ w' => held w w').
Proof. intros H Hr. apply held_cons; [done|]. by eapply update_curr_step; [apply H|]. Qed.

Lemma yield_held E w c r : dl_sys w -> rqs (base w) !! c = Some r -> swp E (yield_task_dl c) w (fun _ w' => held w w').
Proof. intros H Hr. apply held_cons; [done|]. by eapply yield_step_dl; [apply H|]. Qed.

Lemma check_preempt_held E w c r t p :
  dl_sys w -> rqs (base w) !! c = Some r -> rts (base w) !! t = Some p ->
  swp E (check_preempt_curr_dl c t) w (fun _ w' => held w w').
Proof.
  intros H Hr Hp. destruct (curr_parts w c r H Hr) as (q & f & k & Hq & Hf & _). destruct (task_parts w t p H Hp) as (e & _ & He & _).
  assert (Hres : swp E (resched (curr r)) w (fun _ w' => held w w')).
  { eapply swp_cons; [by apply (resched_held E w _ q)|]. by intros ? w' []. }
  unfold check_preempt_curr_dl. do 4 dread. destruct (dl_entity_preempt e f); [done|]. apply swp_when; [intros _|done].
  unfold check_preempt_equal_dl. do 6 dread. cbv zeta. destruct (_ || _); [by apply swp_ret|]. by destruct (_ && _).
Qed.

Lemma check_preempt_task_held E w c r t p :
  dl_sys w -> rqs (base w) !! c = Some r -> rts (base w) !! t = Some p ->
  swp E (check_preempt_task_dl c t) w (fun _ w' => held w w').
Proof.
  intros H Hr Hp. destruct (curr_parts w c r H Hr) as (q & f & k & Hq & Hf & _). unfold check_preempt_task_dl. do 3 dread. apply swp_then.
  - destruct (decide _); [by eapply check_preempt_held|]. apply swp_when; [intros _|done].
    eapply swp_cons; [by apply (resched_held E w _ q)|]. by intros ? w' [].
  - intros ? w1 H1. destruct (held_rq _ _ c H1) as [r1 Hr1]; [by eexists|].
    destruct (curr_parts w1 c r1 (proj1 H1) Hr1) as (q1 & f1 & k1 & Hq1 & _ & Hk1). do 3 dread.
    apply swp_when; intros _; [|by apply held_refl, H1]. apply base_held; [apply H1|]. by eapply calms_put_rq.
Qed.

Section Contend.
Variables (contend : nat -> nat -> dlw -> option dlw) (fuel : nat).
Hypothesis Hpolite : polite_dl contend.

(** the push loops end if nothing interferes and the fuel exceeds the number of tasks *)
Definition starved_dl w : Prop := alone_dl contend -> (fuel <= size (rts (base w)))%nat.

Lemma held_size w w' : held w w' -> size (rts (base w')) = size (rts (base w)).
Proof.
  intros [_ H]. rewrite <- !size_dom, <- (dom_fmap_L class (rts (base w'))), <- (dom_fmap_L class (rts (base w))).
  by rewrite (ps_class _ _ H).
Qed.
Lemma held_starved w w' : held w w' -> starved_dl w' -> starved_dl w.
Proof. intros H. unfold starved_dl. by rewrite (held_size w w' H). Qed.

Lemma pushes_size w c : dl_sys w -> (length (pushes w c) <= size (rts (base w)))%nat.
Proof.
  intros H. unfold pushes. destruct (dls w !! c) as [x|] eqn:Hx; cbn; [|lia]. pose proof (d_q _ _ _ (dy_ok _ H) c x Hx) as Hq.
  rewrite <- (size_dom (rts (base w))), <- (size_list_to_set (C := gset nat)) by apply Hq. apply subseteq_size.
  intros u [Hu _]%elem_of_list_to_set%(q_sub _ _ Hq). destruct (d_in _ _ _ (dy_ok _ H) c x u Hx Hu) as (_ & q & _ & _ & Hq' & _).
  by eapply elem_of_dom_2.
Qed.

(** like [swp_then], when the second part may starve *)
Lemma swp_then_starved {A B} (m : D A) (f : A -> D B) w :
  swp (starved_dl w) m w (fun _ w' => held w w') ->
  (forall a w', held w w' -> swp (starved_dl w') (f a) w' (fun _ w2 => held w' w2)) ->
  swp (starved_dl w) (mbind f m) w (fun _ w2 => held w w2).
Proof.
  intros Hm Hf. eapply swp_seq; [exact Hm|]. intros a w1 H1. eapply swp_mono; [by apply Hf|by apply held_starved|].
  intros ? w2. by apply held_trans.
Qed.

Lemma push_held w c r :
  dl_sys w -> rqs (base w) !! c = Some r -> swp (starved_dl w) (push_dl_tasks contend fuel c) w (fun _ w' => held w w').
Proof.
  intros H Hr. eapply swp_mono; [by apply (push_tasks_ok contend Hpolite fuel w c r)| |done].
  intros Hs Ha. pose proof (Hs Ha). pose proof (pushes_size w c H). lia.
Qed.

Lemma has_pushable_ok E w c x (Q : bool -> dlw -> Prop) :
  dls w !! c = Some x -> (forall some, Q some w) -> swp E (has_pushable_dl_tasks c) w Q.
Proof. intros Hx HQ. unfold has_pushable_dl_tasks. by do 2 dread. Qed.

Lemma woken_held w c r t p :
  dl_sys w -> rqs (base w) !! c = Some r -> rts (base w) !! t = Some p ->
  swp (starved_dl w) (task_woken_dl contend fuel c t) w (fun _ w' => held w w').
Proof.
  intros H Hr Hp. destruct (curr_parts w c r H Hr) as (q & f & k & Hq & Hf & _). destruct (task_parts w t p H Hp) as (e & _ & He & _).
  destruct (held_dl_rq _ _ _ H Hr) as [x Hx]. unfold task_woken_dl. do 5 dread. apply swp_bind. eapply has_pushable_ok; [done|]. intros some.
  apply swp_when; [intros _; by eapply push_held|done].
Qed.

Lemma push_one_held w c r :
  dl_sys w -> rqs (base w) !! c = Some r -> swp (starved_dl w) (push_dl_task contend fuel c) w (fun _ w' => held w w').
Proof.
  intros H Hr. destruct fuel as [|n] eqn:Ef.
  - destruct (held_dl_rq _ _ _ H Hr) as [x Hx]. unfold push_dl_task. dread. destruct (negb _); [by apply swp_ret|].
    eapply swp_seq; [by apply (pick_pushable_ok _ w c r)|]. intros o ? (-> & _). destruct o as [t|]; [|by apply swp_ret].
    cbn. unfold starved_dl. rewrite Ef. lia.
  - eapply swp_mono; [by apply (push_task_ok contend Hpolite n w c r)|intros Hn Ha; done|]. by intros ? w' [].
Qed.

(** ** Waking up *)

Lemma kernel_step E w n t k y e (m : K unit) :
  dl_sys w -> tasks (krn (base w)) !! t = Some k -> dlt w !! t = Some e -> m (krn (base w)) = Ret tt n ->
  sys_ok n -> tasks n = <[t := y]> (tasks (krn (base w))) ->
  (rb_linked e = true -> on_rq y = true) -> tcpu y = tcpu k -> tcpu k ∈ dom (dls w) ->
  swp E (lift_rt (lift_k m)) w (fun _ w' => held w w').
Proof.
  intros H Hk He Em Hn Ht Hl Hc Hd. eapply swp_lift_k; [done|]. split.
  - apply (dl_sys_alike w _ (turns w)); [done| |apply alike_krn|done|done].
    apply (krn_change None None _ w n t k y e); try done; [apply H|by auto|by rewrite Hc|].
    intros c r Hr Hcu. destruct (d_curr _ _ _ (dy_ok _ H) c r Hr) as (_ & l & _ & Hl' & Ec). congruence.
  - apply alike_persists; [apply alike_krn|]. intros u Hu. cbn. rewrite Ht, lookup_insert. by case_decide.
Qed.

Lemma wakeup_step E w t p :
  dl_sys w -> rts (base w) !! t = Some p -> swp E (lift_rt (lift_k (ttwu_do_wakeup t))) w (fun _ w' => held w w').
Proof.
  intros H Hp. destruct (find_task _ _ _ _ _ (dy_ok _ H) Hp) as (c & x & e & k & r & A). pose proof A as [[Hx He _ Hr _ _] Hk Hc _].
  destruct (sys_task_run (krn (base w)) t (ttwu_do_wakeup t) k tt (set_tstate TASK_RUNNING k) (dy_sys _ H) Hk) as (n & En & Hn & Htn).
  { unfold ttwu_do_wakeup. task_ops. }
  { by intros []. }
  eapply kernel_step; try done; [|rewrite Hc; by eapply elem_of_dom_2].
  intros Hl. by destruct (at_runnable (dy_ok _ H) A Hl) as (_ & _ & _ & [|]).
Qed.

Lemma dl_ok_waking run w t : dl_ok None run w -> dl_ok (Some t) run w.
Proof.
  intros [D1 D2 D3 D4 D5 D6 D7 D8 D9 D10]. split; try done. intros c x u Hx Hu.
  destruct (D3 c x u Hx Hu) as (f & q & l & ? & ? & ? & ? & ? & ? & ? & [?|?]); [|done]. exists f, q, l. auto 10.
Qed.

Lemma activate_waking E w c r t p k :
  dl_sys w -> rqs (base w) !! c = Some r -> rts (base w) !! t = Some p -> tasks (krn (base w)) !! t = Some k ->
  class p = dl_class -> on_rq k = false -> tcpu k = c ->
  let fl := Z.lor ENQUEUE_WAKEUP ENQUEUE_WAKING in
  swp E (lift_rt (update_rq_clock c) ;; enqueue_task_dl c t fl ;; lift_rt (lift_k (ttwu_activate t fl))) w (fun _ w' => held w w').
Proof.
  intros H Hr Hp Hk Hcl Hq Hcpu fl. set (y := set_on_rq true (enqueued fl k)).
  assert (Htcpu : tcpu y = c) by (unfold y, enqueued; cbn; by destruct (_ && _)).
  destruct (sys_task_run (krn (base w)) t (ttwu_activate t fl) k tt y (dy_sys _ H) Hk) as (n & En & Hn & Htn).
  { unfold ttwu_activate, activate_task. task_ops. }
  { intros Hok. pose proof (woken_ok k Hok) as Hw. unfold woken in Hw. by rewrite Hq in Hw. }
  eapply swp_seq; [eapply base_step; [apply H|by eapply update_rq_clock_calm]|]. intros ? w1 K1.
  destruct (kept_rt_dl _ _ _ _ _ _ K1 Hp) as (p1 & Hp1 & (_ & Ecl & _)%task_abs_inv).
  destruct (find_task _ _ _ _ _ (proj1 K1) Hp1) as (c1 & x1 & e1 & k1 & r1 & A1). pose proof A1 as [[_ _ _ Hr1 _ _] Hk1 Hc1 _].
  pose proof (calm_krn _ _ (proj1 (proj2 K1))) as Ek. rewrite <- Ek in Hk1. assert (k1 = k) as -> by congruence.
  assert (c1 = c) as -> by congruence. assert (Hl : rb_linked e1 = false).
  { apply not_true_is_false. intros Hl. destruct (at_runnable (proj1 K1) A1 Hl) as (_ & _ & _ & [|]); congruence. }
  eapply swp_seq.
  { apply (enqueue_task_step E (Some t) (turns w) w1 t c x1 e1 p1 k r1 fl (dl_ok_waking _ _ t (proj1 K1)) A1 Hl); [congruence|by right|].
    intros Hne Hrun. unfold turns in Hrun. destruct (alike_rq _ _ c r1 (calm_alike _ _ (proj1 (proj2 K1))) Hr1) as (r0 & Hr0 & E0).
    rewrite Hr0 in Hrun. cbn in Hrun. congruence. }
  intros ? w2 (H2 & C2 & _). assert (C02 : calm (base w) (base w2)) by (trans (base w1); [apply K1|done]).
  assert (Ek2 : krn (base w2) = krn (base w)) by (symmetry; apply C02).
  destruct (calm_facts _ _ C02) as (_ & F2 & _). destruct (F2 t p Hp) as (p2 & Hp2 & _).
  destruct (find_task _ _ _ _ _ H2 Hp2) as (c2 & x2 & e2 & k2 & r2 & [[Hx2 He2 _ _ _ _] Hk2 Hc2 _]).
  assert (c2 = c) as -> by congruence.
  eapply swp_lift_k; [by rewrite Ek2|]. split.
  - eapply (dl_sys_alike w _ (turns w)); [done| |eapply alike_trans; [by apply calm_alike|apply alike_krn]|done|done].
    apply (krn_change (Some t) None _ w2 n t k y e2); try done; [congruence|by rewrite Ek2|congruence| |rewrite Htcpu; by eapply elem_of_dom_2|].
    + intros _. split; [congruence|by left].
    + intros c' r' Hr' Hcu. destruct (d_curr _ _ _ H2 c' r' Hr') as (_ & l & _ & Hl' & Ec). congruence.
  - apply alike_persists; [eapply alike_trans; [by apply calm_alike|apply alike_krn]|].
    intros u Hu. cbn. rewrite Htn, lookup_insert. by case_decide.
Qed.

Lemma wake_held w c r t p k :
  dl_sys w -> rqs (base w) !! c = Some r -> rts (base w) !! t = Some p -> tasks (krn (base w)) !! t = Some k ->
  class p = dl_class -> on_rq k = false -> tcpu k = c ->
  swp (starved_dl w) (ttwu_do_activate_dl contend fuel c t) w (fun _ w' => held w w').
Proof.
  intros H Hr Hp Hk Hcl Hq Hcpu. pose proof (activate_waking (starved_dl w) w c r t p k H Hr Hp Hk Hcl Hq Hcpu) as Hw.
  assert (Hrest : forall w1, held w w1 -> swp (starved_dl w1)
    (check_preempt_task_dl c t ;; lift_rt (lift_k (ttwu_do_wakeup t)) ;; task_woken_dl contend fuel c t) w1 (fun _ w' => held w1 w')).
  { intros w1 H1. destruct (held_rq _ _ c H1) as [r1 Hr1]; [by eexists|]. destruct (held_rt _ _ _ _ H1 Hp) as (p1 & Hp1 & _).
    apply swp_then_starved; [by eapply check_preempt_task_held; [apply H1|..]|]. intros ? w2 H2.
    destruct (held_rq _ _ c H2) as [r2 Hr2]; [by eexists|]. destruct (held_rt _ _ _ _ H2 Hp1) as (p2 & Hp2 & _).
    apply swp_then_starved; [by eapply wakeup_step; [apply H2|]|]. intros ? w3 H3.
    destruct (held_rq _ _ c H3) as [r3 Hr3]; [by eexists|]. destruct (held_rt _ _ _ _ H3 Hp2) as (p3 & Hp3 & _).
    by eapply woken_held; [apply H3|..]. }
  unfold ttwu_do_activate_dl. eapply swp_seq3; [exact Hw|]. intros ? w1 H1.
  eapply swp_mono; [apply (Hrest w1 H1)|by apply held_starved|]. intros ? w4. by apply held_trans.
Qed.

(** ** The timer *)

Lemma turns_curr w c r t : rqs (base w) !! c = Some r -> curr r <> t -> turns w c <> Some t.
Proof. intros Hr Hne. unfold turns. rewrite Hr. cbn. congruence. Qed.

(** a store to an entity whose task stays where it is *)
Lemma put_entity_held E w t c x e p k r e' :
  dl_sys w -> task_at w t c x e p k r -> rb_linked e' = rb_linked e -> pushable_linked e' = pushable_linked e ->
  (rb_linked e = true -> dl_throttled e' = dl_throttled e) -> ent_ok (dom (dls w)) p e' ->
  swp E (put_dl t e') w (fun _ w' => held w w' /\ task_at w' t c x e' p k r).
Proof.
  intros H A E1 E2 E3 Hok. eapply swp_cons; [by apply (put_entity_step E None (turns w) w t c x e p k r e' (dy_ok _ H) A)|].
  intros ? w' (H' & Eb & Es & A'). split; [|done]. apply held_kept; [done|]. split; [done|]. rewrite Eb. split; [done|by apply shrinks_dls].
Qed.

Lemma unthrottled_ok n p e : ent_ok n p e -> dl_timer e = None -> ent_ok n p (set_dl_throttled false e).
Proof.
  intros [[] ? Hpar ? ? ? ?] Ht. split; try done. intros Hcl. destruct (Hpar Hcl). by split.
Qed.
Lemma no_timer_ok n p e : ent_ok n p e -> ent_ok n p (set_dl_timer None e).
Proof. intros [[] ? Hpar ? ? ? ?]. split; try done. intros Hcl. destruct (Hpar Hcl). by split. Qed.

Lemma resume_step w t c x e p k r :
  dl_sys w -> task_at w t c x e p k r -> rb_linked e = false -> class p = dl_class -> on_rq k = true ->
  swp (starved_dl w)
    (enqueue_task_dl c t ENQUEUE_REPLENISH ;;
     r ← rq_of c;
     cur ← task_of (curr r);
     (if task_has_dl_policy cur then check_preempt_curr_dl c t else resched (curr r)) ;;
     b ← has_pushable_dl_tasks c;
     when b (push_dl_task contend fuel c ;; mret tt)) w (fun _ w' => held w w').
Proof.
  intros H A Hl Hcl Hq. pose proof A as [[Hx He Hp Hr _ _] Hk Hc _]. apply swp_then_starved.
  { eapply swp_cons; [apply (enqueue_task_step _ None (turns w) w t c x e p k r _ (dy_ok _ H) A Hl Hcl); [by left|by apply turns_curr]|].
    intros ? w' (H' & C' & _). split; [by apply (dl_sys_calm w w' (turns w))|by apply calm_persists]. }
  intros ? w1 H1. destruct (held_rq _ _ c H1) as [r1 Hr1]; [by eexists|]. destruct (held_rt _ _ _ _ H1 Hp) as (p1 & Hp1 & _).
  destruct (curr_parts w1 c r1 (proj1 H1) Hr1) as (q1 & f1 & k1 & Hq1 & _ & _). do 2 dread. apply swp_then_starved.
  { destruct (task_has_dl_policy q1); [by eapply check_preempt_held; [apply H1|..]|].
    eapply swp_cons; [by apply (resched_held _ w1 _ q1 (proj1 H1))|]. by intros ? w' []. }
  intros ? w2 H2. destruct (held_rq _ _ c H2) as [r2 Hr2]; [by eexists|]. destruct (held_dl_rq _ _ _ (proj1 H2) Hr2) as [x2 Hx2].
  apply swp_bind. eapply has_pushable_ok; [done|]. intros some. apply swp_when; intros _; [|by apply held_refl, H2].
  apply swp_then_starved; [by eapply push_one_held; [apply H2|]|]. intros ? w3 H3. by apply swp_ret, held_refl, H3.
Qed.

Lemma timer_held w t p e :
  dl_sys w -> rts (base w) !! t = Some p -> dlt w !! t = Some e -> dl_timer e <> None ->
  swp (starved_dl w) (dl_task_timer contend fuel t) w (fun _ w' => held w w').
Proof.
  intros H Hp He Htm. destruct (find_task _ _ _ _ _ (dy_ok _ H) Hp) as (c & x & e0 & k & r & A). pose proof A as [[Hx He0 _ Hr _ _] Hk Hc Hok].
  assert (e0 = e) as -> by congruence. assert (Hl : rb_linked e = false).
  { apply not_true_is_false. intros Hl. destruct (at_runnable (dy_ok _ H) A Hl) as (Hth & _).
    pose proof (eo_timer _ _ _ Hok Htm). congruence. }
  unfold dl_task_timer. eapply swp_seq; [apply swp_bind, (swp_get_dl _ t e); [done|];
    by apply (put_entity_held _ w t c x e p k r (set_dl_timer None e) H A); [..|apply no_timer_ok]|].
  intros ? w1 [H1 A1]. eapply swp_mono; [|by apply (held_starved w w1)|intros ? w2; by apply (held_trans w w1 w2)].
  pose proof A1 as [[Hx1 He1 Hp1 Hr1 _ _] Hk1 Hc1 Hok1]. do 3 dread. rewrite Hc1.
  destruct (negb _ || _) eqn:Eb; [by apply swp_ret, held_refl, H1|]. apply orb_false_iff in Eb as [Hdl%negb_false_iff _].
  rewrite (eo_class _ _ _ Hok1), bool_decide_eq_true in Hdl.
  eapply swp_seq; [apply (calm_step _ _ None (turns w1) w1 t c x _ p k r (dy_ok _ (proj1 H1)) A1); by eapply update_rq_clock_calm|].
  intros ? w2 (K2 & p2 & r2 & A2 & Ea2 & _). pose proof (held_kept _ _ (proj1 H1) K2) as H2.
  eapply swp_mono; [|by apply (held_starved w1 w2)|intros ? w3; by apply (held_trans w1 w2 w3)].
  eapply swp_seq; [apply swp_bind, (swp_get_dl _ t (set_dl_timer None e)); [apply A2|]; apply (put_entity_held _ w2 t c x _ p2 k r2 _ (proj1 H2) A2); try done|].
  { cbn. congruence. } { apply unthrottled_ok; [apply A2|done]. }
  intros ? w3 [H3 A3]. pose proof A3 as [[_ _ _ _ _ _] Hk3 _ _]. eapply swp_mono; [|by apply (held_starved w2 w3)|intros ? w4; by apply (held_trans w2 w3 w4)].
  dread. apply swp_when; [intros Hq|intros _; by apply held_refl, H3].
  apply (resume_step w3 t c x _ p2 k r2 (proj1 H3) A3 Hl); [|done]. by apply task_abs_inv in Ea2 as (_ & -> & _).
Qed.

(** ** Going to sleep *)

Lemma sleep_held E w c r p k fatal :
  dl_sys w -> rqs (base w) !! c = Some r -> rts (base w) !! curr r = Some p -> tasks (krn (base w)) !! curr r = Some k ->
  on_rq k = true -> swp E (schedule_out_dl fatal c) w (fun _ w' => held w w').
Proof.
  intros H Hr Hp Hk Hq. destruct (find_task _ _ _ _ _ (dy_ok _ H) Hp) as (c0 & x & e & k0 & r0 & A). pose proof A as [[Hx He _ Hr0 _ _] Hk0 Hc _].
  assert (k0 = k) as -> by congruence. destruct (d_curr _ _ _ (dy_ok _ H) c r Hr) as (_ & k' & _ & Hk' & Hc').
  assert (c0 = c) as -> by congruence. assert (r0 = r) as -> by congruence.
  destruct (sys_task_run (krn (base w)) (curr r) (schedule_out fatal (curr r)) k tt (slept fatal k)
      (dy_sys _ H) Hk (schedule_out_op _ _ _ _)) as (n & En & Hn & Htn); [intros; by apply slept_ok|].
  assert (Hcy : tcpu (slept fatal k) = c).
  { rewrite <- Hc. unfold slept, dequeued. destruct (_ =? 0); [done|]. destruct (signal_pending_state _ _ _); [done|]. cbn. by destruct (_ && _). }
  unfold schedule_out_dl. dread. apply swp_bind, (swp_read _ _ k); [by apply lift_get_task_eq|].
  destruct (negb _ && negb _) eqn:Eb; cbn [when].
  - eapply swp_seq; [by apply (leave_step E w (curr r) c x e p k r)|].
    intros ? w2 [K2 (x2 & e2 & p2 & r2 & [[_ He2 _ _ _ _] _ _ _] & Hl2)]. pose proof K2 as (H2 & C2 & _). pose proof (calm_krn _ _ C2) as Ek.
    apply (swp_held E _ w w2 _ (held_kept _ _ H K2)). eapply (kernel_step E w2 n (curr r) k (slept fatal k) e2); try done.
    + apply (held_kept _ _ H K2).
    + by rewrite <- Ek.
    + by rewrite <- Ek.
    + by rewrite <- Ek.
    + congruence.
    + congruence.
    + destruct (kept_rq_dl _ _ _ _ _ _ K2 Hr) as (r3 & Hr3 & _). rewrite Hc, (d_dom _ _ _ H2). by eapply elem_of_dom_2.
  - eapply (kernel_step E w n (curr r) k (slept fatal k) e); try done; [|congruence|rewrite Hc; by eapply elem_of_dom_2].
    intros _. unfold slept. destruct (tstate k =? 0); [done|]. cbn in Eb. apply negb_false_iff in Eb. by rewrite Eb.
Qed.
End Contend.
End Event.
