(* ===== verification/DlSwitch.v ===== *)
(** * The deadline class: context switches, affinity, CPUs that come and go *)

From S2P Require Import Prelude Wait Tasklet Cmgroup Sched CmInv CmTask CmSys EpTree RtRq RtPush RtInv RtExec RtOps RtBalance RtStep.
From S2P Require Import RtParam DlRq DlPush DlCbs DlInv DlOps DlStep DlMove DlEvent.
Local Open Scope Z_scope.

Section Switch.
Context {RL : RtLib} {DL : DlLib} {LL : DlLaws DL} {RB : RbLib}.
Implicit Types (w : dlw) (b : rtw) (e : dl_entity) (x : dl_rq) (p : rt_task) (r : rq) (k y : task_struct) (c d t u : nat).

(** ** Switching *)

(** CPU [c] switches from [prev] to [next] *)
Record switched c prev next b b' : Prop := {
  sw_rqs : forall d, match rqs b !! d, rqs b' !! d with
    | Some r, Some r' => online r' = online r /\ curr r' = if decide (d = c) then next else curr r
    | None, None => True
    | _, _ => False
    end;
  sw_rts : forall t, match rts b !! t, rts b' !! t with
    | Some p, Some p' => task_abs p' = set_on_cpu (on_cpu p') (task_abs p) /\
        on_cpu p' = if decide (t = prev) then bool_decide (t = next) else if decide (t = next) then true else on_cpu p
    | None, None => True
    | _, _ => False
    end;
  sw_krn : krn b' = krn b
}.

Lemma context_switch_ok b c prev next r p q :
  rqs b !! c = Some r -> curr r = prev -> rts b !! prev = Some p -> rts b !! next = Some q -> on_cpu p = true ->
  exists b', context_switch c prev next b = Ret tt b' /\ switched c prev next b b'.
Proof.
  intros Hr Hcu Hp Hq Ho. unfold context_switch. rewrite (bind_run _ _ _ _ _ (get_rt_eq prev p b Hp)).
  unfold put_rt, put_rq, modify. unfold mbind at 1, M_bind at 1. set (b1 := set_rts _ b).
  rewrite (bind_run _ _ _ _ _ (cpu_rq_eq c r b1 Hr)). unfold mbind at 1, M_bind at 1. set (b2 := set_rqs _ b1).
  destruct (decide (prev = next)) as [->|Hne].
  - eexists. split; [done|]. split; [| |done].
    + intros d. cbn. rewrite lookup_insert. case_decide as E; [subst d; by rewrite Hr, decide_True by done|].
      destruct (rqs b !! d); [by rewrite decide_False by done|done].
    + intros t. cbn. rewrite lookup_insert. case_decide as E; [subst t; rewrite Hp, decide_True by done|].
      * split; [by destruct p|]. cbn. by rewrite bool_decide_eq_true_2.
      * destruct (rts b !! t) as [p0|]; [|done]. rewrite !decide_False by done. split; [by destruct p0|done].
  - set (r2 := set_skip_clock_update 0 r). assert (Hr2 : rqs b2 !! c = Some r2) by apply lookup_insert_eq.
    rewrite (bind_run _ _ _ _ _ (cpu_rq_eq c r2 b2 Hr2)). unfold mbind at 1, M_bind at 1. set (b3 := set_rqs _ b2).
    assert (Hn3 : rts b3 !! next = Some q) by (cbn; by rewrite lookup_insert_ne).
    rewrite (bind_run _ _ _ _ _ (get_rt_eq next q b3 Hn3)). unfold mbind at 1, M_bind at 1. set (b4 := set_rts _ b3).
    assert (Hp4 : rts b4 !! prev = Some (set_need_resched false p)) by (cbn; by rewrite lookup_insert_ne, lookup_insert_eq by done).
    rewrite (bind_run _ _ _ _ _ (get_rt_eq prev _ b4 Hp4)). eexists. split; [done|]. split; [| |done].
    + intros d. cbn. rewrite !lookup_insert. case_decide as E; [subst d; by rewrite Hr, decide_True by done|].
      destruct (rqs b !! d); [by rewrite decide_False by done|done].
    + intros t. cbn. rewrite !lookup_insert. case_decide as E; [subst t; rewrite Hp, decide_True by done|].
      * split; [by destruct p|]. cbn. by rewrite bool_decide_eq_false_2.
      * destruct (decide (next = t)) as [<-|Hnt].
        -- rewrite Hq, decide_False by done. rewrite decide_True by done. split; [by destruct q|done].
        -- destruct (rts b !! t) as [p0|]; [|done]. rewrite !decide_False by done. split; [by destruct p0|done].
Qed.

Lemma switched_abs p p' : task_abs p' = set_on_cpu (on_cpu p') (task_abs p) ->
  prio p' = prio p /\ class p' = class p /\ nr_cpus_allowed p' = nr_cpus_allowed p /\ cpus_allowed p' = cpus_allowed p.
Proof. destruct p, p'. unfold task_abs. cbn. by intros [= -> -> -> -> ->]. Qed.

Section Switched.
Context {c prev next : nat} {w : dlw} {b' : rtw} (S : switched c prev next (base w) b').

Lemma sw_rt t p : rts (base w) !! t = Some p -> exists p', rts b' !! t = Some p' /\ task_abs p' = set_on_cpu (on_cpu p') (task_abs p) /\
  on_cpu p' = if decide (t = prev) then bool_decide (t = next) else if decide (t = next) then true else on_cpu p.
Proof. intros Hp. pose proof (sw_rts _ _ _ _ _ S t) as Ht. rewrite Hp in Ht. destruct (rts b' !! t) as [p'|]; [|done]. by exists p'. Qed.
Lemma sw_rt_back t p' : rts b' !! t = Some p' -> exists p, rts (base w) !! t = Some p /\ task_abs p' = set_on_cpu (on_cpu p') (task_abs p) /\
  on_cpu p' = if decide (t = prev) then bool_decide (t = next) else if decide (t = next) then true else on_cpu p.
Proof. intros Hp. pose proof (sw_rts _ _ _ _ _ S t) as Ht. rewrite Hp in Ht. destruct (rts (base w) !! t) as [p|]; [|done]. by exists p. Qed.
Lemma sw_rq d r : rqs (base w) !! d = Some r -> exists r', rqs b' !! d = Some r' /\ online r' = online r /\
  curr r' = if decide (d = c) then next else curr r.
Proof. intros Hr. pose proof (sw_rqs _ _ _ _ _ S d) as Hd. rewrite Hr in Hd. destruct (rqs b' !! d) as [r'|]; [|done]. by exists r'. Qed.
Lemma sw_rq_back d r' : rqs b' !! d = Some r' -> exists r, rqs (base w) !! d = Some r /\ online r' = online r /\
  curr r' = if decide (d = c) then next else curr r.
Proof. intros Hr. pose proof (sw_rqs _ _ _ _ _ S d) as Hd. rewrite Hr in Hd. destruct (rqs (base w) !! d) as [r|]; [|done]. by exists r. Qed.
Lemma sw_dom : dom b'.(rqs) = dom (rqs (base w)) /\ dom b'.(rts) = dom (rts (base w)).
Proof.
  split; apply set_eq; intros z; rewrite !elem_of_dom; split; intros [v Hv].
  - destruct (sw_rq_back z v Hv) as (? & ? & _). by eexists.
  - destruct (sw_rq z v Hv) as (? & ? & _). by eexists.
  - destruct (sw_rt_back z v Hv) as (? & ? & _). by eexists.
  - destruct (sw_rt z v Hv) as (? & ? & _). by eexists.
Qed.
Lemma sw_migratory t : is_migratory (rts b') t = is_migratory (rts (base w)) t.
Proof.
  unfold is_migratory. pose proof (sw_rts _ _ _ _ _ S t) as Ht. destruct (rts (base w) !! t), (rts b' !! t); try done.
  destruct Ht as [(_ & _ & -> & _)%switched_abs _]. done.
Qed.

Lemma dl_ok_switched run kn :
  dl_ok None run w -> tasks (krn (base w)) !! next = Some kn -> tcpu kn = c -> is_Some (rts (base w) !! next) ->
  dl_ok None run (set_base b' w).
Proof.
  intros [D1 D2 D3 D4 D5 D6 D7 D8 D9 D10] Hkn Hc Hn. destruct sw_dom as [Ed1 Ed2].
  split; cbn; rewrite ?Ed1, ?Ed2, ?(sw_krn _ _ _ _ _ S); try done.
  - intros d x Hx. destruct (D2 d x Hx) as [Q1 Q2 Q3 Q4 Q5 Q6]. split; try done.
    + intros t Ht. rewrite sw_migratory. by apply Q3.
    + rewrite Q5. do 2 f_equal. apply list_filter_iff. intros t. by rewrite sw_migratory.
  - intros d x t Hx Ht. destruct (D3 d x t Hx Ht) as (f & q & l & Hf & Hq & Hlk & Hl & Hth & Hcl & Hcp & Ho).
    destruct (sw_rt t q Hq) as (q' & Hq' & (_ & Ecl & _)%switched_abs & _). exists f, q', l. rewrite Ecl. cbn. by rewrite (sw_krn _ _ _ _ _ S).
  - intros t q' Hq'. destruct (sw_rt_back t q' Hq') as (q & Hq & (E1 & E2 & E3 & E4)%switched_abs & _). destruct (D7 t q Hq) as (f & l & ? & ? & ? & Hok).
    exists f, l. split_and!; try done. destruct Hok as [O1 O2 O3 O4 O5 O6 O7]. split; rewrite ?E2, ?E3, ?E4; try done. unfold dl_task in *. by rewrite E1.
  - intros d r Hr. destruct (sw_rq_back d r Hr) as (r0 & Hr0 & _ & ->). case_decide as Ed.
    + destruct Hn as [q Hq]. destruct (sw_rt next q Hq) as (q' & Hq' & _). exists q', kn. by subst d.
    + destruct (D8 d r0 Hr0) as (q & l & Hq & ? & ?). destruct (sw_rt _ q Hq) as (q' & Hq' & _). by exists q', l.
  - destruct D9 as [M1 M2]. split; [|done]. intros d. cbn. rewrite M1. split.
    + intros (r & x & Hr & Hx & Hon & Hov). destruct (sw_rq d r Hr) as (r' & Hr' & Eo & _). exists r', x. by rewrite Eo.
    + intros (r' & x & Hr' & Hx & Hon & Hov). destruct (sw_rq_back d r' Hr') as (r & Hr & Eo & _). exists r, x. by rewrite <- Eo.
  - rewrite <- !size_dom. rewrite <- !size_dom in D10. by rewrite Ed2.
Qed.
End Switched.

(** the task of another class that takes the CPU *)
Definition foreign_dl w c t : Prop :=
  exists p k, rts (base w) !! t = Some p /\ tasks (krn (base w)) !! t = Some k /\ class p <> dl_class /\ tcpu k = c.

Lemma foreign_calm w w' c t : calm (base w) (base w') -> foreign_dl w c t -> foreign_dl w' c t.
Proof.
  intros Hc (p & k & Hp & Hk & Hcl & Ht). destruct (calm_facts _ _ Hc) as (_ & F & Ek & _).
  destruct (F t p Hp) as (p' & Hp' & (_ & Ecl & _)%task_abs_inv). exists p', k. by rewrite Ecl, Ek.
Qed.

Lemma foreign_turn w c t run :
  dl_ok None (turn c None run) w -> foreign_dl w c t -> dl_ok None (turn c (Some t) run) w.
Proof.
  intros H (p & k & Hp & Hk & Hcl & Ht). pose proof H as [D1 D2 D3 D4 D5 D6 D7 D8 D9 D10]. split; try done.
  intros d x u Hx Hu. destruct (D5 d x u Hx Hu) as [Hr Hl]. split; [|done]. unfold turn in *. case_decide; [|done].
  intros [= <-]. destruct (q_sub _ _ (D2 d x Hx) t Hu) as [Hin _].
  destruct (D3 d x t Hx Hin) as (? & q & ? & _ & Hq & _ & _ & _ & Hcl' & _). congruence.
Qed.

Lemma choose_next_dl E w c r run hi lo :
  dl_ok None (turn c None run) w -> rqs (base w) !! c = Some r ->
  (forall t, hi = Some t -> foreign_dl w c t) -> foreign_dl w c lo ->
  swp E (match hi with
         | Some t => mret t
         | None => n ← pick_next_task_dl c; mret (match n with Some t => t | None => lo end)
         end) w
    (fun n w' => dl_ok None (turn c (Some n) run) w' /\ calm (base w) (base w') /\
       is_Some (rts (base w') !! n) /\ exists k, tasks (krn (base w')) !! n = Some k /\ tcpu k = c).
Proof.
  intros H Hr Hhi Hlo.
  assert (Hf : forall t, foreign_dl w c t -> dl_ok None (turn c (Some t) run) w /\ calm (base w) (base w) /\
    is_Some (rts (base w) !! t) /\ exists k, tasks (krn (base w)) !! t = Some k /\ tcpu k = c).
  { intros t Ht. split; [by apply foreign_turn|]. destruct Ht as (p & k & Hp & Hk & _ & Ht). split_and!; [done|by eexists|by exists k]. }
  destruct hi as [t|]; [apply swp_ret; by apply Hf, Hhi|]. destruct (queue_of_cpu _ _ _ _ _ H Hr) as [x Hx].
  eapply swp_seq; [exact (pick_step E None (turn c None run) w c r x H Hr Hx)|]. intros o w1 (Eo & H1 & C1 & _). apply swp_ret. destruct o as [t|].
  - split; [eapply dl_ok_weaken; [exact H1|]; intros d u; unfold turn; by case_decide|]. split; [done|].
    assert (Hin : t ∈ inorder (dl_root x)) by (destruct (inorder (dl_root x)); [done|]; injection Eo as <-; by left).
    destruct (d_in _ _ _ H c x t Hx Hin) as (_ & q & l & _ & Hq & Hl & _ & _ & _ & Ht & _).
    destruct (calm_facts _ _ C1) as (_ & F & Ek & _). destruct (F t q Hq) as (q' & Hq' & _). rewrite Ek. split; [by eexists|by exists l].
  - destruct (Hf lo Hlo) as (_ & _ & Hs & k & Hk & Ht). split; [by apply foreign_turn; [|eapply foreign_calm]|]. split; [done|].
    destruct (calm_facts _ _ C1) as (_ & F & Ek & _). destruct Hs as [q Hq]. destruct (F lo q Hq) as (q' & Hq' & _). rewrite Ek. split; [by eexists|by exists k].
Qed.

Lemma put_prev_any E w c r p :
  dl_sys w -> rqs (base w) !! c = Some r -> rts (base w) !! curr r = Some p -> forall q,
  swp E (when (bool_decide (class q = dl_class)) (put_prev_task_dl c (curr r))) w
    (fun _ w' => dl_ok None (turn c None (turns w)) w' /\ calm (base w) (base w')).
Proof.
  intros H Hr Hp q. apply swp_when; intros _.
  - apply (put_prev_step E None (turns w) w c r p (dy_ok _ H) Hr); [|done]. unfold turns. by rewrite Hr.
  - split; [|done]. apply (dl_ok_weaken None (turns w)); [apply H|]. intros d u. unfold turn. by case_decide.
Qed.

Lemma sys_switched w w' c r n b' kn :
  dl_sys w -> rqs (base w) !! c = Some r -> calm (base w) (base w') -> dl_ok None (turn c (Some n) (turns w)) w' ->
  switched c (curr r) n (base w') b' -> is_Some (rts (base w') !! n) -> tasks (krn (base w')) !! n = Some kn -> tcpu kn = c ->
  held w (set_base b' w').
Proof.
  intros H Hr C D S Hn Hkn Hc. destruct (calm_facts _ _ C) as (F1 & F2 & Ek & _). destruct (F1 c r Hr) as (r1 & Hr1 & Ec1 & _).
  split; [split|].
  - apply (dl_ok_weaken None (turn c (Some n) (turns w))); [by eapply dl_ok_switched|]. intros d u. unfold turns, turn. cbn.
    pose proof (sw_rqs _ _ _ _ _ S d) as Hd. pose proof (turns_calm w w' d C) as Ht. unfold turns in Ht.
    destruct (rqs (base w') !! d) as [q|], (rqs b' !! d) as [q'|]; try done. destruct Hd as [_ Eq]. cbn. rewrite Eq. case_decide; [done|].
    by rewrite <- Ht.
  - cbn. rewrite (sw_krn _ _ _ _ _ S), Ek. apply H.
  - cbn. intros d q p Hq Hp. destruct (sw_rq_back S d q Hq) as (q0 & Hq0 & _ & Ecu). destruct (sw_rt_back S _ p Hp) as (p0 & Hp0 & _ & Eo).
    rewrite Ecu in Hp0, Eo. rewrite Eo. destruct (decide (d = c)) as [->|Hdc].
    + destruct (decide (n = curr r)); [by apply bool_decide_eq_true|]. by rewrite decide_True.
    + destruct (d_curr _ _ _ D d q0 Hq0) as (_ & l & _ & Hl & Hcl). destruct (d_curr _ _ _ D c r1 Hr1) as (_ & l1 & _ & Hl1 & Hcl1).
      rewrite decide_False by congruence. rewrite decide_False by congruence.
      destruct (calm_facts_back _ _ C) as [G1 G2]. destruct (G1 d q0 Hq0) as (q1 & Hq1 & E1 & _).
      destruct (G2 _ p0 Hp0) as (p1 & Hp1 & (_ & _ & _ & _ & -> & _)%task_abs_inv). rewrite E1 in Hp1. by apply (dy_cpu _ H d q1).
  - destruct (calm_persists _ _ C) as [P1 P2 P3]. destruct (sw_dom S) as [E1 _]. split; cbn.
    + by rewrite E1.
    + rewrite <- P2. apply map_eq. intros t. rewrite !lookup_fmap. pose proof (sw_rts _ _ _ _ _ S t) as Ht.
      destruct (rts (base w') !! t), (rts b' !! t); try done. destruct Ht as [(_ & E & _)%switched_abs _]. cbn. by rewrite E.
    + intros t. rewrite (sw_krn _ _ _ _ _ S). apply P3.
Qed.

Lemma switch_held E w c r hi lo :
  dl_sys w -> rqs (base w) !! c = Some r -> (forall t, hi = Some t -> foreign_dl w c t) -> foreign_dl w c lo ->
  swp E (switch_dl hi lo c) w (fun _ w' => held w w').
Proof.
  intros H Hr Hhi Hlo. destruct (curr_parts w c r H Hr) as (p & f & k & Hp & _ & Hk). unfold switch_dl. do 3 dread.
  eapply (swp_seq _ _ _ _ (fun _ w1 => held w w1 /\ calm (base w) (base w1))).
  { apply swp_when; intros _; [|done]. eapply swp_cons; [eapply base_step; [apply H|by eapply update_rq_clock_calm]|].
    intros ? w1 K1. split; [by apply held_kept|apply K1]. }
  intros ? w1 [H1 C1]. destruct (calm_facts _ _ C1) as (F1 & F2 & _). destruct (F1 c r Hr) as (r1 & Hr1 & Ec & _).
  destruct (F2 _ p Hp) as (p1 & Hp1 & _). rewrite <- Ec in Hp1 |- *. apply (swp_held E _ w w1 _ H1).
  eapply swp_seq; [by apply (put_prev_any E w1 c r1 p1 (proj1 H1))|]. intros ? w2 [D2 C2].
  destruct (calm_facts _ _ C2) as (F3 & F4 & _). destruct (F3 c r1 Hr1) as (r2 & Hr2 & Ec2 & _).
  assert (C02 : calm (base w) (base w2)) by by trans (base w1).
  eapply swp_seq; [apply (choose_next_dl E w2 c r2 (turns w1) hi lo D2 Hr2)|].
  { intros t Ht. eapply foreign_calm; [exact C02|auto]. } { by eapply foreign_calm. }
  intros n w3 (D3 & C3 & Hn & kn & Hkn & Hcn). assert (C13 : calm (base w1) (base w3)) by by trans (base w2).
  destruct (calm_facts _ _ C13) as (F5 & F6 & _). destruct (F5 c r1 Hr1) as (r3 & Hr3 & Ec3 & _).
  destruct (F6 _ p1 Hp1) as (p3 & Hp3 & Ea3). pose proof Hn as [q3 Hq3].
  destruct (context_switch_ok (base w3) c (curr r1) n r3 p3 q3 Hr3 Ec3 Hp3 Hq3) as (b' & Eb & S).
  { apply task_abs_inv in Ea3 as (_ & _ & _ & _ & -> & _). by apply (dy_cpu _ (proj1 H1) c r1). }
  unfold swp, lift_rt. rewrite Eb. by apply (sys_switched w1 w3 c r1 n b' kn (proj1 H1)).
Qed.
End Switch.

(** ** CPUs that come and go, changes of affinity *)

Section Param.
Context {RL : RtLib} {DL : DlLib} {LL : DlLaws DL} {RB : RbLib}.
Implicit Types (w : dlw) (b : rtw) (e : dl_entity) (x : dl_rq) (p : rt_task) (r : rq) (k : task_struct) (c d t u : nat).

(** ** CPUs *)

(** a run queue changes without changing its current task *)
Lemma held_cpu w w' c r r' :
  dl_sys w -> rqs (base w) !! c = Some r -> curr r' = curr r -> base w' = with_rq c r' (base w) ->
  dls w' = dls w -> dlt w' = dlt w -> marks w' -> held w w'.
Proof.
  intros H Hr Ec Eb Es Et Hm.
  assert (Hb : forall d q, rqs (base w') !! d = Some q -> exists q0, rqs (base w) !! d = Some q0 /\ curr q = curr q0).
  { intros d q. rewrite Eb. cbn. rewrite lookup_insert. case_decide; [subst d; intros [= <-]; by exists r|by exists q]. }
  assert (Hd : dom (rqs (base w')) = dom (rqs (base w))).
  { rewrite Eb. cbn. rewrite dom_insert_L. apply elem_of_dom_2 in Hr. set_solver. }
  assert (Ert : rts (base w') = rts (base w)) by by rewrite Eb. assert (Ekr : krn (base w') = krn (base w)) by by rewrite Eb.
  assert (Htn : forall d, turns w' d = turns w d).
  { intros d. unfold turns. rewrite Eb. cbn. rewrite lookup_insert. case_decide; [subst d; rewrite Hr; cbn; by rewrite Ec|done]. }
  split; [split|split; [done|by rewrite Ert|by rewrite Ekr]].
  - destruct (dy_ok _ H) as [D1 D2 D3 D4 D5 D6 D7 D8 D9 D10]. split; rewrite ?Es, ?Et, ?Hd, ?Ert, ?Ekr; try done.
    + intros d x t Hx Ht. destruct (D3 d x t Hx Ht) as (f & q & l & ? & ? & ? & ?). exists f, q, l. by rewrite Et, Ert, Ekr.
    + intros d x t. rewrite Htn. apply D5.
    + intros d q Hq. destruct (Hb d q Hq) as (q0 & Hq0 & ->). by apply D8.
  - rewrite Ekr. apply H.
  - intros d q p Hq. destruct (Hb d q Hq) as (q0 & Hq0 & ->). rewrite Ert. by apply (dy_cpu _ H d q0).
Qed.

(** the overloaded CPUs after [c] has come or gone *)
Lemma marks_online w w' c r r' x (on : bool) :
  dl_sys w -> rqs (base w) !! c = Some r -> dls w !! c = Some x -> online r' = on -> online r = negb on ->
  rqs (base w') = <[c := r']> (rqs (base w)) -> dls w' = dls w ->
  dlo_mask w' = (if dl_overloaded x then if on then {[c]} ∪ dlo_mask w else dlo_mask w ∖ {[c]} else dlo_mask w) ->
  dlo_count w' = (if dl_overloaded x then if on then s32 (dlo_count w + 1) else s32 (dlo_count w - 1) else dlo_count w) -> marks w'.
Proof.
  intros H Hr Hx Eon Eoff Er Es Em Ec. pose proof (d_marks _ _ _ (dy_ok _ H)) as Hm. destruct (mask_size_dl w Hm) as [_ Hsz].
  pose proof (proj2 (d_size _ _ _ (dy_ok _ H))) as Hlt. assert (Hin : c ∈ dlo_mask w <-> on = false /\ dl_overloaded x = true).
  { rewrite (mk_mask _ Hm). split.
    { intros (r0 & x0 & Hr0 & Hx0 & Ho & ?). assert (r0 = r) as -> by congruence. assert (x0 = x) as -> by congruence.
      rewrite Eoff in Ho. by destruct on. }
    intros [-> ?]. by exists r, x. }
  assert (Hne : forall d, d <> c -> (d ∈ dlo_mask w' <-> d ∈ dlo_mask w)).
  { intros d Hd. rewrite Em. destruct (dl_overloaded x), on; set_solver. }
  assert (Hc : c ∈ dlo_mask w' <-> on = true /\ dl_overloaded x = true).
  { rewrite Em. destruct (dl_overloaded x), on; set_solver. }
  split.
  - intros d. destruct (decide (d = c)) as [->|Hd].
    + rewrite Hc, Er, Es. setoid_rewrite lookup_insert_eq. split; [intros [-> ?]; by exists r', x|].
      intros (r0 & x0 & [= <-] & Hx0 & Ho & ?). assert (x0 = x) as -> by congruence. split; congruence.
    + rewrite (Hne d Hd), (mk_mask _ Hm), Er, Es. by setoid_rewrite lookup_insert_ne; [|done].
  - rewrite Ec, Em. destruct (dl_overloaded x) eqn:Eo; [|apply Hm]. destruct on.
    + assert (c ∉ dlo_mask w) by (intros [? _]%Hin; done).
      rewrite (mk_count _ Hm), size_union, size_singleton by set_solver. rewrite s32_id by lia. lia.
    + assert (Hcin : c ∈ dlo_mask w) by by apply Hin.
      assert (Hd : size (dlo_mask w) = S (size (dlo_mask w ∖ {[c]}))).
      { rewrite size_difference by set_solver. rewrite size_singleton. assert (size (dlo_mask w) <> 0%nat); [|lia].
        intros E0%size_empty_inv. set_solver. }
      rewrite (mk_count _ Hm), Hd. rewrite s32_id by lia. lia.
Qed.

Lemma online_held E w c r : dl_sys w -> rqs (base w) !! c = Some r -> swp E (set_rq_online_dl c) w (fun _ w' => held w w').
Proof.
  intros H Hr. destruct (held_dl_rq _ _ _ H Hr) as [x Hx]. unfold set_rq_online_dl. dread. destruct (online r) eqn:Eon; [by apply swp_ret|].
  set (r' := set_online true r). set (w1 := set_base (with_rq c r' (base w)) w).
  eapply (swp_seq _ _ _ _ (fun _ w' => w' = w1)); [done|]. intros ? ? ->.
  assert (Hx1 : dls w1 !! c = Some x) by done. assert (Hr1 : rqs (base w1) !! c = Some r') by apply lookup_insert_eq.
  unfold rq_online_dl. dread. eapply (swp_seq _ _ _ _ (fun _ w2 => base w2 = base w1 /\ dls w2 = dls w /\ dlt w2 = dlt w /\
    dlo_mask w2 = (if dl_overloaded x then {[c]} ∪ dlo_mask w else dlo_mask w) /\
    dlo_count w2 = (if dl_overloaded x then s32 (dlo_count w + 1) else dlo_count w))).
  { apply swp_when; intros ->; [|done]. unfold dl_set_overload. dread. cbn [online r' set_online negb]. by dread. }
  intros ? w2 (B2 & S2 & T2 & M2 & C2). apply swp_when; intros _; [dread|].
  all: apply (held_cpu w _ c r r' H Hr); try done; apply (marks_online w _ c r r' x true H Hr Hx); try done; cbn; by rewrite B2.
Qed.

Lemma offline_held E w c r : dl_sys w -> rqs (base w) !! c = Some r -> swp E (set_rq_offline_dl c) w (fun _ w' => held w w').
Proof.
  intros H Hr. destruct (held_dl_rq _ _ _ H Hr) as [x Hx]. unfold set_rq_offline_dl. dread. destruct (online r) eqn:Eon; [|by apply swp_ret].
  eapply (swp_seq _ _ _ _ (fun _ w2 => base w2 = base w /\ dls w2 = dls w /\ dlt w2 = dlt w /\
    dlo_mask w2 = (if dl_overloaded x then dlo_mask w ∖ {[c]} else dlo_mask w) /\
    dlo_count w2 = (if dl_overloaded x then s32 (dlo_count w - 1) else dlo_count w))).
  { unfold rq_offline_dl. dread. eapply (swp_seq _ _ _ _ (fun _ w2 => base w2 = base w /\ dls w2 = dls w /\ dlt w2 = dlt w /\
      dlo_mask w2 = (if dl_overloaded x then dlo_mask w ∖ {[c]} else dlo_mask w) /\
      dlo_count w2 = (if dl_overloaded x then s32 (dlo_count w - 1) else dlo_count w))).
    - apply swp_when; intros ->; [|done]. unfold dl_clear_overload. dread. rewrite Eon. cbn [negb]. by dread.
    - intros ? w2 H2. by dread. }
  intros ? w2 (B2 & S2 & T2 & M2 & C2). set (r' := set_online false r).
  assert (Eb : (r ← cpu_rq c; put_rq c (set_online false r)) (base w2) = Ret tt (with_rq c r' (base w2))).
  { rewrite (bind_run _ _ _ _ _ (cpu_rq_eq c r (base w2) ltac:(by rewrite B2))). done. }
  unfold swp, lift_rt. rewrite Eb. apply (held_cpu w _ c r r' H Hr); try done; cbn; [by rewrite B2|].
  apply (marks_online w _ c r r' x false H Hr Hx); try done. cbn. by rewrite B2.
Qed.

(** ** Affinity *)

(** the queue and the entity of [t] when its affinity is about to become [m] *)
Record resized (ts : gmap nat rt_task) (m : gset nat) t x x' e e' : Prop := {
  rz_root : dl_root x' = dl_root x;
  rz_left : rb_leftmost x' = rb_leftmost x;
  rz_run : dl_nr_running x' = dl_nr_running x;
  rz_mig : dl_nr_migratory x' = Z.of_nat (length (filter (fun u => is_migratory ts u = true) (inorder (dl_root x))));
  rz_over : dl_overloaded x' = ov x';
  rz_tree : tree_ok (pushable_root x') (pushable_leftmost x');
  rz_other : forall u, u <> t -> u ∈ inorder (pushable_root x') <-> u ∈ inorder (pushable_root x);
  rz_this : t ∈ inorder (pushable_root x') <-> pushable_linked e' = true;
  rz_ent : e' = set_pushable_linked (pushable_linked e') e
}.

Lemma pushable_same e (z : bool) : pushable_linked e = z -> set_pushable_linked z e = e.
Proof. intros <-. by destruct e. Qed.

Lemma resized_id run w m t c x e p k r :
  dl_ok None run w -> task_at w t c x e p k r -> (rb_linked e = true -> (1 <? nr_cpus_allowed p) = (1 <? cpumask_weight m)) ->
  resized (<[t := with_mask m p]> (rts (base w))) m t x x e e.
Proof.
  intros H A Hmig. pose proof (at_q H A) as Hq. pose proof A as [[_ _ Hp _ _ _] _ _ _].
  split; try done; [|apply Hq|apply Hq|apply (at_plinked H A)|by rewrite pushable_same].
  rewrite (q_migratory _ _ Hq). do 2 f_equal. apply filter_bool_ext. intros u Hu. unfold is_migratory. rewrite lookup_insert.
  case_decide as E; [subst u|done]. rewrite Hp. cbn. by rewrite Hmig by by apply (at_linked H A).
Qed.

(** the counter after the change, from what it was *)
Lemma resized_count ts m t p x x1 (s : Z) :
  dlq_ok ts x -> ts !! t = Some p -> t ∈ inorder (dl_root x) -> Z.of_nat (length (inorder (dl_root x))) < 2 ^ 31 ->
  dl_nr_migratory x1 = dl_nr_migratory x ->
  s = b2z (1 <? cpumask_weight m) - b2z (1 <? nr_cpus_allowed p) ->
  u64 (dl_nr_migratory x1 + s) =
    Z.of_nat (length (filter (fun u => is_migratory (<[t := with_mask m p]> ts) u = true) (inorder (dl_root x)))).
Proof.
  intros Hq Hp Hin Hlen E1 ->. pose proof (count_migratory ts t p (with_mask m p) _ (proj1 (q_tree _ _ Hq)) Hin Hp) as Hcm.
  rewrite <- (q_migratory _ _ Hq) in Hcm. cbn [with_mask nr_cpus_allowed set_nr_cpus_allowed] in Hcm. rewrite E1.
  replace (_ + _) with (dl_nr_migratory x - b2z (1 <? nr_cpus_allowed p) + b2z (1 <? cpumask_weight m)) by lia. rewrite <- Hcm.
  pose proof (length_filter (fun u => is_migratory (<[t := with_mask m p]> ts) u = true) (inorder (dl_root x))). apply u64_id. lia.
Qed.

(** the counter is changed, the overload flag not yet *)
Lemma recount_ok E w m t c x x1 e e1 p (s : Z) :
  dls w !! c = Some x1 -> dlt w !! t = Some e1 -> marks w ->
  forall ts, dlq_ok ts x -> ts !! t = Some p -> t ∈ inorder (dl_root x) -> Z.of_nat (length (inorder (dl_root x))) < 2 ^ 31 ->
  same_queue x x1 -> tree_ok (pushable_root x1) (pushable_leftmost x1) ->
  (forall u, u <> t -> u ∈ inorder (pushable_root x1) <-> u ∈ inorder (pushable_root x)) ->
  (t ∈ inorder (pushable_root x1) <-> pushable_linked e1 = true) -> e1 = set_pushable_linked (pushable_linked e1) e ->
  s = b2z (1 <? cpumask_weight m) - b2z (1 <? nr_cpus_allowed p) ->
  swp E (put_dl_rq c (set_dl_nr_migratory (u64 (dl_nr_migratory x1 + s)) x1)) w
    (fun _ w' => marks w' /\ exists x', stepped c t x' e1 w w' /\
       resized (<[t := with_mask m p]> ts) m t x (set_dl_overloaded (ov x') x') e e1).
Proof.
  intros Hx1 He Hm ts Hq Hp Hin Hlen [S1 S2 S3 S4 S5 S6] Ht Ho Hti Hee Es. set (x2 := set_dl_nr_migratory _ x1).
  eapply swp_cons; [by apply (put_queue_ok_dl E c t x1 e1 x2 w)|]. intros ? w1 [Hm1 St1]. split; [done|]. exists x2.
  split; [done|]. split; try done. by eapply resized_count.
Qed.

Lemma shrink_mask_ok E w m t c x e p k r :
  dl_sys w -> task_at w t c x e p k r -> rb_linked e = true -> (1 <? nr_cpus_allowed p) = negb (1 <? cpumask_weight m) ->
  cpumask_weight m <= 1 ->
  swp E (when (bool_decide (curr r <> t)) (dequeue_pushable_dl_task c t) ;;
         x ← dl_rq_of c;
         dl_bug_on (dl_nr_migratory x =? 0) ;;
         put_dl_rq c (set_dl_nr_migratory (u64 (dl_nr_migratory x - 1)) x)) w
    (fun _ w1 => marks w1 /\ exists x' e', stepped c t x' e' w w1 /\
      resized (<[t := with_mask m p]> (rts (base w))) m t x (set_dl_overloaded (ov x') x') e e' /\
      (pushable_linked e' = true -> 1 < cpumask_weight m /\ curr r <> t)).
Proof.
  intros H A Hl Hne Hw. pose proof A as [Hh Hk Hc Hok]. pose proof Hh as [Hx He Hp Hr Hm Hs]. pose proof (dy_ok _ H) as D.
  pose proof (at_q D A) as Hq. pose proof (at_plinked D A) as Hpl. pose proof (at_len D A) as Hlen. pose proof (proj2 (at_linked D A) Hl) as Hin.
  pose proof (proj2 (Z.ltb_ge 1 _) Hw) as Ew. rewrite Ew in Hne. cbn [negb] in Hne.
  assert (Hcur : curr r = t -> pushable_linked e = false).
  { intros Ec. apply not_true_is_false. intros Hpu. destruct (at_run D A Hpu) as [Hrun _]. apply Hrun. unfold turns. by rewrite Hr, <- Ec. }
  eapply (swp_seq _ _ _ _ (fun _ w1 => marks w1 /\ exists x1, stepped c t x1 (set_pushable_linked false e) w w1 /\ same_queue x x1 /\
    tree_ok (pushable_root x1) (pushable_leftmost x1) /\ inorder (pushable_root x1) = filter (fun u => u <> t) (inorder (pushable_root x)))).
  { apply swp_when; intros Hcu.
    - by apply (dequeue_pushable_ok_dl E w t c x e p r); [|apply Hq|apply Hpl].
    - apply bool_decide_eq_false, dec_stable in Hcu. pose proof (Hcur Hcu) as Hf. split; [done|]. exists x. rewrite pushable_same by done.
      split; [by apply stepped_id|]. split; [done|]. split; [apply Hq|]. symmetry. apply remove_absent. rewrite Hpl. congruence. }
  intros ? w1 (Hm1 & x1 & S1 & Sq & T1 & P1). pose proof (stepped_rq _ _ _ _ _ _ S1) as Hx1. pose proof (stepped_ent _ _ _ _ _ _ S1) as He1. dread.
  apply swp_bind, swp_bug.
  { apply Z.eqb_neq. rewrite (sq_mig _ _ Sq), (q_migratory _ _ Hq). intros E0. apply (Nat2Z.inj _ 0), length_zero_iff_nil in E0.
    assert (Hf : t ∈ []); [|by apply elem_of_nil in Hf]. rewrite <- E0. apply list_elem_of_filter. by rewrite (is_migratory_eq _ _ p Hp). }
  eapply swp_cons; [apply (recount_ok E w1 m t c x x1 e (set_pushable_linked false e) p (-1) Hx1 He1 Hm1 (rts (base w)) Hq Hp Hin Hlen Sq T1)|].
  - intros u Hu. rewrite P1, list_elem_of_filter. tauto.
  - rewrite P1, list_elem_of_filter. cbn. naive_solver.
  - done.
  - by rewrite Ew, Hne.
  - intros ? w2 (Hm2 & x2 & S2 & Z2). split; [done|]. eexists x2, _. split; [by eapply stepped_trans|]. by split.
Qed.

Lemma widen_mask_ok E w m t c x e p k r :
  dl_sys w -> task_at w t c x e p k r -> rb_linked e = true -> (1 <? nr_cpus_allowed p) = negb (1 <? cpumask_weight m) ->
  1 < cpumask_weight m ->
  swp E (when (bool_decide (curr r <> t)) (enqueue_pushable_dl_task c t) ;;
         upd_dl_rq c (fun x => set_dl_nr_migratory (u64 (dl_nr_migratory x + 1)) x)) w
    (fun _ w1 => marks w1 /\ exists x' e', stepped c t x' e' w w1 /\
      resized (<[t := with_mask m p]> (rts (base w))) m t x (set_dl_overloaded (ov x') x') e e' /\
      (pushable_linked e' = true -> 1 < cpumask_weight m /\ curr r <> t)).
Proof.
  intros H A Hl Hne Hw. pose proof A as [Hh Hk Hc Hok]. pose proof Hh as [Hx He Hp Hr Hm Hs]. pose proof (dy_ok _ H) as D.
  pose proof (at_q D A) as Hq. pose proof (at_plinked D A) as Hpl. pose proof (at_len D A) as Hlen. pose proof (proj2 (at_linked D A) Hl) as Hin.
  pose proof (proj2 (Z.ltb_lt 1 _) Hw) as Ew. rewrite Ew in Hne. cbn [negb] in Hne.
  assert (Hnp : t ∉ inorder (pushable_root x)).
  { intros [_ Hmig]%(q_sub _ _ Hq). rewrite (is_migratory_eq _ _ p Hp) in Hmig. congruence. }
  assert (Hf : pushable_linked e = false) by (apply not_true_is_false; intros Hpu; by apply Hnp, Hpl).
  eapply (swp_seq _ _ _ _ (fun _ w1 => marks w1 /\ exists x1 e1, stepped c t x1 e1 w w1 /\ same_queue x x1 /\
    e1 = set_pushable_linked (bool_decide (curr r <> t)) e /\ tree_ok (pushable_root x1) (pushable_leftmost x1) /\
    forall u, u ∈ inorder (pushable_root x1) <-> (u = t /\ curr r <> t) \/ u ∈ inorder (pushable_root x))).
  { apply swp_when; intros Hcu.
    - apply bool_decide_eq_true in Hcu. eapply swp_cons; [apply (enqueue_pushable_ok_dl E w t c x e p r Hh (q_push _ _ Hq) Hf Hnp)|].
      { intros u Hu. apply (at_present D A). by apply (q_sub _ _ Hq). }
      intros ? w1 (Hm1 & x1 & S1 & Sq & T1 & P1). split; [done|]. exists x1, (set_pushable_linked true e). split_and!; try done; [by rewrite bool_decide_eq_true_2|].
      intros u. rewrite P1, elem_of_cons. tauto.
    - split; [done|]. exists x, e. rewrite Hcu. split_and!; try done; [by apply stepped_id|by rewrite pushable_same|apply Hq|].
      apply bool_decide_eq_false, dec_stable in Hcu. intros u. tauto. }
  intros ? w1 (Hm1 & x1 & e1 & S1 & Sq & -> & T1 & P1). pose proof (stepped_rq _ _ _ _ _ _ S1) as Hx1. pose proof (stepped_ent _ _ _ _ _ _ S1) as He1.
  unfold upd_dl_rq. dread.
  eapply swp_cons; [apply (recount_ok E w1 m t c x x1 e _ p 1 Hx1 He1 Hm1 (rts (base w)) Hq Hp Hin Hlen Sq T1)|].
  - intros u Hu. rewrite P1. tauto.
  - rewrite P1. cbn. rewrite bool_decide_eq_true. tauto.
  - done.
  - by rewrite Ew, Hne.
  - intros ? w2 (Hm2 & x2 & S2 & Z2). split; [done|]. eexists x2, _. split; [by eapply stepped_trans|]. split; [done|].
    cbn. rewrite bool_decide_eq_true. done.
Qed.

Lemma set_cpus_allowed_ok E w m t c x e p k r :
  dl_sys w -> task_at w t c x e p k r -> class p = dl_class ->
  swp E (set_cpus_allowed_dl t m) w (fun _ w' => marks w' /\ exists x' e', stepped c t x' e' w w' /\
    resized (<[t := with_mask m p]> (rts (base w))) m t x x' e e' /\
    (pushable_linked e' = true -> rb_linked e = true /\ 1 < cpumask_weight m /\ curr r <> t)).
Proof.
  intros H A Hcl. pose proof A as [Hh Hk Hc Hok]. pose proof Hh as [Hx He Hp Hr Hm Hs]. pose proof (dy_ok _ H) as D.
  pose proof (at_q D A) as Hq. pose proof (at_plinked D A) as Hpl. pose proof (at_len D A) as Hlen.
  assert (Hpush : pushable_linked e = true -> rb_linked e = true /\ (1 <? nr_cpus_allowed p) = true /\ curr r <> t).
  { intros Hl. destruct (at_run D A Hl) as [Hrun Hrb]. split; [done|]. apply Hpl, (q_sub _ _ Hq) in Hl as [_ Hmig].
    rewrite (is_migratory_eq _ _ p Hp) in Hmig. split; [done|]. intros Ec. apply Hrun. unfold turns. by rewrite Hr, <- Ec. }
  unfold set_cpus_allowed_dl. dread. apply swp_bind, swp_bug; [by rewrite (at_dl_task _ _ _ _ _ _ _ _ A Hcl)|]. dread. cbv zeta.
  assert (Hid : (rb_linked e = true -> (1 <? nr_cpus_allowed p) = (1 <? cpumask_weight m)) ->
    swp E (mret tt) w (fun _ w' => marks w' /\ exists x' e', stepped c t x' e' w w' /\
      resized (<[t := with_mask m p]> (rts (base w))) m t x x' e e' /\
      (pushable_linked e' = true -> rb_linked e = true /\ 1 < cpumask_weight m /\ curr r <> t))).
  { intros Hsame. apply swp_ret. split; [done|]. exists x, e. split; [by apply stepped_id|]. split; [by eapply resized_id|].
    intros (Hl & Hmig & Hcu)%Hpush. rewrite Hsame in Hmig by done. split_and!; [done|by apply Z.ltb_lt|done]. }
  unfold on_dl_rq. destruct (rb_linked e) eqn:Hl; cbn [negb]; [|by apply Hid]. pose proof (proj2 (at_linked D A) Hl) as Hin.
  case_bool_decide as Eb; [by apply Hid|]. clear Hid. dread. rewrite Hc. dread.
  assert (Hne : (1 <? nr_cpus_allowed p) = negb (1 <? cpumask_weight m)) by (destruct (1 <? nr_cpus_allowed p), (1 <? cpumask_weight m); done).
  eapply (swp_seq _ _ _ _ (fun _ w1 => marks w1 /\ exists x' e', stepped c t x' e' w w1 /\
    resized (<[t := with_mask m p]> (rts (base w))) m t x (set_dl_overloaded (ov x') x') e e' /\
    (pushable_linked e' = true -> 1 < cpumask_weight m /\ curr r <> t))).
  - destruct (Z.leb_spec (cpumask_weight m) 1) as [Hw|Hw].
    + by apply (shrink_mask_ok E w m t c x e p k r).
    + by apply (widen_mask_ok E w m t c x e p k r).
  - intros ? w1 (Hm1 & x1 & e1 & S1 & Z1 & Hl1). destruct (stepped_cpu _ _ _ _ _ _ _ r S1 Hr) as (r1 & Hr1 & _).
    eapply swp_cons; [apply (update_dl_migration_ok E c x1 r1 w1 t e1); [by eapply stepped_rq|done|by eapply stepped_ent|done|]|].
    { by rewrite (stepped_size _ _ _ _ _ _ _ S1 Hx). }
    intros ? w2 [S2 Hm2]. split; [done|]. eexists _, e1. split; [by eapply stepped_trans|]. split; [done|].
    intros Hl2. by destruct (Hl1 Hl2).
Qed.

Section Resized.
Context {w w1 : dlw} {run : nat -> option nat} {m : gset nat} {t c : nat} {x x' : dl_rq} {e e' : dl_entity} {p p1 : rt_task}.
Context {k : task_struct} {r : rq} (H : dl_ok None run w) (A : task_at w t c x e p k r) (S : stepped c t x' e' w w1) (Hm : marks w1).
Context (Z1 : resized (<[t := with_mask m p]> (rts (base w))) m t x x' e e') (Hp1 : rts (base w1) !! t = Some p1).
Context (Hpush : pushable_linked e' = true -> rb_linked e = true /\ 1 < cpumask_weight m /\ run c <> Some t) (Hdom : m ⊆ dom (dls w)).

#[local] Abbreviation w2 := (set_base (with_rt t (with_mask m p1) (base w1)) w1).

Lemma rz_migratory u : is_migratory (rts (base w2)) u = is_migratory (<[t := with_mask m p]> (rts (base w))) u.
Proof.
  pose proof (is_migratory_calm _ _ u (st_base _ _ _ _ _ _ S)) as Hu. unfold is_migratory in *. cbn. rewrite !lookup_insert. by case_decide.
Qed.
Lemma rz_migratory_ne u : u <> t -> is_migratory (rts (base w2)) u = is_migratory (rts (base w)) u.
Proof. intros Hu. rewrite rz_migratory. unfold is_migratory. by rewrite lookup_insert_ne. Qed.

(** the tasks, with their class *)
Lemma rz_rt u q : rts (base w) !! u = Some q -> exists q', rts (base w2) !! u = Some q' /\ class q' = class q.
Proof.
  intros Hq. destruct (stepped_task _ _ _ _ _ _ u q S Hq) as (q1 & Hq1 & (_ & Ec & _)%task_abs_inv). cbn. rewrite lookup_insert.
  case_decide as E; [subst u|by exists q1]. eexists. split; [done|]. cbn. congruence.
Qed.

Lemma rz_queue d (y : dl_rq) : dls w1 !! d = Some y -> dlq_ok (rts (base w2)) y.
Proof.
  rewrite (st_dls _ _ _ _ _ _ S), lookup_insert. case_decide as Ed.
  - intros [= <-]. pose proof (at_q H A) as Hq. destruct Z1 as [R1 R2 R3 R4 R5 R6 R7 R8 R9]. split; rewrite ?R1, ?R2, ?R3; try done; [apply Hq| |apply Hq|].
    + intros u Hu. rewrite rz_migratory. destruct (decide (u = t)) as [->|Hne].
      * destruct (Hpush (proj1 R8 Hu)) as (Hl & Hw & _). split; [by apply (at_linked H A)|]. unfold is_migratory. rewrite lookup_insert_eq.
        by apply Z.ltb_lt.
      * rewrite <- rz_migratory, (rz_migratory_ne u Hne). apply (q_sub _ _ Hq). by apply R7.
    + rewrite R4. do 2 f_equal. apply list_filter_iff. intros u. by rewrite rz_migratory.
  - intros Hy. destruct (d_q _ _ _ H d y Hy) as [Q1 Q2 Q3 Q4 Q5 Q6]. pose proof (at_else H A d y (not_eq_sym Ed) Hy) as Hno. split; try done.
    + intros u Hu. destruct (Q3 u Hu) as [Hin Hmig]. split; [done|]. rewrite rz_migratory_ne; [done|]. by intros ->.
    + rewrite Q5. do 2 f_equal. apply filter_bool_ext. intros u Hu. symmetry. apply rz_migratory_ne. by intros ->.
Qed.

Lemma rz_members d (y : dl_rq) : dls w1 !! d = Some y -> exists y0, dls w !! d = Some y0 /\ dl_root y = dl_root y0 /\
  forall u, u <> t -> u ∈ inorder (pushable_root y) <-> u ∈ inorder (pushable_root y0).
Proof.
  rewrite (st_dls _ _ _ _ _ _ S), lookup_insert. case_decide as Ed; [|intros Hy; by exists y].
  intros [= <-]. subst d. exists x. split; [apply A|]. split; apply Z1.
Qed.
Lemma rz_members_back d (y : dl_rq) : dls w !! d = Some y -> exists y1, dls w1 !! d = Some y1 /\ dl_root y1 = dl_root y /\
  forall u, u <> t -> u ∈ inorder (pushable_root y1) <-> u ∈ inorder (pushable_root y).
Proof.
  intros Hy. rewrite (st_dls _ _ _ _ _ _ S), lookup_insert. case_decide as Ed; [|by exists y].
  subst d. exists x'. assert (y = x) as -> by (destruct A as [[] _ _ _]; congruence). split; [done|]. split; apply Z1.
Qed.
Lemma rz_ents u f : dlt w !! u = Some f -> exists f', dlt w1 !! u = Some f' /\ f' = set_pushable_linked (pushable_linked f') f /\ (u <> t -> f' = f).
Proof.
  intros Hf. rewrite (st_dlt _ _ _ _ _ _ S), lookup_insert. case_decide as Eu; [subst u|exists f; split_and!; [done|by rewrite pushable_same|done]].
  assert (f = e) as -> by (destruct A as [[] _ _ _]; congruence). exists e'. split_and!; [done|apply Z1|done].
Qed.
Lemma rz_ents_back u f' : dlt w1 !! u = Some f' -> exists f, dlt w !! u = Some f /\ f' = set_pushable_linked (pushable_linked f') f /\ (u <> t -> f' = f).
Proof.
  rewrite (st_dlt _ _ _ _ _ _ S), lookup_insert. case_decide as Eu; [|intros Hf; exists f'; split_and!; [done|by rewrite pushable_same|done]].
  intros [= <-]. subst u. exists e. split_and!; [apply A|apply Z1|done].
Qed.

Lemma dl_ok_resized : dl_ok None run w2.
Proof.
  pose proof H as [D1 D2 D3 D4 D5 D6 D7 D8 D9 D10]. pose proof (st_base _ _ _ _ _ _ S) as C. destruct (calm_facts _ _ C) as (F1 & F2 & Ek & Ed & Es).
  destruct (calm_facts_back _ _ C) as [G1 G2].
  pose proof (stepped_dom _ _ _ _ _ _ _ (h_rq _ _ _ _ _ _ _ (a_here _ _ _ _ _ _ _ _ A)) S) as Dd. pose proof (stepped_rq _ _ _ _ _ _ S) as Hx'.
  split; cbn; rewrite ?Dd, ?Ed, ?Ek; try done.
  - apply rz_queue.
  - intros d y u (y0 & Hy0 & -> & _)%rz_members Hu. destruct (D3 d y0 u Hy0 Hu) as (f & q & l & Hf & Hq & Hl & R).
    destruct (rz_ents u f Hf) as (f' & Hf' & Ef & _). destruct (rz_rt u q Hq) as (q' & Hq' & Eq). exists f', q', l. rewrite Eq.
    assert (E1 : rb_linked f' = rb_linked f /\ dl_throttled f' = dl_throttled f) by by rewrite Ef. destruct E1 as [-> ->]. cbn. by rewrite Ek.
  - intros u f' (f & Hf & Ef & _)%rz_ents_back Hl. rewrite Ef in Hl. destruct (D4 u f Hf Hl) as (d & y & Hy & Hin).
    destruct (rz_members_back d y Hy) as (y1 & Hy1 & Er & _). exists d, y1. by rewrite Er.
  - intros d y u Hy Hu. destruct (rz_members d y Hy) as (y0 & Hy0 & Er & Ho). destruct (decide (u = t)) as [->|Hne].
    + destruct (q_sub _ _ (rz_queue d y Hy) t Hu) as [Hin _]. rewrite Er in Hin.
      destruct (decide (d = c)) as [->|Hdc]; [|by destruct (at_else H A d y0 Hdc Hy0)]. assert (y = x') as -> by congruence.
      apply (rz_this _ _ _ _ _ _ _ Z1) in Hu. destruct (Hpush Hu) as (_ & _ & Hrun). split; [done|].
      exists e'. split; [by eapply stepped_ent|done].
    + apply Ho in Hu; [|done]. destruct (D5 d y0 u Hy0 Hu) as (Hrun & f & Hf & Hl). split; [done|].
      destruct (rz_ents u f Hf) as (f' & Hf' & _ & Ef). rewrite (Ef Hne) in Hf'. by exists f.
  - intros u f' Hf' Hl. destruct (rz_ents_back u f' Hf') as (f & Hf & _ & Ef). destruct (decide (u = t)) as [->|Hne].
    + exists c, x'. split; [done|]. apply (rz_this _ _ _ _ _ _ _ Z1). rewrite (stepped_ent _ _ _ _ _ _ S) in Hf'. congruence.
    + rewrite Ef in Hl by done. destruct (D6 u f Hf Hl) as (d & y & Hy & Hin). destruct (rz_members_back d y Hy) as (y1 & Hy1 & _ & Ho).
      exists d, y1. split; [done|]. by apply Ho.
  - intros u q. rewrite lookup_insert. case_decide as Eu.
    + intros [= <-]. subst u. destruct A as [[] Hk Hc Hok]. exists e', k. split_and!; [by eapply stepped_ent|done|rewrite Hc; by eapply elem_of_dom_2|].
      destruct (F2 t p) as (p2 & Hp2 & (E1 & E2 & _)%task_abs_inv); [done|]. assert (p2 = p1) as -> by congruence.
      pose proof (rz_ent _ _ _ _ _ _ _ Z1) as Ee. destruct Hok as [[] O2 O3 O4 O5 O6 O7]. rewrite Ee. split; cbn; try done.
      * rewrite E2. intros Hcl. destruct (O3 Hcl). by split.
      * unfold dl_task in *. cbn. by rewrite E1, E2.
    + intros Hq. destruct (G2 u q Hq) as (q0 & Hq0 & Ea). destruct (D7 u q0 Hq0) as (f & l & Hf & Hl & Hc & Hok).
      destruct (rz_ents u f Hf) as (f' & Hf' & _ & Ef). rewrite (Ef (not_eq_sym Eu)) in Hf'.
      exists f, l. split_and!; try done. by eapply ent_ok_abs.
  - intros d q Hq. destruct (G1 d q Hq) as (q0 & Hq0 & -> & _). destruct (D8 d q0 Hq0) as (z & l & Hz & ? & ?).
    destruct (rz_rt _ z Hz) as (z' & Hz' & _). by exists z', l.
  - by destruct Hm.
  - rewrite map_size_insert, Hp1, Es, <- (size_dom (dls w1)), Dd, size_dom. done.
Qed.
End Resized.

Lemma affinity_held E w m t p :
  dl_sys w -> rts (base w) !! t = Some p -> m ⊆ dom (dls w) ->
  swp E (do_set_cpus_allowed_dl t m) w (fun _ w' => held w w').
Proof.
  intros H Hp Hm. destruct (find_task _ _ _ _ _ (dy_ok _ H) Hp) as (c & x & e & k & r & A). pose proof A as [[Hx He _ Hr Hmk _] Hk Hc Hok].
  unfold do_set_cpus_allowed_dl. dread. eapply (swp_seq _ _ _ _ (fun _ w' => marks w' /\ exists x' e', stepped c t x' e' w w' /\
    resized (<[t := with_mask m p]> (rts (base w))) m t x x' e e' /\
    (pushable_linked e' = true -> rb_linked e = true /\ 1 < cpumask_weight m /\ curr r <> t))).
  { apply swp_when; intros Hcl%bool_decide_eq_true || intros Hcl%bool_decide_eq_false; [by apply (set_cpus_allowed_ok E w m t c x e p k r)|].
    split; [done|]. assert (Hl : rb_linked e = false).
    { apply not_true_is_false. intros Hl. by destruct (at_runnable (dy_ok _ H) A Hl) as (_ & ? & _). }
    exists x, e. split; [by apply stepped_id|]. split; [eapply resized_id; [apply H|done|congruence]|].
    intros Hpl. by rewrite (at_off _ _ _ _ _ _ _ _ _ _ (dy_ok _ H) A Hl) in Hpl. }
  intros ? w1 (Hm1 & x' & e' & S & Z1 & Hpu). destruct (stepped_task _ _ _ _ _ _ t p S Hp) as (p1 & Hp1 & Ea).
  assert (Eb : (p ← get_rt t; put_rt t (set_nr_cpus_allowed (cpumask_weight m) (set_cpus_allowed m p))) (base w1) =
    Ret tt (with_rt t (with_mask m p1) (base w1))) by by rewrite (bind_run _ _ _ _ _ (get_rt_eq t p1 _ Hp1)).
  unfold swp, lift_rt. rewrite Eb. pose proof (st_base _ _ _ _ _ _ S) as C.
  assert (D2 : dl_ok None (turns w) (set_base (with_rt t (with_mask m p1) (base w1)) w1)).
  { apply (dl_ok_resized (dy_ok _ H) A S Hm1 Z1 Hp1); [|done]. intros (? & ? & ?)%Hpu. split_and!; try done. by apply (turns_curr w c r). }
  assert (Hrq : forall d, turns (set_base (with_rt t (with_mask m p1) (base w1)) w1) d = turns w d) by (intros d; by apply (turns_calm w w1)).
  split; [split|].
  - apply (dl_ok_weaken None (turns w)); [done|]. intros d u. by rewrite Hrq.
  - cbn. rewrite <- (calm_krn _ _ C). apply H.
  - cbn. intros d q z Hq. rewrite lookup_insert. destruct (calm_facts_back _ _ C) as [G1 G2]. destruct (G1 d q Hq) as (q0 & Hq0 & -> & _).
    case_decide as Et.
    + intros [= <-]. cbn. apply task_abs_inv in Ea as (_ & _ & _ & _ & -> & _). apply (dy_cpu _ H d q0 p Hq0). congruence.
    + intros Hz. destruct (G2 _ z Hz) as (z0 & Hz0 & (_ & _ & _ & _ & -> & _)%task_abs_inv). by apply (dy_cpu _ H d q0).
  - destruct (calm_persists _ _ C) as [P1 P2 P3]. split; cbn; [done| |done]. rewrite fmap_insert, P2. apply insert_id.
    rewrite lookup_fmap, Hp. cbn. by apply task_abs_inv in Ea as (_ & -> & _).
Qed.
End Param.
