(* ===== verification/DlSched.v ===== *)
(** * The deadline class: admission and changes of policy

    dl_overflow() books the bandwidth of the tasks of the class in the root
    domain.  __sched_setscheduler() takes a task out of its tree, changes its
    policy and parameters, and puts it back. *)

From S2P Require Import Prelude Wait Tasklet Cmgroup Sched CmInv CmTask CmSys EpTree RtRq RtPush RtInv RtExec RtOps RtBalance RtStep.
From S2P Require Import DlRq DlPush DlCbs DlInv DlOps DlStep DlMove DlEvent DlSwitch.
Local Open Scope Z_scope.

Section Admit.
Context {RL : RtLib} {DL : DlLib} {RB : RbLib}.
Implicit Types (w : dlw) (e : dl_entity) (p : rt_task) (a : sched_attr) (t : nat).

(** the bandwidth that is booked, what may be booked, and a world with another booking *)
Definition total_bw w : Z := dl_total_bw (rd (base w)).
Definition capacity w : Z := dl_bw (rd (base w)) * cpumask_weight (span (rd (base w)) ∩ cpu_active_mask w).
Definition rebook (z : Z) w : dlw := set_base (set_rd (set_dl_total_bw z (rd (base w))) (base w)) w.
Definition attr_bw a : Z := to_ratio (attr_period a) (sched_runtime a).

(** what [t] has booked, as dl_overflow() sees it *)
Definition booked_by p e : Z := if task_has_dl_policy p then se_bw e else 0.

(** the numbers are small enough for 64 bits *)
Record booking w p e (new : Z) : Prop := {
  bk_bw : 0 <= dl_bw (rd (base w)) < u64_max;
  bk_capacity : capacity w < 2 ^ 64;
  bk_old : 0 <= booked_by p e <= total_bw w;
  bk_new : 0 <= new;
  bk_total : total_bw w + new < 2 ^ 64
}.

Lemma dl_overflow_eq w t (policy : Z) a e p :
  dlt w !! t = Some e -> rts (base w) !! t = Some p ->
  dl_overflow t policy a w =
    let new := if dl_policy policy then attr_bw a else 0 in
    if new =? se_bw e then Ret 0 w
    else if dl_policy policy then
      if __dl_overflow (dl_bw (rd (base w))) (total_bw w) (cpumask_weight (span (rd (base w)) ∩ cpu_active_mask w)) (booked_by p e) new
      then Ret (-1) w
      else Ret 0 (rebook (u64 (if task_has_dl_policy p then u64 (total_bw w - se_bw e) + new else total_bw w + new)) w)
    else if task_has_dl_policy p then Ret 0 (rebook (u64 (total_bw w - se_bw e)) w) else Ret (-1) w.
Proof.
  intros He Hp. unfold dl_overflow, attr_bw, booked_by, total_bw. cbv zeta. unfold mbind, M_bind, get_dl, deref. rewrite He.
  unfold task_of, lift_rt. rewrite (get_rt_eq t p _ Hp), set_base_id. destruct (_ =? se_bw e); [done|]. unfold dl_bw_cpus, mbind, M_bind, get. cbn.
  destruct (dl_policy policy), (task_has_dl_policy p); cbn; try done; by destruct (__dl_overflow _ _ _ _ _).
Qed.

(** a task enters the class or changes its parameters *)
Lemma admit_eq w t a e p :
  dlt w !! t = Some e -> rts (base w) !! t = Some p -> booking w p e (attr_bw a) -> attr_bw a <> se_bw e ->
  dl_overflow t SCHED_DEADLINE a w =
    if total_bw w - booked_by p e + attr_bw a <=? capacity w
    then Ret 0 (rebook (total_bw w - booked_by p e + attr_bw a) w) else Ret (-1) w.
Proof.
  intros He Hp [B1 B2 B3 B4 B5] Hne. rewrite (dl_overflow_eq w t _ a e p He Hp). cbv zeta. change (dl_policy SCHED_DEADLINE) with true. cbn match.
  rewrite (proj2 (Z.eqb_neq _ _) Hne). unfold __dl_overflow. rewrite (proj2 (Z.eqb_neq _ _)) by lia. cbn [negb andb]. fold (capacity w).
  assert (Hc : 0 <= capacity w) by (unfold capacity, cpumask_weight; nia). rewrite (u64_id (capacity w)), u64_id by lia.
  destruct (Z.ltb_spec (capacity w) (total_bw w - booked_by p e + attr_bw a)) as [Hlt|Hge].
  - by rewrite (proj2 (Z.leb_gt _ _)) by lia.
  - rewrite (proj2 (Z.leb_le _ _)) by lia. do 2 f_equal. unfold booked_by in *. destruct (task_has_dl_policy p).
    + rewrite (u64_id (total_bw w - se_bw e)) by lia. apply u64_id. lia.
    + rewrite u64_id by lia. lia.
Qed.

(** a task leaves the class *)
Lemma leave_eq w t (policy : Z) a e p :
  dlt w !! t = Some e -> rts (base w) !! t = Some p -> dl_policy policy = false -> task_has_dl_policy p = true ->
  0 < se_bw e <= total_bw w -> total_bw w < 2 ^ 64 ->
  dl_overflow t policy a w = Ret 0 (rebook (total_bw w - se_bw e) w).
Proof.
  intros He Hp Hd Ht Hb Hl. rewrite (dl_overflow_eq w t policy a e p He Hp). rewrite Hd, Ht. cbv zeta. rewrite (proj2 (Z.eqb_neq _ _)) by lia.
  by rewrite u64_id by lia.
Qed.
End Admit.

(** ** Tasks that enter, leave and change their parameters *)

Section Sched.
Context {RL : RtLib} {DL : DlLib} {LL : DlLaws DL} {RB : RbLib}.
Implicit Types (w : dlw) (b : rtw) (e : dl_entity) (x : dl_rq) (p : rt_task) (r : rq) (k : task_struct) (c d t u : nat).
Implicit Types (run : nat -> option nat) (a : sched_attr).

(** ** A task that is in no tree changes *)

Lemma recast run w t p p' e e' b' :
  dl_ok None run w -> rts (base w) !! t = Some p -> dlt w !! t = Some e ->
  rb_linked e = false -> pushable_linked e = false -> rb_linked e' = false -> pushable_linked e' = false ->
  ent_ok (dom (dls w)) p' e' -> rqs b' = rqs (base w) -> krn b' = krn (base w) -> rts b' = <[t := p']> (rts (base w)) ->
  dl_ok None run (set_dlt (<[t := e']> (dlt w)) (set_base b' w)).
Proof.
  intros H Hp He Hl Hpl Hl' Hpl' Hok Er Ek Et. pose proof H as [D1 D2 D3 D4 D5 D6 D7 D8 D9 D10].
  assert (Hnin : forall d y, dls w !! d = Some y -> t ∉ inorder (dl_root y)).
  { intros d y Hy Hin. destruct (D3 d y t Hy Hin) as (f & _ & _ & Hf & _ & _ & Hlf & _). congruence. }
  assert (Hmig : forall u, u <> t -> is_migratory (rts b') u = is_migratory (rts (base w)) u).
  { intros u Hu. unfold is_migratory. by rewrite Et, lookup_insert_ne. }
  split; cbn; rewrite ?Er, ?Ek; try done.
  - intros d y Hy. destruct (D2 d y Hy) as [Q1 Q2 Q3 Q4 Q5 Q6]. pose proof (Hnin d y Hy) as Hn. split; try done.
    + intros u Hu. destruct (Q3 u Hu) as [Hin Hm]. split; [done|]. rewrite Hmig; [done|]. by intros ->.
    + rewrite Q5. do 2 f_equal. apply filter_bool_ext. intros u Hu. symmetry. apply Hmig. by intros ->.
  - intros d y u Hy Hu. destruct (D3 d y u Hy Hu) as (f & q & l & Hf & Hq & R). assert (Hne : u <> t) by (intros ->; by eapply Hnin).
    exists f, q, l. cbn. rewrite Et, Ek, !lookup_insert_ne by done. done.
  - intros u f. rewrite lookup_insert. case_decide; [intros [= <-]; congruence|]. apply D4.
  - intros d y u Hy Hu. destruct (D5 d y u Hy Hu) as (Hr & f & Hf & Hlf). split; [done|]. exists f. rewrite lookup_insert_ne; [done|]. intros <-. congruence.
  - intros u f. rewrite lookup_insert. case_decide; [intros [= <-]; congruence|]. apply D6.
  - intros u q. rewrite Et, lookup_insert. case_decide as Eu; [intros [= <-]; subst u|].
    + destruct (D7 t p Hp) as (f & l & Hf & Hk & Hc & _). exists e', l. by rewrite lookup_insert_eq.
    + rewrite lookup_insert_ne by done. apply D7.
  - intros d r Hr. destruct (D8 d r Hr) as (q & l & Hq & ? & ?). rewrite Et, lookup_insert. case_decide; eexists _, l; split_and!; done.
  - destruct D9. split; [|done]. cbn. by rewrite Er.
  - by rewrite Et, map_size_insert, Hp.
Qed.

(** the same tasks run on the same CPUs *)
Definition kin b b' : Prop := curr <$> rqs b' = curr <$> rqs b /\ on_cpu <$> rts b' = on_cpu <$> rts b.

#[export] Instance kin_preorder : PreOrder kin.
Proof. split; [by intros b|]. intros b1 b2 b3 [H1 H2] [H3 H4]. split; congruence. Qed.

Lemma alike_kin b b' : alike b b' -> kin b b'.
Proof.
  intros Ha. destruct (calm_facts _ _ Ha) as (F1 & F2 & _). destruct (calm_facts_back _ _ Ha) as [G1 G2].
  split; apply map_eq; intros i; rewrite !lookup_fmap.
  - destruct (rqs b !! i) as [r|] eqn:E; [destruct (F1 i r E) as (r' & -> & Ec & _); cbn; by rewrite Ec|].
    destruct (rqs b' !! i) as [r'|] eqn:E'; [|done]. destruct (G1 i r' E') as (r0 & Hr0 & _). cbn in Hr0. congruence.
  - destruct (rts b !! i) as [p|] eqn:E; [destruct (F2 i p E) as (p' & -> & (_ & _ & _ & _ & Eo & _)%task_abs_inv); cbn; by rewrite Eo|].
    destruct (rts b' !! i) as [p'|] eqn:E'; [|done]. destruct (G2 i p' E') as (p0 & Hp0 & _). cbn in Hp0. congruence.
Qed.

Lemma kin_turns w w' c : kin (base w) (base w') -> turns w' c = turns w c.
Proof. intros [H _]. unfold turns. by rewrite <- !lookup_fmap, H. Qed.
Lemma kin_size b b' : kin b b' -> size (rts b') = size (rts b).
Proof. intros [_ H]. by rewrite <- (map_size_fmap on_cpu (rts b')), H, map_size_fmap. Qed.
Lemma kin_rq b b' c r' : kin b b' -> rqs b' !! c = Some r' -> exists r, rqs b !! c = Some r /\ curr r' = curr r.
Proof.
  intros [H _] Hr. assert (E : (curr <$> rqs b') !! c = (curr <$> rqs b) !! c) by by rewrite H. rewrite !lookup_fmap, Hr in E.
  destruct (rqs b !! c) as [r|]; [|done]. injection E as E. by exists r.
Qed.

Lemma dl_sys_kin w w' :
  dl_sys w -> dl_ok None (turns w) w' -> kin (base w) (base w') -> sys_ok (krn (base w')) -> dl_sys w'.
Proof.
  intros H D Hk Hs. split; [|done|].
  - apply (dl_ok_weaken None (turns w)); [done|]. intros d u. by rewrite (kin_turns w w' d Hk).
  - intros c r p Hr Hp. destruct (kin_rq _ _ _ _ Hk Hr) as (r0 & Hr0 & Ec). destruct Hk as [_ Ho].
    assert (E : (on_cpu <$> rts (base w')) !! curr r = (on_cpu <$> rts (base w)) !! curr r) by by rewrite Ho. rewrite !lookup_fmap, Hp in E.
    destruct (rts (base w) !! curr r) as [p0|] eqn:Hp0; [|done]. injection E as ->. rewrite Ec in Hp0. by apply (dy_cpu _ H c r0).
Qed.

(** ** The task leaves the trees *)

Definition out k (q : bool) t (n : kernel) : kernel := if q then upd_task t (set_se_queued false k) n else n.

(** [t], with [P], is in no tree, and the rest of the kernel has not seen it go *)
Definition apart w t (P : rt_task -> Prop) k (q : bool) w' : Prop :=
  dl_ok None (turns w) w' /\ kin (base w) (base w') /\ krn (base w') = out k q t (krn (base w)) /\
  exists p e, rts (base w') !! t = Some p /\ P p /\ dlt w' !! t = Some e /\ rb_linked e = false /\ pushable_linked e = false.

Lemma hide_step E w w2 t c x e p k r (P : rt_task -> Prop) :
  kept_dl None (turns w) w w2 -> task_at w2 t c x e p k r -> rb_linked e = false -> P p ->
  swp E (lift_rt (lift_k (dequeue_task t DEQUEUE_NOCMGROUP))) w2 (fun _ w' => apart w t P k true w').
Proof.
  intros (H2 & C2 & _) A Hl HP. pose proof A as [[Hx He Hp Hr _ _] Hk Hc _]. eapply swp_lift_k; [by apply (hidden_dequeue t _ k)|]. split; [|split; [|split]].
  - eapply (krn_change None None _ w2 _ t k _ e); try done; [congruence|cbn; rewrite Hc; by eapply elem_of_dom_2|].
    intros d q Hd Hq. destruct (d_curr _ _ _ H2 d q Hd) as (? & l & _ & Hl' & Ecp). cbn. congruence.
  - apply alike_kin. eapply alike_trans; [by apply calm_alike|apply alike_krn].
  - cbn. by rewrite <- (calm_krn _ _ C2).
  - exists p, e. split_and!; try done. by eapply at_off.
Qed.

Lemma apart_step E w t c x e p k r :
  dl_sys w -> task_at w t c x e p k r ->
  swp E (when (on_rq k) (lift_rt (update_rq_clock c) ;; when (bool_decide (class p = dl_class)) (dequeue_task_dl c t) ;;
         lift_rt (lift_k (dequeue_task t DEQUEUE_NOCMGROUP)))) w (fun _ w' => apart w t (fun p' => task_abs p' = task_abs p) k (on_rq k) w').
Proof.
  intros H A. pose proof A as [[Hx He Hp Hr _ _] Hk Hc _]. pose proof (at_runnable (dy_ok _ H) A) as Hrun. apply swp_when; intros Hq; rewrite Hq in *.
  - case_bool_decide as Hcl; cbn [when].
    + eapply swp_seq2; [by apply (leave_step E w t c x e p k r)|]. intros ? w2 (K2 & x2 & e2 & p2 & r2 & A2 & Hl2). eapply hide_step; [done|done|done|].
      destruct (kept_rt_dl _ _ _ _ _ _ K2 Hp) as (p3 & Hp3 & Ea). destruct A2 as [[] _ _ _]. congruence.
    + eapply swp_seq; [apply (calm_step E _ None _ w t c x e p k r (dy_ok _ H) A); by eapply update_rq_clock_calm|].
      intros ? w2 (K2 & p2 & r2 & A2 & Ea & _). dread. eapply hide_step; [done|done| |done]. apply not_true_is_false. intros Hl. by destruct (Hrun Hl) as (_ & ? & _).
  - assert (Hl : rb_linked e = false) by (apply not_true_is_false; intros Hl; destruct (Hrun Hl) as (_ & _ & _ & [|]); done).
    split; [apply H|]. split; [done|]. split; [done|]. exists p, e. split_and!; try done. by eapply (at_off _ _ _ _ _ _ _ _ _ _ (dy_ok _ H)).
Qed.

(** nothing to put back *)
Lemma put_prev_apart E w w1 c r t P k q (z : bool) :
  rqs (base w) !! c = Some r -> apart w t P k q w1 -> (z = true -> curr r = t) ->
  swp E (when z (put_prev_task_dl c t)) w1 (fun _ w' => w' = w1).
Proof.
  intros Hr (H1 & Hk & _ & p & e & Hp & _ & He & Hl & _) Hz. apply swp_when; [|done]. intros ->. specialize (Hz eq_refl).
  assert (exists r1, rqs (base w1) !! c = Some r1 /\ curr r1 = t) as (r1 & Hr1 & Ec).
  { destruct Hk as [Hk _]. assert (E1 : (curr <$> rqs (base w1)) !! c = (curr <$> rqs (base w)) !! c) by by rewrite Hk.
    rewrite !lookup_fmap, Hr in E1. destruct (rqs (base w1) !! c) as [r1|]; [|done]. injection E1 as E1. exists r1. split; [done|congruence]. }
  rewrite <- Ec in *. unfold put_prev_task_dl, update_curr_dl. eapply (swp_seq _ _ _ _ (fun _ w' => w' = w1)).
  { do 3 dread. unfold on_dl_rq. rewrite Hl, orb_true_r. by dread. }
  intros ? ? ->. do 2 dread. unfold on_dl_rq. by rewrite Hl.
Qed.

(** ** The change itself *)

Section Attr.
Variables (static : Z) (getprio : nat -> Z -> Z).

Definition attr_normal p a : Z :=
  let policy := set_policy_of p a in
  normal_prio_of policy (sched_priority a) (if fair_policy policy then NICE_TO_PRIO (sched_nice a) else static).

(** what is asked of the attributes; nobody waits for a mutex of the task *)
Record attr_ok t p a : Prop := {
  at_getprio : getprio t (attr_normal p a) = attr_normal p a;
  at_params : dl_policy (set_policy_of p a) = true ->
    0 < sched_runtime a < 2 ^ 63 /\ 0 < sched_deadline a < 2 ^ 63 /\ 0 <= sched_period a < 2 ^ 63;
  at_prio : dl_policy (set_policy_of p a) = false -> 0 <= attr_normal p a
}.

(** the entity with new parameters *)
Definition reparam a e : dl_entity :=
  let e := set_dl_period (attr_period a) (set_dl_deadline (sched_deadline a) (set_dl_runtime (sched_runtime a) (set_dl_timer None e))) in
  set_dl_new true (set_dl_throttled false (set_se_bw (to_ratio (dl_period e) (dl_runtime e)) (set_se_flags (u32 (sched_flags a)) e))).

Definition reprioritised p a : rt_task :=
  set_prio (attr_normal p a) (set_class (class_of_prio (attr_normal p a)) (set_policy (set_policy_of p a) p)).
Definition reentity p a e : dl_entity :=
  set_normal_prio (attr_normal p a) (if dl_policy (set_policy_of p a) then reparam a e else e).

Lemma reentity_ok n t p a e : attr_ok t p a -> ent_ok n p e -> ent_ok n (reprioritised p a) (reentity p a e).
Proof.
  intros [_ Hpar Hpr] [Hb Ht _ Hbo _ Hcp Hnr]. unfold reentity. set (m := attr_normal p a) in *.
  assert (Hcl : dl_task (reprioritised p a) = bool_decide (class (reprioritised p a) = dl_class)).
  { unfold dl_task, reprioritised. cbn. fold m. unfold class_of_prio. destruct (dl_prio m); [done|]. by destruct (rt_prio m). }
  destruct (dl_policy (set_policy_of p a)) eqn:Ed.
  - destruct (Hpar eq_refl) as (P1 & P2 & P3). split; try done; cbn; [by destruct Hb; split|].
    intros _. split; cbn; [done|done|]. unfold attr_period. destruct (Z.eqb_spec (sched_period a) 0); lia.
  - specialize (Hpr eq_refl). split; try done; cbn; [by destruct Hb; split|]. fold m. unfold class_of_prio, dl_prio, MAX_DL_PRIO in *.
    rewrite (proj2 (Z.ltb_ge m 0)) by done. by destruct (rt_prio m).
Qed.

Lemma setscheduler_step E w1 t p a e :
  rts (base w1) !! t = Some p -> dlt w1 !! t = Some e -> attr_ok t p a ->
  swp E (__setscheduler static getprio t a) w1 (fun _ w' => exists b',
    w' = set_dlt (<[t := reentity p a e]> (dlt w1)) (set_base b' w1) /\ rqs b' = rqs (base w1) /\ krn b' = krn (base w1) /\
    rts b' = <[t := reprioritised p a]> (rts (base w1))).
Proof.
  intros Hp He Hok. unfold __setscheduler. dread. cbv zeta. set (p1 := set_policy (set_policy_of p a) p).
  eapply (swp_seq _ _ _ _ (fun _ w2 => w2 = set_base (with_rt t p1 (base w1)) w1)); [done|]. intros ? ? ->.
  eapply (swp_seq _ _ _ _ (fun _ w3 => w3 = set_dlt (<[t := if dl_policy (set_policy_of p a) then reparam a e else e]> (dlt w1))
    (set_base (with_rt t p1 (base w1)) w1))).
  { apply swp_when; intros ->.
    - unfold __setparam_dl, init_dl_task_timer. eapply (swp_seq _ _ _ _ (fun _ w3 => w3 = set_dlt (<[t := set_dl_timer None e]> (dlt w1)) (set_base (with_rt t p1 (base w1)) w1))).
      + by apply (swp_upd_dl _ t e).
      + intros ? ? ->. eapply swp_upd_dl; [apply lookup_insert_eq|]. unfold set_dlt. cbn. by rewrite insert_insert_eq.
    - cbn. rewrite insert_id by done. by destruct w1. }
  intros ? ? ->. eapply (swp_seq _ _ _ _ (fun _ w4 => w4 = set_dlt (<[t := reentity p a e]> (dlt w1)) (set_base (with_rt t p1 (base w1)) w1))).
  { eapply swp_upd_dl; [apply lookup_insert_eq|]. unfold set_dlt. cbn. by rewrite insert_insert_eq. }
  intros ? ? ->. fold (attr_normal p a). rewrite (at_getprio _ _ _ Hok).
  unfold swp, lift_rt. cbn [base set_dlt set_base].
  rewrite (bind_run _ _ _ _ _ (get_rt_eq t p1 (with_rt t p1 (base w1)) (lookup_insert_eq _ _ _))).
  exists (with_rt t (reprioritised p a) (with_rt t p1 (base w1))). split_and!; try done. cbn. by rewrite insert_insert_eq.
Qed.

(** the task has its new class *)
Lemma recast_step E w w1 t c x e p k r a :
  dl_sys w -> task_at w t c x e p k r -> attr_ok t p a -> apart w t (fun p' => task_abs p' = task_abs p) k (on_rq k) w1 ->
  swp E (__setscheduler static getprio t a) w1 (fun _ w' =>
    apart w t (fun p' => class p' = class_of_prio (attr_normal p a) /\ dl_task p' = dl_prio (attr_normal p a)) k (on_rq k) w').
Proof.
  intros H A Hat (D1 & K1 & E1 & p1 & e1 & Hp1 & Ea & He1 & Hl & Hpl). destruct (d_task _ _ _ D1 t p1 Hp1) as (e1' & k1 & He1' & _ & _ & Hok).
  assert (e1' = e1) as -> by congruence. apply task_abs_inv in Ea as (_ & Ecl & _ & _ & Eo & Epo).
  assert (Hat1 : attr_ok t p1 a /\ attr_normal p1 a = attr_normal p a).
  { assert (Es : set_policy_of p1 a = set_policy_of p a) by (unfold set_policy_of; by rewrite Epo).
    assert (En : attr_normal p1 a = attr_normal p a) by (unfold attr_normal; by rewrite Es). destruct Hat. split; [|done]. split; by rewrite ?En, ?Es. }
  destruct Hat1 as [Hat1 En]. eapply swp_cons; [by apply (setscheduler_step E w1 t p1 a e1)|]. intros ? w2 (b' & -> & Er & Ek & Et).
  set (e2 := reentity p1 a e1). assert (Hu : rb_linked e2 = false /\ pushable_linked e2 = false).
  { unfold e2, reentity. by destruct (dl_policy _). }
  destruct Hu as [Hl2 Hpl2]. split; [|split; [|split]].
  - apply (recast (turns w) w1 t p1 (reprioritised p1 a) e1 e2 b'); try done. by eapply reentity_ok.
  - trans (base w1); [done|]. split; cbn; [by rewrite Er|]. rewrite Et, fmap_insert. apply insert_id. by rewrite lookup_fmap, Hp1.
  - cbn. by rewrite Ek.
  - exists (reprioritised p1 a), e2. cbn [base set_dlt set_base dlt]. rewrite Et, !lookup_insert_eq. split; [done|].
    split; [|done]. unfold reprioritised, dl_task. cbn. by rewrite En.
Qed.
End Attr.

(** ** The task comes back *)

(** it is still in no tree when it has become the current one *)
Lemma set_curr_apart E w w1 c r t P k q (z : bool) :
  dl_sys w -> rqs (base w) !! c = Some r -> apart w t P k q w1 -> (z = true -> curr r = t) ->
  (forall p p', task_abs p' = task_abs p -> P p -> P p') ->
  swp E (when z (set_curr_task_dl c)) w1 (fun _ w' => apart w t P k q w').
Proof.
  intros H Hr Ap Hz HP. apply swp_when; [|done]. intros ->. specialize (Hz eq_refl). pose proof Ap as (D1 & K1 & E1 & p & e & Hp & HPp & He & Hl & Hpl).
  assert (exists r1, rqs (base w1) !! c = Some r1 /\ curr r1 = t) as (r1 & Hr1 & Ec).
  { destruct K1 as [K1 _]. assert (E2 : (curr <$> rqs (base w1)) !! c = (curr <$> rqs (base w)) !! c) by by rewrite K1.
    rewrite !lookup_fmap, Hr in E2. destruct (rqs (base w1) !! c) as [r1|]; [|done]. injection E2 as E2. exists r1. split; [done|congruence]. }
  destruct (curr_at _ _ _ _ _ D1 Hr1) as (x & e0 & p0 & k0 & A). rewrite Ec in A. pose proof A as [[_ He0 Hp0 _ _ _] _ _ _].
  assert (e0 = e) as -> by congruence. assert (p0 = p) as -> by congruence.
  unfold set_curr_task_dl. dread. rewrite Ec. dread. eapply swp_seq; [apply (calm_step E _ None _ w1 t c x e p k0 r1 D1 A); by eapply calms_put_rt|].
  intros ? w2 (K2 & p2 & r2 & A2 & Ea & _). pose proof A2 as [[_ He2 Hp2 _ _ _] _ _ _].
  unfold dequeue_pushable_dl_task. dread. rewrite Hpl. cbn [negb]. dread. split; [apply K2|].
  split; [trans (base w1); [done|apply alike_kin, calm_alike, K2]|]. split; [by rewrite <- (calm_krn _ _ (proj1 (proj2 K2)))|].
  exists p2, e. split_and!; try done. by eapply HP.
Qed.

Lemma back_krn w t k : sys_ok (krn (base w)) -> tasks (krn (base w)) !! t = Some k -> on_rq k = true ->
  upd_task t (set_se_queued true (set_se_queued false k)) (upd_task t (set_se_queued false k) (krn (base w))) = krn (base w).
Proof.
  intros Hs Hk Hq. rewrite upd_task_upd. destruct (proj1 Hs) as [_ [Hso _]]. destruct (Hso t k Hk) as [Hse _]. rewrite Hq in Hse.
  replace (set_se_queued true (set_se_queued false k)) with k by (destruct k; cbn in *; unfold set_se_queued; cbn; congruence).
  unfold upd_task, set_tasks. rewrite insert_id by done. by destruct (krn (base w)).
Qed.

(** where the world is when the task has been changed *)
Definition changed w t (P : rt_task -> Prop) w' : Prop :=
  dl_sys w' /\ kin (base w) (base w') /\ krn (base w') = krn (base w) /\ exists p, rts (base w') !! t = Some p /\ P p.

Lemma rejoin_step E w w1 t c x e p k r P p1 :
  dl_sys w -> task_at w t c x e p k r -> apart w t P k (on_rq k) w1 -> rts (base w1) !! t = Some p1 ->
  (forall p p', task_abs p' = task_abs p -> P p -> P p') ->
  swp E (when (on_rq k) (lift_rt (update_rq_clock c) ;; when (bool_decide (class p1 = dl_class)) (enqueue_task_dl c t ENQUEUE_NOCMGROUP) ;;
         lift_rt (lift_k (enqueue_task t ENQUEUE_NOCMGROUP)))) w1 (fun _ w' => changed w t P w').
Proof.
  intros H A (D1 & K1 & E1 & p1' & e1 & Hp1 & HPp & He1 & Hl & Hpl) Hp1' HP. assert (p1' = p1) as -> by congruence.
  pose proof A as [[Hx He Hp Hr _ _] Hk Hc _]. apply swp_when; intros Hq; rewrite Hq in *; unfold out in E1.
  2: { split; [|split; [done|split; [done|by exists p1]]]. apply (dl_sys_kin w); [done|done|done|]. rewrite E1. apply H. }
  set (k1 := set_se_queued false k) in *. destruct (find_task _ _ _ _ _ D1 Hp1) as (c1 & x1 & e1' & k1' & r1 & A1). pose proof A1 as [[Hx1 He1' _ Hr1 _ _] Hk1 Hc1 _].
  assert (k1' = k1) as -> by (rewrite E1 in Hk1; cbn in Hk1; rewrite lookup_insert_eq in Hk1; congruence).
  assert (c1 = c) as -> by (rewrite <- Hc; done). assert (e1' = e1) as -> by congruence.
  eapply swp_seq; [apply (calm_step E _ None _ w1 t c x1 e1 p1 k1 r1 D1 A1); by eapply update_rq_clock_calm|].
  intros ? w2 (K2 & p2 & r2 & A2 & Ea & Ec2). pose proof (task_abs_inv _ _ Ea) as (_ & Ecl & _).
  eapply (swp_seq _ _ _ _ (fun _ w3 => dl_ok None (turns w) w3 /\ calm (base w1) (base w3))).
  { apply swp_when; [intros Hcl%bool_decide_eq_true|intros _; split; apply K2].
    eapply swp_cons; [apply (enqueue_task_step E None (turns w) w2 t c x1 e1 p2 k1 r2 _ (proj1 K2) A2 Hl); [congruence|by left|]|].
    - intros Hne Hrun. unfold turns in Hrun. destruct (kin_rq _ _ c r1 K1 Hr1) as (r0 & Hr0 & E0). rewrite Hr0 in Hrun. cbn in Hrun. congruence.
    - intros ? w3 (D3 & C3 & _). split; [done|]. trans (base w2); [apply K2|done]. }
  intros ? w3 [D3 C3]. assert (Ek3 : krn (base w3) = krn (base w1)) by (symmetry; apply C3).
  destruct (calm_facts _ _ C3) as (_ & F2 & _). destruct (F2 t p1 Hp1) as (p3 & Hp3 & Ea3).
  destruct (find_task _ _ _ _ _ D3 Hp3) as (c3 & x3 & e3 & k3 & r3 & [[Hx3 He3 _ _ _ _] Hk3 Hc3 _]).
  assert (k3 = k1) as -> by congruence. assert (c3 = c) as -> by (rewrite <- Hc; done).
  eapply swp_lift_k; [apply (hidden_enqueue t 0 _ k1); by rewrite Ek3|].
  assert (Ekb : upd_task t (set_se_queued true k1) (krn (base w3)) = krn (base w)) by (rewrite Ek3, E1; apply back_krn; [apply H|done|done]).
  assert (K3 : kin (base w) (base w3)) by (trans (base w1); [done|by apply alike_kin, calm_alike]).
  split; [|split; [exact K3|split; [exact Ekb|exists p3; split; [exact Hp3|by eapply HP]]]].
  apply (dl_sys_kin w); [done| |exact K3|cbn; rewrite Ekb; apply H].
  eapply (krn_change None None _ w3 _ t k1 _ e3); try done; [by auto|cbn; rewrite Hc; by eapply elem_of_dom_2|].
  intros d q Hd Hcu. destruct (d_curr _ _ _ D3 d q Hd) as (? & l & _ & Hl' & Ecp). cbn. rewrite Hcu in Hl'. assert (l = k1) as -> by congruence. exact Ecp.
Qed.

(** ** What the change brings about *)

Section Contend.
Variables (contend : nat -> nat -> dlw -> option dlw) (fuel : nat).
Hypothesis Hpolite : polite_dl contend.

Lemma switched_from_held E w t c r p :
  dl_sys w -> rqs (base w) !! c = Some r -> rts (base w) !! t = Some p ->
  swp E (switched_from_dl contend c t) w (fun _ w' => held w w').
Proof.
  intros H Hr Hp. destruct (find_task _ _ _ _ _ (dy_ok _ H) Hp) as (d & x & e & k & r' & A). pose proof A as [[_ He _ _ _ _] Hk _ Hok].
  unfold switched_from_dl. do 2 dread. apply swp_then.
  - apply swp_when; intros _; [|done]. eapply swp_cons; [by apply (put_entity_held E w t d x e p k r' (set_dl_timer None e) H A); [..|apply no_timer_ok]|].
    by intros ? w' [].
  - intros ? w1 H1. destruct (held_rq _ _ c H1) as [r1 Hr1]; [by eexists|]. destruct (held_dl_rq _ _ _ (proj1 H1) Hr1) as [x1 Hx1]. dread.
    apply swp_when; intros _; [|by apply held_refl, H1]. eapply swp_seq; [apply (pull_ok contend Hpolite E c w1 (proj1 H1)); by eexists|].
    intros ? w2 H2. by apply swp_ret.
Qed.

Lemma switched_to_held w t c r p :
  dl_sys w -> rqs (base w) !! c = Some r -> rts (base w) !! t = Some p ->
  swp (starved_dl contend fuel w) (switched_to_dl contend fuel c t) w (fun _ w' => held w w').
Proof.
  intros H Hr Hp. destruct (task_parts w t p H Hp) as (e & k & He & Hk). unfold switched_to_dl. dread. destruct (dl_throttled e); [by apply swp_ret|].
  destruct (held_dl_rq _ _ _ H Hr) as [x Hx]. do 2 dread. apply swp_when; intros _; [|done]. dread. apply swp_then_starved.
  - destruct (dl_overloaded x); [by apply (push_one_held contend fuel Hpolite w c r)|by apply swp_ret].
  - intros moved w1 H1. destruct (held_rq _ _ c H1) as [r1 Hr1]; [by eexists|]. destruct (held_rt _ _ _ _ H1 Hp) as (p1 & Hp1 & _).
    destruct (task_parts w1 t p1 (proj1 H1) Hp1) as (e1 & k1 & _ & Hk1). destruct (curr_parts w1 c r1 (proj1 H1) Hr1) as (q1 & f1 & l1 & Hq1 & _).
    do 3 dread. apply swp_when; intros _; [by eapply check_preempt_held; [apply H1|..]|by apply held_refl, H1].
Qed.

Lemma prio_changed_held w t c r p :
  dl_sys w -> rqs (base w) !! c = Some r -> rts (base w) !! t = Some p ->
  swp (starved_dl contend fuel w) (prio_changed_dl contend fuel c t) w (fun _ w' => held w w').
Proof.
  intros H Hr Hp. destruct (task_parts w t p H Hp) as (e & k & He & Hk). destruct (held_dl_rq _ _ _ H Hr) as [x Hx]. unfold prio_changed_dl. do 2 dread.
  destruct (_ || _); [|by apply (switched_to_held w t c r p)]. dread. apply swp_then_starved.
  - apply swp_when; intros _; [|done]. eapply swp_seq; [apply (pull_ok contend Hpolite _ c w H); by eexists|]. intros ? w2 H2. by apply swp_ret.
  - intros ? w1 H1. destruct (held_rq _ _ c H1) as [r1 Hr1]; [by eexists|]. destruct (held_rt _ _ _ _ H1 Hp) as (p1 & Hp1 & _).
    destruct (task_parts w1 t p1 (proj1 H1) Hp1) as (e1 & k1 & He1 & Hk1). destruct (held_dl_rq _ _ _ (proj1 H1) Hr1) as [x1 Hx1]. do 3 dread.
    apply swp_when; intros _; [|by apply held_refl, H1]. eapply swp_cons; [by apply (resched_held _ w1 t p1 (proj1 H1))|]. by intros ? w' [].
Qed.

Lemma class_changed_held w t c r p prev oldprio :
  dl_sys w -> rqs (base w) !! c = Some r -> rts (base w) !! t = Some p ->
  swp (starved_dl contend fuel w) (check_class_changed_dl contend fuel c t prev oldprio) w (fun _ w' => held w w').
Proof.
  intros H Hr Hp. unfold check_class_changed_dl. dread. destruct (decide _).
  - apply swp_then_starved; [apply swp_when; intros _; [by apply (switched_from_held _ w t c r p)|done]|].
    intros ? w1 H1. destruct (held_rq _ _ c H1) as [r1 Hr1]; [by eexists|]. destruct (held_rt _ _ _ _ H1 Hp) as (p1 & Hp1 & _).
    apply swp_when; intros _; [by apply (switched_to_held w1 t c r1 p1 (proj1 H1))|by apply held_refl, H1].
  - apply swp_when; intros _; [by apply (prio_changed_held w t c r p)|done].
Qed.

(** ** The whole system call *)

Lemma marks_rebook z w : marks w -> marks (rebook z w).
Proof. intros [H1 H2]. by split. Qed.
Lemma dl_sys_rebook z w : dl_sys w -> dl_sys (rebook z w).
Proof. intros [[D1 D2 D3 D4 D5 D6 D7 D8 D9 D10] S C]. split; [split|..]; try done. by apply marks_rebook. Qed.

Lemma overflow_step E w t policy a e p :
  dl_sys w -> dlt w !! t = Some e -> rts (base w) !! t = Some p ->
  swp E (dl_overflow t policy a) w (fun _ w' => exists z, w' = rebook z w).
Proof.
  intros H He Hp. assert (Hid : w = rebook (total_bw w) w) by (unfold rebook, total_bw; destruct w as [b]; destruct b as [? ? d]; by destruct d).
  unfold swp. rewrite (dl_overflow_eq w t policy a e p He Hp). cbv zeta. repeat case_match; simplify_eq; first [done|by eexists].
Qed.

Lemma kin_held w w1 w2 : kin (base w) (base w1) -> held w1 w2 -> dl_sys w2 /\ size (rts (base w2)) = size (rts (base w)).
Proof. intros Hk H2. split; [apply H2|]. by rewrite (held_size _ _ H2), (kin_size _ _ Hk). Qed.

(** the task has been admitted *)
Lemma change_step static getprio w t c x e p k r a oldprio :
  dl_sys w -> task_at w t c x e p k r -> attr_ok static getprio t p a ->
  swp (starved_dl contend fuel w) (
    when (on_rq k) (lift_rt (update_rq_clock c) ;; when (bool_decide (class p = dl_class)) (dequeue_task_dl c t) ;;
                    lift_rt (lift_k (dequeue_task t DEQUEUE_NOCMGROUP))) ;;
    when (bool_decide (curr r = t) && bool_decide (class p = dl_class)) (put_prev_task_dl c t) ;;
    __setscheduler static getprio t a ;;
    p' ← task_of t;
    when (bool_decide (curr r = t) && bool_decide (class p' = dl_class)) (set_curr_task_dl c) ;;
    when (on_rq k) (lift_rt (update_rq_clock c) ;; when (bool_decide (class p' = dl_class)) (enqueue_task_dl c t ENQUEUE_NOCMGROUP) ;;
                    lift_rt (lift_k (enqueue_task t ENQUEUE_NOCMGROUP))) ;;
    check_class_changed_dl contend fuel c t (class p) oldprio ;;
    mret 0) w (fun _ w' => dl_sys w' /\ size (rts (base w')) = size (rts (base w))).
Proof.
  intros H A Hat. pose proof A as [[Hx He Hp Hr _ _] Hk Hc _].
  assert (Hz : forall z, bool_decide (curr r = t) && z = true -> curr r = t) by by intros z [?%bool_decide_eq_true _]%andb_true_iff.
  eapply swp_seq; [by apply (apart_step _ w t c x e p k r)|]. intros ? w1 Ap1.
  eapply swp_seq; [exact (put_prev_apart _ w w1 c r t _ k _ _ Hr Ap1 (Hz _))|]. intros ? ? ->.
  eapply swp_seq; [by apply (recast_step static getprio _ w w1 t c x e p k r a)|]. intros ? w2 Ap2.
  set (P := fun p' => class p' = _ /\ dl_task p' = _) in Ap2.
  assert (HP : forall q q', task_abs q' = task_abs q -> P q -> P q').
  { intros q q' (Ep & Ecl & _)%task_abs_inv [H1 H2]. split; [congruence|]. unfold dl_task in *. by rewrite Ep. }
  pose proof Ap2 as (_ & _ & _ & p2 & e2 & Hp2 & HP2 & _). dread.
  eapply swp_seq; [exact (set_curr_apart _ w w2 c r t P k (on_rq k) _ H Hr Ap2 (Hz _) HP)|]. intros ? w3 Ap3.
  pose proof Ap3 as (_ & _ & _ & p3 & e3 & Hp3 & HP3 & _).
  replace (class p2) with (class p3) by (destruct HP2, HP3; congruence).
  eapply swp_seq; [by apply (rejoin_step _ w w3 t c x e p k r P p3)|]. intros ? w4 (H4 & K4 & _ & p4 & Hp4 & _).
  assert (exists r4, rqs (base w4) !! c = Some r4) as [r4 Hr4].
  { destruct K4 as [K4 _]. assert (E4 : (curr <$> rqs (base w4)) !! c = (curr <$> rqs (base w)) !! c) by by rewrite K4.
    rewrite !lookup_fmap, Hr in E4. destruct (rqs (base w4) !! c) as [r4|]; [by exists r4|done]. }
  eapply (swp_mono (starved_dl contend fuel w4)); [|unfold starved_dl; by rewrite (kin_size _ _ K4)|intros ? w5 H5; exact H5].
  eapply swp_seq; [by apply (class_changed_held w4 t c r4 p4)|]. intros ? w5 H5. apply swp_ret. by apply (kin_held w w4).
Qed.

Lemma setscheduler_ok static getprio w t p a :
  dl_sys w -> rts (base w) !! t = Some p -> attr_ok static getprio t p a ->
  swp (starved_dl contend fuel w) (sched_setscheduler_dl contend fuel static getprio t a) w
    (fun _ w' => dl_sys w' /\ size (rts (base w')) = size (rts (base w))).
Proof.
  intros H Hp Hat. destruct (find_task _ _ _ _ _ (dy_ok _ H) Hp) as (c & x & e & k & r & A). pose proof A as [[Hx He _ Hr _ _] Hk Hc _].
  unfold sched_setscheduler_dl. dread. rewrite Hc. do 2 dread. cbv zeta.
  eapply (swp_seq _ _ _ _ (fun _ w1 => exists z, w1 = rebook z w)).
  { destruct (_ || _); [by eapply overflow_step|]. apply swp_ret. exists (total_bw w). unfold rebook, total_bw. destruct w as [b]; destruct b as [? ? d]; by destruct d. }
  intros err ? [z ->]. destruct (negb (err =? 0)); [apply swp_ret; split; [by apply dl_sys_rebook|done]|].
  assert (A1 : task_at (rebook z w) t c x e p k r) by (destruct A as [[] ? ? ?]; split; [split|..]; try done; by apply marks_rebook).
  dread. by apply (change_step static getprio (rebook z w) t c x e p k r a (prio p) (dl_sys_rebook z w H) A1 Hat).
Qed.
End Contend.
End Sched.
