(* ===== verification/DlSys.v ===== *)
(** * The deadline class as a system

    The events that drive the class, one operation each, composed from the code
    of deadline.c and core.c.  [dl_step] is the heart of the component: in a
    state that satisfies the invariants every valid event runs without an oops
    (BUG_ON, a null or dangling pointer), and the invariants hold afterwards,
    whatever the clocks say; it returns if nothing interferes with the locks.
    Nobody inherits a deadline ([eo_boost], [at_getprio]). *)

From S2P Require Import Prelude Wait Tasklet Cmgroup Sched CmInv CmTask CmSys EpTree RtRq RtPush RtInv.
From S2P Require Import RtBalance RtStep.
From S2P Require Import DlRq DlPush DlCbs DlInv DlOps DlStep DlMove DlEvent DlSwitch DlSched.
Local Open Scope Z_scope.

Inductive dl_op :=
| DWake (t : nat)                               (** try_to_wake_up() of a task of the class *)
| DSleep (fatal : bool) (c : nat)               (** __schedule(): the running task sleeps *)
| DSwitch (hi : option nat) (lo c : nat)        (** __schedule(): the next task *)
| DTick (c : nat)                               (** scheduler_tick() *)
| DYield (c : nat)                              (** sys_sched_yield() *)
| DTimer (t : nat)                              (** the timer of a task expires *)
| DAffinity (t : nat) (m : gset nat)            (** set_cpus_allowed_ptr() *)
| DPush (c : nat)                               (** post_schedule() *)
| DPull (c prev : nat)                          (** pre_schedule() *)
| DClock (ns ticks hr : Z)                      (** time passes *)
| DOffline (c : nat)                            (** set_rq_offline() *)
| DOnline (c : nat)                             (** set_rq_online() *)
| DSched (static : Z) (t : nat) (a : sched_attr) (** __sched_setscheduler(), once the attributes are checked *).

Section System.
Context {RL : RtLib} {DL : DlLib} {RB : RbLib}.
Implicit Types (w : dlw) (b : rtw) (e : dl_entity) (x : dl_rq) (p : rt_task) (r : rq) (k : task_struct) (c d t u : nat).
Variables (getprio : nat -> Z -> Z) (contend : nat -> nat -> dlw -> option dlw) (fuel : nat).

(** scheduler_tick(), up to the call of the class *)
Definition scheduler_tick_dl c : D unit := lift_rt (update_rq_clock c) ;; task_tick_dl c.

Definition dl_exec (o : dl_op) : D unit :=
  match o with
  | DWake t => c ← cpu_of_task t; ttwu_do_activate_dl contend fuel c t
  | DSleep fatal c => schedule_out_dl fatal c
  | DSwitch hi lo c => switch_dl hi lo c
  | DTick c => scheduler_tick_dl c
  | DYield c => yield_task_dl c
  | DTimer t => dl_task_timer contend fuel t
  | DAffinity t m => do_set_cpus_allowed_dl t m
  | DPush c => post_schedule_dl contend fuel c
  | DPull c prev => pre_schedule_dl contend c prev
  | DClock n j h => modify (fun w => set_hrtime h (set_base (set_jiffies j (set_now n (base w))) w))
  | DOffline c => set_rq_offline_dl c
  | DOnline c => set_rq_online_dl c
  | DSched static t a => sched_setscheduler_dl contend fuel static getprio t a ;; mret tt
  end.

(** the running task of [c] belongs to the class *)
Definition runs_dl w c : Prop :=
  exists r p k, rqs (base w) !! c = Some r /\ rts (base w) !! curr r = Some p /\ tasks (krn (base w)) !! curr r = Some k /\
    class p = dl_class /\ on_rq k = true.

Definition dl_valid w (o : dl_op) : Prop :=
  match o with
  | DWake t => exists p k, rts (base w) !! t = Some p /\ tasks (krn (base w)) !! t = Some k /\ class p = dl_class /\ on_rq k = false
  | DSleep _ c | DTick c | DYield c => runs_dl w c
  | DSwitch hi lo c => is_Some (rqs (base w) !! c) /\ (forall t, hi = Some t -> foreign_dl w c t) /\ foreign_dl w c lo
  | DTimer t => exists p e, rts (base w) !! t = Some p /\ dlt w !! t = Some e /\ dl_timer e <> None
  | DAffinity t m => is_Some (rts (base w) !! t) /\ m ⊆ dom (dls w)
  | DPull c prev => is_Some (rqs (base w) !! c) /\ is_Some (rts (base w) !! prev)
  | DPush c | DOffline c | DOnline c => is_Some (rqs (base w) !! c)
  | DClock _ _ _ => True
  | DSched static t a => exists p, rts (base w) !! t = Some p /\ attr_ok static getprio t p a
  end.

Context {LL : DlLaws DL}.

Lemma clock_held w n j h : dl_sys w -> held w (set_hrtime h (set_base (set_jiffies j (set_now n (base w))) w)).
Proof.
  intros H. set (w' := set_hrtime _ _). assert (C : calm (base w) (base w')) by by split.
  split; [|by apply calm_persists]. apply (dl_sys_calm w w' (turns w)); [done| |done|done].
  destruct (dy_ok _ H) as [D1 D2 D3 D4 D5 D6 D7 D8 [D9 D9'] D10]. by split.
Qed.

(** the invariants hold in [w'], which has the same tasks *)
Definition sound w w' : Prop := dl_sys w' /\ size (rts (base w')) = size (rts (base w)).

Lemma held_sound w w' : held w w' -> sound w w'.
Proof. intros H. split; [apply H|by apply held_size]. Qed.

Lemma tick_event_dl E w c r : dl_sys w -> rqs (base w) !! c = Some r -> swp E (scheduler_tick_dl c) w (fun _ w' => held w w').
Proof.
  intros H Hr. apply swp_then; [apply base_held; [done|]; by eapply update_rq_clock_calm|]. intros ? w1 H1.
  destruct (held_rq _ _ c H1) as [r1 Hr1]; [by eexists|]. apply (tick_held _ w1 c r1); [apply H1|done].
Qed.

Lemma dl_step w o :
  polite_dl contend -> dl_sys w -> dl_valid w o ->
  swp (starved_dl contend fuel w) (dl_exec o) w (fun _ w' => sound w w').
Proof.
  intros HC H Hv. destruct (match o with DSched _ _ _ => true | _ => false end) eqn:Es.
  { destruct o; try done. destruct Hv as (p & Hp & Hat). cbn. eapply swp_seq; [by eapply setscheduler_ok|]. intros ? w' Hw'. by apply swp_ret. }
  eapply swp_cons; [|intros ? w'; apply held_sound]. destruct o; cbn [dl_valid dl_exec] in *; try done.
  - destruct Hv as (p & k & Hp & Hk & Hcl & Hq). destruct (d_task _ _ _ (dy_ok _ H) t p Hp) as (e & k' & He & Hk' & Hd & _).
    assert (k' = k) as -> by congruence. rewrite (d_dom _ _ _ (dy_ok _ H)) in Hd. apply elem_of_dom in Hd as [r Hr].
    dread. by apply (wake_held contend fuel HC w (tcpu k) r t p k).
  - destruct Hv as (r & p & k & Hr & Hp & Hk & _ & Hq). by apply (sleep_held _ w c r p k fatal).
  - destruct Hv as ([r Hr] & Hhi & Hlo). by apply (switch_held _ w c r hi lo).
  - destruct Hv as (r & p & k & Hr & _). by eapply tick_event_dl.
  - destruct Hv as (r & p & k & Hr & _). by apply (yield_held _ w c r).
  - destruct Hv as (p & e & Hp & He & Ht). by apply (timer_held contend fuel HC w t p e).
  - destruct Hv as [[p Hp] Hm]. by apply (affinity_held _ w m t p).
  - destruct Hv as [r Hr]. by apply (push_held contend fuel HC w c r).
  - destruct Hv as [Hc [p Hp]]. unfold pre_schedule_dl. dread. apply swp_when; intros _; [|by apply held_refl].
    eapply swp_seq; [by apply pull_ok|]. intros ? w1 H1. by apply swp_ret.
  - apply swp_modify. by apply clock_held.
  - destruct Hv as [r Hr]. by apply (offline_held _ w c r).
  - destruct Hv as [r Hr]. by apply (online_held _ w c r).
Qed.

(** ** Executions *)

Inductive dl_steps : dlw -> list dl_op -> dlw -> Prop :=
| dl_steps_nil w : dl_steps w [] w
| dl_steps_cons w o w1 l w2 : dl_valid w o -> dl_exec o w = Ret tt w1 -> dl_steps w1 l w2 -> dl_steps w (o :: l) w2.

Lemma dl_steps_inv w l w' : polite_dl contend -> dl_sys w -> dl_steps w l w' -> sound w w'.
Proof.
  intros HC H Hs. induction Hs as [w|w o w1 l w2 Hv E _ IH]; [done|].
  pose proof (dl_step w o HC H Hv) as Hst. unfold swp in Hst. rewrite E in Hst. destruct Hst as [H1 E1].
  destruct (IH H1) as [H2 E2]. split; [done|congruence].
Qed.

(** ** Boot *)

(** after init_dl_rq(): no task of the class is runnable *)
Record booted_dl w : Prop := {
  bd_dom : dom (dls w) = dom (rqs (base w));
  bd_rq : forall c x, dls w !! c = Some x -> exists y, x = init_dl_rq y /\ rb_leftmost y = None /\ dl_nr_running y = 0 /\ pushable_leftmost y = None;
  bd_task : forall t p, rts (base w) !! t = Some p -> exists e k, dlt w !! t = Some e /\ tasks (krn (base w)) !! t = Some k /\
    tcpu k ∈ dom (dls w) /\ ent_ok (dom (dls w)) p e;
  bd_off : forall t e, dlt w !! t = Some e -> rb_linked e = false /\ pushable_linked e = false;
  bd_curr : forall c r, rqs (base w) !! c = Some r -> exists p k, rts (base w) !! curr r = Some p /\ on_cpu p = true /\
    tasks (krn (base w)) !! curr r = Some k /\ tcpu k = c;
  bd_rd : dlo_mask w = ∅ /\ dlo_count w = 0;
  bd_size : Z.of_nat (size (rts (base w))) < 2 ^ 31 /\ Z.of_nat (size (dls w)) < 2 ^ 31 - 1;
  bd_krn : sys_ok (krn (base w))
}.

Lemma booted_dl_sys w : booted_dl w -> dl_sys w.
Proof.
  intros [B1 B2 B3 B4 B5 [B6 B7] B8 B9].
  assert (He : forall c x, dls w !! c = Some x -> dl_root x = rb_null /\ pushable_root x = rb_null /\ dl_overloaded x = false /\ dlq_ok (rts (base w)) x).
  { intros c x (y & -> & E1 & E2 & E3)%B2. split_and!; try done. split; cbn; rewrite ?E1, ?E2, ?E3; try done; try (split; [constructor|done]).
    intros t Ht%elem_of_nil. done. }
  split; [split; try done| |].
  - intros c x Hx. by apply (He c x).
  - intros c x t Hx. destruct (He c x Hx) as (-> & _). by intros Ht%elem_of_nil.
  - intros t e Hte Hl. destruct (B4 t e Hte). congruence.
  - intros c x t Hx. destruct (He c x Hx) as (_ & -> & _). by intros Ht%elem_of_nil.
  - intros t e Hte Hl. destruct (B4 t e Hte). congruence.
  - intros c r Hr. destruct (B5 c r Hr) as (p & k & Hp & _ & Hk & Hc). by exists p, k.
  - split; [|by rewrite B6, B7, size_empty]. intros c. rewrite B6. split; [by intros ?%elem_of_empty|].
    intros (r & x & _ & Hx & _ & Ho). destruct (He c x Hx) as (_ & _ & E & _). congruence.
  - done.
  - intros c r p Hr Hp. destruct (B5 c r Hr) as (q & k & Hq & Ho & _). congruence.
Qed.
End System.
