(* ===== verification/DlBoot.v ===== *)
(** * The deadline class: a task that yields

    yield_task_dl() marks the task as new, so that the next enqueue gives it a
    fresh budget, and lets update_curr_dl() throttle it.  But the timer that
    should bring it back leaves a task alone that is marked as new: the task
    stays throttled, and nothing the class does puts it back. *)

From S2P Require Import Prelude Wait Tasklet Cmgroup Sched CmInv CmTask CmSys CmTop EpTree RtRq RtPush RtInv RtBalance RtStep RtBoot DlRq DlPush.
From S2P Require Import DlCbs DlInv DlOps DlStep DlMove DlEvent DlSwitch DlSched DlSys.
Local Open Scope Z_scope.

Definition lost (e : dl_entity) : Prop :=
  dl_throttled e = true /\ dl_new e = true /\ rb_linked e = false /\ pushable_linked e = false.

Section Lost.
Context {RL : RtLib} {DL : DlLib} {RB : RbLib}.
Implicit Types (w : dlw) (e : dl_entity) (x : dl_rq) (p : rt_task) (r : rq) (k : task_struct) (c d u : nat).
Variable t : nat.

Definition is_lost w : Prop := exists e, dlt w !! t = Some e /\ lost e.

(** if [m] returns, the task is still lost *)
Definition lk {A} (m : D A) : Prop := forall w, is_lost w -> match m w with Ret _ w' => is_lost w' | _ => True end.

Lemma lk_ret {A} (a : A) : lk (mret a).
Proof. by intros w. Qed.
Lemma lk_oops {A} : lk (oops : D A).
Proof. by intros w. Qed.
Lemma lk_block {A} : lk (block : D A).
Proof. by intros w. Qed.
Lemma lk_get : lk get.
Proof. by intros w. Qed.
Lemma lk_bind {A B} (m : D A) (f : A -> D B) : lk m -> (forall a, lk (f a)) -> lk (mbind f m).
Proof. intros Hm Hf w Hw. specialize (Hm w Hw). unfold mbind, M_bind. destruct (m w) as [a w'| |]; [by apply Hf|done|done]. Qed.
Lemma lk_when (z : bool) (m : D unit) : (z = true -> lk m) -> lk (when z m).
Proof. destruct z; cbn; [auto|]. intros _. apply lk_ret. Qed.
Lemma lk_bug z : lk (dl_bug_on z).
Proof. destruct z; [apply lk_oops|apply lk_ret]. Qed.
Lemma lk_deref {A} (f : dlw -> option A) : lk (deref f).
Proof. intros w Hw. unfold deref. by destruct (f w). Qed.
Lemma lk_lift {A} (m : W A) : lk (lift_rt m).
Proof. intros w Hw. unfold lift_rt. by destruct (m (base w)). Qed.
Lemma lk_modify f : (forall w, dlt (f w) = dlt w) -> lk (modify f).
Proof. intros Hf w (e & He & Hl). cbn. exists e. by rewrite Hf. Qed.
Lemma lk_put_dl u e : (u = t -> lost e) -> lk (put_dl u e).
Proof.
  intros He w (e0 & He0 & Hl). cbn. unfold is_lost. cbn. rewrite lookup_insert. case_decide; [exists e; auto|by exists e0].
Qed.
(** what is read of the lost task *)
Lemma lk_get_dl {B} u (f : dl_entity -> D B) : (forall e, (u = t -> lost e) -> lk (f e)) -> lk (mbind f (get_dl u)).
Proof.
  intros Hf w Hw. unfold mbind, M_bind, get_dl, deref. destruct (dlt w !! u) as [e|] eqn:He; [|done]. apply Hf; [|done].
  intros ->. destruct Hw as (e0 & He0 & Hl). congruence.
Qed.
End Lost.

(** walks through the code *)
Ltac lk :=
  repeat (intros; lazymatch goal with
  | |- lk _ (mret _) => apply lk_ret
  | |- lk _ oops => apply lk_oops
  | |- lk _ block => apply lk_block
  | |- lk _ get => apply lk_get
  | |- lk _ (mbind _ (get_dl _)) => apply lk_get_dl
  | |- lk _ (mbind _ _) => apply lk_bind
  | |- lk _ (when _ _) => apply lk_when
  | |- lk _ (dl_bug_on _) => apply lk_bug
  | |- lk _ (deref _) => apply lk_deref
  | |- lk _ (lift_rt _) => apply lk_lift
  | |- lk _ (rq_of _) => apply lk_lift
  | |- lk _ (task_of _) => apply lk_lift
  | |- lk _ (cpu_of_task _) => apply lk_lift
  | |- lk _ (queued _) => apply lk_lift
  | |- lk _ (resched _) => apply lk_lift
  | |- lk _ (inc_nr_running _) => apply lk_lift
  | |- lk _ (dec_nr_running _) => apply lk_lift
  | |- lk _ (dl_rq_of _) => apply lk_deref
  | |- lk _ (modify _) => apply lk_modify; done
  | |- lk _ (put_dl_rq _ _) => apply lk_modify; done
  | |- lk _ (upd_dl_rq _ _) => unfold upd_dl_rq
  | |- lk _ (cpudl_upd _ _ _) => apply lk_modify; done
  | |- lk _ (if ?z then _ else _) => destruct z eqn:?
  | |- lk _ (match ?z with _ => _ end) => destruct z eqn:?
  | |- lk _ _ => solve [eauto with dl_lost]
  end).

Create HintDb dl_lost.

Section Keep.
Context {RL : RtLib} {DL : DlLib} {RB : RbLib}.
Implicit Types (w : dlw) (e : dl_entity) (x : dl_rq) (p : rt_task) (r : rq) (k : task_struct) (c d u : nat).
Variable t : nat.
#[local] Abbreviation lk := (lk t).

Lemma lk_set_overload c : lk (dl_set_overload c).
Proof. unfold dl_set_overload. lk. Qed.
Lemma lk_clear_overload c : lk (dl_clear_overload c).
Proof. unfold dl_clear_overload. lk. Qed.
#[local] Hint Resolve lk_set_overload lk_clear_overload : dl_lost.
Lemma lk_migration c : lk (update_dl_migration c).
Proof. unfold update_dl_migration. lk. Qed.
#[local] Hint Resolve lk_migration : dl_lost.
Lemma lk_pickable l c : lk (first_dl_pickable l c).
Proof. induction l as [|u l IH]; cbn; lk. Qed.
#[local] Hint Resolve lk_pickable : dl_lost.
Lemma lk_earliest c d : lk (pick_next_earliest_dl_task c d).
Proof. unfold pick_next_earliest_dl_task. lk. Qed.
#[local] Hint Resolve lk_earliest : dl_lost.
Lemma lk_next_deadline c : lk (next_deadline c).
Proof. unfold next_deadline. lk. Qed.
#[local] Hint Resolve lk_next_deadline : dl_lost.
Lemma lk_inc_tasks u c : lk (inc_dl_tasks u c).
Proof. unfold inc_dl_tasks, inc_dl_deadline, inc_dl_migration. lk. Qed.
Lemma lk_dec_tasks u c : lk (dec_dl_tasks u c).
Proof. unfold dec_dl_tasks, dec_dl_deadline, dec_dl_migration. lk. Qed.
#[local] Hint Resolve lk_inc_tasks lk_dec_tasks : dl_lost.

Lemma lk_put_other u e : u <> t -> lk (put_dl u e).
Proof. intros Hu. by apply lk_put_dl. Qed.
#[local] Hint Resolve lk_put_other : dl_lost.

(** the lost task is in no tree, so it is another one that moves *)
Lemma linked_other e u : (u = t -> lost e) -> rb_linked e = true -> u <> t.
Proof. intros He Hl E. destruct (He E) as (_ & _ & ? & _). congruence. Qed.
Lemma pushable_other e u : (u = t -> lost e) -> pushable_linked e = true -> u <> t.
Proof. intros He Hl E. destruct (He E) as (_ & _ & _ & ?). congruence. Qed.
Lemma free_other e u : (u = t -> lost e) -> dl_throttled e = false -> u <> t.
Proof. intros He Hl E. destruct (He E) as (? & _). congruence. Qed.

Lemma lk_dequeue_pushable c u : lk (dequeue_pushable_dl_task c u).
Proof.
  unfold dequeue_pushable_dl_task. apply lk_get_dl. intros e He. destruct (pushable_linked e) eqn:Hl; cbn [negb]; [|lk].
  pose proof (pushable_other e u He Hl). lk.
Qed.
Lemma lk_enqueue_pushable c u : u <> t -> lk (enqueue_pushable_dl_task c u).
Proof. intros Hu. unfold enqueue_pushable_dl_task. lk. Qed.
Lemma lk_enqueue_entity u : u <> t -> lk (__enqueue_dl_entity u).
Proof. intros Hu. unfold __enqueue_dl_entity. lk. Qed.
#[local] Hint Resolve lk_dequeue_pushable lk_enqueue_pushable lk_enqueue_entity : dl_lost.
Lemma lk_dequeue_task c u : lk (__dequeue_task_dl c u).
Proof.
  unfold __dequeue_task_dl. apply lk_bind; [|lk]. unfold __dequeue_dl_entity. apply lk_bind; [lk|]. intros d. apply lk_get_dl.
  intros e He. destruct (rb_linked e) eqn:Hl; cbn [negb]; [|lk]. pose proof (linked_other e u He Hl). lk.
Qed.
#[local] Hint Resolve lk_dequeue_task : dl_lost.
Lemma lk_enqueue_task c u flags : lk (enqueue_task_dl c u flags).
Proof.
  unfold enqueue_task_dl. apply lk_get_dl. intros e He. apply lk_bind; [lk|]. intros pi. destruct (dl_throttled e) eqn:Hth; [lk|].
  pose proof (free_other e u He Hth). unfold enqueue_dl_entity. lk.
Qed.
#[local] Hint Resolve lk_enqueue_task : dl_lost.

Lemma lk_update_curr c : lk (update_curr_dl c).
Proof.
  unfold update_curr_dl. apply lk_bind; [lk|]. intros r. apply lk_bind; [lk|]. intros p. apply lk_get_dl. intros e He.
  destruct (negb (dl_task p) || _) eqn:Eb; [lk|]. apply orb_false_iff in Eb as [_ Hl%negb_false_iff]. pose proof (linked_other e _ He Hl) as Hu.
  apply lk_bind; [lk|]. intros ?. destruct (dl_runtime_exceeded _ _) as [exc e1]. unfold start_dl_timer, upd_dl, account_rt_time. lk.
Qed.
#[local] Hint Resolve lk_update_curr : dl_lost.
Lemma lk_dequeue c u : lk (dequeue_task_dl c u).
Proof. unfold dequeue_task_dl. lk. Qed.
#[local] Hint Resolve lk_dequeue : dl_lost.
Lemma lk_yield c : lk (yield_task_dl c).
Proof.
  unfold yield_task_dl. apply lk_bind; [lk|]. intros r. apply lk_get_dl. intros e He. apply lk_bind; [|lk]. apply lk_when. intros _.
  apply lk_put_dl. intros E. destruct (He E) as (? & ? & ? & ?). done.
Qed.
Lemma lk_has_pushable c : lk (has_pushable_dl_tasks c).
Proof. unfold has_pushable_dl_tasks. lk. Qed.
#[local] Hint Resolve lk_yield lk_has_pushable : dl_lost.
Lemma lk_put_prev c u : lk (put_prev_task_dl c u).
Proof.
  unfold put_prev_task_dl. apply lk_bind; [lk|]. intros _. apply lk_get_dl. intros e He. apply lk_bind; [lk|]. intros p. apply lk_when.
  intros [Hl _]%andb_true_iff. pose proof (linked_other e u He Hl). lk.
Qed.
Lemma lk_set_cpus u m : lk (set_cpus_allowed_dl u m).
Proof.
  unfold set_cpus_allowed_dl. apply lk_bind; [lk|]. intros p. apply lk_bind; [lk|]. intros _. apply lk_get_dl. intros e He. cbv zeta.
  unfold on_dl_rq. destruct (rb_linked e) eqn:Hl; cbn [negb]; [|lk]. pose proof (linked_other e u He Hl). lk.
Qed.
Lemma lk_preempt c u : lk (check_preempt_curr_dl c u).
Proof. unfold check_preempt_curr_dl, check_preempt_equal_dl. lk. Qed.
#[local] Hint Resolve lk_put_prev lk_set_cpus lk_preempt : dl_lost.
Lemma lk_pick c : lk (pick_next_task_dl c).
Proof. unfold pick_next_task_dl. lk. Qed.
#[local] Hint Resolve lk_pick : dl_lost.

Section Contend.
Variables (getprio : nat -> Z -> Z) (contend : nat -> nat -> dlw -> option dlw) (fuel : nat).
(** those who interfere leave the task alone too *)
Hypothesis Hc : forall c d w w', contend c d w = Some w' -> is_lost t w -> is_lost t w'.

Lemma lk_double c d : lk (double_lock_dl contend c d).
Proof. intros w Hw. unfold double_lock_dl. destruct (contend c d w) as [w'|] eqn:E; [by eapply Hc|done]. Qed.
#[local] Hint Resolve lk_double : dl_lost.
Lemma lk_move c u d : lk (move_task_dl c u d).
Proof. unfold move_task_dl, deactivate_task_dl, activate_task_dl. lk. Qed.
Lemma lk_find_later u : lk (find_later_rq u).
Proof. unfold find_later_rq. lk. Qed.
#[local] Hint Resolve lk_move lk_find_later : dl_lost.
Lemma lk_find_lock n u c : lk (find_lock_later_rq contend n u c).
Proof. induction n as [|n IH]; cbn [find_lock_later_rq]; unfold still_there_dl; lk. Qed.
Lemma lk_pick_pushable c : lk (pick_next_pushable_dl_task c).
Proof. unfold pick_next_pushable_dl_task. lk. Qed.
#[local] Hint Resolve lk_find_lock lk_pick_pushable : dl_lost.
Lemma lk_retry n c u : lk (push_dl_retry contend n c u).
Proof. revert u. induction n as [|n IH]; intros u; cbn [push_dl_retry]; lk. Qed.
#[local] Hint Resolve lk_retry : dl_lost.
Lemma lk_push_task n c : lk (push_dl_task contend n c).
Proof. unfold push_dl_task. lk. Qed.
#[local] Hint Resolve lk_push_task : dl_lost.
Lemma lk_push_tasks n c : lk (push_dl_tasks contend n c).
Proof. induction n as [|n IH]; cbn [push_dl_tasks]; lk. Qed.
#[local] Hint Resolve lk_push_tasks : dl_lost.
Lemma lk_pull_from c d z : lk (pull_dl_from contend c d z).
Proof. unfold pull_dl_from. lk. Qed.
#[local] Hint Resolve lk_pull_from : dl_lost.
Lemma lk_pull_cpus c l z ret : lk (pull_dl_cpus contend c l z ret).
Proof. revert z ret. induction l as [|d l IH]; intros z ret; cbn [pull_dl_cpus]; lk. Qed.
#[local] Hint Resolve lk_pull_cpus : dl_lost.

Lemma lk_timer u : lk (dl_task_timer contend fuel u).
Proof.
  unfold dl_task_timer, upd_dl. apply lk_bind.
  { apply lk_get_dl. intros e He. apply lk_put_dl. intros E. by destruct (He E) as (? & ? & ? & ?). }
  intros _. apply lk_bind; [lk|]. intros c. apply lk_bind; [lk|]. intros p. apply lk_get_dl. intros e He.
  destruct (negb (dl_task p) || dl_new e) eqn:Eb; [lk|]. apply orb_false_iff in Eb as [_ Hn].
  assert (Hu : u <> t) by (intros E; destruct (He E) as (_ & ? & _); congruence). lk.
Qed.
#[local] Hint Resolve lk_timer : dl_lost.

Lemma lk_pull c : lk (pull_dl_task contend c).
Proof. unfold pull_dl_task, dl_overloaded_rd. lk. Qed.
#[local] Hint Resolve lk_pull : dl_lost.
Lemma lk_switched_to u c : lk (switched_to_dl contend fuel c u).
Proof. unfold switched_to_dl. lk. Qed.
#[local] Hint Resolve lk_switched_to : dl_lost.
Lemma lk_class_changed u c cl z : u <> t -> lk (check_class_changed_dl contend fuel c u cl z).
Proof. intros Hu. unfold check_class_changed_dl, switched_from_dl, prio_changed_dl. lk. Qed.
Lemma lk_setscheduler static u a : u <> t -> lk (__setscheduler static getprio u a).
Proof. intros Hu. unfold __setscheduler, __setparam_dl, init_dl_task_timer, upd_dl. lk. Qed.
Lemma lk_overflow u pol a : lk (dl_overflow u pol a).
Proof. unfold dl_overflow, dl_bw_cpus, set_total_bw. lk. Qed.
Lemma lk_set_curr c : lk (set_curr_task_dl c).
Proof. unfold set_curr_task_dl. lk. Qed.
#[local] Hint Resolve lk_class_changed lk_setscheduler lk_overflow lk_set_curr : dl_lost.

(** sched_setattr() of the task itself *)
Definition rescue (o : dl_op) : Prop := match o with DSched _ u _ => u = t | _ => False end.

Lemma lk_exec o : ~ rescue o -> lk (dl_exec getprio contend fuel o).
Proof.
  intros Ho. destruct o; cbn [dl_exec]; unfold ttwu_do_activate_dl, check_preempt_task_dl, task_woken_dl, schedule_out_dl, switch_dl, scheduler_tick_dl, task_tick_dl,
    do_set_cpus_allowed_dl, post_schedule_dl, pre_schedule_dl,
    set_rq_offline_dl, rq_offline_dl, set_rq_online_dl, rq_online_dl, sched_setscheduler_dl; lk.
Qed.

Lemma lost_for_ever w l w' :
  is_lost t w -> dl_steps getprio contend fuel w l w' -> (forall o, o ∈ l -> ~ rescue o) -> is_lost t w'.
Proof.
  intros Hw Hs. induction Hs as [w|w o w1 l w2 Hv E _ IH]; [done|]. intros Hl. apply IH; [|intros o' Ho'; apply Hl; by right].
  pose proof (lk_exec o (Hl o ltac:(by left)) w Hw) as H1. by rewrite E in H1.
Qed.
End Contend.
End Keep.

(** ** Yielding *)

Section Yield.
Context {RL : RtLib} {DL : DlLib} {RB : RbLib}.
Implicit Types (w : dlw) (e : dl_entity) (x : dl_rq) (p : rt_task) (r : rq) (k : task_struct) (c d t u : nat).

(** leaving the trees does not move the clocks *)
Definition clocks w : gmap nat Z * Z := (clock <$> rqs (base w), hrtime w).
Definition ck {A} (m : D A) : Prop := forall w, match m w with Ret _ w' => clocks w' = clocks w | _ => True end.

Lemma ck_ret {A} (a : A) : ck (mret a).
Proof. by intros w. Qed.
Lemma ck_oops {A} : ck (oops : D A).
Proof. by intros w. Qed.
Lemma ck_bind {A B} (m : D A) (f : A -> D B) : ck m -> (forall a, ck (f a)) -> ck (mbind f m).
Proof.
  intros Hm Hf w. specialize (Hm w). unfold mbind, M_bind. destruct (m w) as [a w'| |]; [|done|done].
  specialize (Hf a w'). destruct (f a w'); [congruence|done|done].
Qed.
Lemma ck_deref {A} (f : dlw -> option A) : ck (deref f).
Proof. intros w. unfold deref. by destruct (f w). Qed.
Lemma ck_modify f : (forall w, clocks (f w) = clocks w) -> ck (modify f).
Proof. intros Hf w. apply Hf. Qed.
Lemma ck_rq c : ck (rq_of c).
Proof. intros w. unfold rq_of, lift_rt, cpu_rq, deref. by destruct (rqs (base w) !! c). Qed.
Lemma ck_task u : ck (task_of u).
Proof. intros w. unfold task_of, lift_rt, get_rt, deref. by destruct (rts (base w) !! u). Qed.
Lemma ck_cpu u : ck (cpu_of_task u).
Proof.
  intros w. unfold cpu_of_task, lift_rt, task_cpu, lift_k, get_task, deref, mbind, M_bind. by destruct (tasks (krn (base w)) !! u).
Qed.
Lemma ck_dec c : ck (dec_nr_running c).
Proof.
  intros w. unfold dec_nr_running, lift_rt, cpu_rq, deref, mbind, M_bind. destruct (rqs (base w) !! c) as [r|] eqn:Hr; [|done].
  unfold put_rq, modify, clocks. cbn. f_equal. rewrite fmap_insert. apply insert_id. by rewrite lookup_fmap, Hr.
Qed.
End Yield.

Ltac ck :=
  repeat (intros; lazymatch goal with
  | |- ck (mret _) => apply ck_ret
  | |- ck oops => apply ck_oops
  | |- ck (mbind _ _) => apply ck_bind
  | |- ck (when ?z _) => destruct z; unfold when
  | |- ck (deref _) => apply ck_deref
  | |- ck (rq_of _) => apply ck_rq
  | |- ck (task_of _) => apply ck_task
  | |- ck (cpu_of_task _) => apply ck_cpu
  | |- ck (dec_nr_running _) => apply ck_dec
  | |- ck (dl_rq_of _) => apply ck_deref
  | |- ck (get_dl _) => apply ck_deref
  | |- ck (modify _) => apply ck_modify; done
  | |- ck (put_dl_rq _ _) => apply ck_modify; done
  | |- ck (put_dl _ _) => apply ck_modify; done
  | |- ck (upd_dl_rq _ _) => unfold upd_dl_rq
  | |- ck (cpudl_upd _ _ _) => apply ck_modify; done
  | |- ck (if ?z then _ else _) => destruct z
  | |- ck (match ?z with _ => _ end) => destruct z
  | |- ck _ => solve [auto]
  end).

Section Yields.
Context {RL : RtLib} {DL : DlLib} {RB : RbLib}.
Implicit Types (w : dlw) (e : dl_entity) (x : dl_rq) (p : rt_task) (r : rq) (k : task_struct) (c d t u : nat).

Lemma ck_pickable l c : ck (first_dl_pickable l c).
Proof. induction l as [|u l IH]; cbn; ck. Qed.
Lemma ck_dequeue_task c u : ck (__dequeue_task_dl c u).
Proof.
  assert (Hn : forall d, ck (next_deadline d)).
  { intros d. unfold next_deadline, pick_next_earliest_dl_task. apply ck_bind; [|ck]. apply ck_bind; [ck|]. intros x.
    destruct (rb_leftmost x); [apply ck_pickable|ck]. }
  unfold __dequeue_task_dl, __dequeue_dl_entity, dec_dl_tasks, dec_dl_deadline, dec_dl_migration, update_dl_migration,
    dl_set_overload, dl_clear_overload, dequeue_pushable_dl_task. ck.
Qed.

(** the timer of a throttled task can be set: its deadline is still to come *)
Definition timer_ahead w r e : Prop := 0 <= ktime_us_delta (s64 (deadline e + s64 (hrtime w - clock r))) (hrtime w).

Lemma swp_and {A} E (m : D A) w (P : A -> dlw -> Prop) (Q : dlw -> Prop) :
  swp E m w P -> (match m w with Ret _ w' => Q w' | _ => True end) -> swp E m w (fun a w' => P a w' /\ Q w').
Proof. unfold swp. by destruct (m w). Qed.

Lemma swp_both {A} E (m : D A) w (P Q : A -> dlw -> Prop) : swp E m w P -> swp E m w Q -> swp E m w (fun a w' => P a w' /\ Q a w').
Proof. unfold swp. by destruct (m w). Qed.
Lemma lk_account t c delta : lk t (account_rt_time c delta).
Proof. unfold account_rt_time. lk. Qed.

(** the running task, its budget used up before the deadline, is throttled *)
Lemma exceed_lost E wk run w t c x e p k r :
  dl_ok wk run w -> task_at w t c x e p k r -> rb_linked e = true -> dl_new e = true -> timer_ahead w r e ->
  swp E (__dequeue_task_dl c t ;;
         started ← start_dl_timer t (dl_boosted e);
         (if (started : bool) then upd_dl t (set_dl_throttled true) else enqueue_task_dl c t ENQUEUE_REPLENISH) ;;
         x ← dl_rq_of c;
         when (negb (is_leftmost t x)) (resched t)) w (fun _ w' => is_lost t w').
Proof.
  intros H A Hl Hn Ht. rewrite (eo_boost _ _ _ (a_ok _ _ _ _ _ _ _ _ A)). pose proof A as [[_ _ _ Hr _ _] _ _ _].
  eapply swp_seq.
  { exact (swp_and E _ w _ (fun w' => clocks w' = clocks w) (dequeue_task_step E wk run w t c x e p k r H A) (ck_dequeue_task c t w)). }
  intros _ w1 [(H1 & Hc1 & _ & x1 & p1 & r1 & A1 & _) Ec]. injection Ec as Ec Eh. pose proof A1 as [[Hx1 He1 Hp1 Hr1 _ _] Hk1 Hcp1 _].
  assert (Ecl : clock r1 = clock r).
  { assert (E1 : (clock <$> rqs (base w1)) !! c = (clock <$> rqs (base w)) !! c) by by rewrite Ec. rewrite !lookup_fmap, Hr, Hr1 in E1. by injection E1. }
  eapply (swp_seq _ _ _ _ (fun (started : bool) w2 => started = true /\ base w2 = base w1 /\ dls w2 = dls w1 /\
    exists z, dlt w2 !! t = Some (set_dl_timer z (unlinked e)))).
  { unfold start_dl_timer. do 2 dread. rewrite Hcp1. do 2 dread. cbv zeta. change (deadline (unlinked e)) with (deadline e). rewrite Ecl, Eh.
    destruct (Z.ltb_spec (ktime_us_delta (s64 (deadline e + s64 (hrtime w - clock r))) (hrtime w)) 0) as [Hlt|_]; [unfold timer_ahead in Ht; lia|].
    do 2 dread. split_and!; try done. eexists. apply lookup_insert_eq. }
  intros started w2 (-> & Eb & Es & z & He2). eapply (swp_seq _ _ _ _ (fun _ w3 => base w3 = base w1 /\ dls w3 = dls w1 /\ is_lost t w3)).
  { eapply swp_upd_dl; [exact He2|]. split_and!; try done. eexists. split; [apply lookup_insert_eq|]. done. }
  intros _ w3 (Eb3 & Es3 & Hlost). rewrite <- Es3 in Hx1. dread. apply swp_when; intros _; [|done].
  unfold resched. apply swp_calms; [apply resched_task_calm; rewrite Eb3; by eexists|]. by intros a b _.
Qed.

Lemma yield_lost E w c r p e :
  dl_sys w -> rqs (base w) !! c = Some r -> rts (base w) !! curr r = Some p -> dlt w !! curr r = Some e ->
  rb_linked e = true -> 0 < runtime e -> dl_time_before (deadline e) (clock r) = false -> timer_ahead w r e ->
  swp E (yield_task_dl c) w (fun _ w' => is_lost (curr r) w').
Proof.
  intros H Hr Hp He Hl Hrt Hd Ht. destruct (curr_at _ _ _ _ _ (dy_ok _ H) Hr) as (x & e0 & p0 & k & A). pose proof A as [[Hx He0 Hp0 _ _ _] Hk Hc Hok].
  assert (e0 = e) as -> by congruence. assert (p0 = p) as -> by congruence. set (t := curr r) in *.
  unfold yield_task_dl. do 2 dread. fold t. rewrite (proj2 (Z.ltb_lt 0 _) Hrt). cbn [when]. set (e1 := set_runtime 0 (set_dl_new true e)).
  assert (Hok1 : ent_ok (dom (dls w)) p e1).
  { destruct Hok as [[] ? Hpar ? ? ? ?]. split; try done. intros Hcl. destruct (Hpar Hcl). by split. }
  eapply swp_seq.
  { exact (swp_and E _ w _ (fun w' => hrtime w' = hrtime w) (put_entity_step E None (turns w) w t c x e p k r e1 (dy_ok _ H) A eq_refl eq_refl (fun _ => eq_refl) Hok1) eq_refl). }
  intros _ w1 [(H1 & Eb & Es & A1) Eh1]. pose proof A1 as [[Hx1 He1 Hp1 Hr1 _ _] Hk1 _ _]. unfold update_curr_dl. dread. fold t. do 2 dread.
  destruct (at_runnable H1 A1 Hl) as (_ & Hcl & _). rewrite (at_dl_task _ _ _ _ _ _ _ _ A1 Hcl). change (on_dl_rq e1) with (rb_linked e). rewrite Hl. cbn [negb orb].
  cbv zeta. set (dx := u64 _). set (delta := if _ <? 0 then 0 else _).
  assert (Hdl : 0 <= delta < 2 ^ 63).
  { unfold delta. destruct (Z.ltb_spec (s64 dx) 0) as [|Hge]; [lia|]. pose proof (u64_range (clock_task r - exec_start p)) as Hb. fold dx in Hb.
    split; [lia|]. destruct (Z_lt_ge_dec dx (2 ^ 63)); [done|]. unfold s64 in Hge. replace (dx + 2 ^ 63) with (dx - 2 ^ 63 + 1 * 2 ^ 64) in Hge by lia.
    rewrite Z.mod_add, Z.mod_small in Hge by lia. lia. }
  set (p' := set_exec_start _ _). assert (Hcp : calms (put_rt t p') (base w1)) by by eapply calms_put_rt.
  eapply swp_seq.
  { exact (swp_and E _ w1 _ (fun w' => rqs (base w') = rqs (base w1) /\ hrtime w' = hrtime w1)
      (calm_step E _ None (turns w) w1 t c x e1 p k r H1 A1 Hcp) (conj eq_refl eq_refl)). }
  intros _ w2 [(K2 & p2 & r2 & A2 & _) [Er2 Eh2]]. assert (r2 = r) as -> by (destruct A2 as [[] _ _ _]; congruence).
  set (e2 := set_runtime (s64 (runtime e1 - delta)) e1).
  assert (Eneg : runtime e2 = - delta) by (cbn; rewrite s64_id by lia; lia).
  assert (Ex : dl_runtime_exceeded (clock r) e2 = (true, e2)).
  { unfold dl_runtime_exceeded. change (deadline e2) with (deadline e). rewrite Hd. rewrite (proj2 (Z.leb_le (runtime e2) 0)) by lia. done. }
  fold e2. rewrite Ex.
  assert (Hok2 : ent_ok (dom (dls w2)) p2 e2) by by apply charged_ok, A2.
  eapply swp_seq.
  { exact (swp_and E _ w2 _ (fun w' => hrtime w' = hrtime w2) (put_entity_step E None (turns w) w2 t c x e1 p2 k r e2 (proj1 K2) A2 eq_refl eq_refl (fun _ => eq_refl) Hok2) eq_refl). }
  intros _ w3 [(H3 & Eb3 & Es3 & A3) Eh3]. cbn [when].
  assert (Ht3 : timer_ahead w3 r e2) by (unfold timer_ahead in *; by rewrite Eh3, Eh2, Eh1).
  eapply swp_seq; [exact (swp_both E _ w3 _ _ (exceed_step E None (turns w) w3 t c x e2 p2 k r H3 A3 Hl eq_refl)
    (exceed_lost E None (turns w) w3 t c x e2 p2 k r H3 A3 Hl eq_refl Ht3))|].
  intros _ w4 [K4 Hlost]. destruct (kept_rq_dl _ _ _ _ _ _ K4 (h_rrq _ _ _ _ _ _ _ (a_here _ _ _ _ _ _ _ _ A3))) as (r4 & Hr4 & _).
  destruct (curr_at _ _ _ _ _ (proj1 K4) Hr4) as (x4 & e4 & p4 & k4 & A4).
  eapply swp_cons; [exact (swp_and E _ w4 _ (is_lost t) (account_step E None (turns w) w4 _ c x4 e4 p4 k4 r4 delta (proj1 K4) A4) (lk_account t c delta w4 Hlost))|].
  by intros ? ? [].
Qed.
End Yields.

(** ** A machine for the deadline class

    [demo_dl] is one implementation of what the class takes from elsewhere:
    it shows that what the theorems assume of it can hold.  The machine has two
    CPUs, which run their idle tasks 0 and 1; tasks 2 and 3 of the class and
    task 4, a normal one, sleep on CPU 0. *)

(** the CPUs of [m] without a task of the class or, if there is none, one whose
    earliest deadline is later *)
Definition find_later (d : Z) (m : gset nat) (s : gmap nat Z) : option (nat * gset nat) :=
  let free := m ∖ dom s in
  match elements free with
  | c :: _ => Some (c, free)
  | [] =>
      match filter (fun c => dl_time_before d (default 0 (s !! c)) = true) (elements m) with
      | c :: _ => Some (c, {[c]})
      | [] => None
      end
  end.

#[export] Instance demo_dl : DlLib := {|
  cpudl := gmap nat Z;
  cpudl_set c d (valid : bool) s := if valid then <[c := d]> s else delete c s;
  cpudl_find := find_later;
  cpudl_find_null d m s := fst <$> find_later d m s;
  ktime_us_delta a b := (a - b) / 1000
|}.

Lemma find_later_mask d m s best later : find_later d m s = Some (best, later) -> best ∈ later /\ later ⊆ m.
Proof.
  unfold find_later. destruct (elements (m ∖ dom s)) as [|c l] eqn:E.
  - destruct (filter _ (elements m)) as [|c l] eqn:F; [done|]. intros [= <- <-]. split; [set_solver|].
    assert (Hc : c ∈ filter (fun c => dl_time_before d (default 0 (s !! c)) = true) (elements m)) by (rewrite F; by left).
    apply list_elem_of_filter in Hc as [_ Hc]. set_solver.
  - intros [= <- <-]. split; [|set_solver]. apply elem_of_elements. rewrite E. by left.
Qed.

#[export] Instance demo_dl_laws : DlLaws demo_dl := {| cpudl_find_mask := find_later_mask |}.

#[export] Existing Instance rb_plain.

Definition zero_dl_rq : dl_rq := DlRq rb_null None 0 0 0 0 false rb_null None.
Definition demo_entity (run per : Z) : dl_entity :=
  DlEntity run per per (to_ratio per run) 0 0 0 false true false None false false (-1) None.
Definition zero_entity : dl_entity := DlEntity 0 0 0 0 0 0 0 false false false None false false 120 None.

Definition demo_base : rtw :=
  RtW {[ 0%nat := demo_rq 950000000 0; 1%nat := demo_rq 950000000 1 ]}
    {[ 0%nat := demo_rt_task 140 0 idle_class {[0%nat]} true; 1%nat := demo_rt_task 140 0 idle_class {[1%nat]} true;
       2%nat := demo_rt_task (-1) 6 dl_class {[0%nat; 1%nat]} false; 3%nat := demo_rt_task (-1) 6 dl_class {[0%nat; 1%nat]} false;
       4%nat := demo_rt_task 120 0 fair_class {[0%nat; 1%nat]} false ]}
    (RootDomain {[0%nat; 1%nat]} ∅ 0 996147 419430) (init_rt_bandwidth 1000000000 950000000)
    {[ 0%nat := MAX_RT_PRIO; 1%nat := MAX_RT_PRIO ]} (Sysctls 1000000 950000 100 true true) {[0%nat; 1%nat]} 0 0
    (kernel_with {[ 0%nat := demo_task 0 true; 1%nat := demo_task 1 true; 2%nat := demo_task 0 false;
                    3%nat := demo_task 0 false; 4%nat := demo_task 0 false ]}).

Definition demo_dlw : dlw :=
  DlW demo_base {[ 0%nat := init_dl_rq zero_dl_rq; 1%nat := init_dl_rq zero_dl_rq ]}
    {[ 0%nat := zero_entity; 1%nat := zero_entity; 2%nat := demo_entity 4000000 20000000;
       3%nat := demo_entity 2000000 10000000; 4%nat := zero_entity ]}
    ∅ 0 ∅ 0 {[0%nat; 1%nat]}.

(** [ent_ok] as a list of facts *)
Lemma ent_ok_intro n p e :
  - 2 ^ 63 <= runtime e < 2 ^ 63 -> 0 <= deadline e < 2 ^ 64 -> dl_timer e = None ->
  (class p = dl_class -> params_ok e) -> dl_boosted e = false -> dl_task p = bool_decide (class p = dl_class) ->
  cpus_allowed p ⊆ n -> nr_cpus_allowed p = Z.of_nat (size (cpus_allowed p)) -> ent_ok n p e.
Proof. intros H1 H2 H3 H4 H5 H6 H7 H8. by split. Qed.

Lemma demo_dl_booted : booted_dl demo_dlw.
Proof.
  assert (Hd : dom (dls demo_dlw) = {[0%nat; 1%nat]}) by (vm_compute; reflexivity).
  assert (H1 : map_Forall (fun t p => exists e k, dlt demo_dlw !! t = Some e /\ tasks (krn (base demo_dlw)) !! t = Some k /\
      tcpu k ∈ dom (dls demo_dlw) /\ ent_ok (dom (dls demo_dlw)) p e) (rts (base demo_dlw))).
  { rewrite Hd. each_entry; try apply map_Forall_empty; eexists _, _; (split; [reflexivity|]); (split; [reflexivity|]); (split; [cbn; set_solver|]);
      apply ent_ok_intro; first [done|set_solver|by intros _; split]. }
  assert (H2 : map_Forall (fun (t : nat) e => rb_linked e = false /\ pushable_linked e = false) (dlt demo_dlw)) by (each_entry; done).
  assert (H3 : map_Forall (fun c r => exists p k, rts (base demo_dlw) !! curr r = Some p /\ on_cpu p = true /\
      tasks (krn (base demo_dlw)) !! curr r = Some k /\ tcpu k = c) (rqs (base demo_dlw))).
  { each_entry; try apply map_Forall_empty; eexists _, _; (split; [reflexivity|]); (split; [reflexivity|]); (split; [reflexivity|]); reflexivity. }
  assert (H4 : map_Forall (fun (c : nat) x => x = init_dl_rq zero_dl_rq) (dls demo_dlw)) by (each_entry; done).
  split.
  - rewrite Hd. vm_compute. reflexivity.
  - intros c x Hx. exists zero_dl_rq. by rewrite (H4 c x Hx).
  - exact H1.
  - exact H2.
  - exact H3.
  - done.
  - done.
  - apply kernel_with_ok; [|done]. each_entry; done.
Qed.

(** ** Runs of the machine *)

Definition own_prio (t : nat) (n : Z) : Z := n.
Definition calm_dl : nat -> nat -> dlw -> option dlw := fun _ _ _ => None.
Definition run_dl (o : dl_op) (w : dlw) : dlw :=
  match dl_exec own_prio calm_dl 9 o w with Ret _ w' => w' | _ => w end.
Definition ends {A} (o : outcome dlw A) : bool := match o with Ret _ _ => true | _ => false end.

Lemma calm_dl_polite : polite_dl calm_dl.
Proof. done. Qed.

(** the conditions of the events, as tests *)
Definition class_test (w : dlw) (t : nat) (f : rt_task -> task_struct -> bool) : bool :=
  match rts (base w) !! t, tasks (krn (base w)) !! t with Some p, Some k => f p k | _, _ => false end.
Definition dl_valid_test (w : dlw) (o : dl_op) : bool :=
  let has c := match rqs (base w) !! c with Some _ => true | None => false end in
  let foreign c t := class_test w t (fun p k => bool_decide (class p <> dl_class) && bool_decide (tcpu k = c)) in
  match o with
  | DWake t => class_test w t (fun p k => bool_decide (class p = dl_class) && negb (on_rq k))
  | DTick c | DYield c | DSleep _ c =>
      match rqs (base w) !! c with
      | Some r => class_test w (curr r) (fun p k => bool_decide (class p = dl_class) && on_rq k)
      | None => false
      end
  | DSwitch None lo c => has c && foreign c lo
  | DTimer t => match rts (base w) !! t, dlt w !! t with
                | Some _, Some e => bool_decide (dl_timer e <> None)
                | _, _ => false
                end
  | DClock _ _ _ => true
  | DSched static t a =>
      match rts (base w) !! t with
      | Some p =>
          if dl_policy (set_policy_of p a) then
            (0 <? sched_runtime a) && (sched_runtime a <? 2 ^ 63) && (0 <? sched_deadline a) && (sched_deadline a <? 2 ^ 63)
            && (0 <=? sched_period a) && (sched_period a <? 2 ^ 63)
          else 0 <=? attr_normal static p a
      | None => false
      end
  | _ => false
  end.

Lemma class_test_true w t f :
  class_test w t f = true -> exists p k, rts (base w) !! t = Some p /\ tasks (krn (base w)) !! t = Some k /\ f p k = true.
Proof.
  unfold class_test. destruct (rts (base w) !! t) as [p|]; [|done]. destruct (tasks (krn (base w)) !! t) as [k|]; [|done]. by exists p, k.
Qed.

Lemma dl_valid_true w o : dl_valid_test w o = true -> dl_valid own_prio w o.
Proof.
  destruct o as [t|z c|[u|] lo c|c|c|t|t m|c|c prev|n j h|c|c|static t a]; cbn; try done.
  - intros (p & k & Hp & Hk & [H1%bool_decide_eq_true H2%negb_true_iff]%andb_true_iff)%class_test_true. by exists p, k.
  - destruct (rqs (base w) !! c) as [r|] eqn:Hr; [|done].
    intros (p & k & Hp & Hk & [H1%bool_decide_eq_true H2]%andb_true_iff)%class_test_true. by exists r, p, k.
  - destruct (rqs (base w) !! c) as [r|] eqn:Hr; [|done]. cbn.
    intros (p & k & Hp & Hk & [H1%bool_decide_eq_true H2%bool_decide_eq_true]%andb_true_iff)%class_test_true.
    split; [by eexists|]. split; [done|]. by exists p, k.
  - destruct (rqs (base w) !! c) as [r|] eqn:Hr; [|done].
    intros (p & k & Hp & Hk & [H1%bool_decide_eq_true H2]%andb_true_iff)%class_test_true. by exists r, p, k.
  - destruct (rqs (base w) !! c) as [r|] eqn:Hr; [|done].
    intros (p & k & Hp & Hk & [H1%bool_decide_eq_true H2]%andb_true_iff)%class_test_true. by exists r, p, k.
  - destruct (rts (base w) !! t) as [p|] eqn:Hp; [|done]. destruct (dlt w !! t) as [e|] eqn:He; [|done].
    intros H%bool_decide_eq_true. by exists p, e.
  - destruct (rts (base w) !! t) as [p|] eqn:Hp; [|done]. intros H. exists p. split; [done|]. split; [done|..]; intros Ed; rewrite Ed in H.
    + rewrite !andb_true_iff, !Z.ltb_lt, Z.leb_le in H. lia.
    + by apply Z.leb_le in H.
Qed.

(** runs of valid events that all return *)
Fixpoint run_all (l : list dl_op) (w : dlw) : dlw := match l with [] => w | o :: l => run_all l (run_dl o w) end.
Fixpoint run_test (l : list dl_op) (w : dlw) : bool :=
  match l with
  | [] => true
  | o :: l => dl_valid_test w o && ends (dl_exec own_prio calm_dl 9 o w) && run_test l (run_dl o w)
  end.

Lemma run_steps l w : run_test l w = true -> dl_steps own_prio calm_dl 9 w l (run_all l w).
Proof.
  revert w. induction l as [|o l IH]; intros w; cbn [run_test run_all]; [constructor|].
  intros [[H1%dl_valid_true H2]%andb_true_iff H3]%andb_true_iff. apply (dl_steps_cons _ _ _ _ _ (run_dl o w)); [done| |by apply IH].
  unfold run_dl. by destruct (dl_exec own_prio calm_dl 9 o w) as [[]| |].
Qed.

Lemma run_sys l w : dl_sys w -> run_test l w = true -> dl_sys (run_all l w).
Proof. intros H Hl. exact (proj1 (dl_steps_inv _ _ _ _ _ _ calm_dl_polite H (run_steps l w Hl))). Qed.
