(* ===== verification/DlProps.v ===== *)
(** * The deadline class: the order of the tree, and the properties *)

From S2P Require Import Prelude Wait Tasklet Cmgroup Sched CmInv CmTask CmSys CmTop EpTree RtRq RtPush RtInv.
From S2P Require Import RtBalance RtStep RtBoot.
From S2P Require Import DlRq DlPush DlCbs DlInv DlOps DlStep DlMove DlEvent DlSwitch DlSched DlSys DlBoot.
Local Open Scope Z_scope.

(** ** The order of the tree

    While the deadlines in a tree are less than 2^63 ns apart, the walk of
    __enqueue_dl_entity() puts a task behind all tasks whose deadline is not
    later, so the tree stays in deadline order and the leftmost task has the
    earliest deadline. *)

Definition dl_of (ents : gmap nat dl_entity) (t : nat) : Z := from_option deadline 0 (ents !! t).

(** the list in the order of the deadlines, as numbers *)
Definition edf (ents : gmap nat dl_entity) (l : list nat) : Prop := by_key (dl_of ents) l.

(** the deadlines can be compared with [d] *)
Definition comparable (ents : gmap nat dl_entity) (d : Z) (l : list nat) : Prop :=
  forall u, u ∈ l -> - 2 ^ 63 <= d - dl_of ents u < 2 ^ 63.

(** the reference: [t] goes behind those whose deadline is not later *)
Definition edf_insert (ents : gmap nat dl_entity) (t : nat) (d : Z) (l : list nat) : list nat := key_insert (dl_of ents) t d l.

(** the walk down the tree is the reference insertion *)
Lemma dl_link_edf (ents : gmap nat dl_entity) t d p p' (left : bool) :
  dl_link ents t d p = Some (p', left) -> edf ents (inorder p) -> comparable ents d (inorder p) ->
  inorder p' = edf_insert ents t d (inorder p).
Proof.
  intros Hl Hs Hc. apply (rb_walk_by_key _ _ _ _ _ _ _ Hl Hs). intros u b Hu Hb. specialize (Hc u Hu). unfold dl_of in *.
  destruct (ents !! u) as [e|]; [|done]. injection Hb as <-. by apply dl_before.
Qed.

(** the run queue *)

Section Queue.
Context {RL : RtLib} {DL : DlLib} {RB : RbLib}.
Implicit Types (w : dlw) (e : dl_entity) (x : dl_rq) (p : rt_task) (r : rq) (k : task_struct) (c t u : nat).

Lemma dl_of_insert (ents : gmap nat dl_entity) t e f u : ents !! t = Some e -> deadline f = deadline e -> dl_of (<[t := f]> ents) u = dl_of ents u.
Proof. intros He Ed. unfold dl_of. rewrite lookup_insert. case_decide; [subst u; by rewrite He; cbn|done]. Qed.

Lemma pick_edf w c r x :
  dl_sys w -> rqs (base w) !! c = Some r -> dls w !! c = Some x -> edf (dlt w) (inorder (dl_root x)) ->
  exists o w', pick_next_task_dl c w = Ret o w' /\ o = head (inorder (dl_root x)) /\
    forall t u, o = Some t -> u ∈ inorder (dl_root x) -> dl_of (dlt w) t <= dl_of (dlt w) u.
Proof.
  intros H Hr Hx Hs. destruct (swp_ends _ _ _ (pick_step False None (turns w) w c r x (dy_ok _ H) Hr Hx)) as (o & w' & E & Eo & _).
  exists o, w'. split_and!; [done|done|]. intros t u -> Hu. destruct (inorder (dl_root x)) as [|v l]; [done|]. injection Eo as ->.
  apply by_key_cons in Hs as [_ Hs]. apply elem_of_cons in Hu as [->|Hu]; [lia|auto].
Qed.

Lemma enqueue_edf w t c x e p k r :
  dl_sys w -> task_at w t c x e p k r -> rb_linked e = false -> edf (dlt w) (inorder (dl_root x)) ->
  comparable (dlt w) (deadline e) (inorder (dl_root x)) ->
  exists w' x', __enqueue_dl_entity t w = Ret tt w' /\ dls w' !! c = Some x' /\
    inorder (dl_root x') = edf_insert (dlt w) t (deadline e) (inorder (dl_root x)) /\ edf (dlt w') (inorder (dl_root x')).
Proof.
  intros H A Hl Hs Hc. pose proof (dy_ok _ H) as D. pose proof A as [Hh Hk Hcp _]. assert (Hn : t ∉ inorder (dl_root x)) by (rewrite (at_linked D A); congruence).
  destruct (swp_ends _ _ _ (enqueue_entity_ok_dl False w t k c x e p r Hk Hcp Hh (at_q D A) (at_present D A) (at_len D A) Hl Hn))
    as ([] & w' & E & _ & x' & tr & left & Hlk & S & _ & Er & _). exists w', x'. split; [done|]. split; [by eapply stepped_rq|].
  rewrite Er, (dl_link_edf _ _ _ _ _ _ Hlk Hs Hc). split; [done|]. pose proof (h_ent _ _ _ _ _ _ _ Hh) as He.
  eapply by_key_ext; [|apply key_insert_sorted; [|exact Hs]].
  - intros u _. rewrite (st_dlt _ _ _ _ _ _ S). by apply (dl_of_insert _ _ e).
  - unfold dl_of. by rewrite He.
Qed.

Lemma dequeue_edf w t c x e p k r :
  dl_sys w -> task_at w t c x e p k r -> rb_linked e = true -> edf (dlt w) (inorder (dl_root x)) ->
  exists w' x', __dequeue_dl_entity t w = Ret tt w' /\ dls w' !! c = Some x' /\
    inorder (dl_root x') = filter (fun u => u <> t) (inorder (dl_root x)) /\ edf (dlt w') (inorder (dl_root x')).
Proof.
  intros H A Hl Hs. pose proof (dy_ok _ H) as D. pose proof A as [Hh Hk Hcp _]. pose proof (h_ent _ _ _ _ _ _ _ Hh) as He.
  destruct (swp_ends _ _ _ (dequeue_entity_ok False w t k c x e p r Hk Hcp Hh (at_q D A) (at_present D A) (at_len D A) Hl (proj2 (at_linked D A) Hl)))
    as ([] & w' & E & _ & x1 & x' & S & Hct & _ & Er & _). exists w', x'. split; [done|]. split; [by eapply stepped_rq|].
  assert (Er' : inorder (dl_root x') = filter (fun u => u <> t) (inorder (dl_root x))) by (destruct Hct as [-> _ _ _ _ _ _]; done).
  split; [done|]. rewrite Er'. eapply by_key_ext; [|by apply by_key_filter].
  intros u _. rewrite (st_dlt _ _ _ _ _ _ S). by apply (dl_of_insert _ _ e).
Qed.
End Queue.

(** ** The properties *)

Section Props.
Context {RL : RtLib} {DL : DlLib} {LL : DlLaws DL} {RB : RbLib}.
Implicit Types (w : dlw) (r : rq) (x : dl_rq) (e pi : dl_entity) (p : rt_task) (k : task_struct) (a : sched_attr) (c d t u : nat).


(** C20: earliest deadline first.  When the tree of a CPU is in the order of the
    deadlines, pick_next_task_dl() returns a task with the earliest deadline, or
    nothing if the tree is empty; queueing a task whose deadline is less than
    2^63 ns from the others puts it behind those with the same deadline and keeps
    the order; so does taking a task off. *)
Theorem dl_edf w c r x :
  dl_sys w -> rqs (base w) !! c = Some r -> dls w !! c = Some x -> edf (dlt w) (inorder (dl_root x)) ->
  (exists o w', pick_next_task_dl c w = Ret o w' /\ o = head (inorder (dl_root x)) /\
    forall t u, o = Some t -> u ∈ inorder (dl_root x) -> dl_of (dlt w) t <= dl_of (dlt w) u) /\
  (forall t e p k, task_at w t c x e p k r -> rb_linked e = false -> comparable (dlt w) (deadline e) (inorder (dl_root x)) ->
    exists w' x', __enqueue_dl_entity t w = Ret tt w' /\ dls w' !! c = Some x' /\
      inorder (dl_root x') = edf_insert (dlt w) t (deadline e) (inorder (dl_root x)) /\ edf (dlt w') (inorder (dl_root x'))) /\
  (forall t e p k, task_at w t c x e p k r -> rb_linked e = true ->
    exists w' x', __dequeue_dl_entity t w = Ret tt w' /\ dls w' !! c = Some x' /\
      inorder (dl_root x') = filter (fun u => u <> t) (inorder (dl_root x)) /\ edf (dlt w') (inorder (dl_root x'))).
Proof.
  intros H Hr Hx Hs. split; [by eapply pick_edf|]. split; intros t e p k A Hl.
  - intros Hc. by eapply enqueue_edf.
  - by eapply dequeue_edf.
Qed.

(** C21: replenish_dl_entity() returns: its loop ends after the least number
    [k] of instances that make the runtime positive.  If the deadline has moved
    by [k] periods to a time that is not past, the entity keeps what is left of
    the last instance; otherwise a whole new instance starts now.  In both cases
    there is some runtime, and not more than that of one instance. *)
Theorem dl_replenish now pi e :
  params_ok pi -> budget_ok e -> dl_deadline e <> 0 -> runtime e <= 0 ->
  exists (k : Z) e', replenish_dl_entity now pi e = Some e' /\ 0 < k /\
    runtime e + (k - 1) * dl_runtime pi <= 0 < runtime e + k * dl_runtime pi /\
    (e' = set_runtime (runtime e + k * dl_runtime pi) (set_deadline (u64 (deadline e + k * dl_period pi)) e) /\
       dl_time_before (deadline e') now = false \/
     e' = renew now pi e /\ dl_time_before (u64 (deadline e + k * dl_period pi)) now = true) /\
    0 < runtime e' <= dl_runtime pi.
Proof.
  intros Hpi Hb Hd Hr. pose proof Hpi as [Hp _ _]. set (k := instances (dl_runtime pi) (runtime e)).
  destruct (instances_pays (dl_runtime pi) (runtime e)) as [Hk1 Hk]; [lia|done|]. fold k in Hk1, Hk.
  exists k. rewrite replenish_eq by done. cbv zeta. fold k. eexists. split; [done|]. split; [done|]. split; [lia|].
  destruct (dl_time_before (deadline (advance k _ _ e)) now) eqn:E.
  - split; [right; by split|]. cbn. rewrite s64_id by lia. lia.
  - split; [left; by split|]. cbn. lia.
Qed.

(** ** The test at a wake-up *)

Lemma scaled z : 0 <= z -> Z.shiftr z DL_SCALE * 1024 <= z <= Z.shiftr z DL_SCALE * 1024 + 1023 /\ 0 <= Z.shiftr z DL_SCALE.
Proof.
  intros Hz. unfold DL_SCALE. rewrite Z.shiftr_div_pow2 by lia. change (2 ^ 10) with 1024.
  pose proof (Z.div_mod z 1024 ltac:(lia)). pose proof (Z.mod_pos_bound z 1024 ltac:(lia)). pose proof (Z.div_pos z 1024 Hz ltac:(lia)). lia.
Qed.

(** the rounding of a product *)
Lemma scaled_product y z : 0 <= y -> 0 <= z ->
  Z.shiftr y DL_SCALE * Z.shiftr z DL_SCALE * 2 ^ 20 <= y * z <=
  Z.shiftr y DL_SCALE * Z.shiftr z DL_SCALE * 2 ^ 20 + 1023 * (y + z).
Proof. intros Hy Hz. destruct (scaled y Hy), (scaled z Hz). change (2 ^ 20) with (1024 * 1024). nia. Qed.

Lemma scaled_small y z : 0 <= y < 2 ^ 41 -> 0 <= z < 2 ^ 41 -> 0 <= Z.shiftr y DL_SCALE * Z.shiftr z DL_SCALE < 2 ^ 62.
Proof.
  intros Hy Hz. destruct (scaled y), (scaled z); [lia..|].
  assert (Z.shiftr y DL_SCALE < 2 ^ 31 /\ Z.shiftr z DL_SCALE < 2 ^ 31) as [] by (change (2 ^ 41) with (2 ^ 31 * 1024) in *; lia).
  change (2 ^ 62) with (2 ^ 31 * 2 ^ 31). nia.
Qed.

Lemma overflow_eq now pi e :
  now <= deadline e < now + 2 ^ 41 -> 0 <= runtime e < 2 ^ 41 -> 0 <= dl_runtime pi < 2 ^ 41 -> 0 <= dl_period pi < 2 ^ 41 ->
  dl_entity_overflow now pi e =
    (Z.shiftr (deadline e - now) DL_SCALE * Z.shiftr (dl_runtime pi) DL_SCALE <?
     Z.shiftr (dl_period pi) DL_SCALE * Z.shiftr (runtime e) DL_SCALE).
Proof.
  intros Hd Hr Hrun Hper. unfold dl_entity_overflow. cbv zeta. rewrite (u64_id (deadline e - now)) by lia.
  pose proof (scaled_small (deadline e - now) (dl_runtime pi) ltac:(lia) Hrun).
  pose proof (scaled_small (dl_period pi) (runtime e) Hper Hr). rewrite !u64_id by lia. apply dl_before. lia.
Qed.

(** the rule of the constant bandwidth server for a task that wakes up
    before its deadline, for times below 2^41 ns (about 36 minutes): it keeps
    its deadline and what is left of its runtime unless that is more than the
    bandwidth dl_runtime / dl_period allows until the deadline.  The test is
    made in units of 1024 ns; the two last parts bound what the rounding does:
    a task that keeps its deadline exceeds the bandwidth by no more than the
    first error term, and one that gets a new deadline was above it, or below
    it by less than the second. *)
Theorem dl_wakeup_rule now pi e :
  dl_new e = false -> now <= deadline e < now + 2 ^ 41 ->
  0 <= runtime e < 2 ^ 41 -> 0 <= dl_runtime pi < 2 ^ 41 -> 0 <= dl_period pi < 2 ^ 41 ->
  let left := deadline e - now in
  update_dl_entity now pi e = e /\ dl_period pi * runtime e <= left * dl_runtime pi + 1023 * (dl_period pi + runtime e) \/
  update_dl_entity now pi e = renew now pi e /\ left * dl_runtime pi < dl_period pi * runtime e + 1023 * (left + dl_runtime pi).
Proof.
  intros Hn Hd Hr Hrun Hper left. unfold update_dl_entity. rewrite Hn, overflow_eq, dl_before by lia.
  rewrite (proj2 (Z.ltb_ge _ _)) by lia. cbn [orb]. fold left. assert (Hl : 0 <= left) by (unfold left; lia).
  pose proof (scaled_product left (dl_runtime pi) Hl ltac:(lia)). pose proof (scaled_product (dl_period pi) (runtime e) ltac:(lia) ltac:(lia)).
  destruct (Z.ltb_spec (Z.shiftr left DL_SCALE * Z.shiftr (dl_runtime pi) DL_SCALE) (Z.shiftr (dl_period pi) DL_SCALE * Z.shiftr (runtime e) DL_SCALE)).
  - right. split; [done|]. lia.
  - left. split; [done|]. lia.
Qed.



(** a task that left the class and comes back with the same bandwidth is
    admitted without a test and nothing is booked, because dl_overflow()
    compares with the bandwidth it had before; when it leaves again, the bandwidth
    it never booked is subtracted, and the sum wraps around if it was
    smaller. *)
Theorem dl_readmission_unaccounted w t a e p :
  dlt w !! t = Some e -> rts (base w) !! t = Some p -> task_has_dl_policy p = false -> 0 < se_bw e < 2 ^ 64 -> attr_bw a = se_bw e ->
  dl_overflow t SCHED_DEADLINE a w = Ret 0 w /\
  (forall w1 e1 p1 policy b, dlt w1 !! t = Some e1 -> rts (base w1) !! t = Some p1 -> se_bw e1 = se_bw e ->
    task_has_dl_policy p1 = true -> dl_policy policy = false -> 0 <= total_bw w1 < se_bw e ->
    dl_overflow t policy b w1 = Ret 0 (rebook (2 ^ 64 - (se_bw e - total_bw w1)) w1)).
Proof.
  intros He Hp _ Hb Ea. split.
  - rewrite (dl_overflow_eq w t _ a e p He Hp). change (dl_policy SCHED_DEADLINE) with true. cbv zeta. by rewrite Ea, Z.eqb_refl.
  - intros w1 e1 p1 policy b He1 Hp1 Eb Ht Hd Hw. rewrite (dl_overflow_eq w1 t policy b e1 p1 He1 Hp1), Hd, Ht, Eb. cbv zeta.
    rewrite (proj2 (Z.eqb_neq 0 _)) by lia. do 2 f_equal. unfold u64.
    replace (total_bw w1 - se_bw e) with (2 ^ 64 - (se_bw e - total_bw w1) + (-1) * 2 ^ 64) by lia. rewrite Z.mod_add, Z.mod_small by lia. done.
Qed.
End Props.

(** ** The ends of the ranges

    With times of 2^42 ns the test at a wake-up can go the wrong way: almost all
    of the runtime is left and the deadline is near, but the products differ by
    more than 2^63.  A runtime of 2^44 ns has no bandwidth, and values with
    the top bit set are accepted.  A negative policy other than -1 is taken for the old one by
    the checks, and stored by __setscheduler(). *)

Definition long_entity : dl_entity :=
  set_runtime (2 ^ 41 + 2 ^ 11) (set_deadline (2 ^ 20 + 1024) (set_dl_new false (demo_entity (2 ^ 42) (2 ^ 42)))).
Example wakeup_overflows :
  update_dl_entity (2 ^ 20) long_entity long_entity = long_entity /\
  (deadline long_entity - 2 ^ 20) * dl_runtime long_entity + 1023 * (dl_period long_entity + runtime long_entity) <
    dl_period long_entity * runtime long_entity.
Proof. split; vm_compute; reflexivity. Qed.
Example ratio_overflows : to_ratio (2 ^ 44) (2 ^ 44) = 0 /\ __checkparam_dl (SchedAttr SCHED_DEADLINE 0 0 0 (2 ^ 44) (2 ^ 44) (2 ^ 44)) = true.
Proof. split; vm_compute; reflexivity. Qed.
Example params_unchecked : __checkparam_dl (SchedAttr SCHED_DEADLINE 0 0 0 (2 ^ 63) (2 ^ 63) (2 ^ 63)) = true.
Proof. vm_compute. reflexivity. Qed.
Example policy_unchecked p a : sched_policy a = 2 ^ 32 - 5 -> check_policy_of p a = policy p /\ set_policy_of p a = -5.
Proof. intros H. unfold check_policy_of, set_policy_of. rewrite H. by vm_compute. Qed.

(** ** The properties on the small machine *)

Definition ent_at (w : dlw) (t : nat) : dl_entity := default zero_entity (dlt w !! t).
Definition rt_at (w : dlw) (t : nat) : rt_task := default (demo_rt_task 0 0 idle_class ∅ false) (rts (base w) !! t).
Definition rq_at (w : dlw) (c : nat) : rq := default (demo_rq 0 0) (rqs (base w) !! c).
Definition dl_rq_at (w : dlw) (c : nat) : dl_rq := default zero_dl_rq (dls w !! c).

(** tasks 2 and 3 wake up and CPU 0 runs task 3, whose deadline is earlier *)
Definition demo_wakes : list dl_op := [DClock 1000 0 1000; DWake 2; DWake 3; DSwitch None 0 0].
Definition demo_runs : dlw := run_all demo_wakes demo_dlw.
(** task 3 yields; its timer expires *)
Definition demo_yields : list dl_op := [DYield 0; DSwitch None 0 0; DClock 30000000 30 30000000; DTimer 3].

Lemma demo_runs_steps : dl_steps own_prio calm_dl 9 demo_dlw demo_wakes demo_runs.
Proof. apply run_steps. vm_compute. reflexivity. Qed.
Lemma demo_runs_sys : dl_sys demo_runs.
Proof. apply run_sys; [apply booted_dl_sys, demo_dl_booted|vm_compute; reflexivity]. Qed.


Lemma dl_edf_witness :
  inorder (dl_root (dl_rq_at demo_runs 0)) = [3%nat; 2%nat] /\
  exists o w', pick_next_task_dl 0 demo_runs = Ret o w' /\ o = head (inorder (dl_root (dl_rq_at demo_runs 0))) /\
    forall t u, o = Some t -> u ∈ inorder (dl_root (dl_rq_at demo_runs 0)) -> dl_of (dlt demo_runs) t <= dl_of (dlt demo_runs) u.
Proof.
  assert (El : inorder (dl_root (dl_rq_at demo_runs 0)) = [3%nat; 2%nat]) by (vm_compute; reflexivity). split; [done|].
  destruct (dl_edf demo_runs 0 (rq_at demo_runs 0) (dl_rq_at demo_runs 0) demo_runs_sys) as (H & _); [vm_compute; reflexivity..| |exact H].
  rewrite El. apply by_key_cons. split; [repeat constructor|]. intros u Hu. apply list_elem_of_singleton in Hu as ->. vm_compute. discriminate.
Defined.

Lemma dl_replenish_witness :
  exists (k : Z) e', replenish_dl_entity 30000000 (demo_entity 2000000 10000000) (set_runtime (-5000000) (set_deadline 10000000 (demo_entity 2000000 10000000))) = Some e' /\
    0 < k /\ 0 < runtime e' <= 2000000.
Proof.
  destruct (dl_replenish 30000000 (demo_entity 2000000 10000000) (set_runtime (-5000000) (set_deadline 10000000 (demo_entity 2000000 10000000))))
    as (k & e' & E & Hk & _ & _ & Hr); [by split|by split|done|cbn; lia|]. by exists k, e'.
Defined.

(** half of the runtime is left: 1 ms of 2 ms, with 6 ms of the 10 ms to go *)
Definition half_used : dl_entity := set_dl_new false (set_runtime 1000000 (set_deadline 16000000 (demo_entity 2000000 10000000))).

Lemma dl_wakeup_rule_witness :
  update_dl_entity 10000000 half_used half_used = half_used /\
    10000000 * 1000000 <= 6000000 * 2000000 + 1023 * 11000000 \/
  update_dl_entity 10000000 half_used half_used = renew 10000000 half_used half_used /\
    6000000 * 2000000 < 10000000 * 1000000 + 1023 * 8000000.
Proof. apply (dl_wakeup_rule 10000000 half_used half_used); cbn; [reflexivity|lia|lia|lia|lia]. Defined.

Lemma demo_yields_alone o : o ∈ tail demo_yields -> ~ rescue 3 o.
Proof. intros Ho. repeat (apply elem_of_cons in Ho as [->|Ho]; [exact id|]). by apply elem_of_nil in Ho. Qed.


(** a tenth of a CPU *)
Definition tenth : sched_attr := SchedAttr SCHED_DEADLINE 0 0 0 1000000 10000000 10000000.
Definition ordinary : sched_attr := SchedAttr SCHED_NORMAL 0 0 0 0 0 0.


(** tasks 2 and 3 leave the class; task 4 enters it, leaves and comes back *)
Definition demo_left : dlw := run_all [DSched 120 2 ordinary; DSched 120 3 ordinary; DSched 120 4 tenth; DSched 120 4 ordinary] demo_dlw.
Definition demo_back : dlw := run_dl (DSched 120 4 tenth) demo_left.

Lemma dl_readmission_unaccounted_witness :
  total_bw demo_back = 0 /\ task_has_dl_policy (rt_at demo_back 4) = true /\
  dl_overflow 4 SCHED_NORMAL ordinary demo_back = Ret 0 (rebook (2 ^ 64 - 104857) demo_back).
Proof.
  split; [vm_compute; reflexivity|]. split; [vm_compute; reflexivity|].
  destruct (dl_readmission_unaccounted demo_left 4 tenth (ent_at demo_left 4) (rt_at demo_left 4)) as [_ H];
    [vm_compute; reflexivity|vm_compute; reflexivity|vm_compute; reflexivity|vm_compute; split; reflexivity|vm_compute; reflexivity|].
  assert (Es : se_bw (ent_at demo_left 4) - total_bw demo_back = 104857) by (vm_compute; reflexivity). rewrite <- Es.
  apply (H demo_back (ent_at demo_back 4) (rt_at demo_back 4)); [vm_compute; reflexivity..|vm_compute; split; [discriminate|reflexivity]].
Defined.
