(* ===== verification/FairRq.v ===== *)
(** * The fair class: run queues (kernel/sched/fair.c)

    Runnable tasks of the class wait in a tree per CPU, ordered by the virtual
    time they have run; the task that runs is not in the tree.  The world is that
    of the real-time class (RtRq.v, field [fbase]) with the parts of struct rq and
    struct sched_entity that belong to this class; [exec_start] and
    [sum_exec_runtime] of an entity are fields of its task there.  The
    configuration has CONFIG_SMP and 64 bits, and none of
    CONFIG_FAIR_GROUP_SCHED, CONFIG_CFS_BANDWIDTH, CONFIG_NUMA_BALANCING,
    CONFIG_SCHED_HRTICK and CONFIG_SCHEDSTATS, so that every entity is a task and
    for_each_sched_entity() has one turn; SCHED_LOAD_RESOLUTION is 0.

    lib/rbtree.c is the class [RbLib] of EpTree.v. *)

From S2P Require Import Prelude Wait Tasklet Cmgroup Sched EpTree RtRq RtPush.
Local Open Scope Z_scope.

Definition NICE_0_LOAD : Z := 1024.
Definition WMULT_CONST : Z := 2 ^ 32 - 1.
Definition WMULT_SHIFT : Z := 32.
Definition WEIGHT_IDLEPRIO : Z := 3.
Definition WMULT_IDLEPRIO : Z := 1431655765.
Definition SCHED_IDLE : Z := 5.

(** ** What the class uses of other files

    [mul_u64_u32_shr] is in include/linux/math64.h, [ilog2] in
    include/linux/log2.h; the features are those of kernel/sched/features.h. *)
Class FairLib := {
  mul_u64_u32_shr : Z -> Z -> Z -> Z;
  ilog2 : Z -> Z;
  START_DEBIT : bool;
  GENTLE_FAIR_SLEEPERS : bool;
  NEXT_BUDDY : bool;
  LAST_BUDDY : bool;
  WAKEUP_PREEMPTION : bool;
  LB_BIAS : bool
}.

Class FairLaws (FL : FairLib) := {
  mul_u64_u32_shr_eq : forall a m s, 0 <= a < 2 ^ 64 -> 0 <= m < 2 ^ 32 -> 0 <= s < 64 ->
    mul_u64_u32_shr a m s = u64 (Z.shiftr (a * m) s);
  ilog2_eq : forall n, 0 < n -> ilog2 n = Z.log2 n
}.

(** ** Structures *)

Record load_weight := LoadWeight {
  weight : Z;
  inv_weight : Z
}.

Definition set_weight (z : Z) (l : load_weight) : load_weight :=
  LoadWeight z (inv_weight l).
Definition set_inv_weight (z : Z) (l : load_weight) : load_weight :=
  LoadWeight (weight l) z.

Record sched_avg := SchedAvg {
  runnable_avg_sum : Z;
  runnable_avg_period : Z;
  last_runnable_update : Z;
  decay_count : Z;
  load_avg_contrib : Z
}.

Definition set_runnable_avg_sum (z : Z) (a : sched_avg) : sched_avg :=
  SchedAvg z (runnable_avg_period a) (last_runnable_update a) (decay_count a)
    (load_avg_contrib a).
Definition set_runnable_avg_period (z : Z) (a : sched_avg) : sched_avg :=
  SchedAvg (runnable_avg_sum a) z (last_runnable_update a) (decay_count a)
    (load_avg_contrib a).
Definition set_last_runnable_update (z : Z) (a : sched_avg) : sched_avg :=
  SchedAvg (runnable_avg_sum a) (runnable_avg_period a) z (decay_count a)
    (load_avg_contrib a).
Definition set_decay_count (z : Z) (a : sched_avg) : sched_avg :=
  SchedAvg (runnable_avg_sum a) (runnable_avg_period a) (last_runnable_update a) z
    (load_avg_contrib a).
Definition set_load_avg_contrib (z : Z) (a : sched_avg) : sched_avg :=
  SchedAvg (runnable_avg_sum a) (runnable_avg_period a) (last_runnable_update a)
    (decay_count a) z.

(** struct sched_entity, with the fields of struct task_struct that only this
    class uses: [static_prio] and those of wake_wide(); [fair_rq] has the fields of struct rq that belong to
    the class: [cfs], [load], [avg] and [cfs_tasks] *)
Record sched_entity := SchedEntity {
  se_load : load_weight;
  se_on_rq : bool;
  vruntime : Z;
  prev_sum_exec_runtime : Z;
  se_avg : sched_avg;
  static_prio : Z;
  wakee_flips : Z;
  wakee_flip_decay_ts : Z;
  last_wakee : option nat
}.

Definition set_se_load (z : load_weight) (e : sched_entity) : sched_entity :=
  SchedEntity z (se_on_rq e) (vruntime e) (prev_sum_exec_runtime e) (se_avg e)
    (static_prio e) (wakee_flips e) (wakee_flip_decay_ts e) (last_wakee e).
Definition set_se_on_rq (z : bool) (e : sched_entity) : sched_entity :=
  SchedEntity (se_load e) z (vruntime e) (prev_sum_exec_runtime e) (se_avg e)
    (static_prio e) (wakee_flips e) (wakee_flip_decay_ts e) (last_wakee e).
Definition set_vruntime (z : Z) (e : sched_entity) : sched_entity :=
  SchedEntity (se_load e) (se_on_rq e) z (prev_sum_exec_runtime e) (se_avg e)
    (static_prio e) (wakee_flips e) (wakee_flip_decay_ts e) (last_wakee e).
Definition set_prev_sum_exec_runtime (z : Z) (e : sched_entity) : sched_entity :=
  SchedEntity (se_load e) (se_on_rq e) (vruntime e) z (se_avg e) (static_prio e)
    (wakee_flips e) (wakee_flip_decay_ts e) (last_wakee e).
Definition set_se_avg (z : sched_avg) (e : sched_entity) : sched_entity :=
  SchedEntity (se_load e) (se_on_rq e) (vruntime e) (prev_sum_exec_runtime e) z
    (static_prio e) (wakee_flips e) (wakee_flip_decay_ts e) (last_wakee e).
Definition set_static_prio (z : Z) (e : sched_entity) : sched_entity :=
  SchedEntity (se_load e) (se_on_rq e) (vruntime e) (prev_sum_exec_runtime e)
    (se_avg e) z (wakee_flips e) (wakee_flip_decay_ts e) (last_wakee e).
Definition set_wakee_flips (z : Z) (e : sched_entity) : sched_entity :=
  SchedEntity (se_load e) (se_on_rq e) (vruntime e) (prev_sum_exec_runtime e)
    (se_avg e) (static_prio e) z (wakee_flip_decay_ts e) (last_wakee e).
Definition set_wakee_flip_decay_ts (z : Z) (e : sched_entity) : sched_entity :=
  SchedEntity (se_load e) (se_on_rq e) (vruntime e) (prev_sum_exec_runtime e)
    (se_avg e) (static_prio e) (wakee_flips e) z (last_wakee e).
Definition set_last_wakee (z : option nat) (e : sched_entity) : sched_entity :=
  SchedEntity (se_load e) (se_on_rq e) (vruntime e) (prev_sum_exec_runtime e)
    (se_avg e) (static_prio e) (wakee_flips e) (wakee_flip_decay_ts e) z.

Record cfs_rq := CfsRq {
  cfs_load : load_weight;
  cfs_nr_running : Z;
  h_nr_running : Z;
  cfs_min_vruntime : Z;
  tasks_timeline : rbtree nat;
  cfs_leftmost : option nat;
  cfs_curr : option nat;
  cfs_next : option nat;
  cfs_last : option nat;
  cfs_skip : option nat;
  runnable_load_avg : Z;
  blocked_load_avg : Z;
  decay_counter : Z;
  last_decay : Z;
  removed_load : Z
}.

Definition set_cfs_load (z : load_weight) (q : cfs_rq) : cfs_rq :=
  CfsRq z (cfs_nr_running q) (h_nr_running q) (cfs_min_vruntime q) (tasks_timeline
    q) (cfs_leftmost q) (cfs_curr q) (cfs_next q) (cfs_last q) (cfs_skip q)
    (runnable_load_avg q) (blocked_load_avg q) (decay_counter q) (last_decay q)
    (removed_load q).
Definition set_cfs_nr_running (z : Z) (q : cfs_rq) : cfs_rq :=
  CfsRq (cfs_load q) z (h_nr_running q) (cfs_min_vruntime q) (tasks_timeline q)
    (cfs_leftmost q) (cfs_curr q) (cfs_next q) (cfs_last q) (cfs_skip q)
    (runnable_load_avg q) (blocked_load_avg q) (decay_counter q) (last_decay q)
    (removed_load q).
Definition set_h_nr_running (z : Z) (q : cfs_rq) : cfs_rq :=
  CfsRq (cfs_load q) (cfs_nr_running q) z (cfs_min_vruntime q) (tasks_timeline q)
    (cfs_leftmost q) (cfs_curr q) (cfs_next q) (cfs_last q) (cfs_skip q)
    (runnable_load_avg q) (blocked_load_avg q) (decay_counter q) (last_decay q)
    (removed_load q).
Definition set_cfs_min_vruntime (z : Z) (q : cfs_rq) : cfs_rq :=
  CfsRq (cfs_load q) (cfs_nr_running q) (h_nr_running q) z (tasks_timeline q)
    (cfs_leftmost q) (cfs_curr q) (cfs_next q) (cfs_last q) (cfs_skip q)
    (runnable_load_avg q) (blocked_load_avg q) (decay_counter q) (last_decay q)
    (removed_load q).
Definition set_tasks_timeline (z : rbtree nat) (q : cfs_rq) : cfs_rq :=
  CfsRq (cfs_load q) (cfs_nr_running q) (h_nr_running q) (cfs_min_vruntime q) z
    (cfs_leftmost q) (cfs_curr q) (cfs_next q) (cfs_last q) (cfs_skip q)
    (runnable_load_avg q) (blocked_load_avg q) (decay_counter q) (last_decay q)
    (removed_load q).
Definition set_cfs_leftmost (z : option nat) (q : cfs_rq) : cfs_rq :=
  CfsRq (cfs_load q) (cfs_nr_running q) (h_nr_running q) (cfs_min_vruntime q)
    (tasks_timeline q) z (cfs_curr q) (cfs_next q) (cfs_last q) (cfs_skip q)
    (runnable_load_avg q) (blocked_load_avg q) (decay_counter q) (last_decay q)
    (removed_load q).
Definition set_cfs_curr (z : option nat) (q : cfs_rq) : cfs_rq :=
  CfsRq (cfs_load q) (cfs_nr_running q) (h_nr_running q) (cfs_min_vruntime q)
    (tasks_timeline q) (cfs_leftmost q) z (cfs_next q) (cfs_last q) (cfs_skip q)
    (runnable_load_avg q) (blocked_load_avg q) (decay_counter q) (last_decay q)
    (removed_load q).
Definition set_cfs_next (z : option nat) (q : cfs_rq) : cfs_rq :=
  CfsRq (cfs_load q) (cfs_nr_running q) (h_nr_running q) (cfs_min_vruntime q)
    (tasks_timeline q) (cfs_leftmost q) (cfs_curr q) z (cfs_last q) (cfs_skip q)
    (runnable_load_avg q) (blocked_load_avg q) (decay_counter q) (last_decay q)
    (removed_load q).
Definition set_cfs_last (z : option nat) (q : cfs_rq) : cfs_rq :=
  CfsRq (cfs_load q) (cfs_nr_running q) (h_nr_running q) (cfs_min_vruntime q)
    (tasks_timeline q) (cfs_leftmost q) (cfs_curr q) (cfs_next q) z (cfs_skip q)
    (runnable_load_avg q) (blocked_load_avg q) (decay_counter q) (last_decay q)
    (removed_load q).
Definition set_cfs_skip (z : option nat) (q : cfs_rq) : cfs_rq :=
  CfsRq (cfs_load q) (cfs_nr_running q) (h_nr_running q) (cfs_min_vruntime q)
    (tasks_timeline q) (cfs_leftmost q) (cfs_curr q) (cfs_next q) (cfs_last q) z
    (runnable_load_avg q) (blocked_load_avg q) (decay_counter q) (last_decay q)
    (removed_load q).
Definition set_runnable_load_avg (z : Z) (q : cfs_rq) : cfs_rq :=
  CfsRq (cfs_load q) (cfs_nr_running q) (h_nr_running q) (cfs_min_vruntime q)
    (tasks_timeline q) (cfs_leftmost q) (cfs_curr q) (cfs_next q) (cfs_last q)
    (cfs_skip q) z (blocked_load_avg q) (decay_counter q) (last_decay q)
    (removed_load q).
Definition set_blocked_load_avg (z : Z) (q : cfs_rq) : cfs_rq :=
  CfsRq (cfs_load q) (cfs_nr_running q) (h_nr_running q) (cfs_min_vruntime q)
    (tasks_timeline q) (cfs_leftmost q) (cfs_curr q) (cfs_next q) (cfs_last q)
    (cfs_skip q) (runnable_load_avg q) z (decay_counter q) (last_decay q)
    (removed_load q).
Definition set_decay_counter (z : Z) (q : cfs_rq) : cfs_rq :=
  CfsRq (cfs_load q) (cfs_nr_running q) (h_nr_running q) (cfs_min_vruntime q)
    (tasks_timeline q) (cfs_leftmost q) (cfs_curr q) (cfs_next q) (cfs_last q)
    (cfs_skip q) (runnable_load_avg q) (blocked_load_avg q) z (last_decay q)
    (removed_load q).
Definition set_last_decay (z : Z) (q : cfs_rq) : cfs_rq :=
  CfsRq (cfs_load q) (cfs_nr_running q) (h_nr_running q) (cfs_min_vruntime q)
    (tasks_timeline q) (cfs_leftmost q) (cfs_curr q) (cfs_next q) (cfs_last q)
    (cfs_skip q) (runnable_load_avg q) (blocked_load_avg q) (decay_counter q) z
    (removed_load q).
Definition set_removed_load (z : Z) (q : cfs_rq) : cfs_rq :=
  CfsRq (cfs_load q) (cfs_nr_running q) (h_nr_running q) (cfs_min_vruntime q)
    (tasks_timeline q) (cfs_leftmost q) (cfs_curr q) (cfs_next q) (cfs_last q)
    (cfs_skip q) (runnable_load_avg q) (blocked_load_avg q) (decay_counter q)
    (last_decay q) z.

Record fair_rq := FairRq {
  cfs : cfs_rq;
  rq_load : load_weight;
  rq_avg : sched_avg;
  cfs_tasks : list nat
}.

Definition set_cfs (z : cfs_rq) (x : fair_rq) : fair_rq :=
  FairRq z (rq_load x) (rq_avg x) (cfs_tasks x).
Definition set_rq_load (z : load_weight) (x : fair_rq) : fair_rq :=
  FairRq (cfs x) z (rq_avg x) (cfs_tasks x).
Definition set_rq_avg (z : sched_avg) (x : fair_rq) : fair_rq :=
  FairRq (cfs x) (rq_load x) z (cfs_tasks x).
Definition set_cfs_tasks (z : list nat) (x : fair_rq) : fair_rq :=
  FairRq (cfs x) (rq_load x) (rq_avg x) z.

Record tunables := Tunables {
  sysctl_sched_latency : Z;
  normalized_sysctl_sched_latency : Z;
  sysctl_sched_min_granularity : Z;
  normalized_sysctl_sched_min_granularity : Z;
  sysctl_sched_wakeup_granularity : Z;
  normalized_sysctl_sched_wakeup_granularity : Z;
  sched_nr_latency : Z;
  sysctl_sched_child_runs_first : Z;
  sysctl_sched_tunable_scaling : Z
}.

Definition set_sysctl_sched_latency (z : Z) (s : tunables) : tunables :=
  Tunables z (normalized_sysctl_sched_latency s) (sysctl_sched_min_granularity s)
    (normalized_sysctl_sched_min_granularity s) (sysctl_sched_wakeup_granularity s)
    (normalized_sysctl_sched_wakeup_granularity s) (sched_nr_latency s)
    (sysctl_sched_child_runs_first s) (sysctl_sched_tunable_scaling s).
Definition set_normalized_sysctl_sched_latency (z : Z) (s : tunables) : tunables :=
  Tunables (sysctl_sched_latency s) z (sysctl_sched_min_granularity s)
    (normalized_sysctl_sched_min_granularity s) (sysctl_sched_wakeup_granularity s)
    (normalized_sysctl_sched_wakeup_granularity s) (sched_nr_latency s)
    (sysctl_sched_child_runs_first s) (sysctl_sched_tunable_scaling s).
Definition set_sysctl_sched_min_granularity (z : Z) (s : tunables) : tunables :=
  Tunables (sysctl_sched_latency s) (normalized_sysctl_sched_latency s) z
    (normalized_sysctl_sched_min_granularity s) (sysctl_sched_wakeup_granularity s)
    (normalized_sysctl_sched_wakeup_granularity s) (sched_nr_latency s)
    (sysctl_sched_child_runs_first s) (sysctl_sched_tunable_scaling s).
Definition set_normalized_sysctl_sched_min_granularity (z : Z) (s : tunables) : tunables :=
  Tunables (sysctl_sched_latency s) (normalized_sysctl_sched_latency s)
    (sysctl_sched_min_granularity s) z (sysctl_sched_wakeup_granularity s)
    (normalized_sysctl_sched_wakeup_granularity s) (sched_nr_latency s)
    (sysctl_sched_child_runs_first s) (sysctl_sched_tunable_scaling s).
Definition set_sysctl_sched_wakeup_granularity (z : Z) (s : tunables) : tunables :=
  Tunables (sysctl_sched_latency s) (normalized_sysctl_sched_latency s)
    (sysctl_sched_min_granularity s) (normalized_sysctl_sched_min_granularity s) z
    (normalized_sysctl_sched_wakeup_granularity s) (sched_nr_latency s)
    (sysctl_sched_child_runs_first s) (sysctl_sched_tunable_scaling s).
Definition set_normalized_sysctl_sched_wakeup_granularity (z : Z) (s : tunables) : tunables :=
  Tunables (sysctl_sched_latency s) (normalized_sysctl_sched_latency s)
    (sysctl_sched_min_granularity s) (normalized_sysctl_sched_min_granularity s)
    (sysctl_sched_wakeup_granularity s) z (sched_nr_latency s)
    (sysctl_sched_child_runs_first s) (sysctl_sched_tunable_scaling s).
Definition set_sched_nr_latency (z : Z) (s : tunables) : tunables :=
  Tunables (sysctl_sched_latency s) (normalized_sysctl_sched_latency s)
    (sysctl_sched_min_granularity s) (normalized_sysctl_sched_min_granularity s)
    (sysctl_sched_wakeup_granularity s) (normalized_sysctl_sched_wakeup_granularity
    s) z (sysctl_sched_child_runs_first s) (sysctl_sched_tunable_scaling s).
Definition set_sysctl_sched_child_runs_first (z : Z) (s : tunables) : tunables :=
  Tunables (sysctl_sched_latency s) (normalized_sysctl_sched_latency s)
    (sysctl_sched_min_granularity s) (normalized_sysctl_sched_min_granularity s)
    (sysctl_sched_wakeup_granularity s) (normalized_sysctl_sched_wakeup_granularity
    s) (sched_nr_latency s) z (sysctl_sched_tunable_scaling s).
Definition set_sysctl_sched_tunable_scaling (z : Z) (s : tunables) : tunables :=
  Tunables (sysctl_sched_latency s) (normalized_sysctl_sched_latency s)
    (sysctl_sched_min_granularity s) (normalized_sysctl_sched_min_granularity s)
    (sysctl_sched_wakeup_granularity s) (normalized_sysctl_sched_wakeup_granularity
    s) (sched_nr_latency s) (sysctl_sched_child_runs_first s) z.

(** ** Weights *)

Definition update_load_add (lw : load_weight) (inc : Z) : load_weight := LoadWeight (u64 (weight lw + inc)) 0.
Definition update_load_sub (lw : load_weight) (dec : Z) : load_weight := LoadWeight (u64 (weight lw - dec)) 0.
Definition update_load_set (lw : load_weight) (w : Z) : load_weight := LoadWeight w 0.

Definition prio_to_weight : list Z :=
  [88761; 71755; 56483; 46273; 36291; 29154; 23254; 18705; 14949; 11916;
   9548; 7620; 6100; 4904; 3906; 3121; 2501; 1991; 1586; 1277;
   1024; 820; 655; 526; 423; 335; 272; 215; 172; 137;
   110; 87; 70; 56; 45; 36; 29; 23; 18; 15].
Definition prio_to_wmult : list Z :=
  [48388; 59856; 76040; 92818; 118348; 147320; 184698; 229616; 287308; 360437;
   449829; 563644; 704093; 875809; 1099582; 1376151; 1717300; 2157191; 2708050; 3363326;
   4194304; 5237765; 6557202; 8165337; 10153587; 12820798; 15790321; 19976592; 24970740; 31350126;
   39045157; 49367440; 61356676; 76695844; 95443717; 119304647; 148102320; 186737708; 238609294; 286331153].

(** the new weight; [None] is an index outside the tables *)
Definition set_load_weight (policy static_prio : Z) : option load_weight :=
  if policy =? SCHED_IDLE then Some (LoadWeight WEIGHT_IDLEPRIO WMULT_IDLEPRIO)
  else
    let prio := static_prio - MAX_RT_PRIO in
    if prio <? 0 then None
    else w ← prio_to_weight !! Z.to_nat prio; i ← prio_to_wmult !! Z.to_nat prio; Some (LoadWeight w i).

Definition __update_inv_weight (lw : load_weight) : load_weight :=
  if negb (inv_weight lw =? 0) then lw
  else
    let w := weight lw in
    if WMULT_CONST <=? w then set_inv_weight 1 lw
    else if w =? 0 then set_inv_weight WMULT_CONST lw
    else set_inv_weight (WMULT_CONST / w) lw.

(** while (fact >> 32) { fact >>= 1; shift--; } for a [fact] of 64 bits *)
Fixpoint fit32 (fuel : nat) (fact shift : Z) : Z * Z :=
  if Z.shiftr fact 32 =? 0 then (fact, shift)
  else match fuel with
       | O => (fact, shift)
       | S n => fit32 n (Z.shiftr fact 1) (shift - 1)
       end.

(** ** The averages of an entity *)

Definition LOAD_AVG_PERIOD : Z := 32.
Definition LOAD_AVG_MAX : Z := 47742.
Definition LOAD_AVG_MAX_N : Z := 345.

Definition runnable_avg_yN_inv : list Z :=
  [0xffffffff; 0xfa83b2da; 0xf5257d14; 0xefe4b99a; 0xeac0c6e6; 0xe5b906e6;
   0xe0ccdeeb; 0xdbfbb796; 0xd744fcc9; 0xd2a81d91; 0xce248c14; 0xc9b9bd85;
   0xc5672a10; 0xc12c4cc9; 0xbd08a39e; 0xb8fbaf46; 0xb504f333; 0xb123f581;
   0xad583ee9; 0xa9a15ab4; 0xa5fed6a9; 0xa2704302; 0x9ef5325f; 0x9b8d39b9;
   0x9837f050; 0x94f4efa8; 0x91c3d373; 0x8ea4398a; 0x8b95c1e3; 0x88980e80;
   0x85aac367; 0x82cd8698].
Definition runnable_avg_yN_sum : list Z :=
  [0; 1002; 1982; 2941; 3880; 4798; 5697; 6576; 7437; 8279; 9103;
   9909; 10698; 11470; 12226; 12966; 13690; 14398; 15091; 15769; 16433; 17082;
   17718; 18340; 18949; 19545; 20128; 20698; 21256; 21802; 22336; 22859; 23371].

(** entries of the tables; the code never leaves them *)
Definition yN_inv (n : Z) : Z := default 0 (runnable_avg_yN_inv !! Z.to_nat n).
Definition yN_sum (n : Z) : Z := default 0 (runnable_avg_yN_sum !! Z.to_nat n).

Definition decay_load (val n : Z) : Z :=
  if n =? 0 then val
  else if LOAD_AVG_PERIOD * 63 <? n then 0
  else
    let val := if LOAD_AVG_PERIOD <=? n then Z.shiftr val (n / LOAD_AVG_PERIOD) else val in
    let local_n := if LOAD_AVG_PERIOD <=? n then n mod LOAD_AVG_PERIOD else n in
    Z.shiftr (u64 (val * yN_inv local_n)) 32.

(** the do loop, and what follows it; [n] is below LOAD_AVG_MAX_N *)
Fixpoint contrib_loop (fuel : nat) (contrib n : Z) : Z * Z :=
  let contrib := u32 (contrib / 2 + yN_sum LOAD_AVG_PERIOD) in
  let n := n - LOAD_AVG_PERIOD in
  if n <=? LOAD_AVG_PERIOD then (contrib, n)
  else match fuel with O => (contrib, n) | S f => contrib_loop f contrib n end.

Definition __compute_runnable_contrib (n : Z) : Z :=
  if n <=? LOAD_AVG_PERIOD then yN_sum n
  else if LOAD_AVG_MAX_N <=? n then LOAD_AVG_MAX
  else
    let '(contrib, n) := contrib_loop 10 0 n in
    u32 (u32 (decay_load contrib n) + yN_sum n).

(** adds [d] to the period and, if the entity is runnable, to the sum *)
Definition accrue (runnable : bool) (d : Z) (sa : sched_avg) : sched_avg :=
  let sa := if runnable then set_runnable_avg_sum (u32 (runnable_avg_sum sa + d)) sa else sa in
  set_runnable_avg_period (u32 (runnable_avg_period sa + d)) sa.

(** returns whether a period ended, and the averages *)
Definition __update_entity_runnable_avg (now : Z) (sa : sched_avg) (runnable : bool) : bool * sched_avg :=
  let delta := u64 (now - last_runnable_update sa) in
  if s64 delta <? 0 then (false, set_last_runnable_update now sa)
  else
    let delta := Z.shiftr delta 10 in
    if delta =? 0 then (false, sa)
    else
      let sa := set_last_runnable_update now sa in
      let delta_w := runnable_avg_period sa mod 1024 in
      if 1024 <=? delta + delta_w then
        let delta_w := 1024 - delta_w in
        let sa := accrue runnable delta_w sa in
        let delta := delta - delta_w in
        let periods := delta / 1024 in
        let delta := delta mod 1024 in
        let sa := set_runnable_avg_sum (u32 (decay_load (runnable_avg_sum sa) (periods + 1))) sa in
        let sa := set_runnable_avg_period (u32 (decay_load (runnable_avg_period sa) (periods + 1))) sa in
        let sa := accrue runnable (__compute_runnable_contrib periods) sa in
        (true, accrue runnable delta sa)
      else (false, accrue runnable delta sa).

Definition upd_avg (f : sched_avg -> sched_avg) (e : sched_entity) : sched_entity := set_se_avg (f (se_avg e)) e.

(** returns the number of periods and the entity *)
Definition __synchronize_entity_decay (q : cfs_rq) (e : sched_entity) : Z * sched_entity :=
  let decays := u64 (decay_counter q - decay_count (se_avg e)) in
  if decays =? 0 then (0, e)
  else (decays, upd_avg (fun a => set_decay_count 0 (set_load_avg_contrib (decay_load (load_avg_contrib a) decays) a)) e).

Definition __update_task_entity_contrib (e : sched_entity) : sched_entity :=
  let a := se_avg e in
  let contrib := u32 (runnable_avg_sum a * weight (se_load e)) in
  let contrib := contrib / u32 (runnable_avg_period a + 1) in
  set_se_avg (set_load_avg_contrib contrib a) e.

(** returns the difference and the entity *)
Definition __update_entity_load_avg_contrib (e : sched_entity) : Z * sched_entity :=
  let old_contrib := load_avg_contrib (se_avg e) in
  let e := __update_task_entity_contrib e in
  (s64 (load_avg_contrib (se_avg e) - old_contrib), e).

Definition subtract_blocked_load_contrib (q : cfs_rq) (load_contrib : Z) : cfs_rq :=
  if u64 load_contrib <? blocked_load_avg q then set_blocked_load_avg (u64 (blocked_load_avg q - load_contrib)) q
  else set_blocked_load_avg 0 q.

(** [now] is cfs_rq_clock_task() *)
Definition update_entity_load_avg (now : Z) (q : cfs_rq) (e : sched_entity) (update_cfs_rq : bool) : cfs_rq * sched_entity :=
  let '(decayed, a) := __update_entity_runnable_avg now (se_avg e) (se_on_rq e) in
  let e := set_se_avg a e in
  if negb decayed then (q, e)
  else
    let '(contrib_delta, e) := __update_entity_load_avg_contrib e in
    if negb update_cfs_rq then (q, e)
    else if se_on_rq e then (set_runnable_load_avg (u64 (runnable_load_avg q + contrib_delta)) q, e)
    else (subtract_blocked_load_contrib q (s64 (- contrib_delta)), e).

Definition update_cfs_rq_blocked_load (now : Z) (q : cfs_rq) (force_update : bool) : cfs_rq :=
  let now := Z.shiftr now 20 in
  let decays := u64 (now - last_decay q) in
  if (decays =? 0) && negb force_update then q
  else
    let q := if negb (removed_load q =? 0) then subtract_blocked_load_contrib (set_removed_load 0 q) (removed_load q) else q in
    if negb (decays =? 0) then
      set_last_decay now (set_decay_counter (s64 (decay_counter q + decays))
        (set_blocked_load_avg (decay_load (blocked_load_avg q) decays) q))
    else q.

Definition enqueue_entity_load_avg (now : Z) (q : cfs_rq) (e : sched_entity) (wakeup : bool) : cfs_rq * sched_entity :=
  let '(e, wakeup) :=
    if decay_count (se_avg e) <=? 0 then
      let count := decay_count (se_avg e) in
      let e := upd_avg (set_last_runnable_update now) e in
      let e :=
        if negb (count =? 0) then
          let e := upd_avg (fun a => set_last_runnable_update (u64 (last_runnable_update a - Z.shiftl (- count) 20)) a) e in
          upd_avg (set_decay_count 0) (snd (update_entity_load_avg now q e false))
        else e in
      (e, false)
    else (snd (__synchronize_entity_decay q e), wakeup) in
  let '(q, e) :=
    if wakeup then update_entity_load_avg now (subtract_blocked_load_contrib q (load_avg_contrib (se_avg e))) e false
    else (q, e) in
  let q := set_runnable_load_avg (u64 (runnable_load_avg q + load_avg_contrib (se_avg e))) q in
  (update_cfs_rq_blocked_load now q (negb wakeup), e).

Definition dequeue_entity_load_avg (now : Z) (q : cfs_rq) (e : sched_entity) (sleep : bool) : cfs_rq * sched_entity :=
  let '(q, e) := update_entity_load_avg now q e true in
  let q := update_cfs_rq_blocked_load now q (negb sleep) in
  let q := set_runnable_load_avg (u64 (runnable_load_avg q - load_avg_contrib (se_avg e))) q in
  if sleep then
    (set_blocked_load_avg (u64 (blocked_load_avg q + load_avg_contrib (se_avg e))) q, upd_avg (set_decay_count (decay_counter q)) e)
  else (q, e).

(** ** Virtual time *)

Definition max_vruntime (max_vruntime vruntime : Z) : Z :=
  if 0 <? s64 (vruntime - max_vruntime) then vruntime else max_vruntime.
Definition min_vruntime (min_vruntime vruntime : Z) : Z :=
  if s64 (vruntime - min_vruntime) <? 0 then vruntime else min_vruntime.
Definition entity_before (a b : sched_entity) : bool := s64 (vruntime a - vruntime b) <? 0.

Definition init_cfs_rq (q : cfs_rq) : cfs_rq :=
  CfsRq (cfs_load q) (cfs_nr_running q) (h_nr_running q) (u64 (- 2 ^ 20)) rb_null (cfs_leftmost q) (cfs_curr q)
    (cfs_next q) (cfs_last q) (cfs_skip q) (runnable_load_avg q) (blocked_load_avg q) 1 (last_decay q) 0.

(** the walk down the tree for [t] *)
Definition fair_link (es : gmap nat sched_entity) (t : nat) (se : sched_entity) (p : rbtree nat) : option (rbtree nat * bool) :=
  rb_walk (fun u => entry ← es !! u; Some (entity_before se entry)) t p.

Section Class.
Context {RL : RtLib} {FL : FairLib} {RB : RbLib}.

(** delta_exec * weight / lw.weight; the weight caches its inverse *)
Definition __calc_delta (delta_exec weight : Z) (lw : load_weight) : Z * load_weight :=
  let lw := __update_inv_weight lw in
  let '(fact, shift) := fit32 64 weight WMULT_SHIFT in
  let '(fact, shift) := fit32 64 (u64 (u32 fact * inv_weight lw)) shift in
  (mul_u64_u32_shr delta_exec fact shift, lw).

Definition calc_delta_fair (delta : Z) (se : sched_entity) : Z * sched_entity :=
  if negb (weight (se_load se) =? NICE_0_LOAD) then
    let '(delta, lw) := __calc_delta delta NICE_0_LOAD (se_load se) in (delta, set_se_load lw se)
  else (delta, se).

Definition __sched_period (s : tunables) (nr_running : Z) : Z :=
  if sched_nr_latency s <? nr_running then u64 (sysctl_sched_min_granularity s * nr_running)
  else sysctl_sched_latency s.

(** the slice, and the run queue with the inverse of its weight *)
Definition sched_slice (s : tunables) (q : cfs_rq) (se : sched_entity) : Z * cfs_rq :=
  let slice := __sched_period s (u32 (cfs_nr_running q + (if se_on_rq se then 0 else 1))) in
  if se_on_rq se then
    let '(slice, lw) := __calc_delta slice (weight (se_load se)) (cfs_load q) in (slice, set_cfs_load lw q)
  else
    (fst (__calc_delta slice (weight (se_load se)) (update_load_add (cfs_load q) (weight (se_load se)))), q).

Definition sched_vslice (s : tunables) (q : cfs_rq) (se : sched_entity) : Z * cfs_rq * sched_entity :=
  let '(slice, q) := sched_slice s q se in
  let '(vslice, se) := calc_delta_fair slice se in (vslice, q, se).

Definition init_task_runnable_average (s : tunables) (q : cfs_rq) (se : sched_entity) : cfs_rq * sched_entity :=
  let se := upd_avg (set_decay_count 0) se in
  let '(slice, q) := sched_slice s q se in
  let slice := u32 (Z.shiftr slice 10) in
  (q, __update_task_entity_contrib (upd_avg (fun a => set_runnable_avg_period slice (set_runnable_avg_sum slice a)) se)).

Definition place_entity (s : tunables) (q : cfs_rq) (se : sched_entity) (initial : bool) : cfs_rq * sched_entity :=
  let vr := cfs_min_vruntime q in
  let '(vr, q, se) :=
    if initial && START_DEBIT then let '(d, q, se) := sched_vslice s q se in (u64 (vr + d), q, se) else (vr, q, se) in
  let vr :=
    if negb initial then
      let thresh := sysctl_sched_latency s in
      let thresh := if GENTLE_FAIR_SLEEPERS then Z.shiftr thresh 1 else thresh in
      u64 (vr - thresh)
    else vr in
  (q, set_vruntime (max_vruntime (vruntime se) vr) se).

Definition wakeup_gran (s : tunables) (curr se : sched_entity) : Z * sched_entity :=
  calc_delta_fair (sysctl_sched_wakeup_granularity s) se.

(** -1, 0 or 1, and [se] *)
Definition wakeup_preempt_entity (s : tunables) (curr se : sched_entity) : Z * sched_entity :=
  let vdiff := s64 (vruntime curr - vruntime se) in
  if vdiff <=? 0 then (-1, se)
  else let '(gran, se) := wakeup_gran s curr se in (if s64 gran <? vdiff then 1 else 0, se).

(** ** The world *)

Record fw := FairW {
  fbase : rtw;
  frs : gmap nat fair_rq;
  fes : gmap nat sched_entity;
  tun : tunables
}.

Definition set_fbase (z : rtw) (w : fw) : fw :=
  FairW z (frs w) (fes w) (tun w).
Definition set_frs (z : gmap nat fair_rq) (w : fw) : fw :=
  FairW (fbase w) z (fes w) (tun w).
Definition set_fes (z : gmap nat sched_entity) (w : fw) : fw :=
  FairW (fbase w) (frs w) z (tun w).
Definition set_tun (z : tunables) (w : fw) : fw :=
  FairW (fbase w) (frs w) (fes w) z.

Definition F : Type -> Type := M fw.

Definition on_base {A} (m : W A) : F A := fun w =>
  match m (fbase w) with
  | Ret a b => Ret a (set_fbase b w)
  | Blocked b => Blocked (set_fbase b w)
  | Oops => Oops
  end.
Definition fair_of (c : nat) : F fair_rq := deref (fun w => frs w !! c).
Definition put_fair (c : nat) (x : fair_rq) : F unit := modify (fun w => set_frs (<[c := x]> (frs w)) w).
Definition cfs_of (c : nat) : F cfs_rq := x ← fair_of c; mret (cfs x).
Definition put_cfs (c : nat) (q : cfs_rq) : F unit := x ← fair_of c; put_fair c (set_cfs q x).
Definition get_se (t : nat) : F sched_entity := deref (fun w => fes w !! t).
Definition put_se (t : nat) (e : sched_entity) : F unit := modify (fun w => set_fes (<[t := e]> (fes w)) w).
Definition tunables_of : F tunables := w ← get; mret (tun w).
Definition rq_clock_task (c : nat) : F Z := r ← on_base (cpu_rq c); mret (clock_task r).

(** code that changes the run queue and one entity *)
Definition on_entity (c t : nat) (f : cfs_rq -> sched_entity -> cfs_rq * sched_entity) : F unit :=
  q ← cfs_of c;
  e ← get_se t;
  let '(q, e) := f q e in
  put_cfs c q ;; put_se t e.

(** ** The tunables *)

Definition SCHED_TUNABLESCALING_NONE : Z := 0.
Definition SCHED_TUNABLESCALING_LOG : Z := 1.
Definition SCHED_TUNABLESCALING_LINEAR : Z := 2.

Definition get_update_sysctl_factor : F Z :=
  w ← get;
  let cpus := Z.min (cpumask_weight (cpu_online_mask (fbase w))) 8 in
  let scaling := sysctl_sched_tunable_scaling (tun w) in
  mret (if scaling =? SCHED_TUNABLESCALING_NONE then 1
        else if scaling =? SCHED_TUNABLESCALING_LINEAR then cpus
        else 1 + ilog2 cpus).

Definition update_sysctl : F unit :=
  factor ← get_update_sysctl_factor;
  modify (fun w =>
    let s := tun w in
    let s := set_sysctl_sched_min_granularity (u32 (factor * normalized_sysctl_sched_min_granularity s)) s in
    let s := set_sysctl_sched_latency (u32 (factor * normalized_sysctl_sched_latency s)) s in
    set_tun (set_sysctl_sched_wakeup_granularity (u32 (factor * normalized_sysctl_sched_wakeup_granularity s)) s) w).

Definition sched_init_granularity : F unit := update_sysctl.

(** [ret] and [s] are what proc_dointvec_minmax() returns and writes *)
Definition sched_proc_update_handler (ret : Z) (s : tunables) (write : bool) : F Z :=
  modify (set_tun s) ;;
  factor ← get_update_sysctl_factor;
  if negb (ret =? 0) || negb write then mret ret
  else
    modify (fun w =>
      let s := tun w in
      let s := set_sched_nr_latency
        (u32 (sysctl_sched_latency s + sysctl_sched_min_granularity s - 1) / sysctl_sched_min_granularity s) s in
      let s := set_normalized_sysctl_sched_min_granularity (sysctl_sched_min_granularity s / factor) s in
      let s := set_normalized_sysctl_sched_latency (sysctl_sched_latency s / factor) s in
      set_tun (set_normalized_sysctl_sched_wakeup_granularity (sysctl_sched_wakeup_granularity s / factor) s) w) ;;
    mret 0.

Definition rq_online_fair (c : nat) : F unit := update_sysctl.
Definition rq_offline_fair (c : nat) : F unit := update_sysctl.

(** ** The tree *)

Definition entity_vruntime (o : option nat) : F (option Z) :=
  match o with
  | None => mret None
  | Some t => e ← get_se t; mret (Some (vruntime e))
  end.

Definition update_min_vruntime (c : nat) : F unit :=
  q ← cfs_of c;
  curr ← entity_vruntime (cfs_curr q);
  left ← entity_vruntime (cfs_leftmost q);
  let vr := default (cfs_min_vruntime q) curr in
  let vr := match left with
            | None => vr
            | Some l => match curr with None => l | Some _ => min_vruntime vr l end
            end in
  put_cfs c (set_cfs_min_vruntime (max_vruntime (cfs_min_vruntime q) vr) q).

Definition __enqueue_entity (c t : nat) : F unit :=
  q ← cfs_of c;
  e ← get_se t;
  '(tree, leftmost) ← deref (fun w => fair_link (fes w) t e (tasks_timeline q));
  put_cfs c (set_tasks_timeline (rb_insert_color tree)
    (if (leftmost : bool) then set_cfs_leftmost (Some t) q else q)).

Definition __dequeue_entity (c t : nat) : F unit :=
  q ← cfs_of c;
  let q := if bool_decide (cfs_leftmost q = Some t) then set_cfs_leftmost (rb_next t (tasks_timeline q)) q else q in
  put_cfs c (set_tasks_timeline (rb_erase t (tasks_timeline q)) q).

Definition __pick_first_entity (q : cfs_rq) : option nat := cfs_leftmost q.
Definition __pick_next_entity (q : cfs_rq) (t : nat) : option nat := rb_next t (tasks_timeline q).

(** ** Entities *)

Definition update_curr (c : nat) : F unit :=
  q ← cfs_of c;
  now ← rq_clock_task c;
  match cfs_curr q with
  | None => mret tt
  | Some t =>
      p ← on_base (get_rt t);
      let delta_exec := u64 (now - exec_start p) in
      if s64 delta_exec <=? 0 then mret tt
      else
        on_base (put_rt t (set_sum_exec_runtime (u64 (sum_exec_runtime p + delta_exec)) (set_exec_start now p))) ;;
        e ← get_se t;
        let '(d, e) := calc_delta_fair delta_exec e in
        put_se t (set_vruntime (u64 (vruntime e + d)) e) ;;
        update_min_vruntime c
  end.

Definition account_entity_enqueue (c t : nat) : F unit :=
  x ← fair_of c;
  e ← get_se t;
  let w := weight (se_load e) in
  let q := set_cfs_load (update_load_add (cfs_load (cfs x)) w) (cfs x) in
  put_fair c (set_cfs (set_cfs_nr_running (u32 (cfs_nr_running q + 1)) q)
    (set_rq_load (update_load_add (rq_load x) w) (set_cfs_tasks (t :: cfs_tasks x) x))).

Definition account_entity_dequeue (c t : nat) : F unit :=
  x ← fair_of c;
  e ← get_se t;
  let w := weight (se_load e) in
  let q := set_cfs_load (update_load_sub (cfs_load (cfs x)) w) (cfs x) in
  put_fair c (set_cfs (set_cfs_nr_running (u32 (cfs_nr_running q - 1)) q)
    (set_rq_load (update_load_sub (rq_load x) w) (set_cfs_tasks (filter (fun u => u <> t) (cfs_tasks x)) x))).

Definition clear_buddies (t : nat) (q : cfs_rq) : cfs_rq :=
  let q := if bool_decide (cfs_last q = Some t) then set_cfs_last None q else q in
  let q := if bool_decide (cfs_next q = Some t) then set_cfs_next None q else q in
  if bool_decide (cfs_skip q = Some t) then set_cfs_skip None q else q.

Definition is_set (flags flag : Z) : bool := negb (Z.land flags flag =? 0).

Definition enqueue_entity (c t : nat) (flags : Z) : F unit :=
  when (negb (is_set flags ENQUEUE_WAKEUP) || is_set flags ENQUEUE_WAKING)
    (q ← cfs_of c; e ← get_se t; put_se t (set_vruntime (u64 (vruntime e + cfs_min_vruntime q)) e)) ;;
  update_curr c ;;
  now ← rq_clock_task c;
  on_entity c t (fun q e => enqueue_entity_load_avg now q e (is_set flags ENQUEUE_WAKEUP)) ;;
  account_entity_enqueue c t ;;
  s ← tunables_of;
  when (is_set flags ENQUEUE_WAKEUP) (on_entity c t (fun q e => place_entity s q e false)) ;;
  q ← cfs_of c;
  when (bool_decide (cfs_curr q <> Some t)) (__enqueue_entity c t) ;;
  e ← get_se t;
  put_se t (set_se_on_rq true e).

Definition dequeue_entity (c t : nat) (flags : Z) : F unit :=
  update_curr c ;;
  now ← rq_clock_task c;
  on_entity c t (fun q e => dequeue_entity_load_avg now q e (is_set flags DEQUEUE_SLEEP)) ;;
  q ← cfs_of c;
  put_cfs c (clear_buddies t q) ;;
  when (bool_decide (cfs_curr q <> Some t)) (__dequeue_entity c t) ;;
  e ← get_se t;
  put_se t (set_se_on_rq false e) ;;
  account_entity_dequeue c t ;;
  when (negb (is_set flags DEQUEUE_SLEEP))
    (q ← cfs_of c; e ← get_se t; put_se t (set_vruntime (u64 (vruntime e - cfs_min_vruntime q)) e)) ;;
  update_min_vruntime c.

Definition check_preempt_tick (c curr : nat) : F unit :=
  s ← tunables_of;
  q ← cfs_of c;
  e ← get_se curr;
  let '(ideal_runtime, q) := sched_slice s q e in
  put_cfs c q ;;
  p ← on_base (get_rt curr);
  r ← on_base (cpu_rq c);
  let delta_exec := u64 (sum_exec_runtime p - prev_sum_exec_runtime e) in
  if ideal_runtime <? delta_exec then
    on_base (resched_task (RtRq.curr r)) ;;
    put_cfs c (clear_buddies curr q)
  else if delta_exec <? sysctl_sched_min_granularity s then mret tt
  else
    se ← deref (fun _ => __pick_first_entity q);
    f ← get_se se;
    let delta := s64 (vruntime e - vruntime f) in
    if delta <? 0 then mret tt
    else when (ideal_runtime <? delta) (on_base (resched_task (RtRq.curr r))).

Definition set_next_entity (c t : nat) : F unit :=
  e ← get_se t;
  when (se_on_rq e) (__dequeue_entity c t) ;;
  now ← rq_clock_task c;
  p ← on_base (get_rt t);
  on_base (put_rt t (set_exec_start now p)) ;;
  q ← cfs_of c;
  put_cfs c (set_cfs_curr (Some t) q) ;;
  put_se t (set_prev_sum_exec_runtime (sum_exec_runtime p) e).

(** whether [o] may run instead of [left] *)
Definition buddy (s : tunables) (o : option nat) (left : nat) : F bool :=
  match o with
  | None => mret false
  | Some t =>
      e ← get_se t;
      l ← get_se left;
      let '(r, l) := wakeup_preempt_entity s e l in
      put_se left l ;;
      mret (r <? 1)
  end.

(** the walk to the next node needs a node *)
Definition pick_next_entity (c : nat) : F (option nat) :=
  s ← tunables_of;
  q ← cfs_of c;
  let left := __pick_first_entity q in
  match left with
  | None =>
      if bool_decide (cfs_skip q = None) then oops
      else
        (* left is NULL: wakeup_preempt_entity() dereferences it *)
        if bool_decide (cfs_last q = None /\ cfs_next q = None) then mret None else oops
  | Some l =>
      se ← (if bool_decide (cfs_skip q = Some l) then
              let second := __pick_next_entity q l in
              b ← buddy s second l;
              mret (if (b : bool) then default l second else l)
            else mret l);
      b ← buddy s (cfs_last q) l;
      let se := if (b : bool) then default se (cfs_last q) else se in
      b ← buddy s (cfs_next q) l;
      let se := if (b : bool) then default se (cfs_next q) else se in
      put_cfs c (clear_buddies se q) ;;
      mret (Some se)
  end.

Definition put_prev_entity (c prev : nat) : F unit :=
  e ← get_se prev;
  when (se_on_rq e) (update_curr c) ;;
  now ← rq_clock_task c;
  when (se_on_rq e)
    (__enqueue_entity c prev ;;
     on_entity c prev (fun q e => update_entity_load_avg now q e true)) ;;
  q ← cfs_of c;
  put_cfs c (set_cfs_curr None q).

Definition entity_tick (c curr : nat) : F unit :=
  update_curr c ;;
  now ← rq_clock_task c;
  on_entity c curr (fun q e => update_entity_load_avg now q e true) ;;
  q ← cfs_of c;
  put_cfs c (update_cfs_rq_blocked_load now q true) ;;
  q ← cfs_of c;
  when (1 <? cfs_nr_running q) (check_preempt_tick c curr).

Definition update_rq_runnable_avg (c : nat) (runnable : bool) : F unit :=
  now ← rq_clock_task c;
  x ← fair_of c;
  put_fair c (set_rq_avg (snd (__update_entity_runnable_avg now (rq_avg x) runnable)) x).

Definition idle_enter_fair (c : nat) : F unit := update_rq_runnable_avg c true.
Definition idle_exit_fair (c : nat) : F unit := update_rq_runnable_avg c false.

(** ** The methods of the class *)

Definition cpu_of (t : nat) : F nat := on_base (task_cpu t).
Definition upd_h_nr (c : nat) (d : Z) : F unit :=
  q ← cfs_of c; put_cfs c (set_h_nr_running (u32 (h_nr_running q + d)) q).

Definition enqueue_task_fair (c t : nat) (flags : Z) : F unit :=
  e ← get_se t;
  cpu ← cpu_of t;
  if se_on_rq e then
    upd_h_nr cpu 1 ;;
    now ← rq_clock_task cpu;
    on_entity cpu t (fun q e => update_entity_load_avg now q e true) ;;
    r ← on_base (cpu_rq c);
    update_rq_runnable_avg c (negb (nr_running r =? 0)) ;;
    on_base (put_rq c (set_nr_running (u32 (nr_running r + 1)) r))
  else
    enqueue_entity cpu t flags ;;
    upd_h_nr cpu 1 ;;
    r ← on_base (cpu_rq c);
    update_rq_runnable_avg c (negb (nr_running r =? 0)) ;;
    on_base (put_rq c (set_nr_running (u32 (nr_running r + 1)) r)).

Definition dequeue_task_fair (c t : nat) (flags : Z) : F unit :=
  cpu ← cpu_of t;
  dequeue_entity cpu t flags ;;
  upd_h_nr cpu (-1) ;;
  on_base (r ← cpu_rq c; put_rq c (set_nr_running (u32 (nr_running r - 1)) r)) ;;
  update_rq_runnable_avg c true.

Definition set_last_buddy (t : nat) : F unit :=
  p ← on_base (get_rt t);
  if policy p =? SCHED_IDLE then mret tt
  else c ← cpu_of t; q ← cfs_of c; put_cfs c (set_cfs_last (Some t) q).
Definition set_next_buddy (t : nat) : F unit :=
  p ← on_base (get_rt t);
  if policy p =? SCHED_IDLE then mret tt
  else c ← cpu_of t; q ← cfs_of c; put_cfs c (set_cfs_next (Some t) q).
Definition set_skip_buddy (t : nat) : F unit :=
  c ← cpu_of t; q ← cfs_of c; put_cfs c (set_cfs_skip (Some t) q).

Definition SCHED_OTHER : Z := 0.

(** from the label preempt *)
Definition preempt_curr (c : nat) (scale : bool) : F unit :=
  r ← on_base (cpu_rq c);
  on_base (resched_task (RtRq.curr r)) ;;
  e ← get_se (RtRq.curr r);
  if negb (se_on_rq e) || bool_decide (RtRq.curr r = idle r) then mret tt
  else when (LAST_BUDDY && scale) (set_last_buddy (RtRq.curr r)).

(** [fork] is wake_flags & WF_FORK *)
Definition check_preempt_wakeup (c t : nat) (fork : bool) : F unit :=
  s ← tunables_of;
  r ← on_base (cpu_rq c);
  let curr := RtRq.curr r in
  cpu ← cpu_of curr;
  q ← cfs_of cpu;
  let scale := sched_nr_latency s <=? cfs_nr_running q in
  if decide (curr = t) then mret tt
  else
    let mark := NEXT_BUDDY && scale && negb fork in
    when mark (set_next_buddy t) ;;
    p ← on_base (get_rt t);
    x ← on_base (get_rt curr);
    if need_resched x then mret tt
    else if (policy x =? SCHED_IDLE) && negb (policy p =? SCHED_IDLE) then preempt_curr c scale
    else if negb (policy p =? SCHED_OTHER) || negb WAKEUP_PREEMPTION then mret tt
    else
      update_curr cpu ;;
      e ← get_se curr;
      f ← get_se t;
      let '(d, f) := wakeup_preempt_entity s e f in
      put_se t f ;;
      if d =? 1 then when (negb mark) (set_next_buddy t) ;; preempt_curr c scale
      else mret tt.

Definition pick_next_task_fair (c : nat) : F (option nat) :=
  q ← cfs_of c;
  if cfs_nr_running q =? 0 then mret None
  else
    o ← pick_next_entity c;
    t ← deref (fun _ => o);
    set_next_entity c t ;;
    mret (Some t).

Definition put_prev_task_fair (prev : nat) : F unit :=
  cpu ← cpu_of prev; put_prev_entity cpu prev.

Definition SCHED_BATCH_POLICY : Z := 3.

Definition yield_task_fair (c : nat) : F unit :=
  r ← on_base (cpu_rq c);
  let curr := RtRq.curr r in
  cpu ← cpu_of curr;
  if nr_running r =? 1 then mret tt
  else
    q ← cfs_of cpu;
    put_cfs cpu (clear_buddies curr q) ;;
    p ← on_base (get_rt curr);
    when (negb (policy p =? SCHED_BATCH_POLICY))
      (on_base (update_rq_clock c) ;;
       update_curr cpu ;;
       on_base (r ← cpu_rq c; put_rq c (set_skip_clock_update 1 r))) ;;
    set_skip_buddy curr.

Definition yield_to_task_fair (c t : nat) : F bool :=
  e ← get_se t;
  if negb (se_on_rq e) then mret false
  else set_next_buddy t ;; yield_task_fair c ;; mret true.

Definition task_tick_fair (c curr : nat) : F unit :=
  cpu ← cpu_of curr;
  entity_tick cpu curr ;;
  update_rq_runnable_avg c true.

(** [c] is the CPU of the parent *)
Definition task_fork_fair (c t : nat) : F unit :=
  on_base (update_rq_clock c) ;;
  q ← cfs_of c;
  let curr := cfs_curr q in
  on_base (lift_k (set_task_cpu t c)) ;;
  update_curr c ;;
  (match curr with
   | Some u => f ← get_se u; e ← get_se t; put_se t (set_vruntime (vruntime f) e)
   | None => mret tt
   end) ;;
  s ← tunables_of;
  on_entity c t (fun q e => place_entity s q e true) ;;
  (match curr with
   | Some u =>
       f ← get_se u;
       e ← get_se t;
       when (negb (sysctl_sched_child_runs_first s =? 0) && entity_before f e)
         (put_se u (set_vruntime (vruntime e) f) ;;
          put_se t (set_vruntime (vruntime f) e) ;;
          r ← on_base (cpu_rq c);
          on_base (resched_task (RtRq.curr r)))
   | None => mret tt
   end) ;;
  q ← cfs_of c;
  e ← get_se t;
  put_se t (set_vruntime (u64 (vruntime e - cfs_min_vruntime q)) e).

Definition set_curr_task_fair (c : nat) : F unit :=
  r ← on_base (cpu_rq c);
  cpu ← cpu_of (RtRq.curr r);
  set_next_entity cpu (RtRq.curr r).

(** [me] is the task that wakes [t] *)
Definition record_wakee (HZ : Z) (me t : nat) : F unit :=
  w ← get;
  m ← get_se me;
  let m := if u64 (wakee_flip_decay_ts m + HZ) <? jiffies (fbase w)
           then set_wakee_flip_decay_ts (jiffies (fbase w)) (set_wakee_flips 0 m) else m in
  put_se me (if bool_decide (last_wakee m <> Some t)
             then set_wakee_flips (u64 (wakee_flips m + 1)) (set_last_wakee (Some t) m) else m).

Definition task_waking_fair (HZ : Z) (me t : nat) : F unit :=
  c ← cpu_of t;
  q ← cfs_of c;
  e ← get_se t;
  put_se t (set_vruntime (u64 (vruntime e - cfs_min_vruntime q)) e) ;;
  record_wakee HZ me t.

Definition migrate_task_rq_fair (t : nat) : F unit :=
  c ← cpu_of t;
  e ← get_se t;
  when (negb (decay_count (se_avg e) =? 0))
    (on_entity c t (fun q e =>
       let '(d, e) := __synchronize_entity_decay q e in
       let e := upd_avg (set_decay_count (s64 (- d))) e in
       (set_removed_load (s64 (removed_load q + load_avg_contrib (se_avg e))) q, e))).

Definition switched_from_fair (t : nat) : F unit :=
  c ← cpu_of t;
  k ← on_base (lift_k (get_task t));
  s ← tunables_of;
  when (negb (on_rq k) && negb (tstate k =? 0))
    (on_entity c t (fun q e =>
       let '(q, e) := place_entity s q e false in (q, set_vruntime (u64 (vruntime e - cfs_min_vruntime q)) e))) ;;
  e ← get_se t;
  when (negb (decay_count (se_avg e) =? 0))
    (on_entity c t (fun q e =>
       let '(_, e) := __synchronize_entity_decay q e in (subtract_blocked_load_contrib q (load_avg_contrib (se_avg e)), e))).

(** check_preempt_curr() of a task of the class *)
Definition check_preempt_task_fair (c t : nat) (fork : bool) : F unit :=
  r ← on_base (cpu_rq c);
  q ← on_base (get_rt (RtRq.curr r));
  p ← on_base (get_rt t);
  (if decide (class p = class q) then check_preempt_wakeup c t fork
   else when (class_rank (class p) <? class_rank (class q))%nat (on_base (resched_task (RtRq.curr r)))) ;;
  on_base (r ← cpu_rq c;
           q ← get_rt (RtRq.curr r);
           o ← task_on_rq (RtRq.curr r);
           when (o && need_resched q) (put_rq c (set_skip_clock_update 1 r))).

Definition switched_to_fair (c t : nat) : F unit :=
  e ← get_se t;
  if negb (se_on_rq e) then mret tt
  else
    r ← on_base (cpu_rq c);
    if decide (RtRq.curr r = t) then on_base (resched_task (RtRq.curr r)) else check_preempt_task_fair c t false.

Definition prio_changed_fair (c t : nat) (oldprio : Z) : F unit :=
  e ← get_se t;
  if negb (se_on_rq e) then mret tt
  else
    r ← on_base (cpu_rq c);
    if decide (RtRq.curr r = t) then
      p ← on_base (get_rt t);
      when (oldprio <? prio p) (on_base (resched_task (RtRq.curr r)))
    else check_preempt_task_fair c t false.

(** the length of a slice in ticks of [tick] ns *)
Definition get_rr_interval_fair (tick : Z) (c t : nat) : F Z :=
  q ← cfs_of c;
  if weight (cfs_load q) =? 0 then mret 0
  else
    cpu ← cpu_of t;
    s ← tunables_of;
    e ← get_se t;
    q ← cfs_of cpu;
    let '(slice, q) := sched_slice s q e in
    put_cfs cpu q ;;
    mret (u32 (slice / tick)).

(** ** The scheduler's steps for tasks of the class (core.c) *)

Definition set_task_cpu_fair (t c : nat) : F unit :=
  d ← cpu_of t;
  when (bool_decide (d <> c)) (migrate_task_rq_fair t) ;;
  on_base (lift_k (set_task_cpu t c)).

Definition activate_task_fair (c t : nat) (flags : Z) : F unit :=
  on_base (update_rq_clock c) ;; enqueue_task_fair c t flags ;; on_base (lift_k (activate_task t flags)).

Definition deactivate_task_fair (c t : nat) (flags : Z) : F unit :=
  on_base (update_rq_clock c) ;; dequeue_task_fair c t flags ;; on_base (lift_k (deactivate_task t flags)).

Definition ttwu_do_activate_fair (c t : nat) : F unit :=
  on_base (update_rq_clock c) ;;
  enqueue_task_fair c t (Z.lor ENQUEUE_WAKEUP ENQUEUE_WAKING) ;;
  on_base (lift_k (ttwu_activate t (Z.lor ENQUEUE_WAKEUP ENQUEUE_WAKING))) ;;
  check_preempt_task_fair c t false ;;
  on_base (lift_k (ttwu_do_wakeup t)).

(** try_to_wake_up() of a task that is off the queue: [me] wakes it and [c] is
    the CPU that select_task_rq() returned *)
Definition try_to_wake_up_fair (HZ : Z) (me t c : nat) : F unit :=
  task_waking_fair HZ me t ;;
  d ← cpu_of t;
  when (bool_decide (d <> c)) (set_task_cpu_fair t c) ;;
  ttwu_do_activate_fair c t.

Definition wake_up_new_task_fair (t c : nat) : F unit :=
  set_task_cpu_fair t c ;;
  s ← tunables_of;
  on_entity c t (fun q e => init_task_runnable_average s q e) ;;
  activate_task_fair c t 0 ;;
  on_base (lift_k (x ← get_task t; put_task t (set_on_rq true x))) ;;
  check_preempt_task_fair c t true.

(** the part of __schedule() in which the current task leaves the run queue *)
Definition schedule_out_fair (fatal : bool) (c : nat) : F unit :=
  r ← on_base (cpu_rq c);
  x ← on_base (lift_k (get_task (RtRq.curr r)));
  when (negb (tstate x =? 0) && negb (signal_pending_state fatal (tstate x) x))
    (on_base (update_rq_clock c) ;; dequeue_task_fair c (RtRq.curr r) DEQUEUE_SLEEP) ;;
  on_base (lift_k (schedule_out fatal (RtRq.curr r))).

(** the part of __schedule() that chooses the next task and switches to it:
    [hi] is the task of a class before this one, if there is one, and [lo] the
    idle task *)
Definition switch_fair (hi : option nat) (lo c : nat) : F unit :=
  r ← on_base (cpu_rq c);
  let prev := RtRq.curr r in
  p ← on_base (get_rt prev);
  o ← on_base (task_on_rq prev);
  when (o || (skip_clock_update r <? 0)) (on_base (update_rq_clock c)) ;;
  when (bool_decide (class p = fair_class)) (put_prev_task_fair prev) ;;
  next ← match hi with
         | Some t => mret t
         | None => n ← pick_next_task_fair c; mret (default lo n)
         end;
  on_base (
    p ← get_rt prev;
    put_rt prev (set_need_resched false p) ;;
    r ← cpu_rq c;
    put_rq c (set_skip_clock_update 0 r) ;;
    if decide (prev = next) then mret tt
    else
      r ← cpu_rq c;
      put_rq c (set_curr next r) ;;
      n ← get_rt next;
      put_rt next (set_on_cpu true n) ;;
      p ← get_rt prev;
      put_rt prev (set_on_cpu false p)).

(** scheduler_tick(), up to the call of the class *)
Definition scheduler_tick_fair (c : nat) : F unit :=
  on_base (update_rq_clock c) ;;
  r ← on_base (cpu_rq c);
  task_tick_fair c (RtRq.curr r).

(** move_task() of the load balancer *)
Definition move_task_fair (c t d : nat) : F unit :=
  deactivate_task_fair c t DEQUEUE_NOCMGROUP ;;
  set_task_cpu_fair t d ;;
  activate_task_fair d t ENQUEUE_NOCMGROUP ;;
  check_preempt_task_fair d t false.

Definition NICE_TO_PRIO (nice : Z) : Z := MAX_RT_PRIO + nice + 20.
Definition PRIO_TO_NICE (prio : Z) : Z := prio - MAX_RT_PRIO - 20.

(** set_user_nice() of a task of the class *)
Definition set_user_nice (t : nat) (nice : Z) : F unit :=
  e ← get_se t;
  if (PRIO_TO_NICE (static_prio e) =? nice) || (nice <? -20) || (19 <? nice) then mret tt
  else
    c ← cpu_of t;
    queued ← on_base (task_on_rq t);
    when queued (deactivate_task_fair c t DEQUEUE_NOCMGROUP) ;;
    e ← get_se t;
    p ← on_base (get_rt t);
    l ← deref (fun _ => set_load_weight (policy p) (NICE_TO_PRIO nice));
    put_se t (set_se_load l (set_static_prio (NICE_TO_PRIO nice) e)) ;;
    let new := if rt_prio (prio p) then prio p else NICE_TO_PRIO nice in
    on_base (put_rt t (set_prio new p)) ;;
    when queued
      (activate_task_fair c t ENQUEUE_NOCMGROUP ;;
       r ← on_base (cpu_rq c);
       x ← on_base (get_rt t);
       when ((new <? prio p) || ((prio p <? new) && on_cpu x)) (on_base (resched_task (RtRq.curr r)))).

(** the answer of yield_to() is a bool: of -ESRCH the caller sees [true] *)
Definition yield_to (c t : nat) (preempt : bool) : F bool :=
  r ← on_base (cpu_rq c);
  d ← cpu_of t;
  r' ← on_base (cpu_rq d);
  if (nr_running r =? 1) && (nr_running r' =? 1) then mret true
  else
    q ← on_base (get_rt (RtRq.curr r));
    p ← on_base (get_rt t);
    k ← on_base (lift_k (get_task t));
    if bool_decide (class q <> fair_class) || bool_decide (class q <> class p) then mret false
    else if on_cpu p || negb (tstate k =? 0) then mret false
    else
      yielded ← yield_to_task_fair c t;
      when (yielded && preempt && bool_decide (c <> d)) (on_base (resched_task (RtRq.curr r'))) ;;
      mret yielded.
End Class.
