(* ===== verification/FairMath.v ===== *)
(** * The fair class: its arithmetic

    The class divides by weights with multiplications and shifts, and decays
    averages with tables.  Here: how close __calc_delta() is to the quotient it
    stands for, why the slices of the tasks of a run queue fit in a period, and
    why the averages stay in 32 bits. *)

From S2P Require Import Prelude Wait Tasklet Cmgroup Sched EpTree RtRq RtPush FairRq.
Local Open Scope Z_scope.

(** ** Shifting a factor into 32 bits *)

(** [k] bits of [x] are lost, and at most one part in 2^31 *)
Definition cut (x k : Z) : Prop :=
  0 <= k /\ Z.shiftr x k < 2 ^ 32 /\ x * (2 ^ 31 - 1) <= Z.shiftr x k * 2 ^ k * 2 ^ 31.

Lemma shiftr_bounds x k : 0 <= k -> Z.shiftr x k * 2 ^ k <= x < (Z.shiftr x k + 1) * 2 ^ k.
Proof.
  intros Hk. rewrite Z.shiftr_div_pow2 by done. assert (0 < 2 ^ k) by (apply Z.pow_pos_nonneg; lia).
  pose proof (Z.div_mod x (2 ^ k)). pose proof (Z.mod_pos_bound x (2 ^ k)). lia.
Qed.

Lemma fit32_spec fuel x shift :
  0 <= x < 2 ^ (32 + Z.of_nat fuel) ->
  exists k, fit32 fuel x shift = (Z.shiftr x k, shift - k) /\ 0 <= k <= Z.of_nat fuel /\ Z.shiftr x k < 2 ^ 32 /\
    (k = 0 \/ 2 ^ (31 + k) <= x).
Proof.
  revert x shift. induction fuel as [|fuel IH]; intros x shift Hx; cbn [fit32].
  - change (32 + Z.of_nat 0) with 32 in Hx. exists 0. rewrite Z.shiftr_0_r, Z.sub_0_r.
    split_and!; [by destruct (_ =? _)|done|done|lia|by left].
  - destruct (Z.eqb_spec (Z.shiftr x 32) 0) as [E|E].
    + exists 0. rewrite Z.shiftr_0_r, Z.sub_0_r. split_and!; [done|lia|lia| |by left].
      pose proof (shiftr_bounds x 32). lia.
    + assert (Hx32 : 2 ^ 32 <= x).
      { apply Z.nlt_ge. intros Hl. apply E. rewrite Z.shiftr_div_pow2 by lia. apply Z.div_small. lia. }
      assert (Hh : 0 <= Z.shiftr x 1 < 2 ^ (32 + Z.of_nat fuel)).
      { pose proof (shiftr_bounds x 1). replace (32 + Z.of_nat (S fuel)) with (1 + (32 + Z.of_nat fuel)) in Hx by lia.
        rewrite Z.pow_add_r in Hx by lia. lia. }
      destruct (IH _ (shift - 1) Hh) as (k & -> & Hk & H32 & Hlo). rewrite Z.shiftr_shiftr in * by lia.
      exists (1 + k). split_and!; [f_equal; lia|lia|lia|done|right].
      destruct Hlo as [->|Hlo]; [lia|]. pose proof (shiftr_bounds x 1).
      replace (31 + (1 + k)) with (1 + (31 + k)) by lia. rewrite Z.pow_add_r by lia. lia.
Qed.

Lemma fit32_small fuel x shift : 0 <= x < 2 ^ 32 -> fit32 fuel x shift = (x, shift).
Proof. intros Hx. destruct fuel; cbn [fit32]; by rewrite Z.shiftr_div_pow2, Z.div_small by lia. Qed.

(** 64 bits: the loop ends with a shift that is not negative *)
Lemma fit32_cut x : 0 <= x < 2 ^ 64 -> exists k, fit32 64 x 32 = (Z.shiftr x k, 32 - k) /\ k <= 32 /\ cut x k.
Proof.
  intros Hx. destruct (fit32_spec 64 x 32) as (k & E & Hk & H32 & Hlo); [change (32 + Z.of_nat 64) with 96; lia|].
  exists k. split; [done|]. assert (Hk32 : k <= 32).
  { destruct Hlo as [->|Hlo]; [lia|]. apply Z.nlt_ge. intros Hl. assert (2 ^ 64 <= 2 ^ (31 + k)) by (apply Z.pow_le_mono_r; lia). lia. }
  split; [done|]. split; [lia|]. split; [done|]. pose proof (shiftr_bounds x k ltac:(lia)) as Hb.
  destruct Hlo as [->|Hlo]; [rewrite Z.shiftr_0_r in *; lia|]. rewrite Z.pow_add_r in Hlo by lia. lia.
Qed.

(** ** __calc_delta() *)

(** the inverse that a weight ends up with *)
Definition inverse (lw : load_weight) : Z := inv_weight (__update_inv_weight lw).

(** a weight whose inverse is not cached, or cached as __update_inv_weight() leaves it *)
Definition plain (lw : load_weight) : Prop :=
  0 < weight lw < WMULT_CONST /\ (inv_weight lw = 0 \/ inv_weight lw = WMULT_CONST / weight lw).

Lemma plain_inverse lw : plain lw -> inverse lw = WMULT_CONST / weight lw.
Proof.
  intros [Hw Hi]. unfold inverse, __update_inv_weight. destruct (Z.eqb_spec (inv_weight lw) 0) as [E|E]; cbn; [|tauto].
  rewrite (proj2 (Z.leb_gt _ _)) by lia. by rewrite (proj2 (Z.eqb_neq _ _)) by lia.
Qed.

Lemma plain_bounds lw : plain lw -> 2 ^ 32 - weight lw <= inverse lw * weight lw <= 2 ^ 32 - 1 /\ 0 < inverse lw < 2 ^ 32.
Proof.
  intros Hp. rewrite (plain_inverse lw Hp). destruct Hp as [Hw _]. unfold WMULT_CONST in *.
  pose proof (Z.div_mod (2 ^ 32 - 1) (weight lw)). pose proof (Z.mod_pos_bound (2 ^ 32 - 1) (weight lw)).
  assert (0 < (2 ^ 32 - 1) / weight lw) by (apply Z.div_str_pos; lia). split; nia.
Qed.

Lemma plain_update lw : plain lw -> plain (__update_inv_weight lw) /\ weight (__update_inv_weight lw) = weight lw.
Proof.
  intros Hp. pose proof (plain_inverse lw Hp) as E. unfold inverse in E.
  assert (Hw : weight (__update_inv_weight lw) = weight lw).
  { unfold __update_inv_weight. by repeat (destruct (_ : bool)). }
  split; [|done]. split; [by rewrite Hw; apply Hp|right; by rewrite Hw].
Qed.

Section Delta.
Context {FL : FairLib} {LL : FairLaws FL}.

Lemma calc_delta_raw delta w lw :
  0 <= delta < 2 ^ 64 -> 0 <= w < 2 ^ 32 -> 0 <= inverse lw < 2 ^ 32 -> delta * w * inverse lw < 2 ^ 96 ->
  exists r, __calc_delta delta w lw = (r, __update_inv_weight lw) /\ 0 <= r < 2 ^ 64 /\
    r * 2 ^ 32 <= delta * w * inverse lw /\ delta * w * inverse lw * (2 ^ 31 - 1) < (r + 1) * 2 ^ 63.
Proof.
  intros Hd Hw Hi Hb. unfold __calc_delta, WMULT_SHIFT. fold (inverse lw). rewrite fit32_small by done.
  rewrite u32_id by done. set (X := w * inverse lw). assert (HX : 0 <= X < 2 ^ 64) by (unfold X; nia).
  rewrite u64_id by done. destruct (fit32_cut X HX) as (k & -> & Hk & Hk0 & H32 & Hlo). set (f := Z.shiftr X k) in *.
  pose proof (shiftr_bounds X k Hk0) as Hf. fold f in Hf.
  assert (Hf0 : 0 <= f) by (unfold f; apply Z.shiftr_nonneg; lia).
  set (r := Z.shiftr (delta * f) (32 - k)). pose proof (shiftr_bounds (delta * f) (32 - k) ltac:(lia)) as Hr. fold r in Hr.
  assert (Hr0 : 0 <= r) by (unfold r; apply Z.shiftr_nonneg; nia).
  assert (Hp : 2 ^ (32 - k) * 2 ^ k = 2 ^ 32) by (rewrite <- Z.pow_add_r by lia; f_equal; lia).
  assert (Hpk : 0 < 2 ^ k) by (apply Z.pow_pos_nonneg; lia).
  assert (Hps : 0 < 2 ^ (32 - k)) by (apply Z.pow_pos_nonneg; lia).
  replace (delta * w * inverse lw) with (delta * X) in * by (unfold X; lia).
  assert (Hup : r * 2 ^ 32 <= delta * X).
  { rewrite <- Hp. trans (delta * f * 2 ^ k); [nia|]. rewrite <- Z.mul_assoc. apply Z.mul_le_mono_nonneg_l; lia. }
  assert (Hr64 : r < 2 ^ 64) by lia.
  exists r. rewrite mul_u64_u32_shr_eq by lia. fold r. rewrite u64_id by lia. split_and!; [done|lia|done|done|].
  apply Z.le_lt_trans with (delta * f * 2 ^ k * 2 ^ 31).
  - replace (delta * X * (2 ^ 31 - 1)) with (delta * (X * (2 ^ 31 - 1))) by lia. replace (delta * f * 2 ^ k * 2 ^ 31) with (delta * (f * 2 ^ k * 2 ^ 31)) by lia.
    apply Z.mul_le_mono_nonneg_l; lia.
  - replace ((r + 1) * 2 ^ 63) with ((r + 1) * 2 ^ (32 - k) * 2 ^ k * 2 ^ 31) by (rewrite <- (Z.mul_assoc _ (2 ^ (32 - k))), Hp; lia).
    apply Z.mul_lt_mono_pos_r; [lia|]. apply Z.mul_lt_mono_pos_r; lia.
Qed.

(** a plain weight: the quotient, from below, and close *)
Lemma calc_delta_plain delta w lw :
  0 <= delta < 2 ^ 64 -> 0 <= w < 2 ^ 32 -> plain lw -> delta * w <= (2 ^ 64 - 1) * weight lw ->
  exists r, __calc_delta delta w lw = (r, __update_inv_weight lw) /\ 0 <= r < 2 ^ 64 /\ r * weight lw <= delta * w /\
    delta * w * (2 ^ 32 - weight lw) * (2 ^ 31 - 1) <= (r + 1) * weight lw * 2 ^ 63.
Proof.
  intros Hd Hw Hp Hb. destruct (plain_bounds lw Hp) as [Hi Hi'].
  assert (Hdw : 0 <= delta * w) by nia.
  assert (Hq : delta * w * inverse lw <= (2 ^ 64 - 1) * (2 ^ 32 - 1)).
  { apply Z.le_trans with ((2 ^ 64 - 1) * weight lw * inverse lw); [apply Z.mul_le_mono_nonneg_r; lia|].
    rewrite <- Z.mul_assoc. apply Z.mul_le_mono_nonneg_l; lia. }
  destruct (calc_delta_raw delta w lw) as (r & E & Hr & Hup & Hlo); [done|done|lia|lia|].
  exists r. destruct Hp as [Hlw _]. split_and!; [done|lia|lia| |].
  - assert (r * weight lw * 2 ^ 32 <= delta * w * (2 ^ 32 - 1)) by nia. nia.
  - assert (delta * w * (2 ^ 32 - weight lw) <= delta * w * inverse lw * weight lw) by nia. nia.
Qed.
End Delta.

(** ** The averages *)

Definition AVG_BOUND : Z := 48 * 1024.

Record avg_ok (sa : sched_avg) : Prop := {
  ao_sum : 0 <= runnable_avg_sum sa <= runnable_avg_period sa;
  ao_period : runnable_avg_period sa < AVG_BOUND
}.

Lemma yN_inv_range n : 0 <= yN_inv n < 2 ^ 32.
Proof.
  unfold yN_inv. assert (H : Forall (fun y => 0 <= y < 2 ^ 32) runnable_avg_yN_inv).
  { apply (bool_decide_unpack _). by vm_compute. }
  destruct (_ !! _) as [y|] eqn:E; cbn; [|lia]. by eapply Forall_lookup_1 in H.
Qed.

(** the part of [val] that is left before the table is used *)
Definition halved (val n : Z) : Z := if LOAD_AVG_PERIOD <=? n then Z.shiftr val (n / LOAD_AVG_PERIOD) else val.

Lemma halved_mono v v' n : 0 <= v <= v' -> 0 <= n -> 0 <= halved v n <= halved v' n /\ halved v n <= v.
Proof.
  intros Hv Hn. unfold halved, LOAD_AVG_PERIOD. destruct (32 <=? n); [|lia].
  assert (0 <= n / 32) by (apply Z.div_pos; lia). assert (Hp : 0 < 2 ^ (n / 32)) by (apply Z.pow_pos_nonneg; lia).
  rewrite !Z.shiftr_div_pow2 by done. split; [split; [apply Z.div_pos; lia|apply Z.div_le_mono; lia]|].
  apply Z.div_le_upper_bound; nia.
Qed.

Lemma decay_load_mono v v' n : 0 <= v <= v' -> v' < 2 ^ 32 -> 0 <= n ->
  0 <= decay_load v n <= decay_load v' n /\ decay_load v n <= halved v n.
Proof.
  intros Hv Hv' Hn. destruct (halved_mono v v' n Hv Hn) as [Hh Hle]. destruct (halved_mono v' v' n) as [_ Hle']; [lia|done|].
  unfold decay_load. destruct (Z.eqb_spec n 0) as [->|Hn0]; [unfold halved; cbn; lia|].
  destruct (_ <? n); [lia|]. fold (halved v n) (halved v' n).
  set (y := yN_inv _). assert (Hy : 0 <= y < 2 ^ 32) by apply yN_inv_range.
  rewrite !u64_id by nia. rewrite !Z.shiftr_div_pow2 by lia.
  split; [split; [apply Z.div_pos; nia|apply Z.div_le_mono; nia]|]. apply Z.div_le_upper_bound; nia.
Qed.

(** what is left of full averages and what long intervals add *)
Lemma contrib_bound n : 0 <= n ->
  0 <= __compute_runnable_contrib n /\ __compute_runnable_contrib n + decay_load AVG_BOUND (n + 1) <= AVG_BOUND - 1024.
Proof.
  intros Hn. destruct (Z.lt_ge_cases n LOAD_AVG_MAX_N) as [Hl|Hg].
  - assert (H : Forall (fun i => 0 <= __compute_runnable_contrib (Z.of_nat i) /\
      __compute_runnable_contrib (Z.of_nat i) + decay_load AVG_BOUND (Z.of_nat i + 1) <= AVG_BOUND - 1024) (seq 0 345)).
    { apply (bool_decide_unpack _). by vm_compute. }
    rewrite Forall_forall in H. specialize (H (Z.to_nat n)). rewrite Z2Nat.id in H by done.
    apply H, elem_of_seq. unfold LOAD_AVG_MAX_N in Hl. lia.
  - assert (E : __compute_runnable_contrib n = LOAD_AVG_MAX).
    { unfold __compute_runnable_contrib, LOAD_AVG_PERIOD, LOAD_AVG_MAX_N in *. rewrite (proj2 (Z.leb_gt _ _)), (proj2 (Z.leb_le _ _)) by lia. done. }
    rewrite E. unfold LOAD_AVG_MAX_N in Hg. destruct (decay_load_mono AVG_BOUND AVG_BOUND (n + 1)) as [_ Hd]; [unfold AVG_BOUND; lia|unfold AVG_BOUND; lia|lia|].
    assert (Hh : halved AVG_BOUND (n + 1) <= 48).
    { unfold halved, LOAD_AVG_PERIOD. rewrite (proj2 (Z.leb_le _ _)) by lia.
      assert (10 <= (n + 1) / 32) by (apply Z.div_le_lower_bound; lia). rewrite Z.shiftr_div_pow2 by lia.
      assert (2 ^ 10 <= 2 ^ ((n + 1) / 32)) by (apply Z.pow_le_mono_r; lia). apply Z.div_le_upper_bound; unfold AVG_BOUND; lia. }
    unfold LOAD_AVG_MAX, AVG_BOUND in *. lia.
Qed.

Lemma accrue_eq (b : bool) d sa :
  0 <= runnable_avg_sum sa <= runnable_avg_period sa -> 0 <= d -> runnable_avg_period sa + d < 2 ^ 32 ->
  runnable_avg_sum (accrue b d sa) = runnable_avg_sum sa + (if b then d else 0) /\
  runnable_avg_period (accrue b d sa) = runnable_avg_period sa + d.
Proof. intros Hs Hd Hb. destruct b; cbn; rewrite ?u32_id by lia; lia. Qed.

(** a period ends: the averages are decayed and what came after is added *)
Lemma update_avg_ok now sa b : avg_ok sa -> avg_ok (snd (__update_entity_runnable_avg now sa b)).
Proof.
  intros [Hs Hp]. unfold AVG_BOUND in Hp. unfold __update_entity_runnable_avg.
  destruct (_ <? 0) eqn:Eneg; [by split|]. set (delta := Z.shiftr (u64 (now - last_runnable_update sa)) 10).
  assert (Hd : 0 <= delta) by (apply Z.shiftr_nonneg; pose proof (u64_range (now - last_runnable_update sa)); lia).
  destruct (delta =? 0); [by split|]. set (sa1 := set_last_runnable_update now sa).
  set (dw := runnable_avg_period sa1 mod 1024). assert (Hdw : 0 <= dw < 1024) by (apply Z.mod_pos_bound; lia).
  assert (Hm : runnable_avg_period sa = 1024 * (runnable_avg_period sa / 1024) + dw) by (apply Z.div_mod; lia).
  assert (Hs1 : runnable_avg_sum sa1 = runnable_avg_sum sa /\ runnable_avg_period sa1 = runnable_avg_period sa) by done.
  destruct (Z.leb_spec 1024 (delta + dw)) as [Hle|Hlt]; cbn [snd].
  - set (sa2 := accrue b (1024 - dw) sa1). destruct (accrue_eq b (1024 - dw) sa1) as [E1 E2]; [lia|lia|lia|]. fold sa2 in E1, E2.
    set (n := (delta - (1024 - dw)) / 1024). assert (Hn : 0 <= n) by (apply Z.div_pos; lia).
    set (rest := (delta - (1024 - dw)) mod 1024). assert (Hrest : 0 <= rest < 1024) by (apply Z.mod_pos_bound; lia).
    assert (HP : 0 <= runnable_avg_sum sa2 <= runnable_avg_period sa2 /\ runnable_avg_period sa2 <= AVG_BOUND).
    { rewrite E1, E2. unfold AVG_BOUND. destruct b; lia. }
    destruct (decay_load_mono (runnable_avg_sum sa2) (runnable_avg_period sa2) (n + 1)) as [D1 _]; [lia|unfold AVG_BOUND in *; lia|lia|].
    destruct (decay_load_mono (runnable_avg_period sa2) AVG_BOUND (n + 1)) as [D2 _]; [lia|unfold AVG_BOUND; lia|lia|].
    destruct (contrib_bound n Hn) as [C0 C1]. unfold AVG_BOUND in *.
    set (sa3 := set_runnable_avg_sum _ sa2). set (sa4 := set_runnable_avg_period _ sa3).
    assert (E3 : runnable_avg_sum sa4 = decay_load (runnable_avg_sum sa2) (n + 1)) by (apply (u32_id (decay_load (runnable_avg_sum sa2) (n + 1))); lia).
    assert (E4 : runnable_avg_period sa4 = decay_load (runnable_avg_period sa2) (n + 1)) by (apply (u32_id (decay_load (runnable_avg_period sa2) (n + 1))); lia).
    destruct (accrue_eq b (__compute_runnable_contrib n) sa4) as [E5 E6]; [lia|lia|lia|]. set (sa5 := accrue b (__compute_runnable_contrib n) sa4) in *.
    destruct (accrue_eq b rest sa5) as [E7 E8]; [destruct b; lia|lia|lia|].
    split; rewrite ?E7, E8; unfold AVG_BOUND; destruct b; lia.
  - destruct (accrue_eq b delta sa1) as [E1 E2]; [lia|lia|lia|]. split; rewrite ?E1, E2; unfold AVG_BOUND; destruct b; lia.
Qed.
