(* ===== verification/FairInv.v ===== *)
(** * The fair class: its state as the invariant sees it

    The code of the class reads clocks, averages and virtual times on every
    path, and none of them decides whether the run queues are intact.  The view
    of a world keeps what does: of a run queue the tree, the list of tasks, the
    counters, the weights, the current task and the buddies, of an entity
    whether it is queued and its weight, and of the rest the current tasks, the
    scheduling parameters and the kernel of Cmgroup.v.  [vwp V m Q] says that [m]
    returns from every world with view [V], and that the result and the new view
    satisfy [Q]. *)

From S2P Require Import Prelude Wait Tasklet Cmgroup Sched CmInv CmTask CmSys EpTree RtRq RtPush RtInv FairRq FairMath.
Local Open Scope Z_scope.

(** ** Views *)

Record cfs_view := CfsView {
  v_weight : Z;
  v_nr : Z;
  v_h_nr : Z;
  v_tree : rbtree nat;
  v_left : option nat;
  v_run : option nat;
  v_next : option nat;
  v_last : option nat;
  v_skip : option nat
}.

Definition see_cfs (q : cfs_rq) : cfs_view :=
  CfsView (weight (cfs_load q)) (cfs_nr_running q) (h_nr_running q) (tasks_timeline q) (cfs_leftmost q)
    (cfs_curr q) (cfs_next q) (cfs_last q) (cfs_skip q).

(** a run queue: its cfs_rq, the weight in struct rq and the list of tasks *)
Record queue_view := QueueView { v_cfs : cfs_view; v_load : Z; v_list : list nat }.
Definition see_rq (x : fair_rq) : queue_view := QueueView (see_cfs (cfs x)) (weight (rq_load x)) (cfs_tasks x).
Definition on_cfs (v : cfs_view) (k : queue_view) : queue_view := QueueView v (v_load k) (v_list k).

Record ent_view := EntView { v_on : bool; v_wt : Z }.
Definition see_se (e : sched_entity) : ent_view := EntView (se_on_rq e) (weight (se_load e)).

Section View.
Context {RL : RtLib}.

Record fview := FView {
  f_rqs : gmap nat queue_view;
  f_ents : gmap nat ent_view;
  f_curr : gmap nat nat;
  f_rts : gmap nat rt_task;
  f_krn : kernel
}.
Implicit Types (V : fview) (w : fw).

Definition set_f_rqs (m : gmap nat queue_view) V : fview := FView m (f_ents V) (f_curr V) (f_rts V) (f_krn V).
Definition set_f_ents (m : gmap nat ent_view) V : fview := FView (f_rqs V) m (f_curr V) (f_rts V) (f_krn V).
Definition set_f_curr (m : gmap nat nat) V : fview := FView (f_rqs V) (f_ents V) m (f_rts V) (f_krn V).
Definition set_f_rts (m : gmap nat rt_task) V : fview := FView (f_rqs V) (f_ents V) (f_curr V) m (f_krn V).
Definition set_f_krn (k : kernel) V : fview := FView (f_rqs V) (f_ents V) (f_curr V) (f_rts V) k.

(** another run queue, another entity *)
Definition with_q (c : nat) (k : queue_view) V : fview := set_f_rqs (<[c := k]> (f_rqs V)) V.
Definition with_e (t : nat) (e : ent_view) V : fview := set_f_ents (<[t := e]> (f_ents V)) V.

Definition see w : fview :=
  FView (see_rq <$> frs w) (see_se <$> fes w) (RtRq.curr <$> rqs (fbase w)) (task_abs <$> rts (fbase w)) (krn (fbase w)).

(** ** Running code on views *)

Definition vwp {A} V (m : F A) (Q : A -> fview -> Prop) : Prop :=
  forall w, see w = V -> swp False m w (fun a w' => Q a (see w')).

(** [m] does not change the view *)
Definition mild {A} V (m : F A) : Prop := vwp V m (fun _ V' => V' = V).

Lemma vwp_ret {A} V (a : A) (Q : A -> fview -> Prop) : Q a V -> vwp V (mret a) Q.
Proof. intros H w <-. done. Qed.
Lemma vwp_bind {A B} V (m : F A) (k : A -> F B) Q :
  vwp V m (fun a V' => vwp V' (k a) Q) -> vwp V (mbind k m) Q.
Proof. intros H w Hw. apply swp_bind. eapply swp_cons; [by apply H|]. intros a w' Ha. by apply Ha. Qed.
Lemma vwp_cons {A} V (m : F A) (P Q : A -> fview -> Prop) :
  vwp V m P -> (forall a V', P a V' -> Q a V') -> vwp V m Q.
Proof. intros H HPQ w Hw. eapply swp_cons; [by apply H|]. intros a w'. apply HPQ. Qed.
Lemma vwp_seq {A B} V (m : F A) (k : A -> F B) P Q :
  vwp V m P -> (forall a V', P a V' -> vwp V' (k a) Q) -> vwp V (mbind k m) Q.
Proof. intros H Hk. apply vwp_bind. by eapply vwp_cons. Qed.
Lemma vwp_mild {A B} V (m : F A) (k : A -> F B) Q :
  mild V m -> (forall a, vwp V (k a) Q) -> vwp V (mbind k m) Q.
Proof. intros H Hk. eapply vwp_seq; [exact H|]. intros a ? ->. apply Hk. Qed.
Lemma mild_cons {A} V (m : F A) (Q : A -> fview -> Prop) : mild V m -> (forall a, Q a V) -> vwp V m Q.
Proof. intros H HQ. eapply vwp_cons; [exact H|]. intros a ? ->. apply HQ. Qed.
Lemma vwp_when V (b : bool) (m : F unit) Q :
  (b = true -> vwp V m Q) -> (b = false -> Q tt V) -> vwp V (when b m) Q.
Proof. destruct b; intros H1 H2; [by apply H1|]. apply vwp_ret. by apply H2. Qed.
Lemma mild_when V (b : bool) (m : F unit) : (b = true -> mild V m) -> mild V (when b m).
Proof. intros H. by apply vwp_when. Qed.
Lemma vwp_deref {A} V (o : option A) a (Q : A -> fview -> Prop) : o = Some a -> Q a V -> vwp V (deref (fun _ => o)) Q.
Proof. intros -> H w <-. by eapply swp_deref. Qed.

(** from the view of a map to the map *)
Lemma see_lookup {A B} (f : A -> B) (m : gmap nat A) i b : (f <$> m) !! i = Some b -> exists a, m !! i = Some a /\ f a = b.
Proof. rewrite lookup_fmap. destruct (m !! i) as [a|]; cbn; [|done]. intros [= <-]. by exists a. Qed.

(** ** Access *)

Lemma vwp_fair_of V c k (Q : fair_rq -> fview -> Prop) :
  f_rqs V !! c = Some k -> (forall x, see_rq x = k -> Q x V) -> vwp V (fair_of c) Q.
Proof. intros Hk H w <-. apply see_lookup in Hk as (x & Hx & Ex). eapply swp_deref; [exact Hx|]. by apply H. Qed.

Lemma vwp_put_fair V c x (Q : unit -> fview -> Prop) :
  Q tt (with_q c (see_rq x) V) -> vwp V (put_fair c x) Q.
Proof. intros H w <-. apply swp_modify. unfold see in *. cbn in *. by rewrite fmap_insert. Qed.

Lemma vwp_cfs_of V c k (Q : cfs_rq -> fview -> Prop) :
  f_rqs V !! c = Some k -> (forall q, see_cfs q = v_cfs k -> Q q V) -> vwp V (cfs_of c) Q.
Proof.
  intros Hk H. apply vwp_bind. eapply vwp_fair_of; [done|]. intros x <-. apply vwp_ret. by apply H.
Qed.

Lemma vwp_put_cfs V c k q (Q : unit -> fview -> Prop) :
  f_rqs V !! c = Some k -> Q tt (with_q c (on_cfs (see_cfs q) k) V) -> vwp V (put_cfs c q) Q.
Proof.
  intros Hk H. apply vwp_bind. eapply vwp_fair_of; [done|]. intros x <-. apply vwp_put_fair. exact H.
Qed.

(** a change of clocks and averages *)
Lemma vwp_put_cfs_same V c k q (Q : unit -> fview -> Prop) :
  f_rqs V !! c = Some k -> see_cfs q = v_cfs k -> Q tt V -> vwp V (put_cfs c q) Q.
Proof.
  intros Hk E H. eapply vwp_put_cfs; [done|]. rewrite E. replace (on_cfs (v_cfs k) k) with k by by destruct k.
  unfold with_q. rewrite insert_id by done. by destruct V.
Qed.

Lemma vwp_get_se V t e (Q : sched_entity -> fview -> Prop) :
  f_ents V !! t = Some e -> (forall s, see_se s = e -> Q s V) -> vwp V (get_se t) Q.
Proof. intros Hk H w <-. apply see_lookup in Hk as (x & Hx & Ex). eapply swp_deref; [exact Hx|]. by apply H. Qed.

Lemma vwp_put_se V t s (Q : unit -> fview -> Prop) :
  Q tt (with_e t (see_se s) V) -> vwp V (put_se t s) Q.
Proof. intros H w <-. apply swp_modify. unfold see in *. cbn in *. by rewrite fmap_insert. Qed.

Lemma vwp_put_se_same V t s e (Q : unit -> fview -> Prop) :
  f_ents V !! t = Some e -> see_se s = e -> Q tt V -> vwp V (put_se t s) Q.
Proof. intros He E H. apply vwp_put_se. unfold with_e. rewrite E, insert_id by done. by destruct V. Qed.

Lemma vwp_tunables V (Q : tunables -> fview -> Prop) : (forall s, Q s V) -> vwp V tunables_of Q.
Proof. intros H w <-. by apply H. Qed.
Lemma vwp_get V (Q : fw -> fview -> Prop) : (forall w, see w = V -> Q w V) -> vwp V get Q.
Proof. intros H w Hw. apply swp_get. rewrite Hw. by apply H. Qed.

(** ** The world of the real-time class *)

Lemma vwp_base {A} V (m : W A) (Q : A -> fview -> Prop) :
  (forall b, RtRq.curr <$> rqs b = f_curr V -> task_abs <$> rts b = f_rts V -> krn b = f_krn V ->
    exists a b', m b = Ret a b' /\
      Q a (FView (f_rqs V) (f_ents V) (RtRq.curr <$> rqs b') (task_abs <$> rts b') (krn b'))) ->
  vwp V (on_base m) Q.
Proof.
  intros H w <-. destruct (H (fbase w) eq_refl eq_refl eq_refl) as (a & b' & E & HQ). unfold swp, on_base. by rewrite E.
Qed.

Lemma vwp_get_rt V t p (Q : rt_task -> fview -> Prop) :
  f_rts V !! t = Some p -> (forall x, task_abs x = p -> Q x V) -> vwp V (on_base (get_rt t)) Q.
Proof.
  intros Hp H. apply vwp_base. intros b Hb1 Hb2 Hb3. rewrite <- Hb2 in Hp. apply see_lookup in Hp as (x & Hx & Ex).
  exists x, b. split; [by apply get_rt_eq|]. rewrite Hb1, Hb2, Hb3. destruct V. by apply H.
Qed.

Lemma vwp_put_rt V t x (Q : unit -> fview -> Prop) :
  Q tt (set_f_rts (<[t := task_abs x]> (f_rts V)) V) -> vwp V (on_base (put_rt t x)) Q.
Proof.
  intros H. apply vwp_base. intros b Hb1 Hb2 Hb3. eexists tt, _. split; [done|]. cbn. by rewrite fmap_insert, Hb1, Hb2, Hb3.
Qed.

Lemma vwp_put_rt_same V t p x (Q : unit -> fview -> Prop) :
  f_rts V !! t = Some p -> task_abs x = p -> Q tt V -> vwp V (on_base (put_rt t x)) Q.
Proof. intros Hp E H. apply vwp_put_rt. rewrite E, insert_id by done. by destruct V. Qed.

Lemma vwp_cpu_rq V c u (Q : rq -> fview -> Prop) :
  f_curr V !! c = Some u -> (forall r, RtRq.curr r = u -> Q r V) -> vwp V (on_base (cpu_rq c)) Q.
Proof.
  intros Hp H. apply vwp_base. intros b Hb1 Hb2 Hb3. rewrite <- Hb1 in Hp. apply see_lookup in Hp as (x & Hx & Ex).
  exists x, b. split; [by apply cpu_rq_eq|]. rewrite Hb1, Hb2, Hb3. destruct V. by apply H.
Qed.

Lemma vwp_put_rq V c r (Q : unit -> fview -> Prop) :
  Q tt (set_f_curr (<[c := RtRq.curr r]> (f_curr V)) V) -> vwp V (on_base (put_rq c r)) Q.
Proof.
  intros H. apply vwp_base. intros b Hb1 Hb2 Hb3. eexists tt, _. split; [done|]. cbn. by rewrite fmap_insert, Hb1, Hb2, Hb3.
Qed.

Lemma vwp_put_rq_same V c u r (Q : unit -> fview -> Prop) :
  f_curr V !! c = Some u -> RtRq.curr r = u -> Q tt V -> vwp V (on_base (put_rq c r)) Q.
Proof. intros Hp E H. apply vwp_put_rq. rewrite E, insert_id by done. by destruct V. Qed.

Lemma vwp_lift_k {A} V (m : K A) a k (Q : A -> fview -> Prop) :
  m (f_krn V) = Ret a k -> Q a (set_f_krn k V) -> vwp V (on_base (lift_k m)) Q.
Proof.
  intros E H. apply vwp_base. intros b Hb1 Hb2 Hb3. exists a, (set_krn k b). unfold lift_k. rewrite Hb3, E.
  split; [done|]. cbn. by rewrite Hb1, Hb2.
Qed.

Lemma with_q_id V c k : f_rqs V !! c = Some k -> with_q c k V = V.
Proof. intros Hk. unfold with_q. rewrite insert_id by done. by destruct V. Qed.
Lemma with_q_q V c k k' : with_q c k (with_q c k' V) = with_q c k V.
Proof. unfold with_q, set_f_rqs. cbn. by rewrite insert_insert_eq. Qed.
Lemma with_q_lookup V c k : f_rqs (with_q c k V) !! c = Some k.
Proof. apply lookup_insert_eq. Qed.
Lemma with_e_id V t e : f_ents V !! t = Some e -> with_e t e V = V.
Proof. intros He. unfold with_e. rewrite insert_id by done. by destruct V. Qed.
Lemma with_e_lookup V t e : f_ents (with_e t e V) !! t = Some e.
Proof. apply lookup_insert_eq. Qed.
Lemma with_q_e V c k t e : with_q c k (with_e t e V) = with_e t e (with_q c k V).
Proof. done. Qed.

Lemma set_f_krn_id V : set_f_krn (f_krn V) V = V.
Proof. by destruct V. Qed.

Lemma vwp_get_task V t x (Q : task_struct -> fview -> Prop) :
  tasks (f_krn V) !! t = Some x -> Q x V -> vwp V (on_base (lift_k (get_task t))) Q.
Proof. intros Hx H. eapply vwp_lift_k; [by apply get_task_eq|]. by rewrite set_f_krn_id. Qed.

(** statements of the base one after the other *)
Lemma vwp_base_bind {A B} V (m : W A) (k : A -> W B) Q :
  vwp V (on_base m) (fun a V' => vwp V' (on_base (k a)) Q) -> vwp V (on_base (mbind k m)) Q.
Proof.
  intros H w Hw. specialize (H w Hw). unfold swp, on_base, mbind, M_bind in *. destruct (m (fbase w)) as [a b|b|] eqn:E; [|done|done].
  specialize (H _ eq_refl). unfold swp in H. cbn in H. by destruct (k a b).
Qed.
Lemma vwp_base_ret {A} V (a : A) (Q : A -> fview -> Prop) : Q a V -> vwp V (on_base (mret a)) Q.
Proof. intros H w <-. unfold swp, on_base. cbn. by destruct w. Qed.

Lemma vwp_cpu_of V t x (Q : nat -> fview -> Prop) :
  tasks (f_krn V) !! t = Some x -> Q (tcpu x) V -> vwp V (cpu_of t) Q.
Proof. intros Hx H. apply vwp_base_bind. eapply vwp_get_task; [done|]. by apply vwp_base_ret. Qed.

Lemma vwp_task_on_rq V t x (Q : bool -> fview -> Prop) :
  tasks (f_krn V) !! t = Some x -> Q (on_rq x) V -> vwp V (on_base (task_on_rq t)) Q.
Proof. intros Hx H. apply vwp_base_bind. eapply vwp_get_task; [done|]. by apply vwp_base_ret. Qed.
End View.

Ltac vstep :=
  unfold mild; cbv beta;
  lazymatch goal with
  | |- vwp _ (mbind _ _) _ => apply vwp_bind; vstep
  | |- vwp _ (mret _) _ => apply vwp_ret
  | |- vwp _ (fair_of _) _ => eapply vwp_fair_of; [eassumption|]
  | |- vwp _ (cfs_of _) _ => eapply vwp_cfs_of; [eassumption|]
  | |- vwp _ (get_se _) _ => eapply vwp_get_se; [eassumption|]
  | |- vwp _ tunables_of _ => apply vwp_tunables
  | |- vwp _ get _ => apply vwp_get
  | |- vwp _ (cpu_of _) _ => eapply vwp_cpu_of; [eassumption|]
  | |- vwp _ (rq_clock_task _) _ => unfold rq_clock_task; vstep
  | |- vwp _ (on_base (mbind _ _)) _ => apply vwp_base_bind; vstep
  | |- vwp _ (on_base (mret _)) _ => apply vwp_base_ret
  | |- vwp _ (on_base (get_rt _)) _ => eapply vwp_get_rt; [eassumption|]
  | |- vwp _ (on_base (cpu_rq _)) _ => eapply vwp_cpu_rq; [eassumption|]
  | |- vwp _ (on_base (task_on_rq _)) _ => eapply vwp_task_on_rq; [eassumption|]
  | |- vwp _ (on_base (lift_k (get_task _))) _ => eapply vwp_get_task; [eassumption|]
  end.

(** ** Functions that only change clocks, averages and caches *)

Section Quiet.
Context {RL : RtLib} {FL : FairLib} {RB : RbLib}.
Implicit Types (q : cfs_rq) (e f : sched_entity) (s : tunables).

Definition quiet (f : cfs_rq -> sched_entity -> cfs_rq * sched_entity) : Prop :=
  forall q e, see_cfs (f q e).1 = see_cfs q /\ see_se (f q e).2 = see_se e.

Lemma see_upd_avg g e : see_se (upd_avg g e) = see_se e.
Proof. done. Qed.
Lemma see_contrib e : see_se (__update_entity_load_avg_contrib e).2 = see_se e.
Proof. done. Qed.
Lemma see_sync q e : see_se (__synchronize_entity_decay q e).2 = see_se e.
Proof. unfold __synchronize_entity_decay. by destruct (_ =? 0). Qed.
Lemma see_blocked q z : see_cfs (subtract_blocked_load_contrib q z) = see_cfs q.
Proof. unfold subtract_blocked_load_contrib. by destruct (_ <? _). Qed.

Lemma see_update now q e b :
  see_cfs (update_entity_load_avg now q e b).1 = see_cfs q /\ see_se (update_entity_load_avg now q e b).2 = see_se e.
Proof.
  unfold update_entity_load_avg. destruct (__update_entity_runnable_avg _ _ _) as [[] a]; cbn; [|done].
  destruct b; cbn; [|done]. destruct (se_on_rq e); cbn; [done|]. by rewrite see_blocked.
Qed.
Lemma update_quiet now b : quiet (fun q e => update_entity_load_avg now q e b).
Proof. intros q e. apply see_update. Qed.

Lemma see_decay now q b : see_cfs (update_cfs_rq_blocked_load now q b) = see_cfs q.
Proof.
  unfold update_cfs_rq_blocked_load. destruct (_ && _); [done|]. destruct (negb (removed_load q =? 0)), (negb _); cbn; try done.
  - unfold see_cfs. cbn. apply see_blocked.
  - by rewrite see_blocked.
Qed.

(** what enqueue_entity_load_avg() does once the entity is up to date *)
Lemma add_quiet now q e (b : bool) :
  let '(q1, e1) := if b then update_entity_load_avg now (subtract_blocked_load_contrib q (load_avg_contrib (se_avg e))) e false else (q, e) in
  let q2 := set_runnable_load_avg (u64 (runnable_load_avg q1 + load_avg_contrib (se_avg e1))) q1 in
  see_cfs (update_cfs_rq_blocked_load now q2 (negb b)) = see_cfs q /\ see_se e1 = see_se e.
Proof.
  destruct b; cbn; [|by rewrite see_decay].
  destruct (see_update now (subtract_blocked_load_contrib q (load_avg_contrib (se_avg e))) e false) as [H1 H2].
  destruct (update_entity_load_avg _ _ _ _) as [q1 e1]. cbn in H1, H2. split; [|done].
  rewrite see_decay. change (see_cfs q1 = see_cfs q). by rewrite H1, see_blocked.
Qed.

Lemma enqueue_avg_quiet now b : quiet (fun q e => enqueue_entity_load_avg now q e b).
Proof.
  intros q e. unfold enqueue_entity_load_avg.
  assert (H : forall e0 b0, see_se e0 = see_se e ->
    let r := (let '(q1, e1) := if (b0 : bool) then update_entity_load_avg now (subtract_blocked_load_contrib q (load_avg_contrib (se_avg e0))) e0 false else (q, e0) in
      (update_cfs_rq_blocked_load now (set_runnable_load_avg (u64 (runnable_load_avg q1 + load_avg_contrib (se_avg e1))) q1) (negb b0), e1)) in
    see_cfs r.1 = see_cfs q /\ see_se r.2 = see_se e).
  { intros e0 b0 <-. pose proof (add_quiet now q e0 b0) as H. by destruct (if b0 then _ else _). }
  destruct (decay_count (se_avg e) <=? 0); [|exact (H _ b (see_sync q e))]. cbv zeta.
  match goal with |- context [(_, if ?b then ?x else ?y)] => refine (H (if b then x else y) false _) end. destruct (negb _); [|done].
  rewrite see_upd_avg. by match goal with |- see_se (snd (update_entity_load_avg ?n ?q ?e ?b)) = _ => destruct (see_update n q e b) as [_ ->] end.
Qed.

Lemma dequeue_avg_quiet now b : quiet (fun q e => dequeue_entity_load_avg now q e b).
Proof.
  intros q e. unfold dequeue_entity_load_avg. pose proof (see_update now q e true) as [H1 H2].
  destruct (update_entity_load_avg now q e true) as [q1 e1]. cbn in H1, H2.
  pose proof (see_decay now q1 (negb b)) as H3. destruct b; exact (conj (eq_trans H3 H1) H2).
Qed.

Lemma see_inv_weight l : weight (__update_inv_weight l) = weight l.
Proof. unfold __update_inv_weight. by repeat (destruct (_ : bool)). Qed.
Lemma see_calc d w l : weight (__calc_delta d w l).2 = weight l.
Proof. unfold __calc_delta. do 2 (destruct (fit32 _ _ _)). cbn. apply see_inv_weight. Qed.
Lemma see_calc_fair d e : see_se (calc_delta_fair d e).2 = see_se e.
Proof.
  unfold calc_delta_fair. destruct (negb _); [|done]. pose proof (see_calc d NICE_0_LOAD (se_load e)) as H.
  destruct (__calc_delta _ _ _) as [d' l]. cbn in *. unfold see_se. cbn. by rewrite H.
Qed.
Lemma see_slice s q e : see_cfs (sched_slice s q e).2 = see_cfs q.
Proof.
  unfold sched_slice. destruct (se_on_rq e); [|done]. pose proof (see_calc (__sched_period s (u32 (cfs_nr_running q + 0))) (weight (se_load e)) (cfs_load q)) as H.
  destruct (__calc_delta _ _ _) as [d' l]. cbn in *. unfold see_cfs. cbn. by rewrite H.
Qed.

Lemma place_quiet s b : quiet (fun q e => place_entity s q e b).
Proof.
  intros q e. unfold place_entity, sched_vslice. destruct (b && START_DEBIT); [|by destruct (negb b)].
  pose proof (see_slice s q e) as H1. destruct (sched_slice s q e) as [sl q1]. pose proof (see_calc_fair sl e) as H2.
  destruct (calc_delta_fair sl e) as [d e1]. cbn in *. by destruct (negb b).
Qed.

Lemma init_average_quiet s : quiet (fun q e => init_task_runnable_average s q e).
Proof.
  intros q e. unfold init_task_runnable_average. pose proof (see_slice s q (upd_avg (set_decay_count 0) e)) as H1.
  by destruct (sched_slice s q _) as [sl q1].
Qed.

Lemma see_preempt s e f : see_se (wakeup_preempt_entity s e f).2 = see_se f.
Proof.
  unfold wakeup_preempt_entity. destruct (_ <=? 0); [done|]. pose proof (see_calc_fair (sysctl_sched_wakeup_granularity s) f) as H.
  unfold wakeup_gran. by destruct (calc_delta_fair _ f) as [g f'].
Qed.

Lemma mild_on_entity V c t k (o : ent_view) (f : cfs_rq -> sched_entity -> cfs_rq * sched_entity) :
  f_rqs V !! c = Some k -> f_ents V !! t = Some o -> quiet f -> mild V (on_entity c t f).
Proof.
  intros Hk He Hf. unfold on_entity. vstep. intros q Hq. vstep. intros s Hs. pose proof (Hf q s) as [H1 H2]. destruct (f q s) as [q' e']. cbn in H1, H2.
  apply vwp_bind. eapply vwp_put_cfs_same; [done|congruence|]. eapply vwp_put_se_same; [done|congruence|done].
Qed.
End Quiet.

(** ** Operations that do not change the view *)

Section Mild.
Context {RL : RtLib} {FL : FairLib} {RB : RbLib}.
Implicit Types (V : fview) (k : queue_view) (c t u : nat).

(** a CPU whose run queue names entities that exist *)
Record at_cpu V c k : Prop := {
  ac_rq : f_rqs V !! c = Some k;
  ac_cpu : is_Some (f_curr V !! c);
  ac_run : forall t, v_run (v_cfs k) = Some t -> is_Some (f_ents V !! t) /\ is_Some (f_rts V !! t);
  ac_tree : forall t, t ∈ inorder (v_tree (v_cfs k)) -> is_Some (f_ents V !! t);
  ac_ok : tree_ok (v_tree (v_cfs k)) (v_left (v_cfs k))
}.

Lemma ac_left V c k t : at_cpu V c k -> v_left (v_cfs k) = Some t -> t ∈ inorder (v_tree (v_cfs k)).
Proof. intros H E. rewrite (proj2 (ac_ok _ _ _ H)) in E. by apply head_Some_elem_of. Qed.

Lemma update_rq_clock_mild V c : is_Some (f_curr V !! c) -> mild V (on_base (update_rq_clock c)).
Proof.
  intros [u Hu]. unfold update_rq_clock. vstep. intros r Hr. destruct (0 <? _); [by apply vwp_base_ret|].
  apply vwp_base_bind, vwp_base. intros b Hb1 Hb2 Hb3. exists b, b. split; [done|]. rewrite Hb1, Hb2, Hb3.
  replace (FView _ _ _ _ _) with V by by destruct V. by eapply vwp_put_rq_same.
Qed.

Lemma resched_task_mild V t : is_Some (f_rts V !! t) -> mild V (on_base (resched_task t)).
Proof.
  intros [p Hp]. unfold resched_task. vstep. intros x Hx. destruct (need_resched x); [by apply vwp_base_ret|].
  by eapply vwp_put_rt_same.
Qed.

Lemma clock_mild V c : is_Some (f_curr V !! c) -> mild V (rq_clock_task c).
Proof. intros [u Hu]. unfold rq_clock_task. vstep. intros r _. by apply vwp_ret. Qed.

Lemma runnable_avg_mild V c k b : is_Some (f_curr V !! c) -> f_rqs V !! c = Some k -> mild V (update_rq_runnable_avg c b).
Proof.
  intros Hc Hk. apply vwp_mild; [by apply clock_mild|]. intros n. vstep. intros x Hx. apply vwp_put_fair.
  change (see_rq (set_rq_avg _ x)) with (see_rq x). rewrite Hx. by apply with_q_id.
Qed.

Lemma entity_vruntime_mild V o : (forall t, o = Some t -> is_Some (f_ents V !! t)) -> mild V (entity_vruntime o).
Proof. intros H. destruct o as [t|]; [|by apply vwp_ret]. destruct (H t eq_refl) as [e He]. cbn. vstep. intros s _. by apply vwp_ret. Qed.

Lemma min_vruntime_mild V c k : at_cpu V c k -> mild V (update_min_vruntime c).
Proof.
  intros H. pose proof (ac_rq _ _ _ H) as Hk. unfold update_min_vruntime. vstep. intros q Hq.
  apply vwp_mild; [apply entity_vruntime_mild|].
  { intros t Ht. apply (ac_run _ _ _ H). by rewrite <- Hq. }
  intros o. apply vwp_mild; [apply entity_vruntime_mild|].
  { intros t Ht. eapply ac_tree, ac_left; [done|done|]. by rewrite <- Hq. }
  intros o'. by eapply vwp_put_cfs_same.
Qed.

Lemma update_curr_mild V c k : at_cpu V c k -> mild V (update_curr c).
Proof.
  intros H. pose proof (ac_rq _ _ _ H) as Hk. unfold update_curr. vstep. intros q Hq.
  apply vwp_mild; [apply clock_mild, H|]. intros n. destruct (cfs_curr q) as [t|] eqn:Et; [|by apply vwp_ret].
  destruct (ac_run _ _ _ H t) as [[e He] [p Hp]]; [by rewrite <- Hq|]. vstep. intros x Hx. cbv zeta.
  destruct (_ <=? 0); [by apply vwp_ret|]. apply vwp_bind. eapply vwp_put_rt_same; [done|done|]. vstep. intros s Hs.
  pose proof (see_calc_fair (u64 (n - exec_start x)) s) as Hd. destruct (calc_delta_fair _ s) as [d s']. cbn in Hd.
  apply vwp_bind. eapply vwp_put_se_same; [done|exact (eq_trans Hd Hs)|]. by eapply min_vruntime_mild.
Qed.

End Mild.

(** ** Operations on the tree and the counters *)

Section Link.
Context {RL : RtLib} {FL : FairLib} {RB : RbLib}.
Implicit Types (V : fview) (k : queue_view) (v : cfs_view) (c t u : nat) (h z : Z).

(** what every change leaves alone *)
Record same_but_tree v v' : Prop := {
  st_weight : v_weight v' = v_weight v;
  st_nr : v_nr v' = v_nr v;
  st_h : v_h_nr v' = v_h_nr v;
  st_run : v_run v' = v_run v;
  st_next : v_next v' = v_next v;
  st_last : v_last v' = v_last v;
  st_skip : v_skip v' = v_skip v
}.

Record linked t v v' : Prop := {
  ln_ok : tree_ok (v_tree v') (v_left v');
  ln_in : inorder (v_tree v') ≡ₚ t :: inorder (v_tree v);
  ln_rest : same_but_tree v v'
}.
Record unlinked t v v' : Prop := {
  un_ok : tree_ok (v_tree v') (v_left v');
  un_in : inorder (v_tree v') = filter (fun u => u <> t) (inorder (v_tree v));
  un_rest : same_but_tree v v'
}.

Lemma enqueue_link V c t k e :
  at_cpu V c k -> f_ents V !! t = Some e -> t ∉ inorder (v_tree (v_cfs k)) ->
  vwp V (__enqueue_entity c t) (fun _ V' => exists v, linked t (v_cfs k) v /\ V' = with_q c (on_cfs v k) V).
Proof.
  intros H He Ht. pose proof (ac_rq _ _ _ H) as Hk. unfold __enqueue_entity. vstep. intros q Hq. vstep. intros s Hs.
  apply vwp_bind. intros w Hw.
  destruct (rb_walk_total (fun u => entry ← fes w !! u; Some (entity_before s entry)) t (tasks_timeline q)) as [[p l] Ep].
  { intros u Hu. destruct (ac_tree _ _ _ H u) as [f Hf]; [by rewrite <- Hq|]. rewrite <- Hw in Hf. apply see_lookup in Hf as (g & -> & _). by eexists. }
  eapply swp_deref; [exact Ep|]. rewrite Hw. eapply vwp_put_cfs; [done|].
  assert (Hok : tree_ok (tasks_timeline q) (cfs_leftmost q)) by (pose proof (ac_ok _ _ _ H) as Ho; by rewrite <- Hq in Ho).
  rewrite <- Hq in Ht. destruct (tree_insert _ t _ _ l _ Hok Ht Ep) as [H1 H2].
  rewrite <- Hq. eexists. split; [|reflexivity]. split; by destruct l.
Qed.

Lemma dequeue_link V c t k :
  at_cpu V c k -> vwp V (__dequeue_entity c t) (fun _ V' => exists v, unlinked t (v_cfs k) v /\ V' = with_q c (on_cfs v k) V).
Proof.
  intros H. pose proof (ac_rq _ _ _ H) as Hk. unfold __dequeue_entity. vstep. intros q Hq. eapply vwp_put_cfs; [done|].
  assert (Hok : tree_ok (tasks_timeline q) (cfs_leftmost q)) by (pose proof (ac_ok _ _ _ H) as Ho; by rewrite <- Hq in Ho).
  destruct (tree_erase t _ _ Hok) as [H1 H2]. rewrite <- Hq. eexists. split; [|reflexivity]. split; cbn; by case_bool_decide.
Qed.

Definition counted_in z v : cfs_view :=
  CfsView (u64 (v_weight v + z)) (u32 (v_nr v + 1)) (v_h_nr v) (v_tree v) (v_left v) (v_run v) (v_next v) (v_last v) (v_skip v).
Definition counted_out z v : cfs_view :=
  CfsView (u64 (v_weight v - z)) (u32 (v_nr v - 1)) (v_h_nr v) (v_tree v) (v_left v) (v_run v) (v_next v) (v_last v) (v_skip v).

Lemma account_in V c t k e :
  f_rqs V !! c = Some k -> f_ents V !! t = Some e ->
  vwp V (account_entity_enqueue c t) (fun _ V' =>
    V' = with_q c (QueueView (counted_in (v_wt e) (v_cfs k)) (u64 (v_load k + v_wt e)) (t :: v_list k)) V).
Proof. intros Hk He. unfold account_entity_enqueue. vstep. intros x <-. vstep. intros s <-. by apply vwp_put_fair. Qed.

Lemma account_out V c t k e :
  f_rqs V !! c = Some k -> f_ents V !! t = Some e ->
  vwp V (account_entity_dequeue c t) (fun _ V' =>
    V' = with_q c (QueueView (counted_out (v_wt e) (v_cfs k)) (u64 (v_load k - v_wt e)) (filter (fun u => u <> t) (v_list k))) V).
Proof. intros Hk He. unfold account_entity_dequeue. vstep. intros x <-. vstep. intros s <-. by apply vwp_put_fair. Qed.

Lemma at_cpu_q V c k k' :
  at_cpu V c k -> tree_ok (v_tree (v_cfs k')) (v_left (v_cfs k')) -> v_run (v_cfs k') = v_run (v_cfs k) ->
  (forall t, t ∈ inorder (v_tree (v_cfs k')) -> is_Some (f_ents V !! t)) -> at_cpu (with_q c k' V) c k'.
Proof. intros [] Ho Er Ht. split; [apply with_q_lookup|done|by rewrite Er|done|done]. Qed.

Lemma at_cpu_e V c k t e : at_cpu V c k -> at_cpu (with_e t e V) c k.
Proof.
  assert (Hs : forall u, is_Some (f_ents V !! u) -> is_Some (f_ents (with_e t e V) !! u)).
  { intros u Hu. cbn. rewrite lookup_insert. by case_decide. }
  intros [H1 H2 H3 H4 H5]. split; [done|done| |by auto|done]. intros u Hu. destruct (H3 u Hu). by auto.
Qed.

(** [t], of weight [z], enters the run queue ([h] is the new h_nr_running): its list, its counters, its weights,
    and the tree unless it is running *)
Record entered h t z k k' : Prop := {
  en_nr : v_nr (v_cfs k') = u32 (v_nr (v_cfs k) + 1);
  en_weight : v_weight (v_cfs k') = u64 (v_weight (v_cfs k) + z);
  en_load : v_load k' = u64 (v_load k + z);
  en_list : v_list k' = t :: v_list k;
  en_tree : if decide (v_run (v_cfs k) = Some t) then inorder (v_tree (v_cfs k')) = inorder (v_tree (v_cfs k))
            else inorder (v_tree (v_cfs k')) ≡ₚ t :: inorder (v_tree (v_cfs k));
  en_ok : tree_ok (v_tree (v_cfs k')) (v_left (v_cfs k'));
  en_rest : v_run (v_cfs k') = v_run (v_cfs k) /\ v_next (v_cfs k') = v_next (v_cfs k) /\
    v_last (v_cfs k') = v_last (v_cfs k) /\ v_skip (v_cfs k') = v_skip (v_cfs k);
  en_h : v_h_nr (v_cfs k') = h
}.

Lemma set_vruntime_mild V c t k e (g : Z -> Z -> Z) :
  f_rqs V !! c = Some k -> f_ents V !! t = Some e ->
  mild V (q ← cfs_of c; s ← get_se t; put_se t (set_vruntime (g (vruntime s) (cfs_min_vruntime q)) s)).
Proof. intros Hk He. vstep. intros q _. vstep. intros s Hs. by eapply vwp_put_se_same. Qed.

Lemma enqueue_entity_view V c t k e flags :
  at_cpu V c k -> f_ents V !! t = Some e -> (v_run (v_cfs k) <> Some t -> t ∉ inorder (v_tree (v_cfs k))) ->
  vwp V (enqueue_entity c t flags) (fun _ V' => exists k', entered (v_h_nr (v_cfs k)) t (v_wt e) k k' /\
    V' = with_e t (EntView true (v_wt e)) (with_q c k' V)).
Proof.
  intros H He Ht. pose proof (ac_rq _ _ _ H) as Hk. unfold enqueue_entity.
  apply vwp_mild; [apply mild_when; intros _; by apply (set_vruntime_mild V c t k e (fun a b => u64 (a + b)))|]. intros _.
  apply vwp_mild; [by eapply update_curr_mild|]. intros _. apply vwp_mild; [apply clock_mild, H|]. intros n.
  apply vwp_mild; [eapply mild_on_entity; [done|done|apply enqueue_avg_quiet]|]. intros _.
  eapply vwp_seq; [by apply account_in|]. intros _ ? ->. set (k1 := QueueView _ _ _).
  assert (H1 : at_cpu (with_q c k1 V) c k1) by (apply (at_cpu_q V c k); [done|apply H|done|apply H]).
  pose proof (ac_rq _ _ _ H1) as Hk1. vstep. intros s.
  apply vwp_mild; [apply mild_when; intros _; eapply mild_on_entity; [done|done|apply place_quiet]|]. intros _.
  vstep. intros q Hq. pose proof (f_equal v_run Hq : cfs_curr q = v_run (v_cfs k)) as Hrun.
  eapply (vwp_seq _ _ _ (fun _ V' => exists k', entered (v_h_nr (v_cfs k)) t (v_wt e) k k' /\ V' = with_q c k' V)).
  - apply vwp_when.
    + intros Hne%bool_decide_eq_true. rewrite Hrun in Hne.
      eapply vwp_cons; [apply (enqueue_link _ c t k1 e H1 He); by apply Ht|]. intros _ ? (v & [L1 L2 L3] & ->).
      exists (on_cfs v k1). rewrite with_q_q. split; [|done]. destruct L3. split; try done.
      by rewrite decide_False.
    + intros Hne%bool_decide_eq_false. rewrite Hrun in Hne. apply dec_stable in Hne. exists k1. split; [|done]. split; try done; [by rewrite decide_True|apply H].
  - intros _ ? (k' & Hen & ->). vstep. intros x Hx. apply vwp_put_se. exists k'. split; [done|].
    unfold see_se in *. cbn. by rewrite <- Hx.
Qed.

Definition forget t (o : option nat) : option nat := if decide (o = Some t) then None else o.
Definition forgotten t v : cfs_view :=
  CfsView (v_weight v) (v_nr v) (v_h_nr v) (v_tree v) (v_left v) (v_run v) (forget t (v_next v)) (forget t (v_last v)) (forget t (v_skip v)).

Lemma see_clear t q : see_cfs (clear_buddies t q) = forgotten t (see_cfs q).
Proof.
  unfold clear_buddies, forgotten, forget. cbn.
  destruct (decide (cfs_last q = Some t)) as [E1|E1], (decide (cfs_next q = Some t)) as [E2|E2], (decide (cfs_skip q = Some t)) as [E3|E3];
    rewrite ?(bool_decide_eq_true_2 _ E1), ?(bool_decide_eq_false_2 _ E1); cbn;
    rewrite ?(bool_decide_eq_true_2 _ E2), ?(bool_decide_eq_false_2 _ E2); cbn;
    rewrite ?(bool_decide_eq_true_2 _ E3), ?(bool_decide_eq_false_2 _ E3); done.
Qed.

(** [t] leaves the run queue *)
Record departed h t z k k' : Prop := {
  de_nr : v_nr (v_cfs k') = u32 (v_nr (v_cfs k) - 1);
  de_weight : v_weight (v_cfs k') = u64 (v_weight (v_cfs k) - z);
  de_load : v_load k' = u64 (v_load k - z);
  de_list : v_list k' = filter (fun u => u <> t) (v_list k);
  de_tree : if decide (v_run (v_cfs k) = Some t) then inorder (v_tree (v_cfs k')) = inorder (v_tree (v_cfs k))
            else inorder (v_tree (v_cfs k')) = filter (fun u => u <> t) (inorder (v_tree (v_cfs k)));
  de_ok : tree_ok (v_tree (v_cfs k')) (v_left (v_cfs k'));
  de_rest : v_run (v_cfs k') = v_run (v_cfs k) /\ v_next (v_cfs k') = forget t (v_next (v_cfs k)) /\
    v_last (v_cfs k') = forget t (v_last (v_cfs k)) /\ v_skip (v_cfs k') = forget t (v_skip (v_cfs k));
  de_h : v_h_nr (v_cfs k') = h
}.

Lemma departed_sub h t z k k' u : departed h t z k k' -> u ∈ inorder (v_tree (v_cfs k')) -> u ∈ inorder (v_tree (v_cfs k)).
Proof. intros H. pose proof (de_tree _ _ _ _ _ H) as E. destruct (decide _); rewrite E; [done|]. by rewrite list_elem_of_filter; intros []. Qed.

(** the buddies are cleared and the entity is taken off the tree *)
Lemma detach_view V c t k e (m : F unit) Q :
  at_cpu V c k -> f_ents V !! t = Some e ->
  (forall k', departed (v_h_nr (v_cfs k)) t (v_wt e) k k' -> vwp (with_e t (EntView false (v_wt e)) (with_q c k' V)) m Q) ->
  vwp V (q ← cfs_of c;
         put_cfs c (clear_buddies t q) ;;
         when (bool_decide (cfs_curr q <> Some t)) (__dequeue_entity c t) ;;
         s ← get_se t;
         put_se t (set_se_on_rq false s) ;;
         account_entity_dequeue c t ;;
         m) Q.
Proof.
  intros H He HQ. pose proof (ac_rq _ _ _ H) as Hk. vstep. intros q Hq. apply vwp_bind. eapply vwp_put_cfs; [done|].
  rewrite see_clear, Hq. set (k1 := on_cfs _ _).
  assert (H1 : at_cpu (with_q c k1 V) c k1) by (apply (at_cpu_q V c k); [done|apply H|done|apply H]).
  pose proof (f_equal v_run Hq : cfs_curr q = v_run (v_cfs k)) as Hrun.
  eapply (vwp_seq _ _ _ (fun _ V' => exists v, same_but_tree (v_cfs k1) v /\ tree_ok (v_tree v) (v_left v) /\
    (if decide (v_run (v_cfs k) = Some t) then inorder (v_tree v) = inorder (v_tree (v_cfs k))
     else inorder (v_tree v) = filter (fun u => u <> t) (inorder (v_tree (v_cfs k)))) /\ V' = with_q c (on_cfs v k1) V)).
  - apply vwp_when.
    + intros Hne%bool_decide_eq_true. rewrite Hrun in Hne. eapply vwp_cons; [by apply (dequeue_link _ c t k1)|].
      intros _ ? (v & [U1 U2 U3] & ->). exists v. rewrite with_q_q, decide_False by done. done.
    + intros Hne%bool_decide_eq_false. rewrite Hrun in Hne. apply dec_stable in Hne. exists (v_cfs k1). rewrite decide_True by done.
      split; [by split|]. split; [apply H|done].
  - intros _ ? (v & [] & Hok & Htr & ->). vstep. intros s Hs. apply vwp_bind, vwp_put_se.
    eapply vwp_seq; [apply (account_out _ c t (on_cfs v k1) (EntView false (v_wt e)))|].
    + cbn. apply with_q_lookup.
    + rewrite with_e_lookup. unfold see_se in *. cbn. by rewrite <- Hs.
    + intros _ ? ->. rewrite with_q_e, with_q_q. replace (see_se (set_se_on_rq false s)) with (EntView false (v_wt e)) by (unfold see_se in *; cbn; by rewrite <- Hs).
      apply HQ. split; cbn; try done; cbn in *; congruence.
Qed.

Lemma dequeue_entity_view V c t k e flags :
  at_cpu V c k -> f_ents V !! t = Some e ->
  vwp V (dequeue_entity c t flags) (fun _ V' => exists k', departed (v_h_nr (v_cfs k)) t (v_wt e) k k' /\
    V' = with_e t (EntView false (v_wt e)) (with_q c k' V)).
Proof.
  intros H He. pose proof (ac_rq _ _ _ H) as Hk. unfold dequeue_entity.
  apply vwp_mild; [by eapply update_curr_mild|]. intros _. apply vwp_mild; [apply clock_mild, H|]. intros n.
  apply vwp_mild; [eapply mild_on_entity; [done|done|apply dequeue_avg_quiet]|]. intros _.
  apply (detach_view V c t k e _ _ H He). intros k' Hd.
  assert (H' : at_cpu (with_e t (EntView false (v_wt e)) (with_q c k' V)) c k').
  { apply at_cpu_e, (at_cpu_q V c k); [done|apply Hd|apply Hd|]. intros u Hu. eapply (ac_tree _ _ _ H), departed_sub; done. }
  apply vwp_mild; [apply mild_when; intros _; apply (set_vruntime_mild _ c t k' (EntView false (v_wt e)) (fun a b => u64 (a - b))); [apply H'|apply with_e_lookup]|].
  intros _. apply mild_cons; [by eapply min_vruntime_mild|]. intros _. by exists k'.
Qed.

(** ** The methods that enqueue and dequeue *)

Definition set_h h v : cfs_view :=
  CfsView (v_weight v) (v_nr v) h (v_tree v) (v_left v) (v_run v) (v_next v) (v_last v) (v_skip v).

Lemma upd_h_view V c k z :
  f_rqs V !! c = Some k ->
  vwp V (upd_h_nr c z) (fun _ V' => V' = with_q c (on_cfs (set_h (u32 (v_h_nr (v_cfs k) + z)) (v_cfs k)) k) V).
Proof. intros Hk. unfold upd_h_nr. vstep. intros q Hq. eapply vwp_put_cfs; [done|]. by rewrite <- Hq. Qed.

(** the end of enqueue_task_fair() and dequeue_task_fair() *)
Lemma nr_running_mild V c k u (g : Z -> Z) :
  f_curr V !! c = Some u -> f_rqs V !! c = Some k ->
  mild V (r ← on_base (cpu_rq c);
          update_rq_runnable_avg c (negb (nr_running r =? 0)) ;;
          on_base (put_rq c (set_nr_running (g (nr_running r)) r))).
Proof.
  intros Hu Hk. vstep. intros r Hr. apply vwp_mild; [by eapply runnable_avg_mild|]. intros _. by eapply vwp_put_rq_same.
Qed.

Lemma enqueue_task_view V c t k e x flags :
  at_cpu V c k -> f_ents V !! t = Some e -> v_on e = false -> tasks (f_krn V) !! t = Some x -> tcpu x = c ->
  t ∉ inorder (v_tree (v_cfs k)) ->
  vwp V (enqueue_task_fair c t flags) (fun _ V' => exists k', entered (u32 (v_h_nr (v_cfs k) + 1)) t (v_wt e) k k' /\
    V' = with_e t (EntView true (v_wt e)) (with_q c k' V)).
Proof.
  intros H He Hoff Hx Hc Ht. unfold enqueue_task_fair. vstep. intros s Hs. vstep. rewrite Hc.
  assert (se_on_rq s = false) as -> by (rewrite <- Hoff, <- Hs; done).
  eapply vwp_seq; [by apply (enqueue_entity_view V c t k e)|]. intros _ ? (k1 & [] & ->).
  eapply vwp_seq; [apply (upd_h_view _ c k1); cbn; apply with_q_lookup|]. intros _ ? ->. rewrite with_q_e, with_q_q.
  destruct (ac_cpu _ _ _ H) as [u Hu].
  apply mild_cons; [eapply (nr_running_mild _ c _ u (fun n => u32 (n + 1))); [done|cbn; apply with_q_lookup]|]. intros _.
  eexists. split; [|done]. split; cbn; try done. by rewrite en_h0.
Qed.

Lemma dequeue_task_view V c t k e x flags :
  at_cpu V c k -> f_ents V !! t = Some e -> tasks (f_krn V) !! t = Some x -> tcpu x = c ->
  vwp V (dequeue_task_fair c t flags) (fun _ V' => exists k', departed (u32 (v_h_nr (v_cfs k) + -1)) t (v_wt e) k k' /\
    V' = with_e t (EntView false (v_wt e)) (with_q c k' V)).
Proof.
  intros H He Hx Hc. unfold dequeue_task_fair. vstep. rewrite Hc.
  eapply vwp_seq; [by apply (dequeue_entity_view V c t k e)|]. intros _ ? (k1 & [] & ->).
  eapply vwp_seq; [apply (upd_h_view _ c k1); cbn; apply with_q_lookup|]. intros _ ? ->. rewrite with_q_e, with_q_q.
  destruct (ac_cpu _ _ _ H) as [u Hu]. apply vwp_bind. vstep. intros r Hr. eapply vwp_put_rq_same; [done|done|].
  apply mild_cons; [eapply runnable_avg_mild; [by eexists|cbn; apply with_q_lookup]|]. intros _.
  eexists. split; [|done]. split; cbn; try done. by rewrite de_h0.
Qed.
End Link.
