(* ===== verification/FairStep.v ===== *)
(** * The fair class: its invariant, and the operations that keep it

    On every CPU the tree holds exactly the queued tasks of the CPU but the one
    that runs, its leftmost node is cached, the counters and the weights are
    exact and the buddies are queued. *)

From S2P Require Import Prelude Wait Tasklet Cmgroup Sched CmInv CmTask CmSys EpTree RtRq RtPush RtInv FairRq FairMath FairInv.
Local Open Scope Z_scope.

(** ** One run queue *)

Definition MAX_WEIGHT : Z := 88761.

Section Queue.
Implicit Types (S : gmap nat ent_view) (k : queue_view) (t u : nat) (l : list nat) (z : Z).

Definition wt_of S t : Z := default 0 (v_wt <$> S !! t).
Definition load_of S l : Z := foldr (fun t z => wt_of S t + z) 0 l.
Definition buddies k t : Prop := v_next (v_cfs k) = Some t \/ v_last (v_cfs k) = Some t \/ v_skip (v_cfs k) = Some t.

Record queue_ok S k : Prop := {
  qo_nodup : NoDup (v_list k);
  qo_tree : tree_ok (v_tree (v_cfs k)) (v_left (v_cfs k));
  qo_mem : forall t, t ∈ inorder (v_tree (v_cfs k)) <-> t ∈ v_list k /\ v_run (v_cfs k) <> Some t;
  qo_nr : v_nr (v_cfs k) = Z.of_nat (length (v_list k));
  qo_h : v_h_nr (v_cfs k) = Z.of_nat (length (v_list k));
  qo_weight : v_weight (v_cfs k) = load_of S (v_list k);
  qo_load : v_load k = load_of S (v_list k);
  qo_buddy : forall t, buddies k t -> t ∈ v_list k
}.

Lemma load_perm S l l' : l ≡ₚ l' -> load_of S l = load_of S l'.
Proof. unfold load_of. induction 1; cbn; lia. Qed.

Lemma load_ext S S' l : (forall t, wt_of S' t = wt_of S t) -> load_of S' l = load_of S l.
Proof. intros H. unfold load_of. induction l as [|t l IH]; cbn; [done|]. by rewrite H, IH. Qed.

Lemma load_bound S l : (forall t, t ∈ l -> 0 <= wt_of S t <= MAX_WEIGHT) -> 0 <= load_of S l <= MAX_WEIGHT * Z.of_nat (length l).
Proof.
  unfold load_of. induction l as [|t l IH]; intros H; cbn [foldr length]; [lia|].
  pose proof (H t ltac:(by left)). assert (forall u, u ∈ l -> 0 <= wt_of S u <= MAX_WEIGHT) as Hl by (intros u Hu; apply H; by right).
  specialize (IH Hl). unfold MAX_WEIGHT in *. lia.
Qed.

Lemma wt_same S t e (b : bool) u : S !! t = Some e -> wt_of (<[t := EntView b (v_wt e)]> S) u = wt_of S u.
Proof. intros He. unfold wt_of. rewrite lookup_insert. case_decide as E; [|done]. subst u. by rewrite He. Qed.

Lemma queue_ok_ext S S' k : (forall t, wt_of S' t = wt_of S t) -> queue_ok S k -> queue_ok S' k.
Proof. intros H []. split; try done; by rewrite (load_ext S S'). Qed.

(** the numbers fit their types *)
Definition roomy S k : Prop :=
  Z.of_nat (length (v_list k)) < 2 ^ 31 /\ forall t, t ∈ v_list k -> 0 <= wt_of S t <= MAX_WEIGHT.

Lemma roomy_load S k : roomy S k -> 0 <= load_of S (v_list k) < 2 ^ 48.
Proof. intros [Hl Hw]. pose proof (load_bound S (v_list k) Hw). unfold MAX_WEIGHT in *. lia. Qed.

Lemma forget_Some t u o : forget t o = Some u -> o = Some u /\ u <> t.
Proof. unfold forget. case_decide; [done|]. intros ->. split; [done|]. congruence. Qed.

Lemma queue_enter S k k' t z :
  queue_ok S k -> roomy S k -> t ∉ v_list k -> wt_of S t = z -> 0 <= z <= MAX_WEIGHT ->
  entered (u32 (v_h_nr (v_cfs k) + 1)) t z k k' -> queue_ok S k'.
Proof.
  intros [Q1 Q2 Q3 Q4 Q5 Q6 Q7 Q8] Hr Ht Hw Hz [E1 E2 E3 E4 E5 E6 (R1 & R2 & R3 & R4) E8].
  pose proof (roomy_load S k Hr) as Hl. destruct Hr as [Hlen _]. unfold MAX_WEIGHT in Hz.
  assert (Hload : load_of S (v_list k') = z + load_of S (v_list k)) by (rewrite E4, <- Hw; done).
  split; rewrite ?R1, ?E4; cbn [length].
  - by constructor.
  - done.
  - intros u. rewrite elem_of_cons. destruct (decide (v_run (v_cfs k) = Some t)) as [Er|Er].
    + rewrite E5, Q3. split; [intros []; auto|]. intros [[->|]]; [done|done].
    + rewrite E5, elem_of_cons, Q3. split; [intros [->|[]]; auto|]. intros [[->|] ?]; auto.
  - rewrite E1, Q4, u32_id by lia. lia.
  - rewrite E8, Q5, u32_id by lia. lia.
  - rewrite <- E4, Hload, E2, Q6, u64_id by lia. lia.
  - rewrite <- E4, Hload, E3, Q7, u64_id by lia. lia.
  - intros u. unfold buddies. rewrite R2, R3, R4. intros Hu. right. by apply Q8.
Qed.

Lemma queue_depart S k k' t z :
  queue_ok S k -> roomy S k -> t ∈ v_list k -> wt_of S t = z ->
  departed (u32 (v_h_nr (v_cfs k) + -1)) t z k k' -> queue_ok S k'.
Proof.
  intros [Q1 Q2 Q3 Q4 Q5 Q6 Q7 Q8] Hr Ht Hw [E1 E2 E3 E4 E5 E6 (R1 & R2 & R3 & R4) E8].
  pose proof (roomy_load S k Hr) as Hl. destruct Hr as [Hlen Hwt].
  pose proof (remove_perm (v_list k) t Q1 Ht) as Hp. set (l' := filter (fun u => u <> t) (v_list k)) in *.
  assert (Hload : load_of S (v_list k) = z + load_of S l') by (rewrite (load_perm _ _ _ Hp), <- Hw; done).
  assert (Hlen' : length (v_list k) = Datatypes.S (length l')) by by rewrite Hp.
  assert (Hl' : 0 <= load_of S l').
  { apply load_bound. intros u [_ Hu]%list_elem_of_filter. by apply Hwt. }
  pose proof (Hwt t Ht). rewrite Hw in H. split; rewrite ?R1, ?E4.
  - by apply NoDup_filter.
  - done.
  - intros u. unfold l'. rewrite list_elem_of_filter. destruct (decide (v_run (v_cfs k) = Some t)) as [Er|Er].
    + rewrite E5, Q3. split; [intros [? Hu]; split; [split; [congruence|done]|done]|tauto].
    + rewrite E5, list_elem_of_filter, Q3. tauto.
  - rewrite E1, Q4, u32_id by lia. lia.
  - rewrite E8, Q5, u32_id by lia. lia.
  - rewrite E2, Q6, u64_id by lia. lia.
  - rewrite E3, Q7, u64_id by lia. lia.
  - intros u. unfold buddies. rewrite R2, R3, R4. intros Hu. unfold l'. apply list_elem_of_filter.
    destruct Hu as [[E H']%forget_Some|[[E H']%forget_Some|[E H']%forget_Some]]; (split; [done|]); apply Q8; unfold buddies; auto.
Qed.
End Queue.

(** ** The run queues of all CPUs *)

Section World.
Context {RL : RtLib}.
Implicit Types (V : fview) (k : queue_view) (e : ent_view) (p : rt_task) (x : task_struct) (c d t u : nat).
Implicit Types (run : nat -> option nat).

(** a task of the class on CPU [c] *)
Definition fair_task V c t : Prop :=
  exists p x, f_rts V !! t = Some p /\ class p = fair_class /\ tasks (f_krn V) !! t = Some x /\ tcpu x = c.

(** [run c] is the task of the class that runs on [c], as the run queue must know it *)
Record fair_ok run V : Prop := {
  fo_dom : forall c, is_Some (f_rqs V !! c) <-> is_Some (f_curr V !! c);
  fo_q : forall c k, f_rqs V !! c = Some k -> queue_ok (f_ents V) k;
  fo_now : forall c k, f_rqs V !! c = Some k -> v_run (v_cfs k) = run c;
  fo_in : forall c k t, f_rqs V !! c = Some k -> t ∈ v_list k ->
    fair_task V c t /\ exists e, f_ents V !! t = Some e /\ v_on e = true;
  fo_out : forall t e, f_ents V !! t = Some e -> v_on e = true -> exists c k, f_rqs V !! c = Some k /\ t ∈ v_list k;
  fo_task : forall t p, f_rts V !! t = Some p -> exists e x, f_ents V !! t = Some e /\ 0 <= v_wt e <= MAX_WEIGHT /\
    tasks (f_krn V) !! t = Some x /\ is_Some (f_rqs V !! tcpu x);
  fo_curr : forall c u, f_curr V !! c = Some u -> exists p x, f_rts V !! u = Some p /\
    tasks (f_krn V) !! u = Some x /\ tcpu x = c;
  fo_run : forall c t, run c = Some t -> fair_task V c t;
  fo_size : Z.of_nat (size (f_rts V)) < 2 ^ 31
}.

Lemma fair_ent run V c t : fair_ok run V -> fair_task V c t -> exists e, f_ents V !! t = Some e /\ 0 <= v_wt e <= MAX_WEIGHT.
Proof. intros H (p & x & Hp & _). destruct (fo_task _ _ H t p Hp) as (e & _ & He & Hw & _). by exists e. Qed.

Lemma fair_at run V c k : fair_ok run V -> f_rqs V !! c = Some k -> at_cpu V c k.
Proof.
  intros H Hk. pose proof (fo_q _ _ H c k Hk) as Hq. split; [done|apply H; by eexists| | |apply Hq].
  - intros t Ht. rewrite (fo_now _ _ H c k Hk) in Ht. pose proof (fo_run _ _ H c t Ht) as Hf.
    destruct (fair_ent _ _ _ _ H Hf) as (e & He & _). destruct Hf as (p & x & Hp & _). split; by eexists.
  - intros t [Ht _]%(qo_mem _ _ Hq). destruct (fo_in _ _ H c k t Hk Ht) as [_ (e & He & _)]. by eexists.
Qed.

Lemma fair_roomy run V c k : fair_ok run V -> f_rqs V !! c = Some k -> roomy (f_ents V) k.
Proof.
  intros H Hk. pose proof (fo_q _ _ H c k Hk) as Hq. split.
  - assert (Hs : (list_to_set (v_list k) : gset nat) ⊆ dom (f_rts V)).
    { intros t Ht%elem_of_list_to_set. destruct (fo_in _ _ H c k t Hk Ht) as [(p & x & Hp & _) _]. by eapply elem_of_dom_2. }
    apply subseteq_size in Hs. rewrite size_list_to_set, size_dom in Hs by apply Hq. pose proof (fo_size _ _ H). lia.
  - intros t Ht. destruct (fo_in _ _ H c k t Hk Ht) as [Hf _]. destruct (fair_ent _ _ _ _ H Hf) as (e & He & Hw).
    unfold wt_of. by rewrite He.
Qed.

(** the run queue of a task *)
Lemma fair_home run V t p : fair_ok run V -> f_rts V !! t = Some p ->
  exists e x k, f_ents V !! t = Some e /\ tasks (f_krn V) !! t = Some x /\ f_rqs V !! tcpu x = Some k.
Proof. intros H Hp. destruct (fo_task _ _ H t p Hp) as (e & x & He & _ & Hx & [k Hk]). by exists e, x, k. Qed.

Lemma fair_queued run V t p e x k :
  fair_ok run V -> f_rts V !! t = Some p -> f_ents V !! t = Some e -> tasks (f_krn V) !! t = Some x ->
  f_rqs V !! tcpu x = Some k -> v_on e = true <-> t ∈ v_list k.
Proof.
  intros H Hp He Hx Hk. split.
  - intros Ho. destruct (fo_out _ _ H t e He Ho) as (c & y & Hy & Ht).
    destruct (fo_in _ _ H c y t Hy Ht) as [(p' & x' & _ & _ & Hx' & Hc) _]. assert (x' = x) as -> by congruence. congruence.
  - intros Ht. destruct (fo_in _ _ H _ k t Hk Ht) as [_ (e' & He' & Ho)]. congruence.
Qed.

(** the run queue of [c] and the entity of one of its tasks, [t], change *)
Lemma fair_change run run' V c k k' t e x (b : bool) :
  fair_ok run V -> f_rqs V !! c = Some k -> f_ents V !! t = Some e -> tasks (f_krn V) !! t = Some x -> tcpu x = c ->
  queue_ok (f_ents V) k' -> v_run (v_cfs k') = run' c -> (forall d, d <> c -> run' d = run d) ->
  (forall u, run' c = Some u -> fair_task V c u) ->
  (forall u, u <> t -> u ∈ v_list k' <-> u ∈ v_list k) -> (t ∈ v_list k' <-> b = true) -> (b = true -> fair_task V c t) ->
  fair_ok run' (with_e t (EntView b (v_wt e)) (with_q c k' V)).
Proof.
  intros H Hk He Hx Hc Hq Hrun Hrest Hnow Hsame Hb Hf. pose proof H as [F1 F2 F3 F4 F5 F6 F7 F8 F9].
  assert (Hw : forall u, wt_of (<[t := EntView b (v_wt e)]> (f_ents V)) u = wt_of (f_ents V) u) by (intros; by apply wt_same).
  assert (Hhome : forall d y, d <> c -> f_rqs V !! d = Some y -> t ∉ v_list y).
  { intros d y Hd Hy Ht. destruct (F4 d y t Hy Ht) as [(p' & x' & _ & _ & Hx' & Hc') _]. congruence. }
  split; cbn; try done.
  - intros d. rewrite <- F1, lookup_insert. case_decide; [subst d; rewrite Hk; split; intros; by eexists|done].
  - intros d y. rewrite lookup_insert. case_decide; [intros [= <-]|intros Hy]; (eapply queue_ok_ext; [exact Hw|]); [done|by eapply F2].
  - intros d y. rewrite lookup_insert. case_decide; [intros [= <-]; subst d; done|]. intros Hy. rewrite Hrest by done. by apply F3.
  - intros d y u. rewrite !lookup_insert. case_decide as Ed.
    + intros [= <-] Hu. subst d. destruct (decide (t = u)) as [<-|Hne]; [split; [by apply Hf, Hb|]; eexists; split; [done|]; by apply Hb|].
      apply Hsame in Hu; [|done]. by apply (F4 c k u).
    + intros Hy Hu. rewrite decide_False by (intros <-; by eapply Hhome). by apply (F4 d y u).
  - intros u f. rewrite lookup_insert. case_decide as Eu.
    + intros [= <-] Hon. subst u. exists c, k'. rewrite lookup_insert_eq. split; [done|]. by apply Hb.
    + intros Hf' Hon. destruct (F5 u f Hf' Hon) as (d & y & Hy & Hu). destruct (decide (d = c)) as [->|Hd].
      * exists c, k'. rewrite lookup_insert_eq. split; [done|]. apply Hsame; [done|]. congruence.
      * exists d, y. by rewrite lookup_insert_ne.
  - intros u p Hp. destruct (F6 u p Hp) as (f & y & Hf' & Hwt & Hy & Hs). destruct (decide (u = t)) as [->|Hne].
    + exists (EntView b (v_wt e)), y. rewrite lookup_insert_eq. assert (f = e) as -> by congruence. split_and!; try done; try apply Hwt.
      rewrite lookup_insert. by case_decide.
    + exists f, y. rewrite lookup_insert_ne by done. split_and!; try done; try apply Hwt. rewrite lookup_insert. by case_decide.
  - intros d u Hu. destruct (decide (d = c)) as [->|Hd]; [by apply Hnow|]. rewrite Hrest in Hu by done. by apply F8.
Qed.
End World.

(** ** The methods keep the invariant *)

Section Ops.
Context {RL : RtLib} {FL : FairLib} {RB : RbLib}.
Implicit Types (V : fview) (k : queue_view) (e : ent_view) (p : rt_task) (x : task_struct) (c d t u : nat).
Implicit Types (run : nat -> option nat).

(** the invariant holds, and outside of the run queues only the entities [S] changed *)
Record upheld run (S : gmap nat ent_view) V V' : Prop := {
  kp_ok : fair_ok run V';
  kp_ents : f_ents V' = S;
  kp_curr : f_curr V' = f_curr V;
  kp_rts : f_rts V' = f_rts V;
  kp_krn : f_krn V' = f_krn V
}.

Lemma upheld_refl run V : fair_ok run V -> upheld run (f_ents V) V V.
Proof. by split. Qed.
Lemma upheld_trans run run' S S' V V1 V2 : upheld run S V V1 -> upheld run' S' V1 V2 -> upheld run' S' V V2.
Proof. intros [] []. split; congruence. Qed.

Lemma upheld_seq {A B} run run' S S' V (m : F A) (f : A -> F B) :
  vwp V m (fun _ V1 => upheld run S V V1) -> (forall a V1, upheld run S V V1 -> vwp V1 (f a) (fun _ V2 => upheld run' S' V1 V2)) ->
  vwp V (mbind f m) (fun _ V2 => upheld run' S' V V2).
Proof.
  intros Hm Hf. eapply vwp_seq; [exact Hm|]. intros a V1 H1. eapply vwp_cons; [by apply Hf|]. intros b V2 H2. exact (upheld_trans _ _ _ _ _ _ _ H1 H2).
Qed.

Lemma mild_upheld {A} run V (m : F A) : fair_ok run V -> mild V m -> vwp V m (fun _ V' => upheld run (f_ents V) V V').
Proof. intros H Hm. apply mild_cons; [done|]. intros _. by apply upheld_refl. Qed.

Lemma enqueue_ok run V c t p e x flags :
  fair_ok run V -> f_rts V !! t = Some p -> class p = fair_class -> f_ents V !! t = Some e -> v_on e = false ->
  tasks (f_krn V) !! t = Some x -> tcpu x = c ->
  vwp V (enqueue_task_fair c t flags) (fun _ V' => upheld run (<[t := EntView true (v_wt e)]> (f_ents V)) V V').
Proof.
  intros H Hp Hcl He Hoff Hx Hc. destruct (fo_task _ _ H t p Hp) as (e' & x' & He' & Hw & Hx' & [k Hk]).
  assert (e' = e) as -> by congruence. assert (x' = x) as -> by congruence. rewrite Hc in Hk.
  pose proof (fo_q _ _ H c k Hk) as Hq. assert (Hnin : t ∉ v_list k).
  { rewrite <- (fair_queued run V t p e x k H Hp He Hx); [by rewrite Hoff|by rewrite Hc]. }
  eapply vwp_cons; [apply (enqueue_task_view V c t k e x flags); try done; [by eapply fair_at|by intros [? _]%(qo_mem _ _ Hq)]|].
  intros _ ? (k' & Hen & ->). split; [|done..]. assert (Hwt : wt_of (f_ents V) t = v_wt e) by (unfold wt_of; by rewrite He).
  eapply (fair_change run run V c k k' t e x true); try done.
  - eapply queue_enter; try done. by eapply fair_roomy.
  - rewrite <- (fo_now _ _ H c k Hk). apply Hen.
  - intros u Hu. by apply (fo_run _ _ H).
  - intros u Hu. rewrite (en_list _ _ _ _ _ Hen), elem_of_cons. tauto.
  - rewrite (en_list _ _ _ _ _ Hen). split; [done|]. by left.
  - intros _. by exists p, x.
Qed.

Lemma dequeue_ok run V c t p e x flags :
  fair_ok run V -> f_rts V !! t = Some p -> f_ents V !! t = Some e -> v_on e = true ->
  tasks (f_krn V) !! t = Some x -> tcpu x = c ->
  vwp V (dequeue_task_fair c t flags) (fun _ V' => upheld run (<[t := EntView false (v_wt e)]> (f_ents V)) V V').
Proof.
  intros H Hp He Hon Hx Hc. destruct (fo_task _ _ H t p Hp) as (e' & x' & He' & Hw & Hx' & [k Hk]).
  assert (e' = e) as -> by congruence. assert (x' = x) as -> by congruence. rewrite Hc in Hk.
  pose proof (fo_q _ _ H c k Hk) as Hq. assert (Hin : t ∈ v_list k).
  { rewrite <- (fair_queued run V t p e x k H Hp He Hx); [done|by rewrite Hc]. }
  eapply vwp_cons; [apply (dequeue_task_view V c t k e x flags); try done; by eapply fair_at|].
  intros _ ? (k' & Hde & ->). split; [|done..]. assert (Hwt : wt_of (f_ents V) t = v_wt e) by (unfold wt_of; by rewrite He).
  eapply (fair_change run run V c k k' t e x false); try done.
  - eapply queue_depart; try done. by eapply fair_roomy.
  - rewrite <- (fo_now _ _ H c k Hk). apply Hde.
  - intros u Hu. by apply (fo_run _ _ H).
  - intros u Hu. rewrite (de_list _ _ _ _ _ Hde), list_elem_of_filter. tauto.
  - rewrite (de_list _ _ _ _ _ Hde), list_elem_of_filter. split; [by intros []|done].
Qed.

(** ** Buddies *)

(** only the buddies change, and they stay among the queued tasks *)
Record rebuddied k k' : Prop := {
  rb_same : k' = QueueView (CfsView (v_weight (v_cfs k)) (v_nr (v_cfs k)) (v_h_nr (v_cfs k)) (v_tree (v_cfs k)) (v_left (v_cfs k))
    (v_run (v_cfs k)) (v_next (v_cfs k')) (v_last (v_cfs k')) (v_skip (v_cfs k'))) (v_load k) (v_list k);
  rb_in : forall t, buddies k' t -> buddies k t \/ t ∈ v_list k
}.

Lemma rebuddied_ok S k k' : rebuddied k k' -> queue_ok S k -> queue_ok S k'.
Proof.
  intros [Es Hin] []. destruct k as [[]], k' as [[]]. cbn in Es. injection Es as -> -> -> -> -> -> -> ->. split; try done.
  intros t [Ht|Ht]%Hin; auto.
Qed.

Lemma rebuddied_upheld run V c k k' :
  fair_ok run V -> f_rqs V !! c = Some k -> rebuddied k k' -> upheld run (f_ents V) V (with_q c k' V).
Proof.
  intros H Hk Hr. pose proof Hr as [Es Hin]. split; [|done..]. pose proof H as [F1 F2 F3 F4 F5 F6 F7 F8 F9].
  assert (El : v_list k' = v_list k) by by rewrite Es.
  split; cbn; try done.
  - intros d. rewrite <- F1, lookup_insert. case_decide; [subst d; rewrite Hk; split; intros; by eexists|done].
  - intros d y. rewrite lookup_insert. case_decide; [intros [= <-]|by apply F2]. by eapply rebuddied_ok, F2.
  - intros d y. rewrite lookup_insert. case_decide; [intros [= <-]; subst d|by apply F3]. rewrite <- (F3 c k Hk). by rewrite Es.
  - intros d y u. rewrite lookup_insert. case_decide; [intros [= <-]; subst d; rewrite El|]; by apply F4.
  - intros u f Hf Ho. destruct (F5 u f Hf Ho) as (d & y & Hy & Hu). destruct (decide (d = c)) as [->|Hd].
    + exists c, k'. rewrite lookup_insert_eq, El. split; [done|]. congruence.
    + exists d, y. by rewrite lookup_insert_ne.
  - intros u p Hp. destruct (F6 u p Hp) as (f & y & Hf & Hw & Hy & Hs). exists f, y. split_and!; try done; try apply Hw.
    rewrite lookup_insert. by case_decide.
Qed.

Lemma put_buddies run V c k q :
  fair_ok run V -> f_rqs V !! c = Some k -> rebuddied k (on_cfs (see_cfs q) k) ->
  vwp V (put_cfs c q) (fun _ V' => upheld run (f_ents V) V V').
Proof. intros H Hk Hr. eapply vwp_put_cfs; [done|]. by apply (rebuddied_upheld run V c k). Qed.

Lemma forget_rebuddied t k : rebuddied k (on_cfs (forgotten t (v_cfs k)) k).
Proof.
  split; [by destruct k as [[]]|]. intros u Hu. left. unfold buddies in *. cbn in Hu.
  destruct Hu as [[E _]%forget_Some|[[E _]%forget_Some|[E _]%forget_Some]]; auto.
Qed.

Lemma clear_ok run V c k t q :
  fair_ok run V -> f_rqs V !! c = Some k -> see_cfs q = v_cfs k ->
  vwp V (put_cfs c (clear_buddies t q)) (fun _ V' => upheld run (f_ents V) V V').
Proof. intros H Hk Hq. apply (put_buddies run V c k); [done|done|]. rewrite see_clear, Hq. apply forget_rebuddied. Qed.

(** [t] is queued and becomes a buddy *)
Lemma set_buddy_ok run V t p e x (g : cfs_rq -> cfs_rq) :
  fair_ok run V -> f_rts V !! t = Some p -> f_ents V !! t = Some e -> v_on e = true -> tasks (f_krn V) !! t = Some x ->
  (forall q k, see_cfs q = v_cfs k -> t ∈ v_list k -> rebuddied k (on_cfs (see_cfs (g q)) k)) ->
  vwp V (c ← cpu_of t; q ← cfs_of c; put_cfs c (g q)) (fun _ V' => upheld run (f_ents V) V V').
Proof.
  intros H Hp He Hon Hx Hg. destruct (fair_home _ _ _ _ H Hp) as (e' & x' & k & He' & Hx' & Hk).
  assert (x' = x) as -> by congruence. vstep. vstep. intros q Hq. apply (put_buddies run V (tcpu x) k); [done|done|].
  apply Hg; [done|]. by rewrite <- (fair_queued run V t p e x k H Hp He Hx Hk).
Qed.

Lemma set_last_buddy_ok run V t p e :
  fair_ok run V -> f_rts V !! t = Some p -> f_ents V !! t = Some e -> v_on e = true ->
  vwp V (set_last_buddy t) (fun _ V' => upheld run (f_ents V) V V').
Proof.
  intros H Hp He Hon. destruct (fair_home _ _ _ _ H Hp) as (_ & x & _ & _ & Hx & _). unfold set_last_buddy. vstep. intros y _.
  destruct (_ =? _); [apply vwp_ret; by apply upheld_refl|]. eapply set_buddy_ok; try done. intros q k Hq Ht.
  split; [rewrite <- Hq; by destruct k|]. intros u Hu. unfold buddies in *. cbn in Hu. rewrite <- Hq. cbn. destruct Hu as [?|[[= <-]|?]]; auto.
Qed.

Lemma set_next_buddy_ok run V t p e :
  fair_ok run V -> f_rts V !! t = Some p -> f_ents V !! t = Some e -> v_on e = true ->
  vwp V (set_next_buddy t) (fun _ V' => upheld run (f_ents V) V V').
Proof.
  intros H Hp He Hon. destruct (fair_home _ _ _ _ H Hp) as (_ & x & _ & _ & Hx & _). unfold set_next_buddy. vstep. intros y _.
  destruct (_ =? _); [apply vwp_ret; by apply upheld_refl|]. eapply set_buddy_ok; try done. intros q k Hq Ht.
  split; [rewrite <- Hq; by destruct k|]. intros u Hu. unfold buddies in *. cbn in Hu. rewrite <- Hq. cbn. destruct Hu as [[= <-]|[?|?]]; auto.
Qed.

Lemma set_skip_buddy_ok run V t p e :
  fair_ok run V -> f_rts V !! t = Some p -> f_ents V !! t = Some e -> v_on e = true ->
  vwp V (set_skip_buddy t) (fun _ V' => upheld run (f_ents V) V V').
Proof.
  intros H Hp He Hon. destruct (fair_home _ _ _ _ H Hp) as (_ & x & _ & _ & Hx & _). unfold set_skip_buddy.
  eapply set_buddy_ok; try done. intros q k Hq Ht.
  split; [rewrite <- Hq; by destruct k|]. intros u Hu. unfold buddies in *. cbn in Hu. rewrite <- Hq. cbn. destruct Hu as [?|[?|[= <-]]]; auto.
Qed.

(** ** The tick *)

(** with two tasks queued there is one that waits *)
Lemma waiting run V c k : fair_ok run V -> f_rqs V !! c = Some k -> 1 < v_nr (v_cfs k) ->
  exists l, v_left (v_cfs k) = Some l /\ is_Some (f_ents V !! l).
Proof.
  intros H Hk Hn. pose proof (fo_q _ _ H c k Hk) as Hq. rewrite (qo_nr _ _ Hq) in Hn.
  assert (Hex : exists t, t ∈ inorder (v_tree (v_cfs k))).
  { pose proof (qo_nodup _ _ Hq) as Hnd. setoid_rewrite (qo_mem _ _ Hq).
    destruct (v_list k) as [|t [|u l]]; cbn in Hn; [lia|lia|]. apply NoDup_cons in Hnd as [Ht _].
    destruct (decide (v_run (v_cfs k) = Some t)) as [E|E]; [exists u|exists t]; set_solver. }
  destruct Hex as [t Ht]. destruct (qo_tree _ _ Hq) as [_ ->]. destruct (inorder (v_tree (v_cfs k))) as [|l ls] eqn:E; [by apply elem_of_nil in Ht|].
  exists l. split; [done|]. eapply (ac_tree _ _ _ (fair_at _ _ _ _ H Hk)). rewrite E. by left.
Qed.

Lemma check_preempt_tick_ok run V c k t p e u :
  fair_ok run V -> f_rqs V !! c = Some k -> f_ents V !! t = Some e -> f_rts V !! t = Some p -> f_curr V !! c = Some u ->
  1 < v_nr (v_cfs k) -> vwp V (check_preempt_tick c t) (fun _ V' => upheld run (f_ents V) V V').
Proof.
  intros H Hk He Hp Hu Hn. unfold check_preempt_tick. vstep. intros s. vstep. intros q Hq. vstep. intros f Hf.
  pose proof (see_slice s q f) as Hs. destruct (sched_slice s q f) as [ideal q']. cbn in Hs. rewrite Hq in Hs.
  apply vwp_bind. eapply vwp_put_cfs_same; [done|done|]. vstep. intros x Hx. vstep. intros r Hr. cbv zeta.
  destruct (fo_curr _ _ H c u Hu) as (p' & x' & Hp' & _). assert (Hres : mild V (on_base (resched_task (RtRq.curr r)))).
  { apply resched_task_mild. rewrite Hr. by eexists. }
  destruct (_ <? _); [apply vwp_mild; [done|]; intros _; by apply (clear_ok run V c k)|].
  destruct (_ <? _); [apply vwp_ret; by apply upheld_refl|]. destruct (waiting run V c k H Hk Hn) as (l & El & [g Hg]).
  apply vwp_bind. eapply (vwp_deref V _ l); [unfold __pick_first_entity; by rewrite <- El, <- Hs|]. vstep. intros y _. cbv zeta.
  destruct (_ <? 0); [apply vwp_ret; by apply upheld_refl|]. apply vwp_when; [intros _; by apply mild_upheld|intros _; by apply upheld_refl].
Qed.

Lemma task_tick_ok run V c t p x :
  fair_ok run V -> f_curr V !! c = Some t -> f_rts V !! t = Some p -> tasks (f_krn V) !! t = Some x -> tcpu x = c ->
  vwp V (task_tick_fair c t) (fun _ V' => upheld run (f_ents V) V V').
Proof.
  intros H Hu Hp Hx Hc. destruct (fair_home _ _ _ _ H Hp) as (e & x' & k & He & Hx' & Hk). assert (x' = x) as -> by congruence. rewrite Hc in Hk.
  unfold task_tick_fair. vstep. rewrite Hc.
  assert (Htick : vwp V (entity_tick c t) (fun _ V' => upheld run (f_ents V) V V')).
  { unfold entity_tick. apply vwp_mild; [eapply update_curr_mild; by eapply fair_at|]. intros _. apply vwp_mild; [apply clock_mild; by eexists|]. intros n.
    apply vwp_mild; [eapply mild_on_entity; [done|done|apply update_quiet]|]. intros _. vstep. intros q Hq. apply vwp_bind.
    eapply vwp_put_cfs_same; [done|by rewrite see_decay|]. vstep. intros q' Hq'.
    apply vwp_when; [|intros _; by apply upheld_refl]. intros Hn%Z.ltb_lt.
    eapply check_preempt_tick_ok; try done. by rewrite <- Hq'. }
  eapply upheld_seq; [exact Htick|]. intros _ V1 [K1 K2 K3 K4 K5].
  assert (Hu1 : is_Some (f_curr V1 !! c)) by (rewrite K3; by eexists). pose proof (proj2 (fo_dom _ _ K1 c) Hu1) as [k1 Hk1].
  rewrite <- K2. apply mild_upheld; [done|]. by eapply runnable_avg_mild.
Qed.

(** ** Preemption *)

Lemma preempt_curr_ok run V c u (scale : bool) :
  fair_ok run V -> f_curr V !! c = Some u -> vwp V (preempt_curr c scale) (fun _ V' => upheld run (f_ents V) V V').
Proof.
  intros H Hu. destruct (fo_curr _ _ H c u Hu) as (p & x & Hp & Hx & _). destruct (fair_home _ _ _ _ H Hp) as (e & _ & _ & He & _).
  unfold preempt_curr. vstep. intros r <-. apply vwp_mild; [apply resched_task_mild; by eexists|]. intros _.
  vstep. intros s Hs. destruct (negb (se_on_rq s) || _) eqn:Eb; [apply vwp_ret; by apply upheld_refl|].
  apply orb_false_iff in Eb as [Eb _]. apply negb_false_iff in Eb. apply vwp_when; [|intros _; by apply upheld_refl]. intros _.
  eapply set_last_buddy_ok; try done. by rewrite <- Hs.
Qed.

(** [t] is queued, [u] runs *)
Lemma check_preempt_ok run V c u t p e (fork : bool) :
  fair_ok run V -> f_curr V !! c = Some u -> f_rts V !! t = Some p -> f_ents V !! t = Some e -> v_on e = true ->
  vwp V (check_preempt_wakeup c t fork) (fun _ V' => upheld run (f_ents V) V V').
Proof.
  intros H Hu Hp He Hon. destruct (fo_curr _ _ H c u Hu) as (pu & xu & Hpu & Hxu & Hcu).
  destruct (fair_home _ _ _ _ H Hpu) as (eu & x' & k & Heu & Hx' & Hk). assert (x' = xu) as -> by congruence. rewrite Hcu in Hk.
  unfold check_preempt_wakeup. vstep. intros s. vstep. intros r Hr. rewrite Hr. cbv zeta. vstep. rewrite Hcu. vstep. intros q Hq.
  destruct (decide (u = t)); [apply vwp_ret; by apply upheld_refl|]. set (scale := _ <=? _). set (mark := NEXT_BUDDY && scale && negb fork). clearbody mark scale.
  eapply upheld_seq; [apply vwp_when; [intros _; by eapply set_next_buddy_ok|intros _; by apply upheld_refl]|].
  intros _ V1 [K1 K2 K3 K4 K5]. rewrite <- K2 in *. rewrite <- K3 in Hu. rewrite <- K4 in Hp, Hpu. rewrite <- K5 in Hxu.
  vstep. intros y _. vstep. intros z _. destruct (need_resched z); [apply vwp_ret; by apply upheld_refl|].
  destruct (_ && _).
  { by eapply preempt_curr_ok. }
  destruct (_ || _).
  { apply vwp_ret. by apply upheld_refl. }
  assert (Hu1 : is_Some (f_curr V1 !! c)) by by eexists. pose proof (proj2 (fo_dom _ _ K1 c) Hu1) as [k1 Hk1].
  apply vwp_mild; [eapply update_curr_mild; by eapply fair_at|]. intros _. vstep. intros f _. vstep. intros g Hg.
  pose proof (see_preempt s f g) as Hs. destruct (wakeup_preempt_entity s f g) as [d g']. cbn in Hs.
  apply vwp_bind. eapply vwp_put_se_same; [done|congruence|]. destruct (d =? 1); [|apply vwp_ret; by apply upheld_refl].
  eapply upheld_seq; [apply vwp_when; [intros _; by eapply set_next_buddy_ok|intros _; by apply upheld_refl]|].
  intros _ V2 [L1 L2 L3 L4 L5]. rewrite <- L2. eapply preempt_curr_ok; [done|by rewrite L3].
Qed.

Lemma check_preempt_task_ok run V c u t p e (fork : bool) :
  fair_ok run V -> f_curr V !! c = Some u -> f_rts V !! t = Some p -> f_ents V !! t = Some e -> v_on e = true ->
  vwp V (check_preempt_task_fair c t fork) (fun _ V' => upheld run (f_ents V) V V').
Proof.
  intros H Hu Hp He Hon. destruct (fo_curr _ _ H c u Hu) as (pu & xu & Hpu & Hxu & Hcu). unfold check_preempt_task_fair.
  vstep. intros r <-. vstep. intros y _. vstep. intros z _.
  eapply upheld_seq.
  { destruct (decide _); [by eapply check_preempt_ok|]. apply vwp_when; [|intros _; by apply upheld_refl]. intros _.
    apply mild_upheld; [done|]. apply resched_task_mild. by eexists. }
  intros _ V1 [K1 K2 K3 K4 K5]. rewrite <- K2. rewrite <- K3 in Hu. rewrite <- K4 in Hpu. rewrite <- K5 in Hxu.
  apply mild_upheld; [done|]. vstep. intros r' Hr'. rewrite Hr'. vstep. intros q _. vstep. destruct (_ && _); cbn [when]; [by eapply vwp_put_rq_same|by apply vwp_base_ret].
Qed.

(** ** Switching *)

Definition turn c (o : option nat) run : nat -> option nat := fun d => if decide (d = c) then o else run d.
Lemma turn_eq c o run : turn c o run c = o.
Proof. unfold turn. by rewrite decide_True. Qed.
Lemma turn_ne c o run d : d <> c -> turn c o run d = run d.
Proof. intros. unfold turn. by rewrite decide_False. Qed.

Definition set_run (o : option nat) (v : cfs_view) : cfs_view :=
  CfsView (v_weight v) (v_nr v) (v_h_nr v) (v_tree v) (v_left v) o (v_next v) (v_last v) (v_skip v).

(** the run queue gets another current task and another tree *)
Lemma switch_upheld run V c k v o :
  fair_ok run V -> f_rqs V !! c = Some k -> same_but_tree (v_cfs k) v -> tree_ok (v_tree v) (v_left v) ->
  (forall u, u ∈ inorder (v_tree v) <-> u ∈ v_list k /\ o <> Some u) -> (forall u, o = Some u -> fair_task V c u) ->
  upheld (turn c o run) (f_ents V) V (with_q c (on_cfs (set_run o v) k) V).
Proof.
  intros H Hk [S1 S2 S3 S4 S5 S6 S7] Ho Hm Hf. split; [|done..]. pose proof H as [F1 F2 F3 F4 F5 F6 F7 F8 F9]. split; cbn; try done.
  - intros d. rewrite <- F1, lookup_insert. case_decide; [subst d; rewrite Hk; split; intros; by eexists|done].
  - intros d y. rewrite lookup_insert. case_decide; [intros [= <-]|by apply F2]. destruct (F2 c k Hk) as [].
    split; [exact qo_nodup0|exact Ho|exact Hm|cbn [v_cfs v_list v_load on_cfs set_run v_nr v_h_nr v_weight]; congruence..|]. intros u. unfold buddies. cbn. rewrite S5, S6, S7. apply qo_buddy0.
  - intros d y. rewrite lookup_insert. case_decide as Ed; [intros [= <-]; subst d; by rewrite turn_eq|]. intros Hy. rewrite turn_ne by done. by apply F3.
  - intros d y u. rewrite lookup_insert. case_decide; [intros [= <-]; subst d; cbn|]; by apply F4.
  - intros u f Hf' Hon. destruct (F5 u f Hf' Hon) as (d & y & Hy & Hu). destruct (decide (d = c)) as [->|Hd].
    + eexists c, _. rewrite lookup_insert_eq. split; [done|]. cbn. congruence.
    + exists d, y. by rewrite lookup_insert_ne.
  - intros u p Hp. destruct (F6 u p Hp) as (f & y & Hf' & Hw & Hy & Hs). exists f, y. split_and!; try done; try apply Hw.
    rewrite lookup_insert. by case_decide.
  - intros d u. destruct (decide (d = c)) as [->|Hd]; [rewrite turn_eq; apply Hf|]. rewrite turn_ne by done. apply F8.
Qed.

Lemma put_prev_ok run V c t p x :
  fair_ok run V -> run c = Some t -> f_rts V !! t = Some p -> tasks (f_krn V) !! t = Some x -> tcpu x = c ->
  vwp V (put_prev_task_fair t) (fun _ V' => upheld (turn c None run) (f_ents V) V V').
Proof.
  intros H Hrun Hp Hx Hc. destruct (fair_home _ _ _ _ H Hp) as (e & x' & k & He & Hx' & Hk). assert (x' = x) as -> by congruence.
  pose proof (fair_queued _ _ _ _ _ _ _ H Hp He Hx Hk) as Hin. rewrite Hc in Hk. pose proof (fair_at _ _ _ _ H Hk) as Hat.
  pose proof (fo_q _ _ H c k Hk) as Hq. pose proof (fo_now _ _ H c k Hk) as Hnow. rewrite Hrun in Hnow.
  unfold put_prev_task_fair, put_prev_entity. vstep. rewrite Hc. vstep. intros s Hs.
  assert (Hon : se_on_rq s = v_on e) by by rewrite <- Hs. rewrite Hon.
  apply vwp_mild; [apply mild_when; intros _; by eapply update_curr_mild|]. intros _. apply vwp_mild; [apply clock_mild, Hat|]. intros n.
  eapply (vwp_seq _ _ _ (fun _ V' => exists v, same_but_tree (v_cfs k) v /\ tree_ok (v_tree v) (v_left v) /\
    (forall u, u ∈ inorder (v_tree v) <-> u ∈ v_list k) /\ V' = with_q c (on_cfs v k) V)).
  - apply vwp_when.
    + intros Ho. assert (Ht : t ∉ inorder (v_tree (v_cfs k))) by (by intros [_ ?]%(qo_mem _ _ Hq)).
      eapply vwp_seq; [by apply (enqueue_link V c t k e)|]. intros _ ? (v & [L1 L2 L3] & ->).
      apply mild_cons; [eapply mild_on_entity; [apply with_q_lookup|exact He|apply update_quiet]|]. intros _.
      exists v. split_and!; try done. intros u. rewrite L2, elem_of_cons, (qo_mem _ _ Hq), Hnow. split; [intros [->|[]]; [by apply Hin|done]|].
      intros Hu. destruct (decide (u = t)) as [->|]; [by left|right]. split; [done|congruence].
    + intros Ho. exists (v_cfs k). split; [by split|]. split; [apply Hq|]. split.
      * intros u. rewrite (qo_mem _ _ Hq), Hnow. split; [by intros []|]. intros Hu. split; [done|]. intros [= ->]. apply Hin in Hu. congruence.
      * symmetry. rewrite with_q_id; [done|]. by destruct k.
  - intros _ ? (v & Hsame & Ho & Hm & ->). apply vwp_bind. eapply vwp_cfs_of; [apply with_q_lookup|]. intros q Hq'.
    eapply vwp_put_cfs; [apply with_q_lookup|]. rewrite with_q_q. change (see_cfs (set_cfs_curr None q)) with (set_run None (see_cfs q)).
    rewrite Hq'. eapply (switch_upheld run V c k v None); try done. intros u. rewrite Hm. split; [done|]. by intros [].
Qed.

Lemma set_next_ok run V c t p x e :
  fair_ok run V -> run c = None -> f_rts V !! t = Some p -> tasks (f_krn V) !! t = Some x -> tcpu x = c ->
  f_ents V !! t = Some e -> v_on e = true ->
  vwp V (set_next_entity c t) (fun _ V' => upheld (turn c (Some t) run) (f_ents V) V V').
Proof.
  intros H Hrun Hp Hx Hc He Hon. destruct (fair_home _ _ _ _ H Hp) as (e' & x' & k & He' & Hx' & Hk). assert (x' = x) as -> by congruence. clear He'.
  pose proof (proj1 (fair_queued _ _ _ _ _ _ _ H Hp He Hx Hk) Hon) as Hin. rewrite Hc in Hk. pose proof (fair_at _ _ _ _ H Hk) as Hat.
  pose proof (fo_q _ _ H c k Hk) as Hq. pose proof (fo_now _ _ H c k Hk) as Hnow. rewrite Hrun in Hnow.
  unfold set_next_entity. vstep. intros s Hs. assert (se_on_rq s = true) as -> by (rewrite <- Hon, <- Hs; done). cbn [when].
  eapply vwp_seq; [by apply (dequeue_link V c t k)|]. intros _ ? (v & [U1 U2 U3] & ->).
  apply vwp_mild; [apply clock_mild, Hat|]. intros n. vstep. intros y Hy. apply vwp_bind. eapply vwp_put_rt_same; [exact Hp|done|].
  apply vwp_bind. eapply vwp_cfs_of; [apply with_q_lookup|]. intros q Hq'. apply vwp_bind.
  eapply vwp_put_cfs; [apply with_q_lookup|]. rewrite with_q_q. change (see_cfs (set_cfs_curr (Some t) q)) with (set_run (Some t) (see_cfs q)).
  rewrite Hq'. eapply vwp_put_se_same; [exact He|done|]. eapply (switch_upheld run V c k v (Some t)); try done.
  - intros u. rewrite U2, list_elem_of_filter, (qo_mem _ _ Hq), Hnow. split; [intros (? & ? & ?); split; [done|congruence]|].
    intros [? Hne]. split; [congruence|done].
  - intros u [= <-]. destruct (fo_in _ _ H c k t Hk Hin) as [? _]. done.
Qed.

Lemma buddy_mild V s o l : is_Some (f_ents V !! l) -> (forall t, o = Some t -> is_Some (f_ents V !! t)) -> mild V (buddy s o l).
Proof.
  intros [e He] Ho. destruct o as [t|]; [|by apply vwp_ret]. destruct (Ho t eq_refl) as [f Hf]. unfold buddy. vstep. intros g _. vstep. intros h Hh.
  pose proof (see_preempt s g h) as Hs. destruct (wakeup_preempt_entity s g h) as [r h']. cbn in Hs. apply vwp_bind.
  eapply vwp_put_se_same; [done|congruence|]. by apply vwp_ret.
Qed.

(** choosing: one of the queued tasks *)
Lemma pick_entity_ok run V c k :
  fair_ok run V -> run c = None -> f_rqs V !! c = Some k -> v_list k <> [] ->
  vwp V (pick_next_entity c) (fun o V' => exists t, o = Some t /\ t ∈ v_list k /\ upheld run (f_ents V) V V').
Proof.
  intros H Hrun Hk Hne. pose proof (fo_q _ _ H c k Hk) as Hq. pose proof (fo_now _ _ H c k Hk) as Hnow. rewrite Hrun in Hnow.
  assert (Hall : forall u, u ∈ inorder (v_tree (v_cfs k)) <-> u ∈ v_list k).
  { intros u. rewrite (qo_mem _ _ Hq), Hnow. split; [by intros []|done]. }
  assert (Hent : forall u, u ∈ v_list k -> is_Some (f_ents V !! u)).
  { intros u Hu. destruct (fo_in _ _ H c k u Hk Hu) as [_ (e & He & _)]. by eexists. }
  destruct (qo_tree _ _ Hq) as [_ Hleft]. destruct (inorder (v_tree (v_cfs k))) as [|l ls] eqn:El.
  { destruct (v_list k) as [|u us]; [done|]. specialize (Hall u). set_solver. }
  assert (Hl : l ∈ v_list k) by (apply Hall; by left). cbn in Hleft.
  unfold pick_next_entity. vstep. intros s. vstep. intros q E. unfold __pick_first_entity. cbv zeta.
  rewrite (f_equal v_left E : cfs_leftmost q = _), Hleft, (f_equal v_skip E : cfs_skip q = _), (f_equal v_last E : cfs_last q = _), (f_equal v_next E : cfs_next q = _).
  assert (Hlast : forall u, v_last (v_cfs k) = Some u -> u ∈ v_list k) by (intros u Hu; apply (qo_buddy _ _ Hq); right; by left).
  assert (Hnext : forall u, v_next (v_cfs k) = Some u -> u ∈ v_list k) by (intros u Hu; apply (qo_buddy _ _ Hq); by left).
  assert (Hsec : forall u, __pick_next_entity q l = Some u -> u ∈ v_list k).
  { intros u Hu. apply Hall. rewrite <- El. unfold __pick_next_entity, rb_next in Hu. rewrite (f_equal v_tree E : tasks_timeline q = _) in Hu.
    apply head_Some_elem_of in Hu. destruct (rb_after_suffix l (inorder (v_tree (v_cfs k)))) as [z Hz]. rewrite Hz, elem_of_app. by right. }
  eapply (vwp_seq _ _ _ (fun t V' => t ∈ v_list k /\ V' = V)).
  { case_bool_decide; [|by apply vwp_ret]. apply vwp_mild; [apply buddy_mild; [by apply Hent|by auto]|]. intros b. apply vwp_ret.
    split; [|done]. destruct b; [|done]. destruct (__pick_next_entity q l) as [u|]; [by apply Hsec|done]. }
  intros t ? [Ht ->]. apply vwp_mild; [apply buddy_mild; [by apply Hent|by auto]|]. intros b1.
  set (t1 := if b1 then default t (v_last (v_cfs k)) else t). assert (Ht1 : t1 ∈ v_list k).
  { unfold t1. destruct b1; [|done]. destruct (v_last (v_cfs k)) as [u|]; [by apply Hlast|done]. }
  apply vwp_mild; [apply buddy_mild; [by apply Hent|by auto]|]. intros b2.
  set (t2 := if b2 then default t1 (v_next (v_cfs k)) else t1). assert (Ht2 : t2 ∈ v_list k).
  { unfold t2. destruct b2; [|done]. destruct (v_next (v_cfs k)) as [u|]; [by apply Hnext|done]. }
  eapply vwp_seq; [by apply (clear_ok run V c k t2 q)|]. intros a V1 K1. apply vwp_ret. exists t2. exact (conj eq_refl (conj Ht2 K1)).
Qed.

Lemma pick_ok run V c u :
  fair_ok run V -> run c = None -> f_curr V !! c = Some u ->
  vwp V (pick_next_task_fair c) (fun o V' => upheld (turn c o run) (f_ents V) V V' /\
    forall t, o = Some t -> fair_task V c t).
Proof.
  intros H Hrun Hu. destruct (proj2 (fo_dom _ _ H c)) as [k Hk]; [by eexists|]. pose proof (fo_q _ _ H c k Hk) as Hq.
  unfold pick_next_task_fair. vstep. intros q E. rewrite (f_equal v_nr E : cfs_nr_running q = _), (qo_nr _ _ Hq).
  destruct (v_list k) as [|t0 ts] eqn:El.
  { cbn. apply vwp_ret. split; [|done]. split; [|done..]. destruct H as [F1 F2 F3 F4 F5 F6 F7 F8 F9].
    assert (Ht : forall d, turn c None run d = run d) by (intros d; unfold turn; case_decide; [congruence|done]).
    split; try done; [intros d y; rewrite Ht; apply F3|intros d; rewrite Ht; apply F8]. }
  rewrite (proj2 (Z.eqb_neq _ _)) by (cbn [length]; lia).
  eapply vwp_seq; [apply (pick_entity_ok run V c k); try done; by rewrite El|]. intros o V1 (t & -> & Ht & [K1 K2 K3 K4 K5]).
  destruct (fo_in _ _ H c k t Hk Ht) as [Hf (e & He & Hon)]. pose proof Hf as (p & x & Hp & Hcl & Hx & Hc).
  apply vwp_bind. eapply (vwp_deref V1 _ t); [done|].
  eapply vwp_seq; [apply (set_next_ok run V1 c t p x e); congruence|]. intros _ V2 [L1 L2 L3 L4 L5]. apply vwp_ret.
  split; [split; congruence|]. by intros ? [= <-].
Qed.
End Ops.
