(* ===== verification/FairSys.v ===== *)
(** * The fair class as a system

    The events that drive the class, one operation each, composed from the code
    of fair.c and core.c.  [fair_sys] is the state between events: the invariant
    of the run queues, that of the groups (CmSys.v), and that a task of the class
    is queued exactly when it is runnable. *)

From S2P Require Import Prelude Wait Tasklet Cmgroup Sched CmInv CmTask CmSys EpTree RtRq RtPush RtInv RtBalance RtStep.
From S2P Require Import FairRq FairMath FairInv FairStep.
Local Open Scope Z_scope.

Section Frame.
Context {RL : RtLib} {FL : FairLib} {RB : RbLib}.
Implicit Types (V : fview) (k : queue_view) (e : ent_view) (p : rt_task) (x y : task_struct) (c d t u : nat) (n : kernel).
Implicit Types (run : nat -> option nat).

(** ** Changes outside of the run queues *)

(** the kernel changes the task [t]; its CPU only if it is neither queued nor running *)
Lemma krn_ok run V t x y n e :
  fair_ok run V -> tasks (f_krn V) !! t = Some x -> tasks n = <[t := y]> (tasks (f_krn V)) -> f_ents V !! t = Some e ->
  (tcpu y = tcpu x \/ (v_on e = false /\ (forall c, f_curr V !! c <> Some t) /\ forall c, run c <> Some t)) ->
  is_Some (f_rqs V !! tcpu y) -> fair_ok run (set_f_krn n V).
Proof.
  intros [F1 F2 F3 F4 F5 F6 F7 F8 F9] Hx Hn He Hcpu Hs.
  assert (Hft : forall c u, u <> t \/ tcpu y = tcpu x -> fair_task V c u -> fair_task (set_f_krn n V) c u).
  { intros c u Hu (p & z & Hp & Hcl & Hz & Hc). exists p. cbn. rewrite Hn, lookup_insert. case_decide as E; [|by exists z].
    subst u. exists y. destruct Hu as [|Hu]; [done|]. split_and!; try done. congruence. }
  split; cbn; try done.
  - intros c k u Hk Hu. destruct (F4 c k u Hk Hu) as [Hf (f & Hf' & Hon)]. split; [|by exists f]. apply Hft; [|done].
    destruct Hcpu as [?|(Hoff & _)]; [by right|left]. intros ->. congruence.
  - intros u p Hp. destruct (F6 u p Hp) as (f & z & Hf & Hw & Hz & Hk). exists f. rewrite Hn, lookup_insert. case_decide as E.
    + subst u. by exists y.
    + by exists z.
  - intros c u Hu. destruct (F7 c u Hu) as (p & z & Hp & Hz & Hc). exists p. rewrite Hn, lookup_insert. case_decide as E; [|by exists z].
    subst u. exists y. split_and!; try done. destruct Hcpu as [Hcpu|(_ & Hno & _)]; [congruence|]. by destruct (Hno c).
  - intros c u Hu. apply Hft; [|by apply F8]. destruct Hcpu as [?|(_ & _ & Hno)]; [by right|left]. intros ->. by destruct (Hno c).
Qed.

(** parameters other than the class change *)
Lemma rts_ok run V t p p' : fair_ok run V -> f_rts V !! t = Some p -> class p' = class p -> fair_ok run (set_f_rts (<[t := p']> (f_rts V)) V).
Proof.
  intros [F1 F2 F3 F4 F5 F6 F7 F8 F9] Hp Hc.
  assert (Hft : forall c u, fair_task V c u -> fair_task (set_f_rts (<[t := p']> (f_rts V)) V) c u).
  { intros c u (q & z & Hq & Hcl & Hz & Hcz). destruct (decide (u = t)) as [->|Hne].
    - exists p', z. cbn. rewrite lookup_insert_eq. split_and!; try done. congruence.
    - exists q, z. cbn. by rewrite lookup_insert_ne. }
  split; cbn; try done.
  - intros c k u Hk Hu. destruct (F4 c k u Hk Hu) as [Hf ?]. split; [by apply Hft|done].
  - intros u q. rewrite lookup_insert. case_decide as E; [intros _; subst u; by apply (F6 t p)|by apply F6].
  - intros c u Hu. destruct (F7 c u Hu) as (q & z & Hq & Hz & Hcz). rewrite lookup_insert. case_decide as E; [subst u; by exists p', z|by exists q, z].
  - intros c u Hu. by apply Hft, F8.
  - rewrite map_size_insert, Hp. done.
Qed.

(** another task becomes current *)
Lemma curr_ok run V c u t p x :
  fair_ok run V -> f_curr V !! c = Some u -> f_rts V !! t = Some p -> tasks (f_krn V) !! t = Some x -> tcpu x = c ->
  fair_ok run (set_f_curr (<[c := t]> (f_curr V)) V).
Proof.
  intros [F1 F2 F3 F4 F5 F6 F7 F8 F9] Hu Hp Hx Hc. split; cbn; try done.
  - intros d. rewrite F1, lookup_insert. case_decide; [subst d; rewrite Hu; split; intros; by eexists|done].
  - intros d v. rewrite lookup_insert. case_decide; [intros [= <-]; subst d; by exists p, x|by apply F7].
Qed.

(** the weight of a task that is not queued *)
Lemma weight_ok run V t e z :
  fair_ok run V -> f_ents V !! t = Some e -> v_on e = false -> 0 <= z <= MAX_WEIGHT -> fair_ok run (with_e t (EntView false z) V).
Proof.
  intros [F1 F2 F3 F4 F5 F6 F7 F8 F9] He Hoff Hz. assert (Hnin : forall c k, f_rqs V !! c = Some k -> t ∉ v_list k).
  { intros c k Hk Ht. destruct (F4 c k t Hk Ht) as [_ (f & Hf & Hon)]. congruence. }
  split; cbn; try done.
  - intros c k Hk. destruct (F2 c k Hk) as [].
    assert (Hl : load_of (<[t := EntView false z]> (f_ents V)) (v_list k) = load_of (f_ents V) (v_list k)).
    { specialize (Hnin c k Hk). unfold load_of. clear -Hnin. induction (v_list k) as [|u l IH]; [done|]. cbn.
      apply not_elem_of_cons in Hnin as [Hne Hnin]. rewrite IH by done. unfold wt_of. by rewrite lookup_insert_ne. }
    split; try done; by rewrite Hl.
  - intros c k u Hk Hu. destruct (F4 c k u Hk Hu) as [Hf (f & Hf' & Hon)]. split; [done|]. exists f.
    rewrite lookup_insert_ne; [done|]. intros <-. by eapply Hnin.
  - intros u f. rewrite lookup_insert. case_decide; [by intros [= <-]|]. apply F5.
  - intros u p Hp. destruct (F6 u p Hp) as (f & y & Hf & Hw & Hy & Hs). rewrite lookup_insert. case_decide; [|by exists f, y].
    subst u. by exists (EntView false z), y.
Qed.
End Frame.

(** ** The state between events *)

Section System.
Context {RL : RtLib} {FL : FairLib} {RB : RbLib}.
Implicit Types (V : fview) (k : queue_view) (e : ent_view) (p : rt_task) (x y : task_struct) (c d t u : nat) (n : kernel).
Implicit Types (run : nat -> option nat).

(** the task of the class that runs on [c] *)
Definition turns V c : option nat :=
  u ← f_curr V !! c; p ← f_rts V !! u; if decide (class p = fair_class) then Some u else None.

Record fair_sys V : Prop := {
  fs_ok : fair_ok (turns V) V;
  fs_sys : sys_ok (f_krn V);
  fs_on : forall t p e x, f_rts V !! t = Some p -> class p = fair_class -> f_ents V !! t = Some e ->
    tasks (f_krn V) !! t = Some x -> v_on e = on_rq x
}.

Lemma fair_ok_turns run run' V : (forall c, run' c = run c) -> fair_ok run V -> fair_ok run' V.
Proof.
  intros E [F1 F2 F3 F4 F5 F6 F7 F8 F9]. split; try done; [intros c k Hk; rewrite E; by apply F3|intros c t; rewrite E; apply F8].
Qed.

Lemma upheld_sys V V' : fair_sys V -> upheld (turns V) (f_ents V) V V' -> fair_sys V'.
Proof.
  intros [H1 H2 H3] [K1 K2 K3 K4 K5]. split; [|congruence|intros t p e x; rewrite K2, K4, K5; apply H3].
  eapply fair_ok_turns; [|done]. intros c. unfold turns. by rewrite K3, K4.
Qed.

Lemma sys_curr V c u p :
  fair_sys V -> f_curr V !! c = Some u -> f_rts V !! u = Some p -> class p = fair_class -> turns V c = Some u.
Proof. intros H Hu Hp Hc. unfold turns. rewrite Hu. cbn. rewrite Hp. cbn. by rewrite decide_True. Qed.

(** ** Yielding *)

Lemma yield_ok run V c u p e :
  fair_ok run V -> f_curr V !! c = Some u -> f_rts V !! u = Some p -> f_ents V !! u = Some e -> v_on e = true ->
  vwp V (yield_task_fair c) (fun _ V' => upheld run (f_ents V) V V').
Proof.
  intros H Hu Hp He Hon. destruct (fo_curr _ _ H c u Hu) as (p' & x & Hp' & Hx & Hc). assert (p' = p) as -> by congruence.
  destruct (fair_home _ _ _ _ H Hp) as (_ & x' & k & _ & Hx' & Hk). assert (x' = x) as -> by congruence. rewrite Hc in Hk.
  unfold yield_task_fair. vstep. intros r <-. cbv zeta. vstep. rewrite Hc. destruct (_ =? 1); [apply vwp_ret; by apply upheld_refl|].
  vstep. intros q Hq. eapply upheld_seq; [by apply (clear_ok run V c k)|].
  intros _ V1 [K1 K2 K3 K4 K5]. rewrite <- K2 in *. rewrite <- K3 in Hu. rewrite <- K4 in Hp. rewrite <- K5 in Hx.
  destruct (proj2 (fo_dom _ _ K1 c)) as [k1 Hk1]; [by eexists|].
  vstep. intros z _. apply vwp_mild.
  - apply mild_when. intros _. apply vwp_mild; [apply update_rq_clock_mild; by eexists|]. intros _.
    apply vwp_mild; [eapply update_curr_mild; by eapply fair_at|]. intros _. vstep. intros r' Hr'. by eapply vwp_put_rq_same.
  - intros _. by eapply set_skip_buddy_ok.
Qed.

Lemma yield_to_task_ok run V c u p e t p' :
  fair_ok run V -> f_curr V !! c = Some u -> f_rts V !! u = Some p -> f_ents V !! u = Some e -> v_on e = true ->
  f_rts V !! t = Some p' -> vwp V (yield_to_task_fair c t) (fun _ V' => upheld run (f_ents V) V V').
Proof.
  intros H Hu Hp He Hon Hp'. destruct (fair_home _ _ _ _ H Hp') as (f & _ & _ & Hf & _). unfold yield_to_task_fair.
  vstep. intros s Hs. destruct (negb (se_on_rq s)) eqn:Eb; [apply vwp_ret; by apply upheld_refl|]. apply negb_false_iff in Eb.
  eapply upheld_seq; [eapply set_next_buddy_ok; try done; by rewrite <- Hs|].
  intros _ V1 [K1 K2 K3 K4 K5]. rewrite <- K2 in *. rewrite <- K3 in Hu. rewrite <- K4 in Hp.
  eapply upheld_seq; [by eapply yield_ok|]. intros _ V2 [L1 L2 L3 L4 L5]. rewrite <- L2. apply vwp_ret. by apply upheld_refl.
Qed.

Lemma yield_to_ok V c u t p' (preempt : bool) :
  fair_sys V -> f_curr V !! c = Some u -> f_rts V !! t = Some p' ->
  (forall x, tasks (f_krn V) !! u = Some x -> on_rq x = true) ->
  vwp V (yield_to c t preempt) (fun _ V' => upheld (turns V) (f_ents V) V V').
Proof.
  intros HS Hu Hp' Hon. pose proof (fs_ok _ HS) as H. destruct (fo_curr _ _ H c u Hu) as (p & x & Hp & Hx & Hc).
  destruct (fo_task _ _ H t p' Hp') as (f & y & Hf & _ & Hy & Hk). destruct (fo_task _ _ H u p Hp) as (e & _ & He & _).
  destruct (proj1 (fo_dom _ _ H (tcpu y)) Hk) as [v Hv]. destruct (fo_curr _ _ H _ v Hv) as (pv & _ & Hpv & _).
  unfold yield_to. vstep. intros r <-. vstep. vstep. intros r' Hr'. destruct (_ && _); [apply vwp_ret; by apply upheld_refl|].
  vstep. intros q Hq. vstep. intros z Hz. vstep. destruct (_ || _) eqn:Eb; [apply vwp_ret; by apply upheld_refl|].
  apply orb_false_iff in Eb as [Eb _]. apply bool_decide_eq_false, dec_stable in Eb. destruct (_ || _); [apply vwp_ret; by apply upheld_refl|].
  eapply upheld_seq.
  { eapply yield_to_task_ok; try done. rewrite (fs_on _ HS (RtRq.curr r) p e x); try done; [by apply Hon|by rewrite <- Hq]. }
  intros b V1 [K1 K2 K3 K4 K5]. rewrite <- K2. apply vwp_mild; [|intros _; apply vwp_ret; by apply upheld_refl].
  apply mild_when. intros _. apply resched_task_mild. rewrite Hr', K4. by eexists.
Qed.

(** ** Tasks that change their CPU *)

Lemma migrate_mild V t e x k :
  f_ents V !! t = Some e -> tasks (f_krn V) !! t = Some x -> f_rqs V !! tcpu x = Some k -> mild V (migrate_task_rq_fair t).
Proof.
  intros He Hx Hk. unfold migrate_task_rq_fair. vstep. vstep. intros s _. apply mild_when. intros _.
  eapply mild_on_entity; [done|done|]. intros q f. pose proof (see_sync q f) as Hs. by destruct (__synchronize_entity_decay q f) as [d f'].
Qed.

Lemma waking_mild V HZ me t e f x k :
  f_ents V !! t = Some e -> f_ents V !! me = Some f -> tasks (f_krn V) !! t = Some x -> f_rqs V !! tcpu x = Some k ->
  mild V (task_waking_fair HZ me t).
Proof.
  intros He Hf Hx Hk. unfold task_waking_fair. vstep. vstep. intros q _. vstep. intros s Hs. apply vwp_bind.
  eapply vwp_put_se_same; [done|exact Hs|]. unfold record_wakee. vstep. intros w _. vstep. intros m Hm. cbv zeta.
  eapply vwp_put_se_same; [done| |done]. rewrite <- Hm. destruct (_ <? _); case_bool_decide; done.
Qed.

(** the task off the queue is given to [d] *)
Definition moved t x d V : fview := set_f_krn (upd_task t (set_tcpu d x) (f_krn V)) V.

Lemma set_task_cpu_view V t e x k d :
  f_ents V !! t = Some e -> tasks (f_krn V) !! t = Some x -> f_rqs V !! tcpu x = Some k ->
  vwp V (set_task_cpu_fair t d) (fun _ V' => V' = moved t x d V).
Proof.
  intros He Hx Hk. unfold set_task_cpu_fair. vstep. apply vwp_mild; [apply mild_when; intros _; by eapply migrate_mild|]. intros _.
  eapply vwp_lift_k; [|done]. unfold set_task_cpu. by mrun (get_task_eq t _ x Hx).
Qed.

Definition idle_task V t e : Prop :=
  f_ents V !! t = Some e /\ v_on e = false /\ forall c, f_curr V !! c <> Some t.

Lemma turn_is_curr V c t : turns V c = Some t -> f_curr V !! c = Some t.
Proof.
  unfold turns. destruct (f_curr V !! c) as [u|]; cbn; [|done]. destruct (f_rts V !! u) as [p|]; cbn; [|done]. case_decide; congruence.
Qed.

Lemma moved_ok V t e x d :
  fair_ok (turns V) V -> idle_task V t e -> tasks (f_krn V) !! t = Some x -> is_Some (f_rqs V !! d) -> fair_ok (turns V) (moved t x d V).
Proof.
  intros H (He & Hoff & Hno) Hx Hd. eapply (krn_ok _ V t x (set_tcpu d x)); try done. right. split_and!; try done.
  intros c Hc%turn_is_curr. by eapply Hno.
Qed.

Lemma moved_sys V t x d : sys_ok (f_krn V) -> tasks (f_krn V) !! t = Some x -> sys_ok (f_krn (moved t x d V)).
Proof. intros Hs Hx. by eapply upd_task_ok. Qed.

Lemma moved_has_task V t x d : tasks (f_krn (moved t x d V)) !! t = Some (set_tcpu d x).
Proof. apply lookup_insert_eq. Qed.
Lemma moved_id V t x : tasks (f_krn V) !! t = Some x -> moved t x (tcpu x) V = V.
Proof.
  intros Hx. unfold moved, upd_task. replace (set_tcpu (tcpu x) x) with x by by destruct x. rewrite insert_id by done.
  destruct V as [? ? ? ? n]. by destruct n.
Qed.

(** one operation of the kernel on the task [t] *)
Lemma krn_step run V t x y e (m : K unit) :
  fair_ok run V -> sys_ok (f_krn V) -> tasks (f_krn V) !! t = Some x -> f_ents V !! t = Some e ->
  task_op no_refs t m x tt y -> (task_ok x -> task_ok y) -> tcpu y = tcpu x -> is_Some (f_rqs V !! tcpu x) ->
  vwp V (on_base (lift_k m)) (fun _ V' => exists n, V' = set_f_krn n V /\ fair_ok run V' /\ sys_ok n /\ tasks n = <[t := y]> (tasks (f_krn V))).
Proof.
  intros H Hs Hx He Hop Hok Hc Hk. destruct (sys_task_run (f_krn V) t m x tt y Hs Hx Hop Hok) as (n & En & Hn & Ht).
  eapply vwp_lift_k; [done|]. exists n. split_and!; try done. eapply (krn_ok run V t x y n e); try done; [by left|by rewrite Hc].
Qed.

(** all but [t] agree on who is queued; so does [t] afterwards *)
Lemma on_rq_update V V' t e y :
  fair_sys V -> f_rts V' = f_rts V -> f_ents V' = <[t := e]> (f_ents V) -> tasks (f_krn V') = <[t := y]> (tasks (f_krn V)) -> v_on e = on_rq y ->
  forall u p f x, f_rts V' !! u = Some p -> class p = fair_class -> f_ents V' !! u = Some f -> tasks (f_krn V') !! u = Some x -> v_on f = on_rq x.
Proof.
  intros [_ _ H] Er Ee Ek Ho u p f x. rewrite Er, Ee, Ek, !lookup_insert. case_decide; [intros _ _ [= <-] [= <-]; done|]. apply H.
Qed.

(** ** Waking up *)

Lemma enqueued_cpu fl x : tcpu (enqueued fl x) = tcpu x.
Proof. unfold enqueued. by destruct (_ && _). Qed.

Lemma wake_ok V HZ me t p e x d :
  fair_sys V -> f_rts V !! t = Some p -> class p = fair_class -> idle_task V t e -> tasks (f_krn V) !! t = Some x ->
  is_Some (f_rqs V !! d) -> is_Some (f_ents V !! me) ->
  vwp V (try_to_wake_up_fair HZ me t d) (fun _ V' => fair_sys V').
Proof.
  intros HS Hp Hcl Hid Hx Hd [f Hf]. pose proof HS as [H Hs Hq]. pose proof Hid as (He & Hoff & Hno).
  destruct (fair_home _ _ _ _ H Hp) as (e' & x' & k & He' & Hx' & Hk). assert (x' = x) as -> by congruence. clear He' e'.
  assert (Hxq : on_rq x = false) by (rewrite <- (Hq t p e x); done).
  unfold try_to_wake_up_fair. apply vwp_mild; [by apply (waking_mild V HZ me t e f x k)|]. intros _. vstep.
  eapply (vwp_seq _ _ _ (fun _ V' => V' = moved t x d V)).
  { apply vwp_when; [intros _; by eapply set_task_cpu_view|]. intros Ed%bool_decide_eq_false%dec_stable. by rewrite <- Ed, moved_id. }
  intros _ ? ->. set (V1 := moved t x d V). set (x1 := set_tcpu d x). assert (Hx1 : tasks (f_krn V1) !! t = Some x1) by apply moved_has_task.
  assert (H1 : fair_ok (turns V) V1) by (by eapply moved_ok). assert (Hs1 : sys_ok (f_krn V1)) by by apply moved_sys.
  destruct (proj1 (fo_dom _ _ H d) Hd) as [u Hu]. unfold ttwu_do_activate_fair.
  apply vwp_mild; [apply update_rq_clock_mild; by eexists|]. intros _.
  eapply vwp_seq; [apply (enqueue_ok (turns V) V1 d t p e x1); done|]. intros _ V2 [K1 K2 K3 K4 K5].
  set (y := set_on_rq true (enqueued (Z.lor ENQUEUE_WAKEUP ENQUEUE_WAKING) x1)).
  assert (Hdom2 : is_Some (f_rqs V2 !! d)) by (apply (fo_dom _ _ K1); rewrite K3; by eexists).
  assert (He2 : f_ents V2 !! t = Some (EntView true (v_wt e))) by (rewrite K2; apply lookup_insert_eq).
  eapply vwp_seq; [eapply (krn_step (turns V) V2 t x1 y); rewrite ?K5; try done|].
  { unfold ttwu_activate, activate_task. task_ops. }
  { intros Hok. pose proof (woken_ok x1 Hok) as Hw. unfold woken in Hw. change (on_rq x1) with (on_rq x) in Hw. by rewrite Hxq in Hw. }
  { apply enqueued_cpu. }
  intros _ ? (n & -> & H3 & Hsn & Htn). eapply vwp_seq.
  { eapply (check_preempt_task_ok (turns V) (set_f_krn n V2) d u t p (EntView true (v_wt e))); cbn; try done; [by rewrite K3|by rewrite K4]. }
  intros _ V4 [L1 L2 L3 L4 L5]. cbn in L2, L3, L4, L5. assert (Hy : tasks (f_krn V4) !! t = Some y) by (rewrite L5, Htn; apply lookup_insert_eq).
  eapply vwp_cons; [eapply (krn_step (turns V) V4 t y (set_tstate TASK_RUNNING y)); try done; [by rewrite L5|by rewrite L2|unfold ttwu_do_wakeup; task_ops|]|].
  { apply (fo_dom _ _ L1). rewrite L3, K3. unfold y. cbn. rewrite enqueued_cpu. by eexists. }
  intros _ ? (n' & -> & H5 & Hsn' & Htn'). split; [|done|].
  - eapply fair_ok_turns; [|exact H5]. intros c. unfold turns. cbn. by rewrite L3, L4, K3, K4.
  - eapply (on_rq_update V _ t (EntView true (v_wt e)) (set_tstate TASK_RUNNING y)); cbn; try done; [by rewrite L4, K4|by rewrite L2, K2|].
    rewrite Htn', L5, Htn, K5. cbn. by rewrite !insert_insert_eq.
Qed.

(** a kernel in which, compared with [n0], only the task [t] changed, for now *)
Definition while_ n0 t x n : Prop := inv no_refs n /\ same_rest (upd_task t x n0) n.

Lemma while_start V t x : sys_ok (f_krn V) -> tasks (f_krn V) !! t = Some x -> while_ (f_krn V) t x (f_krn V).
Proof. intros Hs Hx. split; [apply Hs|]. by apply same_rest_id. Qed.
Lemma while_task n0 t x n : while_ n0 t x n -> tasks n = <[t := x]> (tasks n0).
Proof. intros [_ Hs]. apply (sr_tasks _ _ Hs). Qed.
Lemma while_lookup n0 t x n : while_ n0 t x n -> tasks n !! t = Some x.
Proof. intros H. rewrite (while_task _ _ _ _ H). apply lookup_insert_eq. Qed.
Lemma while_end n0 t x y n : sys_ok n0 -> tasks n0 !! t = Some x -> while_ n0 t y n -> (task_ok x -> task_ok y) -> sys_ok n.
Proof. intros Hs Hx [Hi Hr]. by eapply sys_upd. Qed.

Lemma while_step run V n0 t x y e (m : K unit) :
  fair_ok run V -> while_ n0 t x (f_krn V) -> f_ents V !! t = Some e -> task_op no_refs t m x tt y -> tcpu y = tcpu x -> is_Some (f_rqs V !! tcpu x) ->
  vwp V (on_base (lift_k m)) (fun _ V' => exists n, V' = set_f_krn n V /\ fair_ok run V' /\ while_ n0 t y n).
Proof.
  intros H Hw He Hop Hc Hk. pose proof (while_lookup _ _ _ _ Hw) as Hx. destruct Hw as [Hi Hr].
  destruct (Hop (f_krn V) Hi Hx) as (n & En & Hn & Hrn). eapply vwp_lift_k; [done|]. exists n. split; [done|]. split.
  - eapply (krn_ok run V t x y n e); try done; [apply (sr_tasks _ _ Hrn)|by left|by rewrite Hc].
  - split; [done|]. by eapply same_rest_upd.
Qed.

(** ** A new task *)

Lemma activated_ok fl x : task_ok x -> on_rq x = false -> Z.land fl ENQUEUE_NOCMGROUP = 0 -> task_ok (set_on_rq true (enqueued fl x)).
Proof.
  intros [H1 H2] Hq Hfl. unfold enqueued, counted. cbn. rewrite Hfl. cbn. case_bool_decide as Hg; cbn; [|by split].
  rewrite (H2 Hg), Hq. by split.
Qed.

Lemma new_ok V t p e x d :
  fair_sys V -> f_rts V !! t = Some p -> class p = fair_class -> idle_task V t e -> tasks (f_krn V) !! t = Some x ->
  is_Some (f_rqs V !! d) -> vwp V (wake_up_new_task_fair t d) (fun _ V' => fair_sys V').
Proof.
  intros HS Hp Hcl Hid Hx Hd. pose proof HS as [H Hs Hq]. pose proof Hid as (He & Hoff & Hno).
  destruct (fair_home _ _ _ _ H Hp) as (e' & x' & k & He' & Hx' & Hk). assert (x' = x) as -> by congruence. clear He' e'.
  assert (Hxq : on_rq x = false) by (rewrite <- (Hq t p e x); done).
  unfold wake_up_new_task_fair. eapply vwp_seq; [by eapply set_task_cpu_view|]. intros _ ? ->. set (V1 := moved t x d V). set (x1 := set_tcpu d x).
  assert (H1 : fair_ok (turns V) V1) by (by eapply moved_ok). assert (Hs1 : sys_ok (f_krn V1)) by by apply moved_sys.
  assert (Hx1 : tasks (f_krn V1) !! t = Some x1) by apply moved_has_task. destruct (proj1 (fo_dom _ _ H d) Hd) as [u Hu]. destruct Hd as [kd Hkd].
  vstep. intros s. apply vwp_mild; [eapply mild_on_entity; [exact Hkd|exact He|apply init_average_quiet]|]. intros _.
  assert (Hact : vwp V1 (activate_task_fair d t 0) (fun _ V' => exists V2 n, V' = set_f_krn n V2 /\ fair_ok (turns V) V' /\
    while_ (f_krn V1) t (enqueued 0 x1) n /\ upheld (turns V) (<[t := EntView true (v_wt e)]> (f_ents V1)) V1 V2)).
  { unfold activate_task_fair. apply vwp_mild; [apply update_rq_clock_mild; by eexists|]. intros _.
    eapply vwp_seq; [apply (enqueue_ok (turns V) V1 d t p e x1); done|]. intros ? V2 K. pose proof K as [K1 K2 K3 K4 K5].
    eapply vwp_cons; [eapply (while_step (turns V) V2 (f_krn V1) t x1 (enqueued 0 x1)); try done|].
    - rewrite K5. by apply while_start.
    - rewrite K2. apply lookup_insert_eq.
    - apply enqueue_task_op.
    - apply enqueued_cpu.
    - apply (fo_dom _ _ K1). rewrite K3. by eexists.
    - intros _ V3 (n & -> & H3 & Hw). by exists V2, n. }
  eapply vwp_seq; [exact Hact|]. intros _ ? (V2 & n & -> & H3 & Hw & [K1 K2 K3 K4 K5]). set (y := set_on_rq true (enqueued 0 x1)).
  assert (He2 : f_ents V2 !! t = Some (EntView true (v_wt e))) by (rewrite K2; apply lookup_insert_eq).
  eapply vwp_seq; [eapply (while_step (turns V) (set_f_krn n V2) (f_krn V1) t (enqueued 0 x1) y); try done|].
  { task_ops. }
  { apply (fo_dom _ _ K1). rewrite K3, enqueued_cpu. by eexists. }
  intros _ ? (n' & -> & H4 & Hw'). assert (Hsn : sys_ok n').
  { eapply (while_end _ t x1 y); try done. intros Hok. by apply activated_ok. }
  eapply vwp_cons; [eapply (check_preempt_task_ok (turns V) _ d u t p (EntView true (v_wt e))); cbn; try done; [by rewrite K3|by rewrite K4]|].
  intros _ V5 [L1 L2 L3 L4 L5]. cbn in L2, L3, L4, L5. split.
  - eapply fair_ok_turns; [|exact L1]. intros c. unfold turns. by rewrite L3, L4, K3, K4.
  - by rewrite L5.
  - eapply (on_rq_update V _ t (EntView true (v_wt e)) y); cbn; try done; [by rewrite L4, K4|by rewrite L2, K2|].
    rewrite L5, (while_task _ _ _ _ Hw'). cbn. by rewrite insert_insert_eq.
Qed.

(** ** Going to sleep *)

Lemma slept_cpu fatal x : tcpu (slept fatal x) = tcpu x.
Proof. unfold slept, dequeued. destruct (_ =? 0); [done|]. destruct (signal_pending_state _ _ _); [done|]. cbn. by destruct (_ && _). Qed.

Lemma sleep_ok V c u p x fatal :
  fair_sys V -> f_curr V !! c = Some u -> f_rts V !! u = Some p -> class p = fair_class -> tasks (f_krn V) !! u = Some x -> on_rq x = true ->
  vwp V (schedule_out_fair fatal c) (fun _ V' => fair_sys V').
Proof.
  intros HS Hu Hp Hcl Hx Hon. pose proof HS as [H Hs Hq]. destruct (fo_curr _ _ H c u Hu) as (p' & x' & _ & Hx' & Hc).
  assert (x' = x) as -> by congruence. destruct (fair_home _ _ _ _ H Hp) as (e & x' & k & He & _ & Hk). clear x' Hk k.
  assert (Hve : v_on e = true) by (rewrite (Hq u p e x); done).
  unfold schedule_out_fair. vstep. intros r Hr. rewrite Hr. vstep. set (b := negb _ && negb _).
  eapply (vwp_seq _ _ _ (fun _ V' => upheld (turns V) (if b then <[u := EntView false (v_wt e)]> (f_ents V) else f_ents V) V V')).
  { destruct b; cbn [when]; [|apply vwp_ret; by apply upheld_refl]. apply vwp_mild; [apply update_rq_clock_mild; by eexists|]. intros _.
    by eapply dequeue_ok. }
  intros _ V1 [K1 K2 K3 K4 K5]. set (f := if b then EntView false (v_wt e) else e).
  assert (Ef : f_ents V1 = <[u := f]> (f_ents V)) by (rewrite K2; unfold f; destruct b; [done|by rewrite insert_id]).
  eapply vwp_cons; [eapply (krn_step (turns V) V1 u x (slept fatal x) f); try done|].
  - by rewrite K5.
  - by rewrite K5.
  - rewrite Ef. apply lookup_insert_eq.
  - apply schedule_out_op.
  - intros Hok. by apply slept_ok.
  - apply slept_cpu.
  - apply (fo_dom _ _ K1). rewrite Hc, K3. by eexists.
  - intros _ ? (n & -> & H2 & Hsn & Htn). split; [|done|].
    + eapply fair_ok_turns; [|exact H2]. intros d. unfold turns. cbn. by rewrite K3, K4.
    + eapply (on_rq_update V _ u f (slept fatal x)); cbn; try done; [by rewrite Htn, K5|]. unfold f, b, slept.
      destruct (tstate x =? 0); cbn; [by rewrite Hve, Hon|]. destruct (signal_pending_state _ _ _); cbn; [by rewrite Hve, Hon|done].
Qed.

(** ** Switching *)

Definition foreign V c t : Prop :=
  exists p x, f_rts V !! t = Some p /\ class p <> fair_class /\ tasks (f_krn V) !! t = Some x /\ tcpu x = c.

Lemma turns_class V V' c : f_curr V' !! c = f_curr V !! c -> (forall u, class <$> f_rts V' !! u = class <$> f_rts V !! u) -> turns V' c = turns V c.
Proof.
  intros Ec Hr. unfold turns. rewrite Ec. destruct (f_curr V !! c) as [u|]; cbn; [|done]. specialize (Hr u).
  destruct (f_rts V !! u), (f_rts V' !! u); cbn in *; try done. injection Hr as Hr. by rewrite Hr.
Qed.

Lemma class_insert (m : gmap nat rt_task) t p p' u : m !! t = Some p -> class p' = class p -> class <$> <[t := p']> m !! u = class <$> m !! u.
Proof. intros Hp E. rewrite lookup_insert. case_decide; [|done]. subst u. rewrite Hp. cbn. by rewrite E. Qed.

(** the end of the switch: [t] becomes current; the expected run queues already know *)
Lemma become_ok V V1 c u t o :
  fair_sys V -> f_curr V !! c = Some u -> upheld (turn c o (turns V)) (f_ents V) V V1 ->
  ((o = Some t /\ fair_task V c t) \/ (o = None /\ foreign V c t)) ->
  vwp V1 (on_base (p ← get_rt u;
    put_rt u (set_need_resched false p) ;;
    r ← cpu_rq c;
    put_rq c (set_skip_clock_update 0 r) ;;
    if decide (u = t) then mret tt
    else
      r ← cpu_rq c;
      put_rq c (set_curr t r) ;;
      n ← get_rt t;
      put_rt t (set_on_cpu true n) ;;
      p ← get_rt u;
      put_rt u (set_on_cpu false p))) (fun _ V' => fair_sys V').
Proof.
  intros HS Hu [K1 K2 K3 K4 K5] Ho. pose proof HS as [H Hs Hq]. destruct (fo_curr _ _ H c u Hu) as (p & x & Hp & Hx & Hc).
  assert (Ht : exists q z, f_rts V !! t = Some q /\ tasks (f_krn V) !! t = Some z /\ tcpu z = c /\ o = if decide (class q = fair_class) then Some t else None).
  { destruct Ho as [[-> (q & z & Hq' & Hcl & Hz & Hcz)]|[-> (q & z & Hq' & Hcl & Hz & Hcz)]]; exists q, z; [by rewrite decide_True|by rewrite decide_False]. }
  destruct Ht as (q & z & Ht & Hz & Hcz & Eo).
  assert (Hend : forall V', f_curr V' = <[c := t]> (f_curr V) -> (forall v, class <$> f_rts V' !! v = class <$> f_rts V !! v) ->
    f_krn V' = f_krn V -> f_ents V' = f_ents V -> fair_ok (turn c o (turns V)) V' -> fair_sys V').
  { intros V' E1 E2 E3 E4 H'. split; [|by rewrite E3|].
    - eapply fair_ok_turns; [|exact H']. intros d. unfold turn. destruct (decide (d = c)) as [->|Ed].
      + rewrite Eo. unfold turns. rewrite E1, lookup_insert_eq. cbn. specialize (E2 t). rewrite Ht in E2. destruct (f_rts V' !! t) as [q'|]; [|done].
        cbn in *. injection E2 as E2. by rewrite E2.
      + apply turns_class; [|done]. by rewrite E1, lookup_insert_ne.
    - intros v pv ev xv Hpv. rewrite E3, E4. specialize (E2 v). rewrite Hpv in E2. destruct (f_rts V !! v) as [pv'|] eqn:Ev; [|done].
      injection E2 as E2. rewrite E2. by apply Hq. }
  rewrite <- K4 in Hp, Ht. rewrite <- K3 in Hu. vstep. intros a Ha. apply vwp_base_bind. eapply vwp_put_rt_same; [exact Hp|exact Ha|].
  vstep. intros r Hr. apply vwp_base_bind. eapply vwp_put_rq_same; [exact Hu|exact Hr|]. destruct (decide (u = t)) as [<-|Hne].
  - apply vwp_base_ret. apply Hend; try done; [by rewrite <- K3, insert_id|by rewrite K4].
  - vstep. intros r' Hr'. apply vwp_base_bind, vwp_put_rq. cbn. set (V2 := set_f_curr _ V1).
    assert (H2 : fair_ok (turn c o (turns V)) V2) by (apply (curr_ok _ V1 c u t q z); congruence).
    vstep. intros a' Ha'. apply vwp_base_bind, vwp_put_rt. set (V3 := set_f_rts _ V2).
    assert (H3 : fair_ok (turn c o (turns V)) V3) by (apply (rts_ok _ V2 t q); [done|done|by rewrite <- Ha']).
    apply vwp_base_bind. eapply (vwp_get_rt V3 u p); [cbn; by rewrite lookup_insert_ne by done|]. intros a2 Ha2. apply vwp_put_rt.
    apply Hend; try done.
    + cbn. by rewrite K3.
    + intros v. cbn. rewrite (class_insert _ u p); [|by rewrite lookup_insert_ne by done|by rewrite <- Ha2].
      rewrite (class_insert _ t q); [by rewrite K4|done|by rewrite <- Ha'].
    + apply (rts_ok _ V3 u p); [done|cbn; by rewrite lookup_insert_ne by done|by rewrite <- Ha2].
Qed.

Lemma switch_ok V c u hi lo :
  fair_sys V -> f_curr V !! c = Some u -> (forall t, hi = Some t -> foreign V c t) -> foreign V c lo ->
  vwp V (switch_fair hi lo c) (fun _ V' => fair_sys V').
Proof.
  intros HS Hu Hhi Hlo. pose proof HS as [H Hs Hq]. destruct (fo_curr _ _ H c u Hu) as (p & x & Hp & Hx & Hc).
  unfold switch_fair. vstep. intros r Hr. rewrite Hr. cbv zeta. vstep. intros a Ha. vstep.
  apply vwp_mild; [apply mild_when; intros _; apply update_rq_clock_mild; by eexists|]. intros _.
  assert (Hcl : class a = class p) by by rewrite <- Ha.
  eapply (vwp_seq _ _ _ (fun _ V' => upheld (turn c None (turns V)) (f_ents V) V V')).
  { rewrite Hcl. apply vwp_when.
    - intros Ef%bool_decide_eq_true. eapply put_prev_ok; try done. by eapply sys_curr.
    - intros Ef%bool_decide_eq_false. split; [|done..]. eapply fair_ok_turns; [|exact H]. intros d. unfold turn. case_decide; [|done].
      subst d. unfold turns. rewrite Hu. cbn. rewrite Hp. cbn. by rewrite decide_False. }
  intros ? V1 K. pose proof K as [K1 K2 K3 K4 K5].
  eapply (vwp_seq _ _ _ (fun t V' => exists o, upheld (turn c o (turns V)) (f_ents V) V V' /\
    ((o = Some t /\ fair_task V c t) \/ (o = None /\ foreign V c t)))).
  - destruct hi as [t|]; [apply vwp_ret; exists None; split; [done|right; by auto]|].
    eapply vwp_seq; [apply (pick_ok (turn c None (turns V)) V1 c u K1); [apply turn_eq|by rewrite K3]|].
    intros o V2 [[L1 L2 L3 L4 L5] Hf]. apply vwp_ret. exists o. split.
    + split; try congruence. eapply fair_ok_turns; [|exact L1]. intros d. unfold turn. by case_decide.
    + destruct o as [t|]; cbn; [left|by right]. split; [done|]. destruct (Hf t eq_refl) as (q & z & Hq' & Hcl' & Hz & Hcz).
      exists q, z. rewrite <- K4, <- K5. done.
  - intros t V2 (o & K' & Ho). by eapply become_ok.
Qed.

(** ** Off the queue and back, unseen by the groups *)

Lemma deactivate_ok run V c t p e x :
  fair_ok run V -> f_rts V !! t = Some p -> f_ents V !! t = Some e -> v_on e = true -> tasks (f_krn V) !! t = Some x -> tcpu x = c ->
  vwp V (deactivate_task_fair c t DEQUEUE_NOCMGROUP) (fun _ V' => fair_ok run V' /\ f_ents V' = <[t := EntView false (v_wt e)]> (f_ents V) /\
    f_curr V' = f_curr V /\ f_rts V' = f_rts V /\ f_krn V' = upd_task t (set_se_queued false x) (f_krn V)).
Proof.
  intros H Hp He Hon Hx Hc. destruct (fo_task _ _ H t p Hp) as (_ & x' & _ & _ & Hx' & Hk). assert (x' = x) as -> by congruence.
  rewrite Hc in Hk. unfold deactivate_task_fair. apply vwp_mild; [apply update_rq_clock_mild; by apply (fo_dom _ _ H)|]. intros _.
  eapply vwp_seq; [by eapply dequeue_ok|]. intros _ V1 [K1 K2 K3 K4 K5].
  eapply vwp_lift_k; [by apply (hidden_dequeue t _ x); rewrite K5|]. cbn. rewrite K5. split_and!; try done.
  eapply (krn_ok run V1 t x (set_se_queued false x) _ (EntView false (v_wt e))); try done.
  - by rewrite K5.
  - cbn. by rewrite K5.
  - rewrite K2. apply lookup_insert_eq.
  - by left.
  - cbn. rewrite Hc. apply (fo_dom _ _ K1). rewrite K3. by apply (fo_dom _ _ H).
Qed.

Lemma activate_ok run V c t p e x :
  fair_ok run V -> f_rts V !! t = Some p -> class p = fair_class -> f_ents V !! t = Some e -> v_on e = false ->
  tasks (f_krn V) !! t = Some x -> tcpu x = c ->
  vwp V (activate_task_fair c t ENQUEUE_NOCMGROUP) (fun _ V' => fair_ok run V' /\ f_ents V' = <[t := EntView true (v_wt e)]> (f_ents V) /\
    f_curr V' = f_curr V /\ f_rts V' = f_rts V /\ f_krn V' = upd_task t (set_se_queued true x) (f_krn V)).
Proof.
  intros H Hp Hcl He Hon Hx Hc. destruct (fo_task _ _ H t p Hp) as (_ & x' & _ & _ & Hx' & Hk). assert (x' = x) as -> by congruence.
  rewrite Hc in Hk. unfold activate_task_fair. apply vwp_mild; [apply update_rq_clock_mild; by apply (fo_dom _ _ H)|]. intros _.
  eapply vwp_seq; [by eapply enqueue_ok|]. intros _ V1 [K1 K2 K3 K4 K5].
  eapply vwp_lift_k; [by apply (hidden_enqueue t 0 _ x); rewrite K5|]. cbn. rewrite K5. split_and!; try done.
  eapply (krn_ok run V1 t x (set_se_queued true x) _ (EntView true (v_wt e))); try done.
  - by rewrite K5.
  - cbn. by rewrite K5.
  - rewrite K2. apply lookup_insert_eq.
  - by left.
  - cbn. rewrite Hc. apply (fo_dom _ _ K1). rewrite K3. by apply (fo_dom _ _ H).
Qed.

Lemma sys_se_queued n t x : sys_ok n -> tasks n !! t = Some x -> se_queued x = on_rq x.
Proof. intros [[_ [Hok _]] _] Hx. by destruct (Hok t x Hx). Qed.

Lemma upd_task_twice t y1 y2 n : upd_task t y1 (upd_task t y2 n) = upd_task t y1 n.
Proof. unfold upd_task, set_tasks. cbn. by rewrite insert_insert_eq. Qed.

Lemma move_ok V t p x d :
  fair_sys V -> f_rts V !! t = Some p -> class p = fair_class -> tasks (f_krn V) !! t = Some x -> on_rq x = true ->
  (forall c, f_curr V !! c <> Some t) -> is_Some (f_rqs V !! d) ->
  vwp V (move_task_fair (tcpu x) t d) (fun _ V' => fair_sys V').
Proof.
  intros HS Hp Hcl Hx Hon Hno Hd. pose proof HS as [H Hs Hq]. destruct (fair_home _ _ _ _ H Hp) as (e & x' & k & He & Hx' & Hk).
  assert (x' = x) as -> by congruence. assert (Hve : v_on e = true) by (rewrite (Hq t p e x); done). destruct (proj1 (fo_dom _ _ H d) Hd) as [u Hu].
  unfold move_task_fair. eapply vwp_seq; [by eapply deactivate_ok|]. intros _ V1 (H1 & E1 & C1 & R1 & N1). set (x1 := set_se_queued false x) in *.
  assert (Hx1 : tasks (f_krn V1) !! t = Some x1) by (rewrite N1; apply lookup_insert_eq).
  assert (He1 : f_ents V1 !! t = Some (EntView false (v_wt e))) by (rewrite E1; apply lookup_insert_eq).
  destruct (proj2 (fo_dom _ _ H1 (tcpu x))) as [k1 Hk1]; [rewrite C1; apply (fo_dom _ _ H); by eexists|].
  eapply vwp_seq; [by eapply (set_task_cpu_view V1 t _ x1 k1 d)|]. intros _ ? ->. set (V2 := moved t x1 d V1). set (x2 := set_tcpu d x1).
  assert (T1 : forall c, turns V1 c = turns V c) by (intros c; unfold turns; by rewrite C1, R1).
  assert (Hd1 : is_Some (f_rqs V1 !! d)) by (apply (fo_dom _ _ H1); rewrite C1; by eexists).
  assert (H2 : fair_ok (turns V) V2).
  { apply (fair_ok_turns (turns V1)); [done|]. eapply moved_ok; [by apply (fair_ok_turns (turns V))|split_and!; [done|done|by rewrite C1]|done|done]. }
  eapply vwp_seq; [eapply (activate_ok (turns V) V2 d t p _ x2); try done; [by cbn; rewrite R1|apply moved_has_task]|].
  intros _ V3 (H3 & E3 & C3 & R3 & N3). cbn in E3, C3, R3.
  assert (Ek : f_krn V3 = upd_task t (set_tcpu d x) (f_krn V)).
  { rewrite N3. cbn. rewrite N1, !upd_task_twice. f_equal. pose proof (sys_se_queued _ t x Hs Hx) as Hse. rewrite Hon in Hse. unfold x2, x1.
    destruct x; cbn in *. unfold set_tcpu, set_se_queued; cbn. congruence. }
  eapply vwp_cons; [eapply (check_preempt_task_ok (turns V) V3 d u t p (EntView true (v_wt e))); try done;
    [by rewrite C3, C1|by rewrite R3, R1|rewrite E3; apply lookup_insert_eq]|].
  intros _ V4 [L1 L2 L3 L4 L5]. split.
  - eapply fair_ok_turns; [|exact L1]. intros c. unfold turns. by rewrite L3, L4, C3, C1, R3, R1.
  - rewrite L5, Ek. by eapply upd_task_ok.
  - eapply (on_rq_update V _ t (EntView true (v_wt e)) (set_tcpu d x)); try done; [by rewrite L4, R3, R1| |by rewrite L5, Ek].
    rewrite L2, E3, E1. apply insert_insert_eq.
Qed.

(** ** Changing the weight *)

Lemma load_weight_bound pol nice : -20 <= nice <= 19 -> exists l, set_load_weight pol (NICE_TO_PRIO nice) = Some l /\ 0 <= weight l <= MAX_WEIGHT.
Proof.
  intros Hn. unfold set_load_weight, NICE_TO_PRIO, MAX_RT_PRIO. destruct (pol =? SCHED_IDLE); [by eexists|]. cbv zeta.
  rewrite (proj2 (Z.ltb_ge _ _)) by lia. replace (100 + nice + 20 - 100) with (nice + 20) by lia.
  destruct (lookup_lt_is_Some_2 prio_to_weight (Z.to_nat (nice + 20))) as [a Ha]; [change (length prio_to_weight) with 40%nat; lia|].
  destruct (lookup_lt_is_Some_2 prio_to_wmult (Z.to_nat (nice + 20))) as [b Hb]; [change (length prio_to_wmult) with 40%nat; lia|].
  rewrite Ha. cbn [mbind option_bind]. rewrite Hb. cbn [mbind option_bind]. eexists. split; [done|]. cbn.
  assert (HF : Forall (fun z => 0 <= z <= MAX_WEIGHT) prio_to_weight) by (apply (bool_decide_unpack _); by vm_compute).
  by eapply Forall_lookup_1 in HF.
Qed.

(** [t] has the weight [z], the priority [new] and is off the queue *)
Record reweighted V t p (z new : Z) n V' : Prop := {
  rw_ok : fair_ok (turns V) V';
  rw_ents : f_ents V' = <[t := EntView false z]> (f_ents V);
  rw_curr : f_curr V' = f_curr V;
  rw_rts : f_rts V' = <[t := set_prio new p]> (f_rts V);
  rw_krn : f_krn V' = n
}.

(** the part of set_user_nice() between dequeue_task() and enqueue_task() *)
Lemma reweight_ok V V1 t p w z (l : load_weight) s a new (m : F unit) Q :
  f_rts V !! t = Some p -> fair_ok (turns V) V1 -> f_rts V1 = f_rts V -> f_curr V1 = f_curr V -> f_ents V1 = <[t := EntView false w]> (f_ents V) ->
  0 <= weight l <= MAX_WEIGHT -> see_se s = EntView false w -> task_abs a = p ->
  (forall V', reweighted V t p (weight l) new (f_krn V1) V' -> vwp V' m Q) ->
  vwp V1 (put_se t (set_se_load l (set_static_prio z s)) ;; on_base (put_rt t (set_prio new a)) ;; m) Q.
Proof.
  intros Hp H1 R1 C1 E1 Hl Es Ea HQ. apply vwp_bind, vwp_put_se.
  replace (see_se _) with (EntView false (weight l)) by (unfold see_se in *; injection Es as Es _; cbn; by rewrite Es).
  apply vwp_bind, vwp_put_rt. apply HQ. replace (task_abs (set_prio new a)) with (set_prio new p) by (rewrite <- Ea; done).
  split; try done; cbn; [|by rewrite E1, insert_insert_eq|by rewrite R1].
  apply (rts_ok _ (with_e t (EntView false (weight l)) V1) t p); [|by cbn; rewrite R1|done].
  eapply weight_ok; [done|rewrite E1; apply lookup_insert_eq|done|done].
Qed.

Lemma upd_task_same t x n : tasks n !! t = Some x -> upd_task t x n = n.
Proof. intros Hx. unfold upd_task, set_tasks. rewrite insert_id by done. by destruct n. Qed.

Lemma requeued_id x : se_queued x = true -> set_se_queued true (set_se_queued false x) = x.
Proof. intros E. destruct x; cbn in *. unfold set_se_queued; cbn. congruence. Qed.

(** only the weight of [t] and its priority change *)
Lemma nice_sys V V' t p e z new :
  fair_sys V -> f_rts V !! t = Some p -> f_ents V !! t = Some e -> fair_ok (turns V) V' -> f_ents V' = <[t := EntView (v_on e) z]> (f_ents V) ->
  f_curr V' = f_curr V -> f_rts V' = <[t := set_prio new p]> (f_rts V) -> f_krn V' = f_krn V -> fair_sys V'.
Proof.
  intros [H Hs Hq] Hp He H' E1 E2 E3 E4. split; [|by rewrite E4|].
  - eapply fair_ok_turns; [|exact H']. intros c. apply turns_class; [by rewrite E2|]. intros u. rewrite E3. by apply (class_insert _ t p).
  - intros u q f y. rewrite E1, E3, E4, !lookup_insert. case_decide as Eu; [|by apply Hq]. subst u. intros [= <-] Hcl [= <-] Hy. exact (Hq t p e y Hp Hcl He Hy).
Qed.

(** the end of set_user_nice() *)
Lemma renice_ok V V2 t p e x u pu z new (g : rt_task -> bool) :
  fair_sys V -> f_rts V !! t = Some p -> class p = fair_class -> f_ents V !! t = Some e -> tasks (f_krn V) !! t = Some x ->
  f_curr V !! tcpu x = Some u -> f_rts V !! u = Some pu ->
  reweighted V t p z new (if on_rq x then upd_task t (set_se_queued false x) (f_krn V) else f_krn V) V2 ->
  vwp V2 (when (on_rq x) (activate_task_fair (tcpu x) t ENQUEUE_NOCMGROUP ;;
      r ← on_base (cpu_rq (tcpu x));
      b ← on_base (get_rt t);
      when (g b) (on_base (resched_task (RtRq.curr r))))) (fun _ V' => fair_sys V').
Proof.
  intros HS Hp Hcl He Hx Hu Hpu [H2 E2 C2 R2 N2]. pose proof HS as [H Hs Hq]. pose proof (Hq t p e x Hp Hcl He Hx) as Hve.
  destruct (on_rq x) eqn:Eq; cbn [when].
  - eapply vwp_seq; [eapply (activate_ok (turns V) V2 (tcpu x) t (set_prio new p) (EntView false z) (set_se_queued false x)); try done|].
    + rewrite R2. apply lookup_insert_eq.
    + rewrite E2. apply lookup_insert_eq.
    + rewrite N2. apply lookup_insert_eq.
    + intros _ V3 (H3 & E3 & C3 & R3 & N3). eapply (vwp_cons _ _ (fun _ V' => V' = V3)).
      * apply vwp_bind. eapply (vwp_cpu_rq V3 _ u); [by rewrite C3, C2|]. intros r Hr. apply vwp_bind.
        eapply (vwp_get_rt V3 t (set_prio new p)); [rewrite R3, R2; apply lookup_insert_eq|]. intros b _. apply mild_when. intros _.
        apply resched_task_mild. rewrite Hr, R3, R2, lookup_insert. case_decide; by eexists.
      * intros _ ? ->. eapply (nice_sys V V3 t p e z new); try done.
        -- rewrite E3, E2, insert_insert_eq. cbn. by rewrite Hve.
        -- by rewrite C3, C2.
        -- by rewrite R3, R2.
        -- rewrite N3, N2, upd_task_twice, requeued_id by (rewrite (sys_se_queued _ t x Hs Hx); done). by apply upd_task_same.
  - apply vwp_ret. eapply (nice_sys V V2 t p e z new); try done. by rewrite E2, Hve.
Qed.

Lemma nice_ok V t p x nice :
  fair_sys V -> f_rts V !! t = Some p -> class p = fair_class -> tasks (f_krn V) !! t = Some x ->
  vwp V (set_user_nice t nice) (fun _ V' => fair_sys V').
Proof.
  intros HS Hp Hcl Hx. pose proof HS as [H Hs Hq]. destruct (fair_home _ _ _ _ H Hp) as (e & x' & k & He & Hx' & Hk).
  assert (x' = x) as -> by congruence. pose proof (Hq t p e x Hp Hcl He Hx) as Hve. destruct (proj1 (fo_dom _ _ H (tcpu x))) as [u Hu]; [by eexists|].
  destruct (fo_curr _ _ H _ u Hu) as (pu & _ & Hpu & _). unfold set_user_nice. vstep. intros s0 _. destruct (_ || _) eqn:En; [by apply vwp_ret|].
  apply orb_false_iff in En as [[_ En1%Z.ltb_ge]%orb_false_iff En2%Z.ltb_ge]. vstep. vstep.
  eapply (vwp_seq _ _ _ (fun _ V1 => fair_ok (turns V) V1 /\ f_ents V1 = <[t := EntView false (v_wt e)]> (f_ents V) /\ f_curr V1 = f_curr V /\
    f_rts V1 = f_rts V /\ f_krn V1 = if on_rq x then upd_task t (set_se_queued false x) (f_krn V) else f_krn V)).
  { destruct (on_rq x); cbn [when]; [by eapply deactivate_ok|]. apply vwp_ret. split_and!; try done. rewrite insert_id; [done|]. rewrite He. f_equal. destruct e; cbn in *; congruence. }
  intros _ V1 (H1 & E1 & C1 & R1 & N1). assert (He1 : f_ents V1 !! t = Some (EntView false (v_wt e))) by (rewrite E1; apply lookup_insert_eq).
  vstep. intros s Hs'. apply vwp_bind. eapply (vwp_get_rt V1 t p); [by rewrite R1|]. intros a Ha.
  destruct (load_weight_bound (policy a) nice) as (l & El & Hl); [lia|]. apply vwp_bind. eapply vwp_deref; [exact El|]. cbv zeta.
  eapply (reweight_ok V V1 t p (v_wt e)); try done. intros V2 H2. rewrite N1 in H2.
  set (new := if rt_prio _ then _ else _) in *.
  exact (renice_ok V V2 t p e x u pu (weight l) new (fun b => (new <? prio a) || (prio a <? new) && on_cpu b) HS Hp Hcl He Hx Hu Hpu H2).
Qed.

(** ** A new child *)

Lemma moved_fair_sys V t e x d : fair_sys V -> idle_task V t e -> tasks (f_krn V) !! t = Some x -> is_Some (f_rqs V !! d) -> fair_sys (moved t x d V).
Proof.
  intros HS Hid Hx Hd. pose proof HS as [H Hs Hq]. split; [exact (moved_ok V t e x d H Hid Hx Hd)|by apply moved_sys|].
  intros u p f y Hp Hcl Hf. cbn. rewrite lookup_insert. case_decide as E; [|by apply (Hq u p)]. intros [= <-]. subst u. by apply (Hq t p f x).
Qed.

(** what task_fork_fair() does with the virtual times of the parent [u] and the child *)
Lemma swap_mild V c u v t f e pv (b : sched_entity -> sched_entity -> bool) :
  f_ents V !! u = Some f -> f_ents V !! t = Some e -> f_curr V !! c = Some v -> f_rts V !! v = Some pv ->
  mild V (g ← get_se u;
          h ← get_se t;
          when (b g h)
            (put_se u (set_vruntime (vruntime h) g) ;;
             put_se t (set_vruntime (vruntime g) h) ;;
             r ← on_base (cpu_rq c);
             on_base (resched_task (RtRq.curr r)))).
Proof.
  intros Hf He Hv Hpv. vstep. intros g Hg. vstep. intros h Hh. apply mild_when. intros _. apply vwp_bind. eapply vwp_put_se_same; [done|exact Hg|].
  apply vwp_bind. eapply vwp_put_se_same; [done|exact Hh|]. vstep. intros r Hr. apply resched_task_mild. rewrite Hr. by eexists.
Qed.

Lemma fork_sys_ok V c t p e x :
  fair_sys V -> f_rts V !! t = Some p -> idle_task V t e -> tasks (f_krn V) !! t = Some x -> is_Some (f_rqs V !! c) ->
  vwp V (task_fork_fair c t) (fun _ V' => fair_sys V').
Proof.
  intros HS Hp Hid Hx [k Hk]. pose proof HS as [H Hs Hq]. pose proof Hid as (He & Hoff & Hno).
  destruct (proj1 (fo_dom _ _ H c)) as [v Hv]; [by eexists|]. destruct (fo_curr _ _ H c v Hv) as (pv & _ & Hpv & _).
  unfold task_fork_fair. apply vwp_mild; [apply update_rq_clock_mild; by eexists|]. intros _. vstep. intros q Eq. cbv zeta.
  apply vwp_bind. eapply vwp_lift_k; [unfold set_task_cpu; by mrun (get_task_eq t _ x Hx)|]. fold (moved t x c V). set (V1 := moved t x c V).
  assert (HS1 : fair_sys V1) by (by eapply moved_fair_sys). pose proof (fs_ok _ HS1) as H1.
  assert (Hcu : forall u, cfs_curr q = Some u -> exists f, f_ents V1 !! u = Some f).
  { intros u Hu. rewrite (f_equal v_run Eq : cfs_curr q = _) in Hu. destruct (ac_run _ _ _ (fair_at _ _ _ _ H Hk) u Hu) as [[f Hf] _]. by exists f. }
  apply vwp_mild; [eapply update_curr_mild, (fair_at _ _ _ k H1 Hk)|]. intros _. apply vwp_mild.
  { destruct (cfs_curr q) as [u|]; [|by apply vwp_ret]. destruct (Hcu u eq_refl) as [f Hf]. vstep. intros g _.
    apply vwp_bind. eapply (vwp_get_se V1 t e); [exact He|]. intros h Hh. eapply vwp_put_se_same; [exact He|exact Hh|done]. }
  intros _. vstep. intros s. apply vwp_mild; [eapply (mild_on_entity V1 c t k e); [exact Hk|exact He|apply place_quiet]|]. intros _.
  apply vwp_mild.
  { destruct (cfs_curr q) as [u|]; [|by apply vwp_ret]. destruct (Hcu u eq_refl) as [f Hf].
    exact (swap_mild V1 c u v t f e pv (fun g h => negb (sysctl_sched_child_runs_first s =? 0) && entity_before g h) Hf He Hv Hpv). }
  intros _. apply mild_cons; [|done]. exact (set_vruntime_mild V1 c t k e (fun a b => u64 (a - b)) Hk He).
Qed.

Lemma state_ok V c u z : fair_sys V -> f_curr V !! c = Some u ->
  vwp V (on_base (lift_k (x ← get_task u; put_task u (set_tstate z x)))) (fun _ V' => fair_sys V').
Proof.
  intros HS Hu. pose proof HS as [H Hs Hq]. destruct (fo_curr _ _ H c u Hu) as (p & x & Hp & Hx & Hc). destruct (fo_task _ _ H u p Hp) as (e & _ & He & _).
  eapply vwp_cons; [eapply (krn_step (turns V) V u x (set_tstate z x)); try done; [task_ops|]|].
  - rewrite Hc. apply (fo_dom _ _ H). by eexists.
  - intros _ ? (n & -> & H1 & Hn & Ht). split; [done|done|]. intros w q f y Hw Hcl Hf. cbn. rewrite Ht, lookup_insert. case_decide as E; [|by apply (Hq w q)].
    intros [= <-]. subst w. by apply (Hq u q f x).
Qed.

(** ** The rest of the events *)

Lemma set_state_sys V c u z : fair_sys V -> f_curr V !! c = Some u ->
  vwp V (r ← on_base (cpu_rq c); on_base (lift_k (x ← get_task (RtRq.curr r); put_task (RtRq.curr r) (set_tstate z x)))) (fun _ V' => fair_sys V').
Proof. intros HS Hu. vstep. intros r Er. rewrite Er. by eapply state_ok. Qed.

Lemma tick_sys V c u : fair_sys V -> f_curr V !! c = Some u ->
  vwp V (scheduler_tick_fair c) (fun _ V' => fair_sys V').
Proof.
  intros HS Hu. destruct (fo_curr _ _ (fs_ok _ HS) c u Hu) as (p & x & Hp & Hx & Hc). unfold scheduler_tick_fair.
  apply vwp_mild; [apply update_rq_clock_mild; by eexists|]. intros _. vstep. intros r Er. rewrite Er.
  eapply vwp_cons; [eapply task_tick_ok; try done; apply HS|]. intros ? V' K. by eapply upheld_sys.
Qed.

Lemma yield_sys V c u p x : fair_sys V -> f_curr V !! c = Some u -> f_rts V !! u = Some p -> class p = fair_class ->
  tasks (f_krn V) !! u = Some x -> on_rq x = true -> vwp V (yield_task_fair c) (fun _ V' => fair_sys V').
Proof.
  intros HS Hu Hp Hcl Hx Hon. destruct (fo_task _ _ (fs_ok _ HS) u p Hp) as (e & _ & He & _).
  eapply vwp_cons; [apply (yield_ok (turns V) V c u p e (fs_ok _ HS) Hu Hp He); rewrite <- Hon; by apply (fs_on _ HS u p)|].
  intros ? V' K. by eapply upheld_sys.
Qed.

Lemma yield_to_sys V c u t p x (preempt : bool) : fair_sys V -> f_curr V !! c = Some u -> f_rts V !! t = Some p ->
  tasks (f_krn V) !! u = Some x -> on_rq x = true -> vwp V (yield_to c t preempt ;; mret tt) (fun _ V' => fair_sys V').
Proof.
  intros HS Hu Hp Hx Hon. eapply vwp_seq; [eapply (yield_to_ok V c u t p); try done; intros y Hy; congruence|].
  intros ? V' K. apply vwp_ret. by eapply upheld_sys.
Qed.

Lemma move_sys V t p x d : fair_sys V -> f_rts V !! t = Some p -> class p = fair_class -> tasks (f_krn V) !! t = Some x -> on_rq x = true ->
  (forall c, f_curr V !! c <> Some t) -> is_Some (f_rqs V !! d) -> vwp V (c ← cpu_of t; move_task_fair c t d) (fun _ V' => fair_sys V').
Proof. intros HS Hp Hcl Hx Hon Hno Hd. vstep. by eapply move_ok. Qed.
End System.

(** ** Events *)

Inductive fair_op :=
| FWake (me t c : nat)                       (** try_to_wake_up(): [me] wakes [t], on [c] *)
| FNew (t c : nat)                           (** wake_up_new_task() *)
| FFork (c t : nat)                          (** sched_fork(): [t] is a child of the task that runs on [c] *)
| FState (c : nat) (z : Z)                   (** set_current_state() *)
| FSleep (fatal : bool) (c : nat)            (** __schedule(): the running task sleeps *)
| FSwitch (hi : option nat) (lo c : nat)     (** __schedule(): the next task *)
| FTick (c : nat)                            (** scheduler_tick() *)
| FYield (c : nat)                           (** sys_sched_yield() *)
| FYieldTo (c t : nat) (preempt : bool)      (** yield_to() *)
| FMove (t d : nat)                          (** move_task() of the load balancer *)
| FNice (t : nat) (nice : Z)                 (** set_user_nice() *)
| FClock (ns ticks : Z)                      (** time passes *).

Section Events.
Context {RL : RtLib} {FL : FairLib} {RB : RbLib}.
Variable HZ : Z.
Implicit Types (w : fw) (o : fair_op).

Definition fair_exec o : F unit :=
  match o with
  | FWake me t c => try_to_wake_up_fair HZ me t c
  | FNew t c => wake_up_new_task_fair t c
  | FFork c t => task_fork_fair c t
  | FState c z => r ← on_base (cpu_rq c); on_base (lift_k (x ← get_task (RtRq.curr r); put_task (RtRq.curr r) (set_tstate z x)))
  | FSleep fatal c => schedule_out_fair fatal c
  | FSwitch hi lo c => switch_fair hi lo c
  | FTick c => scheduler_tick_fair c
  | FYield c => yield_task_fair c
  | FYieldTo c t preempt => yield_to c t preempt ;; mret tt
  | FMove t d => c ← cpu_of t; move_task_fair c t d
  | FNice t nice => set_user_nice t nice
  | FClock n j => modify (fun w => set_fbase (set_jiffies j (RtRq.set_now n (fbase w))) w)
  end.

(** a task of the class, and whether it is runnable *)
Definition member w t (b : bool) : Prop :=
  exists p x, rts (fbase w) !! t = Some p /\ class p = fair_class /\ tasks (krn (fbase w)) !! t = Some x /\ on_rq x = b.
Definition running w t : Prop := exists c r, rqs (fbase w) !! c = Some r /\ RtRq.curr r = t.
Definition alien w c t : Prop :=
  exists p x, rts (fbase w) !! t = Some p /\ class p <> fair_class /\ tasks (krn (fbase w)) !! t = Some x /\ tcpu x = c.

Definition fair_valid w o : Prop :=
  match o with
  | FWake me t c => member w t false /\ ~ running w t /\ is_Some (rqs (fbase w) !! c) /\ is_Some (rts (fbase w) !! me)
  | FNew t c | FFork c t => member w t false /\ ~ running w t /\ is_Some (rqs (fbase w) !! c)
  | FState c _ => is_Some (rqs (fbase w) !! c)
  | FSleep _ c | FTick c | FYield c => exists r, rqs (fbase w) !! c = Some r /\ member w (RtRq.curr r) true
  | FSwitch hi lo c => is_Some (rqs (fbase w) !! c) /\ (forall t, hi = Some t -> alien w c t) /\ alien w c lo
  | FYieldTo c t _ => is_Some (rts (fbase w) !! t) /\
      exists r x, rqs (fbase w) !! c = Some r /\ tasks (krn (fbase w)) !! RtRq.curr r = Some x /\ on_rq x = true
  | FMove t d => member w t true /\ ~ running w t /\ is_Some (rqs (fbase w) !! d)
  | FNice t _ => exists b, member w t b
  | FClock _ _ => True
  end.

Lemma member_view w t b : member w t b -> exists p x, f_rts (see w) !! t = Some p /\ class p = fair_class /\
  tasks (f_krn (see w)) !! t = Some x /\ on_rq x = b.
Proof. intros (p & x & Hp & Hc & Hx & Hb). exists (task_abs p), x. cbn. by rewrite lookup_fmap, Hp. Qed.

Lemma curr_view w c r : rqs (fbase w) !! c = Some r -> f_curr (see w) !! c = Some (RtRq.curr r).
Proof. intros Hr. cbn. by rewrite lookup_fmap, Hr. Qed.

Lemma running_view w t c : ~ running w t -> f_curr (see w) !! c <> Some t.
Proof. intros Hn Hc. apply see_lookup in Hc as (r & Hr & Et). apply Hn. by exists c, r. Qed.

Lemma cpu_view w c : fair_sys (see w) -> is_Some (rqs (fbase w) !! c) -> is_Some (f_rqs (see w) !! c).
Proof. intros HS [r Hr]. apply (fo_dom _ _ (fs_ok _ HS)). exists (RtRq.curr r). by apply curr_view. Qed.

Lemma idle_view w t : fair_sys (see w) -> member w t false -> ~ running w t ->
  exists p x e, f_rts (see w) !! t = Some p /\ class p = fair_class /\ tasks (f_krn (see w)) !! t = Some x /\ idle_task (see w) t e.
Proof.
  intros HS (p & x & Hp & Hc & Hx & Hb)%member_view Hn. destruct (fair_home _ _ _ _ (fs_ok _ HS) Hp) as (e & _ & _ & He & _).
  exists p, x, e. split_and!; try done. split; [done|]. split; [rewrite <- Hb; by apply (fs_on _ HS t p)|]. intros c. by apply running_view.
Qed.

Lemma alien_view w c t : alien w c t -> foreign (see w) c t.
Proof. intros (p & x & Hp & Hcl & Hx & Hc). exists (task_abs p), x. cbn. by rewrite lookup_fmap, Hp. Qed.

(** every event returns, and the invariants hold afterwards *)
Lemma fair_step w o : fair_sys (see w) -> fair_valid w o -> swp False (fair_exec o) w (fun _ w' => fair_sys (see w')).
Proof.
  intros HS Hv. destruct o; cbn [fair_valid] in Hv; cbn [fair_exec].
  - destruct Hv as (Hm & Hn & Hc & [pm Hpm]). destruct (idle_view w t HS Hm Hn) as (p & x & e & Hp & Hcl & Hx & Hid).
    assert (Hme : is_Some (f_ents (see w) !! me)).
    { destruct (fo_task _ _ (fs_ok _ HS) me (task_abs pm)) as (f & _ & Hf & _); [cbn; by rewrite lookup_fmap, Hpm|]. by eexists. }
    eapply wake_ok; try done. by apply cpu_view.
  - destruct Hv as (Hm & Hn & Hc). destruct (idle_view w t HS Hm Hn) as (p & x & e & Hp & Hcl & Hx & Hid). eapply new_ok; try done. by apply cpu_view.
  - destruct Hv as (Hm & Hn & Hc). destruct (idle_view w t HS Hm Hn) as (p & x & e & Hp & Hcl & Hx & Hid). eapply fork_sys_ok; try done. by apply cpu_view.
  - destruct Hv as [r Hr]. by apply (set_state_sys (see w) c (RtRq.curr r) z HS (curr_view w c r Hr)).
  - destruct Hv as (r & Hr & (p & x & Hp & Hcl & Hx & Hon)%member_view). eapply sleep_ok; try done. by apply curr_view.
  - destruct Hv as ([r Hr] & Hhi & Hlo). eapply (switch_ok (see w)); try done; [by apply curr_view| |by apply alien_view]. intros t Ht. by apply alien_view, Hhi.
  - destruct Hv as (r & Hr & (p & x & Hp & Hcl & Hx & Hon)%member_view). by apply (tick_sys (see w) c (RtRq.curr r) HS (curr_view w c r Hr)).
  - destruct Hv as (r & Hr & (p & x & Hp & Hcl & Hx & Hon)%member_view).
    by apply (yield_sys (see w) c (RtRq.curr r) p x HS (curr_view w c r Hr)).
  - destruct Hv as ([p Hp] & r & x & Hr & Hx & Hon).
    apply (yield_to_sys (see w) c (RtRq.curr r) t (task_abs p) x preempt HS (curr_view w c r Hr)); try done. cbn. by rewrite lookup_fmap, Hp.
  - destruct Hv as ((p & x & Hp & Hcl & Hx & Hon)%member_view & Hn & Hd).
    apply (move_sys (see w) t p x d HS); try done; [intros c; by apply running_view|by apply cpu_view].
  - destruct Hv as [b (p & x & Hp & Hcl & Hx & _)%member_view]. by eapply nice_ok.
  - apply swp_modify. exact HS.
Qed.

(** ** Executions *)

Inductive fair_steps : fw -> list fair_op -> fw -> Prop :=
| fair_steps_nil w : fair_steps w [] w
| fair_steps_cons w o w1 l w2 : fair_valid w o -> fair_exec o w = Ret tt w1 -> fair_steps w1 l w2 -> fair_steps w (o :: l) w2.

Lemma fair_steps_inv w l w' : fair_sys (see w) -> fair_steps w l w' -> fair_sys (see w').
Proof.
  intros H Hs. induction Hs as [w|w o w1 l w2 Hv E _ IH]; [done|].
  pose proof (fair_step w o H Hv) as Hst. unfold swp in Hst. rewrite E in Hst. by apply IH.
Qed.

(** ** Boot *)

(** after init_cfs_rq() of zeroed run queues: no task of the class is queued *)
Record booted_fair w : Prop := {
  bf_dom : dom (frs w) = dom (rqs (fbase w));
  bf_rq : forall c x, frs w !! c = Some x -> exists q, cfs x = init_cfs_rq q /\ weight (cfs_load q) = 0 /\ cfs_nr_running q = 0 /\
    h_nr_running q = 0 /\ cfs_leftmost q = None /\ cfs_curr q = None /\ cfs_next q = None /\ cfs_last q = None /\ cfs_skip q = None /\
    weight (rq_load x) = 0 /\ cfs_tasks x = [];
  bf_task : forall t p, rts (fbase w) !! t = Some p -> exists e x, fes w !! t = Some e /\ se_on_rq e = false /\
    0 <= weight (se_load e) <= MAX_WEIGHT /\ tasks (krn (fbase w)) !! t = Some x /\ tcpu x ∈ dom (frs w) /\
    (class p = fair_class -> on_rq x = false);
  bf_ents : forall t e, fes w !! t = Some e -> se_on_rq e = false;
  bf_curr : forall c r, rqs (fbase w) !! c = Some r -> exists p x, rts (fbase w) !! RtRq.curr r = Some p /\ class p <> fair_class /\
    tasks (krn (fbase w)) !! RtRq.curr r = Some x /\ tcpu x = c;
  bf_size : Z.of_nat (size (rts (fbase w))) < 2 ^ 31;
  bf_krn : sys_ok (krn (fbase w))
}.

Lemma booted_fair_sys w : booted_fair w -> fair_sys (see w).
Proof.
  intros [B1 B2 B3 B4 B5 B6 B7].
  assert (Hq : forall c k, f_rqs (see w) !! c = Some k -> k = QueueView (CfsView 0 0 0 rb_null None None None None None) 0 []).
  { intros c k (x & Hx & <-)%see_lookup. destruct (B2 c x Hx) as (q & Eq & E1 & E2 & E3 & E4 & E5 & E6 & E7 & E8 & E9 & E10).
    unfold see_rq, see_cfs. rewrite Eq. cbn. by rewrite E1, E2, E3, E4, E5, E6, E7, E8, E9, E10. }
  assert (Ht : forall c, turns (see w) c = None).
  { intros c. unfold turns. destruct (f_curr (see w) !! c) as [u|] eqn:Eu; cbn [mbind option_bind]; [|done]. apply see_lookup in Eu as (r & Hr & <-).
    destruct (B5 c r Hr) as (p & x & Hp & Hcl & _). cbn. rewrite lookup_fmap, Hp. cbn. by rewrite decide_False. }
  split; [|done|].
  - split.
    + intros c. cbn. by rewrite !lookup_fmap, !fmap_is_Some, <- !elem_of_dom, B1.
    + intros c k ->%Hq. split; cbn; try done; [constructor|by split; [constructor|]|intros t; split; [by intros ?%elem_of_nil|by intros [?%elem_of_nil _]]|].
      unfold buddies. cbn. by intros t [|[|]].
    + intros c k ->%Hq. by rewrite Ht.
    + intros c k t ->%Hq. by intros ?%elem_of_nil.
    + intros t e (f & Hf & <-)%see_lookup. cbn. by rewrite (B4 t f Hf).
    + intros t p (q & Hp & <-)%see_lookup. destruct (B3 t q Hp) as (e & x & He & _ & Hw & Hx & Hd & _). exists (see_se e), x. cbn.
      rewrite !lookup_fmap, He. split_and!; try done; try apply Hw. rewrite fmap_is_Some. by apply elem_of_dom.
    + intros c u (r & Hr & <-)%see_lookup. destruct (B5 c r Hr) as (p & x & Hp & _ & Hx & Hc). exists (task_abs p), x. cbn. by rewrite lookup_fmap, Hp.
    + intros c t. by rewrite Ht.
    + cbn. by rewrite map_size_fmap.
  - intros t p e x (q & Hp & <-)%see_lookup Hcl (f & Hf & <-)%see_lookup Hx. destruct (B3 t q Hp) as (f' & x' & Hf' & Hon & _ & Hx' & _ & Ho).
    cbn in *. rewrite (B4 t f Hf), <- (Ho Hcl). congruence.
Qed.
End Events.
