(* ===== verification/FairOrder.v ===== *)
(** * The fair class: virtual time

    Virtual times are 64-bit numbers that wrap around and that are compared by the
    sign of their difference.  While they are less than 2^62 from a base, the
    difference from the base orders them: the tree is in that order, the task
    that is picked is close to the first one, and the clock min_vruntime follows
    the slowest task. *)

From S2P Require Import Prelude Wait Tasklet Cmgroup Sched CmInv CmTask CmSys EpTree RtRq RtPush RtInv FairRq FairMath FairInv FairStep.
Local Open Scope Z_scope.

(** ** Comparing *)

(** how far [z] is ahead of [base] *)
Definition ahead (base z : Z) : Z := s64 (z - base).
Definition in_window (base z : Z) : Prop := - 2 ^ 62 <= ahead base z < 2 ^ 62.

Lemma s64_cong z : exists k, s64 z = z + k * 2 ^ 64.
Proof. exists (- ((z + 2 ^ 63) / 2 ^ 64)). unfold s64. rewrite Z.mod_eq by lia. lia. Qed.
Lemma u64_cong z : exists k, u64 z = z + k * 2 ^ 64.
Proof. exists (- (z / 2 ^ 64)). unfold u64. rewrite Z.mod_eq by lia. lia. Qed.
Lemma s64_shift z k : s64 (z + k * 2 ^ 64) = s64 z.
Proof. unfold s64. replace (z + k * 2 ^ 64 + 2 ^ 63) with (z + 2 ^ 63 + k * 2 ^ 64) by lia. by rewrite Z.mod_add by lia. Qed.

(** a number that is congruent to [z] and fits is what [s64] returns *)
Lemma s64_unique z y k : z = y + k * 2 ^ 64 -> - 2 ^ 63 <= y < 2 ^ 63 -> s64 z = y.
Proof. intros -> Hy. by rewrite s64_shift, s64_id. Qed.

Lemma s64_sub a b base : in_window base a -> in_window base b -> s64 (a - b) = ahead base a - ahead base b.
Proof.
  unfold in_window, ahead. intros Ha Hb. destruct (s64_cong (a - base)) as [i Ei], (s64_cong (b - base)) as [j Ej].
  apply (s64_unique _ _ (j - i)); lia.
Qed.

Lemma ahead_u64 base z : ahead base (u64 z) = ahead base z.
Proof. unfold ahead. destruct (u64_cong z) as [k ->]. rewrite <- (s64_shift (z - base) k). f_equal. lia. Qed.
Lemma ahead_self base : ahead base base = 0.
Proof. unfold ahead. by rewrite Z.sub_diag. Qed.
Lemma ahead_add base d : - 2 ^ 63 <= d < 2 ^ 63 -> ahead base (base + d) = d.
Proof. intros Hd. unfold ahead. replace (base + d - base) with d by lia. by apply s64_id. Qed.

Lemma ahead_max base a b : in_window base a -> in_window base b ->
  ahead base (max_vruntime a b) = Z.max (ahead base a) (ahead base b) /\ in_window base (max_vruntime a b).
Proof.
  intros Ha Hb. unfold max_vruntime. rewrite (s64_sub b a base) by done. destruct (Z.ltb_spec 0 (ahead base b - ahead base a)); (split; [lia|done]).
Qed.
Lemma ahead_min base a b : in_window base a -> in_window base b ->
  ahead base (min_vruntime a b) = Z.min (ahead base a) (ahead base b) /\ in_window base (min_vruntime a b).
Proof.
  intros Ha Hb. unfold min_vruntime. rewrite (s64_sub b a base) by done. destruct (Z.ltb_spec (ahead base b - ahead base a) 0); (split; [lia|done]).
Qed.

(** ** The tree *)

Definition vr_of (es : gmap nat sched_entity) (t : nat) : Z := from_option vruntime 0 (es !! t).

(** the order of the tree, and the reference insertion *)
Definition vkey (base : Z) (es : gmap nat sched_entity) (t : nat) : Z := ahead base (vr_of es t).
Definition timeline (base : Z) (es : gmap nat sched_entity) (l : list nat) : Prop :=
  by_key (vkey base es) l /\ forall u, u ∈ l -> in_window base (vr_of es u).
Definition timeline_insert (base : Z) (es : gmap nat sched_entity) (t : nat) (l : list nat) : list nat :=
  key_insert (vkey base es) t (vkey base es t) l.

Lemma fair_link_order base es t e p p' (left : bool) :
  fair_link es t e p = Some (p', left) -> es !! t = Some e -> timeline base es (inorder p) -> in_window base (vruntime e) ->
  inorder p' = timeline_insert base es t (inorder p).
Proof.
  intros Hl He [Hs Hw] Ht. assert (Et : vr_of es t = vruntime e) by (unfold vr_of; by rewrite He).
  apply (rb_walk_by_key _ _ _ _ _ _ _ Hl Hs). intros u b Hu Hb. specialize (Hw u Hu). unfold vkey. rewrite Et. unfold vr_of in *.
  destruct (es !! u) as [f|]; [|done]. injection Hb as <-. cbn in *. unfold entity_before. rewrite (s64_sub _ _ base) by done.
  destruct (Z.ltb_spec (ahead base (vruntime e) - ahead base (vruntime f)) 0), (Z.ltb_spec (ahead base (vruntime e)) (ahead base (vruntime f))); done || lia.
Qed.

Section World.
Context {RL : RtLib} {FL : FairLib} {RB : RbLib}.
Implicit Types (w : fw) (x : fair_rq) (q : cfs_rq) (e f : sched_entity) (s : tunables) (c t u l : nat).

Lemma swp_cfs_of E c w x (Q : cfs_rq -> fw -> Prop) : frs w !! c = Some x -> Q (cfs x) w -> swp E (cfs_of c) w Q.
Proof. intros Hx HQ. apply swp_bind. by eapply swp_deref. Qed.
Lemma swp_get_se E t w e (Q : sched_entity -> fw -> Prop) : fes w !! t = Some e -> Q e w -> swp E (get_se t) w Q.
Proof. intros He HQ. by eapply swp_deref. Qed.
Lemma swp_tunables E w (Q : tunables -> fw -> Prop) : Q (tun w) w -> swp E tunables_of w Q.
Proof. done. Qed.
Lemma swp_put_cfs E c w x q (Q : unit -> fw -> Prop) :
  frs w !! c = Some x -> Q tt (set_frs (<[c := set_cfs q x]> (frs w)) w) -> swp E (put_cfs c q) w Q.
Proof. intros Hx HQ. apply swp_bind. by eapply swp_deref. Qed.

Lemma enqueue_order w c t x e base :
  frs w !! c = Some x -> fes w !! t = Some e -> timeline base (fes w) (inorder (tasks_timeline (cfs x))) -> in_window base (vruntime e) ->
  (forall u, u ∈ inorder (tasks_timeline (cfs x)) -> is_Some (fes w !! u)) ->
  exists w' x', __enqueue_entity c t w = Ret tt w' /\ frs w' !! c = Some x' /\ fes w' = fes w /\
    inorder (tasks_timeline (cfs x')) = timeline_insert base (fes w) t (inorder (tasks_timeline (cfs x))) /\
    timeline base (fes w') (inorder (tasks_timeline (cfs x'))).
Proof.
  intros Hx He Ht Hw Hall.
  destruct (rb_walk_total (fun u => entry ← fes w !! u; Some (entity_before e entry)) t (tasks_timeline (cfs x))) as [[p b] Ep].
  { intros u Hu. destruct (Hall u Hu) as [f Hf]. rewrite Hf. by eexists. }
  set (q' := set_tasks_timeline (rb_insert_color p) (if b then set_cfs_leftmost (Some t) (cfs x) else cfs x)).
  assert (Er : inorder (tasks_timeline q') = timeline_insert base (fes w) t (inorder (tasks_timeline (cfs x)))).
  { unfold q'. cbn. rewrite rb_insert_color_inorder. by apply (fair_link_order base (fes w) t e _ p b). }
  assert (Hrun : swp False (__enqueue_entity c t) w (fun _ w' => w' = set_frs (<[c := set_cfs q' x]> (frs w)) w)).
  { unfold __enqueue_entity. apply swp_bind. eapply swp_cfs_of; [exact Hx|]. apply swp_bind. eapply swp_get_se; [exact He|].
    apply swp_bind. eapply swp_deref; [exact Ep|]. by eapply swp_put_cfs. }
  apply swp_ends in Hrun as ([] & w' & E & ->). eexists _, _. split; [exact E|]. split; [apply lookup_insert_eq|]. split; [done|]. cbn [cfs set_cfs fes set_frs].
  rewrite Er. split; [done|]. destruct Ht as [Hs Hw0]. split; [by apply key_insert_sorted|].
  intros u [[_ Hu]%list_elem_of_filter|[->|[_ Hu]%list_elem_of_filter]%elem_of_cons]%elem_of_app; [auto| |auto].
  unfold vr_of. by rewrite He.
Qed.

Lemma dequeue_order w c t x base :
  frs w !! c = Some x -> timeline base (fes w) (inorder (tasks_timeline (cfs x))) -> NoDup (inorder (tasks_timeline (cfs x))) ->
  exists w' x', __dequeue_entity c t w = Ret tt w' /\ frs w' !! c = Some x' /\ fes w' = fes w /\
    inorder (tasks_timeline (cfs x')) = filter (fun u => u <> t) (inorder (tasks_timeline (cfs x))) /\
    timeline base (fes w') (inorder (tasks_timeline (cfs x'))).
Proof.
  intros Hx [Hs Hw] Hn. set (q' := if bool_decide (cfs_leftmost (cfs x) = Some t) then set_cfs_leftmost (rb_next t (tasks_timeline (cfs x))) (cfs x) else cfs x).
  assert (Hrun : swp False (__dequeue_entity c t) w (fun _ w' =>
    w' = set_frs (<[c := set_cfs (set_tasks_timeline (rb_erase t (tasks_timeline q')) q') x]> (frs w)) w)).
  { unfold __dequeue_entity. apply swp_bind. eapply swp_cfs_of; [exact Hx|]. by eapply swp_put_cfs. }
  apply swp_ends in Hrun as ([] & w' & E & ->). eexists _, _. split; [exact E|]. split; [apply lookup_insert_eq|]. split; [done|]. cbn.
  assert (Eq : tasks_timeline q' = tasks_timeline (cfs x)) by (unfold q'; by case_bool_decide). rewrite Eq, rb_erase_inorder by done. split; [done|].
  split; [by apply by_key_filter|]. intros u [_ Hu]%list_elem_of_filter. auto.
Qed.

(** ** The choice of the next task *)

(** the same virtual time, and the same weight up to its cached inverse *)
Definition twin e f : Prop :=
  vruntime f = vruntime e /\ weight (se_load f) = weight (se_load e) /\ __update_inv_weight (se_load f) = __update_inv_weight (se_load e).

Lemma twin_refl e : twin e e.
Proof. done. Qed.
Lemma twin_trans e f g : twin e f -> twin f g -> twin e g.
Proof. intros (? & ? & ?) (? & ? & ?). split_and!; congruence. Qed.

Lemma update_inv_idem lw : __update_inv_weight (__update_inv_weight lw) = __update_inv_weight lw.
Proof.
  unfold __update_inv_weight at 2 3. destruct (Z.eqb_spec (inv_weight lw) 0) as [E|E]; cbn [negb].
  - destruct (Z.leb_spec WMULT_CONST (weight lw)) as [|Hl]; [done|]. destruct (Z.eqb_spec (weight lw) 0) as [|Hz]; [done|].
    unfold __update_inv_weight. cbn. destruct (Z.eqb_spec (WMULT_CONST / weight lw) 0) as [Ed|]; cbn; [|done].
    rewrite (proj2 (Z.leb_gt _ _)), (proj2 (Z.eqb_neq _ _)) by done. done.
  - unfold __update_inv_weight. by rewrite (proj2 (Z.eqb_neq _ _) E).
Qed.

Lemma alike_delta d e f : twin e f -> fst (calc_delta_fair d f) = fst (calc_delta_fair d e).
Proof.
  intros (Ev & Ew & Ei). unfold calc_delta_fair. rewrite Ew. destruct (weight (se_load e) =? NICE_0_LOAD); cbn [negb]; [done|].
  unfold __calc_delta. rewrite Ei. destruct (fit32 _ _ _) as [a b]. by destruct (fit32 _ _ _).
Qed.

Lemma delta_alike d e : twin e (snd (calc_delta_fair d e)).
Proof.
  unfold calc_delta_fair. destruct (negb _); [|apply twin_refl]. unfold __calc_delta. destruct (fit32 _ _ _) as [a b]. destruct (fit32 _ _ _) as [a' b'].
  split_and!; [done| |apply update_inv_idem]. cbn. unfold __update_inv_weight. by repeat (destruct (_ : bool)).
Qed.

(** a task with entity [e] may run instead of the first one, [f] *)
Definition near s e f : bool := fst (wakeup_preempt_entity s e f) <? 1.

Lemma near_alike s e e' f f' : twin e e' -> twin f f' -> near s e' f' = near s e f.
Proof.
  intros (Ev & _) Hf. pose proof Hf as (Ef & _). unfold near, wakeup_preempt_entity, wakeup_gran. rewrite Ev, Ef. destruct (_ <=? 0); [done|].
  pose proof (alike_delta (sysctl_sched_wakeup_granularity s) f f' Hf) as H. destruct (calc_delta_fair _ f), (calc_delta_fair _ f'). cbn in H. by subst.
Qed.

Lemma preempt_alike s e f : twin f (snd (wakeup_preempt_entity s e f)).
Proof.
  unfold wakeup_preempt_entity, wakeup_gran. destruct (_ <=? 0); [apply twin_refl|].
  pose proof (delta_alike (sysctl_sched_wakeup_granularity s) f) as H. by destruct (calc_delta_fair _ f).
Qed.

Definition near_task s (es : gmap nat sched_entity) (o : option nat) l : bool :=
  match o with
  | None => false
  | Some t => match es !! t, es !! l with Some e, Some f => near s e f | _, _ => false end
  end.

(** the task that runs next: the next buddy, the last one, the second in the
    tree if the first should be skipped, or the first; all but the first only if
    they are near it *)
Definition choice s (es : gmap nat sched_entity) q l : nat :=
  if near_task s es (cfs_next q) l then default l (cfs_next q)
  else if near_task s es (cfs_last q) l then default l (cfs_last q)
  else if bool_decide (cfs_skip q = Some l) && near_task s es (__pick_next_entity q l) l then default l (__pick_next_entity q l)
  else l.

(** worlds that differ in cached inverses *)
Definition kin w w' : Prop :=
  frs w' = frs w /\ forall u e, fes w !! u = Some e -> exists e', fes w' !! u = Some e' /\ twin e e'.

Lemma kin_refl w : kin w w.
Proof. split; [done|]. intros u e He. exists e. split; [done|apply twin_refl]. Qed.
Lemma kin_trans w w1 w2 : kin w w1 -> kin w1 w2 -> kin w w2.
Proof.
  intros [E1 H1] [E2 H2]. split; [congruence|]. intros u e He. destruct (H1 u e He) as (e1 & He1 & A1). destruct (H2 u e1 He1) as (e2 & He2 & A2).
  exists e2. split; [done|]. by eapply twin_trans.
Qed.
Lemma kin_near s w w' o l : (forall t, o = Some t -> is_Some (fes w !! t)) -> is_Some (fes w !! l) -> kin w w' ->
  near_task s (fes w') o l = near_task s (fes w) o l.
Proof.
  intros Ho [f Hf] [_ H]. destruct o as [t|]; [|done]. destruct (Ho t eq_refl) as [e He]. cbn. rewrite He, Hf.
  destruct (H t e He) as (e' & -> & Ae), (H l f Hf) as (f' & -> & Af). by apply near_alike.
Qed.

Lemma buddy_near s o l w :
  (forall t, o = Some t -> is_Some (fes w !! t)) -> is_Some (fes w !! l) ->
  swp False (buddy s o l) w (fun b w' => b = near_task s (fes w) o l /\ kin w w').
Proof.
  intros Ho [f Hf]. destruct o as [t|]; [|split; [done|apply kin_refl]]. destruct (Ho t eq_refl) as [e He]. unfold buddy.
  apply swp_bind. eapply swp_get_se; [exact He|]. apply swp_bind. eapply swp_get_se; [exact Hf|].
  cbn [near_task]. rewrite He, Hf. unfold near. pose proof (preempt_alike s e f) as Ha. destruct (wakeup_preempt_entity s e f) as [r f']. cbn in Ha.
  apply swp_bind, swp_modify, swp_ret. split; [done|]. split; [done|]. intros u g Hg. cbn. rewrite lookup_insert. case_decide as E.
  - subst u. exists f'. split; [done|]. congruence.
  - exists g. split; [done|apply twin_refl].
Qed.

(** the code makes this choice *)
Lemma pick_choice w c x l :
  frs w !! c = Some x -> cfs_leftmost (cfs x) = Some l -> is_Some (fes w !! l) ->
  (forall t, cfs_next (cfs x) = Some t \/ cfs_last (cfs x) = Some t \/ __pick_next_entity (cfs x) l = Some t -> is_Some (fes w !! t)) ->
  swp False (pick_next_entity c) w (fun o _ => o = Some (choice (tun w) (fes w) (cfs x) l)).
Proof.
  intros Hx Hl Hf Hb. unfold pick_next_entity, __pick_first_entity. apply swp_bind, swp_tunables, swp_bind. eapply swp_cfs_of; [exact Hx|].
  cbv zeta. rewrite Hl. set (q := cfs x) in *. set (s := tun w). unfold choice.
  assert (Hcut : forall (o : option nat) w1, (forall t, o = Some t -> is_Some (fes w !! t)) -> kin w w1 ->
    swp False (buddy s o l) w1 (fun b w' => b = near_task s (fes w) o l /\ kin w w')).
  { intros o w1 Ho K. assert (Hin : forall u, is_Some (fes w !! u) -> is_Some (fes w1 !! u)).
    { intros u [e He]. destruct (proj2 K u e He) as (e' & He' & _). by eexists. }
    eapply swp_cons; [apply buddy_near; auto|]. intros b w2 [-> K2]. split; [by apply kin_near|by eapply kin_trans]. }
  eapply (swp_seq _ _ _ _ (fun se w1 => se = (if bool_decide (cfs_skip q = Some l) && near_task s (fes w) (__pick_next_entity q l) l
    then default l (__pick_next_entity q l) else l) /\ kin w w1)).
  { case_bool_decide; [|split; [done|apply kin_refl]]. eapply swp_seq; [apply Hcut; [auto|apply kin_refl]|]. intros b w1 [-> K]. by split. }
  intros se w1 [-> K1]. eapply swp_seq; [apply Hcut; [auto|done]|]. intros b w2 [-> K2].
  eapply swp_seq; [apply Hcut; [auto|done]|]. intros b w3 [-> K3]. apply swp_bind. eapply swp_put_cfs; [rewrite (proj1 K3); exact Hx|].
  apply swp_ret. f_equal. destruct (near_task s (fes w) (cfs_next q) l) eqn:En; [by destruct (cfs_next q)|].
  destruct (near_task s (fes w) (cfs_last q) l) eqn:El; [by destruct (cfs_last q)|done].
Qed.

(** it is at most a wake-up granularity later than the first *)
Lemma near_bound s e f : near s e f = true ->
  s64 (vruntime e - vruntime f) <= Z.max 0 (s64 (fst (calc_delta_fair (sysctl_sched_wakeup_granularity s) f))).
Proof.
  unfold near, wakeup_preempt_entity, wakeup_gran. destruct (Z.leb_spec (s64 (vruntime e - vruntime f)) 0); [lia|].
  destruct (calc_delta_fair _ f) as [g f']. cbn. destruct (Z.ltb_spec (s64 g) (s64 (vruntime e - vruntime f))); cbn; [done|lia].
Qed.

Lemma choice_bound s (es : gmap nat sched_entity) q l f :
  es !! l = Some f ->
  s64 (vr_of es (choice s es q l) - vruntime f) <= Z.max 0 (s64 (fst (calc_delta_fair (sysctl_sched_wakeup_granularity s) f))).
Proof.
  intros Hf. assert (Hn : forall o, near_task s es o l = true ->
    s64 (vr_of es (default l o) - vruntime f) <= Z.max 0 (s64 (fst (calc_delta_fair (sysctl_sched_wakeup_granularity s) f)))).
  { intros [t|]; [|done]. cbn. unfold vr_of. rewrite Hf. destruct (es !! t) as [e|]; [|done]. apply near_bound. }
  unfold choice. destruct (near_task s es (cfs_next q) l) eqn:E1; [by apply Hn|]. destruct (near_task s es (cfs_last q) l) eqn:E2; [by apply Hn|].
  destruct (bool_decide _ && _) eqn:E3; [apply andb_true_iff in E3 as [_ E3]; by apply Hn|].
  unfold vr_of. rewrite Hf. cbn. rewrite Z.sub_diag. change (s64 0) with 0. lia.
Qed.

(** ** The clock *)

(** the running task and the first in the tree *)
Definition front q t : Prop := cfs_curr q = Some t \/ cfs_leftmost q = Some t.

(** the clock moves to the slower of the two, or stays *)
Lemma min_vruntime_spec w c x :
  let base := cfs_min_vruntime (cfs x) in
  frs w !! c = Some x -> (forall t, front (cfs x) t -> is_Some (fes w !! t) /\ in_window base (vr_of (fes w) t)) ->
  swp False (update_min_vruntime c) w (fun _ w' => exists m, frs w' !! c = Some (set_cfs (set_cfs_min_vruntime m (cfs x)) x) /\
    0 <= ahead base m /\ (forall t, front (cfs x) t -> ahead base m <= Z.max 0 (vkey base (fes w) t)) /\
    (ahead base m = 0 \/ exists t, front (cfs x) t /\ ahead base m = vkey base (fes w) t)).
Proof.
  intros base Hx Hin. assert (Hb : in_window base base) by (unfold in_window; rewrite ahead_self; lia).
  assert (Hread : forall o, (forall t, o = Some t -> front (cfs x) t) ->
    swp False (entity_vruntime o) w (fun v w' => w' = w /\ v = vr_of (fes w) <$> o)).
  { intros [t|] Ho; [|done]. destruct (Hin t (Ho t eq_refl)) as [[e He] _]. apply swp_bind. eapply swp_get_se; [exact He|]. apply swp_ret.
    unfold vr_of. cbn. by rewrite He. }
  unfold update_min_vruntime. apply swp_bind. eapply swp_cfs_of; [exact Hx|]. eapply swp_seq; [apply Hread; by left|]. intros v w1 [-> ->].
  eapply swp_seq; [apply Hread; by right|]. intros v w1 [-> ->]. eapply swp_put_cfs; [exact Hx|]. eexists. split; [apply lookup_insert_eq|].
  fold base. assert (Hm : forall z, in_window base z -> ahead base (max_vruntime base z) = Z.max 0 (ahead base z)).
  { intros z Hz. destruct (ahead_max base base z Hb Hz) as [-> _]. by rewrite ahead_self. }
  unfold front, vkey in *. destruct (cfs_leftmost (cfs x)) as [b|], (cfs_curr (cfs x)) as [a|]; cbn [fmap option_fmap option_map default from_option id].
  - destruct (Hin a ltac:(by left)) as [_ Wa], (Hin b ltac:(by right)) as [_ Wb]. destruct (ahead_min base (vr_of (fes w) a) (vr_of (fes w) b)) as [Em Wm]; [done..|].
    rewrite Hm, Em by done. split_and!; [lia|intros t [[= <-]|[= <-]]; lia|].
    destruct (Z.max_spec 0 (Z.min (ahead base (vr_of (fes w) a)) (ahead base (vr_of (fes w) b)))) as [[_ ->]|[_ ->]]; [right|by left].
    destruct (Z.min_spec (ahead base (vr_of (fes w) a)) (ahead base (vr_of (fes w) b))) as [[_ ->]|[_ ->]]; [exists a|exists b]; auto.
  - rewrite Hm by (apply Hin; auto). split_and!; [lia|intros t [[=]|[= <-]]; lia|]. destruct (Z.max_spec 0 (ahead base (vr_of (fes w) b))) as [[_ ->]|[_ ->]]; eauto.
  - rewrite Hm by (apply Hin; auto). split_and!; [lia|intros t [[= <-]|[=]]; lia|]. destruct (Z.max_spec 0 (ahead base (vr_of (fes w) a))) as [[_ ->]|[_ ->]]; eauto.
  - rewrite Hm, ahead_self by done. split_and!; [lia|intros t [[=]|[=]]|by left].
Qed.

(** ** Placing *)

(** how far a new task is placed behind the clock, and a woken one before it *)
Definition credit s : Z := if GENTLE_FAIR_SLEEPERS then sysctl_sched_latency s / 2 else sysctl_sched_latency s.
Definition debit s q e : Z := if START_DEBIT then fst (fst (sched_vslice s q e)) else 0.

Lemma vslice_vruntime s q e : vruntime (snd (sched_vslice s q e)) = vruntime e /\ cfs_min_vruntime (snd (fst (sched_vslice s q e))) = cfs_min_vruntime q.
Proof.
  unfold sched_vslice. assert (Hq : cfs_min_vruntime (snd (sched_slice s q e)) = cfs_min_vruntime q).
  { unfold sched_slice. destruct (se_on_rq e); [|done]. by destruct (__calc_delta _ _ _). }
  destruct (sched_slice s q e) as [sl q']. pose proof (delta_alike sl e) as (Hv & _). by destruct (calc_delta_fair sl e).
Qed.

Lemma place_woken s q e :
  in_window (cfs_min_vruntime q) (vruntime e) -> 0 <= sysctl_sched_latency s < 2 ^ 32 ->
  ahead (cfs_min_vruntime q) (vruntime (snd (place_entity s q e false))) = Z.max (ahead (cfs_min_vruntime q) (vruntime e)) (- credit s).
Proof.
  intros Hw Hs. unfold place_entity. cbn [andb negb]. set (base := cfs_min_vruntime q) in *.
  assert (Hc : 0 <= credit s < 2 ^ 32) by (unfold credit; destruct GENTLE_FAIR_SLEEPERS; [split; [apply Z.div_pos; lia|apply Z.div_lt_upper_bound; lia]|lia]).
  assert (Et : (if GENTLE_FAIR_SLEEPERS then Z.shiftr (sysctl_sched_latency s) 1 else sysctl_sched_latency s) = credit s).
  { unfold credit. destruct GENTLE_FAIR_SLEEPERS; [by rewrite Z.shiftr_div_pow2|done]. }
  rewrite Et. cbn [snd vruntime set_vruntime].
  assert (Ea : ahead base (u64 (base - credit s)) = - credit s) by (rewrite ahead_u64; apply (ahead_add base (- credit s)); lia).
  destruct (ahead_max base (vruntime e) (u64 (base - credit s)) Hw) as [-> _]; [unfold in_window; lia|]. by rewrite Ea.
Qed.

Lemma place_new s q e :
  in_window (cfs_min_vruntime q) (vruntime e) -> 0 <= debit s q e < 2 ^ 62 ->
  ahead (cfs_min_vruntime q) (vruntime (snd (place_entity s q e true))) = Z.max (ahead (cfs_min_vruntime q) (vruntime e)) (debit s q e).
Proof.
  intros Hw Hd. unfold place_entity, debit in *. cbn [andb negb]. set (base := cfs_min_vruntime q) in *. destruct START_DEBIT.
  - destruct (vslice_vruntime s q e) as [Ev _]. destruct (sched_vslice s q e) as [[d q'] e']. cbn in *. rewrite Ev.
    assert (Ea : ahead base (u64 (base + d)) = d) by (rewrite ahead_u64; apply ahead_add; lia).
    destruct (ahead_max base (vruntime e) (u64 (base + d)) Hw) as [-> _]; [unfold in_window; lia|]. by rewrite Ea.
  - cbn. destruct (ahead_max base (vruntime e) base Hw) as [-> _]; [unfold in_window; rewrite ahead_self; lia|]. by rewrite ahead_self.
Qed.

(** ** Slices *)

Context {LL : FairLaws FL}.

Definition slices s q (es : gmap nat sched_entity) (l : list nat) : Z :=
  foldr (fun t z => from_option (fun e => fst (sched_slice s q e)) 0 (es !! t) + z) 0 l.
Definition weights (es : gmap nat sched_entity) (l : list nat) : Z :=
  foldr (fun t z => from_option (fun e => weight (se_load e)) 0 (es !! t) + z) 0 l.

Lemma slice_bounds s q e :
  let P := __sched_period s (cfs_nr_running q) in
  let W := weight (cfs_load q) in
  se_on_rq e = true -> 0 <= cfs_nr_running q < 2 ^ 32 -> 0 <= P < 2 ^ 64 -> plain (cfs_load q) -> 0 <= weight (se_load e) <= W ->
  0 <= fst (sched_slice s q e) /\ fst (sched_slice s q e) * W <= P * weight (se_load e) /\
  P * weight (se_load e) * (2 ^ 32 - W) * (2 ^ 31 - 1) <= (fst (sched_slice s q e) + 1) * W * 2 ^ 63.
Proof.
  intros P W Hon Hn HP Hp Hw. unfold sched_slice. rewrite Hon, Z.add_0_r, u32_id by done. fold P. pose proof (proj1 Hp) as HW. fold W in HW. unfold WMULT_CONST in HW.
  destruct (calc_delta_plain P (weight (se_load e)) (cfs_load q)) as (r & -> & Hr & H1 & H2); [done|lia|done|nia|]. cbn. fold W in H1, H2. lia.
Qed.

(** the slices of all tasks fit in the period, and fill it up to the rounding *)
Lemma slices_period s q es (l : list nat) :
  let P := __sched_period s (cfs_nr_running q) in
  let W := weight (cfs_load q) in
  0 <= cfs_nr_running q < 2 ^ 32 -> 0 <= P < 2 ^ 64 -> plain (cfs_load q) ->
  (forall t, t ∈ l -> exists e, es !! t = Some e /\ se_on_rq e = true /\ 0 <= weight (se_load e) <= W) ->
  slices s q es l * W <= P * weights es l /\
  P * weights es l * (2 ^ 32 - W) * (2 ^ 31 - 1) <= (slices s q es l + Z.of_nat (length l)) * W * 2 ^ 63.
Proof.
  intros P W Hn HP Hp. induction l as [|t l IH]; intros Hl; cbn [slices weights foldr length]; [lia|].
  destruct (Hl t ltac:(by left)) as (e & He & Hon & Hw). rewrite He. cbn [from_option].
  destruct (slice_bounds s q e Hon Hn HP Hp Hw) as (H0 & H1 & H2). fold P W in H1, H2.
  destruct IH as [I1 I2]; [intros u Hu; apply Hl; by right|]. fold (slices s q es l) (weights es l).
  set (r := fst (sched_slice s q e)) in *. set (y := weight (se_load e)) in *. rewrite Nat2Z.inj_succ.
  split; [lia|]. set (K := (2 ^ 32 - W) * (2 ^ 31 - 1)) in *. rewrite <- Z.mul_assoc in H2, I2 |- *. fold K in H2, I2 |- *. lia.
Qed.
End World.
