(* ===== verification/FairSel.v ===== *)
(** * The fair class: the choice of a CPU (kernel/sched/fair.c, core.c)

    A task that wakes up, is new or calls exec() is given a CPU: near the CPU of
    the waker or the one it ran on last, if they share a domain with
    SD_WAKE_AFFINE, and else the least loaded CPU of the least loaded group of
    the largest domain that balances such tasks, and so on downwards.  What
    select_task_rq_fair() returns may not be allowed; select_task_rq() then takes
    any other CPU.

    The domains, the CPU powers and the averages cpu_load are set up by code that
    is not modelled; they are the record [cpu_topology], one for each CPU.  The
    masks of online CPUs and of the task are in the world. *)

From S2P Require Import Prelude Wait Tasklet Cmgroup Sched CmInv CmTask CmSys EpTree RtRq RtPush RtInv RtBalance.
From S2P Require Import FairRq FairMath FairInv FairStep FairSys FairOrder.
Local Open Scope Z_scope.

Definition SD_LOAD_BALANCE : Z := 1.
Definition SD_WAKE_AFFINE : Z := 32.
Definition SCHED_POWER_SCALE : Z := 1024.
Definition ULONG_MAX : Z := 2 ^ 64 - 1.

(** ** The topology *)

(** struct sched_group: its CPUs and the power of its sgp *)
Record sched_group := SchedGroup {
  group_cpus : gset nat;
  group_power : Z
}.

(** struct sched_domain; the groups are a circular list that starts at [groups] *)
Record sched_domain := SchedDomain {
  groups : list sched_group;
  imbalance_pct : Z;
  wake_idx : Z;
  forkexec_idx : Z;
  sd_flags : Z;
  span_weight : Z;
  sd_span : gset nat
}.

(** of one CPU: rq->sd and its parents, how many of them sd_llc and its children
    are, sd_llc_size and sd_llc_id, cpu_load, cpu_power and wake_list of its run
    queue *)
Record cpu_topology := CpuTopology {
  domains : list sched_domain;
  sd_llc : nat;
  sd_llc_size : Z;
  sd_llc_id : Z;
  cpu_load : list Z;
  cpu_power : Z;
  wake_list : list nat
}.

Section Select.
Context {RL : RtLib} {FL : FairLib} {RB : RbLib}.
Variable topology : gmap nat cpu_topology.
Implicit Types (c i t me this : nat) (d : sched_domain) (g : sched_group).

Definition topo (c : nat) : F cpu_topology := deref (fun _ => topology !! c).
Definition tsk_cpus_allowed (t : nat) : F (gset nat) := p ← on_base (get_rt t); mret (cpus_allowed p).

(** ** Loads *)

Definition weighted_cpuload (c : nat) : F Z := q ← cfs_of c; mret (runnable_load_avg q).

Definition source_load (c : nat) (type : Z) : F Z :=
  total ← weighted_cpuload c;
  if (type =? 0) || negb LB_BIAS then mret total
  else k ← topo c; l ← deref (fun _ => cpu_load k !! Z.to_nat (type - 1)); mret (Z.min l total).

Definition target_load (c : nat) (type : Z) : F Z :=
  total ← weighted_cpuload c;
  if (type =? 0) || negb LB_BIAS then mret total
  else k ← topo c; l ← deref (fun _ => cpu_load k !! Z.to_nat (type - 1)); mret (Z.max l total).

Definition power_of (c : nat) : F Z := k ← topo c; mret (cpu_power k).

Definition cpu_avg_load_per_task (c : nat) : F Z :=
  r ← on_base (cpu_rq c);
  q ← cfs_of c;
  mret (if negb (nr_running r =? 0) then runnable_load_avg q / nr_running r else 0).

(** without groups of tasks *)
Definition effective_load (wl : Z) : Z := wl.

(** ** Waking near the waker: [me] runs on [this] *)

Definition wake_wide (this me t : nat) : F bool :=
  k ← topo this;
  e ← get_se t;
  m ← get_se me;
  mret ((sd_llc_size k <? wakee_flips e) && (u64 (sd_llc_size k * wakee_flips e) <? wakee_flips m)).

Definition wake_affine (d : sched_domain) (this me t : nat) (sync : bool) : F bool :=
  wide ← wake_wide this me t;
  if (wide : bool) then mret false
  else
    let idx := wake_idx d in
    prev ← cpu_of t;
    load ← source_load prev idx;
    this_load ← target_load this idx;
    m ← get_se me;
    e ← get_se t;
    let load := s64 load in
    let this_load := s64 this_load in
    let this_load := if sync then s64 (this_load + effective_load (- weight (se_load m))) else this_load in
    let load := if sync then s64 (load + effective_load 0) else load in
    prev_power ← power_of prev;
    this_power ← power_of this;
    let this_eff_load := s64 (s64 (100 * prev_power) * s64 (this_load + effective_load (weight (se_load e)))) in
    let prev_eff_load := s64 (s64 (u32 (100 + u32 (imbalance_pct d - 100) / 2) * this_power) * s64 (load + effective_load 0)) in
    let balanced := if 0 <? this_load then this_eff_load <=? prev_eff_load else true in
    if sync && balanced then mret true
    else
      tl_per_task ← cpu_avg_load_per_task this;
      prev_target ← target_load prev idx;
      mret (balanced || ((this_load <=? load) && (u64 (this_load + prev_target) <=? tl_per_task))).

(** ** The least loaded group and CPU *)

(** the load of the CPUs of a group *)
Fixpoint group_load (local_group : bool) (load_idx : Z) (l : list nat) (avg_load : Z) : F Z :=
  match l with
  | [] => mret avg_load
  | i :: l =>
      load ← (if local_group then source_load i load_idx else target_load i load_idx);
      group_load local_group load_idx l (u64 (avg_load + load))
  end.

(** the loop: the least loaded group so far, its load and that of the own group *)
Fixpoint idlest_group (t this : nat) (load_idx : Z) (l : list sched_group) (idlest : option sched_group) (min_load this_load : Z) :
    F (option sched_group * Z * Z) :=
  match l with
  | [] => mret (idlest, min_load, this_load)
  | g :: l =>
      allowed ← tsk_cpus_allowed t;
      if bool_decide (group_cpus g ∩ allowed = ∅) then idlest_group t this load_idx l idlest min_load this_load
      else
        let local_group := bool_decide (this ∈ group_cpus g) in
        avg_load ← group_load local_group load_idx (for_each_cpu (group_cpus g)) 0;
        if group_power g =? 0 then oops
        else
          let avg_load := u64 (avg_load * SCHED_POWER_SCALE) / group_power g in
          if local_group then idlest_group t this load_idx l idlest min_load avg_load
          else if avg_load <? min_load then idlest_group t this load_idx l (Some g) avg_load this_load
          else idlest_group t this load_idx l idlest min_load this_load
  end.

Definition find_idlest_group (d : sched_domain) (t this : nat) (sd_flag : Z) : F (option sched_group) :=
  let load_idx := if is_set sd_flag SD_BALANCE_WAKE then wake_idx d else forkexec_idx d in
  let imbalance := s32 (u32 (100 + u32 (imbalance_pct d - 100) / 2)) in
  '(idlest, min_load, this_load) ← idlest_group t this load_idx (groups d) None ULONG_MAX 0;
  mret (if u64 (100 * this_load) <? u64 (imbalance * min_load) then None else idlest).

(** the loop: the least loaded CPU so far and its load; None is -1 *)
Fixpoint idlest_cpu (this : nat) (l : list nat) (idlest : option nat) (min_load : Z) : F (option nat) :=
  match l with
  | [] => mret idlest
  | i :: l =>
      load ← weighted_cpuload i;
      if (load <? min_load) || ((load =? min_load) && bool_decide (i = this)) then idlest_cpu this l (Some i) load
      else idlest_cpu this l idlest min_load
  end.

Definition find_idlest_cpu (g : sched_group) (t this : nat) : F (option nat) :=
  allowed ← tsk_cpus_allowed t;
  idlest_cpu this (for_each_cpu (group_cpus g ∩ allowed)) None ULONG_MAX.

(** ** An idle CPU that shares the cache *)

Definition idle_cpu (c : nat) : F bool :=
  r ← on_base (cpu_rq c);
  k ← topo c;
  mret (bool_decide (RtRq.curr r = idle r) && (nr_running r =? 0) && bool_decide (wake_list k = [])).

Definition cpus_share_cache (this that : nat) : F bool := k ← topo this; k' ← topo that; mret (sd_llc_id k =? sd_llc_id k').

(** whether all CPUs are idle and none of them is [target] *)
Fixpoint all_idle (target : nat) (l : list nat) : F bool :=
  match l with
  | [] => mret true
  | i :: l => if decide (i = target) then mret false else b ← idle_cpu i; if (b : bool) then all_idle target l else mret false
  end.

(** the loop over the groups of a domain: the first idle one *)
Fixpoint idle_group (t target : nat) (l : list sched_group) : F (option nat) :=
  match l with
  | [] => mret None
  | g :: l =>
      allowed ← tsk_cpus_allowed t;
      if bool_decide (group_cpus g ∩ allowed = ∅) then idle_group t target l
      else
        b ← all_idle target (for_each_cpu (group_cpus g));
        if (b : bool) then mret (cpumask_first (group_cpus g ∩ allowed)) else idle_group t target l
  end.

(** the loop over the domains, downwards *)
Fixpoint idle_domain (t target : nat) (l : list sched_domain) : F nat :=
  match l with
  | [] => mret target
  | d :: l => o ← idle_group t target (groups d); match o with Some i => mret i | None => idle_domain t target l end
  end.

Definition select_idle_sibling (t target : nat) : F nat :=
  i ← cpu_of t;
  b ← idle_cpu target;
  if (b : bool) then mret target
  else
    share ← (if decide (i = target) then mret false else cpus_share_cache i target);
    b ← (if (share : bool) then idle_cpu i else mret false);
    if (b : bool) then mret i
    else
      k ← topo target;
      idle_domain t target (rev (take (sd_llc k) (domains k))).

(** ** select_task_rq_fair()

    A domain stands for itself and its children, from large to small. *)

(** for_each_domain(): the domain for an affine wake-up, or else the largest
    domain with [sd_flag] *)
Fixpoint scan_domains (sd_flag : Z) (want_affine : bool) (prev : nat) (below sd : list sched_domain) (l : list sched_domain) :
    option sched_domain * list sched_domain :=
  match l with
  | [] => (None, sd)
  | tmp :: l =>
      let below := tmp :: below in
      if negb (is_set (sd_flags tmp) SD_LOAD_BALANCE) then scan_domains sd_flag want_affine prev below sd l
      else if want_affine && is_set (sd_flags tmp) SD_WAKE_AFFINE && bool_decide (prev ∈ sd_span tmp) then (Some tmp, sd)
      else scan_domains sd_flag want_affine prev below (if is_set (sd_flags tmp) sd_flag then below else sd) l
  end.

(** for_each_domain(): the largest domain with [sd_flag] below [weight] *)
Fixpoint lower_domain (sd_flag weight : Z) (below sd : list sched_domain) (l : list sched_domain) : list sched_domain :=
  match l with
  | [] => sd
  | tmp :: l =>
      let below := tmp :: below in
      if weight <=? span_weight tmp then sd
      else lower_domain sd_flag weight below (if is_set (sd_flags tmp) sd_flag then below else sd) l
  end.

(** the while loop; a [Blocked] result is fuel that ran out *)
Fixpoint balance_loop (fuel : nat) (t : nat) (sd_flag : Z) (cpu : nat) (new_cpu : option nat) (sd : list sched_domain) : F (option nat) :=
  match sd with
  | [] => mret new_cpu
  | d :: child =>
      match fuel with
      | O => block
      | S n =>
          if negb (is_set (sd_flags d) sd_flag) then balance_loop n t sd_flag cpu new_cpu child
          else
            group ← find_idlest_group d t cpu sd_flag;
            match group with
            | None => balance_loop n t sd_flag cpu new_cpu child
            | Some g =>
                new_cpu ← find_idlest_cpu g t cpu;
                match new_cpu with
                | None => balance_loop n t sd_flag cpu new_cpu child
                | Some i =>
                    if decide (i = cpu) then balance_loop n t sd_flag cpu new_cpu child
                    else
                      k ← topo i;
                      balance_loop n t sd_flag i new_cpu (lower_domain sd_flag (span_weight d) [] [] (domains k))
                end
            end
      end
  end.

(** [cpu] is smp_processor_id() *)
Definition select_task_rq_fair (fuel : nat) (cpu t prev_cpu : nat) (sd_flag : Z) (sync : bool) : F (option nat) :=
  p ← on_base (get_rt t);
  if nr_cpus_allowed p =? 1 then mret (Some prev_cpu)
  else
    let wake := is_set sd_flag SD_BALANCE_WAKE in
    let want_affine := wake && bool_decide (cpu ∈ cpus_allowed p) in
    let new_cpu := if wake then prev_cpu else cpu in
    k ← topo cpu;
    r ← on_base (cpu_rq cpu);
    match scan_domains sd_flag want_affine prev_cpu [] [] (domains k) with
    | (Some d, _) =>
        near ← (if decide (cpu = prev_cpu) then mret false else wake_affine d cpu (RtRq.curr r) t sync);
        i ← select_idle_sibling t (if (near : bool) then cpu else prev_cpu);
        mret (Some i)
    | (None, sd) => balance_loop fuel t sd_flag cpu (Some new_cpu) sd
    end.

(** ** select_task_rq() *)

(** the masks of the nodes (None if the node is gone), of active and of possible
    CPUs, and the CPUs of the cpuset of a task *)
Variables (cpumask_of_node : nat -> option (gset nat)) (cpu_active_mask cpu_possible_mask : gset nat) (cpuset_cpus : nat -> gset nat).

Definition usable (w : fw) (m : gset nat) : gset nat := m ∩ cpu_online_mask (fbase w) ∩ cpu_active_mask.

(** an allowed CPU that is online and active *)
Definition any_allowed (t : nat) : F (option nat) :=
  allowed ← tsk_cpus_allowed t; w ← get; mret (cpumask_first (usable w allowed)).

Definition select_fallback_rq (cpu t : nat) : F nat :=
  allowed ← tsk_cpus_allowed t;
  w ← get;
  match (m ← cpumask_of_node cpu; cpumask_first (usable w m ∩ allowed)) with
  | Some i => mret i
  | None =>
      o ← any_allowed t;
      match o with
      | Some i => mret i
      | None =>
          on_base (do_set_cpus_allowed t (cpuset_cpus t)) ;;
          o ← any_allowed t;
          match o with
          | Some i => mret i
          | None =>
              on_base (do_set_cpus_allowed t cpu_possible_mask) ;;
              o ← any_allowed t;
              match o with
              | Some i => mret i
              | None => oops
              end
          end
      end
  end.

Definition select_task_rq (fuel : nat) (this t cpu : nat) (sd_flags : Z) (sync : bool) : F nat :=
  o ← select_task_rq_fair fuel this t cpu sd_flags sync;
  c ← deref (fun _ => o);
  allowed ← tsk_cpus_allowed t;
  w ← get;
  if bool_decide (c ∈ allowed) && bool_decide (c ∈ cpu_online_mask (fbase w)) then mret c
  else d ← cpu_of t; select_fallback_rq d t.
End Select.

(** ** Code that only reads *)

Section Reads.
Context {RL : RtLib} {FL : FairLib} {RB : RbLib}.
Implicit Types (w : fw).

Definition reads {A} (m : F A) w (P : A -> Prop) : Prop := swp False m w (fun a w' => w' = w /\ P a).

Lemma reads_ret {A} (a : A) w (P : A -> Prop) : P a -> reads (mret a) w P.
Proof. intros H. by apply swp_ret. Qed.
Lemma reads_bind {A B} (m : F A) (f : A -> F B) w (P : A -> Prop) (Q : B -> Prop) :
  reads m w P -> (forall a, P a -> reads (f a) w Q) -> reads (mbind f m) w Q.
Proof. intros Hm Hf. eapply swp_seq; [exact Hm|]. intros a w' [-> Ha]. by apply Hf. Qed.
Lemma reads_cons {A} (m : F A) w (P Q : A -> Prop) : reads m w P -> (forall a, P a -> Q a) -> reads m w Q.
Proof. intros Hm H. eapply swp_cons; [exact Hm|]. intros a w' [-> Ha]. auto. Qed.
Lemma reads_deref {A} (f : fw -> option A) w a : f w = Some a -> reads (deref f) w (eq a).
Proof. intros H. by eapply swp_deref. Qed.
Lemma reads_get w : reads get w (eq w).
Proof. by apply swp_get. Qed.
Lemma reads_base {A} (m : W A) w a : m (fbase w) = Ret a (fbase w) -> reads (on_base m) w (eq a).
Proof. intros H. unfold reads, swp, on_base. rewrite H. by destruct w. Qed.
Lemma reads_ends {A} (m : F A) w (P : A -> Prop) : reads m w P -> exists a, m w = Ret a w /\ P a.
Proof. intros H. destruct (swp_ends _ _ _ H) as (a & w' & E & -> & HP). by exists a. Qed.

Lemma reads_cfs w c x : frs w !! c = Some x -> reads (cfs_of c) w (eq (cfs x)).
Proof. intros H. eapply swp_cfs_of; [exact H|]. done. Qed.
Lemma reads_rq w c r : rqs (fbase w) !! c = Some r -> reads (on_base (cpu_rq c)) w (eq r).
Proof. intros H. apply reads_base. unfold cpu_rq, deref. by rewrite H. Qed.
Lemma reads_rt w t p : rts (fbase w) !! t = Some p -> reads (on_base (get_rt t)) w (eq p).
Proof. intros H. apply reads_base. unfold get_rt, deref. by rewrite H. Qed.
Lemma reads_cpu w t k : tasks (krn (fbase w)) !! t = Some k -> reads (cpu_of t) w (eq (tcpu k)).
Proof.
  intros H. apply reads_base. unfold task_cpu, lift_k, get_task, deref, mbind, M_bind. rewrite H. cbn. by destruct (fbase w).
Qed.
Lemma reads_allowed w t p : rts (fbase w) !! t = Some p -> reads (tsk_cpus_allowed t) w (eq (cpus_allowed p)).
Proof. intros H. eapply reads_bind; [by apply reads_rt|]. intros ? <-. by apply reads_ret. Qed.
End Reads.

(** one read, with what is known about its result *)
Ltac rd := eapply reads_bind; [first [by eapply reads_rt|by eapply reads_rq|by eapply reads_cfs|by eapply reads_cpu|by eapply reads_allowed|eapply reads_deref; eassumption|apply reads_get]|intros ? <-].

(** ** What is assumed of the machine *)

Section Machine.
Context {RL : RtLib} {FL : FairLib} {RB : RbLib}.
Variables (topology : gmap nat cpu_topology) (depth : nat).
Implicit Types (w : fw) (c i t me this : nat) (d : sched_domain) (g : sched_group) (k : cpu_topology) (n allowed : gset nat).

Record domain_ok n d : Prop := {
  dk_group : forall g, g ∈ groups d -> group_cpus g ⊆ n /\ 0 < group_power g;
  dk_idx : 0 <= wake_idx d <= 5 /\ 0 <= forkexec_idx d <= 5;
  dk_weight : 0 <= span_weight d <= Z.of_nat (size n)
}.

(** the domains of a CPU grow *)
Record cpu_ok n k : Prop := {
  ck_domain : forall d, d ∈ domains k -> domain_ok n d;
  ck_order : StronglySorted (fun d e => span_weight d <= span_weight e) (domains k);
  ck_depth : (length (domains k) <= depth)%nat;
  ck_load : length (cpu_load k) = 5%nat
}.

Definition cpus w : gset nat := dom (rqs (fbase w)).

Record machine_ok w : Prop := {
  mo_frs : dom (frs w) = cpus w;
  mo_topo : forall c, c ∈ cpus w -> exists k, topology !! c = Some k /\ cpu_ok (cpus w) k;
  mo_load : forall c x, frs w !! c = Some x -> 0 <= runnable_load_avg (cfs x) < ULONG_MAX
}.

Definition load_at w c : Z := from_option (fun x => runnable_load_avg (cfs x)) 0 (frs w !! c).

Section World.
Variable w : fw.
Hypothesis HM : machine_ok w.

Lemma machine_cpu c : c ∈ cpus w -> exists r x k, rqs (fbase w) !! c = Some r /\ frs w !! c = Some x /\ topology !! c = Some k /\ cpu_ok (cpus w) k.
Proof.
  intros Hc. pose proof Hc as Hf. rewrite <- (mo_frs _ HM) in Hf. apply elem_of_dom in Hf as [x Hx]. pose proof Hc as Hr. unfold cpus in Hr. apply elem_of_dom in Hr as [r Hr].
  destruct (mo_topo _ HM c Hc) as (k & Hk & Ok). by exists r, x, k.
Qed.

Lemma weighted_reads c : c ∈ cpus w -> reads (weighted_cpuload c) w (eq (load_at w c)).
Proof.
  intros Hc. destruct (machine_cpu c Hc) as (r & x & k & _ & Hx & _). unfold weighted_cpuload. rd. apply reads_ret. unfold load_at. by rewrite Hx.
Qed.

(** the load of a CPU with the average of the index [type], and of a group *)
Definition biased (f : Z -> Z -> Z) c (type : Z) : Z :=
  if (type =? 0) || negb LB_BIAS then load_at w c
  else f (default 0 (topology !! c ≫= fun k => cpu_load k !! Z.to_nat (type - 1))) (load_at w c).
Definition group_sum (b : bool) (idx : Z) (l : list nat) (z : Z) : Z :=
  fold_left (fun z i => u64 (z + biased (if b then Z.min else Z.max) i idx)) l z.
Definition avg_load this (idx : Z) g : Z :=
  u64 (group_sum (bool_decide (this ∈ group_cpus g)) idx (for_each_cpu (group_cpus g)) 0 * SCHED_POWER_SCALE) / group_power g.

Lemma biased_reads (f : Z -> Z -> Z) c type : c ∈ cpus w -> 0 <= type <= 5 ->
  reads (total ← weighted_cpuload c; if (type =? 0) || negb LB_BIAS then mret total
         else k ← topo topology c; l ← deref (fun _ => cpu_load k !! Z.to_nat (type - 1)); mret (f l total)) w (eq (biased f c type)).
Proof.
  intros Hc Ht. destruct (machine_cpu c Hc) as (r & x & k & _ & Hx & Hk & Ok). eapply reads_bind; [by apply weighted_reads|]. intros total <-. unfold biased.
  destruct (Z.eqb_spec type 0) as [|Hn]; cbn [orb]; [by apply reads_ret|]. destruct (negb LB_BIAS); [by apply reads_ret|].
  eapply reads_bind; [eapply reads_deref; exact Hk|]. intros ? <-.
  destruct (lookup_lt_is_Some_2 (cpu_load k) (Z.to_nat (type - 1))) as [l Hl]; [rewrite (ck_load _ _ Ok); lia|].
  eapply reads_bind; [eapply (reads_deref (fun _ => cpu_load k !! Z.to_nat (type - 1))); exact Hl|]. intros ? <-. apply reads_ret.
  rewrite Hk. cbn. by rewrite Hl.
Qed.

Lemma group_load_reads b idx l z : (forall i, i ∈ l -> i ∈ cpus w) -> 0 <= idx <= 5 -> reads (group_load topology b idx l z) w (eq (group_sum b idx l z)).
Proof.
  revert z. induction l as [|i l IH]; intros z Hl Hi; cbn [group_load group_sum fold_left]; [by apply reads_ret|]. assert (Hc : i ∈ cpus w) by (apply Hl; by left).
  eapply (reads_bind _ _ _ (eq (biased (if b then Z.min else Z.max) i idx))); [destruct b; by apply biased_reads|]. intros load <-.
  apply IH; [|done]. intros j Hj. apply Hl. by right.
Qed.

(** ** The least loaded group *)

(** a group other than that of [this], with a CPU the task may use *)
Definition remote allowed this g : Prop := group_cpus g ∩ allowed <> ∅ /\ this ∉ group_cpus g.

Definition least_group allowed this idx (l : list sched_group) (o : option sched_group) (z : Z) : Prop :=
  match o with
  | Some g => g ∈ l /\ remote allowed this g /\ z = avg_load this idx g
  | None => z = ULONG_MAX
  end /\ forall g, g ∈ l -> remote allowed this g -> z <= avg_load this idx g.

Lemma idlest_group_reads t this idx p seen l o z y :
  rts (fbase w) !! t = Some p -> 0 <= idx <= 5 -> (forall g, g ∈ l -> group_cpus g ⊆ cpus w /\ 0 < group_power g) ->
  least_group (cpus_allowed p) this idx seen o z ->
  reads (idlest_group topology t this idx l o z y) w (fun a => least_group (cpus_allowed p) this idx (seen ++ l) (fst (fst a)) (snd (fst a))).
Proof.
  intros Hp Hi. revert seen o z y. induction l as [|g l IH]; intros seen o z y Hl Ho; cbn [idlest_group]; [rewrite app_nil_r; by apply reads_ret|].
  assert (Es : seen ++ g :: l = (seen ++ [g]) ++ l) by by rewrite <- app_assoc. rewrite Es.
  assert (Hl' : forall h, h ∈ l -> group_cpus h ⊆ cpus w /\ 0 < group_power h) by (intros h Hh; apply Hl; by right).
  destruct (Hl g ltac:(by left)) as [Hg Hpw].
  (* the group is not a better candidate *)
  assert (Hsame : (remote (cpus_allowed p) this g -> z <= avg_load this idx g) -> least_group (cpus_allowed p) this idx (seen ++ [g]) o z).
  { intros Hz. destruct Ho as [Ho1 Ho2]. split; [destruct o as [h|]; [|done]; destruct Ho1 as (? & ? & ?); split_and!; [rewrite elem_of_app; by left|done..]|].
    intros h [Hh| ->%list_elem_of_singleton]%elem_of_app; auto. }
  rd. case_bool_decide as Ea; [apply IH; [done|]; apply Hsame; by intros [? _]|].
  eapply reads_bind; [apply group_load_reads; [intros i Hii%elem_of_for_each_cpu; set_solver|done]|]. intros ? <-.
  rewrite (proj2 (Z.eqb_neq _ _)) by lia. cbv zeta. fold (avg_load this idx g). case_bool_decide as El.
  { apply IH; [done|]. apply Hsame. by intros [_ ?]. }
  destruct (Z.ltb_spec (avg_load this idx g) z) as [Hlt|Hge]; apply IH; try done; [|by apply Hsame].
  split; [split; [rewrite elem_of_app; right; by left|done]|].
  intros h [Hh| ->%list_elem_of_singleton]%elem_of_app Hr; [|lia]. destruct Ho as [_ Ho]. specialize (Ho h Hh Hr). lia.
Qed.

Definition load_idx d (sd_flag : Z) : Z := if is_set sd_flag SD_BALANCE_WAKE then wake_idx d else forkexec_idx d.

Lemma find_idlest_group_reads d t this sd_flag p : rts (fbase w) !! t = Some p -> domain_ok (cpus w) d ->
  reads (find_idlest_group topology d t this sd_flag) w (fun o => forall g, o = Some g -> g ∈ groups d /\ remote (cpus_allowed p) this g /\
    forall h, h ∈ groups d -> remote (cpus_allowed p) this h -> avg_load this (load_idx d sd_flag) g <= avg_load this (load_idx d sd_flag) h).
Proof.
  intros Hp Hd. unfold find_idlest_group. cbv zeta. fold (load_idx d sd_flag).
  assert (Hi : 0 <= load_idx d sd_flag <= 5) by (unfold load_idx; destruct (is_set _ _); apply Hd).
  eapply reads_bind; [apply (idlest_group_reads t this (load_idx d sd_flag) p [] (groups d) None ULONG_MAX 0 Hp Hi); [apply Hd|]|].
  { split; [done|]. by intros g Hg%elem_of_nil. }
  intros [[o z] y] [H1 H2]. apply reads_ret. destruct (_ <? _); [done|]. cbn in H1, H2. intros g ->. destruct H1 as (Hin & Hr & ->). done.
Qed.

(** ** The least loaded CPU *)

(** [o] is the least loaded of the CPUs [l], and [this] if that is one of them *)
Definition least this (l : list nat) (o : option nat) : Prop :=
  match o with
  | Some i => i ∈ l /\ (forall j, j ∈ l -> load_at w i <= load_at w j) /\ (this ∈ l -> load_at w this = load_at w i -> i = this)
  | None => l = []
  end.

Definition best_load (o : option nat) : Z := match o with Some i => load_at w i | None => ULONG_MAX end.

Lemma load_range c : c ∈ cpus w -> 0 <= load_at w c < ULONG_MAX.
Proof. intros Hc. destruct (machine_cpu c Hc) as (r & x & k & _ & Hx & _). unfold load_at. rewrite Hx. by apply (mo_load _ HM c). Qed.

Lemma idlest_cpu_reads this seen l o : (forall i, i ∈ seen ++ l -> i ∈ cpus w) -> NoDup (seen ++ l) -> least this seen o ->
  reads (idlest_cpu this l o (best_load o)) w (least this (seen ++ l)).
Proof.
  revert seen o. induction l as [|i l IH]; intros seen o Hl Hn Ho; cbn [idlest_cpu]; [rewrite app_nil_r; by apply reads_ret|].
  assert (Hi : i ∈ cpus w) by (apply Hl; rewrite elem_of_app; right; by left). pose proof (load_range i Hi) as Hr.
  assert (Es : seen ++ i :: l = (seen ++ [i]) ++ l) by by rewrite <- app_assoc.
  assert (Hni : i ∉ seen) by (apply NoDup_app in Hn as (_ & Hd & _); intros Hin; apply (Hd i Hin); by left).
  rewrite Es in Hl, Hn |- *. eapply reads_bind; [by apply weighted_reads|]. intros ? <-. destruct ((load_at w i <? best_load o) || _) eqn:Eb.
  - apply (IH (seen ++ [i]) (Some i)); [done|done|]. cbn. split; [rewrite elem_of_app; right; by left|].
    assert (Hle : forall j, j ∈ seen -> load_at w i <= load_at w j).
    { intros j Hj. destruct o as [u|]; [|cbn in Ho; subst seen; by apply elem_of_nil in Hj]. destruct Ho as (_ & Ho & _). specialize (Ho j Hj). cbn in Eb.
      apply orb_true_iff in Eb as [Eb%Z.ltb_lt|[Eb%Z.eqb_eq _]%andb_true_iff]; lia. }
    split; [intros j [Hj| ->%list_elem_of_singleton]%elem_of_app; [auto|lia]|].
    intros [Ht| ->%list_elem_of_singleton]%elem_of_app Hload; [|done]. destruct o as [u|]; [|cbn in Ho; subst seen; by apply elem_of_nil in Ht].
    destruct Ho as (Hu & Hmin & Hthis). cbn in Eb. pose proof (Hmin this Ht). apply orb_true_iff in Eb as [Eb%Z.ltb_lt|[Eb%Z.eqb_eq Hit%bool_decide_eq_true]%andb_true_iff]; [lia|done].
  - apply orb_false_iff in Eb as [E1%Z.ltb_ge E2]. apply (IH (seen ++ [i]) o); [done|done|]. destruct o as [u|]; [|cbn in E1; lia].
    cbn in E1, E2. destruct Ho as (Hu & Hmin & Hthis). split; [rewrite elem_of_app; by left|].
    split; [intros j [Hj| ->%list_elem_of_singleton]%elem_of_app; [auto|lia]|].
    intros [Ht| ->%list_elem_of_singleton]%elem_of_app Hload; [auto|]. rewrite Hload, Z.eqb_refl in E2. cbn in E2. by apply bool_decide_eq_false in E2.
Qed.

Lemma for_each_nodup (m : gset nat) : NoDup (for_each_cpu m).
Proof. unfold for_each_cpu. rewrite merge_sort_Permutation. apply NoDup_elements. Qed.

Lemma find_idlest_cpu_reads g t this p : rts (fbase w) !! t = Some p -> group_cpus g ⊆ cpus w ->
  reads (find_idlest_cpu g t this) w (least this (for_each_cpu (group_cpus g ∩ cpus_allowed p))).
Proof.
  intros Hp Hg. unfold find_idlest_cpu. rd. apply (idlest_cpu_reads this [] (for_each_cpu (group_cpus g ∩ cpus_allowed p)) None); [|apply for_each_nodup|done].
  intros i Hi%elem_of_for_each_cpu. set_solver.
Qed.

(** ** An idle CPU *)

Lemma idle_cpu_reads c : c ∈ cpus w -> reads (idle_cpu topology c) w (fun _ => True).
Proof. intros Hc. destruct (machine_cpu c Hc) as (r & x & k & Hr & Hx & Hk & Ok). unfold idle_cpu. rd. rd. by apply reads_ret. Qed.

Lemma all_idle_reads target l : (forall i, i ∈ l -> i ∈ cpus w) -> reads (all_idle topology target l) w (fun _ => True).
Proof.
  induction l as [|i l IH]; intros Hl; cbn [all_idle]; [by apply reads_ret|]. case_decide; [by apply reads_ret|].
  eapply reads_bind; [apply idle_cpu_reads, Hl; by left|]. intros [] _; [|by apply reads_ret]. apply IH. intros j Hj. apply Hl. by right.
Qed.

Lemma cpumask_first_Some (m : gset nat) : m <> ∅ -> exists i, cpumask_first m = Some i /\ i ∈ m.
Proof.
  intros Hm. destruct (cpumask_first m) as [i|] eqn:E; [exists i; split; [done|by apply cpumask_first_in]|]. exfalso. apply set_choose_L in Hm as [i Hi].
  unfold cpumask_first in E. apply elem_of_for_each_cpu in Hi. destruct (for_each_cpu m); [by apply elem_of_nil in Hi|done].
Qed.

Lemma idle_group_reads t target l p : rts (fbase w) !! t = Some p -> (forall g, g ∈ l -> group_cpus g ⊆ cpus w) ->
  reads (idle_group topology t target l) w (fun o => forall i, o = Some i -> i ∈ cpus_allowed p /\ i ∈ cpus w).
Proof.
  intros Hp. induction l as [|g l IH]; intros Hl; cbn [idle_group]; [by apply reads_ret|]. assert (Hg : group_cpus g ⊆ cpus w) by (apply Hl; by left).
  rd. case_bool_decide as Ea; [apply IH; intros h Hh; apply Hl; by right|].
  eapply reads_bind; [apply all_idle_reads; intros i Hi%elem_of_for_each_cpu; set_solver|].
  intros [] _; [|apply IH; intros h Hh; apply Hl; by right]. apply reads_ret. intros i Hi%cpumask_first_in. set_solver.
Qed.

Lemma idle_domain_reads t target l p : rts (fbase w) !! t = Some p -> (forall d, d ∈ l -> domain_ok (cpus w) d) ->
  reads (idle_domain topology t target l) w (fun i => i = target \/ i ∈ cpus_allowed p /\ i ∈ cpus w).
Proof.
  intros Hp. induction l as [|d l IH]; intros Hl; cbn [idle_domain]; [apply reads_ret; by left|].
  eapply reads_bind; [apply (idle_group_reads t target (groups d) p Hp); intros g Hg; by apply (dk_group _ _ (Hl d ltac:(by left)))|].
  intros [i|] Hi; [apply reads_ret; right; by apply Hi|]. apply IH. intros e He. apply Hl. by right.
Qed.

(** what select_task_rq_fair() may return: a CPU of the machine that is one of
    those it starts from, or one the task may use *)
Definition fit (start : list nat) allowed i : Prop := i ∈ cpus w /\ (i ∈ start \/ i ∈ allowed).

Lemma idle_sibling_reads t target p y : rts (fbase w) !! t = Some p -> tasks (krn (fbase w)) !! t = Some y ->
  tcpu y ∈ cpus w -> target ∈ cpus w -> reads (select_idle_sibling topology t target) w (fit [target; tcpu y] (cpus_allowed p)).
Proof.
  intros Hp Hy Hc Ht. assert (F1 : fit [target; tcpu y] (cpus_allowed p) target) by (split; [done|]; left; by left).
  assert (F2 : fit [target; tcpu y] (cpus_allowed p) (tcpu y)) by (split; [done|]; left; right; by left).
  destruct (machine_cpu target Ht) as (r & x & k & Hr & Hx & Hk & Ok). destruct (machine_cpu _ Hc) as (r' & x' & k' & Hr' & Hx' & Hk' & Ok').
  unfold select_idle_sibling. rd. eapply reads_bind; [by apply idle_cpu_reads|]. intros [] _; [by apply reads_ret|].
  eapply (reads_bind _ _ _ (fun _ => True)).
  { case_decide; [by apply reads_ret|]. unfold cpus_share_cache. rd. rd. by apply reads_ret. }
  intros share _. eapply (reads_bind _ _ _ (fun _ => True)); [destruct share; [by apply idle_cpu_reads|by apply reads_ret]|]. intros [] _; [by apply reads_ret|].
  rd. eapply reads_cons; [apply (idle_domain_reads t target _ p Hp)|].
  - intros d Hd. apply (ck_domain _ _ Ok). rewrite <- (take_drop (sd_llc k) (domains k)), elem_of_app. left. by apply list_elem_of_In, in_rev, list_elem_of_In.
  - intros i [->|[? ?]]; [done|]. split; [done|by right].
Qed.

Lemma wake_affine_reads d this me t sync y : domain_ok (cpus w) d -> this ∈ cpus w -> is_Some (fes w !! me) -> is_Some (fes w !! t) ->
  tasks (krn (fbase w)) !! t = Some y -> tcpu y ∈ cpus w -> reads (wake_affine topology d this me t sync) w (fun _ => True).
Proof.
  intros Hd Ht [m Hm] [e He] Hy Hc. destruct (machine_cpu this Ht) as (r & x & k & Hr & Hx & Hk & Ok). destruct (machine_cpu _ Hc) as (r' & x' & k' & Hr' & Hx' & Hk' & Ok').
  pose proof (proj1 (dk_idx _ _ Hd)) as Hi. unfold wake_affine. eapply (reads_bind _ _ _ (fun _ => True)).
  { unfold wake_wide. rd. rd. rd. by apply reads_ret. }
  intros [] _; [by apply reads_ret|]. cbv zeta. rd. eapply reads_bind; [by apply (biased_reads Z.min)|]. intros load _.
  eapply reads_bind; [by apply (biased_reads Z.max)|]. intros tload _. rd. rd.
  eapply (reads_bind _ _ _ (fun _ => True)); [unfold power_of; rd; by apply reads_ret|]. intros pp _.
  eapply (reads_bind _ _ _ (fun _ => True)); [unfold power_of; rd; by apply reads_ret|]. intros tp _. destruct (sync && _); [by apply reads_ret|].
  eapply (reads_bind _ _ _ (fun _ => True)); [unfold cpu_avg_load_per_task; rd; rd; by apply reads_ret|]. intros tl _.
  eapply reads_bind; [by apply (biased_reads Z.max)|]. intros pt _. by apply reads_ret.
Qed.

(** ** The loop downwards *)

(** a domain with its children *)
Record chain (l : list sched_domain) : Prop := {
  ch_ok : forall d, d ∈ l -> domain_ok (cpus w) d;
  ch_order : StronglySorted (fun d e => span_weight e <= span_weight d) l;
  ch_len : (length l <= depth)%nat
}.

Lemma sorted_rev (l : list sched_domain) :
  StronglySorted (fun d e => span_weight d <= span_weight e) l -> StronglySorted (fun d e => span_weight e <= span_weight d) (rev l).
Proof.
  induction 1 as [|d l Hs IH Hd]; cbn; [constructor|]. apply StronglySorted_app. split_and!; [|done|repeat constructor].
  intros a b Ha ->%list_elem_of_singleton. rewrite Forall_forall in Hd. apply Hd. by apply list_elem_of_In, in_rev, list_elem_of_In.
Qed.

(** the domains of a CPU up to one of them *)
Lemma chain_prefix k pre post : cpu_ok (cpus w) k -> domains k = pre ++ post -> chain (rev pre).
Proof.
  intros [H1 H2 H3 _] E. rewrite E in *. split.
  - intros d Hd. apply H1. rewrite elem_of_app. left. by apply list_elem_of_In, in_rev, list_elem_of_In.
  - apply sorted_rev. by apply StronglySorted_app in H2 as (_ & ? & _).
  - rewrite length_rev. rewrite length_app in H3. lia.
Qed.
Lemma chain_nil : chain [].
Proof. split; [by intros d Hd%elem_of_nil|constructor|cbn; lia]. Qed.
Lemma chain_child d l : chain (d :: l) -> chain l.
Proof. intros [H1 H2 H3]. split; [intros e He; apply H1; by right|by inversion H2|cbn in H3; lia]. Qed.

Lemma scan_chain k sd_flag affine prev pre sd l : cpu_ok (cpus w) k -> domains k = pre ++ l -> chain sd ->
  chain (snd (scan_domains sd_flag affine prev (rev pre) sd l)) /\ forall d, fst (scan_domains sd_flag affine prev (rev pre) sd l) = Some d -> domain_ok (cpus w) d.
Proof.
  intros Ok. revert pre sd. induction l as [|tmp l IH]; intros pre sd E Hsd; cbn [scan_domains]; [by split|].
  assert (Er : tmp :: rev pre = rev (pre ++ [tmp])) by by rewrite rev_app_distr. assert (E' : domains k = (pre ++ [tmp]) ++ l) by by rewrite <- app_assoc. rewrite Er.
  destruct (negb _); [by apply IH|]. destruct (_ && _ && _); cbn [fst snd].
  - split; [done|]. intros d [= <-]. apply (ck_domain _ _ Ok). rewrite E, elem_of_app. right. by left.
  - apply IH; [done|]. destruct (is_set _ _); [by eapply chain_prefix|done].
Qed.

Lemma lower_chain k sd_flag weight pre sd l : cpu_ok (cpus w) k -> domains k = pre ++ l ->
  chain sd /\ (forall d, head sd = Some d -> span_weight d < weight) ->
  chain (lower_domain sd_flag weight (rev pre) sd l) /\ forall d, head (lower_domain sd_flag weight (rev pre) sd l) = Some d -> span_weight d < weight.
Proof.
  intros Ok. revert pre sd. induction l as [|tmp l IH]; intros pre sd E Hsd; cbn [lower_domain]; [done|].
  destruct (Z.leb_spec weight (span_weight tmp)) as [|Hlt]; [done|].
  assert (Er : tmp :: rev pre = rev (pre ++ [tmp])) by by rewrite rev_app_distr. assert (E' : domains k = (pre ++ [tmp]) ++ l) by by rewrite <- app_assoc. rewrite Er.
  apply IH; [done|]. destruct (is_set _ _); [|done]. split; [by eapply chain_prefix|]. rewrite <- Er. by intros d [= <-].
Qed.

(** how many turns are left at most: every turn goes to a child or to a smaller domain *)
Definition turns_left (l : list sched_domain) : Z :=
  match l with [] => 0 | d :: _ => span_weight d * Z.of_nat (S depth) + Z.of_nat (length l) end.

Lemma turns_child d l : chain (d :: l) -> turns_left l < turns_left (d :: l).
Proof.
  intros [H1 H2 _]. pose proof (dk_weight _ _ (H1 d ltac:(by left))). unfold turns_left. destruct l as [|e l]; cbn [length]; [nia|].
  apply StronglySorted_inv in H2 as [_ H2]. apply Forall_cons in H2 as [H2 _]. nia.
Qed.
Lemma turns_lower d l l' : chain (d :: l) -> chain l' -> (forall e, head l' = Some e -> span_weight e < span_weight d) -> turns_left l' < turns_left (d :: l).
Proof.
  intros [H1 _ _] [_ _ H3] Hl. pose proof (dk_weight _ _ (H1 d ltac:(by left))). unfold turns_left. destruct l' as [|e l']; cbn [length] in *; [nia|].
  specialize (Hl e eq_refl). nia.
Qed.

Lemma balance_reads fuel t sd_flag cpu start i sd p : rts (fbase w) !! t = Some p -> cpu ∈ cpus w -> fit start (cpus_allowed p) i -> chain sd ->
  turns_left sd <= Z.of_nat fuel ->
  reads (balance_loop topology fuel t sd_flag cpu (Some i) sd) w (fun o => exists j, o = Some j /\ fit start (cpus_allowed p) j).
Proof.
  intros Hp. revert cpu i sd. induction fuel as [|fuel IH]; intros cpu i [|d child] Hcpu Hi Hch Hf; cbn [balance_loop]; try (apply reads_ret; by eexists).
  { pose proof (turns_child d child Hch). assert (0 <= turns_left child); [|lia]. destruct child as [|e child]; [done|].
    pose proof (dk_weight _ _ (ch_ok _ Hch e ltac:(right; by left))). cbn [turns_left]. nia. }
  pose proof (turns_child d child Hch) as Hlt. pose proof (chain_child d child Hch) as Hch'. pose proof (ch_ok _ Hch d ltac:(by left)) as Hd.
  destruct (negb _); [apply IH; try done; lia|]. eapply reads_bind; [by apply (find_idlest_group_reads d t cpu sd_flag p)|].
  intros [g|] Hg; [|apply IH; try done; lia]. destruct (Hg g eq_refl) as (Hin & [Hne _] & _). destruct (dk_group _ _ Hd g Hin) as [Hsub _].
  eapply reads_bind; [by apply (find_idlest_cpu_reads g t cpu p)|]. intros [j|] Hj.
  - destruct Hj as [Hj%elem_of_for_each_cpu _]. assert (Hjc : j ∈ cpus w) by set_solver. assert (Fj : fit start (cpus_allowed p) j) by (split; [done|right; set_solver]).
    case_decide as E; [apply IH; try done; lia|]. destruct (machine_cpu j Hjc) as (r & x & k & _ & _ & Hk & Ok). rd.
    destruct (lower_chain k sd_flag (span_weight d) [] [] (domains k) Ok eq_refl) as [C1 C2]; [split; [apply chain_nil|done]|].
    pose proof (turns_lower d child _ Hch C1 C2). apply IH; try done. cbn [rev] in *. lia.
  - exfalso. cbn in Hj. apply set_choose_L in Hne as [j Hj']. apply elem_of_for_each_cpu in Hj'. rewrite Hj in Hj'. by apply elem_of_nil in Hj'.
Qed.

(** select_task_rq_fair() *)
Lemma select_fair_reads fuel cpu t prev sd_flag sync p y : rts (fbase w) !! t = Some p -> tasks (krn (fbase w)) !! t = Some y -> tcpu y ∈ cpus w ->
  cpu ∈ cpus w -> prev ∈ cpus w -> is_Some (fes w !! t) -> (forall r, rqs (fbase w) !! cpu = Some r -> is_Some (fes w !! RtRq.curr r)) ->
  ((size (cpus w) + 1) * S depth <= fuel)%nat ->
  reads (select_task_rq_fair topology fuel cpu t prev sd_flag sync) w (fun o => exists i, o = Some i /\ fit [cpu; prev; tcpu y] (cpus_allowed p) i).
Proof.
  intros Hp Hy Hc Hcpu Hprev He Hme Hfuel. destruct (machine_cpu cpu Hcpu) as (r & x & k & Hr & Hx & Hk & Ok).
  assert (Fp : fit [cpu; prev; tcpu y] (cpus_allowed p) prev) by (split; [done|left; right; by left]).
  assert (Fc : fit [cpu; prev; tcpu y] (cpus_allowed p) cpu) by (split; [done|left; by left]).
  unfold select_task_rq_fair. rd. destruct (_ =? 1); [apply reads_ret; by eexists|]. cbv zeta. rd. rd.
  set (affine := is_set sd_flag SD_BALANCE_WAKE && _). pose proof (scan_chain k sd_flag affine prev [] [] (domains k) Ok eq_refl chain_nil) as [Hch Hok]. cbn [rev] in *.
  destruct (scan_domains sd_flag affine prev [] [] (domains k)) as [[d|] sd]; cbn [fst snd] in *.
  - eapply (reads_bind _ _ _ (fun _ => True)); [case_decide; [by apply reads_ret|]; apply (wake_affine_reads d cpu (RtRq.curr r) t sync y); auto|]. intros near _.
    eapply reads_bind; [apply (idle_sibling_reads t (if near then cpu else prev) p y); try done; by destruct near|].
    intros i [Hi Hs]. apply reads_ret. exists i. split; [done|]. split; [done|]. destruct Hs as [Hs|Hs]; [left|by right].
    apply elem_of_cons in Hs as [->|Hs]; [destruct near; [by left|right; by left]|]. right. right. done.
  - apply (balance_reads fuel t sd_flag cpu [cpu; prev; tcpu y]); try done; [by destruct (is_set sd_flag SD_BALANCE_WAKE)|].
    destruct sd as [|d sd]; [cbn; lia|]. pose proof (dk_weight _ _ (ch_ok _ Hch d ltac:(by left))). pose proof (ch_len _ Hch). unfold turns_left. cbn [length] in *. nia.
Qed.
End World.
End Machine.

(** ** The fallback *)

Section Fallback.
Context {RL : RtLib} {FL : FairLib} {RB : RbLib}.
Variables (cpumask_of_node : nat -> option (gset nat)) (cpu_active_mask cpu_possible_mask : gset nat) (cpuset_cpus : nat -> gset nat).
Implicit Types (w : fw) (t i : nat) (p : rt_task).
#[local] Abbreviation usable := (usable cpu_active_mask).
#[local] Abbreviation any_allowed := (any_allowed cpu_active_mask).

Lemma any_allowed_reads w t p : rts (fbase w) !! t = Some p ->
  reads (any_allowed t) w (fun o => match o with Some i => i ∈ usable w (cpus_allowed p) | None => usable w (cpus_allowed p) = ∅ end).
Proof.
  intros Hp. unfold FairSel.any_allowed. rd. rd. apply reads_ret. destruct (cpumask_first _) as [i|] eqn:E; [by apply cpumask_first_in|].
  destruct (decide (usable w (cpus_allowed p) = ∅)) as [|Hn]; [done|]. destruct (cpumask_first_Some _ Hn) as (i & Hi & _). congruence.
Qed.

(** another affinity *)
Lemma set_allowed w t p (m : gset nat) : rts (fbase w) !! t = Some p -> class p = fair_class ->
  swp False (on_base (do_set_cpus_allowed t m)) w (fun _ w' => cpu_online_mask (fbase w') = cpu_online_mask (fbase w) /\
    exists p', rts (fbase w') !! t = Some p' /\ cpus_allowed p' = m /\ class p' = fair_class).
Proof.
  intros Hp Hc. assert (E : do_set_cpus_allowed t m (fbase w) =
    Ret tt (set_rts (<[t := set_nr_cpus_allowed (cpumask_weight m) (set_cpus_allowed m p)]> (rts (fbase w))) (fbase w))).
  { unfold do_set_cpus_allowed, get_rt, deref, put_rt, modify, mbind, M_bind. rewrite Hp, bool_decide_false by congruence. cbn. by rewrite Hp. }
  unfold swp, on_base. rewrite E. cbn. split; [done|]. eexists. by rewrite lookup_insert_eq.
Qed.

(** where the task ends up *)
Definition settled w t i w' : Prop :=
  i ∈ cpu_online_mask (fbase w) /\ exists p', rts (fbase w') !! t = Some p' /\ i ∈ cpus_allowed p'.

Lemma fallback_ok w cpu t p : rts (fbase w) !! t = Some p -> class p = fair_class -> usable w cpu_possible_mask <> ∅ ->
  swp False (select_fallback_rq cpumask_of_node cpu_active_mask cpu_possible_mask cpuset_cpus cpu t) w (fun i w' =>
    settled w t i w' /\ (usable w (cpus_allowed p) <> ∅ -> w' = w)).
Proof.
  intros Hp Hc Hpos. unfold select_fallback_rq. eapply swp_seq; [by apply (reads_allowed w t p)|]. intros ? ? [-> <-]. apply swp_bind, swp_get.
  destruct (_ ≫= _) as [i|] eqn:En.
  { apply swp_ret. apply bind_Some in En as (m & _ & Hi%cpumask_first_in). split; [|done]. split; [unfold FairSel.usable in Hi; set_solver|].
    exists p. split; [done|]. unfold FairSel.usable in Hi. set_solver. }
  assert (Hgo : forall w1 p1 (f : F nat), rts (fbase w1) !! t = Some p1 -> cpu_online_mask (fbase w1) = cpu_online_mask (fbase w) ->
    (usable w1 (cpus_allowed p1) = ∅ -> swp False f w1 (settled w t)) ->
    swp False (o ← any_allowed t; match o with Some i => mret i | None => f end) w1 (fun i w' =>
      settled w t i w' /\ (usable w1 (cpus_allowed p1) <> ∅ -> w' = w1))).
  { intros w1 p1 f Hp1 Ho Hf. eapply swp_seq; [by apply any_allowed_reads|]. intros [i|] ? [-> Hi].
    - apply swp_ret. unfold FairSel.usable in Hi. rewrite Ho in Hi. split; [split; [set_solver|exists p1; split; [done|set_solver]]|done].
    - eapply swp_cons; [by apply Hf|]. intros i w' Hw'. split; [done|]. by intros []. }
  apply (Hgo w p); [done|done|]. intros _. eapply swp_seq; [by apply (set_allowed w t p)|]. intros _ w1 (Ho1 & p1 & Hp1 & _ & Hc1).
  eapply swp_cons; [apply (Hgo w1 p1); [done|done|]|by intros i w' []]. intros _. eapply swp_seq; [by apply (set_allowed w1 t p1)|].
  intros _ w2 (Ho2 & p2 & Hp2 & Hm & Hc2). eapply swp_cons; [apply (Hgo w2 p2); [done|congruence|]|by intros i w' []]. intros Hempty.
  exfalso. apply Hpos. unfold FairSel.usable in *. by rewrite Hm, Ho2, Ho1 in Hempty.
Qed.

Context (topology : gmap nat cpu_topology) (depth : nat).

(** the whole choice *)
Lemma select_ok w fuel this t prev sd_flag sync p y :
  machine_ok topology depth w -> rts (fbase w) !! t = Some p -> class p = fair_class -> tasks (krn (fbase w)) !! t = Some y -> tcpu y ∈ cpus w ->
  this ∈ cpus w -> prev ∈ cpus w -> is_Some (fes w !! t) -> (forall r, rqs (fbase w) !! this = Some r -> is_Some (fes w !! RtRq.curr r)) ->
  ((size (cpus w) + 1) * S depth <= fuel)%nat -> usable w cpu_possible_mask <> ∅ ->
  swp False (select_task_rq topology cpumask_of_node cpu_active_mask cpu_possible_mask cpuset_cpus fuel this t prev sd_flag sync) w (fun i w' =>
    settled w t i w' /\ (usable w (cpus_allowed p) <> ∅ -> w' = w)).
Proof.
  intros HM Hp Hc Hy Hcy Ht Hprev He Hme Hfuel Hpos. unfold select_task_rq.
  eapply swp_seq; [by apply (select_fair_reads topology depth w HM fuel this t prev sd_flag sync p y)|]. intros o ? [-> (i & -> & Hi)].
  apply swp_bind. eapply (swp_deref _ (fun _ => Some i)); [done|]. eapply swp_seq; [by apply (reads_allowed w t p)|]. intros ? ? [-> <-]. apply swp_bind, swp_get.
  destruct (bool_decide _ && bool_decide _) eqn:Eb.
  - apply andb_true_iff in Eb as [E1%bool_decide_eq_true E2%bool_decide_eq_true]. apply swp_ret. split; [|done]. split; [done|by exists p].
  - eapply swp_seq; [by apply (reads_cpu w t y)|]. intros ? ? [-> <-]. by apply fallback_ok.
Qed.
End Fallback.
