(* ===== verification/FairProps.v ===== *)
(** * The fair class: the properties *)

From S2P Require Import Prelude Wait Tasklet Cmgroup Sched CmInv CmTask CmSys CmTop EpTree RtRq RtPush RtInv RtBalance RtStep RtBoot.
From S2P Require Import FairRq FairMath FairInv FairStep FairSys FairOrder FairSel.
Local Open Scope Z_scope.

(** ** A machine

    [demo_fair] is one implementation of what the class takes from elsewhere.
    The machine has two CPUs, which run their idle tasks 0 and 1; the tasks 2 and 3
    (nice 0), 4 (nice -20) and 5 (nice 5) sleep on CPU 0. *)

#[export] Instance demo_fair : FairLib := {|
  mul_u64_u32_shr a m s := u64 (Z.shiftr (a * m) s);
  ilog2 := Z.log2;
  START_DEBIT := true;
  GENTLE_FAIR_SLEEPERS := true;
  NEXT_BUDDY := false;
  LAST_BUDDY := true;
  WAKEUP_PREEMPTION := true;
  LB_BIAS := true
|}.
#[export] Instance demo_fair_laws : FairLaws demo_fair.
Proof. by split. Qed.
#[export] Existing Instance rb_plain.

Definition zero_avg : sched_avg := SchedAvg 0 0 0 0 0.
Definition zero_cfs_rq : cfs_rq := CfsRq (LoadWeight 0 0) 0 0 0 rb_null None None None None None 0 0 0 0 0.
Definition fresh_fair_rq : fair_rq := FairRq (init_cfs_rq zero_cfs_rq) (LoadWeight 0 0) zero_avg [].
Definition fresh_entity (nice : Z) : sched_entity :=
  SchedEntity (default (LoadWeight 0 0) (set_load_weight SCHED_OTHER (NICE_TO_PRIO nice))) false 0 0 zero_avg (NICE_TO_PRIO nice) 0 0 None.
Definition demo_tunables : tunables := Tunables 6000000 6000000 750000 750000 1000000 1000000 8 0 SCHED_TUNABLESCALING_LOG.

Definition demo_fbase : rtw :=
  RtW {[ 0%nat := demo_rq 950000000 0; 1%nat := demo_rq 950000000 1 ]}
    {[ 0%nat := demo_rt_task 140 0 idle_class {[0%nat]} true; 1%nat := demo_rt_task 140 0 idle_class {[1%nat]} true;
       2%nat := demo_rt_task 120 0 fair_class {[0%nat; 1%nat]} false; 3%nat := demo_rt_task 120 0 fair_class {[0%nat; 1%nat]} false;
       4%nat := demo_rt_task 100 0 fair_class {[0%nat; 1%nat]} false; 5%nat := demo_rt_task 125 0 fair_class {[0%nat; 1%nat]} false ]}
    (RootDomain {[0%nat; 1%nat]} ∅ 0 996147 0) (init_rt_bandwidth 1000000000 950000000)
    {[ 0%nat := MAX_RT_PRIO; 1%nat := MAX_RT_PRIO ]} (Sysctls 1000000 950000 100 true true) {[0%nat; 1%nat]} 0 0
    (kernel_with {[ 0%nat := demo_task 0 true; 1%nat := demo_task 1 true; 2%nat := demo_task 0 false;
                    3%nat := demo_task 0 false; 4%nat := demo_task 0 false; 5%nat := demo_task 0 false ]}).

Definition demo_fw : fw :=
  FairW demo_fbase {[ 0%nat := fresh_fair_rq; 1%nat := fresh_fair_rq ]}
    {[ 0%nat := fresh_entity 0; 1%nat := fresh_entity 0; 2%nat := fresh_entity 0; 3%nat := fresh_entity 0;
       4%nat := fresh_entity (-20); 5%nat := fresh_entity 5 ]} demo_tunables.

Lemma demo_fair_booted : booted_fair demo_fw.
Proof.
  assert (Hd : dom (frs demo_fw) = {[0%nat; 1%nat]}) by (vm_compute; reflexivity).
  assert (H1 : map_Forall (fun t p => exists e x, fes demo_fw !! t = Some e /\ se_on_rq e = false /\ 0 <= weight (se_load e) <= MAX_WEIGHT /\
      tasks (krn (fbase demo_fw)) !! t = Some x /\ tcpu x ∈ dom (frs demo_fw) /\ (class p = fair_class -> on_rq x = false)) (rts (fbase demo_fw))).
  { rewrite Hd. each_entry; try apply map_Forall_empty; eexists _, _; (split; [reflexivity|]); (split; [reflexivity|]); (split; [by vm_compute|]); (split; [reflexivity|]);
      (split; [cbn; set_solver|done]). }
  assert (H2 : map_Forall (fun (t : nat) e => se_on_rq e = false) (fes demo_fw)) by (apply (bool_decide_unpack _); by vm_compute).
  assert (H3 : map_Forall (fun c r => exists p x, rts (fbase demo_fw) !! RtRq.curr r = Some p /\ class p <> fair_class /\
      tasks (krn (fbase demo_fw)) !! RtRq.curr r = Some x /\ tcpu x = c) (rqs (fbase demo_fw))).
  { each_entry; try apply map_Forall_empty; eexists _, _; (split; [reflexivity|]); (split; [done|]); (split; [reflexivity|]); reflexivity. }
  assert (H4 : map_Forall (fun (c : nat) x => x = fresh_fair_rq) (frs demo_fw)) by (each_entry; try apply map_Forall_empty; reflexivity).
  split.
  - rewrite Hd. vm_compute. reflexivity.
  - intros c x Hx. rewrite (H4 c x Hx). by exists zero_cfs_rq.
  - exact H1.
  - exact H2.
  - exact H3.
  - done.
  - apply kernel_with_ok; [|done]. each_entry; try apply map_Forall_empty; done.
Qed.

(** ** Runs of the machine *)

Definition demo_HZ : Z := 1000.
Definition fair_ends {A} (o : outcome fw A) : bool := match o with Ret _ _ => true | _ => false end.
Definition run_fair (o : fair_op) (w : fw) : fw := match fair_exec demo_HZ o w with Ret _ w' => w' | _ => w end.

(** the conditions of the events, as tests *)
Definition member_test (w : fw) (t : nat) (b : bool) : bool :=
  match rts (fbase w) !! t, tasks (krn (fbase w)) !! t with
  | Some p, Some x => bool_decide (class p = fair_class) && Bool.eqb (on_rq x) b
  | _, _ => false
  end.
Definition alien_test (w : fw) (c t : nat) : bool :=
  match rts (fbase w) !! t, tasks (krn (fbase w)) !! t with
  | Some p, Some x => bool_decide (class p <> fair_class) && bool_decide (tcpu x = c)
  | _, _ => false
  end.
Definition off_test (w : fw) (t : nat) : bool := forallb (fun r => bool_decide (RtRq.curr r <> t)) ((map_to_list (rqs (fbase w))).*2).
Definition has {A} (o : option A) : bool := match o with Some _ => true | None => false end.

Definition fair_valid_test (w : fw) (o : fair_op) : bool :=
  let cpu c := has (rqs (fbase w) !! c) in
  match o with
  | FWake me t c => member_test w t false && off_test w t && cpu c && has (rts (fbase w) !! me)
  | FNew t c | FFork c t => member_test w t false && off_test w t && cpu c
  | FState c _ => cpu c
  | FSleep _ c | FTick c | FYield c => match rqs (fbase w) !! c with Some r => member_test w (RtRq.curr r) true | None => false end
  | FSwitch hi lo c => cpu c && match hi with Some t => alien_test w c t | None => true end && alien_test w c lo
  | FYieldTo c t _ => has (rts (fbase w) !! t) && match rqs (fbase w) !! c with
      | Some r => match tasks (krn (fbase w)) !! RtRq.curr r with Some x => on_rq x | None => false end
      | None => false
      end
  | FMove t d => member_test w t true && off_test w t && cpu d
  | FNice t _ => member_test w t true || member_test w t false
  | FClock _ _ => true
  end.

Lemma member_true w t b : member_test w t b = true -> member w t b.
Proof.
  unfold member_test, member. destruct (rts (fbase w) !! t) as [p|]; [|done]. destruct (tasks (krn (fbase w)) !! t) as [x|]; [|done].
  intros [H1%bool_decide_eq_true H2%eqb_prop]%andb_true_iff. by exists p, x.
Qed.
Lemma alien_true w c t : alien_test w c t = true -> alien w c t.
Proof.
  unfold alien_test, alien. destruct (rts (fbase w) !! t) as [p|]; [|done]. destruct (tasks (krn (fbase w)) !! t) as [x|]; [|done].
  intros [H1%bool_decide_eq_true H2%bool_decide_eq_true]%andb_true_iff. by exists p, x.
Qed.
Lemma off_true w t : off_test w t = true -> ~ running w t.
Proof.
  unfold off_test. intros H (c & r & Hr & Ht). rewrite forallb_forall in H. assert (Hin : r ∈ (map_to_list (rqs (fbase w))).*2).
  { apply list_elem_of_fmap. exists (c, r). split; [done|by apply elem_of_map_to_list]. }
  apply list_elem_of_In, H, bool_decide_eq_true in Hin. done.
Qed.
Lemma has_true {A} (o : option A) : has o = true -> is_Some o.
Proof. destruct o; [by eexists|done]. Qed.

Lemma fair_valid_true w o : fair_valid_test w o = true -> fair_valid w o.
Proof.
  destruct o as [me t c|t c|c t|c z|fatal c|hi lo c|c|c|c t p|t d|t nice|n j]; cbn; rewrite ?andb_true_iff; try done.
  - intros [[[H1%member_true H2%off_true] H3%has_true] H4%has_true]. done.
  - intros [[H1%member_true H2%off_true] H3%has_true]. done.
  - intros [[H1%member_true H2%off_true] H3%has_true]. done.
  - apply has_true.
  - destruct (rqs (fbase w) !! c) as [r|]; [|done]. intros H%member_true. by exists r.
  - intros [[H1%has_true H2] H3%alien_true]. split_and!; try done. intros t ->. by apply alien_true.
  - destruct (rqs (fbase w) !! c) as [r|]; [|done]. intros H%member_true. by exists r.
  - destruct (rqs (fbase w) !! c) as [r|]; [|done]. intros H%member_true. by exists r.
  - intros [H1%has_true H2]. split; [done|]. destruct (rqs (fbase w) !! c) as [r|]; [|done].
    destruct (tasks (krn (fbase w)) !! RtRq.curr r) as [x|] eqn:Hx; [|done]. by exists r, x.
  - intros [[H1%member_true H2%off_true] H3%has_true]. done.
  - intros [H|H]%orb_true_iff; eexists; by apply member_true.
Qed.

Fixpoint run_fairs (l : list fair_op) (w : fw) : fw := match l with [] => w | o :: l => run_fairs l (run_fair o w) end.
Fixpoint fairs_test (l : list fair_op) (w : fw) : bool :=
  match l with
  | [] => true
  | o :: l => fair_valid_test w o && fair_ends (fair_exec demo_HZ o w) && fairs_test l (run_fair o w)
  end.

Lemma run_fair_steps l w : fairs_test l w = true -> fair_steps demo_HZ w l (run_fairs l w).
Proof.
  revert w. induction l as [|o l IH]; intros w; cbn [fairs_test run_fairs]; [constructor|].
  intros [[H1%fair_valid_true H2]%andb_true_iff H3]%andb_true_iff. apply (fair_steps_cons _ _ _ (run_fair o w)); [done| |by apply IH].
  unfold run_fair. by destruct (fair_exec demo_HZ o w) as [[]| |].
Qed.

Lemma run_fair_sys l w : fair_sys (see w) -> fairs_test l w = true -> fair_sys (see (run_fairs l w)).
Proof. intros H Hl. exact (fair_steps_inv demo_HZ _ _ _ H (run_fair_steps l w Hl)). Qed.

(** the tasks 2, 3 and 4 wake up, 2 runs and is preempted *)
Definition demo_events : list fair_op :=
  [FNew 2 0; FSwitch None 0 0; FClock 1000000 1; FTick 0; FWake 2 3 0; FClock 9000000 9; FTick 0; FSwitch None 0 0;
   FNice 3 3; FWake 3 4 0; FClock 10000000 10; FTick 0; FSwitch None 0 0; FYield 0; FSwitch None 0 0; FWake 3 5 1; FMove 2 1].
Definition demo_end : fw := run_fairs demo_events demo_fw.
Definition the_fair_rq (w : fw) (c : nat) : fair_rq := default fresh_fair_rq (frs w !! c).
Definition the_entity (w : fw) (t : nat) : sched_entity := default (fresh_entity 0) (fes w !! t).

Lemma demo_end_sys : fair_sys (see demo_end).
Proof. apply run_fair_sys; [exact (booted_fair_sys demo_fw demo_fair_booted)|]. by vm_compute. Qed.

(** the order of a tree that is written out, as a test *)
Fixpoint sorted_test (key : nat -> Z) (l : list nat) : bool :=
  match l with [] => true | t :: l => forallb (fun u => key t <=? key u) l && sorted_test key l end.
Definition timeline_test (base : Z) (es : gmap nat sched_entity) (l : list nat) : bool :=
  sorted_test (vkey base es) l && forallb (fun u => (- 2 ^ 62 <=? vkey base es u) && (vkey base es u <? 2 ^ 62)) l.

Lemma timeline_true base es l : timeline_test base es l = true -> timeline base es l.
Proof.
  intros [H1 H2]%andb_true_iff. split.
  - clear H2. induction l as [|t l IH]; cbn in H1; [constructor|]. apply andb_true_iff in H1 as [H1 H2]. apply by_key_cons. split; [by apply IH|].
    intros u Hu%list_elem_of_In. rewrite forallb_forall in H1. by apply Z.leb_le, H1.
  - intros u Hu%list_elem_of_In. rewrite forallb_forall in H2. specialize (H2 u Hu). apply andb_true_iff in H2 as [?%Z.leb_le ?%Z.ltb_lt]. done.
Qed.

(** ** The properties *)

Section Props.
Context {RL : RtLib} {FL : FairLib} {LL : FairLaws FL} {RB : RbLib}.
Implicit Types (w : fw) (x : fair_rq) (q : cfs_rq) (e f : sched_entity) (s : tunables) (o : fair_op) (c d t u : nat).

(** C8: whatever happens to a machine after boot (tasks of the class are forked,
    wake up, sleep, run, are preempted by the tick or by a task that wakes up,
    yield, move to other CPUs and change their nice value, in any order and with
    any values of the clocks), the next event returns, runs into no invalid
    pointer and no walk to a node that is not there, and the invariants of the run
    queues and of the groups hold afterwards. *)
Theorem fair_no_bug HZ w0 l w o :
  booted_fair w0 -> fair_steps HZ w0 l w -> fair_valid w o ->
  exists w', fair_exec HZ o w = Ret tt w' /\ fair_sys (see w').
Proof.
  intros Hb Hs Hv. pose proof (fair_steps_inv HZ _ _ _ (booted_fair_sys w0 Hb) Hs) as Hi.
  destruct (swp_ends _ _ _ (fair_step HZ w o Hi Hv)) as ([] & w' & E & Hi'). by exists w'.
Qed.

Lemma load_of_weights w l : load_of (f_ents (see w)) l = weights (fes w) l.
Proof.
  unfold load_of, weights. induction l as [|t l IH]; cbn [foldr]; [done|]. rewrite IH. f_equal. unfold wt_of. cbn [f_ents see]. rewrite lookup_fmap.
  by destruct (fes w !! t).
Qed.

Lemma load_nonneg S l : (forall u, u ∈ l -> 0 <= wt_of S u) -> 0 <= load_of S l.
Proof.
  unfold load_of. induction l as [|t l IH]; intros Hu; cbn [foldr]; [lia|]. pose proof (Hu t ltac:(by left)).
  specialize (IH (fun u Hin => Hu u ltac:(by right))). lia.
Qed.
Lemma load_member S l t : t ∈ l -> (forall u, u ∈ l -> 0 <= wt_of S u) -> wt_of S t <= load_of S l.
Proof.
  intros Ht. induction l as [|v l IH]; [by apply elem_of_nil in Ht|]. intros Hu. assert (Hl : forall u, u ∈ l -> 0 <= wt_of S u) by (intros u Hin; apply Hu; by right).
  pose proof (load_nonneg S l Hl) as H0. pose proof (Hu v ltac:(by left)). unfold load_of in *. cbn [foldr].
  apply elem_of_cons in Ht as [->|Ht]; [lia|]. specialize (IH Ht Hl). lia.
Qed.

(** the runnable tasks of the class on a CPU *)
Definition runnable_on w c t : Prop :=
  exists p k, rts (fbase w) !! t = Some p /\ class p = fair_class /\ tasks (krn (fbase w)) !! t = Some k /\ tcpu k = c /\ on_rq k = true.

Lemma queued_runnable w c x t : fair_sys (see w) -> frs w !! c = Some x -> t ∈ cfs_tasks x <-> runnable_on w c t.
Proof.
  intros H Hx. pose proof (fs_ok _ H) as Ho. assert (Hk : f_rqs (see w) !! c = Some (see_rq x)) by (cbn; by rewrite lookup_fmap, Hx). split.
  - intros Ht. destruct (fo_in _ _ Ho c _ t Hk Ht) as [(p & k & Hp & Hcl & Hk' & Hc) (e & He & Hon)].
    pose proof (fs_on _ H t p e k Hp Hcl He Hk') as Hq. apply see_lookup in Hp as (p0 & Hp & <-). exists p0, k. split_and!; try done. congruence.
  - intros (p & k & Hp & Hcl & Hk' & Hc & Hq). assert (Hp' : f_rts (see w) !! t = Some (task_abs p)) by (cbn; by rewrite lookup_fmap, Hp).
    destruct (fo_task _ _ Ho t _ Hp') as (e & _ & He & _). pose proof (fs_on _ H t _ e k Hp' Hcl He Hk') as Hon. rewrite Hq in Hon.
    destruct (fo_out _ _ Ho t e He Hon) as (c' & k' & Hk2 & Hin). destruct (fo_in _ _ Ho c' k' t Hk2 Hin) as [(p2 & y & _ & _ & Hy & Hc') _].
    cbn in Hy. assert (c' = c) as -> by congruence. assert (k' = see_rq x) as -> by congruence. done.
Qed.

(** C9: the run queues are exact.  After any sequence of events, on every CPU the
    list cfs_tasks has each runnable task of the class of this CPU once and no
    other; the tree has the same tasks but for the one that runs, which is cached
    in cfs_rq->curr, and rb_leftmost is its first node; nr_running and
    h_nr_running count the tasks; the weights of the two run queues are the sums
    of the weights of the tasks; and the buddies are queued. *)
Theorem fair_queue_exact HZ w0 l w c x :
  booted_fair w0 -> fair_steps HZ w0 l w -> frs w !! c = Some x ->
  let q := cfs x in
  NoDup (cfs_tasks x) /\ (forall t, t ∈ cfs_tasks x <-> runnable_on w c t) /\
  cfs_curr q = turns (see w) c /\
  inorder (tasks_timeline q) ≡ₚ filter (fun t => cfs_curr q <> Some t) (cfs_tasks x) /\
  cfs_leftmost q = head (inorder (tasks_timeline q)) /\
  cfs_nr_running q = Z.of_nat (length (cfs_tasks x)) /\ h_nr_running q = Z.of_nat (length (cfs_tasks x)) /\
  weight (cfs_load q) = weights (fes w) (cfs_tasks x) /\ weight (rq_load x) = weights (fes w) (cfs_tasks x) /\
  forall t, cfs_next q = Some t \/ cfs_last q = Some t \/ cfs_skip q = Some t -> t ∈ cfs_tasks x.
Proof.
  intros Hb Hs Hx q. pose proof (fair_steps_inv HZ _ _ _ (booted_fair_sys w0 Hb) Hs) as H. pose proof (fs_ok _ H) as Ho.
  assert (Hk : f_rqs (see w) !! c = Some (see_rq x)) by (cbn; by rewrite lookup_fmap, Hx).
  destruct (fo_q _ _ Ho c _ Hk) as [Q1 [Q2 Q2'] Q3 Q4 Q5 Q6 Q7 Q8]. rewrite load_of_weights in Q6, Q7. cbn in *.
  split_and!; try done.
  - intros t. by apply queued_runnable.
  - exact (fo_now _ _ Ho c _ Hk).
  - apply NoDup_Permutation; [done|by apply NoDup_filter|]. intros t. unfold q. rewrite list_elem_of_filter, (Q3 t). tauto.
Qed.

(** C23: the order of the tree.  While the virtual times of a run queue are less
    than 2^62 ns from a base, __enqueue_entity() puts a task behind all tasks
    whose virtual time is not later, and the tree stays in the order of the
    virtual times; so it does when __dequeue_entity() takes a task off. *)
Theorem fair_timeline run w c x base :
  fair_ok run (see w) -> frs w !! c = Some x -> timeline base (fes w) (inorder (tasks_timeline (cfs x))) ->
  (forall t e, fes w !! t = Some e -> in_window base (vruntime e) ->
    exists w' x', __enqueue_entity c t w = Ret tt w' /\ frs w' !! c = Some x' /\ fes w' = fes w /\
      inorder (tasks_timeline (cfs x')) = timeline_insert base (fes w) t (inorder (tasks_timeline (cfs x))) /\
      timeline base (fes w') (inorder (tasks_timeline (cfs x')))) /\
  (forall t, exists w' x', __dequeue_entity c t w = Ret tt w' /\ frs w' !! c = Some x' /\ fes w' = fes w /\
      inorder (tasks_timeline (cfs x')) = filter (fun u => u <> t) (inorder (tasks_timeline (cfs x))) /\
      timeline base (fes w') (inorder (tasks_timeline (cfs x')))).
Proof.
  intros H Hx Ht. assert (Hk : f_rqs (see w) !! c = Some (see_rq x)) by (cbn; by rewrite lookup_fmap, Hx).
  destruct (qo_tree _ _ (fo_q _ _ H c _ Hk)) as [Hn _]. split; [|by intros t; apply dequeue_order].
  intros t e He Hw. apply (enqueue_order w c t x e base); try done. intros u [Hu _]%(qo_mem _ _ (fo_q _ _ H c _ Hk)).
  destruct (fo_in _ _ H c _ u Hk Hu) as [_ (g & Hg & _)]. apply see_lookup in Hg as (g0 & Hg & _). by eexists.
Qed.

(** C24: fairness of the choice.  When no task of the class runs on a CPU and some
    are queued, in the order of their virtual times, pick_next_entity() returns
    one of them, and its virtual time is later than that of any other by no more
    than the wake-up granularity, scaled by the weight of the first task. *)
Theorem fair_pick run w c x base :
  fair_ok run (see w) -> run c = None -> frs w !! c = Some x -> cfs_tasks x <> [] ->
  timeline base (fes w) (inorder (tasks_timeline (cfs x))) ->
  exists t l f w', pick_next_entity c w = Ret (Some t) w' /\ t ∈ cfs_tasks x /\ cfs_leftmost (cfs x) = Some l /\ fes w !! l = Some f /\
    t = choice (tun w) (fes w) (cfs x) l /\
    forall u, u ∈ cfs_tasks x -> vkey base (fes w) t <=
      vkey base (fes w) u + Z.max 0 (s64 (fst (calc_delta_fair (sysctl_sched_wakeup_granularity (tun w)) f))).
Proof.
  intros H Hrun Hx Hne [Hs Hw]. assert (Hk : f_rqs (see w) !! c = Some (see_rq x)) by (cbn; by rewrite lookup_fmap, Hx).
  pose proof (fo_q _ _ H c _ Hk) as Hq. pose proof (fo_now _ _ H c _ Hk) as Hnow. rewrite Hrun in Hnow. cbn in Hnow.
  assert (Hall : forall u, u ∈ inorder (tasks_timeline (cfs x)) <-> u ∈ cfs_tasks x).
  { intros u. pose proof (qo_mem _ _ Hq u) as Hm. cbn in Hm. rewrite Hnow in Hm. rewrite Hm. split; [by intros []|done]. }
  assert (Hent : forall u, u ∈ cfs_tasks x -> is_Some (fes w !! u)).
  { intros u Hu. destruct (fo_in _ _ H c _ u Hk Hu) as [_ (g & Hg & _)]. apply see_lookup in Hg as (g0 & Hg & _). by eexists. }
  destruct (qo_tree _ _ Hq) as [_ Hl]. cbn in Hl. destruct (inorder (tasks_timeline (cfs x))) as [|l ls] eqn:El.
  { destruct (cfs_tasks x) as [|u us]; [done|]. specialize (Hall u). set_solver. }
  assert (Hin : l ∈ cfs_tasks x) by (apply Hall; by left). destruct (Hent l Hin) as [f Hf].
  pose proof (swp_ends _ _ _ (pick_entity_ok run (see w) c _ H Hrun Hk Hne w eq_refl)) as (o & w' & E & t & -> & Ht & _).
  assert (Hch : swp False (pick_next_entity c) w (fun a _ => a = Some (choice (tun w) (fes w) (cfs x) l))).
  { apply (pick_choice w c x l Hx Hl); [by eexists|]. intros u [Hu|[Hu|Hu]]; apply Hent.
    - apply (qo_buddy _ _ Hq). by left.
    - apply (qo_buddy _ _ Hq). right. by left.
    - apply Hall. rewrite <- El. apply head_Some_elem_of in Hu. destruct (rb_after_suffix l (inorder (tasks_timeline (cfs x)))) as [z Hz].
      rewrite Hz, elem_of_app. by right. }
  unfold swp in Hch. rewrite E in Hch. injection Hch as Et. exists t, l, f, w'. split_and!; try done. intros u Hu. pose proof (choice_bound (tun w) (fes w) (cfs x) l f Hf) as Hb.
  rewrite <- Et in Hb. assert (Evl : vr_of (fes w) l = vruntime f) by (unfold vr_of; by rewrite Hf).
  rewrite <- Evl, (s64_sub _ _ base) in Hb by (apply Hw, Hall; done). apply by_key_cons in Hs as [_ Hs]. unfold vkey in *.
  apply Hall in Hu. apply elem_of_cons in Hu as [->|Hu]; [lia|]. specialize (Hs u Hu). lia.
Qed.

(** ** Virtual time *)

(** every pair of the tables is close to an inverse *)
Lemma table_inverse policy prio lw :
  set_load_weight policy prio = Some lw -> Z.abs (weight lw * inverse lw - 2 ^ 32) <= 40 /\ 3 <= weight lw <= MAX_WEIGHT /\ 0 <= inverse lw < 2 ^ 32.
Proof.
  unfold set_load_weight. destruct (policy =? SCHED_IDLE); [intros [= <-]; by vm_compute|].
  destruct (prio - MAX_RT_PRIO <? 0); [done|]. set (i := Z.to_nat (prio - MAX_RT_PRIO)).
  assert (H : Forall (fun p => Z.abs (p.1 * p.2 - 2 ^ 32) <= 40 /\ 3 <= p.1 <= MAX_WEIGHT /\ 0 < p.2 < 2 ^ 32) (zip prio_to_weight prio_to_wmult))
    by (apply (bool_decide_unpack _); by vm_compute).
  destruct (prio_to_weight !! i) as [a|] eqn:Ea; [|done]. destruct (prio_to_wmult !! i) as [b|] eqn:Eb; [|done]. intros [= <-].
  destruct (Forall_lookup_1 _ _ i (a, b) H) as (H1 & H2 & H3); [by apply lookup_zip_Some|]. cbn [fst snd] in H1, H2, H3.
  assert (Ei : inverse (LoadWeight a b) = b) by (unfold inverse, __update_inv_weight; cbn; by rewrite (proj2 (Z.eqb_neq b 0)) by lia).
  rewrite Ei. cbn. lia.
Qed.

(** C26: the accounting of virtual time.  For every nice value and for SCHED_IDLE,
    the virtual time that calc_delta_fair() makes of [delta] ns, the product of
    shifts and table entries, is the quotient delta * 1024 / weight up to a part
    of about 10^-8 and 2 ns, and for nice 0 it is [delta] itself. *)
Theorem fair_charge policy prio e delta :
  set_load_weight policy prio = Some (se_load e) -> 0 <= delta < 2 ^ 54 ->
  let r := fst (calc_delta_fair delta e) in
  let w := weight (se_load e) in
  (w = NICE_0_LOAD -> r = delta) /\
  r * w * 2 ^ 32 <= delta * NICE_0_LOAD * (2 ^ 32 + 40) /\ delta * NICE_0_LOAD * (2 ^ 32 - 40) * (2 ^ 31 - 1) <= (r + 1) * w * 2 ^ 63.
Proof.
  intros Hs Hd r w. destruct (table_inverse policy prio _ Hs) as (H1 & H2 & H3). fold w in H1, H2. unfold r, calc_delta_fair, NICE_0_LOAD in *. fold w.
  destruct (Z.eqb_spec w 1024) as [Ew|Ew]; cbn [negb fst].
  { rewrite Ew. split; [done|]. lia. }
  unfold MAX_WEIGHT in H2. destruct (calc_delta_raw delta 1024 (se_load e)) as (v & -> & Hv & Hu & Hl); [lia|lia|done|nia|]. cbn [fst].
  split; [done|]. set (i := inverse (se_load e)) in *. split; [nia|].
  assert (delta * 1024 * (2 ^ 32 - 40) <= delta * 1024 * i * w) by nia. nia.
Qed.

(** C27: the clock of a run queue.  update_min_vruntime() sets min_vruntime to the
    least virtual time among the running task and the first one in the tree,
    unless that is in the past: the clock never goes back, and it does not pass a
    task that was not behind it, as long as the virtual times are less than
    2^62 ns from it and the tree is in order. *)
Theorem fair_clock run w c x :
  let base := cfs_min_vruntime (cfs x) in
  fair_ok run (see w) -> frs w !! c = Some x -> timeline base (fes w) (inorder (tasks_timeline (cfs x))) ->
  (forall t, cfs_curr (cfs x) = Some t -> in_window base (vr_of (fes w) t)) ->
  exists w' m, update_min_vruntime c w = Ret tt w' /\ frs w' !! c = Some (set_cfs (set_cfs_min_vruntime m (cfs x)) x) /\
    0 <= ahead base m /\
    (forall t, t ∈ inorder (tasks_timeline (cfs x)) \/ cfs_curr (cfs x) = Some t -> ahead base m <= Z.max 0 (vkey base (fes w) t)) /\
    (ahead base m = 0 \/ exists t, (t ∈ inorder (tasks_timeline (cfs x)) \/ cfs_curr (cfs x) = Some t) /\ ahead base m = vkey base (fes w) t).
Proof.
  intros base H Hx [Hs Hw] Hcw. assert (Hk : f_rqs (see w) !! c = Some (see_rq x)) by (cbn; by rewrite lookup_fmap, Hx).
  pose proof (fair_at _ _ _ _ H Hk) as Ha. destruct (ac_ok _ _ _ Ha) as [_ Hl]. cbn in Hl.
  assert (Hent : forall t, is_Some (f_ents (see w) !! t) -> is_Some (fes w !! t)) by (intros t [g Hg]; apply see_lookup in Hg as (e & He & _); by eexists).
  assert (Hfront : forall t, front (cfs x) t -> is_Some (fes w !! t) /\ in_window base (vr_of (fes w) t)).
  { intros t [Ht|Ht]; [split; [by apply Hent, (ac_run _ _ _ Ha)|auto]|]. rewrite Hl in Ht. apply head_Some_elem_of in Ht.
    split; [by apply Hent, (ac_tree _ _ _ Ha)|auto]. }
  destruct (swp_ends _ _ _ (min_vruntime_spec w c x Hx Hfront)) as ([] & w' & E & m & Hm & H0 & Hle & Hex). fold base in H0, Hle, Hex.
  exists w', m. split_and!; try done.
  - intros t [Ht|Ht]; [|apply Hle; by left]. destruct (inorder (tasks_timeline (cfs x))) as [|v l] eqn:El; [by apply elem_of_nil in Ht|].
    assert (Hv : ahead base m <= Z.max 0 (vkey base (fes w) v)) by (apply Hle; by right).
    apply by_key_cons in Hs as [_ Hs]. apply elem_of_cons in Ht as [->|Ht]; [done|]. specialize (Hs t Ht). lia.
  - destruct Hex as [Hex|(t & [Ht|Ht] & Et)]; [by left|right; exists t; auto|]. right. exists t. rewrite Hl in Ht. apply head_Some_elem_of in Ht. auto.
Qed.

(** placing a task.  A task that wakes up gets at most half a latency (a whole
    one without GENTLE_FAIR_SLEEPERS) before the clock of its run queue, however
    long it slept, and one that was ahead of that stays where it is; a new task
    starts at least one slice behind the clock, if START_DEBIT is set.  The
    virtual times are less than 2^62 ns from the clock. *)
Theorem fair_place s q e :
  in_window (cfs_min_vruntime q) (vruntime e) -> 0 <= sysctl_sched_latency s < 2 ^ 32 -> 0 <= debit s q e < 2 ^ 62 ->
  let base := cfs_min_vruntime q in
  ahead base (vruntime (snd (place_entity s q e false))) = Z.max (ahead base (vruntime e)) (- credit s) /\
  ahead base (vruntime (snd (place_entity s q e true))) = Z.max (ahead base (vruntime e)) (debit s q e).
Proof. intros Hw Hs Hd base. split; [by apply place_woken|by apply place_new]. Qed.

(** C25: the slices of a run queue.  In any state of the machine, the slices that
    sched_slice() gives to the queued tasks of a CPU add up to no more than the
    period of __sched_period(), and to no less than the period but for the
    rounding: one ns for each task and the part that the inverse of the total
    weight, an integer, loses.  The inverse is not cached, or as
    __update_inv_weight() left it, and the total weight fits in 32 bits. *)
Theorem fair_slices run w c x s :
  fair_ok run (see w) -> frs w !! c = Some x -> plain (cfs_load (cfs x)) ->
  let P := __sched_period s (cfs_nr_running (cfs x)) in
  let W := weight (cfs_load (cfs x)) in
  0 <= P < 2 ^ 64 ->
  slices s (cfs x) (fes w) (cfs_tasks x) <= P /\
  P * (2 ^ 32 - W) * (2 ^ 31 - 1) <= (slices s (cfs x) (fes w) (cfs_tasks x) + Z.of_nat (length (cfs_tasks x))) * 2 ^ 63.
Proof.
  intros H Hx Hp P W HP. assert (Hk : f_rqs (see w) !! c = Some (see_rq x)) by (cbn; by rewrite lookup_fmap, Hx).
  pose proof (fo_q _ _ H c _ Hk) as Hq. pose proof (fair_roomy _ _ _ _ H Hk) as [Hr Hr']. cbn in Hr.
  assert (HW : W = weights (fes w) (cfs_tasks x)) by (rewrite <- load_of_weights; exact (qo_weight _ _ Hq)).
  assert (Hn : 0 <= cfs_nr_running (cfs x) < 2 ^ 32) by (pose proof (qo_nr _ _ Hq) as Hn; cbn in Hn; lia).
  destruct (slices_period s (cfs x) (fes w) (cfs_tasks x) Hn HP Hp) as [S1 S2].
  { intros t Ht. destruct (fo_in _ _ H c _ t Hk Ht) as [_ (g & Hg & Hon)]. apply see_lookup in Hg as (e & He & <-). exists e. split; [done|]. split; [done|].
    pose proof (Hr' t Ht) as Hb. pose proof (load_member (f_ents (see w)) (cfs_tasks x) t Ht (fun u Hu => proj1 (Hr' u Hu))) as Hle. rewrite load_of_weights, <- HW in Hle.
    unfold wt_of in Hb, Hle. cbn [f_ents see] in Hb, Hle. rewrite lookup_fmap, He in Hb, Hle. cbn in Hb, Hle. split; [apply Hb|exact Hle]. }
  fold P W in S1, S2. rewrite <- HW in S1, S2. destruct Hp as [Hp0 _]. fold W in Hp0. split; [nia|]. nia.
Qed.

(** ** Averages *)

Lemma update_avg_rest now a b :
  load_avg_contrib (snd (__update_entity_runnable_avg now a b)) = load_avg_contrib a /\ decay_count (snd (__update_entity_runnable_avg now a b)) = decay_count a.
Proof. unfold __update_entity_runnable_avg, accrue. by repeat (case_match; subst; cbn; try done). Qed.

Lemma update_load_entity now q e b :
  snd (update_entity_load_avg now q e b) =
  let '(decayed, a) := __update_entity_runnable_avg now (se_avg e) (se_on_rq e) in
  if (decayed : bool) then __update_task_entity_contrib (set_se_avg a e) else set_se_avg a e.
Proof.
  unfold update_entity_load_avg, __update_entity_load_avg_contrib. destruct (__update_entity_runnable_avg now (se_avg e) (se_on_rq e)) as [[] a]; cbn [negb]; [|done].
  destruct b; cbn [negb]; [|done]. by destruct (se_on_rq (__update_task_entity_contrib (set_se_avg a e))).
Qed.

Lemma update_load_decay_count now q e b : decay_count (se_avg (snd (update_entity_load_avg now q e b))) = decay_count (se_avg e).
Proof.
  rewrite update_load_entity. destruct (update_avg_rest now (se_avg e) (se_on_rq e)) as [_ H].
  by destruct (__update_entity_runnable_avg now (se_avg e) (se_on_rq e)) as [[] a].
Qed.

(** C28: the load of a task.  The averages of an entity stay in their bounds
    whatever the clock does: the runnable time is at most the time, which stays
    below 48 * 1024.  So for every nice value but -20 the contribution of a task to
    the load, once it is computed, is the share of its weight for the time it was
    runnable, and no more than the weight. *)
Theorem fair_load_avg now q e b :
  avg_ok (se_avg e) -> 0 <= weight (se_load e) <= 87381 ->
  let e' := snd (update_entity_load_avg now q e b) in
  let a := se_avg e' in
  avg_ok a /\ (load_avg_contrib a = load_avg_contrib (se_avg e) \/
    load_avg_contrib a = runnable_avg_sum a * weight (se_load e) / (runnable_avg_period a + 1) /\ 0 <= load_avg_contrib a <= weight (se_load e)).
Proof.
  intros Ha Hw e'. unfold e'. rewrite update_load_entity. pose proof (update_avg_ok now (se_avg e) (se_on_rq e) Ha) as Ha'.
  destruct (update_avg_rest now (se_avg e) (se_on_rq e)) as [Hc _].
  destruct (__update_entity_runnable_avg now (se_avg e) (se_on_rq e)) as [[] a]; cbn in *; [|split; [done|by left]].
  destruct Ha' as [H1 H2]. unfold AVG_BOUND in H2. rewrite !u32_id by nia. split; [by split|]. right. split; [done|].
  split; [apply Z.div_pos; nia|]. apply Z.div_le_upper_bound; nia.
Qed.


(** an error of the code.  yield_to() is declared to return a bool: when
    both run queues have only one task, so that there is nothing to yield to, it
    does nothing, and the caller gets [true], as if the task had been boosted,
    not the -ESRCH that its comment promises. *)
Theorem fair_yield_to_srch w c d t k r r' preempt :
  rqs (fbase w) !! c = Some r -> tasks (krn (fbase w)) !! t = Some k -> tcpu k = d -> rqs (fbase w) !! d = Some r' ->
  nr_running r = 1 -> nr_running r' = 1 -> yield_to c t preempt w = Ret true w.
Proof.
  intros Hr Hk Hd Hr' H1 H2. destruct w as [b fr fe tn]. unfold yield_to, on_base, cpu_of, cpu_rq, task_cpu, lift_k, get_task, deref, mbind, M_bind. cbn in *.
  rewrite Hr. cbn. unfold on_base, lift_k, get_task, deref, mbind, M_bind. cbn. rewrite Hk. cbn. rewrite Hd.
  replace (set_krn (krn b) b) with b by by destruct b. rewrite Hr'. cbn. by rewrite H1, H2.
Qed.

(** ** The choice of a CPU *)

(** C29: where a task goes.  select_task_rq() for a task of the class returns, with
    fuel for one turn more than there are CPUs at each level of the domains, a
    CPU that is online and that the task may use, whatever the loads, the flags
    and the domains are.  It changes nothing, unless no CPU that the task may use
    is online and active: then the affinity of the task is widened until there is
    one, which needs one possible CPU that is. *)
Theorem fair_select topology node active possible cpuset depth fuel w this t prev sd_flag sync p :
  fair_sys (see w) -> machine_ok topology depth w -> rts (fbase w) !! t = Some p -> class p = fair_class ->
  this ∈ cpus w -> prev ∈ cpus w -> ((size (cpus w) + 1) * S depth <= fuel)%nat -> usable active w possible <> ∅ ->
  exists i w', select_task_rq topology node active possible cpuset fuel this t prev sd_flag sync w = Ret i w' /\
    i ∈ cpu_online_mask (fbase w) /\ (exists p', rts (fbase w') !! t = Some p' /\ i ∈ cpus_allowed p') /\
    (usable active w (cpus_allowed p) <> ∅ -> w' = w).
Proof.
  intros H HM Hp Hc Ht Hprev Hfuel Hpos. pose proof (fs_ok _ H) as Ho. assert (Hp' : f_rts (see w) !! t = Some (task_abs p)) by (cbn; by rewrite lookup_fmap, Hp).
  assert (Hent : forall u, is_Some (f_rts (see w) !! u) -> is_Some (fes w !! u)).
  { intros u [q Hq]. destruct (fo_task _ _ Ho u q Hq) as (e & _ & He & _). apply see_lookup in He as (e0 & He & _). by eexists. }
  destruct (fo_task _ _ Ho t _ Hp') as (e & y & He & _ & Hy & Hd).
  assert (Hcy : tcpu y ∈ cpus w) by (rewrite <- (mo_frs _ _ _ HM); apply elem_of_dom; destruct Hd as [k Hk]; apply see_lookup in Hk as (x & Hx & _); by eexists).
  assert (Hme : forall r, rqs (fbase w) !! this = Some r -> is_Some (fes w !! RtRq.curr r)).
  { intros r Hr. apply Hent. destruct (fo_curr _ _ Ho this (RtRq.curr r)) as (q & z & Hq & _); [by apply curr_view|]. by eexists. }
  destruct (swp_ends _ _ _ (select_ok node active possible cpuset topology depth w fuel this t prev sd_flag sync p y HM Hp Hc Hy Hcy Ht Hprev (Hent t (ex_intro _ _ Hp')) Hme Hfuel Hpos))
    as (i & w' & E & [Hi Hw] & Hsame). by exists i, w'.
Qed.

(** C30: balancing a new task.  find_idlest_group() returns nothing or, of the
    groups of the domain without the CPU [this] and with a CPU the task may use,
    one with the least load in proportion to its power; find_idlest_cpu() then
    returns the least loaded CPU of the group that the task may use. *)
Theorem fair_idlest topology depth w (d : sched_domain) t this sd_flag p :
  machine_ok topology depth w -> domain_ok (cpus w) d -> rts (fbase w) !! t = Some p ->
  exists og, find_idlest_group topology d t this sd_flag w = Ret og w /\ forall g, og = Some g ->
    g ∈ groups d /\ remote (cpus_allowed p) this g /\
    (forall h, h ∈ groups d -> remote (cpus_allowed p) this h ->
      avg_load topology w this (load_idx d sd_flag) g <= avg_load topology w this (load_idx d sd_flag) h) /\
    exists i, find_idlest_cpu g t this w = Ret (Some i) w /\ i ∈ group_cpus g ∩ cpus_allowed p /\
      forall j, j ∈ group_cpus g ∩ cpus_allowed p -> load_at w i <= load_at w j.
Proof.
  intros HM Hd Hp. destruct (reads_ends _ _ _ (find_idlest_group_reads topology depth w HM d t this sd_flag p Hp Hd)) as (o & E & Ho).
  exists o. split; [done|]. intros g Hg. destruct (Ho g Hg) as (Hin & [Hne Hr] & Hmin). split_and!; try done.
  destruct (dk_group _ _ Hd g Hin) as [Hsub _]. destruct (reads_ends _ _ _ (find_idlest_cpu_reads topology depth w HM g t this p Hp Hsub)) as (a & Ea & Ha).
  destruct a as [i|]; cbn in Ha.
  - destruct Ha as (Hi & Hle & _). exists i. split_and!; [done|by apply elem_of_for_each_cpu|]. intros j Hj. by apply Hle, elem_of_for_each_cpu.
  - exfalso. apply set_choose_L in Hne as [j Hj]. apply elem_of_for_each_cpu in Hj. rewrite Ha in Hj. by apply elem_of_nil in Hj.
Qed.
End Props.

(** ** The properties at work *)

Lemma fair_no_bug_witness : exists w', fair_exec demo_HZ (FTick 0) demo_end = Ret tt w' /\ fair_sys (see w').
Proof.
  apply (fair_no_bug demo_HZ demo_fw demo_events); [exact demo_fair_booted|apply run_fair_steps; by vm_compute|].
  apply fair_valid_true. by vm_compute.
Defined.

Lemma fair_queue_exact_witness :
  let x := the_fair_rq demo_end 1 in
  cfs_tasks x = [2%nat; 5%nat] /\ weight (cfs_load (cfs x)) = weights (fes demo_end) (cfs_tasks x).
Proof.
  split; [by vm_compute|].
  destruct (fair_queue_exact demo_HZ demo_fw demo_events demo_end 1 (the_fair_rq demo_end 1) demo_fair_booted) as (_ & _ & _ & _ & _ & _ & _ & H & _);
    [apply run_fair_steps; by vm_compute|by vm_compute|exact H].
Defined.

Lemma fair_timeline_witness : exists w' x', __enqueue_entity 1 3 demo_end = Ret tt w' /\ frs w' !! 1%nat = Some x' /\
  inorder (tasks_timeline (cfs x')) = [5%nat; 3%nat; 2%nat].
Proof.
  set (base := cfs_min_vruntime (cfs (the_fair_rq demo_end 1))).
  destruct (fair_timeline (turns (see demo_end)) demo_end 1 (the_fair_rq demo_end 1) base (fs_ok _ demo_end_sys)) as [H _];
    [by vm_compute|by apply timeline_true; vm_compute|].
  destruct (H 3%nat (the_entity demo_end 3)) as (w' & x' & E & Hx & _ & Hi & _); [by vm_compute|by vm_compute|].
  exists w', x'. split; [done|]. split; [done|]. rewrite Hi. by vm_compute.
Defined.

Lemma fair_pick_witness : exists w', pick_next_entity 1 demo_end = Ret (Some 5%nat) w' /\
  vkey 0 (fes demo_end) 5 <= vkey 0 (fes demo_end) 2 + 3130434.
Proof.
  destruct (fair_pick (turns (see demo_end)) demo_end 1 (the_fair_rq demo_end 1) 0 (fs_ok _ demo_end_sys)) as (t & l & f & w' & E & _ & Hl & Hf & Et & Hu);
    [by vm_compute|by vm_compute|by vm_compute|by apply timeline_true; vm_compute|].
  assert (Hl5 : Some l = Some 5%nat) by (rewrite <- Hl; by vm_compute). injection Hl5 as ->.
  assert (t = 5%nat) as -> by (rewrite Et; by vm_compute).
  assert (f = the_entity demo_end 5) as -> by (apply (inj Some); rewrite <- Hf; by vm_compute).
  exists w'. split; [exact E|]. specialize (Hu 2%nat ltac:(vm_compute; by left)). by vm_compute in Hu |- *.
Defined.

Lemma fair_charge_witness : let r := fst (calc_delta_fair 4000000 (fresh_entity 5)) in
  r = 12226865 /\ r * 335 * 2 ^ 32 <= 4000000 * 1024 * (2 ^ 32 + 40).
Proof.
  split; [by vm_compute|].
  destruct (fair_charge SCHED_OTHER (NICE_TO_PRIO 5) (fresh_entity 5) 4000000) as (_ & H & _); [by vm_compute|by split|exact H].
Defined.

Lemma fair_clock_witness : exists w' m, update_min_vruntime 1 demo_end = Ret tt w' /\
  0 <= ahead (cfs_min_vruntime (cfs (the_fair_rq demo_end 1))) m.
Proof.
  destruct (fair_clock (turns (see demo_end)) demo_end 1 (the_fair_rq demo_end 1) (fs_ok _ demo_end_sys)) as (w' & m & E & _ & H & _);
    [by vm_compute|by apply timeline_true; vm_compute|intros t Ht; by vm_compute in Ht|exists w', m; exact (conj E H)].
Defined.

Lemma fair_place_witness : let q := cfs (the_fair_rq demo_end 0) in
  ahead (cfs_min_vruntime q) (vruntime (snd (place_entity demo_tunables q (set_vruntime (u64 (- 10 ^ 12)) (fresh_entity 0)) false))) = -3000000.
Proof.
  set (q := cfs (the_fair_rq demo_end 0)). set (e := set_vruntime (u64 (- 10 ^ 12)) (fresh_entity 0)).
  destruct (fair_place demo_tunables q e) as [H _]; [by vm_compute|by vm_compute|by vm_compute|].
  cbv zeta in *. rewrite H. by vm_compute.
Defined.

Lemma fair_slices_witness : let x := the_fair_rq demo_end 1 in
  slices demo_tunables (cfs x) (fes demo_end) [2%nat; 5%nat] = 5999999 /\
  slices demo_tunables (cfs x) (fes demo_end) (cfs_tasks x) <= __sched_period demo_tunables 2.
Proof.
  split; [by vm_compute|].
  destruct (fair_slices (turns (see demo_end)) demo_end 1 (the_fair_rq demo_end 1) demo_tunables (fs_ok _ demo_end_sys)) as [H _];
    [by vm_compute|split; [by vm_compute|left; by vm_compute]|by vm_compute|].
  replace 2 with (cfs_nr_running (cfs (the_fair_rq demo_end 1))) by (by vm_compute). exact H.
Defined.

Lemma fair_load_avg_witness :
  let e := set_se_on_rq true (set_se_avg (SchedAvg 5859 5859 0 0 1023) (fresh_entity (-19))) in
  load_avg_contrib (se_avg (snd (update_entity_load_avg 4000000 zero_cfs_rq e true))) <= 71755.
Proof.
  set (e := set_se_on_rq true (set_se_avg (SchedAvg 5859 5859 0 0 1023) (fresh_entity (-19)))).
  destruct (fair_load_avg 4000000 zero_cfs_rq e true) as [_ [H|[_ H]]]; [by split; vm_compute|by vm_compute| |]; cbv zeta in *.
  - rewrite H. by vm_compute.
  - eapply Z.le_trans; [apply H|]. by vm_compute.
Defined.

Definition the_rq (w : fw) (c : nat) : rq := default (demo_rq 0 0) (rqs (fbase w) !! c).
Definition the_task (w : fw) (t : nat) : task_struct := default (demo_task 0 false) (tasks (krn (fbase w)) !! t).

(** tasks 2 and 3 run on CPU 0; task 3 sleeps and wakes up within a millisecond,
    and is moved to CPU 1 *)
Definition stale_events : list fair_op :=
  [FNew 2 0; FNew 3 0; FSwitch None 0 0; FSwitch None 0 0; FClock 1100000 1; FTick 0; FState 0 1; FSleep false 0; FSwitch None 0 0].
Definition stale_end : fw := run_fairs stale_events demo_fw.
Definition stale_woken : fw := run_fairs [FClock 1110000 1; FWake 2 3 0] stale_end.


(** two tasks of the class, each alone on its CPU *)
Definition lone_events : list fair_op := [FNew 2 0; FSwitch None 0 0; FNew 3 1; FSwitch None 1 1].
Definition lone_end : fw := run_fairs lone_events demo_fw.
Lemma fair_yield_to_srch_witness : yield_to 0 3 true lone_end = Ret true lone_end.
Proof.
  apply (fair_yield_to_srch lone_end 0 1 3 (the_task lone_end 3) (the_rq lone_end 0) (the_rq lone_end 1) true); by vm_compute.
Defined.

(** a task of nice -20 runs for two seconds on a CPU with one tick a second *)
Definition overflow_events : list fair_op :=
  [FNew 4 0; FSwitch None 0 0; FClock 1000000000 1000; FTick 0; FClock 2000000000 2000; FTick 0].

(** C37: an error of the code.  The product in __update_task_entity_contrib() has
    32 bits, and the weight of nice -20 times the runnable time does not fit when
    a period has just been completed: with one tick per second, as on a CPU
    without periodic ticks, a task of nice -20 that runs all the time counts for
    115 of its weight of 88761, and not for the 88759 that the fraction gives. *)
Theorem fair_contrib_overflow :
  exists w e, fair_steps demo_HZ demo_fw overflow_events w /\ fes w !! 4%nat = Some e /\ weight (se_load e) = 88761 /\
    avg_ok (se_avg e) /\ runnable_avg_sum (se_avg e) = runnable_avg_period (se_avg e) /\
    runnable_avg_sum (se_avg e) * weight (se_load e) / (runnable_avg_period (se_avg e) + 1) = 88759 /\
    load_avg_contrib (se_avg e) = 115.
Proof.
  exists (run_fairs overflow_events demo_fw), (the_entity (run_fairs overflow_events demo_fw) 4).
  split; [apply run_fair_steps; by vm_compute|]. split_and!; by vm_compute.
Qed.

(** one domain with the two CPUs *)
Definition demo_domain : sched_domain :=
  SchedDomain [SchedGroup {[0%nat]} 1024; SchedGroup {[1%nat]} 1024] 125 0 0 (1 + 4 + 8 + 16 + 32) 2 {[0%nat; 1%nat]}.
Definition demo_cpu : cpu_topology := CpuTopology [demo_domain] 1 2 0 [0; 0; 0; 0; 0] 1024 [].
Definition demo_topology : gmap nat cpu_topology := {[ 0%nat := demo_cpu; 1%nat := demo_cpu ]}.

(** before task 5 wakes up: CPU 1 is idle *)
Definition demo_mid : fw := run_fairs (take 15 demo_events) demo_fw.
Lemma demo_mid_sys : fair_sys (see demo_mid).
Proof. apply run_fair_sys; [exact (booted_fair_sys demo_fw demo_fair_booted)|]. by vm_compute. Qed.

Lemma demo_cpus : cpus demo_mid = {[0%nat; 1%nat]}.
Proof. by vm_compute. Qed.

Lemma demo_domain_ok : domain_ok (cpus demo_mid) demo_domain.
Proof.
  rewrite demo_cpus. split; [|by vm_compute|by vm_compute]. intros g Hg. repeat (apply elem_of_cons in Hg as [->|Hg]; [cbn; split; [set_solver|lia]|]). by apply elem_of_nil in Hg.
Qed.

Lemma demo_machine_ok : machine_ok demo_topology 1 demo_mid.
Proof.
  assert (Hl : map_Forall (fun (c : nat) x => 0 <= runnable_load_avg (cfs x) < ULONG_MAX) (frs demo_mid)) by (apply (bool_decide_unpack _); by vm_compute).
  split; [by vm_compute| |exact Hl]. intros c Hc. exists demo_cpu. rewrite demo_cpus in Hc. split.
  - apply elem_of_union in Hc as [->%elem_of_singleton| ->%elem_of_singleton]; by vm_compute.
  - split; [intros d ->%list_elem_of_singleton; exact demo_domain_ok|repeat constructor|cbn; lia|done].
Qed.

Lemma fair_select_witness : exists i w',
  select_task_rq demo_topology (fun _ => None) {[0%nat; 1%nat]} {[0%nat; 1%nat]} (fun _ => ∅) 6 0 2 1 SD_BALANCE_WAKE true demo_mid = Ret i w' /\
  i ∈ cpu_online_mask (fbase demo_mid).
Proof.
  destruct (fair_select demo_topology (fun _ => None) {[0%nat; 1%nat]} {[0%nat; 1%nat]} (fun _ => ∅) 1 6 demo_mid 0 2 1 SD_BALANCE_WAKE true
    (default (demo_rt_task 0 0 idle_class ∅ false) (rts (fbase demo_mid) !! 2%nat)) demo_mid_sys demo_machine_ok) as (i & w' & E & Hi & _);
    [by vm_compute|by vm_compute|rewrite demo_cpus; set_solver|rewrite demo_cpus; set_solver|rewrite demo_cpus; vm_compute; lia|by vm_compute|].
  exists i, w'. exact (conj E Hi).
Defined.

Lemma fair_idlest_witness : find_idlest_group demo_topology demo_domain 2 0 SD_BALANCE_FORK demo_mid = Ret (Some (SchedGroup {[1%nat]} 1024)) demo_mid /\
  exists i, find_idlest_cpu (SchedGroup {[1%nat]} 1024) 2 0 demo_mid = Ret (Some i) demo_mid.
Proof.
  assert (E0 : find_idlest_group demo_topology demo_domain 2 0 SD_BALANCE_FORK demo_mid = Ret (Some (SchedGroup {[1%nat]} 1024)) demo_mid) by by vm_compute.
  split; [exact E0|].
  destruct (fair_idlest demo_topology 1 demo_mid demo_domain 2 0 SD_BALANCE_FORK
    (default (demo_rt_task 0 0 idle_class ∅ false) (rts (fbase demo_mid) !! 2%nat)) demo_machine_ok demo_domain_ok) as (o & E & Ho); [by vm_compute|].
  rewrite E0 in E. apply Ret_inj in E as [<- _]. destruct (Ho _ eq_refl) as (_ & _ & _ & i & Ei & _). exists i. exact Ei.
Defined.
